(* ===== verification/_CoqProject ===== *)
-Q . S2P
Prelude.v
Div64.v
SpllHw.v
SpllCommon.v
SpllHelper.v
SpllMain.v
SpllPtracker.v
SpllExternal.v
SoftPll.v
Printf.v
Util.v
PpsGen.v
Bytes.v
Minic.v
Net.v
Tasks.v
Ipv4.v
Event.v
Sdbfs.v
Storage.v
SfpDb.v
SdbFormat.v
InitScript.v
Shell.v
Boot.v
CmdIp.v
Lldp.v
NetCon.v
Latency.v
W1.v
W1Temp.v
W1Hw.v
Snmp.v
SnmpTable.v
SnmpMib.v
SnmpSet.v
SnmpAgent.v
SnmpPoll.v
SnmpTypes.v
