(* ===== verification/Prelude.v ===== *)
(** Verification of wrpc-sw, the firmware of the White Rabbit PTP core.

    * The program

    wrpc-sw runs on a small soft CPU (lm32 or RISC-V) inside an FPGA.  It
    disciplines the clocks of a White Rabbit node with a digital PLL fed by
    interrupts (softpll/), keeps the node's time in a PPS generator
    (dev/pps_gen.c), exchanges timestamped Ethernet frames through a mini-NIC
    (dev/minic.c), hands them to sockets (lib/net.c) of the PTP engine and of
    a few IPv4 services (lib/ipv4.c, udp.c, icmp.c, arp.c, bootp.c), and runs
    all of this from a cooperative task loop (lib/wrc-tasks.c) with events
    between the parts (lib/event.c).  Calibration data, the MAC address, the
    SFP database and a start-up script are files of a small file system in
    flash (dev/sdbfs.c, dev/storage*.c); a shell on the console (shell/shell.c)
    runs that script and the commands of the user.  Console output and parsing
    use pp_printf/ and lib/util.c.

    * The files and what they model

    - Prelude.v: machine integers with their wrap-around ([u8] ... [s64]),
      record update, the state monad [M W] of code that touches the hardware
      [W], its weakest preconditions [ensures], arrays [aget]/[aset], the
      tactics ([inrange]) and the hint database of the library.
    - Div64.v: pp_printf/div64.c and the 64-bit division of lib/util.c.
    - SpllHw.v: the configuration of a board (class [Board], with the laws
      [BoardOk]), the registers of the SoftPLL, the hardware as a class
      [SpllHW] with laws [SpllLaws] and, for the tag FIFO, [SpllFifoLaws] (tags
      arrive at any time, also inside the interrupt handler), simulated
      instances of both, and the accessors.
    - SpllCommon.v ([Module Pi], [Module Ld]): the PI regulator and the lock
      detector of softpll/spll_common.c.
    - SpllHelper.v, SpllMain.v, SpllPtracker.v, SpllExternal.v: the helper PLL,
      the main PLL, the phase trackers and the external reference with its
      alignment state machine (softpll/spll_*.c).
    - SoftPll.v: softpll/softpll_ng.c, the record [softpll_state], the
      sequencer, the interrupt handler, initialisation, the auxiliary clocks
      and the API.
    - PpsGen.v: dev/pps_gen.c; the running counter is the class [PpsHW] with
      the laws [PpsLaws].
    - Bytes.v: memory as byte lists and the byte order of the CPU (class
      [Endian]; every theorem holds for both).
    - Minic.v: dev/minic.c; the FIFOs are the class [MinicHW] with [MinicLaws].
    - Net.v: lib/net.c and dev/netif.c; the record [net_state] holds the socket
      table, the static socket objects and the buffers of [netif_poll].
    - Tasks.v: lib/wrc-tasks.c; a job is a computation on the rest of the
      system.
    - Ipv4.v: the IPv4 services on top of Net.v, Tasks.v and PpsGen.v.
    - Event.v: lib/event.c.
    - Printf.v ([Module Full], [Module Xint]): pp_printf; Util.v: lib/util.c.
    - Sdbfs.v: dev/sdbfs.c and dev/storage.c; the device is the class [Flash]
      with the laws [FlashLaws]: its [FlashObs] says in which units it is erased,
      within which pages it is written and whether bytes must be erased before
      they are written.  The simulated devices are [flash_sim] (erased by
      bytes), [spi_sim] (sectors and pages, as behind dev/spi_flash.c) and
      [eeprom_sim] (written over).  SdbFormat.v has the theorem about
      formatting.
    - Storage.v: dev/storage-cal.c and dev/storage-mac.c; SfpDb.v:
      dev/storage-sfp.c; InitScript.v: dev/storage-init.c.  The record
      [storage] holds their static variables.
    - Shell.v: shell/shell.c; a command is a function of its arguments and of
      the shell.  The shell reads its script through the interface [InitStore],
      whose laws Boot.v states and discharges with InitScript.

    - CmdIp.v: shell/cmd_ip.c; Lldp.v: lib/lldp.c, the PDU as a buffer with
      checked stores; NetCon.v: lib/netconsole.c with its command and the
      console devices of dev/console.c; Latency.v: lib/latency.c.
    - W1.v: dev/w1.c, the 1-Wire bus, on the interface [W1Bus] with the laws
      [W1Laws]; W1Hw.v: dev/w1-hw.c, the master of the FPGA ([OwmHW],
      [OwmLaws]), which implements it; W1Temp.v: dev/w1-temp.c.

    - Snmp.v: the SNMP agent, lib/snmp.c: packets, groups, tables and the
      answer; the monad [P W] of code that may leave its buffer ([None]).  The
      interface [serves] is what [snmp_respond] needs of a branch; groups
      discharge it in Snmp.v, tables in SnmpTable.v.  SnmpMib.v has the objects,
      with the rest of the firmware as the class [SnmpEnv]; SnmpSet.v the SET
      requests; SnmpAgent.v the agent with these objects and malformed packets;
      SnmpPoll.v the task, on top of Ipv4.v; SnmpTypes.v what no packet changes.

    A definition has the name of the C function, struct or macro it
    translates.  C state is passed explicitly; pointers to static objects are
    names of those objects; a null pointer, and a loop of the model that ran
    out of fuel, is [None].  Integers are [Z] with each conversion written out;
    where C leaves signed overflow undefined the wrap-around of the two CPUs is
    used, and the theorems that depend on its absence prove it.  The memory
    behind a pointer is a list that includes what follows the buffer, so that
    an access past its end is visible.

    * What the theorems show

    - The control loops.  The fixed-point regulator equals its specification
      (C1); the wrap-around bookkeeping of the helper and main loops computes
      the phase of the unwrapped tags (C2, C3); actuators stay in range (C28),
      lock detectors have the documented hysteresis (C19), the phase shifter
      reaches its target (C34), trackers report the mean phase (C9).
    - The state machines.  The sequencer, the grandmaster alignment and the
      auxiliary clocks follow their transition relations with the guards of
      each edge (C4, C5, C30, [external_lock_needs_alignment]); the interrupt
      handler and the initialisation terminate (C10, C29).
    - Time.  A time read from the running counter is the time of one instant
      (C11); the linearised receive timestamp is the arrival time (C8); the
      scheduler accounts for all the time (C13) and periodic tasks do not
      drift ([wrc_task_periodic]).
    - The network.  What is sent is received (C7), inside its bounds (C38);
      sockets are bounded FIFOs of frames (C6); UDP packets are valid (C12) and
      the services answer what they should (C31, C32, [process_arp_correct]);
      event queues are mailboxes (C14).  What is written on the console over
      UDP arrives (C35), LLDP announces what the node is now (C39), and the
      latency that is measured between two nodes is the latency (C40).
    - The 1-Wire bus.  The search at start-up finds the devices, in order
      (C33).
    - The SNMP agent.  GETNEXT returns the successor of an OID in the
      lexicographic order of the tree (C15), so that a walk ends and finds
      every object once (C16); GET and SET answer the value of the object
      (C18, C17, [snmp_set_action]) or the error (C36); a run that stays inside
      its arrays keeps their sizes ([agent_keeps_types]).
    - Storage and shell.  The SFP database is a list (C20) and the calibration
      table a finite map (C26), on the device as well as in memory; what is
      saved is loaded (C25, C27, [mac_roundtrip]); a formatted device can be
      mounted (C24).  These hold on devices with sectors and pages: a file
      begins with a sector and shares none with the directory, and a write
      stays in a page.  The line editor is a pair of texts (C21), a line is
      executed as its words (C22), and the scripts run line by line (C23, for
      scripts that do not change themselves, and [build_script_runs]).
    - Arithmetic and text.  Division, phase conversions, printing, parsing and
      the calendar ([div64_32_correct], [divdi3_umoddi3_correct],
      [phase_shift_roundtrip], [from_picos_correct], [number_field_length],
      [dec_roundtrip], [decode_mac_roundtrip], [ip_text_roundtrip],
      [format_time_int_gregorian], [format_time_fits], [within_range_circular]).
    - Flaws found while modelling are theorems too (C37,
      [mpll_frequency_lock_latches], [minic_rx_overruns], [rdate_tail_escapes],
      [process_icmp_trusts_length], [from_picos_negative_overflow],
      [monitor_overwrites_gains], [le16_to_host_big], [latency_stale_triple],
      [latency_queue_two], [netconsole_poll_overruns], [select_truncated],
      [scratch_temp_18s20_count]).

    Properties that depend on hardware are proved against the laws of the
    classes; each class has a simulated instance that satisfies its laws, and
    the witnesses run on it.

    * Bounds and fuel

    [spll_irq_entry] takes a fuel above the number of tags that wait or still
    arrive, which is shown to be enough; [shw_pps_gen_get_time] needs two rounds, because two
    rounds take less than a second; the receive loop of the mini-NIC needs one
    step per word of the FIFO; the loops of the division need 64 rounds, those
    of the calendar one per year or month, [skip_loop] one per byte of the
    16-bit index.  Opening a file needs a round per directory record, erasing a
    device six, the search for the end of the script 258 when the script has
    at most 256 bytes, counting SFPs five, [get_sfp] a round per entry of at
    most 126.  An SNMP packet has 172 bytes behind its UDP header; a walk needs
    one request more than there are objects.  An LLDP PDU takes at most 111
    bytes of 158.  A scan of the 1-Wire bus takes 64 masks, the search eight
    scans at most, a busy-wait on its master one poll more than the slot lasts.
    The scheduler's time is exact up to the 32-bit wrap of the seconds; the PPS
    counter is assumed not to wrap its 40 bits of seconds.

    * Not modelled

    PPSi, the PTP engine, is a git submodule outside the tree; PTP glue that
    only calls it is left out, and so are syslog, which reports on its servo,
    and most commands of the shell.  Of the SNMP agent the group a board may add
    is left out; the theorems C15, C16 and C18 are about the tree without the
    netconsole groups and the auxiliary tables, whose GETNEXT is not increasing.
    The SDB file system is modelled with the five records that all boards but
    one have.  The 1-Wire EEPROM, bit-banged buses, chip set-up, board start-up
    and assembly are I/O; host tools and the Kconfig programs are not part of
    the firmware.  Messages printed for diagnostics are left
    out of the modelled functions. *)
From Stdlib Require Import ZArith Lia.
From stdpp Require Import base numbers option list.
#[export] Set Default Goal Selector "!".

#[global] Open Scope Z_scope.

Create HintDb wrpc.
Create Rewrite HintDb wrpc.

(** ** Machine integers

    A C integer is a [Z] inside the range of its type.  Every conversion the
    compiler performs is written out: [s32] is the conversion to [int] (and
    to [int32_t], [long] on the ilp32 targets), [u32] the conversion to
    [unsigned]/[uint32_t], and so on.  Signed arithmetic is evaluated modulo
    the width, which is what the lm32 and RISC-V back ends emit; the theorems
    that need the absence of overflow prove it. *)
Definition u8 (z : Z) : Z := z mod 256.
Definition u16 (z : Z) : Z := z mod 65536.
Definition u32 (z : Z) : Z := z mod 4294967296.
Definition u64 (z : Z) : Z := z mod 18446744073709551616.
Definition s16 (z : Z) : Z := (z + 32768) mod 65536 - 32768.
Definition s32 (z : Z) : Z := (z + 2147483648) mod 4294967296 - 2147483648.
Definition s64 (z : Z) : Z :=
  (z + 9223372036854775808) mod 18446744073709551616 - 9223372036854775808.

Definition is_s32 (z : Z) : Prop := -2147483648 <= z < 2147483648.
Definition is_u32 (z : Z) : Prop := 0 <= z < 4294967296.
Definition is_s64 (z : Z) : Prop := -9223372036854775808 <= z < 9223372036854775808.
Definition is_byte (z : Z) : Prop := 0 <= z < 256.

Definition iadd (a b : Z) : Z := s32 (a + b).
Definition isub (a b : Z) : Z := s32 (a - b).
Definition imul (a b : Z) : Z := s32 (a * b).
Definition ineg (a : Z) : Z := s32 (- a).
Definition iquot (a b : Z) : Z := s32 (Z.quot a b).
Definition irem (a b : Z) : Z := s32 (Z.rem a b).
Definition ishl (a n : Z) : Z := s32 (Z.shiftl a n).
Definition ishr (a n : Z) : Z := Z.shiftr a n.
Definition uadd (a b : Z) : Z := u32 (a + b).
Definition usub (a b : Z) : Z := u32 (a - b).
Definition ushl (a n : Z) : Z := u32 (Z.shiftl a n).

(** [(e)%int] evaluates the operators of [e] on [int] operands, [(e)%uint] on
    [unsigned] ones; numerals and comparisons stay those of [Z]. *)
Declare Scope int_scope.
Delimit Scope int_scope with int.
Arguments iadd (a b)%_int_scope.
Arguments isub (a b)%_int_scope.
Arguments imul (a b)%_int_scope.
Arguments ineg (a)%_int_scope.
Arguments iquot (a b)%_int_scope.
Arguments irem (a b)%_int_scope.
Arguments ishl (a n)%_int_scope.
Arguments ishr (a n)%_int_scope.
Notation "a + b" := (iadd a b) : int_scope.
Notation "a - b" := (isub a b) : int_scope.
Notation "a * b" := (imul a b) : int_scope.
Notation "- a" := (ineg a) : int_scope.
Notation "a / b" := (iquot a b) : int_scope.
Notation "a 'mod' b" := (irem a b) : int_scope.
Notation "a << n" := (ishl a n) (at level 32, left associativity) : int_scope.
Notation "a >> n" := (ishr a n) (at level 32, left associativity) : int_scope.

Declare Scope uint_scope.
Delimit Scope uint_scope with uint.
Arguments uadd (a b)%_uint_scope.
Arguments usub (a b)%_uint_scope.
Arguments ushl (a n)%_uint_scope.
Notation "a + b" := (uadd a b) : uint_scope.
Notation "a - b" := (usub a b) : uint_scope.
Notation "a << n" := (ushl a n) (at level 32, left associativity) : uint_scope.

(** C truth values. *)
Definition truth (z : Z) : bool := negb (z =? 0).
Definition b2z (b : bool) : Z := if b then 1 else 0.

Lemma truth_0 : truth 0 = false. Proof. reflexivity. Qed.
Lemma truth_1 : truth 1 = true. Proof. reflexivity. Qed.
Lemma truth_b2z b : truth (b2z b) = b. Proof. by destruct b. Qed.
Lemma truth_spec z : reflect (z <> 0) (truth z).
Proof. unfold truth. destruct (Z.eqb_spec z 0); constructor; lia. Qed.

Lemma s32_small z : is_s32 z -> s32 z = z.
Proof. unfold is_s32, s32. intros H. rewrite Z.mod_small; lia. Qed.
Lemma u32_small z : is_u32 z -> u32 z = z.
Proof. unfold is_u32, u32. intros H. rewrite Z.mod_small; lia. Qed.
Lemma s64_small z : is_s64 z -> s64 z = z.
Proof. unfold is_s64, s64. intros H. rewrite Z.mod_small; lia. Qed.
Lemma u8_small z : is_byte z -> u8 z = z.
Proof. unfold is_byte, u8. intros H. rewrite Z.mod_small; lia. Qed.
Lemma u16_small z : 0 <= z < 65536 -> u16 z = z.
Proof. unfold u16. intros H. rewrite Z.mod_small; lia. Qed.
Lemma u64_small z : 0 <= z < 18446744073709551616 -> u64 z = z.
Proof. unfold u64. intros H. rewrite Z.mod_small; lia. Qed.

Lemma s32_range z : is_s32 (s32 z).
Proof. unfold is_s32, s32. pose proof (Z.mod_pos_bound (z + 2147483648) 4294967296). lia. Qed.
Lemma u32_range z : is_u32 (u32 z).
Proof. unfold is_u32, u32. apply Z.mod_pos_bound. lia. Qed.
Lemma s64_range z : is_s64 (s64 z).
Proof.
  unfold is_s64, s64.
  pose proof (Z.mod_pos_bound (z + 9223372036854775808) 18446744073709551616). lia.
Qed.
Lemma u8_range z : is_byte (u8 z).
Proof. unfold is_byte, u8. apply Z.mod_pos_bound. lia. Qed.
Lemma u16_range z : 0 <= u16 z < 65536.
Proof. unfold u16. apply Z.mod_pos_bound. lia. Qed.

(** Conversions to signed and back. *)
Lemma u64_s64 v : u64 (s64 v) = u64 v.
Proof. unfold u64, s64. rewrite Zminus_mod_idemp_l. f_equal. lia. Qed.
Lemma u32_s32 v : u32 (s32 v) = u32 v.
Proof. unfold u32, s32. rewrite Zminus_mod_idemp_l. f_equal. lia. Qed.
Lemma s64_u64 v : s64 (u64 v) = s64 v.
Proof. unfold u64, s64. by rewrite Zplus_mod_idemp_l. Qed.
Lemma s32_u32 v : s32 (u32 v) = s32 v.
Proof. unfold u32, s32. by rewrite Zplus_mod_idemp_l. Qed.
Lemma u64_range v : 0 <= u64 v < 18446744073709551616.
Proof. apply Z.mod_pos_bound. lia. Qed.
Lemma s32_cong z : exists k, s32 z = z + 4294967296 * k.
Proof.
  unfold s32. exists (- ((z + 2147483648) / 4294967296)).
  pose proof (Z.div_mod (z + 2147483648) 4294967296). lia.
Qed.

(** Congruent inputs give the same conversion. *)
Lemma s32_add_mult z k : s32 (z + 4294967296 * k) = s32 z.
Proof.
  unfold s32. f_equal.
  replace (z + 4294967296 * k + 2147483648) with (z + 2147483648 + k * 4294967296) by lia.
  apply Z.mod_add. lia.
Qed.

#[export] Hint Resolve s32_range u32_range s64_range u8_range u16_range : wrpc.
#[export] Hint Rewrite truth_0 truth_1 truth_b2z : wrpc.

(** [unwrap]: remove the conversions whose argument [lia] shows in range,
    innermost first. *)
Ltac unfold_ops :=
  unfold iadd, isub, imul, ineg, ishr, uadd, usub, ishl, iquot, irem in *.
Ltac inrange := unfold is_s32, is_u32, is_s64, is_byte in *; lia.
Ltac unwrap1 :=
  match goal with
  | |- context [s32 ?e] => no_wrap e; rewrite (s32_small e) by inrange
  | |- context [u32 ?e] => no_wrap e; rewrite (u32_small e) by inrange
  | |- context [s64 ?e] => no_wrap e; rewrite (s64_small e) by inrange
  | |- context [u8 ?e] => no_wrap e; rewrite (u8_small e) by inrange
  | |- context [u16 ?e] => no_wrap e; rewrite (u16_small e) by inrange
  | |- context [u64 ?e] => no_wrap e; rewrite (u64_small e) by inrange
  end
with no_wrap e :=
  lazymatch e with
  | context [s32 _] => fail
  | context [u32 _] => fail
  | context [s64 _] => fail
  | context [u8 _] => fail
  | context [u16 _] => fail
  | context [u64 _] => fail
  | _ => idtac
  end.
Ltac unwrap := unfold_ops; repeat unwrap1.

(** Turn the boolean comparisons of the context into the propositions they
    decide. *)
Ltac bool_hyps :=
  repeat match goal with
  | H : (_ <? _) = true |- _ => apply Z.ltb_lt in H
  | H : (_ <? _) = false |- _ => apply Z.ltb_ge in H
  | H : (_ <=? _) = true |- _ => apply Z.leb_le in H
  | H : (_ <=? _) = false |- _ => apply Z.leb_gt in H
  | H : (_ =? _) = true |- _ => apply Z.eqb_eq in H
  | H : (_ =? _) = false |- _ => apply Z.eqb_neq in H
  | H : _ && _ = true |- _ => apply andb_true_iff in H; destruct H
  | H : _ && _ = false |- _ => apply andb_false_iff in H
  | H : _ || _ = true |- _ => apply orb_true_iff in H
  | H : _ || _ = false |- _ => apply orb_false_iff in H; destruct H
  | H : negb _ = true |- _ => apply negb_true_iff in H
  | H : negb _ = false |- _ => apply negb_false_iff in H
  end.

(** ** Record update

    [r <| f := v |>] is C's [r.f = v].  A record becomes updatable by giving
    its eta expansion as an [Etable] instance; the update of each field is
    derived from it. *)
Class Etable (R : Type) := eta_of : R -> R.
Class Upd {R T : Type} (p : R -> T) := upd : (T -> T) -> R -> R.
Arguments upd {R T} p {_} _ _ /.

Ltac derive_upd :=
  match goal with
  | |- @Upd ?R ?T ?p =>
    let e := constr:(_ : Etable R) in
    let e := eval cbv delta [eta_of] in e in
    let e := eval hnf in e in
    let f := constr:(fun (g : T -> T) (r : R) =>
       ltac:(let b := eval cbv beta in (e r) in
             match (eval pattern (p r) in b) with
             | ?h _ => let t := eval cbv beta in (h (g (p r))) in exact t
             end)) in
    let f := eval cbv beta in f in
    exact f
  end.
#[export] Hint Extern 1 (Upd _) => derive_upd : typeclass_instances.

Notation "r <| p := v |>" := (upd p (fun _ => v) r)
  (at level 1, left associativity, format "r <| p  :=  v |>").

(** ** The state monad of the drivers

    [M W A] is a computation that may access the hardware [W]. *)
Definition M (W A : Type) : Type := W -> A * W.
Definition ret {W A} (a : A) : M W A := fun w => (a, w).
Definition bind {W A B} (m : M W A) (k : A -> M W B) : M W B :=
  fun w => let '(a, w') := m w in k a w'.
Definition when {W} (b : bool) (m : M W unit) : M W unit := if b then m else ret tt.

Notation "'let!' x := m 'in' k" := (bind m (fun x => k))
  (at level 10, x pattern, m at level 200, k at level 200).
Notation "m ;! k" := (bind m (fun _ => k)) (at level 199, right associativity).

(** [for (x in l) a = f(a, x)]. *)
Fixpoint foldM {W A B} (f : B -> A -> M W B) (l : list A) (b : B) : M W B :=
  match l with
  | [] => ret b
  | x :: l => let! b := f b x in foldM f l b
  end.

(** [ensures m w Q]: running [m] from [w] ends with a result and a hardware
    state that satisfy [Q]. *)
Definition ensures {W A} (m : M W A) (w : W) (Q : A -> W -> Prop) : Prop :=
  let '(a, w') := m w in Q a w'.

Section ensures.
Context {W : Type}.

Lemma ensures_ret {A} (a : A) (w : W) (Q : A -> W -> Prop) :
  Q a w -> ensures (ret a) w Q.
Proof. done. Qed.

Lemma ensures_bind {A B} (m : M W A) (k : A -> M W B) w (Q : B -> W -> Prop) :
  ensures m w (fun a w' => ensures (k a) w' Q) -> ensures (bind m k) w Q.
Proof. unfold ensures, bind. destruct (m w) as [a w']. done. Qed.

Lemma ensures_mono {A} (m : M W A) w (P Q : A -> W -> Prop) :
  ensures m w P -> (forall a w', P a w' -> Q a w') -> ensures m w Q.
Proof. unfold ensures. destruct (m w) as [a w']. eauto. Qed.

Lemma ensures_and {A} (m : M W A) w (P Q : A -> W -> Prop) :
  ensures m w P -> ensures m w Q -> ensures m w (fun a w' => P a w' /\ Q a w').
Proof. unfold ensures. destruct (m w) as [a w']. eauto. Qed.

Lemma ensures_when b (m : M W unit) w (Q : unit -> W -> Prop) :
  (b = true -> ensures m w Q) -> (b = false -> Q tt w) -> ensures (when b m) w Q.
Proof. destruct b; intros H1 H2; [apply H1 | apply H2]; done. Qed.

Lemma ensures_run {A} (m : M W A) w (Q : A -> W -> Prop) :
  ensures m w Q <-> Q (m w).1 (m w).2.
Proof. unfold ensures. by destruct (m w). Qed.

(** An access whose result and effect the claim does not depend on. *)
Lemma ensures_skip {A B} (m : M W A) (k : A -> M W B) w (Q : B -> W -> Prop) :
  (forall a w', ensures (k a) w' Q) -> ensures (bind m k) w Q.
Proof. intros H. unfold ensures, bind. destruct (m w) as [a w']. apply H. Qed.

(** The rule for a fold: an invariant kept by every iteration. *)
Lemma ensures_foldM {A B} (f : B -> A -> M W B) (I : B -> W -> Prop) l b w :
  I b w ->
  (forall b x w, x ∈ l -> I b w -> ensures (f b x) w I) ->
  ensures (foldM f l b) w I.
Proof.
  revert b w. induction l as [|x l IH]; intros b w Hb Hf; [exact Hb|].
  apply ensures_bind. eapply ensures_mono; [apply Hf; [left|exact Hb]|].
  intros b' w' Hb'. apply IH; [exact Hb'|]. intros. apply Hf; [by right|done].
Qed.
End ensures.

(** [0, 1, ..., n-1], the values of a C loop counter. *)
Definition range (n : Z) : list Z := Z.of_nat <$> seq 0 (Z.to_nat n).

Lemma elem_of_range n i : i ∈ range n <-> 0 <= i < n.
Proof.
  unfold range. rewrite list_elem_of_fmap. split.
  - intros (k & -> & Hk). apply elem_of_seq in Hk. lia.
  - intros H. exists (Z.to_nat i). split; [lia|]. apply elem_of_seq. lia.
Qed.

(** A loop that establishes [Q] of every index it visits and preserves it. *)
Lemma foldl_establish {A B} (f : A -> B -> A) (I : A -> Prop) (Q : A -> B -> Prop) l a :
  I a -> (forall a i, I a -> I (f a i)) -> (forall a i, I a -> Q (f a i) i) ->
  (forall a i j, I a -> Q a j -> Q (f a i) j) ->
  I (foldl f a l) /\ forall i, i ∈ l -> Q (foldl f a l) i.
Proof.
  intros Ha HI HQ Hkeep.
  assert (Hgo : forall l a, I a -> I (foldl f a l) /\
    (forall j, Q a j \/ j ∈ l -> Q (foldl f a l) j)).
  { induction l0 as [|i l0 IH]; intros a0 Ha0.
    - split; [done|]. intros j [?|Hj]; [done|]. by apply elem_of_nil in Hj.
    - destruct (IH (f a0 i) (HI _ _ Ha0)) as [H1 H2]. split; [done|]. intros j Hj. apply H2.
      destruct Hj as [Hj|Hj]; [left; auto|].
      apply elem_of_cons in Hj as [->|Hj]; [left; auto|by right]. }
  destruct (Hgo l a Ha) as [H1 H2]. split; [done|]. auto.
Qed.

(** ** Arrays

    [a[i]] for a C array of known size.  An access outside the array has no
    meaning in C: a read gives the default and a write changes nothing, and
    the theorems show that the program's accesses are inside. *)
Definition aget {A} (d : A) (a : list A) (i : Z) : A :=
  if i <? 0 then d else default d (a !! Z.to_nat i).
Definition aset {A} (a : list A) (i : Z) (v : A) : list A :=
  if i <? 0 then a else <[Z.to_nat i := v]> a.

Lemma length_aset {A} (a : list A) i v : length (aset a i v) = length a.
Proof. unfold aset. destruct (i <? 0); [done|]. apply length_insert. Qed.

Lemma aget_aset_eq {A} (d : A) a i v :
  0 <= i < Z.of_nat (length a) -> aget d (aset a i v) i = v.
Proof.
  intros H. unfold aget, aset. destruct (Z.ltb_spec i 0); [lia|].
  rewrite list_lookup_insert_eq; [done|lia].
Qed.

Lemma aget_aset_ne {A} (d : A) a i j v : i <> j -> aget d (aset a i v) j = aget d a j.
Proof.
  intros H. unfold aget, aset.
  destruct (Z.ltb_spec j 0); [done|]. destruct (Z.ltb_spec i 0); [done|].
  rewrite list_lookup_insert_ne; [done|lia].
Qed.

#[export] Hint Rewrite @length_aset : wrpc.

(** ** Congruence modulo 2^14, the period of the DDMTD in tag units

    Every machine width is a multiple of it, so C conversions are invisible
    up to [≡₁₄] and phase arithmetic can be rewritten inside them. *)
Definition eq14 (a b : Z) : Prop := a mod 16384 = b mod 16384.
Infix "≡₁₄" := eq14 (at level 70).

#[export] Instance eq14_equiv : Equivalence eq14.
Proof. unfold eq14. split; [done|by intros ??|intros ???; congruence]. Qed.
#[export] Instance eq14_add : Proper (eq14 ==> eq14 ==> eq14) Z.add.
Proof.
  intros a a' Ha b b' Hb. unfold eq14 in *.
  by rewrite (Z.add_mod a), Ha, Hb, <- Z.add_mod by lia.
Qed.
#[export] Instance eq14_opp : Proper (eq14 ==> eq14) Z.opp.
Proof.
  intros a a' Ha. unfold eq14 in *.
  rewrite <- (Z.sub_0_l a), <- (Z.sub_0_l a'), Zminus_mod, Ha, <- Zminus_mod. done.
Qed.
#[export] Instance eq14_sub : Proper (eq14 ==> eq14 ==> eq14) Z.sub.
Proof. intros a a' Ha b b' Hb. rewrite <- !Z.add_opp_r. by rewrite Ha, Hb. Qed.

Lemma eq14_eq a b : a = b -> a ≡₁₄ b.
Proof. by intros ->. Qed.
Lemma eq14_mult a k : a + 16384 * k ≡₁₄ a.
Proof. unfold eq14. rewrite Z.mul_comm. apply Z.mod_add. lia. Qed.

Lemma eq14_s32 z : s32 z ≡₁₄ z.
Proof.
  destruct (s32_cong z) as [k ->].
  replace (4294967296 * k) with (16384 * (262144 * k)) by lia. apply eq14_mult.
Qed.

(** The representative in [-2^13, 2^13). *)
Definition sext14 (z : Z) : Z := (z + 8192) mod 16384 - 8192.

Lemma sext14_range z : -8192 <= sext14 z < 8192.
Proof. unfold sext14. pose proof (Z.mod_pos_bound (z + 8192) 16384). lia. Qed.

#[export] Instance sext14_proper : Proper (eq14 ==> eq) sext14.
Proof. intros a b H. unfold sext14. f_equal. change (a + 8192 ≡₁₄ b + 8192). by rewrite H. Qed.

(** A boolean property of [0 .. n-1] can be checked by computation. *)
Lemma range_check (n : Z) (f : Z -> bool) :
  forallb f (range n) = true -> forall r, 0 <= r < n -> f r = true.
Proof.
  intros H r Hr. rewrite forallb_forall in H. apply H.
  apply list_elem_of_In, elem_of_range, Hr.
Qed.

(** ** Bits *)
Lemma land_pow2 a n : 0 <= n -> Z.land a (2 ^ n) = if Z.testbit a n then 2 ^ n else 0.
Proof.
  intros Hn. apply Z.bits_inj'. intros i Hi. rewrite Z.land_spec, Z.pow2_bits_eqb by lia.
  destruct (Z.eqb_spec n i) as [<-|Hne].
  - destruct (Z.testbit a n); [by rewrite Z.pow2_bits_true by lia|by rewrite Z.bits_0].
  - rewrite andb_false_r. destruct (Z.testbit a n); [by rewrite Z.pow2_bits_false by lia|by rewrite Z.bits_0].
Qed.

(** Setting the high bits of an [n]-bit number subtracts [2^n]. *)
Lemma lor_lnot_ones r n : 0 <= n -> 0 <= r < 2 ^ n -> Z.lor r (Z.lnot (Z.ones n)) = r - 2 ^ n.
Proof.
  intros Hn Hr. pose proof (Z.add_lor_land r (Z.lnot (Z.ones n))) as H.
  rewrite <- Z.ldiff_land, Z.ldiff_ones_r in H by lia.
  rewrite Z.shiftr_div_pow2, Z.div_small, Z.shiftl_0_l in H by lia.
  rewrite Z.ones_equiv in *. unfold Z.lnot in *. lia.
Qed.

(** Joining disjoint fields adds them. *)
Lemma lor_shiftl a b n : 0 <= n -> 0 <= a < 2 ^ n -> 0 <= b ->
  Z.lor a (Z.shiftl b n) = a + b * 2 ^ n.
Proof.
  intros Hn Ha Hb.
  assert (Hl : Z.land a (Z.shiftl b n) = 0).
  { apply Z.bits_inj'. intros i Hi. rewrite Z.land_spec, Z.bits_0.
    destruct (Z.lt_ge_cases i n).
    - by rewrite Z.shiftl_spec_low, andb_false_r by lia.
    - rewrite <- (Z.mod_small a (2 ^ n)) by lia. by rewrite Z.mod_pow2_bits_high by lia. }
  pose proof (Z.add_lor_land a (Z.shiftl b n)) as E. rewrite Z.shiftl_mul_pow2 in * by lia. lia.
Qed.
