(* ===== verification/Div64.v ===== *)
(** pp_printf/div64.c: the 64-by-32-bit division the firmware uses instead of
    libgcc's, and lib/util.c's [__divdi3] and [__umoddi3].  They are proved
    equal to the mathematical division. *)
From Stdlib Require Import ZArith Lia.
From stdpp Require Import base numbers option list.
From S2P Require Import Prelude.

(** [while ((int64_t)b > 0 && b < rem) { b = b+b; d = d+d; }] *)
Fixpoint div64_up (fuel : nat) (b d rem : Z) : Z * Z :=
  match fuel with
  | O => (b, d)
  | S fuel => if (0 <? s64 b) && (b <? rem)
              then div64_up fuel (u64 (b + b)) (u64 (d + d)) rem
              else (b, d)
  end.

(** [do { if (rem >= b) { rem -= b; res += d; } b >>= 1; d >>= 1; } while (d);] *)
Fixpoint div64_down (fuel : nat) (b d rem res : Z) : Z * Z :=
  match fuel with
  | O => (rem, res)
  | S fuel =>
      let '(rem, res) := if b <=? rem then (u64 (rem - b), u64 (res + d)) else (rem, res) in
      let b := Z.shiftr b 1 in
      let d := Z.shiftr d 1 in
      if truth d then div64_down fuel b d rem res else (rem, res)
  end.

(** [__div64_32]: the quotient left in [*n] and the returned remainder.  A
    64-bit [d] starts at 1, so neither loop runs more than 64 times. *)
Definition div64_32 (n base : Z) : Z * Z :=
  let rem := n in
  let b := base in
  let high := u32 (Z.shiftr rem 32) in
  let '(res, rem) :=
    if base <=? high then
      let high := high / base in
      (u64 (Z.shiftl high 32), u64 (rem - u64 (Z.shiftl (u32 (high * base)) 32)))
    else (0, rem) in
  let '(b, d) := div64_up 64 b 1 rem in
  let '(rem, res) := div64_down 64 b d rem res in
  (res, u32 rem).

(** [__divdi3]: 64-bit signed division by way of the unsigned one.  [-A] is
    evaluated in [long long]. *)
Definition divdi3 (A B : Z) : Z :=
  let '(sign, a_u) := if A <? 0 then (1, u64 (s64 (- A))) else (0, u64 A) in
  let '(sign, b_u) := if B <? 0 then (Z.lxor sign 1, u64 (s64 (- B))) else (sign, u64 B) in
  let res := s64 (a_u / b_u) in
  if truth sign then s64 (- res) else res.

(** [__umoddi3] *)
Definition umoddi3 (A B : Z) : Z :=
  let x := u64 (A / B) in
  u64 (A - u64 (x * B)).

(** ** Correctness *)
Lemma div64_up_spec fuel base k rem :
  0 < base < 2 ^ 32 -> 0 <= k -> base * 2 ^ k < 2 ^ 64 -> 0 <= rem < 2 ^ 64 ->
  64 <= Z.of_nat fuel + k ->
  exists k', k <= k' /\ k' < 64 /\ base * 2 ^ k' < 2 ^ 64 /\ rem <= 2 * (base * 2 ^ k') /\
    rem < 2 * (base * 2 ^ k') /\
    div64_up fuel (base * 2 ^ k) (2 ^ k) rem = (base * 2 ^ k', 2 ^ k').
Proof.
  intros Hb. revert k. induction fuel as [|fuel IH]; intros k Hk Hlt Hrem Hf.
  - assert (2 ^ 64 <= 2 ^ k) by (apply Z.pow_le_mono_r; lia). nia.
  - assert (Hk64 : k < 64).
    { destruct (Z.lt_ge_cases k 64); [done|].
      assert (2 ^ 64 <= 2 ^ k) by (apply Z.pow_le_mono_r; lia). nia. }
    assert (Hpos : 0 < 2 ^ k) by (apply Z.pow_pos_nonneg; lia).
    assert (Hs : 2 ^ (k + 1) = 2 * 2 ^ k) by (rewrite Z.pow_add_r by lia; lia).
    cbn [div64_up]. change (2 ^ 64) with 18446744073709551616 in *.
    destruct ((0 <? s64 (base * 2 ^ k)) && (base * 2 ^ k <? rem)) eqn:E.
    + bool_hyps.
      assert (Hsmall : base * 2 ^ k < 9223372036854775808).
      { unfold s64 in *. pose proof (Z.div_mod (base * 2 ^ k + 9223372036854775808) 18446744073709551616).
        destruct (Z.lt_ge_cases (base * 2 ^ k) 9223372036854775808); [done|].
        rewrite <- (Z.mod_unique (base * 2 ^ k + 9223372036854775808) 18446744073709551616 1
          (base * 2 ^ k - 9223372036854775808)) in *; nia. }
      assert (H2k : 0 < 2 ^ k < 18446744073709551616) by nia.
      assert (Hd : 2 ^ k + 2 ^ k < 18446744073709551616) by nia.
      rewrite (u64_small (base * 2 ^ k + _)), (u64_small (2 ^ k + _)) by nia.
      replace (base * 2 ^ k + base * 2 ^ k) with (base * 2 ^ (k + 1)) by (rewrite Hs; lia).
      replace (2 ^ k + 2 ^ k) with (2 ^ (k + 1)) by lia.
      destruct (IH (k + 1)) as (k' & ?); [lia|nia|lia|lia|]. exists k'. split; [lia|]. tauto.
    + exists k. split_and!; try done; try lia.
      all: apply andb_false_iff in E as [E|E]; bool_hyps; [|lia].
      all: destruct (Z.lt_ge_cases (base * 2 ^ k) 9223372036854775808); [|lia].
      all: rewrite s64_small in E; [nia|unfold is_s64; nia].
Qed.

Lemma div64_down_spec fuel base k rem res :
  0 < base < 2 ^ 32 -> 0 <= k < Z.of_nat fuel -> base * 2 ^ k < 2 ^ 64 ->
  0 <= rem < 2 * (base * 2 ^ k) -> rem < 2 ^ 64 -> 0 <= res -> res + rem / base < 2 ^ 64 ->
  div64_down fuel (base * 2 ^ k) (2 ^ k) rem res = (rem mod base, res + rem / base).
Proof.
  intros Hb. revert k rem res.
  induction fuel as [|fuel IH]; intros k rem res Hk Hlt Hrem Hrem64 Hres Hsum; [lia|].
  assert (Hpos : 0 < 2 ^ k) by (apply Z.pow_pos_nonneg; lia).
  change (2 ^ 64) with 18446744073709551616 in *.
  cbn [div64_down].
  assert (Hstep : exists rem' res',
    (if base * 2 ^ k <=? rem then (u64 (rem - base * 2 ^ k), u64 (res + 2 ^ k)) else (rem, res))
      = (rem', res') /\ 0 <= rem' < base * 2 ^ k /\ rem' mod base = rem mod base /\
    res' + rem' / base = res + rem / base /\ 0 <= res').
  { destruct (Z.leb_spec (base * 2 ^ k) rem).
    - assert (2 ^ k <= rem / base) by (apply Z.div_le_lower_bound; lia).
      exists (rem - base * 2 ^ k), (res + 2 ^ k). rewrite !u64_small by lia.
      split; [done|]. split; [lia|].
      replace rem with ((rem - base * 2 ^ k) + 2 ^ k * base) at 2 4 by lia.
      rewrite Z.mod_add, Z.div_add by lia. lia.
    - exists rem, res. split_and!; try done; lia. }
  destruct Hstep as (rem' & res' & -> & Hr & Hm & Hd & Hr0). rewrite <- Hm, <- Hd.
  rewrite !Z.shiftr_div_pow2 by lia. change (2 ^ 1) with 2.
  destruct (Z.eq_dec k 0) as [->|Hk0].
  - change (2 ^ 0 / 2) with 0. cbn [truth negb Z.eqb].
    change (2 ^ 0) with 1 in *. rewrite Z.mod_small, Z.div_small by lia. f_equal; lia.
  - assert (Hs : 2 ^ k = 2 * 2 ^ (k - 1)).
    { replace k with (1 + (k - 1)) at 1 by lia. rewrite Z.pow_add_r by lia. lia. }
    assert (Hpos' : 0 < 2 ^ (k - 1)) by (apply Z.pow_pos_nonneg; lia).
    replace (base * 2 ^ k / 2) with (base * 2 ^ (k - 1))
      by (rewrite Hs; apply Z.div_unique_exact; lia).
    replace (2 ^ k / 2) with (2 ^ (k - 1)) by (rewrite Hs; apply Z.div_unique_exact; lia).
    destruct (truth_spec (2 ^ (k - 1))); [|lia]. apply IH; nia.
Qed.

(** The division, used by every caller of [__div64_32]. *)
Lemma div64_32_spec n base :
  0 <= n < 2 ^ 64 -> 0 < base < 2 ^ 32 -> div64_32 n base = (n / base, n mod base).
Proof.
  intros Hn Hb. unfold div64_32. set (h := Z.shiftr n 32).
  assert (Hh : h = n / 2 ^ 32) by (unfold h; rewrite Z.shiftr_div_pow2 by lia; done).
  assert (Hh0 : 0 <= h < 2 ^ 32).
  { rewrite Hh. split; [apply Z.div_pos; lia|apply Z.div_lt_upper_bound; lia]. }
  pose proof (Z.div_mod n (2 ^ 32) ltac:(lia)) as Hdm. rewrite <- Hh in Hdm.
  pose proof (Z.mod_pos_bound n (2 ^ 32) ltac:(lia)) as Hmod.
  change (2 ^ 32) with 4294967296 in *. change (2 ^ 64) with 18446744073709551616 in *.
  rewrite (u32_small h) by (unfold is_u32; lia).
  pose proof (Z.div_mod h base ltac:(lia)) as Hhb. pose proof (Z.mod_pos_bound h base ltac:(lia)) as Hhm.
  set (q := if base <=? h then h / base else 0).
  assert (Hq : (if base <=? h then (u64 (Z.shiftl (h / base) 32),
      u64 (n - u64 (Z.shiftl (u32 (h / base * base)) 32))) else (0, n))
    = (q * 4294967296, n - q * base * 4294967296) /\ 0 <= q /\ h - q * base < base /\
      0 <= h - q * base).
  { unfold q. destruct (Z.leb_spec base h).
    - assert (0 <= h / base) by (apply Z.div_pos; lia).
      rewrite !Z.shiftl_mul_pow2 by lia. change (2 ^ 32) with 4294967296.
      rewrite (u32_small (h / base * base)) by (unfold is_u32; nia).
      assert (0 <= n - h / base * base * 4294967296) by nia.
      rewrite (u64_small (h / base * 4294967296)) by nia.
      rewrite (u64_small (h / base * base * 4294967296)) by nia.
      rewrite u64_small by lia. split; [done|]. nia.
    - split; [f_equal; lia|]. lia. }
  destruct Hq as (-> & Hq0 & Hq1 & Hq2).
  set (r := n - q * base * 4294967296).
  assert (Hr : 0 <= r < base * 4294967296) by (unfold r; nia).
  assert (Hr64 : r <= n) by (unfold r; nia).
  assert (Hqr : n / base = q * 4294967296 + r / base /\ n mod base = r mod base).
  { replace n with (r + q * 4294967296 * base) by (unfold r; lia).
    rewrite Z.div_add, Z.mod_add by lia. lia. }
  destruct Hqr as [Hquot ->]. rewrite Hquot. clearbody r.
  destruct (div64_up_spec 64 base 0 r Hb ltac:(lia) ltac:(lia)
    ltac:(change (2 ^ 64) with 18446744073709551616; lia) ltac:(lia))
    as (k & Hk0 & Hk & Hlt & _ & Hlt2 & Hup).
  rewrite Z.mul_1_r in Hup. change (2 ^ 0) with 1 in Hup. rewrite Hup.
  rewrite div64_down_spec; [|done|lia|done|lia| |lia|].
  - f_equal. apply u32_small. pose proof (Z.mod_pos_bound r base ltac:(lia)). unfold is_u32. lia.
  - change (2 ^ 64) with 18446744073709551616. lia.
  - rewrite <- Hquot. apply Z.div_lt_upper_bound; lia.
Qed.

(**  [__div64_32] divides: for every 64-bit dividend and every non-zero
    32-bit divisor the shift-and-subtract loops terminate within 64 rounds
    each and leave the quotient and the remainder. *)
Theorem div64_32_correct n base :
  0 <= n < 2 ^ 64 -> 0 < base < 2 ^ 32 -> div64_32 n base = (n / base, n mod base).
Proof. apply div64_32_spec. Qed.

Lemma div64_32_correct_witness :
  div64_32 18446744073709551615 8000 = (18446744073709551615 / 8000, 18446744073709551615 mod 8000).
Proof. apply (div64_32_correct 18446744073709551615 8000); lia. Defined.

(** Magnitude of a 64-bit integer, as the two branches of [__divdi3] compute
    it. *)
Lemma u64_abs A :
  is_s64 A -> (if A <? 0 then u64 (s64 (- A)) else u64 A) = Z.abs A.
Proof.
  intros HA. unfold is_s64 in HA. destruct (Z.ltb_spec A 0).
  - destruct (Z.eq_dec A (-9223372036854775808)) as [->|]; [done|].
    rewrite s64_small by (unfold is_s64; lia). rewrite u64_small by lia. lia.
  - rewrite u64_small by lia. lia.
Qed.

(** The two libgcc replacements of lib/util.c: [__divdi3] is C's truncated
    division on every pair of 64-bit operands (the only quotient that does not
    fit, -2^63 / -1, wraps), and [__umoddi3] is the unsigned remainder. *)
Theorem divdi3_umoddi3_correct A B a b :
  is_s64 A -> is_s64 B -> B <> 0 -> 0 <= a < 2 ^ 64 -> 0 < b < 2 ^ 64 ->
  divdi3 A B = s64 (Z.quot A B) /\ umoddi3 a b = a mod b.
Proof.
  intros HA HB HB0 Ha Hb. split.
  - unfold divdi3. pose proof (u64_abs A HA) as EA. pose proof (u64_abs B HB) as EB.
    assert (Hq : Z.quot A B = Z.sgn A * Z.sgn B * (Z.abs A / Z.abs B)) by (by apply Z.quot_div).
    rewrite Hq. unfold is_s64 in *.
    assert (Hd : 0 <= Z.abs A / Z.abs B <= Z.abs A).
    { split; [apply Z.div_pos; lia|]. apply Z.div_le_upper_bound; [lia|]. nia. }
    assert (Hneg : forall z, s64 (- s64 z) = s64 (- z)).
    { intros z. unfold s64. f_equal.
      replace (- ((z + 9223372036854775808) mod 18446744073709551616 - 9223372036854775808)
               + 9223372036854775808)
        with (- z + 9223372036854775808 +
              ((z + 9223372036854775808) / 18446744073709551616) * 18446744073709551616)
        by (pose proof (Z.div_mod (z + 9223372036854775808) 18446744073709551616); lia).
      apply Z.mod_add. lia. }
    destruct (Z.ltb_spec A 0), (Z.ltb_spec B 0); cbn [Z.lxor truth negb Z.eqb];
      rewrite EA, EB, ?Hneg; try (f_equal; nia).
  - unfold umoddi3. change (2 ^ 64) with 18446744073709551616 in *.
    pose proof (Z.div_mod a b ltac:(lia)). pose proof (Z.mod_pos_bound a b ltac:(lia)).
    assert (0 <= a / b) by (apply Z.div_pos; lia).
    rewrite (u64_small (a / b)) by nia. rewrite (u64_small (a / b * b)) by nia.
    rewrite u64_small by nia. lia.
Qed.

Lemma divdi3_umoddi3_correct_witness :
  divdi3 (-7) 2 = s64 (Z.quot (-7) 2) /\ umoddi3 18446744073709551615 10 = 18446744073709551615 mod 10.
Proof.
  apply (divdi3_umoddi3_correct (-7) 2 18446744073709551615 10); unfold is_s64; lia.
Defined.
