(* ===== verification/SpllHw.v ===== *)
(** The platform the SoftPLL runs on: the compile-time configuration
    ([Board]: include/spll_defs.h and the boards' headers), the register block
    of the SoftPLL core ([spll_reg]: include/hw/softpll_regs.h), the access to
    it as an interface with laws ([SpllHW], [SpllLaws], and [SpllFifoLaws] for
    a FIFO that fills while the software runs), simulated instances that
    satisfy the laws, and the two accessors of softpll/spll_common.c
    that touch registers. *)
From Stdlib Require Import ZArith Lia.
From stdpp Require Import base numbers option list.
From S2P Require Import Prelude.

(** ** Configuration

    The Kconfig symbols and board constants the SoftPLL sources test.  One of
    CONFIG_TARGET_WR_SWITCH and CONFIG_WR_NODE is set; the record keeps the
    first. *)
Class Board := {
  CONFIG_TARGET_WR_SWITCH : bool;
  CONFIG_TARGET_AMD_DEVBOARD : bool;
  CONFIG_FRAC_SPLL : bool;
  CONFIG_IGNORE_HPLL : bool;
  CONFIG_WRPC_PPSI : bool;
  CONFIG_SPLL_DEGLITCH_THR : Z;
  BOARD_SPLL_DAC_BITS : Z;
  BOARD_SPLL_DIV_BITS : Z;
  REF_CLOCK_PERIOD_PS : Z;
  NS_PER_CLOCK : Z;
  TICS_PER_SECOND : Z;
  BOARD_DIVIDE_DMTD_CLOCKS : bool;
  BOARD_MAX_CHAN_AUX : Z;
  BOARD_MAX_PTRACKERS : Z
}.

Definition TAG_BITS : Z := 22.
Definition HPLL_N : Z := 14.
Definition PI_FRACBITS : Z := 12.
Definition PTRACKER_AVERAGE_SAMPLES : Z := 512.
(** 10 ms in cycles of the reference clock (include/wrc.h). *)
Definition PPS_WIDTH `{!Board} : Z := Z.quot (10 * 1000 * 1000) NS_PER_CLOCK.

(** The ranges all the boards of the repository stay in. *)
Class BoardOk (B : Board) : Prop := {
  board_div_bits : 0 <= BOARD_SPLL_DIV_BITS <= 8;
  board_dac_bits : BOARD_SPLL_DAC_BITS = 16 + BOARD_SPLL_DIV_BITS;
  board_period : REF_CLOCK_PERIOD_PS = 8000 \/ REF_CLOCK_PERIOD_PS = 16000;
  board_ns : REF_CLOCK_PERIOD_PS = NS_PER_CLOCK * 1000;
  board_tics : 0 < TICS_PER_SECOND <= 100000;
  board_aux : 1 <= BOARD_MAX_CHAN_AUX <= 2;
  board_ptrackers : 1 <= BOARD_MAX_PTRACKERS <= 18
}.

(** boards/generic: the PHY with an 8-bit interface, the default node. *)
Definition generic_8bit : Board := {|
  CONFIG_TARGET_WR_SWITCH := false; CONFIG_TARGET_AMD_DEVBOARD := false;
  CONFIG_FRAC_SPLL := false; CONFIG_IGNORE_HPLL := false; CONFIG_WRPC_PPSI := true;
  CONFIG_SPLL_DEGLITCH_THR := 1000;
  BOARD_SPLL_DAC_BITS := 16; BOARD_SPLL_DIV_BITS := 0;
  REF_CLOCK_PERIOD_PS := 8000; NS_PER_CLOCK := 8; TICS_PER_SECOND := 1000;
  BOARD_DIVIDE_DMTD_CLOCKS := true; BOARD_MAX_CHAN_AUX := 2; BOARD_MAX_PTRACKERS := 1 |}.

(** boards/wr-switch: the real-time subsystem of the switch. *)
Definition wr_switch : Board := {|
  CONFIG_TARGET_WR_SWITCH := true; CONFIG_TARGET_AMD_DEVBOARD := false;
  CONFIG_FRAC_SPLL := false; CONFIG_IGNORE_HPLL := false; CONFIG_WRPC_PPSI := false;
  CONFIG_SPLL_DEGLITCH_THR := 1000;
  BOARD_SPLL_DAC_BITS := 16; BOARD_SPLL_DIV_BITS := 0;
  REF_CLOCK_PERIOD_PS := 16000; NS_PER_CLOCK := 16; TICS_PER_SECOND := 100000;
  BOARD_DIVIDE_DMTD_CLOCKS := false; BOARD_MAX_CHAN_AUX := 1; BOARD_MAX_PTRACKERS := 18 |}.

#[export] Instance generic_8bit_ok : BoardOk generic_8bit.
Proof. constructor; simpl; lia. Qed.
#[export] Instance wr_switch_ok : BoardOk wr_switch.
Proof. constructor; simpl; lia. Qed.

(** ** Registers *)
Inductive spll_reg :=
  | CSR | ECCR | AL_CR | AL_CIN | OCCR | RCER | OCER | DAC_HPLL | DAC_MAIN
  | DEGLITCH_THR | DFR_SPLL | EIC_IDR | EIC_IER | DFR_HOST_R0 | DFR_HOST_CSR
  | TRR_R0 | TRR_CSR | PPSG_CR | PPSG_ADJ_NSEC | PPSG_ESCR.

#[export] Instance spll_reg_eq_dec : EqDecision spll_reg.
Proof. solve_decision. Defined.

(** WBGEN2_GEN_MASK, WBGEN2_GEN_WRITE and WBGEN2_GEN_READ. *)
Definition gen_mask (offset size : Z) : Z := Z.shiftl (Z.shiftl 1 size - 1) offset.
Definition gen_write (value offset size : Z) : Z :=
  Z.shiftl (Z.land (u32 value) (Z.shiftl 1 size - 1)) offset.
Definition gen_read (reg offset size : Z) : Z :=
  Z.land (Z.shiftr reg offset) (Z.shiftl 1 size - 1).

Definition SPLL_CSR_N_REF_R (r : Z) : Z := gen_read r 16 6.
Definition SPLL_CSR_N_OUT_R (r : Z) : Z := gen_read r 24 3.
Definition SPLL_CSR_DBG_SUPPORTED : Z := gen_mask 27 1.
Definition SPLL_ECCR_EXT_EN : Z := gen_mask 0 1.
Definition SPLL_ECCR_EXT_SUPPORTED : Z := gen_mask 1 1.
Definition SPLL_ECCR_EXT_REF_LOCKED : Z := gen_mask 2 1.
Definition SPLL_ECCR_EXT_REF_STOPPED : Z := gen_mask 3 1.
Definition SPLL_ECCR_EXT_REF_PLLRST : Z := gen_mask 31 1.
Definition SPLL_OCCR_OUT_EN_R (r : Z) : Z := gen_read r 8 8.
Definition SPLL_OCCR_OUT_LOCK_W (v : Z) : Z := gen_write v 16 8.
Definition SPLL_DAC_MAIN_VALUE_W (v : Z) : Z := gen_write v 0 24.
Definition SPLL_DAC_MAIN_DAC_SEL_W (v : Z) : Z := gen_write v 24 4.
Definition SPLL_DFR_HOST_CSR_FULL : Z := gen_mask 16 1.
Definition SPLL_DFR_HOST_CSR_EMPTY : Z := gen_mask 17 1.
Definition SPLL_DFR_HOST_CSR_USEDW_R (r : Z) : Z := gen_read r 0 13.
Definition SPLL_TRR_R0_VALUE_R (r : Z) : Z := gen_read r 0 24.
Definition SPLL_TRR_R0_CHAN_ID_R (r : Z) : Z := gen_read r 24 7.
Definition SPLL_TRR_CSR_EMPTY : Z := gen_mask 17 1.
Definition PPSG_CR_CNT_RST : Z := gen_mask 0 1.
Definition PPSG_CR_CNT_EN : Z := gen_mask 1 1.
Definition PPSG_CR_PWIDTH_W (v : Z) : Z := gen_write v 4 28.
Definition PPSG_ESCR_SYNC : Z := gen_mask 0 1.

(** ** The hardware as an interface

    The gateware is not part of this repository: it is a type [W] of hardware
    states with the bus accesses, the millisecond timer and the interrupt
    mask.  A read returns a new hardware state, because it may pop a FIFO and
    because the hardware evolves between two accesses. *)
Class SpllHW (W : Type) := {
  rd : spll_reg -> M W Z;
  wr : spll_reg -> Z -> M W unit;
  timer_get_tics : M W Z;
  disable_irq : M W unit;
  enable_irq : M W unit;
  clear_irq : M W unit
}.

(** What can be said of a hardware state: the value of the registers only the
    software changes, the tags waiting in the readout FIFO and the words
    waiting in the host side of the debug FIFO. *)
Class SpllObs (W : Type) := {
  cfg : W -> spll_reg -> Z;
  tags : W -> list Z;
  dbgq : W -> list Z
}.

Definition is_cfg (r : spll_reg) : bool :=
  match r with
  | OCER | RCER | DAC_HPLL | DAC_MAIN | DEGLITCH_THR => true
  | _ => false
  end.

(** [quiet w w']: the software-owned registers and the FIFO are unchanged. *)
Definition quiet {W} `{!SpllObs W} (w w' : W) : Prop :=
  (forall r, is_cfg r = true -> cfg w' r = cfg w r) /\ tags w' = tags w.

(** The laws of the registers: read/write registers hold what was written,
    the FIFO is drained by its data register and by nothing else.  They
    describe the hardware between two arrivals of tags: the theorems that use
    them are about registers and loops, not about which tags are read.  What
    the readout of the FIFO relies on while tags keep arriving is
    [SpllFifoLaws]. *)
Class SpllLaws (W : Type) `{!SpllHW W, !SpllObs W} : Prop := {
  law_rd r w : is_cfg r = true -> ensures (rd r) w (fun v w' => v = cfg w r /\ quiet w w');
  law_rd_other r w : r <> TRR_R0 -> ensures (rd r) w (fun _ w' => quiet w w');
  law_rd_range r w : ensures (rd r) w (fun v _ => is_u32 v);
  law_rd_empty w : ensures (rd TRR_CSR) w
    (fun v _ => truth (Z.land v SPLL_TRR_CSR_EMPTY) = bool_decide (tags w = []));
  law_pop w t ts : tags w = t :: ts -> ensures (rd TRR_R0) w
    (fun v w' => v = t /\ tags w' = ts /\ forall r, is_cfg r = true -> cfg w' r = cfg w r);
  law_dbg_empty w : ensures (rd DFR_HOST_CSR) w
    (fun v w' => truth (Z.land v SPLL_DFR_HOST_CSR_EMPTY) = bool_decide (dbgq w = []) /\
                 dbgq w' = dbgq w);
  law_dbg_pop w t ts : dbgq w = t :: ts ->
    ensures (rd DFR_HOST_R0) w (fun v w' => v = t /\ dbgq w' = ts);
  law_wr_cfg r v w : is_cfg r = true -> ensures (wr r v) w
    (fun _ w' => cfg w' r = u32 v /\ tags w' = tags w /\
                 forall r', r' <> r -> is_cfg r' = true -> cfg w' r' = cfg w r');
  law_wr_other r v w : is_cfg r = false -> ensures (wr r v) w (fun _ w' => quiet w w');
  law_tics w : ensures timer_get_tics w (fun t w' => is_u32 t /\ quiet w w');
  law_irq w : ensures disable_irq w (fun _ w' => quiet w w') /\
              ensures enable_irq w (fun _ w' => quiet w w') /\
              ensures clear_irq w (fun _ w' => quiet w w')
}.

(** The readout FIFO of the tags while the taggers run: the tags that wait in
    it, and those that will enter it later, finitely many. *)
Class SpllFifoObs (W : Type) := {
  fifo : W -> list Z;
  future : W -> list Z
}.

(** All the tags still to be read, in the order of their arrival. *)
Definition queue {W} `{!SpllFifoObs W} (w : W) : list Z := fifo w ++ future w.

(** From [w] to [w'] tags may have entered the FIFO and none has left it. *)
Definition arrives {W} `{!SpllFifoObs W} (w w' : W) : Prop :=
  queue w' = queue w /\ fifo w `prefix_of` fifo w'.

(** Tags may arrive at every access; TRR_CSR tells whether the FIFO is empty at
    the time it is read, and only TRR_R0 takes a tag out. *)
Class SpllFifoLaws (W : Type) `{!SpllHW W, !SpllFifoObs W} : Prop := {
  law_fifo_rd r w : r <> TRR_R0 -> ensures (rd r) w (fun _ w' => arrives w w');
  law_fifo_empty w : ensures (rd TRR_CSR) w
    (fun v w' => truth (Z.land v SPLL_TRR_CSR_EMPTY) = bool_decide (fifo w' = []));
  law_fifo_pop w t ts : fifo w = t :: ts -> ensures (rd TRR_R0) w
    (fun v w' => v = t /\ queue w = t :: queue w' /\ ts `prefix_of` fifo w');
  law_fifo_wr r v w : ensures (wr r v) w (fun _ w' => arrives w w');
  law_fifo_tics w : ensures timer_get_tics w (fun _ w' => arrives w w');
  law_fifo_irq w : ensures disable_irq w (fun _ w' => arrives w w') /\
                   ensures enable_irq w (fun _ w' => arrives w w') /\
                   ensures clear_irq w (fun _ w' => arrives w w')
}.

Lemma arrives_refl {W} `{!SpllFifoObs W} (w : W) : arrives w w.
Proof. split; done. Qed.
Lemma arrives_trans {W} `{!SpllFifoObs W} (w1 w2 w3 : W) :
  arrives w1 w2 -> arrives w2 w3 -> arrives w1 w3.
Proof. intros [H1 H2] [H3 H4]. split; [congruence|by etrans]. Qed.

Lemma quiet_refl {W} `{!SpllObs W} (w : W) : quiet w w.
Proof. split; done. Qed.
Lemma quiet_trans {W} `{!SpllObs W} (w1 w2 w3 : W) :
  quiet w1 w2 -> quiet w2 w3 -> quiet w1 w3.
Proof.
  intros [H1 H2] [H3 H4]. split; [|congruence].
  intros r Hr. rewrite H3, H1; done.
Qed.
#[export] Hint Resolve quiet_refl : wrpc.

(** Quiet steps compose. *)
Lemma quiet_bind {W A B} `{!SpllObs W} (m : M W A) (k : A -> M W B) (w : W) :
  ensures m w (fun _ w' => quiet w w') ->
  (forall a w', ensures (k a) w' (fun _ w'' => quiet w' w'')) ->
  ensures (bind m k) w (fun _ w' => quiet w w').
Proof.
  intros Hm Hk. apply ensures_bind. eapply ensures_mono; [exact Hm|].
  intros a w1 H1. eapply ensures_mono; [apply Hk|]. intros b w2 H2. exact (quiet_trans _ _ _ H1 H2).
Qed.

(** ** A simulated register block

    The instance the concrete runs use: a register file, a FIFO and a clock
    that the environment sets. *)
Record sim := Sim {
  sim_regs : spll_reg -> Z; sim_tags : list Z; sim_dbg : list Z; sim_now : Z; sim_ie : bool }.
#[export] Instance eta_sim : Etable sim :=
  fun r => Sim (sim_regs r) (sim_tags r) (sim_dbg r) (sim_now r) (sim_ie r).

Definition sim_rd (r : spll_reg) : M sim Z := fun w =>
  match r with
  | TRR_CSR => ((if bool_decide (sim_tags w = []) then SPLL_TRR_CSR_EMPTY else 0), w)
  | TRR_R0 => match sim_tags w with
              | [] => (0, w)
              | t :: ts => (u32 t, w <| sim_tags := ts |>)
              end
  | DFR_HOST_CSR => ((if bool_decide (sim_dbg w = []) then SPLL_DFR_HOST_CSR_EMPTY else 0), w)
  | DFR_HOST_R0 => match sim_dbg w with
                   | [] => (0, w)
                   | t :: ts => (u32 t, w <| sim_dbg := ts |>)
                   end
  | _ => (u32 (sim_regs w r), w)
  end.
Definition sim_wr (r : spll_reg) (v : Z) : M sim unit := fun w =>
  (tt, w <| sim_regs := fun r' => if decide (r' = r) then v else sim_regs w r' |>).

#[export] Instance sim_hw : SpllHW sim := {
  rd := sim_rd;
  wr := sim_wr;
  timer_get_tics := fun w => (u32 (sim_now w), w);
  disable_irq := fun w => (tt, w <| sim_ie := false |>);
  enable_irq := fun w => (tt, w <| sim_ie := true |>);
  clear_irq := ret tt
}.
#[export] Instance sim_obs : SpllObs sim := {
  cfg w r := u32 (sim_regs w r);
  tags w := u32 <$> sim_tags w;
  dbgq w := u32 <$> sim_dbg w
}.

#[export] Instance sim_laws : SpllLaws sim.
Proof.
  constructor.
  - intros r w Hr. by destruct r.
  - intros r w Hr. unfold ensures. simpl. destruct r; simpl; try done.
    by destruct (sim_dbg w).
  - intros r w. unfold ensures. simpl.
    destruct r; simpl; try apply u32_range.
    + destruct (sim_dbg w); simpl; [unfold is_u32; lia|apply u32_range].
    + by destruct (sim_dbg w).
    + destruct (sim_tags w); simpl; [unfold is_u32; lia|apply u32_range].
    + by destruct (sim_tags w).
  - intros w. unfold ensures. simpl. by destruct (sim_tags w).
  - intros w t ts. unfold ensures. simpl.
    destruct (sim_tags w) as [|t' ts']; simpl; [done|]. intros [= <- <-]. done.
  - intros w. unfold ensures. simpl. by destruct (sim_dbg w).
  - intros w t ts. unfold ensures. simpl.
    destruct (sim_dbg w) as [|t' ts']; simpl; [done|]. intros [= <- <-]. done.
  - intros r v w Hr. unfold ensures. simpl. split_and!; [|done|].
    + by rewrite decide_True.
    + intros r' Hne _. by rewrite decide_False.
  - intros r v w Hr. unfold ensures, quiet. simpl. split; [|done].
    intros r' Hr'. rewrite decide_False; [done|congruence].
  - intros w. unfold ensures. simpl. split; [apply u32_range|apply quiet_refl].
  - intros w. repeat split.
Qed.

(** The simulated block with tags that arrive while the software runs: a
    schedule gives the tags that arrive just before each access. *)
Record fsim := Fsim { fs_sim : sim; fs_sched : list (list Z) }.

Definition fs_tick (w : fsim) : fsim :=
  match fs_sched w with
  | [] => w
  | new :: sched => Fsim ((fs_sim w) <| sim_tags := sim_tags (fs_sim w) ++ new |>) sched
  end.
Definition fs_lift {A} (m : M sim A) : M fsim A := fun w =>
  let w := fs_tick w in
  let '(a, s) := m (fs_sim w) in (a, Fsim s (fs_sched w)).

#[export] Instance fsim_hw : SpllHW fsim | 10 := {
  rd r := fs_lift (rd r);
  wr r v := fs_lift (wr r v);
  timer_get_tics := fs_lift timer_get_tics;
  disable_irq := fs_lift disable_irq;
  enable_irq := fs_lift enable_irq;
  clear_irq := fs_lift clear_irq
}.
#[export] Instance fsim_obs : SpllFifoObs fsim := {
  fifo w := u32 <$> sim_tags (fs_sim w);
  future w := u32 <$> concat (fs_sched w)
}.

Lemma fs_tick_arrives w : arrives w (fs_tick w).
Proof.
  unfold fs_tick. destruct w as [s [|new sched]]; [apply arrives_refl|].
  unfold arrives, queue. cbn. split.
  - by rewrite !fmap_app, app_assoc.
  - rewrite fmap_app. by apply prefix_app_r.
Qed.

(** An access that leaves the FIFO of [sim] alone. *)
Lemma fs_lift_arrives {A} (m : M sim A) w :
  (forall s, ensures m s (fun _ s' => sim_tags s' = sim_tags s)) ->
  ensures (fs_lift m) w (fun _ w' => arrives w w').
Proof.
  intros Hm. unfold ensures, fs_lift in *. specialize (Hm (fs_sim (fs_tick w))).
  destruct (m (fs_sim (fs_tick w))) as [a s]. cbn [snd].
  apply (arrives_trans _ _ _ (fs_tick_arrives w)). unfold arrives, queue, fifo, future. cbn.
  cbn in Hm. by rewrite Hm.
Qed.

#[export] Instance fsim_laws : SpllFifoLaws fsim.
Proof.
  constructor.
  - intros r w Hr. apply fs_lift_arrives. intros s. unfold ensures. simpl.
    destruct r; simpl; try done. by destruct (sim_dbg s).
  - intros w. unfold ensures. simpl. unfold fs_lift. simpl.
    by destruct (sim_tags (fs_sim (fs_tick w))).
  - intros w t ts Hw. destruct (fs_tick_arrives w) as [Hq [new Hf]].
    unfold ensures, queue in *. cbn in *. unfold fs_lift. cbn. rewrite Hw in *.
    destruct (sim_tags (fs_sim (fs_tick w))) as [|t' ts']; [done|]. cbn in *.
    injection Hf as Ht Hts. rewrite Ht, <- Hq, Hts, Ht. split_and!; [done|done|by exists new].
  - intros r v w. by apply fs_lift_arrives.
  - intros w. by apply fs_lift_arrives.
  - intros w. split_and!; by apply fs_lift_arrives.
Qed.

(** The initial hardware of the simulations: CSR announces [n_ref] reference
    and [n_out] output channels. *)
Definition sim_boot (n_ref n_out : Z) : sim :=
  Sim (fun r => match r with
                | CSR => Z.shiftl n_ref 16 + Z.shiftl n_out 24
                | _ => 0 end) [] [] 0 true.

(** ** Register accessors of softpll/spll_common.c *)
Section accessors.
Context {W : Type} `{!SpllHW W}.

(** [spll_enable_tagger]: [n_ref] is the global spll_n_chan_ref. *)
Definition spll_enable_tagger (n_ref channel enable : Z) : M W unit :=
  if n_ref <=? channel then
    let! v := rd OCER in
    if truth enable
    then wr OCER (Z.lor v (u32 (1 << (channel - n_ref))%int))
    else wr OCER (Z.land v (u32 (Z.lnot (1 << (channel - n_ref))%int)))
  else
    let! v := rd RCER in
    if truth enable
    then wr RCER (Z.lor v (u32 (1 << channel)%int))
    else wr RCER (Z.land v (u32 (Z.lnot (1 << channel)%int))).

(** [spll_debug] *)
Definition spll_debug (src what value last : Z) : M W unit :=
  wr DFR_SPLL
    (Z.lor (Z.lor (Z.lor (if truth last then 2147483648 else 0) (Z.land value 16777215))
                  (u32 (src << 28)%int))
           (u32 (what << 24)%int)).
End accessors.

(** The register and the bit that enable the tagger of a channel. *)
Definition tagger_reg (n_ref channel : Z) : spll_reg := if n_ref <=? channel then OCER else RCER.
Definition tagger_bit (n_ref channel : Z) : Z :=
  if n_ref <=? channel then channel - n_ref else channel.

Section accessor_lemmas.
Context {W : Type} `{!SpllHW W, !SpllObs W, !SpllLaws W}.

Lemma spll_debug_quiet src what value last (w : W) :
  ensures (spll_debug src what value last) w (fun _ w' => quiet w w').
Proof. by apply law_wr_other. Qed.

Lemma law_tics_quiet (w : W) : ensures timer_get_tics w (fun _ w' => quiet w w').
Proof. eapply ensures_mono; [apply law_tics|]. by intros t w' []. Qed.

Lemma when_quiet b (m : M W unit) w :
  ensures m w (fun _ w' => quiet w w') -> ensures (when b m) w (fun _ w' => quiet w w').
Proof. intros H. apply ensures_when; auto with wrpc. Qed.

(** A shifted one has a single bit set. *)
Lemma testbit_one_shl n i :
  0 <= n < 31 -> 0 <= i -> Z.testbit (u32 (1 << n)%int) i = (i =? n).
Proof.
  intros Hn Hi. unfold ishl. rewrite Z.shiftl_1_l.
  assert (0 < 2 ^ n <= 2 ^ 30)
    by (split; [apply Z.pow_pos_nonneg; lia|apply Z.pow_le_mono_r; lia]).
  rewrite s32_small by (unfold is_s32; lia). rewrite u32_small by (unfold is_u32; lia).
  rewrite Z.eqb_sym. apply Z.pow2_bits_eqb. lia.
Qed.

Lemma testbit_not_one_shl n i :
  0 <= n < 31 -> 0 <= i < 32 -> Z.testbit (u32 (Z.lnot (1 << n)%int)) i = negb (i =? n).
Proof.
  intros Hn Hi. unfold u32. change 4294967296 with (2 ^ 32).
  rewrite Z.mod_pow2_bits_low by lia. rewrite Z.lnot_spec by lia. f_equal.
  rewrite <- (testbit_one_shl n i) by lia. unfold u32. change 4294967296 with (2 ^ 32).
  by rewrite Z.mod_pow2_bits_low by lia.
Qed.

(** The tagger of a channel is switched and every other bit of the two
    tagging registers is left alone. *)
Lemma spll_enable_tagger_spec n_ref channel enable (w : W) :
  0 <= tagger_bit n_ref channel < 31 -> is_s32 n_ref -> is_s32 channel ->
  ensures (spll_enable_tagger n_ref channel enable) w (fun _ w' =>
    tags w' = tags w /\
    (forall i, 0 <= i < 32 ->
       Z.testbit (cfg w' (tagger_reg n_ref channel)) i =
       if i =? tagger_bit n_ref channel then truth enable
       else Z.testbit (cfg w (tagger_reg n_ref channel)) i) /\
    (forall r, r <> tagger_reg n_ref channel -> is_cfg r = true -> cfg w' r = cfg w r)).
Proof.
  unfold spll_enable_tagger, tagger_bit, tagger_reg. intros Hb Hn Hc.
  assert (Hstep : forall (r : spll_reg) b, (r = OCER \/ r = RCER) -> 0 <= b < 31 ->
    ensures (let! v := rd r in
             if truth enable then wr r (Z.lor v (u32 (1 << b)%int))
             else wr r (Z.land v (u32 (Z.lnot (1 << b)%int)))) w
      (fun _ w' => tags w' = tags w /\
       (forall i, 0 <= i < 32 -> Z.testbit (cfg w' r) i =
          if i =? b then truth enable else Z.testbit (cfg w r) i) /\
       (forall r', r' <> r -> is_cfg r' = true -> cfg w' r' = cfg w r'))).
  { intros r b Hr Hb'. assert (Hcfg : is_cfg r = true) by (destruct Hr; by subst).
    apply ensures_bind. eapply ensures_mono; [apply (law_rd r w Hcfg)|].
    intros v w1 [-> [Hq Ht]].
    destruct (truth enable) eqn:He;
      (eapply ensures_mono; [apply (law_wr_cfg r _ w1 Hcfg)|]);
      intros _ w2 (Hv & Ht2 & Ho); (split_and!; [congruence| |intros; rewrite Ho, Hq; done]);
      intros i Hi; rewrite Hv; unfold u32 at 1; change 4294967296 with (2 ^ 32);
      rewrite Z.mod_pow2_bits_low by lia.
    - rewrite Z.lor_spec, testbit_one_shl by lia.
      destruct (i =? b); [apply orb_true_r|apply orb_false_r].
    - rewrite Z.land_spec, testbit_not_one_shl by lia.
      destruct (i =? b); [apply andb_false_r|apply andb_true_r]. }
  destruct (Z.leb_spec n_ref channel).
  - assert ((channel - n_ref)%int = channel - n_ref) as ->
      by (apply s32_small; unfold is_s32 in *; lia).
    apply Hstep; auto.
  - apply Hstep; auto.
Qed.
End accessor_lemmas.
