(* ===== verification/SpllCommon.v ===== *)
(** softpll/spll_common.c: the PI regulator and the lock detector every loop
    of the SoftPLL is built from.  [Module Pi] gives the regulator, the ideal
    rounding-and-clamping specification it implements and the invariant that
    keeps its 64-bit integrator from overflowing; [Module Ld] gives the lock
    detector and its hysteresis. *)
From Stdlib Require Import ZArith Lia.
From stdpp Require Import base numbers option list.
From S2P Require Import Prelude.

(** ** Data *)

(** spll_pi_t *)
Record spll_pi_t := mk_pi {
  pi_ki : Z; pi_kp : Z;
  pi_shift : Z;
  pi_bias : Z;
  pi_integrator : Z;
  pi_anti_windup : Z;
  pi_y_min : Z;
  pi_y_max : Z;
  pi_x : Z; pi_y : Z
}.
#[export] Instance eta_pi : Etable spll_pi_t := fun p =>
  mk_pi (pi_ki p) (pi_kp p) (pi_shift p) (pi_bias p) (pi_integrator p) (pi_anti_windup p)
        (pi_y_min p) (pi_y_max p) (pi_x p) (pi_y p).

(** spll_lock_det_t *)
Record spll_lock_det_t := mk_ld {
  ld_lock_cnt : Z;
  ld_lock_samples : Z;
  ld_delock_samples : Z;
  ld_threshold : Z;
  ld_locked : Z;
  ld_lock_changed : Z
}.
#[export] Instance eta_ld : Etable spll_lock_det_t := fun l =>
  mk_ld (ld_lock_cnt l) (ld_lock_samples l) (ld_delock_samples l) (ld_threshold l)
        (ld_locked l) (ld_lock_changed l).

(** spll_gain_schedule_item_t and spll_gain_schedule_t *)
Record spll_gain_schedule_item_t := mk_stage {
  st_kp : Z; st_ki : Z; st_shift : Z; st_lock_samples : Z }.
#[export] Instance eta_stage : Etable spll_gain_schedule_item_t := fun g =>
  mk_stage (st_kp g) (st_ki g) (st_shift g) (st_lock_samples g).
Record spll_gain_schedule_t := mk_sched {
  gs_n_stages : Z;
  gs_current_stage : Z;
  gs_stages : list spll_gain_schedule_item_t;
  gs_locked_d : Z }.
#[export] Instance eta_sched : Etable spll_gain_schedule_t := fun g =>
  mk_sched (gs_n_stages g) (gs_current_stage g) (gs_stages g) (gs_locked_d g).

(** ** The PI regulator *)
Module Pi.

(** [pi_update]: the new regulator state and the returned output. *)
Definition pi_update (pi : spll_pi_t) (x : Z) : spll_pi_t * Z :=
  let pi := pi <| pi_x := x |> in
  let i_new := s64 (pi_integrator pi + s64 (pi_ki pi * x)) in
  let y_preround :=
    s64 (s64 (i_new + s64 (x * pi_kp pi)) + (1 << (pi_shift pi - 1))%int) in
  let y := s32 (s64 (Z.shiftr y_preround (pi_shift pi) + pi_bias pi)) in
  let aw := truth (pi_anti_windup pi) in
  if y <? pi_y_min pi then
    let y := pi_y_min pi in
    let pi := if (aw && (pi_integrator pi <? i_new)) || negb aw
              then pi <| pi_integrator := i_new |> else pi in
    (pi <| pi_y := y |>, y)
  else if pi_y_max pi <? y then
    let y := pi_y_max pi in
    let pi := if (aw && (i_new <? pi_integrator pi)) || negb aw
              then pi <| pi_integrator := i_new |> else pi in
    (pi <| pi_y := y |>, y)
  else
    let pi := pi <| pi_integrator := i_new |> in
    (pi <| pi_y := y |>, y).

(** [pi_init] *)
Definition pi_init (pi : spll_pi_t) : spll_pi_t :=
  (pi <| pi_integrator := 0 |>) <| pi_y := pi_bias pi |>.

(** *** Specification

    On unbounded integers: integrate, add the proportional term, divide by
    [2^shift] rounding to nearest, add the bias, clamp; while the output is
    clamped the integrator only moves back towards the range. *)
Definition unclamped (pi : spll_pi_t) (x : Z) : Z :=
  (pi_integrator pi + pi_ki pi * x + pi_kp pi * x + 2 ^ (pi_shift pi - 1))
    / 2 ^ pi_shift pi + pi_bias pi.
Definition pi_spec (pi : spll_pi_t) (x : Z) : Z * Z :=
  let i := pi_integrator pi + pi_ki pi * x in
  let v := unclamped pi x in
  if v <? pi_y_min pi then (Z.max (pi_integrator pi) i, pi_y_min pi)
  else if pi_y_max pi <? v then (Z.min (pi_integrator pi) i, pi_y_max pi)
  else (i, v).

(** The largest integrator value for inputs within [X]. *)
Definition int_max (pi : spll_pi_t) (X : Z) : Z :=
  2 ^ pi_shift pi * 2 ^ 26 + Z.abs (pi_kp pi) * X.

(** [gains_ok pi X]: the configuration of the regulator is in range and its
    gains are small enough for inputs of magnitude [X]. *)
Definition gains_ok (pi : spll_pi_t) (X : Z) : Prop :=
  1 <= pi_shift pi <= 16 /\ 0 <= X /\
  0 <= pi_y_min pi <= pi_y_max pi /\ pi_y_max pi < 2 ^ 24 /\ 0 <= pi_bias pi <= 2 ^ 24 /\
  pi_anti_windup pi <> 0 /\
  (2 * Z.abs (pi_kp pi) + Z.abs (pi_ki pi)) * X <= 2 ^ pi_shift pi * 2 ^ 29.

(** [pi_ok pi X]: and the integrator is within its bound. *)
Definition pi_ok (pi : spll_pi_t) (X : Z) : Prop :=
  gains_ok pi X /\ Z.abs (pi_integrator pi) <= int_max pi X.

Lemma pow_shift_pos (pi : spll_pi_t) X : gains_ok pi X -> 2 <= 2 ^ pi_shift pi <= 2 ^ 16.
Proof.
  intros (Hs & _). split; [change 2 with (2 ^ 1) at 1|]; apply Z.pow_le_mono_r; lia.
Qed.

Lemma pow_shift_half (pi : spll_pi_t) X :
  gains_ok pi X -> 2 ^ pi_shift pi = 2 * 2 ^ (pi_shift pi - 1).
Proof.
  intros (Hs & _). replace (pi_shift pi) with (1 + (pi_shift pi - 1)) at 1 by lia.
  rewrite Z.pow_add_r by lia. lia.
Qed.

(** Bounds of the products. *)
Lemma mul_abs_le k x X : Z.abs x <= X -> Z.abs (k * x) <= Z.abs k * X.
Proof. intros H. rewrite Z.abs_mul. apply Z.mul_le_mono_nonneg_l; lia. Qed.

(** Under the invariant no intermediate value of [pi_update] leaves its C
    type. *)
Lemma pi_update_eq pi x X :
  pi_ok pi X -> Z.abs x <= X ->
  pi_update pi x =
  ((pi <| pi_x := x |>) <| pi_integrator := (pi_spec pi x).1 |> <| pi_y := (pi_spec pi x).2 |>,
   (pi_spec pi x).2).
Proof.
  intros [Hg Hi] Hx. pose proof (pow_shift_pos pi X Hg) as Hp.
  pose proof (pow_shift_half pi X Hg) as Hh.
  pose proof (mul_abs_le (pi_ki pi) x X Hx) as Hki.
  pose proof (mul_abs_le (pi_kp pi) x X Hx) as Hkp.
  destruct Hg as (Hs & HX & Hy & Hym & Hb & Haw & Hsum).
  unfold int_max in Hi. rewrite Z.mul_add_distr_r in Hsum.
  assert (Hk0 : 0 <= Z.abs (pi_kp pi) * X) by (apply Z.mul_nonneg_nonneg; lia).
  assert (Hk1 : 0 <= Z.abs (pi_ki pi) * X) by (apply Z.mul_nonneg_nonneg; lia).
  assert (Hone : (1 << (pi_shift pi - 1))%int = 2 ^ (pi_shift pi - 1)).
  { unfold isub. rewrite s32_small by (unfold is_s32; lia).
    unfold ishl. rewrite Z.shiftl_1_l. rewrite s32_small; [done|unfold is_s32; lia]. }
  unfold pi_update, pi_spec, unclamped. cbn [pi_integrator pi_ki pi_kp pi_shift pi_bias pi_y_min
    pi_y_max pi_anti_windup upd]. rewrite Hone. set (P := 2 ^ pi_shift pi) in *.
  rewrite (Z.mul_comm x (pi_kp pi)).
  rewrite (s64_small (pi_ki pi * x)) by (unfold is_s64; lia).
  rewrite (s64_small (pi_kp pi * x)) by (unfold is_s64; lia).
  rewrite (s64_small (pi_integrator pi + _)) by (unfold is_s64; lia).
  rewrite (s64_small (_ + pi_kp pi * x)) by (unfold is_s64; lia).
  rewrite (s64_small (_ + 2 ^ _)) by (unfold is_s64; lia).
  rewrite Z.shiftr_div_pow2 by lia. fold P.
  set (n := pi_integrator pi + pi_ki pi * x + pi_kp pi * x + 2 ^ (pi_shift pi - 1)).
  assert (Hn : - (P * 2 ^ 30) <= n <= P * 2 ^ 30) by (unfold n; lia).
  assert (Hd : - 2 ^ 30 <= n / P <= 2 ^ 30).
  { split; [apply Z.div_le_lower_bound; lia|apply Z.div_le_upper_bound; lia]. }
  rewrite (s64_small (n / P + _)) by (unfold is_s64; lia).
  rewrite (s32_small (n / P + _)) by (unfold is_s32; lia).
  destruct (truth_spec (pi_anti_windup pi)); [|lia]. cbn [andb orb negb].
  rewrite !orb_false_r.
  repeat case_match; try done; bool_hyps; cbn [fst snd]; rewrite ?Z.max_r, ?Z.max_l, ?Z.min_l, ?Z.min_r by lia; try done.
  all: by destruct pi.
Qed.

(** The integrator bound is kept: inside the range the integrator is
    determined by the output, outside it the anti-windup stops it. *)
Lemma pi_spec_integrator pi x X :
  pi_ok pi X -> Z.abs x <= X -> Z.abs (pi_spec pi x).1 <= int_max pi X.
Proof.
  intros [Hg Hi] Hx. pose proof (pow_shift_pos pi X Hg) as Hp.
  pose proof (pow_shift_half pi X Hg) as Hh.
  pose proof (mul_abs_le (pi_kp pi) x X Hx) as Hkp.
  destruct Hg as (Hs & HX & Hy & Hym & Hb & Haw & Hsum).
  unfold int_max in *. unfold pi_spec, unclamped.
  set (P := 2 ^ pi_shift pi) in *.
  set (n := pi_integrator pi + pi_ki pi * x + pi_kp pi * x + 2 ^ (pi_shift pi - 1)).
  assert (Hn : n = pi_integrator pi + pi_ki pi * x + pi_kp pi * x + 2 ^ (pi_shift pi - 1)) by done.
  clearbody n.
  pose proof (Z.div_mod n P ltac:(lia)) as Hdm.
  pose proof (Z.mod_pos_bound n P ltac:(lia)) as Hmod.
  assert (Hq : forall a b, a <= b -> P * a <= P * b) by (intros; apply Z.mul_le_mono_nonneg_l; lia).
  destruct (Z.ltb_spec (n / P + pi_bias pi) (pi_y_min pi)) as [Hlo|Hlo];
    [|destruct (Z.ltb_spec (pi_y_max pi) (n / P + pi_bias pi)) as [Hhi|Hhi]]; cbn [fst].
  - pose proof (Hq (n / P) (2 ^ 24) ltac:(lia)). lia.
  - pose proof (Hq (- 2 ^ 24) (n / P) ltac:(lia)). lia.
  - pose proof (Hq (- 2 ^ 24) (n / P) ltac:(lia)).
    pose proof (Hq (n / P) (2 ^ 24) ltac:(lia)). lia.
Qed.

Lemma pi_update_ok pi x X :
  pi_ok pi X -> Z.abs x <= X -> pi_ok (pi_update pi x).1 X.
Proof.
  intros Hok Hx. rewrite (pi_update_eq pi x X) by done.
  split; [exact (proj1 Hok)|]. exact (pi_spec_integrator pi x X Hok Hx).
Qed.

Lemma pi_init_ok pi X : gains_ok pi X -> pi_ok (pi_init pi) X.
Proof.
  intros Hg. split; [exact Hg|]. pose proof (pow_shift_pos pi X Hg).
  destruct Hg as (_ & HX & _). unfold int_max. cbn.
  pose proof (Z.mul_nonneg_nonneg (Z.abs (pi_kp pi)) X ltac:(lia) HX). lia.
Qed.

(** The clamp needs no invariant: whatever the regulator holds, the output is
    between the limits, and it is what the state remembers. *)
Lemma pi_update_clamp pi x :
  pi_y_min pi <= pi_y_max pi ->
  pi_y_min pi <= (pi_update pi x).2 <= pi_y_max pi /\
  pi_y (pi_update pi x).1 = (pi_update pi x).2.
Proof.
  intros H. unfold pi_update. cbn [pi_y_min pi_y_max upd].
  match goal with |- context [s32 (s64 ?e)] => generalize (s32 (s64 e)) end. intros y.
  repeat case_match; cbn; (split; [|done]); bool_hyps; lia.
Qed.

(** [pi_update] changes only the integrator, the input and the output. *)
Lemma pi_update_config pi x :
  let pi' := (pi_update pi x).1 in
  pi_ki pi' = pi_ki pi /\ pi_kp pi' = pi_kp pi /\ pi_shift pi' = pi_shift pi /\
  pi_bias pi' = pi_bias pi /\ pi_anti_windup pi' = pi_anti_windup pi /\
  pi_y_min pi' = pi_y_min pi /\ pi_y_max pi' = pi_y_max pi /\ pi_x pi' = x.
Proof. unfold pi_update. repeat case_match; by cbn. Qed.

(** A run of the regulator over a sequence of error samples. *)
Fixpoint pi_run (pi : spll_pi_t) (xs : list Z) : spll_pi_t * list Z :=
  match xs with
  | [] => (pi, [])
  | x :: xs => let '(pi, y) := pi_update pi x in
               let '(pi, ys) := pi_run pi xs in (pi, y :: ys)
  end.

(** The same run of the specification. *)
Fixpoint pi_spec_run (pi : spll_pi_t) (xs : list Z) : list Z :=
  match xs with
  | [] => []
  | x :: xs => let '(i, y) := pi_spec pi x in
               y :: pi_spec_run (pi <| pi_integrator := i |>) xs
  end.

Lemma pi_spec_ext pi pi' x :
  pi_ki pi = pi_ki pi' -> pi_kp pi = pi_kp pi' -> pi_shift pi = pi_shift pi' ->
  pi_bias pi = pi_bias pi' -> pi_y_min pi = pi_y_min pi' -> pi_y_max pi = pi_y_max pi' ->
  pi_integrator pi = pi_integrator pi' -> pi_spec pi x = pi_spec pi' x.
Proof. unfold pi_spec, unclamped. by intros -> -> -> -> -> -> ->. Qed.

Lemma pi_spec_run_ext pi pi' xs :
  pi_ki pi = pi_ki pi' -> pi_kp pi = pi_kp pi' -> pi_shift pi = pi_shift pi' ->
  pi_bias pi = pi_bias pi' -> pi_y_min pi = pi_y_min pi' -> pi_y_max pi = pi_y_max pi' ->
  pi_integrator pi = pi_integrator pi' -> pi_spec_run pi xs = pi_spec_run pi' xs.
Proof.
  revert pi pi'. induction xs as [|x xs IH]; [done|]. intros pi pi' H1 H2 H3 H4 H5 H6 H7. simpl.
  rewrite (pi_spec_ext pi pi') by done. destruct (pi_spec pi' x) as [i y]. f_equal. by apply IH.
Qed.

(** C1. The regulator implements its specification on
    every run: started by [pi_init] with gains in range, for any sequence of
    error samples bounded by [X] the fixed-point code with its 64-bit
    integrator and 32-bit output produces exactly the outputs of the
    unbounded-integer rounding, clamping and anti-windup specification; no
    intermediate value overflows however long the run is. *)
Theorem pi_run_refines_spec pi xs X :
  gains_ok pi X -> Forall (fun x => Z.abs x <= X) xs ->
  (pi_run (pi_init pi) xs).2 = pi_spec_run (pi_init pi) xs /\ pi_ok (pi_run (pi_init pi) xs).1 X.
Proof.
  intros Hg. generalize (pi_init_ok pi X Hg). generalize (pi_init pi). clear pi Hg.
  intros pi Hok Hxs. revert pi Hok. induction Hxs as [|x xs Hx Hxs IH]; intros pi Hok; [done|].
  pose proof (pi_update_ok pi x X Hok Hx) as Hok'.
  pose proof (pi_update_eq pi x X Hok Hx) as Heq.
  cbn [pi_run pi_spec_run]. destruct (pi_update pi x) as [pi' y]. injection Heq as Hpi Hy.
  specialize (IH pi' Hok'). destruct (pi_run pi' xs) as [pi'' ys]. destruct IH as [IH1 IH2].
  split; [|exact IH2]. cbn [snd] in *. destruct (pi_spec pi x) as [i v]. cbn in *.
  subst y pi'. f_equal. rewrite IH1. by apply pi_spec_run_ext.
Qed.

Lemma pi_run_refines_spec_witness :
  (pi_run (pi_init (mk_pi (-2) (-150) 12 65531 0 1 5 65531 0 0)) [150000; -3; 77; -150000]).2
  = pi_spec_run (pi_init (mk_pi (-2) (-150) 12 65531 0 1 5 65531 0 0)) [150000; -3; 77; -150000].
Proof.
  apply (pi_run_refines_spec (mk_pi (-2) (-150) 12 65531 0 1 5 65531 0 0) _ 150000).
  - unfold gains_ok. simpl. lia.
  - repeat constructor; simpl; lia.
Defined.
End Pi.

(** ** The lock detector *)
Module Ld.

(** The abs macro of include/util.h. *)
Definition cabs (x : Z) : Z := if 0 <=? x then x else (- x)%int.

(** [ld_update]: the new detector state and the returned code. *)
Definition ld_update (ld : spll_lock_det_t) (y : Z) : spll_lock_det_t * Z :=
  let ld := ld <| ld_lock_changed := 0 |> in
  if cabs y <=? ld_threshold ld then
    let ld := if ld_lock_cnt ld <? ld_lock_samples ld
              then ld <| ld_lock_cnt := (ld_lock_cnt ld + 1)%int |> else ld in
    if ld_lock_cnt ld =? ld_lock_samples ld then
      let ld := ld <| ld_lock_changed := b2z (negb (truth (ld_locked ld))) |> in
      let ld := ld <| ld_locked := 1 |> in
      (ld, 1)
    else (ld, ld_locked ld)
  else
    let ld := if ld_delock_samples ld <? ld_lock_cnt ld
              then ld <| ld_lock_cnt := (ld_lock_cnt ld - 1)%int |> else ld in
    if (ld_lock_cnt ld =? ld_delock_samples ld) && truth (ld_locked ld) then
      let ld := ld <| ld_lock_cnt := 0 |> in
      let ld := ld <| ld_lock_changed := ld_locked ld |> in
      let ld := ld <| ld_locked := 0 |> in
      (ld, -1)
    else (ld, ld_locked ld).

(** [ld_init] *)
Definition ld_init (ld : spll_lock_det_t) : spll_lock_det_t :=
  ld <| ld_locked := 0 |> <| ld_lock_cnt := 0 |> <| ld_lock_changed := 0 |>.

(** A detector fed with a sequence of samples. *)
Definition ld_run (ld : spll_lock_det_t) (ys : list Z) : spll_lock_det_t :=
  foldl (fun ld y => (ld_update ld y).1) ld ys.

(** *** Invariant *)

(** The thresholds as the comment of spll_common.h wants them. *)
Definition ld_config_ok (ld : spll_lock_det_t) : Prop :=
  0 <= ld_delock_samples ld < ld_lock_samples ld /\ ld_lock_samples ld < 2147483647.

(** A locked detector is above the delock level, an unlocked one below the
    lock level. *)
Definition ld_inv (ld : spll_lock_det_t) : Prop :=
  0 <= ld_lock_cnt ld <= ld_lock_samples ld /\
  (ld_locked ld = 0 /\ ld_lock_cnt ld < ld_lock_samples ld \/
   ld_locked ld = 1 /\ ld_delock_samples ld < ld_lock_cnt ld).

Definition good (ld : spll_lock_det_t) (y : Z) : bool := cabs y <=? ld_threshold ld.

(** [ld_update] never touches the thresholds. *)
Lemma ld_update_config ld y :
  ld_lock_samples (ld_update ld y).1 = ld_lock_samples ld /\
  ld_delock_samples (ld_update ld y).1 = ld_delock_samples ld /\
  ld_threshold (ld_update ld y).1 = ld_threshold ld.
Proof. unfold ld_update. repeat case_match; done. Qed.

Lemma ld_config_ok_update ld y : ld_config_ok ld -> ld_config_ok (ld_update ld y).1.
Proof. unfold ld_config_ok. destruct (ld_update_config ld y) as (-> & -> & _). done. Qed.

(** The two kinds of samples, as steps of an up/down counter. *)
Lemma ld_update_good ld y :
  ld_config_ok ld -> ld_inv ld -> good ld y = true ->
  let ld' := (ld_update ld y).1 in
  ld_inv ld' /\ ld_lock_cnt ld' = Z.min (ld_lock_cnt ld + 1) (ld_lock_samples ld) /\
  (ld_locked ld = 1 -> ld_locked ld' = 1) /\
  (ld_locked ld' = 1 <-> ld_locked ld = 1 \/ ld_lock_cnt ld' = ld_lock_samples ld).
Proof.
  unfold ld_config_ok, ld_inv, good, ld_update. intros Hc Hi Hg.
  cbn [ld_threshold ld_lock_cnt ld_lock_samples upd]. rewrite Hg.
  destruct (Z.ltb_spec (ld_lock_cnt ld) (ld_lock_samples ld)); cbn [ld_lock_cnt ld_lock_samples upd].
  - unfold iadd. rewrite s32_small by (unfold is_s32; lia).
    destruct (Z.eqb_spec (ld_lock_cnt ld + 1) (ld_lock_samples ld)); cbn; lia.
  - destruct (Z.eqb_spec (ld_lock_cnt ld) (ld_lock_samples ld)); cbn; lia.
Qed.

Lemma ld_update_bad ld y :
  ld_config_ok ld -> ld_inv ld -> good ld y = false ->
  let ld' := (ld_update ld y).1 in
  ld_inv ld' /\ ld_lock_cnt ld' <= ld_lock_cnt ld /\
  (ld_locked ld = 0 -> ld_locked ld' = 0) /\
  (ld_locked ld' = 1 -> ld_lock_cnt ld' = ld_lock_cnt ld - 1) /\
  (ld_locked ld = 1 -> (ld_locked ld' = 0 <-> ld_lock_cnt ld = ld_delock_samples ld + 1)).
Proof.
  unfold ld_config_ok, ld_inv, good, ld_update. intros Hc Hi Hg.
  cbn [ld_threshold ld_lock_cnt ld_delock_samples ld_locked upd]. rewrite Hg.
  destruct (Z.ltb_spec (ld_delock_samples ld) (ld_lock_cnt ld));
    cbn [ld_lock_cnt ld_delock_samples ld_locked upd].
  - unfold isub. rewrite s32_small by (unfold is_s32; lia).
    destruct (Z.eqb_spec (ld_lock_cnt ld - 1) (ld_delock_samples ld));
      destruct (truth_spec (ld_locked ld)); cbn; lia.
  - destruct (Z.eqb_spec (ld_lock_cnt ld) (ld_delock_samples ld));
      destruct (truth_spec (ld_locked ld)); cbn; lia.
Qed.

Lemma ld_inv_update ld y : ld_config_ok ld -> ld_inv ld -> ld_inv (ld_update ld y).1.
Proof.
  intros Hc Hi. destruct (good ld y) eqn:Hg.
  - by destruct (ld_update_good ld y Hc Hi Hg).
  - by destruct (ld_update_bad ld y Hc Hi Hg).
Qed.

Lemma ld_inv_init ld : ld_config_ok ld -> ld_inv (ld_init ld).
Proof. unfold ld_config_ok, ld_inv, ld_init. cbn. lia. Qed.

(** The documented return value (0 not locked, 1 locked, -1 just lost) and the
    change flag. *)
Lemma ld_update_return ld y :
  ld_config_ok ld -> ld_inv ld ->
  let '(ld', r) := ld_update ld y in
  r = (if ld_locked ld' =? 1 then 1 else if ld_locked ld =? 1 then -1 else 0) /\
  ld_lock_changed ld' = b2z (negb (ld_locked ld' =? ld_locked ld)).
Proof.
  unfold ld_config_ok, ld_inv, ld_update. intros Hc Hi.
  cbn [ld_threshold ld_lock_cnt ld_lock_samples ld_delock_samples ld_locked upd].
  repeat case_match; bool_hyps; cbn [ld_threshold ld_lock_cnt ld_lock_samples
    ld_delock_samples ld_locked ld_lock_changed upd] in *;
    simplify_eq; destruct Hi as [Hi [[Hl Hi2]|[Hl Hi2]]]; rewrite Hl in *; cbn in *; try done;
    lia.
Qed.

(** *** Runs *)
Lemma ld_run_config ld ys :
  ld_lock_samples (ld_run ld ys) = ld_lock_samples ld /\
  ld_delock_samples (ld_run ld ys) = ld_delock_samples ld /\
  ld_threshold (ld_run ld ys) = ld_threshold ld.
Proof.
  revert ld. induction ys as [|y ys IH]; [done|]. intros ld. cbn [ld_run foldl].
  destruct (IH (ld_update ld y).1) as (H1 & H2 & H3).
  destruct (ld_update_config ld y) as (H4 & H5 & H6).
  unfold ld_run in *. rewrite H1, H2, H3. done.
Qed.

Lemma ld_run_inv ld ys : ld_config_ok ld -> ld_inv ld -> ld_inv (ld_run ld ys).
Proof.
  revert ld. induction ys as [|y ys IH]; [done|]. intros ld Hc Hi. apply IH.
  - by apply ld_config_ok_update.
  - by apply ld_inv_update.
Qed.

(** The number of samples of a run inside, and outside, the threshold. *)
Definition n_good (ld : spll_lock_det_t) (ys : list Z) : Z :=
  Z.of_nat (length (filter (fun y => good ld y = true) ys)).
Definition n_bad (ld : spll_lock_det_t) (ys : list Z) : Z :=
  Z.of_nat (length (filter (fun y => good ld y = false) ys)).

Lemma n_good_cons ld y ys :
  n_good ld (y :: ys) = (if good ld y then 1 else 0) + n_good ld ys.
Proof. unfold n_good. rewrite filter_cons. destruct (good ld y); case_decide; simpl; try done; lia. Qed.
Lemma n_bad_cons ld y ys :
  n_bad ld (y :: ys) = (if good ld y then 0 else 1) + n_bad ld ys.
Proof. unfold n_bad. rewrite filter_cons. destruct (good ld y); case_decide; simpl; try done; lia. Qed.

Lemma good_update ld ld' y : ld_threshold ld' = ld_threshold ld -> good ld' y = good ld y.
Proof. unfold good. by intros ->. Qed.
Lemma n_good_update ld ld' ys : ld_threshold ld' = ld_threshold ld -> n_good ld' ys = n_good ld ys.
Proof. intros H. unfold n_good. unfold good. by rewrite H. Qed.
Lemma n_bad_update ld ld' ys : ld_threshold ld' = ld_threshold ld -> n_bad ld' ys = n_bad ld ys.
Proof. intros H. unfold n_bad. unfold good. by rewrite H. Qed.

(** Without enough good samples the detector cannot lock. *)
Lemma ld_run_no_lock ld ys :
  ld_config_ok ld -> ld_inv ld -> ld_locked ld = 0 ->
  ld_lock_cnt ld + n_good ld ys < ld_lock_samples ld -> ld_locked (ld_run ld ys) = 0.
Proof.
  revert ld. induction ys as [|y ys IH]; [done|]. intros ld Hc Hi Hl Hn.
  rewrite n_good_cons in Hn. destruct (ld_update_config ld y) as (Hs & Hd & Ht).
  assert (0 <= n_good ld ys) by (unfold n_good; lia).
  apply (IH (ld_update ld y).1); [by apply ld_config_ok_update|by apply ld_inv_update| |];
    [|rewrite (n_good_update ld), Hs by done]; destruct (good ld y) eqn:Hg.
  - destruct (ld_update_good ld y Hc Hi Hg) as ([_ Hlk] & Hcnt & _ & Hiff). lia.
  - destruct (ld_update_bad ld y Hc Hi Hg) as (_ & _ & Hk & _). auto.
  - destruct (ld_update_good ld y Hc Hi Hg) as (_ & Hcnt & _). lia.
  - destruct (ld_update_bad ld y Hc Hi Hg) as (_ & Hcnt & _). lia.
Qed.

(** Too few bad samples cannot break the lock. *)
Lemma ld_run_keep_lock ld ys :
  ld_config_ok ld -> ld_inv ld -> ld_locked ld = 1 ->
  ld_delock_samples ld + n_bad ld ys < ld_lock_cnt ld -> ld_locked (ld_run ld ys) = 1.
Proof.
  revert ld. induction ys as [|y ys IH]; [done|]. intros ld Hc Hi Hl Hn.
  rewrite n_bad_cons in Hn. destruct (ld_update_config ld y) as (Hs & Hd & Ht).
  assert (0 <= n_bad ld ys) by (unfold n_bad; lia).
  pose proof Hi as [Hi1 _].
  apply (IH (ld_update ld y).1); [by apply ld_config_ok_update|by apply ld_inv_update| |];
    [|rewrite (n_bad_update ld), Hd by done]; destruct (good ld y) eqn:Hg.
  - destruct (ld_update_good ld y Hc Hi Hg) as (_ & _ & Hk & _). auto.
  - destruct (ld_update_bad ld y Hc Hi Hg) as ((_ & Hlk) & _ & _ & _ & Hiff).
    destruct (Hiff Hl) as [Hiff1 _]. lia.
  - destruct (ld_update_good ld y Hc Hi Hg) as (_ & Hcnt & _). lia.
  - destruct (ld_update_bad ld y Hc Hi Hg) as ((_ & Hlk) & _ & _ & Hcnt & Hiff).
    destruct (Hiff Hl) as [Hiff1 _]. lia.
Qed.

(** Enough consecutive good samples always lock. *)
Lemma ld_run_lock ld ys :
  ld_config_ok ld -> ld_inv ld -> Forall (fun y => good ld y = true) ys ->
  ld_lock_samples ld <= ld_lock_cnt ld + Z.of_nat (length ys) \/ ld_locked ld = 1 ->
  ld_locked (ld_run ld ys) = 1.
Proof.
  revert ld. induction ys as [|y ys IH]; intros ld Hc Hi Hg Hn.
  - destruct Hi as [Hi [Hl|Hl]]; cbn in *; lia.
  - apply Forall_cons_iff in Hg as [Hy Hys]. destruct (ld_update_config ld y) as (Hs & Hd & Ht).
    destruct (ld_update_good ld y Hc Hi Hy) as (Hi' & Hcnt & Hkeep & Hiff).
    apply (IH (ld_update ld y).1); [by apply ld_config_ok_update|done| |].
    + eapply Forall_impl; [exact Hys|]. intros z Hz. by rewrite (good_update ld).
    + cbn [length] in Hn. rewrite Hs. lia.
Qed.

(** ... and fill the counter. *)
Lemma ld_run_full ld ys :
  ld_config_ok ld -> ld_inv ld -> Forall (fun y => good ld y = true) ys ->
  ld_lock_samples ld <= ld_lock_cnt ld + Z.of_nat (length ys) ->
  ld_lock_cnt (ld_run ld ys) = ld_lock_samples ld.
Proof.
  revert ld. induction ys as [|y ys IH]; intros ld Hc Hi Hg Hn.
  - destruct Hi as [Hi _]. cbn in *. lia.
  - apply Forall_cons_iff in Hg as [Hy Hys]. destruct (ld_update_config ld y) as (Hs & Hd & Ht).
    destruct (ld_update_good ld y Hc Hi Hy) as (Hi' & Hcnt & Hkeep & Hiff).
    rewrite <- Hs. apply (IH (ld_update ld y).1); [by apply ld_config_ok_update|done| |].
    + eapply Forall_impl; [exact Hys|]. intros z Hz. by rewrite (good_update ld).
    + cbn [length] in Hn. rewrite Hs. lia.
Qed.

(** Consecutive bad samples down to the delock level break the lock, and the
    detector starts again from zero. *)
Lemma ld_update_lose ld y : ld_config_ok ld -> good ld y = false -> ld_locked ld = 1 ->
  ld_lock_cnt ld = ld_delock_samples ld + 1 ->
  (ld_update ld y).2 = -1 /\ ld_locked (ld_update ld y).1 = 0 /\ ld_lock_cnt (ld_update ld y).1 = 0.
Proof.
  unfold ld_config_ok, good, ld_update. intros Hc Hg Hl Hn.
  cbn [ld_threshold ld_lock_cnt ld_delock_samples ld_locked upd]. rewrite Hg.
  destruct (Z.ltb_spec (ld_delock_samples ld) (ld_lock_cnt ld)); [|lia]. cbn [ld_lock_cnt ld_delock_samples ld_locked upd].
  unfold isub. rewrite s32_small by (unfold is_s32; lia).
  destruct (Z.eqb_spec (ld_lock_cnt ld - 1) (ld_delock_samples ld)); [|lia]. rewrite Hl. done.
Qed.
Lemma ld_run_lose ld ys :
  ld_config_ok ld -> ld_inv ld -> ld_locked ld = 1 -> Forall (fun y => good ld y = false) ys ->
  ld_lock_cnt ld = ld_delock_samples ld + Z.of_nat (length ys) ->
  ld_locked (ld_run ld ys) = 0 /\ ld_lock_cnt (ld_run ld ys) = 0.
Proof.
  revert ld. induction ys as [|y ys IH]; intros ld Hc Hi Hl Hg Hn.
  { destruct Hi as [_ [?|?]]; cbn in Hn; lia. }
  apply Forall_cons_iff in Hg as [Hy Hys]. destruct (ld_update_config ld y) as (Hs & Hd & Ht). cbn [length] in Hn.
  destruct ys as [|z ys].
  { apply (ld_update_lose ld y); (done || cbn in Hn; lia). }
  cbn [length] in *. destruct (ld_update_bad ld y Hc Hi Hy) as (Hi' & _ & _ & Hcnt & Hiff).
  assert (Hl' : ld_locked (ld_update ld y).1 = 1) by (destruct (Hiff Hl) as [Hx _], Hi' as [_ [?|?]]; lia).
  apply (IH (ld_update ld y).1); [by apply ld_config_ok_update|done|done| |].
  - eapply Forall_impl; [exact Hys|]. intros x Hx. by rewrite (good_update ld).
  - specialize (Hcnt Hl'). cbn [length]. lia.
Qed.

(** C19. Lock acquisition and hysteresis, with a delock level below the lock
    level: started by [ld_init], the detector reports no lock before
    [lock_samples] samples were inside the threshold, and reports one after
    that many consecutive ones; from the fully locked state it keeps the lock
    as long as fewer than [lock_samples - delock_samples] of the following
    samples, wherever they fall, are outside the threshold; it loses the lock
    when exactly that many follow one another, and then reports no lock again
    before [lock_samples] samples were inside the threshold. *)
Theorem ld_hysteresis ld ys zs us :
  ld_config_ok ld ->
  (n_good ld ys < ld_lock_samples ld -> ld_locked (ld_run (ld_init ld) ys) = 0) /\
  (Forall (fun y => good ld y = true) ys -> ld_lock_samples ld <= Z.of_nat (length ys) ->
   ld_locked (ld_run (ld_init ld) ys) = 1 /\
   (n_bad ld zs < ld_lock_samples ld - ld_delock_samples ld ->
    ld_locked (ld_run (ld_init ld) (ys ++ zs)) = 1) /\
   (Forall (fun z => good ld z = false) zs -> Z.of_nat (length zs) = ld_lock_samples ld - ld_delock_samples ld ->
    n_good ld us < ld_lock_samples ld -> ld_locked (ld_run (ld_init ld) (ys ++ zs ++ us)) = 0)).
Proof.
  intros Hc. pose proof (ld_inv_init ld Hc) as Hi. split.
  { intros Hn. apply ld_run_no_lock; try done. }
  intros Hg Hlen. unfold ld_run. rewrite !foldl_app. fold (ld_run (ld_init ld) ys). set (ld1 := ld_run (ld_init ld) ys).
  fold (ld_run ld1 zs). destruct (ld_run_config (ld_init ld) ys) as (Hs & Hd & Ht). fold ld1 in Hs, Hd, Ht.
  cbn [ld_lock_samples ld_delock_samples ld_threshold ld_init upd] in Hs, Hd, Ht.
  assert (Hl : ld_locked ld1 = 1) by (apply ld_run_lock; try done; left; cbn; lia).
  assert (Hcnt : ld_lock_cnt ld1 = ld_lock_samples ld) by (by apply (ld_run_full (ld_init ld) ys)).
  assert (Hc1 : ld_config_ok ld1) by (unfold ld_config_ok; by rewrite Hs, Hd).
  assert (Hi1 : ld_inv ld1) by (by apply ld_run_inv).
  split; [done|]. split.
  - intros Hb. apply ld_run_keep_lock; try done. rewrite (n_bad_update ld) by done. lia.
  - intros Hz Hlz Hu. destruct (ld_run_lose ld1 zs) as [L0 C0]; try done.
    { eapply Forall_impl; [exact Hz|]. intros z Hx. by rewrite (good_update ld). }
    { lia. }
    destruct (ld_run_config ld1 zs) as (Hs2 & Hd2 & Ht2). fold (ld_run (ld_run ld1 zs) us). apply ld_run_no_lock; try done.
    + unfold ld_config_ok. by rewrite Hs2, Hd2.
    + by apply ld_run_inv.
    + rewrite C0, (n_good_update ld), Hs2, Hs by congruence. lia.
Qed.

Lemma ld_hysteresis_witness :
  let ld := mk_ld 0 3 1 50 0 0 in
  ld_locked (ld_run (ld_init ld) ([10; -20; 50] ++ [51])) = 1 /\
  ld_locked (ld_run (ld_init ld) ([10; -20; 50] ++ [51; -52] ++ [1; 2])) = 0.
Proof.
  split.
  - apply (ld_hysteresis (mk_ld 0 3 1 50 0 0) [10; -20; 50] [51] []); [unfold ld_config_ok; simpl; lia|repeat constructor|simpl; lia|vm_compute; reflexivity].
  - apply (ld_hysteresis (mk_ld 0 3 1 50 0 0) [10; -20; 50] [51; -52] [1; 2]);
      [unfold ld_config_ok; simpl; lia|repeat constructor|simpl; lia|repeat constructor|reflexivity|vm_compute; reflexivity].
Defined.

(** When the delock level lies above the lock level the counter never reaches
    it: the detector, once locked, cannot lose the lock. *)
Lemma ld_update_stuck ld y :
  0 <= ld_lock_cnt ld <= ld_lock_samples ld -> ld_lock_samples ld < ld_delock_samples ld ->
  ld_lock_samples ld < 2147483647 -> ld_locked ld = 1 ->
  0 <= ld_lock_cnt (ld_update ld y).1 <= ld_lock_samples ld /\ ld_locked (ld_update ld y).1 = 1.
Proof.
  intros Hc Hd Hs Hl. unfold ld_update.
  cbn [ld_threshold ld_lock_cnt ld_lock_samples ld_delock_samples ld_locked upd].
  destruct (cabs y <=? ld_threshold ld).
  - destruct (Z.ltb_spec (ld_lock_cnt ld) (ld_lock_samples ld));
      cbn [ld_lock_cnt ld_lock_samples upd].
    + unfold iadd. rewrite s32_small by (unfold is_s32; lia).
      destruct (Z.eqb_spec (ld_lock_cnt ld + 1) (ld_lock_samples ld)); cbn; lia.
    + destruct (Z.eqb_spec (ld_lock_cnt ld) (ld_lock_samples ld)); cbn; lia.
  - destruct (Z.ltb_spec (ld_delock_samples ld) (ld_lock_cnt ld)); [lia|]. cbn [ld_lock_cnt ld_delock_samples ld_locked upd].
    destruct (Z.eqb_spec (ld_lock_cnt ld) (ld_delock_samples ld)); [lia|]. cbn. lia.
Qed.

Lemma ld_run_stuck ld ys :
  0 <= ld_lock_cnt ld <= ld_lock_samples ld -> ld_lock_samples ld < ld_delock_samples ld ->
  ld_lock_samples ld < 2147483647 -> ld_locked ld = 1 -> ld_locked (ld_run ld ys) = 1.
Proof.
  revert ld. induction ys as [|y ys IH]; [done|]. intros ld Hc Hd Hs Hl.
  destruct (ld_update_stuck ld y Hc Hd Hs Hl) as [Hc' Hl'].
  destruct (ld_update_config ld y) as (Hs1 & Hd1 & _).
  apply (IH (ld_update ld y).1); rewrite ?Hs1, ?Hd1; done.
Qed.

(** The counter stays between 0 and the lock level. *)
Lemma ld_update_cnt ld y :
  0 <= ld_lock_cnt ld <= ld_lock_samples ld -> 0 <= ld_delock_samples ld ->
  ld_lock_samples ld < 2147483647 ->
  0 <= ld_lock_cnt (ld_update ld y).1 <= ld_lock_samples ld.
Proof.
  intros Hc Hd Hs. unfold ld_update. cbv zeta.
  cbn [ld_lock_cnt ld_lock_samples ld_delock_samples ld_threshold ld_locked ld_lock_changed upd].
  destruct (cabs y <=? ld_threshold ld).
  - destruct (Z.ltb_spec (ld_lock_cnt ld) (ld_lock_samples ld)); unfold iadd;
      [rewrite (s32_small (ld_lock_cnt ld + 1)) by inrange|];
      repeat case_match; cbn [ld_lock_cnt fst upd]; lia.
  - destruct (Z.ltb_spec (ld_delock_samples ld) (ld_lock_cnt ld)); unfold isub;
      [rewrite (s32_small (ld_lock_cnt ld - 1)) by inrange|];
      repeat case_match; cbn [ld_lock_cnt fst upd]; lia.
Qed.

Lemma ld_run_cnt ld ys :
  0 <= ld_lock_cnt ld <= ld_lock_samples ld -> 0 <= ld_delock_samples ld ->
  ld_lock_samples ld < 2147483647 ->
  0 <= ld_lock_cnt (ld_run ld ys) <= ld_lock_samples ld.
Proof.
  revert ld. induction ys as [|y ys IH]; [done|]. intros ld Hc Hd Hs.
  pose proof (ld_update_cnt ld y Hc Hd Hs) as Hc'.
  destruct (ld_update_config ld y) as (Hs1 & Hd1 & _).
  pose proof (IH (ld_update ld y).1) as HI. rewrite Hs1, Hd1 in HI. by apply HI.
Qed.
End Ld.
