(* ===== verification/SpllHelper.v ===== *)
(** softpll/spll_helper.c: the helper PLL, whose clock is offset from the
    reference by 2^-14, and the global variables of the SoftPLL sources.  The
    main result is that the wrap-around bookkeeping of [helper_update]
    computes the phase error of the unwrapped tag stream. *)
From Stdlib Require Import ZArith Lia.
From stdpp Require Import base numbers option list.
From S2P Require Import Prelude SpllHw SpllCommon.
Import Pi Ld.

(** ** Global and static variables

    spll_n_chan_ref, spll_n_chan_out, lj_periph_type_global,
    scb_ljd_present_global, periph_id_global and ptracker_mask of
    softpll_ng.c; the gains patched at load time and the [init] latches of
    spll_helper.c and spll_main.c; reverse_spll; the tag latch of
    spll_ptracker.c; the two statics of external_align_fsm. *)
Record spll_globals := mk_globals {
  g_n_chan_ref : Z; g_n_chan_out : Z;
  g_lj_periph_type : Z; g_scb_ljd_present : Z; g_periph_id : Z;
  g_reverse_spll : Z;
  g_helper_pll_kp : Z; g_helper_pll_ki : Z; g_helper_init : Z;
  g_main_pll_kp : Z; g_main_pll_ki : Z; g_mpll_init : Z;
  g_ptracker_mask : Z; g_tag_ref : Z;
  g_ext_timeout : Z; g_old_ext_pps_latency_ps : Z
}.
#[export] Instance eta_globals : Etable spll_globals := fun g =>
  mk_globals (g_n_chan_ref g) (g_n_chan_out g)
    (g_lj_periph_type g) (g_scb_ljd_present g) (g_periph_id g) (g_reverse_spll g)
    (g_helper_pll_kp g) (g_helper_pll_ki g) (g_helper_init g)
    (g_main_pll_kp g) (g_main_pll_ki g) (g_mpll_init g)
    (g_ptracker_mask g) (g_tag_ref g) (g_ext_timeout g) (g_old_ext_pps_latency_ps g).

(** The values of a freshly loaded program. *)
Definition globals_boot `{!Board} : spll_globals := {|
  g_n_chan_ref := 0; g_n_chan_out := 0;
  g_lj_periph_type := 0; g_scb_ljd_present := 0; g_periph_id := 0;
  g_reverse_spll := if CONFIG_TARGET_WR_SWITCH then 2 else 1;
  g_helper_pll_kp := 0; g_helper_pll_ki := 0; g_helper_init := 1;
  g_main_pll_kp := 0; g_main_pll_ki := 0; g_mpll_init := 1;
  g_ptracker_mask := 0; g_tag_ref := -1;
  g_ext_timeout := 0; g_old_ext_pps_latency_ps := 0 |}.

(** softpll_export.h: the kinds of switch. *)
Definition PERIPH_WRS_STD_NO_LJ : Z := 0.
Definition PERIPH_WRS_STD_WITH_LJD : Z := 1.
Definition PERIPH_WRS_FL_SYNCTECH : Z := 2.
Definition PERIPH_WRS_LJ_SAFRAN : Z := 3.
Definition PERIPH_END : Z := 4.
Definition PERIPH_ID_WRS_LJ_SAFRAN : Z := 5.

(** ** State *)
Record spll_helper_state := mk_helper {
  h_p_adder : Z;
  h_p_setpoint : Z; h_tag_d0 : Z;
  h_ref_src : Z;
  h_sample_n : Z;
  h_pi : spll_pi_t;
  h_ld : spll_lock_det_t;
  h_lock_start_ms : Z;
  h_last_lock_duration_ms : Z
}.
#[export] Instance eta_helper : Etable spll_helper_state := fun s =>
  mk_helper (h_p_adder s) (h_p_setpoint s) (h_tag_d0 s) (h_ref_src s) (h_sample_n s)
            (h_pi s) (h_ld s) (h_lock_start_ms s) (h_last_lock_duration_ms s).

Definition HELPER_TAG_WRAPAROUND : Z := 100000000.
Definition HELPER_ERROR_CLAMP : Z := 150000.

(** The tuning range both loops share. *)
Definition spll_y_min `{!Board} : Z := (5 << BOARD_SPLL_DIV_BITS)%int.
Definition spll_y_max `{!Board} : Z :=
  ((1 << BOARD_SPLL_DAC_BITS) - (5 << BOARD_SPLL_DIV_BITS))%int.

(** [if (x == 0) x = d;]: a gain that was not changed at load time. *)
Definition if_zero (x d : Z) : Z := if x =? 0 then d else x.

Section helper.
Context `{!Board}.

(** [helper_very_init] *)
Definition helper_very_init (g : spll_globals) (s : spll_helper_state)
    : spll_globals * spll_helper_state :=
  let s := s <| h_pi := (h_pi s) <| pi_y_min := spll_y_min |> <| pi_y_max := spll_y_max |> |> in
  let '(g, s) :=
    if CONFIG_TARGET_WR_SWITCH then
      let s :=
        if truth (g_helper_init g) then
          let '(dkp, dki) := if g_lj_periph_type g =? PERIPH_WRS_FL_SYNCTECH
                             then (-150, -2) else (150, 2) in
          s <| h_pi := (h_pi s) <| pi_kp := if_zero (g_helper_pll_kp g) dkp |>
                                <| pi_ki := if_zero (g_helper_pll_ki g) dki |> |>
        else s in
      (g <| g_helper_init := 0 |>, s)
    else (g, s <| h_pi := (h_pi s) <| pi_kp := -150 |> <| pi_ki := -2 |> |>) in
  let s := s <| h_pi := (h_pi s) <| pi_shift := (PI_FRACBITS - BOARD_SPLL_DIV_BITS)%int |>
                                 <| pi_anti_windup := 1 |> |> in
  (g, s <| h_ld := (h_ld s) <| ld_threshold := 200 |> <| ld_lock_samples := 10000 |>
                            <| ld_delock_samples := 100 |> |>).

(** [helper_init] *)
Definition helper_init (s : spll_helper_state) (ref_channel : Z) : spll_helper_state :=
  s <| h_ref_src := ref_channel |>.

(** The phase detector inside [helper_update], from "Handle tag wraparound"
    to the new [tag_d0]: the new state and the clamped error. *)
Definition helper_phase (s : spll_helper_state) (tag : Z) : spll_helper_state * Z :=
  let s := if tag <? h_tag_d0 s
           then s <| h_p_adder := (h_p_adder s + (1 << TAG_BITS))%int |> else s in
  let err := ((tag + h_p_adder s) - h_p_setpoint s)%int in
  let err := if err <? - HELPER_ERROR_CLAMP then - HELPER_ERROR_CLAMP else err in
  let err := if HELPER_ERROR_CLAMP <? err then HELPER_ERROR_CLAMP else err in
  let s := if (HELPER_TAG_WRAPAROUND <? (tag + h_p_adder s)%int)
              && (HELPER_TAG_WRAPAROUND <? h_p_setpoint s)
           then s <| h_p_adder := (h_p_adder s - HELPER_TAG_WRAPAROUND)%int |>
                  <| h_p_setpoint := (h_p_setpoint s - HELPER_TAG_WRAPAROUND)%int |>
           else s in
  let s := s <| h_p_setpoint := (h_p_setpoint s + (1 << HPLL_N))%int |> in
  let s := s <| h_tag_d0 := tag |> in
  (s, err).

Context {W : Type} `{!SpllHW W}.

(** [helper_update] *)
Definition helper_update (s : spll_helper_state) (tag source : Z) : M W spll_helper_state :=
  if CONFIG_IGNORE_HPLL then
    ret (s <| h_ld := (h_ld s) <| ld_lock_changed := 1 |> <| ld_locked := 1 |> |>)
  else if negb (source =? h_ref_src s) then ret s
  else if h_tag_d0 s <? 0 then
    ret (s <| h_p_setpoint := tag |> <| h_tag_d0 := tag |>)
  else
    let '(s, err) := helper_phase s tag in
    let '(pi, y) := pi_update (h_pi s) err in
    let s := s <| h_pi := pi |> in
    wr DAC_HPLL y ;!
    let s := s <| h_ld := (ld_update (h_ld s) err).1 |> in
    if truth (ld_lock_changed (h_ld s)) && truth (ld_locked (h_ld s)) then
      let! now := timer_get_tics in
      ret (s <| h_last_lock_duration_ms := s32 (now - h_lock_start_ms s)%uint |>)
    else ret s.

(** [helper_start] *)
Definition helper_start (g : spll_globals) (s : spll_helper_state) : M W spll_helper_state :=
  let bias := if negb (truth (g_reverse_spll g)) then pi_y_max (h_pi s) else pi_y_min (h_pi s) in
  let s := s <| h_pi := (h_pi s) <| pi_bias := bias |> |> in
  let s := s <| h_p_setpoint := 0 |> <| h_p_adder := 0 |> <| h_sample_n := 0 |>
             <| h_tag_d0 := -1 |> <| h_last_lock_duration_ms := -1 |> in
  let s := s <| h_pi := pi_init (h_pi s) |> in
  let s := s <| h_ld := ld_init (h_ld s) |> in
  let! now := timer_get_tics in
  let s := s <| h_lock_start_ms := now |> in
  spll_enable_tagger (g_n_chan_ref g) (h_ref_src s) 1 ;!
  ret s.
End helper.

(** ** Configuration facts *)
Lemma spll_range `{HB : Board, !BoardOk HB} :
  spll_y_min = 5 * 2 ^ BOARD_SPLL_DIV_BITS /\
  spll_y_max = 65531 * 2 ^ BOARD_SPLL_DIV_BITS /\
  1 <= 2 ^ BOARD_SPLL_DIV_BITS <= 256.
Proof.
  pose proof board_div_bits as Hd. pose proof board_dac_bits as Ha.
  assert (Hp : 1 <= 2 ^ BOARD_SPLL_DIV_BITS <= 256).
  { split; [change 1 with (2 ^ 0)|change 256 with (2 ^ 8)]; apply Z.pow_le_mono_r; lia. }
  unfold spll_y_min, spll_y_max, ishl. rewrite !Z.shiftl_mul_pow2 by lia.
  rewrite Ha, Z.pow_add_r by lia. change (2 ^ 16) with 65536. unfold isub.
  rewrite !(s32_small (5 * _)), (s32_small (1 * _)) by (unfold is_s32; lia).
  rewrite s32_small by (unfold is_s32; lia). lia.
Qed.

(** The helper loop as [helper_very_init] leaves it, with its inputs clamped
    to [HELPER_ERROR_CLAMP]. *)
Definition helper_config_ok `{!Board} (s : spll_helper_state) : Prop :=
  Z.abs (pi_kp (h_pi s)) <= 150 /\ Z.abs (pi_ki (h_pi s)) <= 2 /\
  pi_shift (h_pi s) = 12 - BOARD_SPLL_DIV_BITS /\ pi_anti_windup (h_pi s) <> 0 /\
  pi_y_min (h_pi s) = spll_y_min /\ pi_y_max (h_pi s) = spll_y_max.

Lemma helper_gains_ok `{HB : Board, !BoardOk HB} s :
  helper_config_ok s -> pi_y_min (h_pi s) <= pi_bias (h_pi s) <= pi_y_max (h_pi s) ->
  gains_ok (h_pi s) HELPER_ERROR_CLAMP.
Proof.
  intros (Hp & Hi & Hs & Ha & Hy & HY). destruct spll_range as (Hmin & Hmax & Hpow).
  pose proof board_div_bits. unfold gains_ok. rewrite Hy, HY, Hmin, Hmax, Hs.
  intros Hb. split; [lia|]. split; [unfold HELPER_ERROR_CLAMP; lia|].
  split; [lia|]. split; [lia|]. split; [lia|]. split; [done|].
  assert (16 <= 2 ^ (12 - BOARD_SPLL_DIV_BITS)).
  { change 16 with (2 ^ 4). apply Z.pow_le_mono_r; lia. }
  unfold HELPER_ERROR_CLAMP. lia.
Qed.

(** ** The phase detector *)

(** The distance from one tag to the next on the circle of [2^TAG_BITS]. *)
Definition tag_step (t t' : Z) : Z := (t' - t) mod 2 ^ TAG_BITS.
Definition is_tag (t : Z) : Prop := 0 <= t < 2 ^ TAG_BITS.

Lemma tag_step_eq t t' :
  is_tag t -> is_tag t' -> tag_step t t' = t' - t + (if t' <? t then 2 ^ TAG_BITS else 0).
Proof.
  unfold is_tag, tag_step, TAG_BITS. change (2 ^ 22) with 4194304. intros Ht Ht'.
  destruct (Z.ltb_spec t' t).
  - symmetry. apply (Z.mod_unique _ _ (-1)); lia.
  - rewrite Z.mod_small; lia.
Qed.

(** The error stream of the ideal phase detector: the unwrapped phase [u]
    advances by the circular distance between tags, the setpoint [sp] by
    [2^HPLL_N] per tag. *)
Fixpoint ideal_errors (t u sp : Z) (ts : list Z) : list Z :=
  match ts with
  | [] => []
  | t' :: ts => let u' := u + tag_step t t' in
                (u' - sp) :: ideal_errors t' u' (sp + 2 ^ HPLL_N) ts
  end.

Definition clamp_err (e : Z) : Z :=
  Z.max (- HELPER_ERROR_CLAMP) (Z.min HELPER_ERROR_CLAMP e).

Lemma clamp_err_range e : Z.abs (clamp_err e) <= HELPER_ERROR_CLAMP.
Proof. unfold clamp_err, HELPER_ERROR_CLAMP. lia. Qed.

(** The code's state represents the ideal phase [u] and setpoint [sp] up to a
    common rebase [c], and neither component is far beyond the rebase point. *)
Definition tracks (s : spll_helper_state) (u sp : Z) : Prop :=
  exists c, h_p_adder s + h_tag_d0 s = u - c /\ h_p_setpoint s = sp - c /\
    is_tag (h_tag_d0 s) /\ 0 <= u - c /\ 0 <= sp - c /\
    Z.min (u - c) (sp - c) <= HELPER_TAG_WRAPAROUND + 2 ^ TAG_BITS /\
    Z.abs (u - sp) <= 2 ^ 30 + 2 ^ TAG_BITS.

(** The detector always feeds the regulator with a clamped error. *)
Lemma helper_phase_clamped s tag :
  Z.abs (helper_phase s tag).2 <= HELPER_ERROR_CLAMP.
Proof.
  unfold helper_phase, HELPER_ERROR_CLAMP. cbn [snd].
  match goal with |- context [isub ?a ?b] => generalize (isub a b) end. intros e.
  repeat case_match; bool_hyps; lia.
Qed.

(** The detector leaves the regulator and the lock detector alone. *)
Lemma helper_phase_frame s tag :
  let s' := (helper_phase s tag).1 in
  h_pi s' = h_pi s /\ h_ld s' = h_ld s /\ h_ref_src s' = h_ref_src s /\ h_tag_d0 s' = tag.
Proof. unfold helper_phase. repeat case_match; by cbn. Qed.

(** One tag: the error is the ideal one, clamped, and the representation is
    kept. *)
Lemma helper_phase_tracks s u sp t :
  tracks s u sp -> is_tag t ->
  let u' := u + tag_step (h_tag_d0 s) t in
  Z.abs (u' - sp) <= 2 ^ 30 ->
  (helper_phase s t).2 = clamp_err (u' - sp) /\
  tracks (helper_phase s t).1 u' (sp + 2 ^ HPLL_N).
Proof.
  intros (c & Ha & Hp & Hd & Hu & Hsp & Hmin & Hdiff) Ht. cbv zeta.
  rewrite (tag_step_eq _ _ Hd Ht).
  set (u' := u + (t - h_tag_d0 s + (if t <? h_tag_d0 s then 2 ^ TAG_BITS else 0))). intros Herr.
  assert (Hu' : u' = u + (t - h_tag_d0 s + (if t <? h_tag_d0 s then 4194304 else 0))) by done.
  clearbody u'.
  unfold tracks, is_tag, TAG_BITS, HPLL_N, HELPER_TAG_WRAPAROUND, clamp_err, HELPER_ERROR_CLAMP in *.
  change (2 ^ 22) with 4194304 in *. change (2 ^ 30) with 1073741824 in *.
  change (2 ^ 14) with 16384 in *.
  assert (H22 : (1 << TAG_BITS)%int = 4194304) by done.
  assert (H14 : (1 << HPLL_N)%int = 16384) by done.
  assert (Hstep : 0 <= u' - u < 4194304) by (destruct (Z.ltb_spec t (h_tag_d0 s)); lia).
  set (A := h_p_adder s + (if t <? h_tag_d0 s then 4194304 else 0)).
  assert (HA : A + t = u' - c /\ is_s32 A).
  { unfold A, is_s32. destruct (t <? h_tag_d0 s); lia. }
  destruct HA as [HA HA32]. unfold is_s32 in HA32.
  assert (Hs1 : (if t <? h_tag_d0 s then s <| h_p_adder := (h_p_adder s + 4194304)%int |> else s)
                = s <| h_p_adder := A |>).
  { unfold A in *. destruct (t <? h_tag_d0 s).
    - unfold iadd. by rewrite s32_small.
    - rewrite Z.add_0_r. by destruct s. }
  unfold helper_phase. rewrite H22, H14, Hs1. clear Hs1 Hu'. clearbody A.
  unfold HELPER_TAG_WRAPAROUND, HELPER_ERROR_CLAMP.
  cbn [h_p_adder h_p_setpoint h_tag_d0 fst snd upd].
  unfold iadd, isub. rewrite (s32_small (t + A)) by (unfold is_s32; lia).
  rewrite (s32_small (t + A - _)) by (unfold is_s32; lia).
  assert (Hspu : h_p_setpoint s <= 1300000000) by lia.
  split.
  { repeat case_match; bool_hyps; lia. }
  destruct (Z.ltb_spec 100000000 (t + A)) as [Hgt|Hgt];
    [destruct (Z.ltb_spec 100000000 (h_p_setpoint s)) as [Hgp|Hgp]|];
    cbn [andb h_p_adder h_p_setpoint h_tag_d0 upd fst].
  - exists (c + 100000000). rewrite (s32_small (A - _)), (s32_small (h_p_setpoint s - _))
      by (unfold is_s32; lia).
    rewrite s32_small by (unfold is_s32; lia). lia.
  - exists c. rewrite s32_small by (unfold is_s32; lia). lia.
  - exists c. rewrite s32_small by (unfold is_s32; lia). lia.
Qed.

(** ** The loop *)
Section helper_loop.
Context `{HB : Board, !BoardOk HB}.
Context {W : Type} `{!SpllHW W, !SpllObs W, !SpllLaws W}.
Hypothesis Hnoignore : CONFIG_IGNORE_HPLL = false.

(** A run of the helper over tags of its reference channel, with the outputs
    it produced. *)
Fixpoint helper_run (s : spll_helper_state) (ts : list Z)
    : M W (spll_helper_state * list Z) :=
  match ts with
  | [] => ret (s, [])
  | t :: ts =>
      let! s := helper_update s t (h_ref_src s) in
      let y := pi_y (h_pi s) in
      let! (s, ys) := helper_run s ts in
      ret (s, y :: ys)
  end.

(** A tag after the first one: the regulator is driven with the detector's
    error and its output is in the DAC register. *)
Lemma helper_update_tag s t w :
  0 <= h_tag_d0 s ->
  ensures (helper_update s t (h_ref_src s)) w (fun s' w' =>
    let '(s1, err) := helper_phase s t in
    h_p_adder s' = h_p_adder s1 /\ h_p_setpoint s' = h_p_setpoint s1 /\
    h_tag_d0 s' = h_tag_d0 s1 /\ h_ref_src s' = h_ref_src s1 /\
    h_pi s' = (pi_update (h_pi s) err).1 /\ h_ld s' = (ld_update (h_ld s) err).1 /\
    cfg w' DAC_HPLL = u32 (pi_update (h_pi s) err).2 /\ tags w' = tags w).
Proof using Hnoignore SpllLaws0.
  intros Hd. unfold helper_update. rewrite Hnoignore, Z.eqb_refl. cbn [negb].
  destruct (Z.ltb_spec (h_tag_d0 s) 0); [lia|].
  pose proof (helper_phase_frame s t) as Hf.
  destruct (helper_phase s t) as [s1 err]. cbn in Hf. destruct Hf as (Hpi & Hld & Href & Htag).
  rewrite Hpi. destruct (pi_update (h_pi s) err) as [pi y]. cbn [fst snd].
  apply ensures_bind. eapply ensures_mono; [by apply (law_wr_cfg DAC_HPLL)|].
  intros _ w1 (Hv & Ht & _). cbn [h_ld upd]. rewrite Hld.
  case_match.
  - apply ensures_bind. eapply ensures_mono; [apply law_tics|].
    intros now w2 [_ [Hq Ht2]]. apply ensures_ret. cbn.
    rewrite Hq by done. split_and!; try done; congruence.
  - apply ensures_ret. cbn. split_and!; done.
Qed.

(** The outputs stay in the tuning range whatever the tags are. *)
Definition helper_in_range (s : spll_helper_state) : Prop :=
  pi_y_min (h_pi s) = spll_y_min /\ pi_y_max (h_pi s) = spll_y_max /\
  spll_y_min <= pi_y (h_pi s) <= spll_y_max.

Lemma helper_update_range s t src w :
  helper_in_range s -> ensures (helper_update s t src) w (fun s' _ => helper_in_range s').
Proof using Hnoignore BoardOk0.
  intros Hr. unfold helper_update. rewrite Hnoignore.
  destruct (negb _); [done|]. destruct (_ <? 0); [done|].
  pose proof (helper_phase_frame s t) as Hf. destruct (helper_phase s t) as [s1 err].
  cbn in Hf. destruct Hf as (Hpi & _). rewrite Hpi.
  destruct Hr as (Hmin & Hmax & Hy). destruct spll_range as (Emin & Emax & _).
  pose proof (pi_update_config (h_pi s) err) as Hc.
  destruct (pi_update_clamp (h_pi s) err) as [Hcl Hyy]; [lia|].
  destruct (pi_update (h_pi s) err) as [pi y]. cbn in Hc, Hcl, Hyy.
  destruct Hc as (_ & _ & _ & _ & _ & Hc1 & Hc2 & _).
  assert (Hfin : forall s2, h_pi s2 = pi -> helper_in_range s2).
  { intros s2 E. unfold helper_in_range. rewrite E. lia. }
  apply ensures_bind. apply ensures_run. case_match.
  - apply ensures_bind, ensures_run. by apply ensures_ret, Hfin.
  - by apply ensures_ret, Hfin.
Qed.

Lemma helper_run_range s ts w :
  helper_in_range s -> ensures (helper_run s ts) w (fun '(s', _) _ => helper_in_range s').
Proof using Hnoignore BoardOk0.
  revert s w. induction ts as [|t ts IH]; intros s w Hs; [done|].
  cbn [helper_run]. apply ensures_bind. eapply ensures_mono; [by apply helper_update_range|].
  intros s1 w1 Hs1. apply ensures_bind. eapply ensures_mono; [by apply IH|].
  intros [s2 ys] w2 Hs2. done.
Qed.

Lemma tracks_ext s s' u sp :
  h_p_adder s' = h_p_adder s -> h_p_setpoint s' = h_p_setpoint s -> h_tag_d0 s' = h_tag_d0 s ->
  tracks s u sp -> tracks s' u sp.
Proof. unfold tracks. by intros -> -> ->. Qed.

Lemma helper_run_tracks s u sp ts w :
  tracks s u sp -> pi_ok (h_pi s) HELPER_ERROR_CLAMP -> Forall is_tag ts ->
  Forall (fun e => Z.abs e <= 2 ^ 30) (ideal_errors (h_tag_d0 s) u sp ts) ->
  ensures (helper_run s ts) w (fun '(s', ys) w' =>
    ys = pi_spec_run (h_pi s) (clamp_err <$> ideal_errors (h_tag_d0 s) u sp ts) /\
    pi_ok (h_pi s') HELPER_ERROR_CLAMP /\
    (cfg w DAC_HPLL = u32 (pi_y (h_pi s)) \/ ts <> [] ->
     cfg w' DAC_HPLL = u32 (pi_y (h_pi s')))).
Proof using Hnoignore SpllLaws0.
  revert s u sp w. induction ts as [|t ts IH]; intros s u sp w Htr Hpi Hts Herr.
  { apply ensures_ret. split_and!; try done. by intros [?|?]. }
  apply Forall_cons_iff in Hts as [Ht Hts]. cbn [ideal_errors] in *.
  apply Forall_cons_iff in Herr as [He Herr].
  destruct (helper_phase_tracks s u sp t Htr Ht He) as [Hval Htr'].
  pose proof (helper_phase_frame s t) as (_ & _ & _ & Htag).
  cbn [helper_run]. apply ensures_bind.
  eapply ensures_mono; [apply helper_update_tag; destruct Htr as (c & _ & _ & [??] & _); done|].
  intros s1 w1. destruct (helper_phase s t) as [s0 err]. cbn [fst snd] in *.
  intros (Ha & Hp & Hd & _ & Hpi1 & _ & Hdac & _). subst err.
  pose proof (clamp_err_range (u + tag_step (h_tag_d0 s) t - sp)) as Hcl.
  pose proof (pi_update_eq _ _ _ Hpi Hcl) as Heq.
  apply ensures_bind. rewrite Htag in Hd.
  eapply ensures_mono; [apply (IH s1 (u + tag_step (h_tag_d0 s) t) (sp + 2 ^ HPLL_N))|].
  - apply (tracks_ext s0); try done. congruence.
  - rewrite Hpi1. by apply pi_update_ok.
  - done.
  - by rewrite Hd.
  - intros [s2 ys] w2 (Hys & Hok & Hlast). apply ensures_ret.
    rewrite Heq in Hpi1, Hdac. cbn [fst snd] in Hpi1, Hdac.
    cbn [fmap list_fmap pi_spec_run]. rewrite Hd in Hys. split_and!; [|done|].
    + rewrite Hys, Hpi1. destruct (pi_spec _ _) as [i v]. cbn. f_equal.
      by apply pi_spec_run_ext.
    + intros _. apply Hlast. left. by rewrite Hdac, Hpi1.
Qed.

(** C3.  End-to-end behaviour of the helper loop.  Started with a fresh
    regulator and no previous tag, and fed with tags of its reference
    channel, the loop produces exactly the outputs of the ideal regulator
    driven by the clamped errors of the ideal phase detector (unwrapped
    phase against a setpoint advancing by 2^14 per tag): the wrap-around
    adder and the periodic rebase of [helper_update] are invisible, and the
    register of the helper DAC holds the last output, inside the tuning
    range.  The unwrapped error may be anything below 2^30. *)
Theorem helper_refines_ideal s t0 ts w :
  helper_config_ok s -> pi_y_min (h_pi s) <= pi_bias (h_pi s) <= pi_y_max (h_pi s) ->
  h_pi s = pi_init (h_pi s) -> h_tag_d0 s = -1 -> h_p_adder s = 0 ->
  is_tag t0 -> Forall is_tag ts -> ts <> [] ->
  Forall (fun e => Z.abs e <= 2 ^ 30) (ideal_errors t0 t0 t0 ts) ->
  ensures (helper_run s (t0 :: ts)) w (fun '(s', ys) w' =>
    ys = pi_y (h_pi s) :: pi_spec_run (h_pi s) (clamp_err <$> ideal_errors t0 t0 t0 ts) /\
    cfg w' DAC_HPLL = pi_y (h_pi s') /\ spll_y_min <= pi_y (h_pi s') <= spll_y_max).
Proof using Hnoignore SpllLaws0 BoardOk0.
  intros Hcfg Hb Hinit Hd Ha Ht0 Hts Hne Herr. cbn [helper_run]. apply ensures_bind.
  unfold helper_update at 1. rewrite Hnoignore, Z.eqb_refl, Hd. cbn [negb Z.ltb Z.compare].
  apply ensures_ret. apply ensures_bind.
  assert (Hok : pi_ok (h_pi s) HELPER_ERROR_CLAMP)
    by (rewrite Hinit; by apply pi_init_ok, helper_gains_ok).
  set (s1 := s <| h_p_setpoint := t0 |> <| h_tag_d0 := t0 |>).
  assert (Htr : tracks s1 t0 t0).
  { exists 0. unfold s1, is_tag, TAG_BITS, HELPER_TAG_WRAPAROUND in *. cbn in *.
    rewrite Ha. change (2 ^ 22) with 4194304 in *. lia. }
  assert (Hin : helper_in_range s1).
  { destruct Hcfg as (_ & _ & _ & _ & Hy & HY). unfold helper_in_range, s1. cbn.
    rewrite Hinit at 3 4. cbn. lia. }
  eapply ensures_mono; [exact (ensures_and _ _ _ _
    (helper_run_tracks s1 t0 t0 ts w Htr Hok Hts Herr) (helper_run_range s1 ts w Hin))|].
  intros [s' ys] w' [(Hys & _ & Hdac) (_ & _ & Hrange)]. apply ensures_ret.
  cbn [h_pi s1 upd] in *. split_and!; [by rewrite Hys| |lia|lia].
  rewrite Hdac by auto. apply u32_small.
  destruct spll_range as (Hmin & Hmax & Hpow). unfold is_u32. cbn in Hrange. lia.
Qed.
End helper_loop.

Lemma helper_refines_ideal_witness :
  let s := mk_helper 0 0 (-1) 1 0 (mk_pi (-2) (-150) 12 65531 0 1 5 65531 0 65531)
                     (mk_ld 0 10000 100 200 0 0) 0 (-1) in
  ensures (@helper_run generic_8bit sim sim_hw s [4194000; 16000; 32500]) (sim_boot 1 1)
    (fun '(s', _) w' => cfg w' DAC_HPLL = pi_y (h_pi s') /\ 5 <= pi_y (h_pi s') <= 65531).
Proof.
  intros s. eapply ensures_mono.
  - apply (@helper_refines_ideal generic_8bit generic_8bit_ok sim sim_hw sim_obs sim_laws
             eq_refl s 4194000 [16000; 32500] (sim_boot 1 1)); try done.
    + repeat (apply Forall_cons; split); try done; unfold is_tag, TAG_BITS; lia.
    + cbn [ideal_errors]. repeat (apply Forall_cons; split); try done; vm_compute; congruence.
  - intros [s' ys] w' (_ & H1 & H2). split; [exact H1|exact H2].
Defined.
