(* ===== verification/SpllMain.v ===== *)
(** softpll/spll_main.c: the main DDMTD PLL, which locks an output clock to a
    reference with a programmable phase shift, its gain scheduler and the
    conversion of phase shifts to DDMTD units. *)
From Stdlib Require Import ZArith Lia.
From stdpp Require Import base numbers option list.
From S2P Require Import Prelude Div64 SpllHw SpllCommon SpllHelper.
Import Pi Ld.

(** ** State

    The members under CONFIG_FRAC_SPLL are always present; the code reads them
    only when the option is set.  [m_pad] is the word the ilp32 ABI leaves
    between [state] and the 8-byte aligned regulator: the phase tracker that
    shares its memory with this structure uses it (see SoftPll).  The pointer
    [gain_sched] is NULL or the only reference to a schedule, so it is kept by
    value. *)
Record spll_main_state := mk_main {
  m_state : Z;
  m_pad : Z;
  m_pi : spll_pi_t;
  m_phase_ld : spll_lock_det_t;
  m_freq_ld : spll_lock_det_t;
  m_gain_sched : option spll_gain_schedule_t;
  m_div_cnt : Z; m_div_fb : Z; m_div_ref : Z; m_div_interp : Z;
  m_n_ref : Z; m_n_out : Z;
  m_tag_out_raw_d : Z; m_tag_out_raw : Z; m_tag_out_interp : Z;
  m_dref_dt : Z; m_dout_dt : Z; m_tag_ref_raw_d : Z; m_tag_out_raw_d2 : Z;
  m_freq_prelock_gain_boost : Z;
  m_discard_early_cnt : Z;
  m_adder_ref : Z; m_adder_out : Z;
  m_tag_ref : Z; m_tag_ref_d : Z;
  m_tag_out : Z; m_tag_out_d : Z;
  m_locked : Z;
  m_phase_shift_target : Z;
  m_phase_shift_current : Z;
  m_id_ref : Z; m_id_out : Z;
  m_sample_n : Z;
  m_dac_index : Z;
  m_enabled : Z;
  m_ps_freeze : Z; m_vco_freeze : Z;
  m_dbg_src_id : Z;
  m_lock_start_ms : Z;
  m_last_phase_lock_duration_ms : Z;
  m_last_freq_lock_duration_ms : Z
}.
#[export] Instance eta_main : Etable spll_main_state := fun m =>
  mk_main (m_state m) (m_pad m) (m_pi m) (m_phase_ld m) (m_freq_ld m) (m_gain_sched m)
    (m_div_cnt m) (m_div_fb m) (m_div_ref m) (m_div_interp m) (m_n_ref m) (m_n_out m)
    (m_tag_out_raw_d m) (m_tag_out_raw m) (m_tag_out_interp m)
    (m_dref_dt m) (m_dout_dt m) (m_tag_ref_raw_d m) (m_tag_out_raw_d2 m)
    (m_freq_prelock_gain_boost m) (m_discard_early_cnt m) (m_adder_ref m) (m_adder_out m)
    (m_tag_ref m) (m_tag_ref_d m) (m_tag_out m) (m_tag_out_d m) (m_locked m)
    (m_phase_shift_target m) (m_phase_shift_current m) (m_id_ref m) (m_id_out m)
    (m_sample_n m) (m_dac_index m) (m_enabled m) (m_ps_freeze m) (m_vco_freeze m)
    (m_dbg_src_id m) (m_lock_start_ms m) (m_last_phase_lock_duration_ms m)
    (m_last_freq_lock_duration_ms m).

Definition MPLL_DISCARD_EARLY_TAGS : Z := 10.
Definition MPLL_TAG_WRAPAROUND : Z := 100000000.
Definition MPLL_FREQ_PRELOCK_GAIN_BOOST `{!Board} : Z :=
  if CONFIG_TARGET_AMD_DEVBOARD then 1 else 20.
Definition SPLL_LOCKED : Z := 1.
Definition SPLL_LOCKING : Z := 0.

(** spll_debug.h *)
Definition SPLL_DBG_SIGNAL_Y : Z := 0.
Definition SPLL_DBG_SIGNAL_ERR : Z := 1.
Definition SPLL_DBG_SIGNAL_TAG : Z := 2.
Definition SPLL_DBG_SIGNAL_REF : Z := 3.
Definition SPLL_DBG_SIGNAL_SAMPLE_ID : Z := 5.
Definition SPLL_DBG_SIGNAL_EVENT : Z := 6.
Definition SPLL_DBG_SIGNAL_TIME_MS : Z := 7.
Definition SPLL_DBG_SIGNAL_PHASE_CURRENT : Z := 8.
Definition SPLL_DBG_SIGNAL_PHASE_TARGET : Z := 9.
Definition SPLL_DBG_SRC_MAIN : Z := 1.
Definition SPLL_DBG_SRC_EXT : Z := 2.
Definition SPLL_DBG_SRC_AUX (n : Z) : Z := 3 + Z.land n 3.
Definition SPLL_DBG_EVT_START : Z := 1.
Definition SPLL_DBG_EVT_LOCK_ACQUIRED : Z := 2.
Definition SPLL_DBG_EVT_GAIN_SWITCH : Z := 3.
Definition SPLL_DBG_EVT_LOCK_LOSS : Z := 4.

Definition stage0 : spll_gain_schedule_item_t := mk_stage 0 0 0 0.

(** ** Initialisation *)
Section init.
Context `{!Board}.

(** The default gains of the switch variants: kp, ki and, when the variant
    sets it, the value of reverse_spll. *)
Definition mpll_switch_defaults (g : spll_globals) : Z * Z * option Z :=
  if truth (g_scb_ljd_present g) && (g_periph_id g =? PERIPH_ID_WRS_LJ_SAFRAN)
  then (1100, 30, None)
  else if g_lj_periph_type g =? PERIPH_WRS_FL_SYNCTECH then (-1100, -30, Some 1)
  else if truth (g_scb_ljd_present g) then (2000, 15, None)
  else (1100, 30, None).

(** [mpll_init], the regulator's gains.  reverse_spll is 2
    (REVERSE_SPLL_WRS_START_VALUE) on a switch until the first initialisation
    decides it. *)
Definition mpll_init_gains (g : spll_globals) (s : spll_main_state)
    : spll_globals * spll_main_state :=
  if CONFIG_TARGET_WR_SWITCH then
    let '(g, s) :=
      if truth (g_mpll_init g) then
        let '(dkp, dki, rev) := mpll_switch_defaults g in
        let s := s <| m_pi := (m_pi s) <| pi_kp := if_zero (g_main_pll_kp g) dkp |>
                                       <| pi_ki := if_zero (g_main_pll_ki g) dki |> |> in
        let g := match rev with
                 | Some r => if g_reverse_spll g =? 2 then g <| g_reverse_spll := r |> else g
                 | None => g
                 end in
        let g := if g_reverse_spll g =? 2 then g <| g_reverse_spll := 0 |> else g in
        (g, s)
      else (g, s) in
    (g <| g_mpll_init := 0 |>, s)
  else (g, s <| m_pi := (m_pi s) <| pi_kp := -1100 |> <| pi_ki := -30 |> |>).

(** [mpll_init], from [enabled = 0] on. *)
Definition mpll_init_rest (g : spll_globals) (s : spll_main_state) (id_ref id_out : Z)
    : spll_main_state :=
  let s := s <| m_enabled := 0 |> in
  let s := s <| m_freq_ld := (m_freq_ld s) <| ld_threshold := 50 |> <| ld_lock_samples := 50 |>
                                           <| ld_delock_samples := 20000 |> |> in
  let s := s <| m_freq_prelock_gain_boost := MPLL_FREQ_PRELOCK_GAIN_BOOST |> in
  let s := s <| m_phase_ld := (m_phase_ld s) <| ld_threshold := 1200 |>
               <| ld_lock_samples := 1000 |> <| ld_delock_samples := 100 |> |> in
  let s := s <| m_id_ref := id_ref |> <| m_id_out := id_out |>
             <| m_dac_index := (id_out - g_n_chan_ref g)%int |> in
  let s := s <| m_dbg_src_id := if m_dac_index s =? 0 then SPLL_DBG_SRC_MAIN
                                else SPLL_DBG_SRC_AUX (m_dac_index s - 1) |> in
  let s := s <| m_div_fb := if CONFIG_FRAC_SPLL then 0 else m_div_fb s |>
             <| m_div_ref := if CONFIG_FRAC_SPLL then 0 else m_div_ref s |> in
  let s := s <| m_gain_sched :=
             (fun gs => gs <| gs_current_stage := 0 |> <| gs_locked_d := 0 |>)
             <$> m_gain_sched s |> in
  let s := s <| m_pi := pi_init (m_pi s) |> in
  let s := s <| m_freq_ld := ld_init (m_freq_ld s) |> in
  s <| m_phase_ld := ld_init (m_phase_ld s) |>.

(** [mpll_init] *)
Definition mpll_init (g : spll_globals) (s : spll_main_state) (id_ref id_out : Z)
    : spll_globals * spll_main_state :=
  let s := s <| m_ps_freeze := 0 |> <| m_vco_freeze := 0 |> in
  let s := s <| m_pi := (m_pi s) <| pi_y_min := spll_y_min |> <| pi_y_max := spll_y_max |>
               <| pi_anti_windup := 1 |>
               <| pi_bias := (1 << (BOARD_SPLL_DAC_BITS - 1))%int |>
               <| pi_shift := (PI_FRACBITS - BOARD_SPLL_DIV_BITS)%int |> |> in
  let '(g, s) := mpll_init_gains g s in
  (g, mpll_init_rest g s id_ref id_out).
End init.

(** ** Running *)
Section main.
Context `{!Board}.
Context {W : Type} `{!SpllHW W}.

(** [mpll_handle_gain_schedule] *)
Definition mpll_handle_gain_schedule (s : spll_main_state) : M W spll_main_state :=
  match m_gain_sched s with
  | None => ret (s <| m_locked := ld_locked (m_phase_ld s) |>)
  | Some gs =>
      let finish (s : spll_main_state) (gs : spll_gain_schedule_t) (do_update : bool) :=
        let '(s, gs) :=
          if do_update then
            let stage := aget stage0 (gs_stages gs) (gs_current_stage gs) in
            (s <| m_pi := (m_pi s) <| pi_kp := st_kp stage |> <| pi_ki := st_ki stage |>
                                   <| pi_shift := st_shift stage |> |>
               <| m_phase_ld := (m_phase_ld s) <| ld_lock_samples := st_lock_samples stage |>
                    <| ld_lock_cnt := 0 |> <| ld_lock_changed := 0 |> <| ld_locked := 0 |> |>,
             gs <| gs_locked_d := 0 |>)
          else (s, gs) in
        let gs := gs <| gs_locked_d := ld_locked (m_phase_ld s) |> in
        s <| m_gain_sched := Some gs |> in
      if truth (gs_locked_d gs) && negb (truth (ld_locked (m_phase_ld s))) then
        let gs := gs <| gs_current_stage := 0 |> in
        let s := s <| m_locked := 0 |> in
        ret (finish s gs true)
      else if negb (truth (gs_locked_d gs)) && truth (ld_locked (m_phase_ld s)) then
        spll_debug (m_dbg_src_id s) SPLL_DBG_SIGNAL_EVENT SPLL_DBG_EVT_GAIN_SWITCH 0 ;!
        if gs_current_stage gs =? (gs_n_stages gs - 1)%int then
          let s := s <| m_locked := 1 |> in
          ret (s <| m_gain_sched := Some (gs <| gs_locked_d := 1 |>) |>)
        else
          let gs := gs <| gs_current_stage := (gs_current_stage gs + 1)%int |> in
          ret (finish s gs true)
      else ret (finish s gs false)
  end.

(** [mpll_start] *)
Definition mpll_start (g : spll_globals) (s : spll_main_state) : M W spll_main_state :=
  let s := s <| m_discard_early_cnt := MPLL_DISCARD_EARLY_TAGS |>
             <| m_ps_freeze := 0 |> <| m_vco_freeze := 0 |>
             <| m_adder_out := 0 |> <| m_adder_ref := 0 |>
             <| m_tag_ref := -1 |> <| m_tag_out := -1 |>
             <| m_tag_ref_d := -1 |> <| m_tag_out_d := -1 |>
             <| m_tag_ref_raw_d := -1 |> <| m_tag_out_raw_d2 := -1 |>
             <| m_phase_shift_target := 0 |> <| m_phase_shift_current := 0 |>
             <| m_sample_n := 0 |> <| m_enabled := 1 |> <| m_locked := 0 |> in
  let s := if CONFIG_FRAC_SPLL
           then s <| m_tag_out_raw_d := -1 |> <| m_tag_out_interp := -1 |>
                  <| m_tag_out_raw := -1 |> <| m_n_out := 0 |> <| m_n_ref := 0 |>
                  <| m_div_cnt := 0 |>
           else s in
  let s := s <| m_last_freq_lock_duration_ms := -1 |> <| m_last_phase_lock_duration_ms := -1 |> in
  let s := match m_gain_sched s with
           | Some gs =>
               let st := aget stage0 (gs_stages gs) 0 in
               s <| m_gain_sched := Some (gs <| gs_current_stage := 0 |> <| gs_locked_d := 0 |>) |>
                 <| m_pi := (m_pi s) <| pi_kp := st_kp st |> <| pi_ki := st_ki st |>
                                     <| pi_shift := st_shift st |> |>
                 <| m_phase_ld := (m_phase_ld s) <| ld_lock_samples := st_lock_samples st |>
                                                 <| ld_lock_cnt := 0 |> |>
           | None => s
           end in
  let s := s <| m_pi := pi_init (m_pi s) |> in
  let s := s <| m_phase_ld := ld_init (m_phase_ld s) |> in
  let s := s <| m_freq_ld := ld_init (m_freq_ld s) |> in
  let! now := timer_get_tics in
  let s := s <| m_lock_start_ms := now |> in
  spll_enable_tagger (g_n_chan_ref g) (m_id_ref s) 1 ;!
  spll_enable_tagger (g_n_chan_ref g) (m_id_out s) 1 ;!
  spll_debug (m_dbg_src_id s) SPLL_DBG_SIGNAL_EVENT SPLL_DBG_EVT_START 1 ;!
  ret s.

(** [mpll_stop] *)
Definition mpll_stop (g : spll_globals) (s : spll_main_state) : M W spll_main_state :=
  spll_enable_tagger (g_n_chan_ref g) (m_id_out s) 0 ;!
  ret (s <| m_enabled := 0 |>).

(** [update_dtag_dt]: the new [*dtag_dt] and [*tag_d]. *)
Definition update_dtag_dt (dtag_dt tag tag_d : Z) : Z * Z :=
  if tag =? tag_d then (dtag_dt, tag_d)
  else
    let dtag_dt := (tag - tag_d)%int in
    let dtag_dt := if dtag_dt <? 0 then (dtag_dt + (1 << TAG_BITS))%int else dtag_dt in
    (dtag_dt, tag).

(** [mpll_update], capture of a tag of the reference channel. *)
Definition mpll_capture_ref (s : spll_main_state) (tag : Z) : spll_main_state :=
  let s := s <| m_tag_ref := tag |> in
  if CONFIG_FRAC_SPLL then
    let s := s <| m_n_ref := (m_n_ref s + 1)%int |> in
    if 0 <=? m_tag_out_interp s
    then s <| m_tag_out := m_tag_out_interp s |> <| m_n_out := (m_n_out s + 1)%int |>
           <| m_tag_out_interp := -1 |>
    else s
  else s.

(** [mpll_update], CONFIG_FRAC_SPLL: the output tag interpolated to the
    div_fb/div_ref ratio; [t0] and [t1] are the last two raw tags. *)
Definition mpll_interp (s : spll_main_state) (t0 t1 : Z) : spll_main_state :=
  let t_raw := if t1 <? t0 then (t1 + (1 << TAG_BITS))%int else t1 in
  let w0 := (m_div_cnt s * m_div_fb s)%int in
  let w1 := ((m_div_cnt s + 1) * m_div_fb s)%int in
  let f0 := (w0 mod m_div_ref s)%int in
  let f1 := (w1 mod m_div_ref s)%int in
  let c0 := (w0 / m_div_ref s)%int in
  let c1 := (w1 / m_div_ref s)%int in
  let tr := (((m_div_ref s - f0) * t0 + f0 * t_raw) / m_div_ref s)%int in
  let tr2 := (((m_div_ref s - f1) * t0 + f1 * t_raw) / m_div_ref s)%int in
  let cnt := if c0 =? c1 then (m_div_cnt s + 1 + 1)%int else (m_div_cnt s + 1)%int in
  s <| m_tag_out := tr |> <| m_n_out := (m_n_out s + 1)%int |>
    <| m_tag_out_interp := if c0 =? c1 then tr2 else -1 |>
    <| m_div_cnt := if cnt =? m_div_ref s then 0 else cnt |>.

(** [mpll_update], capture of a tag of the output channel. *)
Definition mpll_capture_out (s : spll_main_state) (tag : Z) : spll_main_state :=
  if CONFIG_FRAC_SPLL then
    let s := s <| m_tag_out_raw_d := m_tag_out_raw s |> in
    let s := s <| m_tag_out_raw := tag |> in
    if m_div_ref s =? 0
    then s <| m_tag_out := tag |> <| m_n_out := (m_n_out s + 1)%int |>
    else mpll_interp s (m_tag_out_raw_d s) (m_tag_out_raw s)
  else s <| m_tag_out := tag |>.

(** [mpll_update], the capture of the tag. *)
Definition mpll_capture (s : spll_main_state) (tag source : Z) : spll_main_state :=
  let s := if source =? m_id_ref s then mpll_capture_ref s tag else s in
  if source =? m_id_out s then mpll_capture_out s tag else s.

(** [mpll_update]: the increment of a pending reference tag and its
    wrap-around adder. *)
Definition mpll_unwrap_ref (s : spll_main_state) : spll_main_state :=
  if 0 <=? m_tag_ref s then
    let '(d, raw) := update_dtag_dt (m_dref_dt s) (m_tag_ref s) (m_tag_ref_raw_d s) in
    s <| m_dref_dt := d |> <| m_tag_ref_raw_d := raw |>
      <| m_adder_ref := if (0 <=? m_tag_ref_d s) && (m_tag_ref s <? m_tag_ref_d s)
                        then (m_adder_ref s + (1 << TAG_BITS))%int else m_adder_ref s |>
      <| m_tag_ref_d := m_tag_ref s |>
  else s.

(** [mpll_update]: the same for a pending output tag. *)
Definition mpll_unwrap_out (s : spll_main_state) : spll_main_state :=
  if 0 <=? m_tag_out s then
    let '(d, raw) := update_dtag_dt (m_dout_dt s) (m_tag_out s) (m_tag_out_raw_d2 s) in
    s <| m_dout_dt := d |> <| m_tag_out_raw_d2 := raw |>
      <| m_adder_out := if (0 <=? m_tag_out_d s) && (m_tag_out s <? m_tag_out_d s)
                        then (m_adder_out s + (1 << TAG_BITS))%int else m_adder_out s |>
      <| m_tag_out_d := m_tag_out s |>
  else s.

(** [mpll_update]: the alignment of the two adders when the last early tag is
    discarded (not with CONFIG_FRAC_SPLL). *)
Definition mpll_discard_early (s : spll_main_state) : spll_main_state :=
  if CONFIG_FRAC_SPLL then s
  else
    let s :=
      if m_discard_early_cnt s =? 1 then
        let adj_ref := (m_tag_ref s + m_adder_ref s)%int in
        let adj_out := (m_tag_out s + m_adder_out s)%int in
        let s :=
          if adj_out <? adj_ref
          then let delta := (adj_ref - adj_out)%int in
               s <| m_adder_ref := (m_adder_ref s - ((delta >> HPLL_N) << HPLL_N))%int |>
          else let delta := (adj_out - adj_ref)%int in
               s <| m_adder_out := (m_adder_out s - ((delta >> HPLL_N) << HPLL_N))%int |> in
        if (m_adder_ref s <? 0) || (m_adder_out s <? 0)
        then s <| m_adder_ref := (m_adder_ref s + MPLL_TAG_WRAPAROUND)%int |>
               <| m_adder_out := (m_adder_out s + MPLL_TAG_WRAPAROUND)%int |>
        else s
      else s in
    if 0 <? m_discard_early_cnt s
    then s <| m_discard_early_cnt := (m_discard_early_cnt s - 1)%int |> else s.

(** The masking that keeps a locked error within half a DDMTD period:
    [err &= 2^N - 1] and the extension of the sign bit. *)
Definition mask_err (err : Z) : Z :=
  let err := Z.land err ((1 << HPLL_N) - 1)%int in
  if truth (Z.land err (1 << (HPLL_N - 1))%int)
  then Z.lor err (Z.lnot ((1 << HPLL_N) - 1)%int) else err.

(** [mpll_update]: the frequency detector and the error. *)
Definition mpll_error (s : spll_main_state) : M W (spll_main_state * Z) :=
  let freq_error := (m_dout_dt s - m_dref_dt s)%int in
  let s := s <| m_freq_ld := (ld_update (m_freq_ld s) freq_error).1 |> in
  let! s :=
    (if truth (ld_lock_changed (m_freq_ld s)) && truth (ld_locked (m_freq_ld s)) then
       let! now := timer_get_tics in
       ret (s <| m_last_freq_lock_duration_ms := s32 (now - m_lock_start_ms s)%uint |>)
     else ret s) in
  let err :=
    if negb (truth (ld_locked (m_freq_ld s)))
    then ((- m_freq_prelock_gain_boost s) * freq_error)%int
    else (m_adder_ref s + m_tag_ref s - m_adder_out s - m_tag_out s)%int in
  ret (s, if truth (ld_locked (m_freq_ld s)) then mask_err err else err).

(** [mpll_update]: the regulator, the DAC and the debug record. *)
Definition mpll_drive (s : spll_main_state) (err : Z) : M W spll_main_state :=
  let '(pi, y) := pi_update (m_pi s) err in
  let s := s <| m_pi := pi |> in
  when (negb (truth (m_vco_freeze s)))
    (wr DAC_MAIN (Z.lor (SPLL_DAC_MAIN_VALUE_W y) (SPLL_DAC_MAIN_DAC_SEL_W (m_dac_index s)))) ;!
  spll_debug (m_dbg_src_id s) SPLL_DBG_SIGNAL_PHASE_CURRENT (m_phase_shift_current s) 0 ;!
  spll_debug (m_dbg_src_id s) SPLL_DBG_SIGNAL_PHASE_TARGET (m_phase_shift_target s) 0 ;!
  let! now := timer_get_tics in
  spll_debug (m_dbg_src_id s) SPLL_DBG_SIGNAL_TIME_MS (s32 now) 0 ;!
  spll_debug (m_dbg_src_id s) SPLL_DBG_SIGNAL_REF (m_dref_dt s) 0 ;!
  spll_debug (m_dbg_src_id s) SPLL_DBG_SIGNAL_TAG (m_dout_dt s) 0 ;!
  spll_debug (m_dbg_src_id s) SPLL_DBG_SIGNAL_ERR err 0 ;!
  spll_debug (m_dbg_src_id s) SPLL_DBG_SIGNAL_SAMPLE_ID (m_sample_n s) 0 ;!
  let s := s <| m_sample_n := (m_sample_n s + 1)%int |> in
  spll_debug (m_dbg_src_id s) SPLL_DBG_SIGNAL_Y y 1 ;!
  ret s.

(** [mpll_update]: forget the pair of tags and rebase the adders. *)
Definition mpll_rebase (s : spll_main_state) : spll_main_state :=
  let s := s <| m_tag_out := -1 |> <| m_tag_ref := -1 |> in
  if (2 * MPLL_TAG_WRAPAROUND <? m_adder_ref s) && (2 * MPLL_TAG_WRAPAROUND <? m_adder_out s)
  then s <| m_adder_ref := (m_adder_ref s - MPLL_TAG_WRAPAROUND)%int |>
         <| m_adder_out := (m_adder_out s - MPLL_TAG_WRAPAROUND)%int |>
  else s.

(** [mpll_update]: move the phase shifter by one unit. *)
Definition mpll_shift (g : spll_globals) (s : spll_main_state) : spll_main_state :=
  if truth (m_locked s) && negb (truth (m_ps_freeze s)) then
    if m_phase_shift_current s <? m_phase_shift_target s then
      let s := s <| m_phase_shift_current := (m_phase_shift_current s + 1)%int |> in
      if negb (truth (g_reverse_spll g))
      then s <| m_adder_ref := (m_adder_ref s + 1)%int |>
      else s <| m_adder_ref := (m_adder_ref s - 1)%int |>
    else if m_phase_shift_target s <? m_phase_shift_current s then
      let s := s <| m_phase_shift_current := (m_phase_shift_current s - 1)%int |> in
      if negb (truth (g_reverse_spll g))
      then s <| m_adder_ref := (m_adder_ref s - 1)%int |>
      else s <| m_adder_ref := (m_adder_ref s + 1)%int |>
    else s
  else s.

(** [mpll_update]: the phase lock detector and the gain scheduler. *)
Definition mpll_phase_lock (s : spll_main_state) (err : Z) : M W (spll_main_state * Z) :=
  if truth (ld_locked (m_freq_ld s)) then
    let s := s <| m_phase_ld := (ld_update (m_phase_ld s) err).1 |> in
    let! s :=
      (if truth (ld_lock_changed (m_phase_ld s)) then
         spll_debug (m_dbg_src_id s) SPLL_DBG_SIGNAL_EVENT
           (if truth (ld_locked (m_phase_ld s))
            then SPLL_DBG_EVT_LOCK_ACQUIRED else SPLL_DBG_EVT_LOCK_LOSS) 1 ;!
         if truth (ld_locked (m_phase_ld s)) then
           let! now := timer_get_tics in
           ret (s <| m_last_phase_lock_duration_ms := s32 (now - m_lock_start_ms s)%uint |>)
         else ret s
       else ret s) in
    let! s := mpll_handle_gain_schedule s in
    ret (s, if truth (m_locked s) then SPLL_LOCKED else SPLL_LOCKING)
  else ret (s, SPLL_LOCKING).

(** [mpll_update]: the new state and the returned lock status. *)
Definition mpll_update (g : spll_globals) (s : spll_main_state) (tag source : Z)
    : M W (spll_main_state * Z) :=
  if negb (truth (m_enabled s)) then ret (s, SPLL_LOCKED)
  else
    let s := mpll_capture s tag source in
    let s := mpll_unwrap_out (mpll_unwrap_ref s) in
    if (0 <=? m_tag_ref s) && (0 <=? m_tag_out s) then
      let s := mpll_discard_early s in
      let! (s, err) := mpll_error s in
      let! s := mpll_drive s err in
      let s := mpll_shift g (mpll_rebase s) in
      mpll_phase_lock s err
    else ret (s, SPLL_LOCKING).

(** [from_picos]: the CONFIG_WRPC_PPSI version divides with [__div64_32] and
    negates by hand, the other uses 64-bit signed arithmetic. *)
Definition from_picos (ps : Z) : Z :=
  if CONFIG_WRPC_PPSI then
    if 0 <=? ps then
      let ups := u64 (u64 ps * u64 (1 << HPLL_N)%int) in
      s32 (div64_32 ups REF_CLOCK_PERIOD_PS).1
    else
      let ups := u64 ((- ps) * (1 << HPLL_N))%int in
      s32 (u64 (- (div64_32 ups REF_CLOCK_PERIOD_PS).1))
  else
    s32 (Z.quot (s64 (ps * (1 << HPLL_N)%int)) REF_CLOCK_PERIOD_PS).

(** [mpll_set_phase_shift] *)
Definition mpll_set_phase_shift (s : spll_main_state) (desired_shift_ps : Z) : spll_main_state :=
  let div := if BOARD_DIVIDE_DMTD_CLOCKS then 2 else 1 in
  s <| m_phase_shift_target := (from_picos desired_shift_ps / div)%int |>.

(** [mpll_shifter_busy] *)
Definition mpll_shifter_busy (s : spll_main_state) : bool :=
  negb (m_phase_shift_target s =? m_phase_shift_current s).
End main.

(** What [mpll_init] leaves for the callers. *)
Lemma mpll_init_facts `{!Board} g m r o :
  m_enabled (mpll_init g m r o).2 = 0 /\
  g_n_chan_ref (mpll_init g m r o).1 = g_n_chan_ref g /\
  g_n_chan_out (mpll_init g m r o).1 = g_n_chan_out g.
Proof.
  assert (Hr : forall g m, m_enabled (mpll_init_rest g m r o) = 0).
  { done. }
  assert (Hg : forall g m, g_n_chan_ref (mpll_init_gains g m).1 = g_n_chan_ref g /\
                           g_n_chan_out (mpll_init_gains g m).1 = g_n_chan_out g).
  { intros g0 m0. unfold mpll_init_gains.
    destruct CONFIG_TARGET_WR_SWITCH; [|done]. destruct (truth (g_mpll_init g0)); [|done].
    destruct (mpll_switch_defaults g0) as [[dkp dki] rev].
    set (g1 := match rev with Some _ => _ | None => _ end).
    assert (g_n_chan_ref g1 = g_n_chan_ref g0 /\ g_n_chan_out g1 = g_n_chan_out g0) as [<- <-]
      by (unfold g1; destruct rev; [|done]; by destruct (g_reverse_spll g0 =? 2)).
    clearbody g1. cbn [fst]. by destruct (g_reverse_spll g1 =? 2). }
  unfold mpll_init. set (m1 := (m <| m_ps_freeze := 0 |>) <| m_vco_freeze := 0 |>).
  set (m2 := m1 <| m_pi := _ |>).
  pose proof (Hg g m2) as Hg2. destruct (mpll_init_gains g m2) as [g' m']. cbn [fst snd] in *.
  split; [apply Hr|done].
Qed.

(** ** The phase setpoint *)

(** Masking is sign extension of the low 14 bits. *)
Lemma mask_err_sext14 e : mask_err e = sext14 e.
Proof.
  unfold mask_err, HPLL_N. change (((1 << 14) - 1)%int) with (Z.ones 14).
  change ((1 << (14 - 1))%int) with (2 ^ 13).
  rewrite Z.land_ones by lia. change (2 ^ 14) with 16384.
  transitivity (sext14 (e mod 16384)).
  2:{ apply sext14_proper. unfold eq14. by rewrite Z.mod_mod by lia. }
  pose proof (Z.mod_pos_bound e 16384 ltac:(lia)) as Hr.
  generalize dependent (e mod 16384). intros r Hr.
  rewrite land_pow2 by lia. unfold sext14.
  destruct (Z.testbit r 13) eqn:Hb.
  - apply Z.testbit_true in Hb; [|lia]. change (2 ^ 13) with 8192 in *.
    assert (8192 <= r) by (destruct (Z.le_gt_cases 8192 r); [done|];
                           rewrite Z.div_small in Hb by lia; done).
    rewrite lor_lnot_ones by lia. change (2 ^ 14) with 16384.
    replace (r + 8192) with (r - 8192 + 1 * 16384) by lia.
    rewrite Z.mod_add, Z.mod_small by lia. change (truth 8192) with true. cbv iota. lia.
  - apply Z.testbit_false in Hb; [|lia]. change (2 ^ 13) with 8192 in *.
    assert (r < 8192).
    { destruct (Z.le_gt_cases 8192 r); [|done].
      replace r with (r - 8192 + 1 * 8192) in Hb by lia.
      rewrite Z.div_add, Z.div_small in Hb by lia. done. }
    change (truth 0) with false. cbv iota. rewrite Z.mod_small by lia. lia.
Qed.

(** The direction in which the shifter moves the reference. *)
Definition shift_sign (g : spll_globals) : Z := if truth (g_reverse_spll g) then -1 else 1.

(** The invariant of the main PLL: up to the DDMTD period, the offset between
    the two wrap-around adders is the phase shift applied so far. *)
Definition setpoint_inv (g : spll_globals) (s : spll_main_state) : Prop :=
  m_adder_ref s - m_adder_out s ≡₁₄ shift_sign g * m_phase_shift_current s.

Lemma eq14_iadd a b : (a + b)%int ≡₁₄ a + b. Proof. apply eq14_s32. Qed.
Lemma eq14_isub a b : (a - b)%int ≡₁₄ a - b. Proof. apply eq14_s32. Qed.

Section setpoint.
Context `{!Board}.
Context {W : Type} `{!SpllHW W}.
Implicit Types (s : spll_main_state) (w : W).

(** What the steps before the shifter leave alone. *)
Definition same_phase s s' : Prop :=
  m_adder_ref s' - m_adder_out s' ≡₁₄ m_adder_ref s - m_adder_out s /\
  m_phase_shift_current s' = m_phase_shift_current s.

Definition phase_frame s s' : Prop :=
  m_adder_ref s' = m_adder_ref s /\ m_adder_out s' = m_adder_out s /\
  m_phase_shift_current s' = m_phase_shift_current s /\ m_pi s' = m_pi s /\
  m_enabled s' = m_enabled s /\ m_id_ref s' = m_id_ref s /\ m_id_out s' = m_id_out s.

Lemma mpll_capture_frame s tag source : phase_frame s (mpll_capture s tag source).
Proof.
  assert (Href : phase_frame s (if source =? m_id_ref s then mpll_capture_ref s tag else s)).
  { case_match; [|done]. unfold mpll_capture_ref. by repeat case_match. }
  unfold mpll_capture. destruct Href as (H1 & H2 & H3 & H4 & H5 & H6 & H7).
  set (s1 := if source =? m_id_ref s then _ else _) in *. clearbody s1.
  unfold phase_frame. rewrite <- H1, <- H2, <- H3, <- H4, <- H5, <- H6, <- H7.
  case_match; [|done]. unfold mpll_capture_out. by repeat case_match.
Qed.

Lemma add_tag_period_14 a : (a + (1 << TAG_BITS))%int ≡₁₄ a.
Proof. rewrite eq14_iadd. exact (eq14_mult a 256). Qed.

Lemma mpll_unwrap_ref_phase s : same_phase s (mpll_unwrap_ref s).
Proof.
  unfold same_phase, mpll_unwrap_ref. destruct (0 <=? m_tag_ref s); [|done].
  destruct (update_dtag_dt _ _ _) as [d r]. cbn [m_adder_ref m_adder_out m_phase_shift_current upd].
  case_match; by rewrite ?add_tag_period_14.
Qed.
Lemma mpll_unwrap_out_phase s : same_phase s (mpll_unwrap_out s).
Proof.
  unfold same_phase, mpll_unwrap_out. destruct (0 <=? m_tag_out s); [|done].
  destruct (update_dtag_dt _ _ _) as [d r]. cbn [m_adder_ref m_adder_out m_phase_shift_current upd].
  case_match; by rewrite ?add_tag_period_14.
Qed.

Lemma trunc_period_14 d : ((d >> HPLL_N) << HPLL_N)%int ≡₁₄ 0.
Proof.
  unfold ishl, ishr, HPLL_N. rewrite eq14_s32, Z.shiftl_mul_pow2 by lia.
  change (2 ^ 14) with 16384. rewrite <- (eq14_mult 0 (Z.shiftr d 14)). apply eq14_eq. lia.
Qed.

Ltac to14 :=
  repeat (setoid_rewrite eq14_iadd || setoid_rewrite eq14_isub || setoid_rewrite trunc_period_14).

Lemma mpll_discard_early_phase s : same_phase s (mpll_discard_early s).
Proof.
  unfold same_phase, mpll_discard_early.
  destruct CONFIG_FRAC_SPLL; [done|].
  repeat case_match; cbn; (split; [|done]);
    to14; apply eq14_eq; lia.
Qed.

Lemma mpll_rebase_phase s : same_phase s (mpll_rebase s).
Proof.
  unfold same_phase, mpll_rebase. case_match; cbn; (split; [|done]); [|done].
  to14. apply eq14_eq. lia.
Qed.

Lemma shift_sign_s32 g c : shift_sign g * s32 c ≡₁₄ shift_sign g * c.
Proof.
  unfold shift_sign. destruct (truth (g_reverse_spll g)).
  - replace (-1 * s32 c) with (- s32 c) by lia. replace (-1 * c) with (- c) by lia.
    by rewrite eq14_s32.
  - rewrite !Z.mul_1_l. by rewrite eq14_s32.
Qed.

(** The shifter keeps the invariant: the adder moves with the shift. *)
Lemma mpll_shift_inv g s : setpoint_inv g s -> setpoint_inv g (mpll_shift g s).
Proof.
  unfold setpoint_inv, mpll_shift. intros Hinv.
  destruct (truth (m_locked s) && negb (truth (m_ps_freeze s))); [|done].
  destruct (m_phase_shift_current s <? m_phase_shift_target s);
    [|destruct (m_phase_shift_target s <? m_phase_shift_current s); [|done]];
    destruct (truth (g_reverse_spll g)) eqn:Hrev;
    cbn [negb m_adder_ref m_adder_out m_phase_shift_current upd];
    unfold iadd, isub; rewrite shift_sign_s32, eq14_s32, ?Z.mul_add_distr_l, ?Z.mul_sub_distr_l,
      <- Hinv; unfold shift_sign; rewrite Hrev; apply eq14_eq; lia.
Qed.

Lemma setpoint_same g s s' : same_phase s s' -> setpoint_inv g s -> setpoint_inv g s'.
Proof. unfold setpoint_inv. intros [H1 ->] Hs. by rewrite H1. Qed.
Lemma same_phase_trans s1 s2 s3 : same_phase s1 s2 -> same_phase s2 s3 -> same_phase s1 s3.
Proof. intros [H1 H2] [H3 H4]. split; [by rewrite H3|congruence]. Qed.

(** The frequency detector only touches its own fields, and the error is the
    raw frequency error until it locks and the masked phase error after. *)
Lemma mpll_error_spec s w :
  ensures (mpll_error s) w (fun '(s', err) _ =>
    same_phase s s' /\ m_enabled s' = m_enabled s /\ m_dac_index s' = m_dac_index s /\
    m_freq_ld s' = (ld_update (m_freq_ld s) (m_dout_dt s - m_dref_dt s)%int).1 /\
    m_pi s' = m_pi s /\ m_vco_freeze s' = m_vco_freeze s /\
    (ld_locked (m_freq_ld s') <> 0 ->
       err = sext14 (m_adder_ref s + m_tag_ref s - m_adder_out s - m_tag_out s)) /\
    (ld_locked (m_freq_ld s') = 0 ->
       err = ((- m_freq_prelock_gain_boost s) * (m_dout_dt s - m_dref_dt s))%int)).
Proof.
  unfold mpll_error. set (ld := (ld_update _ _).1). apply ensures_bind. cbn -[truth].
  assert (Hsel : forall a b, (ld_locked ld <> 0 ->
      (if truth (ld_locked ld) then mask_err (if negb (truth (ld_locked ld)) then a else b)
       else if negb (truth (ld_locked ld)) then a else b) = mask_err b) /\
    (ld_locked ld = 0 ->
      (if truth (ld_locked ld) then mask_err (if negb (truth (ld_locked ld)) then a else b)
       else if negb (truth (ld_locked ld)) then a else b) = a)).
  { intros a b. by destruct (truth_spec (ld_locked ld)). }
  assert (Hmask : mask_err (m_adder_ref s + m_tag_ref s - m_adder_out s - m_tag_out s)%int =
    sext14 (m_adder_ref s + m_tag_ref s - m_adder_out s - m_tag_out s)).
  { rewrite mask_err_sext14. apply sext14_proper. by to14. }
  destruct (truth (ld_lock_changed ld) && truth (ld_locked ld)).
  - apply ensures_skip. intros now w1. apply ensures_ret. unfold ensures. cbn -[truth mask_err].
    split_and!; try done; intros Hl; [rewrite (proj1 (Hsel _ _) Hl)|rewrite (proj2 (Hsel _ _) Hl)]; done.
  - apply ensures_ret. unfold ensures. cbn -[truth mask_err].
    split_and!; try done; intros Hl; [rewrite (proj1 (Hsel _ _) Hl)|rewrite (proj2 (Hsel _ _) Hl)]; done.
Qed.

Lemma mpll_drive_spec s err w :
  ensures (mpll_drive s err) w (fun s' _ =>
    s' = s <| m_pi := (pi_update (m_pi s) err).1 |> <| m_sample_n := (m_sample_n s + 1)%int |>).
Proof.
  unfold mpll_drive. destruct (pi_update (m_pi s) err) as [pi y] eqn:Hpi.
  repeat (apply ensures_skip; intros). by apply ensures_ret.
Qed.

Lemma mpll_handle_gain_schedule_frame s w :
  ensures (mpll_handle_gain_schedule s) w (fun s' _ =>
    m_adder_ref s' = m_adder_ref s /\ m_adder_out s' = m_adder_out s /\
    m_phase_shift_current s' = m_phase_shift_current s /\ m_enabled s' = m_enabled s /\
    m_freq_ld s' = m_freq_ld s /\ pi_x (m_pi s') = pi_x (m_pi s) /\ m_id_ref s' = m_id_ref s).
Proof.
  unfold mpll_handle_gain_schedule. destruct (m_gain_sched s) as [gs|]; [|done].
  destruct (_ && negb (truth (ld_locked (m_phase_ld s)))); [done|].
  destruct (_ && truth (ld_locked (m_phase_ld s))); [|done].
  apply ensures_skip. intros _ w'. by destruct (_ =? _).
Qed.

Lemma mpll_phase_lock_frame s err w :
  ensures (mpll_phase_lock s err) w (fun '(s', _) _ =>
    m_adder_ref s' = m_adder_ref s /\ m_adder_out s' = m_adder_out s /\
    m_phase_shift_current s' = m_phase_shift_current s /\ m_enabled s' = m_enabled s /\
    m_freq_ld s' = m_freq_ld s /\ pi_x (m_pi s') = pi_x (m_pi s)).
Proof.
  unfold mpll_phase_lock. destruct (truth (ld_locked (m_freq_ld s))); [|done].
  set (s1 := s <| m_phase_ld := _ |>).
  assert (Hrest : forall s2, (exists d, s2 = s1 <| m_last_phase_lock_duration_ms := d |>) ->
    forall w, ensures (let! s := mpll_handle_gain_schedule s2 in
      ret (s, if truth (m_locked s) then SPLL_LOCKED else SPLL_LOCKING)) w (fun '(s', _) _ =>
    m_adder_ref s' = m_adder_ref s /\ m_adder_out s' = m_adder_out s /\
    m_phase_shift_current s' = m_phase_shift_current s /\ m_enabled s' = m_enabled s /\
    m_freq_ld s' = m_freq_ld s /\ pi_x (m_pi s') = pi_x (m_pi s))).
  { intros s2 [d ->] w1. apply ensures_bind.
    eapply ensures_mono; [apply mpll_handle_gain_schedule_frame|].
    intros s3 w2 (H1 & H2 & H3 & H4 & H5 & H6 & _). apply ensures_ret.
    by rewrite H1, H2, H3, H4, H5, H6. }
  apply ensures_bind. destruct (truth (ld_lock_changed (m_phase_ld s1))).
  - apply ensures_skip. intros _ w1. destruct (truth (ld_locked (m_phase_ld s1))).
    + apply ensures_skip. intros now w2. apply ensures_ret, Hrest. by eexists.
    + apply ensures_ret, Hrest. by exists (m_last_phase_lock_duration_ms s).
  - apply ensures_ret, Hrest. by exists (m_last_phase_lock_duration_ms s).
Qed.

(** The tags, the enable flag and the regulator survive the unwrapping. *)
Lemma mpll_unwrap_tags s :
  let s' := mpll_unwrap_out (mpll_unwrap_ref s) in
  m_tag_ref s' = m_tag_ref s /\ m_tag_out s' = m_tag_out s /\ m_enabled s' = m_enabled s /\
  m_pi s' = m_pi s.
Proof.
  assert (Href : forall s, let s' := mpll_unwrap_ref s in m_tag_ref s' = m_tag_ref s /\
    m_tag_out s' = m_tag_out s /\ m_enabled s' = m_enabled s /\ m_pi s' = m_pi s).
  { intros s0. unfold mpll_unwrap_ref. by repeat case_match. }
  assert (Hout : forall s, let s' := mpll_unwrap_out s in m_tag_ref s' = m_tag_ref s /\
    m_tag_out s' = m_tag_out s /\ m_enabled s' = m_enabled s /\ m_pi s' = m_pi s).
  { intros s0. unfold mpll_unwrap_out. by repeat case_match. }
  cbv zeta. destruct (Hout (mpll_unwrap_ref s)) as (-> & -> & -> & ->). apply Href.
Qed.

Lemma mpll_discard_early_frame s :
  let s' := mpll_discard_early s in
  m_tag_ref s' = m_tag_ref s /\ m_tag_out s' = m_tag_out s /\ m_enabled s' = m_enabled s /\
  m_pi s' = m_pi s.
Proof. unfold mpll_discard_early. by repeat case_match. Qed.

Lemma mpll_shift_frame g s :
  m_freq_ld (mpll_shift g s) = m_freq_ld s /\ m_pi (mpll_shift g s) = m_pi s /\
  m_enabled (mpll_shift g s) = m_enabled s.
Proof. unfold mpll_shift. by repeat case_match. Qed.

Lemma mpll_rebase_frame s :
  m_freq_ld (mpll_rebase s) = m_freq_ld s /\ m_pi (mpll_rebase s) = m_pi s /\
  m_enabled (mpll_rebase s) = m_enabled s.
Proof. unfold mpll_rebase. by repeat case_match. Qed.

Lemma pi_update_x pi x : pi_x (pi_update pi x).1 = x.
Proof. unfold pi_update. by repeat case_match. Qed.

(** One call: the invariant is kept, and once the frequency is locked the
    regulator sees the phase difference of the pair plus the shift. *)
Definition setpoint_step g s tag source s' : Prop :=
  setpoint_inv g s' /\ m_enabled s' = m_enabled s /\
  (let c := mpll_capture s tag source in
   0 <= m_tag_ref c -> 0 <= m_tag_out c -> ld_locked (m_freq_ld s') <> 0 ->
   pi_x (m_pi s') =
     sext14 (m_tag_ref c - m_tag_out c + shift_sign g * m_phase_shift_current s)).

Lemma mpll_update_setpoint g s tag source w :
  m_enabled s <> 0 -> setpoint_inv g s ->
  ensures (mpll_update g s tag source) w (fun '(s', _) _ => setpoint_step g s tag source s').
Proof.
  intros Hen Hinv. unfold mpll_update, setpoint_step.
  destruct (truth_spec (m_enabled s)) as [_|]; [|done]. cbn [negb].
  destruct (mpll_capture_frame s tag source) as (Hc1 & Hc2 & Hc3 & Hc4 & Hc5 & _).
  set (c := mpll_capture s tag source) in *.
  destruct (mpll_unwrap_tags c) as (Ht1 & Ht2 & Ht3 & Ht4).
  assert (Hph : same_phase s (mpll_unwrap_out (mpll_unwrap_ref c))).
  { apply (same_phase_trans _ c); [split; [by rewrite Hc1, Hc2|done]|].
    eapply same_phase_trans; [apply mpll_unwrap_ref_phase|apply mpll_unwrap_out_phase]. }
  set (u := mpll_unwrap_out (mpll_unwrap_ref c)) in *.
  destruct ((0 <=? m_tag_ref u) && (0 <=? m_tag_out u)) eqn:Hpair.
  2:{ apply ensures_ret. split_and!; [by eapply setpoint_same|congruence|].
      rewrite Ht1, Ht2 in Hpair. intros Hr Ho. bool_hyps.
      destruct Hpair as [Hp|Hp]; apply Z.leb_gt in Hp; lia. }
  destruct (mpll_discard_early_frame u) as (Hd1 & Hd2 & Hd3 & Hd4).
  assert (Hph2 : same_phase s (mpll_discard_early u))
    by (eapply same_phase_trans; [exact Hph|apply mpll_discard_early_phase]).
  set (d := mpll_discard_early u) in *.
  apply ensures_bind. eapply ensures_mono; [apply mpll_error_spec|].
  intros [e err] w1 (Hph3 & Hen3 & _ & _ & _ & _ & Herr & _).
  apply ensures_bind. eapply ensures_mono; [apply mpll_drive_spec|].
  intros v w2 Hv. eapply ensures_mono; [apply mpll_phase_lock_frame|].
  intros [s' ?] w3 (Hf1 & Hf2 & Hf3 & Hf4 & Hf5 & Hf6).
  destruct (mpll_shift_frame g (mpll_rebase v)) as (Hs1 & Hs2 & Hs3).
  destruct (mpll_rebase_frame v) as (Hb1 & Hb2 & Hb3).
  assert (Hinv' : setpoint_inv g (mpll_shift g (mpll_rebase v))).
  { apply mpll_shift_inv. eapply setpoint_same; [|exact Hinv].
    eapply same_phase_trans; [exact Hph2|]. eapply same_phase_trans; [exact Hph3|].
    apply (same_phase_trans _ v); [by rewrite Hv|apply mpll_rebase_phase]. }
  split_and!.
  - unfold setpoint_inv in *. by rewrite Hf1, Hf2, Hf3.
  - rewrite Hf4, Hs3, Hb3, Hv. cbn. congruence.
  - intros _ _ Hl. rewrite Hf6, Hs2, Hb2, Hv. cbn [m_pi upd]. rewrite pi_update_x.
    rewrite Hf5, Hs1, Hb1, Hv in Hl. cbn in Hl. rewrite (Herr Hl).
    apply sext14_proper. destruct Hph2 as [Hp2 _].
    rewrite Hd1, Hd2, Ht1, Ht2. unfold setpoint_inv in Hinv. rewrite <- Hinv, <- Hp2.
    apply eq14_eq. lia.
Qed.

(** [update_loops] feeds the main PLL one tag after another. *)
Definition mpll_run g s (evs : list (Z * Z)) : M W spll_main_state :=
  foldM (fun s '(tag, source) => let! (s, _) := mpll_update g s tag source in ret s) evs s.

Lemma mpll_start_inv g s w :
  ensures (mpll_start g s) w (fun s' _ => setpoint_inv g s' /\ m_enabled s' = 1).
Proof.
  unfold mpll_start. apply ensures_skip. intros now w1.
  repeat (apply ensures_skip; intros). apply ensures_ret.
  unfold setpoint_inv. repeat case_match; cbn; (split; [|done]); apply eq14_eq; lia.
Qed.

Lemma mpll_run_inv g s evs w :
  setpoint_inv g s -> m_enabled s = 1 ->
  ensures (mpll_run g s evs) w (fun s' _ => setpoint_inv g s' /\ m_enabled s' = 1).
Proof.
  intros Hs He. apply ensures_foldM; [done|].
  intros s1 [tag source] w1 _ [Hs1 He1]. apply ensures_bind.
  eapply ensures_mono; [apply mpll_update_setpoint; [lia|done]|].
  intros [s2 ?] w2 (Hs2 & He2 & _). apply ensures_ret. split; [done|lia].
Qed.

(** C2. The phase setpoint of the main PLL: from [mpll_start] on, whatever
    tags arrive and through every wrap-around, early discard and rebase of
    the adders, the adders' offset is the applied phase shift modulo the DDMTD
    period; and once the frequency detector is locked, each complete pair of
    tags makes the regulator's input exactly the wrapped difference
    [tag_ref - tag_out] plus the applied shift (with the sign of
    reverse_spll), in [-2^13, 2^13). *)
Theorem mpll_setpoint g s evs tag source w :
  ensures (let! s := mpll_start g s in let! s := mpll_run g s evs in
           let! (s', _) := mpll_update g s tag source in ret (s, s')) w
    (fun '(s, s') _ => setpoint_inv g s /\ setpoint_step g s tag source s').
Proof.
  apply ensures_bind. eapply ensures_mono; [apply mpll_start_inv|]. intros s0 w0 [Hi0 He0].
  apply ensures_bind. eapply ensures_mono; [by apply mpll_run_inv|]. intros s1 w1 [Hi1 He1].
  apply ensures_bind. eapply ensures_mono; [apply mpll_update_setpoint; [lia|done]|].
  intros [s2 ?] w2 Hstep. by apply ensures_ret.
Qed.
End setpoint.

(** Pairs of tags of equal period lock the frequency (here after three); the
    next pair, 100 units apart, reaches the regulator as 100. *)
Definition lock_tags (n : nat) : list (Z * Z) :=
  concat ((fun i => [((i * 16384) mod 4194304, 0); ((i * 16384) mod 4194304, 1)]) <$>
          (Z.of_nat <$> seq 1 n)).

Section mpll_demo.
#[local] Existing Instance generic_8bit.

Definition demo_globals : spll_globals := globals_boot <| g_n_chan_ref := 1 |>.
Definition main_zero : spll_main_state :=
  mk_main 0 0 (mk_pi 0 0 0 0 0 0 0 0 0 0) (mk_ld 0 0 0 0 0 0) (mk_ld 0 0 0 0 0 0) None
    0 0 0 0 0 0 0 0 0 0 0 0 0 0 0 0 0 0 0 0 0 0 0 0 0 0 0 0 0 0 0 0 0 0 0.
Definition demo_main : spll_main_state :=
  (mpll_init demo_globals main_zero 0 1).2
    <| m_freq_ld := mk_ld 0 3 20000 50 0 0 |>.
Definition demo_run : M sim (spll_main_state * spll_main_state) :=
  let! s := mpll_start demo_globals demo_main in
  let! s := mpll_run demo_globals s (lock_tags 5 ++ [(98304 + 100, 0)]) in
  let! (s', _) := mpll_update demo_globals s 98304 1 in ret (s, s').

Lemma mpll_setpoint_witness :
  ensures demo_run (sim_boot 1 1)
    (fun '(s, s') _ => setpoint_inv demo_globals s /\ setpoint_step demo_globals s 98304 1 s') /\
  ensures demo_run (sim_boot 1 1)
    (fun '(s, s') _ => m_tag_ref (mpll_capture s 98304 1) = 98404 /\
       m_tag_out (mpll_capture s 98304 1) = 98304 /\ ld_locked (m_freq_ld s') = 1 /\
       pi_x (m_pi s') = 100).
Proof.
  split.
  - exact (mpll_setpoint demo_globals demo_main (lock_tags 5 ++ [(98304 + 100, 0)])
             98304 1 (sim_boot 1 1)).
  - vm_compute. repeat split.
Defined.
End mpll_demo.

(** ** The phase shifter *)

(** One step of the shifter of a locked loop. *)
Lemma mpll_shift_step g s :
  m_locked s <> 0 -> m_ps_freeze s = 0 ->
  is_s32 (m_phase_shift_target s) -> is_s32 (m_phase_shift_current s) ->
  let s' := mpll_shift g s in
  let d := Z.sgn (m_phase_shift_target s - m_phase_shift_current s) in
  m_phase_shift_current s' = m_phase_shift_current s + d /\
  s32 (m_adder_ref s') = s32 (m_adder_ref s + shift_sign g * d) /\
  m_adder_out s' = m_adder_out s /\
  m_locked s' = m_locked s /\ m_ps_freeze s' = 0 /\
  m_phase_shift_target s' = m_phase_shift_target s /\ is_s32 (m_phase_shift_current s').
Proof.
  intros Hl Hf Ht Hc. unfold mpll_shift, shift_sign. rewrite Hf.
  destruct (truth_spec (m_locked s)) as [_|]; [|done]. change (truth 0) with false.
  cbn [andb negb]. destruct (Z.ltb_spec (m_phase_shift_current s) (m_phase_shift_target s)).
  - rewrite Z.sgn_pos by lia. destruct (truth (g_reverse_spll g)); cbn [negb]; cbn -[s32];
      unfold iadd, isub; rewrite (s32_small (m_phase_shift_current s + 1)) by inrange;
      rewrite (s32_small (s32 _)) by apply s32_range; split_and!; try done; inrange.
  - destruct (Z.ltb_spec (m_phase_shift_target s) (m_phase_shift_current s)).
    + rewrite Z.sgn_neg by lia. destruct (truth (g_reverse_spll g)); cbn [negb]; cbn -[s32];
        unfold iadd, isub; rewrite (s32_small (m_phase_shift_current s - 1)) by inrange;
        rewrite (s32_small (s32 _)) by apply s32_range; split_and!; try done; inrange.
    + rewrite Z.sgn_null by lia. rewrite Z.mul_0_r, !Z.add_0_r. done.
Qed.

Lemma s32_add_l a b : s32 (s32 a + b) = s32 (a + b).
Proof.
  destruct (s32_cong a) as [k ->].
  replace (a + 4294967296 * k + b) with (a + b + 4294967296 * k) by lia. apply s32_add_mult.
Qed.

(** What decides on a step of the shifter survives the other parts of
    [mpll_update]. *)
Definition shifter_of (s : spll_main_state) : Z * Z * Z * Z :=
  (m_phase_shift_current s, m_phase_shift_target s, m_ps_freeze s, m_locked s).

Lemma mpll_capture_shifter `{!Board} s tag source :
  shifter_of (mpll_capture s tag source) = shifter_of s.
Proof.
  assert (Hr : forall s, shifter_of (mpll_capture_ref s tag) = shifter_of s).
  { intros s0. unfold mpll_capture_ref. by repeat case_match. }
  assert (Ho : forall s, shifter_of (mpll_capture_out s tag) = shifter_of s).
  { intros s0. unfold mpll_capture_out, mpll_interp. by repeat case_match. }
  unfold mpll_capture. repeat case_match; by rewrite ?Ho, ?Hr.
Qed.

Lemma mpll_unwrap_shifter s : shifter_of (mpll_unwrap_out (mpll_unwrap_ref s)) = shifter_of s.
Proof.
  assert (Hr : forall s, shifter_of (mpll_unwrap_ref s) = shifter_of s).
  { intros s0. unfold mpll_unwrap_ref. by repeat case_match. }
  rewrite <- (Hr s). unfold mpll_unwrap_out. by repeat case_match.
Qed.

Lemma mpll_discard_early_shifter `{!Board} s : shifter_of (mpll_discard_early s) = shifter_of s.
Proof. unfold mpll_discard_early. by repeat case_match. Qed.

Lemma mpll_rebase_shifter s : shifter_of (mpll_rebase s) = shifter_of s.
Proof. unfold mpll_rebase. by repeat case_match. Qed.

Section shifter.
Context `{!Board} {W : Type} `{!SpllHW W}.
Implicit Types (s : spll_main_state) (w : W).

Lemma mpll_error_shifter s w :
  ensures (mpll_error s) w (fun '(s', _) _ => shifter_of s' = shifter_of s).
Proof.
  unfold mpll_error. apply ensures_bind. destruct (_ && _).
  - apply ensures_skip. intros now w1. by do 2 apply ensures_ret.
  - by do 2 apply ensures_ret.
Qed.

(** The gain schedule may change the lock flag, after the shifter. *)
Lemma mpll_phase_lock_shifter s err w :
  ensures (mpll_phase_lock s err) w (fun '(s', _) _ =>
    m_phase_shift_current s' = m_phase_shift_current s /\
    m_phase_shift_target s' = m_phase_shift_target s /\ m_ps_freeze s' = m_ps_freeze s).
Proof.
  assert (Hg : forall s w, ensures (mpll_handle_gain_schedule s) w (fun s' _ =>
    m_phase_shift_current s' = m_phase_shift_current s /\
    m_phase_shift_target s' = m_phase_shift_target s /\ m_ps_freeze s' = m_ps_freeze s)).
  { intros s0 w0. unfold mpll_handle_gain_schedule. destruct (m_gain_sched s0) as [gs|]; [|done].
    destruct (_ && negb (truth (ld_locked (m_phase_ld s0)))); [done|].
    destruct (_ && truth (ld_locked (m_phase_ld s0))); [|done].
    apply ensures_skip. intros _ w'. by destruct (_ =? _). }
  unfold mpll_phase_lock. destruct (truth (ld_locked (m_freq_ld s))); [|done]. apply ensures_bind.
  apply (ensures_mono _ _ (fun s1 _ => shifter_of s1 = shifter_of s)).
  { destruct (truth (ld_lock_changed _)); [|done]. apply ensures_skip. intros _ w1.
    destruct (truth (ld_locked _)); [|done].
    apply ensures_skip. intros now w2. by apply ensures_ret. }
  intros s1 w1 [= E1 E2 E3 _]. apply ensures_bind. eapply ensures_mono; [apply Hg|].
  intros s2 w2 (F1 & F2 & F3). apply ensures_ret. split_and!; congruence.
Qed.

(** The call for this tag completes a pair of tags of an enabled, locked loop
    whose shifter is not frozen. *)
Definition shift_due s tag source : bool :=
  truth (m_enabled s) && (0 <=? m_tag_ref (mpll_capture s tag source)) &&
  (0 <=? m_tag_out (mpll_capture s tag source)) && truth (m_locked s) &&
  negb (truth (m_ps_freeze s)).

(** One call of [mpll_update] moves the shifter by one unit towards its target
    if a step is due and not at all otherwise. *)
Lemma mpll_update_shift g s tag source w :
  is_s32 (m_phase_shift_target s) -> is_s32 (m_phase_shift_current s) ->
  ensures (mpll_update g s tag source) w (fun '(s', _) _ =>
    m_phase_shift_current s' = m_phase_shift_current s +
      (if shift_due s tag source
       then Z.sgn (m_phase_shift_target s - m_phase_shift_current s) else 0) /\
    m_phase_shift_target s' = m_phase_shift_target s /\ m_ps_freeze s' = m_ps_freeze s).
Proof.
  intros Ht Hc. unfold mpll_update, shift_due.
  destruct (truth_spec (m_enabled s)) as [He|He]; cbn [negb andb].
  2: { apply ensures_ret. by rewrite Z.add_0_r. }
  pose proof (mpll_capture_shifter s tag source) as Ec.
  set (c := mpll_capture s tag source) in *. pose proof (mpll_unwrap_shifter c) as Eu.
  destruct (mpll_unwrap_tags c) as (Etr & Eto & _). set (u := mpll_unwrap_out (mpll_unwrap_ref c)) in *.
  rewrite <- Etr, <- Eto. destruct ((0 <=? m_tag_ref u) && (0 <=? m_tag_out u)); cbn [andb].
  2: { apply ensures_ret. rewrite Ec in Eu. injection Eu as E1 E2 E3 _. rewrite E1, E2, E3. by rewrite Z.add_0_r. }
  apply ensures_bind. eapply ensures_mono; [apply mpll_error_shifter|]. intros [e err] w1 Ee.
  apply ensures_bind. eapply ensures_mono; [apply mpll_drive_spec|]. intros v w2 Hv.
  assert (Er : shifter_of (mpll_rebase v) = shifter_of s).
  { rewrite mpll_rebase_shifter, Hv. change (shifter_of e = shifter_of s).
    by rewrite Ee, mpll_discard_early_shifter, Eu, Ec. }
  clear Ec Eu Ee. set (r := mpll_rebase v) in *. clearbody r. injection Er as E1 E2 E3 E4.
  eapply ensures_mono; [apply mpll_phase_lock_shifter|]. intros [s' st] w3 (-> & -> & ->).
  destruct (truth_spec (m_locked s)) as [Hl|Hl]; cbn [andb].
  - destruct (truth_spec (m_ps_freeze s)) as [Hf|Hf]; cbn [negb].
    + unfold mpll_shift. rewrite E4, E3. destruct (truth_spec (m_ps_freeze s)); [|done].
      rewrite andb_false_r. rewrite Z.add_0_r. done.
    + destruct (mpll_shift_step g r) as (H1 & _ & _ & _ & H4 & H5 & _);
        try (rewrite ?E1, ?E2; done); [lia..|]. rewrite H1, H4, H5, E1, E2. split_and!; [done|done|lia].
  - unfold mpll_shift. rewrite E4. destruct (truth_spec (m_locked s)); [done|]. cbn [andb].
    by rewrite Z.add_0_r.
Qed.

(** A run of [mpll_update] with the number of its calls in which a step of
    the shifter is due. *)
Definition shift_run g s (evs : list (Z * Z)) : M W (spll_main_state * Z) :=
  foldM (fun '(s, n) '(tag, source) =>
    let! (s', _) := mpll_update g s tag source in
    ret (s', n + b2z (shift_due s tag source))) evs (s, 0).

(** Where the shifter is after [n] steps from [c] towards [t]. *)
Definition shifted (c t n : Z) : Z := c + Z.sgn (t - c) * Z.min (Z.abs (t - c)) n.

Lemma shifted_step c t n : 0 <= n ->
  shifted c t n + Z.sgn (t - shifted c t n) = shifted c t (n + 1).
Proof.
  unfold shifted. intros Hn. destruct (Z.lt_trichotomy t c) as [Hlt|[Hlt|Hlt]].
  - rewrite (Z.sgn_neg (t - c)) by lia.
    destruct (Z.le_gt_cases (Z.abs (t - c)) n); [rewrite Z.sgn_null by lia|rewrite Z.sgn_neg by lia]; lia.
  - subst. rewrite Z.sub_diag, Z.mul_0_l, Z.add_0_r, Z.sub_diag. cbn. lia.
  - rewrite (Z.sgn_pos (t - c)) by lia.
    destruct (Z.le_gt_cases (Z.abs (t - c)) n); [rewrite Z.sgn_null by lia|rewrite Z.sgn_pos by lia]; lia.
Qed.

Lemma shifted_s32 c t n : is_s32 c -> is_s32 t -> 0 <= n -> is_s32 (shifted c t n).
Proof.
  unfold shifted, is_s32. intros Hc Ht Hn. destruct (Z.lt_trichotomy t c) as [Hlt|[Hlt|Hlt]].
  - rewrite Z.sgn_neg by lia. lia.
  - subst. rewrite Z.sub_diag. cbn. lia.
  - rewrite Z.sgn_pos by lia. lia.
Qed.

Lemma shift_run_from g s0 evs s n w :
  is_s32 (m_phase_shift_target s0) -> is_s32 (m_phase_shift_current s0) -> 0 <= n ->
  m_phase_shift_target s = m_phase_shift_target s0 ->
  m_phase_shift_current s = shifted (m_phase_shift_current s0) (m_phase_shift_target s0) n ->
  ensures (foldM (fun '(s, n) '(tag, source) =>
      let! (s', _) := mpll_update g s tag source in
      ret (s', n + b2z (shift_due s tag source))) evs (s, n)) w (fun '(s', n') w' =>
    mpll_run g s evs w = (s', w') /\ 0 <= n' /\
    m_phase_shift_target s' = m_phase_shift_target s0 /\
    m_phase_shift_current s' = shifted (m_phase_shift_current s0) (m_phase_shift_target s0) n').
Proof.
  intros Ht Hc. revert s n w. induction evs as [|[tag source] evs IH]; intros s n w Hn Et Ec; [done|].
  unfold mpll_run. cbn [foldM].
  pose proof (shifted_s32 _ _ n Hc Ht Hn) as Hs. rewrite <- Ec in Hs.
  pose proof (mpll_update_shift g s tag source w ltac:(by rewrite Et) Hs) as Hu.
  unfold ensures, bind in *. destruct (mpll_update g s tag source w) as [[s1 r] w1].
  destruct Hu as (Hc1 & Ht1 & _). cbn [ret fst snd]. apply IH; [destruct (shift_due _ _ _); cbn; lia|congruence|].
  rewrite Hc1, Et, Ec. destruct (shift_due s tag source); cbn [b2z].
  - by apply shifted_step.
  - by rewrite !Z.add_0_r.
Qed.

(** C34. The phase shifter reaches its target: over any run of [mpll_update],
    the applied shift moves by one unit towards the target in each call that
    completes a pair of tags while the loop is enabled, locked and not
    frozen, stops at the target and moves in no other call: after [n] such calls
    it has moved by min(|target - current|, n). Once [n] is at least
    |target - current| the shifter is not busy, and (for a loop that was
    started by [mpll_start], whose adders satisfy the setpoint invariant)
    the offset of the adders is the target modulo the DDMTD period, with the
    sign that reverse_spll selects. *)
Theorem mpll_shift_reaches_target g s evs w :
  is_s32 (m_phase_shift_target s) -> is_s32 (m_phase_shift_current s) ->
  ensures (shift_run g s evs) w (fun '(s', n) w' =>
    let d := m_phase_shift_target s - m_phase_shift_current s in
    mpll_run g s evs w = (s', w') /\
    m_phase_shift_target s' = m_phase_shift_target s /\
    m_phase_shift_current s' = m_phase_shift_current s + Z.sgn d * Z.min (Z.abs d) n /\
    (Z.abs d <= n ->
       mpll_shifter_busy s' = false /\
       (m_enabled s = 1 -> setpoint_inv g s ->
        eq14 (m_adder_ref s' - m_adder_out s') (shift_sign g * m_phase_shift_target s)))).
Proof.
  intros Ht Hc. eapply ensures_mono; [apply (shift_run_from g s); try done; try lia|].
  { unfold shifted. rewrite Z.min_r by lia. lia. }
  intros [s' n] w' (Hrun & Hn & Ht' & Hc'). cbv zeta. split_and!; [done|done|done|].
  intros Hd. unfold shifted in Hc'. rewrite Z.min_l in Hc' by lia.
  assert (Hcur : m_phase_shift_current s' = m_phase_shift_target s).
  { rewrite Hc'. rewrite (Z.mul_comm (Z.sgn _)), Z.abs_sgn. lia. }
  split.
  - unfold mpll_shifter_busy. by rewrite Ht', Hcur, Z.eqb_refl.
  - intros He Hinv. pose proof (mpll_run_inv g s evs w Hinv He) as Hr. unfold ensures in Hr.
    rewrite Hrun in Hr. destruct Hr as [Hr _]. unfold setpoint_inv in Hr. by rewrite Hcur in Hr.
Qed.
End shifter.

(** A locked loop with a shift of -3 units to make: of five pairs of tags
    three complete before the frequency detector locks and the lock is decided anew. *)
Section shifter_demo.
#[local] Existing Instance generic_8bit.

Definition shift_demo_main : spll_main_state :=
  (mpll_start demo_globals demo_main (sim_boot 1 1)).1
    <| m_locked := 1 |> <| m_phase_shift_target := -3 |>.

Lemma shift_demo_facts :
  (shift_run demo_globals shift_demo_main (lock_tags 5) (sim_boot 1 1)).1.2 = 3 /\
  m_phase_shift_target shift_demo_main = -3 /\ m_phase_shift_current shift_demo_main = 0 /\
  m_enabled shift_demo_main = 1 /\
  m_adder_ref shift_demo_main - m_adder_out shift_demo_main =
    shift_sign demo_globals * m_phase_shift_current shift_demo_main /\
  shift_sign demo_globals = -1.
Proof. vm_compute. by split_and!. Qed.

Lemma mpll_shift_reaches_target_witness :
  ensures (shift_run demo_globals shift_demo_main (lock_tags 5)) (sim_boot 1 1)
    (fun '(s', n) _ => n = 3 /\ mpll_shifter_busy s' = false /\ m_phase_shift_current s' = -3 /\
       eq14 (m_adder_ref s' - m_adder_out s') (shift_sign demo_globals * -3)).
Proof.
  destruct shift_demo_facts as (Hn & Ht & Hc & He & Hi & _).
  apply eq14_eq in Hi. revert Hn Hi He.
  pose proof (mpll_shift_reaches_target demo_globals shift_demo_main (lock_tags 5) (sim_boot 1 1))
    as H.
  rewrite Ht, Hc in H. specialize (H ltac:(unfold is_s32; lia) ltac:(unfold is_s32; lia)).
  revert H. unfold ensures. generalize (shift_run demo_globals shift_demo_main (lock_tags 5) (sim_boot 1 1)).
  intros [[s' n] w']. cbn [fst snd]. intros (_ & _ & Hcur & Hreach) -> Hi He.
  destruct Hreach as [Hb Hadd]; [cbn; lia|].
  split; [reflexivity|]. split; [exact Hb|]. split; [rewrite Hcur; reflexivity|].
  apply Hadd; [exact He|]. unfold setpoint_inv. exact Hi.
Defined.
End shifter_demo.

(** ** Conversion of the phase shift *)

(** The conversion, used by every caller. *)
Lemma from_picos_quot `{HB : Board, !BoardOk HB} ps :
  (if CONFIG_WRPC_PPSI then -131072 else -1000000000) < ps < 1000000000 ->
  from_picos ps = Z.quot (ps * 2 ^ HPLL_N) REF_CLOCK_PERIOD_PS.
Proof.
  intros Hps. pose proof board_period as HP.
  unfold from_picos, HPLL_N. change ((1 << 14)%int) with 16384. change (2 ^ 14) with 16384.
  assert (Hq : forall n, 0 <= n < 1000000000 -> 0 <= n * 16384 / REF_CLOCK_PERIOD_PS < 2147483648).
  { intros n Hn. split; [apply Z.div_pos; lia|]. apply Z.div_lt_upper_bound; lia. }
  destruct CONFIG_WRPC_PPSI; cbv iota in Hps.
  - destruct (Z.leb_spec 0 ps).
    + rewrite (u64_small ps), (u64_small 16384), (u64_small (ps * 16384)) by lia.
      rewrite div64_32_spec by lia. cbn [fst]. specialize (Hq ps).
      rewrite s32_small by inrange. rewrite Z.quot_div_nonneg by lia. done.
    + unfold ineg, imul. rewrite (s32_small (- ps)), (s32_small (- ps * 16384)) by inrange.
      rewrite (u64_small (- ps * 16384)) by lia. rewrite div64_32_spec by lia. cbn [fst].
      specialize (Hq (- ps) ltac:(lia)).
      assert (Hz : Z.quot (ps * 16384) REF_CLOCK_PERIOD_PS =
                   - (- ps * 16384 / REF_CLOCK_PERIOD_PS)).
      { replace (ps * 16384) with (- (- ps * 16384)) by lia.
        rewrite Z.quot_opp_l by lia. by rewrite Z.quot_div_nonneg by lia. }
      rewrite Hz. set (q := - ps * 16384 / REF_CLOCK_PERIOD_PS) in *. clearbody q.
      destruct (Z.eq_dec q 0) as [->|]; [reflexivity|].
      unfold u64. rewrite <- (Z.mod_add (- q) 1), Z.mul_1_l by lia. rewrite Z.mod_small by lia.
      replace (- q + 18446744073709551616) with (- q + 4294967296 * 4294967296) by lia.
      rewrite s32_add_mult. apply s32_small. inrange.
  - rewrite s64_small by (unfold is_s64; lia). apply s32_small.
    destruct (Z.le_gt_cases 0 ps).
    + rewrite Z.quot_div_nonneg by lia. specialize (Hq ps). inrange.
    + replace (ps * 16384) with (- (- ps * 16384)) by lia.
      rewrite Z.quot_opp_l, Z.quot_div_nonneg by lia. specialize (Hq (- ps)). inrange.
Qed.

(** [from_picos] is truncated division: both versions convert every phase
    shift of magnitude below a millisecond to DDMTD units rounded towards
    zero.  The CONFIG_WRPC_PPSI version needs ps > -131072 (see
    [from_picos_negative_overflow]). *)
Theorem from_picos_correct `{HB : Board, !BoardOk HB} ps :
  (if CONFIG_WRPC_PPSI then -131072 else -1000000000) < ps < 1000000000 ->
  from_picos ps = Z.quot (ps * 2 ^ HPLL_N) REF_CLOCK_PERIOD_PS.
Proof. apply from_picos_quot. Qed.

Lemma from_picos_correct_witness :
  from_picos (H := generic_8bit) (-131071) = -268433 /\
  from_picos (H := wr_switch) (-999999999) = Z.quot (-999999999 * 2 ^ HPLL_N) 16000.
Proof.
  split.
  - rewrite (from_picos_correct (HB := generic_8bit) (-131071)); [reflexivity|cbn; lia].
  - rewrite (from_picos_correct (HB := wr_switch) (-999999999)); [reflexivity|cbn; lia].
Defined.

(** The CONFIG_WRPC_PPSI version computes [-ps * (1 << HPLL_N)] in [int]: at
    ps = -131072, 131 ns, the product is 2^31, and what comes out is not the
    shift of -268435 units but one of 378225558 units. *)
Theorem from_picos_negative_overflow :
  from_picos (H := generic_8bit) (-131072) = 378225558 /\
  Z.quot (-131072 * 2 ^ HPLL_N) (@REF_CLOCK_PERIOD_PS generic_8bit) = -268435.
Proof. vm_compute. done. Qed.

(** ** Actuator safety and the frequency detector *)

(** The stage index stays inside the schedule. *)
Definition gs_ok (s : spll_main_state) : Prop :=
  match m_gain_sched s with
  | None => True
  | Some gs => 0 <= gs_current_stage gs < gs_n_stages gs /\
               gs_n_stages gs <= Z.of_nat (length (gs_stages gs)) < 2147483648
  end.

(** The actuator part of the invariant: the limits of the regulator are the
    tuning range of the board, the index selects a DAC. *)
Definition mpll_safe `{!Board} (s : spll_main_state) : Prop :=
  pi_y_min (m_pi s) = spll_y_min /\ pi_y_max (m_pi s) = spll_y_max /\
  0 <= m_dac_index s < 16 /\ gs_ok s.

(** What the software may leave in DAC_MAIN: a value of the tuning range and
    the index of this loop's DAC. *)
Definition dac_safe `{!Board} (s : spll_main_state) (v : Z) : Prop :=
  exists y, spll_y_min <= y <= spll_y_max /\ v = y + m_dac_index s * 2 ^ 24.

Section safety.
Context `{HB : Board, !BoardOk HB}.
Context {W : Type} `{!SpllHW W, !SpllObs W, !SpllLaws W}.
Implicit Types (s : spll_main_state) (w : W).

Definition ctl_frame s s' : Prop :=
  m_pi s' = m_pi s /\ m_freq_ld s' = m_freq_ld s /\ m_dac_index s' = m_dac_index s /\
  m_gain_sched s' = m_gain_sched s.

Lemma ctl_frame_trans s1 s2 s3 : ctl_frame s1 s2 -> ctl_frame s2 s3 -> ctl_frame s1 s3.
Proof. unfold ctl_frame. intros (-> & -> & -> & ->). done. Qed.

Lemma mpll_capture_ctl s tag source : ctl_frame s (mpll_capture s tag source).
Proof.
  unfold mpll_capture. apply (ctl_frame_trans _
    (if source =? m_id_ref s then mpll_capture_ref s tag else s)).
  - case_match; [|done]. unfold mpll_capture_ref. by repeat case_match.
  - generalize (if source =? m_id_ref s then mpll_capture_ref s tag else s). intros s1.
    case_match; [|done]. unfold mpll_capture_out. by repeat case_match.
Qed.
Lemma mpll_unwrap_ctl s : ctl_frame s (mpll_unwrap_out (mpll_unwrap_ref s)).
Proof.
  apply (ctl_frame_trans _ (mpll_unwrap_ref s)).
  - unfold mpll_unwrap_ref. by repeat case_match.
  - unfold mpll_unwrap_out. by repeat case_match.
Qed.
Lemma mpll_discard_ctl s : ctl_frame s (mpll_discard_early s).
Proof. unfold mpll_discard_early. by repeat case_match. Qed.
Lemma mpll_rebase_shift_ctl g s : ctl_frame s (mpll_shift g (mpll_rebase s)).
Proof.
  apply (ctl_frame_trans _ (mpll_rebase s)).
  - unfold mpll_rebase. by repeat case_match.
  - unfold mpll_shift. by repeat case_match.
Qed.

(** The frequency detector after some more samples. *)
Definition freq_run s s' : Prop := exists es, m_freq_ld s' = ld_run (m_freq_ld s) es.

Lemma mpll_error_ctl s w :
  ensures (mpll_error s) w (fun '(s', _) w' => quiet w w' /\ freq_run s s' /\
    m_pi s' = m_pi s /\ m_dac_index s' = m_dac_index s /\ m_gain_sched s' = m_gain_sched s).
Proof.
  unfold mpll_error. set (e := (m_dout_dt s - m_dref_dt s)%int).
  apply ensures_bind. case_match.
  - apply ensures_bind. eapply ensures_mono; [apply law_tics|].
    intros now w1 [_ Hq]. do 2 apply ensures_ret. split_and!; try done. by exists [e].
  - do 2 apply ensures_ret. split_and!; try done. by exists [e].
Qed.

Lemma dac_word y i :
  spll_y_min <= y <= spll_y_max -> 0 <= i < 16 ->
  u32 (Z.lor (SPLL_DAC_MAIN_VALUE_W y) (SPLL_DAC_MAIN_DAC_SEL_W i)) = y + i * 2 ^ 24.
Proof.
  intros Hy Hi. pose proof spll_range as Hr.
  assert (Hb : 0 <= y < 2 ^ 24).
  { destruct Hr as (H1 & H2 & H3). lia. }
  unfold SPLL_DAC_MAIN_VALUE_W, SPLL_DAC_MAIN_DAC_SEL_W, gen_write.
  change (Z.shiftl 1 24 - 1) with (Z.ones 24). change (Z.shiftl 1 4 - 1) with (Z.ones 4).
  rewrite (u32_small y), (u32_small i) by inrange. rewrite !Z.land_ones by lia.
  rewrite (Z.mod_small y), (Z.mod_small i) by lia.
  rewrite Z.shiftl_0_r.
  pose proof (Z.add_lor_land y (Z.shiftl i 24)) as Hadd.
  assert (Z.land y (Z.shiftl i 24) = 0) as Hz.
  { apply Z.bits_inj'. intros k Hk. rewrite Z.land_spec, Z.bits_0, Z.shiftl_spec by lia.
    destruct (Z.ltb_spec k 24).
    - rewrite (Z.testbit_neg_r i) by lia. apply andb_false_r.
    - rewrite (Z.bits_above_log2 y); [done|lia|].
      destruct (Z.eq_dec y 0) as [->|]; [cbn; lia|]. apply Z.log2_lt_pow2; [lia|].
      apply Z.lt_le_trans with (2 ^ 24); [lia|]. apply Z.pow_le_mono_r; lia. }
  rewrite Hz in Hadd. rewrite Z.shiftl_mul_pow2 in * by lia.
  rewrite u32_small by inrange. lia.
Qed.

(** One regulator step: the DAC is left alone or gets a safe word. *)
Lemma mpll_drive_ctl s err w :
  mpll_safe s -> dac_safe s (cfg w DAC_MAIN) ->
  ensures (mpll_drive s err) w (fun s' w' =>
    dac_safe s (cfg w' DAC_MAIN) /\ tags w' = tags w).
Proof.
  intros (Hmin & Hmax & Hi & _) Hd. unfold mpll_drive.
  pose proof spll_range as Hr.
  destruct (pi_update_clamp (m_pi s) err) as [Hy _]; [rewrite Hmin, Hmax; lia|].
  destruct (pi_update (m_pi s) err) as [pi y]. cbn [snd] in Hy. rewrite Hmin, Hmax in Hy.
  apply ensures_bind.
  apply (ensures_mono _ _ (fun _ w' => dac_safe s (cfg w' DAC_MAIN) /\ tags w' = tags w)).
  { apply ensures_when; [|done]. intros _.
    eapply ensures_mono; [by apply (law_wr_cfg DAC_MAIN)|].
    intros _ w1 (Hv & Ht & _). split; [|done]. exists y. split; [done|].
    rewrite Hv. by apply dac_word. }
  intros _ w1 [H1 H2]. eapply ensures_mono.
  { repeat (apply quiet_bind; [apply spll_debug_quiet || apply law_tics_quiet|intros]).
    apply ensures_ret, quiet_refl. }
  intros s' w2 [Hc Ht]. rewrite (Hc DAC_MAIN eq_refl). split; [done|congruence].
Qed.

Lemma gs_ok_stage s gs :
  m_gain_sched s = Some gs -> gs_ok s ->
  0 <= gs_current_stage gs < gs_n_stages gs /\
  gs_n_stages gs <= Z.of_nat (length (gs_stages gs)) < 2147483648.
Proof. unfold gs_ok. by intros ->. Qed.

(** The scheduler keeps the index inside the schedule and the limits. *)
Lemma mpll_handle_gain_schedule_ctl s w :
  mpll_safe s ->
  ensures (mpll_handle_gain_schedule s) w (fun s' w' =>
    quiet w w' /\ mpll_safe s' /\ m_dac_index s' = m_dac_index s /\ m_freq_ld s' = m_freq_ld s).
Proof.
  intros (Hmin & Hmax & Hi & Hgs). unfold mpll_handle_gain_schedule, mpll_safe, gs_ok.
  destruct (m_gain_sched s) as [gs|] eqn:Egs.
  2:{ apply ensures_ret. cbn. rewrite Egs. split_and!; auto with wrpc; lia. }
  destruct (gs_ok_stage s gs Egs Hgs) as [Hc Hn].
  destruct (_ && negb (truth (ld_locked (m_phase_ld s)))).
  { apply ensures_ret. cbn. split_and!; auto with wrpc; lia. }
  destruct (_ && truth (ld_locked (m_phase_ld s))).
  2:{ apply ensures_ret. cbn. split_and!; auto with wrpc; lia. }
  apply ensures_bind. eapply ensures_mono; [apply spll_debug_quiet|]. intros ? w1 Hq.
  unfold isub, iadd. rewrite (s32_small (gs_n_stages gs - 1)) by inrange.
  destruct (Z.eqb_spec (gs_current_stage gs) (gs_n_stages gs - 1));
    apply ensures_ret; cbn -[s32]; rewrite ?(s32_small (gs_current_stage gs + 1)) by inrange;
    split_and!; auto; lia.
Qed.

Lemma mpll_phase_lock_ctl s err w :
  mpll_safe s ->
  ensures (mpll_phase_lock s err) w (fun '(s', _) w' =>
    quiet w w' /\ mpll_safe s' /\ m_dac_index s' = m_dac_index s /\ m_freq_ld s' = m_freq_ld s).
Proof.
  intros Hs. unfold mpll_phase_lock. destruct (truth (ld_locked (m_freq_ld s))).
  2:{ apply ensures_ret. auto with wrpc. }
  set (s1 := s <| m_phase_ld := _ |>). apply ensures_bind.
  apply (ensures_mono _ _ (fun s2 w2 => quiet w w2 /\ mpll_safe s2 /\
    m_dac_index s2 = m_dac_index s /\ m_freq_ld s2 = m_freq_ld s)).
  - destruct (truth (ld_lock_changed (m_phase_ld s1))); [|by apply ensures_ret; auto with wrpc].
    apply ensures_bind. eapply ensures_mono; [apply spll_debug_quiet|]. intros ? w1 Hq.
    destruct (truth (ld_locked (m_phase_ld s1))); [|by apply ensures_ret].
    apply ensures_bind. eapply ensures_mono; [apply law_tics|]. intros now w2 [_ Hq2].
    apply ensures_ret. split; [exact (quiet_trans _ _ _ Hq Hq2)|done].
  - intros s2 w2 (Hq & Hs2 & Hi2 & Hf2). apply ensures_bind.
    eapply ensures_mono; [by apply mpll_handle_gain_schedule_ctl|].
    intros s3 w3 (Hq3 & Hs3 & Hi3 & Hf3). apply ensures_ret.
    split_and!; [exact (quiet_trans _ _ _ Hq Hq3)|done|congruence|congruence].
Qed.

Definition mpll_inv s (w : W) : Prop := mpll_safe s /\ dac_safe s (cfg w DAC_MAIN).

Lemma mpll_safe_ext s s' :
  m_pi s' = m_pi s -> m_dac_index s' = m_dac_index s -> m_gain_sched s' = m_gain_sched s ->
  mpll_safe s -> mpll_safe s'.
Proof. unfold mpll_safe, gs_ok. intros -> -> ->. done. Qed.

Lemma mpll_drive_safe s err w : mpll_safe s ->
  ensures (mpll_drive s err) w (fun s' _ => mpll_safe s' /\
    m_dac_index s' = m_dac_index s /\ m_freq_ld s' = m_freq_ld s).
Proof.
  intros (Hmin & Hmax & Hi & Hgs). eapply ensures_mono; [apply mpll_drive_spec|].
  intros s' w' ->. destruct (pi_update_config (m_pi s) err) as (_ & _ & _ & _ & _ & H1 & H2 & _).
  unfold mpll_safe, gs_ok in *. cbn. by rewrite H1, H2.
Qed.

Lemma mpll_update_ctl g s tag source w :
  mpll_inv s w ->
  ensures (mpll_update g s tag source) w (fun '(s', _) w' =>
    mpll_inv s' w' /\ tags w' = tags w /\ freq_run s s' /\ m_dac_index s' = m_dac_index s).
Proof.
  intros [Hs Hd]. unfold mpll_update.
  destruct (negb (truth (m_enabled s))).
  { apply ensures_ret. split_and!; try done. by exists []. }
  assert (Hu : ctl_frame s (mpll_unwrap_out (mpll_unwrap_ref (mpll_capture s tag source))))
    by (eapply ctl_frame_trans; [apply mpll_capture_ctl|apply mpll_unwrap_ctl]).
  set (u := mpll_unwrap_out _) in *.
  destruct ((0 <=? m_tag_ref u) && (0 <=? m_tag_out u)).
  2:{ apply ensures_ret. destruct Hu as (Hp & Hf & Hi & Hg). unfold mpll_inv, dac_safe.
      rewrite Hi. split_and!; try done; [by apply (mpll_safe_ext s)|by exists []]. }
  assert (Hd' : ctl_frame s (mpll_discard_early u))
    by (eapply ctl_frame_trans; [exact Hu|apply mpll_discard_ctl]).
  set (d := mpll_discard_early u) in *. clearbody d. clear u Hu.
  destruct Hd' as (Hp & Hf & Hi & Hg).
  apply ensures_bind. eapply ensures_mono; [apply mpll_error_ctl|].
  intros [e err] w1 ([Hq1 Ht1] & [es Hf1] & Hp1 & Hi1 & Hg1).
  assert (Hse : mpll_safe e) by (apply (mpll_safe_ext s); congruence).
  assert (Hde : dac_safe e (cfg w1 DAC_MAIN)).
  { unfold dac_safe. by rewrite Hi1, Hi, (Hq1 DAC_MAIN eq_refl). }
  apply ensures_bind. eapply ensures_mono.
  { apply ensures_and; [by apply mpll_drive_ctl|by apply mpll_drive_safe]. }
  intros v w2 [[Hdv Ht2] (Hsv & Hiv & Hfv)].
  destruct (mpll_rebase_shift_ctl g v) as (Hp3 & Hf3 & Hi3 & Hg3).
  eapply ensures_mono; [apply mpll_phase_lock_ctl, (mpll_safe_ext v); done|].
  intros [s' ?] w3 ([Hq3 Ht3] & Hs' & Hi' & Hf'). unfold mpll_inv, dac_safe in *.
  rewrite (Hq3 DAC_MAIN eq_refl). rewrite Hi', Hi3, Hiv. split_and!; try done; try congruence.
  exists es. by rewrite Hf', Hf3, Hfv, Hf1, Hf.
Qed.

Lemma freq_run_trans s1 s2 s3 : freq_run s1 s2 -> freq_run s2 s3 -> freq_run s1 s3.
Proof.
  intros [es1 H1] [es2 H2]. exists (es1 ++ es2). rewrite H2, H1. unfold ld_run.
  by rewrite foldl_app.
Qed.

Lemma mpll_run_ctl g s evs w :
  mpll_inv s w ->
  ensures (mpll_run g s evs) w (fun s' w' =>
    mpll_inv s' w' /\ tags w' = tags w /\ freq_run s s' /\ m_dac_index s' = m_dac_index s).
Proof.
  intros Hs. apply (ensures_foldM _ (fun s' w' => mpll_inv s' w' /\ tags w' = tags w /\
    freq_run s s' /\ m_dac_index s' = m_dac_index s)).
  { split_and!; try done. by exists []. }
  intros s1 [tag source] w1 _ (Hs1 & Ht1 & Hf1 & Hi1). apply ensures_bind.
  eapply ensures_mono; [by apply mpll_update_ctl|].
  intros [s2 ?] w2 (Hs2 & Ht2 & Hf2 & Hi2). apply ensures_ret.
  split_and!; [done|congruence|by eapply freq_run_trans|congruence].
Qed.

(** C28. Actuator safety: from a state whose regulator has the board's limits
    and whose DAC holds a safe word, any sequence of tags leaves in DAC_MAIN
    a value inside the tuning range, addressed to this loop's DAC; the stage
    index of the gain schedule stays inside the schedule, and the tag FIFO
    is untouched. *)
Theorem mpll_actuator_safe g s evs w :
  mpll_safe s -> dac_safe s (cfg w DAC_MAIN) ->
  ensures (mpll_run g s evs) w (fun s' w' =>
    mpll_safe s' /\ dac_safe s (cfg w' DAC_MAIN) /\ tags w' = tags w).
Proof.
  intros Hs Hd. eapply ensures_mono; [by apply mpll_run_ctl|].
  intros s' w' ([Hs' Hd'] & Ht & _ & Hi). split_and!; try done.
  unfold dac_safe in *. by rewrite Hi in Hd'.
Qed.

(** The frequency lock is never lost: with the thresholds [mpll_init]
    programs (delock_samples 20000 above lock_samples 50), once the
    frequency detector has locked, no sequence of tags unlocks it, whatever
    the frequency error becomes. *)
Theorem mpll_frequency_lock_latches g s evs evs' w :
  mpll_inv s w -> m_freq_ld s = mk_ld 0 50 20000 50 0 0 ->
  ensures (let! s1 := mpll_run g s evs in let! s2 := mpll_run g s1 evs' in ret (s1, s2)) w
    (fun '(s1, s2) _ => ld_locked (m_freq_ld s1) = 1 -> ld_locked (m_freq_ld s2) = 1).
Proof.
  intros Hs Hld. apply ensures_bind. eapply ensures_mono; [by apply mpll_run_ctl|].
  intros s1 w1 (Hs1 & _ & [es1 Hf1] & _).
  apply ensures_bind. eapply ensures_mono; [by apply mpll_run_ctl|].
  intros s2 w2 (_ & _ & [es2 Hf2] & _). apply ensures_ret. intros Hl.
  rewrite Hf2. rewrite Hld in Hf1.
  destruct (ld_run_config (mk_ld 0 50 20000 50 0 0) es1) as (Hc1 & Hc2 & Hc3).
  pose proof (ld_run_cnt (mk_ld 0 50 20000 50 0 0) es1 ltac:(cbn; lia) ltac:(cbn; lia)
    ltac:(cbn; lia)) as Hcnt.
  rewrite <- Hf1 in Hc1, Hc2, Hcnt. cbn in Hc1, Hc2, Hcnt.
  by apply ld_run_stuck; rewrite ?Hc1, ?Hc2.
Qed.
End safety.

Section mpll_safe_demo.
#[local] Existing Instance generic_8bit.

(** A two-stage schedule. *)
Definition demo_sched : spll_gain_schedule_t :=
  mk_sched 2 0 [mk_stage (-1100) (-30) 12 1000; mk_stage (-500) (-10) 12 2000] 0.
Definition demo_main2 : spll_main_state :=
  demo_main <| m_gain_sched := Some demo_sched |> <| m_enabled := 1 |>
            <| m_freq_ld := mk_ld 0 50 20000 50 0 0 |>.
Definition demo_boot : sim := ((wr DAC_MAIN 32768 : M sim unit) (sim_boot 1 1)).2.

Lemma demo_main2_inv : mpll_inv demo_main2 demo_boot.
Proof.
  split; [|by exists 32768]. unfold mpll_safe, gs_ok. cbn. split_and!; (done || lia).
Qed.

Lemma mpll_actuator_safe_witness :
  ensures (mpll_run demo_globals demo_main2 (lock_tags 3)) demo_boot (fun s' w' =>
      mpll_safe s' /\ dac_safe demo_main2 (cfg w' DAC_MAIN) /\ tags w' = tags demo_boot).
Proof.
  exact (mpll_actuator_safe demo_globals demo_main2 (lock_tags 3) demo_boot
           (proj1 demo_main2_inv) (proj2 demo_main2_inv)).
Defined.

Lemma mpll_frequency_lock_latches_witness :
  ensures (let! s1 := mpll_run demo_globals demo_main2 (lock_tags 60) in
           let! s2 := mpll_run demo_globals s1 [(0, 0); (7000, 1)] in ret (s1, s2)) demo_boot
      (fun '(s1, s2) _ => ld_locked (m_freq_ld s1) = 1 -> ld_locked (m_freq_ld s2) = 1).
Proof.
  exact (mpll_frequency_lock_latches demo_globals demo_main2 (lock_tags 60) [(0, 0); (7000, 1)]
    demo_boot demo_main2_inv eq_refl).
Defined.
End mpll_safe_demo.
