(* ===== verification/SpllPtracker.v ===== *)
(** softpll/spll_ptracker.c: the phase trackers, which average the DDMTD phase
    of the reference channels, and the theorem that the average is the mean of
    the unwrapped phases. *)
From Stdlib Require Import ZArith Lia.
From stdpp Require Import base numbers option list.
From S2P Require Import Prelude SpllHw SpllCommon SpllHelper SpllMain.

(** struct spll_ptracker_state *)
Record spll_ptracker_state := mk_pt {
  pt_enabled : Z; pt_id : Z;
  pt_n_avg : Z; pt_acc : Z; pt_avg_count : Z; pt_preserve_sign : Z;
  pt_phase_val : Z; pt_ready : Z;
  pt_dbg_channel : Z
}.
#[export] Instance eta_pt : Etable spll_ptracker_state := fun s =>
  mk_pt (pt_enabled s) (pt_id s) (pt_n_avg s) (pt_acc s) (pt_avg_count s)
        (pt_preserve_sign s) (pt_phase_val s) (pt_ready s) (pt_dbg_channel s).

Definition pt_zero : spll_ptracker_state := mk_pt 0 0 0 0 0 0 0 0 0.

(** [ptracker_init] *)
Definition ptracker_init (s : spll_ptracker_state) (id num_avgs : Z) : spll_ptracker_state :=
  s <| pt_id := id |> <| pt_ready := 0 |> <| pt_n_avg := num_avgs |> <| pt_acc := 0 |>
    <| pt_avg_count := 0 |> <| pt_enabled := 0 |> <| pt_dbg_channel := -1 |>.

(** MAIN_CHANNEL of softpll_ng.h. *)
Definition MAIN_CHANNEL (g : spll_globals) : Z := g_n_chan_ref g.

(** [ptrackers_update]: the table of wrap-around corrections. *)
Definition adj_tab : list Z :=
  [0; 0; 0; (- (1 << HPLL_N))%int;
   0; 0; 0; 0;
   0; 0; 0; 0;
   (1 << HPLL_N)%int; 0; 0; 0].

(** [ptrackers_update]: the index the table is read at. *)
Definition adj_index (s : spll_ptracker_state) (delta : Z) : Z :=
  ((delta >> (HPLL_N - 2)) + pt_preserve_sign s)%int.

(** [ptrackers_update]: one more sample of a tracker. *)
Definition ptracker_sample (s : spll_ptracker_state) (delta : Z) : spll_ptracker_state :=
  let index := (delta >> (HPLL_N - 2))%int in
  if pt_avg_count s =? 0 then
    s <| pt_preserve_sign := (index << 2)%int |> <| pt_acc := delta |>
      <| pt_avg_count := (pt_avg_count s + 1)%int |>
  else
    let s := s <| pt_acc := (pt_acc s + (delta + aget 0 adj_tab (adj_index s delta)))%int |>
               <| pt_avg_count := (pt_avg_count s + 1)%int |> in
    if pt_avg_count s =? pt_n_avg s then
      s <| pt_phase_val := (pt_acc s / pt_n_avg s)%int |> <| pt_ready := 1 |>
        <| pt_acc := 0 |> <| pt_avg_count := 0 |>
    else s.

(** [ptrackers_update]: the phase in DDMTD units, [tag_ref - tag] or its
    opposite on a reversed SoftPLL. *)
Definition ptracker_delta (g : spll_globals) (tag : Z) : Z :=
  if negb (truth (g_reverse_spll g))
  then Z.land (g_tag_ref g - tag)%int ((1 << HPLL_N) - 1)%int
  else Z.land (tag - g_tag_ref g)%int ((1 << HPLL_N) - 1)%int.

Section ptracker.
Context {W : Type} `{!SpllHW W}.

(** [ptracker_start] *)
Definition ptracker_start (g : spll_globals) (s : spll_ptracker_state)
    : M W spll_ptracker_state :=
  let s := s <| pt_preserve_sign := 0 |> <| pt_enabled := 1 |> <| pt_ready := 0 |>
             <| pt_acc := 0 |> <| pt_avg_count := 0 |> in
  spll_enable_tagger (g_n_chan_ref g) (pt_id s) 1 ;!
  spll_enable_tagger (g_n_chan_ref g) (MAIN_CHANNEL g) 1 ;!
  ret s.

(** [ptrackers_update]; the static [tag_ref] is [g_tag_ref]. *)
Definition ptrackers_update (g : spll_globals) (ptrackers : list spll_ptracker_state)
    (tag source : Z) : M W (spll_globals * list spll_ptracker_state) :=
  if source =? MAIN_CHANNEL g then ret (g <| g_tag_ref := tag |>, ptrackers)
  else
    let s := aget pt_zero ptrackers source in
    if negb (truth (pt_enabled s)) then ret (g, ptrackers)
    else
      when (0 <=? pt_dbg_channel s)
        (spll_debug (SPLL_DBG_SRC_AUX (pt_dbg_channel s)) SPLL_DBG_SIGNAL_ERR
           (g_tag_ref g - tag)%int 1) ;!
      ret (g, aset ptrackers source (ptracker_sample s (ptracker_delta g tag))).
End ptracker.

(** ** The averaged phase *)

(** The phase of one pair of tags, in [0, 2^14). *)
Definition phase_of (g : spll_globals) (p : Z * Z) : Z :=
  (if truth (g_reverse_spll g) then p.2 - p.1 else p.1 - p.2) mod 16384.

(** The phases unwrapped around the first one. *)
Definition unwrapped (d0 : Z) (d : Z) : Z := d0 + sext14 (d - d0).
Definition sum_unwrapped (d0 : Z) (ds : list Z) : Z :=
  foldr (fun d a => unwrapped d0 d + a) 0 ds.

(** Samples within a quarter of the period of the first one. *)
Definition near (d0 d : Z) : Prop := Z.abs (sext14 (d - d0)) <= 4096.

Lemma ptracker_delta_phase g tag :
  ptracker_delta g tag = phase_of g (g_tag_ref g, tag).
Proof.
  unfold ptracker_delta, phase_of. change (((1 << HPLL_N) - 1)%int) with (Z.ones 14).
  destruct (truth (g_reverse_spll g)); cbn [negb fst snd];
    rewrite Z.land_ones by lia; apply eq14_s32.
Qed.

Lemma phase_of_range g p : 0 <= phase_of g p < 16384.
Proof. apply Z.mod_pos_bound. lia. Qed.

(** The two bits of the table index are the quarters of the two samples. *)
Lemma quarter d : 0 <= d < 16384 -> (d >> (HPLL_N - 2))%int = d / 4096 /\ 0 <= d / 4096 <= 3.
Proof.
  intros H. unfold ishr, HPLL_N. change ((14 - 2)%int) with 12.
  rewrite Z.shiftr_div_pow2 by lia. split; [done|].
  split; [apply Z.div_pos; lia|]. assert (d / 4096 < 4); [|lia]. apply Z.div_lt_upper_bound; lia.
Qed.

(** The table index is inside the table for every pair of quarters, and the
    correction unwraps a near sample. *)
Lemma adj_unwraps d0 d :
  0 <= d0 < 16384 -> 0 <= d < 16384 -> near d0 d ->
  0 <= d / 4096 + 4 * (d0 / 4096) < 16 /\
  d + aget 0 adj_tab (d / 4096 + 4 * (d0 / 4096)) = unwrapped d0 d.
Proof.
  intros H0 H Hn. destruct (quarter d0 H0) as [_ Hq0]. destruct (quarter d H) as [_ Hq].
  split; [lia|]. unfold near, unwrapped, sext14 in *.
  assert (Hm : exists k, (d - d0 + 8192) mod 16384 = d - d0 + 8192 - 16384 * k /\ -1 <= k <= 1).
  { exists ((d - d0 + 8192) / 16384). split.
    - pose proof (Z.div_mod (d - d0 + 8192) 16384). lia.
    - split; [apply Z.div_le_lower_bound; lia|].
      assert ((d - d0 + 8192) / 16384 < 2); [apply Z.div_lt_upper_bound; lia|lia]. }
  destruct Hm as (k & Hm & Hk). pose proof (Z.mod_pos_bound (d - d0 + 8192) 16384 ltac:(lia)) as Hb.
  rewrite Hm in *.
  pose proof (Z.div_mod d 4096 ltac:(lia)) as Hd. pose proof (Z.mod_pos_bound d 4096 ltac:(lia)).
  pose proof (Z.div_mod d0 4096 ltac:(lia)) as Hd0. pose proof (Z.mod_pos_bound d0 4096 ltac:(lia)).
  generalize dependent (d / 4096). intros q Hq Hd. generalize dependent (d0 / 4096). intros q0 Hq0 Hd0.
  assert (q = 0 \/ q = 1 \/ q = 2 \/ q = 3) as Hqs by lia.
  assert (q0 = 0 \/ q0 = 1 \/ q0 = 2 \/ q0 = 3) as Hqs0 by lia.
  destruct Hqs as [->|[->|[->| ->]]], Hqs0 as [->|[->|[->| ->]]];
    match goal with |- context [aget 0 adj_tab ?i] =>
      let v := eval vm_compute in (aget 0 adj_tab i) in change (aget 0 adj_tab i) with v end; lia.
Qed.

(** One more near sample, while the average is not complete and when it is. *)
Definition averaging (s : spll_ptracker_state) (n d0 acc k : Z) : Prop :=
  pt_enabled s <> 0 /\ pt_n_avg s = n /\ pt_acc s = acc /\ pt_avg_count s = k /\
  pt_preserve_sign s = 4 * (d0 / 4096).

Lemma quarter_shl d0 : 0 <= d0 < 16384 -> ((d0 >> (HPLL_N - 2)) << 2)%int = 4 * (d0 / 4096).
Proof.
  intros H. destruct (quarter d0 H) as [-> Hq]. unfold ishl. rewrite Z.shiftl_mul_pow2 by lia.
  change (2 ^ 2) with 4. rewrite s32_small by inrange. lia.
Qed.

Lemma unwrapped_bound d0 d : 0 <= d0 < 16384 -> near d0 d -> -4096 <= unwrapped d0 d < 20480.
Proof. unfold near, unwrapped. intros. lia. Qed.

Lemma ptracker_sample_next s n d0 acc k d :
  0 <= d0 < 16384 -> 0 <= d < 16384 -> near d0 d ->
  2 <= n <= 65536 -> 1 <= k < n -> -4096 * k <= acc <= 20480 * k -> averaging s n d0 acc k ->
  let s' := ptracker_sample s d in
  if k + 1 =? n
  then pt_ready s' = 1 /\ pt_phase_val s' = Z.quot (acc + unwrapped d0 d) n /\
       pt_avg_count s' = 0 /\ pt_acc s' = 0
  else averaging s' n d0 (acc + unwrapped d0 d) (k + 1) /\ pt_ready s' = pt_ready s.
Proof.
  intros H0 H Hn Hnn Hk Hacc (He & Hna & Ha & Hc & Hp). unfold ptracker_sample.
  destruct (quarter d H) as [Hqe Hq]. rewrite Hc.
  destruct (Z.eqb_spec k 0); [lia|].
  destruct (adj_unwraps d0 d H0 H Hn) as [Hi Hu]. pose proof (unwrapped_bound d0 d H0 Hn) as Hb.
  assert (Hsum : (pt_acc s + (d + aget 0 adj_tab (adj_index s d)))%int =
                 acc + unwrapped d0 d).
  { unfold adj_index. rewrite Hqe, Ha, Hp. unfold iadd. rewrite (s32_small (d / 4096 + _)) by inrange. rewrite Hu. rewrite (s32_small (unwrapped d0 d)) by inrange.
    apply s32_small. inrange. }
  cbv zeta. rewrite Hsum. unfold iadd. rewrite (s32_small (k + 1)) by inrange.
  cbn [pt_avg_count pt_n_avg pt_acc upd]. rewrite Hna.
  destruct (Z.eqb_spec (k + 1) n) as [Hkn|Hkn].
  - cbn. split_and!; try done. unfold iquot. apply s32_small.
    assert (Z.abs (Z.quot (acc + unwrapped d0 d) n) <= 20480); [|inrange].
    rewrite <- Z.quot_abs by lia. rewrite Z.quot_div_nonneg by lia.
    apply Z.div_le_upper_bound; lia.
  - cbn. unfold averaging. cbn. split_and!; done.
Qed.

(** A tracker fed with phases. *)
Definition ptracker_run (s : spll_ptracker_state) (ds : list Z) : spll_ptracker_state :=
  foldl ptracker_sample s ds.

Lemma ptracker_run_average s n d0 acc k ds :
  0 <= d0 < 16384 -> Forall (fun d => 0 <= d < 16384 /\ near d0 d) ds ->
  2 <= n <= 65536 -> 1 <= k -> k + Z.of_nat (length ds) = n -> ds <> [] ->
  -4096 * k <= acc <= 20480 * k -> averaging s n d0 acc k ->
  let s' := ptracker_run s ds in
  pt_ready s' = 1 /\ pt_phase_val s' = Z.quot (acc + sum_unwrapped d0 ds) n /\
  pt_avg_count s' = 0 /\ pt_acc s' = 0.
Proof.
  intros H0 Hds Hn. revert s acc k. induction ds as [|d ds IH]; [done|].
  intros s acc k Hk Hlen _ Hacc Hs. apply Forall_cons in Hds as [[Hd Hnear] Hds]. cbn [length] in Hlen.
  pose proof (unwrapped_bound d0 d H0 Hnear) as Hb.
  pose proof (ptracker_sample_next s n d0 acc k d H0 Hd Hnear Hn ltac:(lia) Hacc Hs) as Hstep.
  cbv zeta in Hstep. destruct (Z.eqb_spec (k + 1) n) as [Hkn|Hkn].
  - destruct ds; [|cbn in Hlen; lia]. cbn. by rewrite Z.add_0_r.
  - destruct Hstep as [Hs' _]. unfold ptracker_run. cbn [foldl sum_unwrapped foldr].
    rewrite Z.add_assoc. apply (IH Hds _ _ (k + 1)); try done; try lia.
    destruct ds; [cbn in Hlen; lia|done].
Qed.

(** After its first sample a tracker reads the table inside its bounds, for
    any phases. *)
Definition signed (s : spll_ptracker_state) : Prop :=
  exists q, 0 <= q <= 3 /\ pt_preserve_sign s = 4 * q.

Lemma ptracker_sample_signed s d :
  0 <= d < 16384 -> pt_avg_count s = 0 \/ signed s -> signed (ptracker_sample s d).
Proof.
  intros Hd Hs. unfold ptracker_sample. destruct (Z.eqb_spec (pt_avg_count s) 0) as [_|Hc].
  - exists (d / 4096). split; [apply quarter; done|]. cbn -[Z.mul Z.div]. by apply quarter_shl.
  - destruct Hs as [|(q & Hq & Hs)]; [done|]. exists q. split; [done|].
    cbv zeta. by case_match.
Qed.

Lemma ptracker_run_signed s ds :
  Forall (fun d => 0 <= d < 16384) ds -> signed s -> signed (ptracker_run s ds).
Proof.
  intros Hds. revert s. induction Hds as [|d ds Hd _ IH]; intros s Hs; [done|].
  apply IH, ptracker_sample_signed; auto.
Qed.

Lemma signed_index s d :
  0 <= d < 16384 -> signed s -> 0 <= adj_index s d < Z.of_nat (length adj_tab).
Proof.
  intros Hd (q & Hq & Hs). unfold adj_index. destruct (quarter d Hd) as [-> Hd4]. rewrite Hs.
  unfold iadd. rewrite s32_small by inrange. cbn [length adj_tab]. lia.
Qed.

Section average.
Context {W : Type} `{!SpllHW W, !SpllObs W, !SpllLaws W}.

(** What [spll_irq_entry] makes of a sequence of tags. *)
Definition ptrackers_run (g : spll_globals) (pts : list spll_ptracker_state)
    (evs : list (Z * Z)) : M W (spll_globals * list spll_ptracker_state) :=
  foldM (fun '(g, pts) '(tag, source) => ptrackers_update g pts tag source) evs (g, pts).

(** Pairs of a tag of the main channel and one of channel [src]. *)
Definition pair_events (g : spll_globals) (src : Z) (ps : list (Z * Z)) : list (Z * Z) :=
  concat ((fun p => [(p.1, MAIN_CHANNEL g); (p.2, src)]) <$> ps).

(** A pair feeds its phase to the tracker of the channel and to no other. *)
Lemma ptrackers_pair g pts src p w :
  0 <= src < Z.of_nat (length pts) -> src <> MAIN_CHANNEL g ->
  pt_enabled (aget pt_zero pts src) <> 0 ->
  ensures (let! (g, pts) := ptrackers_update g pts p.1 (MAIN_CHANNEL g) in
           ptrackers_update g pts p.2 src) w (fun '(g', pts') w' =>
    g' = g <| g_tag_ref := p.1 |> /\ quiet w w' /\
    pts' = aset pts src (ptracker_sample (aget pt_zero pts src) (phase_of g p))).
Proof.
  intros Hs Hm He. unfold ptrackers_update at 1. rewrite Z.eqb_refl.
  apply ensures_bind, ensures_ret. unfold ptrackers_update, MAIN_CHANNEL in *.
  cbn [g_n_chan_ref upd]. destruct (Z.eqb_spec src (g_n_chan_ref g)); [done|].
  destruct (truth_spec (pt_enabled (aget pt_zero pts src))); [|done]. cbn [negb].
  apply ensures_bind. eapply ensures_mono; [apply when_quiet, spll_debug_quiet|].
  intros ? w1 Hq. apply ensures_ret. rewrite ptracker_delta_phase. done.
Qed.

Lemma ptrackers_run_pairs g pts src ps w :
  0 <= src < Z.of_nat (length pts) -> src <> MAIN_CHANNEL g ->
  pt_enabled (aget pt_zero pts src) <> 0 ->
  ensures (ptrackers_run g pts (pair_events g src ps)) w (fun '(g', pts') w' =>
    quiet w w' /\
    pts' = aset pts src (ptracker_run (aget pt_zero pts src) (phase_of g <$> ps))).
Proof.
  revert g pts w. induction ps as [|p ps IH]; intros g pts w Hs Hm He.
  { apply ensures_ret. split; [apply quiet_refl|]. cbn. unfold aget, aset.
    destruct (Z.ltb_spec src 0); [lia|].
    destruct (lookup_lt_is_Some_2 pts (Z.to_nat src)) as [x Hx]; [lia|].
    rewrite Hx. cbn. by rewrite list_insert_id. }
  unfold ptrackers_run, pair_events. cbn [fmap list_fmap concat app foldM fst snd].
  assert (Hrun : forall g1 pts1 w1, g1 = g <| g_tag_ref := p.1 |> -> quiet w w1 ->
    pts1 = aset pts src (ptracker_sample (aget pt_zero pts src) (phase_of g p)) ->
    ensures (ptrackers_run g1 pts1 (pair_events g src ps)) w1 (fun '(g', pts') w' =>
      quiet w w' /\ pts' = aset pts src
        (ptracker_run (aget pt_zero pts src) (phase_of g <$> p :: ps)))).
  { intros g1 pts1 w1 -> Hq ->.
    change (pair_events g src ps) with (pair_events (g <| g_tag_ref := p.1 |>) src ps).
    change (phase_of g) with (phase_of (g <| g_tag_ref := p.1 |>)).
    eapply ensures_mono; [apply IH|].
    - by rewrite length_aset.
    - done.
    - rewrite aget_aset_eq by done. unfold ptracker_sample. by repeat case_match.
    - intros [g' pts'] w' [Hq' ->]. split; [exact (quiet_trans _ _ _ Hq Hq')|].
      rewrite aget_aset_eq by done. unfold aset. destruct (Z.ltb_spec src 0); [lia|].
      rewrite list_insert_insert_eq. done. }
  pose proof (ptrackers_pair g pts src p w Hs Hm He) as Hp.
  unfold bind, ensures in *. cbn [fst snd].
  destruct (ptrackers_update g pts p.1 (MAIN_CHANNEL g) w) as [[g0 pts0] w0].
  destruct (ptrackers_update g0 pts0 p.2 src w0) as [[g1 pts1] w1].
  destruct Hp as (Hg & Hq & Hpts). specialize (Hrun g1 pts1 w1 Hg Hq Hpts). exact Hrun.
Qed.

(** C9. The phase trackers: when [n_avg] pairs of tags of the main channel
    and of an enabled tracked channel arrive, for an [n_avg] between 2 and
    65536 (with [n_avg = 1] the code never completes an average) and with all
    phases within a quarter of the DDMTD period of the first one, the tracker
    reports exactly the mean (rounded towards zero) of the phases unwrapped
    around the first one, whatever wrap-arounds the tags and the phases go
    through; the accumulator is ready for the next average and the other
    trackers are unchanged. The index at which each pair after the first
    reads the table of corrections is inside the table. *)
Theorem ptracker_reports_mean g pts src p0 ps w :
  let s := aget pt_zero pts src in
  let d0 := phase_of g p0 in
  0 <= src < Z.of_nat (length pts) -> src <> MAIN_CHANNEL g ->
  pt_enabled s <> 0 -> pt_avg_count s = 0 -> 2 <= pt_n_avg s <= 65536 ->
  Z.of_nat (length (p0 :: ps)) = pt_n_avg s -> Forall (fun p => near d0 (phase_of g p)) ps ->
  ensures (ptrackers_run g pts (pair_events g src (p0 :: ps))) w (fun '(_, pts') _ =>
    let s' := aget pt_zero pts' src in
    pt_ready s' = 1 /\
    pt_phase_val s' = Z.quot (sum_unwrapped d0 (phase_of g <$> p0 :: ps)) (pt_n_avg s) /\
    pt_avg_count s' = 0 /\ pt_acc s' = 0 /\
    forall i, i <> src -> aget pt_zero pts' i = aget pt_zero pts i) /\
  forall ps1 p ps2, ps = ps1 ++ p :: ps2 ->
    ensures (ptrackers_run g pts (pair_events g src (p0 :: ps1))) w (fun '(_, pts1) _ =>
      0 <= adj_index (aget pt_zero pts1 src) (phase_of g p) < Z.of_nat (length adj_tab)).
Proof.
  intros s d0 Hsrc Hmain He Hc Hn Hlen Hnear.
  pose proof (phase_of_range g p0) as Hd0. fold d0 in Hd0. split; cycle 1.
  { intros ps1 p ps2 _. eapply ensures_mono; [by apply ptrackers_run_pairs|].
    intros [g' pts'] w' [_ ->]. rewrite aget_aset_eq by done.
    apply signed_index; [apply phase_of_range|]. rewrite fmap_cons. unfold ptracker_run. cbn [foldl].
    apply ptracker_run_signed.
    - apply Forall_fmap, Forall_true. intros q. apply phase_of_range.
    - apply ptracker_sample_signed; auto. }
  eapply ensures_mono; [by apply ptrackers_run_pairs|].
  intros [g' pts'] w' [_ ->]. cbv zeta. rewrite aget_aset_eq by done. fold s.
  assert (Hfirst : averaging (ptracker_sample s d0) (pt_n_avg s) d0 d0 1).
  { unfold ptracker_sample. rewrite Hc. cbn [Z.eqb].
    unfold averaging. cbn -[s32 Z.mul Z.div]. rewrite quarter_shl by done. done. }
  cbn [length] in Hlen.
  destruct (ptracker_run_average (ptracker_sample s d0) (pt_n_avg s) d0 d0 1 (phase_of g <$> ps))
    as (H1 & H2 & H3 & H4); try done; try lia.
  - apply Forall_fmap. eapply Forall_impl; [exact Hnear|]. intros p Hp. split; [|done].
    apply phase_of_range.
  - rewrite length_fmap. lia.
  - destruct ps; [cbn [length] in Hlen; lia|done].
  - rewrite fmap_cons. unfold ptracker_run in *. cbn [foldl]. fold d0.
    rewrite H1, H2, H3, H4. cbn [sum_unwrapped foldr]. unfold unwrapped at 1.
    rewrite Z.sub_diag. change (sext14 0) with 0. rewrite Z.add_0_r. split_and!; try done.
    intros i Hi. apply aget_aset_ne. congruence.
Qed.
End average.

(** Four pairs around the wrap: the phases 10, 16376, 20 and 16334 average to
    (10 - 8 + 20 - 50) / 4 = -7. *)
Definition pt_demo_globals : spll_globals := demo_globals <| g_reverse_spll := 0 |>.
Definition pt_demo : list spll_ptracker_state := [mk_pt 1 0 4 0 0 0 0 0 (-1)].
Definition pt_demo_pairs : list (Z * Z) := [(4194300, 4); (1020, 1000); (5000, 5050)].

Lemma ptracker_reports_mean_witness :
  ensures (ptrackers_run pt_demo_globals pt_demo
             (pair_events pt_demo_globals 0 ((110, 100) :: pt_demo_pairs))) (sim_boot 1 1)
    (fun '(_, pts') _ => pt_ready (aget pt_zero pts' 0) = 1 /\
      pt_phase_val (aget pt_zero pts' 0) = -7).
Proof.
  destruct (ptracker_reports_mean pt_demo_globals pt_demo 0 (110, 100) pt_demo_pairs (sim_boot 1 1))
    as [Hrun _].
  - cbn. lia.
  - discriminate.
  - discriminate.
  - reflexivity.
  - vm_compute; split; discriminate.
  - reflexivity.
  - repeat (apply Forall_cons; split; [vm_compute; discriminate|]). by apply Forall_nil.
  - eapply ensures_mono; [exact Hrun|].
    intros [g' pts'] w' (H1 & H2 & _). split; [exact H1|]. rewrite H2. reflexivity.
Defined.
