(* ===== verification/SpllExternal.v ===== *)
(** softpll/spll_external.c: the grandmaster mode, which locks the helper and
    main loops to an external 10 MHz clock and aligns the PPS output with the
    external PPS.  The alignment state machine is the function
    [external_align_fsm]; [align_trans] is its transition relation and
    [ext_inv] the invariant of the phase shift it programs. *)
From Stdlib Require Import ZArith Lia.
From stdpp Require Import base numbers option list.
From S2P Require Import Prelude SpllHw SpllCommon SpllHelper SpllMain.
Import Ld.

(** softpll_export.h *)
Definition ALIGN_STATE_EXT_OFF : Z := 0.
Definition ALIGN_STATE_START : Z := 1.
Definition ALIGN_STATE_INIT_CSYNC : Z := 2.
Definition ALIGN_STATE_WAIT_CSYNC : Z := 3.
Definition ALIGN_STATE_WAIT_SAMPLE : Z := 4.
Definition ALIGN_STATE_COMPENSATE_DELAY : Z := 5.
Definition ALIGN_STATE_LOCKED : Z := 6.
Definition ALIGN_STATE_START_ALIGNMENT : Z := 7.
Definition ALIGN_STATE_START_MAIN : Z := 8.
Definition ALIGN_STATE_WAIT_CLKIN : Z := 9.
Definition ALIGN_STATE_WAIT_PLOCK : Z := 10.

Definition ALIGN_SAMPLE_PERIOD : Z := 10000000.
Definition EXT_PERIOD_NS : Z := 100.
Definition EXT_FREQ_HZ : Z := 10000000.
Definition ext_pps_latency : list Z := [37300; -4500; 111395; 16000].

(** struct spll_external_state.  The pointers [helper] and [main] are set once,
    to the helper and main loop of the SoftPLL, and are passed as arguments. *)
Record spll_external_state := mk_ext {
  x_enabled : Z;
  x_align_state : Z;
  x_align_timer : Z;
  x_align_target : Z;
  x_align_step : Z;
  x_align_shift : Z;
  x_pps_latency_ps : Z
}.
#[export] Instance eta_ext : Etable spll_external_state := fun s =>
  mk_ext (x_enabled s) (x_align_state s) (x_align_timer s) (x_align_target s)
         (x_align_step s) (x_align_shift s) (x_pps_latency_ps s).

(** include/dev/syscon.h: the comparisons of tick counters, on 32-bit longs. *)
Definition time_after (a b : Z) : bool := (s32 b - s32 a)%int <? 0.
Definition time_after_eq (a b : Z) : bool := 0 <=? (s32 a - s32 b)%int.

(** [get_pps_latency] *)
Definition get_pps_latency (sel : Z) : Z :=
  if PERIPH_END <=? sel then aget 0 ext_pps_latency PERIPH_WRS_STD_NO_LJ
  else aget 0 ext_pps_latency sel.

(** The switch's driver of the low-jitter daughterboard and the busy wait:
    bus activity outside the SoftPLL core. *)
Class LjdDriver (W : Type) := {
  timer_delay : Z -> M W unit;
  ljd_ad9516_init : M W Z
}.
(** Neither touches the SoftPLL's registers. *)
Class LjdLaws (W : Type) `{!SpllObs W, !LjdDriver W} : Prop := {
  law_delay n w : ensures (timer_delay n) w (fun _ w' => quiet w w');
  law_ljd w : ensures ljd_ad9516_init w (fun _ w' => quiet w w')
}.
(** While they run, tags may arrive. *)
Class LjdFifoLaws (W : Type) `{!SpllFifoObs W, !LjdDriver W} : Prop := {
  law_fifo_delay n w : ensures (timer_delay n) w (fun _ w' => arrives w w');
  law_fifo_ljd w : ensures ljd_ad9516_init w (fun _ w' => arrives w w')
}.
#[export] Instance sim_ljd : LjdDriver sim := {
  timer_delay n := fun w => (tt, w <| sim_now := sim_now w + n |>);
  ljd_ad9516_init := ret 0
}.
#[export] Instance sim_ljd_laws : LjdLaws sim.
Proof. by split. Qed.

#[export] Instance fsim_ljd : LjdDriver fsim | 10 := {
  timer_delay n := fs_lift (timer_delay n);
  ljd_ad9516_init := fs_lift ljd_ad9516_init
}.
#[export] Instance fsim_ljd_laws : LjdFifoLaws fsim.
Proof. split; intros; by apply fs_lift_arrives. Qed.

Section external.
Context `{!Board}.
Context {W : Type} `{!SpllHW W, !LjdDriver W}.

(** [external_init] *)
Definition external_init (g : spll_globals) (s : spll_external_state)
    (h : spll_helper_state) (m : spll_main_state)
    : spll_globals * spll_external_state * spll_helper_state * spll_main_state :=
  let idx := (g_n_chan_ref g + g_n_chan_out g)%int in
  let idx := if truth (g_scb_ljd_present g) then (idx + 1)%int else idx in
  let h := helper_init h idx in
  let '(g, m) := mpll_init g m idx (g_n_chan_ref g) in
  (g, s <| x_align_state := ALIGN_STATE_EXT_OFF |> <| x_enabled := 0 |>, h, m).

(** [external_start] *)
Definition external_start (g : spll_globals) (s : spll_external_state) (h : spll_helper_state)
    : M W (spll_external_state * spll_helper_state) :=
  let! h := helper_start g h in
  wr ECCR SPLL_ECCR_EXT_EN ;!
  let s := s <| x_align_state := ALIGN_STATE_WAIT_CLKIN |> <| x_enabled := 1 |> in
  spll_debug SPLL_DBG_SRC_EXT SPLL_DBG_SIGNAL_EVENT SPLL_DBG_EVT_START 1 ;!
  ret (s, h).

(** [external_locked]: the second read of ECCR happens only when the first
    one shows the external PLL locked. *)
Definition external_locked (s : spll_external_state) (h : spll_helper_state)
    (m : spll_main_state) : M W bool :=
  if negb (truth (ld_locked (h_ld h))) || negb (truth (m_locked m)) then ret false
  else
    let! e1 := rd ECCR in
    if negb (truth (Z.land e1 SPLL_ECCR_EXT_REF_LOCKED)) then ret false
    else
      let! e2 := rd ECCR in
      if truth (Z.land e2 SPLL_ECCR_EXT_REF_STOPPED) then ret false
      else
        let st := x_align_state s in
        ret (negb ((st =? ALIGN_STATE_EXT_OFF) || (st =? ALIGN_STATE_WAIT_CLKIN)
                || (st =? ALIGN_STATE_WAIT_PLOCK) || (st =? ALIGN_STATE_START)
                || (st =? ALIGN_STATE_START_MAIN) || (st =? ALIGN_STATE_INIT_CSYNC)
                || (st =? ALIGN_STATE_WAIT_CSYNC))).

(** [align_sample]: the sample, when there is a valid one. *)
Definition align_sample (channel : Z) : M W (option Z) :=
  let mask := (1 << channel)%int in
  let! cr := rd AL_CR in
  if truth (Z.land cr (u32 mask)) then
    wr AL_CR mask ;!
    let! cin := rd AL_CIN in
    let ci := s32 cin in
    if (100 <? ci) && (ci <? EXT_FREQ_HZ - 100)
    then ret (Some (ci * EXT_PERIOD_NS)%int) else ret None
  else ret None.

(** [external_align_fsm], ALIGN_STATE_WAIT_CLKIN *)
Definition align_wait_clkin (g : spll_globals) (s : spll_external_state)
    : M W (spll_external_state * Z) :=
  let ljd (s : spll_external_state) : M W (spll_external_state * Z) :=
    if CONFIG_TARGET_WR_SWITCH && truth (g_scb_ljd_present g) then
      let! e := rd ECCR in
      wr ECCR (Z.lor e SPLL_ECCR_EXT_REF_PLLRST) ;!
      timer_delay 10 ;!
      let! e := rd ECCR in
      wr ECCR (Z.land e (u32 (Z.lnot SPLL_ECCR_EXT_REF_PLLRST))) ;!
      timer_delay 10 ;!
      let! stat := ljd_ad9516_init in
      let f_ext := 10000000 in
      if negb (truth stat) && (9999000 <? f_ext) && (f_ext <? 10001000)
      then ret (s <| x_align_state := ALIGN_STATE_WAIT_PLOCK |>, 0)
      else ret (s, 0)
    else ret (s, 0) in
  if negb (truth (g_scb_ljd_present g)) then
    let! e := rd ECCR in
    if negb (truth (Z.land e SPLL_ECCR_EXT_REF_STOPPED)) then
      let! e := rd ECCR in
      wr ECCR (Z.lor e SPLL_ECCR_EXT_REF_PLLRST) ;!
      ret (s <| x_align_state := ALIGN_STATE_WAIT_PLOCK |>, 1)
    else ljd s
  else ljd s.

(** [external_align_fsm], ALIGN_STATE_WAIT_PLOCK *)
Definition align_wait_plock (s : spll_external_state) : M W (spll_external_state * Z) :=
  let! e := rd ECCR in
  wr ECCR (Z.land e (u32 (Z.lnot SPLL_ECCR_EXT_REF_PLLRST))) ;!
  let! e := rd ECCR in
  if truth (Z.land e SPLL_ECCR_EXT_REF_STOPPED)
  then ret (s <| x_align_state := ALIGN_STATE_WAIT_CLKIN |>, 1)
  else
    let! e := rd ECCR in
    if truth (Z.land e SPLL_ECCR_EXT_REF_LOCKED)
    then ret (s <| x_align_state := ALIGN_STATE_START |>, 1)
    else ret (s, 1).

(** The timeout of the two waiting states: five seconds without progress. *)
Definition align_timeout (g : spll_globals) (s : spll_external_state)
    : M W (spll_external_state * Z) :=
  let! now := timer_get_tics in
  if time_after now (g_ext_timeout g + 5 * TICS_PER_SECOND)%int
  then ret (s <| x_align_state := ALIGN_STATE_WAIT_CLKIN |>, 0)
  else ret (s, 0).

(** [external_align_fsm], ALIGN_STATE_START *)
Definition align_start (g : spll_globals) (s : spll_external_state) (h : spll_helper_state)
    (m : spll_main_state) : M W (spll_external_state * spll_main_state * Z) :=
  if truth (ld_locked (h_ld h)) then
    disable_irq ;!
    let! m := mpll_start g m in
    enable_irq ;!
    ret (s <| x_align_state := ALIGN_STATE_START_MAIN |>, m, 1)
  else
    let! (s, d) := align_timeout g s in
    ret (s, m, d).

(** [external_align_fsm], ALIGN_STATE_START_MAIN *)
Definition align_start_main (g : spll_globals) (s : spll_external_state) (h : spll_helper_state)
    (m : spll_main_state) : M W (spll_external_state * Z) :=
  wr AL_CR 2 ;!
  if truth (ld_locked (h_ld h)) && truth (m_locked m) then
    wr PPSG_CR (Z.lor PPSG_CR_CNT_EN (PPSG_CR_PWIDTH_W 10)) ;!
    wr PPSG_ADJ_NSEC 5 ;!
    wr PPSG_ESCR PPSG_ESCR_SYNC ;!
    ret (s <| x_align_state := ALIGN_STATE_INIT_CSYNC |>, 1)
  else align_timeout g s.

(** [external_align_fsm], ALIGN_STATE_INIT_CSYNC *)
Definition align_init_csync (s : spll_external_state) : M W (spll_external_state * Z) :=
  let! e := rd PPSG_ESCR in
  if truth (Z.land e PPSG_ESCR_SYNC) then
    let! now := timer_get_tics in
    ret (s <| x_align_timer := s32 (now + u32 (2 * TICS_PER_SECOND)%int)%uint |>
           <| x_align_state := ALIGN_STATE_WAIT_CSYNC |>, 1)
  else ret (s, 0).

(** [external_align_fsm], ALIGN_STATE_WAIT_CSYNC *)
Definition align_wait_csync (s : spll_external_state) : M W (spll_external_state * Z) :=
  let! now := timer_get_tics in
  if time_after_eq now (x_align_timer s) then
    ret (s <| x_align_state := ALIGN_STATE_START_ALIGNMENT |> <| x_align_shift := 0 |>, 1)
  else ret (s, 0).

(** [external_align_fsm], ALIGN_STATE_START_ALIGNMENT; the test [s > 0] on
    the pointer is always true. *)
Definition align_start_alignment (s : spll_external_state) : M W (spll_external_state * Z) :=
  let! sample := align_sample 1 in
  match sample with
  | Some v =>
      let v := (v mod ALIGN_SAMPLE_PERIOD)%int in
      let s := if (v =? 0) || (ALIGN_SAMPLE_PERIOD / 2 <=? v)
               then s <| x_align_target := 0 |> <| x_align_step := -100 |>
               else s <| x_align_target := ALIGN_SAMPLE_PERIOD - EXT_PERIOD_NS |>
                      <| x_align_step := 100 |> in
      ret (s <| x_align_state := ALIGN_STATE_WAIT_SAMPLE |>, 1)
  | None => ret (s, 0)
  end.

(** [external_align_fsm], ALIGN_STATE_WAIT_SAMPLE *)
Definition align_wait_sample (g : spll_globals) (s : spll_external_state) (m : spll_main_state)
    : M W (spll_globals * spll_external_state * spll_main_state * Z) :=
  if mpll_shifter_busy m then ret (g, s, m, 0)
  else
    let! sample := align_sample 1 in
    match sample with
    | Some v =>
        let v := (v mod ALIGN_SAMPLE_PERIOD)%int in
        if negb (v =? x_align_target s) then
          let s := s <| x_align_shift := (x_align_shift s + x_align_step s)%int |> in
          ret (g, s, mpll_set_phase_shift m (x_align_shift s), 1)
        else
          let s := s <| x_align_shift :=
                     (x_align_shift s + get_pps_latency (g_scb_ljd_present g))%int |> in
          let s := s <| x_align_shift := (x_align_shift s + x_pps_latency_ps s)%int |> in
          let g := g <| g_old_ext_pps_latency_ps := x_pps_latency_ps s |> in
          let m := mpll_set_phase_shift m (x_align_shift s) in
          ret (g, s <| x_align_state := ALIGN_STATE_COMPENSATE_DELAY |>, m, 1)
    | None => ret (g, s, m, 0)
    end.

(** [external_align_fsm], ALIGN_STATE_LOCKED *)
Definition align_locked (g : spll_globals) (s : spll_external_state) (h : spll_helper_state)
    (m : spll_main_state) : M W (spll_globals * spll_external_state * spll_main_state * Z) :=
  let! locked := external_locked s h m in
  let '(s, d) := if negb locked
                 then (s <| x_align_state := ALIGN_STATE_WAIT_CLKIN |>, 1) else (s, 0) in
  if negb (g_old_ext_pps_latency_ps g =? x_pps_latency_ps s) then
    let s := s <| x_align_shift := (x_align_shift s - g_old_ext_pps_latency_ps g)%int |> in
    let s := s <| x_align_shift := (x_align_shift s + x_pps_latency_ps s)%int |> in
    let g := g <| g_old_ext_pps_latency_ps := x_pps_latency_ps s |> in
    let m := mpll_set_phase_shift m (x_align_shift s) in
    ret (g, s <| x_align_state := ALIGN_STATE_COMPENSATE_DELAY |>, m, d + 1)
  else ret (g, s, m, d).

(** The switch of [external_align_fsm]. *)
Definition align_switch (g : spll_globals) (s : spll_external_state) (h : spll_helper_state)
    (m : spll_main_state) : M W (spll_globals * spll_external_state * spll_main_state * Z) :=
  let pure2 (r : M W (spll_external_state * Z)) := let! (s, d) := r in ret (g, s, m, d) in
  let st := x_align_state s in
  if st =? ALIGN_STATE_EXT_OFF then ret (g, s, m, 0)
  else if st =? ALIGN_STATE_WAIT_CLKIN then pure2 (align_wait_clkin g s)
  else if st =? ALIGN_STATE_WAIT_PLOCK then pure2 (align_wait_plock s)
  else if st =? ALIGN_STATE_START then
    let! (s, m, d) := align_start g s h m in ret (g, s, m, d)
  else if st =? ALIGN_STATE_START_MAIN then pure2 (align_start_main g s h m)
  else if st =? ALIGN_STATE_INIT_CSYNC then pure2 (align_init_csync s)
  else if st =? ALIGN_STATE_WAIT_CSYNC then pure2 (align_wait_csync s)
  else if st =? ALIGN_STATE_START_ALIGNMENT then pure2 (align_start_alignment s)
  else if st =? ALIGN_STATE_WAIT_SAMPLE then align_wait_sample g s m
  else if st =? ALIGN_STATE_COMPENSATE_DELAY then
    if negb (mpll_shifter_busy m)
    then ret (g, s <| x_align_state := ALIGN_STATE_LOCKED |>, m, 1)
    else ret (g, s, m, 0)
  else if st =? ALIGN_STATE_LOCKED then align_locked g s h m
  else ret (g, s, m, 0).

(** [external_align_fsm]; the static [timeout] is [g_ext_timeout]. *)
Definition external_align_fsm (g : spll_globals) (s : spll_external_state)
    (h : spll_helper_state) (m : spll_main_state)
    : M W (spll_globals * spll_external_state * spll_main_state * Z) :=
  let! (g, s, m, done_sth) := align_switch g s h m in
  let! g := (if 0 <? done_sth then
               let! now := timer_get_tics in
               ret (g <| g_ext_timeout := s32 now |>)
             else ret g) in
  ret (g, s, m, b2z (negb (done_sth =? 0))).
End external.

(** ** The transitions *)
Inductive align_trans : Z -> Z -> Prop :=
  | at_stay st : align_trans st st
  | at_clkin : align_trans ALIGN_STATE_WAIT_CLKIN ALIGN_STATE_WAIT_PLOCK
  | at_clk_lost : align_trans ALIGN_STATE_WAIT_PLOCK ALIGN_STATE_WAIT_CLKIN
  | at_plock : align_trans ALIGN_STATE_WAIT_PLOCK ALIGN_STATE_START
  | at_helper : align_trans ALIGN_STATE_START ALIGN_STATE_START_MAIN
  | at_helper_timeout : align_trans ALIGN_STATE_START ALIGN_STATE_WAIT_CLKIN
  | at_main : align_trans ALIGN_STATE_START_MAIN ALIGN_STATE_INIT_CSYNC
  | at_main_timeout : align_trans ALIGN_STATE_START_MAIN ALIGN_STATE_WAIT_CLKIN
  | at_sync : align_trans ALIGN_STATE_INIT_CSYNC ALIGN_STATE_WAIT_CSYNC
  | at_synced : align_trans ALIGN_STATE_WAIT_CSYNC ALIGN_STATE_START_ALIGNMENT
  | at_aligning : align_trans ALIGN_STATE_START_ALIGNMENT ALIGN_STATE_WAIT_SAMPLE
  | at_aligned : align_trans ALIGN_STATE_WAIT_SAMPLE ALIGN_STATE_COMPENSATE_DELAY
  | at_done : align_trans ALIGN_STATE_COMPENSATE_DELAY ALIGN_STATE_LOCKED
  | at_lost : align_trans ALIGN_STATE_LOCKED ALIGN_STATE_WAIT_CLKIN
  | at_latency : align_trans ALIGN_STATE_LOCKED ALIGN_STATE_COMPENSATE_DELAY.

(** Distance from the start of the procedure. *)
Definition align_rank (st : Z) : Z :=
  if st =? ALIGN_STATE_WAIT_PLOCK then 1
  else if st =? ALIGN_STATE_START then 2
  else if st =? ALIGN_STATE_START_MAIN then 3
  else if st =? ALIGN_STATE_INIT_CSYNC then 4
  else if st =? ALIGN_STATE_WAIT_CSYNC then 5
  else if st =? ALIGN_STATE_START_ALIGNMENT then 6
  else if st =? ALIGN_STATE_WAIT_SAMPLE then 7
  else if st =? ALIGN_STATE_COMPENSATE_DELAY then 8
  else if st =? ALIGN_STATE_LOCKED then 9
  else 0.

Lemma align_trans_rank st st' : align_trans st st' -> align_rank st' <= align_rank st + 1.
Proof. intros []; [lia|vm_compute; discriminate ..]. Qed.

(** The units [mpll_set_phase_shift] programs for a shift in picoseconds. *)
Definition phase_units `{!Board} (ps : Z) : Z :=
  (from_picos ps / (if BOARD_DIVIDE_DMTD_CLOCKS then 2 else 1))%int.

Definition shift_programmed (st : Z) : bool :=
  (st =? ALIGN_STATE_COMPENSATE_DELAY) || (st =? ALIGN_STATE_LOCKED).

(** Once aligned, the main PLL's setpoint is the accumulated shift, and the
    shift has been applied when the machine reports the lock. *)
Definition ext_inv `{!Board} (s : spll_external_state) (m : spll_main_state) : Prop :=
  shift_programmed (x_align_state s) = true ->
  m_phase_shift_target m = phase_units (x_align_shift s).

(** What one call may do. *)
Definition align_step_ok `{!Board} (g : spll_globals) (s : spll_external_state)
    (m : spll_main_state) (g' : spll_globals) (s' : spll_external_state) (m' : spll_main_state)
    : Prop :=
  align_trans (x_align_state s) (x_align_state s') /\
  (ext_inv s m -> ext_inv s' m') /\
  (x_align_state s' = ALIGN_STATE_LOCKED -> x_align_state s <> ALIGN_STATE_LOCKED ->
     mpll_shifter_busy m' = false) /\
  x_pps_latency_ps s' = x_pps_latency_ps s /\
  (x_align_state s' = ALIGN_STATE_LOCKED -> x_align_state s = ALIGN_STATE_LOCKED ->
     g_old_ext_pps_latency_ps g' = x_pps_latency_ps s').

Section fsm.
Context `{HB : Board}.
Context {W : Type} `{!SpllHW W, !LjdDriver W}.
Implicit Types (s : spll_external_state) (m : spll_main_state) (w : W).

(** A step that moves only the state, along an edge that programs nothing. *)
Lemma step_state g s m st :
  align_trans (x_align_state s) st -> shift_programmed st = false ->
  align_step_ok g s m g (s <| x_align_state := st |>) m.
Proof.
  intros Ht Hp. unfold align_step_ok, ext_inv. cbn. split_and!; try done.
  - by rewrite Hp.
  - intros ->. done.
  - intros ->. done.
Qed.

Lemma step_none g s m :
  x_align_state s <> ALIGN_STATE_LOCKED -> align_step_ok g s m g s m.
Proof. intros H. split_and!; try done. constructor. Qed.

Definition only_state g s m (r : spll_external_state * Z) : Prop :=
  align_step_ok g s m g r.1 m.

Lemma align_timeout_ok g s m w :
  align_trans (x_align_state s) ALIGN_STATE_WAIT_CLKIN ->
  x_align_state s <> ALIGN_STATE_LOCKED ->
  ensures (align_timeout g s) w (fun r _ => only_state g s m r).
Proof.
  intros Ht Hn. apply ensures_skip. intros now w1. case_match; apply ensures_ret.
  - by apply step_state.
  - by apply step_none.
Qed.

Ltac skips := repeat (apply ensures_skip; intros).

Lemma align_wait_clkin_ok g s m w :
  x_align_state s = ALIGN_STATE_WAIT_CLKIN ->
  ensures (align_wait_clkin g s) w (fun r _ => only_state g s m r).
Proof.
  intros Hs. unfold align_wait_clkin.
  assert (Hgo : forall d, only_state g s m (s <| x_align_state := ALIGN_STATE_WAIT_PLOCK |>, d)).
  { intros d. apply (step_state g s m); [|done]. rewrite Hs. constructor. }
  assert (Hstay : forall d, only_state g s m (s, d)).
  { intros d. apply (step_none g s m). by rewrite Hs. }
  destruct (CONFIG_TARGET_WR_SWITCH && truth (g_scb_ljd_present g));
    (destruct (negb (truth (g_scb_ljd_present g))); [apply ensures_skip; intros; case_match|]);
    skips; try case_match; apply ensures_ret; done.
Qed.

Lemma align_wait_plock_ok g s m w :
  x_align_state s = ALIGN_STATE_WAIT_PLOCK ->
  ensures (align_wait_plock s) w (fun r _ => only_state g s m r).
Proof.
  intros Hs. unfold align_wait_plock. skips. case_match.
  - apply ensures_ret, (step_state g s m); [rewrite Hs; constructor|done].
  - skips. case_match; apply ensures_ret.
    + apply (step_state g s m); [rewrite Hs; constructor|done].
    + apply (step_none g s m). by rewrite Hs.
Qed.

Lemma align_start_ok g s h m w :
  x_align_state s = ALIGN_STATE_START ->
  ensures (align_start g s h m) w (fun '(s', m', _) _ => align_step_ok g s m g s' m').
Proof.
  intros Hs. unfold align_start. case_match.
  - skips. apply ensures_ret. unfold align_step_ok, ext_inv. cbn. rewrite Hs.
    split_and!; try done. constructor.
  - apply ensures_bind. eapply ensures_mono.
    + apply (align_timeout_ok g s m); rewrite Hs; [constructor|done].
    + intros [s' d] w' Hd. by apply ensures_ret.
Qed.

Lemma align_start_main_ok g s h m w :
  x_align_state s = ALIGN_STATE_START_MAIN ->
  ensures (align_start_main g s h m) w (fun r _ => only_state g s m r).
Proof.
  intros Hs. unfold align_start_main. skips. case_match.
  - skips. apply ensures_ret, (step_state g s m); [rewrite Hs; constructor|done].
  - apply align_timeout_ok; rewrite Hs; [constructor|done].
Qed.

Lemma align_csync_ok g s m w :
  (x_align_state s = ALIGN_STATE_INIT_CSYNC ->
   ensures (align_init_csync s) w (fun r _ => only_state g s m r)) /\
  (x_align_state s = ALIGN_STATE_WAIT_CSYNC ->
   ensures (align_wait_csync s) w (fun r _ => only_state g s m r)).
Proof.
  split; intros Hs.
  - unfold align_init_csync. skips. case_match.
    + skips. apply ensures_ret. unfold only_state, align_step_ok, ext_inv. cbn. rewrite Hs.
      split_and!; try done. constructor.
    + apply ensures_ret, (step_none g s m). by rewrite Hs.
  - unfold align_wait_csync. skips. case_match; apply ensures_ret.
    + unfold only_state, align_step_ok, ext_inv. cbn. rewrite Hs.
      split_and!; try done. constructor.
    + apply (step_none g s m). by rewrite Hs.
Qed.

Lemma align_start_alignment_ok g s m w :
  x_align_state s = ALIGN_STATE_START_ALIGNMENT ->
  ensures (align_start_alignment s) w (fun r _ => only_state g s m r).
Proof.
  intros Hs. unfold align_start_alignment. skips. case_match.
  - apply ensures_ret. unfold only_state, align_step_ok, ext_inv. case_match; cbn; rewrite Hs;
      split_and!; try done; constructor.
  - apply ensures_ret, (step_none g s m). by rewrite Hs.
Qed.

Lemma align_wait_sample_ok g s m w :
  x_align_state s = ALIGN_STATE_WAIT_SAMPLE ->
  ensures (align_wait_sample g s m) w (fun '(g', s', m', _) _ => align_step_ok g s m g' s' m').
Proof.
  intros Hs. unfold align_wait_sample. case_match.
  { apply ensures_ret, (step_none g s m). by rewrite Hs. }
  skips. case_match.
  2:{ apply ensures_ret, (step_none g s m). by rewrite Hs. }
  case_match; apply ensures_ret; unfold align_step_ok, ext_inv; cbn; rewrite Hs;
    split_and!; try done; constructor.
Qed.

Lemma align_locked_ok g s h m w :
  x_align_state s = ALIGN_STATE_LOCKED ->
  ensures (align_locked g s h m) w (fun '(g', s', m', _) _ => align_step_ok g s m g' s' m').
Proof.
  intros Hs. unfold align_locked. apply ensures_skip. intros locked w1.
  destruct locked; cbn [negb]; destruct (Z.eqb_spec (g_old_ext_pps_latency_ps g) (x_pps_latency_ps s));
    case_match; bool_hyps; try done; apply ensures_ret; unfold align_step_ok, ext_inv; cbn in *;
    rewrite ?Hs; split_and!; try done; constructor.
Qed.

Lemma align_switch_ok g s h m w :
  ensures (align_switch g s h m) w (fun '(g', s', m', _) _ => align_step_ok g s m g' s' m').
Proof.
  assert (Hp : forall r, (forall w, ensures r w (fun x _ => only_state g s m x)) ->
    forall w : W, ensures (let! (s, d) := r in ret (g, s, m, d)) w
      (fun '(g', s', m', _) _ => align_step_ok g s m g' s' m')).
  { intros r Hr w1. apply ensures_bind. eapply ensures_mono; [apply Hr|].
    intros [s' d] w' Hd. by apply ensures_ret. }
  unfold align_switch.
  destruct (Z.eqb_spec (x_align_state s) ALIGN_STATE_EXT_OFF) as [E|_].
  { apply ensures_ret, (step_none g s m). by rewrite E. }
  destruct (Z.eqb_spec (x_align_state s) ALIGN_STATE_WAIT_CLKIN).
  { apply Hp. intros. by apply align_wait_clkin_ok. }
  destruct (Z.eqb_spec (x_align_state s) ALIGN_STATE_WAIT_PLOCK).
  { apply Hp. intros. by apply align_wait_plock_ok. }
  destruct (Z.eqb_spec (x_align_state s) ALIGN_STATE_START).
  { apply ensures_bind. eapply ensures_mono; [by apply align_start_ok|].
    intros [[s' m'] d] w' Hd. by apply ensures_ret. }
  destruct (Z.eqb_spec (x_align_state s) ALIGN_STATE_START_MAIN).
  { apply Hp. intros. by apply align_start_main_ok. }
  destruct (Z.eqb_spec (x_align_state s) ALIGN_STATE_INIT_CSYNC).
  { apply Hp. intros. by apply align_csync_ok. }
  destruct (Z.eqb_spec (x_align_state s) ALIGN_STATE_WAIT_CSYNC).
  { apply Hp. intros. by apply align_csync_ok. }
  destruct (Z.eqb_spec (x_align_state s) ALIGN_STATE_START_ALIGNMENT).
  { apply Hp. intros. by apply align_start_alignment_ok. }
  destruct (Z.eqb_spec (x_align_state s) ALIGN_STATE_WAIT_SAMPLE).
  { by apply align_wait_sample_ok. }
  destruct (Z.eqb_spec (x_align_state s) ALIGN_STATE_COMPENSATE_DELAY) as [E|_].
  { destruct (mpll_shifter_busy m) eqn:Hb; cbn [negb]; apply ensures_ret.
    - apply (step_none g s m). by rewrite E.
    - unfold align_step_ok, ext_inv. cbn. rewrite E. split_and!; try done. constructor. }
  destruct (Z.eqb_spec (x_align_state s) ALIGN_STATE_LOCKED).
  { by apply align_locked_ok. }
  apply ensures_ret. by apply step_none.
Qed.

(** The switch counts what it does and leaves the progress timer alone. *)
Definition counts (r : spll_external_state * Z) (_ : W) : Prop := 0 <= r.2.
Ltac walk :=
  repeat first [apply ensures_ret; unfold counts; cbn; lia | apply ensures_skip; intros | case_match].

Lemma align_timeout_counts g s w : ensures (align_timeout g s) w counts.
Proof. unfold align_timeout. walk. Qed.
Lemma align_wait_clkin_counts g s w : ensures (align_wait_clkin g s) w counts.
Proof. unfold align_wait_clkin. walk. Qed.
Lemma align_wait_plock_counts s w : ensures (align_wait_plock s) w counts.
Proof. unfold align_wait_plock. walk. Qed.
Lemma align_start_main_counts g s h m w : ensures (align_start_main g s h m) w counts.
Proof. unfold align_start_main. skips. case_match; [walk|apply align_timeout_counts]. Qed.
Lemma align_init_csync_counts s w : ensures (align_init_csync s) w counts.
Proof. unfold align_init_csync. walk. Qed.
Lemma align_wait_csync_counts s w : ensures (align_wait_csync s) w counts.
Proof. unfold align_wait_csync. walk. Qed.
Lemma align_start_alignment_counts s w : ensures (align_start_alignment s) w counts.
Proof. unfold align_start_alignment. walk. Qed.
#[local] Hint Resolve align_wait_clkin_counts align_wait_plock_counts align_start_main_counts
  align_init_csync_counts align_wait_csync_counts align_start_alignment_counts : wrpc.

Lemma align_switch_done g s h m w :
  ensures (align_switch g s h m) w (fun '(g', _, _, d) _ =>
    g_ext_timeout g' = g_ext_timeout g /\ 0 <= d).
Proof.
  assert (Hp : forall r, (forall w, ensures r w counts) ->
    forall w : W, ensures (let! (s, d) := r in ret (g, s, m, d)) w
      (fun '(g', _, _, d) _ => g_ext_timeout g' = g_ext_timeout g /\ 0 <= d)).
  { intros r Hr w1. apply ensures_bind. eapply ensures_mono; [apply Hr|].
    intros [s' d] w' Hd. by apply ensures_ret. }
  unfold align_switch.
  repeat (destruct (_ =? _); [try (apply Hp; intros; auto with wrpc; fail)|]);
    try (apply ensures_ret; split; [done|lia]).
  - unfold align_start. apply ensures_bind. case_match.
    + skips. do 2 apply ensures_ret. by split.
    + apply ensures_bind. eapply ensures_mono; [apply align_timeout_counts|].
      intros [s' d] w' Hd. do 2 apply ensures_ret. by split.
  - unfold align_wait_sample. case_match; [by apply ensures_ret|]. skips.
    case_match; [|by apply ensures_ret]. case_match; by apply ensures_ret.
  - case_match; apply ensures_ret; by split.
  - unfold align_locked. skips.
    repeat case_match; simplify_eq; apply ensures_ret; (split; [done|lia]).
Qed.

Lemma external_align_fsm_step g s h m w :
  ensures (external_align_fsm g s h m) w (fun '(g', s', m', d) _ =>
    align_step_ok g s m g' s' m' /\ (d = 0 \/ d = 1) /\
    (d = 0 -> g_ext_timeout g' = g_ext_timeout g)).
Proof.
  apply ensures_bind.
  apply (ensures_mono _ _ (fun '(g', s', m', d) _ => align_step_ok g s m g' s' m' /\
    g_ext_timeout g' = g_ext_timeout g /\ 0 <= d)).
  - pose proof (align_switch_ok g s h m w) as H1. pose proof (align_switch_done g s h m w) as H2.
    unfold ensures in *. destruct (align_switch g s h m w) as [[[[g' s'] m'] d] w']. done.
  - intros [[[g' s'] m'] d] w1 (Hok & Ht & Hd).
    apply ensures_bind. destruct (Z.ltb_spec 0 d).
    + apply ensures_skip. intros now w2. do 2 apply ensures_ret.
      destruct (Z.eqb_spec d 0); [lia|]. cbn. split_and!; auto; done.
    + do 2 apply ensures_ret. assert (d = 0) as -> by lia. cbn. auto.
Qed.

(** C5. The grandmaster alignment: whatever the hardware and the interrupt
    handler do in between, a call of [external_align_fsm] moves along an edge
    of [align_trans]; once the alignment is found the phase setpoint of the
    main PLL is the accumulated shift and stays so; ALIGN_STATE_LOCKED is
    entered only with the phase shifter idle and kept only with the current
    PPS latency applied; the progress timer moves only with progress. *)
Theorem external_align_fsm_correct g s h m w :
  ensures (external_align_fsm g s h m) w (fun '(g', s', m', d) _ =>
    align_step_ok g s m g' s' m' /\ (d = 0 \/ d = 1) /\
    (d = 0 -> g_ext_timeout g' = g_ext_timeout g)).
Proof. apply external_align_fsm_step. Qed.

(** The states reachable from [external_start] in [n] calls, the globals,
    the loops and the hardware being arbitrary at every call: the interrupt
    handler and the hardware run in between. *)
Inductive align_run : nat -> spll_external_state -> Prop :=
  | run_start s : x_align_state s = ALIGN_STATE_WAIT_CLKIN -> align_run 0 s
  | run_call n s g h m w r w' :
      align_run n s -> external_align_fsm g s h m w = (r, w') -> align_run (S n) (r.1.1.2)
  | run_latency n s ps : align_run n s -> align_run n (s <| x_pps_latency_ps := ps |>).

Lemma align_run_rank n s : align_run n s -> align_rank (x_align_state s) <= Z.of_nat n.
Proof.
  induction 1 as [s Hs|n s g h m w r w' _ IH Hcall|n s ps _ IH]; [by rewrite Hs| |exact IH].
  pose proof (external_align_fsm_step g s h m w) as Hstep. unfold ensures in Hstep.
  rewrite Hcall in Hstep. destruct r as [[[g' s'] m'] d]. destruct Hstep as [[Ht _] _].
  apply align_trans_rank in Ht. cbn. lia.
Qed.

Lemma align_run_known n s :
  align_run n s -> x_align_state s = ALIGN_STATE_WAIT_CLKIN \/ align_rank (x_align_state s) <> 0.
Proof.
  induction 1 as [s Hs|n s g h m w r w' _ IH Hcall|n s ps _ IH]; [by left| |exact IH].
  pose proof (external_align_fsm_step g s h m w) as Hstep. unfold ensures in Hstep.
  rewrite Hcall in Hstep. destruct r as [[[g' s'] m'] d]. destruct Hstep as [[Ht _] _].
  cbn. destruct Ht; try (by left); try (by right; vm_compute). exact IH.
Qed.

Lemma external_locked_state s h m w :
  ensures (external_locked s h m) w (fun b _ => b = true ->
    ld_locked (h_ld h) <> 0 /\ m_locked m <> 0 /\
    (6 <= align_rank (x_align_state s) \/
     align_rank (x_align_state s) = 0 /\ x_align_state s <> ALIGN_STATE_WAIT_CLKIN)).
Proof.
  unfold external_locked.
  destruct (truth_spec (ld_locked (h_ld h))) as [Hh|], (truth_spec (m_locked m)) as [Hm|];
    cbn [negb orb]; try done.
  apply ensures_skip. intros e1 w1. case_match; [done|].
  apply ensures_skip. intros e2 w2. case_match; [done|]. apply ensures_ret.
  intros Hst. apply negb_true_iff in Hst. repeat apply orb_false_iff in Hst as [Hst ?].
  split_and!; try done. unfold align_rank. bool_hyps.
  repeat case_match; bool_hyps; lia.
Qed.

(** No early lock: after [external_start], [external_locked] can report
    a lock only with the helper and main loops locked and after at least six
    calls of the alignment machine, one per stage from the clock detection to the start of the alignment. *)
Theorem external_lock_needs_alignment n s h m w :
  align_run n s ->
  ensures (external_locked s h m) w (fun b _ => b = true ->
    ld_locked (h_ld h) <> 0 /\ m_locked m <> 0 /\ (6 <= n)%nat).
Proof.
  intros Hrun. pose proof (align_run_rank n s Hrun) as Hr.
  eapply ensures_mono; [apply external_locked_state|]. intros b w' Hb Htrue.
  destruct (Hb Htrue) as (Hh & Hm & Hrank). split_and!; [done..|].
  assert (6 <= align_rank (x_align_state s)); [|lia].
  destruct Hrank as [|Hz]; [lia|]. exfalso. destruct Hz, (align_run_known n s Hrun); done.
Qed.
End fsm.

(** Six calls on a locked, synchronised platform reach the alignment. *)
Section ext_demo.
#[local] Existing Instance generic_8bit.

Definition ext_sim (now : Z) : sim :=
  Sim (fun r => match r with ECCR => 4 | PPSG_ESCR => 1 | _ => 0 end) [] [] now true.
Definition ext_helper : spll_helper_state :=
  mk_helper 0 0 0 0 0 (mk_pi 0 0 0 0 0 0 0 0 0 0) (mk_ld 0 0 0 0 1 0) 0 0.
Definition ext_main : spll_main_state := main_zero <| m_locked := 1 |>.

(** One call every ten seconds. *)
Fixpoint ext_calls (n : nat) : spll_external_state :=
  match n with
  | O => mk_ext 1 ALIGN_STATE_WAIT_CLKIN 0 0 0 0 0
  | S n => (external_align_fsm demo_globals (ext_calls n) ext_helper ext_main
              (ext_sim (10000 * Z.of_nat n))).1.1.1.2
  end.

Lemma ext_demo_run n : align_run (W := sim) n (ext_calls n).
Proof.
  induction n as [|n IH]; [by constructor|].
  exact (run_call n _ demo_globals ext_helper ext_main (ext_sim (10000 * Z.of_nat n)) _ _ IH
           (surjective_pairing _)).
Qed.

Lemma external_lock_needs_alignment_witness :
  x_align_state (ext_calls 6) = ALIGN_STATE_START_ALIGNMENT /\
  (external_locked (ext_calls 6) ext_helper ext_main (ext_sim 60000)).1 = true /\
  ensures (external_locked (ext_calls 6) ext_helper ext_main) (ext_sim 60000)
    (fun b _ => b = true -> ld_locked (h_ld ext_helper) <> 0 /\ m_locked ext_main <> 0 /\ (6 <= 6)%nat).
Proof.
  split; [reflexivity|]. split; [reflexivity|].
  exact (external_lock_needs_alignment 6 _ ext_helper ext_main (ext_sim 60000) (ext_demo_run 6)).
Defined.
End ext_demo.
