(* ===== verification/SoftPll.v ===== *)
(** softpll/softpll_ng.c: the SoftPLL as a whole.  The state [softpll_state]
    holds the helper and main loops, the external reference, the auxiliary
    channels and the phase trackers; the interrupt handler [spll_irq_entry]
    drains the tag FIFO through the sequencer [sequencing_fsm] and the loops
    [update_loops]; [spll_update] is its bottom half; the rest is the API. *)
From Stdlib Require Import ZArith Lia.
From stdpp Require Import base numbers option list.
From S2P Require Import Prelude SpllHw SpllCommon SpllHelper SpllMain SpllPtracker SpllExternal.
Import Pi Ld.

(** softpll_export.h and softpll_ng.h *)
Definition SPLL_MODE_DISABLED : Z := 0.
Definition SPLL_MODE_GRAND_MASTER : Z := 1.
Definition SPLL_MODE_FREE_RUNNING_MASTER : Z := 2.
Definition SPLL_MODE_SLAVE : Z := 3.
Definition SEQ_START_EXT : Z := 1.
Definition SEQ_WAIT_EXT : Z := 2.
Definition SEQ_START_HELPER : Z := 3.
Definition SEQ_WAIT_HELPER : Z := 4.
Definition SEQ_START_MAIN : Z := 5.
Definition SEQ_WAIT_MAIN : Z := 6.
Definition SEQ_DISABLED : Z := 7.
Definition SEQ_READY : Z := 8.
Definition SEQ_CLEAR_DACS : Z := 9.
Definition SEQ_WAIT_CLEAR_DACS : Z := 10.
Definition AUX_DISABLED : Z := 1.
Definition AUX_LOCK_PLL : Z := 2.
Definition AUX_ALIGN_PHASE : Z := 3.
Definition AUX_SLAVE_READY : Z := 4.
Definition AUX_WAIT_MONITOR_LOCK : Z := 5.
Definition AUX_MONITOR_READY : Z := 6.
Definition SPLL_AUX_MODE_SLAVE : Z := 0.
Definition SPLL_AUX_MODE_PHASE_MONITOR : Z := 1.
Definition SPLL_AUX_SLAVE_ENABLED : Z := 1.
Definition SPLL_AUX_SLAVE_LOCKED : Z := 2.
Definition SPLL_AUX_MONITOR_ENABLED : Z := 4.
Definition SPLL_AUX_MONITOR_READY : Z := 8.
Definition SPLL_ALL_CHANNELS : Z := 4294967295.
Definition SPLL_LOOP_HELPER : Z := -1.
Definition SPLL_LOOP_MAIN : Z := 0.
Definition SPLL_DBG_MAX_SOURCES : Z := 8.

(** ** State *)

(** struct spll_aux_state.  The union [pll] is kept as its larger member; the
    tracker that shares its memory is the view below. *)
Record spll_aux_state := mk_aux {
  a_mode : Z; a_seq_state : Z; a_div_ref : Z; a_div_fb : Z;
  a_phase_value : Z; a_dmtd : spll_main_state }.
#[export] Instance eta_aux : Etable spll_aux_state := fun a =>
  mk_aux (a_mode a) (a_seq_state a) (a_div_ref a) (a_div_fb a) (a_phase_value a) (a_dmtd a).

(** The first nine words of a spll_main_state read as a spll_ptracker_state
    and back: the 64-bit integrator is two words, the low one first. *)
Definition tracker_of (m : spll_main_state) : spll_ptracker_state :=
  mk_pt (m_state m) (m_pad m) (pi_ki (m_pi m)) (pi_kp (m_pi m)) (pi_shift (m_pi m))
        (pi_bias (m_pi m)) (s32 (pi_integrator (m_pi m)))
        (Z.shiftr (pi_integrator (m_pi m)) 32) (pi_anti_windup (m_pi m)).
Definition with_tracker (m : spll_main_state) (t : spll_ptracker_state) : spll_main_state :=
  m <| m_state := pt_enabled t |> <| m_pad := pt_id t |>
    <| m_pi := (m_pi m) <| pi_ki := pt_n_avg t |> <| pi_kp := pt_acc t |>
                 <| pi_shift := pt_avg_count t |> <| pi_bias := pt_preserve_sign t |>
                 <| pi_integrator := Z.shiftl (pt_ready t) 32 + u32 (pt_phase_val t) |>
                 <| pi_anti_windup := pt_dbg_channel t |> |>.

(** struct softpll_state *)
Record softpll_state := mk_softpll {
  sp_mode : Z; sp_seq_state : Z; sp_dac_timeout : Z; sp_delock_count : Z;
  sp_irq_count : Z; sp_ref_count : Z; sp_tag_count : Z; sp_mpll_shift_ps : Z;
  sp_helper : spll_helper_state; sp_ext : spll_external_state; sp_mpll : spll_main_state;
  sp_aux : list spll_aux_state; sp_ptrackers : list spll_ptracker_state }.
#[export] Instance eta_softpll : Etable softpll_state := fun s =>
  mk_softpll (sp_mode s) (sp_seq_state s) (sp_dac_timeout s) (sp_delock_count s)
    (sp_irq_count s) (sp_ref_count s) (sp_tag_count s) (sp_mpll_shift_ps s)
    (sp_helper s) (sp_ext s) (sp_mpll s) (sp_aux s) (sp_ptrackers s).

(** What [memset] leaves. *)
Definition pi_zero : spll_pi_t := mk_pi 0 0 0 0 0 0 0 0 0 0.
Definition ld_zero : spll_lock_det_t := mk_ld 0 0 0 0 0 0.
Definition helper_zero : spll_helper_state := mk_helper 0 0 0 0 0 pi_zero ld_zero 0 0.
Definition ext_zero : spll_external_state := mk_ext 0 0 0 0 0 0 0.
Definition aux_zero : spll_aux_state := mk_aux 0 0 0 0 0 main_zero.
Definition softpll_zero `{!Board} : softpll_state :=
  mk_softpll 0 0 0 0 0 0 0 0 helper_zero ext_zero main_zero
    (replicate (Z.to_nat BOARD_MAX_CHAN_AUX) aux_zero)
    (replicate (Z.to_nat BOARD_MAX_PTRACKERS) pt_zero).

(** [s->aux[i]], [s->ptrackers[i]] and their assignments. *)
Definition aux_at (s : softpll_state) (i : Z) : spll_aux_state := aget aux_zero (sp_aux s) i.
Definition set_aux (s : softpll_state) (i : Z) (a : spll_aux_state) : softpll_state :=
  s <| sp_aux := aset (sp_aux s) i a |>.
Definition set_dmtd (s : softpll_state) (i : Z) (m : spll_main_state) : softpll_state :=
  set_aux s i ((aux_at s i) <| a_dmtd := m |>).

Section softpll.
Context `{!Board}.
Context {W : Type} `{!SpllHW W, !LjdDriver W}.

(** [aux_locking_enabled] *)
Definition aux_locking_enabled (channel : Z) : M W bool :=
  let! occr := rd OCCR in
  ret (truth (Z.land (SPLL_OCCR_OUT_EN_R occr) (u32 (1 << channel)%int))).

(** [set_channel_status] *)
Definition set_channel_status (channel locked : Z) : M W unit :=
  let! v := rd OCCR in
  if negb (truth locked)
  then wr OCCR (Z.land v (u32 (Z.lnot (SPLL_OCCR_OUT_LOCK_W (1 << channel)%int))))
  else wr OCCR (Z.lor v (SPLL_OCCR_OUT_LOCK_W (1 << channel)%int)).

(** [start_ptrackers] *)
Definition start_ptrackers (g : spll_globals) (s : softpll_state) : M W softpll_state :=
  foldM (fun s i =>
    if truth (Z.land (g_ptracker_mask g) (1 << i)%int) then
      let! t := ptracker_start g (aget pt_zero (sp_ptrackers s) i) in
      ret (s <| sp_ptrackers := aset (sp_ptrackers s) i t |>)
    else ret s) (range (g_n_chan_ref g)) s.

(** [update_ptrackers]; a monitor's tracker is updated as channel 0 of an
    array of one. *)
Definition update_ptrackers (g : spll_globals) (s : softpll_state) (tag_value tag_source : Z)
    : M W (spll_globals * softpll_state) :=
  let! (g, s) :=
    (if tag_source <=? g_n_chan_ref g then
       let! (g, pts) := ptrackers_update g (sp_ptrackers s) tag_value tag_source in
       ret (g, s <| sp_ptrackers := pts |>)
     else ret (g, s)) in
  foldM (fun '(g, s) i =>
    let a := aux_at s i in
    if negb (a_mode a =? SPLL_AUX_MODE_PHASE_MONITOR) then ret (g, s)
    else if tag_source =? (g_n_chan_ref g + i + 1)%int then
      let t := (tracker_of (a_dmtd a)) <| pt_dbg_channel := i |> in
      let! (g, ts) := ptrackers_update g [t] tag_value 0 in
      ret (g, set_dmtd s i (with_tracker (a_dmtd a) (aget pt_zero ts 0)))
    else ret (g, s)) (range (g_n_chan_out g - 1)) (g, s).

(** [sequencing_fsm], the transition to the ready state. *)
Definition seq_ready (g : spll_globals) (s : softpll_state) : M W softpll_state :=
  let! s := start_ptrackers g s in
  let s := s <| sp_seq_state := SEQ_READY |> in
  set_channel_status (m_id_ref (sp_mpll s)) 1 ;!
  ret s.

(** [sequencing_fsm], SEQ_CLEAR_DACS *)
Definition seq_clear_dacs (g : spll_globals) (s : softpll_state) : M W softpll_state :=
  wr DAC_HPLL (pi_y_max (h_pi (sp_helper s))) ;!
  wr DAC_MAIN ((pi_y_max (m_pi (sp_mpll s)) + pi_y_min (m_pi (sp_mpll s))) / 2)%int ;!
  spll_enable_tagger (g_n_chan_ref g) (MAIN_CHANNEL g) 1 ;!
  let! now := timer_get_tics in
  ret (s <| sp_dac_timeout := (now + u32 (TICS_PER_SECOND / 20)%int)%uint |>
         <| sp_seq_state := SEQ_WAIT_CLEAR_DACS |>).

(** [sequencing_fsm], SEQ_READY *)
Definition seq_check_ready (g : spll_globals) (s : softpll_state) : M W softpll_state :=
  let! ext_lost := (if sp_mode s =? SPLL_MODE_GRAND_MASTER
                    then let! l := external_locked (sp_ext s) (sp_helper s) (sp_mpll s) in
                         ret (negb l)
                    else ret false) in
  if ext_lost || negb (truth (ld_locked (h_ld (sp_helper s))))
     || ((sp_mode s =? SPLL_MODE_SLAVE) && negb (truth (m_locked (sp_mpll s)))) then
    let s := s <| sp_delock_count := (sp_delock_count s + 1)%int |>
               <| sp_seq_state := SEQ_CLEAR_DACS |> in
    set_channel_status (m_id_ref (sp_mpll s)) 0 ;!
    ret s
  else ret s.

(** [sequencing_fsm], the switch. *)
Definition seq_switch (g : spll_globals) (s : softpll_state) : M W softpll_state :=
  let st := sp_seq_state s in
  if st =? SEQ_DISABLED then ret s
  else if st =? SEQ_CLEAR_DACS then seq_clear_dacs g s
  else if st =? SEQ_WAIT_CLEAR_DACS then
    let! now := timer_get_tics in
    if time_after now (sp_dac_timeout s) then
      if sp_mode s =? SPLL_MODE_GRAND_MASTER
      then ret (s <| sp_seq_state := SEQ_START_EXT |>)
      else ret (s <| sp_seq_state := SEQ_START_HELPER |>)
    else ret s
  else if st =? SEQ_START_EXT then
    spll_enable_tagger (g_n_chan_ref g) (MAIN_CHANNEL g) 0 ;!
    let! (x, h) := external_start g (sp_ext s) (sp_helper s) in
    ret (s <| sp_ext := x |> <| sp_helper := h |> <| sp_seq_state := SEQ_WAIT_EXT |>)
  else if st =? SEQ_WAIT_EXT then
    let! l := external_locked (sp_ext s) (sp_helper s) (sp_mpll s) in
    if l then seq_ready g s else ret s
  else if st =? SEQ_START_HELPER then
    let! h := helper_start g (sp_helper s) in
    ret (s <| sp_helper := h |> <| sp_seq_state := SEQ_WAIT_HELPER |>)
  else if st =? SEQ_WAIT_HELPER then
    if truth (ld_locked (h_ld (sp_helper s))) && truth (ld_lock_changed (h_ld (sp_helper s))) then
      if sp_mode s =? SPLL_MODE_SLAVE
      then ret (s <| sp_seq_state := SEQ_START_MAIN |>)
      else seq_ready g s
    else ret s
  else if st =? SEQ_START_MAIN then
    let! m := mpll_start g (sp_mpll s) in
    ret (s <| sp_mpll := m |> <| sp_seq_state := SEQ_WAIT_MAIN |>)
  else if st =? SEQ_WAIT_MAIN then
    if truth (m_locked (sp_mpll s)) then seq_ready g s else ret s
  else if st =? SEQ_READY then seq_check_ready g s
  else ret s.

(** [sequencing_fsm] *)
Definition sequencing_fsm (g : spll_globals) (s : softpll_state) (tag_value tag_source : Z)
    : M W softpll_state :=
  let s := if tag_source =? g_n_chan_ref g
           then s <| sp_tag_count := (sp_tag_count s + 1)%uint |>
           else if tag_source =? 0 then s <| sp_ref_count := (sp_ref_count s + 1)%uint |>
           else s in
  seq_switch g s.

(** [update_loops] *)
Definition update_loops (g : spll_globals) (s : softpll_state) (tag_value tag_source : Z)
    : M W (spll_globals * softpll_state) :=
  let! h := helper_update (sp_helper s) tag_value tag_source in
  let s := s <| sp_helper := h |> in
  if truth (ld_locked (h_ld (sp_helper s))) then
    let! (m, _) := mpll_update g (sp_mpll s) tag_value tag_source in
    let s := s <| sp_mpll := m |> in
    if sp_seq_state s =? SEQ_READY then
      let! s :=
        (if sp_mode s =? SPLL_MODE_SLAVE then
           foldM (fun s i =>
             let! (m, _) := mpll_update g (a_dmtd (aux_at s i)) tag_value tag_source in
             ret (set_dmtd s i m)) (range (g_n_chan_out g - 1)) s
         else ret s) in
      update_ptrackers g s tag_value tag_source
    else ret (g, s)
  else ret (g, s).

(** One iteration of the loop of [spll_irq_entry] on the word [trr]. *)
Definition process_tag (g : spll_globals) (s : softpll_state) (trr : Z)
    : M W (spll_globals * softpll_state) :=
  let tag_source := SPLL_TRR_R0_CHAN_ID_R trr in
  let tag_value := SPLL_TRR_R0_VALUE_R trr in
  let! s := sequencing_fsm g s tag_value tag_source in
  update_loops g s tag_value tag_source.

(** The loop of [spll_irq_entry]; [None] when the fuel is not enough. *)
Fixpoint irq_loop (fuel : nat) (g : spll_globals) (s : softpll_state)
    : M W (option (spll_globals * softpll_state)) :=
  match fuel with
  | O => ret None
  | S fuel =>
      let! csr := rd TRR_CSR in
      if negb (truth (Z.land csr SPLL_TRR_CSR_EMPTY)) then
        let! trr := rd TRR_R0 in
        let! (g, s) := process_tag g s trr in
        irq_loop fuel g s
      else ret (Some (g, s))
  end.

(** [spll_irq_entry] *)
Definition spll_irq_entry (fuel : nat) (g : spll_globals) (s : softpll_state)
    : M W (option (spll_globals * softpll_state)) :=
  let! r := irq_loop fuel g s in
  match r with
  | None => ret None
  | Some (g, s) =>
      let s := s <| sp_irq_count := (sp_irq_count s + 1)%uint |> in
      clear_irq ;!
      ret (Some (g, s))
  end.
End softpll.

(** ** Initialisation and the API *)

(** struct spll_debug_queue_state *)
Record spll_debug_queue_state := mk_dbgq {
  dq_undersample_ratio : Z;
  dq_undersample_count : list Z;
  dq_undersample_pass : list Z;
  dq_coalesce_threshold : Z }.
#[export] Instance eta_dbgq : Etable spll_debug_queue_state := fun q =>
  mk_dbgq (dq_undersample_ratio q) (dq_undersample_count q) (dq_undersample_pass q)
          (dq_coalesce_threshold q).

(** struct spll_aux_clock_status *)
Record spll_aux_clock_status := mk_aux_status { as_flags : Z; as_mode : Z; as_phase : Z }.

(** The members of struct spll_stats that [spll_update] writes. *)
Record spll_stats := mk_stats {
  ss_sequence : Z; ss_mode : Z; ss_irq_cnt : Z; ss_seq_state : Z; ss_align_state : Z;
  ss_H_lock : Z; ss_M_lock : Z; ss_H_y : Z; ss_M_y : Z; ss_del_cnt : Z;
  ss_ext_pps_latency_ps : Z; ss_main_pll_kp : Z; ss_main_pll_ki : Z;
  ss_helper_pll_kp : Z; ss_helper_pll_ki : Z }.
#[export] Instance eta_stats : Etable spll_stats := fun t =>
  mk_stats (ss_sequence t) (ss_mode t) (ss_irq_cnt t) (ss_seq_state t) (ss_align_state t)
    (ss_H_lock t) (ss_M_lock t) (ss_H_y t) (ss_M_y t) (ss_del_cnt t) (ss_ext_pps_latency_ps t)
    (ss_main_pll_kp t) (ss_main_pll_ki t) (ss_helper_pll_kp t) (ss_helper_pll_ki t).

Section api.
Context `{!Board}.
Context {W : Type} `{!SpllHW W, !LjdDriver W}.

(** The channel counts of CSR, at most three outputs. *)
Definition read_channels (g : spll_globals) : M W spll_globals :=
  let! csr := rd CSR in
  let n_out := u8 (SPLL_CSR_N_OUT_R csr) in
  ret (g <| g_n_chan_ref := u8 (SPLL_CSR_N_REF_R csr) |>
         <| g_n_chan_out := if 3 <? n_out then 3 else n_out |>).

(** [spll_very_init] *)
Definition spll_very_init (g : spll_globals) : M W (spll_globals * softpll_state) :=
  wr PPSG_ESCR 0 ;!
  wr PPSG_CR (Z.lor (Z.lor PPSG_CR_CNT_EN PPSG_CR_CNT_RST) (PPSG_CR_PWIDTH_W PPS_WIDTH)) ;!
  let s := softpll_zero <| sp_mode := SPLL_MODE_DISABLED |> in
  let! g := read_channels g in
  let s := s <| sp_mpll := (sp_mpll s) <| m_gain_sched := None |> |> in
  let '(g, h) := helper_very_init g (sp_helper s) in
  ret (g, s <| sp_helper := h |>).

(** [while (!( *csr & empty)) dummy = *data;], the two purges of [spll_init];
    [false] when the fuel is not enough. *)
Fixpoint purge (fuel : nat) (csr data : spll_reg) (empty : Z) : M W bool :=
  match fuel with
  | O => ret false
  | S fuel =>
      let! v := rd csr in
      if negb (truth (Z.land v empty)) then
        let! _ := rd data in
        purge fuel csr data empty
      else ret true
  end.

(** [spll_init]: the loops and trackers. *)
Definition init_channels (g : spll_globals) (s : softpll_state) (mode slave_ref_channel : Z)
    : spll_globals * softpll_state :=
  let helper_ref := if mode =? SPLL_MODE_SLAVE then slave_ref_channel else g_n_chan_ref g in
  let s := s <| sp_helper := helper_init (sp_helper s) helper_ref |> in
  let '(g, m) := mpll_init g (sp_mpll s) slave_ref_channel (g_n_chan_ref g) in
  let s := s <| sp_mpll := m |> in
  let '(g, s) :=
    foldl (fun '(g, s) i =>
      let '(g, m) := mpll_init g (a_dmtd (aux_at s i)) slave_ref_channel
                       (g_n_chan_ref g + i + 1)%int in
      (g, set_aux s i ((aux_at s i) <| a_dmtd := m |> <| a_seq_state := AUX_DISABLED |>)))
      (g, s) (range (g_n_chan_out g - 1)) in
  (g, foldl (fun s i =>
        s <| sp_ptrackers := aset (sp_ptrackers s) i
               (ptracker_init (aget pt_zero (sp_ptrackers s) i) i PTRACKER_AVERAGE_SAMPLES) |>)
        s (range (g_n_chan_ref g))).

(** [spll_init], from the purge of the tag buffer on. *)
Definition init_finish (fuel : nat) (g : spll_globals) (s : softpll_state) (mode : Z)
    : M W (option (spll_globals * softpll_state)) :=
  let! ok := purge fuel TRR_CSR TRR_R0 SPLL_TRR_CSR_EMPTY in
  if negb ok then ret None
  else
    let! csr := rd CSR in
    let! ok := (if truth (Z.land csr SPLL_CSR_DBG_SUPPORTED)
                then purge fuel DFR_HOST_CSR DFR_HOST_R0 SPLL_DFR_HOST_CSR_EMPTY
                else ret true) in
    if negb ok then ret None
    else if mode =? SPLL_MODE_DISABLED then ret (Some (g, s))
    else
      wr EIC_IER 1 ;!
      let! v := rd OCER in
      wr OCER (Z.lor v 1) ;!
      enable_irq ;!
      ret (Some (g, s)).

(** [spll_init]; [flags] is not used by the code. *)
Definition spll_init (fuel : nat) (g : spll_globals) (s : softpll_state)
    (mode slave_ref_channel : Z) : M W (option (spll_globals * softpll_state)) :=
  disable_irq ;!
  let! g := read_channels g in
  let s := s <| sp_mode := mode |> <| sp_delock_count := 0 |>
             <| sp_ref_count := 0 |> <| sp_tag_count := 0 |> in
  wr OCER 0 ;! wr RCER 0 ;! wr ECCR 0 ;! wr EIC_IDR 1 ;!
  wr DAC_HPLL 0 ;!
  wr CSR 0 ;! wr OCER 0 ;! wr RCER 0 ;! wr ECCR 0 ;! wr OCCR 0 ;!
  wr DEGLITCH_THR CONFIG_SPLL_DEGLITCH_THR ;!
  let! cr := rd PPSG_CR in
  wr PPSG_CR (Z.lor cr PPSG_CR_CNT_EN) ;!
  let s := s <| sp_seq_state := if mode =? SPLL_MODE_DISABLED then SEQ_DISABLED
                                else SEQ_CLEAR_DACS |> in
  let '(g, s) := init_channels g s mode slave_ref_channel in
  if mode =? SPLL_MODE_GRAND_MASTER then
    let! e := rd ECCR in
    if truth (Z.land e SPLL_ECCR_EXT_SUPPORTED) then
      let '(g, x, h, m) := external_init g (sp_ext s) (sp_helper s) (sp_mpll s) in
      init_finish fuel g (s <| sp_ext := x |> <| sp_helper := h |> <| sp_mpll := m |>) mode
    else ret (Some (g, s))
  else init_finish fuel g s mode.

(** [spll_shutdown] *)
Definition spll_shutdown : M W unit :=
  disable_irq ;! wr OCER 0 ;! wr RCER 0 ;! wr ECCR 0 ;! wr EIC_IDR 1.

(** [spll_start_channel] *)
Definition spll_start_channel (g : spll_globals) (s : softpll_state) (channel : Z)
    : M W (softpll_state * Z) :=
  if negb (sp_seq_state s =? SEQ_READY) || negb (truth channel) then ret (s, -1)
  else
    let a := aux_at s (channel - 1) in
    let m := a_dmtd a in
    let m := if CONFIG_FRAC_SPLL
             then m <| m_div_cnt := 0 |> <| m_div_ref := a_div_ref a |> <| m_div_fb := a_div_fb a |>
             else m in
    let! m := mpll_start g m in
    ret (set_dmtd s (channel - 1) m, 0).

(** [spll_stop_channel] *)
Definition spll_stop_channel (g : spll_globals) (s : softpll_state) (channel : Z)
    : M W softpll_state :=
  if negb (truth channel) then ret s
  else
    let! m := mpll_stop g (a_dmtd (aux_at s (channel - 1))) in
    ret (set_dmtd s (channel - 1) m).

(** [spll_check_lock] *)
Definition spll_check_lock (s : softpll_state) (channel : Z) : bool :=
  if negb (truth channel) then sp_seq_state s =? SEQ_READY
  else (sp_seq_state s =? SEQ_READY)
       && truth (ld_locked (m_phase_ld (a_dmtd (aux_at s (channel - 1))))).

(** [to_picos] *)
Definition to_picos (units : Z) : Z :=
  s32 (Z.shiftr (s64 (units * REF_CLOCK_PERIOD_PS)) HPLL_N).

(** The loop of an output channel. *)
Definition channel_loop (s : softpll_state) (channel : Z) : spll_main_state :=
  if negb (truth channel) then sp_mpll s else a_dmtd (aux_at s (channel - 1)).

(** [set_phase_shift] *)
Definition set_phase_shift (s : softpll_state) (channel value_picoseconds : Z) : softpll_state :=
  let m := mpll_set_phase_shift (channel_loop s channel) value_picoseconds in
  let s := if negb (truth channel) then s <| sp_mpll := m |> else set_dmtd s (channel - 1) m in
  s <| sp_mpll_shift_ps := value_picoseconds |>.

(** [spll_set_phase_shift]: [channel] is compared as unsigned with
    SPLL_ALL_CHANNELS. *)
Definition spll_set_phase_shift (g : spll_globals) (s : softpll_state)
    (channel value_picoseconds : Z) : softpll_state :=
  if u32 channel =? SPLL_ALL_CHANNELS then
    foldl (fun s i =>
      if a_seq_state (aux_at s i) =? AUX_SLAVE_READY
      then set_phase_shift s (i + 1) value_picoseconds else s)
      (set_phase_shift s 0 value_picoseconds) (range (g_n_chan_out g - 1))
  else set_phase_shift s channel value_picoseconds.

(** [spll_get_phase_shift]: the current shift and the target. *)
Definition spll_get_phase_shift (s : softpll_state) (channel : Z) : Z * Z :=
  let st := channel_loop s channel in
  let div := if BOARD_DIVIDE_DMTD_CLOCKS then 2 else 1 in
  (to_picos (m_phase_shift_current st * div)%int, to_picos (m_phase_shift_target st * div)%int).

(** [spll_read_ptracker]: the phase in picoseconds, whether the tracker is
    enabled, and the returned readiness. *)
Definition spll_read_ptracker (g : spll_globals) (s : softpll_state) (channel : Z) : Z * Z * Z :=
  let st := aget pt_zero (sp_ptrackers s) channel in
  let phase := pt_phase_val st in
  let phase := if phase <? 0 then (phase + (1 << HPLL_N))%int
               else if (1 << HPLL_N)%int <=? phase then (phase - (1 << HPLL_N))%int
               else phase in
  let phase := if BOARD_DIVIDE_DMTD_CLOCKS
               then Z.land (phase << 1)%int ((1 << HPLL_N) - 1)%int else phase in
  (to_picos phase, b2z (truth (Z.land (g_ptracker_mask g) (1 << pt_id st)%int)), pt_ready st).

(** [spll_set_ptracker_average_samples] *)
Definition spll_set_ptracker_average_samples (s : softpll_state) (channel nsamples : Z)
    : M W softpll_state :=
  disable_irq ;!
  let t := (aget pt_zero (sp_ptrackers s) channel)
             <| pt_preserve_sign := 0 |> <| pt_ready := 0 |> <| pt_acc := 0 |>
             <| pt_avg_count := 0 |> <| pt_n_avg := nsamples |> in
  enable_irq ;!
  ret (s <| sp_ptrackers := aset (sp_ptrackers s) channel t |>).

(** [spll_get_num_channels] *)
Definition spll_get_num_channels (g : spll_globals) : Z * Z := (g_n_chan_ref g, g_n_chan_out g).

(** [spll_shifter_busy] *)
Definition spll_shifter_busy (s : softpll_state) (channel : Z) : bool :=
  mpll_shifter_busy (channel_loop s channel).

(** [spll_enable_ptracker] *)
Definition spll_enable_ptracker (g : spll_globals) (s : softpll_state) (ref_channel enable : Z)
    : M W (spll_globals * softpll_state) :=
  if truth enable then
    let! t := ptracker_start g (aget pt_zero (sp_ptrackers s) ref_channel) in
    ret (g <| g_ptracker_mask := Z.lor (g_ptracker_mask g) (1 << ref_channel)%int |>,
         s <| sp_ptrackers := aset (sp_ptrackers s) ref_channel t |>)
  else
    let g := g <| g_ptracker_mask :=
               Z.land (g_ptracker_mask g) (Z.lnot (1 << ref_channel)%int) |> in
    when (negb (ref_channel =? m_id_ref (sp_mpll s)))
      (spll_enable_tagger (g_n_chan_ref g) ref_channel 0) ;!
    ret (g, s).

(** [spll_get_delock_count] *)
Definition spll_get_delock_count (s : softpll_state) : Z := sp_delock_count s.

(** [spll_update_aux_clock], AUX_DISABLED *)
Definition aux_disabled (g : spll_globals) (s : softpll_state) (ch : Z) : M W (softpll_state * Z) :=
  let i := ch - 1 in
  if negb (truth (m_locked (sp_mpll s))) then ret (s, 0)
  else
    let! en := aux_locking_enabled ch in
    if negb en then ret (s, 0)
    else if a_mode (aux_at s i) =? SPLL_AUX_MODE_SLAVE then
      let! (s, rc) := spll_start_channel g s ch in
      ret (if negb (truth rc)
           then set_aux s i ((aux_at s i) <| a_seq_state := AUX_LOCK_PLL |>) else s, 1)
    else if a_mode (aux_at s i) =? SPLL_AUX_MODE_PHASE_MONITOR then
      let s := set_aux s i ((aux_at s i) <| a_seq_state := AUX_WAIT_MONITOR_LOCK |>) in
      let m := a_dmtd (aux_at s i) in
      let t := ptracker_init (tracker_of m) (ch + g_n_chan_ref g)%int PTRACKER_AVERAGE_SAMPLES in
      let! t := ptracker_start g t in
      ret (set_dmtd s i (with_tracker m t), 1)
    else ret (s, 1).

(** [spll_update_aux_clock], AUX_MONITOR_READY *)
Definition aux_monitor_ready (s : softpll_state) (ch : Z) : M W (softpll_state * Z) :=
  let i := ch - 1 in
  if negb (truth (m_locked (sp_mpll s))) then
    set_channel_status ch 0 ;!
    ret (set_aux s i ((aux_at s i) <| a_seq_state := AUX_DISABLED |>), 1)
  else
    ret (set_aux s i ((aux_at s i) <| a_phase_value :=
           pt_phase_val (tracker_of (a_dmtd (aux_at s i))) |>), 0).

(** [spll_update_aux_clock], AUX_WAIT_MONITOR_LOCK; it falls through to
    AUX_MONITOR_READY while the tracker is not ready. *)
Definition aux_wait_monitor (s : softpll_state) (ch : Z) : M W (softpll_state * Z) :=
  let i := ch - 1 in
  let t := tracker_of (a_dmtd (aux_at s i)) in
  if truth (pt_ready t) then
    let s := set_aux s i ((aux_at s i) <| a_seq_state := AUX_MONITOR_READY |>
                            <| a_phase_value := pt_phase_val t |>) in
    set_channel_status ch 1 ;!
    ret (s, 1)
  else aux_monitor_ready s ch.

(** [spll_update_aux_clock], the states of a slave channel. *)
Definition aux_slave (s : softpll_state) (ch : Z) : M W (softpll_state * Z) :=
  let i := ch - 1 in
  let a := aux_at s i in
  let st := a_seq_state a in
  if st =? AUX_LOCK_PLL then
    if truth (ld_locked (m_phase_ld (a_dmtd a))) then
      let s := set_phase_shift s ch (sp_mpll_shift_ps s) in
      ret (set_aux s i ((aux_at s i) <| a_seq_state := AUX_ALIGN_PHASE |>), 1)
    else ret (s, 0)
  else if st =? AUX_ALIGN_PHASE then
    if negb (mpll_shifter_busy (a_dmtd a)) then
      set_channel_status ch 1 ;!
      ret (set_aux s i (a <| a_seq_state := AUX_SLAVE_READY |>), 1)
    else ret (s, 0)
  else if st =? AUX_SLAVE_READY then
    if negb (truth (m_locked (sp_mpll s))) || negb (truth (ld_locked (m_phase_ld (a_dmtd a)))) then
      set_channel_status ch 0 ;!
      ret (set_aux s i (a <| a_seq_state := AUX_DISABLED |>), 1)
    else ret (s, 0)
  else ret (s, 0).

(** [spll_update_aux_clock] *)
Definition spll_update_aux_clock (g : spll_globals) (s : softpll_state) (ch : Z)
    : M W (softpll_state * Z) :=
  let i := ch - 1 in
  let st := a_seq_state (aux_at s i) in
  let! stop := (if negb (st =? AUX_DISABLED)
                then let! en := aux_locking_enabled ch in ret (negb en)
                else ret false) in
  if stop then
    let! s := spll_stop_channel g s ch in
    set_channel_status ch 0 ;!
    ret (set_aux s i ((aux_at s i) <| a_seq_state := AUX_DISABLED |>), 1)
  else if st =? AUX_DISABLED then aux_disabled g s ch
  else if st =? AUX_WAIT_MONITOR_LOCK then aux_wait_monitor s ch
  else if st =? AUX_MONITOR_READY then aux_monitor_ready s ch
  else aux_slave s ch.

(** [spll_update]: the statistics of the switch, between two increments of
    their sequence number. *)
Definition update_stats (t : spll_stats) (s : softpll_state) : spll_stats :=
  let t := t <| ss_sequence := (ss_sequence t + 1)%int |> in
  let t := t <| ss_mode := sp_mode s |> <| ss_irq_cnt := s32 (sp_irq_count s) |>
             <| ss_seq_state := sp_seq_state s |> <| ss_align_state := x_align_state (sp_ext s) |>
             <| ss_H_lock := ld_locked (h_ld (sp_helper s)) |>
             <| ss_M_lock := m_locked (sp_mpll s) |>
             <| ss_H_y := pi_y (h_pi (sp_helper s)) |> <| ss_M_y := pi_y (m_pi (sp_mpll s)) |>
             <| ss_del_cnt := sp_delock_count s |>
             <| ss_ext_pps_latency_ps := x_pps_latency_ps (sp_ext s) |>
             <| ss_main_pll_kp := pi_kp (m_pi (sp_mpll s)) |>
             <| ss_main_pll_ki := pi_ki (m_pi (sp_mpll s)) |>
             <| ss_helper_pll_kp := pi_kp (h_pi (sp_helper s)) |>
             <| ss_helper_pll_ki := pi_ki (h_pi (sp_helper s)) |> in
  t <| ss_sequence := (ss_sequence t + 1)%int |>.

(** [spll_update] *)
Definition spll_update (g : spll_globals) (s : softpll_state) (t : spll_stats)
    : M W (spll_globals * softpll_state * spll_stats * Z) :=
  let! (g, s, r) :=
    (if sp_mode s =? SPLL_MODE_GRAND_MASTER then
       let! (g, x, m, d) := external_align_fsm g (sp_ext s) (sp_helper s) (sp_mpll s) in
       ret (g, s <| sp_ext := x |> <| sp_mpll := m |>, d)
     else ret (g, s, 0)) in
  let! (s, r) :=
    foldM (fun '(s, r) i =>
      let! (s, d) := spll_update_aux_clock g s (i + 1) in
      ret (s, Z.lor r d)) (range (g_n_chan_out g - 1)) (s, r) in
  let t := if CONFIG_TARGET_WR_SWITCH then update_stats t s else t in
  ret (g, s, t, b2z (truth r)).

(** [spll_get_aux_status] *)
Definition spll_get_aux_status (s : softpll_state) (channel : Z) : spll_aux_clock_status :=
  if (channel <? 0) || (BOARD_MAX_CHAN_AUX <=? channel) then mk_aux_status 0 0 0
  else
    let a := aux_at s channel in
    let state := a_seq_state a in
    let flags :=
      if state =? AUX_LOCK_PLL then SPLL_AUX_SLAVE_ENABLED
      else if state =? AUX_WAIT_MONITOR_LOCK then SPLL_AUX_MONITOR_ENABLED
      else if state =? AUX_MONITOR_READY
      then Z.lor SPLL_AUX_MONITOR_ENABLED SPLL_AUX_MONITOR_READY
      else if state =? AUX_SLAVE_READY
      then Z.lor SPLL_AUX_MONITOR_ENABLED SPLL_AUX_SLAVE_LOCKED
      else 0 in
    mk_aux_status flags (u16 (a_mode a)) (a_phase_value a).

(** [spll_get_dac] *)
Definition spll_get_dac (s : softpll_state) (index : Z) : Z :=
  if index <? 0 then pi_y (h_pi (sp_helper s))
  else if index =? 0 then pi_y (m_pi (sp_mpll s))
  else pi_y (m_pi (a_dmtd (aux_at s (index - 1)))).

(** [spll_set_dac] *)
Definition spll_set_dac (s : softpll_state) (index value : Z) : M W softpll_state :=
  if index <? 0 then
    wr DAC_HPLL value ;!
    ret (s <| sp_helper := (sp_helper s) <| h_pi := (h_pi (sp_helper s)) <| pi_y := value |> |> |>)
  else
    wr DAC_MAIN (Z.lor (SPLL_DAC_MAIN_DAC_SEL_W index) (Z.land value 65535)) ;!
    if index =? 0 then
      ret (s <| sp_mpll := (sp_mpll s) <| m_pi := (m_pi (sp_mpll s)) <| pi_y := value |> |> |>)
    else
      let m := a_dmtd (aux_at s (index - 1)) in
      ret (set_dmtd s (index - 1) (m <| m_pi := (m_pi m) <| pi_y := value |> |>)).

(** [spll_set_gain_schedule] *)
Definition spll_set_gain_schedule (s : softpll_state) (sch : option spll_gain_schedule_t)
    : M W softpll_state :=
  disable_irq ;!
  let s := s <| sp_mpll := (sp_mpll s) <| m_gain_sched := sch |> |> in
  enable_irq ;!
  ret s.

Definition set_gains (pi : spll_pi_t) (kp ki shift : Z) : spll_pi_t :=
  pi <| pi_kp := kp |> <| pi_ki := ki |> <| pi_shift := shift |>.

(** [spll_set_pi_gain], SPLL_LOOP_MAIN *)
Definition main_set_gain (m : spll_main_state) (sched_stage kp ki shift : Z) : spll_main_state :=
  match m_gain_sched m with
  | Some gs =>
      if sched_stage <? gs_n_stages gs then
        let st := (aget stage0 (gs_stages gs) sched_stage)
                    <| st_ki := ki |> <| st_kp := kp |> <| st_shift := shift |> in
        let m := m <| m_gain_sched := Some (gs <| gs_stages := aset (gs_stages gs) sched_stage st |>) |> in
        if gs_current_stage gs =? sched_stage
        then m <| m_pi := set_gains (m_pi m) kp ki shift |> else m
      else m <| m_pi := set_gains (m_pi m) kp ki shift |>
  | None => m <| m_pi := set_gains (m_pi m) kp ki shift |>
  end.

(** [spll_set_pi_gain] *)
Definition spll_set_pi_gain (s : softpll_state) (loop sched_stage kp ki shift : Z)
    : M W softpll_state :=
  disable_irq ;!
  let s :=
    if loop =? SPLL_LOOP_HELPER then
      s <| sp_helper := (sp_helper s) <| h_pi := set_gains (h_pi (sp_helper s)) kp ki shift |> |>
    else if loop =? SPLL_LOOP_MAIN then
      s <| sp_mpll := main_set_gain (sp_mpll s) sched_stage kp ki shift |>
    else s in
  enable_irq ;!
  ret s.

(** [spll_set_pi_gain_kp_ki] *)
Definition spll_set_pi_gain_kp_ki (s : softpll_state) (loop kp ki : Z) : M W softpll_state :=
  disable_irq ;!
  let s :=
    if loop =? SPLL_LOOP_HELPER then
      s <| sp_helper := (sp_helper s)
             <| h_pi := (h_pi (sp_helper s)) <| pi_kp := kp |> <| pi_ki := ki |> |> |>
    else if loop =? SPLL_LOOP_MAIN then
      s <| sp_mpll := (sp_mpll s)
             <| m_pi := (m_pi (sp_mpll s)) <| pi_kp := kp |> <| pi_ki := ki |> |> |>
    else s in
  enable_irq ;!
  ret s.

(** [spll_debug_queue_configure] *)
Definition spll_debug_queue_configure (fuel : nat) (q : spll_debug_queue_state)
    (undersample coalesce_threshold : Z) : M W (option spll_debug_queue_state) :=
  let! ok := purge fuel DFR_HOST_CSR DFR_HOST_R0 SPLL_DFR_HOST_CSR_EMPTY in
  if negb ok then ret None
  else
    let zeros := replicate (Z.to_nat SPLL_DBG_MAX_SOURCES) 0 in
    ret (Some (mk_dbgq undersample zeros zeros (coalesce_threshold * undersample)%int)).

(** SPLL_DBG_EXTRACT_SIGNAL and SPLL_DBG_EXTRACT_SOURCE *)
Definition SPLL_DBG_EXTRACT_SIGNAL (x : Z) : Z := Z.land (Z.shiftr x 24) 15.
Definition SPLL_DBG_EXTRACT_SOURCE (x : Z) : Z := Z.land (Z.shiftr x 28) 7.

(** [spll_get_debug_queue_samples], the accounting of one word: whether it is
    kept, and the new undersampling state. *)
Definition dbg_queue_word (q : spll_debug_queue_state) (v : Z) : spll_debug_queue_state * bool :=
  let signal := SPLL_DBG_EXTRACT_SIGNAL v in
  let src := SPLL_DBG_EXTRACT_SOURCE v in
  let keep := truth (aget 0 (dq_undersample_pass q) src) || (signal =? SPLL_DBG_SIGNAL_EVENT) in
  let q :=
    if truth (Z.land v 2147483648) then
      let c := u8 (aget 0 (dq_undersample_count q) src + 1) in
      if dq_undersample_ratio q <=? c
      then q <| dq_undersample_count := aset (dq_undersample_count q) src 0 |>
             <| dq_undersample_pass := aset (dq_undersample_pass q) src 1 |>
      else q <| dq_undersample_count := aset (dq_undersample_count q) src c |>
             <| dq_undersample_pass := aset (dq_undersample_pass q) src 0 |>
    else q in
  (q, keep).

(** [spll_get_debug_queue_samples], the loop: [count] is the room of the
    caller's buffer and [buf] what it holds so far. *)
Fixpoint dbg_queue_loop (fuel : nat) (q : spll_debug_queue_state) (buf : list Z) (count : Z)
    : M W (option (spll_debug_queue_state * list Z)) :=
  match fuel with
  | O => ret None
  | S fuel =>
      let! csr := rd DFR_HOST_CSR in
      if truth (Z.land csr SPLL_DFR_HOST_CSR_EMPTY) then ret (Some (q, buf))
      else if Z.of_nat (length buf) =? count then ret (Some (q, buf))
      else
        let! v := rd DFR_HOST_R0 in
        let '(q, keep) := dbg_queue_word q v in
        dbg_queue_loop fuel q (if keep then buf ++ [v] else buf) count
  end.

Definition ENOSPC : Z := 28.

(** [spll_get_debug_queue_samples]: the words stored in the caller's buffer
    and the return value. *)
Definition spll_get_debug_queue_samples (fuel : nat) (q : spll_debug_queue_state) (count : Z)
    : M W (option (spll_debug_queue_state * list Z * Z)) :=
  let! csr := rd DFR_HOST_CSR in
  let latch_full := Z.land csr SPLL_DFR_HOST_CSR_FULL in
  let! csr := rd DFR_HOST_CSR in
  let latch_count := SPLL_DFR_HOST_CSR_USEDW_R csr in
  if negb (truth latch_full) && (latch_count <? dq_coalesce_threshold q) then ret (Some (q, [], 0))
  else
    let! r := dbg_queue_loop fuel q [] count in
    match r with
    | None => ret None
    | Some (q, buf) => ret (Some (q, buf, if truth latch_full then - ENOSPC else 0))
    end.

(** [spll_set_aux_mode], [spll_set_aux_frequency_ratio], [spll_pshifter_freeze],
    [spll_vco_freeze], [spll_is_ext_supported] and
    [spll_update_ext_pps_latency_ps] *)
Definition spll_set_aux_mode (s : softpll_state) (channel mode : Z) : softpll_state :=
  set_aux s channel ((aux_at s channel) <| a_mode := mode |>).
Definition spll_set_aux_frequency_ratio (s : softpll_state) (channel div_ref div_fb : Z)
    : softpll_state :=
  set_aux s channel ((aux_at s channel) <| a_div_fb := div_fb |> <| a_div_ref := div_ref |>).
Definition spll_pshifter_freeze (s : softpll_state) (freeze : Z) : softpll_state :=
  s <| sp_mpll := (sp_mpll s) <| m_ps_freeze := freeze |> |>.
Definition spll_vco_freeze (s : softpll_state) (freeze : Z) : softpll_state :=
  s <| sp_mpll := (sp_mpll s) <| m_vco_freeze := freeze |> |>.
Definition spll_is_ext_supported : M W Z :=
  let! e := rd ECCR in ret (b2z (truth (Z.land e SPLL_ECCR_EXT_SUPPORTED))).
Definition spll_update_ext_pps_latency_ps (s : softpll_state) (offset_ps : Z) : softpll_state :=
  s <| sp_ext := (sp_ext s) <| x_pps_latency_ps := offset_ps |> |>.
End api.

(** ** The interrupt handler and the FIFO *)

(** Everything but the pop only lets tags arrive. *)
Section fifo.
Context `{!Board}.
Context {W : Type} `{!SpllHW W, !SpllFifoObs W, !SpllFifoLaws W, !LjdDriver W, !LjdFifoLaws W}.

Definition keeps_tags {A} (m : M W A) : Prop :=
  forall w, ensures m w (fun _ w' => arrives w w').

Lemma keeps_ret {A} (a : A) : keeps_tags (ret a).
Proof. intros w. apply arrives_refl. Qed.
Lemma keeps_bind {A B} (m : M W A) (k : A -> M W B) :
  keeps_tags m -> (forall a, keeps_tags (k a)) -> keeps_tags (bind m k).
Proof.
  intros Hm Hk w. apply ensures_bind. eapply ensures_mono; [apply Hm|].
  intros a w1 H1. eapply ensures_mono; [apply Hk|]. intros b w2 H2. exact (arrives_trans _ _ _ H1 H2).
Qed.
Lemma keeps_when b (m : M W unit) : keeps_tags m -> keeps_tags (when b m).
Proof. intros Hk w. destruct b; [apply Hk|apply arrives_refl]. Qed.
Lemma keeps_foldM {A B} (f : B -> A -> M W B) l b :
  (forall b x, keeps_tags (f b x)) -> keeps_tags (foldM f l b).
Proof.
  intros Hf. revert b. induction l as [|x l IH]; intros b; [apply keeps_ret|].
  apply keeps_bind; [apply Hf|apply IH].
Qed.
Lemma keeps_rd r : r <> TRR_R0 -> keeps_tags (rd r).
Proof. intros Hr w. by apply law_fifo_rd. Qed.
Lemma keeps_wr r v : keeps_tags (wr r v).
Proof. intros w. apply law_fifo_wr. Qed.
Lemma keeps_tics : keeps_tags timer_get_tics.
Proof. intros w. apply law_fifo_tics. Qed.
Lemma keeps_irq : keeps_tags disable_irq /\ keeps_tags enable_irq /\ keeps_tags clear_irq.
Proof. split_and!; intros w; apply law_fifo_irq. Qed.
Lemma keeps_delay n : keeps_tags (timer_delay n).
Proof. intros w. apply law_fifo_delay. Qed.
Lemma keeps_ljd : keeps_tags ljd_ad9516_init.
Proof. intros w. apply law_fifo_ljd. Qed.
Lemma keeps_debug a b c d : keeps_tags (spll_debug a b c d).
Proof. apply keeps_wr. Qed.

Ltac keeps :=
  cbv zeta;
  repeat match goal with
    | |- keeps_tags (bind _ _) => apply keeps_bind; [|intros]
    | |- keeps_tags (ret _) => apply keeps_ret
    | |- keeps_tags (wr _ _) => apply keeps_wr
    | |- keeps_tags (rd _) => apply keeps_rd; discriminate
    | |- keeps_tags timer_get_tics => apply keeps_tics
    | |- keeps_tags (spll_debug _ _ _ _) => apply keeps_debug
    | |- keeps_tags (when _ _) => apply keeps_when
    | |- keeps_tags (foldM _ _ _) => apply keeps_foldM; intros
    | |- keeps_tags ((match ?b with _ => _ end) _) => destruct b
    | |- keeps_tags (let _ := _ in _) => cbv zeta
    | |- keeps_tags (match _ with _ => _ end) => case_match
    | |- keeps_tags _ => solve [eauto with wrpc]
    end.

Lemma keeps_enable_tagger n c e : keeps_tags (spll_enable_tagger n c e).
Proof. unfold spll_enable_tagger. keeps. Qed.
#[local] Hint Resolve keeps_enable_tagger : wrpc.
Lemma keeps_helper_start g h : keeps_tags (helper_start g h).
Proof. unfold helper_start. keeps. Qed.
Lemma keeps_helper_update h t c : keeps_tags (helper_update h t c).
Proof. unfold helper_update. keeps. Qed.
Lemma keeps_mpll_start g m : keeps_tags (mpll_start g m).
Proof. unfold mpll_start. keeps. Qed.
#[local] Hint Resolve keeps_helper_start keeps_helper_update keeps_mpll_start : wrpc.
Lemma keeps_mpll_error m : keeps_tags (mpll_error m).
Proof. unfold mpll_error. keeps. Qed.
Lemma keeps_mpll_drive m e : keeps_tags (mpll_drive m e).
Proof. unfold mpll_drive. keeps. Qed.
Lemma keeps_gain_schedule m : keeps_tags (mpll_handle_gain_schedule m).
Proof. unfold mpll_handle_gain_schedule. keeps. Qed.
#[local] Hint Resolve keeps_mpll_error keeps_mpll_drive keeps_gain_schedule : wrpc.
Lemma keeps_phase_lock m e : keeps_tags (mpll_phase_lock m e).
Proof. unfold mpll_phase_lock. keeps. Qed.
#[local] Hint Resolve keeps_phase_lock : wrpc.
Lemma keeps_mpll_update g m t c : keeps_tags (mpll_update g m t c).
Proof. unfold mpll_update. keeps. Qed.
Lemma keeps_ptrackers_update g p t c : keeps_tags (ptrackers_update g p t c).
Proof. unfold ptrackers_update. keeps. Qed.
Lemma keeps_ptracker_start g p : keeps_tags (ptracker_start g p).
Proof. unfold ptracker_start. keeps. Qed.
Lemma keeps_external_start g x h : keeps_tags (external_start g x h).
Proof. unfold external_start. keeps. Qed.
Lemma keeps_external_locked x h m : keeps_tags (external_locked x h m).
Proof. unfold external_locked. keeps. Qed.
#[local] Hint Resolve keeps_mpll_update keeps_ptrackers_update keeps_ptracker_start
  keeps_external_start keeps_external_locked : wrpc.
Lemma keeps_set_channel_status c l : keeps_tags (set_channel_status c l).
Proof. unfold set_channel_status. keeps. Qed.
Lemma keeps_start_ptrackers g s : keeps_tags (start_ptrackers g s).
Proof. unfold start_ptrackers. keeps. Qed.
#[local] Hint Resolve keeps_set_channel_status keeps_start_ptrackers : wrpc.
Lemma keeps_update_ptrackers g s t c : keeps_tags (update_ptrackers g s t c).
Proof. unfold update_ptrackers. keeps. Qed.
Lemma keeps_seq_ready g s : keeps_tags (seq_ready g s).
Proof. unfold seq_ready. keeps. Qed.
Lemma keeps_seq_clear g s : keeps_tags (seq_clear_dacs g s).
Proof. unfold seq_clear_dacs. keeps. Qed.
Lemma keeps_seq_check g s : keeps_tags (seq_check_ready g s).
Proof. unfold seq_check_ready. keeps. Qed.
#[local] Hint Resolve keeps_update_ptrackers keeps_seq_ready keeps_seq_clear keeps_seq_check : wrpc.
Lemma keeps_sequencing g s t c : keeps_tags (sequencing_fsm g s t c).
Proof. unfold sequencing_fsm, seq_switch. keeps. Qed.
Lemma keeps_update_loops g s t c : keeps_tags (update_loops g s t c).
Proof. unfold update_loops. keeps. Qed.
#[local] Hint Resolve keeps_sequencing keeps_update_loops : wrpc.
Lemma keeps_process_tag g s t : keeps_tags (process_tag g s t).
Proof. unfold process_tag. keeps. Qed.

(** The tags [ts] have been processed one after the other, each once; between
    two of them the hardware may have evolved. *)
Inductive processed : list Z -> spll_globals * softpll_state ->
    spll_globals * softpll_state -> Prop :=
  | processed_nil x : processed [] x x
  | processed_cons t ts g s x w w' y :
      process_tag g s t w = (x, w') -> processed ts x y -> processed (t :: ts) (g, s) y.

Lemma irq_loop_drains fuel g s w :
  (length (queue w) < fuel)%nat ->
  ensures (irq_loop fuel g s) w (fun r w' =>
    exists y taken, r = Some y /\ processed taken (g, s) y /\
      queue w = taken ++ queue w' /\ prefix (fifo w) taken /\ fifo w' = []).
Proof.
  revert g s w. induction fuel as [|fuel IH]; intros g s w Hlen; [lia|].
  cbn [irq_loop]. apply ensures_bind. eapply ensures_mono.
  { apply ensures_and; [apply (law_fifo_empty w)|by apply (keeps_rd TRR_CSR)]. }
  intros csr w1 [He [Hq1 Hf1]]. rewrite He. rewrite <- Hq1 in *.
  destruct (fifo w1) as [|t ts] eqn:Ht; cbn [bool_decide].
  - rewrite bool_decide_true by done. cbn [negb]. apply ensures_ret.
    exists (g, s), []. split_and!; [done|constructor|done|done|done].
  - rewrite bool_decide_false by done. cbn [negb]. apply ensures_bind.
    eapply ensures_mono; [by apply (law_fifo_pop w1 t ts)|]. intros v w2 (-> & Hq2 & Hf2).
    apply ensures_bind.
    pose proof (keeps_process_tag g s t w2) as Hk. unfold ensures in Hk. unfold ensures at 1.
    destruct (process_tag g s t w2) as [[g1 s1] w3] eqn:Hp. destruct Hk as [Hq3 Hf3].
    eapply ensures_mono; [apply IH; rewrite Hq3; rewrite Hq2 in Hlen; cbn in Hlen; lia|].
    intros r w4 (y & taken & -> & Hy & Hq4 & Hf4 & He4). exists y, (t :: taken).
    split_and!; [done|by econstructor| | |done].
    + cbn. by rewrite <- Hq4, Hq3.
    + etrans; [exact Hf1|]. apply prefix_cons. etrans; [exact Hf2|]. by etrans.
Qed.

(** C10. The interrupt handler returns and loses no tag, also when tags arrive
    while it runs. On a tag FIFO that may receive tags at any access and in
    which finitely many tags are still to arrive, with a fuel above the
    number of tags waiting or to arrive (each one costs a turn of the loop),
    [spll_irq_entry] returns; the sequencer and the loops have processed each
    tag that waited and each tag that arrived until the loop ended exactly
    once and in FIFO order; the loop ended with the FIFO empty, and the
    interrupt was then cleared and counted; the tags that arrive later are
    still to be read. *)
Theorem spll_irq_entry_drains fuel g s w :
  (length (fifo w ++ future w) < fuel)%nat ->
  ensures (spll_irq_entry fuel g s) w (fun r w' =>
    exists g' s' taken w1,
      processed taken (g, s) (g', s') /\
      r = Some (g', s' <| sp_irq_count := (sp_irq_count s' + 1)%uint |>) /\
      prefix (fifo w) taken /\ fifo w ++ future w = taken ++ fifo w' ++ future w' /\
      fifo w1 = [] /\ w' = (clear_irq w1).2).
Proof.
  intros Hlen. apply ensures_bind. eapply ensures_mono; [by apply irq_loop_drains|].
  intros r w1 ([g' s'] & taken & -> & Hp & Hq & Hf & Ht). apply ensures_bind.
  destruct keeps_irq as (_ & _ & Hc). specialize (Hc w1). unfold ensures in Hc. unfold ensures at 1.
  destruct (clear_irq w1) as [[] w2] eqn:Ew. destruct Hc as [Hq2 _]. apply ensures_ret.
  exists g', s', taken, w1. split_and!; [done|done|done| |done|by rewrite Ew].
  unfold queue in *. by rewrite Hq2.
Qed.
End fifo.

(** Three tags wait; two tags wait and a third arrives while the handler runs. *)
Section fifo_demo.
#[local] Existing Instance generic_8bit.

Definition fifo_sim : sim := (sim_boot 1 1) <| sim_tags := [16777216 + 5; 7; 16777216 + 16389] |>.

Definition arriving_sim : fsim :=
  Fsim ((sim_boot 1 1) <| sim_tags := [16777216 + 5; 7] |>) [[]; [16777216 + 16389]].

Lemma spll_irq_entry_drains_witness :
  ensures (spll_irq_entry 4 demo_globals (softpll_zero <| sp_seq_state := SEQ_CLEAR_DACS |>))
    arriving_sim (fun r w' => exists g' s' taken w1,
        processed (W := fsim) taken
          (demo_globals, softpll_zero <| sp_seq_state := SEQ_CLEAR_DACS |>) (g', s') /\
        r = Some (g', s' <| sp_irq_count := (sp_irq_count s' + 1)%uint |>) /\
        prefix (fifo arriving_sim) taken /\
        fifo arriving_sim ++ future arriving_sim = taken ++ fifo w' ++ future w' /\
        fifo w1 = [] /\ w' = (clear_irq w1).2).
Proof.
  apply (spll_irq_entry_drains 4 demo_globals (softpll_zero <| sp_seq_state := SEQ_CLEAR_DACS |>)
           arriving_sim). vm_compute. lia.
Defined.

(** The tag that arrives during the handler is taken by the same run. *)
Lemma spll_irq_entry_late_tag :
  let r := spll_irq_entry 4 demo_globals
             (softpll_zero <| sp_seq_state := SEQ_CLEAR_DACS |>) arriving_sim in
  r.1 <> None /\ fifo r.2 = [] /\ fs_sched r.2 = [].
Proof. by vm_compute. Qed.
End fifo_demo.

(** ** The sequencer *)

(** The edges of the sequencer in each mode. *)
Inductive seq_trans (mode : Z) : Z -> Z -> Prop :=
  | sq_stay st : seq_trans mode st st
  | sq_clear : seq_trans mode SEQ_CLEAR_DACS SEQ_WAIT_CLEAR_DACS
  | sq_ext : mode = SPLL_MODE_GRAND_MASTER -> seq_trans mode SEQ_WAIT_CLEAR_DACS SEQ_START_EXT
  | sq_helper : mode <> SPLL_MODE_GRAND_MASTER -> seq_trans mode SEQ_WAIT_CLEAR_DACS SEQ_START_HELPER
  | sq_wait_ext : seq_trans mode SEQ_START_EXT SEQ_WAIT_EXT
  | sq_ext_ready : seq_trans mode SEQ_WAIT_EXT SEQ_READY
  | sq_wait_helper : seq_trans mode SEQ_START_HELPER SEQ_WAIT_HELPER
  | sq_main : mode = SPLL_MODE_SLAVE -> seq_trans mode SEQ_WAIT_HELPER SEQ_START_MAIN
  | sq_free_ready : mode <> SPLL_MODE_SLAVE -> seq_trans mode SEQ_WAIT_HELPER SEQ_READY
  | sq_wait_main : seq_trans mode SEQ_START_MAIN SEQ_WAIT_MAIN
  | sq_main_ready : seq_trans mode SEQ_WAIT_MAIN SEQ_READY
  | sq_delock : seq_trans mode SEQ_READY SEQ_CLEAR_DACS.

(** The states a mode goes through. *)
Definition seq_allowed (mode st : Z) : bool :=
  if mode =? SPLL_MODE_DISABLED then st =? SEQ_DISABLED
  else (st =? SEQ_CLEAR_DACS) || (st =? SEQ_WAIT_CLEAR_DACS) || (st =? SEQ_READY) ||
    (if mode =? SPLL_MODE_GRAND_MASTER then (st =? SEQ_START_EXT) || (st =? SEQ_WAIT_EXT)
     else (st =? SEQ_START_HELPER) || (st =? SEQ_WAIT_HELPER) ||
          ((mode =? SPLL_MODE_SLAVE) && ((st =? SEQ_START_MAIN) || (st =? SEQ_WAIT_MAIN)))).

Lemma seq_trans_allowed mode st st' :
  seq_trans mode st st' -> seq_allowed mode st = true -> seq_allowed mode st' = true.
Proof.
  unfold seq_allowed, SPLL_MODE_DISABLED, SPLL_MODE_GRAND_MASTER, SPLL_MODE_SLAVE.
  intros [] Hst; try done;
    (destruct (Z.eqb_spec mode 0); [try done; vm_compute in Hst; done|]);
    destruct (Z.eqb_spec mode 1), (Z.eqb_spec mode 3); subst; try done; try lia;
    vm_compute in Hst; done.
Qed.

(** The locks a mode needs, as far as they are software flags. *)
Definition locks_ok (s : softpll_state) : Prop :=
  ld_locked (h_ld (sp_helper s)) <> 0 /\
  (sp_mode s = SPLL_MODE_SLAVE \/ sp_mode s = SPLL_MODE_GRAND_MASTER -> m_locked (sp_mpll s) <> 0).

(** One call of the sequencer. *)
Definition seq_step_ok (s s' : softpll_state) : Prop :=
  sp_mode s' = sp_mode s /\
  seq_trans (sp_mode s) (sp_seq_state s) (sp_seq_state s') /\
  (sp_seq_state s = SEQ_READY -> sp_seq_state s' = SEQ_READY ->
     locks_ok s' /\ sp_delock_count s' = sp_delock_count s) /\
  (sp_seq_state s = SEQ_READY -> sp_seq_state s' <> SEQ_READY ->
     sp_delock_count s' = (sp_delock_count s + 1)%int) /\
  (sp_seq_state s <> SEQ_READY -> sp_delock_count s' = sp_delock_count s) /\
  (sp_seq_state s = SEQ_WAIT_HELPER -> sp_seq_state s' <> SEQ_WAIT_HELPER ->
     ld_locked (h_ld (sp_helper s')) <> 0) /\
  (sp_seq_state s = SEQ_WAIT_MAIN -> sp_seq_state s' <> SEQ_WAIT_MAIN ->
     m_locked (sp_mpll s') <> 0) /\
  (sp_seq_state s = SEQ_WAIT_EXT -> sp_seq_state s' <> SEQ_WAIT_EXT ->
     ld_locked (h_ld (sp_helper s')) <> 0 /\ m_locked (sp_mpll s') <> 0).

Section sequencer.
Context `{!Board}.
Context {W : Type} `{!SpllHW W, !LjdDriver W}.
Implicit Types (s : softpll_state) (w : W).

(** Everything but the trackers. *)
Definition but_trackers s s' : Prop := s' = s <| sp_ptrackers := sp_ptrackers s' |>.

Lemma start_ptrackers_frame g s w :
  ensures (start_ptrackers g s) w (fun s' _ => but_trackers s s').
Proof.
  apply ensures_foldM.
  - by destruct s.
  - intros s1 i w1 _ Hs1. case_match; [|by apply ensures_ret].
    apply ensures_skip. intros t w2. apply ensures_ret. unfold but_trackers in *.
    rewrite Hs1. by destruct s.
Qed.

Lemma seq_ready_frame g s w :
  ensures (seq_ready g s) w (fun s' _ =>
    but_trackers (s <| sp_seq_state := SEQ_READY |>) s').
Proof.
  apply ensures_bind. eapply ensures_mono; [apply start_ptrackers_frame|].
  intros s1 w1 Hs1. apply ensures_skip. intros _ w2. apply ensures_ret.
  unfold but_trackers in *. rewrite Hs1. by destruct s.
Qed.

Ltac seq_done :=
  apply ensures_ret; unfold seq_step_ok; cbn; split_and!; try done; try congruence;
  try (by constructor).

(** The move of [s] to the ready state. *)
Lemma seq_ready_ok g s w :
  sp_seq_state s <> SEQ_READY ->
  seq_trans (sp_mode s) (sp_seq_state s) SEQ_READY ->
  (sp_seq_state s = SEQ_WAIT_HELPER -> ld_locked (h_ld (sp_helper s)) <> 0) ->
  (sp_seq_state s = SEQ_WAIT_MAIN -> m_locked (sp_mpll s) <> 0) ->
  (sp_seq_state s = SEQ_WAIT_EXT ->
     ld_locked (h_ld (sp_helper s)) <> 0 /\ m_locked (sp_mpll s) <> 0) ->
  ensures (seq_ready g s) w (fun s' _ => seq_step_ok s s').
Proof.
  intros Hne Ht H1 H2 H3. eapply ensures_mono; [apply seq_ready_frame|].
  intros s' w' ->. unfold seq_step_ok. cbn. split_and!; auto; done.
Qed.

Lemma external_locked_locks x h m w :
  ensures (external_locked x h m) w (fun b _ => b = true ->
    ld_locked (h_ld h) <> 0 /\ m_locked m <> 0).
Proof.
  eapply ensures_mono; [apply external_locked_state|]. intros b w' Hb Htrue.
  destruct (Hb Htrue) as (? & ? & _). done.
Qed.

Lemma seq_check_ready_ok g s w :
  sp_seq_state s = SEQ_READY ->
  ensures (seq_check_ready g s) w (fun s' _ => seq_step_ok s s').
Proof.
  intros Hs. unfold seq_check_ready. apply ensures_bind.
  apply (ensures_mono _ _ (fun ext_lost _ => sp_mode s = SPLL_MODE_GRAND_MASTER ->
    ext_lost = false -> m_locked (sp_mpll s) <> 0)).
  { destruct (Z.eqb_spec (sp_mode s) SPLL_MODE_GRAND_MASTER).
    - apply ensures_bind. eapply ensures_mono; [apply external_locked_locks|].
      intros b w1 Hb. apply ensures_ret. intros _ Hf. apply negb_false_iff in Hf.
      by destruct (Hb Hf).
    - by apply ensures_ret. }
  intros lost w1 Hlost.
  destruct (lost || negb (truth (ld_locked (h_ld (sp_helper s)))) ||
    (sp_mode s =? SPLL_MODE_SLAVE) && negb (truth (m_locked (sp_mpll s)))) eqn:Hc.
  - apply ensures_skip. intros _ w2. apply ensures_ret. unfold seq_step_ok. cbn. rewrite Hs.
    split_and!; try done. constructor.
  - apply ensures_ret. unfold seq_step_ok. rewrite Hs. split_and!; try done; [constructor|].
    intros _ _. split; [|done]. apply orb_false_iff in Hc as [Hc Hc3].
    apply orb_false_iff in Hc as [-> Hc2]. unfold locks_ok.
    destruct (truth_spec (ld_locked (h_ld (sp_helper s)))) as [Hh|]; [|done].
    split; [done|]. intros [Hm|Hm]; [|by apply Hlost].
    rewrite Hm in Hc3. by destruct (truth_spec (m_locked (sp_mpll s))).
Qed.

Lemma seq_switch_ok g s w :
  ensures (seq_switch g s) w (fun s' _ => seq_step_ok s s').
Proof.
  assert (Hstay : forall w : W, sp_seq_state s <> SEQ_READY ->
    ensures (ret s) w (fun s' _ => seq_step_ok s s')).
  { intros w1 Hne. apply ensures_ret. unfold seq_step_ok. split_and!; try done. constructor. }
  unfold seq_switch.
  destruct (Z.eqb_spec (sp_seq_state s) SEQ_DISABLED) as [E|_]; [apply Hstay; by rewrite E|].
  destruct (Z.eqb_spec (sp_seq_state s) SEQ_CLEAR_DACS) as [E|_].
  { unfold seq_clear_dacs. repeat (apply ensures_skip; intros). apply ensures_ret.
    unfold seq_step_ok. cbn. rewrite E. split_and!; try done. constructor. }
  destruct (Z.eqb_spec (sp_seq_state s) SEQ_WAIT_CLEAR_DACS) as [E|_].
  { apply ensures_skip. intros now w1. case_match; [|apply Hstay; by rewrite E].
    destruct (Z.eqb_spec (sp_mode s) SPLL_MODE_GRAND_MASTER); apply ensures_ret;
      unfold seq_step_ok; cbn; rewrite E; split_and!; try done; by constructor. }
  destruct (Z.eqb_spec (sp_seq_state s) SEQ_START_EXT) as [E|_].
  { apply ensures_skip. intros _ w1. apply ensures_skip. intros [x h] w2. apply ensures_ret.
    unfold seq_step_ok. cbn. rewrite E. split_and!; try done. constructor. }
  destruct (Z.eqb_spec (sp_seq_state s) SEQ_WAIT_EXT) as [E|_].
  { apply ensures_bind. eapply ensures_mono; [apply external_locked_locks|].
    intros l w1 Hl. destruct l; [|apply Hstay; by rewrite E].
    apply seq_ready_ok; rewrite ?E; try done; [constructor|]. auto. }
  destruct (Z.eqb_spec (sp_seq_state s) SEQ_START_HELPER) as [E|_].
  { apply ensures_skip. intros h w1. apply ensures_ret.
    unfold seq_step_ok. cbn. rewrite E. split_and!; try done. constructor. }
  destruct (Z.eqb_spec (sp_seq_state s) SEQ_WAIT_HELPER) as [E|_].
  { destruct (truth_spec (ld_locked (h_ld (sp_helper s)))) as [Hh|];
      cbn [andb]; [|apply Hstay; by rewrite E].
    destruct (truth (ld_lock_changed (h_ld (sp_helper s)))); [|apply Hstay; by rewrite E].
    destruct (Z.eqb_spec (sp_mode s) SPLL_MODE_SLAVE).
    - apply ensures_ret. unfold seq_step_ok. cbn. rewrite E. split_and!; try done. by constructor.
    - apply seq_ready_ok; rewrite ?E; try done. by constructor. }
  destruct (Z.eqb_spec (sp_seq_state s) SEQ_START_MAIN) as [E|_].
  { apply ensures_skip. intros m w1. apply ensures_ret.
    unfold seq_step_ok. cbn. rewrite E. split_and!; try done. constructor. }
  destruct (Z.eqb_spec (sp_seq_state s) SEQ_WAIT_MAIN) as [E|_].
  { destruct (truth_spec (m_locked (sp_mpll s))); [|apply Hstay; by rewrite E].
    apply seq_ready_ok; rewrite ?E; try done. constructor. }
  destruct (Z.eqb_spec (sp_seq_state s) SEQ_READY) as [E|Hne].
  { by apply seq_check_ready_ok. }
  by apply Hstay.
Qed.

Lemma sequencing_fsm_ok g s tag source w :
  ensures (sequencing_fsm g s tag source) w (fun s' _ => seq_step_ok s s').
Proof.
  unfold sequencing_fsm. set (s1 := if source =? _ then _ else _).
  assert (Hs1 : forall s', seq_step_ok s1 s' -> seq_step_ok s s').
  { intros s'. unfold s1, seq_step_ok. by repeat case_match. }
  eapply ensures_mono; [apply seq_switch_ok|]. auto.
Qed.

(** The loops leave the sequencer alone. *)
Definition seq_frame s s' : Prop :=
  sp_mode s' = sp_mode s /\ sp_seq_state s' = sp_seq_state s /\
  sp_delock_count s' = sp_delock_count s.

Lemma update_ptrackers_frame g s tag source w :
  ensures (update_ptrackers g s tag source) w (fun '(_, s') _ => seq_frame s s').
Proof.
  unfold update_ptrackers. apply ensures_bind.
  apply (ensures_mono _ _ (fun '(_, s') _ => seq_frame s s')).
  { case_match; [|done]. apply ensures_skip. intros [g1 pts] w1. done. }
  intros [g1 s1] w1 Hs1.
  apply (ensures_foldM _ (fun '(_, s') _ => seq_frame s s')); [done|].
  intros [g2 s2] i w2 _ Hs2. case_match; [done|]. case_match; [|done].
  apply ensures_skip. intros [g3 ts] w3. done.
Qed.

Lemma update_loops_frame g s tag source w :
  ensures (update_loops g s tag source) w (fun '(_, s') _ => seq_frame s s').
Proof.
  unfold update_loops. apply ensures_skip. intros h w1. case_match; [|done].
  apply ensures_skip. intros [m ?] w2. case_match; [|done].
  apply ensures_bind.
  apply (ensures_mono _ _ (fun s' _ => seq_frame s s')).
  { case_match; [|done].
    apply (ensures_foldM _ (fun s' _ => seq_frame s s')); [done|].
    intros s2 i w3 _ Hs2. apply ensures_skip. intros [m2 ?] w4. done. }
  intros s2 w3 (Ha & Hb & Hc). eapply ensures_mono; [apply update_ptrackers_frame|].
  intros [g' s'] w4 (Hd & He & Hf). unfold seq_frame. split_and!; congruence.
Qed.

Lemma process_tag_seq g s t w :
  ensures (process_tag g s t) w (fun '(_, s') _ =>
    sp_mode s' = sp_mode s /\ seq_trans (sp_mode s) (sp_seq_state s) (sp_seq_state s')).
Proof.
  apply ensures_bind. eapply ensures_mono; [apply sequencing_fsm_ok|].
  intros s1 w1 (Hm & Ht & _). eapply ensures_mono; [apply update_loops_frame|].
  intros [g' s'] w2 (-> & -> & _). by rewrite Hm.
Qed.

(** The states the SoftPLL goes through while tags are processed. *)
Lemma processed_seq ts x y :
  processed ts x y ->
  sp_mode y.2 = sp_mode x.2 /\
  (seq_allowed (sp_mode x.2) (sp_seq_state x.2) = true ->
   seq_allowed (sp_mode x.2) (sp_seq_state y.2) = true).
Proof.
  induction 1 as [x|t ts g s x w w' y Hp _ IH]; [done|].
  pose proof (process_tag_seq g s t w) as Hs. unfold ensures in Hs. rewrite Hp in Hs.
  destruct x as [g1 s1]. destruct Hs as [Hm Ht], IH as [IH1 IH2]. cbn in *.
  split; [congruence|]. intros Ha. rewrite <- Hm. apply IH2. rewrite Hm.
  by eapply seq_trans_allowed.
Qed.

(** C4. The sequencer: whatever the hardware and the tags, [sequencing_fsm]
    follows the edges of its mode; it leaves the waiting states only with the
    locks they wait for, stays ready only with the locks of the mode, and
    counts a delock exactly when it leaves the ready state.  Across the
    processing of any sequence of tags the machine never enters a state of
    another mode. *)
Theorem sequencer_correct g s tag source w :
  ensures (sequencing_fsm g s tag source) w (fun s' _ => seq_step_ok s s') /\
  forall ts y, processed ts (g, s) y ->
    seq_allowed (sp_mode s) (sp_seq_state s) = true ->
    sp_mode y.2 = sp_mode s /\ seq_allowed (sp_mode s) (sp_seq_state y.2) = true.
Proof.
  split; [apply sequencing_fsm_ok|]. intros ts y Hp Ha.
  destruct (processed_seq _ _ _ Hp) as [Hm Hal]. auto.
Qed.
End sequencer.

(** ** Conversions of the API *)

(** Programming a shift and converting it back loses less than a picosecond,
    towards minus infinity. *)
Lemma phase_units_picos `{HB : Board, !BoardOk HB} ps :
  (if CONFIG_WRPC_PPSI then -131072 else -500000000) < ps < 500000000 ->
  REF_CLOCK_PERIOD_PS = (if BOARD_DIVIDE_DMTD_CLOCKS then 8000 else 16000) ->
  ps - 1 <= to_picos (phase_units ps * (if BOARD_DIVIDE_DMTD_CLOCKS then 2 else 1))%int <= ps.
Proof.
  intros Hps HP. unfold phase_units. rewrite from_picos_quot by (destruct CONFIG_WRPC_PPSI; lia).
  unfold to_picos, iquot, imul. rewrite HP. unfold HPLL_N. change (2 ^ 14) with 16384.
  rewrite Z.shiftr_div_pow2 by lia. change (2 ^ 14) with 16384.
  assert (-500000000 < ps < 500000000) as Hb by (destruct CONFIG_WRPC_PPSI; lia).
  destruct BOARD_DIVIDE_DMTD_CLOCKS.
  - set (q := Z.quot (ps * 16384) 8000).
    assert (Hq : Z.abs q <= 1024000000) by (unfold q; Z.to_euclidean_division_equations; lia).
    assert (Hq2 : Z.abs (Z.quot q 2) <= 512000000) by (Z.to_euclidean_division_equations; lia).
    rewrite (s32_small (Z.quot q 2)), (s32_small (Z.quot q 2 * 2)) by inrange.
    rewrite s64_small by inrange.
    assert (Hr : ps - 1 <= (Z.quot q 2 * 2 * 8000) / 16384 <= ps)
      by (unfold q; Z.to_euclidean_division_equations; lia).
    by rewrite s32_small by inrange.
  - rewrite Z.quot_1_r. set (q := Z.quot (ps * 16384) 16000).
    assert (Hq : Z.abs q <= 512000000) by (unfold q; Z.to_euclidean_division_equations; lia).
    rewrite Z.mul_1_r. rewrite (s32_small q) by inrange. rewrite (s32_small q) by inrange.
    rewrite s64_small by inrange.
    assert (Hr : ps - 1 <= (q * 16000) / 16384 <= ps)
      by (unfold q; Z.to_euclidean_division_equations; lia).
    by rewrite s32_small by inrange.
Qed.

(** Setting and reading back a phase shift: the target that
    [spll_get_phase_shift] reports after [spll_set_phase_shift] is the
    requested value up to one picosecond, for shifts below half a millisecond
    (and, with CONFIG_WRPC_PPSI, above -131 ns). *)
Theorem phase_shift_roundtrip `{HB : Board, !BoardOk HB} g s channel ps :
  (if CONFIG_WRPC_PPSI then -131072 else -500000000) < ps < 500000000 ->
  REF_CLOCK_PERIOD_PS = (if BOARD_DIVIDE_DMTD_CLOCKS then 8000 else 16000) ->
  0 <= channel <= 2 -> channel <= Z.of_nat (length (sp_aux s)) ->
  ps - 1 <= (spll_get_phase_shift (spll_set_phase_shift g s channel ps) channel).2 <= ps.
Proof.
  intros Hps HP Hch Hlen.
  assert (Htgt : m_phase_shift_target (channel_loop (spll_set_phase_shift g s channel ps) channel)
                 = phase_units ps).
  { unfold spll_set_phase_shift. rewrite u32_small by inrange.
    destruct (Z.eqb_spec channel SPLL_ALL_CHANNELS) as [->|_]; [unfold SPLL_ALL_CHANNELS in *; lia|].
    unfold set_phase_shift, channel_loop. destruct (truth_spec channel); cbn; [|done].
    unfold set_dmtd, set_aux, aux_at. cbn. rewrite aget_aset_eq by lia. done. }
  unfold spll_get_phase_shift. cbn [snd]. rewrite Htgt. by apply phase_units_picos.
Qed.

Lemma phase_shift_roundtrip_witness :
  let s := softpll_zero (H := generic_8bit) in
  12345 - 1 <= (spll_get_phase_shift (H := generic_8bit)
    (spll_set_phase_shift (H := generic_8bit) demo_globals s 1 12345) 1).2 <= 12345.
Proof.
  apply (phase_shift_roundtrip (HB := generic_8bit) demo_globals
           (softpll_zero (H := generic_8bit)) 1 12345); vm_compute; done.
Defined.

(** A reported phase is a phase: for every average the trackers can
    produce, [spll_read_ptracker] returns a value in [0, period) picoseconds,
    the average reduced modulo the period. *)
Theorem spll_read_ptracker_phase `{HB : Board, !BoardOk HB} g s channel :
  let t := aget pt_zero (sp_ptrackers s) channel in
  let div := if BOARD_DIVIDE_DMTD_CLOCKS then 2 else 1 in
  -16384 <= pt_phase_val t < 32768 ->
  let '(ps, _, ready) := spll_read_ptracker g s channel in
  ps = (pt_phase_val t * div mod 16384) * REF_CLOCK_PERIOD_PS / 16384 /\
  0 <= ps < REF_CLOCK_PERIOD_PS /\ ready = pt_ready t.
Proof.
  intros t div Ht. unfold spll_read_ptracker. fold t. change ((1 << HPLL_N)%int) with 16384.
  set (p := if pt_phase_val t <? 0 then _ else _).
  assert (Hp : p = pt_phase_val t mod 16384).
  { unfold p, iadd, isub. destruct (Z.ltb_spec (pt_phase_val t) 0).
    - rewrite s32_small by inrange.
      rewrite <- (Z.mod_add (pt_phase_val t) 1), Z.mod_small by lia. lia.
    - destruct (Z.leb_spec 16384 (pt_phase_val t)).
      + rewrite s32_small by inrange.
        rewrite <- (Z.mod_add (pt_phase_val t) (-1)), Z.mod_small by lia. lia.
      + by rewrite Z.mod_small by lia. }
  pose proof (Z.mod_pos_bound (pt_phase_val t) 16384 ltac:(lia)) as Hpb. rewrite <- Hp in Hpb.
  assert (Hd : (if BOARD_DIVIDE_DMTD_CLOCKS
                then Z.land (p << 1)%int (16384 - 1)%int else p)
               = pt_phase_val t * div mod 16384).
  { unfold div. destruct BOARD_DIVIDE_DMTD_CLOCKS.
    - change ((16384 - 1)%int) with (Z.ones 14). rewrite Z.land_ones by lia.
      unfold ishl. rewrite Z.shiftl_mul_pow2 by lia. change (2 ^ 1) with 2.
      change (2 ^ 14) with 16384. rewrite s32_small by inrange.
      rewrite Hp. by rewrite Z.mul_mod_idemp_l by lia.
    - by rewrite Z.mul_1_r. }
  rewrite Hd. pose proof (Z.mod_pos_bound (pt_phase_val t * div) 16384 ltac:(lia)) as Hb.
  set (u := pt_phase_val t * div mod 16384) in *. clearbody u. pose proof board_period as HP.
  unfold to_picos, HPLL_N. rewrite Z.shiftr_div_pow2 by lia. change (2 ^ 14) with 16384.
  rewrite s64_small by (unfold is_s64; nia).
  assert (Hr : 0 <= u * REF_CLOCK_PERIOD_PS / 16384 < REF_CLOCK_PERIOD_PS).
  { split; [apply Z.div_pos; nia|apply Z.div_lt_upper_bound; nia]. }
  rewrite (s32_small (u * REF_CLOCK_PERIOD_PS / 16384)) by inrange. done.
Qed.

Definition pt_demo_softpll : softpll_state :=
  (softpll_zero (H := generic_8bit)) <| sp_ptrackers := [mk_pt 1 0 512 0 0 0 (-7) 1 (-1)] |>.

Lemma spll_read_ptracker_phase_witness :
  (spll_read_ptracker (H := generic_8bit) demo_globals pt_demo_softpll 0).1.1
  = ((-7) * 2 mod 16384) * 8000 / 16384.
Proof.
  apply (spll_read_ptracker_phase (HB := generic_8bit) demo_globals pt_demo_softpll 0).
  by vm_compute.
Defined.

(** The tracker view of the union. *)
Lemma tracker_view m t :
  is_s32 (pt_phase_val t) ->
  tracker_of (with_tracker m t) = t.
Proof.
  intros Hp. destruct t as [en id n acc c sg ph rdy dbg]. unfold tracker_of, with_tracker. cbn in *.
  assert (Hs : Z.shiftl rdy 32 + u32 ph = u32 ph + 4294967296 * rdy).
  { rewrite Z.shiftl_mul_pow2 by lia. change (2 ^ 32) with 4294967296. lia. }
  rewrite Hs. f_equal.
  - rewrite s32_add_mult. unfold u32. destruct (s32_cong ph) as [k Hk].
    rewrite <- (s32_small ph Hp) at 2. pose proof (Z.div_mod ph 4294967296 ltac:(lia)).
    replace (ph `mod` 4294967296) with (ph + 4294967296 * - (ph / 4294967296)) by lia.
    apply s32_add_mult.
  - rewrite Z.shiftr_div_pow2 by lia. change (2 ^ 32) with 4294967296.
    rewrite (Z.mul_comm 4294967296 rdy), Z.div_add by lia.
    rewrite Z.div_small; [lia|]. apply u32_range.
Qed.

(** ** Auxiliary channels *)

(** A phase monitor with an average, or waiting for its first one. *)
Definition monitoring (a : spll_aux_state) : Prop :=
  a_seq_state a = AUX_MONITOR_READY \/
  (a_seq_state a = AUX_WAIT_MONITOR_LOCK /\ pt_ready (tracker_of (a_dmtd a)) = 0).

(** The moves of an auxiliary channel in state [a] while the SoftPLL is in
    state [s] and the enable bit of the channel in OCCR is [en]: the new state
    of the channel and the returned [done_sth].  Every case has its guard, so
    that in every state exactly one move is possible. *)
Inductive aux_move `{!Board} (s : softpll_state) (en : bool) (a : spll_aux_state)
    : spll_aux_state -> Z -> Prop :=
  | am_stop : a_seq_state a <> AUX_DISABLED -> en = false ->
      aux_move s en a
        (a <| a_dmtd := (a_dmtd a) <| m_enabled := 0 |> |> <| a_seq_state := AUX_DISABLED |>) 1
  | am_idle : a_seq_state a = AUX_DISABLED -> m_locked (sp_mpll s) = 0 \/ en = false ->
      aux_move s en a a 0
  | am_not_ready : a_seq_state a = AUX_DISABLED -> m_locked (sp_mpll s) <> 0 -> en = true ->
      a_mode a = SPLL_AUX_MODE_SLAVE -> sp_seq_state s <> SEQ_READY ->
      aux_move s en a a 1
  | am_no_mode : a_seq_state a = AUX_DISABLED -> m_locked (sp_mpll s) <> 0 -> en = true ->
      a_mode a <> SPLL_AUX_MODE_SLAVE -> a_mode a <> SPLL_AUX_MODE_PHASE_MONITOR ->
      aux_move s en a a 1
  | am_start m : a_seq_state a = AUX_DISABLED -> m_locked (sp_mpll s) <> 0 -> en = true ->
      a_mode a = SPLL_AUX_MODE_SLAVE -> sp_seq_state s = SEQ_READY ->
      m_enabled m = 1 -> ld_locked (m_phase_ld m) = 0 ->
      aux_move s en a (a <| a_dmtd := m |> <| a_seq_state := AUX_LOCK_PLL |>) 1
  | am_monitor m : a_seq_state a = AUX_DISABLED -> m_locked (sp_mpll s) <> 0 -> en = true ->
      a_mode a = SPLL_AUX_MODE_PHASE_MONITOR ->
      pt_enabled (tracker_of m) = 1 -> pt_ready (tracker_of m) = 0 ->
      pt_n_avg (tracker_of m) = PTRACKER_AVERAGE_SAMPLES ->
      aux_move s en a (a <| a_seq_state := AUX_WAIT_MONITOR_LOCK |> <| a_dmtd := m |>) 1
  | am_measured : a_seq_state a = AUX_WAIT_MONITOR_LOCK -> en = true ->
      pt_ready (tracker_of (a_dmtd a)) <> 0 ->
      aux_move s en a (a <| a_seq_state := AUX_MONITOR_READY |>
                         <| a_phase_value := pt_phase_val (tracker_of (a_dmtd a)) |>) 1
  | am_follow : monitoring a -> en = true -> m_locked (sp_mpll s) <> 0 ->
      aux_move s en a (a <| a_phase_value := pt_phase_val (tracker_of (a_dmtd a)) |>) 0
  | am_monitor_lost : monitoring a -> en = true -> m_locked (sp_mpll s) = 0 ->
      aux_move s en a (a <| a_seq_state := AUX_DISABLED |>) 1
  | am_locking : a_seq_state a = AUX_LOCK_PLL -> en = true ->
      ld_locked (m_phase_ld (a_dmtd a)) = 0 -> aux_move s en a a 0
  | am_align : a_seq_state a = AUX_LOCK_PLL -> en = true ->
      ld_locked (m_phase_ld (a_dmtd a)) <> 0 ->
      aux_move s en a
        (a <| a_dmtd := (a_dmtd a) <| m_phase_shift_target := phase_units (sp_mpll_shift_ps s) |> |>
           <| a_seq_state := AUX_ALIGN_PHASE |>) 1
  | am_aligning : a_seq_state a = AUX_ALIGN_PHASE -> en = true ->
      mpll_shifter_busy (a_dmtd a) = true -> aux_move s en a a 0
  | am_ready : a_seq_state a = AUX_ALIGN_PHASE -> en = true ->
      mpll_shifter_busy (a_dmtd a) = false ->
      aux_move s en a (a <| a_seq_state := AUX_SLAVE_READY |>) 1
  | am_hold : a_seq_state a = AUX_SLAVE_READY -> en = true -> m_locked (sp_mpll s) <> 0 ->
      ld_locked (m_phase_ld (a_dmtd a)) <> 0 -> aux_move s en a a 0
  | am_lost : a_seq_state a = AUX_SLAVE_READY -> en = true ->
      m_locked (sp_mpll s) = 0 \/ ld_locked (m_phase_ld (a_dmtd a)) = 0 ->
      aux_move s en a (a <| a_seq_state := AUX_DISABLED |>) 1
  | am_unknown : (a_seq_state a < AUX_DISABLED \/ AUX_MONITOR_READY < a_seq_state a) ->
      en = true -> aux_move s en a a 0.

(** The rest of the SoftPLL is left alone. *)
Definition only_aux (s s' : softpll_state) (i : Z) : Prop :=
  sp_mpll s' = sp_mpll s /\ sp_helper s' = sp_helper s /\ sp_mode s' = sp_mode s /\
  sp_seq_state s' = sp_seq_state s /\ sp_mpll_shift_ps s' = sp_mpll_shift_ps s /\
  length (sp_aux s') = length (sp_aux s) /\
  forall j, j <> i -> aux_at s' j = aux_at s j.

Section aux.
Context `{!Board}.
Context {W : Type} `{!SpllHW W, !LjdDriver W}.
Implicit Types (s : softpll_state) (w : W).

Lemma aux_at_set s i a :
  0 <= i < Z.of_nat (length (sp_aux s)) -> aux_at (set_aux s i a) i = a.
Proof. intros Hi. unfold aux_at, set_aux. cbn. by apply aget_aset_eq. Qed.

Lemma only_aux_set s i a : only_aux s (set_aux s i a) i.
Proof.
  unfold only_aux, set_aux, aux_at. cbn. rewrite length_aset. split_and!; try done.
  intros j Hj. apply aget_aset_ne. congruence.
Qed.
Lemma only_aux_refl s i : only_aux s s i.
Proof. by split_and!. Qed.
Lemma only_aux_trans s1 s2 s3 i : only_aux s1 s2 i -> only_aux s2 s3 i -> only_aux s1 s3 i.
Proof.
  intros (A1 & A2 & A3 & A4 & A5 & A6 & A7) (B1 & B2 & B3 & B4 & B5 & B6 & B7).
  unfold only_aux. split_and!; try congruence. intros j Hj. by rewrite B7, A7.
Qed.

(** The enable bit of channel [ch] as OCCR shows it when it is read first. *)
Definition channel_enabled (ch : Z) (w : W) : bool := (aux_locking_enabled ch w).1.

(** The result of a step on channel [ch]. *)
Definition aux_step_ok s en ch s' r : Prop :=
  only_aux s s' (ch - 1) /\ aux_move s en (aux_at s (ch - 1)) (aux_at s' (ch - 1)) r.

Lemma aux_step_stay s en ch r :
  aux_move s en (aux_at s (ch - 1)) (aux_at s (ch - 1)) r -> aux_step_ok s en ch s r.
Proof. by split; [apply only_aux_refl|]. Qed.

Lemma aux_step_set s en ch a r :
  0 <= ch - 1 < Z.of_nat (length (sp_aux s)) -> aux_move s en (aux_at s (ch - 1)) a r ->
  aux_step_ok s en ch (set_aux s (ch - 1) a) r.
Proof. intros Hc Hm. split; [apply only_aux_set|]. by rewrite aux_at_set. Qed.

(** Two writes to the same channel. *)
Lemma aux_step_set2 s en ch a0 a r :
  0 <= ch - 1 < Z.of_nat (length (sp_aux s)) -> aux_move s en (aux_at s (ch - 1)) a r ->
  aux_step_ok s en ch (set_aux (set_aux s (ch - 1) a0) (ch - 1) a) r.
Proof.
  intros Hc Hm. split.
  - eapply only_aux_trans; apply only_aux_set.
  - rewrite aux_at_set; [done|]. unfold set_aux. cbn. by rewrite length_aset.
Qed.

(** Reading the enable bit. *)
Lemma ensures_enabled {A} ch (k : bool -> M W A) w Q :
  (forall w', ensures (k (channel_enabled ch w)) w' Q) ->
  ensures (bind (aux_locking_enabled ch) k) w Q.
Proof.
  intros Hk. unfold ensures, bind, channel_enabled in *.
  destruct (aux_locking_enabled ch w) as [en w']. apply Hk.
Qed.

Lemma mpll_start_enabled g m w :
  ensures (mpll_start g m) w (fun m' _ => m_enabled m' = 1 /\ ld_locked (m_phase_ld m') = 0).
Proof.
  unfold mpll_start. apply ensures_skip. intros now w1.
  repeat (apply ensures_skip; intros). apply ensures_ret. split; repeat case_match; done.
Qed.

Lemma aux_disabled_ok g s ch w :
  1 <= ch <= Z.of_nat (length (sp_aux s)) -> a_seq_state (aux_at s (ch - 1)) = AUX_DISABLED ->
  ensures (aux_disabled g s ch) w (fun '(s', r) _ => aux_step_ok s (channel_enabled ch w) ch s' r).
Proof.
  intros Hch Hst. unfold aux_disabled.
  destruct (truth_spec (m_locked (sp_mpll s))) as [Hl|Hl]; cbn [negb];
    [|apply ensures_ret, aux_step_stay, am_idle; [done|lia]].
  apply ensures_enabled. intros w1.
  destruct (channel_enabled ch w); cbn [negb];
    [|apply ensures_ret, aux_step_stay, am_idle; [done|by right]].
  destruct (Z.eqb_spec (a_mode (aux_at s (ch - 1))) SPLL_AUX_MODE_SLAVE) as [Hm|Hm].
  - apply ensures_bind. unfold spll_start_channel.
    destruct (Z.eqb_spec (sp_seq_state s) SEQ_READY) as [Hr|Hr]; cbn [negb orb];
      [|do 2 apply ensures_ret; by apply aux_step_stay, am_not_ready].
    destruct (truth_spec ch); [|lia]. cbn [negb].
    apply ensures_bind. eapply ensures_mono; [apply mpll_start_enabled|].
    intros m w2 [Hen Hld]. do 2 apply ensures_ret. unfold set_dmtd.
    change (negb (truth 0)) with true. cbv iota. apply aux_step_set2; [lia|].
    rewrite aux_at_set by lia. by apply am_start.
  - destruct (Z.eqb_spec (a_mode (aux_at s (ch - 1))) SPLL_AUX_MODE_PHASE_MONITOR) as [Hp|Hp];
      [|by apply ensures_ret, aux_step_stay, am_no_mode].
    unfold ptracker_start. apply ensures_bind, ensures_skip. intros _ w2.
    apply ensures_skip. intros _ w3. do 2 apply ensures_ret. unfold set_dmtd.
    apply aux_step_set2; [lia|]. rewrite !aux_at_set by lia.
    apply am_monitor; try done; (rewrite tracker_view; [done|]; cbn -[s32]; apply s32_range).
Qed.

Lemma aux_monitor_ok s ch w :
  1 <= ch <= Z.of_nat (length (sp_aux s)) -> monitoring (aux_at s (ch - 1)) ->
  ensures (aux_monitor_ready s ch) w (fun '(s', r) _ => aux_step_ok s true ch s' r).
Proof.
  intros Hch Hst. unfold aux_monitor_ready.
  destruct (truth_spec (m_locked (sp_mpll s))) as [Hl|Hl]; cbn [negb].
  - apply ensures_ret, aux_step_set; [lia|]. by apply am_follow.
  - apply ensures_skip. intros _ w1. apply ensures_ret, aux_step_set; [lia|].
    apply am_monitor_lost; [done|done|lia].
Qed.

Lemma aux_wait_monitor_ok s ch w :
  1 <= ch <= Z.of_nat (length (sp_aux s)) ->
  a_seq_state (aux_at s (ch - 1)) = AUX_WAIT_MONITOR_LOCK ->
  ensures (aux_wait_monitor s ch) w (fun '(s', r) _ => aux_step_ok s true ch s' r).
Proof.
  intros Hch Hst. unfold aux_wait_monitor.
  destruct (truth_spec (pt_ready (tracker_of (a_dmtd (aux_at s (ch - 1)))))).
  - apply ensures_skip. intros _ w1. apply ensures_ret, aux_step_set; [lia|]. by apply am_measured.
  - apply aux_monitor_ok; [done|right; split; [done|lia]].
Qed.

Lemma aux_slave_ok s ch w :
  1 <= ch <= Z.of_nat (length (sp_aux s)) ->
  let st := a_seq_state (aux_at s (ch - 1)) in
  st <> AUX_DISABLED -> st <> AUX_WAIT_MONITOR_LOCK -> st <> AUX_MONITOR_READY ->
  ensures (aux_slave s ch) w (fun '(s', r) _ => aux_step_ok s true ch s' r).
Proof.
  intros Hch st N1 N2 N3. unfold aux_slave. set (a := aux_at s (ch - 1)) in *. subst st.
  destruct (Z.eqb_spec (a_seq_state a) AUX_LOCK_PLL) as [E|E1].
  { destruct (truth_spec (ld_locked (m_phase_ld (a_dmtd a)))) as [Hl|Hl];
      apply ensures_ret; [|apply aux_step_stay, am_locking; [done|done|fold a; lia]].
    unfold set_phase_shift, channel_loop. destruct (truth_spec ch); [|lia]. cbn [negb].
    unfold set_dmtd.
    set (s1 := set_aux s (ch - 1) _).
    assert (Hs1 : only_aux s s1 (ch - 1)) by apply only_aux_set.
    assert (Ho : only_aux s (s1 <| sp_mpll_shift_ps := sp_mpll_shift_ps s |>) (ch - 1))
      by (destruct Hs1 as (A1 & A2 & A3 & A4 & A5 & A6 & A7); by split_and!).
    split; [eapply only_aux_trans; [exact Ho|apply only_aux_set]|].
    rewrite aux_at_set by (unfold s1, set_aux; cbn; rewrite length_aset; lia).
    change (aux_at (s1 <| sp_mpll_shift_ps := sp_mpll_shift_ps s |>) (ch - 1))
      with (aux_at s1 (ch - 1)).
    unfold s1. rewrite aux_at_set by lia. by apply am_align. }
  destruct (Z.eqb_spec (a_seq_state a) AUX_ALIGN_PHASE) as [E|E2].
  { destruct (mpll_shifter_busy (a_dmtd a)) eqn:Hb; cbn [negb];
      [by apply ensures_ret, aux_step_stay, am_aligning|].
    apply ensures_skip. intros _ w1. apply ensures_ret, aux_step_set; [lia|]. by apply am_ready. }
  destruct (Z.eqb_spec (a_seq_state a) AUX_SLAVE_READY) as [E|E3].
  2: { apply ensures_ret, aux_step_stay, am_unknown; [|done]. fold a.
       unfold AUX_DISABLED, AUX_MONITOR_READY, AUX_WAIT_MONITOR_LOCK, AUX_LOCK_PLL,
         AUX_ALIGN_PHASE, AUX_SLAVE_READY in *. lia. }
  destruct (truth_spec (m_locked (sp_mpll s))) as [Hl|Hl],
    (truth_spec (ld_locked (m_phase_ld (a_dmtd a)))) as [Hp|Hp]; cbn [negb orb];
    try (by apply ensures_ret, aux_step_stay, am_hold);
    (apply ensures_skip; intros _ w1; apply ensures_ret, aux_step_set; [lia|]);
    (apply am_lost; [done|done|fold a; lia]).
Qed.

(** C30. The auxiliary clocks: a call of [spll_update_aux_clock] for a channel
    makes exactly the move that the channel's state, its enable bit in OCCR as
    the call reads it, its mode, and the state of the main loop and of its own
    loop decide, and returns whether it did something. An enabled channel
    starts only when the main PLL is locked (a slave also needs the sequencer
    ready); a slave becomes ready only once its phase lock was acquired, its
    target was set to the main PLL's shift and its shifter is idle, a monitor
    only with a complete average; a channel whose enable bit is off has its
    loop stopped and goes to the disabled state from every other state; a lost
    lock disables it. Otherwise the channel is left as it is. Nothing of the
    other channels or of the main and helper loops is touched. *)
Theorem aux_clock_correct g s ch w :
  1 <= ch <= Z.of_nat (length (sp_aux s)) ->
  ensures (spll_update_aux_clock g s ch) w (fun '(s', r) _ =>
    aux_step_ok s (channel_enabled ch w) ch s' r).
Proof.
  intros Hch. unfold spll_update_aux_clock. set (st := a_seq_state (aux_at s (ch - 1))).
  destruct (Z.eqb_spec st AUX_DISABLED) as [Hd|Hd]; cbn [negb].
  { apply ensures_bind, ensures_ret. by apply aux_disabled_ok. }
  apply ensures_bind, ensures_enabled. intros w1. apply ensures_ret.
  destruct (channel_enabled ch w); cbn [negb].
  - destruct (Z.eqb_spec st AUX_WAIT_MONITOR_LOCK); [by apply aux_wait_monitor_ok|].
    destruct (Z.eqb_spec st AUX_MONITOR_READY); [apply aux_monitor_ok; [done|by left]|].
    by apply aux_slave_ok.
  - unfold spll_stop_channel, mpll_stop. destruct (truth_spec ch); [|lia]. cbn [negb].
    apply ensures_bind, ensures_bind, ensures_skip. intros _ w2. do 2 apply ensures_ret.
    apply ensures_skip. intros _ w3. apply ensures_ret. unfold set_dmtd.
    apply aux_step_set2; [lia|]. rewrite aux_at_set by lia. by apply am_stop.
Qed.

(** The moves exclude each other, but for the loop a start initialises. *)
Lemma aux_move_state s en a a1 r1 a2 r2 :
  aux_move s en a a1 r1 -> aux_move s en a a2 r2 ->
  a_seq_state a1 = a_seq_state a2 /\ r1 = r2.
Proof.
  intros H1 H2. destruct H1; destruct H2; unfold monitoring in *; destruct_and?; destruct_or?;
    destruct_and?; unfold AUX_DISABLED, AUX_MONITOR_READY, AUX_WAIT_MONITOR_LOCK, AUX_LOCK_PLL,
      AUX_ALIGN_PHASE, AUX_SLAVE_READY, SPLL_AUX_MODE_SLAVE, SPLL_AUX_MODE_PHASE_MONITOR in *;
    first [split; reflexivity | exfalso; congruence | exfalso; lia].
Qed.
End aux.

Section aux_demo.
#[local] Existing Instance generic_8bit.

(** A slave channel whose shifter is idle becomes ready; once its enable bit is
    off it is stopped. *)
Definition aux_demo_state : softpll_state :=
  softpll_zero <| sp_aux := [aux_zero <| a_seq_state := AUX_ALIGN_PHASE |>; aux_zero] |>.
Definition aux_demo_sim : sim :=
  Sim (fun r => match r with OCCR => 512 | _ => 0 end) [] [] 0 true.

Lemma aux_clock_correct_witness :
  ensures (spll_update_aux_clock demo_globals aux_demo_state 1) aux_demo_sim
    (fun '(s', r) _ => aux_step_ok aux_demo_state true 1 s' r) /\
  a_seq_state (aux_at (spll_update_aux_clock demo_globals aux_demo_state 1 aux_demo_sim).1.1 0)
    = AUX_SLAVE_READY /\
  a_seq_state (aux_at (spll_update_aux_clock demo_globals aux_demo_state 1 (sim_boot 1 2)).1.1 0)
    = AUX_DISABLED.
Proof.
  split; [|split; reflexivity].
  change true with (channel_enabled 1 aux_demo_sim).
  apply (aux_clock_correct demo_globals aux_demo_state 1 aux_demo_sim). cbn. lia.
Defined.
End aux_demo.

Lemma mpll_start_gains `{!Board} {W} `{!SpllHW W} g m (w : W) :
  m_gain_sched m = None ->
  ensures (mpll_start g m) w (fun m' _ =>
    pi_kp (m_pi m') = pi_kp (m_pi m) /\ pi_ki (m_pi m') = pi_ki (m_pi m)).
Proof.
  intros Hg. unfold mpll_start. apply ensures_skip. intros now w1.
  repeat (apply ensures_skip; intros). apply ensures_ret.
  destruct m. cbn in Hg. subst. by destruct CONFIG_FRAC_SPLL.
Qed.

(** The tracker of a monitored channel lives in the memory of the
    channel's main PLL: starting a phase monitor overwrites the regulator's
    gains, and [mpll_start] does not restore them, so a channel switched back
    to slave mode runs with kp = 0 and ki = 512 until the next [spll_init]. *)
Theorem monitor_overwrites_gains `{!Board} {W} `{!SpllHW W} g m id (w : W) :
  m_gain_sched m = None ->
  ensures (let! t := ptracker_start g (ptracker_init (tracker_of m) id PTRACKER_AVERAGE_SAMPLES) in
           mpll_start g (with_tracker m t)) w
    (fun m' _ => pi_kp (m_pi m') = 0 /\ pi_ki (m_pi m') = 512).
Proof.
  intros Hg. apply ensures_bind. unfold ptracker_start.
  do 2 (apply ensures_skip; intros). apply ensures_ret.
  eapply ensures_mono; [by apply mpll_start_gains|]. by intros m' ? [-> ->].
Qed.

Lemma monitor_overwrites_gains_witness :
  ensures (let! t := ptracker_start demo_globals
                       (ptracker_init (tracker_of demo_main) 2 PTRACKER_AVERAGE_SAMPLES) in
           mpll_start (H := generic_8bit) demo_globals (with_tracker demo_main t)) (sim_boot 1 2)
    (fun m' _ => pi_kp (m_pi m') = 0 /\ pi_ki (m_pi m') = 512) /\
  pi_kp (m_pi demo_main) = -1100 /\ pi_ki (m_pi demo_main) = -30.
Proof.
  split; [|done].
  exact (monitor_overwrites_gains (H := generic_8bit) demo_globals demo_main 2 (sim_boot 1 2) eq_refl).
Defined.

(** ** Initialisation *)
Section init_theorem.
Context `{!Board}.
Context {W : Type} `{!SpllHW W, !SpllObs W, !SpllLaws W, !LjdDriver W}.
Implicit Types (s : softpll_state) (w : W).

Lemma purge_tags fuel w :
  (length (tags w) < fuel)%nat ->
  ensures (purge fuel TRR_CSR TRR_R0 SPLL_TRR_CSR_EMPTY) w (fun ok w' =>
    ok = true /\ tags w' = [] /\ forall r, is_cfg r = true -> cfg w' r = cfg w r).
Proof.
  revert w. induction fuel as [|fuel IH]; intros w Hlen; [lia|]. cbn [purge].
  apply ensures_bind. eapply ensures_mono.
  { apply ensures_and; [apply law_rd_empty|apply law_rd_other; discriminate]. }
  intros v w1 [He [Hc1 Ht1]]. rewrite He.
  destruct (tags w) as [|t ts] eqn:Ht.
  - rewrite bool_decide_true by done. apply ensures_ret. split_and!; done.
  - rewrite bool_decide_false by done. cbn [negb]. apply ensures_bind.
    eapply ensures_mono; [by apply (law_pop w1 t ts)|]. intros x w2 (_ & Ht2 & Hc2).
    eapply ensures_mono; [apply IH; rewrite Ht2; cbn in Hlen; lia|].
    intros ok w3 (-> & Ht3 & Hc3). split_and!; [done|done|].
    intros r Hr. rewrite Hc3, Hc2, Hc1; done.
Qed.

(** The debug queue can be emptied, and more fuel changes nothing. *)
Lemma purge_dbg fuel w :
  (length (dbgq w) < fuel)%nat ->
  ensures (purge fuel DFR_HOST_CSR DFR_HOST_R0 SPLL_DFR_HOST_CSR_EMPTY) w (fun ok w' =>
    ok = true /\ quiet w w').
Proof.
  revert w. induction fuel as [|fuel IH]; intros w Hlen; [lia|]. cbn [purge].
  apply ensures_bind. eapply ensures_mono.
  { apply ensures_and; [apply law_dbg_empty|apply law_rd_other; discriminate]. }
  intros v w1 [[He Hd1] Hq1]. rewrite He.
  destruct (dbgq w) as [|t ts] eqn:Ht.
  - rewrite bool_decide_true by done. by apply ensures_ret.
  - rewrite bool_decide_false by done. cbn [negb]. apply ensures_bind. eapply ensures_mono.
    { apply ensures_and; [by apply (law_dbg_pop w1 t ts)|apply law_rd_other; discriminate]. }
    intros x w2 [[_ Ht2] Hq2].
    eapply ensures_mono; [apply IH; rewrite Ht2; cbn in Hlen; lia|].
    intros ok w3 [-> Hq3]. split; [done|].
    exact (quiet_trans _ _ _ Hq1 (quiet_trans _ _ _ Hq2 Hq3)).
Qed.

Lemma purge_more n csr data e w : forall k,
  (purge n csr data e w).1 = true -> purge (n + k) csr data e w = purge n csr data e w.
Proof.
  revert w. induction n as [|n IH]; intros w k Hok; [done|]. cbn [purge Nat.add] in *.
  unfold bind in *. destruct (rd csr w) as [v w1]. destruct (negb (truth (Z.land v e))); [|done].
  destruct (rd data w1) as [x w2]. auto.
Qed.

(** What [spll_init] programs in the state. *)
Definition init_state s (mode : Z) (g' : spll_globals) (s' : softpll_state) : Prop :=
  sp_mode s' = mode /\ sp_delock_count s' = 0 /\
  sp_seq_state s' = (if mode =? SPLL_MODE_DISABLED then SEQ_DISABLED else SEQ_CLEAR_DACS) /\
  m_enabled (sp_mpll s') = 0 /\
  (forall i, 0 <= i < g_n_chan_out g' - 1 -> i < Z.of_nat (length (sp_aux s)) ->
     a_seq_state (aux_at s' i) = AUX_DISABLED /\ m_enabled (a_dmtd (aux_at s' i)) = 0) /\
  (forall i, 0 <= i < g_n_chan_ref g' -> i < Z.of_nat (length (sp_ptrackers s)) ->
     let t := aget pt_zero (sp_ptrackers s') i in
     pt_enabled t = 0 /\ pt_id t = i /\ pt_n_avg t = 512 /\ pt_avg_count t = 0).


(** The loop over the auxiliary channels. *)
Definition init_aux (ch : Z) : spll_globals * softpll_state -> Z -> spll_globals * softpll_state :=
  fun '(g, s) i =>
    let '(g, m) := mpll_init g (a_dmtd (aux_at s i)) ch (g_n_chan_ref g + i + 1)%int in
    (g, set_aux s i ((aux_at s i) <| a_dmtd := m |> <| a_seq_state := AUX_DISABLED |>)).

Lemma init_aux_ok g s ch n :
  let '(g', s') := foldl (init_aux ch) (g, s) (range n) in
  s' = s <| sp_aux := sp_aux s' |> /\ length (sp_aux s') = length (sp_aux s) /\
  g_n_chan_ref g' = g_n_chan_ref g /\ g_n_chan_out g' = g_n_chan_out g /\
  forall i, 0 <= i < n -> i < Z.of_nat (length (sp_aux s)) ->
    a_seq_state (aux_at s' i) = AUX_DISABLED /\ m_enabled (a_dmtd (aux_at s' i)) = 0.
Proof.
  destruct (foldl_establish (init_aux ch)
    (fun x => x.2 = s <| sp_aux := sp_aux x.2 |> /\ length (sp_aux x.2) = length (sp_aux s) /\
              g_n_chan_ref x.1 = g_n_chan_ref g /\ g_n_chan_out x.1 = g_n_chan_out g)
    (fun x i => 0 <= i < Z.of_nat (length (sp_aux s)) ->
       a_seq_state (aux_at x.2 i) = AUX_DISABLED /\ m_enabled (a_dmtd (aux_at x.2 i)) = 0)
    (range n) (g, s)) as [HI HQ].
  - split_and!; try done. by destruct s.
  - intros [g0 s0] i (H1 & H2 & H3 & H4). unfold init_aux. cbn [fst snd] in *.
    pose proof (mpll_init_facts g0 (a_dmtd (aux_at s0 i)) ch (g_n_chan_ref g0 + i + 1)%int) as Hf.
    destruct (mpll_init _ _ _ _) as [g1 m1]. cbn in Hf. destruct Hf as (_ & Hr & Ho). cbn.
    rewrite length_aset. split_and!; try congruence. by rewrite H1.
  - intros [g0 s0] i (H1 & H2 & H3 & H4) Hi. unfold init_aux. cbn [fst snd] in *.
    pose proof (mpll_init_facts g0 (a_dmtd (aux_at s0 i)) ch (g_n_chan_ref g0 + i + 1)%int) as Hf.
    destruct (mpll_init _ _ _ _) as [g1 m1]. cbn in Hf. destruct Hf as (He & _). cbn [snd].
    rewrite aux_at_set by lia. done.
  - intros [g0 s0] i j (H1 & H2 & H3 & H4) Hj Hr. unfold init_aux. cbn [fst snd] in *.
    pose proof (mpll_init_facts g0 (a_dmtd (aux_at s0 i)) ch (g_n_chan_ref g0 + i + 1)%int) as Hf.
    destruct (mpll_init _ _ _ _) as [g1 m1]. cbn in Hf. destruct Hf as (He & _). cbn [snd].
    destruct (Z.eq_dec i j) as [->|Hne]; [rewrite aux_at_set by lia; done|].
    unfold aux_at, set_aux in *. cbn. rewrite aget_aset_ne by done. by apply Hj.
  - destruct (foldl (init_aux ch) (g, s) (range n)) as [g' s'] eqn:E. cbn [fst snd] in *.
    destruct HI as (H1 & H2 & H3 & H4). split_and!; try done.
    intros i Hi Hl. specialize (HQ i). rewrite elem_of_range in HQ.
    apply HQ; [done|]. lia.
Qed.

Lemma init_ptrackers_ok s n :
  let s' := foldl (fun s i =>
        s <| sp_ptrackers := aset (sp_ptrackers s) i
               (ptracker_init (aget pt_zero (sp_ptrackers s) i) i PTRACKER_AVERAGE_SAMPLES) |>)
        s (range n) in
  s' = s <| sp_ptrackers := sp_ptrackers s' |> /\
  forall i, 0 <= i < n -> i < Z.of_nat (length (sp_ptrackers s)) ->
    let t := aget pt_zero (sp_ptrackers s') i in
    pt_enabled t = 0 /\ pt_id t = i /\ pt_n_avg t = 512 /\ pt_avg_count t = 0.
Proof.
  cbv zeta. set (f := fun (s : softpll_state) (i : Z) => _).
  destruct (foldl_establish f
    (fun x => x = s <| sp_ptrackers := sp_ptrackers x |> /\
              length (sp_ptrackers x) = length (sp_ptrackers s))
    (fun x i => 0 <= i < Z.of_nat (length (sp_ptrackers s)) ->
       let t := aget pt_zero (sp_ptrackers x) i in
       pt_enabled t = 0 /\ pt_id t = i /\ pt_n_avg t = 512 /\ pt_avg_count t = 0)
    (range n) s) as [[HI _] HQ].
  - split; [by destruct s|done].
  - intros s0 i [H1 H2]. unfold f. cbn. rewrite length_aset. split; [|done]. by rewrite H1.
  - intros s0 i [H1 H2] Hi. unfold f. cbn. rewrite aget_aset_eq by lia. done.
  - intros s0 i j [H1 H2] Hj Hr. unfold f. cbn.
    destruct (Z.eq_dec i j) as [->|Hne]; [rewrite aget_aset_eq by lia; done|].
    rewrite aget_aset_ne by done. by apply Hj.
  - split; [done|]. intros i Hi Hl. apply HQ; [by apply elem_of_range|lia].
Qed.

Lemma init_channels_ok g s mode ch :
  let '(g', s') := init_channels g s mode ch in
  sp_mode s' = sp_mode s /\ sp_delock_count s' = sp_delock_count s /\
  sp_seq_state s' = sp_seq_state s /\ m_enabled (sp_mpll s') = 0 /\
  (forall i, 0 <= i < g_n_chan_out g' - 1 -> i < Z.of_nat (length (sp_aux s)) ->
     a_seq_state (aux_at s' i) = AUX_DISABLED /\ m_enabled (a_dmtd (aux_at s' i)) = 0) /\
  (forall i, 0 <= i < g_n_chan_ref g' -> i < Z.of_nat (length (sp_ptrackers s)) ->
     let t := aget pt_zero (sp_ptrackers s') i in
     pt_enabled t = 0 /\ pt_id t = i /\ pt_n_avg t = 512 /\ pt_avg_count t = 0).
Proof.
  unfold init_channels. set (s1 := s <| sp_helper := _ |>).
  pose proof (mpll_init_facts g (sp_mpll s1) ch (g_n_chan_ref g)) as Hm.
  destruct (mpll_init g (sp_mpll s1) ch (g_n_chan_ref g)) as [g2 m2].
  destruct Hm as (He & Hr & Ho). cbn [fst snd] in *. cbv zeta.
  set (s2 := s1 <| sp_mpll := m2 |>).
  pose proof (init_aux_ok g2 s2 ch (g_n_chan_out g2 - 1)) as Ha.
  fold (init_aux ch). destruct (foldl (init_aux ch) (g2, s2) _) as [g3 s3].
  destruct Ha as (Hs3 & Hl3 & Hr3 & Ho3 & Haux).
  destruct (init_ptrackers_ok s3 (g_n_chan_ref g3)) as [Hs4 Hpt].
  set (s4 := foldl _ s3 _) in *. clearbody s4.
  assert (Hp3 : sp_ptrackers s3 = sp_ptrackers s) by (by rewrite Hs3).
  split_and!.
  - by rewrite Hs4, Hs3.
  - by rewrite Hs4, Hs3.
  - by rewrite Hs4, Hs3.
  - by rewrite Hs4, Hs3.
  - intros i Hi Hl. rewrite Hs4. apply Haux; [lia|done].
  - intros i Hi Hl. apply Hpt; [done|]. by rewrite Hp3.
Qed.

(** A write, seen from every software-owned register. *)
Lemma wr_cfg_all r v w :
  ensures (wr r v) w (fun _ w' => forall r', is_cfg r' = true ->
    cfg w' r' = if decide (r' = r) then u32 v else cfg w r').
Proof.
  destruct (is_cfg r) eqn:Hr.
  - eapply ensures_mono; [by apply law_wr_cfg|]. intros _ w' (Hv & _ & Ho) r' Hr'.
    case_decide as Hd; [by subst|by apply Ho].
  - eapply ensures_mono; [by apply law_wr_other|]. intros _ w' [Hq _] r' Hr'.
    rewrite decide_False; [by apply Hq|]. intros ->. congruence.
Qed.

(** The registers when the channels have been initialised. *)
Definition init_regs w : Prop :=
  cfg w RCER = 0 /\ cfg w OCER = 0 /\ cfg w DAC_HPLL = 0 /\
  cfg w DEGLITCH_THR = u32 CONFIG_SPLL_DEGLITCH_THR.

Lemma init_finish_ok g s mode w :
  init_regs w ->
  exists n, forall fuel, (n <= fuel)%nat ->
    ensures (init_finish fuel g s mode) w (fun r w' => r = Some (g, s) /\ tags w' = [] /\
      cfg w' RCER = 0 /\ cfg w' DAC_HPLL = 0 /\
      cfg w' OCER = if mode =? SPLL_MODE_DISABLED then 0 else 1).
Proof.
  intros (Hr & Ho & Hd & _).
  pose proof (purge_tags (S (length (tags w))) w ltac:(lia)) as Hp. unfold ensures in Hp.
  destruct (purge (S (length (tags w))) TRR_CSR TRR_R0 SPLL_TRR_CSR_EMPTY w) as [ok w1] eqn:Ep.
  destruct Hp as (-> & Ht1 & Hc1).
  pose proof (law_rd_other CSR w1 ltac:(discriminate)) as H2. unfold ensures in H2.
  destruct (rd CSR w1) as [csr w2] eqn:E2. destruct H2 as [Hq2 Ht2].
  exists (S (length (tags w)) + S (length (dbgq w2)))%nat. intros fuel Hf.
  unfold init_finish. apply ensures_bind. unfold ensures at 1.
  replace fuel with (S (length (tags w)) + (fuel - S (length (tags w))))%nat by lia.
  rewrite purge_more by (by rewrite Ep). rewrite Ep. cbn [negb].
  apply ensures_bind. unfold ensures at 1. rewrite E2.
  apply ensures_bind. apply (ensures_mono _ _ (fun ok w3 => ok = true /\ quiet w2 w3)).
  { case_match; [|by apply ensures_ret]. apply purge_dbg. lia. }
  intros ok w3 [-> [Hq3 Ht3]]. cbn [negb].
  assert (Hcfg : forall r, is_cfg r = true -> cfg w3 r = cfg w r).
  { intros r Hcr. rewrite Hq3, Hq2, Hc1; done. }
  destruct (mode =? SPLL_MODE_DISABLED).
  { apply ensures_ret. rewrite !Hcfg by done. split_and!; try done. congruence. }
  apply ensures_bind. eapply ensures_mono; [by apply law_wr_other|]. intros _ w4 [Hq4 Ht4].
  apply ensures_bind. eapply ensures_mono; [by apply (law_rd OCER)|]. intros v w5 [-> [Hq5 Ht5]].
  apply ensures_bind. eapply ensures_mono; [by apply (law_wr_cfg OCER)|].
  intros _ w6 (Hv6 & Ht6 & Ho6). apply ensures_bind. eapply ensures_mono; [apply law_irq|].
  intros _ w7 [Hq7 Ht7]. apply ensures_ret.
  rewrite !Hq7 by done. rewrite Hv6, !Ho6 by done. rewrite !Hq5 by done. rewrite !Hq4 by done.
  rewrite !Hcfg by done. rewrite Hr, Ho, Hd. split_and!; try done. congruence.
Qed.

(** A computation that ends with [Q] for every fuel above some bound. *)
Definition terminates {A} (m : nat -> M W A) w (Q : A -> W -> Prop) : Prop :=
  exists n, forall fuel, (n <= fuel)%nat -> ensures (m fuel) w Q.

Lemma terminates_bind {A B} (m : M W A) (k : nat -> A -> M W B) w P Q :
  ensures m w P -> (forall a w', P a w' -> terminates (fun fuel => k fuel a) w' Q) ->
  terminates (fun fuel => bind m (k fuel)) w Q.
Proof.
  intros Hm Hk. unfold ensures in Hm. destruct (m w) as [a w'] eqn:E.
  destruct (Hk a w' Hm) as [n Hn]. exists n. intros fuel Hf. specialize (Hn fuel Hf).
  unfold ensures, bind in *. by rewrite E.
Qed.
Lemma terminates_skip {A B} (m : M W A) (k : nat -> A -> M W B) w Q :
  (forall a w', terminates (fun fuel => k fuel a) w' Q) ->
  terminates (fun fuel => bind m (k fuel)) w Q.
Proof.
  intros Hk. apply (terminates_bind m k w (fun _ _ => True)); [|auto].
  unfold ensures. by destruct (m w).
Qed.

End init_theorem.


