(* ===== verification/Printf.v ===== *)
(** pp_printf: the formatted output of the firmware.  [Module Full] is
    vsprintf-full.c, the version of the nodes; [Module Xint] is
    vsprintf-xint.c, the small one.  A C string is the list of its bytes
    without the terminator; the buffer a function fills is the list it
    returns. *)
From Stdlib Require Import ZArith Lia.
From Stdlib Require String Ascii.
From stdpp Require Import base numbers option list.
From S2P Require Import Prelude Div64.
Export String.StringSyntax.

(** ** C strings *)
Definition str (s : String.string) : list Z :=
  (fun a => Z.of_N (Ascii.N_of_ascii a)) <$> String.list_ascii_of_string s.
Arguments str s%_string_scope.
Definition chr (s : String.string) : Z := hd 0 (str s).
Arguments chr s%_string_scope.

(** [*s]: the first byte, or the terminator. *)
Definition hd0 (s : list Z) : Z := hd 0 s.

(** Arguments of a variadic call.  An [int], a [long] and a pointer printed as
    a number take one word, a [long long] two. *)
Inductive va :=
  | VInt (z : Z)
  | VLL (z : Z)
  | VStr (s : option (list Z))
  | VPtr.

Definition is_digit (c : Z) : bool := (chr "0" <=? c) && (c <=? chr "9").

Module Full.

Definition ZEROPAD : Z := 1.
Definition SIGN : Z := 2.
Definition PLUS : Z := 4.
Definition SPACE : Z := 8.
Definition LEFT : Z := 16.
Definition SMALL : Z := 32.
Definition SPECIAL : Z := 64.

(** [do_div]: the quotient and the remainder. *)
Definition do_div (n base : Z) : Z * Z :=
  let base := u32 base in
  if Z.shiftr n 32 =? 0 then (u32 n / base, u32 n mod base)
  else div64_32 n base.

(** [skip_atoi]: the value and the rest of the format. *)
Fixpoint skip_atoi_from (i : Z) (s : list Z) : Z * list Z :=
  match s with
  | c :: s' => if is_digit c then skip_atoi_from (i * 10 + c - chr "0")%int s' else (i, s)
  | [] => (i, [])
  end.
Definition skip_atoi (s : list Z) : Z * list Z := skip_atoi_from 0 s.

Definition digits : list Z := str "0123456789ABCDEF".

(** [number]: the digits of [num], least significant first, as the loop over
    [do_div] stores them in [tmp]; 64 rounds are enough in every base. *)
Fixpoint number_digits (fuel : nat) (num base locase : Z) : list Z :=
  match fuel with
  | O => []
  | S fuel =>
      let '(num, rem) := do_div num base in
      Z.lor (aget 0 digits rem) locase ::
      (if num =? 0 then [] else number_digits fuel num base locase)
  end.

(** [while (--size >= 0) *buf++ = c;]: the bytes, and [size] afterwards. *)
Definition pad (size c : Z) : list Z * Z :=
  (replicate (Z.to_nat size) c, Z.min ((size - 1)%int) (-1)).

(** [number], sign: the sign character, the magnitude and the field size. *)
Definition number_sign (num size type : Z) : Z * Z * Z :=
  if truth (Z.land type SIGN) then
    if s64 num <? 0 then (chr "-", u64 (- s64 num), (size - 1)%int)
    else if truth (Z.land type PLUS) then (chr "+", num, (size - 1)%int)
    else if truth (Z.land type SPACE) then (chr " ", num, (size - 1)%int)
    else (0, num, size)
  else (0, num, size).

(** [number]: the bytes written to the buffer. *)
Definition number (num base size precision type : Z) : list Z :=
  let need_pfx := truth (Z.land type SPECIAL) && negb (base =? 10) in
  let locase := Z.land type SMALL in
  let type := if truth (Z.land type LEFT) then Z.land type (Z.lnot ZEROPAD) else type in
  let '(sign, num, size) := number_sign num size type in
  let size := if need_pfx then if base =? 16 then (size - 1 - 1)%int else (size - 1)%int
              else size in
  let tmp := if num =? 0 then [chr "0"] else number_digits 64 num base locase in
  let i := Z.of_nat (length tmp) in
  let precision := if precision <? i then i else precision in
  let size := (size - precision)%int in
  let '(lead, size) := if negb (truth (Z.land type (ZEROPAD + LEFT)))
                       then pad size (chr " ") else ([], size) in
  let sgn := if truth sign then [sign] else [] in
  let pfx := if need_pfx
             then chr "0" :: (if base =? 16 then [Z.lor (chr "X") locase] else []) else [] in
  let '(zeros, size) :=
    if negb (truth (Z.land type LEFT))
    then pad size (if truth (Z.land type ZEROPAD) then chr "0" else chr " ") else ([], size) in
  let more := replicate (Z.to_nat (precision - i)) (chr "0") in
  lead ++ sgn ++ pfx ++ zeros ++ more ++ rev tmp ++ (pad size (chr " ")).1.

(** [while (len < field_width--) *buf++ = ' ';] *)
Definition string_pad (len field_width : Z) : list Z * Z :=
  (replicate (Z.to_nat (field_width - len)) (chr " "), Z.min ((field_width - 1)%int) ((len - 1)%int)).

(** [string]: a negative precision is a huge [size_t]. *)
Definition string (s : option (list Z)) (field_width precision flags : Z) : list Z :=
  let s := match s with Some s => s | None => str "<NULL>" end in
  let len := Z.min (Z.of_nat (length s)) (u32 precision) in
  let '(lead, field_width) := if negb (truth (Z.land flags LEFT))
                              then string_pad len field_width else ([], field_width) in
  lead ++ take (Z.to_nat len) s ++ (string_pad len field_width).1.

(** [pp_vsprintf], "process flags"; [fmt] is what follows the percent sign. *)
Fixpoint parse_flags (fmt : list Z) (flags : Z) : list Z * Z :=
  match fmt with
  | c :: fmt' =>
      if c =? chr "-" then parse_flags fmt' (Z.lor flags LEFT)
      else if c =? chr "+" then parse_flags fmt' (Z.lor flags PLUS)
      else if c =? chr " " then parse_flags fmt' (Z.lor flags SPACE)
      else if c =? chr "#" then parse_flags fmt' (Z.lor flags SPECIAL)
      else if c =? chr "0" then parse_flags fmt' (Z.lor flags ZEROPAD)
      else (fmt, flags)
  | [] => ([], flags)
  end.

(** The next word argument; [None] when the call does not provide it. *)
Definition va_int (args : list va) : option (Z * list va) :=
  match args with VInt z :: args => Some (z, args) | _ => None end.

(** [pp_vsprintf], the field width: width, flags, rest and arguments. *)
Definition parse_width (fmt : list Z) (flags : Z) (args : list va)
    : option (Z * Z * list Z * list va) :=
  if is_digit (hd0 fmt) then
    let '(w, fmt) := skip_atoi fmt in Some (w, flags, fmt, args)
  else if hd0 fmt =? chr "*" then
    '(w, args) ← va_int args;
    let w := s32 w in
    if w <? 0 then Some ((- w)%int, Z.lor flags LEFT, tail fmt, args)
    else Some (w, flags, tail fmt, args)
  else Some (-1, flags, fmt, args).

(** [pp_vsprintf], the precision. *)
Definition parse_precision (fmt : list Z) (args : list va) : option (Z * list Z * list va) :=
  if hd0 fmt =? chr "." then
    let fmt := tail fmt in
    '(p, fmt, args) ←
      (if is_digit (hd0 fmt) then let '(p, fmt) := skip_atoi fmt in Some (p, fmt, args)
       else if hd0 fmt =? chr "*" then
         '(p, args) ← va_int args; Some (s32 p, tail fmt, args)
       else Some (-1, fmt, args));
    Some (if p <? 0 then 0 else p, fmt, args)
  else Some (-1, fmt, args).

(** [pp_vsprintf], the qualifier. *)
Definition parse_qualifier (fmt : list Z) : Z * list Z :=
  let c := hd0 fmt in
  if (c =? chr "h") || (c =? chr "l") || (c =? chr "L") || (c =? chr "Z") || (c =? chr "z")
     || (c =? chr "t") then
    let fmt := tail fmt in
    if (c =? chr "l") && (hd0 fmt =? chr "l") then (chr "L", tail fmt) else (c, fmt)
  else (-1, fmt).

(** [pp_vsprintf], the numeric argument: a 64-bit pattern. *)
Definition va_number (qualifier flags : Z) (args : list va) : option (Z * list va) :=
  let sign := truth (Z.land flags SIGN) in
  if qualifier =? chr "L" then
    match args with VLL z :: args => Some (u64 z, args) | _ => None end
  else
    '(v, args) ← va_int args;
    if qualifier =? chr "l" then Some (u64 (if sign then s32 v else u32 v), args)
    else if (qualifier =? chr "Z") || (qualifier =? chr "z") || (qualifier =? chr "t")
    then Some (u32 v, args)
    else if qualifier =? chr "h" then Some (u64 (if sign then s16 v else u16 v), args)
    else Some (u64 (if sign then s32 v else u32 v), args).

(** [pp_vsprintf], the setup of the numeric conversions: base, field width and
    flags; [None] for any other letter. *)
Definition conv_setup (c field_width flags : Z) : option (Z * Z * Z) :=
  if c =? chr "o" then Some (8, field_width, flags)
  else if c =? chr "p" then Some (16, 8, Z.lor (Z.lor flags ZEROPAD) SMALL)
  else if c =? chr "x" then Some (16, field_width, Z.lor flags SMALL)
  else if c =? chr "X" then Some (16, field_width, flags)
  else if (c =? chr "d") || (c =? chr "i") then Some (10, field_width, Z.lor flags SIGN)
  else if c =? chr "u" then Some (10, field_width, flags)
  else None.

(** [pp_vsprintf], one conversion: the bytes it appends, the rest of the format
    and of the arguments.  What "%n" stores through its pointer is not part of
    the output. *)
Definition convert (fmt : list Z) (args : list va) : option (list Z * list Z * list va) :=
  let '(fmt, flags) := parse_flags fmt 0 in
  '(field_width, flags, fmt, args) ← parse_width fmt flags args;
  '(precision, fmt, args) ← parse_precision fmt args;
  let '(qualifier, fmt) := parse_qualifier fmt in
  let c := hd0 fmt in
  if c =? chr "c" then
    '(v, args) ← va_int args;
    let blanks := replicate (Z.to_nat (field_width - 1)) (chr " ") in
    Some (if negb (truth (Z.land flags LEFT)) then blanks ++ [u8 v] else u8 v :: blanks,
          tail fmt, args)
  else if c =? chr "s" then
    match args with
    | VStr s :: args => Some (string s field_width precision flags, tail fmt, args)
    | _ => None
    end
  else if c =? chr "n" then
    match args with VPtr :: args => Some ([], tail fmt, args) | _ => None end
  else if c =? chr "%" then Some ([chr "%"], tail fmt, args)
  else
    match conv_setup c field_width flags with
    | Some (base, field_width, flags) =>
        '(num, args) ← va_number qualifier flags args;
        Some (number num base field_width precision flags, tail fmt, args)
    | None => Some (chr "%" :: (if truth c then [c] else []), tail fmt, args)
    end.

(** [pp_vsprintf]: the loop over the format. *)
Fixpoint vsprintf_loop (fuel : nat) (fmt : list Z) (args : list va) : option (list Z) :=
  match fuel with
  | O => None
  | S fuel =>
      match fmt with
      | [] => Some []
      | c :: fmt =>
          if negb (c =? chr "%") then (fun out => c :: out) <$> vsprintf_loop fuel fmt args
          else
            '(out, fmt, args) ← convert fmt args;
            (fun rest => out ++ rest) <$> vsprintf_loop fuel fmt args
      end
  end.

(** [pp_vsprintf] and [pp_sprintf]: the string left in the buffer; [None] when
    the arguments do not fit the format. *)
Definition pp_sprintf (fmt : list Z) (args : list va) : option (list Z) :=
  vsprintf_loop (S (length fmt)) fmt args.

(** *** Digits *)

(** The value of a digit character, in either case. *)
Definition digit_val (c : Z) : Z :=
  if c <? 58 then c - 48 else if c <? 71 then c - 55 else c - 87.
(** The number a list of digit characters, most significant first, denotes. *)
Definition digits_val (base : Z) (cs : list Z) : Z :=
  foldl (fun a c => a * base + digit_val c) 0 cs.

(** A digit of [number]: its value, and that the decimal ones are decimal. *)
Definition digit_of (rem locase : Z) : Z := Z.lor (aget 0 digits rem) locase.
Lemma digit_of_val rem locase :
  0 <= rem < 16 -> locase = 0 \/ locase = SMALL ->
  digit_val (digit_of rem locase) = rem /\ (rem < 10 -> digit_of rem locase = 48 + rem) /\
  48 <= digit_of rem locase <= 102 /\
  (10 <= rem -> 65 <= digit_of rem locase <= 70 \/ 97 <= digit_of rem locase <= 102).
Proof.
  intros Hr Hl.
  assert (rem = 0 \/ rem = 1 \/ rem = 2 \/ rem = 3 \/ rem = 4 \/ rem = 5 \/ rem = 6 \/ rem = 7 \/
          rem = 8 \/ rem = 9 \/ rem = 10 \/ rem = 11 \/ rem = 12 \/ rem = 13 \/ rem = 14 \/
          rem = 15) as Hc by lia.
  destruct Hl; repeat (destruct Hc as [Hc|Hc]); subst;
    match goal with |- context [digit_of ?r ?l] =>
      let v := eval vm_compute in (digit_of r l) in change (digit_of r l) with v end;
    unfold digit_val; cbn; lia.
Qed.

Lemma do_div_spec n base :
  0 <= n < 2 ^ 64 -> 0 < base < 2 ^ 32 -> do_div n base = (n / base, n mod base).
Proof.
  intros Hn Hb. unfold do_div. rewrite (u32_small base) by inrange.
  rewrite Z.shiftr_div_pow2 by lia. destruct (Z.eqb_spec (n / 2 ^ 32) 0) as [Hz|].
  - apply Z.div_small_iff in Hz; [|lia]. rewrite u32_small by inrange. done.
  - by apply div64_32_spec.
Qed.

(** The loop over [do_div] writes the digits of the number. *)
Lemma number_digits_spec fuel num base locase :
  8 <= base <= 16 -> locase = 0 \/ locase = SMALL ->
  0 < num < 2 ^ 64 -> num < 8 ^ Z.of_nat fuel ->
  let ds := number_digits fuel num base locase in
  digits_val base (rev ds) = num /\
  Forall (fun c => exists r, 0 <= r < base /\ c = digit_of r locase) ds /\
  (forall k, 0 <= k -> num < base ^ k -> Z.of_nat (length ds) <= k) /\ (0 < length ds)%nat.
Proof.
  intros Hb Hl. revert num. induction fuel as [|fuel IH]; intros num Hn Hf.
  { change (8 ^ Z.of_nat 0) with 1 in Hf. lia. }
  cbn [number_digits]. rewrite do_div_spec by lia.
  pose proof (Z.mod_pos_bound num base ltac:(lia)) as Hm.
  pose proof (Z.div_mod num base ltac:(lia)) as Hd.
  fold (digit_of (num `mod` base) locase).
  destruct (digit_of_val (num mod base) locase ltac:(lia) Hl) as (Hv & _).
  destruct (Z.eqb_spec (num / base) 0) as [Hz|Hz]; cbv zeta.
  - split_and!.
    + cbn. rewrite Hv. lia.
    + apply Forall_cons. split; [by eexists|by apply Forall_nil].
    + intros k Hk Hlt. cbn. destruct (Z.eq_dec k 0) as [->|]; [change (base ^ 0) with 1 in Hlt; lia|lia].
    + cbn. lia.
  - assert (Hq : 0 < num / base) by (pose proof (Z.div_pos num base); lia).
    rewrite Nat2Z.inj_succ, Z.pow_succ_r in Hf by lia.
    assert (Hqf : num / base < 8 ^ Z.of_nat fuel) by (apply Z.div_lt_upper_bound; nia).
    assert (Hq64 : num / base < 2 ^ 64).
    { apply Z.le_lt_trans with num; [|lia]. apply Z.div_le_upper_bound; nia. }
    destruct (IH (num / base) ltac:(lia) Hqf) as (Hval & Hall & Hlen & Hpos).
    split_and!.
    + cbn [rev]. unfold digits_val in *. rewrite foldl_app. cbn [foldl]. rewrite Hval, Hv. lia.
    + apply Forall_cons. split; [by eexists|done].
    + intros k Hk Hlt. cbn [length]. destruct (Z.eq_dec k 0) as [->|Hk0];
        [change (base ^ 0) with 1 in Hlt; lia|].
      assert (num / base < base ^ (k - 1)).
      { apply Z.div_lt_upper_bound; [lia|]. rewrite <- Z.pow_succ_r by lia.
        by replace (Z.succ (k - 1)) with k by lia. }
      specialize (Hlen (k - 1) ltac:(lia) ltac:(done)). lia.
    + cbn. lia.
Qed.

Lemma number_digits_length fuel n base locase :
  (length (number_digits fuel n base locase) <= fuel)%nat.
Proof.
  revert n. induction fuel as [|fuel IH]; intros n; cbn; [lia|]. destruct (do_div n base) as [q r].
  cbn. case_match; cbn; [lia|]. specialize (IH q). lia.
Qed.

(** What [number] prints of a magnitude without padding. *)
Definition magnitude (num base locase : Z) : list Z :=
  rev (if num =? 0 then [chr "0"] else number_digits 64 num base locase).

Lemma magnitude_spec num base locase :
  8 <= base <= 16 -> locase = 0 \/ locase = SMALL -> 0 <= num < 2 ^ 64 ->
  let cs := magnitude num base locase in
  digits_val base cs = num /\
  Forall (fun c => exists r, 0 <= r < base /\ c = digit_of r locase) cs /\
  (0 < length cs)%nat /\
  (forall k, 1 <= k -> num < base ^ k -> Z.of_nat (length cs) <= k).
Proof.
  intros Hb Hl Hn. unfold magnitude. cbv zeta. destruct (Z.eqb_spec num 0) as [->|].
  - cbn. split; [done|]. split; [|split; [lia|intros; lia]].
    apply Forall_cons. split; [|by apply Forall_nil]. exists 0. split; [lia|].
    by destruct Hl as [->| ->].
  - destruct (number_digits_spec 64 num base locase Hb Hl ltac:(lia)) as (H1 & H2 & H3 & H4).
    { change (8 ^ Z.of_nat 64) with (2 ^ 192). apply Z.lt_le_trans with (2 ^ 64); [lia|].
      apply Z.pow_le_mono_r; lia. }
    rewrite length_rev. split; [exact H1|]. split; [by apply Forall_rev|]. split; [exact H4|].
    intros k Hk Hlt. apply H3; [lia|done].
Qed.

(** *** Fields *)

(** The characters before the digits: sign and prefix. *)
Definition sign_of (num type : Z) : list Z :=
  let '(sign, _, _) := number_sign num 0 type in if truth sign then [sign] else [].
Definition prefix_of (base type : Z) : list Z :=
  if truth (Z.land type SPECIAL) && negb (base =? 10)
  then chr "0" :: (if base =? 16 then [Z.lor (chr "X") (Z.land type SMALL)] else []) else [].
(** The magnitude [number] prints. *)
Definition abs_of (num type : Z) : Z := (number_sign num 0 type).1.2.

Lemma number_sign_size num size type :
  -1 <= size < 2 ^ 20 ->
  let '(sign, abs, size') := number_sign num size type in
  sign_of num type = (if truth sign then [sign] else []) /\ abs = abs_of num type /\
  size' = size - Z.of_nat (length (sign_of num type)).
Proof.
  intros Hs. unfold sign_of, abs_of, number_sign, isub.
  rewrite (s32_small (size - 1)) by inrange.
  repeat case_match; cbn in *; simplify_eq; try done; split_and!; try done; lia.
Qed.

Lemma abs_of_range num type : 0 <= num < 2 ^ 64 -> 0 <= abs_of num type < 2 ^ 64.
Proof.
  intros Hn. unfold abs_of, number_sign.
  assert (0 <= u64 (- s64 num) < 2 ^ 64) by (unfold u64; apply Z.mod_pos_bound; lia).
  repeat case_match; cbn; lia.
Qed.

(** The flag that SIGN tests is not the one [number] clears. *)
Lemma number_sign_left num type size :
  number_sign num size (if truth (Z.land type LEFT) then Z.land type (Z.lnot ZEROPAD) else type)
  = number_sign num size type.
Proof.
  destruct (truth (Z.land type LEFT)); [|done]. unfold number_sign.
  rewrite <- !Z.land_assoc. done.
Qed.

Lemma pad_length size c :
  -2147483647 <= size < 2147483648 ->
  Z.of_nat (length (pad size c).1) = Z.max size 0 /\ (pad size c).2 = Z.min (size - 1) (-1).
Proof.
  intros Hs. unfold pad, isub. rewrite s32_small by inrange. cbn. rewrite length_replicate. lia.
Qed.

(** The three places where padding may go get it once. *)
Lemma pads_total sz (b1 b2 : bool) c1 c2 c3 :
  -2147483000 <= sz < 2147483000 ->
  let '(l1, s1) := if b1 then pad sz c1 else ([], sz) in
  let '(l2, s2) := if b2 then pad s1 c2 else ([], s1) in
  Z.of_nat (length l1 + length l2 + length (pad s2 c3).1) = Z.max sz 0.
Proof.
  intros Hs.
  assert (H1 : let '(l1, s1) := if b1 then pad sz c1 else ([], sz) in
    Z.of_nat (length l1) + Z.max s1 0 = Z.max sz 0 /\ -2147483001 <= s1 < 2147483000).
  { destruct b1; [|cbn; lia]. pose proof (pad_length sz c1 ltac:(lia)).
    destruct (pad sz c1). cbn in *. lia. }
  destruct (if b1 then _ else _) as [l1 s1]. destruct H1 as [H1 R1].
  assert (H2 : let '(l2, s2) := if b2 then pad s1 c2 else ([], s1) in
    Z.of_nat (length l2) + Z.max s2 0 = Z.max s1 0 /\ -2147483002 <= s2 < 2147483000).
  { destruct b2; [|cbn; lia]. pose proof (pad_length s1 c2 ltac:(lia)).
    destruct (pad s1 c2). cbn in *. lia. }
  destruct (if b2 then _ else _) as [l2 s2]. destruct H2 as [H2 R2].
  destruct (pad_length s2 c3 ltac:(lia)). lia.
Qed.

(** The length of a formatted number. *)
Lemma number_length num base size precision type :
  0 <= num < 2 ^ 64 -> 8 <= base <= 16 -> -1 <= size < 2 ^ 20 -> -1 <= precision < 2 ^ 20 ->
  Z.of_nat (length (number num base size precision type)) =
  Z.max size (Z.of_nat (length (sign_of num type ++ prefix_of base type)) +
              Z.max precision (Z.of_nat (length (magnitude (abs_of num type) base (Z.land type SMALL))))).
Proof.
  intros Hn Hb Hs Hp. unfold number. rewrite number_sign_left.
  pose proof (number_sign_size num size type Hs) as Hsg.
  destruct (number_sign num size type) as [[sign abs] size']. destruct Hsg as (Hsign & -> & ->).
  set (ty := if truth (Z.land type LEFT) then _ else type).
  fold (magnitude (abs_of num type) base (Z.land type SMALL)).
  set (ds := if abs_of num type =? 0 then _ else _).
  assert (Hds : length (magnitude (abs_of num type) base (Z.land type SMALL)) = length ds)
    by apply length_rev.
  rewrite Hds. rewrite <- Hsign. set (i := Z.of_nat (length ds)).
  assert (Hi : 0 <= i <= 64).
  { split; [lia|]. unfold i, ds.
    pose proof (number_digits_length 64 (abs_of num type) base (Z.land type SMALL)).
    destruct (abs_of num type =? 0); [cbn [length]; lia|lia]. }
  set (pfx := if truth (Z.land type SPECIAL) && _ then _ :: _ else _).
  assert (Hpfx : prefix_of base type = pfx) by done. rewrite Hpfx.
  set (sz := if truth (Z.land type SPECIAL) && _ then _ else _ - _).
  assert (Hsl : (length (sign_of num type) <= 1)%nat).
  { rewrite Hsign. case_match; cbn; lia. }
  assert (Hsz : sz = size - Z.of_nat (length (sign_of num type)) - Z.of_nat (length pfx)).
  { unfold sz, pfx, isub.
    destruct (truth (Z.land type SPECIAL) && negb (base =? 10)); [|cbn [length]; lia].
    rewrite (s32_small (size - Z.of_nat (length (sign_of num type)) - 1)) by inrange.
    destruct (base =? 16); cbn [length]; [rewrite s32_small by inrange|]; lia. }
  assert (Hpl : (length pfx <= 2)%nat) by (unfold pfx; repeat case_match; cbn; lia).
  clearbody sz pfx ds ty. subst sz.
  set (prec := if precision <? i then i else precision).
  assert (Hprec : prec = Z.max precision i)
    by (unfold prec; destruct (Z.ltb_spec precision i); lia).
  clearbody prec. subst prec. unfold isub. rewrite s32_small by inrange.
  set (sz := size - _ - _ - _).
  rewrite length_app.
  set (b1 := negb (truth (Z.land ty (ZEROPAD + LEFT)))).
  set (b2 := negb (truth (Z.land ty LEFT))).
  set (c2 := if truth (Z.land ty ZEROPAD) then chr "0" else chr " ").
  pose proof (pads_total sz b1 b2 (chr " ") c2 (chr " ") ltac:(unfold sz; lia)) as Htot.
  destruct (if b1 then pad sz (chr " ") else ([], sz)) as [l1 s1].
  destruct (if b2 then pad s1 c2 else ([], s1)) as [l2 s2].
  rewrite !length_app, length_replicate, ?Hds, ?length_rev.
  unfold sz in Htot. lia.
Qed.

(** Field width and precision: [number] fills exactly the larger of the
    field width and the natural length (sign, prefix and the digits extended to
    the precision), for every value, base, flag combination and padding side. *)
Theorem number_field_length num base size precision type :
  0 <= num < 2 ^ 64 -> 8 <= base <= 16 -> -1 <= size < 2 ^ 20 -> -1 <= precision < 2 ^ 20 ->
  Z.of_nat (length (number num base size precision type)) =
  Z.max size (Z.of_nat (length (sign_of num type ++ prefix_of base type)) +
              Z.max precision (Z.of_nat (length (magnitude (abs_of num type) base (Z.land type SMALL))))).
Proof. apply number_length. Qed.

Lemma number_field_length_witness :
  length (number 255 16 8 (-1) (SPECIAL + SMALL)) = 8%nat /\
  length (number (2 ^ 64 - 5) 10 (-1) 3 SIGN) = 4%nat.
Proof.
  split; apply Nat2Z.inj.
  - rewrite (number_field_length 255 16 8 (-1) (SPECIAL + SMALL)); [reflexivity|lia..].
  - rewrite (number_field_length (2 ^ 64 - 5) 10 (-1) 3 SIGN); [reflexivity|lia..].
Defined.

Lemma pad_nonpos size c : -2147483648 < size <= 0 -> pad size c = ([], size - 1).
Proof.
  intros Hs. unfold pad, isub. rewrite s32_small by inrange.
  replace (Z.to_nat size) with 0%nat by lia. cbn. f_equal. lia.
Qed.

(** Without a field width there is no padding. *)
Lemma number_nopad num base type :
  0 <= num < 2 ^ 64 -> 8 <= base <= 16 ->
  number num base (-1) (-1) type =
    sign_of num type ++ prefix_of base type ++ magnitude (abs_of num type) base (Z.land type SMALL).
Proof.
  intros Hn Hb. unfold number. rewrite number_sign_left.
  pose proof (number_sign_size num (-1) type ltac:(lia)) as Hsg.
  destruct (number_sign num (-1) type) as [[sign abs] size']. destruct Hsg as (Hsign & -> & ->).
  rewrite <- Hsign. fold (magnitude (abs_of num type) base (Z.land type SMALL)).
  assert (Hl : Z.of_nat (length (sign_of num type)) <= 1)
    by (rewrite Hsign; case_match; cbn; lia).
  set (n := Z.of_nat (length (if abs_of num type =? 0 then _ else _))).
  assert (Hn0 : 0 <= n <= 64).
  { split; [lia|]. unfold n.
    pose proof (number_digits_length 64 (abs_of num type) base (Z.land type SMALL)).
    destruct (abs_of num type =? 0); [cbn [length]; lia|lia]. }
  destruct (Z.ltb_spec (-1) n); [|lia].
  fold (prefix_of base type).
  set (sz := (_ - n)%int). 
  assert (Hsz : -100 <= sz <= 0).
  { unfold sz, isub. clear Hsign. repeat case_match; rewrite ?(s32_small (-1 - Z.of_nat (length (sign_of num type)) - 1)) by inrange;
      rewrite ?(s32_small (-1 - Z.of_nat (length (sign_of num type)) - 1 - 1)) by inrange;
      rewrite s32_small by inrange; lia. }
  clearbody sz. rewrite Z.sub_diag.
  set (ty := if truth (Z.land type LEFT) then _ else type).
  assert (Hp : forall c s0, -1000 <= s0 <= 0 -> pad s0 c = ([], s0 - 1)).
  { intros c s0 Hs0. apply pad_nonpos. lia. }
  destruct (negb (truth (Z.land ty (ZEROPAD + LEFT)))); rewrite ?(Hp _ sz) by lia;
    (destruct (negb (truth (Z.land ty LEFT))); rewrite ?Hp by lia); rewrite ?Hp by lia; cbn;
    rewrite ?app_nil_r; done.
Qed.

Example ex1 : pp_sprintf (str "%s, %s %d, %d, %02d:%02d:%02d")
  [VStr (Some (str "Thu")); VStr (Some (str "Jan")); VInt 1; VInt 1970; VInt 0; VInt 7; VInt 59]
  = Some (str "Thu, Jan 1, 1970, 00:07:59").
Proof. reflexivity. Qed.
Example ex2 : pp_sprintf (str "[%-5d|%+d|%#x|%08X|%.3d|%lld|%5s|%c|%%|%q")
  [VInt (-42); VInt 7; VInt 255; VInt 48879; VInt 5; VLL (-1234567890123); VStr (Some (str "ab")); VInt 65]
  = Some (str "[-42  |+7|0xff|0000BEEF|005|-1234567890123|   ab|A|%|%q").
Proof. reflexivity. Qed.
End Full.

Module Xint.

Definition hex : list Z := str "0123456789abcdef".

(** [number], the digit loop: [tmp] from position [i] on, most significant
    digit first. *)
Fixpoint number_digits (i : nat) (value base : Z) (tmp : list Z) : list Z :=
  match i with
  | O => tmp
  | S i => if truth value
           then number_digits i (value / u32 base) base (aget 0 hex (value mod u32 base) :: tmp)
           else tmp
  end.

(** [number]; [None] when the field does not fit the 16 bytes of [tmp]. *)
Definition number (value base lead wid : Z) : option (list Z) :=
  let wid := if wid =? 0 then 1 else wid in
  let negative := (s32 value <? 0) && (base =? 10) in
  let value := if negative then u32 (- value) else value in
  let tmp := number_digits 16 value base [] in
  let tmp := match tmp with [] => [chr "0"] | _ => tmp end in
  let '(tmp, negative) := if negative && (lead =? chr " ") then (chr "-" :: tmp, false)
                          else (tmp, negative) in
  let tmp := replicate (Z.to_nat (wid - b2z negative) - length tmp) lead ++ tmp in
  let tmp := if negative then chr "-" :: tmp else tmp in
  if Z.of_nat (length tmp) <=? 16 then Some tmp else None.

(** [pp_vsprintf], from [repeat] on: the output of one conversion, the rest of
    the format and the arguments; an empty format ends the whole call. *)
Fixpoint convert (fmt : list Z) (base lead wid : Z) (args : list va)
    : option (list Z * list Z * list va) :=
  match fmt with
  | [] => Some ([], [], args)
  | c :: fmt =>
      let digit (base : Z) (args : list va) :=
        if is_digit c then convert fmt base lead (wid * 10 + (c - chr "0"))%int args
        else convert fmt base lead wid args in
      let zero (base : Z) (args : list va) :=
        if wid =? 0 then convert fmt base (chr "0") wid args else digit base args in
      let num (base : Z) :=
        match args with
        | VInt v :: args => out ← number (u32 v) base lead wid; Some (out, fmt, args)
        | _ => None
        end in
      if c =? chr "*" then
        match args with VInt b :: args => zero (s32 b) args | _ => None end
      else if c =? chr "0" then zero base args
      else if c =? chr "c" then
        match args with VInt v :: args => Some ([u8 v], fmt, args) | _ => None end
      else if c =? chr "s" then
        match args with VStr (Some s) :: args => Some (s, fmt, args) | _ => None end
      else if c =? chr "n" then Some ([], fmt, args)
      else if c =? chr "%" then Some ([chr "%"], fmt, args)
      else if (c =? chr "p") || (c =? chr "x") || (c =? chr "X") then num 16
      else if c =? chr "o" then num (if base =? 10 then 8 else base)
      else if (c =? chr "d") || (c =? chr "i") || (c =? chr "u") then num base
      else digit base args
  end.

(** [pp_vsprintf] *)
Fixpoint vsprintf_loop (fuel : nat) (fmt : list Z) (args : list va) : option (list Z) :=
  match fuel with
  | O => None
  | S fuel =>
      match fmt with
      | [] => Some []
      | c :: fmt =>
          if negb (c =? chr "%") then (fun out => c :: out) <$> vsprintf_loop fuel fmt args
          else
            '(out, fmt, args) ← convert fmt 10 (chr " ") 0 args;
            (fun rest => out ++ rest) <$> vsprintf_loop fuel fmt args
      end
  end.

Definition pp_sprintf (fmt : list Z) (args : list va) : option (list Z) :=
  vsprintf_loop (S (length fmt)) fmt args.

Example ex3 : pp_sprintf (str "%s=%d %04x %5d %05d%%") 
  [VStr (Some (str "v")); VInt (-12); VInt 255; VInt (-7); VInt (-7)]
  = Some (str "v=-12 00ff    -7 -0007%").
Proof. reflexivity. Qed.
End Xint.
