(* ===== verification/Util.v ===== *)
(** lib/util.c: the calendar, the parsers of numbers and MAC addresses and the
    timeouts; [within_range] of include/util.h. *)
From Stdlib Require Import ZArith Lia.
From stdpp Require Import base numbers option list.
From S2P Require Import Prelude SpllHw Printf.

(** ** Calendar *)
Definition EPOCH_YR : Z := 1970.
Definition SECS_DAY : Z := 24 * 60 * 60.
Definition LEAPYEAR (year : Z) : bool := Z.rem year 4 =? 0.
Definition YEARSIZE (year : Z) : Z := if LEAPYEAR year then 366 else 365.
Definition days_tab : list (list Z) :=
  [str "Sun"; str "Mon"; str "Tue"; str "Wed"; str "Thu"; str "Fri"; str "Sat"].
Definition months_tab : list (list Z) :=
  [str "Jan"; str "Feb"; str "Mar"; str "Apr"; str "May"; str "Jun"; str "Jul"; str "Aug";
   str "Sep"; str "Oct"; str "Nov"; str "Dec"].
Definition ytab (leap : bool) : list Z :=
  if leap then [31; 29; 31; 30; 31; 30; 31; 31; 30; 31; 30; 31]
  else [31; 28; 31; 30; 31; 30; 31; 31; 30; 31; 30; 31].

(** struct time_m *)
Record time_m := mk_time {
  tm_sec : Z; tm_min : Z; tm_hour : Z; tm_wday : Z; tm_mday : Z; tm_mon : Z; tm_year : Z }.

(** [while (dayno >= YEARSIZE(year)) ...] *)
Fixpoint year_loop (fuel : nat) (dayno year : Z) : Z * Z :=
  match fuel with
  | O => (dayno, year)
  | S fuel => if YEARSIZE year <=? dayno
              then year_loop fuel (dayno - YEARSIZE year)%uint (year + 1)%int
              else (dayno, year)
  end.

(** [while (dayno >= _ytab[LEAPYEAR(year)][t.tm_mon]) ...] *)
Fixpoint month_loop (fuel : nat) (leap : bool) (dayno mon : Z) : Z * Z :=
  match fuel with
  | O => (dayno, mon)
  | S fuel => let d := aget 0 (ytab leap) mon in
              if d <=? dayno then month_loop fuel leap (dayno - d)%uint (mon + 1)%uint
              else (dayno, mon)
  end.

(** The first half of [format_time], shared by [format_time_int]: the broken
    down time, the day of the year and the second of the day.  The years
    1970 to 2106 take 137 rounds, the months 12. *)
Definition break_time (sec : Z) : time_m * Z * Z :=
  let dayclock := u32 sec mod SECS_DAY in
  let dayno := u32 sec / SECS_DAY in
  let '(diy, year) := year_loop 140 dayno EPOCH_YR in
  let '(rest, mon) := month_loop 12 (LEAPYEAR year) diy 0 in
  (mk_time (dayclock mod 60) ((dayclock mod 3600) / 60) (dayclock / 3600)
     ((dayno + 4) mod 7) (rest + 1)%uint mon year, diy, dayclock).

Definition TIME_FORMAT_LEGACY : Z := 0.
Definition TIME_FORMAT_SYSLOG : Z := 1.
Definition TIME_FORMAT_SORTED : Z := 2.

(** [format_time]: the contents of the static buffer of 32 bytes. *)
Definition format_time (sec format : Z) : option (list Z) :=
  let '(t, _, _) := break_time sec in
  if format =? TIME_FORMAT_SYSLOG then
    Full.pp_sprintf (str "%s %2d %02d:%02d:%02d")
      [VStr (months_tab !! Z.to_nat (tm_mon t)); VInt (tm_mday t); VInt (tm_hour t);
       VInt (tm_min t); VInt (tm_sec t)]
  else if format =? TIME_FORMAT_SORTED then
    Full.pp_sprintf (str "%4d-%02d-%02d-%02d:%02d:%02d")
      [VInt (tm_year t); VInt (tm_mon t + 1); VInt (tm_mday t); VInt (tm_hour t);
       VInt (tm_min t); VInt (tm_sec t)]
  else
    Full.pp_sprintf (str "%s, %s %d, %d, %02d:%02d:%02d")
      [VStr (days_tab !! Z.to_nat (tm_wday t)); VStr (months_tab !! Z.to_nat (tm_mon t));
       VInt (tm_mday t); VInt (tm_year t); VInt (tm_hour t); VInt (tm_min t); VInt (tm_sec t)].

(** [format_time_int]: year, month, day, hour, minute, second, second of the
    day and day of the year. *)
Definition format_time_int (sec_in : Z) : Z * Z * Z * Z * Z * Z * Z * Z :=
  let '(t, diy, dayclock) := break_time sec_in in
  (tm_year t, tm_mon t + 1, tm_mday t, tm_hour t, tm_min t, tm_sec t, dayclock, diy).

Example date1 : format_time 1700000000 0 = Some (str "Tue, Nov 14, 2023, 22:13:20").
Proof. reflexivity. Qed.
Example date2 : format_time 1709164800 2 = Some (str "2024-02-29-00:00:00").
Proof. reflexivity. Qed.

(** ** Timeouts *)
Record timeout_t := mk_tmo { tmo_start_tics : Z; tmo_timeout : Z }.

Section timeouts.
Context {W : Type} `{!SpllHW W}.
(** [tmo_init], [tmo_restart] and [tmo_expired] *)
Definition tmo_init (milliseconds : Z) : M W timeout_t :=
  let! now := timer_get_tics in ret (mk_tmo now milliseconds).
Definition tmo_restart (tmo : timeout_t) : M W timeout_t :=
  let! now := timer_get_tics in ret (mk_tmo now (tmo_timeout tmo)).
Definition tmo_expired (tmo : timeout_t) : M W bool :=
  let! now := timer_get_tics in ret (tmo_timeout tmo <? (now - tmo_start_tics tmo)%uint).
End timeouts.

(** ** Parsers

    A [const char *] argument that may be NULL is an option. *)

(** The value of a hexadecimal digit, when it is one. *)
Definition hex_digit (c : Z) : option Z :=
  if (chr "0" <=? c) && (c <=? chr "9") then Some (c - chr "0")
  else if (chr "A" <=? c) && (c <=? chr "F") then Some (c - chr "A" + 10)
  else if (chr "a" <=? c) && (c <=? chr "f") then Some (c - chr "a" + 10)
  else None.

(** [fromhex64], the loop. *)
Fixpoint hex_loop (s : list Z) (o : Z) : Z * list Z :=
  match s with
  | [] => (o, [])
  | c :: s' => match hex_digit c with
               | Some d => hex_loop s' (s64 (s64 (Z.shiftl o 4) + d))
               | None => (o, s)
               end
  end.

(** [fromhex64]: the value and the returned pointer. *)
Definition fromhex64 (hex : option (list Z)) : Z * option (list Z) :=
  match hex with
  | None => (0, None)
  | Some s =>
      let '(sign, s) := if hd0 s =? chr "-" then (-1, tail s) else (1, s) in
      let '(o, s) := hex_loop s 0 in
      (s64 (o * sign), Some s)
  end.

(** [fromhex] *)
Definition fromhex (hex : option (list Z)) : Z * option (list Z) :=
  let '(v64, ret) := fromhex64 hex in (s32 v64, ret).

(** [fromdec], the loop. *)
Fixpoint dec_loop (s : list Z) (o : Z) : Z * list Z :=
  match s with
  | [] => (o, [])
  | c :: s' => if (chr "0" <=? c) && (c <=? chr "9")
               then dec_loop s' (o * 10 + (c - chr "0"))%int
               else (o, s)
  end.

(** [fromdec] *)
Definition fromdec (dec : option (list Z)) : Z * option (list Z) :=
  match dec with
  | None => (0, None)
  | Some s =>
      let '(sign, s) := if hd0 s =? chr "-" then (true, tail s) else (false, s) in
      let '(o, s) := dec_loop s 0 in
      (if sign then (- o)%int else o, Some s)
  end.

(** [decode_mac]: the six bytes. *)
Fixpoint decode_mac_loop (n : nat) (s : list Z) : list Z :=
  match n with
  | O => []
  | S n =>
      let '(x, r) := fromhex (Some s) in
      let s := default [] r in
      u8 x :: decode_mac_loop n (if hd0 s =? chr ":" then tail s else s)
  end.
Definition decode_mac (s : list Z) : list Z := decode_mac_loop 6 s.

(** [atoi] *)
Definition atoi (s : list Z) : Z := (fromdec (Some s)).1.

(** ** [within_range] *)

(** [while (x >= wrap) x -= wrap;] and [while (x < 0) x += wrap;] *)
Fixpoint down_loop (fuel : nat) (x wrap : Z) : Z :=
  match fuel with
  | O => x
  | S fuel => if wrap <=? x then down_loop fuel (x - wrap)%int wrap else x
  end.
Fixpoint up_loop (fuel : nat) (x wrap : Z) : Z :=
  match fuel with
  | O => x
  | S fuel => if x <? 0 then up_loop fuel (x + wrap)%int wrap else x
  end.
Definition loop_fuel (x : Z) : nat := S (Z.to_nat (Z.abs x)).

Definition within_range (x minval maxval wrap : Z) : bool :=
  let maxval := down_loop (loop_fuel maxval) maxval wrap in
  let maxval := up_loop (loop_fuel maxval) maxval wrap in
  let minval := down_loop (loop_fuel minval) minval wrap in
  let minval := up_loop (loop_fuel minval) minval wrap in
  let x := up_loop (loop_fuel x) x wrap in
  let x := down_loop (loop_fuel x) x wrap in
  if minval <? maxval then (minval <=? x) && (x <=? maxval)
  else (minval <=? x) || (x <=? maxval).

(** ** The calendar is the Gregorian one *)
Definition gregorian_leap (y : Z) : bool :=
  (y mod 4 =? 0) && (negb (y mod 100 =? 0) || (y mod 400 =? 0)).
Definition month_days (y m : Z) : Z := aget 0 (ytab (gregorian_leap y)) (m - 1).
(** Days of the months of the year before month [m]. *)
Definition days_before_month (leap : bool) (m : Z) : Z :=
  foldr Z.add 0 (take (Z.to_nat (m - 1)) (ytab leap)).
(** Days from 1970-01-01 to the given date: 365 per year and one per leap year,
    by the Gregorian rule. *)
Definition gregorian_days (y m d : Z) : Z :=
  365 * (y - 1970) + ((y - 1) / 4 - (y - 1) / 100 + (y - 1) / 400 - 477)
  + days_before_month (gregorian_leap y) m + (d - 1).

(** Days before a year by the code's rule. *)
Definition code_days (y : Z) : Z := 365 * (y - 1970) + (y - 1969) / 4.

Lemma code_days_succ y : 1970 <= y -> code_days (y + 1) = code_days y + YEARSIZE y.
Proof.
  intros Hy. unfold code_days, YEARSIZE, LEAPYEAR.
  destruct (Z.eqb_spec (Z.rem y 4) 0); Z.to_euclidean_division_equations; lia.
Qed.

Lemma year_loop_spec fuel dayno year :
  1970 <= year -> year + Z.of_nat fuel < 100000 -> 0 <= dayno < 100000 ->
  dayno < 365 * Z.of_nat fuel ->
  let '(d, y) := year_loop fuel dayno year in
  year <= y < year + Z.of_nat fuel /\ 0 <= d < YEARSIZE y /\
  code_days y + d = code_days year + dayno.
Proof.
  revert dayno year. induction fuel as [|fuel IH]; intros dayno year Hy Hyf Hd Hf; [lia|].
  cbn [year_loop]. assert (Hys : 365 <= YEARSIZE year <= 366) by (unfold YEARSIZE; case_match; lia).
  destruct (Z.leb_spec (YEARSIZE year) dayno); [|lia].
  unfold usub, iadd. rewrite u32_small, s32_small by inrange.
  specialize (IH (dayno - YEARSIZE year) (year + 1) ltac:(lia) ltac:(lia) ltac:(lia) ltac:(lia)).
  destruct (year_loop fuel (dayno - YEARSIZE year) (year + 1)) as [d y].
  rewrite code_days_succ in IH by lia. lia.
Qed.

(** The days of the months from position [m] on. *)
Definition days_after (leap : bool) (m : nat) : Z := foldr Z.add 0 (drop m (ytab leap)).

Lemma ytab_length leap : length (ytab leap) = 12%nat.
Proof. by destruct leap. Qed.
Lemma ytab_range leap m : (m < 12)%nat -> 28 <= aget 0 (ytab leap) (Z.of_nat m) <= 31.
Proof.
  intros Hm. do 12 (destruct m as [|m]; [destruct leap; vm_compute; split; discriminate|]). lia.
Qed.
Lemma days_split leap m :
  (m < 12)%nat ->
  days_after leap m = aget 0 (ytab leap) (Z.of_nat m) + days_after leap (S m) /\
  days_before_month leap (Z.of_nat (S m) + 1) =
    days_before_month leap (Z.of_nat m + 1) + aget 0 (ytab leap) (Z.of_nat m).
Proof.
  intros Hm. do 12 (destruct m as [|m]; [destruct leap; done|]). lia.
Qed.

Lemma month_loop_spec n leap d m :
  (n + m = 12)%nat -> (0 < n)%nat -> 0 <= d < days_after leap m ->
  let '(r, k) := month_loop n leap d (Z.of_nat m) in
  0 <= k < 12 /\ 0 <= r < aget 0 (ytab leap) k /\
  d + days_before_month leap (Z.of_nat m + 1) = days_before_month leap (k + 1) + r.
Proof.
  revert d m. induction n as [|n IH]; intros d m Hnm Hn Hd; [lia|]. cbn [month_loop].
  pose proof (ytab_range leap m ltac:(lia)) as Hy.
  destruct (days_split leap m ltac:(lia)) as [Ha Hb].
  destruct (Z.leb_spec (aget 0 (ytab leap) (Z.of_nat m)) d); [|lia].
  assert (Hda : days_after leap m <= 366).
  { do 12 (destruct m as [|m]; [destruct leap; vm_compute; discriminate|]). lia. }
  unfold usub, uadd. rewrite (u32_small (d - _)), (u32_small (Z.of_nat m + 1)) by inrange.
  replace (Z.of_nat m + 1) with (Z.of_nat (S m)) by lia.
  destruct n as [|n].
  { assert (m = 11)%nat as -> by lia. change (days_after leap 12) with (foldr Z.add 0 (drop 12 (ytab leap))) in Ha.
    rewrite drop_ge in Ha by (rewrite ytab_length; lia). cbn [foldr] in Ha. lia. }
  specialize (IH (d - aget 0 (ytab leap) (Z.of_nat m)) (S m) ltac:(lia) ltac:(lia) ltac:(lia)).
  destruct (month_loop (S n) leap _ _) as [r k]. replace (Z.of_nat m + 1) with (Z.of_nat (S m)) in * by lia.
  lia.
Qed.

Lemma code_days_mono y y' : 1970 <= y <= y' -> code_days y <= code_days y'.
Proof. intros H. unfold code_days. Z.to_euclidean_division_equations. lia. Qed.

(** What the common part of the two functions computes. *)
Lemma break_time_spec sec :
  let '(t, diy, dayclock) := break_time sec in
  let leap := LEAPYEAR (tm_year t) in
  dayclock = u32 sec mod 86400 /\
  tm_hour t * 3600 + tm_min t * 60 + tm_sec t = dayclock /\
  0 <= tm_sec t < 60 /\ 0 <= tm_min t < 60 /\ 0 <= tm_hour t < 24 /\
  0 <= tm_wday t < 7 /\ 0 <= tm_mon t < 12 /\
  1 <= tm_mday t <= aget 0 (ytab leap) (tm_mon t) /\ 1970 <= tm_year t <= 2106 /\
  diy = days_before_month leap (tm_mon t + 1) + (tm_mday t - 1) /\
  code_days (tm_year t) + diy = u32 sec / 86400.
Proof.
  unfold break_time, SECS_DAY. change (24 * 60 * 60) with 86400.
  pose proof (u32_range sec) as Hr. unfold is_u32 in Hr.
  set (n := u32 sec) in *. clearbody n.
  assert (Hn : 0 <= n / 86400 <= 49710) by (Z.to_euclidean_division_equations; lia).
  pose proof (Z.mod_pos_bound n 86400 ltac:(lia)) as Hc.
  pose proof (year_loop_spec 140 (n / 86400) EPOCH_YR) as Hy. unfold EPOCH_YR in *.
  destruct (year_loop 140 (n / 86400) 1970) as [diy year].
  destruct Hy as (Hy1 & Hy2 & Hy3); [lia..|].
  change (code_days 1970) with 0 in Hy3. rewrite Z.add_0_l in Hy3.
  pose proof (month_loop_spec 12 (LEAPYEAR year) diy 0 eq_refl ltac:(lia)) as Hm.
  change (Z.of_nat 0) with 0 in Hm.
  destruct (month_loop 12 (LEAPYEAR year) diy 0) as [rest mon].
  destruct Hm as (Hm1 & Hm2 & Hm3).
  { change (days_after (LEAPYEAR year) 0) with (foldr Z.add 0 (ytab (LEAPYEAR year))).
    unfold YEARSIZE in Hy2. by destruct (LEAPYEAR year). }
  change (days_before_month (LEAPYEAR year) (0 + 1)) with 0 in Hm3. rewrite Z.add_0_r in Hm3.
  assert (Hmd : aget 0 (ytab (LEAPYEAR year)) mon <= 31).
  { pose proof (ytab_range (LEAPYEAR year) (Z.to_nat mon) ltac:(lia)).
    rewrite Z2Nat.id in * by lia. lia. }
  cbn [tm_sec tm_min tm_hour tm_wday tm_mday tm_mon tm_year]. unfold uadd.
  rewrite u32_small by inrange.
  assert (Hyr : year <= 2106).
  { destruct (Z.le_gt_cases year 2106) as [|Hgt]; [done|].
    pose proof (code_days_mono 2107 year ltac:(lia)). change (code_days 2107) with 50039 in *. lia. }
  set (c := n mod 86400) in *. clearbody c.
  pose proof (Z.mod_pos_bound (n / 86400 + 4) 7 ltac:(lia)).
  split_and!; try lia; Z.to_euclidean_division_equations; lia.
Qed.

(** From 1970 to 2099 the code's leap rule is the Gregorian one. *)
Lemma leap_agree y : 1970 <= y < 2100 -> LEAPYEAR y = gregorian_leap y.
Proof.
  intros Hy. unfold LEAPYEAR, gregorian_leap. rewrite Z.rem_mod_nonneg by lia.
  destruct (Z.eqb_spec (y mod 4) 0), (Z.eqb_spec (y mod 100) 0), (Z.eqb_spec (y mod 400) 0);
    cbn; try done; exfalso; Z.to_euclidean_division_equations; lia.
Qed.
Lemma code_days_agree y : 1970 <= y < 2100 ->
  code_days y = 365 * (y - 1970) + ((y - 1) / 4 - (y - 1) / 100 + (y - 1) / 400 - 477).
Proof. intros Hy. unfold code_days. Z.to_euclidean_division_equations. lia. Qed.

(** The calendar: for every second from 1970 up to 2100-01-01,
    [format_time_int] returns the Gregorian date and the time of that second:
    a valid month, a day inside the month, and the day count and the second of
    the day recompose the argument. *)
Theorem format_time_int_gregorian sec :
  0 <= sec < 4102444800 ->
  let '(year, month, day, hour, minute, second, sbs, diy) := format_time_int sec in
  1970 <= year < 2100 /\ 1 <= month <= 12 /\ 1 <= day <= month_days year month /\
  0 <= hour < 24 /\ 0 <= minute < 60 /\ 0 <= second < 60 /\
  gregorian_days year month day * 86400 + hour * 3600 + minute * 60 + second = sec /\
  sbs = sec mod 86400 /\ diy = days_before_month (gregorian_leap year) month + day - 1.
Proof.
  intros Hs. unfold format_time_int. pose proof (break_time_spec sec) as Hb.
  destruct (break_time sec) as [[t diy] dayclock].
  rewrite (u32_small sec) in Hb by inrange.
  destruct Hb as (Hc & Htime & H1 & H2 & H3 & H4 & H5 & H6 & H7 & H8 & H9).
  assert (Hy : tm_year t < 2100).
  { destruct (Z.le_gt_cases 2100 (tm_year t)); [|done].
    pose proof (code_days_mono 2100 (tm_year t) ltac:(lia)) as Hmono.
    change (code_days 2100) with 47482 in Hmono.
    assert (0 <= diy). { rewrite H8. unfold days_before_month.
      assert (Hpos : forall l, Forall (fun x => 0 <= x) l -> 0 <= foldr Z.add 0 l).
      { induction 1; cbn; lia. }
      assert (0 <= foldr Z.add 0 (take (Z.to_nat (tm_mon t + 1 - 1)) (ytab (LEAPYEAR (tm_year t)))));
        [|lia].
      apply Hpos, Forall_take. destruct (LEAPYEAR (tm_year t)); repeat constructor; lia. }
    assert (sec / 86400 <= 47481); [|lia]. Z.to_euclidean_division_equations. lia. }
  rewrite leap_agree in * by lia.
  unfold gregorian_days, month_days. rewrite <- code_days_agree by lia.
  replace (tm_mon t + 1 - 1) with (tm_mon t) by lia.
  pose proof (Z.div_mod sec 86400 ltac:(lia)).
  split_and!; try lia.
Qed.

Lemma format_time_int_gregorian_witness :
  format_time_int 1709164800 = (2024, 2, 29, 0, 0, 0, 0, 59) /\
  1 <= 29 <= month_days 2024 2 /\ gregorian_days 2024 2 29 * 86400 + 0 * 3600 + 0 * 60 + 0 = 1709164800.
Proof.
  assert (E : format_time_int 1709164800 = (2024, 2, 29, 0, 0, 0, 0, 59)) by reflexivity.
  pose proof (format_time_int_gregorian 1709164800 ltac:(lia)) as Hs. rewrite E in Hs.
  destruct Hs as (_ & _ & Hd & _ & _ & _ & Hg & _). exact (conj E (conj Hd Hg)).
Defined.

(** ** The buffer of [format_time] *)

(** The length of a non-negative decimal field. *)
Lemma field_length v size type k :
  0 <= v < 10 ^ k -> 1 <= k -> k <= 9 -> -1 <= size <= 10 ->
  Z.land type Full.SPECIAL = 0 -> Z.land type Full.PLUS = 0 -> Z.land type Full.SPACE = 0 ->
  Z.of_nat (length (Full.number (u64 (s32 v)) 10 size (-1) type)) <= Z.max size k.
Proof.
  intros Hv Hk Hk9 Hs Ht1 Ht2 Ht3.
  assert (10 ^ k <= 10 ^ 9) by (apply Z.pow_le_mono_r; lia). change (10 ^ 9) with 1000000000 in *.
  rewrite s32_small by inrange. rewrite u64_small by lia.
  rewrite Full.number_length by lia.
  assert (Hsign : Full.sign_of v type = [] /\ Full.abs_of v type = v).
  { unfold Full.sign_of, Full.abs_of, Full.number_sign. rewrite s64_small by inrange.
    destruct (Z.ltb_spec v 0); [lia|]. rewrite Ht2, Ht3. cbn. by destruct (truth _). }
  destruct Hsign as [-> ->].
  assert (Hpfx : Full.prefix_of 10 type = []) by (unfold Full.prefix_of; by rewrite Ht1).
  rewrite Hpfx. cbn [app length].
  destruct (Full.magnitude_spec v 10 (Z.land type Full.SMALL)) as (_ & _ & _ & Hl); [lia| |lia|].
  { unfold Full.SMALL. change 32 with (2 ^ 5). rewrite land_pow2 by lia. case_match; auto. }
  specialize (Hl k ltac:(lia) ltac:(lia)). lia.
Qed.

Lemma lookup_names {A} (l : list A) i n :
  0 <= i < n -> n = Z.of_nat (length l) -> exists x, l !! Z.to_nat i = Some x /\ x ∈ l.
Proof.
  intros Hi Hn. destruct (lookup_lt_is_Some_2 l (Z.to_nat i)) as [x Hx]; [lia|].
  exists x. split; [done|]. by eapply list_elem_of_lookup_2.
Qed.

Lemma name_length s : s ∈ days_tab \/ s ∈ months_tab -> length s = 3%nat.
Proof.
  unfold days_tab, months_tab. rewrite !elem_of_cons, !elem_of_nil. intros H.
  repeat (destruct H as [H|H]; [|]); try done; try (by subst).
  all: repeat (destruct H as [H|H]); subst; done.
Qed.

(** The three formats, expanded. *)
Definition dfield (v size flags : Z) : list Z :=
  Full.number (u64 (s32 v)) 10 size (-1) (Z.lor flags Full.SIGN).

Lemma syslog_expand mon a b c d :
  Full.pp_sprintf (str "%s %2d %02d:%02d:%02d") [VStr (Some mon); VInt a; VInt b; VInt c; VInt d] =
  Some (Full.string (Some mon) (-1) (-1) 0 ++ str " " ++ dfield a 2 0 ++ str " " ++
        dfield b 2 Full.ZEROPAD ++ str ":" ++ dfield c 2 Full.ZEROPAD ++ str ":" ++
        dfield d 2 Full.ZEROPAD ++ []).
Proof. reflexivity. Qed.
Lemma sorted_expand y m a b c d :
  Full.pp_sprintf (str "%4d-%02d-%02d-%02d:%02d:%02d")
    [VInt y; VInt m; VInt a; VInt b; VInt c; VInt d] =
  Some (dfield y 4 0 ++ str "-" ++ dfield m 2 Full.ZEROPAD ++ str "-" ++
        dfield a 2 Full.ZEROPAD ++ str "-" ++ dfield b 2 Full.ZEROPAD ++ str ":" ++
        dfield c 2 Full.ZEROPAD ++ str ":" ++ dfield d 2 Full.ZEROPAD ++ []).
Proof. reflexivity. Qed.
Lemma legacy_expand day mon a y b c d :
  Full.pp_sprintf (str "%s, %s %d, %d, %02d:%02d:%02d")
    [VStr (Some day); VStr (Some mon); VInt a; VInt y; VInt b; VInt c; VInt d] =
  Some (Full.string (Some day) (-1) (-1) 0 ++ str ", " ++ Full.string (Some mon) (-1) (-1) 0 ++
        str " " ++ dfield a (-1) 0 ++ str ", " ++ dfield y (-1) 0 ++ str ", " ++
        dfield b 2 Full.ZEROPAD ++ str ":" ++ dfield c 2 Full.ZEROPAD ++ str ":" ++
        dfield d 2 Full.ZEROPAD ++ []).
Proof. reflexivity. Qed.

Lemma dfield_length v size flags k :
  0 <= v < 10 ^ k -> 1 <= k <= 9 -> -1 <= size <= 10 -> flags = 0 \/ flags = Full.ZEROPAD ->
  Z.of_nat (length (dfield v size flags)) <= Z.max size k.
Proof. intros Hv Hk Hs [->| ->]; apply field_length; done || lia. Qed.

Lemma string_plain s : length s = 3%nat -> length (Full.string (Some s) (-1) (-1) 0) = 3%nat.
Proof.
  intros Hs. unfold Full.string. change (negb (truth (Z.land 0 Full.LEFT))) with true. rewrite Hs.
  change (Z.min (Z.of_nat 3) (u32 (-1))) with 3.
  change (Full.string_pad 3 (-1)) with (@nil Z, -2). cbv iota beta.
  change (Full.string_pad 3 (-2)).1 with (@nil Z). rewrite app_nil_r. cbn [app].
  rewrite length_take. lia.
Qed.

(** No overflow of the static buffer: [format_time] succeeds for every
    64-bit second and every format, and the string with its terminator fits
    the 32 bytes of [buf]. *)
Theorem format_time_fits sec format :
  exists out, format_time sec format = Some out /\ (length out + 1 <= 32)%nat.
Proof.
  unfold format_time. pose proof (break_time_spec sec) as Hb.
  destruct (break_time sec) as [[t diy] dayclock].
  destruct Hb as (_ & _ & H1 & H2 & H3 & H4 & H5 & H6 & H7 & _).
  destruct (lookup_names months_tab (tm_mon t) 12 H5 eq_refl) as (mon & Emon & Hmon).
  destruct (lookup_names days_tab (tm_wday t) 7 H4 eq_refl) as (day & Eday & Hday).
  rewrite Emon, Eday.
  pose proof (string_plain mon (name_length mon (or_intror Hmon))) as Lmon.
  pose proof (string_plain day (name_length day (or_introl Hday))) as Lday.
  assert (Hd : tm_mday t <= 31).
  { pose proof (ytab_range (LEAPYEAR (tm_year t)) (Z.to_nat (tm_mon t)) ltac:(lia)).
    rewrite Z2Nat.id in * by lia. lia. }
  assert (F2 : forall v fl, 0 <= v < 100 -> fl = 0 \/ fl = Full.ZEROPAD ->
    (length (dfield v 2 fl) <= 2)%nat).
  { intros v fl Hv Hfl. pose proof (dfield_length v 2 fl 2 Hv ltac:(lia) ltac:(lia) Hfl). lia. }
  assert (Fd : (length (dfield (tm_mday t) (-1) 0) <= 2)%nat).
  { pose proof (dfield_length (tm_mday t) (-1) 0 2 ltac:(lia) ltac:(lia) ltac:(lia) (or_introl eq_refl)). lia. }
  assert (Fy : forall s, s = 4 \/ s = -1 -> (length (dfield (tm_year t) s 0) <= 4)%nat).
  { intros s Hs. pose proof (dfield_length (tm_year t) s 0 4 ltac:(lia) ltac:(lia) ltac:(lia) (or_introl eq_refl)). lia. }
  pose proof (F2 (tm_hour t) Full.ZEROPAD ltac:(lia) ltac:(auto)).
  pose proof (F2 (tm_min t) Full.ZEROPAD ltac:(lia) ltac:(auto)).
  pose proof (F2 (tm_sec t) Full.ZEROPAD ltac:(lia) ltac:(auto)).
  pose proof (F2 (tm_mday t) Full.ZEROPAD ltac:(lia) ltac:(auto)).
  pose proof (F2 (tm_mday t) 0 ltac:(lia) ltac:(auto)).
  pose proof (F2 (tm_mon t + 1) Full.ZEROPAD ltac:(lia) ltac:(auto)).
  pose proof (Fy 4 ltac:(auto)). pose proof (Fy (-1) ltac:(auto)).
  destruct (format =? TIME_FORMAT_SYSLOG); [|destruct (format =? TIME_FORMAT_SORTED)].
  - rewrite syslog_expand. eexists. split; [reflexivity|].
    rewrite !length_app. cbn [str length]. change (length (str " ")) with 1%nat.
    change (length (str ":")) with 1%nat. change (@length Z []) with 0%nat. lia.
  - rewrite sorted_expand. eexists. split; [reflexivity|].
    rewrite !length_app. change (length (str "-")) with 1%nat.
    change (length (str ":")) with 1%nat. change (@length Z []) with 0%nat. lia.
  - rewrite legacy_expand. eexists. split; [reflexivity|].
    rewrite !length_app. change (length (str " ")) with 1%nat. change (length (str ", ")) with 2%nat.
    change (length (str ":")) with 1%nat. change (@length Z []) with 0%nat. lia.
Qed.

(** ** Round trips of the parsers and the formatter *)

(** Evaluating digits commutes with the machine's wrap-around. *)
Lemma digits_fold_cong (base M : Z) cs a k :
  exists k', foldl (fun a c => a * base + Full.digit_val c) (a + M * k) cs =
             foldl (fun a c => a * base + Full.digit_val c) a cs + M * k'.
Proof.
  revert a k. induction cs as [|c cs IH]; intros a k; [by exists k|]. cbn [foldl].
  destruct (IH (a * base + Full.digit_val c) (k * base)) as [k' Hk]. exists k'. rewrite <- Hk.
  f_equal. ring.
Qed.

(** A decimal digit character. *)
Definition dec_char (c : Z) : Prop := 48 <= c <= 57.

Lemma dec_loop_val cs rest o :
  Forall dec_char cs -> is_digit (hd0 rest) = false ->
  dec_loop (cs ++ rest) (s32 o) =
    (s32 (foldl (fun a c => a * 10 + Full.digit_val c) o cs), rest).
Proof.
  intros Hcs Hrest. revert o. induction Hcs as [|c cs Hc _ IH]; intros o.
  - cbn [app foldl]. destruct rest as [|c rest]; [done|]. cbn [dec_loop].
    unfold hd0 in Hrest. cbn in Hrest. unfold is_digit in Hrest. by rewrite Hrest.
  - cbn [app dec_loop foldl]. unfold dec_char in Hc.
    change (chr "0") with 48. change (chr "9") with 57.
    destruct (Z.leb_spec 48 c), (Z.leb_spec c 57); try lia. cbn [andb].
    rewrite <- IH. f_equal. unfold iadd, imul, isub, Full.digit_val.
    destruct (Z.ltb_spec c 58); [|lia]. rewrite (s32_small (c - 48)) by inrange.
    destruct (s32_cong o) as [k Hk]. rewrite Hk.
    destruct (s32_cong ((o + 4294967296 * k) * 10)) as [j Hj]. rewrite Hj.
    replace ((o + 4294967296 * k) * 10 + 4294967296 * j + (c - 48))
      with (o * 10 + (c - 48) + 4294967296 * (k * 10 + j)) by ring.
    apply s32_add_mult.
Qed.

Lemma magnitude_dec v :
  0 <= v < 2 ^ 64 -> Forall dec_char (Full.magnitude v 10 0) /\
  Full.digits_val 10 (Full.magnitude v 10 0) = v /\ Full.magnitude v 10 0 <> [].
Proof.
  intros Hv. destruct (Full.magnitude_spec v 10 0 ltac:(lia) (or_introl eq_refl) Hv)
    as (Hval & Hall & Hlen & _).
  split_and!; [|done|by destruct (Full.magnitude v 10 0); cbn in Hlen; [lia|]].
  eapply Forall_impl; [exact Hall|]. intros c (r & Hr & ->).
  destruct (Full.digit_of_val r 0 ltac:(lia) (or_introl eq_refl)) as (_ & Hd & _).
  rewrite Hd by lia. unfold dec_char. lia.
Qed.

Lemma print_d v : Full.pp_sprintf (str "%d") [VInt v] = Some (dfield v (-1) 0 ++ []).
Proof. reflexivity. Qed.

Lemma dfield_plain n : is_s32 n ->
  dfield n (-1) 0 = (if n <? 0 then [chr "-"] else []) ++ Full.magnitude (Z.abs n) 10 0.
Proof.
  intros Hn. unfold dfield. rewrite s32_small by done.
  assert (Hu : 0 <= u64 n < 2 ^ 64) by (unfold u64; apply Z.mod_pos_bound; lia).
  rewrite Full.number_nopad by lia. change (Z.land (Z.lor 0 Full.SIGN) Full.SMALL) with 0.
  change (Full.prefix_of 10 (Z.lor 0 Full.SIGN)) with (@nil Z). cbn [app].
  unfold Full.sign_of, Full.abs_of, Full.number_sign.
  change (truth (Z.land (Z.lor 0 Full.SIGN) Full.SIGN)) with true.
  change (truth (Z.land (Z.lor 0 Full.SIGN) Full.PLUS)) with false.
  change (truth (Z.land (Z.lor 0 Full.SIGN) Full.SPACE)) with false. cbv iota.
  assert (Hs : s64 (u64 n) = n).
  { unfold s64, u64, is_s32 in *. rewrite Zplus_mod_idemp_l. rewrite Z.mod_small; lia. }
  rewrite Hs. unfold is_s32 in Hn. destruct (Z.ltb_spec n 0).
  - cbn [fst snd truth]. change (truth (chr "-")) with true. cbv iota.
    rewrite u64_small by lia. by replace (- n) with (Z.abs n) by lia.
  - cbn [fst snd]. change (truth 0) with false. cbv iota. rewrite u64_small by lia.
    by replace (Z.abs n) with n by lia.
Qed.

(** Decimal round trip: what ["%d"] prints of any [int], [fromdec] (and
    [atoi]) reads back, the whole string being consumed, including INT_MIN
    whose magnitude wraps around while it is read. *)
Theorem dec_roundtrip n :
  is_s32 n ->
  exists out, Full.pp_sprintf (str "%d") [VInt n] = Some out /\
    fromdec (Some out) = (n, Some []) /\ atoi out = n.
Proof.
  intros Hn. rewrite print_d, app_nil_r. eexists. split; [reflexivity|].
  assert (Hf : fromdec (Some (dfield n (-1) 0)) = (n, Some [])).
  { rewrite dfield_plain by done. unfold is_s32 in Hn.
    destruct (magnitude_dec (Z.abs n) ltac:(lia)) as (Hdig & Hval & Hne).
    unfold fromdec. destruct (Z.ltb_spec n 0).
    - cbn [app]. change (hd0 (chr "-" :: _)) with (chr "-"). rewrite Z.eqb_refl. cbn [tail].
      pose proof (dec_loop_val (Full.magnitude (Z.abs n) 10 0) [] 0 Hdig eq_refl) as Hl.
      rewrite app_nil_r in Hl. change (s32 0) with 0 in Hl. rewrite Hl.
      fold (Full.digits_val 10 (Full.magnitude (Z.abs n) 10 0)). rewrite Hval. f_equal.
      unfold ineg. destruct (s32_cong (Z.abs n)) as [k Hk]. rewrite Hk.
      replace (- (Z.abs n + 4294967296 * k)) with (n + 4294967296 * (- k)) by lia.
      rewrite s32_add_mult. by apply s32_small.
    - cbn [app]. destruct (Full.magnitude (Z.abs n) 10 0) as [|c cs] eqn:Ecs; [done|].
      apply Forall_cons in Hdig as Hc. destruct Hc as [Hc _]. unfold dec_char in Hc.
      change (hd0 (c :: cs)) with c. change (chr "-") with 45.
      destruct (Z.eqb_spec c 45); [lia|].
      pose proof (dec_loop_val (c :: cs) [] 0 Hdig eq_refl) as Hl.
      rewrite app_nil_r in Hl. change (s32 0) with 0 in Hl. rewrite Hl.
      fold (Full.digits_val 10 (c :: cs)). rewrite Hval. f_equal.
      replace (Z.abs n) with n by lia. by apply s32_small. }
  split; [exact Hf|]. unfold atoi. by rewrite Hf.
Qed.

Lemma dec_roundtrip_witness :
  exists out, Full.pp_sprintf (str "%d") [VInt (-2147483648)] = Some out /\
    fromdec (Some out) = (-2147483648, Some []) /\ atoi out = -2147483648.
Proof. apply (dec_roundtrip (-2147483648)). unfold is_s32. lia. Defined.

(** *** Hexadecimal *)
Lemma print_mac b0 b1 b2 b3 b4 b5 :
  let h b := Full.number (u64 (u32 b)) 16 2 (-1) (Z.lor Full.ZEROPAD Full.SMALL) in
  Full.pp_sprintf (str "%02x:%02x:%02x:%02x:%02x:%02x")
    [VInt b0; VInt b1; VInt b2; VInt b3; VInt b4; VInt b5] =
  Some (h b0 ++ str ":" ++ h b1 ++ str ":" ++ h b2 ++ str ":" ++ h b3 ++ str ":" ++
        h b4 ++ str ":" ++ h b5 ++ []).
Proof. reflexivity. Qed.

(** A byte is printed as two hexadecimal digits. *)
Definition hex_pair (b : Z) : list Z :=
  [aget 0 (str "0123456789abcdef") (b / 16); aget 0 (str "0123456789abcdef") (b mod 16)].

Lemma print_byte b : is_byte b ->
  Full.number (u64 (u32 b)) 16 2 (-1) (Z.lor Full.ZEROPAD Full.SMALL) = hex_pair b.
Proof.
  intros Hb.
  assert (Hall : forall b, 0 <= b < 256 ->
    bool_decide (Full.number (u64 (u32 b)) 16 2 (-1) (Z.lor Full.ZEROPAD Full.SMALL) = hex_pair b)
    = true) by (apply range_check; vm_compute; reflexivity).
  exact (bool_decide_eq_true_1 _ (Hall b Hb)).
Qed.

(** The digits of the alphabet are read back, and none is a minus sign. *)
Lemma hex_digit_alphabet d : 0 <= d < 16 ->
  hex_digit (aget 0 (str "0123456789abcdef") d) = Some d /\
  aget 0 (str "0123456789abcdef") d <> chr "-".
Proof.
  intros Hd.
  assert (Hall : forall d, 0 <= d < 16 ->
    bool_decide (hex_digit (aget 0 (str "0123456789abcdef") d) = Some d /\
      aget 0 (str "0123456789abcdef") d <> chr "-") = true)
    by (apply range_check; vm_compute; reflexivity).
  exact (bool_decide_eq_true_1 _ (Hall d Hd)).
Qed.

Lemma byte_nibbles b : is_byte b -> 0 <= b / 16 < 16 /\ 0 <= b mod 16 < 16.
Proof.
  intros Hb. unfold is_byte in Hb.
  split; [split; [apply Z.div_pos; lia|apply Z.div_lt_upper_bound; lia]|].
  apply Z.mod_pos_bound. lia.
Qed.

Lemma parse_pair b rest : is_byte b ->
  hex_loop (hex_pair b ++ rest) 0 = hex_loop rest b.
Proof.
  intros Hb. unfold hex_pair. cbn [app hex_loop].
  destruct (byte_nibbles b Hb) as [Hh Hl].
  rewrite (proj1 (hex_digit_alphabet _ Hh)), (proj1 (hex_digit_alphabet _ Hl)).
  unfold is_byte in Hb.
  f_equal. change (s64 (Z.shiftl 0 4)) with 0. rewrite Z.add_0_l.
  rewrite (s64_small (b / 16)) by inrange. rewrite Z.shiftl_mul_pow2 by lia.
  change (2 ^ 4) with 16. rewrite (s64_small (b / 16 * 16)) by inrange.
  pose proof (Z.div_mod b 16 ltac:(lia)). rewrite s64_small by inrange. lia.
Qed.

(** One byte of [decode_mac]. *)
Lemma decode_mac_step n b rest : is_byte b -> hex_digit (hd0 rest) = None ->
  decode_mac_loop (S n) (hex_pair b ++ rest) =
  b :: decode_mac_loop n (if hd0 rest =? chr ":" then tail rest else rest).
Proof.
  intros Hb Hr. cbn [decode_mac_loop]. unfold fromhex, fromhex64.
  destruct (byte_nibbles b Hb) as [Hh _].
  assert (Hneg : (hd0 (hex_pair b ++ rest) =? chr "-") = false).
  { apply Z.eqb_neq. exact (proj2 (hex_digit_alphabet _ Hh)). }
  rewrite Hneg, parse_pair by done.
  assert (Hstop : hex_loop rest b = (b, rest)).
  { destruct rest as [|c rest]; [done|]. cbn [hex_loop]. cbn in Hr. by rewrite Hr. }
  rewrite Hstop, Z.mul_1_r. unfold is_byte in Hb. rewrite s64_small, s32_small, u8_small by inrange.
  done.
Qed.

(** MAC addresses: [decode_mac] reads back the six bytes of a MAC address
    printed in the usual notation, for every address. *)
Theorem decode_mac_roundtrip b0 b1 b2 b3 b4 b5 :
  Forall is_byte [b0; b1; b2; b3; b4; b5] ->
  exists out, Full.pp_sprintf (str "%02x:%02x:%02x:%02x:%02x:%02x")
      [VInt b0; VInt b1; VInt b2; VInt b3; VInt b4; VInt b5] = Some out /\
    decode_mac out = [b0; b1; b2; b3; b4; b5].
Proof.
  intros Hb. repeat (apply Forall_cons in Hb as [? Hb]).
  rewrite print_mac. cbv zeta. rewrite !print_byte by done. eexists. split; [reflexivity|].
  unfold decode_mac.
  do 5 (rewrite decode_mac_step by done; f_equal;
        lazymatch goal with |- decode_mac_loop _ (if _ then tail (_ ++ ?r) else _) = _ =>
          lazymatch goal with |- decode_mac_loop ?n _ = ?o => change (decode_mac_loop n r = o) end
        end).
  by rewrite decode_mac_step by done.
Qed.

Lemma decode_mac_roundtrip_witness : exists out,
  Full.pp_sprintf (str "%02x:%02x:%02x:%02x:%02x:%02x")
    [VInt 8; VInt 0; VInt 48; VInt 171; VInt 205; VInt 239] = Some out /\
  decode_mac out = [8; 0; 48; 171; 205; 239].
Proof.
  apply (decode_mac_roundtrip 8 0 48 171 205 239). repeat constructor; done.
Defined.

(** ** [within_range] is membership in a circular interval *)
Lemma down_loop_mod fuel x wrap : 0 < wrap < 2 ^ 31 -> 0 <= x < 2 ^ 31 -> x < Z.of_nat fuel ->
  down_loop fuel x wrap = x mod wrap.
Proof.
  intros Hw. revert x. induction fuel as [|fuel IH]; intros x Hx Hf; [lia|]. cbn [down_loop].
  destruct (Z.leb_spec wrap x); [|by rewrite Z.mod_small by lia].
  unfold isub. rewrite s32_small by inrange. rewrite IH by lia.
  rewrite <- (Z_mod_plus_full (x - wrap) 1 wrap). f_equal. lia.
Qed.

Lemma up_loop_mod fuel x wrap : 0 < wrap < 2 ^ 31 -> - 2 ^ 31 <= x < wrap -> - x < Z.of_nat fuel ->
  (0 < fuel)%nat -> up_loop fuel x wrap = x mod wrap.
Proof.
  intros Hw. revert x. induction fuel as [|fuel IH]; intros x Hx Hf Hp; [lia|]. cbn [up_loop].
  destruct (Z.ltb_spec x 0); [|by rewrite Z.mod_small by lia].
  unfold iadd. rewrite s32_small by inrange. rewrite IH by lia.
  rewrite <- (Z_mod_plus_full x 1 wrap). f_equal. lia.
Qed.

Lemma down_loop_id fuel x wrap : x < wrap -> down_loop fuel x wrap = x.
Proof. intros Hx. destruct fuel; [done|]. cbn. by destruct (Z.leb_spec wrap x); [lia|]. Qed.
Lemma up_loop_id fuel x wrap : 0 <= x -> up_loop fuel x wrap = x.
Proof. intros Hx. destruct fuel; [done|]. cbn. by destruct (Z.ltb_spec x 0); [lia|]. Qed.

Lemma down_up_mod x wrap : 0 < wrap < 2 ^ 31 -> - 2 ^ 31 <= x < 2 ^ 31 ->
  let y := down_loop (loop_fuel x) x wrap in up_loop (loop_fuel y) y wrap = x mod wrap.
Proof.
  intros Hw Hx. cbv zeta. pose proof (Z.mod_pos_bound x wrap ltac:(lia)).
  destruct (Z.lt_ge_cases x 0).
  - rewrite (down_loop_id (loop_fuel x)) by lia. apply up_loop_mod; unfold loop_fuel; lia.
  - rewrite (down_loop_mod (loop_fuel x)) by (unfold loop_fuel; lia). by rewrite up_loop_id by lia.
Qed.
Lemma up_down_mod x wrap : 0 < wrap < 2 ^ 31 -> - 2 ^ 31 <= x < 2 ^ 31 ->
  let y := up_loop (loop_fuel x) x wrap in down_loop (loop_fuel y) y wrap = x mod wrap.
Proof.
  intros Hw Hx. cbv zeta. pose proof (Z.mod_pos_bound x wrap ltac:(lia)).
  destruct (Z.lt_ge_cases x 0).
  - rewrite (up_loop_mod (loop_fuel x)) by (unfold loop_fuel; lia). by rewrite down_loop_id by lia.
  - rewrite (up_loop_id (loop_fuel x)) by lia. apply down_loop_mod; unfold loop_fuel; lia.
Qed.

(** Circular ranges: for any positive period, [within_range] terminates
    and holds exactly when walking up from [minval] meets [x] no later than
    [maxval], all taken modulo the period; equal bounds (modulo the period)
    stand for the whole circle. *)
Theorem within_range_circular x minval maxval wrap :
  0 < wrap < 2 ^ 31 -> - 2 ^ 31 <= x < 2 ^ 31 -> - 2 ^ 31 <= minval < 2 ^ 31 ->
  - 2 ^ 31 <= maxval < 2 ^ 31 ->
  within_range x minval maxval wrap = true <->
  minval mod wrap = maxval mod wrap \/
  (x - minval) mod wrap <= (maxval - minval) mod wrap.
Proof.
  intros Hw Hx Hmin Hmax. unfold within_range.
  rewrite (down_up_mod maxval), (down_up_mod minval), (up_down_mod x) by done.
  rewrite (Zminus_mod x), (Zminus_mod maxval).
  pose proof (Z.mod_pos_bound x wrap ltac:(lia)). pose proof (Z.mod_pos_bound minval wrap ltac:(lia)).
  pose proof (Z.mod_pos_bound maxval wrap ltac:(lia)).
  generalize dependent (x mod wrap). generalize dependent (minval mod wrap).
  generalize dependent (maxval mod wrap). intros mx Hmx mn Hmn y Hy.
  assert (Hsub : forall a b, 0 <= a < wrap -> 0 <= b < wrap ->
    (a - b) mod wrap = if b <=? a then a - b else a - b + wrap).
  { intros a b Ha Hb. destruct (Z.leb_spec b a); [by rewrite Z.mod_small by lia|].
    rewrite <- (Z_mod_plus_full (a - b) 1 wrap), Z.mod_small; lia. }
  rewrite !Hsub by done.
  destruct (Z.ltb_spec mn mx), (Z.leb_spec mn y), (Z.leb_spec y mx), (Z.leb_spec mn mx);
    cbn; split; intros; try done; try lia.
Qed.

Lemma within_range_circular_witness :
  within_range (-3) 10 6 16 = true /\ within_range 8 10 6 16 = false.
Proof.
  assert (Hb : forall v, -100 < v < 100 -> - 2 ^ 31 <= v < 2 ^ 31) by lia.
  split.
  - apply (within_range_circular (-3) 10 6 16); [lia|apply Hb; lia..|]. right. vm_compute. discriminate.
  - destruct (within_range 8 10 6 16) eqn:E; [|done].
    apply (within_range_circular 8 10 6 16) in E; [|lia|apply Hb; lia..].
    exfalso. destruct E as [E|E]; vm_compute in E; [discriminate|]. by apply E.
Defined.
