(* ===== verification/PpsGen.v ===== *)
(** dev/pps_gen.c: the driver of the PPS generator, the counter that keeps the
    node's time. *)
From Stdlib Require Import ZArith Lia.
From stdpp Require Import base numbers option list.
From S2P Require Import Prelude SpllHw.

(** ** Registers (include/hw/pps_gen_regs.h) *)
Inductive ppsg_reg :=
  | CR | CNTR_NSEC | CNTR_UTCLO | CNTR_UTCHI | ADJ_NSEC | ADJ_UTCLO | ADJ_UTCHI | ESCR.

#[export] Instance ppsg_reg_eq_dec : EqDecision ppsg_reg.
Proof. solve_decision. Defined.

Definition CR_CNT_EN : Z := gen_mask 1 1.
Definition CR_CNT_ADJ : Z := gen_mask 2 1.
Definition CR_CNT_SET : Z := gen_mask 3 1.
Definition ESCR_PPS_UNMASK : Z := gen_mask 1 1.
Definition ESCR_PPS_VALID : Z := gen_mask 2 1.
Definition ESCR_TM_VALID : Z := gen_mask 3 1.
Definition ESCR_SEC_SET : Z := gen_mask 4 1.
Definition ESCR_NSEC_SET : Z := gen_mask 5 1.

Definition PPSG_ADJUST_SEC : Z := 1.
Definition PPSG_ADJUST_NSEC : Z := 2.
Definition PPSG_SET_SEC : Z := 1.
Definition PPSG_SET_NSEC : Z := 2.
Definition PPSG_SET_ALL : Z := 3.

(** ppsg_read and ppsg_write *)
Class PpsHW (W : Type) := {
  ppsg_read : ppsg_reg -> M W Z;
  ppsg_write : ppsg_reg -> Z -> M W unit
}.

Section pps_gen.
Context `{Board} {W : Type} `{!PpsHW W}.

(** The frequency of the reference clock; every board defines it as the
    inverse of the period. *)
Definition REF_CLOCK_FREQ_HZ : Z := 1000000000000 / REF_CLOCK_PERIOD_PS.

Definition shw_pps_gen_init : M W unit :=
  let cr := Z.lor CR_CNT_EN (gen_write PPS_WIDTH 4 28) in
  ppsg_write CR cr ;!
  ppsg_write ADJ_UTCLO 0 ;!
  ppsg_write ADJ_UTCHI 0 ;!
  ppsg_write ADJ_NSEC 0 ;!
  ppsg_write CR (Z.lor cr CR_CNT_SET) ;!
  ppsg_write CR cr ;!
  ppsg_write ESCR 0.

(** Nanoseconds to clock cycles: [(int32_t)((int64_t)ns * 1000LL / PERIOD)]. *)
Definition ns_to_cycles (ns : Z) : Z := s32 (s64 (Z.quot (s64 (ns * 1000)) REF_CLOCK_PERIOD_PS)).

Definition shw_pps_gen_adjust (counter how_much : Z) : M W Z :=
  (if counter =? PPSG_ADJUST_NSEC then
     ppsg_write ADJ_UTCLO 0 ;!
     ppsg_write ADJ_UTCHI 0 ;!
     ppsg_write ADJ_NSEC (u32 (ns_to_cycles how_much))
   else
     ppsg_write ADJ_UTCLO (u32 how_much) ;!
     ppsg_write ADJ_UTCHI (Z.land (u32 (Z.shiftr how_much 32)) 255) ;!
     ppsg_write ADJ_NSEC 0) ;!
  let! cr := ppsg_read CR in
  ppsg_write CR (Z.lor cr CR_CNT_ADJ) ;!
  ret 0.

Definition shw_pps_gen_set_time (seconds nanoseconds counter : Z) : M W unit :=
  ppsg_write ADJ_UTCLO (u32 seconds) ;!
  ppsg_write ADJ_UTCHI (Z.land (u32 (Z.shiftr seconds 32)) 255) ;!
  ppsg_write ADJ_NSEC (u32 (ns_to_cycles nanoseconds)) ;!
  if counter =? PPSG_SET_ALL then
    let! cr := ppsg_read CR in ppsg_write CR (Z.lor (Z.land cr 4294967291) CR_CNT_SET)
  else if counter =? PPSG_SET_SEC then
    let! e := ppsg_read ESCR in ppsg_write ESCR (Z.lor (Z.land e 4294967271) ESCR_SEC_SET)
  else if counter =? PPSG_SET_NSEC then
    let! e := ppsg_read ESCR in ppsg_write ESCR (Z.lor (Z.land e 4294967271) ESCR_NSEC_SET)
  else ret tt.

Definition pps_get_utc : M W Z :=
  let! low := ppsg_read CNTR_UTCLO in
  let! high := ppsg_read CNTR_UTCHI in
  let high := Z.land high 255 in
  ret (Z.lor low (Z.shiftl high 32)).

(** The do-while loop: one round, and rounds until the seconds agree.  The
    result is the pair read, [None] when the rounds did not suffice. *)
Definition get_time_round : M W (Z * Z * Z) :=
  let! sec1 := pps_get_utc in
  let! ns := ppsg_read CNTR_NSEC in
  let ns_cnt := Z.land ns 268435455 in
  let! sec2 := pps_get_utc in
  ret (sec1, ns_cnt, sec2).

Fixpoint get_time_loop (fuel : nat) : M W (option (Z * Z)) :=
  match fuel with
  | O => ret None
  | S fuel =>
      let! r := get_time_round in
      let '(sec1, ns_cnt, sec2) := r in
      if sec2 =? sec1 then ret (Some (sec2, u32 (ns_cnt * NS_PER_CLOCK)))
      else get_time_loop fuel
  end.

(** Two rounds are enough ([shw_pps_gen_get_time_coherent]). *)
Definition shw_pps_gen_get_time : M W (option (Z * Z)) := get_time_loop 2.

Definition shw_pps_gen_busy : M W Z :=
  let! cr := ppsg_read CR in
  ret (if truth (Z.land cr CR_CNT_ADJ) then 0 else 1).

Definition shw_pps_gen_enable_output (enable : Z) : M W Z :=
  let! escr := ppsg_read ESCR in
  (if truth enable then ppsg_write ESCR (Z.lor (Z.lor escr ESCR_PPS_VALID) ESCR_TM_VALID)
   else ppsg_write ESCR (Z.land escr (u32 (Z.lnot (Z.lor ESCR_PPS_VALID ESCR_TM_VALID))))) ;!
  ret 0.

Definition shw_pps_gen_unmask_output (unmask : Z) : M W Z :=
  let! escr := ppsg_read ESCR in
  (if truth unmask then ppsg_write ESCR (Z.lor escr ESCR_PPS_UNMASK)
   else ppsg_write ESCR (Z.land escr (u32 (Z.lnot ESCR_PPS_UNMASK)))) ;!
  ret 0.
End pps_gen.

(** ** The running counter

    What the driver relies on: the generator counts cycles of the reference
    clock ([ppsg_clock], never back), a read of a counter register returns the
    value of that register at some instant of the read, and CNTR_UTCHI only
    defines its low eight bits.  [ppsg_read_time] bounds the cycles one read
    may take, including the interrupts that may come with it. *)
Class PpsClock (W : Type) := {
  ppsg_clock : W -> Z;
  ppsg_read_time : Z
}.

(** The seconds and the cycles of an instant. *)
Definition sec_of `{Board} (t : Z) : Z := t / REF_CLOCK_FREQ_HZ.
Definition cycles_of `{Board} (t : Z) : Z := t mod REF_CLOCK_FREQ_HZ.

(** The value of a counter register at an instant. *)
Definition reads_at `{Board} (r : ppsg_reg) (t v : Z) : Prop :=
  match r with
  | CNTR_UTCLO => v = sec_of t mod 4294967296
  | CNTR_UTCHI => v mod 256 = sec_of t / 4294967296 mod 256
  | CNTR_NSEC => v mod 268435456 = cycles_of t
  | _ => True
  end.

Class PpsLaws `{Board} (W : Type) `{!PpsHW W, !PpsClock W} : Prop := {
  law_read_time : 0 <= 10 * ppsg_read_time < REF_CLOCK_FREQ_HZ;
  law_ppsg_read r w : ensures (ppsg_read r) w (fun v w' =>
    ppsg_clock w <= ppsg_clock w' <= ppsg_clock w + ppsg_read_time /\
    exists t, ppsg_clock w <= t <= ppsg_clock w' /\ reads_at r t v)
}.

(** *** One round reads one instant *)
Section coherence.
Context `{B : Board} {Bok : BoardOk B} {W : Type} `{!PpsHW W, !PpsClock W, !PpsLaws W}.
Implicit Types (w : W).

Lemma freq_pos : 0 < REF_CLOCK_FREQ_HZ /\ REF_CLOCK_FREQ_HZ <= 268435456 /\
  REF_CLOCK_FREQ_HZ * NS_PER_CLOCK = 1000000000.
Proof.
  unfold REF_CLOCK_FREQ_HZ. pose proof board_ns as Hn.
  destruct board_period as [E|E]; rewrite E in *.
  - change (1000000000000 / 8000) with 125000000. split_and!; lia.
  - change (1000000000000 / 16000) with 62500000. split_and!; lia.
Qed.

Lemma sec_mono t t' : t <= t' -> sec_of t <= sec_of t'.
Proof. intros Ht. unfold sec_of. pose proof freq_pos. apply Z.div_le_mono; lia. Qed.

(** The counter has 40 bits of seconds; [uptime w] says that it is not about
    to wrap (34,865 years). *)
Definition uptime w : Prop :=
  0 <= ppsg_clock w /\ ppsg_clock w + REF_CLOCK_FREQ_HZ <= REF_CLOCK_FREQ_HZ * 2 ^ 40.

Lemma sec_range w t : uptime w -> ppsg_clock w <= t -> t < ppsg_clock w + REF_CLOCK_FREQ_HZ ->
  0 <= sec_of t < 2 ^ 40.
Proof.
  intros [Hc1 Hc2] H1 H2. pose proof freq_pos as Hf. unfold sec_of.
  split; [apply Z.div_pos; lia|]. apply Z.div_lt_upper_bound; lia.
Qed.

(** [pps_get_utc] combines the low word of an instant and the high byte of a
    later one. *)
Lemma pps_get_utc_spec w0 w : uptime w0 ->
  ppsg_clock w0 <= ppsg_clock w <= ppsg_clock w0 + 8 * ppsg_read_time ->
  ensures pps_get_utc w (fun v w' =>
    ppsg_clock w <= ppsg_clock w' <= ppsg_clock w + 2 * ppsg_read_time /\
    exists t1 t2, ppsg_clock w <= t1 <= t2 /\ t2 <= ppsg_clock w' /\
      v = sec_of t1 mod 2 ^ 32 + sec_of t2 / 2 ^ 32 * 2 ^ 32).
Proof.
  intros Hup Hw0. pose proof law_read_time as Hrt. pose proof freq_pos as Hf.
  apply ensures_bind. eapply ensures_mono; [apply law_ppsg_read|].
  intros low w1 (Hw1 & t1 & Ht1 & Hlow).
  apply ensures_bind. eapply ensures_mono; [apply law_ppsg_read|].
  intros high w2 (Hw2 & t2 & Ht2 & Hhigh). apply ensures_ret. cbn in Hlow, Hhigh.
  split; [lia|]. exists t1, t2. split_and!; try lia.
  change 255 with (Z.ones 8). rewrite Z.land_ones by lia. change (2 ^ 8) with 256. subst low.
  assert (Hs : 0 <= sec_of t2 < 2 ^ 40) by (apply (sec_range w0); [done|lia..]).
  rewrite Hhigh, (Z.mod_small (sec_of t2 / _)).
  - apply lor_shiftl; [lia|apply Z.mod_pos_bound; lia|]. apply Z.div_pos; lia.
  - split; [apply Z.div_pos; lia|]. apply Z.div_lt_upper_bound; lia.
Qed.

(** The two readings of a round agree only when the seconds did not change
    between the first and the last low word; then the cycle counter was read
    in that very second. *)
Lemma utc_agree t1 t2 t3 t4 t5 :
  0 <= t1 <= t2 -> t2 <= t3 <= t4 -> t4 <= t5 -> t5 - t1 < REF_CLOCK_FREQ_HZ ->
  sec_of t1 mod 2 ^ 32 + sec_of t2 / 2 ^ 32 * 2 ^ 32 =
    sec_of t4 mod 2 ^ 32 + sec_of t5 / 2 ^ 32 * 2 ^ 32 ->
  sec_of t4 mod 2 ^ 32 + sec_of t5 / 2 ^ 32 * 2 ^ 32 = sec_of t3.
Proof.
  intros H12 H34 H5 Hd E. pose proof freq_pos as Hf.
  pose proof (sec_mono t1 t2 ltac:(lia)) as M12. pose proof (sec_mono t2 t3 ltac:(lia)) as M23.
  pose proof (sec_mono t3 t4 ltac:(lia)) as M34. pose proof (sec_mono t4 t5 ltac:(lia)) as M45.
  assert (Hone : sec_of t5 <= sec_of t1 + 1).
  { unfold sec_of. rewrite <- Z.div_add by lia. apply Z.div_le_mono; lia. }
  assert (Hpos : 0 <= sec_of t1) by (apply Z.div_pos; lia).
  revert E M12 M23 M34 M45 Hone Hpos.
  generalize (sec_of t1) (sec_of t2) (sec_of t3) (sec_of t4) (sec_of t5). intros a b c d e.
  change (2 ^ 32) with 4294967296. intros. Z.to_euclidean_division_equations. lia.
Qed.

(** A round that stays inside one second agrees. *)
Lemma utc_stable t1 t2 t4 t5 :
  t1 <= t2 -> t2 <= t4 -> t4 <= t5 -> sec_of t1 = sec_of t5 ->
  sec_of t1 mod 2 ^ 32 + sec_of t2 / 2 ^ 32 * 2 ^ 32 =
    sec_of t4 mod 2 ^ 32 + sec_of t5 / 2 ^ 32 * 2 ^ 32.
Proof.
  intros H12 H24 H45 E. pose proof (sec_mono _ _ H12). pose proof (sec_mono _ _ H24).
  pose proof (sec_mono _ _ H45). by replace (sec_of t2) with (sec_of t1) by lia;
    replace (sec_of t4) with (sec_of t1) by lia; rewrite E.
Qed.

Lemma get_time_round_spec w0 w : uptime w0 ->
  ppsg_clock w0 <= ppsg_clock w <= ppsg_clock w0 + 5 * ppsg_read_time ->
  ensures get_time_round w (fun '(sec1, ns_cnt, sec2) w' =>
    ppsg_clock w <= ppsg_clock w' <= ppsg_clock w + 5 * ppsg_read_time /\
    (sec_of (ppsg_clock w) = sec_of (ppsg_clock w') -> sec1 = sec2) /\
    (sec1 = sec2 -> exists t, ppsg_clock w <= t <= ppsg_clock w' /\
       sec2 = sec_of t /\ ns_cnt = cycles_of t)).
Proof.
  intros Hup Hw0. pose proof law_read_time as Hrt. pose proof freq_pos as Hf.
  assert (Hpos : 0 <= ppsg_clock w) by (destruct Hup; lia).
  apply ensures_bind. eapply ensures_mono; [apply (pps_get_utc_spec w0); [done|lia]|].
  intros sec1 w1 (Hw1 & t1 & t2 & Ht1 & Ht2 & E1).
  apply ensures_bind. eapply ensures_mono; [apply law_ppsg_read|].
  intros ns w2 (Hw2 & t3 & Ht3 & Hns). cbn in Hns.
  apply ensures_bind. eapply ensures_mono; [apply (pps_get_utc_spec w0); [done|lia]|].
  intros sec2 w3 (Hw3 & t4 & t5 & Ht4 & Ht5 & E2). apply ensures_ret.
  split; [lia|]. split.
  - intros E. rewrite E1, E2. clear E1 E2 Hns. apply utc_stable; try lia.
    assert (Ht15 : t1 <= t5) by lia. pose proof (sec_mono _ _ Ht15).
    pose proof (sec_mono _ _ (proj1 Ht1)). pose proof (sec_mono _ _ Ht5). lia.
  - intros E. exists t3. split; [lia|]. split.
    + rewrite E2.
      apply (utc_agree t1 t2 t3); [lia..|by rewrite <- E1, <- E2].
    + change 268435455 with (Z.ones 28). rewrite Z.land_ones by lia. exact Hns.
Qed.

(** The time read, with the time the reading takes. *)
Lemma get_time_spec w : uptime w -> ensures shw_pps_gen_get_time w (fun r w' =>
  ppsg_clock w' <= ppsg_clock w + 10 * ppsg_read_time /\
  exists t, ppsg_clock w <= t <= ppsg_clock w' /\
    r = Some (sec_of t, cycles_of t * NS_PER_CLOCK)).
Proof.
  intros Hup. pose proof law_read_time as Hrt. pose proof freq_pos as Hf.
  assert (Hns : forall t, u32 (cycles_of t * NS_PER_CLOCK) = cycles_of t * NS_PER_CLOCK).
  { intros t. apply u32_small. pose proof (Z.mod_pos_bound t _ (proj1 Hf)) as Hc.
    unfold is_u32, cycles_of. nia. }
  unfold shw_pps_gen_get_time, get_time_loop.
  apply ensures_bind. eapply ensures_mono; [apply (get_time_round_spec w); [done|lia]|].
  intros [[s1 ns] s2] w1 (Hw1 & Hs1 & He1).
  destruct (Z.eqb_spec s2 s1) as [->|Hne].
  { apply ensures_ret. destruct (He1 eq_refl) as (t & Ht & -> & ->). split; [lia|]. exists t. by rewrite Hns. }
  apply ensures_bind. eapply ensures_mono; [apply (get_time_round_spec w); [done|lia]|].
  intros [[s3 ns'] s4] w2 (Hw2 & Hs2 & He2).
  destruct (Z.eqb_spec s4 s3) as [->|Hne2].
  { apply ensures_ret. destruct (He2 eq_refl) as (t & Ht & -> & ->). split; [lia|].
    exists t. rewrite Hns. split; [lia|done]. }
  exfalso.
  pose proof (sec_mono _ _ (proj1 Hw1)). pose proof (sec_mono _ _ (proj1 Hw2)).
  assert (sec_of (ppsg_clock w2) <= sec_of (ppsg_clock w) + 1).
  { unfold sec_of. rewrite <- Z.div_add by lia. apply Z.div_le_mono; lia. }
  assert (sec_of (ppsg_clock w) <> sec_of (ppsg_clock w1)) by (intros E; by apply Hne, eq_sym, Hs1).
  assert (sec_of (ppsg_clock w1) <> sec_of (ppsg_clock w2)) by (intros E; by apply Hne2, eq_sym, Hs2).
  lia.
Qed.

(** C11. The time read is a time that was: [shw_pps_gen_get_time] returns
    after at most two rounds, and the seconds and nanoseconds it returns are
    those of one instant between its start and its end, although they are
    read from three registers of a running counter. *)
Theorem shw_pps_gen_get_time_coherent w :
  uptime w -> ensures shw_pps_gen_get_time w (fun r w' =>
    exists t, ppsg_clock w <= t <= ppsg_clock w' /\
      r = Some (sec_of t, cycles_of t * NS_PER_CLOCK)).
Proof. intros Hup. eapply ensures_mono; [by apply get_time_spec|]. intros r w' [_ Hr]. exact Hr. Qed.
End coherence.

(** A generator whose reads take 40 cycles and return the counters at their
    end; the high bits of CNTR_UTCHI read as ones. *)
Record pps_sim := PpsSim { ps_now : Z; ps_regs : ppsg_reg -> Z }.

#[export] Instance pps_sim_hw `{Board} : PpsHW pps_sim := {
  ppsg_read r w :=
    let t := ps_now w + 40 in
    (match r with
     | CNTR_UTCLO => sec_of t mod 4294967296
     | CNTR_UTCHI => sec_of t / 4294967296 mod 256 + 4294967040
     | CNTR_NSEC => cycles_of t
     | _ => ps_regs w r
     end, PpsSim t (ps_regs w));
  ppsg_write r v w := (tt, PpsSim (ps_now w) (fun r' => if decide (r' = r) then v else ps_regs w r'))
}.
#[export] Instance pps_sim_clock : PpsClock pps_sim := {
  ppsg_clock := ps_now; ppsg_read_time := 40 }.

#[export] Instance pps_sim_laws `{B : Board, !BoardOk B} : PpsLaws pps_sim.
Proof.
  pose proof freq_pos as Hf. assert (1000 <= REF_CLOCK_FREQ_HZ).
  { unfold REF_CLOCK_FREQ_HZ. by destruct board_period as [->| ->]. }
  constructor; [cbn; lia|]. intros r w. unfold ensures. simpl. split; [lia|].
  exists (ps_now w + 40). split; [lia|]. destruct r; cbn [reads_at]; try done.
  - apply Z.mod_small. pose proof (Z.mod_pos_bound (ps_now w + 40) _ (proj1 Hf)). unfold cycles_of. lia.
  - replace 4294967040 with (16777215 * 256) by lia. rewrite Z.mod_add by lia. apply Z.mod_mod. lia.
Qed.

Section pps_demo.
#[local] Existing Instance generic_8bit.

(** The second changes between the two readings of the first round; the second
    round returns the new second. *)
Definition before_second : pps_sim := PpsSim (1700000000 * 125000000 - 100) (fun _ => 0).

Lemma shw_pps_gen_get_time_coherent_witness :
  ensures shw_pps_gen_get_time before_second (fun r w' =>
    exists t, ppsg_clock before_second <= t <= ppsg_clock w' /\
      r = Some (sec_of t, cycles_of t * NS_PER_CLOCK)) /\
  (shw_pps_gen_get_time before_second).1 = Some (1700000000, 1760).
Proof.
  split; [|vm_compute; reflexivity].
  apply (shw_pps_gen_get_time_coherent (B := generic_8bit) before_second).
  split; apply Z.leb_le; vm_compute; reflexivity.
Defined.
End pps_demo.
