(* ===== verification/Bytes.v ===== *)
(** Memory as the network code sees it: byte arrays, the byte order of the CPU
    (include/endianness.h) and the byte images of integers. *)
From Stdlib Require Import ZArith Lia.
From stdpp Require Import base numbers option list.
From S2P Require Import Prelude.

(** ** Byte order

    The firmware runs on lm32 (big-endian) and on RISC-V (little-endian); the
    network code is modelled for both. *)
Class Endian := big_endian : bool.

Definition swap16 (x : Z) : Z := x mod 256 * 256 + x / 256 mod 256.
Definition swap32 (x : Z) : Z :=
  x mod 256 * 16777216 + x / 256 mod 256 * 65536 + x / 65536 mod 256 * 256 + x / 16777216 mod 256.

(** [htons] and [htonl]; [ntohs] and [ntohl] are the same functions. *)
Definition htons `{Endian} (x : Z) : Z := if big_endian then u16 x else swap16 (u16 x).
Definition htonl `{Endian} (x : Z) : Z := if big_endian then u32 x else swap32 (u32 x).

(** The bytes of an integer, most significant first, and in memory order. *)
Fixpoint be_bytes (n : nat) (v : Z) : list Z :=
  match n with
  | O => []
  | S n => be_bytes n (v / 256) ++ [v mod 256]
  end.
Fixpoint be_value (l : list Z) (acc : Z) : Z :=
  match l with
  | [] => acc
  | b :: l => be_value l (acc * 256 + b)
  end.
Definition image `{Endian} (n : nat) (v : Z) : list Z :=
  if big_endian then be_bytes n v else rev (be_bytes n v).
Definition value `{Endian} (l : list Z) : Z :=
  if big_endian then be_value l 0 else be_value (rev l) 0.

(** [__builtin_bswap64] and [htonll] *)
Definition swap64 (x : Z) : Z := be_value (rev (be_bytes 8 x)) 0.
Definition htonll `{Endian} (x : Z) : Z := if big_endian then u64 x else swap64 x.

(** The conversions to and from little-endian data; [le16_to_host] calls the
    32-bit swap. *)
Definition be32_to_host `{Endian} (x : Z) : Z := htonl x.
Definition be16_to_host `{Endian} (x : Z) : Z := htons x.
Definition le32_to_host `{Endian} (x : Z) : Z := if big_endian then swap32 (u32 x) else u32 x.
Definition le16_to_host `{Endian} (x : Z) : Z := u16 (if big_endian then swap32 (u16 x) else u16 x).

(** On a big-endian CPU [le16_to_host] loses its argument. *)
Lemma le16_to_host_big x : @le16_to_host true x = 0.
Proof.
  unfold le16_to_host. cbn [big_endian]. unfold swap32, u16.
  pose proof (Z.mod_pos_bound x 65536 ltac:(lia)) as Hx. set (y := x mod 65536) in *.
  assert (E2 : y / 65536 = 0) by (apply Z.div_small; lia). assert (E3 : y / 16777216 = 0) by (apply Z.div_small; lia).
  rewrite E2, E3. change (0 mod 256) with 0.
  replace (y mod 256 * 16777216 + y / 256 mod 256 * 65536 + 0 * 256 + 0) with ((y mod 256 * 256 + y / 256 mod 256) * 65536) by lia.
  by apply Z.mod_mul.
Qed.
Lemma length_be_bytes n v : length (be_bytes n v) = n.
Proof. revert v. induction n as [|n IH]; intros v; [done|]. cbn. rewrite length_app, IH. cbn. lia. Qed.
Lemma length_image `{Endian} n v : length (image n v) = n.
Proof. unfold image. destruct big_endian; [|rewrite length_rev]; apply length_be_bytes. Qed.

Lemma be_value_app l1 l2 acc : be_value (l1 ++ l2) acc = be_value l2 (be_value l1 acc).
Proof. revert acc. induction l1; intros acc; cbn; auto. Qed.

Lemma be_value_bytes n v : be_value (be_bytes n v) 0 = v mod 256 ^ Z.of_nat n.
Proof.
  revert v. induction n as [|n IH]; intros v; [by rewrite Z.mod_1_r|].
  cbn [be_bytes]. rewrite be_value_app, IH. cbn [be_value].
  replace (Z.of_nat (S n)) with (1 + Z.of_nat n) by lia.
  rewrite Z.pow_add_r, Z.pow_1_r by lia.
  rewrite Z.rem_mul_r by (try apply Z.pow_nonzero; lia). lia.
Qed.

(** The image of an integer gives it back, in either byte order. *)
Lemma value_image `{Endian} n v : 0 <= v < 256 ^ Z.of_nat n -> value (image n v) = v.
Proof.
  intros Hv. unfold value, image. destruct big_endian; [|rewrite rev_involutive];
    rewrite be_value_bytes; by apply Z.mod_small.
Qed.

(** [htons] writes the bytes of a 16-bit value in network order. *)
Lemma image_htons `{Endian} v : 0 <= v < 65536 -> image 2 (htons v) = [v / 256; v mod 256].
Proof.
  intros Hv. unfold image, htons, swap16. rewrite (u16_small v) by lia.
  assert (v / 256 mod 256 = v / 256).
  { apply Z.mod_small. split; [apply Z.div_pos; lia|apply Z.div_lt_upper_bound; lia]. }
  destruct big_endian; cbn; [by f_equal|].
  assert (E : (v mod 256 * 256 + v / 256 mod 256) / 256 = v mod 256) by
    (pose proof (Z.mod_pos_bound v 256 ltac:(lia)); Z.to_euclidean_division_equations; lia).
  rewrite E, Z.mod_mod by lia. do 2 f_equal.
  rewrite Z.add_comm, Z.mod_add, Z.mod_mod by lia. done.
Qed.

Lemma htons_involutive `{Endian} v : 0 <= v < 65536 -> htons (htons v) = v.
Proof.
  intros Hv. unfold htons. destruct big_endian; [by rewrite !u16_small by (rewrite ?u16_small by lia; lia)|].
  rewrite (u16_small v) by lia. unfold swap16.
  pose proof (Z.mod_pos_bound v 256 ltac:(lia)).
  assert (Hd : 0 <= v / 256 < 256) by (split; [apply Z.div_pos; lia|apply Z.div_lt_upper_bound; lia]).
  rewrite (Z.mod_small (v / 256)) by lia. rewrite u16_small by lia.
  pose proof (Z.div_mod v 256 ltac:(lia)). Z.to_euclidean_division_equations. lia.
Qed.

Lemma htons_value `{Endian} b0 b1 : is_byte b0 -> is_byte b1 ->
  htons (value [b0; b1]) = b0 * 256 + b1.
Proof.
  unfold is_byte. intros H0 H1. unfold htons, value, swap16.
  destruct big_endian; cbn [rev app be_value]; rewrite u16_small by lia; [lia|].
  rewrite !Z.mul_0_l, !Z.add_0_l. Z.to_euclidean_division_equations. lia.
Qed.

Lemma be_bytes_value l : Forall is_byte l -> be_bytes (length l) (be_value l 0) = l.
Proof.
  induction l as [|b l IH] using rev_ind; intros Hl; [done|].
  apply Forall_app in Hl as [Hl Hb]. apply Forall_cons in Hb as [Hb _]. unfold is_byte in Hb.
  rewrite length_app, Nat.add_1_r. cbn [be_bytes]. rewrite be_value_app. cbn [be_value].
  rewrite Z.div_add_l, (Z.div_small b), Z.add_0_r, IH by (done || lia).
  rewrite Z.add_comm, Z.mod_add, Z.mod_small by lia. done.
Qed.
Lemma swap32_bytes x : swap32 x = be_value (rev (be_bytes 4 x)) 0.
Proof.
  unfold swap32. cbn [be_bytes app rev be_value]. rewrite !Z.div_div by lia.
  change (256 * 256) with 65536. change (65536 * 256) with 16777216. lia.
Qed.

(** [htonl] and [htonll] read and write the bytes in network order. *)
Lemma be_value_range l acc : Forall is_byte l -> 0 <= acc ->
  0 <= be_value l acc < (acc + 1) * 256 ^ Z.of_nat (length l).
Proof.
  revert acc. induction l as [|b l IH]; intros acc Hl Ha; cbn [be_value length].
  { change (256 ^ Z.of_nat 0) with 1. lia. }
  apply Forall_cons in Hl as [Hb Hl]. unfold is_byte in Hb. specialize (IH (acc * 256 + b) Hl ltac:(lia)).
  replace (Z.of_nat (S (length l))) with (1 + Z.of_nat (length l)) by lia.
  rewrite Z.pow_add_r, Z.pow_1_r by lia. pose proof (Z.pow_pos_nonneg 256 (Z.of_nat (length l)) ltac:(lia) ltac:(lia)).
  nia.
Qed.
Lemma htonl_value `{Endian} l : Forall is_byte l -> length l = 4%nat -> htonl (value l) = be_value l 0.
Proof.
  intros Hb Hl. unfold htonl, value. pose proof (be_value_range l 0 Hb ltac:(lia)) as Hr. rewrite Hl in Hr.
  destruct big_endian; [by apply u32_small|].
  assert (Hb' : Forall is_byte (rev l)) by by apply Forall_rev.
  pose proof (be_value_range (rev l) 0 Hb' ltac:(lia)) as Hr'. rewrite length_rev, Hl in Hr'.
  rewrite u32_small by exact Hr'. rewrite swap32_bytes. rewrite <- Hl, <- length_rev, be_bytes_value by done.
  by rewrite rev_involutive.
Qed.
Lemma htonll_value `{Endian} l : Forall is_byte l -> length l = 8%nat -> htonll (value l) = be_value l 0.
Proof.
  intros Hb Hl. unfold htonll, value. pose proof (be_value_range l 0 Hb ltac:(lia)) as Hr. rewrite Hl in Hr.
  destruct big_endian; [apply Z.mod_small; exact Hr|]. unfold swap64.
  assert (Hb' : Forall is_byte (rev l)) by by apply Forall_rev.
  rewrite <- Hl, <- length_rev, be_bytes_value by done. by rewrite rev_involutive.
Qed.
Lemma bytes_be_Forall n v : Forall is_byte (be_bytes n v).
Proof.
  revert v. induction n as [|n IH]; intros v; cbn; [constructor|]. apply Forall_app. split; [apply IH|].
  repeat constructor; unfold is_byte; apply Z.mod_pos_bound; lia.
Qed.
Lemma image_htonl `{Endian} v : 0 <= v < 4294967296 -> image 4 (htonl v) = be_bytes 4 v.
Proof.
  intros Hv. unfold image, htonl. rewrite (u32_small v) by done. destruct big_endian; [done|].
  rewrite swap32_bytes. set (l := rev (be_bytes 4 v)).
  assert (Hl : length l = 4%nat) by (unfold l; by rewrite length_rev, length_be_bytes).
  rewrite <- Hl, be_bytes_value by (apply Forall_rev, bytes_be_Forall). unfold l. by rewrite rev_involutive.
Qed.
Lemma image_htonll `{Endian} v : 0 <= v < 18446744073709551616 -> image 8 (htonll v) = be_bytes 8 v.
Proof.
  intros Hv. unfold image, htonll. destruct big_endian; [unfold u64; by rewrite Z.mod_small|].
  unfold swap64. set (l := rev (be_bytes 8 v)).
  assert (Hl : length l = 8%nat) by (unfold l; by rewrite length_rev, length_be_bytes).
  rewrite <- Hl, be_bytes_value by (apply Forall_rev, bytes_be_Forall). unfold l. by rewrite rev_involutive.
Qed.

Lemma u32_htonl `{Endian} v : u32 (htonl v) = htonl v.
Proof.
  unfold htonl. destruct big_endian; [by rewrite (u32_small (u32 v)) by apply u32_range|].
  rewrite swap32_bytes. apply u32_small. unfold is_u32.
  pose proof (be_value_range (rev (be_bytes 4 (u32 v))) 0 ltac:(apply Forall_rev, bytes_be_Forall) ltac:(lia)) as Hr.
  rewrite length_rev, length_be_bytes in Hr. exact Hr.
Qed.
Lemma u64_htonll `{Endian} v : u64 (htonll v) = htonll v.
Proof.
  unfold htonll. destruct big_endian; [by rewrite (u64_small (u64 v)) by apply u64_range|].
  unfold swap64. apply u64_small.
  pose proof (be_value_range (rev (be_bytes 8 v)) 0 ltac:(apply Forall_rev, bytes_be_Forall) ltac:(lia)) as Hr.
  rewrite length_rev, length_be_bytes in Hr. exact Hr.
Qed.

Lemma value_range `{Endian} n l : Forall is_byte l -> length l = n -> 0 <= value l < 256 ^ Z.of_nat n.
Proof.
  intros Hl <-. unfold value. assert (Hgo : forall k, Forall is_byte k -> 0 <= be_value k 0 < 256 ^ Z.of_nat (length k)).
  { intros k Hk. pose proof (be_value_range k 0 Hk). lia. }
  destruct big_endian; [by apply Hgo|]. rewrite <- length_rev. by apply Hgo, Forall_rev.
Qed.

(** The bytes of a word give the word back. *)
Lemma image_value `{Endian} n l : Forall is_byte l -> length l = n -> image n (value l) = l.
Proof.
  intros Hl <-. unfold image, value. destruct big_endian; [by apply be_bytes_value|].
  rewrite <- (length_rev l), be_bytes_value by by apply Forall_rev. apply rev_involutive.
Qed.

Lemma read32 `{Endian} x : is_s32 x -> s32 (htonl (u32 (value (be_bytes 4 (u32 x))))) = x.
Proof.
  intros Hx. rewrite u32_small by (apply (value_range 4); [apply bytes_be_Forall|apply length_be_bytes]).
  rewrite htonl_value by (apply bytes_be_Forall || apply length_be_bytes).
  rewrite be_value_bytes. change (256 ^ Z.of_nat 4) with 4294967296. fold (u32 (u32 x)).
  rewrite !s32_u32. by apply s32_small.
Qed.
Lemma read64 `{Endian} x : is_s64 x -> s64 (htonll (u64 (value (be_bytes 8 (u64 x))))) = x.
Proof.
  intros Hx. rewrite u64_small by (apply (value_range 8); [apply bytes_be_Forall|apply length_be_bytes]).
  rewrite htonll_value by (apply bytes_be_Forall || apply length_be_bytes).
  rewrite be_value_bytes. change (256 ^ Z.of_nat 8) with 18446744073709551616. fold (u64 (u64 x)).
  rewrite !s64_u64. by apply s64_small.
Qed.

(** ** Byte arrays *)

(** [memcpy(buf + off, l, len)] and reading [n] bytes at [buf + off]. *)
Fixpoint put (buf : list Z) (off : Z) (l : list Z) : list Z :=
  match l with
  | [] => buf
  | b :: l => put (aset buf off b) (off + 1) l
  end.
Definition sub (buf : list Z) (off n : Z) : list Z :=
  (fun i => aget 0 buf (off + i)) <$> range n.
(** [memset(buf + off, v, n)] *)
Definition fill (buf : list Z) (off v n : Z) : list Z := put buf off (replicate (Z.to_nat n) v).

(** [buf] has the bytes of an array: the hypothesis of the byte lemmas. *)
Definition bytes (l : list Z) : Prop := Forall is_byte l.

Lemma length_put buf off l : length (put buf off l) = length buf.
Proof. revert buf off. induction l; intros buf off; cbn; [done|]. by rewrite IHl, length_aset. Qed.

Lemma put_app buf off l1 l2 :
  put buf off (l1 ++ l2) = put (put buf off l1) (off + Z.of_nat (length l1)) l2.
Proof.
  revert buf off. induction l1 as [|b l1 IH]; intros buf off; cbn [app put length].
  - by rewrite Z.add_0_r.
  - rewrite IH. f_equal. lia.
Qed.

Lemma aget_put buf off l i :
  0 <= off -> off + Z.of_nat (length l) <= Z.of_nat (length buf) ->
  aget 0 (put buf off l) i =
    if (off <=? i) && (i <? off + Z.of_nat (length l)) then aget 0 l (i - off) else aget 0 buf i.
Proof.
  revert buf off. induction l as [|b l IH]; intros buf off Ho Hl; cbn [put length] in *.
  { destruct (Z.leb_spec off i), (Z.ltb_spec i (off + Z.of_nat 0)); cbn; try done; lia. }
  rewrite IH by (rewrite ?length_aset; lia).
  destruct (Z.eq_dec i off) as [->|Hne].
  - destruct (Z.leb_spec (off + 1) off); [lia|]. cbn [andb].
    destruct (Z.leb_spec off off); [|lia]. destruct (Z.ltb_spec off (off + Z.of_nat (S (length l)))); [|lia].
    cbn [andb]. rewrite aget_aset_eq by lia. by rewrite Z.sub_diag.
  - rewrite aget_aset_ne by lia.
    destruct (Z.leb_spec (off + 1) i), (Z.leb_spec off i); try lia; cbn [andb]; [|done].
    replace (off + Z.of_nat (S (length l))) with (off + 1 + Z.of_nat (length l)) by lia.
    destruct (i <? _); [|done]. unfold aget.
    destruct (Z.ltb_spec (i - (off + 1)) 0); [lia|]. destruct (Z.ltb_spec (i - off) 0); [lia|].
    replace (Z.to_nat (i - off)) with (S (Z.to_nat (i - (off + 1)))) by lia. done.
Qed.

Lemma aget_put_ne buf off l i : i < off \/ off + Z.of_nat (length l) <= i ->
  aget 0 (put buf off l) i = aget 0 buf i.
Proof.
  revert buf off. induction l as [|b l IH]; intros buf off Hi; [done|]. cbn [put length] in *.
  rewrite IH by lia. apply aget_aset_ne. lia.
Qed.

Lemma length_sub buf off n : length (sub buf off n) = Z.to_nat n.
Proof. unfold sub, range. by rewrite !length_fmap, length_seq. Qed.

Lemma lookup_range n i : (i < Z.to_nat n)%nat -> range n !! i = Some (Z.of_nat i).
Proof. intros Hi. unfold range. rewrite list_lookup_fmap, lookup_seq_lt by done. done. Qed.

Lemma lookup_sub buf off n i : (i < Z.to_nat n)%nat ->
  sub buf off n !! i = Some (aget 0 buf (off + Z.of_nat i)).
Proof. intros Hi. unfold sub. by rewrite list_lookup_fmap, lookup_range. Qed.

Lemma aget_lookup (l : list Z) i : (i < length l)%nat -> l !! i = Some (aget 0 l (Z.of_nat i)).
Proof.
  intros Hi. unfold aget. destruct (Z.ltb_spec (Z.of_nat i) 0); [lia|]. rewrite Nat2Z.id.
  by destruct (lookup_lt_is_Some_2 l i Hi) as [x ->].
Qed.

(** What was copied in is read back, and the rest is untouched. *)
Lemma sub_put_eq buf off l n :
  0 <= off -> off + Z.of_nat (length l) <= Z.of_nat (length buf) -> n = Z.of_nat (length l) ->
  sub (put buf off l) off n = l.
Proof.
  intros Ho Hl ->. apply list_eq. intros i.
  destruct (Nat.lt_ge_cases i (length l)) as [Hi|Hi].
  - rewrite lookup_sub by lia. rewrite aget_put by done.
    destruct (Z.leb_spec off (off + Z.of_nat i)); [|lia].
    destruct (Z.ltb_spec (off + Z.of_nat i) (off + Z.of_nat (length l))); [|lia]. cbn.
    rewrite aget_lookup by done. do 2 f_equal. lia.
  - rewrite !lookup_ge_None_2; [done|done|]. rewrite length_sub. lia.
Qed.

Lemma sub_put_ne buf off l off' n :
  0 <= off -> off + Z.of_nat (length l) <= Z.of_nat (length buf) ->
  off' + n <= off \/ off + Z.of_nat (length l) <= off' ->
  sub (put buf off l) off' n = sub buf off' n.
Proof.
  intros Ho Hl Hd. unfold sub. apply list_fmap_ext. intros k i Hk.
  apply list_elem_of_lookup_2, elem_of_range in Hk. rewrite aget_put by done.
  destruct (Z.leb_spec off (off' + i)), (Z.ltb_spec (off' + i) (off + Z.of_nat (length l)));
    cbn; try done; lia.
Qed.

Lemma sub_app buf off n m : 0 <= n -> 0 <= m -> sub buf off (n + m) = sub buf off n ++ sub buf (off + n) m.
Proof.
  intros Hn Hm. apply list_eq. intros i.
  destruct (Nat.lt_ge_cases i (Z.to_nat n)) as [Hi|Hi].
  - rewrite lookup_app_l by (rewrite length_sub; lia). by rewrite !lookup_sub by lia.
  - rewrite lookup_app_r by (rewrite length_sub; lia). rewrite length_sub.
    destruct (Nat.lt_ge_cases i (Z.to_nat (n + m))).
    + rewrite !lookup_sub by lia. do 2 f_equal. lia.
    + by rewrite !lookup_ge_None_2 by (rewrite length_sub; lia).
Qed.

Lemma sub_all buf : sub buf 0 (Z.of_nat (length buf)) = buf.
Proof.
  apply list_eq. intros i. destruct (Nat.lt_ge_cases i (length buf)).
  - rewrite lookup_sub by lia. by rewrite aget_lookup.
  - rewrite !lookup_ge_None_2; [done|done|]. rewrite length_sub. lia.
Qed.

Lemma sub_app_r l1 l2 off n k : k = Z.of_nat (length l1) -> 0 <= off -> sub (l1 ++ l2) (k + off) n = sub l2 off n.
Proof.
  intros -> Ho. unfold sub. apply list_fmap_ext. intros j i Hi.
  apply list_elem_of_lookup_2, elem_of_range in Hi. unfold aget.
  destruct (Z.ltb_spec (Z.of_nat (length l1) + off + i) 0); [lia|].
  destruct (Z.ltb_spec (off + i) 0); [lia|]. rewrite lookup_app_r by lia. do 2 f_equal. lia.
Qed.
Lemma sub_app_l l1 l2 : sub (l1 ++ l2) 0 (Z.of_nat (length l1)) = l1.
Proof.
  apply list_eq. intros i. destruct (Nat.lt_ge_cases i (length l1)).
  - rewrite lookup_sub by lia. rewrite (aget_lookup l1) by done. rewrite Z.add_0_l. unfold aget.
    destruct (Z.ltb_spec (Z.of_nat i) 0); [lia|]. by rewrite lookup_app_l by lia.
  - rewrite !lookup_ge_None_2; [done|done|]. rewrite length_sub. lia.
Qed.
Lemma sub_split buf (a b : nat) : (a + b <= length buf)%nat ->
  sub buf (Z.of_nat a) (Z.of_nat b) = take b (drop a buf).
Proof.
  intros Hl. apply list_eq. intros i. destruct (Nat.lt_ge_cases i b) as [Hi|Hi].
  - rewrite lookup_sub by lia. rewrite lookup_take_lt, lookup_drop by lia. symmetry.
    rewrite aget_lookup by lia. do 2 f_equal. lia.
  - rewrite !lookup_ge_None_2; [done|..]; rewrite ?length_take, ?length_drop, ?length_sub; lia.
Qed.
Lemma aget_mid {A} (d : A) l1 y l2 i : i = Z.of_nat (length l1) -> aget d (l1 ++ y :: l2) i = y.
Proof.
  intros ->. unfold aget. destruct (Z.ltb_spec (Z.of_nat (length l1)) 0); [lia|].
  by rewrite Nat2Z.id, list_lookup_middle.
Qed.
Lemma aset_mid {A} (l1 : list A) y l2 i v : i = Z.of_nat (length l1) -> aset (l1 ++ y :: l2) i v = l1 ++ v :: l2.
Proof.
  intros ->. unfold aset. destruct (Z.ltb_spec (Z.of_nat (length l1)) 0); [lia|].
  rewrite Nat2Z.id. by rewrite insert_app_r_alt, Nat.sub_diag by lia.
Qed.
Lemma bytes_app l1 l2 : bytes (l1 ++ l2) <-> bytes l1 /\ bytes l2.
Proof. apply Forall_app. Qed.
Lemma bytes_cons b l : bytes (b :: l) <-> is_byte b /\ bytes l.
Proof. apply Forall_cons. Qed.

Lemma bytes_aget l i : bytes l -> is_byte (aget 0 l i).
Proof.
  intros Hl. unfold aget. destruct (i <? 0); [by unfold is_byte|].
  destruct (l !! Z.to_nat i) eqn:E; [|by unfold is_byte]. cbn. exact (Forall_lookup_1 _ _ _ _ Hl E).
Qed.
Lemma bytes_put buf off l : bytes buf -> bytes l -> bytes (put buf off l).
Proof.
  revert buf off. induction l as [|b l IH]; intros buf off Hb Hl; [done|].
  apply Forall_cons in Hl as [? ?]. apply IH; [|done]. unfold aset.
  destruct (off <? 0); [done|]. by apply Forall_insert.
Qed.
Lemma bytes_sub buf off n : bytes buf -> bytes (sub buf off n).
Proof. intros Hb. apply Forall_fmap, Forall_forall. intros i _. by apply bytes_aget. Qed.
Lemma bytes_be n v : bytes (be_bytes n v).
Proof. apply bytes_be_Forall. Qed.
#[export] Hint Resolve bytes_aget bytes_put bytes_sub bytes_be : wrpc.
Lemma sub_mid l1 l2 l3 off n : off = Z.of_nat (length l1) -> n = Z.of_nat (length l2) ->
  sub (l1 ++ l2 ++ l3) off n = l2.
Proof. intros -> ->. rewrite <- (Z.add_0_r (Z.of_nat (length l1))), sub_app_r by lia. apply sub_app_l. Qed.
Lemma sub_sub l off n o m : 0 <= o -> 0 <= m -> o + m <= n -> sub (sub l off n) o m = sub l (off + o) m.
Proof.
  intros Ho Hm Hn. unfold sub at 1 3. apply list_fmap_ext. intros k i Hk. apply list_elem_of_lookup_2, elem_of_range in Hk.
  unfold aget at 1. destruct (Z.ltb_spec (o + i) 0); [lia|]. rewrite lookup_sub by lia. cbn. f_equal. lia.
Qed.

(** Writing in the middle of an array. *)
Lemma put_mid l1 l2 l2' l3 off : off = Z.of_nat (length l1) -> length l2 = length l2' ->
  put (l1 ++ l2 ++ l3) off l2' = l1 ++ l2' ++ l3.
Proof.
  intros -> Hl. revert l1 l2 Hl. induction l2' as [|b l2' IH]; intros l1 l2 Hl; [by destruct l2|].
  destruct l2 as [|a l2]; [discriminate|]. injection Hl as Hl. cbn [put app].
  rewrite aset_mid by done. specialize (IH (l1 ++ [b]) l2 Hl). rewrite <- !app_assoc, length_app in IH. cbn [app length] in IH.
  rewrite <- IH. f_equal. lia.
Qed.
