(* ===== verification/Minic.v ===== *)
(** dev/minic.c: the driver of the mini-NIC, which exchanges Ethernet frames
    with the endpoint through two word FIFOs and timestamps them. *)
From Stdlib Require Import ZArith Lia.
From stdpp Require Import base numbers option list.
From S2P Require Import Prelude SpllHw PpsGen Bytes.

(** ** Registers (include/hw/minic_regs.h) and constants (include/dev/minic.h) *)
Inductive minic_reg := MCR | TX_FIFO | RX_FIFO | TSR0 | TSR1 | MINIC_EIC_IDR.

Definition MINIC_HDL_VERSION : Z := 1.
Definition MINIC_MCR_TX_START : Z := gen_mask 0 1.
Definition MINIC_MCR_TX_IDLE : Z := gen_mask 1 1.
Definition MINIC_MCR_TX_FULL : Z := gen_mask 4 1.
Definition MINIC_MCR_RX_EN : Z := gen_mask 10 1.
Definition MINIC_MCR_TX_TS_READY : Z := gen_mask 11 1.
Definition MINIC_MCR_RX_EMPTY : Z := gen_mask 12 1.
Definition MINIC_MCR_RX_FULL : Z := gen_mask 13 1.
Definition MINIC_MCR_VER_R (r : Z) : Z := gen_read r 24 4.
Definition MINIC_TX_FIFO_DAT_W (v : Z) : Z := gen_write v 0 16.
Definition MINIC_TX_FIFO_TYPE_W (v : Z) : Z := gen_write v 16 2.
Definition MINIC_RX_FIFO_DAT_R (r : Z) : Z := gen_read r 0 16.
Definition MINIC_RX_FIFO_TYPE_R (r : Z) : Z := gen_read r 16 2.
Definition MINIC_RX_FIFO_EMPTY : Z := gen_mask 30 1.
Definition MINIC_TSR0_VALID : Z := gen_mask 0 1.
Definition MINIC_TSR0_FID_R (r : Z) : Z := gen_read r 6 16.
Definition MINIC_EIC_IDR_TX : Z := gen_mask 0 1.
Definition MINIC_EIC_IDR_RX : Z := gen_mask 1 1.
Definition MINIC_EIC_IDR_TXTS : Z := gen_mask 2 1.

Definition ETH_HEADER_SIZE : Z := 14.
Definition ETH_ALEN : Z := 6.
Definition WRPC_FID : Z := 0.
Definition WRF_DATA : Z := 0.
Definition WRF_OOB : Z := 1.
Definition WRF_STATUS : Z := 2.
Definition WRF_BYTESEL : Z := 3.
Definition TX_OOB : Z := 4096.
Definition F_COUNTER_MASK : Z := 15.
Definition RX_STATUS_ERROR (d : Z) : bool := truth (Z.land d 2).
Definition RXOOB_TS_INCORRECT : Z := 2048.
Definition RX_OOB_SIZE : Z := 3.

(** struct hw_timestamp *)
Record hw_timestamp := mk_hwts {
  hw_valid : Z; hw_ahead : Z; hw_sec : Z; hw_nsec : Z; hw_phase : Z }.
#[export] Instance eta_hwts : Etable hw_timestamp := fun t =>
  mk_hwts (hw_valid t) (hw_ahead t) (hw_sec t) (hw_nsec t) (hw_phase t).

(** struct wr_minic, and the static [ver_supported]. *)
Record wr_minic := mk_minic {
  mn_base : Z; mn_tx_count : Z; mn_rx_count : Z; mn_rx_errors : Z; mn_ver_supported : Z }.
#[export] Instance eta_minic : Etable wr_minic := fun m =>
  mk_minic (mn_base m) (mn_tx_count m) (mn_rx_count m) (mn_rx_errors m) (mn_ver_supported m).

(** minic_readl and minic_writel at a base address, and [timer_delay_ms]. *)
Class MinicHW (W : Type) := {
  mrd : Z -> minic_reg -> M W Z;
  mwr : Z -> minic_reg -> Z -> M W unit;
  timer_delay_ms : Z -> M W unit
}.

(** The memory behind a [uint16_t *]: [p[i]] and [p[i] = v]. *)
Definition load16 `{Endian} (mem : list Z) (i : Z) : Z := value (sub mem (2 * i) 2).
Definition store16 `{Endian} (mem : list Z) (i v : Z) : list Z := put mem (2 * i) (image 2 v).

(** ** Reception *)

(** What [minic_rx_frame] has collected: [rx_hdr] and [rx_payload] are the
    memory behind the two pointers, which may extend past the buffers. *)
Record rx_state := mk_rx {
  rx_hdr_size : Z; rx_payload_size : Z; rx_hdr : list Z; rx_payload : list Z;
  rx_oob_cnt : Z; rx_oob_hdr : Z; rx_raw_ts : Z; rx_error : bool }.
#[export] Instance eta_rx : Etable rx_state := fun s =>
  mk_rx (rx_hdr_size s) (rx_payload_size s) (rx_hdr s) (rx_payload s)
        (rx_oob_cnt s) (rx_oob_hdr s) (rx_raw_ts s) (rx_error s).

Definition rx_start (hdr payload : list Z) : rx_state :=
  mk_rx 0 0 hdr payload 0 RXOOB_TS_INCORRECT 0 false.

(** The body of the [while (1)] loop for one word read from the FIFO; the
    boolean says whether the loop goes on. *)
Definition rx_word `{Endian} (buf_size rx : Z) (s : rx_state) : rx_state * bool :=
  let rx_type := MINIC_RX_FIFO_TYPE_R rx in
  let rx_data := MINIC_RX_FIFO_DAT_R rx in
  if truth (Z.land rx MINIC_RX_FIFO_EMPTY) then (s, false)
  else if (rx_type =? WRF_DATA) && (rx_hdr_size s <? ETH_HEADER_SIZE) then
    (s <| rx_hdr := store16 (rx_hdr s) (Z.shiftr (rx_hdr_size s) 1) (htons rx_data) |>
       <| rx_hdr_size := (rx_hdr_size s + 2)%uint |>, true)
  else if negb (rx_type =? WRF_STATUS) && (buf_size <? rx_payload_size s) then
    (s <| rx_payload_size := (rx_payload_size s + 2)%uint |>, true)
  else if rx_type =? WRF_DATA then
    (s <| rx_payload := store16 (rx_payload s) (Z.shiftr (rx_payload_size s) 1) (htons rx_data) |>
       <| rx_payload_size := (rx_payload_size s + 2)%uint |>, true)
  else if rx_type =? WRF_BYTESEL then
    (s <| rx_payload := store16 (rx_payload s) (Z.shiftr (rx_payload_size s) 1) (htons rx_data) |>
       <| rx_payload_size := (rx_payload_size s + 1)%uint |>, true)
  else if (rx_type =? WRF_STATUS) && (0 <? rx_hdr_size s) then
    (s <| rx_error := rx_error s || RX_STATUS_ERROR rx_data |>, false)
  else if rx_type =? WRF_OOB then
    (s <| rx_oob_hdr := if rx_oob_cnt s =? 0 then rx_data else rx_oob_hdr s |>
       <| rx_raw_ts := if rx_oob_cnt s =? 1 then u32 (Z.shiftl rx_data 16)
                       else if rx_oob_cnt s =? 2 then Z.lor (rx_raw_ts s) rx_data
                       else rx_raw_ts s |>
       <| rx_oob_cnt := (rx_oob_cnt s + 1)%uint |>, true)
  else (s, true).

(** EXPLODE_WR_TIMESTAMP *)
Definition EXPLODE_WR_TIMESTAMP (raw : Z) : Z * Z :=
  (Z.land raw 268435455, Z.land (Z.shiftr raw 28) 15).

Section minic.
Context `{Board, Endian} {W : Type} `{!PpsHW W, !MinicHW W}.

(** The time of the PPS generator; its loop ends within the rounds of the
    model ([shw_pps_gen_get_time_coherent]), so the default is never used. *)
Definition pps_time : M W (Z * Z) :=
  let! t := shw_pps_gen_get_time in ret (default (0, 0) t).

Definition minic_init (nic : wr_minic) (base : Z) : M W wr_minic :=
  let nic := nic <| mn_base := base |> in
  let! mcr := mrd base MCR in
  if negb (MINIC_MCR_VER_R mcr =? MINIC_HDL_VERSION) then ret (nic <| mn_ver_supported := 0 |>)
  else
    let nic := nic <| mn_ver_supported := 1 |> in
    mwr base MINIC_EIC_IDR (Z.lor (Z.lor MINIC_EIC_IDR_TX MINIC_EIC_IDR_RX) MINIC_EIC_IDR_TXTS) ;!
    mwr base MCR (Z.lor mcr MINIC_MCR_RX_EN) ;!
    ret nic.

Definition minic_disable (nic : wr_minic) : M W unit := mwr (mn_base nic) MCR 0.

Definition minic_poll_rx (nic : wr_minic) : M W Z :=
  if negb (truth (mn_ver_supported nic)) then ret 0
  else
    let! mcr := mrd (mn_base nic) MCR in
    ret (if truth (Z.land mcr MINIC_MCR_RX_EMPTY) then 0 else 1).

(** [while (1) { rx = minic_readl(RX_FIFO); ... }] *)
Fixpoint rx_loop (fuel : nat) (base buf_size : Z) (s : rx_state) : M W (option rx_state) :=
  match fuel with
  | O => ret None
  | S fuel =>
      let! rx := mrd base RX_FIFO in
      let '(s, continue) := rx_word buf_size rx s in
      if continue then rx_loop fuel base buf_size s else ret (Some s)
  end.

(** The second a timestamp of the running counter belongs to. *)
Definition hw_ts_sec (counter_r sec nsec : Z) : Z :=
  if (3 * REF_CLOCK_FREQ_HZ / 4 <? counter_r) && (nsec <? 250000000)
  then u64 (sec - 1) else sec.

(** The timestamp of a received frame. *)
Definition rx_timestamp (s : rx_state) (hwts : hw_timestamp) : M W hw_timestamp :=
  if (rx_oob_cnt s =? 0) || (RX_OOB_SIZE <? rx_oob_cnt s) then ret (hwts <| hw_valid := 0 |>)
  else
    let! t := pps_time in
    let '(sec, counter_ppsg) := t in
    let '(counter_r, counter_f) := EXPLODE_WR_TIMESTAMP (rx_raw_ts s) in
    let cntr_diff := s32 (Z.land counter_r F_COUNTER_MASK - counter_f) in
    ret (hwts <| hw_sec := hw_ts_sec counter_r sec counter_ppsg |>
              <| hw_ahead := b2z ((cntr_diff =? 1) || (cntr_diff =? - F_COUNTER_MASK)) |>
              <| hw_nsec := u32 (counter_r * (REF_CLOCK_PERIOD_PS / 1000)) |>
              <| hw_valid := if truth (Z.land (rx_oob_hdr s) RXOOB_TS_INCORRECT) then 0 else 1 |>).

(** [minic_rx_frame]: the driver, the header and payload memory, the timestamp
    and the return value; [None] when the loop ran out of fuel. *)
Definition minic_rx_frame (fuel : nat) (nic : wr_minic) (hdr payload : list Z) (buf_size : Z)
    (hwts : hw_timestamp) : M W (option (wr_minic * list Z * list Z * hw_timestamp * Z)) :=
  if negb (truth (mn_ver_supported nic)) then ret (Some (nic, hdr, payload, hwts, 0))
  else
    let! mcr := mrd (mn_base nic) MCR in
    if truth (Z.land mcr MINIC_MCR_RX_EMPTY) then ret (Some (nic, hdr, payload, hwts, 0))
    else
      let! r := rx_loop fuel (mn_base nic) buf_size (rx_start hdr payload) in
      match r with
      | None => ret None
      | Some s =>
          let! hwts := rx_timestamp s hwts in
          if rx_error s then
            ret (Some (nic <| mn_rx_errors := (mn_rx_errors nic + 1)%uint |>,
                       rx_hdr s, rx_payload s, hwts, -1))
          else
            let! _ := mrd (mn_base nic) MCR in
            ret (Some (nic <| mn_rx_count := (mn_rx_count nic + 1)%uint |>,
                       rx_hdr s, rx_payload s, hwts,
                       s32 (if buf_size <? rx_payload_size s then buf_size else rx_payload_size s)))
      end.

(** ** Transmission *)

(** minic_txword *)
Definition tx_fifo_word (type word : Z) : Z :=
  Z.lor (MINIC_TX_FIFO_TYPE_W type) (MINIC_TX_FIFO_DAT_W word).
Definition minic_txword (nic : wr_minic) (type word : Z) : M W unit :=
  mwr (mn_base nic) TX_FIFO (tx_fifo_word type word).

(** The header size and the size of the padded payload. *)
Definition tx_hsize (hdr : list Z) : Z := if load16 hdr 6 =? htons 33024 then 18 else 14.
Definition tx_size (hdr : list Z) (size : Z) : Z :=
  if u32 (size + tx_hsize hdr) <? 60 then 60 - tx_hsize hdr else size.

(** The words of a frame, in the order they are written. *)
Definition tx_words (hdr payload : list Z) (size : Z) (oob : bool) : list (Z * Z) :=
  let size' := tx_size hdr size in
  [(WRF_STATUS, 0)] ++
  ((fun i => (WRF_DATA, htons (load16 hdr i))) <$> range (Z.shiftr (tx_hsize hdr) 1)) ++
  ((fun i => (WRF_DATA, htons (load16 payload i))) <$> range (Z.shiftr size' 1)) ++
  (if truth (Z.land size' 1) then [(WRF_BYTESEL, htons (load16 payload (Z.shiftr size' 1)))] else []) ++
  (if oob then [(WRF_OOB, TX_OOB); (WRF_OOB, WRPC_FID)] else []).

(** [for (i = 0; i < n; ++i) { mcr = ...; if (mcr & mask) break; delay }]: the
    boolean is [i == n]. *)
Fixpoint wait_mcr (n : nat) (base mask : Z) : M W bool :=
  match n with
  | O => ret true
  | S n =>
      let! mcr := mrd base MCR in
      if truth (Z.land mcr mask) then ret false
      else timer_delay_ms 1 ;! wait_mcr n base mask
  end.

(** The timestamp of a sent frame. *)
Definition tx_timestamp (nic : wr_minic) (hwts : hw_timestamp) : M W hw_timestamp :=
  let base := mn_base nic in
  let! late := wait_mcr 100 base MINIC_MCR_TX_TS_READY in
  let! ts_valid := if late then ret 0
                   else let! v := mrd base TSR0 in ret (Z.land v MINIC_TSR0_VALID) in
  let! raw_ts := mrd base TSR1 in
  let! _ := mrd base TSR0 in
  let '(counter_r, _) := EXPLODE_WR_TIMESTAMP raw_ts in
  let! t := pps_time in
  let '(sec, nsec) := t in
  ret (hwts <| hw_valid := u8 ts_valid |> <| hw_sec := hw_ts_sec counter_r sec nsec |>
            <| hw_ahead := 0 |> <| hw_nsec := u32 (counter_r * (REF_CLOCK_PERIOD_PS / 1000)) |>).

(** [minic_tx_frame]: [hwts] is [None] for a null pointer. *)
Definition minic_tx_frame (nic : wr_minic) (hdr payload : list Z) (size : Z)
    (hwts : option hw_timestamp) : M W (wr_minic * option hw_timestamp * Z) :=
  if negb (truth (mn_ver_supported nic)) then ret (nic, hwts, 0)
  else
    let base := mn_base nic in
    let! _ := foldM (fun _ '(type, word) => minic_txword nic type word)
                    (tx_words hdr payload size (bool_decide (is_Some hwts))) tt in
    let! mcr := mrd base MCR in
    mwr base MCR (Z.lor mcr MINIC_MCR_TX_START) ;!
    let! _ := wait_mcr 1000 base MINIC_MCR_TX_IDLE in
    match hwts with
    | None => ret (nic, None, s32 (tx_size hdr size))
    | Some h =>
        let! h := tx_timestamp nic h in
        ret (nic <| mn_tx_count := (mn_tx_count nic + 1)%uint |>, Some h, s32 (tx_size hdr size))
    end.

Definition minic_get_stats (nic : wr_minic) : Z * Z * Z :=
  (s32 (mn_tx_count nic), s32 (mn_rx_count nic), s32 (mn_rx_errors nic)).
End minic.

(** ** The words of the FIFOs *)
Section words.
Context `{Endian}.

Lemma tx_fifo_word_eq t d : 0 <= t < 4 -> 0 <= d < 65536 -> tx_fifo_word t d = d + t * 65536.
Proof.
  intros Ht Hd. unfold tx_fifo_word, MINIC_TX_FIFO_TYPE_W, MINIC_TX_FIFO_DAT_W, gen_write.
  rewrite !u32_small by inrange.
  change (Z.shiftl 1 2 - 1) with (Z.ones 2). change (Z.shiftl 1 16 - 1) with (Z.ones 16).
  rewrite !Z.land_ones, Z.shiftl_0_r by lia. rewrite !Z.mod_small by lia.
  rewrite Z.lor_comm, lor_shiftl by lia. done.
Qed.

Lemma rx_fields t d : 0 <= t < 4 -> 0 <= d < 65536 ->
  MINIC_RX_FIFO_TYPE_R (tx_fifo_word t d) = t /\ MINIC_RX_FIFO_DAT_R (tx_fifo_word t d) = d /\
  truth (Z.land (tx_fifo_word t d) MINIC_RX_FIFO_EMPTY) = false.
Proof.
  intros Ht Hd. rewrite tx_fifo_word_eq by done.
  unfold MINIC_RX_FIFO_TYPE_R, MINIC_RX_FIFO_DAT_R, MINIC_RX_FIFO_EMPTY, gen_read, gen_mask.
  change (Z.shiftl 1 2 - 1) with (Z.ones 2). change (Z.shiftl 1 16 - 1) with (Z.ones 16).
  change (Z.shiftl (Z.shiftl 1 1 - 1) 30) with (2 ^ 30).
  rewrite !Z.land_ones, !Z.shiftr_div_pow2, land_pow2 by lia.
  assert (Hb : Z.testbit (d + t * 65536) 30 = false).
  { apply Z.testbit_false; [lia|]. by rewrite Z.div_small by lia. }
  split_and!.
  - change (2 ^ 16) with 65536. change (2 ^ 2) with 4. rewrite Z.div_add, Z.div_small by lia.
    rewrite Z.mod_small; lia.
  - change (2 ^ 0) with 1. rewrite Z.div_1_r. change (2 ^ 16) with 65536.
    rewrite Z.mod_add, Z.mod_small; lia.
  - by rewrite Hb.
Qed.

(** The receiver on the list of words of the FIFO. *)
Fixpoint rx_words (buf_size : Z) (ws : list Z) (s : rx_state) : rx_state :=
  match ws with
  | [] => s
  | w :: ws => let '(s, continue) := rx_word buf_size w s in
               if continue then rx_words buf_size ws s else s
  end.

(** The state after the bytes [acc] of a frame: the header holds the first
    fourteen, the payload the others. *)
Record got (s : rx_state) (acc : list Z) : Prop := {
  got_hsize : rx_hdr_size s = Z.min (Z.of_nat (length acc)) 14;
  got_psize : rx_payload_size s = Z.max 0 (Z.of_nat (length acc) - 14);
  got_hlen : length (rx_hdr s) = 14%nat;
  got_hdr : sub (rx_hdr s) 0 (rx_hdr_size s) = take 14 acc;
  got_payload : sub (rx_payload s) 0 (rx_payload_size s) = drop 14 acc;
  got_noerr : rx_error s = false
}.

Lemma store16_htons mem i d : 0 <= d < 65536 ->
  store16 mem i (htons d) = put mem (2 * i) [d / 256; d mod 256].
Proof. intros Hd. unfold store16. by rewrite image_htons. Qed.

(** Appending to the front part of a byte array. *)
Lemma sub_append mem n l :
  0 <= n -> n + Z.of_nat (length l) <= Z.of_nat (length mem) ->
  sub (put mem n l) 0 (n + Z.of_nat (length l)) = sub mem 0 n ++ l.
Proof.
  intros Hn Hl. rewrite sub_app by lia. rewrite sub_put_ne by lia.
  rewrite Z.add_0_l, sub_put_eq; done.
Qed.

Lemma got_data s acc d buf_size :
  got s acc -> Nat.Even (length acc) -> 0 <= d < 65536 ->
  Z.of_nat (length acc) - 14 <= buf_size -> Z.of_nat (length acc) - 12 <= Z.of_nat (length (rx_payload s)) ->
  buf_size < 2 ^ 31 ->
  exists s', rx_word buf_size (tx_fifo_word WRF_DATA d) s = (s', true) /\
    got s' (acc ++ [d / 256; d mod 256]) /\ length (rx_payload s') = length (rx_payload s).
Proof.
  intros [Hh Hp Hlen Hhdr Hpay Herr] [k Hk] Hd Hbuf Hmem Hmax. unfold rx_word.
  destruct (rx_fields WRF_DATA d) as (-> & -> & ->); [unfold WRF_DATA; lia|done|].
  change (WRF_DATA =? WRF_DATA) with true. change (WRF_DATA =? WRF_STATUS) with false.
  unfold ETH_HEADER_SIZE. cbn [andb negb]. rewrite !store16_htons by done.
  rewrite !Z.shiftr_div_pow2 by lia. change (2 ^ 1) with 2.
  destruct (Z.ltb_spec (rx_hdr_size s) 14).
  - eexists. split; [reflexivity|]. split; [|done].
    assert (E : 2 * (rx_hdr_size s / 2) = Z.of_nat (length acc)) by (Z.to_euclidean_division_equations; lia).
    rewrite E. unfold uadd. rewrite u32_small by inrange.
    assert (Hs : rx_hdr_size s = Z.of_nat (length acc)) by lia.
    split; cbn [rx_hdr_size rx_payload_size rx_hdr rx_payload rx_error upd];
      rewrite ?length_app, ?length_put; cbn [length]; try lia; try done.
    + rewrite Hs in *. change 2 with (Z.of_nat (length [d / 256; d mod 256])).
      rewrite sub_append by (cbn [length]; lia). rewrite Hhdr.
      rewrite !take_ge by (rewrite ?length_app; cbn [length]; lia). done.
    + replace (rx_payload_size s) with 0 in * by lia.
      rewrite drop_ge by (rewrite length_app; cbn [length]; lia). done.
  - assert (Hs : rx_hdr_size s = 14) by lia. assert (Hps : rx_payload_size s = Z.of_nat (length acc) - 14) by lia.
    destruct (Z.ltb_spec buf_size (rx_payload_size s)); [lia|].
    eexists. split; [reflexivity|]. cbn [rx_payload upd]. rewrite length_put. split; [|done].
    assert (E : 2 * (rx_payload_size s / 2) = rx_payload_size s) by (Z.to_euclidean_division_equations; lia).
    rewrite E. unfold uadd. rewrite u32_small by inrange.
    split; cbn [rx_hdr_size rx_payload_size rx_hdr rx_payload rx_error upd];
      rewrite ?length_app; cbn [length]; try lia; try done.
    + rewrite take_app_le by lia. done.
    + change 2 with (Z.of_nat (length [d / 256; d mod 256])) at 1.
      rewrite sub_append by (cbn [length]; lia). rewrite Hpay.
      rewrite drop_app_le by lia. done.
Qed.
End words.

(** ** Loopback *)
Section loopback.
Context `{Endian}.

Lemma htons_load16 mem i : bytes mem ->
  htons (load16 mem i) = aget 0 mem (2 * i) * 256 + aget 0 mem (2 * i + 1).
Proof.
  intros Hm. unfold load16. change (sub mem (2 * i) 2) with
    [aget 0 mem (2 * i + 0); aget 0 mem (2 * i + 1)].
  rewrite Z.add_0_r. apply htons_value; by apply bytes_aget.
Qed.

Lemma word_bytes b0 b1 : is_byte b0 -> is_byte b1 ->
  0 <= b0 * 256 + b1 < 65536 /\ (b0 * 256 + b1) / 256 = b0 /\ (b0 * 256 + b1) mod 256 = b1.
Proof. unfold is_byte. intros H0 H1. Z.to_euclidean_division_equations. lia. Qed.

(** *** Parts of a frame *)
Definition fifo (ws : list (Z * Z)) : list Z := (fun '(t, d) => tx_fifo_word t d) <$> ws.

(** The receiver goes through the words [ws] and on to what follows. *)
Definition consumes (buf_size : Z) (ws : list (Z * Z)) (s s' : rx_state) : Prop :=
  forall rest, rx_words buf_size (fifo ws ++ rest) s = rx_words buf_size rest s'.

Lemma consumes_app buf_size ws1 ws2 s s1 s2 :
  consumes buf_size ws1 s s1 -> consumes buf_size ws2 s1 s2 -> consumes buf_size (ws1 ++ ws2) s s2.
Proof.
  intros H1 H2 rest. unfold fifo. rewrite fmap_app, <- app_assoc.
  change (_ <$> ws1) with (fifo ws1). by rewrite H1, H2.
Qed.
Lemma consumes_word buf_size t d s s' :
  rx_word buf_size (tx_fifo_word t d) s = (s', true) -> consumes buf_size [(t, d)] s s'.
Proof. intros E rest. cbn [fifo fmap list_fmap app rx_words]. by rewrite E. Qed.

(** [receives ws bs]: the words [ws] append the bytes [bs] to any frame of an
    even length so far that still fits the buffer. *)
Definition receives (buf_size : Z) (ws : list (Z * Z)) (bs : list Z) : Prop :=
  forall s acc, got s acc -> Nat.Even (length acc) ->
    Z.of_nat (length acc + length bs) - 14 <= buf_size < Z.of_nat (length (rx_payload s)) ->
    exists s', consumes buf_size ws s s' /\ got s' (acc ++ bs) /\
      length (rx_payload s') = length (rx_payload s).

Lemma receives_app buf_size ws1 bs1 ws2 bs2 :
  receives buf_size ws1 bs1 -> Nat.Even (length bs1) -> receives buf_size ws2 bs2 ->
  receives buf_size (ws1 ++ ws2) (bs1 ++ bs2).
Proof.
  intros H1 He1 H2 s acc Hg He Hb. rewrite length_app in Hb.
  destruct (H1 s acc Hg He) as (s1 & Hc1 & Hg1 & Hl1); [lia|].
  destruct (H2 s1 (acc ++ bs1) Hg1) as (s2 & Hc2 & Hg2 & Hl2).
  - rewrite length_app. destruct He as [i ?], He1 as [j ?]. exists (i + j)%nat. lia.
  - rewrite length_app, Hl1. lia.
  - exists s2. rewrite app_assoc. split; [by eapply consumes_app|]. split; [done|congruence].
Qed.

(** Pairs of bytes of a memory. *)
Lemma receives_pairs buf_size mem n : bytes mem -> buf_size < 2 ^ 31 -> forall k,
  receives buf_size ((fun i => (WRF_DATA, htons (load16 mem i))) <$> (Z.of_nat <$> seq k n))
    (sub mem (2 * Z.of_nat k) (2 * Z.of_nat n)).
Proof.
  intros Hm Hmax. induction n as [|n IH]; intros k.
  { intros s acc Hg _ _. exists s. cbn. by rewrite app_nil_r. }
  replace (2 * Z.of_nat (S n)) with (2 + 2 * Z.of_nat n) by lia. rewrite sub_app by lia.
  replace (2 * Z.of_nat k + 2) with (2 * Z.of_nat (S k)) by lia. cbn [seq fmap list_fmap].
  match goal with |- receives _ (?w :: ?ws) _ => change (w :: ws) with ([w] ++ ws) end.
  apply receives_app; [|by exists 1%nat|apply IH].
  intros s acc Hg He Hb. rewrite length_sub in Hb. rewrite htons_load16 by done.
  destruct (word_bytes (aget 0 mem (2 * Z.of_nat k)) (aget 0 mem (2 * Z.of_nat k + 1)))
    as (Hr & H0 & H1); [by apply bytes_aget..|].
  destruct (got_data s acc _ buf_size Hg He Hr) as (s1 & Hw & Hg1 & Hl1); [lia..|].
  exists s1. split; [by apply consumes_word|]. split; [|done]. rewrite H0, H1 in Hg1.
  change (sub mem (2 * Z.of_nat k) 2) with
    [aget 0 mem (2 * Z.of_nat k + 0); aget 0 mem (2 * Z.of_nat k + 1)]. by rewrite Z.add_0_r.
Qed.

(** The last, odd byte. *)
Lemma got_bytesel s acc d buf_size :
  got s acc -> Nat.Even (length acc) -> (14 <= length acc)%nat -> 0 <= d < 65536 ->
  Z.of_nat (length acc) + 1 - 14 <= buf_size -> buf_size < Z.of_nat (length (rx_payload s)) ->
  buf_size < 2 ^ 31 ->
  exists s', rx_word buf_size (tx_fifo_word WRF_BYTESEL d) s = (s', true) /\
    got s' (acc ++ [d / 256]).
Proof.
  intros [Hh Hp Hlen Hhdr Hpay Herr] [k Hk] H14 Hd Hbuf Hmem Hmax. unfold rx_word.
  destruct (rx_fields WRF_BYTESEL d) as (-> & -> & ->); [unfold WRF_BYTESEL; lia|done|].
  change (WRF_BYTESEL =? WRF_DATA) with false. change (WRF_BYTESEL =? WRF_STATUS) with false.
  change (WRF_BYTESEL =? WRF_BYTESEL) with true. cbn [andb negb]. rewrite !store16_htons by done.
  rewrite !Z.shiftr_div_pow2 by lia. change (2 ^ 1) with 2.
  assert (Hps : rx_payload_size s = Z.of_nat (length acc) - 14) by lia.
  destruct (Z.ltb_spec buf_size (rx_payload_size s)); [lia|].
  eexists. split; [reflexivity|].
  assert (E : 2 * (rx_payload_size s / 2) = rx_payload_size s) by (Z.to_euclidean_division_equations; lia).
  rewrite E. unfold uadd. rewrite u32_small by inrange.
  split; cbn [rx_hdr_size rx_payload_size rx_hdr rx_payload rx_error upd];
    rewrite ?length_app; cbn [length]; try lia; try done.
  - rewrite take_app_le by lia. done.
  - rewrite drop_app_le by lia. rewrite <- Hpay.
    change [d / 256; d mod 256] with ([d / 256] ++ [d mod 256]). rewrite put_app, sub_put_ne by
      (rewrite ?length_put; cbn [length]; lia).
    change 1 with (Z.of_nat (length [d / 256])) at 1. apply sub_append; cbn [length]; lia.
Qed.

(** The payload, with its odd byte. *)
Lemma receives_payload buf_size mem size s acc : bytes mem -> buf_size < 2 ^ 31 -> 0 <= size ->
  got s acc -> Nat.Even (length acc) -> (14 <= length acc)%nat ->
  Z.of_nat (length acc) + size - 14 <= buf_size < Z.of_nat (length (rx_payload s)) ->
  exists s', consumes buf_size
      (((fun i => (WRF_DATA, htons (load16 mem i))) <$> range (Z.shiftr size 1)) ++
       (if truth (Z.land size 1) then [(WRF_BYTESEL, htons (load16 mem (Z.shiftr size 1)))] else [])) s s' /\
    got s' (acc ++ sub mem 0 size).
Proof.
  intros Hm Hmax Hs Hg He H14 Hb. rewrite Z.shiftr_div_pow2 by lia. change (2 ^ 1) with 2.
  change 1 with (Z.ones 1). rewrite Z.land_ones by lia. change (2 ^ 1) with 2.
  pose proof (Z.div_mod size 2 ltac:(lia)) as Hd. pose proof (Z.mod_pos_bound size 2 ltac:(lia)) as Hr.
  set (h := size / 2) in *. assert (Hh : 0 <= h) by (apply Z.div_pos; lia). clearbody h.
  destruct (receives_pairs buf_size mem (Z.to_nat h) Hm Hmax 0 s acc Hg He) as (s1 & Hc1 & Hg1 & Hl1).
  { rewrite length_sub. lia. }
  rewrite Z2Nat.id in Hg1 by lia. change (2 * Z.of_nat 0) with 0 in Hg1.
  destruct (truth_spec (size mod 2)).
  - assert (Hlen : length (acc ++ sub mem 0 (2 * h)) = (length acc + Z.to_nat (2 * h))%nat)
      by (by rewrite length_app, length_sub).
    rewrite htons_load16 by done.
    destruct (word_bytes (aget 0 mem (2 * h)) (aget 0 mem (2 * h + 1))) as (Hw & H0 & _);
      [by apply bytes_aget..|].
    assert (He2 : Nat.Even (length (acc ++ sub mem 0 (2 * h)))).
    { destruct He as [j Hj]. exists (j + Z.to_nat h)%nat. lia. }
    destruct (got_bytesel s1 _ (aget 0 mem (2 * h) * 256 + aget 0 mem (2 * h + 1)) buf_size Hg1 He2)
      as (s2 & Hw2 & Hg2); [lia..|].
    exists s2. split; [eapply consumes_app; [exact Hc1|by apply consumes_word]|].
    rewrite H0, <- app_assoc in Hg2. replace size with (2 * h + 1) by lia. rewrite sub_app by lia.
    change (sub mem (0 + 2 * h) 1) with [aget 0 mem (0 + 2 * h + 0)].
    by rewrite Z.add_0_l, Z.add_0_r.
  - exists s1. rewrite app_nil_r. split; [exact Hc1|]. by replace size with (2 * h) by lia.
Qed.

(** Out-of-band words leave the frame alone. *)
Lemma got_oob s acc d buf_size :
  got s acc -> (14 <= length acc)%nat -> 0 <= d < 65536 -> Z.of_nat (length acc) - 14 <= buf_size ->
  exists s', consumes buf_size [(WRF_OOB, d)] s s' /\ got s' acc.
Proof.
  intros [Hh Hp Hlen Hhdr Hpay Herr] H14 Hd Hb.
  assert (exists s', rx_word buf_size (tx_fifo_word WRF_OOB d) s = (s', true) /\ got s' acc)
    as (s' & Hw & Hg); [|exists s'; split; [by apply consumes_word|done]].
  unfold rx_word. destruct (rx_fields WRF_OOB d) as (-> & -> & ->); [unfold WRF_OOB; lia|done|].
  change (WRF_OOB =? WRF_DATA) with false. change (WRF_OOB =? WRF_STATUS) with false.
  change (WRF_OOB =? WRF_BYTESEL) with false. change (WRF_OOB =? WRF_OOB) with true.
  cbn [andb negb]. destruct (Z.ltb_spec buf_size (rx_payload_size s)); [lia|].
  eexists. split; [reflexivity|]. by split.
Qed.

(** The words of a whole frame, received from the initial state. *)
Lemma rx_tx_words hdr payload size oob hdr0 buf buf_size :
  bytes hdr -> bytes payload -> 0 <= size -> length hdr0 = 14%nat ->
  tx_hsize hdr - 14 + tx_size hdr size <= buf_size < Z.of_nat (length buf) -> buf_size < 2 ^ 31 ->
  exists s, consumes buf_size (tx_words hdr payload size oob) (rx_start hdr0 buf) s /\
    got s (sub hdr 0 (tx_hsize hdr) ++ sub payload 0 (tx_size hdr size)).
Proof.
  intros Hh Hp Hs H0 Hb Hmax. unfold tx_words. cbv zeta.
  set (hs := tx_hsize hdr) in *. set (sz := tx_size hdr size) in *.
  assert (Hhs : hs = 14 \/ hs = 18) by (unfold hs, tx_hsize; case_match; auto).
  assert (Hsz : 0 <= sz) by (unfold sz, tx_size; fold hs; case_match; lia).
  assert (Ehs : 2 * Z.of_nat (Z.to_nat (Z.shiftr hs 1)) = hs) by (by destruct Hhs as [-> | ->]).
  assert (Hc0 : consumes buf_size [(WRF_STATUS, 0)] (rx_start hdr0 buf) (rx_start hdr0 buf))
    by (by apply consumes_word).
  assert (Hg0 : got (rx_start hdr0 buf) []) by (by split).
  destruct (receives_pairs buf_size hdr (Z.to_nat (Z.shiftr hs 1)) Hh Hmax 0 _ _ Hg0) as (s1 & Hc1 & Hg1 & Hl1).
  { by exists 0%nat. }
  { rewrite Ehs, length_sub. cbn [length rx_payload rx_start]. lia. }
  change (2 * Z.of_nat 0) with 0 in Hg1. rewrite Ehs in Hg1. cbn [app] in Hg1.
  assert (Hlh : length (sub hdr 0 hs) = Z.to_nat hs) by apply length_sub.
  destruct (receives_payload buf_size payload sz s1 _ Hp Hmax Hsz Hg1) as (s2 & Hc2 & Hg2).
  { rewrite Hlh. destruct Hhs as [-> | ->]; [by exists 7%nat|by exists 9%nat]. }
  { rewrite Hlh. lia. }
  { rewrite Hlh, Hl1. cbn [rx_payload rx_start]. lia. }
  assert (Hlen : length (sub hdr 0 hs ++ sub payload 0 sz) = Z.to_nat (hs + sz))
    by (rewrite length_app, !length_sub; lia).
  destruct (got_oob s2 _ TX_OOB buf_size Hg2) as (s3 & Hc3 & Hg3); [lia|by unfold TX_OOB|lia|].
  destruct (got_oob s3 _ WRPC_FID buf_size Hg3) as (s4 & Hc4 & Hg4); [lia|by unfold WRPC_FID|lia|].
  exists (if oob then s4 else s2). split; [|by destruct oob].
  eapply consumes_app; [exact Hc0|]. eapply consumes_app; [exact Hc1|]. rewrite app_assoc.
  eapply consumes_app; [exact Hc2|]. destruct oob; [|by intros rest].
  exact (consumes_app _ [_] [_] _ _ _ Hc3 Hc4).
Qed.
End loopback.

(** ** The FIFOs of the hardware

    The words waiting in the receive FIFO of the NIC at a base address and the
    words written to its transmit FIFO so far. *)
Class MinicObs (W : Type) := {
  rx_fifo : W -> Z -> list Z;
  tx_log : W -> Z -> list Z
}.

Definition minic_quiet {W} `{!MinicObs W} (w w' : W) : Prop :=
  rx_fifo w' = rx_fifo w /\ tx_log w' = tx_log w.

(** A read of RX_FIFO takes the first word, or has the EMPTY bit set when there
    is none; the RX_EMPTY bit of MCR says which; a write to TX_FIFO appends a
    word; no other access moves the FIFOs. *)
Class MinicLaws (W : Type) `{!PpsHW W, !MinicHW W, !MinicObs W} : Prop := {
  law_rx_pop base w x xs : rx_fifo w base = x :: xs ->
    ensures (mrd base RX_FIFO) w (fun v w' => v = x /\ rx_fifo w' base = xs);
  law_rx_none base w : rx_fifo w base = [] ->
    ensures (mrd base RX_FIFO) w (fun v _ => truth (Z.land v MINIC_RX_FIFO_EMPTY) = true);
  law_mcr_empty base w : ensures (mrd base MCR) w (fun v _ =>
    truth (Z.land v MINIC_MCR_RX_EMPTY) = bool_decide (rx_fifo w base = []));
  law_mrd_quiet base r w : r <> RX_FIFO -> ensures (mrd base r) w (fun _ w' => minic_quiet w w');
  law_tx base v w : ensures (mwr base TX_FIFO v) w (fun _ w' => tx_log w' base = tx_log w base ++ [v]);
  law_mwr_quiet base r v w : r <> TX_FIFO -> ensures (mwr base r v) w (fun _ w' => minic_quiet w w');
  law_delay_quiet n w : ensures (timer_delay_ms n) w (fun _ w' => minic_quiet w w');
  law_pps_quiet r w : ensures (ppsg_read r) w (fun _ w' => minic_quiet w w')
}.

Section hw_lemmas.
Context `{Board, Endian} {W : Type} `{!PpsHW W, !MinicHW W, !MinicObs W, !MinicLaws W}.
Implicit Types (w : W).

(** A computation that leaves the FIFOs alone. *)
Definition quietly {A} (m : M W A) : Prop := forall w, ensures m w (fun _ w' => minic_quiet w w').

Lemma quietly_ret {A} (a : A) : quietly (ret a).
Proof. intros w. done. Qed.
Lemma quietly_bind {A B} (m : M W A) (k : A -> M W B) :
  quietly m -> (forall a, quietly (k a)) -> quietly (bind m k).
Proof.
  intros Hm Hk w. apply ensures_bind. eapply ensures_mono; [apply Hm|]. intros a w1 [E1 E2].
  eapply ensures_mono; [apply Hk|]. intros b w2 [E3 E4]. split; congruence.
Qed.
Lemma quietly_mrd base r : r <> RX_FIFO -> quietly (mrd base r).
Proof. intros Hr w. by apply law_mrd_quiet. Qed.
Lemma quietly_mwr base r v : r <> TX_FIFO -> quietly (mwr base r v).
Proof. intros Hr w. by apply law_mwr_quiet. Qed.
Lemma quietly_delay n : quietly (timer_delay_ms n).
Proof. intros w. apply law_delay_quiet. Qed.
Lemma quietly_pps r : quietly (ppsg_read r).
Proof. intros w. apply law_pps_quiet. Qed.
#[local] Hint Resolve quietly_ret quietly_delay quietly_pps : core.

Lemma quietly_utc : quietly pps_get_utc.
Proof. unfold pps_get_utc. repeat (apply quietly_bind; [done|intros ?]). done. Qed.
Lemma quietly_pps_time : quietly pps_time.
Proof.
  unfold pps_time, shw_pps_gen_get_time, get_time_loop, get_time_round.
  pose proof quietly_utc. repeat first
    [apply quietly_ret | apply quietly_bind; [|intros ?] | done | case_match].
Qed.
Lemma quietly_wait n base mask : quietly (wait_mcr n base mask).
Proof.
  induction n as [|n IH]; cbn [wait_mcr]; [done|].
  apply quietly_bind; [by apply quietly_mrd|intros mcr]. case_match; [done|].
  by apply quietly_bind; [|intros ?].
Qed.
Lemma quietly_tx_timestamp nic h : quietly (tx_timestamp nic h).
Proof.
  unfold tx_timestamp. cbv zeta.
  apply quietly_bind; [apply quietly_wait|intros late].
  apply quietly_bind.
  { destruct late; [done|]. apply quietly_bind; [by apply quietly_mrd|done]. }
  intros v. apply quietly_bind; [by apply quietly_mrd|intros raw].
  apply quietly_bind; [by apply quietly_mrd|intros _]. destruct (EXPLODE_WR_TIMESTAMP raw).
  apply quietly_bind; [apply quietly_pps_time|]. by intros [].
Qed.

(** Writing a list of words. *)
Lemma txwords_spec nic ws w :
  ensures (foldM (fun _ '(t, d) => minic_txword nic t d) ws tt) w
    (fun _ w' => tx_log w' (mn_base nic) = tx_log w (mn_base nic) ++ fifo ws).
Proof.
  revert w. induction ws as [|[t d] ws IH]; intros w; cbn [foldM].
  { apply ensures_ret. by rewrite app_nil_r. }
  apply ensures_bind. eapply ensures_mono; [apply law_tx|]. intros [] w1 E1.
  eapply ensures_mono; [apply IH|]. intros ? w2 E2. rewrite E2, E1, <- app_assoc. done.
Qed.

(** [minic_tx_frame] writes the words of the frame. *)
Lemma minic_tx_frame_words nic hdr payload size hwts w :
  mn_ver_supported nic = 1 ->
  ensures (minic_tx_frame nic hdr payload size hwts) w (fun _ w' =>
    tx_log w' (mn_base nic) = tx_log w (mn_base nic) ++
      fifo (tx_words hdr payload size (bool_decide (is_Some hwts)))).
Proof.
  intros Hv. unfold minic_tx_frame. rewrite Hv. cbn [truth Z.eqb negb]. cbv zeta.
  apply ensures_bind. eapply ensures_mono; [apply txwords_spec|]. intros [] w1 E1. rewrite <- E1.
  match goal with |- ensures ?m _ _ => assert (Hq : quietly m) end.
  { apply quietly_bind; [by apply quietly_mrd|intros mcr].
    apply quietly_bind; [by apply quietly_mwr|intros _].
    apply quietly_bind; [apply quietly_wait|intros _]. destruct hwts; [|done].
    apply quietly_bind; [apply quietly_tx_timestamp|done]. }
  eapply ensures_mono; [apply Hq|]. intros ? w2 [? E2]. by rewrite E2.
Qed.

(** The receive loop processes the waiting words and ends. *)
Lemma rx_loop_spec fuel base buf_size s w :
  (length (rx_fifo w base) < fuel)%nat ->
  ensures (rx_loop fuel base buf_size s) w (fun r _ =>
    r = Some (rx_words buf_size (rx_fifo w base) s)).
Proof.
  revert s w. induction fuel as [|fuel IH]; intros s w Hf; [lia|]. cbn [rx_loop].
  apply ensures_bind. destruct (rx_fifo w base) as [|x xs] eqn:E.
  - eapply ensures_mono; [by apply law_rx_none|]. intros v w1 Hv. unfold rx_word. by rewrite Hv.
  - eapply ensures_mono; [by apply law_rx_pop|]. intros v w1 [-> E1]. cbn [rx_words].
    destruct (rx_word buf_size x s) as [s' []]; [|done].
    rewrite <- E1. apply IH. rewrite E1. cbn in Hf. lia.
Qed.

(** [minic_rx_frame] on a FIFO that is not empty. *)
Lemma minic_rx_frame_words fuel nic hdr payload buf_size hwts w :
  mn_ver_supported nic = 1 -> rx_fifo w (mn_base nic) <> [] ->
  (length (rx_fifo w (mn_base nic)) < fuel)%nat ->
  ensures (minic_rx_frame fuel nic hdr payload buf_size hwts) w (fun r _ =>
    let s := rx_words buf_size (rx_fifo w (mn_base nic)) (rx_start hdr payload) in
    exists nic' hwts', r = Some (nic', rx_hdr s, rx_payload s, hwts',
      if rx_error s then -1
      else s32 (if buf_size <? rx_payload_size s then buf_size else rx_payload_size s))).
Proof.
  intros Hv Hne Hf. unfold minic_rx_frame. rewrite Hv. cbn [truth Z.eqb negb].
  apply ensures_bind. eapply ensures_mono.
  { apply ensures_and; [apply law_mcr_empty|by apply law_mrd_quiet]. }
  intros mcr w1 [-> [E1 ?]]. rewrite bool_decide_eq_false_2 by done. rewrite <- E1 in Hf |- *.
  apply ensures_bind. eapply ensures_mono; [by apply rx_loop_spec|]. intros r w2 ->. cbv zeta.
  apply ensures_skip. intros h w3. destruct (rx_error _).
  - apply ensures_ret. eauto.
  - apply ensures_skip. intros _ w4. apply ensures_ret. eauto.
Qed.
End hw_lemmas.

(** ** Frames go through unchanged *)
Section theorems.
Context `{Board, Endian} {W : Type} `{!PpsHW W, !MinicHW W, !MinicObs W, !MinicLaws W}.

(** C7. Loopback: the words [minic_tx_frame] writes for any header (with or
    without a VLAN tag) and any payload, read back by [minic_rx_frame] through
    a buffer that holds them, give the same bytes: fourteen of header and the
    rest, padded to the minimal frame, of payload.  Odd lengths, both byte
    orders and the out-of-band words included. *)
Theorem minic_loopback nic nic2 hdr payload size h h2 hdr0 buf buf_size fuel (w : W) :
  mn_ver_supported nic = 1 -> mn_ver_supported nic2 = 1 ->
  bytes hdr -> bytes payload -> 0 <= size -> length hdr0 = 14%nat ->
  tx_hsize hdr - 14 + tx_size hdr size <= buf_size < Z.of_nat (length buf) -> buf_size < 2 ^ 31 ->
  tx_log w (mn_base nic) = [] ->
  ensures (minic_tx_frame nic hdr payload size h) w (fun _ w1 =>
    forall w2, rx_fifo w2 (mn_base nic2) = tx_log w1 (mn_base nic) ->
      (length (tx_log w1 (mn_base nic)) < fuel)%nat ->
      ensures (minic_rx_frame fuel nic2 hdr0 buf buf_size h2) w2 (fun r _ =>
        exists nic3 hdr3 buf3 h3 n, r = Some (nic3, hdr3, buf3, h3, n) /\
          n = tx_hsize hdr - 14 + tx_size hdr size /\
          hdr3 ++ sub buf3 0 n = sub hdr 0 (tx_hsize hdr) ++ sub payload 0 (tx_size hdr size))).
Proof.
  intros Hv Hv2 Hh Hp Hs Hl0 Hb Hmax Hlog.
  eapply ensures_mono; [by apply minic_tx_frame_words|]. intros ? w1 E1 w2 E2 Hf.
  rewrite Hlog in E1. cbn [app] in E1. rewrite <- E2 in Hf.
  eapply ensures_mono; [apply minic_rx_frame_words; [done| |done]|].
  { rewrite E2, E1. by unfold tx_words. }
  rewrite E2, E1. intros r ? (nic3 & h3 & ->).
  destruct (rx_tx_words hdr payload size (bool_decide (is_Some h)) hdr0 buf buf_size Hh Hp Hs Hl0 Hb Hmax)
    as (s & Hc & Hg). specialize (Hc []). rewrite app_nil_r in Hc. rewrite Hc. cbn [rx_words].
  assert (Hhs : tx_hsize hdr = 14 \/ tx_hsize hdr = 18) by (unfold tx_hsize; case_match; auto).
  assert (Hsz : 0 <= tx_size hdr size) by (unfold tx_size; case_match; lia).
  destruct Hg as [Hh1 Hp1 Hl1 Hd1 Hy1 He1]. rewrite length_app, !length_sub in Hh1, Hp1.
  rewrite He1. destruct (Z.ltb_spec buf_size (rx_payload_size s)); [lia|].
  rewrite s32_small by inrange. do 5 eexists. split; [reflexivity|]. split; [lia|].
  rewrite Hy1. replace (rx_hdr_size s) with (Z.of_nat (length (rx_hdr s))) in Hd1 by lia.
  rewrite sub_all in Hd1. rewrite Hd1. apply take_drop.
Qed.

End theorems.

(** ** Bounds *)
Section bounds.
Context `{Board, Endian} {W : Type} `{!PpsHW W, !MinicHW W}.

(** What any sequence of words leaves untouched. *)
Record rx_bounded (buf_size : Z) (hdr payload : list Z) (s : rx_state) : Prop := {
  rxb_hdr : forall i, i < 0 \/ 14 <= i -> aget 0 (rx_hdr s) i = aget 0 hdr i;
  rxb_payload : forall i, i < 0 \/ buf_size + 2 <= i -> aget 0 (rx_payload s) i = aget 0 payload i;
  rxb_even : exists k, rx_hdr_size s = 2 * k /\ 0 <= k <= 7;
  rxb_size : 0 <= rx_payload_size s
}.

Lemma rx_word_bounded buf_size hdr payload rx s s' c :
  rx_word buf_size rx s = (s', c) -> rx_bounded buf_size hdr payload s ->
  rx_bounded buf_size hdr payload s'.
Proof.
  intros Hw [Hh Hp (k & Hk & Hkr) Hps]. unfold rx_word in Hw. unfold ETH_HEADER_SIZE in Hw.
  assert (Hd : 0 <= MINIC_RX_FIFO_DAT_R rx < 65536).
  { unfold MINIC_RX_FIFO_DAT_R, gen_read. change (Z.shiftl 1 16 - 1) with (Z.ones 16).
    rewrite Z.land_ones by lia. apply Z.mod_pos_bound. lia. }
  set (d := MINIC_RX_FIFO_DAT_R rx) in *. clearbody d.
  assert (Hsz : forall n, 0 <= u32 n) by (intros n; pose proof (u32_range n); inrange).
  assert (Hst : rx_payload_size s <= buf_size -> forall i, i < 0 \/ buf_size + 2 <= i ->
    aget 0 (store16 (rx_payload s) (Z.shiftr (rx_payload_size s) 1) (htons d)) i = aget 0 payload i).
  { intros Hle i Hi. rewrite store16_htons, <- Hp by done. apply aget_put_ne.
    rewrite Z.shiftr_div_pow2 by lia. change (2 ^ 1) with 2. cbn [length].
    Z.to_euclidean_division_equations. lia. }
  repeat (match type of Hw with (if ?b then _ else _) = _ => destruct b eqn:? end);
    injection Hw as <- <-; bool_hyps; split;
    cbn [rx_hdr rx_payload rx_hdr_size rx_payload_size upd]; try done; try (by exists k); try apply Hsz.
  - intros i Hi. rewrite store16_htons, <- Hh by done. apply aget_put_ne. rewrite Hk.
    rewrite Z.shiftr_div_pow2 by lia. change (2 ^ 1) with 2. rewrite (Z.mul_comm 2 k), Z.div_mul by lia.
    cbn [length]. lia.
  - exists (k + 1). unfold uadd. rewrite u32_small by inrange. lia.
  - apply Hst. destruct Heqb1; bool_hyps; unfold WRF_STATUS, WRF_DATA, WRF_BYTESEL in *; lia.
  - apply Hst. destruct Heqb1; bool_hyps; unfold WRF_STATUS, WRF_DATA, WRF_BYTESEL in *; lia.
Qed.

Lemma rx_loop_bounded fuel base buf_size hdr payload s (w : W) :
  rx_bounded buf_size hdr payload s ->
  ensures (rx_loop fuel base buf_size s) w (fun r _ =>
    forall s', r = Some s' -> rx_bounded buf_size hdr payload s').
Proof.
  revert s w. induction fuel as [|fuel IH]; intros s w Hb; [done|]. cbn [rx_loop].
  apply ensures_skip. intros rx w1. destruct (rx_word buf_size rx s) as [s1 c] eqn:E.
  apply rx_word_bounded with (hdr := hdr) (payload := payload) in E; [|done].
  destruct c; [by apply IH|]. apply ensures_ret. by intros s' [= <-].
Qed.

(** Among the next [n] reads of RX_FIFO one finds the FIFO empty. *)
Fixpoint drains (base : Z) (n : nat) (w : W) : Prop :=
  match n with
  | O => False
  | S n => let '(rx, w') := mrd base RX_FIFO w in
           truth (Z.land rx MINIC_RX_FIFO_EMPTY) = true \/ drains base n w'
  end.

Lemma rx_loop_returns fuel n base buf_size s w :
  drains base n w -> (n <= fuel)%nat ->
  ensures (rx_loop fuel base buf_size s) w (fun r _ => r <> None).
Proof.
  revert n s w. induction fuel as [|fuel IH]; intros [|n] s w Hd Hf; try done; [lia|].
  cbn [rx_loop drains] in *. unfold ensures, bind.
  destruct (mrd base RX_FIFO w) as [rx w1]. destruct (rx_word buf_size rx s) as [s1 c] eqn:E.
  destruct c; [|done]. destruct Hd as [He|Hd]; [|by apply (IH n); [|lia]].
  unfold rx_word in E. by rewrite He in E.
Qed.

(** C38. Whatever the FIFO delivers, [minic_rx_frame] returns, and writes at
    most two bytes behind the buffer of its caller. On any hardware whose receive FIFO is found empty after finitely
    many reads (the loop has no other bound: it ends when the FIFO is empty or
    a status word starts the next frame), there is a number of rounds within which
    the function returns; it has written at most the fourteen bytes of the
    header and the first [buf_size + 2] bytes of the payload memory, and
    returns an error or a length of at most [buf_size]. *)
Theorem minic_rx_bounds nic hdr payload buf_size h (w : W) :
  0 <= buf_size < 2 ^ 31 -> (forall w, exists n, drains (mn_base nic) n w) ->
  exists n0, forall fuel, (n0 <= fuel)%nat ->
    ensures (minic_rx_frame fuel nic hdr payload buf_size h) w (fun r _ =>
      exists nic' hdr' payload' h' n, r = Some (nic', hdr', payload', h', n) /\
        (forall i, 14 <= i -> aget 0 hdr' i = aget 0 hdr i) /\
        (forall i, buf_size + 2 <= i -> aget 0 payload' i = aget 0 payload i) /\
        -1 <= n <= buf_size).
Proof.
  intros Hbuf Hdr. destruct (Hdr (mrd (mn_base nic) MCR w).2) as [n0 Hn0]. exists n0.
  intros fuel Hf. unfold minic_rx_frame.
  destruct (negb _); [do 5 eexists; split; [reflexivity|]; split_and!; (done || lia)|].
  unfold ensures, bind at 1. destruct (mrd (mn_base nic) MCR w) as [mcr w1]. cbn [snd] in Hn0.
  destruct (truth _); [do 5 eexists; split; [reflexivity|]; split_and!; (done || lia)|].
  apply ensures_bind. eapply ensures_mono.
  { apply ensures_and; [by apply (rx_loop_returns fuel n0)|].
    apply (rx_loop_bounded fuel _ buf_size hdr payload). split; try done. by exists 0. }
  intros [s|] w2 [Hnone Hs]; [|done].
  destruct (Hs s eq_refl) as [Hh Hp _ Hz]. apply ensures_skip. intros h1 w3.
  destruct (rx_error s).
  - do 5 eexists. split; [reflexivity|]. split_and!; auto; lia.
  - apply ensures_skip. intros _ w4. do 5 eexists. split; [reflexivity|].
    split_and!; auto; destruct (Z.ltb_spec buf_size (rx_payload_size s)); rewrite s32_small by inrange; lia.
Qed.
End bounds.

Lemma rx_words_length `{Endian} buf_size ws s :
  length (rx_payload (rx_words buf_size ws s)) = length (rx_payload s).
Proof.
  revert s. induction ws as [|w ws IH]; intros s; [done|]. cbn [rx_words].
  destruct (rx_word buf_size w s) as [s' c] eqn:E.
  assert (Hl : length (rx_payload s') = length (rx_payload s)).
  { unfold rx_word in E.
    repeat (match type of E with (if ?b then _ else _) = _ => destruct b end);
      injection E as <- <-; cbn [rx_payload upd]; unfold store16; rewrite ?length_put; done. }
  destruct c; [by rewrite IH|done].
Qed.

(** The limit of [minic_rx_bounds] is reached: once a frame has filled
    the buffer, the next word of the same frame is stored in the two bytes
    behind it, since the loop compares the size with [>] instead of [>=]. *)
Theorem minic_rx_overruns `{Endian} hdr payload size d hdr0 buf buf_size :
  bytes hdr -> bytes payload -> 0 <= size -> length hdr0 = 14%nat -> 0 <= d < 65536 ->
  tx_hsize hdr - 14 + tx_size hdr size = buf_size -> buf_size mod 2 = 0 -> buf_size < 2 ^ 31 ->
  buf_size + 2 <= Z.of_nat (length buf) ->
  let s := rx_words buf_size (fifo (tx_words hdr payload size false) ++ [tx_fifo_word WRF_DATA d])
             (rx_start hdr0 buf) in
  sub (rx_payload s) buf_size 2 = [d / 256; d mod 256].
Proof.
  intros Hh Hp Hs Hl0 Hd Hb Hev Hmax Hl. cbv zeta.
  assert (Hhs : tx_hsize hdr = 14 \/ tx_hsize hdr = 18) by (unfold tx_hsize; case_match; auto).
  assert (Hsz : 0 <= tx_size hdr size) by (unfold tx_size; case_match; lia).
  destruct (rx_tx_words hdr payload size false hdr0 buf buf_size Hh Hp Hs Hl0) as (s & Hc & Hg); [lia..|].
  rewrite (Hc [_]). cbn [rx_words].
  assert (Hlen : Z.of_nat (length (sub hdr 0 (tx_hsize hdr) ++ sub payload 0 (tx_size hdr size))) =
    14 + buf_size) by (rewrite length_app, !length_sub; lia).
  assert (Hls : length (rx_payload s) = length buf).
  { specialize (Hc []). cbn [rx_words] in Hc. rewrite <- Hc. apply rx_words_length. }
  assert (He : Nat.Even (length (sub hdr 0 (tx_hsize hdr) ++ sub payload 0 (tx_size hdr size)))).
  { exists (Z.to_nat (7 + buf_size / 2)). Z.to_euclidean_division_equations. lia. }
  destruct (got_data s _ d buf_size Hg He Hd) as (s' & -> & [_ Hps _ _ Hpay _] & _); [lia..|].
  rewrite length_app in Hps. cbn [length] in Hps.
  replace (rx_payload_size s') with (buf_size + 2) in Hpay by lia.
  rewrite sub_app in Hpay by lia. rewrite drop_app_le in Hpay by lia. rewrite Z.add_0_l in Hpay.
  apply app_inj_2 in Hpay as [_ Hpay]; [done|]. by rewrite length_sub.
Qed.

(** ** A simulated NIC *)
Definition lm32 : Endian := true.
Definition riscv : Endian := false.

Record nic_sim := NicSim { ns_rx : list Z; ns_tx : list Z; ns_pps : pps_sim }.

#[export] Instance nic_sim_pps `{Board} : PpsHW nic_sim := {
  ppsg_read r w := let '(v, p) := ppsg_read r (ns_pps w) in (v, NicSim (ns_rx w) (ns_tx w) p);
  ppsg_write r v w := let '(_, p) := ppsg_write r v (ns_pps w) in (tt, NicSim (ns_rx w) (ns_tx w) p)
}.
#[export] Instance nic_sim_hw : MinicHW nic_sim := {
  mrd _ r w :=
    match r with
    | RX_FIFO => match ns_rx w with
                 | [] => (MINIC_RX_FIFO_EMPTY, w)
                 | x :: xs => (x, NicSim xs (ns_tx w) (ns_pps w))
                 end
    | MCR => (MINIC_MCR_TX_IDLE + MINIC_MCR_TX_TS_READY +
              (if bool_decide (ns_rx w = []) then MINIC_MCR_RX_EMPTY else 0), w)
    | TSR0 => (MINIC_TSR0_VALID, w)
    | _ => (0, w)
    end;
  mwr _ r v w :=
    (tt, match r with TX_FIFO => NicSim (ns_rx w) (ns_tx w ++ [v]) (ns_pps w) | _ => w end);
  timer_delay_ms _ w := (tt, w)
}.
#[export] Instance nic_sim_obs : MinicObs nic_sim := {
  rx_fifo w _ := ns_rx w; tx_log w _ := ns_tx w }.
#[export] Instance nic_sim_laws `{Board} : MinicLaws nic_sim.
Proof.
  constructor.
  - intros base w x xs E. unfold ensures. simpl in *. by rewrite E.
  - intros base w E. unfold ensures. simpl in *. by rewrite E.
  - intros base w. unfold ensures. simpl. by destruct (ns_rx w).
  - intros base r w Hr. unfold ensures. destruct r; simpl; done.
  - done.
  - intros base r v w Hr. unfold ensures. destruct r; simpl; done.
  - done.
  - intros r w. unfold ensures. simpl. by destruct (ppsg_read r (ns_pps w)).
Qed.

Section minic_demo.
#[local] Existing Instance generic_8bit.
#[local] Existing Instance riscv.

Definition demo_nic : wr_minic := mk_minic 0 0 0 0 1.
Definition demo_hdr : list Z := [1; 2; 3; 4; 5; 6; 7; 8; 9; 10; 11; 12; 8; 0].
Definition demo_hwts : hw_timestamp := mk_hwts 0 0 0 0 0.
Definition demo_payload : list Z := (fun i => i mod 256) <$> range 481.
Definition nic_idle : nic_sim := NicSim [] [] (PpsSim 0 (fun _ => 0)).

Lemma demo_bytes : bytes demo_hdr /\ bytes demo_payload.
Proof. split; apply (bool_decide_unpack _); vm_compute; reflexivity. Qed.

Lemma minic_loopback_witness :
  ensures (minic_tx_frame demo_nic demo_hdr demo_payload 47 (Some demo_hwts)) nic_idle (fun _ w1 =>
    forall w2, rx_fifo w2 0 = tx_log w1 0 -> (length (tx_log w1 0) < 100)%nat ->
      ensures (minic_rx_frame 100 demo_nic (replicate 14 0) (replicate 100 0) 80 demo_hwts) w2
        (fun r _ => exists nic3 hdr3 buf3 h3 n, r = Some (nic3, hdr3, buf3, h3, n) /\
          n = tx_hsize demo_hdr - 14 + tx_size demo_hdr 47 /\
          hdr3 ++ sub buf3 0 n = sub demo_hdr 0 (tx_hsize demo_hdr) ++
                                 sub demo_payload 0 (tx_size demo_hdr 47))).
Proof.
  apply (minic_loopback (W := nic_sim) demo_nic demo_nic); try reflexivity; try lia;
    try apply demo_bytes.
  change (tx_hsize demo_hdr) with 14. change (tx_size demo_hdr 47) with 47. cbn [length replicate]. lia.
Defined.

Lemma nic_sim_drains base (w : nic_sim) : drains base (S (length (ns_rx w))) w.
Proof.
  destruct w as [rx tx p]. cbn [ns_rx]. revert p. induction rx as [|x rx IH]; intros p; [by left|].
  right. apply IH.
Qed.

(** A frame with 64 bytes of payload, read into a buffer of 16: eighteen bytes
    are written and the length is cut to 16. *)
Definition nic_frame : nic_sim :=
  NicSim (fifo (tx_words demo_hdr demo_payload 64 true)) [] (PpsSim 0 (fun _ => 0)).

Lemma minic_rx_bounds_witness :
  exists n0, forall fuel, (n0 <= fuel)%nat ->
    ensures (minic_rx_frame fuel demo_nic demo_hdr demo_payload 16 demo_hwts) nic_frame (fun r _ =>
      exists nic' hdr' payload' h' n, r = Some (nic', hdr', payload', h', n) /\
        (forall i, 14 <= i -> aget 0 hdr' i = aget 0 demo_hdr i) /\
        (forall i, 16 + 2 <= i -> aget 0 payload' i = aget 0 demo_payload i) /\ -1 <= n <= 16).
Proof.
  apply (minic_rx_bounds (W := nic_sim)); [lia|]. intros w.
  exists (S (length (ns_rx w))). apply nic_sim_drains.
Defined.

Lemma nic_frame_cut :
  match (minic_rx_frame 100 demo_nic (replicate 14 0) (replicate 20 0) 16 demo_hwts nic_frame).1 with
  | Some (_, hdr', payload', _, n) =>
      hdr' = demo_hdr /\ payload' = take 18 demo_payload ++ [0; 0] /\ n = 16
  | None => False
  end.
Proof. vm_compute. done. Qed.

(** NET_MAX_SKBUF_SIZE - 32 is 480 on every board. *)
Lemma minic_rx_overruns_witness :
  let s := rx_words 480 (fifo (tx_words demo_hdr demo_payload 480 false) ++
                         [tx_fifo_word WRF_DATA 43981])
             (rx_start (replicate 14 0) (replicate 500 0)) in
  sub (rx_payload s) 480 2 = [171; 205].
Proof.
  change [171; 205] with [43981 / 256; 43981 mod 256].
  apply (minic_rx_overruns demo_hdr demo_payload 480); try reflexivity; try lia; try apply demo_bytes.
  rewrite length_replicate. lia.
Defined.
End minic_demo.
