(* ===== verification/Net.v ===== *)
(** lib/net.c and dev/netif.c: network interfaces, sockets with their ring
    buffers, the dispatch of received frames and the linearisation of receive
    timestamps. *)
From Stdlib Require Import ZArith Lia.
From stdpp Require Import base numbers option list gmap.
From S2P Require Import Prelude SpllHw SpllHelper SoftPll PpsGen Bytes Minic.

Definition NET_MAX_SOCKETS : Z := 12.
Definition NET_MAX_SKBUF_SIZE : Z := 512.
Definition WRC_NETIF_MAX_DEVICES : Z := 2.
Definition DEFAULT_T24P_PHASE_TRANSITION : Z := 2389.
Definition PTPD_SOCK_UDP : Z := 0.
Definition PTPD_SOCK_RAW_ETHERNET : Z := 1.
(** Offsets into an IP packet (lib/ipv4.h). *)
Definition IP_VERSION : Z := 0.
Definition IP_PROTOCOL : Z := 9.
Definition UDP_DPORT : Z := 22.

(** struct wr_sockaddr *)
Record wr_sockaddr := mk_sa {
  sa_mac : list Z; sa_mac_dest : list Z; sa_ethertype : Z; sa_udpport : Z; sa_vlan : Z }.
#[export] Instance eta_sa : Etable wr_sockaddr := fun a =>
  mk_sa (sa_mac a) (sa_mac_dest a) (sa_ethertype a) (sa_udpport a) (sa_vlan a).
Definition sa_zero : wr_sockaddr := mk_sa (replicate 6 0) (replicate 6 0) 0 0 0.

(** struct sockq *)
Record sockq := mk_q { q_head : Z; q_tail : Z; q_avail : Z; q_size : Z; q_n : Z; q_buff : list Z }.
#[export] Instance eta_q : Etable sockq := fun q =>
  mk_q (q_head q) (q_tail q) (q_avail q) (q_size q) (q_n q) (q_buff q).

(** struct wrpc_socket; a device is named by its index in netif_devs. *)
Record wrpc_socket := mk_sock {
  ws_bind : wr_sockaddr; ws_nif : Z; ws_prio : Z; ws_queue : sockq }.
#[export] Instance eta_sock : Etable wrpc_socket := fun s =>
  mk_sock (ws_bind s) (ws_nif s) (ws_prio s) (ws_queue s).

(** struct wrc_netif_device; of the endpoint only the MAC address is used. *)
Record wrc_netif_device := mk_nif { nd_mac : list Z; nd_nic : wr_minic; nd_phase_transition : Z }.
#[export] Instance eta_nif : Etable wrc_netif_device := fun d =>
  mk_nif (nd_mac d) (nd_nic d) (nd_phase_transition d).

(** struct wr_timestamp *)
Record wr_timestamp := mk_ts {
  ts_sec : Z; ts_nsec : Z; ts_phase : Z; ts_raw_phase : Z; ts_raw_nsec : Z; ts_raw_ahead : Z;
  ts_correct : Z }.
#[export] Instance eta_ts : Etable wr_timestamp := fun t =>
  mk_ts (ts_sec t) (ts_nsec t) (ts_phase t) (ts_raw_phase t) (ts_raw_nsec t) (ts_raw_ahead t)
        (ts_correct t).

(** ** Network interfaces (dev/netif.c) *)
Record netifs := mk_netifs { nf_count : Z; nf_devs : list wrc_netif_device }.
#[export] Instance eta_netifs : Etable netifs := fun n => mk_netifs (nf_count n) (nf_devs n).

Definition nif_zero : wrc_netif_device := mk_nif (replicate 6 0) (mk_minic 0 0 0 0 0) 0.

Definition netif_set_phase_transition (n : netifs) (idx phase : Z) : netifs :=
  n <| nf_devs := aset (nf_devs n) idx
         ((aget nif_zero (nf_devs n) idx) <| nd_phase_transition := phase |>) |>.

Definition netif_register_device (n : netifs) (mac : list Z) (nic : wr_minic) : netifs * Z :=
  if WRC_NETIF_MAX_DEVICES <=? nf_count n then (n, -1)
  else (n <| nf_devs := aset (nf_devs n) (nf_count n)
               (mk_nif mac nic DEFAULT_T24P_PHASE_TRANSITION) |>
          <| nf_count := u8 (nf_count n + 1) |>, 0).

Definition netif_get_device_count (n : netifs) : Z := nf_count n.
Definition netif_get_device (n : netifs) (idx : Z) : wrc_netif_device := aget nif_zero (nf_devs n) idx.

(** ** The ring buffer of a socket *)

(** [q->head++; if (q->head == q->size) q->head = 0;] *)
Definition wrap_inc (i size : Z) : Z := let i := u16 (i + 1) in if i =? size then 0 else i.

Fixpoint copy_out_loop (q : sockq) (src : list Z) : sockq :=
  match src with
  | [] => q
  | b :: src => copy_out_loop (q <| q_buff := aset (q_buff q) (q_head q) b |>
                                 <| q_head := wrap_inc (q_head q) (q_size q) |>) src
  end.
(** [wrap_copy_out]: [src] holds the [len] bytes of the source. *)
Definition wrap_copy_out (q : sockq) (src : list Z) : sockq * Z :=
  (copy_out_loop q src, Z.of_nat (length src)).

Fixpoint copy_in_loop (n : nat) (q : sockq) : list Z * sockq :=
  match n with
  | O => ([], q)
  | S n =>
      let b := aget 0 (q_buff q) (q_tail q) in
      let '(bs, q) := copy_in_loop n (q <| q_tail := wrap_inc (q_tail q) (q_size q) |>) in
      (b :: bs, q)
  end.

(** [while (q->tail > q->size) q->tail -= q->size;]  The 16-bit tail takes at
    most 65535 rounds. *)
Fixpoint skip_loop (fuel : nat) (tail size : Z) : Z :=
  match fuel with
  | O => tail
  | S fuel => if size <? tail then skip_loop fuel (u16 (tail - size)) size else tail
  end.

(** [wrap_copy_in]: the bytes copied, the queue and the returned length. *)
Definition wrap_copy_in (q : sockq) (len buflen : Z) : list Z * sockq * Z :=
  let buflen := if buflen =? 0 then len else buflen in
  let '(bs, q) := copy_in_loop (Z.to_nat (Z.min len buflen)) q in
  let q := if buflen <? len then
             let tail := u16 (q_tail q + (len - buflen)) in
             q <| q_tail := skip_loop (Z.to_nat tail) tail (q_size q) |>
           else q in
  (bs, q, len).

(** ** Byte images of the structures copied through the ring *)
Definition hwts_image `{Endian} (h : hw_timestamp) : list Z :=
  [hw_valid h; 0; 0; 0] ++ image 4 (u32 (hw_ahead h)) ++ image 8 (hw_sec h) ++
  image 4 (hw_nsec h) ++ image 4 (hw_phase h).
Definition hwts_value `{Endian} (l : list Z) : hw_timestamp :=
  mk_hwts (aget 0 l 0) (s32 (value (sub l 4 4))) (value (sub l 8 8)) (value (sub l 16 4))
          (value (sub l 20 4)).
Definition sizeof_hwts : Z := 24.
Definition sizeof_ethhdr : Z := 14.

(** The fields of a struct wr_ethhdr in memory. *)
Definition hdr_dstmac (hdr : list Z) : list Z := sub hdr 0 6.
Definition hdr_srcmac (hdr : list Z) : list Z := sub hdr 6 6.
Definition hdr_ethtype `{Endian} (hdr : list Z) : Z := load16 hdr 6.

(** ** Linearisation of receive timestamps *)
Definition ptpd_netif_linearize_rx_timestamp (ts : wr_timestamp)
    (dmtd_phase cntr_ahead transition_point clock_period : Z) : wr_timestamp :=
  let ts := ts <| ts_raw_phase := dmtd_phase |> in
  let nsec_r := ts_nsec ts in
  let nsec_f := if truth cntr_ahead then (ts_nsec ts - (clock_period / 1000))%int else ts_nsec ts in
  let phase_r := (ts_raw_phase ts - transition_point)%int in
  let phase_r := if phase_r <? 0 then (phase_r + clock_period)%int else phase_r in
  let phase_f := (ts_raw_phase ts - transition_point + (clock_period / 2))%int in
  let phase_f := if phase_f <? 0 then (phase_f + clock_period)%int else phase_f in
  let phase_f := if clock_period <=? phase_f then (phase_f - clock_period)%int else phase_f in
  let '(nsec, phase) :=
    if ((3 * clock_period / 4)%int <? phase_r) || (phase_r <? (clock_period / 4)%int) then
      let phase := (phase_f + clock_period / 2)%int in
      if clock_period <=? phase
      then ((nsec_f + (clock_period / 1000))%int, (phase - clock_period)%int)
      else (nsec_f, phase)
    else (nsec_r, phase_r) in
  let '(sec, nsec) := if 1000000000 <=? nsec then (s64 (ts_sec ts + 1), (nsec - 1000000000)%int)
                      else (ts_sec ts, nsec) in
  ts <| ts_sec := sec |> <| ts_nsec := nsec |> <| ts_phase := phase |>.

(** ** Sockets

    The socket objects live in static memory, each named by a number; [socks]
    holds pointers to the open ones.  [nt_hdr] and [nt_buffer] are the static
    variables of [netif_poll]; [nt_buffer] includes the memory behind them. *)
Record net_state := mk_net {
  nt_socks : list (option nat); nt_mem : gmap nat wrpc_socket; nt_ifs : netifs;
  nt_vlan : Z; nt_hdr : list Z; nt_buffer : list Z }.
#[export] Instance eta_net : Etable net_state := fun n =>
  mk_net (nt_socks n) (nt_mem n) (nt_ifs n) (nt_vlan n) (nt_hdr n) (nt_buffer n).

Definition q_zero : sockq := mk_q 0 0 0 0 0 [].
Definition sock_zero : wrpc_socket := mk_sock sa_zero 0 0 q_zero.
Definition sock_at (n : net_state) (id : nat) : wrpc_socket := default sock_zero (nt_mem n !! id).
Definition set_queue (n : net_state) (id : nat) (q : sockq) : net_state :=
  n <| nt_mem := <[id := (sock_at n id) <| ws_queue := q |>]> (nt_mem n) |>.

(** The first free slot. *)
Fixpoint free_slot (socks : list (option nat)) (i : Z) : Z :=
  match socks with
  | [] => i
  | None :: _ => i
  | Some _ :: socks => free_slot socks (i + 1)
  end.

Section net.
Context `{Endian}.

(** [ptpd_netif_create_socket]: the result is the socket or NULL. *)
Definition ptpd_netif_create_socket (n : net_state) (sock : nat) (len : Z)
    (bind_addr : option wr_sockaddr) (udp_or_raw udpport nif : Z) : net_state * option nat :=
  let i := free_slot (nt_socks n) 0 in
  if i =? Z.of_nat (length (nt_socks n)) then (n, None)
  else
    let bind := (default sa_zero bind_addr) <| sa_udpport := 0 |> in
    let bind := if udp_or_raw =? PTPD_SOCK_UDP
                then bind <| sa_ethertype := htons 2048 |> <| sa_udpport := u16 udpport |> else bind in
    let old := sock_at n sock in
    let q := (ws_queue old) <| q_head := 0 |> <| q_tail := 0 |> <| q_avail := u16 len |>
               <| q_size := u16 len |> <| q_n := 0 |> in
    (n <| nt_socks := aset (nt_socks n) i (Some sock) |>
       <| nt_mem := <[sock := mk_sock bind nif (ws_prio old) q]> (nt_mem n) |>, Some sock).

Definition ptpd_netif_close_socket (n : net_state) (sock : nat) : net_state * Z :=
  (n <| nt_socks := (fun s => if decide (s = Some sock) then None else s) <$> nt_socks n |>, 0).

(** The queue part of [ptpd_netif_recvfrom]: what it takes from a queue that
    is not empty (hwts, header, the bytes copied to [data], the frame size). *)
Definition queue_get (q : sockq) (data_length : Z) : hw_timestamp * list Z * list Z * Z * sockq :=
  let q := q <| q_n := u16 (q_n q - 1) |> in
  let '(b, q, l) := wrap_copy_in q 2 0 in
  let size := value b in
  let q := q <| q_avail := u16 (q_avail q + l) |> in
  let '(b, q, l) := wrap_copy_in q sizeof_hwts 0 in
  let hwts := hwts_value b in
  let q := q <| q_avail := u16 (q_avail q + l) |> in
  let '(hdr, q, l) := wrap_copy_in q sizeof_ethhdr 0 in
  let q := q <| q_avail := u16 (q_avail q + l) |> in
  let '(bs, q, l) := wrap_copy_in q size data_length in
  let q := q <| q_avail := u16 (q_avail q + l) |> in
  (hwts, hdr, bs, size, q).

(** The queue part of [netif_poll]: store a frame if there is room. *)
Definition queue_put (q : sockq) (hwts : hw_timestamp) (hdr payload : list Z) (recvd : Z) : sockq :=
  let q_required := s32 (sizeof_ethhdr + recvd + sizeof_hwts + 2) in
  if q_avail q <? q_required then q
  else
    let size := u16 recvd in
    let '(q, l) := wrap_copy_out q (image 2 size) in
    let q := q <| q_avail := u16 (q_avail q - l) |> in
    let '(q, l) := wrap_copy_out q (hwts_image hwts) in
    let q := q <| q_avail := u16 (q_avail q - l) |> in
    let '(q, l) := wrap_copy_out q hdr in
    let q := q <| q_avail := u16 (q_avail q - l) |> in
    let '(q, l) := wrap_copy_out q (sub payload 0 size) in
    q <| q_avail := u16 (q_avail q - l) |> <| q_n := u16 (q_n q + 1) |>.

(** The timestamp part of [ptpd_netif_recvfrom]. *)
Definition recv_timestamp `{Board} (g : spll_globals) (s : softpll_state) (transition : Z)
    (hwts : hw_timestamp) : wr_timestamp :=
  let spll_busy := spll_shifter_busy s 0 in
  let raw_phase := (spll_read_ptracker g s 0).1.1 in
  let ts := mk_ts (s64 (hw_sec hwts)) (s32 (hw_nsec hwts)) 0 raw_phase (s32 (hw_nsec hwts))
              (hw_ahead hwts) (b2z (truth (hw_valid hwts) && negb spll_busy)) in
  ptpd_netif_linearize_rx_timestamp ts raw_phase (hw_ahead hwts) (s32 transition)
    REF_CLOCK_PERIOD_PS.

(** [ptpd_netif_recvfrom]: the sender address, the memory behind [data], the
    timestamp and the return value.  [want_ts] says that [rx_timestamp] is not
    NULL. *)
Definition ptpd_netif_recvfrom `{Board} (g : spll_globals) (s : softpll_state) (n : net_state)
    (sock : nat) (from : wr_sockaddr) (data : list Z) (data_length : Z) (want_ts : bool)
    : net_state * wr_sockaddr * list Z * option wr_timestamp * Z :=
  let q := ws_queue (sock_at n sock) in
  if q_n q =? 0 then (n, from, data, None, 0)
  else
    let '(hwts, hdr, bs, size, q) := queue_get q data_length in
    let from := from <| sa_ethertype := htons (hdr_ethtype hdr) |> <| sa_vlan := nt_vlan n |>
                     <| sa_mac := hdr_srcmac hdr |> <| sa_mac_dest := hdr_dstmac hdr |> in
    let dev := netif_get_device (nt_ifs n) (ws_nif (sock_at n sock)) in
    (set_queue n sock q, from, put data 0 bs,
     if want_ts then Some (recv_timestamp g s (nd_phase_transition dev) hwts) else None,
     s32 (Z.min size data_length)).

(** The header [ptpd_netif_sendto] builds (the last four bytes are written
    with a VLAN only, and sent with a VLAN only). *)
Definition send_header (n : net_state) (sock : wrpc_socket) (to : wr_sockaddr) : list Z :=
  let dev := netif_get_device (nt_ifs n) (ws_nif sock) in
  sa_mac to ++ nd_mac dev ++
  if truth (nt_vlan n) then
    image 2 (htons 33024) ++ image 2 (htons (u16 (Z.lor (nt_vlan n) (Z.shiftl (ws_prio sock) 13)))) ++
    image 2 (sa_ethertype (ws_bind sock))
  else image 2 (sa_ethertype (ws_bind sock)) ++ [0; 0; 0; 0].

Section hw.
Context `{Board} {W : Type} `{!PpsHW W, !MinicHW W}.

(** [ptpd_netif_sendto]: the state (the counters of the NIC), the timestamp
    when one is wanted and the return value. *)
Definition ptpd_netif_sendto (n : net_state) (sock : nat) (to : wr_sockaddr) (data : list Z)
    (data_length : Z) (junk : hw_timestamp) : M W (net_state * wr_timestamp * Z) :=
  let s := sock_at n sock in
  let dev := netif_get_device (nt_ifs n) (ws_nif s) in
  let! r := minic_tx_frame (nd_nic dev) (send_header n s to) data data_length (Some junk) in
  let '(nic, hwts, rval) := r in
  let hwts := default junk hwts in
  ret (n <| nt_ifs := (nt_ifs n) <| nf_devs := aset (nf_devs (nt_ifs n)) (ws_nif s)
                                                  (dev <| nd_nic := nic |>) |> |>,
       mk_ts (s64 (hw_sec hwts)) (s32 (hw_nsec hwts)) 0 0 0 0 (hw_valid hwts), rval).

(** The VLAN tag: the tag value, the header type, the payload offset and the
    length, after the tag of a tagged frame has been removed. *)
Definition vlan_strip (hdr buffer : list Z) (recvd : Z) : Z * list Z * Z * Z :=
  if htons (hdr_ethtype hdr) =? 33024
  then (load16 buffer 0, put hdr 12 (sub buffer 2 2), 4, s32 (recvd - 4))
  else (0, hdr, 0, recvd).

(** The UDP port of an IPv4 packet without options, zero for anything else. *)
Definition udp_port (payload : list Z) : Z :=
  if (aget 0 payload IP_VERSION =? 69) && (aget 0 payload IP_PROTOCOL =? 17)
  then Z.lor (Z.shiftl (aget 0 payload UDP_DPORT) 8) (aget 0 payload (UDP_DPORT + 1)) else 0.

(** The loop over the sockets: the last raw match and the last UDP match. *)
Definition sock_match (n : net_state) (nif port : Z) (hdr : list Z)
    (acc : option nat * option nat) (slot : option nat) : option nat * option nat :=
  let '(raws, udps) := acc in
  match slot with
  | None => acc
  | Some id =>
      let s := sock_at n id in
      if negb (ws_nif s =? nif) then acc
      else if negb (hdr_ethtype hdr =? sa_ethertype (ws_bind s)) then acc
      else (if (port =? 0) && (sa_udpport (ws_bind s) =? 0) then Some id else raws,
            if negb (port =? 0) && (sa_udpport (ws_bind s) =? port) then Some id else udps)
  end.
Definition find_socket (n : net_state) (nif port : Z) (hdr : list Z) : option nat :=
  let '(raws, udps) := foldl (sock_match n nif port hdr) (None, None) (nt_socks n) in
  match udps with Some id => Some id | None => raws end.

(** The rest of [netif_poll], once a frame of [recvd] bytes is in [nt_buffer]. *)
Definition deliver (n : net_state) (nif recvd : Z) (hwts : hw_timestamp) : net_state * Z :=
  let '(tag, hdr, off, recvd) := vlan_strip (nt_hdr n) (nt_buffer n) recvd in
  let n := n <| nt_hdr := hdr |> in
  let payload := drop (Z.to_nat off) (nt_buffer n) in
  if negb (Z.land (htons tag) 4095 =? nt_vlan n) then (n, 0)
  else
    match find_socket n nif (udp_port payload) hdr with
    | None => (n, 1)
    | Some id => (set_queue n id (queue_put (ws_queue (sock_at n id)) hwts hdr payload recvd), 1)
    end.

(** [netif_poll]; [None] when the receive loop ran out of fuel. *)
Definition netif_poll (fuel : nat) (n : net_state) (nif : Z) (junk : hw_timestamp)
    : M W (option (net_state * Z)) :=
  let dev := netif_get_device (nt_ifs n) nif in
  let! r := minic_rx_frame fuel (nd_nic dev) (nt_hdr n) (nt_buffer n) (NET_MAX_SKBUF_SIZE - 32) junk in
  match r with
  | None => ret None
  | Some (nic, hdr, buffer, hwts, recvd) =>
      let n := n <| nt_hdr := hdr |> <| nt_buffer := buffer |>
                 <| nt_ifs := (nt_ifs n) <| nf_devs := aset (nf_devs (nt_ifs n)) nif
                                                         (dev <| nd_nic := nic |>) |> |> in
      ret (Some (if recvd <=? 0 then (n, 0) else deliver n nif recvd hwts))
  end.

(** [net_bh_poll] *)
Definition net_bh_poll (fuel : nat) (n : net_state) (junk : hw_timestamp)
    : M W (option (net_state * Z)) :=
  foldM (fun acc i =>
           match acc with
           | None => ret None
           | Some (n, res) =>
               let! r := netif_poll fuel n i junk in
               ret (match r with None => None | Some (n, v) => Some (n, Z.lor res v) end)
           end)
        (range (netif_get_device_count (nt_ifs n))) (Some (n, 0)).
End hw.
End net.

(** ** Linearisation *)

Lemma linearize_const ts dmtd_phase ahead tp k phi r P N :
  (P = 8000 /\ N = 8) \/ (P = 16000 /\ N = 16) ->
  0 <= tp < P -> 0 <= dmtd_phase < P -> 0 <= r * N < 1000000000 ->
  is_s64 (ts_sec ts + 1) -> is_s64 (ts_sec ts) -> ts_nsec ts = r * N ->
  phi = (if dmtd_phase <? tp then dmtd_phase - tp + P else dmtd_phase - tp) ->
  (P / 4 <= phi <= 3 * P / 4 -> r = k) ->
  (phi < P / 4 \/ 3 * P / 4 < phi -> r - b2z (truth ahead) = if phi <? P / 2 then k - 1 else k) ->
  let ts' := ptpd_netif_linearize_rx_timestamp ts dmtd_phase ahead tp P in
  ts_sec ts' * 1000000000000 + ts_nsec ts' * 1000 + ts_phase ts' =
    ts_sec ts * 1000000000000 + k * P + phi /\
  0 <= ts_phase ts' < P /\ ts_nsec ts' < 1000000000.
Proof.
  intros HP Htp Hd Hr Hs1 Hs0 Hn Hphi Hrise Hfall. cbv zeta.
  unfold ptpd_netif_linearize_rx_timestamp. cbn [ts_sec ts_nsec ts_phase ts_raw_phase upd].
  rewrite Hn. clear Hn. unfold iadd, isub, iquot, imul.
  assert (Hq : s32 (P ÷ 1000) = N /\ s32 (P ÷ 2) = P / 2 /\ s32 (P ÷ 4) = P / 4 /\
    s32 (s32 (3 * P) ÷ 4) = 3 * P / 4 /\ P / 2 = 2 * (P / 4) /\ 3 * P / 4 = 3 * (P / 4) /\
    P = 4 * (P / 4) /\ P = 1000 * N) by (destruct HP as [[-> ->]|[-> ->]]; split_and!; reflexivity).
  destruct Hq as (-> & -> & -> & -> & E2 & E3 & E4 & E5). rewrite E2, E3 in *.
  generalize dependent (P / 4). intros Q Hrise Hfall E2 E3 E4.
  assert (HQ : Q = 2000 \/ Q = 4000) by lia. unfold is_s64 in *.
  set (d := dmtd_phase - tp) in *. assert (Hdr : - P < d < P) by lia.
  assert (Hr1 : (if s32 d <? 0 then s32 (s32 d + P) else s32 d) = phi).
  { rewrite (s32_small d) by inrange. destruct (Z.ltb_spec d 0), (Z.ltb_spec dmtd_phase tp);
      rewrite ?s32_small by inrange; lia. }
  rewrite Hr1.
  assert (Hphi0 : 0 <= phi < P) by (destruct (Z.ltb_spec dmtd_phase tp); lia).
  set (pf := if s32 (s32 d + 2 * Q) <? 0 then s32 (s32 (s32 d + 2 * Q) + P) else s32 (s32 d + 2 * Q)).
  assert (Hr2 : (if P <=? pf then s32 (pf - P) else pf) = if P <=? phi + 2 * Q then phi + 2 * Q - P else phi + 2 * Q).
  { unfold pf. rewrite (s32_small d), (s32_small (d + 2 * Q)) by inrange.
    destruct (Z.ltb_spec (d + 2 * Q) 0); [rewrite (s32_small (d + 2 * Q + P)) by inrange|];
    match goal with |- (if P <=? ?x then _ else _) = _ => destruct (Z.leb_spec P x) end;
    destruct (Z.leb_spec P (phi + 2 * Q)), (Z.ltb_spec dmtd_phase tp); rewrite ?s32_small by inrange; lia. }
  rewrite Hr2. clear Hr1 Hr2 pf. clearbody d. clear Hphi Htp Hd Hdr.
  set (b := b2z (truth ahead)) in *.
  assert (Hnf : (if truth ahead then s32 (r * N - N) else r * N) = (r - b) * N).
  { unfold b. destruct (truth ahead); cbn [b2z]; rewrite ?s32_small by inrange; lia. }
  rewrite Hnf. clear Hnf. assert (Hb : b = 0 \/ b = 1) by (unfold b; destruct (truth ahead); auto).
  clearbody b.
  match goal with |- context [let '(_, _) := ?e in _] =>
    assert (Hc : exists n p, e = (n, p) /\ n * 1000 + p = k * P + phi /\ 0 <= p < P /\
      - 16 <= n <= 1000000000) end.
  { clear - HP Hr Hrise Hfall Hphi0 Hb HQ E4 E5.
    destruct (Z.ltb_spec (3 * Q) phi), (Z.ltb_spec phi Q); try lia; cbn [orb];
      try (destruct (Z.leb_spec P (phi + 2 * Q)); try lia;
           rewrite s32_small by inrange; specialize (Hfall ltac:(lia));
           destruct (Z.ltb_spec phi (2 * Q)); try lia;
           match goal with |- context [P <=? ?x] => destruct (Z.leb_spec P x) end; try lia;
           rewrite ?s32_small by inrange);
      eexists _, _; (split; [reflexivity|]); destruct HP as [[-> ->]|[-> ->]]; try lia. }
  destruct Hc as (n & p & -> & Hc1 & Hc2 & Hc3).
  destruct (Z.leb_spec 1000000000 n); cbn [ts_sec ts_nsec ts_phase upd];
    rewrite ?s32_small, ?s64_small by inrange; lia.
Qed.

(** C8. The linearised receive timestamp is the arrival time: let the frame
    arrive [phi] picoseconds after cycle [k] of the second (in the phase of the
    transition point).  If the rising-edge counter is right whenever the
    arrival is at least a quarter of a period away from its transition, and the
    falling-edge counter is right within that quarter (one cycle behind before
    the middle of the period), then seconds, nanoseconds and phase add up to
    the arrival time, whatever the other counter read; the phase is in
    [0, period) and the nanoseconds stay below one second. *)
Theorem linearize_correct `{HB : Board, !BoardOk HB} ts dmtd_phase ahead tp k phi r :
  0 <= tp < REF_CLOCK_PERIOD_PS -> 0 <= dmtd_phase < REF_CLOCK_PERIOD_PS ->
  0 <= r * NS_PER_CLOCK < 1000000000 -> is_s64 (ts_sec ts + 1) -> is_s64 (ts_sec ts) ->
  ts_nsec ts = r * NS_PER_CLOCK -> phi = (dmtd_phase - tp) mod REF_CLOCK_PERIOD_PS ->
  (REF_CLOCK_PERIOD_PS / 4 <= phi <= 3 * REF_CLOCK_PERIOD_PS / 4 -> r = k) ->
  (phi < REF_CLOCK_PERIOD_PS / 4 \/ 3 * REF_CLOCK_PERIOD_PS / 4 < phi ->
     r - b2z (truth ahead) = if phi <? REF_CLOCK_PERIOD_PS / 2 then k - 1 else k) ->
  let ts' := ptpd_netif_linearize_rx_timestamp ts dmtd_phase ahead tp REF_CLOCK_PERIOD_PS in
  ts_sec ts' * 1000000000000 + ts_nsec ts' * 1000 + ts_phase ts' =
    ts_sec ts * 1000000000000 + k * REF_CLOCK_PERIOD_PS + phi /\
  0 <= ts_phase ts' < REF_CLOCK_PERIOD_PS /\ ts_nsec ts' < 1000000000.
Proof.
  intros Htp Hd Hr Hs1 Hs0 Hn Hphi Hrise Hfall. cbv zeta.
  assert (Hmod : phi = if dmtd_phase <? tp then dmtd_phase - tp + REF_CLOCK_PERIOD_PS
                       else dmtd_phase - tp).
  { subst phi. destruct (Z.ltb_spec dmtd_phase tp); [|by rewrite Z.mod_small by lia].
    rewrite <- (Z_mod_plus_full _ 1), Z.mod_small; lia. }
  apply (linearize_const _ _ _ _ _ _ r _ NS_PER_CLOCK); try done.
  pose proof board_ns. destruct board_period; lia.
Qed.

(** Three arrivals of the default board (transition point 2389 ps): 100 ps after
    cycle 5, with the rising-edge counter not yet updated; in the middle of the
    cycle; and 200 ps before cycle 6 with the counter already updated. *)
Lemma linearize_correct_witness :
  let P := 8000 in
  let ts n := mk_ts 7 n 0 0 n 0 1 in
  let lin n phase ahead := ptpd_netif_linearize_rx_timestamp (ts n) phase ahead 2389 P in
  (ts_nsec (lin 32 2489 0), ts_phase (lin 32 2489 0)) = (40, 100) /\
  (ts_sec (lin 48 2189 1) * 1000000000000 + ts_nsec (lin 48 2189 1) * 1000 + ts_phase (lin 48 2189 1) =
    7 * 1000000000000 + 5 * 8000 + 7800 /\ 0 <= ts_phase (lin 48 2189 1) < 8000 /\
    ts_nsec (lin 48 2189 1) < 1000000000).
Proof.
  cbv zeta. split; [reflexivity|].
  apply (linearize_correct (HB := generic_8bit) (mk_ts 7 48 0 0 48 0 1) 2189 1 2389 5 7800 6);
    cbn [REF_CLOCK_PERIOD_PS NS_PER_CLOCK generic_8bit ts_sec ts_nsec]; try reflexivity; try lia;
    unfold is_s64; try lia.
  intros [_ Hx]. exfalso. vm_compute in Hx. by apply Hx.
Defined.

(** ** The ring buffer is a queue of bytes *)

(** [holds q bs]: the bytes between tail and head, in order, are [bs]. *)
Record holds (q : sockq) (bs : list Z) : Prop := {
  h_size : 0 < q_size q < 65536;
  h_buff : Z.of_nat (length (q_buff q)) = q_size q;
  h_tail : 0 <= q_tail q < q_size q;
  h_len : Z.of_nat (length bs) <= q_size q;
  h_head : q_head q = (q_tail q + Z.of_nat (length bs)) mod q_size q;
  h_data : forall i, (i < length bs)%nat ->
    bs !! i = Some (aget 0 (q_buff q) ((q_tail q + Z.of_nat i) mod q_size q))
}.

Lemma wrap_inc_mod i size : 0 <= i < size -> size < 65536 -> wrap_inc i size = (i + 1) mod size.
Proof.
  intros Hi Hs. unfold wrap_inc. rewrite u16_small by lia.
  destruct (Z.eqb_spec (i + 1) size) as [->|]; [by rewrite Z.mod_same by lia|].
  by rewrite Z.mod_small by lia.
Qed.

(** Distinct positions of the ring are distinct cells. *)
Lemma ring_ne t i j size : 0 < size -> 0 <= i < size -> 0 <= j < size -> i <> j ->
  (t + i) mod size <> (t + j) mod size.
Proof.
  intros Hs Hi Hj Hne E.
  assert (Hd : ((t + i) - (t + j)) mod size = 0) by (rewrite Zminus_mod, E, Z.sub_diag; apply Z.mod_0_l; lia).
  replace (t + i - (t + j)) with (i - j) in Hd by lia. clear E.
  apply Z.mod_divide in Hd as [k Hk]; [|lia].
  destruct (Z.lt_trichotomy k 0) as [Hk0|[->|Hk0]]; [|lia|]; nia.
Qed.

Lemma holds_put q bs b : holds q bs -> Z.of_nat (length bs) < q_size q ->
  holds (q <| q_buff := aset (q_buff q) (q_head q) b |>
           <| q_head := wrap_inc (q_head q) (q_size q) |>) (bs ++ [b]).
Proof.
  intros [Hs Hb Ht Hl Hh Hd] Hlt.
  assert (Hhr : 0 <= q_head q < q_size q) by (rewrite Hh; apply Z.mod_pos_bound; lia).
  split; cbn [q_size q_buff q_tail q_head upd]; rewrite ?length_aset, ?length_app; cbn [length]; try lia.
  - rewrite wrap_inc_mod by lia. rewrite Hh, Zplus_mod_idemp_l. f_equal. lia.
  - intros i Hi. destruct (Nat.lt_ge_cases i (length bs)) as [Hlo|Hhi].
    + rewrite lookup_app_l by done. rewrite aget_aset_ne; [by apply Hd|].
      rewrite Hh. apply ring_ne; lia.
    + assert (i = length bs) as -> by lia. rewrite list_lookup_middle by done.
      rewrite <- Hh, aget_aset_eq; [done|]. lia.
Qed.

Lemma copy_out_holds l q bs : holds q bs -> Z.of_nat (length bs + length l) <= q_size q ->
  holds (copy_out_loop q l) (bs ++ l) /\ q_size (copy_out_loop q l) = q_size q /\
  q_avail (copy_out_loop q l) = q_avail q /\ q_n (copy_out_loop q l) = q_n q.
Proof.
  revert q bs. induction l as [|b l IH]; intros q bs Hq Hl; cbn [copy_out_loop].
  { by rewrite app_nil_r. }
  cbn [length] in Hl. pose proof (holds_put q bs b Hq ltac:(lia)) as Hq'.
  destruct (IH _ _ Hq') as (Hh & ? & ? & ?).
  { rewrite length_app. cbn [length q_size upd]. lia. }
  rewrite <- app_assoc in Hh. done.
Qed.

(** Moving the tail over the first [k] bytes. *)
Lemma holds_advance q bs1 bs2 : holds q (bs1 ++ bs2) ->
  holds (q <| q_tail := (q_tail q + Z.of_nat (length bs1)) mod q_size q |>) bs2.
Proof.
  intros [Hs Hb Ht Hl Hh Hd]. rewrite length_app in *.
  split; cbn [q_size q_buff q_tail q_head upd]; try lia.
  - apply Z.mod_pos_bound. lia.
  - rewrite Hh, Zplus_mod_idemp_l. f_equal. lia.
  - intros i Hi. rewrite Zplus_mod_idemp_l.
    replace (q_tail q + Z.of_nat (length bs1) + Z.of_nat i) with
      (q_tail q + Z.of_nat (length bs1 + i)) by lia.
    rewrite <- Hd by lia. rewrite lookup_app_r by lia. f_equal. lia.
Qed.

Lemma copy_in_holds bs1 q bs2 : holds q (bs1 ++ bs2) ->
  copy_in_loop (length bs1) q =
    (bs1, q <| q_tail := (q_tail q + Z.of_nat (length bs1)) mod q_size q |>).
Proof.
  revert q. induction bs1 as [|b bs1 IH]; intros q Hq; cbn [copy_in_loop length].
  { rewrite Z.add_0_r, Z.mod_small by apply Hq. by destruct q. }
  pose proof (h_size _ _ Hq) as Hs. pose proof (h_tail _ _ Hq) as Ht.
  pose proof (h_data _ _ Hq 0%nat ltac:(cbn; lia)) as Hb. cbn in Hb. injection Hb as Hb.
  rewrite Z.add_0_r, Z.mod_small in Hb by done. rewrite <- Hb.
  rewrite wrap_inc_mod by lia.
  pose proof (holds_advance q [b] (bs1 ++ bs2) Hq) as Hq'. change (Z.of_nat (length [b])) with 1 in Hq'.
  rewrite (IH _ Hq'). cbn [q_size q_tail upd]. do 2 f_equal.
  rewrite Zplus_mod_idemp_l. f_equal. lia.
Qed.

(** The truncating branch of [wrap_copy_in] reduces the tail modulo the size,
    except that it stops at [size] itself. *)
Lemma skip_loop_spec fuel tail size : 0 < size < 65536 -> 0 <= tail < 65536 -> tail <= Z.of_nat fuel ->
  exists k, skip_loop fuel tail size = tail - k * size /\ 0 <= k /\
    (0 < tail -> 0 < skip_loop fuel tail size) /\ 0 <= skip_loop fuel tail size <= size.
Proof.
  intros Hs. revert tail. induction fuel as [|fuel IH]; intros tail Ht Hf; cbn [skip_loop].
  { exists 0. lia. }
  destruct (Z.ltb_spec size tail); [|exists 0; lia].
  rewrite u16_small by lia. destruct (IH (tail - size)) as (k & E & Hk & Hp & Hr); [lia..|].
  exists (k + 1). rewrite E in *. lia.
Qed.

Lemma skip_loop_mod fuel tail size : 0 < size < 65536 -> 0 <= tail < 65536 -> tail <= Z.of_nat fuel ->
  skip_loop fuel tail size = if (tail mod size =? 0) && (0 <? tail) then size else tail mod size.
Proof.
  intros Hs Ht Hf. destruct (skip_loop_spec fuel tail size Hs Ht Hf) as (k & E & Hk & Hp & Hr).
  rewrite E in *. assert (Hm : tail mod size = (tail - k * size) mod size).
  { replace (tail - k * size) with (tail + - k * size) by lia. by rewrite Z.mod_add by lia. }
  destruct (Z.eq_dec (tail - k * size) size) as [Eq|Hne].
  - rewrite Hm, Eq, Z.mod_same by lia. destruct (Z.ltb_spec 0 tail); [done|lia].
  - rewrite Hm, (Z.mod_small (tail - k * size)) by lia.
    destruct (Z.eqb_spec (tail - k * size) 0) as [Ez|]; [|done]. cbn [andb].
    destruct (Z.ltb_spec 0 tail); [lia|done].
Qed.

(** [wrap_copy_in] on a queue that starts with [bs1]: the first [buflen] bytes
    of it, and the rest of the queue unless the skip ends at the size. *)
Lemma wrap_copy_in_holds q bs1 bs2 buflen :
  holds q (bs1 ++ bs2) -> 0 <= buflen -> q_size q <= 32768 ->
  let len := Z.of_nat (length bs1) in
  let eff := if buflen =? 0 then len else buflen in
  ~ (eff < len /\ (q_tail q + len) mod q_size q = 0) ->
  wrap_copy_in q len buflen =
    (take (Z.to_nat eff) bs1, q <| q_tail := (q_tail q + len) mod q_size q |>, len).
Proof.
  intros Hq Hb H15 len eff Hno. unfold wrap_copy_in. fold eff.
  pose proof (h_size _ _ Hq) as Hs. pose proof (h_tail _ _ Hq) as Ht. pose proof (h_len _ _ Hq) as Hl.
  rewrite length_app in Hl.
  assert (He : 0 <= eff) by (unfold eff; destruct (buflen =? 0); lia).
  assert (Et : length (take (Z.to_nat eff) bs1) = Z.to_nat (Z.min len eff)) by (rewrite length_take; lia).
  rewrite <- (take_drop (Z.to_nat eff) bs1), <- app_assoc in Hq.
  rewrite <- Et, (copy_in_holds _ _ _ Hq), Et.
  assert (Hrange : 0 <= (q_tail q + Z.min len eff) mod q_size q < q_size q) by (apply Z.mod_pos_bound; lia).
  rewrite Z2Nat.id by lia.
  destruct (Z.ltb_spec eff len).
  - rewrite Z.min_r in * by lia. cbn [q_tail q_size upd].
    rewrite u16_small by lia. rewrite skip_loop_mod by lia.
    rewrite Zplus_mod_idemp_l. replace (q_tail q + eff + (len - eff)) with (q_tail q + len) by lia.
    destruct (Z.eqb_spec ((q_tail q + len) mod q_size q) 0); [tauto|]. done.
  - rewrite Z.min_l by lia. done.
Qed.

(** ** The socket queue is a bounded queue of frames *)
Record frame := mk_frame { f_hwts : hw_timestamp; f_hdr : list Z; f_payload : list Z }.

Section queue.
Context `{Endian}.

Definition f_len (f : frame) : Z := Z.of_nat (length (f_payload f)).
Definition frame_ok (f : frame) : Prop :=
  is_byte (hw_valid (f_hwts f)) /\ is_s32 (hw_ahead (f_hwts f)) /\
  0 <= hw_sec (f_hwts f) < 18446744073709551616 /\ is_u32 (hw_nsec (f_hwts f)) /\
  is_u32 (hw_phase (f_hwts f)) /\ length (f_hdr f) = 14%nat /\ f_len f <= 32000.
Definition frame_image (f : frame) : list Z :=
  image 2 (f_len f) ++ hwts_image (f_hwts f) ++ f_hdr f ++ f_payload f.
Definition frame_size (f : frame) : Z := 40 + f_len f.

Lemma length_hwts_image h : length (hwts_image h) = 24%nat.
Proof. unfold hwts_image. by rewrite !length_app, !length_image. Qed.
Lemma length_frame_image f : frame_ok f -> Z.of_nat (length (frame_image f)) = frame_size f.
Proof.
  intros (_ & _ & _ & _ & _ & Hh & _). unfold frame_image, frame_size, f_len.
  rewrite !length_app, length_image, length_hwts_image, Hh. lia.
Qed.


(** The image of a timestamp is read back. *)
Lemma hwts_roundtrip h :
  is_byte (hw_valid h) -> is_s32 (hw_ahead h) -> 0 <= hw_sec h < 18446744073709551616 ->
  is_u32 (hw_nsec h) -> is_u32 (hw_phase h) -> hwts_value (hwts_image h) = h.
Proof.
  intros Hv Ha Hs Hn Hp. unfold hwts_value, hwts_image.
  set (A := image 4 (u32 (hw_ahead h))). set (B := image 8 (hw_sec h)). set (C := image 4 (hw_nsec h)).
  set (D := image 4 (hw_phase h)).
  assert (HA : length A = 4%nat) by apply length_image. assert (HB : length B = 8%nat) by apply length_image.
  assert (HC : length C = 4%nat) by apply length_image. assert (HD : length D = 4%nat) by apply length_image.
  assert (E1 : sub ([hw_valid h; 0; 0; 0] ++ A ++ B ++ C ++ D) 4 4 = A).
  { change 4 with (4 + 0) at 1. rewrite sub_app_r by done. change 4 with (Z.of_nat 4).
    rewrite <- HA. apply sub_app_l. }
  assert (E2 : sub ([hw_valid h; 0; 0; 0] ++ A ++ B ++ C ++ D) 8 8 = B).
  { change (sub _ 8 8) with (sub ([hw_valid h; 0; 0; 0] ++ A ++ B ++ C ++ D) (4 + (4 + 0)) 8).
    rewrite !sub_app_r by (rewrite ?HA; done). change 8 with (Z.of_nat 8). rewrite <- HB. apply sub_app_l. }
  assert (E3 : sub ([hw_valid h; 0; 0; 0] ++ A ++ B ++ C ++ D) 16 4 = C).
  { change (sub _ 16 4) with (sub ([hw_valid h; 0; 0; 0] ++ A ++ B ++ C ++ D) (4 + (4 + (8 + 0))) 4).
    rewrite !sub_app_r by (rewrite ?HA, ?HB; done). change 4 with (Z.of_nat 4). rewrite <- HC. apply sub_app_l. }
  assert (E4 : sub ([hw_valid h; 0; 0; 0] ++ A ++ B ++ C ++ D) 20 4 = D).
  { change (sub _ 20 4) with (sub ([hw_valid h; 0; 0; 0] ++ A ++ B ++ C ++ D) (4 + (4 + (8 + (4 + 0)))) 4).
    rewrite !sub_app_r by (rewrite ?HA, ?HB, ?HC; done). rewrite <- (app_nil_r D) at 1.
    change 4 with (Z.of_nat 4). rewrite <- HD. apply sub_app_l. }
  rewrite E1, E2, E3, E4. unfold A, B, C, D, is_u32, is_s32 in *.
  rewrite !value_image by (try apply u32_range; cbn; lia).
  assert (Es : s32 (u32 (hw_ahead h)) = hw_ahead h).
  { unfold s32, u32. rewrite Zplus_mod_idemp_l. fold (s32 (hw_ahead h)). apply s32_small. inrange. }
  rewrite Es. by destruct h.
Qed.

(** A queue with its counters. *)
Record hq (q : sockq) (bs : list Z) (size avail n : Z) : Prop := {
  hq_holds : holds q bs; hq_size : q_size q = size; hq_avail : q_avail q = avail; hq_n : q_n q = n;
  hq_small : size <= 32768; hq_room : avail = size - Z.of_nat (length bs) }.

Lemma holds_ext q q' bs : holds q bs ->
  q_size q' = q_size q -> q_buff q' = q_buff q -> q_tail q' = q_tail q -> q_head q' = q_head q ->
  holds q' bs.
Proof. intros [H1 H2 H3 H4 H5 H6] E1 E2 E3 E4. split; by rewrite ?E1, ?E2, ?E3, ?E4. Qed.

Lemma hq_out q bs size avail n l : hq q bs size avail n -> Z.of_nat (length l) <= avail ->
  let '(q', k) := wrap_copy_out q l in
  hq (q' <| q_avail := u16 (q_avail q' - k) |>) (bs ++ l) size (avail - Z.of_nat (length l)) n.
Proof.
  intros [Hh Hs Ha Hn Hsm Hr] Hl. unfold wrap_copy_out. pose proof (h_size _ _ Hh).
  destruct (copy_out_holds l q bs Hh) as (Hh' & Es & Ea & En); [lia|].
  split; cbn [q_size q_avail q_n upd]; rewrite ?length_app; try lia.
  - by apply (holds_ext (copy_out_loop q l)).
  - rewrite Ea, Ha, u16_small; lia.
Qed.

Lemma hq_in q l bs size avail n buflen :
  hq q (l ++ bs) size avail n -> 0 <= buflen ->
  let len := Z.of_nat (length l) in
  let eff := if buflen =? 0 then len else buflen in
  ~ (eff < len /\ (q_tail q + len) mod size = 0) ->
  exists q', wrap_copy_in q len buflen = (take (Z.to_nat eff) l, q', len) /\
    q_tail q' = (q_tail q + len) mod size /\
    hq (q' <| q_avail := u16 (q_avail q' + len) |>) bs size (avail + len) n.
Proof.
  intros [Hh Hs Ha Hn Hsm Hr] Hb len eff Hno. subst size.
  eexists. split; [by eapply wrap_copy_in_holds|]. split; [done|].
  pose proof (h_size _ _ Hh) as Hsz. pose proof (h_len _ _ Hh) as Hl. rewrite length_app in Hl, Hr.
  split; cbn [q_size q_avail q_n upd]; try lia.
  - by eapply holds_ext; [exact (holds_advance q l bs Hh)|..].
  - rewrite u16_small; lia.
Qed.

(** The queue represents a list of frames. *)
Definition rep (q : sockq) (fs : list frame) : Prop :=
  Forall frame_ok fs /\ exists size, hq q (concat (frame_image <$> fs)) size (q_avail q) (Z.of_nat (length fs)).

Definition total (fs : list frame) : Z := foldr Z.add 0 (frame_size <$> fs).
Lemma total_length fs : Forall frame_ok fs ->
  Z.of_nat (length (concat (frame_image <$> fs))) = total fs.
Proof.
  induction 1 as [|f fs Hf _ IH]; [done|]. cbn. rewrite length_app, Nat2Z.inj_add, IH.
  by rewrite length_frame_image.
Qed.

Lemma total_ge fs : 40 * Z.of_nat (length fs) <= total fs.
Proof. induction fs as [|f fs IH]; [done|]. unfold total in *. cbn [fmap list_fmap foldr length].
  unfold frame_size at 1, f_len. lia.
Qed.

Lemma queue_put_spec q fs f : rep q fs -> frame_ok f ->
  let q' := queue_put q (f_hwts f) (f_hdr f) (f_payload f) (f_len f) in
  q_size q' = q_size q /\
  rep q' (if q_size q - total fs <? frame_size f then fs else fs ++ [f]).
Proof.
  intros [Hfs (size & Hq)] Hf. unfold queue_put. cbv zeta.
  pose proof (hq_room _ _ _ _ _ Hq) as Hroom. rewrite total_length in Hroom by done.
  pose proof (hq_small _ _ _ _ _ Hq) as Hsm. pose proof (hq_size _ _ _ _ _ Hq) as Hsz.
  assert (Hlen : 0 <= f_len f <= 32000) by (unfold f_len; split; [lia|apply Hf]).
  unfold sizeof_ethhdr, sizeof_hwts. rewrite s32_small by inrange.
  unfold frame_size. rewrite Hsz.
  replace (q_avail q <? 14 + f_len f + 24 + 2) with (size - total fs <? 40 + f_len f)
    by (rewrite <- Hroom; f_equal; lia).
  destruct (Z.ltb_spec (size - total fs) (40 + f_len f)) as [|Hge]; [by split; [|split; eauto]|].
  rewrite u16_small by lia. rewrite <- Hroom in Hge.
  pose proof Hf as (_ & _ & _ & _ & _ & Hh14 & _).
  assert (Hsub : sub (f_payload f) 0 (f_len f) = f_payload f) by apply sub_all. rewrite Hsub.
  pose proof (hq_out _ _ _ _ _ (image 2 (f_len f)) Hq) as H1. rewrite length_image in H1.
  destruct (wrap_copy_out q (image 2 (f_len f))) as [q1 k1]. specialize (H1 ltac:(lia)).
  pose proof (hq_out _ _ _ _ _ (hwts_image (f_hwts f)) H1) as H2. rewrite length_hwts_image in H2.
  destruct (wrap_copy_out _ (hwts_image (f_hwts f))) as [q2 k2]. specialize (H2 ltac:(lia)).
  pose proof (hq_out _ _ _ _ _ (f_hdr f) H2) as H3. rewrite Hh14 in H3.
  destruct (wrap_copy_out _ (f_hdr f)) as [q3 k3]. specialize (H3 ltac:(lia)).
  pose proof (hq_out _ _ _ _ _ (f_payload f) H3) as H4. fold (f_len f) in H4.
  destruct (wrap_copy_out _ (f_payload f)) as [q4 k4]. specialize (H4 ltac:(lia)).
  destruct H4 as [Hh Hs4 Ha4 Hn4 _ Hr4]. split; [done|]. split; [apply Forall_app; eauto|].
  exists size. cbn [q_size q_avail q_n upd] in *. rewrite fmap_app, concat_app.
  cbn [fmap list_fmap concat]. rewrite app_nil_r. unfold frame_image at 2.
  rewrite <- !app_assoc in Hh, Hr4.
  pose proof (h_len _ _ Hh) as Hhl.
  split; cbn [q_size q_avail q_n upd]; try done; try lia.
  - by eapply holds_ext; [exact Hh|..].
  - rewrite Hn4, length_app. cbn [length]. pose proof (total_ge fs). rewrite u16_small; lia.
Qed.

(** Taking the first frame; [data_length] may truncate the payload, unless the
    skipped bytes end exactly at the end of the ring. *)
Lemma queue_get_spec q f fs data_length : rep q (f :: fs) -> 0 <= data_length ->
  let eff := if data_length =? 0 then f_len f else data_length in
  ~ (eff < f_len f /\ (q_tail q + frame_size f) mod q_size q = 0) ->
  exists q', queue_get q data_length =
      (f_hwts f, f_hdr f, take (Z.to_nat eff) (f_payload f), f_len f, q') /\
    q_size q' = q_size q /\ rep q' fs.
Proof.
  intros [Hfs (size & Hq)] Hd eff Hno. apply Forall_cons in Hfs as [Hf Hfs].
  pose proof Hf as (Hv & Ha & Hs & Hns & Hp & Hh14 & Hl).
  assert (Hl0 : 0 <= f_len f) by (unfold f_len; lia).
  pose proof (hq_size _ _ _ _ _ Hq) as Hsz. rewrite Hsz in Hno.
  cbn [fmap list_fmap concat] in Hq. unfold frame_image at 1 in Hq. rewrite <- !app_assoc in Hq.
  set (q0 := q <| q_n := u16 (q_n q - 1) |>).
  assert (H0 : hq q0 (image 2 (f_len f) ++ hwts_image (f_hwts f) ++ f_hdr f ++ f_payload f ++
    concat (frame_image <$> fs)) size (q_avail q) (Z.of_nat (length fs))).
  { destruct Hq as [E1 E2 E3 E4 E5 E6]. split; try done; [by eapply holds_ext; [exact E1|..]|].
    unfold q0. cbn [q_n upd]. rewrite E4. cbn [length]. pose proof (total_ge fs).
    pose proof (h_len _ _ E1) as Hl1. rewrite !length_app in Hl1. pose proof (total_length fs Hfs).
    rewrite u16_small; lia. }
  unfold queue_get. fold q0.
  destruct (hq_in q0 _ _ _ _ _ 0 H0 ltac:(lia)) as (q1 & W1 & T1 & H1).
  { rewrite Z.eqb_refl. lia. }
  rewrite length_image, Z.eqb_refl in *. change (Z.of_nat 2) with 2 in *. rewrite W1.
  rewrite take_ge by (rewrite length_image; lia). rewrite value_image by (cbn; lia).
  destruct (hq_in _ _ _ _ _ _ 0 H1 ltac:(lia)) as (q2 & W2 & T2 & H2).
  { rewrite Z.eqb_refl. lia. }
  rewrite length_hwts_image, Z.eqb_refl in *. change (Z.of_nat 24) with 24 in *. unfold sizeof_hwts.
  rewrite W2. rewrite take_ge by (rewrite length_hwts_image; lia). rewrite hwts_roundtrip by done.
  destruct (hq_in _ _ _ _ _ _ 0 H2 ltac:(lia)) as (q3 & W3 & T3 & H3).
  { rewrite Z.eqb_refl. lia. }
  rewrite Hh14, Z.eqb_refl in *. change (Z.of_nat 14) with 14 in *. unfold sizeof_ethhdr.
  rewrite W3. rewrite take_ge by lia.
  destruct (hq_in _ _ _ _ _ _ data_length H3 Hd) as (q4 & W4 & T4 & H4).
  { unfold q0 in T1. cbn [q_tail upd] in T1, T2, T3 |- *. fold (f_len f) eff.
    rewrite T3, T2, T1.
    rewrite !Zplus_mod_idemp_l, <- !Z.add_assoc, ?Zplus_mod_idemp_l.
    replace (q_tail q + (2 + 24) + (14 + f_len f)) with (q_tail q + frame_size f) by (unfold frame_size; lia).
    exact Hno. }
  fold (f_len f) eff in W4, H4. rewrite W4.
  eexists. split; [reflexivity|]. pose proof (hq_size _ _ _ _ _ H4) as Hs4. split; [congruence|].
  split; [done|]. exists size. destruct H4 as [E1 E2 E3 E4 E5 E6]. by split; rewrite ?E3.
Qed.
End queue.

(** ** Sockets refine bounded queues of frames *)
Inductive qop := QPut (f : frame) | QGet (data_length : Z).
Definition qres : Type := option (hw_timestamp * list Z * list Z * Z).

Section refinement.
Context `{Endian}.

(** The socket: what [netif_poll] stores and what [ptpd_netif_recvfrom] takes. *)
Definition sock_step (q : sockq) (op : qop) : sockq * qres :=
  match op with
  | QPut f => (queue_put q (f_hwts f) (f_hdr f) (f_payload f) (f_len f), None)
  | QGet d => if q_n q =? 0 then (q, None)
              else let '(hwts, hdr, bs, size, q) := queue_get q d in (q, Some (hwts, hdr, bs, size))
  end.
(** The specification: a FIFO of at most [cap] bytes that drops what does not fit. *)
Definition fifo_step (cap : Z) (fs : list frame) (op : qop) : list frame * qres :=
  match op, fs with
  | QPut f, _ => (if cap - total fs <? frame_size f then fs else fs ++ [f], None)
  | QGet d, [] => ([], None)
  | QGet d, f :: fs => (fs, Some (f_hwts f, f_hdr f, f_payload f, f_len f))
  end.
Fixpoint run {S : Type} (step : S -> qop -> S * qres) (s : S) (ops : list qop) : S * list qres :=
  match ops with
  | [] => (s, [])
  | op :: ops => let '(s, r) := step s op in let '(s, rs) := run step s ops in (s, r :: rs)
  end.

(** Frames of at most [mtu] bytes, taken into buffers of at least [mtu] bytes. *)
Definition op_ok (mtu : Z) (op : qop) : Prop :=
  match op with QPut f => frame_ok f /\ f_len f <= mtu | QGet d => 0 < d /\ mtu <= d end.

Lemma sock_step_refines mtu q fs op :
  rep q fs -> Forall (fun f => f_len f <= mtu) fs -> op_ok mtu op ->
  let '(q', r) := sock_step q op in
  let '(fs', r') := fifo_step (q_size q) fs op in
  r = r' /\ q_size q' = q_size q /\ rep q' fs' /\ Forall (fun f => f_len f <= mtu) fs'.
Proof.
  intros Hrep Hm Hop. destruct op as [f|d]; cbn [sock_step fifo_step op_ok] in *.
  - destruct Hop as [Hf Hlm]. destruct (queue_put_spec q fs f Hrep Hf) as [Hs Hr].
    split_and!; try done. case_match; [done|]. apply Forall_app; eauto.
  - pose proof Hrep as [_ (size & Hq)]. pose proof (hq_n _ _ _ _ _ Hq) as Hn.
    destruct fs as [|f fs].
    + rewrite Hn. cbn. by split_and!.
    + rewrite Hn. cbn [length]. destruct (Z.eqb_spec (Z.of_nat (S (length fs))) 0); [lia|].
      apply Forall_cons in Hm as [Hmf Hm]. destruct Hop as [Hd Hmd].
      destruct (queue_get_spec q f fs d Hrep ltac:(lia)) as (q' & E & Hs & Hr).
      { destruct (Z.eqb_spec d 0); lia. }
      rewrite E. destruct (Z.eqb_spec d 0); [lia|].
      rewrite take_ge by (unfold f_len in *; lia). exact (conj eq_refl (conj Hs (conj Hr Hm))).
Qed.

Lemma run_refines mtu ops : forall q fs,
  rep q fs -> Forall (fun f => f_len f <= mtu) fs -> Forall (op_ok mtu) ops ->
  let '(q', rs) := run sock_step q ops in
  let '(fs', rs') := run (fifo_step (q_size q)) fs ops in
  rs = rs' /\ q_size q' = q_size q /\ rep q' fs'.
Proof.
  induction ops as [|op ops IH]; intros q fs Hrep Hm Hops; cbn [run]; [done|].
  apply Forall_cons in Hops as [Hop Hops]. pose proof (sock_step_refines mtu q fs op Hrep Hm Hop) as Hst.
  destruct (sock_step q op) as [q1 r1]. destruct (fifo_step (q_size q) fs op) as [fs1 r1'].
  destruct Hst as (-> & Hs1 & Hrep1 & Hm1). specialize (IH q1 fs1 Hrep1 Hm1 Hops). rewrite Hs1 in IH.
  destruct (run sock_step q1 ops) as [q2 rs]. destruct (run (fifo_step (q_size q)) fs1 ops) as [fs2 rs'].
  destruct IH as (-> & -> & ?). done.
Qed.

(** A socket as [ptpd_netif_create_socket] leaves it represents no frame. *)
Lemma created_rep n sock len bind kind port nif n' id :
  ptpd_netif_create_socket n sock len bind kind port nif = (n', Some id) ->
  0 < len <= 32768 -> Z.of_nat (length (q_buff (ws_queue (sock_at n sock)))) = len ->
  id = sock /\ rep (ws_queue (sock_at n' sock)) [] /\ q_size (ws_queue (sock_at n' sock)) = len.
Proof.
  unfold ptpd_netif_create_socket. case_match; [done|]. intros [= <- <-] Hlen Hb.
  unfold sock_at. cbn [nt_mem upd]. rewrite lookup_insert_eq. cbn [default ws_queue q_size upd].
  change (default sock_zero (nt_mem n !! sock)) with (sock_at n sock).
  rewrite !(u16_small len) by lia. unfold Datatypes.id. cbn [ws_queue q_size]. split; [done|]. split; [|done]. split; [constructor|].
  exists len. cbn [fmap list_fmap concat length].
  split; cbn; try done; try lia. split; cbn; try lia; done.
Qed.
End refinement.

(** C6. A socket is a bounded FIFO of frames: after [ptpd_netif_create_socket]
    with a ring of [len] bytes, for every sequence of frames stored by
    [netif_poll] and taken by [ptpd_netif_recvfrom] into buffers at least as
    long as the frames, the socket returns exactly what a FIFO of [len] bytes
    returns: the frames that fitted when they came (40 bytes of overhead each),
    in order, each with its timestamp, header, bytes and length, and the others
    are dropped whole; the counters and the ring stay consistent throughout. *)
Theorem socket_refines_fifo `{Endian} n sock len bind kind port nif n' id mtu ops :
  ptpd_netif_create_socket n sock len bind kind port nif = (n', Some id) ->
  0 < len <= 32768 -> Z.of_nat (length (q_buff (ws_queue (sock_at n sock)))) = len ->
  Forall (op_ok mtu) ops ->
  let '(q, rs) := run sock_step (ws_queue (sock_at n' id)) ops in
  let '(fs, rs') := run (fifo_step len) [] ops in
  rs = rs' /\ rep q fs.
Proof.
  intros Hc Hlen Hb Hops. destruct (created_rep _ _ _ _ _ _ _ _ _ Hc Hlen Hb) as (-> & Hrep & Hs).
  pose proof (run_refines mtu ops _ [] Hrep ltac:(constructor) Hops) as Hr. rewrite Hs in Hr.
  destruct (run sock_step _ ops), (run (fifo_step len) [] ops). destruct Hr as (? & _ & ?). done.
Qed.

Definition demo_net (size : nat) : net_state :=
  mk_net (replicate 12 None) {[ 0%nat := mk_sock sa_zero 0 0 (mk_q 9 9 9 9 9 (replicate size 170)) ]}
    (mk_netifs 1 [mk_nif [8;0;48;1;2;3] (mk_minic 0 0 0 0 0) 2389; nif_zero]) 0 (replicate 14 0)
    (replicate 512 0).
Definition demo_frame (k : Z) (len : nat) : frame :=
  mk_frame (mk_hwts 1 (-1) (1700000000 + k) 16 4000) (replicate 14 k) (replicate len k).

(** A 128-byte ring: two frames of 20 bytes fit, the third is dropped; the
    fourth wraps around the end of the ring. *)
Lemma socket_refines_fifo_witness :
  let E := (true : Endian) in
  let n' := (ptpd_netif_create_socket (demo_net 128) 0 128 None 1 0 0).1 in
  let ops := [QPut (demo_frame 1 20); QPut (demo_frame 2 20); QPut (demo_frame 3 20); QGet 32;
              QPut (demo_frame 4 20); QGet 32; QGet 32; QGet 32] in
  let '(q, rs) := run sock_step (ws_queue (sock_at n' 0)) ops in
  rs = [None; None; None; Some (mk_hwts 1 (-1) 1700000001 16 4000, replicate 14 1, replicate 20 1, 20); None;
        Some (mk_hwts 1 (-1) 1700000002 16 4000, replicate 14 2, replicate 20 2, 20);
        Some (mk_hwts 1 (-1) 1700000004 16 4000, replicate 14 4, replicate 20 4, 20); None] /\ rep q [].
Proof.
  intros E n' ops.
  pose proof (socket_refines_fifo (demo_net 128) 0 128 None 1 0 0 n' 0 20 ops eq_refl ltac:(lia) eq_refl) as Hx.
  assert (Hops : Forall (op_ok 20) ops).
  { unfold ops. repeat (apply Forall_cons; split); [..|constructor];
      unfold op_ok, frame_ok, is_byte, is_s32, is_u32, f_len; cbn; lia. }
  specialize (Hx Hops). destruct (run sock_step _ ops) as [q rs]. destruct Hx as [-> Hr].
  split; [vm_compute; reflexivity|exact Hr].
Defined.

(** When a read truncates the frame and the skipped bytes end exactly at
    the end of the ring, [while (q->tail > q->size)] leaves the tail at [size],
    one past the buffer.  The rdate socket reaches it: its ring has 96 bytes, a
    minimum-size request takes 86 of them and [rdate_poll] reads into 32 bytes,
    so 48 requests, each stored and read, move the tail to 96; the next
    request is then read from behind the buffer (here zeros): its 46 bytes are
    lost and the queue no longer agrees with the FIFO. *)
Theorem rdate_tail_escapes `{Endian} :
  let q0 := mk_q 0 0 96 96 0 (replicate 96 170) in
  let request := demo_frame 5 46 in
  let ops := concat (replicate 48 [QPut request; QGet 32]) in
  let q := (run sock_step q0 ops).1 in
  q_tail q = q_size q /\ q_n q = 0 /\ q_avail q = q_size q /\
  (sock_step (sock_step q (QPut request)).1 (QGet 32)).2 = Some (mk_hwts 0 0 0 0 0, replicate 14 0, [], 0) /\
  (fifo_step 96 [request] (QGet 32)).2 <> Some (mk_hwts 0 0 0 0 0, replicate 14 0, [], 0).
Proof.
  cbv zeta.
  destruct H; (split; [vm_compute; reflexivity|]; split; [vm_compute; reflexivity|];
    split; [vm_compute; reflexivity|]; split; [vm_compute; reflexivity|]; cbn; congruence).
Qed.
