(* ===== verification/Tasks.v ===== *)
(** lib/wrc-tasks.c: the cooperative scheduler of the main loop, its accounting
    of the time each task takes, and the periodic tasks. *)
From Stdlib Require Import ZArith Lia.
From stdpp Require Import base numbers option list.
From S2P Require Import Prelude SpllHw SpllExternal PpsGen.

(** timer_get_tics (dev/syscon.c), a counter of [TICS_PER_SECOND] ticks. *)
Class Timer (W : Type) := timer_tics : M W Z.
#[export] Instance spll_timer {W : Type} `{!SpllHW W} : Timer W := timer_get_tics.

Definition WRC_MAX_TASKS : Z := 20.
Definition time_before (a b : Z) : bool := time_after b a.

(** struct wrc_task; [unsigned long] has 32 bits.  The functions of a task are
    computations on the rest of the system [W]; NULL is [None]. *)
Record wrc_task (W : Type) := mk_task {
  tk_used : Z; tk_name : list Z; tk_enabled : option (M W Z); tk_init : option (M W unit);
  tk_job : option (M W Z); tk_nrun : Z; tk_seconds : Z; tk_nanos : Z; tk_max_run_ticks : Z }.
Arguments mk_task {W}.
Arguments tk_used {W}.
Arguments tk_name {W}.
Arguments tk_enabled {W}.
Arguments tk_init {W}.
Arguments tk_job {W}.
Arguments tk_nrun {W}.
Arguments tk_seconds {W}.
Arguments tk_nanos {W}.
Arguments tk_max_run_ticks {W}.
#[export] Instance eta_task W : Etable (wrc_task W) := fun t =>
  mk_task (tk_used t) (tk_name t) (tk_enabled t) (tk_init t) (tk_job t) (tk_nrun t) (tk_seconds t)
          (tk_nanos t) (tk_max_run_ticks t).
Definition task_zero {W} : wrc_task W := mk_task 0 (replicate 16 0) None None None 0 0 0 0.

(** The static variables of the scheduler. *)
Record sched (W : Type) := mk_sched { sc_tasks : list (wrc_task W); sc_nanos : Z; sc_ticks : Z }.
Arguments mk_sched {W}.
Arguments sc_tasks {W}.
Arguments sc_nanos {W}.
Arguments sc_ticks {W}.
#[export] Instance eta_sched W : Etable (sched W) := fun s =>
  mk_sched (sc_tasks s) (sc_nanos s) (sc_ticks s).

(** ** Creating tasks *)
Section create.
Context {W : Type}.
Implicit Types (s : sched W) (t : wrc_task W).

Definition wrc_tasks_preinit s : sched W :=
  s <| sc_tasks := replicate (Z.to_nat WRC_MAX_TASKS) task_zero |>.

Fixpoint free_task (l : list (wrc_task W)) (i : Z) : option Z :=
  match l with
  | [] => None
  | t :: l => if negb (truth (tk_used t)) then Some i else free_task l (i + 1)
  end.

(** strncpy(t->name, name, 16): [name] without its terminator. *)
Definition strncpy16 (name : list Z) : list Z := take 16 (name ++ replicate 16 0).

Definition wrc_task_get s (tid : Z) : wrc_task W := aget task_zero (sc_tasks s) tid.
Definition set_task s (tid : Z) t : sched W := s <| sc_tasks := aset (sc_tasks s) tid t |>.

(** [wrc_task_create]: the task by its index, or NULL. *)
Definition wrc_task_create s (name : list Z) (init : option (M W unit)) (job : option (M W Z))
    : sched W * option Z :=
  match free_task (sc_tasks s) 0 with
  | None => (s, None)
  | Some i =>
      let t := wrc_task_get s i in
      (set_task s i (t <| tk_used := 1 |> <| tk_init := init |> <| tk_job := job |>
                       <| tk_enabled := None |> <| tk_name := strncpy16 name |>), Some i)
  end.

Definition wrc_task_set_enable s (tid : Z) (enabled : option (M W Z)) : sched W :=
  set_task s tid ((wrc_task_get s tid) <| tk_enabled := enabled |>).

(** ** Accounting *)
Definition task_time_normalize t : wrc_task W :=
  if 1000000000 <? tk_nanos t
  then t <| tk_nanos := u32 (tk_nanos t - 1000000000) |> <| tk_seconds := u32 (tk_seconds t + 1) |>
  else t.

(** What [account_task] does to the task once the clocks are read. *)
Definition charge `{Board} s t (nanos ticks : Z) : wrc_task W :=
  let delta := s32 (nanos - sc_nanos s) in
  let delta := if delta <? 0 then (delta + 1000000000)%int else delta in
  let t := task_time_normalize (t <| tk_nanos := u32 (tk_nanos t + delta) |>) in
  let delta_ticks := s32 (ticks - sc_ticks s) in
  let delta_ticks := if delta_ticks <? 0 then (delta_ticks + TICS_PER_SECOND)%int else delta_ticks in
  if tk_max_run_ticks t <? u32 delta_ticks then t <| tk_max_run_ticks := u32 delta_ticks |> else t.
End create.

Section run.
Context `{Board} {W : Type} `{!PpsHW W, !Timer W}.
Implicit Types (s : sched W) (t : wrc_task W).

(** [account_task]; [None] when the clock could not be read.  The messages
    printed with a threshold are left out. *)
Definition account_task s (tid done_sth : Z) : M W (option (sched W)) :=
  let tid := if negb (truth done_sth) then 0 else tid in
  let! r := shw_pps_gen_get_time in
  match r with
  | None => ret None
  | Some (_, nanos) =>
      let! ticks := timer_tics in
      ret (Some ((set_task s tid (charge s (wrc_task_get s tid) nanos ticks))
                   <| sc_nanos := nanos |> <| sc_ticks := ticks |>))
  end.

(** The first part of [wrc_run_task]: the job, if the task is enabled. *)
Definition run_job t : M W (wrc_task W * Z) :=
  match tk_job t with
  | None => ret (t <| tk_nrun := u32 (tk_nrun t + 1) |>, 0)
  | Some job =>
      let! en := (match tk_enabled t with None => ret 1 | Some e => e end) in
      if truth en then
        let! done_sth := job in
        ret (t <| tk_nrun := u32 (tk_nrun t + done_sth) |>, done_sth)
      else ret (t, 0)
  end.
Definition wrc_run_task s (tid : Z) : M W (option (sched W)) :=
  let! r := run_job (wrc_task_get s tid) in
  let '(t, done_sth) := r in account_task (set_task s tid t) tid done_sth.

Definition wrc_poll_all_tasks s : M W (option (sched W)) :=
  foldM (fun acc i =>
           match acc with
           | None => ret None
           | Some s => if truth (tk_used (wrc_task_get s i)) then wrc_run_task s i else ret (Some s)
           end) (range WRC_MAX_TASKS) (Some s).

Definition wrc_tasks_run_inits s : M W unit :=
  foldM (fun _ i => let t := wrc_task_get s i in
           match tk_init t with
           | Some init => if truth (tk_used t) then init else ret tt
           | None => ret tt
           end) (range WRC_MAX_TASKS) tt.

Definition wrc_tasks_accounting_init s : M W (option (sched W)) :=
  let! r := shw_pps_gen_get_time in
  match r with
  | None => ret None
  | Some (_, nanos) => let! ticks := timer_tics in
                       ret (Some (s <| sc_nanos := nanos |> <| sc_ticks := ticks |>))
  end.

(** [wrc_task_not_yet]: the new value of [*lastt] and the result. *)
Definition not_yet (now lastt period : Z) : Z * Z :=
  if lastt =? 0 then (now, 0)
  else if time_before now (u32 (lastt + period)) then (lastt, 1)
  else (u32 (lastt + period), 0).
Definition wrc_task_not_yet (lastt period : Z) : M W (Z * Z) :=
  let! now := timer_tics in ret (not_yet now lastt period).
End run.

(** ** The accounting loses no time *)

(** The time charged to a task and to all of them, in nanoseconds. *)
Definition task_time {W} (t : wrc_task W) : Z := tk_seconds t * 1000000000 + tk_nanos t.
Definition accounted {W} (s : sched W) : Z := foldr Z.add 0 (task_time <$> sc_tasks s).

Definition task_ok {W} (t : wrc_task W) : Prop :=
  0 <= tk_nanos t <= 1000000000 /\ is_u32 (tk_seconds t).
Definition sched_ok {W} (s : sched W) : Prop :=
  Z.of_nat (length (sc_tasks s)) = WRC_MAX_TASKS /\ Forall task_ok (sc_tasks s).

(** Equality up to the wrap-around of the 32-bit counters of seconds. *)
Definition eq_time (a b : Z) : Prop := exists k, a = b + k * (4294967296 * 1000000000).
Lemma eq_time_refl a : eq_time a a.
Proof. exists 0. lia. Qed.
Lemma eq_time_trans a b c d : eq_time a (b + d) -> eq_time b c -> eq_time a (c + d).
Proof. intros [k ->] [l ->]. exists (k + l). lia. Qed.

Section accounting_lemmas.
Context {W : Type}.
Implicit Types (s : sched W) (t : wrc_task W).

Lemma sum_aset (f : wrc_task W -> Z) l i x : 0 <= i < Z.of_nat (length l) ->
  foldr Z.add 0 (f <$> aset l i x) = foldr Z.add 0 (f <$> l) - f (aget task_zero l i) + f x.
Proof.
  unfold aset, aget. intros Hi. destruct (Z.ltb_spec i 0); [lia|].
  assert (Hn : (Z.to_nat i < length l)%nat) by lia. revert Hn. generalize (Z.to_nat i). clear.
  induction l as [|a l IH]; intros n Hn; [cbn in Hn; lia|].
  destruct n as [|n]; [cbn; lia|]. cbn [length] in Hn.
  change (<[S n:=x]> (a :: l)) with (a :: <[n:=x]> l). change ((a :: l) !! S n) with (l !! n).
  cbn [fmap list_fmap foldr]. rewrite (IH n) by lia. lia.
Qed.

Lemma accounted_set s i x : sched_ok s -> 0 <= i < WRC_MAX_TASKS ->
  accounted (set_task s i x) = accounted s - task_time (wrc_task_get s i) + task_time x.
Proof. intros [Hl _] Hi. unfold accounted, set_task, wrc_task_get. cbn [sc_tasks upd]. apply sum_aset. lia. Qed.

Lemma get_ok s i : sched_ok s -> task_ok (wrc_task_get s i).
Proof.
  intros [_ Hf]. unfold wrc_task_get, aget. destruct (i <? 0); [|destruct (_ !! _) eqn:E];
    try (unfold task_ok, is_u32; cbn; lia).
  exact (Forall_lookup_1 _ _ _ _ Hf E).
Qed.
Lemma set_ok s i x : sched_ok s -> task_ok x -> sched_ok (set_task s i x).
Proof.
  intros [Hl Hf] Hx. unfold sched_ok, set_task. cbn [sc_tasks upd]. rewrite length_aset.
  split; [done|]. unfold aset. destruct (i <? 0); [done|]. by apply Forall_insert.
Qed.
Lemma get_set s i x : 0 <= i < Z.of_nat (length (sc_tasks s)) -> wrc_task_get (set_task s i x) i = x.
Proof. intros Hi. by apply aget_aset_eq. Qed.

Lemma normalize_time t : 0 <= tk_nanos t < 2000000000 -> is_u32 (tk_seconds t) ->
  eq_time (task_time (task_time_normalize t)) (task_time t) /\
  0 <= tk_nanos (task_time_normalize t) <= 1000000000 /\
  is_u32 (tk_seconds (task_time_normalize t)).
Proof.
  intros Hn Hs. unfold task_time_normalize, task_time. destruct (Z.ltb_spec 1000000000 (tk_nanos t)).
  - cbn [tk_nanos tk_seconds upd]. rewrite (u32_small (_ - _)) by inrange.
    split; [|split; [lia|apply u32_range]]. unfold u32.
    exists (- ((tk_seconds t + 1) / 4294967296)). pose proof (Z.div_mod (tk_seconds t + 1) 4294967296 ltac:(lia)). lia.
  - split; [apply eq_time_refl|]. split; [lia|done].
Qed.

(** Charging a task adds the time since the last charge. *)
Lemma charge_time `{Board} s t nanos ticks d :
  task_ok t -> 0 <= sc_nanos s < 1000000000 -> 0 <= nanos < 1000000000 ->
  0 <= d < 1000000000 -> (sc_nanos s + d - nanos = 0 \/ sc_nanos s + d - nanos = 1000000000) ->
  eq_time (task_time (charge s t nanos ticks)) (task_time t + d) /\ task_ok (charge s t nanos ticks).
Proof.
  intros (Hn & Hs) Hp Hc Hd Hwrap. unfold charge. cbv zeta.
  set (dl := if s32 (nanos - sc_nanos s) <? 0 then _ else _).
  assert (E : dl = d).
  { unfold dl, iadd. rewrite (s32_small (nanos - sc_nanos s)) by inrange.
    destruct (Z.ltb_spec (nanos - sc_nanos s) 0); rewrite ?s32_small by inrange; lia. }
  rewrite E. clearbody dl. clear E dl.
  rewrite (u32_small (tk_nanos t + d)) by inrange.
  destruct (normalize_time (t <| tk_nanos := tk_nanos t + d |>)) as (H1 & H2 & H3); [cbn; lia|done|].
  set (t' := task_time_normalize _) in *. clearbody t'.
  assert (Ht : task_time (t <| tk_nanos := tk_nanos t + d |>) = task_time t + d) by (unfold task_time; cbn; lia).
  rewrite Ht in H1.
  set (dt := if _ <? 0 then _ else _).
  destruct (tk_max_run_ticks t' <? u32 dt); (split; [exact H1|by split]).
Qed.
End accounting_lemmas.

(** *** With the clock of the PPS generator *)
Section accounting.
Context `{B : Board} {Bok : BoardOk B} {W : Type} `{!PpsHW W, !PpsClock W, !PpsLaws W, !Timer W}.
Implicit Types (s : sched W) (w : W).

(** [brief J m]: [m] takes at most [J] cycles of the reference clock. *)
Definition brief {A} (J : Z) (m : M W A) : Prop :=
  forall w, ensures m w (fun _ w' => ppsg_clock w <= ppsg_clock w' <= ppsg_clock w + J).
Definition task_brief (J : Z) (t : wrc_task W) : Prop :=
  (forall e, tk_enabled t = Some e -> brief J e) /\ (forall j, tk_job t = Some j -> brief J j).

(** [charged J s w t]: the clock was last read at [t], not long ago. *)
Definition charged (J : Z) s w (t : Z) : Prop :=
  sched_ok s /\ Forall (task_brief J) (sc_tasks s) /\ 0 <= t <= ppsg_clock w /\
  ppsg_clock w <= t + 10 * ppsg_read_time + J /\ sc_nanos s = cycles_of t * NS_PER_CLOCK.

Lemma get_brief J s i : Forall (task_brief J) (sc_tasks s) -> task_brief J (wrc_task_get s i).
Proof.
  intros Hf. unfold wrc_task_get, aget. destruct (i <? 0); [by split|].
  destruct (_ !! _) eqn:E; [exact (Forall_lookup_1 _ _ _ _ Hf E)|by split].
Qed.
Lemma set_brief J s i x : Forall (task_brief J) (sc_tasks s) -> task_brief J x ->
  Forall (task_brief J) (sc_tasks (set_task s i x)).
Proof.
  intros Hf Hx. unfold set_task, aset. cbn [sc_tasks upd]. destruct (i <? 0); [done|]. by apply Forall_insert.
Qed.

Lemma run_job_spec J t w : 0 <= J -> task_brief J t -> ensures (run_job t) w (fun '(t', _) w' =>
  ppsg_clock w <= ppsg_clock w' <= ppsg_clock w + 2 * J /\
  tk_seconds t' = tk_seconds t /\ tk_nanos t' = tk_nanos t /\
  tk_enabled t' = tk_enabled t /\ tk_job t' = tk_job t).
Proof.
  intros HJ [He Hj]. unfold run_job. destruct (tk_job t) as [job|] eqn:Ej.
  2: { apply ensures_ret. split; [lia|done]. }
  apply ensures_bind. eapply (ensures_mono _ _ (fun _ w' => ppsg_clock w <= ppsg_clock w' <= ppsg_clock w + J)).
  { destruct (tk_enabled t) as [e|]; [by apply He|]. apply ensures_ret. lia. }
  intros en w1 H1. destruct (truth en); [|apply ensures_ret; split; [lia|done]].
  apply ensures_bind. eapply ensures_mono; [exact (Hj job eq_refl w1)|]. cbv beta.
  intros dn w2 H2. apply ensures_ret. split; [lia|done].
Qed.

(** The nanoseconds of two instants less than a second apart. *)
Lemma nanos_wrap t t' : 0 <= t <= t' -> t' < t + REF_CLOCK_FREQ_HZ ->
  let n := cycles_of t * NS_PER_CLOCK in let n' := cycles_of t' * NS_PER_CLOCK in
  let d := (t' - t) * NS_PER_CLOCK in
  0 <= n < 1000000000 /\ 0 <= n' < 1000000000 /\ 0 <= d < 1000000000 /\
  (n + d - n' = 0 \/ n + d - n' = 1000000000).
Proof.
  intros Ht Hd. cbv zeta. pose proof freq_pos as (Hf & _ & HN). unfold cycles_of.
  set (F := REF_CLOCK_FREQ_HZ) in *. clearbody F.
  pose proof (Z.mod_pos_bound t F Hf). pose proof (Z.mod_pos_bound t' F Hf).
  pose proof (Z.div_mod t F ltac:(lia)) as Et. pose proof (Z.div_mod t' F ltac:(lia)) as Et'.
  assert (Hq : t' / F = t / F \/ t' / F = t / F + 1).
  { pose proof (Z.div_le_mono t t' F Hf ltac:(lia)). assert (t' / F <= (t + 1 * F) / F) by (apply Z.div_le_mono; lia).
    rewrite Z.div_add in * by lia. lia. }
  assert (0 < NS_PER_CLOCK) by nia.
  split_and!; [nia..|]. destruct Hq as [Hq|Hq]; rewrite Hq in *; [left|right]; nia.
Qed.

Variable J : Z.
Hypothesis HJ : 0 <= J /\ 20 * ppsg_read_time + 3 * J < REF_CLOCK_FREQ_HZ.
Hypothesis Htics : brief J timer_tics.

(** The task that the time of a run of task [tid] is charged to. *)
Definition receiver (tid done_sth : Z) : Z := if truth done_sth then tid else 0.

(** A task but for the accounting of its time. *)
Definition untimed (t : wrc_task W) :=
  (tk_used t, tk_name t, tk_enabled t, tk_init t, tk_job t, tk_nrun t).

(** Between [s] and [s'] the time of every task has grown by what [share] gives
    it, and nothing else of the tasks has changed. *)
Definition charged_with (share : Z -> Z) s s' : Prop :=
  forall j, 0 <= j < WRC_MAX_TASKS ->
    eq_time (task_time (wrc_task_get s' j)) (task_time (wrc_task_get s j) + share j) /\
    untimed (wrc_task_get s' j) = untimed (wrc_task_get s j).

(** [polled l s w t s' w' t']: the tasks [l] are served one after the other,
    from the scheduler [s], the system [w] and a clock last read at [t].  An
    unused task is skipped.  A used one runs its job ([tk] is the task with
    its count of runs updated and [dn] says whether it did something), then
    the clock reads [t2] and the time since the last reading is charged to
    the task, or to task 0 when it did nothing, and to no other task. *)
Inductive polled : list Z -> sched W -> W -> Z -> sched W -> W -> Z -> Prop :=
  | polled_done s w t : polled [] s w t s w t
  | polled_unused i l s w t s' w' t' :
      tk_used (wrc_task_get s i) = 0 -> polled l s w t s' w' t' ->
      polled (i :: l) s w t s' w' t'
  | polled_task i l s w t tk dn w1 s2 w2 t2 s' w' t' :
      tk_used (wrc_task_get s i) <> 0 ->
      run_job (wrc_task_get s i) w = ((tk, dn), w1) -> ppsg_clock w1 <= t2 <= ppsg_clock w2 ->
      charged_with (fun j => if j =? receiver i dn then (t2 - t) * NS_PER_CLOCK else 0)
        (set_task s i tk) s2 ->
      polled l s2 w2 t2 s' w' t' -> polled (i :: l) s w t s' w' t'.

Lemma charge_untimed s t nanos ticks : untimed (charge s t nanos ticks) = untimed t.
Proof. unfold charge, task_time_normalize. by repeat case_match. Qed.

Lemma get_set_ne s i j x : i <> j -> wrc_task_get (set_task s i x) j = wrc_task_get s j.
Proof. intros Hne. by apply aget_aset_ne. Qed.

Lemma account_spec s w w0 t tid dn :
  charged J s w0 t -> ppsg_clock w0 <= ppsg_clock w <= ppsg_clock w0 + 2 * J ->
  ppsg_clock w0 + 2 * REF_CLOCK_FREQ_HZ <= REF_CLOCK_FREQ_HZ * 2 ^ 40 ->
  0 <= tid < WRC_MAX_TASKS ->
  ensures (account_task s tid dn) w (fun r w' => exists s' t', r = Some s' /\ charged J s' w' t' /\
    ppsg_clock w0 <= ppsg_clock w' <= ppsg_clock w0 + REF_CLOCK_FREQ_HZ /\
    ppsg_clock w <= t' <= ppsg_clock w' /\
    charged_with (fun j => if j =? receiver tid dn then (t' - t) * NS_PER_CLOCK else 0) s s' /\
    eq_time (accounted s') (accounted s + (t' - t) * NS_PER_CLOCK)).
Proof.
  intros (Hok & Hbr & Ht & Hlate & Hns) Hw Hup Htid. pose proof law_read_time as Hrt.
  unfold account_task.
  replace (if negb (truth dn) then 0 else tid) with (receiver tid dn) by (unfold receiver; by destruct (truth dn)).
  set (i := receiver tid dn).
  assert (Hi : 0 <= i < WRC_MAX_TASKS) by (unfold i, receiver, WRC_MAX_TASKS in *; case_match; lia). clearbody i.
  apply ensures_bind. eapply ensures_mono; [apply get_time_spec; split; lia|].
  intros r w1 (Hw1 & t' & Ht' & ->). apply ensures_bind. eapply ensures_mono; [exact (Htics w1)|]. cbv beta.
  intros ticks w2 Hw2. apply ensures_ret. eexists _, t'. split; [reflexivity|].
  destruct (nanos_wrap t t') as (Hn1 & Hn2 & Hd & Hwr); [lia..|]. rewrite <- Hns in Hn1, Hwr.
  destruct (charge_time s (wrc_task_get s i) _ ticks _ (get_ok s i Hok) Hn1 Hn2 Hd Hwr) as [[k Hk] Hok'].
  split; [|split; [lia|split; [lia|split]]].
  - split; [by apply set_ok|]. split; [|cbn; lia].
    apply set_brief; [done|]. pose proof (get_brief J s i Hbr) as Hb.
    unfold charge, task_time_normalize. by repeat case_match.
  - intros j Hj. destruct (Z.eqb_spec j i) as [->|Hne].
    + change (wrc_task_get (_ <| sc_nanos := _ |> <| sc_ticks := _ |>) i)
        with (wrc_task_get (set_task s i (charge s (wrc_task_get s i) (cycles_of t' * NS_PER_CLOCK) ticks)) i).
      destruct Hok as [Hlen _]. rewrite get_set by lia. split; [by exists k|apply charge_untimed].
    + change (wrc_task_get (_ <| sc_nanos := _ |> <| sc_ticks := _ |>) j)
        with (wrc_task_get (set_task s i (charge s (wrc_task_get s i) (cycles_of t' * NS_PER_CLOCK) ticks)) j).
      rewrite get_set_ne by congruence. rewrite Z.add_0_r. split; [apply eq_time_refl|done].
  - exists k. change (accounted (set_task s i (charge s (wrc_task_get s i) (cycles_of t' * NS_PER_CLOCK) ticks)) =
      accounted s + (t' - t) * NS_PER_CLOCK + k * (4294967296 * 1000000000)).
    rewrite accounted_set by done. rewrite Hk. lia.
Qed.

Lemma run_task_spec s w t tid :
  charged J s w t -> ppsg_clock w + 2 * REF_CLOCK_FREQ_HZ <= REF_CLOCK_FREQ_HZ * 2 ^ 40 ->
  0 <= tid < WRC_MAX_TASKS ->
  ensures (wrc_run_task s tid) w (fun r w' => exists s' t', r = Some s' /\ charged J s' w' t' /\
    ppsg_clock w <= ppsg_clock w' <= ppsg_clock w + REF_CLOCK_FREQ_HZ /\
    eq_time (accounted s') (accounted s + (t' - t) * NS_PER_CLOCK) /\
    exists tk dn w1, run_job (wrc_task_get s tid) w = ((tk, dn), w1) /\
      ppsg_clock w1 <= t' <= ppsg_clock w' /\
      charged_with (fun j => if j =? receiver tid dn then (t' - t) * NS_PER_CLOCK else 0)
        (set_task s tid tk) s').
Proof.
  intros Hch Hup Htid. pose proof Hch as (Hok & Hbr & Hrest). unfold wrc_run_task. apply ensures_bind.
  pose proof (run_job_spec J (wrc_task_get s tid) w ltac:(lia) (get_brief J s tid Hbr)) as Hrun.
  unfold ensures in Hrun. unfold ensures at 1.
  destruct (run_job (wrc_task_get s tid) w) as [[tk dn] w1]. destruct Hrun as (Hw1 & Es & En & Ee & Ej).
  assert (Hch' : charged J (set_task s tid tk) w t).
  { split; [apply set_ok; [done|]; pose proof (get_ok s tid Hok); unfold task_ok in *; by rewrite Es, En|].
    split; [|done]. apply set_brief; [done|]. destruct (get_brief J s tid Hbr).
    split; [rewrite Ee|rewrite Ej]; done. }
  eapply ensures_mono; [by apply (account_spec _ _ w t)|].
  intros r w2 (s' & t' & -> & H1 & H2 & Hcl & Hwith & H3). exists s', t'.
  split_and!; try done; try lia; [|by exists tk, dn, w1].
  rewrite accounted_set in H3 by done. unfold task_time in H3. rewrite Es, En in H3.
  destruct H3 as [k H3]. exists k. lia.
Qed.

End accounting.

Section demo.
#[local] Existing Instance generic_8bit.

(** A job that waits for [c] cycles and does something or not. *)
Definition wait (c r : Z) : M pps_sim Z := fun w => (r, PpsSim (ps_now w + c) (ps_regs w)).
#[local] Instance demo_timer : Timer pps_sim := fun w => (ps_now w / 125000, w).
Definition demo_tasks : sched pps_sim :=
  let s := wrc_tasks_preinit (mk_sched [] (cycles_of 125000000000 * 8) 1000000) in
  let s := (wrc_task_create s [105; 100; 108; 101] None None).1 in
  let s := (wrc_task_create s [112; 116; 112] None (Some (wait 20000000 1))).1 in
  let s := (wrc_task_create s [110; 101; 116] None (Some (wait 10000000 0))).1 in
  wrc_task_set_enable s 2 (Some (wait 1000 1)).

Lemma demo_list : sc_tasks demo_tasks =
  mk_task 1 (strncpy16 [105; 100; 108; 101]) None None None 0 0 0 0 ::
  mk_task 1 (strncpy16 [112; 116; 112]) None None (Some (wait 20000000 1)) 0 0 0 0 ::
  mk_task 1 (strncpy16 [110; 101; 116]) (Some (wait 1000 1)) None (Some (wait 10000000 0)) 0 0 0 0 ::
  replicate 17 task_zero.
Proof. vm_compute. reflexivity. Qed.

Lemma demo_charged : charged 20000000 demo_tasks (PpsSim 125000000000 (fun _ => 0)) 125000000000.
Proof.
  unfold charged, sched_ok. rewrite demo_list. split; [split; [reflexivity|]|split].
  3: { split; [cbn; lia|]. split; [cbn; lia|]. vm_compute. reflexivity. }
  - rewrite !Forall_cons; split_and!; [..|apply Forall_replicate];
      (split; [cbn; lia|unfold is_u32; cbn; lia]).
  - rewrite !Forall_cons; split_and!; [..|apply Forall_replicate];
      (split; cbn [tk_enabled tk_job task_zero]; intros f [= <-] w; unfold ensures, wait; cbn; lia).
Qed.

End demo.

(** ** Periodic tasks do not drift *)

(** Polls of [wrc_task_not_yet] at the ticks [ts]: the last value of [*lastt]
    and how often the task was due. *)
Fixpoint polls (lastt period : Z) (ts : list Z) : Z * Z :=
  match ts with
  | [] => (lastt, 0)
  | t :: ts =>
      let '(lastt, r) := not_yet (u32 t) lastt period in
      let '(lastt, n) := polls lastt period ts in
      (lastt, n + if r =? 0 then 1 else 0)
  end.
(** The ticks go on, by at most a period from one poll to the next. *)
Fixpoint paced (period t : Z) (ts : list Z) : Prop :=
  match ts with
  | [] => True
  | t' :: ts => t <= t' <= t + period /\ paced period t' ts
  end.
Definition last_tick (t : Z) (ts : list Z) : Z := default t (last ts).

Lemma s32_sub a b : s32 (s32 a - s32 b) = s32 (a - b).
Proof.
  unfold s32. replace ((a + 2147483648) mod 4294967296 - 2147483648 -
    ((b + 2147483648) mod 4294967296 - 2147483648) + 2147483648) with
    ((a + 2147483648) mod 4294967296 - (b + 2147483648) mod 4294967296 + 2147483648) by lia.
  rewrite <- Zplus_mod_idemp_l, <- Zminus_mod, Zplus_mod_idemp_l. do 2 f_equal. lia.
Qed.

Lemma not_yet_step L p t : 0 < p < 1073741824 -> u32 L <> 0 -> 0 <= t - L < 2 * p ->
  not_yet (u32 t) (u32 L) p = if t <? L + p then (u32 L, 1) else (u32 (L + p), 0).
Proof.
  intros Hp HL Ht. unfold not_yet. destruct (Z.eqb_spec (u32 L) 0); [done|].
  unfold time_before, time_after, isub. rewrite s32_sub.
  replace (u32 (u32 L + p)) with (u32 (L + p)) by (unfold u32; by rewrite Zplus_mod_idemp_l).
  rewrite <- s32_sub, !s32_u32, s32_sub, s32_small by inrange.
  by destruct (Z.ltb_spec t (L + p)), (Z.ltb_spec (t - (L + p)) 0); try lia.
Qed.

Lemma last_tick_cons t t' ts : last_tick t (t' :: ts) = last_tick t' ts.
Proof. unfold last_tick. destruct ts; [done|]. cbn. by destruct (last (z :: ts)) eqn:E; [|apply last_None in E]. Qed.
Lemma last_tick_ge p t ts : paced p t ts -> t <= last_tick t ts.
Proof.
  revert t. induction ts as [|t' ts IH]; intros t Hp; [done|]. destruct Hp as [Ht Hp].
  specialize (IH t' Hp). rewrite last_tick_cons. lia.
Qed.

(** A periodic task does not drift: polled at least once per period, it
    has been due exactly as many times as whole periods have passed since
    [L], and [*lastt] has advanced by exactly that many periods, across the
    wrap-around of the 32-bit tick counter, however late the single polls
    came; unless [*lastt] becomes 0, which means "not started". *)
Theorem wrc_task_periodic L p t0 ts :
  0 < p < 1073741824 -> 0 <= t0 - L < p -> paced p t0 ts ->
  (forall j, 0 <= j <= (last_tick t0 ts - L) / p -> u32 (L + j * p) <> 0) ->
  polls (u32 L) p ts =
    (u32 (L + (last_tick t0 ts - L) / p * p), (last_tick t0 ts - L) / p).
Proof.
  intros Hp. revert L t0. induction ts as [|t ts IH]; intros L t0 Ht0 Hpace Hnz.
  { cbn. rewrite Z.div_small by lia. by rewrite Z.mul_0_l, Z.add_0_r. }
  destruct Hpace as [Ht Hpace]. rewrite last_tick_cons in *. cbn [polls].
  pose proof (last_tick_ge _ _ _ Hpace) as Hge.
  assert (HL : u32 L <> 0).
  { replace L with (L + 0 * p) by lia. apply Hnz. split; [lia|]. apply Z.div_pos; lia. }
  rewrite not_yet_step by lia. destruct (Z.ltb_spec t (L + p)).
  - rewrite (IH L t) by (done || lia). cbn. by rewrite Z.add_0_r.
  - set (e := last_tick t ts) in *.
    assert (E : (e - L) / p = (e - (L + p)) / p + 1).
    { rewrite <- Z.div_add by lia. f_equal. lia. }
    rewrite (IH (L + p) t); [|lia|done|].
    + fold e. rewrite E, Z.eqb_refl. generalize ((e - (L + p)) / p). intros x. do 2 f_equal. lia.
    + intros j Hj. fold e in Hj. replace (L + p + j * p) with (L + (j + 1) * p) by lia. apply Hnz. lia.
Qed.

(** A task of 1000 ticks, polled with jitter across the wrap-around. *)
Lemma wrc_task_periodic_witness :
  let ts := [4294967000; 4294967999; 4294968100; 4294969050; 4294970000] in
  polls 4294966300 1000 ts = (2004, 3) /\ u32 (4294966300 + 3 * 1000) = 2004.
Proof.
  split; [|reflexivity].
  apply (wrc_task_periodic 4294966300 1000 4294966300 [4294967000; 4294967999; 4294968100; 4294969050; 4294970000]).
  - lia.
  - lia.
  - cbn. lia.
  - intros j Hj. change ((last_tick 4294966300 _ - 4294966300) / 1000) with 3 in Hj.
    assert (j = 0 \/ j = 1 \/ j = 2 \/ j = 3) as [->|[->|[->| ->]]] by lia; vm_compute; congruence.
Defined.
