(* ===== verification/Ipv4.v ===== *)
(** The IPv4 services of the core: lib/ipv4.c, lib/udp.c, lib/icmp.c,
    lib/bootp.c and lib/arp.c. *)
From Stdlib Require Import ZArith Lia.
From stdpp Require Import base numbers option list gmap.
From S2P Require Import Prelude SpllHw SpllHelper SoftPll PpsGen Bytes Minic Net Tasks.

(** ** Offsets (lib/ipv4.h) *)
Definition IP_TOS : Z := 1.
Definition IP_LEN : Z := 2.
Definition IP_ID : Z := 4.
Definition IP_FLAGS : Z := 6.
Definition IP_TTL : Z := 8.
Definition IP_CHECKSUM : Z := 10.
Definition IP_SOURCE : Z := 12.
Definition IP_DEST : Z := 16.
Definition IP_END : Z := 20.
Definition UDP_VIRT_SADDR : Z := IP_END - 12.
Definition UDP_VIRT_DADDR : Z := UDP_VIRT_SADDR + 4.
Definition UDP_VIRT_ZEROS : Z := UDP_VIRT_DADDR + 4.
Definition UDP_VIRT_PROTO : Z := UDP_VIRT_ZEROS + 1.
Definition UDP_VIRT_LENGTH : Z := UDP_VIRT_PROTO + 1.
Definition UDP_SPORT : Z := IP_END.
Definition UDP_LENGTH : Z := UDP_DPORT + 2.
Definition UDP_CHECKSUM : Z := UDP_LENGTH + 2.
Definition UDP_END : Z := UDP_CHECKSUM + 2.
Definition ICMP_TYPE : Z := IP_END.
Definition ICMP_CODE : Z := ICMP_TYPE + 1.
Definition ICMP_CHECKSUM : Z := ICMP_CODE + 1.
Definition ICMP_END : Z := ICMP_CHECKSUM + 2.

(** enum ip_status_t and the values of link_status *)
Definition IP_TRAINING : Z := 0.
Definition IP_OK_BOOTP : Z := 1.
Definition IP_OK_STATIC : Z := 2.
Definition NETIF_LINK_WENT_UP : Z := 1.

(** A sequence of stores [buf[off] = v] and [memcpy(buf + off, l, n)]. *)
Definition writes (buf : list Z) (ws : list (Z * list Z)) : list Z :=
  foldl (fun b '(off, l) => put b off l) buf ws.
(** [memcmp(buf + off, l, n) == 0] *)
Definition same (buf : list Z) (off : Z) (l : list Z) : bool :=
  bool_decide (sub buf off (Z.of_nat (length l)) = l).
(** The high and the low byte of an int stored into a uint8_t. *)
Definition hi8 (x : Z) : Z := u8 (Z.shiftr x 8).
Definition lo8 (x : Z) : Z := u8 (Z.land x 255).

(** ** The Internet checksum *)
Section checksum.
Context `{Endian}.

(** The loop: [sum += ntohs(buf[i])]. *)
Definition checksum_sum (buf : list Z) (shorts : Z) : Z :=
  foldl (fun sum i => u32 (sum + htons (load16 buf i))) 0 (range shorts).
Definition ipv4_checksum (buf : list Z) (shorts : Z) : Z :=
  let sum := checksum_sum buf shorts in
  let sum := u32 (Z.shiftr sum 16 + Z.land sum 65535) in
  let sum := u32 (sum + Z.shiftr sum 16) in
  Z.land (u32 (Z.lnot sum)) 65535.

(** ** UDP (lib/udp.c) *)

(** struct wr_udp_addr: the fields in memory, for memcpy. *)
Record wr_udp_addr := mk_udp { ua_saddr : list Z; ua_daddr : list Z; ua_sport : list Z; ua_dport : list Z }.

(** The address of a reply. *)
Definition reply_addr (buf : list Z) : wr_udp_addr :=
  mk_udp (sub buf IP_DEST 4) (sub buf IP_SOURCE 4) (sub buf UDP_DPORT 2) (sub buf UDP_SPORT 2).

(** The pseudo header, written into the end of the IP header, and the UDP
    header without its checksum. *)
Definition udp_header (buf : list Z) (len : Z) (ua : wr_udp_addr) : list Z :=
  writes buf
    [(UDP_VIRT_SADDR, ua_saddr ua); (UDP_VIRT_DADDR, ua_daddr ua);
     (UDP_VIRT_ZEROS, [0]); (UDP_VIRT_PROTO, [17]);
     (UDP_VIRT_LENGTH, [hi8 (len - IP_END)]); (UDP_VIRT_LENGTH + 1, [lo8 (len - IP_END)]);
     (UDP_SPORT, ua_sport ua); (UDP_DPORT, ua_dport ua);
     (UDP_LENGTH, [hi8 (len - IP_END)]); (UDP_LENGTH + 1, [lo8 (len - IP_END)]);
     (UDP_CHECKSUM, [0]); (UDP_CHECKSUM + 1, [0])].

(** The IP header without its checksum. *)
Definition ip_header (buf : list Z) (len proto : Z) (saddr daddr : list Z) : list Z :=
  writes buf
    [(IP_VERSION, [69]); (IP_TOS, [0]); (IP_LEN, [hi8 len]); (IP_LEN + 1, [lo8 len]);
     (IP_ID, [0]); (IP_ID + 1, [0]); (IP_FLAGS, [0]); (IP_FLAGS + 1, [0]);
     (IP_TTL, [63]); (IP_PROTOCOL, [proto]); (IP_CHECKSUM, [0]); (IP_CHECKSUM + 1, [0]);
     (IP_SOURCE, saddr); (IP_DEST, daddr)].
(** [buf[off] = sum >> 8; buf[off + 1] = sum & 0xff;] *)
Definition put_sum (buf : list Z) (off sum : Z) : list Z :=
  writes buf [(off, [hi8 sum]); (off + 1, [lo8 sum])].

(** [fill_udp]; NULL for [uaddr] is [None]. *)
Definition fill_udp (buf : list Z) (len : Z) (uaddr : option wr_udp_addr) : list Z :=
  let ua := default (reply_addr buf) uaddr in
  let buf := udp_header buf len ua in
  let oddb := aget 0 buf len in
  let buf := aset buf len 0 in
  let sum := ipv4_checksum (drop (Z.to_nat UDP_VIRT_SADDR) buf) ((len + 1 - UDP_VIRT_SADDR) ÷ 2) in
  let buf := aset buf len oddb in
  let sum := if sum =? 0 then 65535 else sum in
  let buf := put_sum buf UDP_CHECKSUM sum in
  let buf := ip_header buf len 17 (ua_saddr ua) (ua_daddr ua) in
  put_sum buf IP_CHECKSUM (ipv4_checksum buf ((IP_END - IP_VERSION) ÷ 2)).

(** ** ICMP (lib/icmp.c) *)

(** [process_icmp]: the buffer and the length of the reply, 0 for none. *)
Definition process_icmp (myIP buf : list Z) (len : Z) : list Z * Z :=
  if negb (aget 0 buf IP_VERSION =? 69) || negb (same buf IP_DEST myIP) then (buf, 0)
  else
    let iplen := Z.lor (Z.shiftl (aget 0 buf IP_LEN) 8) (aget 0 buf (IP_LEN + 1)) in
    if negb (aget 0 buf IP_PROTOCOL =? 1) || negb (aget 0 buf ICMP_TYPE =? 8) then (buf, 0)
    else
      let hisBodyLen := iplen - 24 in
      let hisBodyLen := if 64 <? hisBodyLen then 64 else hisBodyLen in
      let hisIP := sub buf IP_SOURCE 4 in
      let buf := ip_header buf (hisBodyLen + 24) 1 myIP hisIP in
      let buf := writes buf [(ICMP_TYPE, [0]); (ICMP_CODE, [0]); (ICMP_CHECKSUM, [0]); (ICMP_CHECKSUM + 1, [0])] in
      let sum := u16 (ipv4_checksum (drop (Z.to_nat ICMP_TYPE) buf) ((hisBodyLen + 4 + 1) ÷ 2)) in
      let buf := put_sum buf ICMP_CHECKSUM sum in
      let sum := u16 (ipv4_checksum buf 10) in
      (put_sum buf IP_CHECKSUM sum, 24 + hisBodyLen).
End checksum.

(** ** ARP (lib/arp.c) *)
Definition ARP_HTYPE : Z := 0.
Definition ARP_PTYPE : Z := ARP_HTYPE + 2.
Definition ARP_HLEN : Z := ARP_PTYPE + 2.
Definition ARP_PLEN : Z := ARP_HLEN + 1.
Definition ARP_OPER : Z := ARP_PLEN + 1.
Definition ARP_SHA : Z := ARP_OPER + 2.
Definition ARP_SPA : Z := ARP_SHA + 6.
Definition ARP_THA : Z := ARP_SPA + 4.
Definition ARP_TPA : Z := ARP_THA + 6.
Definition ARP_END : Z := ARP_TPA + 4.

Definition process_arp (mac myIP buf : list Z) (len : Z) : list Z * Z :=
  if len <? ARP_END then (buf, 0)
  else if negb (aget 0 buf ARP_OPER =? 0) || negb (aget 0 buf (ARP_OPER + 1) =? 1) ||
          negb (same buf ARP_TPA myIP) then (buf, 0)
  else
    let hisMAC := sub buf ARP_SHA 6 in
    let hisIP := sub buf ARP_SPA 4 in
    (writes buf
       [(ARP_HTYPE, [0]); (ARP_HTYPE + 1, [1]); (ARP_PTYPE, [8]); (ARP_PTYPE + 1, [0]);
        (ARP_HLEN, [6]); (ARP_PLEN, [4]); (ARP_OPER, [0]); (ARP_OPER + 1, [2]);
        (ARP_SHA, mac); (ARP_SPA, myIP); (ARP_THA, hisMAC); (ARP_TPA, hisIP)], ARP_END).

(** ** BOOTP (lib/bootp.c) *)
Definition BOOTP_OP : Z := UDP_END.
Definition BOOTP_HTYPE : Z := BOOTP_OP + 1.
Definition BOOTP_HLEN : Z := BOOTP_HTYPE + 1.
Definition BOOTP_HOPS : Z := BOOTP_HLEN + 1.
Definition BOOTP_XID : Z := BOOTP_HOPS + 1.
Definition BOOTP_SECS : Z := BOOTP_XID + 4.
Definition BOOTP_UNUSED : Z := BOOTP_SECS + 2.
Definition BOOTP_CIADDR : Z := BOOTP_UNUSED + 2.
Definition BOOTP_YIADDR : Z := BOOTP_CIADDR + 4.
Definition BOOTP_SIADDR : Z := BOOTP_YIADDR + 4.
Definition BOOTP_GIADDR : Z := BOOTP_SIADDR + 4.
Definition BOOTP_CHADDR : Z := BOOTP_GIADDR + 4.
Definition BOOTP_SNAME : Z := BOOTP_CHADDR + 16.
Definition BOOTP_FILE : Z := BOOTP_SNAME + 64.
Definition BOOTP_VEND : Z := BOOTP_FILE + 128.
Definition BOOTP_END : Z := BOOTP_VEND + 64.

(** [buf[off] ^= v] *)
Definition xor8 (buf : list Z) (off v : Z) : list Z := aset buf off (Z.lxor (aget 0 buf off) v).

Section bootp.
Context `{Endian}.

(** [prepare_bootp]: the packet, of [BOOTP_END] bytes. *)
Definition prepare_bootp (mac : list Z) (addr : wr_sockaddr) (buf : list Z) (retry : Z)
    : wr_sockaddr * list Z * Z :=
  let buf := writes buf [(BOOTP_OP, [1]); (BOOTP_HTYPE, [1]); (BOOTP_HLEN, [6]); (BOOTP_HOPS, [0]);
                         (BOOTP_XID, mac)] in
  let buf := xor8 buf BOOTP_XID (aget 0 buf (BOOTP_XID + 4)) in
  let buf := xor8 buf (BOOTP_XID + 1) (aget 0 buf (BOOTP_XID + 5)) in
  let buf := xor8 buf (BOOTP_XID + 2) (Z.land (Z.shiftr retry 8) 255) in
  let buf := xor8 buf (BOOTP_XID + 3) (Z.land retry 255) in
  let buf := writes buf
    [(BOOTP_SECS, [Z.land (Z.shiftr retry 8) 255]); (BOOTP_SECS + 1, [Z.land retry 255]);
     (BOOTP_UNUSED, replicate 2 0); (BOOTP_CIADDR, replicate 4 0); (BOOTP_YIADDR, replicate 4 0);
     (BOOTP_SIADDR, replicate 4 0); (BOOTP_GIADDR, replicate 4 0);
     (BOOTP_CHADDR, replicate 16 0); (BOOTP_CHADDR, mac);
     (BOOTP_SNAME, replicate 64 0); (BOOTP_FILE, replicate 128 0); (BOOTP_VEND, replicate 64 0)] in
  let uaddr := mk_udp (replicate 4 0) (replicate 4 255) (image 2 (htons 68)) (image 2 (htons 67)) in
  (addr <| sa_mac := replicate 6 255 |>, fill_udp buf BOOTP_END (Some uaddr), BOOTP_END).
End bootp.

(** ** The state of the IP layer *)
Record ip_state := mk_ip {
  ip_addr : list Z; ip_status : Z; bootp_retry : Z; bootp_tics : Z; ip_net : net_state }.
#[export] Instance eta_ip : Etable ip_state := fun s =>
  mk_ip (ip_addr s) (ip_status s) (bootp_retry s) (bootp_tics s) (ip_net s).

(** The static socket objects (DECLARE_WRPC_SOCKET) and the sizes of their
    rings; the pointers to them are set by the two init functions. *)
Definition bootp_socket : nat := 0.
Definition rdate_socket : nat := 1.
Definition icmp_socket : nat := 2.
Definition arp_socket : nat := 3.

Definition getIP (s : ip_state) : list Z := ip_addr s.
Definition setIP (s : ip_state) (ip : list Z) : ip_state :=
  let s := s <| ip_addr := take 4 ip |> in
  let b i := aget 0 (ip_addr s) i in
  let v := u32 (Z.lor (Z.lor (Z.lor (Z.shiftl (b 0) 24) (Z.shiftl (b 1) 16)) (Z.shiftl (b 2) 8)) (b 3)) in
  (if v =? 0 then s <| ip_status := IP_TRAINING |> else s) <| bootp_retry := 0 |>.

(** [check_dest_ip]: zero when the packet is for us. *)
Definition check_dest_ip (s : ip_state) (buf : list Z) : bool := same buf IP_DEST (ip_addr s).

Definition process_bootp (mac : list Z) (s : ip_state) (buf : list Z) (len : Z) : ip_state * Z :=
  if negb (len =? BOOTP_END) then (s, 0)
  else if negb (aget 0 buf UDP_SPORT =? 0) || negb (aget 0 buf (UDP_SPORT + 1) =? 67) then (s, 0)
  else if negb (same buf BOOTP_CHADDR mac) then (s, 0)
  else (setIP (s <| ip_status := IP_OK_BOOTP |>) (sub buf BOOTP_YIADDR 4), 1).

(** ** Initialisation and polling *)
Section services.
Context `{Board, Endian} {W : Type} `{!PpsHW W, !MinicHW W, !Timer W}.

Definition ipv4_init (n : net_state) : net_state :=
  let n := (ptpd_netif_create_socket n bootp_socket 512 None PTPD_SOCK_UDP 68 0).1 in
  let n := (ptpd_netif_create_socket n rdate_socket 96 None PTPD_SOCK_UDP 37 0).1 in
  let saddr := sa_zero <| sa_ethertype := htons 2048 |> in
  (ptpd_netif_create_socket n icmp_socket 128 (Some saddr) PTPD_SOCK_RAW_ETHERNET 0 0).1.

Definition arp_init (n : net_state) : net_state :=
  let saddr := sa_zero <| sa_mac := replicate 6 255 |> <| sa_ethertype := htons 2054 |> in
  (ptpd_netif_create_socket n arp_socket 128 (Some saddr) PTPD_SOCK_RAW_ETHERNET 0 0).1.

(** What the services read of the rest of the system: the endpoint's MAC
    address, the softpll (for receive timestamps) and whether an absolute
    calibration is in progress. *)
Record env := mk_env { e_mac : list Z; e_spll : spll_globals * softpll_state; e_abscal : bool }.
Implicit Types (e : env) (s : ip_state).

(** The local variables of a service, uninitialised: [buf], [addr] and the
    timestamp of [ptpd_netif_sendto]. *)
Record locals := mk_locals { l_buf : list Z; l_addr : wr_sockaddr; l_hwts : hw_timestamp }.

Definition recv e s (l : locals) (sock : nat) : ip_state * wr_sockaddr * list Z * Z :=
  let '(n, addr, buf, _, len) :=
    ptpd_netif_recvfrom (e_spll e).1 (e_spll e).2 (ip_net s) sock (l_addr l) (l_buf l)
      (Z.of_nat (length (l_buf l))) false in
  (s <| ip_net := n |>, addr, buf, len).
Definition send s (l : locals) (sock : nat) (addr : wr_sockaddr) (buf : list Z) (len : Z) : M W ip_state :=
  let! r := ptpd_netif_sendto (ip_net s) sock addr buf len (l_hwts l) in
  ret (s <| ip_net := r.1.1 |>).

Definition bootp_poll e s l : M W (ip_state * Z) :=
  let '(s, addr, buf, len) := recv e s l bootp_socket in
  if negb (ip_status s =? IP_TRAINING) then ret (s, 0)
  else if e_abscal e then ret (s, 0)
  else
    let '(s, res) := if 0 <? len then process_bootp (e_mac e) s buf len else (s, 0) in
    let! r := wrc_task_not_yet (bootp_tics s) TICS_PER_SECOND in
    let '(tics, wait) := r in
    let s := s <| bootp_tics := tics |> in
    if truth wait then ret (s, res)
    else
      let s := s <| bootp_retry := u16 (bootp_retry s + 1) |> in
      let '(addr, buf, len) := prepare_bootp (e_mac e) addr buf (bootp_retry s) in
      let! s := send s l bootp_socket addr buf len in
      ret (s, 1).

Definition icmp_poll e s l : M W (ip_state * Z) :=
  let '(s, addr, buf, len) := recv e s l icmp_socket in
  if len <=? 0 then ret (s, 0)
  else if ip_status s =? IP_TRAINING then ret (s, 0)
  else if negb (check_dest_ip s buf) then ret (s, 0)
  else
    let '(buf, len) := process_icmp (getIP s) buf len in
    let! s := (if 0 <? len then send s l icmp_socket addr buf len else ret s) in
    ret (s, 1).

(** The answer of the time service: the seconds since 1900. *)
Definition rdate_reply (buf : list Z) (secs : Z) : list Z * Z :=
  let result := htonl (u32 (secs + 2208988800)) in
  let len := UDP_END + 4 in
  (fill_udp (put buf UDP_END (image 4 result)) len None, len).

(** [None] when the clock could not be read. *)
Definition rdate_poll e s l : M W (option (ip_state * Z)) :=
  let '(s, addr, buf, len) := recv e s l rdate_socket in
  if len <=? 0 then ret (Some (s, 0))
  else if negb (check_dest_ip s buf) then ret (Some (s, 0))
  else
    let! t := shw_pps_gen_get_time in
    match t with
    | None => ret None
    | Some (secs, _) =>
        let '(buf, len) := rdate_reply buf secs in
        let! s := send s l rdate_socket addr buf len in
        ret (Some (s, 1))
    end.

Definition arp_poll e s l : M W (ip_state * Z) :=
  if ip_status s =? IP_TRAINING then ret (s, 0)
  else
    let '(s, addr, buf, len) := recv e s l arp_socket in
    if 0 <? len then
      let '(buf, len) := process_arp (e_mac e) (getIP s) buf len in
      let! s := (if 0 <? len then send s l arp_socket addr buf len else ret s) in
      ret (s, 1)
    else ret (s, 0).

(** [ipv4_poll]; [syslog_poll] is a weak function, returning 0 unless syslog is
    configured.  Each service has its own locals. *)
Definition ipv4_poll (syslog_poll : ip_state -> M W (ip_state * Z)) (link_status : Z) e s
    (lb li lr : locals) : M W (option (ip_state * Z)) :=
  let s := if (link_status =? NETIF_LINK_WENT_UP) && (ip_status s =? IP_OK_BOOTP)
           then s <| ip_status := IP_TRAINING |> else s in
  let! r1 := bootp_poll e s lb in
  let! r2 := icmp_poll e r1.1 li in
  let! r3 := rdate_poll e r2.1 lr in
  match r3 with
  | None => ret None
  | Some (s, r3) =>
      let! r4 := syslog_poll s in
      ret (Some (r4.1, b2z (negb (s32 (r1.2 + r2.2 + r3 + r4.2) =? 0))))
  end.
End services.

(** ** The checksum against its definition (RFC 1071) *)

(** The sum of the 16-bit words of a packet, odd packets padded with zero. *)
Fixpoint wsum (l : list Z) : Z :=
  match l with
  | a :: b :: l => a * 256 + b + wsum l
  | [a] => a * 256
  | [] => 0
  end.
(** The one's-complement sum, with end-around carry, and what a receiver
    checks: the sum over everything, the checksum included, is all ones. *)
Definition ones_sum (s : Z) : Z := if s =? 0 then 0 else (s - 1) mod 65535 + 1.
Definition sum_ok (l : list Z) : Prop := ones_sum (wsum l) = 65535.

Lemma list_pairs_ind (P : list Z -> Prop) :
  P [] -> (forall a, P [a]) -> (forall a b l, P l -> P (a :: b :: l)) -> forall l, P l.
Proof.
  intros H0 H1 H2. assert (Hl : forall n l, (length l <= n)%nat -> P l).
  { induction n as [|n IH]; intros [|a [|b l]] Hn; cbn in Hn; try lia; auto. apply H2, IH. lia. }
  intros l. by apply (Hl (length l)).
Qed.

Lemma wsum_nonneg l : bytes l -> 0 <= wsum l <= 65535 * Z.of_nat (length l).
Proof.
  induction l as [|a|a b l IH] using list_pairs_ind; intros Hb; cbn [wsum length]; [lia|..];
    unfold bytes in *; rewrite ?Forall_cons in Hb; unfold is_byte in *; [lia|].
  specialize (IH (proj2 (proj2 Hb))). lia.
Qed.
Lemma wsum_app l1 l2 : Nat.Even (length l1) -> wsum (l1 ++ l2) = wsum l1 + wsum l2.
Proof.
  induction l1 as [|a|a b l1 IH] using list_pairs_ind; intros He; cbn [app wsum]; [lia|..].
  - destruct He as [k Hk]. cbn in Hk. lia.
  - rewrite IH; [lia|]. destruct He as [k Hk]. exists (k - 1)%nat. cbn in Hk. lia.
Qed.
Lemma wsum_pad l : wsum (l ++ [0]) = wsum l.
Proof. induction l as [|a|a b l IH] using list_pairs_ind; cbn [app wsum]; lia. Qed.
(** Rounding up to whole words reads the padding. *)
Lemma wsum_round l r : wsum (take (2 * ((length l + 1) / 2)) (l ++ 0 :: r)) = wsum l.
Proof.
  destruct (Nat.Even_or_Odd (length l)) as [[k Hk]|[k Hk]].
  - replace ((length l + 1) / 2)%nat with k.
    + rewrite <- Hk, take_app_length. done.
    + apply Nat.div_unique with 1%nat; lia.
  - replace ((length l + 1) / 2)%nat with (k + 1)%nat by (apply Nat.div_unique with 0%nat; lia).
    replace (l ++ 0 :: r) with ((l ++ [0]) ++ r) by (by rewrite <- app_assoc).
    rewrite take_app_length' by (rewrite length_app; cbn; lia). apply wsum_pad.
Qed.

Section checksum_correct.
Context `{Endian}.

Lemma load16_be buf i : 0 <= i -> 2 * i + 2 <= Z.of_nat (length buf) -> bytes buf ->
  htons (load16 buf i) = aget 0 buf (2 * i) * 256 + aget 0 buf (2 * i + 1).
Proof.
  intros Hi Hl Hb. unfold load16. rewrite <- htons_value by (by apply bytes_aget).
  unfold sub, range. change (Z.to_nat 2) with 2%nat. cbn [seq fmap list_fmap].
  change (Z.of_nat 0) with 0. change (Z.of_nat 1) with 1. by rewrite Z.add_0_r.
Qed.

Lemma wsum_take_S buf n : (2 * S n <= length buf)%nat ->
  wsum (take (2 * S n) buf) = wsum (take (2 * n) buf) +
    (aget 0 buf (2 * Z.of_nat n) * 256 + aget 0 buf (2 * Z.of_nat n + 1)).
Proof.
  intros Hl. assert (Ht : take (2 * S n) buf = take (2 * n) buf ++
    [aget 0 buf (2 * Z.of_nat n); aget 0 buf (2 * Z.of_nat n + 1)]).
  { replace (2 * S n)%nat with (S (S (2 * n))) by lia.
    rewrite (take_S_r _ _ (aget 0 buf (2 * Z.of_nat n + 1))), (take_S_r _ _ (aget 0 buf (2 * Z.of_nat n))).
    - by rewrite <- app_assoc.
    - rewrite (aget_lookup buf (2 * n)%nat) by lia. do 2 f_equal. lia.
    - rewrite (aget_lookup buf (S (2 * n))) by lia. do 2 f_equal. lia. }
  rewrite Ht, wsum_app; [cbn [wsum]; lia|]. exists n. rewrite length_take. lia.
Qed.

Lemma checksum_sum_spec buf n : bytes buf -> (2 * n <= length buf)%nat -> Z.of_nat n <= 16384 ->
  checksum_sum buf (Z.of_nat n) = wsum (take (2 * n) buf).
Proof.
  intros Hb. unfold checksum_sum, range. rewrite Nat2Z.id.
  induction n as [|n IH]; intros Hl Hn; [done|].
  rewrite seq_S, fmap_app, foldl_app, IH by lia. cbn [fmap list_fmap foldl].
  rewrite load16_be by (try done; lia). rewrite wsum_take_S by done.
  apply u32_small. unfold is_u32.
  assert (Hw : bytes (take (2 * n) buf)) by by apply Forall_take.
  pose proof (wsum_nonneg _ Hw) as Hs. rewrite length_take in Hs.
  pose proof (bytes_aget buf (2 * Z.of_nat n) Hb). pose proof (bytes_aget buf (2 * Z.of_nat n + 1) Hb).
  unfold is_byte in *. lia.
Qed.

(** Two additions fold the 32-bit sum to the one's-complement sum. *)
Lemma fold_sum s : 0 <= s < 4294967296 ->
  let s1 := u32 (Z.shiftr s 16 + Z.land s 65535) in
  let s2 := u32 (s1 + Z.shiftr s1 16) in
  Z.land (u32 (Z.lnot s2)) 65535 = 65535 - ones_sum s.
Proof.
  intros Hs. cbv zeta. assert (Hm : forall x, Z.land x 65535 = x mod 65536).
  { intros x. change 65535 with (Z.ones 16). by rewrite Z.land_ones by lia. }
  rewrite !Hm. clear Hm.
  rewrite !Z.shiftr_div_pow2 by lia. change (2 ^ 16) with 65536.
  pose proof (Z.mod_pos_bound s 65536 ltac:(lia)). pose proof (Z.div_mod s 65536 ltac:(lia)) as Es.
  assert (0 <= s / 65536 < 65536) by (split; [apply Z.div_pos|apply Z.div_lt_upper_bound]; lia).
  set (h := s / 65536) in *. set (l := s mod 65536) in *. clearbody h l.
  rewrite (u32_small (h + l)) by inrange.
  assert (Hc : (h + l) / 65536 = if h + l <? 65536 then 0 else 1).
  { destruct (Z.ltb_spec (h + l) 65536); [apply Z.div_small; lia|]. symmetry. apply Z.div_unique with (h + l - 65536); lia. }
  rewrite Hc. rewrite (u32_small (h + l + _)) by (unfold is_u32; case_match; lia).
  unfold Z.lnot, u32. rewrite Z.mod_mod_divide by (exists 65536; lia).
  unfold ones_sum. destruct (Z.eqb_spec s 0).
  - replace h with 0 by lia. replace l with 0 by lia. reflexivity.
  - assert (Ho : (s - 1) mod 65535 = if h + l <? 65536 then h + l - 1 else h + l - 65536).
    { destruct (Z.ltb_spec (h + l) 65536).
      - symmetry. apply Z.mod_unique with h; lia.
      - symmetry. apply Z.mod_unique with (h + 1); lia. }
    rewrite Ho. destruct (Z.ltb_spec (h + l) 65536); symmetry;
      [apply Z.mod_unique with (-1)|apply Z.mod_unique with (-2)]; lia.
Qed.

Lemma ipv4_checksum_spec buf n : bytes buf -> (2 * n <= length buf)%nat -> Z.of_nat n <= 16384 ->
  ipv4_checksum buf (Z.of_nat n) = 65535 - ones_sum (wsum (take (2 * n) buf)).
Proof.
  intros Hb Hl Hn. unfold ipv4_checksum. rewrite checksum_sum_spec by done. apply fold_sum.
  assert (Hw : bytes (take (2 * n) buf)) by by apply Forall_take.
  pose proof (wsum_nonneg _ Hw) as Hs. rewrite length_take in Hs. lia.
Qed.

(** A packet with its checksum put where a zero was is accepted. *)
Lemma ones_sum_range s : 0 <= s -> 0 <= ones_sum s <= 65535.
Proof.
  intros Hs. unfold ones_sum. destruct (Z.eqb_spec s 0); [lia|].
  pose proof (Z.mod_pos_bound (s - 1) 65535 ltac:(lia)). lia.
Qed.
Lemma ones_sum_fill s c : 0 <= s -> c = 65535 - ones_sum s \/ c = 65535 /\ ones_sum s = 65535 ->
  ones_sum (s + c) = 65535.
Proof.
  intros Hs Hc. unfold ones_sum in *. destruct (Z.eqb_spec s 0) as [->|Hne].
  { destruct Hc as [-> | [-> Hx]]; [reflexivity|lia]. }
  pose proof (Z.mod_pos_bound (s - 1) 65535 ltac:(lia)). pose proof (Z.div_mod (s - 1) 65535 ltac:(lia)) as Ed.
  destruct (Z.eqb_spec (s + c) 0); [lia|]. set (q := (s - 1) / 65535) in *. clearbody q.
  set (m := (s - 1) mod 65535) in *. clearbody m.
  assert (E : (s + c - 1) mod 65535 = 65534); [|lia].
  destruct Hc as [-> | [-> Hx]]; symmetry.
  - apply Z.mod_unique with q; lia.
  - apply Z.mod_unique with (q + 1); lia.
Qed.
Lemma hi_lo x : 0 <= x < 65536 -> hi8 x * 256 + lo8 x = x /\ is_byte (hi8 x) /\ is_byte (lo8 x) /\
  hi8 x = x / 256 /\ lo8 x = x mod 256.
Proof.
  intros Hx. unfold hi8, lo8. rewrite Z.shiftr_div_pow2 by lia. change 255 with (Z.ones 8).
  rewrite Z.land_ones by lia. change (2 ^ 8) with 256. unfold u8, is_byte. 
  pose proof (Z.mod_pos_bound x 256 ltac:(lia)). pose proof (Z.div_mod x 256 ltac:(lia)).
  assert (0 <= x / 256 < 256) by (split; [apply Z.div_pos|apply Z.div_lt_upper_bound]; lia).
  rewrite (Z.mod_small (x / 256)), (Z.mod_small (x mod 256)) by lia. lia.
Qed.
End checksum_correct.

(** ** UDP packets *)
Tactic Notation "explode" ident(l) integer(n) :=
  do n (destruct l as [|? l]; [discriminate|]); destruct l as [|? ?]; [|discriminate].


Record udp_addr_ok (ua : wr_udp_addr) : Prop := {
  uo_saddr : length (ua_saddr ua) = 4%nat; uo_daddr : length (ua_daddr ua) = 4%nat;
  uo_sport : length (ua_sport ua) = 2%nat; uo_dport : length (ua_dport ua) = 2%nat;
  uo_bytes : bytes (ua_saddr ua ++ ua_daddr ua ++ ua_sport ua ++ ua_dport ua) }.

(** The two headers of a packet of [len] bytes. *)
Definition ip_bytes (len proto c : Z) (saddr daddr : list Z) : list Z :=
  [69; 0; hi8 len; lo8 len; 0; 0; 0; 0; 63; proto; hi8 c; lo8 c] ++ saddr ++ daddr.
Definition udp_bytes (len u : Z) (ua : wr_udp_addr) : list Z :=
  ua_sport ua ++ ua_dport ua ++ [hi8 (len - 20); lo8 (len - 20); hi8 u; lo8 u].
(** The pseudo header of the UDP checksum. *)
Definition pseudo_bytes (len : Z) (ua : wr_udp_addr) : list Z :=
  ua_saddr ua ++ ua_daddr ua ++ [0; 17; hi8 (len - 20); lo8 (len - 20)].

Section udp.
Context `{Endian}.

Lemma udp_header_layout h tl len ua : length h = 28%nat -> udp_addr_ok ua ->
  udp_header (h ++ tl) len ua = take 8 h ++ pseudo_bytes len ua ++ udp_bytes len 0 ua ++ tl.
Proof.
  intros Hh [H1 H2 H3 H4 _]. destruct ua as [sa da sp dp]; cbn [ua_saddr ua_daddr ua_sport ua_dport] in *.
  explode h 28. explode sa 4. explode da 4. explode sp 2. explode dp 2. reflexivity.
Qed.
Lemma ip_header_layout h tl len proto saddr daddr :
  length h = 20%nat -> length saddr = 4%nat -> length daddr = 4%nat ->
  ip_header (h ++ tl) len proto saddr daddr = ip_bytes len proto 0 saddr daddr ++ tl.
Proof. intros Hh H1 H2. explode h 20. explode saddr 4. explode daddr 4. reflexivity. Qed.

Lemma put_udp_sum h tl len u ua : length h = 20%nat -> udp_addr_ok ua ->
  put_sum (h ++ udp_bytes len 0 ua ++ tl) UDP_CHECKSUM u = h ++ udp_bytes len u ua ++ tl.
Proof.
  intros Hh [H1 H2 H3 H4 _]. destruct ua as [sa da sp dp]; cbn [ua_saddr ua_daddr ua_sport ua_dport] in *.
  explode h 20. explode sp 2. explode dp 2. reflexivity.
Qed.
Lemma put_ip_sum tl len proto c saddr daddr : length saddr = 4%nat -> length daddr = 4%nat ->
  put_sum (ip_bytes len proto 0 saddr daddr ++ tl) IP_CHECKSUM c = ip_bytes len proto c saddr daddr ++ tl.
Proof. intros H1 H2. explode saddr 4. explode daddr 4. reflexivity. Qed.

Definition udp_sum (data rest : list Z) (len : Z) (ua : wr_udp_addr) : Z :=
  let v := ipv4_checksum (pseudo_bytes len ua ++ udp_bytes len 0 ua ++ data ++ 0 :: rest)
             ((len + 1 - UDP_VIRT_SADDR) ÷ 2) in
  if v =? 0 then 65535 else v.
Definition ip_sum (len proto : Z) (saddr daddr tl : list Z) : Z :=
  ipv4_checksum (ip_bytes len proto 0 saddr daddr ++ tl) 10.

(** What [fill_udp] leaves in the buffer. *)
Lemma fill_udp_layout h data x rest ua len :
  length h = 28%nat -> udp_addr_ok ua -> len = 28 + Z.of_nat (length data) ->
  let u := udp_sum data rest len ua in
  let seg := udp_bytes len u ua ++ data ++ x :: rest in
  fill_udp (h ++ data ++ x :: rest) len (Some ua) =
    ip_bytes len 17 (ip_sum len 17 (ua_saddr ua) (ua_daddr ua) seg) (ua_saddr ua) (ua_daddr ua) ++ seg.
Proof.
  intros Hh Hua Hlen. cbv zeta. pose proof Hua as [H1 H2 H3 H4 _]. unfold fill_udp. cbn [default].
  unfold id. rewrite udp_header_layout by done. fold (udp_sum data rest len ua).
  set (P := take 8 h ++ pseudo_bytes len ua ++ udp_bytes len 0 ua).
  assert (HP : length P = 28%nat).
  { unfold P, pseudo_bytes, udp_bytes. rewrite !length_app, length_take, Hh, H1, H2, H3, H4. reflexivity. }
  replace (take 8 h ++ pseudo_bytes len ua ++ udp_bytes len 0 ua ++ data ++ x :: rest)
    with ((P ++ data) ++ x :: rest) by (unfold P; by rewrite <- !app_assoc).
  assert (Hm : len = Z.of_nat (length (P ++ data))) by (rewrite length_app, HP; lia).
  rewrite aget_mid, !aset_mid by done.
  replace (drop (Z.to_nat UDP_VIRT_SADDR) ((P ++ data) ++ 0 :: rest)) with
    (pseudo_bytes len ua ++ udp_bytes len 0 ua ++ data ++ 0 :: rest).
  2: { unfold P. rewrite <- !app_assoc. rewrite drop_app_length' by (rewrite length_take, Hh; reflexivity). done. }
  fold (udp_sum data rest len ua). generalize (udp_sum data rest len ua). intros u.
  unfold P. rewrite <- !app_assoc.
  rewrite (app_assoc (take 8 h)).
  assert (Hp : length (take 8 h ++ pseudo_bytes len ua) = 20%nat).
  { unfold pseudo_bytes. rewrite !length_app, length_take, Hh, H1, H2. reflexivity. }
  rewrite put_udp_sum, ip_header_layout by done. apply put_ip_sum; done.
Qed.


Lemma bytes_ip len proto c saddr daddr : 0 <= len < 65536 -> is_byte proto -> 0 <= c < 65536 ->
  bytes saddr -> bytes daddr -> bytes (ip_bytes len proto c saddr daddr).
Proof.
  intros Hl Hp Hc Hs Hd. destruct (hi_lo len Hl) as (_ & ? & ? & _). destruct (hi_lo c Hc) as (_ & ? & ? & _).
  unfold ip_bytes. rewrite !bytes_app. split_and!; try done.
  repeat (apply bytes_cons; split); try done; try (unfold is_byte; lia). constructor.
Qed.
Lemma bytes_pseudo len ua : 20 <= len < 65536 -> udp_addr_ok ua -> bytes (pseudo_bytes len ua).
Proof.
  intros Hl [_ _ _ _ Hb]. rewrite !bytes_app in Hb. destruct (hi_lo (len - 20) ltac:(lia)) as (_ & ? & ? & _).
  unfold pseudo_bytes. rewrite !bytes_app. split_and!; try apply Hb.
  repeat (apply bytes_cons; split); try done; try (unfold is_byte; lia). constructor.
Qed.
Lemma bytes_udp len u ua : 20 <= len < 65536 -> 0 <= u < 65536 -> udp_addr_ok ua -> bytes (udp_bytes len u ua).
Proof.
  intros Hl Hu [_ _ _ _ Hb]. rewrite !bytes_app in Hb. destruct (hi_lo (len - 20) ltac:(lia)) as (_ & ? & ? & _).
  destruct (hi_lo u Hu) as (_ & ? & ? & _).
  unfold udp_bytes. rewrite !bytes_app. split_and!; try apply Hb.
  repeat (apply bytes_cons; split); try done; try (unfold is_byte; lia). constructor.
Qed.

(** The checksums make the headers acceptable. *)
Lemma wsum_ip len proto c saddr daddr : 0 <= c < 65536 ->
  wsum (ip_bytes len proto c saddr daddr) = wsum (ip_bytes len proto 0 saddr daddr) + c.
Proof.
  intros Hc. destruct (hi_lo c Hc) as (E & _). unfold ip_bytes. cbn [app wsum]. change (hi8 0) with 0.
  change (lo8 0) with 0. lia.
Qed.
Lemma ip_sum_ok len proto saddr daddr tl : 0 <= len < 65536 -> is_byte proto ->
  length saddr = 4%nat -> length daddr = 4%nat -> bytes saddr -> bytes daddr -> bytes tl ->
  let c := ip_sum len proto saddr daddr tl in
  0 <= c < 65536 /\ sum_ok (ip_bytes len proto c saddr daddr).
Proof.
  intros Hl Hp H1 H2 Hs Hd Ht. cbv zeta. unfold ip_sum.
  assert (Hb : bytes (ip_bytes len proto 0 saddr daddr)) by (apply bytes_ip; (done || lia)).
  assert (Hlen : length (ip_bytes len proto 0 saddr daddr) = 20%nat).
  { unfold ip_bytes. rewrite !length_app, H1, H2. reflexivity. }
  change 10 with (Z.of_nat 10). rewrite ipv4_checksum_spec; [|by apply bytes_app|rewrite length_app; lia|lia].
  rewrite take_app_length' by (rewrite Hlen; reflexivity).
  pose proof (wsum_nonneg _ Hb) as [Hw _]. pose proof (ones_sum_range _ Hw). split; [lia|].
  unfold sum_ok. rewrite wsum_ip by lia. apply ones_sum_fill; [done|by left].
Qed.
End udp.

Section udp_packets.
Context `{Endian}.

Lemma length_pseudo len ua : udp_addr_ok ua -> length (pseudo_bytes len ua) = 12%nat.
Proof. intros [H1 H2 H3 H4 _]. unfold pseudo_bytes. by rewrite !length_app, H1, H2. Qed.
Lemma length_udp_bytes len u ua : udp_addr_ok ua -> length (udp_bytes len u ua) = 8%nat.
Proof. intros [H1 H2 H3 H4 _]. unfold udp_bytes. by rewrite !length_app, H3, H4. Qed.

Lemma wsum_udp len u ua data : 0 <= u < 65536 -> udp_addr_ok ua ->
  wsum (pseudo_bytes len ua ++ udp_bytes len u ua ++ data) =
    wsum (pseudo_bytes len ua ++ udp_bytes len 0 ua ++ data) + u.
Proof.
  intros Hu Hok. destruct (hi_lo u Hu) as (E & _).
  assert (E6 : Nat.Even 12) by (exists 6%nat; lia). assert (E4 : Nat.Even 8) by (exists 4%nat; lia).
  rewrite !wsum_app by (by rewrite ?length_pseudo, ?length_udp_bytes). destruct Hok as [H1 H2 H3 H4 _].
  unfold udp_bytes. destruct ua as [sa da sp dp]; cbn [ua_saddr ua_daddr ua_sport ua_dport] in *.
  explode sp 2. explode dp 2. cbn [app wsum]. change (hi8 0) with 0. change (lo8 0) with 0. lia.
Qed.

Lemma udp_sum_ok data rest len ua : udp_addr_ok ua -> len = 28 + Z.of_nat (length data) ->
  len <= 32000 -> bytes data -> bytes rest ->
  let u := udp_sum data rest len ua in
  0 < u < 65536 /\ sum_ok (pseudo_bytes len ua ++ udp_bytes len u ua ++ data).
Proof.
  intros Hua Hlen Hmax Hd Hr. cbv zeta.
  assert (Hb : bytes (pseudo_bytes len ua ++ udp_bytes len 0 ua ++ data)).
  { rewrite !bytes_app. split_and!; [apply bytes_pseudo|apply bytes_udp|]; (done || lia). }
  set (L := pseudo_bytes len ua ++ udp_bytes len 0 ua ++ data) in *.
  assert (HL : length L = (20 + length data)%nat).
  { unfold L. rewrite !length_app, length_pseudo, length_udp_bytes by done. lia. }
  assert (Hsum : ipv4_checksum (pseudo_bytes len ua ++ udp_bytes len 0 ua ++ data ++ 0 :: rest)
             ((len + 1 - UDP_VIRT_SADDR) ÷ 2) = 65535 - ones_sum (wsum L)).
  { replace (pseudo_bytes len ua ++ udp_bytes len 0 ua ++ data ++ 0 :: rest) with (L ++ 0 :: rest)
      by (unfold L; by rewrite <- !app_assoc).
    unfold UDP_VIRT_SADDR, IP_END. rewrite Z.quot_div_nonneg by lia.
    replace ((len + 1 - (20 - 12)) / 2) with (Z.of_nat ((length L + 1) / 2)).
    2: { rewrite Nat2Z.inj_div. f_equal. lia. }
    pose proof (Nat.div_mod_eq (length L + 1) 2). pose proof (Nat.mod_upper_bound (length L + 1) 2 ltac:(lia)).
    pose proof (wsum_round L rest) as Hround.
    set (k := ((length L + 1) / 2)%nat) in *. set (m := ((length L + 1) mod 2)%nat) in *. clearbody k m.
    rewrite ipv4_checksum_spec; [by rewrite Hround| |rewrite length_app; cbn [length]; lia|lia].
    apply bytes_app. split; [done|]. apply bytes_cons. split; [unfold is_byte; lia|done]. }
  pose proof (wsum_nonneg _ Hb) as [Hw _]. pose proof (ones_sum_range _ Hw) as Hor.
  unfold udp_sum, sum_ok. rewrite Hsum. destruct (Z.eqb_spec (65535 - ones_sum (wsum L)) 0) as [E0|E0].
  - split; [lia|]. rewrite wsum_udp by (done || lia). apply ones_sum_fill; [done|]. right. fold L. split; [done|lia].
  - split; [lia|]. rewrite wsum_udp by (done || lia). apply ones_sum_fill; [done|by left].
Qed.

(** The address used: the one given, or the sender of the request. *)
Definition udp_target (buf : list Z) (uaddr : option wr_udp_addr) : wr_udp_addr :=
  default (reply_addr buf) uaddr.


Lemma reply_addr_ok buf : bytes buf -> udp_addr_ok (reply_addr buf).
Proof.
  intros Hb. split; unfold reply_addr; cbn [ua_saddr ua_daddr ua_sport ua_dport]; rewrite ?length_sub; try done.
  rewrite !bytes_app. split_and!; by apply bytes_sub.
Qed.
Lemma fill_udp_target buf len uaddr : fill_udp buf len uaddr = fill_udp buf len (Some (udp_target buf uaddr)).
Proof. by destruct uaddr. Qed.

(** What a receiver of UDP checks: version and header length, the total
    length, the protocol, the header checksum, the UDP length, and a UDP
    checksum that is present and right with the pseudo header. *)
Definition udp_packet_ok (pkt : list Z) (ua : wr_udp_addr) (data : list Z) : Prop :=
  exists ttl c u, 
    let len := Z.of_nat (length pkt) in
    pkt = [69; 0; len / 256; len mod 256; 0; 0; 0; 0; ttl; 17; c / 256; c mod 256] ++
          ua_saddr ua ++ ua_daddr ua ++
          ua_sport ua ++ ua_dport ua ++ [(len - 20) / 256; (len - 20) mod 256; u / 256; u mod 256] ++ data /\
    0 < ttl < 256 /\ 0 <= c < 65536 /\ 0 < u < 65536 /\ sum_ok (take 20 pkt) /\
    sum_ok (ua_saddr ua ++ ua_daddr ua ++ [0; 17; (len - 20) / 256; (len - 20) mod 256] ++ drop 20 pkt).

Lemma fill_udp_spec buf len uaddr :
  bytes buf -> 28 <= len <= 32000 -> len < Z.of_nat (length buf) ->
  (forall ua, uaddr = Some ua -> udp_addr_ok ua) ->
  let buf' := fill_udp buf len uaddr in
  length buf' = length buf /\ drop (Z.to_nat len) buf' = drop (Z.to_nat len) buf /\
  udp_packet_ok (take (Z.to_nat len) buf') (udp_target buf uaddr) (sub buf 28 (len - 28)).
Proof.
  intros Hb Hlen Hl Hu. cbv zeta. rewrite fill_udp_target.
  assert (Hua : udp_addr_ok (udp_target buf uaddr)) by (destruct uaddr; [by apply Hu|by apply reply_addr_ok]).
  generalize dependent (udp_target buf uaddr). intros ua Hua. clear Hu uaddr.
  assert (Hsplit : exists h data x rest, buf = h ++ data ++ x :: rest /\ length h = 28%nat /\
    Z.of_nat (length data) = len - 28 /\ sub buf 28 (len - 28) = data).
  { exists (take 28 buf), (take (Z.to_nat (len - 28)) (drop 28 buf)), (aget 0 buf len), (drop (S (Z.to_nat len)) buf).
    rewrite !length_take, length_drop. split; [|split; [lia|split; [lia|]]].
    - rewrite <- (take_drop 28 buf) at 1. f_equal.
      rewrite <- (take_drop (Z.to_nat (len - 28)) (drop 28 buf)) at 1. f_equal. rewrite drop_drop.
      replace (28 + Z.to_nat (len - 28))%nat with (Z.to_nat len) by lia.
      apply drop_S. rewrite aget_lookup by lia. do 2 f_equal. lia.
    - replace (len - 28) with (Z.of_nat (Z.to_nat (len - 28))) at 1 by lia.
      apply (sub_split buf 28). lia. }
  destruct Hsplit as (h & data & x & rest & -> & Hh & Hd & ->).
  rewrite fill_udp_layout by (done || lia). rewrite !bytes_app, bytes_cons in Hb.
  destruct Hb as (_ & Hbd & Hbx & Hbr).
  destruct (udp_sum_ok data rest len ua Hua ltac:(lia) ltac:(lia) Hbd Hbr) as [Hu Hus].
  generalize dependent (udp_sum data rest len ua). intros u Hu Hus.
  set (seg := udp_bytes len u ua ++ data ++ x :: rest).
  pose proof Hua as [H1 H2 H3 H4 H5]. rewrite !bytes_app in H5.
  assert (Hseg : bytes seg).
  { unfold seg. rewrite !bytes_app, bytes_cons. split_and!; try done. apply bytes_udp; (done || lia). }
  destruct (ip_sum_ok len 17 (ua_saddr ua) (ua_daddr ua) seg) as [Hc Hcs]; try done; try lia; try apply H5.
  generalize dependent (ip_sum len 17 (ua_saddr ua) (ua_daddr ua) seg). intros c Hc Hcs.
  assert (Hip : length (ip_bytes len 17 c (ua_saddr ua) (ua_daddr ua)) = 20%nat).
  { unfold ip_bytes. by rewrite !length_app, H1, H2. }
  assert (Hudp : length (udp_bytes len u ua) = 8%nat) by by apply length_udp_bytes.
  set (ip := ip_bytes len 17 c (ua_saddr ua) (ua_daddr ua)) in *.
  assert (Hpkt : ip ++ seg = (ip ++ udp_bytes len u ua ++ data) ++ x :: rest) by (unfold seg; by rewrite <- !app_assoc).
  assert (Hlp : length (ip ++ udp_bytes len u ua ++ data) = Z.to_nat len) by (rewrite !length_app, Hip, Hudp; lia).
  rewrite Hpkt. rewrite take_app_length', drop_app_length' by done. split_and!.
  - rewrite length_app, Hlp, !length_app. cbn [length]. lia.
  - rewrite app_assoc, drop_app_length'; [done|]. rewrite length_app. lia.
  - exists 63, c, u. cbv zeta. rewrite Hlp, Z2Nat.id by lia.
    destruct (hi_lo len ltac:(lia)) as (_ & _ & _ & El1 & El2).
    destruct (hi_lo (len - 20) ltac:(lia)) as (_ & _ & _ & Em1 & Em2).
    destruct (hi_lo c ltac:(lia)) as (_ & _ & _ & Ec1 & Ec2). destruct (hi_lo u ltac:(lia)) as (_ & _ & _ & Eu1 & Eu2).
    rewrite take_app_length', drop_app_length' by (by rewrite Hip).
    split_and!; try lia; try done.
    + unfold ip, ip_bytes, udp_bytes. rewrite El1, El2, Em1, Em2, Ec1, Ec2, Eu1, Eu2. by rewrite <- !app_assoc.
    + unfold pseudo_bytes in Hus. rewrite Em1, Em2 in Hus. by rewrite <- !app_assoc in Hus.
Qed.
End udp_packets.

(** C12. [fill_udp] builds packets that a receiver accepts: for every buffer
    that holds a payload of any length, even or odd, at UDP_END, and for given
    addresses or for a reply (addresses and ports swapped), the first [len]
    bytes become a UDP/IPv4 packet with the right lengths, addresses and
    ports, the untouched payload, a valid header checksum and a UDP checksum
    that is present (not zero) and valid with the pseudo header; nothing
    behind the packet changes, the padding byte included. *)
Theorem fill_udp_valid `{Endian} buf len uaddr :
  bytes buf -> 28 <= len <= 32000 -> len < Z.of_nat (length buf) ->
  (forall ua, uaddr = Some ua -> udp_addr_ok ua) ->
  let buf' := fill_udp buf len uaddr in
  length buf' = length buf /\ drop (Z.to_nat len) buf' = drop (Z.to_nat len) buf /\
  udp_packet_ok (take (Z.to_nat len) buf') (udp_target buf uaddr) (sub buf 28 (len - 28)).
Proof. exact (fill_udp_spec buf len uaddr). Qed.

(** A reply with a payload of three bytes, in a buffer with a byte behind. *)
Definition demo_request : list Z :=
  [69; 0; 0; 31; 0; 0; 0; 0; 64; 17; 0; 0; 192; 168; 1; 2; 192; 168; 1; 9; 4; 210; 0; 37; 0; 11; 0; 0;
   1; 2; 3; 170].
Lemma fill_udp_valid_witness :
  let E : Endian := false in
  let buf' := fill_udp demo_request 31 None in
  length buf' = 32%nat /\ drop 31 buf' = [170] /\
  udp_packet_ok (take 31 buf') (mk_udp [192; 168; 1; 9] [192; 168; 1; 2] [0; 37] [4; 210]) [1; 2; 3].
Proof.
  intros E. apply (fill_udp_valid demo_request 31 None); [|lia|cbn; lia|done].
  unfold bytes, demo_request. repeat (apply Forall_cons; split); try (unfold is_byte; lia). apply Forall_nil_2.
Defined.

(** ** ARP *)

(** ARP: [process_arp] answers exactly the requests (operation 1) of at
    least 28 bytes for our address; the answer has operation 2, our MAC and IP
    address as the sender and the sender of the request as the target; any
    other packet is left unchanged and unanswered. *)
Theorem process_arp_correct mac myIP buf len :
  length mac = 6%nat -> length myIP = 4%nat -> (28 <= length buf)%nat ->
  let sha := sub buf 8 6 in let spa := sub buf 14 4 in
  let '(buf', rlen) := process_arp mac myIP buf len in
  if (28 <=? len) && bool_decide (sub buf 6 2 = [0; 1]) && bool_decide (sub buf 24 4 = myIP)
  then rlen = 28 /\ buf' = [0; 1; 8; 0; 6; 4; 0; 2] ++ mac ++ myIP ++ sha ++ spa ++ drop 28 buf
  else rlen = 0 /\ buf' = buf.
Proof.
  intros Hm Hip Hb. cbv zeta. rewrite <- (take_drop 28 buf).
  assert (Ht : length (take 28 buf) = 28%nat) by (rewrite length_take; lia).
  generalize dependent (drop 28 buf). generalize dependent (take 28 buf). clear Hb. intros h Hh tl.
  rewrite drop_app_length' by done. unfold process_arp.
  change ARP_END with 28. destruct (Z.leb_spec 28 len), (Z.ltb_spec len 28); try lia; cbn [andb]; [|done].
  unfold same. rewrite Hip. change (sub (h ++ tl) 6 2) with [aget 0 (h ++ tl) 6; aget 0 (h ++ tl) 7].
  change (aget 0 (h ++ tl) ARP_OPER) with (aget 0 (h ++ tl) 6).
  change (aget 0 (h ++ tl) (ARP_OPER + 1)) with (aget 0 (h ++ tl) 7).
  change (sub (h ++ tl) ARP_TPA (Z.of_nat 4)) with (sub (h ++ tl) 24 4).
  destruct (Z.eqb_spec (aget 0 (h ++ tl) 6) 0) as [E6|E6].
  2: { rewrite (bool_decide_eq_false_2 ([_; _] = _)) by congruence. done. }
  destruct (Z.eqb_spec (aget 0 (h ++ tl) 7) 1) as [E7|E7].
  2: { rewrite (bool_decide_eq_false_2 ([_; _] = _)) by congruence. done. }
  rewrite E6, E7, (bool_decide_eq_true_2 ([0; 1] = _)) by done. cbn [andb negb orb].
  destruct (bool_decide _); cbn [negb]; [|done]. split; [done|].
  clear E6 E7. explode h 28. explode mac 6. explode myIP 4. reflexivity.
Qed.

(** A request for 192.168.1.9. *)
Lemma process_arp_correct_witness :
  let req := [0; 1; 8; 0; 6; 4; 0; 1; 2; 2; 2; 2; 2; 2; 192; 168; 1; 2; 0; 0; 0; 0; 0; 0; 192; 168; 1; 9] in
  process_arp [8; 0; 48; 1; 2; 3] [192; 168; 1; 9] (req ++ replicate 18 0) 46 =
    ([0; 1; 8; 0; 6; 4; 0; 2; 8; 0; 48; 1; 2; 3; 192; 168; 1; 9; 2; 2; 2; 2; 2; 2; 192; 168; 1; 2] ++
     replicate 18 0, 28).
Proof.
  intros req. pose proof (process_arp_correct [8; 0; 48; 1; 2; 3] [192; 168; 1; 9] (req ++ replicate 18 0) 46
    eq_refl eq_refl ltac:(cbn; lia)) as Hx.
  cbv zeta in Hx. destruct (process_arp _ _ _ _) as [b r].
  match type of Hx with context [if ?c then _ else _] => change c with true in Hx end.
  destruct Hx as [-> ->]. reflexivity.
Defined.

(** ** ICMP *)
Section icmp.
Context `{Endian}.

Definition icmp_bytes (c : Z) : list Z := [0; 0; hi8 c; lo8 c].
(** The checksum [process_icmp] computes: over whole words, with the byte
    behind an odd body. *)
Definition icmp_sum (body : list Z) (y : Z) (rest : list Z) : Z :=
  u16 (ipv4_checksum (icmp_bytes 0 ++ body ++ y :: rest) ((Z.of_nat (length body) + 4 + 1) ÷ 2)).

(** The guards of [process_icmp]. *)
Definition echo_request (myIP buf : list Z) : Prop :=
  aget 0 buf 0 = 69 /\ sub buf 16 4 = myIP /\ aget 0 buf 9 = 1 /\ aget 0 buf 20 = 8.
Definition ip_total_length (buf : list Z) : Z := aget 0 buf 2 * 256 + aget 0 buf 3.

Lemma put_icmp len proto c saddr daddr i4 tl v : length saddr = 4%nat -> length daddr = 4%nat ->
  length i4 = 4%nat ->
  let hd := ip_bytes len proto c saddr daddr in
  writes (hd ++ i4 ++ tl) [(ICMP_TYPE, [0]); (ICMP_CODE, [0]); (ICMP_CHECKSUM, [0]); (ICMP_CHECKSUM + 1, [0])] =
    hd ++ icmp_bytes 0 ++ tl /\
  drop (Z.to_nat ICMP_TYPE) (hd ++ icmp_bytes 0 ++ tl) = icmp_bytes 0 ++ tl /\
  put_sum (hd ++ icmp_bytes 0 ++ tl) ICMP_CHECKSUM v = hd ++ icmp_bytes v ++ tl.
Proof. intros H1 H2 H3. explode saddr 4. explode daddr 4. explode i4 4. split_and!; reflexivity. Qed.

Lemma process_icmp_layout myIP h body y rest len rlen :
  length myIP = 4%nat -> length h = 24%nat -> bytes h ->
  echo_request myIP (h ++ body ++ y :: rest) -> 24 <= ip_total_length h ->
  rlen = Z.min (ip_total_length h) 88 -> Z.of_nat (length body) = rlen - 24 ->
  let s := icmp_sum body y rest in
  let tl := icmp_bytes s ++ body ++ y :: rest in
  let hisIP := sub h 12 4 in
  process_icmp myIP (h ++ body ++ y :: rest) len =
    (ip_bytes rlen 1 (u16 (ip_sum rlen 1 myIP hisIP tl)) myIP hisIP ++ tl, rlen).
Proof.
  intros Hip Hh Hbh (E0 & Ed & E9 & E20) Hmin Hr Hl. cbv zeta. unfold process_icmp, same.
  change IP_VERSION with 0. change IP_DEST with 16. change IP_PROTOCOL with 9.
  change (aget 0 (h ++ body ++ y :: rest) ICMP_TYPE) with (aget 0 (h ++ body ++ y :: rest) 20).
  rewrite Hip. change (Z.of_nat 4) with 4. rewrite E0, Ed, E9, E20, bool_decide_eq_true_2 by done.
  cbn [negb orb Z.eqb Pos.eqb].
  assert (El : Z.lor (Z.shiftl (aget 0 (h ++ body ++ y :: rest) IP_LEN) 8)
                 (aget 0 (h ++ body ++ y :: rest) (IP_LEN + 1)) = ip_total_length h).
  { clear - Hh Hbh. explode h 24. unfold ip_total_length. cbn [app aget].
    unfold bytes in Hbh. rewrite !Forall_cons in Hbh. unfold is_byte in Hbh.
    change (aget 0 _ IP_LEN) with z1. change (aget 0 _ (IP_LEN + 1)) with z2.
    change (aget 0 _ 2) with z1. change (aget 0 _ 3) with z2.
    rewrite Z.lor_comm, <- (Z.mul_comm 256). change 256 with (2 ^ 8).
    rewrite (Z.mul_comm _ z1), <- Z.shiftl_mul_pow2 by lia. rewrite lor_shiftl; [|lia..].
    rewrite Z.shiftl_mul_pow2 by lia. lia. }
  rewrite El.
  assert (Eb : (if 64 <? ip_total_length h - 24 then 64 else ip_total_length h - 24) = rlen - 24).
  { destruct (Z.ltb_spec 64 (ip_total_length h - 24)); lia. }
  rewrite Eb. replace (rlen - 24 + 24) with rlen by lia. replace (24 + (rlen - 24)) with rlen by lia.
  rewrite <- Hl. fold (icmp_sum body y rest).
  replace (sub (h ++ body ++ y :: rest) IP_SOURCE 4) with (sub h 12 4) by (clear - Hh; explode h 24; reflexivity).
  assert (Hhis : length (sub h 12 4) = 4%nat) by apply length_sub.
  generalize dependent (sub h 12 4). intros hisIP Hhis.
  rewrite <- (take_drop 20 h). set (i4 := drop 20 h). rewrite <- app_assoc.
  assert (Hi4 : length i4 = 4%nat) by (unfold i4; rewrite length_drop; lia).
  rewrite ip_header_layout by (rewrite ?length_take; (done || lia)). clearbody i4.
  destruct (put_icmp rlen 1 0 myIP hisIP i4 (body ++ y :: rest) (icmp_sum body y rest) Hip Hhis Hi4) as (-> & -> & Ep).
  fold (icmp_sum body y rest). rewrite Ep, put_ip_sum by done. unfold ip_sum. reflexivity.
Qed.

Lemma wsum_icmp c body : 0 <= c < 65536 -> wsum (icmp_bytes c ++ body) = wsum (icmp_bytes 0 ++ body) + c.
Proof.
  intros Hc. destruct (hi_lo c Hc) as (E & _). unfold icmp_bytes. cbn [app wsum].
  change (hi8 0) with 0. change (lo8 0) with 0. lia.
Qed.
Lemma wsum_round_even (l r : list Z) : Nat.Even (length l) -> take (2 * ((length l + 1) / 2)) (l ++ r) = l.
Proof.
  intros [k Hk]. replace ((length l + 1) / 2)%nat with k by (apply Nat.div_unique with 1%nat; lia).
  by rewrite take_app_length' by lia.
Qed.

(** The checksum is right for an even body, or when a zero follows. *)
Lemma icmp_sum_ok body y rest : bytes body -> is_byte y -> bytes rest -> Z.of_nat (length body) <= 64 ->
  Nat.Even (length body) \/ y = 0 ->
  let s := icmp_sum body y rest in 0 <= s < 65536 /\ sum_ok (icmp_bytes s ++ body).
Proof.
  intros Hb Hy Hr Hl He. cbv zeta.
  assert (Hb0 : bytes (icmp_bytes 0 ++ body)).
  { apply bytes_app. split; [|done]. unfold icmp_bytes. repeat (apply bytes_cons; split); by try constructor. }
  set (L := icmp_bytes 0 ++ body) in *. assert (HL : length L = (4 + length body)%nat) by (unfold L; by rewrite length_app).
  assert (Hsum : icmp_sum body y rest = 65535 - ones_sum (wsum L)).
  { unfold icmp_sum. replace (icmp_bytes 0 ++ body ++ y :: rest) with (L ++ y :: rest) by (unfold L; by rewrite <- app_assoc).
    rewrite Z.quot_div_nonneg by lia.
    replace ((Z.of_nat (length body) + 4 + 1) / 2) with (Z.of_nat ((length L + 1) / 2)).
    2: { rewrite Nat2Z.inj_div. f_equal. lia. }
    assert (Hround : wsum (take (2 * ((length L + 1) / 2)) (L ++ y :: rest)) = wsum L).
    { destruct He as [[k Hk]| ->]; [|apply wsum_round]. rewrite wsum_round_even; [done|]. exists (k + 2)%nat. lia. }
    pose proof (Nat.div_mod_eq (length L + 1) 2). pose proof (Nat.mod_upper_bound (length L + 1) 2 ltac:(lia)).
    set (k := ((length L + 1) / 2)%nat) in *. set (m := ((length L + 1) mod 2)%nat) in *. clearbody k m.
    rewrite ipv4_checksum_spec; [rewrite Hround| |rewrite length_app; cbn [length]; lia|lia].
    - apply u16_small. pose proof (wsum_nonneg _ Hb0) as [Hw _]. pose proof (ones_sum_range _ Hw). lia.
    - apply bytes_app. split; [done|]. by apply bytes_cons. }
  rewrite Hsum. pose proof (wsum_nonneg _ Hb0) as [Hw _]. pose proof (ones_sum_range _ Hw).
  split; [lia|]. unfold sum_ok. rewrite wsum_icmp by lia. apply ones_sum_fill; [done|by left].
Qed.
End icmp.

Section icmp_correct.
Context `{Endian}.
#[local] Instance echo_request_dec myIP buf : Decision (echo_request myIP buf).
Proof. unfold echo_request. apply _. Defined.

Lemma process_icmp_other myIP buf len : length myIP = 4%nat -> ~ echo_request myIP buf ->
  process_icmp myIP buf len = (buf, 0).
Proof.
  intros Hip Hno. unfold process_icmp, same. rewrite Hip.
  change (aget 0 buf IP_VERSION) with (aget 0 buf 0). change (aget 0 buf IP_PROTOCOL) with (aget 0 buf 9).
  change (aget 0 buf ICMP_TYPE) with (aget 0 buf 20). change (sub buf IP_DEST (Z.of_nat 4)) with (sub buf 16 4).
  destruct (Z.eqb_spec (aget 0 buf 0) 69); [|done]. destruct (bool_decide_reflect (sub buf 16 4 = myIP)); [|done].
  cbn [negb orb]. destruct (Z.eqb_spec (aget 0 buf 9) 1); [|done].
  destruct (Z.eqb_spec (aget 0 buf 20) 8); [|done]. exfalso. by apply Hno.
Qed.

(** A buffer is header, body, one byte and the rest. *)
Lemma split4 (buf : list Z) a n : 0 <= a -> 0 <= n -> a + n < Z.of_nat (length buf) ->
  exists h b y r, buf = h ++ b ++ y :: r /\ Z.of_nat (length h) = a /\ Z.of_nat (length b) = n /\
    h = take (Z.to_nat a) buf /\ sub buf a n = b /\ aget 0 buf (a + n) = y.
Proof.
  intros Ha Hn Hl.
  exists (take (Z.to_nat a) buf), (take (Z.to_nat n) (drop (Z.to_nat a) buf)), (aget 0 buf (a + n)),
    (drop (S (Z.to_nat (a + n))) buf).
  rewrite !length_take, length_drop. split; [|split_and!; try done; try lia].
  - rewrite <- (take_drop (Z.to_nat a) buf) at 1. f_equal.
    rewrite <- (take_drop (Z.to_nat n) (drop (Z.to_nat a) buf)) at 1. f_equal. rewrite drop_drop.
    replace (Z.to_nat a + Z.to_nat n)%nat with (Z.to_nat (a + n)) by lia.
    apply drop_S. rewrite aget_lookup by lia. do 2 f_equal. lia.
  - replace a with (Z.of_nat (Z.to_nat a)) at 1 by lia. replace n with (Z.of_nat (Z.to_nat n)) at 1 by lia.
    apply sub_split. lia.
Qed.

(** C32. Echo: [process_icmp] answers the ICMP echo requests for our address
    and nothing else.  The answer repeats the body, at most 64 bytes of it,
    goes back to the sender, and has the right length and a valid header
    checksum; its ICMP checksum is valid when the body has an even length or
    the byte behind it in the buffer is zero. *)
Theorem process_icmp_correct myIP buf len :
  bytes buf -> bytes myIP -> length myIP = 4%nat -> 88 < Z.of_nat (length buf) ->
  let rlen := Z.min (ip_total_length buf) 88 in
  let body := sub buf 24 (rlen - 24) in
  let '(buf', r) := process_icmp myIP buf len in
  (~ echo_request myIP buf -> r = 0 /\ buf' = buf) /\
  (echo_request myIP buf -> 24 <= ip_total_length buf ->
     r = rlen /\ exists c s,
       take (Z.to_nat rlen) buf' = ip_bytes rlen 1 c myIP (sub buf 12 4) ++ icmp_bytes s ++ body /\
       0 <= c < 65536 /\ 0 <= s < 65536 /\ sum_ok (take 20 buf') /\
       (Nat.Even (length body) \/ aget 0 buf rlen = 0 -> sum_ok (icmp_bytes s ++ body))).
Proof.
  intros Hb Hbi Hip Hl. cbv zeta. destruct (decide (echo_request myIP buf)) as [He|He].
  2: { rewrite process_icmp_other by done. split; [done|by intros]. }
  set (rlen := Z.min (ip_total_length buf) 88).
  destruct (Z.le_gt_cases 24 (ip_total_length buf)) as [Hmin|Hlt].
  2: { destruct (process_icmp myIP buf len). split; [done|intros; lia]. }
  destruct (split4 buf 24 (rlen - 24)) as (h & body & y & rest & Ebuf & Hh & Hbody & Eh & Esub & Ey);
    [lia|unfold rlen; lia|unfold rlen; lia|].
  rewrite Esub. replace (24 + (rlen - 24)) with rlen in Ey by lia. rewrite Ey.
  assert (Et : ip_total_length h = ip_total_length buf /\ sub h 12 4 = sub buf 12 4).
  { rewrite Ebuf. assert (length h = 24%nat) by lia. clear - H0. explode h 24. by split. }
  destruct Et as [Et Es]. assert (Hbs : bytes h /\ bytes body /\ is_byte y /\ bytes rest).
  { rewrite Ebuf in Hb. rewrite !bytes_app, bytes_cons in Hb. done. }
  destruct Hbs as (Hbh & Hbb & Hby & Hbr). rewrite <- Es.
  clear Esub Ey Eh. subst buf.
  rewrite (process_icmp_layout myIP h body y rest len rlen) by (unfold rlen; (done || lia)).
  split; [done|]. intros _ _. split; [done|].
  set (s := icmp_sum body y rest). set (tl := icmp_bytes s ++ body ++ y :: rest).
  assert (Hs : 0 <= s < 65536) by apply u16_range. destruct (hi_lo s Hs) as (_ & Hs1 & Hs2 & _).
  assert (Htl : bytes tl).
  { unfold tl. rewrite !bytes_app, bytes_cons. split_and!; try done. unfold icmp_bytes.
    rewrite !bytes_cons. split_and!; try done. apply Forall_nil_2. }
  assert (Hhis : length (sub h 12 4) = 4%nat) by apply length_sub.
  destruct (ip_sum_ok rlen 1 myIP (sub h 12 4) tl) as [Hc Hcs]; try done; [unfold rlen; lia| |].
  { by apply bytes_sub. }
  rewrite u16_small by lia. exists (ip_sum rlen 1 myIP (sub h 12 4) tl), s.
  set (ip := ip_bytes _ _ _ _ _) in *.
  assert (Hli : length ip = 20%nat) by (unfold ip, ip_bytes; by rewrite !length_app, Hip, Hhis).
  split; [|split_and!; try lia].
  - replace (ip ++ tl) with ((ip ++ icmp_bytes s ++ body) ++ y :: rest) by (unfold tl; by rewrite <- !app_assoc).
    rewrite take_app_length'; [done|]. rewrite !length_app, Hli. cbn [icmp_bytes length]. lia.
  - by rewrite take_app_length' by (by rewrite Hli).
  - intros Hev. apply icmp_sum_ok; try done. unfold rlen in Hbody. lia.
Qed.
End icmp_correct.

(** A ping with 56 bytes of data. *)
Definition demo_ping (len : Z) : list Z :=
  [69; 0; 0; len; 0; 1; 0; 0; 64; 1; 247; 61; 192; 168; 1; 2; 192; 168; 1; 9; 8; 0; 230; 253; 18; 52; 0; 1].
Lemma process_icmp_correct_witness :
  let E : Endian := false in
  let buf := demo_ping 84 ++ replicate 56 7 ++ replicate 44 170 in
  let '(buf', r) := process_icmp [192; 168; 1; 9] buf 84 in
  r = 84 /\ exists c s,
    take 84 buf' = ip_bytes 84 1 c [192; 168; 1; 9] [192; 168; 1; 2] ++ icmp_bytes s ++
                     [18; 52; 0; 1] ++ replicate 56 7 /\
    sum_ok (take 20 buf') /\ sum_ok (icmp_bytes s ++ [18; 52; 0; 1] ++ replicate 56 7).
Proof.
  intros E buf. assert (Hb : bytes buf).
  { unfold buf, demo_ping. rewrite !bytes_app. split_and!; [|apply Forall_replicate; unfold is_byte; lia..].
    repeat (apply bytes_cons; split); try (unfold is_byte; lia). apply Forall_nil_2. }
  pose proof (process_icmp_correct [192; 168; 1; 9] buf 84 Hb) as Hx.
  assert (Hip : bytes [192; 168; 1; 9]) by (repeat (apply bytes_cons; split); try (unfold is_byte; lia); apply Forall_nil_2).
  specialize (Hx Hip eq_refl ltac:(cbn; lia)). cbv zeta in Hx.
  destruct (process_icmp _ buf 84) as [b r]. destruct Hx as [_ Hx].
  destruct Hx as (-> & c & s & Ht & _ & _ & H1 & H2); [by vm_compute|vm_compute; congruence|].
  split; [reflexivity|]. exists c, s. split; [exact Ht|]. split; [exact H1|]. apply H2. left. by exists 30%nat.
Defined.

(** [process_icmp] takes the length of the answer from the IP header of
    the request and never looks at the number of bytes received.  So (1) a
    request of 28 bytes that claims 84 is answered with the 56 bytes of stack
    memory behind it; and (2) an odd body is summed with the byte that happens
    to follow it, so that a correct ping with 39 bytes of data gets an answer
    with a wrong checksum, which the sender drops. *)
Theorem process_icmp_trusts_length `{Endian} :
  let stack n := replicate n 170 in
  (let '(buf', r) := process_icmp [192; 168; 1; 9] (demo_ping 84 ++ stack 100%nat) 28 in
   r = 84 /\ sub buf' 28 56 = stack 56%nat) /\
  let ping := [69; 0; 0; 67; 0; 1; 0; 0; 64; 1; 247; 93; 192; 168; 1; 2; 192; 168; 1; 9; 8; 0; 89; 69; 18; 52; 0; 1] ++
              replicate 39 7 in
  sum_ok (take 20 ping) /\ sum_ok (drop 20 ping) /\
  let '(buf', r) := process_icmp [192; 168; 1; 9] (ping ++ stack 61%nat) 67 in
  r = 67 /\ ~ sum_ok (sub buf' 20 47).
Proof.
  destruct H; (split; [vm_compute; by split|]); (split; [vm_compute; reflexivity|]);
    (split; [vm_compute; reflexivity|]); vm_compute; (split; [reflexivity|]); congruence.
Qed.

(** ** BOOTP *)
Section bootp_correct.
Context `{Endian}.

(** The BOOTP message: request, hardware type, the transaction id, the retry
    counter as seconds, no addresses, our MAC, and no options. *)
Definition bootp_message (mac : list Z) (retry : Z) : list Z :=
  let m i := aget 0 mac i in
  [1; 1; 6; 0] ++
  [Z.lxor (m 0) (m 4); Z.lxor (m 1) (m 5); Z.lxor (m 2) (Z.land (Z.shiftr retry 8) 255);
   Z.lxor (m 3) (Z.land retry 255)] ++
  [Z.land (Z.shiftr retry 8) 255; Z.land retry 255; 0; 0] ++
  replicate 16 0 ++ mac ++ replicate 10 0 ++ replicate 64 0 ++ replicate 128 0 ++ replicate 64 0.

Definition bootp_head (mac buf : list Z) (retry : Z) : list Z :=
  let buf := writes buf [(BOOTP_OP, [1]); (BOOTP_HTYPE, [1]); (BOOTP_HLEN, [6]); (BOOTP_HOPS, [0]);
                         (BOOTP_XID, mac)] in
  let buf := xor8 buf BOOTP_XID (aget 0 buf (BOOTP_XID + 4)) in
  let buf := xor8 buf (BOOTP_XID + 1) (aget 0 buf (BOOTP_XID + 5)) in
  let buf := xor8 buf (BOOTP_XID + 2) (Z.land (Z.shiftr retry 8) 255) in
  let buf := xor8 buf (BOOTP_XID + 3) (Z.land retry 255) in
  writes buf
    [(BOOTP_SECS, [Z.land (Z.shiftr retry 8) 255]); (BOOTP_SECS + 1, [Z.land retry 255]);
     (BOOTP_UNUSED, replicate 2 0); (BOOTP_CIADDR, replicate 4 0); (BOOTP_YIADDR, replicate 4 0);
     (BOOTP_SIADDR, replicate 4 0); (BOOTP_GIADDR, replicate 4 0);
     (BOOTP_CHADDR, replicate 16 0); (BOOTP_CHADDR, mac)].
Definition bootp_body (mac buf : list Z) (retry : Z) : list Z :=
  writes (bootp_head mac buf retry)
    [(BOOTP_SNAME, replicate 64 0); (BOOTP_FILE, replicate 128 0); (BOOTP_VEND, replicate 64 0)].
Definition bootp_target : wr_udp_addr :=
  mk_udp (replicate 4 0) (replicate 4 255) (image 2 (htons 68)) (image 2 (htons 67)).
Lemma prepare_bootp_eq mac addr buf retry : prepare_bootp mac addr buf retry =
  (addr <| sa_mac := replicate 6 255 |>, fill_udp (bootp_body mac buf retry) BOOTP_END (Some bootp_target), BOOTP_END).
Proof. reflexivity. Qed.

Lemma put_over (p o q l : list Z) off : off = Z.of_nat (length p) -> length o = length l ->
  put (p ++ o ++ q) off l = p ++ l ++ q.
Proof.
  intros ->. revert p o. induction l as [|b l IH]; intros p o Ho.
  { by destruct o. }
  destruct o as [|y o]; [done|]. cbn [put app]. rewrite aset_mid by done.
  replace (p ++ b :: o ++ q) with ((p ++ [b]) ++ o ++ q) by (by rewrite <- app_assoc).
  replace (Z.of_nat (length p) + 1) with (Z.of_nat (length (p ++ [b]))) by (rewrite length_app; cbn; lia).
  rewrite IH by (cbn in Ho; lia). by rewrite <- app_assoc.
Qed.

Lemma bootp_body_layout mac retry h b tl : length mac = 6%nat -> length h = 28%nat -> length b = 300%nat ->
  bootp_body mac (h ++ b ++ tl) retry = h ++ bootp_message mac retry ++ tl.
Proof.
  intros Hm Hh Hb.
  assert (Hs : exists a s f v, b = a ++ s ++ f ++ v /\ length a = 44%nat /\ length s = 64%nat /\ length f = 128%nat /\ length v = 64%nat).
  { exists (take 44 b), (take 64 (drop 44 b)), (take 128 (drop 108 b)), (drop 236 b).
    rewrite !length_take, !length_drop. split; [|lia].
    rewrite <- (take_drop 44 b) at 1. f_equal. rewrite <- (take_drop 64 (drop 44 b)) at 1. f_equal.
    rewrite drop_drop. rewrite <- (take_drop 128 (drop _ b)) at 1. f_equal. by rewrite drop_drop. }
  destruct Hs as (a & s & f & v & -> & Ha & Hls & Hlf & Hlv).
  assert (E : bootp_head mac (h ++ (a ++ s ++ f ++ v) ++ tl) retry =
    (h ++ take 44 (bootp_message mac retry)) ++ s ++ f ++ v ++ tl).
  { rewrite <- !app_assoc. generalize (s ++ f ++ v ++ tl). clear - Hh Hm Ha. intros r.
    explode h 28. explode a 44. explode mac 6. reflexivity. }
  unfold bootp_body, writes. rewrite E. cbn [foldl].
  assert (Ht : length (h ++ take 44 (bootp_message mac retry)) = 72%nat).
  { rewrite length_app, length_take, Hh. unfold bootp_message. rewrite !length_app, Hm. reflexivity. }
  set (X := h ++ take 44 _) in *.
  rewrite put_over by (rewrite ?Ht, ?length_replicate; done). rewrite (app_assoc _ (replicate 64 0)).
  rewrite put_over by (rewrite ?length_app, ?Ht, ?length_replicate; done).
  rewrite (app_assoc _ (replicate 128 0)).
  rewrite put_over by (rewrite ?length_app, ?Ht, ?length_replicate; done).
  clear - Hm. unfold X. rewrite <- !app_assoc. explode mac 6. reflexivity.
Qed.

Lemma bootp_target_ok : udp_addr_ok bootp_target /\
  bootp_target = mk_udp [0; 0; 0; 0] [255; 255; 255; 255] [0; 68] [0; 67].
Proof.
  assert (E : bootp_target = mk_udp [0; 0; 0; 0] [255; 255; 255; 255] [0; 68] [0; 67]).
  { unfold bootp_target. by rewrite !image_htons by lia. }
  split; [|done]. rewrite E. split; try done. cbn [ua_saddr ua_daddr ua_sport ua_dport app].
  rewrite !bytes_cons. split_and!; try (unfold is_byte; lia). apply Forall_nil_2.
Qed.

Lemma land_byte x : is_byte (Z.land x 255).
Proof. change 255 with (Z.ones 8). rewrite Z.land_ones by lia. apply (Z.mod_pos_bound x 256). lia. Qed.
Lemma high_bit a n : 0 <= a < 256 -> 8 <= n -> Z.testbit a n = false.
Proof.
  intros Ha Hn. destruct (Z.eq_dec a 0) as [->|]; [apply Z.bits_0|]. apply Z.bits_above_log2; [lia|].
  apply Z.log2_lt_pow2; [lia|]. apply Z.lt_le_trans with (2 ^ 8); [lia|]. apply Z.pow_le_mono_r; lia.
Qed.
Lemma lxor_byte a b : is_byte a -> is_byte b -> is_byte (Z.lxor a b).
Proof.
  unfold is_byte. intros Ha Hb. assert (Hx : Z.lxor a b = Z.lxor a b mod 2 ^ 8).
  { rewrite <- Z.land_ones by lia. apply Z.bits_inj'. intros n Hn. rewrite Z.land_spec, Z.lxor_spec.
    destruct (Z.ltb_spec n 8); [by rewrite Z.ones_spec_low, andb_true_r by lia|].
    rewrite !(high_bit _ n) by lia. done. }
  rewrite Hx. change (2 ^ 8) with 256. apply Z.mod_pos_bound. lia.
Qed.
Lemma bytes_bootp mac retry : bytes mac -> bytes (bootp_message mac retry).
Proof.
  intros Hm. unfold bootp_message. rewrite !bytes_app.
  split_and!; try done; try (apply Forall_replicate; unfold is_byte; lia);
    rewrite !bytes_cons; split_and!; try apply Forall_nil_2; try apply land_byte;
    try (unfold is_byte; lia); apply lxor_byte; try apply land_byte; by apply bytes_aget.
Qed.
End bootp_correct.

Lemma ip_value a b c d : is_byte a -> is_byte b -> is_byte c -> is_byte d ->
  u32 (Z.lor (Z.lor (Z.lor (Z.shiftl a 24) (Z.shiftl b 16)) (Z.shiftl c 8)) d) =
    a * 16777216 + b * 65536 + c * 256 + d.
Proof.
  unfold is_byte. intros Ha Hb Hc Hd.
  rewrite (Z.lor_comm _ d), (Z.lor_comm _ (Z.shiftl c 8)), (Z.lor_comm (Z.shiftl a 24)).
  replace (Z.shiftl a 24) with (Z.shiftl (Z.shiftl (Z.shiftl a 8) 8) 8) by (by rewrite !Z.shiftl_shiftl by lia).
  replace (Z.shiftl b 16) with (Z.shiftl (Z.shiftl b 8) 8) by (by rewrite Z.shiftl_shiftl by lia).
  rewrite <- Z.shiftl_lor, <- (Z.shiftl_lor b), <- Z.shiftl_lor.
  rewrite (lor_shiftl b), (lor_shiftl c), (lor_shiftl d) by (try lia; nia).
  change (2 ^ 8) with 256. rewrite u32_small by inrange. lia.
Qed.

(** C31. BOOTP: [prepare_bootp] broadcasts a valid UDP packet from port 68 to
    port 67 whose payload is a BOOTP request with our MAC address; and of the
    packets of that size, one from port 67 that carries the hardware address of
    the request makes [process_bootp] take the address it assigns, restart the
    retries and leave the training state, unless the address is 0.0.0.0. *)
Theorem bootp_exchange `{Endian} mac addr buf retry s reply a b c d :
  bytes mac -> length mac = 6%nat -> bytes buf -> 328 < Z.of_nat (length buf) ->
  let '(addr', req, len) := prepare_bootp mac addr buf retry in
  len = 328 /\ sa_mac addr' = replicate 6 255 /\
  udp_packet_ok (take 328 req) (mk_udp [0; 0; 0; 0] [255; 255; 255; 255] [0; 68] [0; 67])
    (bootp_message mac retry) /\
  (sub reply UDP_SPORT 2 = [0; 67] -> sub reply BOOTP_CHADDR 6 = sub req BOOTP_CHADDR 6 ->
   sub reply BOOTP_YIADDR 4 = [a; b; c; d] -> bytes [a; b; c; d] ->
   process_bootp mac s reply len =
     (s <| ip_addr := [a; b; c; d] |> <| bootp_retry := 0 |>
        <| ip_status := if bool_decide ([a; b; c; d] = [0; 0; 0; 0]) then IP_TRAINING else IP_OK_BOOTP |>, 1)).
Proof.
  intros Hm Hlm Hb Hl. rewrite prepare_bootp_eq. change BOOTP_END with 328.
  destruct (split4 buf 28 300) as (h & body & y & rest & -> & Hh & Hbody & _); [lia..|].
  rewrite bootp_body_layout by (done || lia). destruct bootp_target_ok as [Hok Et].
  rewrite !bytes_app, bytes_cons in Hb.
  assert (Hlm' : length (bootp_message mac retry) = 300%nat).
  { unfold bootp_message. rewrite !length_app, Hlm. reflexivity. }
  destruct (fill_udp_spec (h ++ bootp_message mac retry ++ y :: rest) 328 (Some bootp_target))
    as (Hlen & _ & Hpkt).
  { rewrite !bytes_app, bytes_cons. split_and!; try apply Hb. by apply bytes_bootp. }
  { lia. } { rewrite !length_app, Hlm'. cbn [length]. lia. } { by intros ua [= <-]. }
  assert (Hchk : sub (fill_udp (h ++ bootp_message mac retry ++ y :: rest) 328 (Some bootp_target)) BOOTP_CHADDR 6 = mac).
  { rewrite fill_udp_layout by (done || lia). pose proof Hok as [H1 H2 H3 H4 _].
    set (ua := bootp_target) in *. clearbody ua. destruct ua as [sa da sp dp]; cbn [ua_saddr ua_daddr ua_sport ua_dport] in *.
    unfold ip_bytes, udp_bytes, bootp_message. clear - Hlm H1 H2 H3 H4.
    cbn [ua_saddr ua_daddr ua_sport ua_dport].
    explode sa 4. explode da 4. explode sp 2. explode dp 2. explode mac 6. reflexivity. }
  split; [done|]. split; [done|]. split.
  - rewrite <- Et. change (Z.to_nat 328) with 328%nat in Hpkt. unfold udp_target in Hpkt. cbn [default] in Hpkt.
    replace (bootp_message mac retry) with (sub (h ++ bootp_message mac retry ++ y :: rest) 28 (328 - 28)) at 2; [exact Hpkt|].
    change 28 with (Z.of_nat 28). change (328 - Z.of_nat 28) with (Z.of_nat 300). rewrite sub_split by (rewrite !length_app, Hlm'; cbn; lia).
    rewrite drop_app_length', take_app_length' by lia. done.
  - intros Hsp Hch Hyi Hip. rewrite Hchk in Hch. unfold process_bootp, same. change (negb (328 =? BOOTP_END)) with false.
    assert (Hsp' : aget 0 reply UDP_SPORT = 0 /\ aget 0 reply (UDP_SPORT + 1) = 67).
    { change (sub reply UDP_SPORT 2) with [aget 0 reply UDP_SPORT; aget 0 reply (UDP_SPORT + 1)] in Hsp. by injection Hsp. }
    destruct Hsp' as [-> ->]. cbn [Z.eqb negb orb Pos.eqb]. rewrite Hlm. change (Z.of_nat 6) with 6.
    rewrite Hch, bool_decide_eq_true_2 by done. cbn [negb]. rewrite Hyi. f_equal. unfold setIP.
    cbn [take ip_addr upd]. change (aget 0 [a; b; c; d] 0) with a. change (aget 0 [a; b; c; d] 1) with b.
    change (aget 0 [a; b; c; d] 2) with c. change (aget 0 [a; b; c; d] 3) with d.
    rewrite !bytes_cons in Hip. rewrite ip_value by apply Hip. unfold is_byte in Hip.
    destruct (Z.eqb_spec (a * 16777216 + b * 65536 + c * 256 + d) 0) as [E|E].
    + rewrite bool_decide_eq_true_2 by (repeat f_equal; lia). reflexivity.
    + rewrite bool_decide_eq_false_2 by (intros [= -> -> -> ->]; lia). reflexivity.
Qed.

(** The request of a board and the answer of a server. *)
Definition demo_ip : ip_state := mk_ip [0; 0; 0; 0] IP_TRAINING 7 0 (demo_net 128).
Lemma bootp_exchange_witness :
  let E : Endian := true in
  let mac := [8; 0; 48; 1; 2; 3] in
  let '(_, req, len) := prepare_bootp mac sa_zero (replicate 400 170) 7 in
  let reply := put (put (put req BOOTP_OP [2]) UDP_SPORT [0; 67]) BOOTP_YIADDR [192; 168; 1; 9] in
  udp_packet_ok (take 328 req) (mk_udp [0; 0; 0; 0] [255; 255; 255; 255] [0; 68] [0; 67]) (bootp_message mac 7) /\
  process_bootp mac demo_ip reply len =
    (demo_ip <| ip_addr := [192; 168; 1; 9] |> <| bootp_retry := 0 |> <| ip_status := IP_OK_BOOTP |>, 1).
Proof.
  intros E mac.
  set (p := prepare_bootp mac sa_zero (replicate 400 170) 7).
  set (reply := put (put (put p.1.2 BOOTP_OP [2]) UDP_SPORT [0; 67]) BOOTP_YIADDR [192; 168; 1; 9]).
  assert (Hm : bytes mac) by (unfold mac; rewrite !bytes_cons; split_and!; try (unfold is_byte; lia); apply Forall_nil_2).
  assert (Hb : bytes (replicate 400 170)) by (apply Forall_replicate; unfold is_byte; lia).
  pose proof (bootp_exchange mac sa_zero (replicate 400 170) 7 demo_ip reply 192 168 1 9 Hm eq_refl Hb) as Hx.
  specialize (Hx ltac:(rewrite length_replicate; lia)). fold p in Hx.
  assert (Hr : sub reply UDP_SPORT 2 = [0; 67] /\ sub reply BOOTP_CHADDR 6 = sub p.1.2 BOOTP_CHADDR 6 /\
    sub reply BOOTP_YIADDR 4 = [192; 168; 1; 9]) by (vm_compute; by split_and!).
  destruct Hr as (R1 & R2 & R3). destruct p as [[addr' req] len]. cbn [fst snd] in *.
  destruct Hx as (_ & _ & Hx1 & Hx2). split; [exact Hx1|]. apply Hx2; try done.
  rewrite !bytes_cons. split_and!; try (unfold is_byte; lia). apply Forall_nil_2.
Defined.
