(* ===== verification/Event.v ===== *)
(** lib/event.c: event handlers and listeners, each with its own queue of
    events. *)
From Stdlib Require Import ZArith Lia.
From stdpp Require Import base numbers option list.
From S2P Require Import Prelude.

Definition MAX_EVENTS_PER_QUEUE : Z := 8.
Definition MAX_EVENT_HANDLERS : Z := 8.

(** struct event_queue, struct event_handler (a handler function is a number,
    NULL is [None]) and the static variables. *)
Record event_queue := mk_eq { eq_data : list Z; eq_head : Z; eq_tail : Z; eq_count : Z; eq_size : Z }.
#[export] Instance eta_eq : Etable event_queue := fun q =>
  mk_eq (eq_data q) (eq_head q) (eq_tail q) (eq_count q) (eq_size q).
Record event_handler := mk_eh { eh_queue : event_queue; eh_enabled : Z; eh_mask : Z; eh_handler : option Z }.
#[export] Instance eta_eh : Etable event_handler := fun h =>
  mk_eh (eh_queue h) (eh_enabled h) (eh_mask h) (eh_handler h).
Record events := mk_ev { ev_handlers : list event_handler; ev_count : Z }.
#[export] Instance eta_ev : Etable events := fun e => mk_ev (ev_handlers e) (ev_count e).
Definition eh_zero : event_handler := mk_eh (mk_eq (replicate 8 0) 0 0 0 0) 0 0 None.

(** ** The queue *)
Definition evq_put (q : event_queue) (c : Z) : event_queue :=
  if eq_size q <=? eq_count q then q
  else
    let q := q <| eq_data := aset (eq_data q) (eq_head q) (u8 c) |> <| eq_head := u8 (eq_head q + 1) |>
               <| eq_count := u8 (eq_count q + 1) |> in
    if eq_size q <=? eq_head q then q <| eq_head := 0 |> else q.
Definition evq_get (q : event_queue) : event_queue * Z :=
  if negb (truth (eq_count q)) then (q, -1)
  else
    let rv := aget 0 (eq_data q) (eq_tail q) in
    let q := q <| eq_tail := u8 (eq_tail q + 1) |> in
    let q := if eq_size q <=? eq_tail q then q <| eq_tail := 0 |> else q in
    (q <| eq_count := u8 (eq_count q - 1) |>, rv).
Definition evq_init (q : event_queue) : event_queue :=
  q <| eq_head := 0 |> <| eq_tail := 0 |> <| eq_count := 0 |> <| eq_size := MAX_EVENTS_PER_QUEUE |>.
Definition evq_full (q : event_queue) : bool := eq_size q =? eq_count q.
Definition evq_purge (q : event_queue) : event_queue :=
  q <| eq_head := 0 |> <| eq_tail := 0 |> <| eq_count := 0 |>.

(** ** Handlers *)
Definition handler (e : events) (i : Z) : event_handler := aget eh_zero (ev_handlers e) i.
Definition set_handler (e : events) (i : Z) (h : event_handler) : events :=
  e <| ev_handlers := aset (ev_handlers e) i h |>.

Definition event_handler_register (e : events) (mask enable : Z) (func : option Z) : events * Z :=
  if MAX_EVENT_HANDLERS <=? ev_count e then (e, -1)
  else
    let rv := ev_count e in
    let h := handler e rv in
    (set_handler (e <| ev_count := rv + 1 |>) rv (mk_eh (evq_init (eh_queue h)) enable mask func), rv).
Definition event_handler_enable (e : events) (id enable : Z) : events * Z :=
  (set_handler e id ((handler e id) <| eh_enabled := enable |>), 0).
Definition event_listener_create (e : events) : events * Z := event_handler_register e (-1) 1 None.

(** [1 << event] in an int. *)
Definition event_bit (event : Z) : Z := s32 (Z.shiftl 1 event).
Definition wants (h : event_handler) (event : Z) : bool :=
  truth (eh_enabled h) && negb (Z.land (eh_mask h) (event_bit event) =? 0).

Section events.
(** BOARD_USE_EVENTS *)
Context (use_events : bool).

Definition event_post (e : events) (event : Z) : events :=
  if negb use_events then e
  else foldl (fun e i => let h := handler e i in
                if wants h event then set_handler e i (h <| eh_queue := evq_put (eh_queue h) event |>) else e)
             e (range (ev_count e)).
End events.

Definition event_poll (e : events) (i : Z) : events * Z :=
  let h := handler e i in
  if negb (truth (eh_enabled h)) then (e, 0)
  else if eq_count (eh_queue h) =? 0 then (e, 0)
  else let '(q, rv) := evq_get (eh_queue h) in (set_handler e i (h <| eh_queue := q |>), rv).

Definition events_init (e : events) : events :=
  foldl (fun e i => set_handler e i ((handler e i) <| eh_enabled := 0 |>))
        (e <| ev_count := 0 |>) (range MAX_EVENT_HANDLERS).

(** [events_dispatch]: the calls [handler(event)] it makes, in order. *)
Definition events_dispatch (e : events) : events * list (Z * Z) :=
  foldl (fun '(e, calls) i =>
           let h := handler e i in
           if negb (truth (eh_enabled h)) then (e, calls)
           else if eq_count (eh_queue h) =? 0 then (e, calls)
           else match eh_handler h with
                | None => (e, calls)
                | Some f => let '(q, rv) := evq_get (eh_queue h) in
                            (set_handler e i (h <| eh_queue := q |>), calls ++ [(f, rv)])
                end) (e, []) (range (ev_count e)).

(** ** Mailboxes

    The specification: each handler has a mailbox of at most eight events. *)
Record mailbox := mk_mb { mb_enabled : Z; mb_mask : Z; mb_events : list Z }.
Inductive evop := Post (event : Z) | Poll (i : nat) | Enable (i : nat) (enable : Z).

Definition mb_post (event : Z) (m : mailbox) : mailbox :=
  if truth (mb_enabled m) && negb (Z.land (mb_mask m) (event_bit event) =? 0) &&
     (Z.of_nat (length (mb_events m)) <? 8)
  then mk_mb (mb_enabled m) (mb_mask m) (mb_events m ++ [event]) else m.
Definition mb_step (ms : list mailbox) (op : evop) : list mailbox * Z :=
  match op with
  | Post event => (mb_post event <$> ms, 0)
  | Enable i en =>
      (match ms !! i with Some m => <[i := mk_mb en (mb_mask m) (mb_events m)]> ms | None => ms end, 0)
  | Poll i =>
      match ms !! i with
      | Some (mk_mb en mask (ev :: evs)) => if truth en then (<[i := mk_mb en mask evs]> ms, ev) else (ms, 0)
      | _ => (ms, 0)
      end
  end.
Definition ev_step (e : events) (op : evop) : events * Z :=
  match op with
  | Post event => (event_post true e event, 0)
  | Enable i en => event_handler_enable e (Z.of_nat i) en
  | Poll i => event_poll e (Z.of_nat i)
  end.
Fixpoint run_ev {S} (step : S -> evop -> S * Z) (s : S) (ops : list evop) : S * list Z :=
  match ops with
  | [] => (s, [])
  | op :: ops => let '(s, r) := step s op in let '(s, rs) := run_ev step s ops in (s, r :: rs)
  end.

(** The ring of a queue holds the events of a mailbox. *)
Record qrep (q : event_queue) (l : list Z) : Prop := {
  qr_size : eq_size q = 8; qr_data : length (eq_data q) = 8%nat; qr_tail : 0 <= eq_tail q < 8;
  qr_count : eq_count q = Z.of_nat (length l); qr_len : (length l <= 8)%nat;
  qr_head : eq_head q = (eq_tail q + Z.of_nat (length l)) mod 8;
  qr_get : forall i, (i < length l)%nat -> l !! i = Some (aget 0 (eq_data q) ((eq_tail q + Z.of_nat i) mod 8)) }.

Lemma evq_init_rep q : length (eq_data q) = 8%nat -> qrep (evq_init q) [].
Proof. intros Hd. split; cbn; try done; try lia. Qed.

Lemma wrap8 i : 0 <= i < 8 -> (if 8 <=? u8 (i + 1) then 0 else u8 (i + 1)) = (i + 1) mod 8.
Proof.
  intros Hi. rewrite u8_small by inrange. destruct (Z.leb_spec 8 (i + 1)).
  - replace (i + 1) with 8 by lia. reflexivity.
  - by rewrite Z.mod_small by lia.
Qed.

Lemma evq_put_rep q l c : qrep q l -> 0 <= c < 256 ->
  qrep (evq_put q c) (if Z.of_nat (length l) <? 8 then l ++ [c] else l).
Proof.
  intros [Hs Hd Ht Hc Hl Hh Hg] Hb. unfold evq_put. rewrite Hs, Hc.
  destruct (Z.leb_spec 8 (Z.of_nat (length l))), (Z.ltb_spec (Z.of_nat (length l)) 8); try lia; [by split|].
  pose proof (Z.mod_pos_bound (eq_tail q + Z.of_nat (length l)) 8 ltac:(lia)) as Hm.
  pose proof (wrap8 (eq_head q) ltac:(lia)) as Hw. cbn [eq_size eq_head upd]. rewrite Hs.
  assert (Hhead : (eq_head q + 1) mod 8 = (eq_tail q + Z.of_nat (length (l ++ [c]))) mod 8).
  { rewrite Hh, length_app, Zplus_mod_idemp_l. cbn. f_equal. lia. }
  rewrite (u8_small (Z.of_nat (length l) + 1)), (u8_small c) by inrange.
  assert (Hgoal : forall q', eq_size q' = 8 -> eq_data q' = aset (eq_data q) (eq_head q) c ->
    eq_tail q' = eq_tail q -> eq_count q' = Z.of_nat (length l) + 1 ->
    eq_head q' = (eq_head q + 1) mod 8 -> qrep q' (l ++ [c])).
  { intros q' E1 E2 E3 E4 E5. split; rewrite ?E1, ?E2, ?E3, ?E4, ?E5, ?length_aset; try done;
      try (rewrite length_app; cbn; lia).
    intros i Hi. rewrite length_app in Hi. cbn in Hi. destruct (Nat.lt_ge_cases i (length l)) as [Hlt|Hge].
    - rewrite lookup_app_l by done. rewrite Hg by done. rewrite aget_aset_ne; [done|]. rewrite Hh.
      intros E. rewrite !Zmod_eq in E by lia. pose proof (Z.div_mod (eq_tail q + Z.of_nat (length l)) 8 ltac:(lia)).
      Z.to_euclidean_division_equations. lia.
    - replace i with (length l) by lia. rewrite list_lookup_middle by done. rewrite <- Hh, aget_aset_eq; [done|]. lia. }
  revert Hw. destruct (8 <=? u8 (eq_head q + 1)); intros Hw; apply Hgoal; cbn; done.
Qed.

Lemma evq_get_rep q c l : qrep q (c :: l) -> exists q', evq_get q = (q', c) /\ qrep q' l.
Proof.
  intros [Hs Hd Ht Hc Hl Hh Hg]. unfold evq_get. cbn [length] in *.
  unfold truth. rewrite Hc. destruct (Z.eqb_spec (Z.of_nat (S (length l))) 0); [lia|]. cbn [negb].
  pose proof (Hg 0%nat ltac:(lia)) as H0. rewrite Z.add_0_r, Z.mod_small in H0 by lia. injection H0 as H0.
  cbn [eq_size eq_tail upd]. rewrite Hs, <- H0. pose proof (wrap8 (eq_tail q) Ht) as Hw.
  eexists. split; [reflexivity|].
  assert (Hgoal : forall q', eq_size q' = 8 -> eq_data q' = eq_data q -> eq_head q' = eq_head q ->
    eq_count q' = Z.of_nat (length l) -> eq_tail q' = (eq_tail q + 1) mod 8 -> qrep q' l).
  { intros q' E1 E2 E3 E4 E5. split; rewrite ?E1, ?E2, ?E3, ?E4, ?E5; try done; try lia.
    - apply Z.mod_pos_bound. lia.
    - rewrite Hh, Zplus_mod_idemp_l. f_equal. lia.
    - intros i Hi. rewrite Zplus_mod_idemp_l. pose proof (Hg (S i) ltac:(lia)) as Hx.
      change ((c :: l) !! S i) with (l !! i) in Hx. rewrite Hx. do 3 f_equal. lia. }
  revert Hw. destruct (8 <=? u8 (eq_tail q + 1)); intros Hw; apply Hgoal; cbn; try done; rewrite Hc, u8_small by inrange; lia.
Qed.

(** *** The table of handlers *)
Record erep (e : events) (ms : list mailbox) : Prop := {
  er_count : ev_count e = Z.of_nat (length ms);
  er_len : (length ms <= 8)%nat;
  er_table : length (ev_handlers e) = 8%nat;
  er_get : forall i m, ms !! i = Some m ->
    let h := handler e (Z.of_nat i) in
    eh_enabled h = mb_enabled m /\ eh_mask h = mb_mask m /\ qrep (eh_queue h) (mb_events m) }.

Lemma handler_set e i j h : 0 <= i < Z.of_nat (length (ev_handlers e)) ->
  handler (set_handler e i h) j = if j =? i then h else handler e j.
Proof.
  intros Hi. unfold handler, set_handler. cbn [ev_handlers upd].
  destruct (Z.eqb_spec j i) as [->|Hne]; [by apply aget_aset_eq|by apply aget_aset_ne].
Qed.

(** Updating one handler updates one mailbox. *)
Lemma erep_set e ms i m h : erep e ms -> (i < length ms)%nat ->
  eh_enabled h = mb_enabled m -> eh_mask h = mb_mask m -> qrep (eh_queue h) (mb_events m) ->
  erep (set_handler e (Z.of_nat i) h) (<[i := m]> ms).
Proof.
  intros [H1 H2 H3 H4] Hi E1 E2 E3. split; rewrite ?length_insert; try done.
  - unfold set_handler. cbn [ev_handlers upd]. by rewrite length_aset.
  - intros j m' Hj. cbv zeta. rewrite handler_set by lia.
    destruct (Z.eqb_spec (Z.of_nat j) (Z.of_nat i)) as [E|E].
    + replace j with i in Hj by lia. rewrite list_lookup_insert_eq in Hj by done. by injection Hj as <-.
    + rewrite list_lookup_insert_ne in Hj by lia. by apply H4.
Qed.

(** The loop over the handlers that are in use. *)
Lemma foldl_handlers (P : event_handler -> bool) (f : event_handler -> event_handler) n : forall e,
  (n <= length (ev_handlers e))%nat ->
  let e' := foldl (fun e i => if P (handler e i) then set_handler e i (f (handler e i)) else e)
              e (range (Z.of_nat n)) in
  ev_count e' = ev_count e /\ length (ev_handlers e') = length (ev_handlers e) /\
  forall j, 0 <= j -> handler e' j =
    if (j <? Z.of_nat n) && P (handler e j) then f (handler e j) else handler e j.
Proof.
  unfold range. rewrite Nat2Z.id. induction n as [|n IH]; intros e Hn.
  { cbn [seq fmap list_fmap foldl]. cbv zeta. split; [done|]. split; [done|]. intros j Hj.
    destruct (Z.ltb_spec j (Z.of_nat 0)); [lia|done]. }
  rewrite seq_S, fmap_app, foldl_app. cbn [fmap list_fmap foldl].
  destruct (IH e ltac:(lia)) as (Hc & Hl & Hj). cbv zeta in *.
  set (e1 := foldl _ e _) in *. clearbody e1.
  assert (En : handler e1 (Z.of_nat n) = handler e (Z.of_nat n)).
  { rewrite Hj by lia. destruct (Z.ltb_spec (Z.of_nat n) (Z.of_nat n)); [lia|done]. }
  rewrite Nat.add_0_l, En. destruct (P (handler e (Z.of_nat n))) eqn:EP.
  - split; [done|]. split; [unfold set_handler; cbn [ev_handlers upd]; by rewrite length_aset|].
    intros j Hj0. rewrite handler_set by lia. destruct (Z.eqb_spec j (Z.of_nat n)) as [->|Hne].
    + destruct (Z.ltb_spec (Z.of_nat n) (Z.of_nat (S n))); [|lia]. by rewrite EP.
    + rewrite Hj by lia. destruct (Z.ltb_spec j (Z.of_nat n)), (Z.ltb_spec j (Z.of_nat (S n))); try lia; done.
  - split; [done|]. split; [done|]. intros j Hj0. rewrite Hj by lia.
    destruct (Z.ltb_spec j (Z.of_nat n)), (Z.ltb_spec j (Z.of_nat (S n))); try lia; try done.
    replace j with (Z.of_nat n) by lia. by rewrite EP.
Qed.

Definition op_fits (n : nat) (op : evop) : Prop :=
  match op with Post ev => 0 <= ev < 32 | Poll i => (i < n)%nat | Enable i _ => (i < n)%nat end.

Lemma ev_step_refines e ms op : erep e ms -> op_fits (length ms) op ->
  let '(e', r) := ev_step e op in let '(ms', r') := mb_step ms op in
  r = r' /\ erep e' ms' /\ length ms' = length ms.
Proof.
  intros He Hop. pose proof He as [H1 H2 H3 H4]. destruct op as [ev|i|i en]; cbn [ev_step mb_step op_fits] in *.
  - split; [done|]. split; [|by rewrite length_fmap]. unfold event_post. cbn [negb]. rewrite H1.
    destruct (foldl_handlers (fun h => wants h ev) (fun h => h <| eh_queue := evq_put (eh_queue h) ev |>)
      (length ms) e ltac:(lia)) as (Hc & Hl & Hj). cbv zeta in *.
    split; rewrite ?length_fmap; try done; [by rewrite Hc|by rewrite Hl|].
    intros i m' Hi. rewrite list_lookup_fmap in Hi. destruct (ms !! i) as [m|] eqn:Em; [|done].
    injection Hi as <-. cbv zeta. rewrite Hj by lia. pose proof (lookup_lt_Some _ _ _ Em).
    destruct (Z.ltb_spec (Z.of_nat i) (Z.of_nat (length ms))); [|lia]. cbn [andb].
    destruct (H4 i m Em) as (E1 & E2 & E3). unfold wants, mb_post. rewrite E1, E2.
    destruct (truth (mb_enabled m) && _) eqn:Ew; cbn [andb].
    + pose proof (evq_put_rep _ _ ev E3 ltac:(lia)) as Hq. destruct (_ <? 8); cbn; split_and!; try done.
    + done.
  - destruct (lookup_lt_is_Some_2 ms i Hop) as [[en mask evs] Em]. rewrite Em.
    destruct (H4 i _ Em) as (E1 & E2 & E3). cbn [mb_enabled mb_mask mb_events] in *.
    unfold event_poll. rewrite E1, (qr_count _ _ E3). destruct evs as [|c evs].
    + cbn. destruct (truth en); done.
    + destruct (truth en); [|done]. cbn [negb length]. destruct (Z.eqb_spec (Z.of_nat (S (length evs))) 0); [lia|].
      destruct (evq_get_rep _ _ _ E3) as (q' & -> & Hq). split; [done|]. rewrite length_insert. split; [|done].
      by apply erep_set.
  - destruct (lookup_lt_is_Some_2 ms i Hop) as [m Em]. rewrite Em. destruct (H4 i _ Em) as (E1 & E2 & E3).
    cbn [event_handler_enable]. split; [done|]. rewrite length_insert. split; [|done]. by apply erep_set.
Qed.

(** C14. Events: a handler's queue is a mailbox.  For every table of registered
    handlers and every sequence of posts, polls and enables, what the polls
    return is what mailboxes of eight events return: each enabled handler
    whose mask has the event gets it, in the order of the posts, unless eight
    are waiting; handlers do not disturb each other. *)
Theorem events_refine_mailboxes ops : forall e ms,
  erep e ms -> Forall (op_fits (length ms)) ops ->
  let '(e', rs) := run_ev ev_step e ops in let '(ms', rs') := run_ev mb_step ms ops in
  rs = rs' /\ erep e' ms'.
Proof.
  induction ops as [|op ops IH]; intros e ms He Hops; cbn [run_ev]; [done|].
  apply Forall_cons in Hops as [Hop Hops]. pose proof (ev_step_refines e ms op He Hop) as Hs.
  destruct (ev_step e op) as [e1 r], (mb_step ms op) as [ms1 r']. destruct Hs as (-> & He1 & Hl).
  rewrite <- Hl in Hops. specialize (IH e1 ms1 He1 Hops).
  destruct (run_ev ev_step e1 ops), (run_ev mb_step ms1 ops). by destruct IH as [-> ?].
Qed.

(** A listener of every event and a handler of event 3. *)
Definition demo_events : events :=
  let e := events_init (mk_ev (replicate 8 eh_zero) 0) in
  let e := (event_listener_create e).1 in
  let e := (event_handler_register e 8 1 None).1 in e.
Lemma events_refine_mailboxes_witness :
  let ops := [Post 1; Post 3; Enable 0 0; Post 3; Enable 0 1; Poll 0; Poll 0; Poll 0; Poll 1; Poll 1; Poll 1]%nat in
  let '(e', rs) := run_ev ev_step demo_events ops in
  rs = [0; 0; 0; 0; 0; 1; 3; 0; 3; 3; 0] /\ erep e' [mk_mb 1 (-1) []; mk_mb 1 8 []].
Proof.
  intros ops.
  pose proof (events_refine_mailboxes ops demo_events [mk_mb 1 (-1) []; mk_mb 1 8 []]) as Hx.
  assert (He : erep demo_events [mk_mb 1 (-1) []; mk_mb 1 8 []]).
  { split; [reflexivity|cbn; lia|reflexivity|]. intros [|[|i]] m Hm; [injection Hm as <-..|done];
      (split; [reflexivity|]); (split; [reflexivity|]); by apply evq_init_rep. }
  specialize (Hx He). assert (Ho : Forall (op_fits 2) ops).
  { unfold ops. rewrite !Forall_cons. split_and!; try (cbn; lia). apply Forall_nil_2. }
  specialize (Hx Ho). destruct (run_ev ev_step demo_events ops) as [e' rs]. exact Hx.
Defined.
