(* ===== verification/Sdbfs.v ===== *)
(** dev/sdbfs.c and the mounting part of dev/storage.c: the small file system
    that holds the persistent data of a node.  A directory of 64-byte records
    lies at the entry point; each record names a file by vendor and device id
    and gives its first and last address. *)
From Stdlib Require Import ZArith Lia.
From stdpp Require Import base numbers option list.
From S2P Require Import Prelude Bytes.

Definition SDB_MAGIC : Z := 1396982317.
Definition sdb_type_interconnect : Z := 0.
Definition SDBFS_REC : Z := 5.
Definition ENOENT : Z := 2.
Definition ENODEV : Z := 19.
Definition sizeof_sdb : Z := 64.

(** struct storage_rwops: what [read] stores into the buffer, and the return
    values; [write] takes a buffer and the number of its bytes to write. *)
Class Flash (W : Type) := {
  fl_read : Z -> Z -> M W (list Z * Z);
  fl_write : Z -> list Z -> Z -> M W Z;
  fl_erase : Z -> Z -> M W Z
}.

(** struct storage_device, without its operations; the entry points end with a
    negative number. *)
Record storage_device := mk_dev {
  sd_block_size : Z; sd_size : Z; sd_cfg_entry : Z; sd_entry_points : list Z }.

(** struct sdbfs; [fs_dev] and [fs_currentp] say that the pointers are not
    NULL. *)
Record sdbfs := mk_fs {
  fs_dev : bool; fs_entrypoint : Z; fs_currentp : bool; fs_record : list Z; fs_f_len : Z;
  fs_f_offset : Z; fs_this : Z; fs_nleft : Z }.
#[export] Instance eta_fs : Etable sdbfs := fun f =>
  mk_fs (fs_dev f) (fs_entrypoint f) (fs_currentp f) (fs_record f) (fs_f_len f) (fs_f_offset f)
        (fs_this f) (fs_nleft f).

(** ** Fields of a record (include/sdb.h) *)
Section fields.
Context `{Endian}.
Definition r_magic (r : list Z) : Z := value (sub r 0 4).
Definition r_records (r : list Z) : Z := value (sub r 4 2).
Definition r_first (r : list Z) : Z := value (sub r 8 8).
Definition r_last (r : list Z) : Z := value (sub r 16 8).
Definition r_vendor (r : list Z) : Z := value (sub r 24 8).
Definition r_device (r : list Z) : Z := value (sub r 32 4).
Definition r_type (r : list Z) : Z := aget 0 r 63.
End fields.

Section sdbfs.
Context `{Endian} {W : Type} `{!Flash W}.
Implicit Types (fs : sdbfs).

Definition sdbfs_readentry fs (offset : Z) : M W sdbfs :=
  let! r := fl_read (s32 offset) sizeof_sdb in
  ret (fs <| fs_record := put (fs_record fs) 0 r.1 |>).

(** [scan_newdir]: the boolean says that the result is not NULL. *)
Definition scan_newdir fs : M W (sdbfs * bool) :=
  let! fs := sdbfs_readentry fs (fs_this fs) in
  let fs := fs <| fs_currentp := true |> in
  let r := fs_record fs in
  if negb (r_type r =? sdb_type_interconnect) then ret (fs, false)
  else if negb (htonl (r_magic r) =? SDB_MAGIC) then ret (fs, false)
  else ret (fs <| fs_nleft := htons (r_records r) - 1 |> <| fs_this := u32 (fs_this fs + sizeof_sdb) |>, true).

Definition scan_offset fs : sdbfs := fs <| fs_f_offset := u32 (htonll (r_first (fs_record fs))) |>.
Definition sdbfs_scan fs (newscan : bool) : M W (sdbfs * bool) :=
  if newscan then
    let! r := scan_newdir (fs <| fs_this := fs_entrypoint fs |>) in
    let '(fs, ok) := r in
    if ok then ret (scan_offset fs, true) else ret (fs, false)
  else if fs_nleft fs =? 0 then ret (fs, false)
  else
    let! fs := sdbfs_readentry fs (fs_this fs) in
    ret (scan_offset (fs <| fs_currentp := true |> <| fs_this := u32 (fs_this fs + sizeof_sdb) |>
                         <| fs_nleft := (fs_nleft fs - 1)%int |>), true).

(** The loop of [sdbfs_open_id]; the number of records is a 16-bit number.
    [None] when the fuel did not suffice. *)
Fixpoint open_loop (fuel : nat) fs (vid did : Z) : M W (option (sdbfs * Z)) :=
  match fuel with
  | O => ret None
  | S fuel =>
      let! r := sdbfs_scan fs false in
      let '(fs, found) := r in
      if negb found then ret (Some (fs, - ENOENT))
      else if negb (vid =? r_vendor (fs_record fs)) then open_loop fuel fs vid did
      else if negb (did =? r_device (fs_record fs)) then open_loop fuel fs vid did
      else ret (Some (fs <| fs_f_len := u32 (htonll (r_last (fs_record fs)) + 1 - fs_f_offset fs) |>, 0))
  end.
Definition sdbfs_open_id (fuel : nat) fs (vid did : Z) : M W (option (sdbfs * Z)) :=
  if negb (fs_dev fs) then ret (Some (fs, - ENOENT))
  else
    let! r := sdbfs_scan fs true in
    open_loop fuel r.1 vid did.

(** The number of bytes of the file that are accessed. *)
Definition clip fs (offset count : Z) : Z :=
  if fs_f_len fs <? u32 (offset + count) then s32 (fs_f_len fs - offset) else count.

Definition sdbfs_fread fs (offset count : Z) : M W (list Z * Z) :=
  if negb (fs_currentp fs) then ret ([], - ENOENT)
  else fl_read (s32 (u32 (fs_f_offset fs + offset))) (clip fs offset count).
(** [buf] holds [count] bytes. *)
Definition sdbfs_fwrite fs (offset : Z) (buf : list Z) : M W Z :=
  if negb (fs_currentp fs) then ret (- ENOENT)
  else fl_write (s32 (u32 (fs_f_offset fs + offset))) buf (clip fs offset (Z.of_nat (length buf))).
Definition sdbfs_ferase fs (offset count : Z) : M W Z :=
  if negb (fs_currentp fs) then ret (- ENOENT)
  else fl_erase (s32 (u32 (fs_f_offset fs + offset))) (clip fs offset count).
Definition sdbfs_close fs : sdbfs := fs <| fs_currentp := false |>.

(** [storage_mount]: the first entry point with the magic number. *)
Fixpoint mount_loop (dev : storage_device) (points magic : list Z) (fs : sdbfs) : M W (sdbfs * Z) :=
  match points with
  | [] => ret (fs, - ENODEV)
  | p :: points =>
      if p <? 0 then ret (fs, - ENODEV)
      else if sd_size dev <=? u32 p then mount_loop dev points magic fs
      else
        let! r := fl_read (s32 (u32 p)) 4 in
        let magic := put magic 0 r.1 in
        if value magic =? htonl SDB_MAGIC
        then ret (fs <| fs_dev := true |> <| fs_entrypoint := u32 p |>, 0)
        else mount_loop dev points magic fs
  end.
Definition storage_mount (dev : storage_device) fs : M W (sdbfs * Z) :=
  mount_loop dev (sd_entry_points dev) (replicate 4 0) fs.

(** [storage_sdbfs_erase]; the loop makes five rounds unless the total size
    is no [int]. *)
Definition base_of (dev : storage_device) (addr : Z) (force_base : bool) : Z :=
  if force_base then addr else sd_cfg_entry dev.
Fixpoint erase_loop (fuel : nat) (dev : storage_device) (base_addr count total_size : Z) : M W (option unit) :=
  match fuel with
  | O => ret None
  | S fuel =>
      if count <? total_size then
        let! _ := fl_erase (s32 (u32 (base_addr + count))) (s32 (sd_block_size dev)) in
        erase_loop fuel dev base_addr (s32 (count + sd_block_size dev)) total_size
      else ret (Some tt)
  end.
Definition storage_sdbfs_erase (fuel : nat) (dev : storage_device) (addr : Z) (force_base : bool) : M W (option Z) :=
  let! r := erase_loop fuel dev (base_of dev addr force_base) 0 (s32 (SDBFS_REC * sd_block_size dev)) in
  ret (match r with Some _ => Some 0 | None => None end).

(** ** Formatting *)
Definition SDB_ALIGN (x blocksize : Z) : Z := Z.land (u32 (x + (blocksize - 1))) (u32 (Z.lnot (blocksize - 1))).
Definition set_first (r : list Z) (v : Z) : list Z := put r 8 (image 8 v).
Definition set_last (r : list Z) (v : Z) : list Z := put r 16 (image 8 v).

(** Each file is moved behind the previous one. *)
Fixpoint format_files (bs : Z) (recs : list (list Z)) (cur_adr : Z) : list (list Z) :=
  match recs with
  | [] => []
  | r :: recs =>
      let size := s32 (htonll (r_last r) - htonll (r_first r)) in
      let r := set_first r (htonll (u64 cur_adr)) in
      let r := set_last r (htonll (u64 (cur_adr + size)%int)) in
      r :: format_files bs recs (s32 (SDB_ALIGN (cur_adr + (size + 1))%int (s32 bs)))
  end.
(** The records to write, from the default ones. *)
Definition format_recs (dev : storage_device) (base_addr : Z) (bin : list (list Z)) : list (list Z) :=
  match bin with
  | [] => []
  | dir :: files =>
      let cur_adr := s32 (base_addr + SDB_ALIGN (SDBFS_REC * sizeof_sdb) (s32 (sd_block_size dev))) in
      let files := format_files (sd_block_size dev) files cur_adr in
      set_last (set_first dir (htonll base_addr)) (r_last (default [] (last files))) :: files
  end.
Fixpoint write_recs (recs : list (list Z)) (addr : Z) : M W unit :=
  match recs with
  | [] => ret tt
  | r :: recs => let! _ := fl_write (s32 (u32 addr)) r sizeof_sdb in write_recs recs (addr + sizeof_sdb)
  end.
(** [sdbfs_default_bin] is changed in place; the records read back are only
    compared for a message. *)
Definition storage_sdbfs_format (fuel : nat) (dev : storage_device) (bin : list (list Z)) (addr : Z) (force_base : bool) fs
    : M W (option (list (list Z) * sdbfs * Z)) :=
  let base_addr := base_of dev addr force_base in
  let recs := format_recs dev base_addr bin in
  let! r := storage_sdbfs_erase fuel dev addr force_base in
  match r with
  | None => ret None
  | Some _ =>
      let! _ := write_recs recs base_addr in
      let! _ := fl_read (s32 base_addr) (SDBFS_REC * sizeof_sdb) in
      let! r := storage_mount dev fs in
      ret (Some (recs, r.1, r.2))
  end.
End sdbfs.

(** ** What the code relies on: a memory that is erased before it is written.

    The drivers of the devices are an interface.  A device erases in units
    ([erase_unit]: the sectors of a SPI flash, single bytes of an EEPROM or
    FRAM), an erase reaches over all the units it touches, as
    spi_flash_erase does.  A write keeps what was written when it lies in one
    page ([write_page]: a SPI flash programs at most a page at once, and
    spi_flash_write does not split) and, unless the device is [rewritable],
    when the bytes were erased before; what a write leaves in bytes that were not erased
    depends on the device.  A device without pages has one that is larger
    than its memory. *)
Class FlashObs (W : Type) := {
  content : W -> list Z;
  erase_unit : Z;
  write_page : Z;
  rewritable : bool }.
Arguments erase_unit W {_}.
Arguments write_page W {_}.
Arguments rewritable W {_}.

(** The bytes that an erase of [n] bytes at the beginning of a unit reaches. *)
Definition erase_len (W : Type) `{!FlashObs W} (n : Z) : Z := (n + erase_unit W - 1) / erase_unit W * erase_unit W.
(** The [n] bytes from [off] on lie in one page. *)
Definition page_ok (W : Type) `{!FlashObs W} (off n : Z) : Prop :=
  n <= 0 \/ off / write_page W = (off + n - 1) / write_page W.

Class FlashLaws (W : Type) `{!Flash W, !FlashObs W} : Prop := {
  law_geometry : 0 < erase_unit W /\ 0 < write_page W;
  law_fl_read off n w : 0 <= off -> 0 <= n -> off + n <= Z.of_nat (length (content w)) ->
    ensures (fl_read off n) w (fun r w' => r = (sub (content w) off n, n) /\ content w' = content w);
  law_fl_erase off n w : 0 <= off -> 0 <= n -> (erase_unit W | off) ->
    off + erase_len W n <= Z.of_nat (length (content w)) ->
    ensures (fl_erase off n) w (fun r w' => r = n /\ content w' = fill (content w) off 255 (erase_len W n));
  law_fl_write off l w : bytes l -> 0 <= off -> off + Z.of_nat (length l) <= Z.of_nat (length (content w)) ->
    page_ok W off (Z.of_nat (length l)) ->
    rewritable W = true \/ sub (content w) off (Z.of_nat (length l)) = replicate (length l) 255 ->
    ensures (fl_write off l (Z.of_nat (length l))) w (fun r w' =>
      r = Z.of_nat (length l) /\ content w' = put (content w) off l);
  law_fl_write_any off l n w : 0 <= off -> 0 <= n <= Z.of_nat (length l) -> off + n <= Z.of_nat (length (content w)) ->
    page_ok W off n ->
    ensures (fl_write off l n) w (fun r w' => r = n /\
      exists l', length l' = Z.to_nat n /\ content w' = put (content w) off l')
}.

Section geometry.
Context {W : Type} `{!Flash W, !FlashObs W, !FlashLaws W}.

Lemma erase_len_spec n : 0 <= n -> n <= erase_len W n < n + erase_unit W /\ (erase_unit W | erase_len W n).
Proof.
  intros Hn. destruct (law_geometry (W := W)) as [Hu _]. unfold erase_len. split; [|by apply Z.divide_factor_r].
  set (u := erase_unit W) in *. clearbody u.
  pose proof (Z.div_mod (n + u - 1) u ltac:(lia)). pose proof (Z.mod_pos_bound (n + u - 1) u ltac:(lia)). nia.
Qed.
Lemma erase_len_multiple n : (erase_unit W | n) -> erase_len W n = n.
Proof.
  intros [k ->]. destruct (law_geometry (W := W)) as [Hu _]. unfold erase_len. f_equal.
  set (u := erase_unit W) in *. clearbody u. symmetry. apply (Z.div_unique _ _ _ (u - 1)); lia.
Qed.
(** A part of a region in a page is in a page. *)
Lemma page_ok_part off n a m : page_ok W off n -> off <= a -> a + m <= off + n -> page_ok W a m.
Proof.
  intros [Hn|Hp] Ha Hm; [left; lia|]. destruct (Z.le_gt_cases m 0); [by left|]. right.
  destruct (law_geometry (W := W)) as [_ Hw].
  pose proof (Z.div_le_mono off a (write_page W) Hw ltac:(lia)).
  pose proof (Z.div_le_mono a (a + m - 1) (write_page W) Hw ltac:(lia)).
  pose proof (Z.div_le_mono (a + m - 1) (off + n - 1) (write_page W) Hw ltac:(lia)). lia.
Qed.
Lemma page_ok_one off : page_ok W off 1.
Proof. right. f_equal. lia. Qed.
End geometry.

(** ** Opening a file *)

(** The records of a directory at [entry]. *)
Record dir_at `{Endian} (mem : list Z) (entry : Z) (recs : list (list Z)) : Prop := {
  da_entry : 0 <= entry; da_mem : Z.of_nat (length mem) < 2147483648;
  da_fits : entry + 64 * Z.of_nat (length recs) <= Z.of_nat (length mem);
  da_some : (0 < length recs)%nat;
  da_type : r_type (sub mem entry 64) = sdb_type_interconnect;
  da_magic : htonl (r_magic (sub mem entry 64)) = SDB_MAGIC;
  da_count : htons (r_records (sub mem entry 64)) = Z.of_nat (length recs);
  da_recs : forall i r, recs !! i = Some r -> sub mem (entry + 64 * Z.of_nat i) 64 = r }.

Definition is_file `{Endian} (vid did : Z) (r : list Z) : bool := (vid =? r_vendor r) && (did =? r_device r).
(** The file that is opened: the first match after the interconnect. *)
Definition lookup_file `{Endian} (recs : list (list Z)) (vid did : Z) : option (list Z) :=
  head (filter (fun r => is_file vid did r = true) (drop 1 recs)).
Definition r_off `{Endian} (r : list Z) : Z := u32 (htonll (r_first r)).
Definition r_len `{Endian} (r : list Z) : Z := u32 (htonll (r_last r) + 1 - r_off r).

(** An open file: where it lies. *)
Record open_at (fs : sdbfs) (off len : Z) : Prop := {
  oa_cur : fs_currentp fs = true; oa_off : fs_f_offset fs = off; oa_len : fs_f_len fs = len }.

Section open.
Context `{Endian} {W : Type} `{!Flash W, !FlashObs W, !FlashLaws W}.
Implicit Types (w : W) (fs : sdbfs).

Lemma put_all (l l' : list Z) : length l = length l' -> put l' 0 l = l.
Proof.
  intros Hl. rewrite <- (sub_all (put l' 0 l)), length_put, <- Hl. apply sub_put_eq; lia.
Qed.

Lemma readentry_spec fs off w : length (fs_record fs) = 64%nat -> 0 <= off ->
  Z.of_nat (length (content w)) < 2147483648 ->
  off + 64 <= Z.of_nat (length (content w)) ->
  ensures (sdbfs_readentry fs off) w (fun fs' w' => content w' = content w /\
    fs' = fs <| fs_record := sub (content w) off 64 |>).
Proof.
  intros Hr Ho Hm Hl. unfold sdbfs_readentry. rewrite s32_small by (unfold is_s32; lia). apply ensures_bind.
  eapply ensures_mono; [apply law_fl_read; unfold sizeof_sdb; lia|].
  intros r w' [-> Hc]. apply ensures_ret. split; [done|]. unfold sizeof_sdb. cbn [fst].
  rewrite put_all; [done|]. by rewrite length_sub, Hr.
Qed.

Lemma open_loop_spec vid did recs entry : forall todo k fuel fs w,
  dir_at (content w) entry recs -> drop k recs = todo -> (length todo < fuel)%nat ->
  fs_nleft fs = Z.of_nat (length todo) -> fs_this fs = entry + 64 * Z.of_nat k ->
  length (fs_record fs) = 64%nat ->
  ensures (open_loop fuel fs vid did) w (fun res w' => content w' = content w /\
    exists fs', res = Some (fs', match head (filter (fun r => is_file vid did r = true) todo) with
                                 | Some _ => 0 | None => - ENOENT end) /\
      fs_dev fs' = fs_dev fs /\ fs_entrypoint fs' = fs_entrypoint fs /\ length (fs_record fs') = 64%nat /\
      match head (filter (fun r => is_file vid did r = true) todo) with
      | Some r => open_at fs' (r_off r) (r_len r)
      | None => True
      end).
Proof.
  induction todo as [|r todo IH]; intros k fuel fs w Hd Hk Hf Hn Ht Hlr;
    destruct fuel as [|fuel]; [cbn in Hf; lia| |cbn in Hf; lia|]; cbn [open_loop].
  - apply ensures_bind. unfold sdbfs_scan. rewrite Hn. cbn [length Z.of_nat Z.eqb].
    apply ensures_ret. apply ensures_ret. split; [done|]. exists fs. cbn. done.
  - assert (Hlk : recs !! k = Some r) by (rewrite <- (Nat.add_0_r k), <- lookup_drop, Hk; done).
    pose proof (lookup_lt_Some _ _ _ Hlk) as Hklt. pose proof (da_recs _ _ _ Hd k r Hlk) as Hsub.
    pose proof (da_fits _ _ _ Hd). pose proof (da_mem _ _ _ Hd). pose proof (da_entry _ _ _ Hd).
    assert (Hlen : (length recs = k + S (length todo))%nat).
    { pose proof (length_drop recs k) as Hx. rewrite Hk in Hx. cbn in Hx. lia. }
    apply ensures_bind. unfold sdbfs_scan. rewrite Hn. destruct (Z.eqb_spec (Z.of_nat (length (r :: todo))) 0); [cbn in *; lia|].
    apply ensures_bind. eapply ensures_mono; [apply readentry_spec; [done|lia..]|].
    intros fs1 w1 [Hc1 ->]. apply ensures_ret. rewrite Ht, Hsub. cbn [fs_record fs_nleft fs_this upd scan_offset].
    assert (Hr64 : length r = 64%nat) by (rewrite <- Hsub; apply length_sub).
    cbn [length] in Hf, Hn. unfold isub. cbn [filter].
    set (fs2 := scan_offset _). 
    assert (Hnext : drop (S k) recs = todo).
    { rewrite <- Nat.add_1_r, <- drop_drop, Hk. done. }
    assert (Hd1 : dir_at (content w1) entry recs) by (by rewrite Hc1).
    assert (Hgo : is_file vid did r = false -> ensures (open_loop fuel fs2 vid did) w1 (fun res w' => content w' = content w /\
      exists fs', res = Some (fs', match head (filter (fun r => is_file vid did r = true) (r :: todo)) with
                                   | Some _ => 0 | None => - ENOENT end) /\
        fs_dev fs' = fs_dev fs /\ fs_entrypoint fs' = fs_entrypoint fs /\ length (fs_record fs') = 64%nat /\
        match head (filter (fun r => is_file vid did r = true) (r :: todo)) with
        | Some r => open_at fs' (r_off r) (r_len r)
        | None => True
        end)).
    { intros Hno. rewrite filter_cons_False by congruence. eapply ensures_mono; [apply (IH (S k)); try done; try lia|].
      - unfold fs2, scan_offset. cbn [fs_nleft upd]. rewrite Hn, s32_small by (unfold is_s32; lia). lia.
      - unfold fs2, scan_offset, sizeof_sdb. cbn [fs_this upd]. rewrite Ht, u32_small by (unfold is_u32; lia). lia.
      - cbv beta. intros res w' [Hc' Hx]. split; [congruence|exact Hx]. }
    unfold is_file in Hgo. cbn [fs_record fs2 scan_offset upd].
    change (fs_record fs2) with r.
    destruct (vid =? r_vendor r) eqn:Ev; cbn [negb]; [|by apply Hgo].
    destruct (did =? r_device r) eqn:Ed; cbn [negb]; [|by apply Hgo].
    apply ensures_ret. split; [done|]. rewrite filter_cons_True by (unfold is_file; by rewrite Ev, Ed).
    cbn [head]. eexists. split; [reflexivity|]. cbn. split_and!; try done.
Qed.
End open.

(** ** Files of a mounted device *)

(** [mounted fs]: the file system is mounted at the directory. *)
Record mounted `{Endian} (fs : sdbfs) (mem : list Z) (recs : list (list Z)) : Prop := {
  mo_dev : fs_dev fs = true; mo_dir : dir_at mem (fs_entrypoint fs) recs;
  mo_record : length (fs_record fs) = 64%nat }.

Section files.
Context `{Endian} {W : Type} `{!Flash W, !FlashObs W, !FlashLaws W}.
Implicit Types (w : W) (fs : sdbfs).

Lemma sdbfs_open_spec fuel fs w vid did recs :
  mounted fs (content w) recs -> (length recs <= fuel)%nat ->
  ensures (sdbfs_open_id fuel fs vid did) w (fun res w' => content w' = content w /\
    exists fs', res = Some (fs', match lookup_file recs vid did with Some _ => 0 | None => - ENOENT end) /\
      mounted fs' (content w') recs /\ fs_entrypoint fs' = fs_entrypoint fs /\
      match lookup_file recs vid did with
      | Some r => open_at fs' (r_off r) (r_len r)
      | None => True
      end).
Proof.
  intros [Hdev Hd Hr] Hf. unfold sdbfs_open_id. rewrite Hdev. cbn [negb].
  pose proof Hd as [He Hm Hfit Hs Hty Hmg Hct _].
  apply ensures_bind. unfold sdbfs_scan. apply ensures_bind. unfold scan_newdir. apply ensures_bind.
  cbn [fs_this upd]. eapply ensures_mono; [apply readentry_spec; [done|lia..]|].
  intros fs1 w1 [Hc1 ->]. cbn [fs_record fs_this upd]. rewrite Hty, Hmg, Hct, !Z.eqb_refl. cbn [negb].
  apply ensures_ret. apply ensures_ret. cbn [fst]. set (fs2 := scan_offset _).
  eapply ensures_mono.
  - apply (open_loop_spec vid did recs (fs_entrypoint fs) (drop 1 recs) 1 fuel fs2 w1);
      try (by rewrite Hc1); try done.
    + rewrite length_drop. lia.
    + unfold fs2, scan_offset. cbn [fs_nleft upd]. rewrite length_drop. lia.
    + unfold fs2, scan_offset, sizeof_sdb. cbn [fs_this upd]. rewrite u32_small by (unfold is_u32; lia). lia.
  - cbv beta. intros res w2 (Hc2 & fs' & -> & Hd' & He' & Hl' & Hx). split; [congruence|].
    exists fs'. split; [done|]. split; [|by rewrite He'].
    split; [by rewrite Hd'|rewrite Hc2, Hc1, He'; exact Hd|done].
Qed.

(** A file lies inside the device, and begins with a unit of it, so that it
    can be erased. *)
Definition file_in (mem : list Z) (off len : Z) : Prop :=
  0 <= off /\ 0 <= len < 2147483648 /\ off + len <= Z.of_nat (length mem) /\ Z.of_nat (length mem) < 2147483648 /\
  (erase_unit W | off) /\ off + erase_len W len <= Z.of_nat (length mem).

Lemma fread_spec fs w off len offset count : open_at fs off len -> file_in (content w) off len ->
  0 <= offset -> 0 <= count -> offset + count <= len ->
  ensures (sdbfs_fread fs offset count) w (fun r w' =>
    r = (sub (content w) (off + offset) count, count) /\ content w' = content w).
Proof.
  intros [Hc Ho Hl] (Hf1 & Hf2 & Hf3 & Hf4 & Hf5 & Hf6) H1 H2 H3. unfold sdbfs_fread, clip. rewrite Hc, Ho, Hl. cbn [negb].
  rewrite (u32_small (offset + count)), (u32_small (off + offset)), (s32_small (off + offset)) by (unfold is_u32, is_s32; lia).
  destruct (Z.ltb_spec len (offset + count)); [lia|]. apply law_fl_read; lia.
Qed.

(** Reading past the end reads what is left. *)
Lemma fread_clip fs w off len offset count : open_at fs off len -> file_in (content w) off len ->
  0 <= offset <= len -> len < offset + count -> offset + count < 2147483648 ->
  ensures (sdbfs_fread fs offset count) w (fun r w' => r.2 = len - offset /\ content w' = content w).
Proof.
  intros [Hc Ho Hl] (Hf1 & Hf2 & Hf3 & Hf4 & Hf5 & Hf6) H1 H2 H3. unfold sdbfs_fread, clip. rewrite Hc, Ho, Hl. cbn [negb].
  rewrite (u32_small (offset + count)), (u32_small (off + offset)), (s32_small (off + offset)) by (unfold is_u32, is_s32; lia).
  destruct (Z.ltb_spec len (offset + count)); [|lia]. rewrite (s32_small (len - offset)) by (unfold is_s32; lia).
  eapply ensures_mono; [apply law_fl_read; lia|]. intros r w' [-> Hw]. by split.
Qed.

Lemma ferase_spec fs w off len : open_at fs off len -> file_in (content w) off len ->
  ensures (sdbfs_ferase fs 0 len) w (fun r w' => r = len /\ content w' = fill (content w) off 255 (erase_len W len)).
Proof.
  intros [Hc Ho Hl] (Hf1 & Hf2 & Hf3 & Hf4 & Hf5 & Hf6). unfold sdbfs_ferase, clip. rewrite Hc, Ho, Hl. cbn [negb].
  rewrite Z.add_0_r, Z.add_0_l, !u32_small, s32_small by (unfold is_u32, is_s32; lia).
  destruct (Z.ltb_spec len len); [lia|]. apply law_fl_erase; (done || lia).
Qed.

Lemma fwrite_spec fs w off len offset l : bytes l -> open_at fs off len -> file_in (content w) off len ->
  0 <= offset -> offset + Z.of_nat (length l) <= len -> page_ok W (off + offset) (Z.of_nat (length l)) ->
  sub (content w) (off + offset) (Z.of_nat (length l)) = replicate (length l) 255 ->
  ensures (sdbfs_fwrite fs offset l) w (fun r w' =>
    r = Z.of_nat (length l) /\ content w' = put (content w) (off + offset) l).
Proof.
  intros Hb [Hc Ho Hl] (Hf1 & Hf2 & Hf3 & Hf4 & Hf5 & Hf6) H1 H2 Hpg He. unfold sdbfs_fwrite, clip. rewrite Hc, Ho, Hl. cbn [negb].
  rewrite (u32_small (offset + _)), (u32_small (off + offset)), (s32_small (off + offset)) by (unfold is_u32, is_s32; lia).
  destruct (Z.ltb_spec len (offset + Z.of_nat (length l))); [lia|]. apply law_fl_write; (done || lia || by right).
Qed.
(** A write that does not fit, or over other data. *)
Lemma fwrite_any fs w off len offset l : open_at fs off len -> file_in (content w) off len ->
  0 <= offset <= len -> offset + Z.of_nat (length l) < 2147483648 ->
  page_ok W (off + offset) (Z.min (Z.of_nat (length l)) (len - offset)) ->
  ensures (sdbfs_fwrite fs offset l) w (fun r w' => r = Z.min (Z.of_nat (length l)) (len - offset) /\
    exists l', Z.of_nat (length l') = r /\ content w' = put (content w) (off + offset) l').
Proof.
  intros [Hc Ho Hl] (Hf1 & Hf2 & Hf3 & Hf4 & Hf5 & Hf6) H1 H2 Hpg. unfold sdbfs_fwrite, clip. rewrite Hc, Ho, Hl. cbn [negb].
  rewrite (u32_small (offset + _)), (u32_small (off + offset)), (s32_small (off + offset)) by (unfold is_u32, is_s32; lia).
  destruct (Z.ltb_spec len (offset + Z.of_nat (length l))); rewrite ?(s32_small (len - offset)) by (unfold is_s32; lia);
    (eapply ensures_mono; [apply law_fl_write_any; try lia; by (eapply page_ok_part; [exact Hpg|lia|lia])|]); cbv beta; intros r w' (-> & l' & Hl' & Hw);
    (split; [lia|]); exists l'; (split; [lia|done]).
Qed.

Lemma length_fill mem off v n : length (fill mem off v n) = length mem.
Proof. apply length_put. Qed.

(** Changing a file does not change the directory. *)
Lemma dir_put mem entry recs off l : dir_at mem entry recs ->
  0 <= off -> off + Z.of_nat (length l) <= Z.of_nat (length mem) ->
  off + Z.of_nat (length l) <= entry \/ entry + 64 * Z.of_nat (length recs) <= off ->
  dir_at (put mem off l) entry recs.
Proof.
  intros [He Hm Hfit Hs Hty Hmg Hct Hrec] Ho Hl Hd.
  assert (E0 : sub (put mem off l) entry 64 = sub mem entry 64) by (apply sub_put_ne; lia).
  split; rewrite ?length_put, ?E0; try done. intros i r Hi. pose proof (lookup_lt_Some _ _ _ Hi).
  rewrite sub_put_ne by lia. by apply Hrec.
Qed.
End files.
Arguments file_in W {_} mem off len.

(** ** Simulated memories

    A memory that is erased by bytes and written without pages; a write can
    only clear bits. *)
Record flash_sim := FlashSim { fl_mem : list Z }.
#[export] Instance flash_sim_hw : Flash flash_sim := {
  fl_read off n w := ((sub (fl_mem w) off n, n), w);
  fl_write off l n w := (n, FlashSim (put (fl_mem w) off (zip_with Z.land l (sub (fl_mem w) off n))));
  fl_erase off n w := (n, FlashSim (fill (fl_mem w) off 255 n)) }.
#[export] Instance flash_sim_obs : FlashObs flash_sim := {
  content := fl_mem; erase_unit := 1; write_page := 2147483648; rewritable := false }.

(** Writing over erased bytes. *)
Lemma land_erased l : bytes l -> zip_with Z.land l (replicate (length l) 255) = l.
Proof.
  intros Hb. induction Hb as [|b l Hb _ IH]; [done|]. cbn [length replicate zip_with]. rewrite IH. f_equal.
  change 255 with (Z.ones 8). rewrite Z.land_ones by lia. apply Z.mod_small. exact Hb.
Qed.

#[export] Instance flash_sim_laws : FlashLaws flash_sim.
Proof.
  split.
  - done.
  - intros off n w _ _ _. unfold ensures. cbn. by split.
  - intros off n w _ Hn _ _. unfold ensures, erase_len. cbn. split; [done|]. by rewrite Z.add_simpl_r, Z.div_1_r, Z.mul_1_r.
  - intros off l w Hb Ho Hl _ [He|He]; [done|]. unfold ensures. cbn in *. split; [done|]. rewrite He. by rewrite land_erased.
  - intros off l n w Ho Hn Hl _. unfold ensures. cbn. split; [done|].
    eexists. split; [|reflexivity]. rewrite length_zip_with, length_sub. lia.
Qed.

(** An EEPROM that is written without being erased. *)
Record eeprom_sim := EepromSim { ee_mem : list Z }.
#[export] Instance eeprom_sim_hw : Flash eeprom_sim := {
  fl_read off n w := ((sub (ee_mem w) off n, n), w);
  fl_write off l n w := (n, EepromSim (put (ee_mem w) off (take (Z.to_nat n) l)));
  fl_erase off n w := (n, EepromSim (fill (ee_mem w) off 255 n)) }.
#[export] Instance eeprom_sim_obs : FlashObs eeprom_sim := {
  content := ee_mem; erase_unit := 1; write_page := 2147483648; rewritable := true }.
#[export] Instance eeprom_sim_laws : FlashLaws eeprom_sim.
Proof.
  split.
  - done.
  - intros off n w _ _ _. unfold ensures. cbn. by split.
  - intros off n w _ Hn _ _. unfold ensures, erase_len. cbn. split; [done|]. by rewrite Z.add_simpl_r, Z.div_1_r, Z.mul_1_r.
  - intros off l w Hb Ho Hl _ _. unfold ensures. cbn. by rewrite Nat2Z.id, firstn_all.
  - intros off l n w Ho Hn Hl _. unfold ensures. cbn. split; [done|].
    eexists. split; [|reflexivity]. rewrite length_take. lia.
Qed.

(** A flash with sectors of 64 bytes and pages of 256: an erase begins with
    the sector of its address and ends with one (spi_flash_erase), and a write
    that passes the end of a page goes on at its beginning. *)
Record spi_sim := SpiSim { sp_mem : list Z }.
Definition spi_sector : Z := 64.
Definition spi_page : Z := 256.
Fixpoint spi_program (mem : list Z) (page k : Z) (l : list Z) : list Z :=
  match l with
  | [] => mem
  | b :: l => let a := page + k mod spi_page in
              spi_program (aset mem a (Z.land b (aget 0 mem a))) page (k + 1) l
  end.
#[export] Instance spi_sim_hw : Flash spi_sim := {
  fl_read off n w := ((sub (sp_mem w) off n, n), w);
  fl_write off l n w := (n, SpiSim (spi_program (sp_mem w) (off / spi_page * spi_page) (off mod spi_page) (take (Z.to_nat n) l)));
  fl_erase off n w := (n, SpiSim (fill (sp_mem w) (off / spi_sector * spi_sector) 255
                                    ((n + spi_sector - 1) / spi_sector * spi_sector))) }.
#[export] Instance spi_sim_obs : FlashObs spi_sim := {
  content := sp_mem; erase_unit := spi_sector; write_page := spi_page; rewritable := false }.

(** Programming inside a page. *)
Lemma spi_program_put mem page k l : 0 <= page -> 0 <= k -> k + Z.of_nat (length l) <= spi_page ->
  page + k + Z.of_nat (length l) <= Z.of_nat (length mem) ->
  spi_program mem page k l = put mem (page + k) (zip_with Z.land l (sub mem (page + k) (Z.of_nat (length l)))).
Proof.
  intros Hp. revert mem k. induction l as [|b l IH]; intros mem k Hk Hl Hm; [done|]. cbn [spi_program length] in *.
  rewrite Z.mod_small by (unfold spi_page in *; lia). rewrite IH by (rewrite ?length_aset; lia).
  assert (Hs : sub mem (page + k) (Z.of_nat (S (length l))) = aget 0 mem (page + k) :: sub mem (page + (k + 1)) (Z.of_nat (length l))).
  { replace (Z.of_nat (S (length l))) with (1 + Z.of_nat (length l)) by lia. rewrite sub_app by lia.
    unfold sub at 1. change (range 1) with [0]. cbn [fmap list_fmap app]. rewrite Z.add_0_r. do 2 f_equal. lia. }
  rewrite Hs. cbn [zip_with put]. replace (page + (k + 1)) with (page + k + 1) by lia. f_equal. f_equal.
  replace (aset mem (page + k) _) with (put mem (page + k) [Z.land b (aget 0 mem (page + k))]) by done.
  apply sub_put_ne; cbn [length]; lia.
Qed.

#[export] Instance spi_sim_laws : FlashLaws spi_sim.
Proof.
  assert (Hpage : forall off n w l, page_ok spi_sim off n -> 0 <= off -> 0 <= n <= Z.of_nat (length l) ->
    off + n <= Z.of_nat (length (sp_mem w)) ->
    spi_program (sp_mem w) (off / spi_page * spi_page) (off mod spi_page) (take (Z.to_nat n) l) =
    put (sp_mem w) off (zip_with Z.land (take (Z.to_nat n) l) (sub (sp_mem w) off n))).
  { intros off n w l Hp Ho Hn Hl.
    pose proof (Z.div_mod off spi_page ltac:(done)) as E. pose proof (Z.mod_pos_bound off spi_page ltac:(done)) as Hm.
    assert (Hlen : Z.of_nat (length (take (Z.to_nat n) l)) = n) by (rewrite length_take; lia).
    assert (Hin : off mod spi_page + n <= spi_page).
    { destruct Hp as [Hp|Hp]; [lia|]. cbn [write_page spi_sim_obs] in Hp.
      pose proof (Z.div_mod (off + n - 1) spi_page ltac:(done)). pose proof (Z.mod_pos_bound (off + n - 1) spi_page ltac:(done)).
      rewrite <- Hp in *. lia. }
    assert (0 <= off / spi_page * spi_page) by (apply Z.mul_nonneg_nonneg; [by apply Z.div_pos|done]).
    rewrite spi_program_put by lia. rewrite Hlen. by replace (off / spi_page * spi_page + off mod spi_page) with off by lia. }
  split.
  - done.
  - intros off n w _ _ _. unfold ensures. cbn. by split.
  - intros off n w Ho Hn [k ->] _. unfold ensures, erase_len. cbn -[Z.mul Z.div]. split; [done|].
    by rewrite Z.div_mul by done.
  - intros off l w Hb Ho Hl Hpg [He|He]; [done|]. unfold ensures. cbn -[Z.mul Z.div Z.modulo] in *. split; [done|].
    rewrite Hpage by (done || lia). rewrite He, Nat2Z.id, firstn_all. by rewrite land_erased.
  - intros off l n w Ho Hn Hl Hpg. unfold ensures. cbn -[Z.mul Z.div Z.modulo] in *. split; [done|].
    rewrite Hpage by (done || lia). eexists. split; [|reflexivity]. rewrite length_zip_with, length_sub, length_take. lia.
Qed.
