(* ===== verification/Storage.v ===== *)
(** dev/storage-cal.c and dev/storage-mac.c: the persistent data of a node,
    kept in files of the SDB file system: calibration parameters and the MAC
    address.  The database of SFP transceivers is in SfpDb. *)
From Stdlib Require Import ZArith Lia.
From stdpp Require Import base numbers option list gmap.
From S2P Require Import Prelude Bytes Sdbfs.

Definition CAL_MAX_PARAMS : Z := 12.
Definition CAL_FILE_MAGIC : Z := 3405691582.
Definition SDB_VENDOR `{Endian} : Z := htonll 5073461966432269409.
Definition SDB_DEV_MAC `{Endian} : Z := htonl 1835098925.
Definition SDB_DEV_CALIB `{Endian} : Z := htonl 1667329129.

(** wrc_cal_data_t; a parameter is its id and its value. *)
Record wrc_cal_data_t := mk_cal { c_magic : Z; c_param_count : Z; c_checksum : Z; c_params : list (Z * Z) }.
#[export] Instance eta_cal : Etable wrc_cal_data_t := fun c =>
  mk_cal (c_magic c) (c_param_count c) (c_checksum c) (c_params c).

(** The static variables: wrc_sdbfs, cal_data, calibration_loaded and the
    counter of [sfp_entry]. *)
Record storage := mk_st { st_fs : sdbfs; st_cal : wrc_cal_data_t; st_loaded : Z; st_sfpcount : Z }.
#[export] Instance eta_st : Etable storage := fun s =>
  mk_st (st_fs s) (st_cal s) (st_loaded s) (st_sfpcount s).

(** ** Calibration parameters in memory *)
Definition cal_id (c : wrc_cal_data_t) (i : Z) : Z := (aget (0, 0) (c_params c) i).1.
Definition cal_value (c : wrc_cal_data_t) (i : Z) : Z := (aget (0, 0) (c_params c) i).2.

Definition calc_checksum (c : wrc_cal_data_t) : Z :=
  foldl (fun cksum i => u32 (u32 (cksum + cal_id c i) + cal_value c i))
        (u32 (c_magic c + c_param_count c)) (range (c_param_count c)).

(** The loop that looks for a parameter: its index. *)
Fixpoint find_param (l : list (Z * Z)) (id i : Z) : option Z :=
  match l with
  | [] => None
  | p :: l => if id =? p.1 then Some i else find_param l id (i + 1)
  end.
Definition cal_find (c : wrc_cal_data_t) (id : Z) : option Z :=
  find_param (take (Z.to_nat (c_param_count c)) (c_params c)) id 0.

(** [storage_get_calibration_parameter]: [*valp] and the result. *)
Definition storage_get_calibration_parameter (c : wrc_cal_data_t) (id : Z) : option Z * Z :=
  match cal_find c id with Some i => (Some (cal_value c i), 0) | None => (None, -1) end.

Definition storage_set_calibration_parameter (c : wrc_cal_data_t) (id val : Z) : wrc_cal_data_t * Z :=
  match cal_find c id with
  | Some i => (c <| c_params := aset (c_params c) i (cal_id c i, val) |>, 0)
  | None =>
      if CAL_MAX_PARAMS <=? c_param_count c then (c, -1)
      else (c <| c_params := aset (c_params c) (c_param_count c) (id, val) |>
              <| c_param_count := u32 (c_param_count c + 1) |>, 0)
  end.

Definition storage_remove_calibration_parameter (c : wrc_cal_data_t) (id : Z) : wrc_cal_data_t * Z :=
  match cal_find c id with
  | Some i =>
      let c := c <| c_param_count := u32 (c_param_count c - 1) |> in
      (c <| c_params := aset (c_params c) i (aget (0, 0) (c_params c) (c_param_count c)) |>, 0)
  | None => (c, -1)
  end.

(** ** Images in memory *)
Section images.
Context `{Endian}.

(** [ntohl_mem] (and [htonl_mem]): byte-swap the words of a memory region. *)
Fixpoint swap_words (mem : list Z) : list Z :=
  match mem with
  | a :: b :: c :: d :: mem => image 4 (htonl (value [a; b; c; d])) ++ swap_words mem
  | _ => mem
  end.
Definition ntohl_mem (mem : list Z) : list Z := if big_endian then mem else swap_words mem.

Definition cal_words (c : wrc_cal_data_t) : list Z :=
  [c_magic c; c_param_count c; c_checksum c] ++ concat ((fun p => [p.1; p.2]) <$> c_params c).
Definition cal_image (c : wrc_cal_data_t) : list Z := concat (image 4 <$> cal_words c).
Definition word_at (l : list Z) (i : Z) : Z := value (sub l (4 * i) 4).
Definition cal_of (l : list Z) : wrc_cal_data_t :=
  mk_cal (word_at l 0) (word_at l 1) (word_at l 2)
         ((fun i => (word_at l (3 + 2 * i), word_at l (4 + 2 * i))) <$> range CAL_MAX_PARAMS).
Definition sizeof_cal : Z := 108.

End images.

Section files.
Context `{Endian} {W : Type} `{!Flash W} (fuel : nat).
Implicit Types (s : storage).

Definition set_fs s (fs : sdbfs) : storage := s <| st_fs := fs |>.

(** [None] when the directory could not be scanned within the fuel. *)
Definition storage_save_calibration s : M W (option (storage * Z)) :=
  let! r := sdbfs_open_id fuel (st_fs s) SDB_VENDOR SDB_DEV_CALIB in
  match r with
  | None => ret None
  | Some (fs, rc) =>
      if rc <? 0 then ret (Some (set_fs s fs, -1))
      else
        let cal := (st_cal s) <| c_magic := CAL_FILE_MAGIC |> in
        let cal := cal <| c_checksum := calc_checksum cal |> in
        let cal_data_ne := ntohl_mem (cal_image cal) in
        let! _ := sdbfs_ferase fs 0 (fs_f_len fs) in
        let! _ := sdbfs_fwrite fs 0 cal_data_ne in
        ret (Some ((set_fs s (sdbfs_close fs)) <| st_cal := cal |>, 0))
  end.

Definition storage_load_calibration s : M W (option (storage * Z)) :=
  let s := s <| st_cal := (st_cal s) <| c_param_count := 0 |> |> in
  let! r := sdbfs_open_id fuel (st_fs s) SDB_VENDOR SDB_DEV_CALIB in
  match r with
  | None => ret None
  | Some (fs, rc) =>
      let s := set_fs s fs in
      if rc <? 0 then ret (Some (s, -1))
      else
        let! r := sdbfs_fread fs 0 sizeof_cal in
        let '(mem, n) := r in
        let s := set_fs s (sdbfs_close fs) in
        if negb (n =? sizeof_cal) then ret (Some (s, -1))
        else
          let cal := cal_of (ntohl_mem mem) in
          let fail := (s <| st_cal := cal <| c_param_count := 0 |> |>, -1) in
          if negb (c_magic cal =? CAL_FILE_MAGIC) then ret (Some fail)
          else if negb (c_checksum cal =? calc_checksum cal) then ret (Some fail)
          else ret (Some (s <| st_cal := cal |> <| st_loaded := 1 |>, 0))
  end.

Definition storage_set_calibration_parameter_and_save s (id val : Z) : M W (option (storage * Z)) :=
  let '(cal, res) := storage_set_calibration_parameter (st_cal s) id val in
  let s := s <| st_cal := cal |> in
  if negb (res =? 0) then ret (Some (s, res)) else storage_save_calibration s.

(** ** The MAC address *)
Definition storage_get_persistent_mac s (mac : list Z) : M W (option (storage * list Z * Z)) :=
  let! r := sdbfs_open_id fuel (st_fs s) SDB_VENDOR SDB_DEV_MAC in
  match r with
  | None => ret None
  | Some (fs, rc) =>
      let! r := (if rc <? 0 then ret (fs, mac, -1)
                 else let! r := sdbfs_fread fs 0 6 in ret (sdbfs_close fs, put mac 0 r.1, r.2)) in
      let '(fs, mac, res) := r in
      let m i := aget 0 mac i in
      let res := if (m 0 =? 255) ||
                    (Z.lor (Z.lor (Z.lor (Z.lor (Z.lor (m 0) (m 1)) (m 2)) (m 3)) (m 4)) (m 5) =? 0)
                 then -1 else res in
      ret (Some (set_fs s fs, mac, if res <? 0 then -1 else 0))
  end.

Definition storage_set_persistent_mac s (mac : list Z) : M W (option (storage * Z)) :=
  let! r := sdbfs_open_id fuel (st_fs s) SDB_VENDOR SDB_DEV_MAC in
  match r with
  | None => ret None
  | Some (fs, rc) =>
      let! rc := (if 0 <=? rc then let! _ := sdbfs_ferase fs 0 (fs_f_len fs) in sdbfs_fwrite fs 0 (sub mac 0 6)
                  else ret rc) in
      ret (Some (set_fs s (sdbfs_close fs), if rc <? 0 then -1 else 0))
  end.

End files.

(** ** The calibration parameters are a finite map *)
Definition cal_list (c : wrc_cal_data_t) : list (Z * Z) := take (Z.to_nat (c_param_count c)) (c_params c).
Definition cal_map (c : wrc_cal_data_t) : gmap Z Z := list_to_map (cal_list c).
Record cal_ok (c : wrc_cal_data_t) : Prop := {
  ck_len : Z.of_nat (length (c_params c)) = CAL_MAX_PARAMS;
  ck_count : 0 <= c_param_count c <= CAL_MAX_PARAMS;
  ck_nodup : NoDup ((cal_list c).*1) }.

Lemma find_param_spec l id : forall i,
  match find_param l id i with
  | Some j => exists l1 v l2, l = l1 ++ (id, v) :: l2 /\ j = i + Z.of_nat (length l1)
  | None => id ∉ l.*1
  end.
Proof.
  induction l as [|[a v] l IH]; intros i; cbn [find_param]; [apply not_elem_of_nil|]. cbn [fst].
  destruct (Z.eqb_spec id a) as [->|Hne].
  - exists [], v, l. split; [done|]. cbn. lia.
  - specialize (IH (i + 1)). destruct (find_param l id (i + 1)) as [j|].
    + destruct IH as (l1 & v' & l2 & -> & ->). exists ((a, v) :: l1), v', l2. split; [done|]. cbn [length]. lia.
    + cbn. rewrite not_elem_of_cons. by split.
Qed.

(** The map of a list with the pair in the middle. *)
Lemma list_map_mid (l1 l2 : list (Z * Z)) k v : NoDup ((l1 ++ (k, v) :: l2).*1) ->
  (list_to_map (l1 ++ (k, v) :: l2) : gmap Z Z) = <[k := v]> (list_to_map (l1 ++ l2)).
Proof.
  intros Hn. rewrite <- (list_to_map_cons (M := gmap Z)). apply list_to_map_proper; [done|].
  by rewrite Permutation_middle.
Qed.
Lemma nodup_mid (l1 l2 : list (Z * Z)) k v : NoDup ((l1 ++ (k, v) :: l2).*1) ->
  (k ∉ (l1 ++ l2).*1) /\ NoDup ((l1 ++ l2).*1).
Proof.
  rewrite !fmap_app. cbn. intros Hn.
  assert (Hp : NoDup (k :: (l1.*1 ++ l2.*1))) by (by rewrite Permutation_middle).
  by apply NoDup_cons in Hp.
Qed.
Section cal.
Implicit Types (c : wrc_cal_data_t).

(** The position of a parameter splits the array. *)
Lemma cal_split c id j : cal_ok c -> cal_find c id = Some j -> exists l1 v l2 rest,
  cal_list c = l1 ++ (id, v) :: l2 /\ c_params c = l1 ++ (id, v) :: l2 ++ rest /\
  j = Z.of_nat (length l1) /\ c_param_count c = Z.of_nat (length (l1 ++ (id, v) :: l2)).
Proof.
  intros [Hl Hc _] Hf. unfold cal_find in Hf. fold (cal_list c) in Hf.
  pose proof (find_param_spec (cal_list c) id 0) as Hx. rewrite Hf in Hx.
  destruct Hx as (l1 & v & l2 & Hx & ->). exists l1, v, l2, (drop (Z.to_nat (c_param_count c)) (c_params c)).
  split; [done|]. split; [|split; [lia|]].
  - rewrite <- (take_drop (Z.to_nat (c_param_count c)) (c_params c)) at 1. fold (cal_list c). rewrite Hx.
    by rewrite <- app_assoc.
  - rewrite <- Hx. unfold cal_list. rewrite length_take. lia.
Qed.

Lemma get_spec c id : cal_ok c ->
  storage_get_calibration_parameter c id =
    match cal_map c !! id with Some v => (Some v, 0) | None => (None, -1) end.
Proof.
  intros Hok. unfold storage_get_calibration_parameter. destruct (cal_find c id) as [j|] eqn:E.
  - destruct (cal_split c id j Hok E) as (l1 & v & l2 & rest & Hc & Hp & -> & _). pose proof (ck_nodup _ Hok) as Hn.
    unfold cal_map, cal_value. rewrite Hp, aget_mid by done. rewrite Hc in *. rewrite list_map_mid by done.
    by rewrite lookup_insert_eq.
  - unfold cal_find in E. pose proof (find_param_spec (cal_list c) id 0) as Hx. fold (cal_list c) in E. rewrite E in Hx.
    unfold cal_map. by rewrite not_elem_of_list_to_map_1.
Qed.

Lemma set_spec c id v : cal_ok c ->
  let '(c', r) := storage_set_calibration_parameter c id v in
  cal_ok c' /\
  if bool_decide (is_Some (cal_map c !! id)) || (Z.of_nat (size (cal_map c)) <? 12)
  then r = 0 /\ cal_map c' = <[id := v]> (cal_map c) else r = -1 /\ c' = c.
Proof.
  intros Hok. pose proof Hok as [Hl Hc Hn]. unfold CAL_MAX_PARAMS in *.
  assert (Hlen : length (cal_list c) = Z.to_nat (c_param_count c)) by (unfold cal_list; rewrite length_take; lia).
  assert (Hsize : Z.of_nat (size (cal_map c)) = c_param_count c).
  { unfold cal_map. rewrite map_size_list_to_map by done. lia. }
  unfold storage_set_calibration_parameter. destruct (cal_find c id) as [j|] eqn:E.
  - destruct (cal_split c id j Hok E) as (l1 & w & l2 & rest & Hcl & Hp & -> & Hcnt).
    assert (Hlist : cal_list (c <| c_params := aset (c_params c) (Z.of_nat (length l1)) (cal_id c (Z.of_nat (length l1)), v) |>)
      = l1 ++ (id, v) :: l2).
    { unfold cal_list, cal_id. cbn [c_params c_param_count upd]. rewrite Hp, aget_mid, aset_mid, Hcnt, Nat2Z.id by done.
      cbn [fst]. rewrite app_comm_cons, app_assoc. rewrite take_app_length'; [done|]. rewrite !length_app. done. }
    assert (Hn' : NoDup ((l1 ++ (id, v) :: l2).*1)) by (rewrite Hcl, fmap_app in Hn; by rewrite fmap_app).
    split.
    + split; [cbn [c_params upd]; by rewrite length_aset|done|]. by rewrite Hlist.
    + rewrite bool_decide_eq_true_2.
      2: { unfold cal_map. rewrite Hcl in *. rewrite list_map_mid by done. rewrite lookup_insert_eq. by eexists. }
      split; [done|]. unfold cal_map at 1. rewrite Hlist. unfold cal_map. rewrite Hcl in *. rewrite !list_map_mid by done.
      by rewrite insert_insert_eq.
  - pose proof (find_param_spec (cal_list c) id 0) as Hx. unfold cal_find in E. fold (cal_list c) in E. rewrite E in Hx.
    rewrite bool_decide_eq_false_2.
    2: { unfold cal_map. rewrite not_elem_of_list_to_map_1 by done. by intros [? ?]. }
    cbn [orb]. rewrite Hsize. unfold CAL_MAX_PARAMS. destruct (Z.leb_spec 12 (c_param_count c)), (Z.ltb_spec (c_param_count c) 12); try lia. 1: { by split. }
    assert (Hlist : cal_list (c <| c_params := aset (c_params c) (c_param_count c) (id, v) |>
      <| c_param_count := u32 (c_param_count c + 1) |>) = cal_list c ++ [(id, v)]).
    { unfold cal_list. cbn [c_params c_param_count upd]. rewrite u32_small by (unfold is_u32; lia).
      replace (Z.to_nat (c_param_count c + 1)) with (S (Z.to_nat (c_param_count c))) by lia.
      unfold aset. destruct (Z.ltb_spec (c_param_count c) 0); [lia|].
      rewrite (take_S_r _ _ (id, v)) by (apply list_lookup_insert_eq; lia). f_equal.
      by rewrite take_insert_ge by lia. }
    assert (Hn' : NoDup ((cal_list c ++ [(id, v)]).*1)).
    { rewrite fmap_app. apply NoDup_app. split; [done|]. split; [|cbn; apply NoDup_singleton].
      intros x Hx1 Hx2. cbn in Hx2. apply list_elem_of_singleton in Hx2. by subst. }
    split.
    + split; [cbn [c_params upd]; by rewrite length_aset| |by rewrite Hlist].
      cbn [c_param_count upd]. rewrite u32_small by (unfold is_u32; lia). unfold CAL_MAX_PARAMS. lia.
    + split; [done|]. unfold cal_map at 1. rewrite Hlist. rewrite list_map_mid by done. by rewrite app_nil_r.
Qed.
End cal.

Section cal_remove.
Implicit Types (c : wrc_cal_data_t).

Lemma remove_spec c id : cal_ok c ->
  let '(c', r) := storage_remove_calibration_parameter c id in
  cal_ok c' /\
  if bool_decide (is_Some (cal_map c !! id)) then r = 0 /\ cal_map c' = delete id (cal_map c)
  else r = -1 /\ c' = c.
Proof.
  intros Hok. pose proof Hok as [Hl Hc Hn]. unfold CAL_MAX_PARAMS in *.
  unfold storage_remove_calibration_parameter. destruct (cal_find c id) as [j|] eqn:E.
  2: { pose proof (find_param_spec (cal_list c) id 0) as Hx. unfold cal_find in E. fold (cal_list c) in E. rewrite E in Hx.
       rewrite bool_decide_eq_false_2; [by split|]. unfold cal_map. rewrite not_elem_of_list_to_map_1 by done. by intros [? ?]. }
  destruct (cal_split c id j Hok E) as (l1 & v & l2 & rest & Hcl & Hp & -> & Hcnt).
  rewrite Hcl in Hn. destruct (nodup_mid _ _ _ _ Hn) as [Hnin Hn'].
  assert (Hpos : 0 < c_param_count c) by (rewrite Hcnt, length_app; cbn; lia).
  cbn [c_param_count c_params upd]. rewrite (u32_small (c_param_count c - 1)) by (unfold is_u32; lia).
  set (c' := c <| c_param_count := c_param_count c - 1 |>
     <| c_params := aset (c_params c) (Z.of_nat (length l1)) (aget (0, 0) (c_params c) (c_param_count c - 1)) |>).
  assert (Hlist : cal_list c' ≡ₚ l1 ++ l2).
  { unfold cal_list, c'. cbn [c_params c_param_count upd]. rewrite Hp.
    rewrite length_app in Hcnt. cbn [length] in Hcnt.
    replace (Z.to_nat (c_param_count c - 1)) with (length l1 + length l2)%nat by lia.
    rewrite aset_mid by done. rewrite take_app_ge by lia. f_equiv.
    replace (length l1 + length l2 - length l1)%nat with (length l2) by lia.
    destruct l2 as [|x l2] using rev_ind; [done|]. clear IHl2. rewrite length_app, Nat.add_1_r. cbn [take length].
    replace (l1 ++ (id, v) :: (l2 ++ [x]) ++ rest) with ((l1 ++ (id, v) :: l2) ++ x :: rest) by (by rewrite <- !app_assoc).
    rewrite aget_mid by (rewrite !length_app in *; cbn [length] in *; lia).
    rewrite <- !app_assoc, take_app_length. apply Permutation_cons_append. }
  assert (Hnd : NoDup ((cal_list c').*1)) by (by rewrite Hlist).
  split.
  - split; [unfold c'; cbn [c_params upd]; by rewrite length_aset|unfold c', CAL_MAX_PARAMS; cbn [c_param_count upd]; lia|done].
  - unfold cal_map. rewrite Hcl, list_map_mid by done. rewrite lookup_insert_eq, bool_decide_eq_true_2 by (by eexists).
    split; [done|]. rewrite delete_insert_id by (by apply not_elem_of_list_to_map_1).
    by apply list_to_map_proper.
Qed.
End cal_remove.

(** C26. The calibration parameters are a finite map of at most twelve entries:
    reading, setting and removing a parameter of the array is lookup, insert
    and delete of that map, with -1 for a missing parameter and for a new one
    in a full table (which is then unchanged); the ids stay distinct and the
    counter inside the array. *)
Theorem calibration_refines_map c id v : cal_ok c ->
  storage_get_calibration_parameter c id =
    (match cal_map c !! id with Some v => (Some v, 0) | None => (None, -1) end) /\
  (let '(c', r) := storage_set_calibration_parameter c id v in cal_ok c' /\
   if bool_decide (is_Some (cal_map c !! id)) || (Z.of_nat (size (cal_map c)) <? 12)
   then r = 0 /\ cal_map c' = <[id := v]> (cal_map c) else r = -1 /\ c' = c) /\
  (let '(c', r) := storage_remove_calibration_parameter c id in cal_ok c' /\
   if bool_decide (is_Some (cal_map c !! id)) then r = 0 /\ cal_map c' = delete id (cal_map c)
   else r = -1 /\ c' = c).
Proof. intros Hok. split; [by apply get_spec|]. split; [by apply set_spec|by apply remove_spec]. Qed.

(** Three parameters; the first one is removed. *)
Definition demo_cal : wrc_cal_data_t :=
  mk_cal 0 3 0 ([(1949447280, 2389); (1819309168, 77); (1684108385, 20)] ++ replicate 9 (0, 0)).
Lemma calibration_refines_map_witness :
  storage_get_calibration_parameter demo_cal 1819309168 = (Some 77, 0) /\
  cal_map (storage_remove_calibration_parameter demo_cal 1949447280).1 =
    delete 1949447280 (cal_map demo_cal).
Proof.
  assert (Hok : cal_ok demo_cal).
  { split; [reflexivity|unfold CAL_MAX_PARAMS; cbn; lia|]. 
    change (NoDup [1949447280; 1819309168; 1684108385]). by apply (bool_decide_unpack _). }
  pose proof (calibration_refines_map demo_cal 1819309168 0 Hok) as [H1 _].
  pose proof (calibration_refines_map demo_cal 1949447280 0 Hok) as (_ & _ & H2).
  split; [rewrite H1; reflexivity|]. destruct (storage_remove_calibration_parameter demo_cal 1949447280) as [c r].
  destruct H2 as [_ H2]. rewrite bool_decide_eq_true_2 in H2; [apply H2|]. eexists. vm_compute. reflexivity.
Defined.

(** ** Saving and loading the calibration *)
Section words.
Context `{Endian}.

Lemma swap_words_app l m : length l = 4%nat -> swap_words (l ++ m) = image 4 (htonl (value l)) ++ swap_words m.
Proof. intros Hl. do 4 (destruct l as [|? l]; [discriminate|]). by destruct l; [|discriminate]. Qed.

Lemma ntohl_mem_image ws : Forall is_u32 ws ->
  ntohl_mem (concat (image 4 <$> ws)) = concat (be_bytes 4 <$> ws).
Proof.
  intros Hw. unfold ntohl_mem. destruct big_endian eqn:E.
  - f_equal. apply list_fmap_ext. intros i x _. unfold image. by rewrite E.
  - induction Hw as [|x ws Hx _ IH]; [done|]. cbn [fmap list_fmap concat].
    rewrite swap_words_app by apply length_image. rewrite IH. f_equal.
    rewrite value_image by exact Hx. by apply image_htonl.
Qed.
Lemma ntohl_mem_bytes ws : Forall is_u32 ws ->
  ntohl_mem (concat (be_bytes 4 <$> ws)) = concat (image 4 <$> ws).
Proof.
  intros Hw. unfold ntohl_mem. destruct big_endian eqn:E.
  - f_equal. apply list_fmap_ext. intros i x _. unfold image. by rewrite E.
  - induction Hw as [|x ws Hx _ IH]; [done|]. cbn [fmap list_fmap concat].
    rewrite swap_words_app by apply length_be_bytes. rewrite IH. f_equal.
    rewrite htonl_value by (apply bytes_be_Forall || apply length_be_bytes).
    rewrite be_value_bytes, Z.mod_small by exact Hx. done.
Qed.

Lemma word_at_concat ws i : Forall is_u32 ws -> 0 <= i < Z.of_nat (length ws) ->
  word_at (concat (image 4 <$> ws)) i = aget 0 ws i.
Proof.
  intros Hw Hi. unfold word_at, aget. destruct (Z.ltb_spec i 0); [lia|].
  assert (Hn : (Z.to_nat i < length ws)%nat) by lia.
  replace (4 * i) with (Z.of_nat (4 * Z.to_nat i)) by lia. revert Hn. generalize (Z.to_nat i). clear Hi H0. intros n.
  revert n. induction Hw as [|x ws Hx _ IH]; intros n Hn; [cbn in Hn; lia|]. cbn [fmap list_fmap concat length] in *.
  destruct n as [|n].
  - change (Z.of_nat (4 * 0)) with (Z.of_nat 0). rewrite (sub_split _ 0 4) by (rewrite length_app, length_image; lia).
    rewrite drop_0, take_app_length' by (by rewrite length_image). by rewrite value_image.
  - replace (Z.of_nat (4 * S n)) with (Z.of_nat (length (image 4 x)) + Z.of_nat (4 * n)) by (rewrite length_image; lia).
    rewrite sub_app_r by lia. rewrite IH by lia. done.
Qed.
End words.

Section cal_file.
Context `{Endian}.
Implicit Types (c : wrc_cal_data_t).

(** The fields are 32-bit numbers. *)
Record cal_u32 c : Prop := {
  cu_magic : is_u32 (c_magic c); cu_count : 0 <= c_param_count c <= 12; cu_sum : is_u32 (c_checksum c);
  cu_len : length (c_params c) = 12%nat;
  cu_params : Forall (fun p => is_u32 p.1 /\ is_u32 p.2) (c_params c) }.

Lemma length_cal_words c : length (c_params c) = 12%nat -> length (cal_words c) = 27%nat.
Proof.
  intros Hl. unfold cal_words. destruct c as [m n k p]. cbn [c_params c_magic c_param_count c_checksum] in *.
  do 12 (destruct p as [|? p]; [discriminate|]). by destruct p; [|discriminate].
Qed.
Lemma cal_words_u32 c : cal_u32 c -> Forall is_u32 (cal_words c).
Proof.
  intros [H1 H2 H3 _ H5]. unfold cal_words, is_u32 in *. cbn [app]. repeat (apply Forall_cons; split; [lia|]).
  induction H5 as [|p l [Hp1 Hp2] _ IH]; cbn; [constructor|]. by repeat (apply Forall_cons; split).
Qed.
Lemma cal_of_image c : cal_u32 c -> cal_of (cal_image c) = c.
Proof.
  intros Hc. pose proof (cal_words_u32 c Hc) as Hw. pose proof (cu_len c Hc) as Hl.
  pose proof (length_cal_words c Hl) as Hlw. unfold cal_of, cal_image.
  assert (Hat : forall i, 0 <= i < 27 -> word_at (concat (image 4 <$> cal_words c)) i = aget 0 (cal_words c) i).
  { intros i Hi. apply word_at_concat; [done|lia]. }
  rewrite !Hat by lia.
  assert (Hp : ((fun i => (word_at (concat (image 4 <$> cal_words c)) (3 + 2 * i),
     word_at (concat (image 4 <$> cal_words c)) (4 + 2 * i))) <$> range CAL_MAX_PARAMS) =
     ((fun i => (aget 0 (cal_words c) (3 + 2 * i), aget 0 (cal_words c) (4 + 2 * i))) <$> range CAL_MAX_PARAMS)).
  { apply list_fmap_ext. intros j i Hi. apply list_elem_of_lookup_2, elem_of_range in Hi. unfold CAL_MAX_PARAMS in Hi.
    by rewrite !Hat by lia. }
  rewrite Hp. clear - Hl. destruct c as [m n k p]. cbn [c_params] in Hl.
  do 12 (destruct p as [|[? ?] p]; [discriminate|]). by destruct p; [|discriminate].
Qed.

(** The file: the words in network order. *)
Definition cal_file c : list Z := concat (be_bytes 4 <$> cal_words c).
Lemma length_concat4 (f : Z -> list Z) ws : (forall x, length (f x) = 4%nat) ->
  length (concat (f <$> ws)) = (4 * length ws)%nat.
Proof. intros Hf. induction ws as [|x ws IH]; [done|]. cbn [fmap list_fmap concat]. rewrite length_app, Hf, IH. cbn. lia. Qed.
Lemma length_cal_file c : length (c_params c) = 12%nat -> length (cal_file c) = 108%nat.
Proof.
  intros Hl. unfold cal_file. rewrite length_concat4 by (intros; apply length_be_bytes).
  by rewrite length_cal_words.
Qed.
Lemma bytes_cal_file c : bytes (cal_file c).
Proof.
  unfold cal_file. generalize (cal_words c). intros ws. induction ws as [|x ws IH]; [apply Forall_nil_2|].
  cbn [fmap list_fmap concat]. apply bytes_app. split; [apply bytes_be|exact IH].
Qed.
Lemma calc_checksum_u32 c : is_u32 (calc_checksum c).
Proof.
  unfold calc_checksum. generalize (range (c_param_count c)). intros l.
  assert (Hi : is_u32 (u32 (c_magic c + c_param_count c))) by apply u32_range. revert Hi.
  generalize (u32 (c_magic c + c_param_count c)). induction l as [|i l IH]; intros x Hx; [done|].
  cbn [foldl]. apply IH, u32_range.
Qed.
(** What is saved. *)
Definition sealed c : wrc_cal_data_t :=
  c <| c_magic := CAL_FILE_MAGIC |> <| c_checksum := calc_checksum (c <| c_magic := CAL_FILE_MAGIC |>) |>.
Lemma sealed_u32 c : cal_u32 c -> cal_u32 (sealed c).
Proof.
  intros [H1 H2 H3 H4 H5]. split; try done; apply calc_checksum_u32.
Qed.
Lemma calc_checksum_sealed c : calc_checksum (sealed c) = c_checksum (sealed c).
Proof. done. Qed.
End cal_file.

(** A boot later: the file system is mounted at the same place. *)
Definition same_mount (fs fs2 : sdbfs) : Prop :=
  fs_dev fs2 = true /\ fs_entrypoint fs2 = fs_entrypoint fs /\ length (fs_record fs2) = 64%nat.

Section cal_roundtrip.
Context `{Endian} {W : Type} `{!Flash W, !FlashObs W, !FlashLaws W} (fuel : nat).
Implicit Types (w : W) (s : storage).

(** A file of a mounted device: it has at least [size] bytes, the first [size]
    in one page of the device, and the sectors that are erased with it lie
    apart from the directory. *)
Record file_at (did size : Z) (fs : sdbfs) (mem : list Z) (recs : list (list Z)) (off len : Z) : Prop := {
  cf_mounted : mounted fs mem recs;
  cf_fuel : (length recs <= fuel)%nat;
  cf_record : exists r, lookup_file recs SDB_VENDOR did = Some r /\ r_off r = off /\ r_len r = len;
  cf_in : file_in W mem off len; cf_size : size <= len; cf_page : page_ok W off size;
  cf_apart : off + erase_len W len <= fs_entrypoint fs \/ fs_entrypoint fs + 64 * Z.of_nat (length recs) <= off }.
Definition cal_file_at := file_at SDB_DEV_CALIB 108.

Lemma open_file did size fs w recs off len : file_at did size fs (content w) recs off len ->
  ensures (sdbfs_open_id fuel fs SDB_VENDOR did) w (fun res w' => content w' = content w /\
    exists fs', res = Some (fs', 0) /\ same_mount fs fs' /\ open_at fs' off len).
Proof.
  intros [Hm Hf (r & Hr & Hro & Hrl) _ _ _ _]. eapply ensures_mono; [by apply sdbfs_open_spec|].
  cbv beta. rewrite Hr. intros res w' (Hc & fs' & -> & [? ? ?] & He & Ho). split; [done|]. exists fs'. by rewrite <- Hro, <- Hrl.
Qed.

(** An erased region holds 0xff. *)
Lemma sub_erased mem off len n : 0 <= off -> Z.of_nat n <= len -> off + len <= Z.of_nat (length mem) ->
  sub (fill mem off 255 len) off (Z.of_nat n) = replicate n 255.
Proof.
  intros H1 H2 H3. unfold fill. replace (Z.to_nat len) with (n + (Z.to_nat len - n))%nat by lia.
  rewrite replicate_add, put_app.
  rewrite sub_put_ne by (rewrite ?length_put, ?length_replicate; lia).
  rewrite sub_put_eq; rewrite ?length_replicate; (done || lia).
Qed.
Lemma save_spec s w recs off len : cal_file_at (st_fs s) (content w) recs off len -> cal_u32 (st_cal s) ->
  ensures (storage_save_calibration fuel s) w (fun r w' => exists fs',
    r = Some (mk_st fs' (sealed (st_cal s)) (st_loaded s) (st_sfpcount s), 0) /\
    content w' = put (fill (content w) off 255 (erase_len W len)) off (cal_file (sealed (st_cal s)))).
Proof.
  intros Hcf Hc. unfold storage_save_calibration. apply ensures_bind.
  eapply ensures_mono; [by eapply open_file|]. cbv beta. intros res w1 (Hc1 & fs & -> & _ & Ho). cbn [Z.ltb Z.compare].
  pose proof (sealed_u32 _ Hc) as Hs. pose proof (cf_in _ _ _ _ _ _ _ Hcf) as Hin. pose proof (cf_size _ _ _ _ _ _ _ Hcf) as Hsz.
  fold (sealed (st_cal s)).
  unfold cal_image. rewrite ntohl_mem_image by (by apply cal_words_u32). fold (cal_file (sealed (st_cal s))).
  pose proof (length_cal_file _ (cu_len _ Hs)) as Hlf. pose proof Hin as (Hi1 & Hi2 & Hi3 & Hi4 & Hi5 & Hi6).
  pose proof (erase_len_spec (W := W) len ltac:(lia)) as [He _].
  rewrite (oa_len _ _ _ Ho). apply ensures_bind.
  eapply ensures_mono; [apply ferase_spec; [done|by rewrite Hc1]|]. cbv beta. intros _ w2 [_ Hc2]. rewrite Hc1 in Hc2.
  apply ensures_bind. eapply ensures_mono.
  - eapply (fwrite_spec fs w2 off len 0); [apply bytes_cal_file|done| |lia|lia| |].
    + unfold file_in. by rewrite Hc2, length_fill.
    + rewrite Z.add_0_r, Hlf. exact (cf_page _ _ _ _ _ _ _ Hcf).
    + rewrite Hc2, Z.add_0_r, Hlf. apply sub_erased; lia.
  - cbv beta. intros _ w3 [_ Hc3]. apply ensures_ret. rewrite Hc3, Hc2, Z.add_0_r. eexists. by split.
Qed.

Lemma load_spec s w recs off len c : cal_file_at (st_fs s) (content w) recs off len -> cal_u32 c -> c_magic c = CAL_FILE_MAGIC ->
  c_checksum c = calc_checksum c -> sub (content w) off 108 = cal_file c ->
  ensures (storage_load_calibration fuel s) w (fun r w' => content w' = content w /\ exists fs',
    r = Some (mk_st fs' c 1 (st_sfpcount s), 0)).
Proof.
  intros Hcf Hc Hm Hck Hf. unfold storage_load_calibration. apply ensures_bind.
  eapply ensures_mono; [by eapply open_file|]. cbv beta. intros res w1 (Hc1 & fs & -> & _ & Ho). cbn [Z.ltb Z.compare].
  pose proof (cf_in _ _ _ _ _ _ _ Hcf) as Hin. pose proof (cf_size _ _ _ _ _ _ _ Hcf) as Hsz.
  apply ensures_bind. eapply ensures_mono; [apply (fread_spec fs w1 off len); [done|by rewrite Hc1|unfold sizeof_cal; lia..]|].
  cbv beta. intros r w2 [-> Hc2]. unfold sizeof_cal. cbn [Z.eqb Pos.eqb negb]. rewrite Z.add_0_r, Hc1, Hf.
  unfold cal_file. rewrite ntohl_mem_bytes by (by apply cal_words_u32). fold (cal_image c).
  rewrite cal_of_image by done. rewrite Hm, Hck, !Z.eqb_refl. cbn [negb]. apply ensures_ret.
  split; [congruence|]. by eexists.
Qed.
End cal_roundtrip.
Arguments file_at {_} W {_} fuel did size fs mem recs off len.
Arguments cal_file_at {_} W {_} fuel fs mem recs off len.

Section reboot.
Context `{Endian} {W : Type} `{!Flash W, !FlashObs W, !FlashLaws W} (fuel : nat).

Lemma file_at_mount did size fs fs2 mem recs off len : file_at W fuel did size fs mem recs off len ->
  same_mount fs fs2 -> file_at W fuel did size fs2 mem recs off len.
Proof.
  intros [[Hm1 Hm2 Hm3] Hf Hr Hi Hs Hp Ha] (H1 & H2 & H3). split; try done; [|by rewrite H2].
  split; [done|by rewrite H2|done].
Qed.
(** Writing inside a file keeps the file system. *)
Lemma file_at_inner did size fs fs2 mem recs off len off' l : file_at W fuel did size fs mem recs off len ->
  same_mount fs fs2 -> off <= off' -> off' + Z.of_nat (length l) <= off + erase_len W len ->
  file_at W fuel did size fs2 (put mem off' l) recs off len.
Proof.
  intros Hf Hm Ho Hl. apply (file_at_mount _ _ fs); [|done]. destruct Hf as [[Hm1 Hm2 Hm3] Hf Hr (Hi1 & Hi2 & Hi3 & Hi4 & Hi5 & Hi6) Hs Hp Ha].
  pose proof (erase_len_spec (W := W) len ltac:(lia)) as [He _].
  split; try done; [split; try done; apply dir_put; try done; lia|]. unfold file_in. by rewrite length_put.
Qed.
Lemma file_at_put did size fs fs2 mem recs off len l : file_at W fuel did size fs mem recs off len -> same_mount fs fs2 ->
  Z.of_nat (length l) <= erase_len W len -> file_at W fuel did size fs2 (put mem off l) recs off len.
Proof. intros ???. eapply file_at_inner; (done || lia). Qed.
End reboot.

(** C25. Saving the calibration and loading it, after a restart as well: both
    return 0, the parameters that come back are those that were saved and the
    calibration counts as loaded, for both byte orders.  On any device that
    keeps what was written to erased bytes inside a page, also when it erases
    whole sectors: the file begins with a sector, the sectors of the file do
    not touch the directory, and the 108 bytes do not cross the end of a page
    (spi_flash_write does not split a write). *)
Theorem calibration_roundtrip `{Endian} {W} `{!Flash W, !FlashObs W, !FlashLaws W} fuel (s s2 : storage) (w : W) recs off len :
  cal_file_at W fuel (st_fs s) (content w) recs off len -> cal_u32 (st_cal s) -> same_mount (st_fs s) (st_fs s2) ->
  ensures (let! r1 := storage_save_calibration fuel s in
           let! r2 := storage_load_calibration fuel s2 in ret (r1, r2)) w (fun r w' => exists s1' s2',
    r = (Some (s1', 0), Some (s2', 0)) /\ st_loaded s2' = 1 /\
    c_param_count (st_cal s2') = c_param_count (st_cal s) /\ c_params (st_cal s2') = c_params (st_cal s)).
Proof.
  intros Hcf Hc Hs. apply ensures_bind. eapply ensures_mono; [by eapply save_spec|].
  cbv beta. intros r w1 (fs' & -> & Hw1). apply ensures_bind. pose proof (sealed_u32 _ Hc) as Hse.
  pose proof (length_cal_file _ (cu_len _ Hse)) as Hlf.
  pose proof (cf_in _ _ _ _ _ _ _ _ Hcf) as (Hi1 & Hi2 & Hi3 & Hi4 & Hi5 & Hi6). pose proof (cf_size _ _ _ _ _ _ _ _ Hcf).
  pose proof (erase_len_spec (W := W) len ltac:(lia)) as [He _].
  eapply ensures_mono; [apply (load_spec fuel s2 w1 recs off len (sealed (st_cal s)))|]; try done.
  - rewrite Hw1. eapply file_at_put; [|apply Hs|lia]. eapply file_at_put; [exact Hcf| |].
    + destruct Hcf as [[? ? ?] _ _ _ _ _ _]. done.
    + rewrite length_replicate. lia.
  - rewrite Hw1. apply sub_put_eq; rewrite ?length_fill; lia.
  - cbv beta. intros r w2 (_ & fs2 & ->). apply ensures_ret. do 2 eexists. split; [reflexivity|]. done.
Qed.

(** A flash with sectors of 64 bytes, the directory at address 0 and the
    calibration file behind it, on a big-endian machine. *)
Definition demo_rec (magic typ : list Z) (first last : Z) (device : Z) : list Z :=
  magic ++ be_bytes 8 first ++ be_bytes 8 last ++ be_bytes 8 5073461966432269409 ++ be_bytes 4 device ++
  replicate 27 0 ++ typ.
Definition demo_dir : list (list Z) :=
  [demo_rec (be_bytes 4 SDB_MAGIC ++ [0; 2; 1; 0]) [0] 0 511 0;
   demo_rec (replicate 8 0) [1] 256 383 1667329129].
Definition demo_flash : spi_sim := SpiSim (concat demo_dir ++ replicate 384 255).
Definition demo_fs : sdbfs := mk_fs true 0 false (replicate 64 0) 0 0 0 0.
Lemma calibration_roundtrip_witness (be : Endian := true) :
  ensures (let! r1 := storage_save_calibration 10 (mk_st demo_fs demo_cal 0 0) in
           let! r2 := storage_load_calibration 10 (mk_st demo_fs (mk_cal 0 0 0 []) 0 0) in ret (r1, r2)) demo_flash
    (fun r w' => exists s1' s2', r = (Some (s1', 0), Some (s2', 0)) /\ st_loaded s2' = 1 /\
      c_param_count (st_cal s2') = 3 /\ c_params (st_cal s2') = c_params demo_cal).
Proof.
  apply (calibration_roundtrip 10 (mk_st demo_fs demo_cal 0 0) (mk_st demo_fs (mk_cal 0 0 0 []) 0 0) demo_flash demo_dir 256 128).
  - split.
    + split; [reflexivity| |reflexivity]. split; try (vm_compute; reflexivity); try (vm_compute; discriminate).
      * cbn. lia.
      * intros [|[|i]] r Hr; [injection Hr as <-; vm_compute; reflexivity..|discriminate].
    + cbn. lia.
    + eexists. split; [vm_compute; reflexivity|]. split; vm_compute; reflexivity.
    + assert (El : Z.of_nat (length (content demo_flash)) = 512) by (vm_compute; reflexivity).
      unfold file_in. rewrite El. change (erase_len spi_sim 128) with 128. split_and!; try lia. by exists 4.
    + lia.
    + by right.
    + right. change (0 + 64 * 2 <= 256). lia.
  - split; [unfold is_u32; cbn; lia|cbn; lia|unfold is_u32; cbn; lia|reflexivity|].
    unfold is_u32. repeat (apply Forall_cons; split; [cbn; lia|]). constructor.
  - by split.
Defined.

(** ** The MAC address survives a restart *)
Definition mac_usable (mac : list Z) : bool :=
  negb (aget 0 mac 0 =? 255) && negb (bool_decide (mac = replicate 6 0)).

Section mac.
Context `{Endian} {W : Type} `{!Flash W, !FlashObs W, !FlashLaws W} (fuel : nat).

(** Erasing a whole file and writing its beginning. *)
Lemma rewrite_spec fs (w : W) off len l : open_at fs off len -> file_in W (content w) off len -> bytes l ->
  Z.of_nat (length l) <= len -> page_ok W off (Z.of_nat (length l)) ->
  ensures (let! _ := sdbfs_ferase fs 0 (fs_f_len fs) in sdbfs_fwrite fs 0 l) w (fun r w' =>
    r = Z.of_nat (length l) /\ content w' = put (fill (content w) off 255 (erase_len W len)) off l).
Proof.
  intros Ho (Hi1 & Hi2 & Hi3 & Hi4 & Hi5 & Hi6) Hb Hl Hp. rewrite (oa_len _ _ _ Ho). apply ensures_bind.
  eapply ensures_mono; [by apply ferase_spec|]. cbv beta. intros _ w2 [_ Hc2].
  eapply ensures_mono; [eapply (fwrite_spec fs w2 off len 0 l); try done; try lia|].
  - unfold file_in. by rewrite Hc2, length_fill.
  - by rewrite Z.add_0_r.
  - pose proof (erase_len_spec (W := W) len ltac:(lia)) as [He _]. rewrite Hc2, Z.add_0_r. apply sub_erased; lia.
  - cbv beta. intros r w3 [-> Hc3]. by rewrite Hc3, Hc2, Z.add_0_r.
Qed.

Lemma zero_mac_lor a b c d e f : is_byte a -> is_byte b -> is_byte c -> is_byte d -> is_byte e -> is_byte f ->
  (Z.lor (Z.lor (Z.lor (Z.lor (Z.lor a b) c) d) e) f =? 0) = bool_decide ([a; b; c; d; e; f] = replicate 6 0).
Proof.
  intros. destruct (Z.eqb_spec (Z.lor (Z.lor (Z.lor (Z.lor (Z.lor a b) c) d) e) f) 0) as [E|E].
  - rewrite !Z.lor_eq_0_iff in E. destruct E as [[[[[-> ->] ->] ->] ->] ->]. by rewrite bool_decide_eq_true_2.
  - rewrite bool_decide_eq_false_2; [done|]. intros [= -> -> -> -> -> ->]. by apply E.
Qed.
End mac.

(** The persistent MAC address: what [storage_set_persistent_mac] saves
    is what [storage_get_persistent_mac] returns later, with the error exactly
    when the address is not usable (it starts with 0xff, as an erased file
    does, or is all zero). *)
Theorem mac_roundtrip `{Endian} {W} `{!Flash W, !FlashObs W, !FlashLaws W} fuel (s s2 : storage) (w : W) recs off len mac buf :
  file_at W fuel SDB_DEV_MAC 6 (st_fs s) (content w) recs off len -> same_mount (st_fs s) (st_fs s2) ->
  length mac = 6%nat -> bytes mac -> length buf = 6%nat ->
  ensures (let! r1 := storage_set_persistent_mac fuel s mac in
           let! r2 := storage_get_persistent_mac fuel s2 buf in ret (r1, r2)) w (fun r w' => exists s1' s2',
    r = (Some (s1', 0), Some (s2', mac, if mac_usable mac then 0 else -1))).
Proof.
  intros Hcf Hs Hl Hb Hbuf. apply ensures_bind. unfold storage_set_persistent_mac. apply ensures_bind.
  eapply ensures_mono; [by eapply open_file|]. cbv beta. intros res w1 (Hc1 & fs & -> & _ & Ho). cbn [Z.leb Z.compare].
  pose proof (cf_in _ _ _ _ _ _ _ _ Hcf) as Hin. pose proof (cf_size _ _ _ _ _ _ _ _ Hcf) as Hsz.
  replace (sub mac 0 6) with mac by (change 6 with (Z.of_nat 6); by rewrite <- Hl, sub_all).
  apply ensures_bind. eapply ensures_mono; [apply (rewrite_spec fs w1 off len); [done|by rewrite Hc1|done|lia|rewrite Hl; exact (cf_page _ _ _ _ _ _ _ _ Hcf)]|].
  cbv beta. rewrite Hl. intros r w2 [-> Hw2]. cbn [Z.ltb Z.compare Z.of_nat]. apply ensures_ret.
  apply ensures_bind. unfold storage_get_persistent_mac. apply ensures_bind. pose proof Hin as (Hi1 & Hi2 & Hi3 & Hi4 & Hi5 & Hi6).
  pose proof (erase_len_spec (W := W) len ltac:(lia)) as [He _].
  assert (Hcf2 : file_at W fuel SDB_DEV_MAC 6 (st_fs s2) (content w2) recs off len).
  { rewrite Hw2, Hc1. eapply file_at_put; [|apply Hs|lia]. eapply file_at_put; [exact Hcf| |].
    - destruct Hcf as [[? ? ?] _ _ _ _ _ _]. done.
    - rewrite length_replicate. lia. }
  eapply ensures_mono; [by eapply open_file|]. cbv beta. intros res w3 (Hc3 & fs2 & -> & _ & Ho2). cbn [Z.ltb Z.compare].
  pose proof (cf_in _ _ _ _ _ _ _ _ Hcf2) as Hin2.
  apply ensures_bind, ensures_bind.
  eapply ensures_mono; [apply (fread_spec fs2 w3 off len 0 6); [done|by rewrite Hc3|lia..]|].
  cbv beta. intros r w4 [-> Hc4]. apply ensures_ret. cbn [fst snd]. rewrite Z.add_0_r, Hc3, Hw2.
  rewrite sub_put_eq by (rewrite ?length_fill, ?Hc1; lia). rewrite put_all by congruence.
  apply ensures_ret. apply ensures_ret. do 2 eexists. repeat f_equal. unfold mac_usable.
  do 6 (destruct mac as [|? mac]; [discriminate|]). destruct mac; [|discriminate].
  unfold aget. cbn -[Z.lor Z.eqb replicate bool_decide].
  unfold bytes in Hb. rewrite !Forall_cons in Hb. destruct Hb as (? & ? & ? & ? & ? & ? & _).
  rewrite zero_mac_lor by done. by destruct (_ =? 255), (bool_decide _).
Qed.

Definition demo_mac : list Z := [34; 51; 68; 85; 102; 119].
Definition demo_dir2 : list (list Z) :=
  [demo_rec (be_bytes 4 SDB_MAGIC ++ [0; 3; 1; 0]) [0] 0 511 0;
   demo_rec (replicate 8 0) [1] 256 383 1667329129; demo_rec (replicate 8 0) [1] 192 207 1835098925].
Definition demo_flash2 : flash_sim := FlashSim (concat demo_dir2 ++ replicate 320 255).
Lemma mac_roundtrip_witness (be : Endian := true) :
  ensures (let! r1 := storage_set_persistent_mac 10 (mk_st demo_fs demo_cal 0 0) demo_mac in
           let! r2 := storage_get_persistent_mac 10 (mk_st demo_fs demo_cal 1 2) (replicate 6 0) in ret (r1, r2)) demo_flash2
    (fun r w' => exists s1' s2', r = (Some (s1', 0), Some (s2', demo_mac, 0))).
Proof.
  apply (mac_roundtrip 10 (mk_st demo_fs demo_cal 0 0) (mk_st demo_fs demo_cal 1 2) demo_flash2 demo_dir2 192 16 demo_mac (replicate 6 0)).
  - split.
    + split; [reflexivity| |reflexivity]. split; try (vm_compute; reflexivity); try (vm_compute; discriminate).
      * cbn. lia.
      * intros [|[|[|i]]] r Hr; [injection Hr as <-; vm_compute; reflexivity..|discriminate].
    + cbn. lia.
    + eexists. split; [vm_compute; reflexivity|]. split; vm_compute; reflexivity.
    + assert (El : Z.of_nat (length (content demo_flash2)) = 512) by (vm_compute; reflexivity).
      unfold file_in. rewrite El. change (erase_len flash_sim 16) with 16. split_and!; try lia. by exists 192.
    + lia.
    + by right.
    + right. change (0 + 64 * 3 <= 192). lia.
  - by split.
  - reflexivity.
  - unfold bytes, is_byte. repeat (apply Forall_cons; split; [lia|]). constructor.
  - reflexivity.
Defined.
