(* ===== verification/SfpDb.v ===== *)
(** dev/storage-sfp.c: the database of SFP transceivers.  An entry of 33 bytes
    gives the delays and the asymmetry coefficient of a part number; the
    database is a file of the SDB file system that is searched, extended at its
    end, and rewritten as a whole when an entry changes. *)
From Stdlib Require Import ZArith Lia.
From stdpp Require Import base numbers option list.
From S2P Require Import Prelude Bytes Sdbfs Storage.

Definition SFPS_MAX : Z := 4.
Definition SFP_PN_LEN : Z := 16.
Definition SFP_GET : Z := 0.
Definition SFP_ADD : Z := 1.
Definition EE_RET_I2CERR : Z := -1.
Definition EE_RET_DBFULL : Z := -2.
Definition EE_RET_POSERR : Z := -4.
Definition SDB_DEV_SFP `{Endian} : Z := htonl 1936093229.

(** struct s_sfpinfo (packed, 33 bytes) *)
Record s_sfpinfo := mk_sfp { sfp_pn : list Z; sfp_alpha : Z; sfp_dTx : Z; sfp_dRx : Z; sfp_chksum : Z }.
#[export] Instance eta_sfp : Etable s_sfpinfo := fun s =>
  mk_sfp (sfp_pn s) (sfp_alpha s) (sfp_dTx s) (sfp_dRx s) (sfp_chksum s).

(** ** Images in memory *)
Section images.
Context `{Endian}.

Definition sfp_image (s : s_sfpinfo) : list Z :=
  sfp_pn s ++ image 8 (u64 (sfp_alpha s)) ++ image 4 (u32 (sfp_dTx s)) ++ image 4 (u32 (sfp_dRx s)) ++
  [sfp_chksum s].
Definition sfp_of (l : list Z) : s_sfpinfo :=
  mk_sfp (sub l 0 16) (s64 (value (sub l 16 8))) (s32 (value (sub l 24 4))) (s32 (value (sub l 28 4)))
         (aget 0 l 32).
Definition sizeof_sfp : Z := 33.

(** The sum of the bytes without the checksum. *)
Definition sfp_sum (l : list Z) : Z := foldl (fun c i => (c + aget 0 l i)%int) 0 (range (sizeof_sfp - 1)).
(** [sfp->alpha = ntohll(sfp->alpha)] and so on; the conversion is its own
    inverse. *)
Definition sfp_swap (s : s_sfpinfo) : s_sfpinfo :=
  s <| sfp_alpha := s64 (htonll (u64 (sfp_alpha s))) |> <| sfp_dTx := s32 (htonl (u32 (sfp_dTx s))) |>
    <| sfp_dRx := s32 (htonl (u32 (sfp_dRx s))) |>.

(** [char] is unsigned on both CPUs. *)
Definition sfp_valid (s : s_sfpinfo) : bool :=
  forallb (fun i => negb (aget 0 (sfp_pn s) i =? 255)) (range SFP_PN_LEN).

(** [!strncmp(a, b, 16)] *)
Fixpoint same_str (n : nat) (a b : list Z) : bool :=
  match n with
  | O => true
  | S n =>
      let x := aget 0 a 0 in
      if negb (x =? aget 0 b 0) then false
      else if x =? 0 then true else same_str n (drop 1 a) (drop 1 b)
  end.
Definition same_pn (a b : s_sfpinfo) : bool := same_str 16 (sfp_pn a) (sfp_pn b).
End images.

Section files.
Context `{Endian} {W : Type} `{!Flash W} (fuel : nat).
Implicit Types (s : storage).

(** ** The database of SFPs *)
Definition storage_sfpdb_erase s : M W (option (storage * Z)) :=
  let! r := sdbfs_open_id fuel (st_fs s) SDB_VENDOR SDB_DEV_SFP in
  match r with
  | None => ret None
  | Some (fs, rc) =>
      if rc <? 0 then ret (Some (set_fs s fs, -1))
      else
        let! res := sdbfs_ferase fs 0 (fs_f_len fs) in
        let res := if u32 res =? fs_f_len fs then 1 else res in
        ret (Some (set_fs s (sdbfs_close fs), if res =? 1 then 0 else -1))
  end.

(** The loop that counts the entries; a file of 64 KiB has less than 2000. *)
Fixpoint sfp_count (n : nat) (fs : sdbfs) (count : Z) : M W (option Z) :=
  match n with
  | O => ret None
  | S n =>
      let! r := sdbfs_fread fs (1 + count * sizeof_sfp) sizeof_sfp in
      if negb (r.2 =? sizeof_sfp) then ret (Some count)
      else if negb (sfp_valid (sfp_of r.1)) then ret (Some count)
      else sfp_count n fs (count + 1)
  end.

(** The part of [sfp_entry] after the count: the entry at the pointer and the
    result. *)
Definition sfp_access s (fs : sdbfs) (sfp : s_sfpinfo) (oper pos count : Z) : M W (option (storage * s_sfpinfo * Z)) :=
  let s := s <| st_sfpcount := count |> in
  let done sfp res := ret (Some (set_fs s (sdbfs_close fs), sfp, res)) in
  if (oper =? SFP_ADD) && (count =? SFPS_MAX) then done sfp EE_RET_DBFULL
  else if (pos =? 0) && (oper =? SFP_GET) && (count =? 0) then done sfp 0
  else if oper =? SFP_GET then
    let! r := sdbfs_fread fs (1 + pos * sizeof_sfp) sizeof_sfp in
    let '(mem, n) := r in
    let mem := put (sfp_image sfp) 0 mem in
    if negb (n =? sizeof_sfp) then done (sfp_of mem) (-1)
    else if negb (Z.land (sfp_sum mem) 255 =? aget 0 mem 32) then done (sfp_of mem) (-1)
    else done (sfp_swap (sfp_of mem)) count
  else if oper =? SFP_ADD then
    let tempsfp := sfp_swap sfp in
    let tempsfp := tempsfp <| sfp_chksum := u8 (sfp_sum (sfp_image tempsfp)) |> in
    let! n := sdbfs_fwrite fs (1 + count * sizeof_sfp) (sfp_image tempsfp) in
    if negb (n =? sizeof_sfp) then done sfp (-1)
    else ret (Some ((set_fs s (sdbfs_close fs)) <| st_sfpcount := count + 1 |>, sfp, count + 1))
  else done sfp count.

Definition sfp_entry s (sfp : s_sfpinfo) (oper pos : Z) : M W (option (storage * s_sfpinfo * Z)) :=
  if SFPS_MAX <=? pos then ret (Some (s, sfp, EE_RET_POSERR))
  else
    let! r := sdbfs_open_id fuel (st_fs s) SDB_VENDOR SDB_DEV_SFP in
    match r with
    | None => ret None
    | Some (fs, rc) =>
        if rc <? 0 then ret (Some (set_fs s fs, sfp, -1))
        else
          let! count := (if pos =? 0 then sfp_count fuel fs 0 else ret (Some (st_sfpcount s))) in
          match count with
          | None => ret None
          | Some count => sfp_access s fs sfp oper pos count
          end
    end.

(** The loop of [storage_match_sfp] from position [i]: [sfpcount] is what the
    last call returned. *)
Fixpoint match_loop (n : nat) s (sfp : s_sfpinfo) (tmp : s_sfpinfo) (i sfpcount : Z)
    : M W (option (storage * s_sfpinfo * Z)) :=
  match n with
  | O => ret None
  | S n =>
      if negb (i <? sfpcount) then ret (Some (s, sfp, 0))
      else
        let! r := sfp_entry s tmp SFP_GET i in
        match r with
        | None => ret None
        | Some (s, dbsfp, sfpcount) =>
            if sfpcount <=? 0 then ret (Some (s, sfp, sfpcount))
            else if same_pn dbsfp sfp
            then ret (Some (s, sfp <| sfp_dTx := sfp_dTx dbsfp |> <| sfp_dRx := sfp_dRx dbsfp |>
                                   <| sfp_alpha := sfp_alpha dbsfp |>, 1))
            else match_loop n s sfp dbsfp (i + 1) sfpcount
        end
  end.
(** [tmp] is the uninitialised local entry; positions from [SFPS_MAX] on are
    refused, so five rounds are enough. *)
Definition storage_match_sfp s (sfp tmp : s_sfpinfo) : M W (option (storage * s_sfpinfo * Z)) :=
  match_loop 6 s sfp tmp 0 1.

(** The first loop of [storage_update_sfp]: the entries read, updated when
    they match; [inl] is an early return. *)
Fixpoint collect_loop (n : nat) s (sfp tmp : s_sfpinfo) (i sfpcount : Z) (db : list s_sfpinfo)
    : M W (option (storage * (Z + list s_sfpinfo * Z))) :=
  match n with
  | O => ret None
  | S n =>
      if negb (i <? sfpcount) then ret (Some (s, inr (db, sfpcount)))
      else
        let! r := sfp_entry s tmp SFP_GET i in
        match r with
        | None => ret None
        | Some (s, dbsfp, sfpcount) =>
            if sfpcount <=? 0 then ret (Some (s, inl sfpcount))
            else
              let dbsfp := if same_pn dbsfp sfp
                           then dbsfp <| sfp_dTx := sfp_dTx sfp |> <| sfp_dRx := sfp_dRx sfp |>
                                      <| sfp_alpha := sfp_alpha sfp |> else dbsfp in
              collect_loop n s sfp tmp (i + 1) sfpcount (db ++ [dbsfp])
        end
  end.
Fixpoint add_loop s (db : list s_sfpinfo) (i : Z) : M W (option (storage * Z)) :=
  match db with
  | [] => ret (Some (s, i))
  | sfp :: db =>
      let! r := sfp_entry s sfp SFP_ADD 0 in
      match r with
      | None => ret None
      | Some (s, _, temp) => if temp <? 0 then ret (Some (s, temp)) else add_loop s db (i + 1)
      end
  end.
Definition storage_update_sfp s (sfp tmp : s_sfpinfo) : M W (option (storage * Z)) :=
  let! r := collect_loop 6 s sfp tmp 0 1 [] in
  match r with
  | None => ret None
  | Some (s, inl res) => ret (Some (s, res))
  | Some (s, inr (db, _)) =>
      let! r := storage_sfpdb_erase s in
      match r with
      | None => ret None
      | Some (s, res) => if res =? EE_RET_I2CERR then ret (Some (s, -1)) else add_loop s db 0
      end
  end.

Definition storage_get_sfp s (sfp tmp : s_sfpinfo) (oper pos : Z) : M W (option (storage * s_sfpinfo * Z)) :=
  if oper =? SFP_GET then sfp_entry s sfp SFP_GET pos
  else
    let! r := storage_match_sfp s sfp tmp in
    match r with
    | None => ret None
    | Some (s, _, found) =>
        if found =? 0 then sfp_entry s sfp SFP_ADD 0
        else let! r := storage_update_sfp s sfp tmp in
             ret (match r with None => None | Some (s, res) => Some (s, sfp, res) end)
    end.
End files.

(** ** The bytes of an entry *)
Record sfp_ok (e : s_sfpinfo) : Prop := {
  so_len : length (sfp_pn e) = 16%nat; so_pn : Forall (fun b => 0 <= b < 255) (sfp_pn e);
  so_alpha : is_s64 (sfp_alpha e); so_dTx : is_s32 (sfp_dTx e); so_dRx : is_s32 (sfp_dRx e) }.

Section entry.
Context `{Endian}.
Implicit Types (e : s_sfpinfo).

(** What is written for an entry, without and with its checksum. *)
Definition sfp_body e : list Z :=
  sfp_pn e ++ be_bytes 8 (u64 (sfp_alpha e)) ++ be_bytes 4 (u32 (sfp_dTx e)) ++ be_bytes 4 (u32 (sfp_dRx e)).
Definition sfp_bytes e : list Z := sfp_body e ++ [u8 (sfp_sum (sfp_body e))].

Lemma length_body e : sfp_ok e -> length (sfp_body e) = 32%nat.
Proof. intros Ho. unfold sfp_body. rewrite !length_app, !length_be_bytes, (so_len _ Ho). done. Qed.
Lemma length_sfp_bytes e : sfp_ok e -> length (sfp_bytes e) = 33%nat.
Proof. intros Ho. unfold sfp_bytes. by rewrite length_app, length_body. Qed.
Lemma bytes_sfp_bytes e : sfp_ok e -> bytes (sfp_bytes e).
Proof.
  intros Ho. unfold sfp_bytes, sfp_body. rewrite !bytes_app. split_and!; try apply bytes_be.
  - eapply Forall_impl; [apply (so_pn _ Ho)|]. unfold is_byte. cbn. lia.
  - apply Forall_singleton, u8_range.
Qed.

Lemma sfp_sum_app l m : length l = 32%nat -> sfp_sum (l ++ m) = sfp_sum l.
Proof.
  intros Hl. unfold sfp_sum. change (sizeof_sfp - 1) with 32.
  assert (Hgo : forall k a, (forall i, i ∈ k -> 0 <= i < 32) ->
    foldl (fun c i => (c + aget 0 (l ++ m) i)%int) a k = foldl (fun c i => (c + aget 0 l i)%int) a k).
  { induction k as [|i k IH]; intros a Hk; [done|]. cbn [foldl]. rewrite IH by (intros; apply Hk; by right).
    f_equal. f_equal. specialize (Hk i ltac:(by left)). unfold aget. destruct (i <? 0); [done|].
    rewrite lookup_app_l by lia. done. }
  apply Hgo. intros i Hi. by apply elem_of_range in Hi.
Qed.

Lemma sfp_image_swap e x : sfp_image ((sfp_swap e) <| sfp_chksum := x |>) = sfp_body e ++ [x].
Proof.
  unfold sfp_image, sfp_swap, sfp_body. cbn [sfp_pn sfp_alpha sfp_dTx sfp_dRx sfp_chksum upd].
  rewrite <- !app_assoc, u64_s64, !u32_s32, u64_htonll, !u32_htonl.
  rewrite image_htonll, !image_htonl by apply u32_range || apply u64_range. done.
Qed.
Lemma stored_bytes e : sfp_ok e ->
  sfp_image ((sfp_swap e) <| sfp_chksum := u8 (sfp_sum (sfp_image (sfp_swap e))) |>) = sfp_bytes e.
Proof.
  intros Ho. rewrite sfp_image_swap. unfold sfp_bytes.
  pose proof (sfp_image_swap e (sfp_chksum (sfp_swap e))) as Hx.
  replace ((sfp_swap e) <| sfp_chksum := sfp_chksum (sfp_swap e) |>) with (sfp_swap e) in Hx by done.
  rewrite Hx, sfp_sum_app by (by apply length_body). done.
Qed.
(** The entry that is read back. *)
Definition stored e : s_sfpinfo := e <| sfp_chksum := u8 (sfp_sum (sfp_body e)) |>.
Lemma sfp_bytes_stored e : sfp_bytes (stored e) = sfp_bytes e.
Proof. done. Qed.
Lemma sfp_of_bytes e : sfp_ok e -> sfp_pn (sfp_of (sfp_bytes e)) = sfp_pn e /\ sfp_swap (sfp_of (sfp_bytes e)) = stored e.
Proof.
  intros Ho. pose proof (so_len _ Ho) as Hp. pose proof (length_body _ Ho) as Hb.
  assert (E1 : sub (sfp_bytes e) 0 16 = sfp_pn e).
  { unfold sfp_bytes, sfp_body. rewrite <- !app_assoc. apply (sub_mid []); rewrite ?Hp; done. }
  assert (E2 : sub (sfp_bytes e) 16 8 = be_bytes 8 (u64 (sfp_alpha e))).
  { unfold sfp_bytes, sfp_body. rewrite <- !app_assoc. apply sub_mid; rewrite ?Hp, ?length_be_bytes; done. }
  assert (E3 : sub (sfp_bytes e) 24 4 = be_bytes 4 (u32 (sfp_dTx e))).
  { unfold sfp_bytes, sfp_body. rewrite <- !app_assoc, (app_assoc (sfp_pn e)).
    apply sub_mid; rewrite ?length_app, ?Hp, ?length_be_bytes; done. }
  assert (E4 : sub (sfp_bytes e) 28 4 = be_bytes 4 (u32 (sfp_dRx e))).
  { unfold sfp_bytes, sfp_body. rewrite <- !app_assoc, (app_assoc (sfp_pn e)), (app_assoc (_ ++ _)).
    apply sub_mid; rewrite ?length_app, ?Hp, ?length_be_bytes; done. }
  assert (E5 : aget 0 (sfp_bytes e) 32 = u8 (sfp_sum (sfp_body e))).
  { unfold sfp_bytes. rewrite (aget_mid 0 _ _ []) by lia. done. }
  unfold sfp_of. rewrite E1, E2, E3, E4, E5. split; [done|]. unfold sfp_swap, stored.
  destruct e as [pn al tx rx ck]. cbn [upd sfp_pn sfp_alpha sfp_dTx sfp_dRx sfp_chksum] in *.
  rewrite u64_s64, !u32_s32.
  rewrite read32, read32, read64 by apply Ho. done.
Qed.
End entry.

(** ** The database as a list of entries *)

(** The whole entries that fit in a file, and how many are used. *)
Definition slots (len : Z) : Z := (len - 1) / sizeof_sfp.
Definition capacity (len : Z) : Z := Z.min SFPS_MAX (slots len).
Lemma slots_spec len : 1 <= len -> 0 <= slots len /\ 1 + slots len * 33 <= len < 1 + (slots len + 1) * 33.
Proof.
  intros Hl. unfold slots, sizeof_sfp. pose proof (Z.div_mod (len - 1) 33 ltac:(lia)). pose proof (Z.mod_pos_bound (len - 1) 33 ltac:(lia)).
  split; [apply Z.div_pos; lia|lia].
Qed.

Record db_at `{Endian} (mem : list Z) (off len : Z) (db : list s_sfpinfo) : Prop := {
  db_max : Z.of_nat (length db) <= capacity len; db_ok : Forall sfp_ok db;
  db_entry : forall i e, db !! i = Some e -> sub mem (off + (1 + Z.of_nat i * sizeof_sfp)) sizeof_sfp = sfp_bytes e;
  db_free : forall j, 1 + Z.of_nat (length db) * sizeof_sfp <= j < 1 + slots len * sizeof_sfp -> aget 0 mem (off + j) = 255 }.

(** The database of the mounted device; its four entries of 33 bytes, as far as
    they fit, lie in one page of it. *)
Record sfpdb `{Endian} (W : Type) `{!FlashObs W} (fuel : nat) (s : storage) (mem : list Z) (recs : list (list Z)) (off len : Z)
    (db : list s_sfpinfo) : Prop := {
  sd_file : file_at W fuel SDB_DEV_SFP 1 (st_fs s) mem recs off len;
  sd_fuel : (5 <= fuel)%nat; sd_page : page_ok W off (Z.min len 133);
  sd_db : db_at mem off len db }.

Section db.
Context `{Endian} {W : Type} `{!Flash W, !FlashObs W, !FlashLaws W} (fuel : nat).
Implicit Types (w : W) (s : storage) (db : list s_sfpinfo).

Lemma sfp_valid_ok e : sfp_ok e -> sfp_valid (sfp_of (sfp_bytes e)) = true.
Proof.
  intros Ho. unfold sfp_valid. rewrite (proj1 (sfp_of_bytes e Ho)). apply forallb_forall. intros i Hi.
  apply list_elem_of_In, elem_of_range in Hi. unfold SFP_PN_LEN in Hi.
  pose proof (so_pn _ Ho) as Hp. rewrite Forall_lookup in Hp.
  assert (Hl : (Z.to_nat i < length (sfp_pn e))%nat) by (rewrite (so_len _ Ho); lia).
  destruct (lookup_lt_is_Some_2 _ _ Hl) as [x Hx]. unfold aget. destruct (Z.ltb_spec i 0); [lia|]. rewrite Hx. cbn.
  specialize (Hp _ _ Hx). destruct (Z.eqb_spec x 255); [lia|done].
Qed.
(** The bytes behind the entries do not look like an entry. *)
Lemma sfp_valid_free mem off len db : db_at mem off len db ->
  1 + (Z.of_nat (length db) + 1) * sizeof_sfp <= len ->
  sfp_valid (sfp_of (sub mem (off + (1 + Z.of_nat (length db) * sizeof_sfp)) sizeof_sfp)) = false.
Proof.
  intros Hd Hl. unfold sfp_valid, SFP_PN_LEN, sfp_of. cbn [sfp_pn].
  assert (E : aget 0 (sub (sub mem (off + (1 + Z.of_nat (length db) * sizeof_sfp)) sizeof_sfp) 0 16) 0 = 255).
  { change (aget 0 mem (off + (1 + Z.of_nat (length db) * sizeof_sfp) + 0) = 255). rewrite Z.add_0_r.
    apply (db_free _ _ _ _ Hd). pose proof (slots_spec len). unfold sizeof_sfp in *. lia. }
  cbn [forallb range]. change (range 16) with (0 :: (Z.of_nat <$> seq 1 15)). cbn [forallb]. by rewrite E.
Qed.

Lemma count_spec fs w off len db : open_at fs off len -> file_in W (content w) off len -> db_at (content w) off len db ->
  1 <= len -> forall n k, 0 <= k <= Z.of_nat (length db) -> (Z.to_nat (Z.of_nat (length db) - k) < n)%nat ->
  ensures (sfp_count n fs k) w (fun r w' => r = Some (Z.of_nat (length db)) /\ content w' = content w).
Proof.
  intros Ho Hin Hd Hlen n. assert (Hmax := db_max _ _ _ _ Hd). unfold capacity, SFPS_MAX in Hmax.
  pose proof (slots_spec len Hlen) as Hsl. pose proof Hin as (_ & Hlim & _).
  revert w Hin Hd. induction n as [|n IH]; intros w Hin Hd k Hk Hn; [lia|]. cbn [sfp_count].
  apply ensures_bind. destruct (Z.eq_dec k (Z.of_nat (length db))) as [->|Hne].
  - destruct (Z.le_gt_cases (1 + (Z.of_nat (length db) + 1) * sizeof_sfp) len) as [Hle|Hgt].
    + eapply ensures_mono; [eapply fread_spec; try done; unfold sizeof_sfp in *; lia|]. cbv beta. intros r w1 [-> Hc].
      cbn [fst snd]. rewrite Z.eqb_refl. cbn [negb]. rewrite (sfp_valid_free _ _ _ _ Hd) by done. cbn [negb].
      by apply ensures_ret.
    + eapply ensures_mono; [eapply fread_clip; try done; unfold sizeof_sfp in *; lia|]. cbv beta. intros r w1 [Hr Hc].
      rewrite Hr. destruct (Z.eqb_spec (len - (1 + Z.of_nat (length db) * sizeof_sfp)) sizeof_sfp); [unfold sizeof_sfp in *; lia|].
      cbn [negb]. by apply ensures_ret.
  - assert (Hl : (Z.to_nat k < length db)%nat) by lia. destruct (lookup_lt_is_Some_2 _ _ Hl) as [e He].
    eapply ensures_mono; [eapply fread_spec; try done; unfold sizeof_sfp in *; lia|]. cbv beta. intros r w1 [-> Hc].
    cbn [fst snd]. rewrite Z.eqb_refl. cbn [negb].
    pose proof (db_entry _ _ _ _ Hd _ _ He) as Hx. rewrite Z2Nat.id in Hx by lia. rewrite Hx.
    pose proof (db_ok _ _ _ _ Hd) as Hok. rewrite Forall_lookup in Hok. rewrite sfp_valid_ok by (by eapply Hok).
    cbn [negb]. eapply ensures_mono; [apply IH; rewrite ?Hc; (done || lia)|]. cbv beta. intros r w2 [-> Hc2].
    split; [done|congruence].
Qed.
End db.

Lemma land_255 v : Z.land v 255 = u8 v.
Proof. change 255 with (Z.ones 8). by rewrite Z.land_ones. Qed.

Section db_ops.
Context `{Endian} {W : Type} `{!Flash W, !FlashObs W, !FlashLaws W} (fuel : nat) (recs : list (list Z)) (off len : Z).
Implicit Types (w : W) (s : storage) (db : list s_sfpinfo).
Local Abbreviation sfpdb := (sfpdb W fuel).

Lemma sfpdb_mount s s' mem db : sfpdb s mem recs off len db -> same_mount (st_fs s) (st_fs s') ->
  sfpdb s' mem recs off len db.
Proof. intros [Hf Hfu Hpg Hd] Hm. split; [by eapply file_at_mount|done..]. Qed.

(** Opening the file and counting; [sfpcount] is kept for the positions
    after the first. *)
Lemma entry_spec s sfp oper pos w db (Q : option (storage * s_sfpinfo * Z) -> W -> Prop) :
  sfpdb s (content w) recs off len db -> pos < SFPS_MAX ->
  pos = 0 \/ st_sfpcount s = Z.of_nat (length db) ->
  (forall fs w', same_mount (st_fs s) fs -> open_at fs off len -> content w' = content w ->
     ensures (sfp_access s fs sfp oper pos (Z.of_nat (length db))) w' Q) ->
  ensures (sfp_entry fuel s sfp oper pos) w Q.
Proof.
  intros [Hf Hfu Hpg Hd] Hp Hc HQ. unfold sfp_entry. destruct (Z.leb_spec SFPS_MAX pos); [lia|].
  apply ensures_bind. eapply ensures_mono; [by eapply open_file|]. cbv beta. intros res w1 (Hc1 & fs & -> & Hsm & Ho).
  cbn [Z.ltb Z.compare]. apply ensures_bind. destruct (Z.eqb_spec pos 0) as [->|Hne].
  - eapply ensures_mono; [eapply (count_spec fs w1 off len db)|].
    + done.
    + rewrite Hc1. by eapply cf_in.
    + by rewrite Hc1.
    + by eapply cf_size.
    + lia.
    + pose proof (db_max _ _ _ _ Hd) as Hmax. unfold capacity, SFPS_MAX in Hmax. lia.
    + cbv beta. intros r w2 [-> Hc2]. apply HQ; [done|done|congruence].
  - apply ensures_ret. destruct Hc as [?| ->]; [lia|]. by apply HQ.
Qed.

Lemma get_access s fs tmp w db i e : file_in W (content w) off len -> 1 <= len -> db_at (content w) off len db ->
  open_at fs off len -> length (sfp_pn tmp) = 16%nat -> db !! i = Some e ->
  ensures (sfp_access s fs tmp SFP_GET (Z.of_nat i) (Z.of_nat (length db))) w (fun r w' => content w' = content w /\
    r = Some ((set_fs s (sdbfs_close fs)) <| st_sfpcount := Z.of_nat (length db) |>, stored e, Z.of_nat (length db))).
Proof.
  intros Hin Hlen Hd Ho Ht He. pose proof (lookup_lt_Some _ _ _ He) as Hi. unfold sfp_access.
  pose proof (db_max _ _ _ _ Hd) as Hmax. unfold capacity, SFPS_MAX in Hmax. pose proof (slots_spec len Hlen). change (SFP_GET =? SFP_ADD) with false. change (SFP_GET =? SFP_GET) with true.
  cbn [andb]. destruct (Z.eqb_spec (Z.of_nat (length db)) 0); [lia|]. rewrite andb_false_r.
  apply ensures_bind. eapply ensures_mono; [eapply fread_spec; try done; unfold sizeof_sfp in *; lia|].
  cbv beta. intros r w1 [-> Hc]. rewrite (db_entry _ _ _ _ Hd _ _ He).
  pose proof (db_ok _ _ _ _ Hd) as Hok. rewrite Forall_lookup in Hok. specialize (Hok _ _ He).
  rewrite put_all.
  2: { rewrite length_sfp_bytes by done. unfold sfp_image. by rewrite !length_app, !length_image, Ht. }
  rewrite Z.eqb_refl. cbn [negb]. unfold sfp_bytes at 1 2. rewrite sfp_sum_app, (aget_mid 0 _ _ []) by (rewrite length_body; done).
  rewrite land_255, Z.eqb_refl. cbn [negb]. rewrite (proj2 (sfp_of_bytes e Hok)). apply ensures_ret. split; [exact Hc|reflexivity].
Qed.

(** Appending an entry to the bytes. *)
Lemma db_append mem db e : file_in W mem off len -> 1 <= len -> db_at mem off len db -> sfp_ok e ->
  Z.of_nat (length db) < capacity len ->
  db_at (put mem (off + (1 + Z.of_nat (length db) * sizeof_sfp)) (sfp_bytes e)) off len (db ++ [e]).
Proof.
  intros (Hi1 & Hi2 & Hi3 & Hi4 & Hi5 & Hi6) Hlen [Hmax Hok Hen Hfr] He Hlt. pose proof (length_sfp_bytes e He) as Hl. pose proof (slots_spec len Hlen).
  unfold capacity, SFPS_MAX, sizeof_sfp in *. split; unfold capacity, SFPS_MAX, sizeof_sfp.
  - rewrite length_app. cbn. lia.
  - apply Forall_app. split; [done|]. by apply Forall_singleton.
  - intros i x Hx. apply lookup_snoc_Some in Hx as [ [Hlti Hx]|[-> <-] ].
    + rewrite sub_put_ne by lia. by apply Hen.
    + apply sub_put_eq; lia.
  - rewrite length_app. cbn [length]. intros j Hj. rewrite aget_put_ne by lia. apply Hfr. lia.
Qed.

(** What is written behind the last whole entry does not matter. *)
Lemma db_tail mem db a l : db_at mem off len db -> 0 <= off -> 1 <= len -> off + 1 + slots len * sizeof_sfp <= a ->
  a + Z.of_nat (length l) <= Z.of_nat (length mem) -> db_at (put mem a l) off len db.
Proof.
  intros [Hmax Hok Hen Hfr] Ho Hlen Ha Hl. pose proof (slots_spec len Hlen). unfold capacity, sizeof_sfp in *. split; try done.
  - intros i e He. pose proof (lookup_lt_Some _ _ _ He). unfold sizeof_sfp. rewrite sub_put_ne by lia. by apply Hen.
  - intros j Hj. unfold sizeof_sfp in Hj. rewrite aget_put_ne by lia. by apply Hfr.
Qed.

(** Adding an entry: the result and the new list. *)
Definition add_result (e : s_sfpinfo) db : list s_sfpinfo * Z :=
  if Z.of_nat (length db) =? SFPS_MAX then (db, EE_RET_DBFULL)
  else if slots len <=? Z.of_nat (length db) then (db, -1) else (db ++ [e], Z.of_nat (length db) + 1).
Lemma add_spec s e w db : sfpdb s (content w) recs off len db -> sfp_ok e ->
  ensures (sfp_entry fuel s e SFP_ADD 0) w (fun r w' => exists s',
    r = Some (s', e, (add_result e db).2) /\ sfpdb s' (content w') recs off len (add_result e db).1).
Proof.
  intros Hs He. eapply entry_spec; [done|unfold SFPS_MAX; lia|by left|]. intros fs w1 Hsm Ho Hc. unfold sfp_access, add_result.
  change (SFP_ADD =? SFP_ADD) with true. change (SFP_ADD =? SFP_GET) with false. rewrite andb_false_r. cbn [andb].
  pose proof Hs as [Hf Hfu Hpg Hd]. pose proof (cf_in _ _ _ _ _ _ _ _ Hf) as Hin. pose proof (cf_size _ _ _ _ _ _ _ _ Hf) as Hlen.
  destruct (Z.eqb_spec (Z.of_nat (length db)) SFPS_MAX) as [Hfull|Hnf].
  { apply ensures_ret. eexists. split; [reflexivity|]. rewrite Hc. eapply sfpdb_mount; [exact Hs|exact Hsm]. }
  pose proof (db_max _ _ _ _ Hd) as Hmax. unfold capacity, SFPS_MAX in *. rewrite stored_bytes by done. pose proof (slots_spec len Hlen) as Hsl.
  pose proof (length_sfp_bytes e He) as Hl. pose proof Hin as (Hi1 & Hi2 & Hi3 & Hi4 & Hi5 & Hi6). apply ensures_bind.
  destruct (Z.leb_spec (slots len) (Z.of_nat (length db))) as [Hns|Hns].
  { eapply ensures_mono; [apply (fwrite_any fs w1 off len); [done|by rewrite Hc|unfold sizeof_sfp; lia..|]|].
    { eapply page_ok_part; [exact Hpg|unfold sizeof_sfp; lia..]. }
    cbv beta. intros r w2 (-> & l' & Hl' & Hc2). rewrite Hl in *.
    destruct (Z.eqb_spec (Z.min (Z.of_nat 33) (len - (1 + Z.of_nat (length db) * sizeof_sfp))) sizeof_sfp); [unfold sizeof_sfp in *; lia|].
    pose proof (erase_len_spec (W := W) len ltac:(lia)) as [He' _]. cbn [negb]. apply ensures_ret. eexists. split; [reflexivity|]. rewrite Hc2, Hc. split; [|done|done|].
    - eapply file_at_inner; [exact Hf|exact Hsm|unfold sizeof_sfp in *; lia..].
    - apply db_tail; try done; unfold sizeof_sfp in *; lia. }
  pose proof (erase_len_spec (W := W) len ltac:(lia)) as [He' _].
  eapply ensures_mono.
  { eapply (fwrite_spec fs w1 off len); [by apply bytes_sfp_bytes|done|by rewrite Hc|unfold sizeof_sfp; lia|unfold sizeof_sfp; lia| |].
    { eapply page_ok_part; [exact Hpg|unfold sizeof_sfp; lia..]. }
    rewrite Hl. apply list_eq. intros k. destruct (Nat.lt_ge_cases k 33) as [Hk|Hk].
    - rewrite lookup_sub, lookup_replicate_2, Hc by lia. f_equal. rewrite <- Z.add_assoc.
      apply (db_free _ _ _ _ Hd). unfold sizeof_sfp. lia.
    - rewrite !lookup_ge_None_2; [done|by rewrite length_replicate|]. rewrite length_sub. lia. }
  cbv beta. intros r w2 [-> Hc2]. rewrite Hl. cbn [Z.of_nat Pos.of_succ_nat Pos.succ]. change (33 =? sizeof_sfp) with true. cbn [negb].
  apply ensures_ret. eexists. split; [reflexivity|]. rewrite Hc2, Hc.
  split; [|done|done|apply db_append; try done; unfold capacity, SFPS_MAX; lia]. eapply file_at_inner; [exact Hf|exact Hsm|unfold sizeof_sfp; lia..].
Qed.

Lemma erase_spec s w db : sfpdb s (content w) recs off len db ->
  ensures (storage_sfpdb_erase fuel s) w (fun r w' => exists s', r = Some (s', 0) /\ sfpdb s' (content w') recs off len []).
Proof.
  intros [Hf Hfu Hpg Hd]. unfold storage_sfpdb_erase. apply ensures_bind. eapply ensures_mono; [by eapply open_file|].
  cbv beta. intros res w1 (Hc1 & fs & -> & Hsm & Ho). cbn [Z.ltb Z.compare].
  pose proof (cf_in _ _ _ _ _ _ _ _ Hf) as Hin. pose proof Hin as (Hi1 & Hi2 & Hi3 & Hi4 & Hi5 & Hi6).
  rewrite (oa_len _ _ _ Ho). apply ensures_bind. eapply ensures_mono; [apply ferase_spec; [done|by rewrite Hc1]|].
  cbv beta. intros r w2 [-> Hc2]. apply ensures_ret. rewrite u32_small, Z.eqb_refl by (unfold is_u32; lia).
  pose proof (erase_len_spec (W := W) len ltac:(lia)) as [He' _].
  eexists. split; [reflexivity|]. rewrite Hc2, Hc1. split; [|done|done|].
  - eapply file_at_put; [done|exact Hsm|]. rewrite length_replicate. lia.
  - pose proof (cf_size _ _ _ _ _ _ _ _ Hf) as Hlen. pose proof (slots_spec len Hlen) as Hsl.
    split; [unfold capacity, SFPS_MAX; cbn; lia|done|done|]. unfold sizeof_sfp. cbn [length]. intros j Hj. unfold fill. rewrite aget_put by (rewrite ?length_replicate; lia).
    rewrite length_replicate, Z2Nat.id by lia.
    destruct (Z.leb_spec off (off + j)), (Z.ltb_spec (off + j) (off + erase_len W len)); try lia. cbn.
    unfold aget. destruct (Z.ltb_spec (off + j - off) 0); [lia|]. by rewrite lookup_replicate_2 by lia.
Qed.
End db_ops.

(** ** Searching and updating *)
(** The first entry with the part number. *)
Definition sfp_find (sfp : s_sfpinfo) (db : list s_sfpinfo) : option s_sfpinfo :=
  head (filter (fun e => same_pn e sfp = true) db).
Definition set_values (e from : s_sfpinfo) : s_sfpinfo :=
  e <| sfp_dTx := sfp_dTx from |> <| sfp_dRx := sfp_dRx from |> <| sfp_alpha := sfp_alpha from |>.
(** An entry with the part number takes the new values. *)
Definition sfp_replace (sfp e : s_sfpinfo) : s_sfpinfo := if same_pn e sfp then set_values e sfp else e.

Section search.
Context `{Endian} {W : Type} `{!Flash W, !FlashObs W, !FlashLaws W} (fuel : nat) (recs : list (list Z)) (off len : Z).
Implicit Types (w : W) (s : storage) (db : list s_sfpinfo).
Local Abbreviation sfpdb := (sfpdb W fuel).

(** [sfpcount], the local and the static one, after [k] rounds of a loop. *)
Definition loop_count s (k cnt n : Z) : Prop := if k =? 0 then cnt = 1 else cnt = n /\ st_sfpcount s = n.

Lemma sfp_get_spec s tmp w db i e : sfpdb s (content w) recs off len db -> length (sfp_pn tmp) = 16%nat ->
  db !! i = Some e -> i = 0%nat \/ st_sfpcount s = Z.of_nat (length db) ->
  ensures (sfp_entry fuel s tmp SFP_GET (Z.of_nat i)) w (fun r w' => content w' = content w /\ exists s',
    r = Some (s', stored e, Z.of_nat (length db)) /\ st_sfpcount s' = Z.of_nat (length db) /\
    sfpdb s' (content w') recs off len db).
Proof.
  intros Hs Ht He Hi. pose proof (lookup_lt_Some _ _ _ He) as Hlt. pose proof Hs as [Hf Hfu Hpg Hd].
  pose proof (db_max _ _ _ _ Hd) as Hmax. unfold capacity, SFPS_MAX in *.
  eapply entry_spec; [done|unfold SFPS_MAX; lia|destruct Hi; [left; lia|by right]|].
  intros fs w1 Hsm Ho Hc. eapply ensures_mono.
  { eapply (get_access off len s fs tmp w1 db i e); rewrite ?Hc; try done; [by eapply cf_in|by eapply cf_size]. }
  cbv beta. intros r w2 [Hc2 ->]. split; [congruence|]. eexists. split; [reflexivity|]. split; [done|].
  rewrite Hc2, Hc. eapply sfpdb_mount; [exact Hs|exact Hsm].
Qed.

Lemma get_empty s tmp w : sfpdb s (content w) recs off len [] ->
  ensures (sfp_entry fuel s tmp SFP_GET 0) w (fun r w' => content w' = content w /\ exists s',
    r = Some (s', tmp, 0) /\ sfpdb s' (content w') recs off len []).
Proof.
  intros Hs. eapply entry_spec; [done|unfold SFPS_MAX; lia|by left|]. intros fs w1 Hsm Ho Hc.
  apply ensures_ret. split; [done|]. eexists. split; [reflexivity|]. rewrite Hc. eapply sfpdb_mount; [exact Hs|exact Hsm].
Qed.

Lemma match_loop_spec sfp db : forall todo pre n s tmp cnt w, db = pre ++ todo ->
  sfpdb s (content w) recs off len db -> length (sfp_pn tmp) = 16%nat -> (length todo < n)%nat ->
  loop_count s (Z.of_nat (length pre)) cnt (Z.of_nat (length db)) ->
  ensures (match_loop fuel n s sfp tmp (Z.of_nat (length pre)) cnt) w (fun r w' => content w' = content w /\ exists s',
    sfpdb s' (content w') recs off len db /\
    r = Some (match sfp_find sfp todo with Some e => (s', set_values sfp e, 1) | None => (s', sfp, 0) end)).
Proof.
  induction todo as [|e todo IH]; intros pre n s tmp cnt w Hdb Hs Ht Hn Hcnt; (destruct n as [|n]; [lia|]); cbn [match_loop].
  - rewrite app_nil_r in Hdb. subst pre. unfold loop_count in Hcnt. destruct (Z.eqb_spec (Z.of_nat (length db)) 0) as [E0|Hne].
    + subst cnt. rewrite E0. change (negb (0 <? 1)) with false. cbv iota. destruct db; [|cbn in E0; lia]. apply ensures_bind.
      eapply ensures_mono; [by apply get_empty|]. cbv beta. intros r w1 (Hc & s' & -> & Hs'). apply ensures_ret.
      split; [done|]. by exists s'.
    + destruct Hcnt as [-> _]. rewrite Z.ltb_irrefl. cbn [negb]. apply ensures_ret. split; [done|]. by exists s.
  - assert (Hi : (Z.of_nat (length pre) <? cnt) = true).
    { unfold loop_count in Hcnt. subst db. rewrite length_app in Hcnt. cbn [length] in Hcnt.
      destruct (Z.eqb_spec (Z.of_nat (length pre)) 0); apply Z.ltb_lt; lia. }
    rewrite Hi. cbn [negb]. apply ensures_bind.
    assert (He : db !! length pre = Some e) by (subst db; rewrite lookup_app_r, Nat.sub_diag by lia; done).
    eapply ensures_mono; [eapply (sfp_get_spec s tmp w db); try done|].
    { unfold loop_count in Hcnt. destruct (Z.eqb_spec (Z.of_nat (length pre)) 0); [left; lia|right; apply Hcnt]. }
    cbv beta. intros r w1 (Hc & s' & -> & Hcn & Hs').
    pose proof (lookup_lt_Some _ _ _ He) as Hlt. destruct (Z.leb_spec (Z.of_nat (length db)) 0); [lia|].
    change (same_pn (stored e) sfp) with (same_pn e sfp). unfold sfp_find. cbn [filter].
    destruct (same_pn e sfp) eqn:Em.
    + rewrite filter_cons_True by done. apply ensures_ret. split; [done|]. exists s'. done.
    + rewrite filter_cons_False by congruence. fold (sfp_find sfp todo).
      replace (Z.of_nat (length pre) + 1) with (Z.of_nat (length (pre ++ [e]))) by (rewrite length_app; cbn; lia).
      eapply ensures_mono; [apply (IH (pre ++ [e])); try done|].
      * by rewrite <- app_assoc.
      * pose proof (db_ok _ _ _ _ (sd_db _ _ _ _ _ _ _ _ Hs)) as Hok. rewrite Forall_lookup in Hok. apply (Hok _ _ He).
      * cbn in Hn. lia.
      * unfold loop_count. rewrite length_app. cbn [length]. destruct (Z.eqb_spec (Z.of_nat (length pre + 1)) 0); [lia|done].
      * cbv beta. intros r w2 [Hc2 Hx]. split; [congruence|exact Hx].
Qed.

Lemma collect_loop_spec sfp tmp db : length (sfp_pn tmp) = 16%nat -> db <> [] -> forall todo pre n s cnt acc w, db = pre ++ todo ->
  sfpdb s (content w) recs off len db -> (length todo < n)%nat ->
  loop_count s (Z.of_nat (length pre)) cnt (Z.of_nat (length db)) -> acc = (sfp_replace sfp ∘ stored) <$> pre ->
  ensures (collect_loop fuel n s sfp tmp (Z.of_nat (length pre)) cnt acc) w (fun r w' => content w' = content w /\ exists s',
    sfpdb s' (content w') recs off len db /\
    r = Some (s', inr ((sfp_replace sfp ∘ stored) <$> db, Z.of_nat (length db)))).
Proof.
  intros Ht Hnil. induction todo as [|e todo IH]; intros pre n s cnt acc w Hdb Hs Hn Hcnt Hacc; (destruct n as [|n]; [lia|]); cbn [collect_loop].
  - rewrite app_nil_r in Hdb. subst pre. unfold loop_count in Hcnt.
    destruct (Z.eqb_spec (Z.of_nat (length db)) 0) as [E0|Hne]; [destruct db; [done|cbn in E0; lia]|].
    destruct Hcnt as [-> _]. rewrite Z.ltb_irrefl. cbn [negb]. apply ensures_ret. split; [done|]. exists s. by subst acc.
  - assert (Hi : (Z.of_nat (length pre) <? cnt) = true).
    { unfold loop_count in Hcnt. subst db. rewrite length_app in Hcnt. cbn [length] in Hcnt.
      destruct (Z.eqb_spec (Z.of_nat (length pre)) 0); apply Z.ltb_lt; lia. }
    rewrite Hi. cbn [negb]. apply ensures_bind.
    assert (He : db !! length pre = Some e) by (subst db; rewrite lookup_app_r, Nat.sub_diag by lia; done).
    eapply ensures_mono; [eapply (sfp_get_spec s tmp w db); try done|].
    { unfold loop_count in Hcnt. destruct (Z.eqb_spec (Z.of_nat (length pre)) 0); [left; lia|right; apply Hcnt]. }
    cbv beta. intros r w1 (Hc & s' & -> & Hcn & Hs').
    pose proof (lookup_lt_Some _ _ _ He) as Hlt. destruct (Z.leb_spec (Z.of_nat (length db)) 0); [lia|].
    change (if same_pn (stored e) sfp then _ else stored e) with (sfp_replace sfp (stored e)).
    replace (Z.of_nat (length pre) + 1) with (Z.of_nat (length (pre ++ [e]))) by (rewrite length_app; cbn; lia).
    eapply ensures_mono; [apply (IH (pre ++ [e])); try done|].
    + by rewrite <- app_assoc.
    + cbn in Hn. lia.
    + unfold loop_count. rewrite length_app. cbn [length]. destruct (Z.eqb_spec (Z.of_nat (length pre + 1)) 0); [lia|done].
    + subst acc. by rewrite fmap_app.
    + cbv beta. intros r w2 [Hc2 Hx]. split; [congruence|exact Hx].
Qed.

Lemma add_loop_spec : forall todo db s w, sfpdb s (content w) recs off len db -> Forall sfp_ok todo ->
  Z.of_nat (length db + length todo) <= capacity len ->
  ensures (add_loop fuel s todo (Z.of_nat (length db))) w (fun r w' => exists s',
    r = Some (s', Z.of_nat (length db + length todo)) /\ sfpdb s' (content w') recs off len (db ++ todo)).
Proof.
  induction todo as [|e todo IH]; intros db s w Hs Hok Hmax; cbn [add_loop length] in *.
  - apply ensures_ret. exists s. rewrite app_nil_r, Nat.add_0_r. done.
  - apply Forall_cons in Hok as [He Hok]. apply ensures_bind. eapply ensures_mono; [by apply add_spec|]. cbv beta.
    intros r w1 (s' & -> & Hs'). unfold add_result, capacity in *.
    destruct (Z.eqb_spec (Z.of_nat (length db)) SFPS_MAX); [lia|]. destruct (Z.leb_spec (slots len) (Z.of_nat (length db))); [lia|].
    cbn [fst snd] in *. destruct (Z.ltb_spec (Z.of_nat (length db) + 1) 0); [lia|].
    replace (Z.of_nat (length db) + 1) with (Z.of_nat (length (db ++ [e]))) by (rewrite length_app; cbn; lia).
    eapply ensures_mono; [apply (IH (db ++ [e])); try done|].
    + rewrite length_app. cbn [length]. lia.
    + cbv beta. intros r w2 (s2 & -> & Hs2). exists s2. rewrite <- app_assoc in Hs2. split; [|done].
      do 2 f_equal. rewrite length_app. cbn [length]. lia.
Qed.

(** The checksum field of the entries in memory does not matter. *)
Lemma db_stored mem sfp db : db_at mem off len ((sfp_replace sfp ∘ stored) <$> db) -> db_at mem off len (sfp_replace sfp <$> db).
Proof.
  assert (Hb : forall e, sfp_bytes (sfp_replace sfp (stored e)) = sfp_bytes (sfp_replace sfp e)).
  { intros e. unfold sfp_replace. change (same_pn (stored e) sfp) with (same_pn e sfp). by destruct (same_pn e sfp). }
  assert (Ho : forall e, sfp_ok (sfp_replace sfp (stored e)) -> sfp_ok (sfp_replace sfp e)).
  { intros e. unfold sfp_replace. change (same_pn (stored e) sfp) with (same_pn e sfp).
    destruct (same_pn e sfp); intros [? ? ? ? ?]; split; assumption. }
  intros [Hm Hok He Hf]. rewrite length_fmap in *. split; try rewrite length_fmap; try done.
  - rewrite Forall_fmap in *. eapply Forall_impl; [exact Hok|]. intros e. apply Ho.
  - intros i x Hx. rewrite list_lookup_fmap in Hx. destruct (db !! i) as [e|] eqn:E; [|done]. injection Hx as <-.
    rewrite (He i (sfp_replace sfp (stored e))) by (by rewrite list_lookup_fmap, E). apply Hb.
Qed.

Lemma update_spec s sfp tmp w db : sfpdb s (content w) recs off len db -> db <> [] -> sfp_ok sfp -> length (sfp_pn tmp) = 16%nat ->
  ensures (storage_update_sfp fuel s sfp tmp) w (fun r w' => exists s',
    r = Some (s', Z.of_nat (length db)) /\ sfpdb s' (content w') recs off len (sfp_replace sfp <$> db)).
Proof.
  intros Hs Hnil Hsfp Ht. unfold storage_update_sfp. apply ensures_bind. pose proof (sd_db _ _ _ _ _ _ _ _ Hs) as Hd.
  pose proof (db_max _ _ _ _ Hd) as Hmax.
  eapply ensures_mono; [apply (collect_loop_spec sfp tmp db Ht Hnil db []); try done; unfold capacity, SFPS_MAX in *; lia|].
  cbv beta. intros r w1 (Hc & s1 & Hs1 & ->). apply ensures_bind. eapply ensures_mono; [by eapply erase_spec|].
  cbv beta. intros r w2 (s2 & -> & Hs2). change (0 =? EE_RET_I2CERR) with false. cbv iota.
  eapply ensures_mono; [apply (add_loop_spec _ []); try done|].
  - rewrite Forall_fmap. eapply Forall_impl; [apply (db_ok _ _ _ _ Hd)|]. intros e [? ? ? ? ?]. destruct Hsfp as [? ? ? ? ?]. cbn. unfold sfp_replace.
    change (same_pn (stored e) sfp) with (same_pn e sfp). destruct (same_pn e sfp); split; assumption.
  - by rewrite length_fmap.
  - cbv beta. intros r w3 (s3 & -> & Hs3). exists s3. rewrite length_fmap. split; [done|].
    destruct Hs3 as [H1 H2 Hp H3]. split; [done|done|done|]. by apply db_stored.
Qed.
End search.

(** What adding an SFP does to the list, and the result: when the part number
    is there, every entry with it takes the new values (storage_update_sfp
    goes through all of them). *)
Definition sfp_put (len : Z) (sfp : s_sfpinfo) (db : list s_sfpinfo) : list s_sfpinfo * Z :=
  match sfp_find sfp db with
  | Some _ => (sfp_replace sfp <$> db, Z.of_nat (length db))
  | None => add_result len sfp db
  end.

(** C20. The SFP database of a mounted device is a list of at most four
    entries that fit in the file.  [storage_match_sfp] returns 1 and the delays and coefficient of
    the first entry with the part number, or 0 and its argument unchanged;
    [storage_get_sfp] with SFP_ADD replaces the values of every entry with
    the part number, or appends a new one when there is none, or refuses it
    when there are four (EE_RET_DBFULL) or the file is too small (-1).  The
    bytes on the device represent the new list, whose checksums are right, and
    the file system stays mounted.  The file begins with a sector of the
    device, its sectors do not touch the directory, and its entries lie in one page. *)
Theorem sfpdb_refines_list `{Endian} {W} `{!Flash W, !FlashObs W, !FlashLaws W} fuel s (w : W) recs off len db sfp tmp pos :
  sfpdb W fuel s (content w) recs off len db -> sfp_ok sfp -> length (sfp_pn tmp) = 16%nat ->
  ensures (storage_match_sfp fuel s sfp tmp) w (fun r w' => content w' = content w /\ exists s',
    sfpdb W fuel s' (content w') recs off len db /\
    r = Some (match sfp_find sfp db with Some e => (s', set_values sfp e, 1) | None => (s', sfp, 0) end)) /\
  ensures (storage_get_sfp fuel s sfp tmp SFP_ADD pos) w (fun r w' => exists s',
    sfpdb W fuel s' (content w') recs off len (sfp_put len sfp db).1 /\ r = Some (s', sfp, (sfp_put len sfp db).2)).
Proof.
  intros Hs Hsfp Ht. pose proof (db_max _ _ _ _ (sd_db _ _ _ _ _ _ _ _ Hs)) as Hmax. unfold capacity, SFPS_MAX in Hmax.
  assert (Hm : ensures (storage_match_sfp fuel s sfp tmp) w (fun r w' => content w' = content w /\ exists s',
    sfpdb W fuel s' (content w') recs off len db /\
    r = Some (match sfp_find sfp db with Some e => (s', set_values sfp e, 1) | None => (s', sfp, 0) end))).
  { apply (match_loop_spec fuel recs off len sfp db db []); (done || lia). }
  split; [exact Hm|]. unfold storage_get_sfp. change (SFP_ADD =? SFP_GET) with false. cbv iota.
  apply ensures_bind. eapply ensures_mono; [exact Hm|]. cbv beta. intros r w1 (Hc & s1 & Hs1 & ->).
  unfold sfp_put. destruct (sfp_find sfp db) as [e|] eqn:Ef.
  - change (1 =? 0) with false. cbv iota. apply ensures_bind. eapply ensures_mono; [apply (update_spec fuel recs off len); try done|].
    + intros ->. done.
    + cbv beta. intros r w2 (s2 & -> & Hs2). apply ensures_ret. by exists s2.
  - change (0 =? 0) with true. cbv iota. eapply ensures_mono; [by apply (add_spec fuel recs off len)|].
    cbv beta. intros r w2 (s2 & -> & Hx). by exists s2.
Qed.

(** An empty database on a flash with sectors: an SFP is added to it. *)
Definition demo_sfp : s_sfpinfo := mk_sfp [65; 88; 71; 69; 45; 49; 50; 53; 52; 45; 48; 53; 51; 49; 32; 32] 72169888 180625 148451 0.
Definition sfp_dir : list (list Z) :=
  [demo_rec (be_bytes 4 SDB_MAGIC ++ [0; 2; 1; 0]) [0] 0 511 0;
   demo_rec (replicate 8 0) [1] 256 511 1936093229].
Definition sfp_flash : spi_sim := SpiSim (concat sfp_dir ++ replicate 384 255).
Lemma sfpdb_refines_list_witness (be : Endian := true) :
  ensures (storage_get_sfp 10 (mk_st demo_fs demo_cal 0 0) demo_sfp demo_sfp SFP_ADD 0) sfp_flash (fun r w' => exists s',
    sfpdb spi_sim 10 s' (content w') sfp_dir 256 256 [demo_sfp] /\ r = Some (s', demo_sfp, 1)).
Proof.
  apply (sfpdb_refines_list 10 (mk_st demo_fs demo_cal 0 0) sfp_flash sfp_dir 256 256 [] demo_sfp demo_sfp 0).
  - assert (El : Z.of_nat (length (content sfp_flash)) = 512) by (vm_compute; reflexivity).
    split; [|lia|by right|].
    + split.
      * split; [reflexivity| |reflexivity]. split; try (vm_compute; reflexivity); try (vm_compute; discriminate).
        -- cbn. lia.
        -- intros [|[|i]] r Hr; [injection Hr as <-; vm_compute; reflexivity..|discriminate].
      * cbn. lia.
      * eexists. split; [vm_compute; reflexivity|]. split; vm_compute; reflexivity.
      * unfold file_in. rewrite El. change (erase_len spi_sim 256) with 256. split_and!; try lia. by exists 4.
      * lia.
      * by right.
      * right. change (0 + 64 * 2 <= 256). lia.
    + split; [vm_compute; discriminate|constructor|done|]. intros j Hj. change (1 <= j < 232) in Hj.
      change (content sfp_flash) with (concat sfp_dir ++ replicate 384 255). unfold aget.
      destruct (Z.ltb_spec (256 + j) 0); [lia|].
      assert (Hl : length (concat sfp_dir) = 128%nat) by (vm_compute; reflexivity).
      rewrite lookup_app_r, lookup_replicate_2 by (rewrite Hl; lia). done.
  - split; [reflexivity| |unfold is_s64; cbn; lia|unfold is_s32; cbn; lia..].
    repeat (apply Forall_cons; split; [lia|]). constructor.
  - reflexivity.
Defined.
