(* ===== verification/SdbFormat.v ===== *)
(** Formatting a storage device (dev/storage.c): the directory that is written
    can be mounted, and it lays its files out one after the other, aligned to
    the blocks of the device. *)
From Stdlib Require Import ZArith Lia.
From stdpp Require Import base numbers option list.
From S2P Require Import Prelude Bytes Sdbfs.

(** ** Alignment *)
Lemma u32_land z : u32 z = Z.land z (Z.ones 32).
Proof. by rewrite Z.land_ones. Qed.

Lemma align_spec k x : 0 <= k < 31 -> 0 <= x -> x + 2 ^ k <= 2147483648 ->
  (2 ^ k | SDB_ALIGN x (2 ^ k)) /\ x <= SDB_ALIGN x (2 ^ k) < x + 2 ^ k.
Proof.
  intros Hk Hx Hb. pose proof (Z.pow_pos_nonneg 2 k ltac:(lia) ltac:(lia)) as Hp. unfold SDB_ALIGN.
  rewrite (u32_small (x + _)) by (unfold is_u32; lia). set (y := x + (2 ^ k - 1)).
  assert (E : Z.land y (u32 (Z.lnot (2 ^ k - 1))) = y / 2 ^ k * 2 ^ k).
  { rewrite u32_land, (Z.land_comm (Z.lnot _)), Z.land_assoc, Z.land_ones by lia.
    rewrite (Z.mod_small y) by (unfold y; change (2 ^ 32) with 4294967296; lia).
    replace (2 ^ k - 1) with (Z.ones k) by (rewrite Z.ones_equiv; lia).
    rewrite <- Z.ldiff_land, Z.ldiff_ones_r, Z.shiftl_mul_pow2, Z.shiftr_div_pow2 by lia. done. }
  rewrite E. split; [by apply Z.divide_factor_r|]. unfold y in *.
  pose proof (Z.div_mod (x + (2 ^ k - 1)) (2 ^ k) ltac:(lia)).
  pose proof (Z.mod_pos_bound (x + (2 ^ k - 1)) (2 ^ k) ltac:(lia)). lia.
Qed.

(** ** The layout of the files *)

(** A record of a file: its bytes and the size it asks for. *)
Definition file_size `{Endian} (r : list Z) : Z := htonll (r_last r) - htonll (r_first r) + 1.
Record file_rec `{Endian} (r : list Z) : Prop := {
  fr_len : length r = 64%nat; fr_bytes : bytes r; fr_size : 0 < file_size r }.
(** The same file somewhere else. *)
Definition same_file `{Endian} (r r' : list Z) : Prop :=
  r_vendor r' = r_vendor r /\ r_device r' = r_device r /\ r_len r' = file_size r /\ file_rec r'.
(** The files lie one after the other from [cur] on, aligned to the blocks. *)
Fixpoint laid_out `{Endian} (bs cur : Z) (recs : list (list Z)) : Prop :=
  match recs with
  | [] => True
  | r :: recs => cur <= r_off r /\ (bs | r_off r) /\ laid_out bs (r_off r + r_len r) recs
  end.
Fixpoint room `{Endian} (bs : Z) (recs : list (list Z)) : Z :=
  match recs with [] => 0 | r :: recs => file_size r + bs + room bs recs end.

Section layout.
Context `{Endian}.
Implicit Types (r : list Z).

Lemma htonll_field v : 0 <= v < 18446744073709551616 -> htonll (value (image 8 (htonll v))) = v.
Proof.
  intros Hv. rewrite image_htonll by done. rewrite htonll_value by (apply bytes_be_Forall || apply length_be_bytes).
  rewrite be_value_bytes. by apply Z.mod_small.
Qed.
Lemma bytes_image n v : bytes (image n v).
Proof. unfold image. destruct big_endian; [apply bytes_be|]. apply Forall_rev, bytes_be. Qed.

(** What the two assignments do to a record. *)
Lemma moved_spec r a b : length r = 64%nat -> bytes r -> 0 <= a < 18446744073709551616 -> 0 <= b < 18446744073709551616 ->
  let r' := set_last (set_first r (htonll a)) (htonll b) in
  htonll (r_first r') = a /\ htonll (r_last r') = b /\ r_vendor r' = r_vendor r /\ r_device r' = r_device r /\
  length r' = 64%nat /\ bytes r' /\ sub r' 0 8 = sub r 0 8 /\ r_type r' = r_type r.
Proof.
  intros Hl Hb Ha Hb'. unfold set_last, set_first, r_first, r_last, r_vendor, r_device, r_type. cbv zeta.
  set (r1 := put r 8 (image 8 (htonll a))). assert (Hl1 : length r1 = 64%nat) by (unfold r1; by rewrite length_put).
  pose proof (length_image 8 (htonll a)) as La. pose proof (length_image 8 (htonll b)) as Lb.
  assert (Hne : forall off n, off + n <= 8 \/ 24 <= off -> sub (put r1 16 (image 8 (htonll b))) off n = sub r off n).
  { intros off n Ho. rewrite sub_put_ne by (rewrite ?Hl1, ?Lb; lia). unfold r1. apply sub_put_ne; rewrite ?La; lia. }
  rewrite !(Hne 24), !(Hne 32), (Hne 0) by lia.
  rewrite (sub_put_ne r1 16) by (rewrite ?Hl1, ?Lb; lia). unfold r1 at 1.
  rewrite !sub_put_eq by (rewrite ?Hl1, ?La, ?Lb; lia). rewrite !htonll_field by done.
  split_and!; try done.
  - by rewrite length_put.
  - apply bytes_put; [apply bytes_put|]; (done || apply bytes_image).
  - rewrite aget_put_ne by (rewrite Lb; lia). unfold r1. by rewrite aget_put_ne by (rewrite La; lia).
Qed.

Lemma format_files_spec k files : 0 <= k < 31 -> forall cur, Forall file_rec files -> 0 <= cur -> (2 ^ k | cur) ->
  cur + room (2 ^ k) files < 2147483648 ->
  Forall2 same_file files (format_files (2 ^ k) files cur) /\ laid_out (2 ^ k) cur (format_files (2 ^ k) files cur).
Proof.
  intros Hk. pose proof (Z.pow_pos_nonneg 2 k ltac:(lia) ltac:(lia)) as Hp.
  assert (Hroom : forall l, Forall file_rec l -> 0 <= room (2 ^ k) l).
  { intros l Hl. induction Hl as [|r l [_ _ Hs] _ IH]; cbn [room]; lia. }
  induction files as [|r files IH]; intros cur Hf Hc Hd Hb; cbn [format_files laid_out room] in *; [by split|].
  apply Forall_cons in Hf as [ [Hl Hby Hs] Hf]. pose proof (Hroom _ Hf). unfold file_size in *.
  set (size := htonll (r_last r) - htonll (r_first r)) in *. unfold iadd.
  rewrite (s32_small size), (s32_small (size + 1)), (s32_small (cur + size)), (s32_small (cur + (size + 1))) by (unfold is_s32; lia).
  rewrite !u64_small by lia.
  destruct (moved_spec r cur (cur + size) Hl Hby ltac:(lia) ltac:(lia)) as (E1 & E2 & E3 & E4 & E5 & E6 & _ & _).
  set (r' := set_last _ _) in *.
  assert (Eo : r_off r' = cur) by (unfold r_off; rewrite E1; apply u32_small; unfold is_u32; lia).
  assert (El : r_len r' = size + 1).
  { unfold r_len. rewrite E2, Eo. rewrite u32_small by (unfold is_u32; lia). lia. }
  rewrite (s32_small (2 ^ k)).
  2: { unfold is_s32. pose proof (Z.pow_lt_mono_r 2 k 31 ltac:(lia) ltac:(lia) ltac:(lia)). change (2 ^ 31) with 2147483648 in *. lia. }
  destruct (align_spec k (cur + (size + 1))) as [A1 A2]; [done|lia|lia|].
  rewrite s32_small by (unfold is_s32; lia).
  destruct (IH (SDB_ALIGN (cur + (size + 1)) (2 ^ k)) Hf) as [IH1 IH2]; [lia|done|lia|].
  split.
  - apply Forall2_cons. split; [|done]. split_and!; try done. split; [done|done|]. unfold file_size. rewrite E1, E2. lia.
  - rewrite Eo, El. split; [lia|]. split; [done|].
    destruct (format_files _ files _) as [|r2 rs]; [done|]. cbn [laid_out] in *. split; [lia|]. apply IH2.
Qed.
End layout.

(** ** Writing the directory *)
Section format.
Context `{Endian} {W : Type} `{!Flash W, !FlashObs W, !FlashLaws W}.
Implicit Types (w : W).

(** [erased mem a n]: the [n] bytes from [a] on are 0xff. *)
Definition erased (mem : list Z) (a n : Z) : Prop := forall j, a <= j < a + n -> aget 0 mem j = 255.

Lemma aget_fill mem off n j : 0 <= off -> 0 <= n -> off + n <= Z.of_nat (length mem) ->
  aget 0 (fill mem off 255 n) j = if (off <=? j) && (j <? off + n) then 255 else aget 0 mem j.
Proof.
  intros Ho Hn Hl. unfold fill. rewrite aget_put by (rewrite ?length_replicate; lia). rewrite length_replicate, Z2Nat.id by lia.
  destruct (Z.leb_spec off j), (Z.ltb_spec j (off + n)); cbn; try done.
  unfold aget. destruct (Z.ltb_spec (j - off) 0); [lia|]. by rewrite lookup_replicate_2 by lia.
Qed.
Lemma erased_sub mem a n : 0 <= a -> erased mem a (Z.of_nat n) -> sub mem a (Z.of_nat n) = replicate n 255.
Proof.
  intros Ha He. apply list_eq. intros i. destruct (Nat.lt_ge_cases i n) as [Hi|Hi].
  - rewrite lookup_sub, lookup_replicate_2 by lia. f_equal. apply He. lia.
  - rewrite !lookup_ge_None_2; [done|by rewrite length_replicate|rewrite length_sub; lia].
Qed.

(** [outside base n mem mem']: only the [n] bytes from [base] on may differ. *)
Definition outside (base n : Z) (mem mem' : list Z) : Prop :=
  forall a m, a + m <= base \/ base + n <= a -> sub mem' a m = sub mem a m.

Lemma erase_loop_spec dev base total : 0 < sd_block_size dev -> (erase_unit W | sd_block_size dev) ->
  0 <= base -> (erase_unit W | base) ->
  forall (k : nat) fuel count w, count = total - Z.of_nat k * sd_block_size dev -> (k < fuel)%nat -> 0 <= count -> (erase_unit W | count) ->
  erased (content w) base count -> base + total <= Z.of_nat (length (content w)) -> Z.of_nat (length (content w)) < 2147483648 ->
  ensures (erase_loop fuel dev base count total) w (fun r w' => r = Some tt /\
    length (content w') = length (content w) /\ erased (content w') base total /\ outside base total (content w) (content w')).
Proof.
  intros Hbs Hu Hb Hub. induction k as [|k IH]; intros fuel count w Hc Hf H0 Huc He Hfit Hm; (destruct fuel as [|fuel]; [lia|]); cbn [erase_loop].
  - destruct (Z.ltb_spec count total); [lia|]. apply ensures_ret. split; [done|]. split; [done|]. by replace total with count by lia.
  - destruct (Z.ltb_spec count total); [|lia]. apply ensures_bind.
    rewrite u32_small, !s32_small by (unfold is_u32, is_s32; lia). pose proof (erase_len_multiple (W := W) _ Hu) as Hel.
    eapply ensures_mono; [apply law_fl_erase; try lia; by apply Z.divide_add_r|]. cbv beta. intros _ w1 [_ Hw1]. rewrite Hel in Hw1.
    eapply ensures_mono; [apply IH; try rewrite Hw1; rewrite ?length_fill; try lia; [by apply Z.divide_add_r|]|].
    + intros j Hj. rewrite aget_fill by lia. destruct (Z.leb_spec (base + count) j), (Z.ltb_spec j (base + count + sd_block_size dev));
        cbn; try done; (apply He; lia).
    + cbv beta. intros r w2 (-> & Hl & Hx & Ho). rewrite Hw1, length_fill in Hl. do 3 (split; [done|]). intros a m Ha.
      rewrite Ho, Hw1 by lia. apply sub_put_ne; rewrite ?length_replicate; lia.
Qed.

Lemma write_recs_spec recs : forall addr w, Forall (fun r => length r = 64%nat /\ bytes r) recs -> 0 <= addr ->
  addr + 64 * Z.of_nat (length recs) <= Z.of_nat (length (content w)) -> Z.of_nat (length (content w)) < 2147483648 ->
  (forall i, 0 <= i < Z.of_nat (length recs) -> page_ok W (addr + 64 * i) 64) ->
  rewritable W = true \/ erased (content w) addr (64 * Z.of_nat (length recs)) ->
  ensures (write_recs recs addr) w (fun _ w' => length (content w') = length (content w) /\
    (forall i r, recs !! i = Some r -> sub (content w') (addr + 64 * Z.of_nat i) 64 = r) /\
    outside addr (64 * Z.of_nat (length recs)) (content w) (content w')).
Proof.
  induction recs as [|r recs IH]; intros addr w Hr Ha Hl Hm Hpg He; cbn [write_recs length] in *.
  { apply ensures_ret. by split_and!. }
  apply Forall_cons in Hr as [ [Hlr Hbr] Hr]. apply ensures_bind. rewrite u32_small, s32_small by (unfold is_u32, is_s32; lia).
  change sizeof_sdb with (Z.of_nat 64). rewrite <- Hlr. eapply ensures_mono; [apply law_fl_write; try done; try lia|].
  { specialize (Hpg 0 ltac:(lia)). rewrite Z.mul_0_r, Z.add_0_r in Hpg. by rewrite Hlr. }
  { destruct He as [He|He]; [by left|right]. apply erased_sub; [done|]. intros j Hj. apply He. lia. }
  cbv beta. intros _ w1 [_ Hw1]. rewrite Hlr.
  eapply ensures_mono; [apply IH; try done; rewrite ?Hw1, ?length_put; try lia|].
  - intros i Hi. specialize (Hpg (i + 1) ltac:(lia)). by replace (addr + Z.of_nat 64 + 64 * i) with (addr + 64 * (i + 1)) by lia.
  - destruct He as [He|He]; [by left|right]. intros j Hj. rewrite aget_put_ne by lia. apply He. lia.
  - cbv beta. intros _ w2 (Hl2 & Hrec & Hout). rewrite Hw1, length_put in Hl2. split; [done|]. split.
    + intros [|i] x Hx; cbn in Hx.
      * injection Hx as <-. rewrite Z.add_0_r, Hout, Hw1 by lia. apply sub_put_eq; lia.
      * specialize (Hrec i x Hx). rewrite <- Hrec. f_equal. lia.
    + intros a m Ha'. rewrite Hout, Hw1 by lia. apply sub_put_ne; lia.
Qed.

(** An entry point that the search passes over. *)
Definition passed (dev : storage_device) (mem : list Z) (p : Z) : Prop :=
  0 <= p < 2147483648 /\
  (sd_size dev <= p \/ p + 4 <= Z.of_nat (length mem) /\ value (sub mem p 4) <> htonl SDB_MAGIC).

Lemma mount_points dev base rest fs pre : forall magic w, length magic = 4%nat -> Forall (passed dev (content w)) pre ->
  0 <= base < sd_size dev -> base + 4 <= Z.of_nat (length (content w)) < 2147483648 ->
  value (sub (content w) base 4) = htonl SDB_MAGIC ->
  ensures (mount_loop dev (pre ++ base :: rest) magic fs) w (fun r w' => content w' = content w /\
    r = (fs <| fs_dev := true |> <| fs_entrypoint := base |>, 0)).
Proof.
  intros magic w Hmg Hp Hb Hlen Hv. revert magic w Hmg Hp Hlen Hv.
  induction pre as [|p pre IH]; intros magic w Hmg Hp Hlen Hv; cbn [app mount_loop].
  - destruct (Z.ltb_spec base 0); [lia|]. rewrite !u32_small by (unfold is_u32; lia).
    destruct (Z.leb_spec (sd_size dev) base); [lia|]. apply ensures_bind. rewrite s32_small by (unfold is_s32; lia).
    eapply ensures_mono; [apply law_fl_read; lia|]. intros r w4 [-> Hw4]. cbn [fst].
    rewrite put_all by (by rewrite length_sub). rewrite Hv, Z.eqb_refl. by apply ensures_ret.
  - apply Forall_cons in Hp as [ [Hp0 Hp1] Hp]. destruct (Z.ltb_spec p 0); [lia|]. rewrite u32_small by (unfold is_u32; lia).
    destruct (Z.leb_spec (sd_size dev) p); [by apply IH|]. destruct Hp1 as [?|[Hpl Hpv]]; [lia|]. apply ensures_bind.
    rewrite s32_small by (unfold is_s32; lia). eapply ensures_mono; [apply law_fl_read; lia|]. intros r w4 [-> Hw4]. cbn [fst].
    rewrite put_all by (by rewrite length_sub). destruct (Z.eqb_spec (value (sub (content w) p 4)) (htonl SDB_MAGIC)); [done|].
    eapply ensures_mono; [apply IH; rewrite ?Hw4; try done; apply length_sub|]. cbv beta. intros r w5 [Hc ->]. split; [congruence|done].
Qed.
End format.

(** The magic number in network order. *)
Lemma magic_word `{Endian} l : bytes l -> length l = 4%nat -> htonl (value l) = SDB_MAGIC -> value l = htonl SDB_MAGIC.
Proof.
  intros Hb Hl Hm. rewrite htonl_value in Hm by done. pose proof (be_bytes_value l Hb) as Hx. rewrite Hm, Hl in Hx.
  rewrite <- Hx, <- image_htonl by (unfold SDB_MAGIC; lia). apply value_image. rewrite <- u32_htonl. apply u32_range.
Qed.

(** The bytes that the formatting changes. *)
Definition format_len (k : Z) : Z := Z.max 320 (SDBFS_REC * 2 ^ k).
(** What the formatting needs: the default records (generated at build time); a
    device with blocks of 2^k bytes, in whole sectors, that can be written
    over when the five blocks that are erased do not cover the directory; a
    base address that is an entry point, with no older directory at an
    earlier entry point; and records that do not cross the end of a page. *)
Record formattable `{Endian} (W : Type) `{!FlashObs W} (dev : storage_device) (base : Z) (mem : list Z) (dir : list Z)
    (files : list (list Z)) (k : Z) : Prop := {
  fo_dir : length dir = 64%nat /\ bytes dir; fo_type : r_type dir = sdb_type_interconnect;
  fo_magic : htonl (r_magic dir) = SDB_MAGIC; fo_count : htons (r_records dir) = SDBFS_REC;
  fo_files : length files = 4%nat /\ Forall file_rec files;
  fo_block : sd_block_size dev = 2 ^ k /\ 0 <= k < 31;
  fo_base : 0 <= base /\ (2 ^ k | base);
  fo_unit : (erase_unit W | 2 ^ k);
  fo_write : 6 <= k \/ rewritable W = true;
  fo_page : forall i, 0 <= i < SDBFS_REC -> page_ok W (base + 64 * i) 64;
  fo_mem : base + format_len k <= Z.of_nat (length mem) < 2147483648;
  fo_room : base + 320 + 2 ^ k + room (2 ^ k) files < 2147483648;
  fo_entry : exists pre rest, sd_entry_points dev = pre ++ base :: rest /\
    Forall (fun p => passed dev mem p /\ (sd_size dev <= p \/ p + 4 <= base \/ base + format_len k <= p)) pre;
  fo_size : base < sd_size dev }.

Section format_proof.
Context `{Endian} {W : Type} `{!Flash W, !FlashObs W, !FlashLaws W}.
Implicit Types (w : W).

(** The records that are written. *)
Lemma format_recs_spec dev base mem dir files k : formattable W dev base mem dir files k ->
  exists dir' files', format_recs dev base (dir :: files) = dir' :: files' /\
    (length dir' = 64%nat /\ bytes dir') /\ sub dir' 0 8 = sub dir 0 8 /\ r_type dir' = r_type dir /\
    Forall2 same_file files files' /\ laid_out (2 ^ k) (base + 320) files'.
Proof.
  intros [Hdir Hty Hmg Hct [Hlf Hfr] [Hbs Hk] [Hb Hdiv] _ _ _ Hmem Hroom Hent Hsz].
  pose proof (Z.pow_pos_nonneg 2 k ltac:(lia) ltac:(lia)) as Hp.
  assert (Hpow : 2 ^ k < 2147483648) by (change 2147483648 with (2 ^ 31); apply Z.pow_lt_mono_r; lia).
  assert (Hr0 : 0 <= room (2 ^ k) files) by (clear - Hfr Hp; induction Hfr as [|r l [_ _ Hs] _ IH]; cbn [room]; lia).
  unfold format_recs. change (SDBFS_REC * sizeof_sdb) with 320. rewrite Hbs, (s32_small (2 ^ k)) by (unfold is_s32; lia).
  destruct (align_spec k 320) as [A1 A2]; [lia|lia|lia|]. rewrite s32_small by (unfold is_s32; lia).
  destruct (format_files_spec k files ltac:(lia) (base + SDB_ALIGN 320 (2 ^ k)) Hfr) as [F1 F2]; [lia|by apply Z.divide_add_r|lia|].
  do 2 eexists. split; [reflexivity|]. set (fs := format_files _ _ _) in *.
  destruct (last fs) as [rl|] eqn:El.
  2: { apply last_None in El. apply Forall2_length in F1. rewrite El, Hlf in F1. discriminate. }
  assert (Hrl : file_rec rl).
  { apply last_Some in El as [l El]. rewrite El in F1. apply Forall2_app_inv_r in F1 as (l1 & l2 & _ & F1 & _).
    inversion F1 as [|x ? y ? Hs]; subst. apply Hs. }
  assert (Hv : r_last rl = htonll (htonll (r_last rl)) /\ 0 <= htonll (r_last rl) < 18446744073709551616).
  { destruct Hrl as [Hl1 Hb1 _]. unfold r_last.
    assert (Hsb : bytes (sub rl 16 8)) by (by apply bytes_sub). assert (Hsl : length (sub rl 16 8) = 8%nat) by apply length_sub.
    rewrite htonll_value by done. pose proof (be_value_range (sub rl 16 8) 0 Hsb ltac:(lia)) as Hr. rewrite Hsl in Hr.
    split; [|exact Hr]. rewrite <- (be_bytes_value _ Hsb) at 1. rewrite Hsl, <- image_htonll by exact Hr.
    apply value_image. rewrite <- u64_htonll. apply u64_range. }
  change (default [] (Some rl)) with rl. rewrite (proj1 Hv). destruct Hdir as [Hd1 Hd2].
  destruct (moved_spec dir base (htonll (r_last rl)) Hd1 Hd2 ltac:(lia) (proj2 Hv)) as (_ & _ & _ & _ & E5 & E6 & E7 & E8).
  split; [done|]. split; [done|]. split; [done|]. split; [done|].
  clear - F2 A2. destruct fs as [|r rs]; [done|]. cbn [laid_out] in *. split; [lia|]. apply F2.
Qed.
End format_proof.

(** C24. Formatting a device writes a directory that can be mounted: the result
    is 0, the file system is mounted at the base address with the records of
    the default directory, each file keeps its identity and its size, and the
    files follow the directory one after the other without overlap, each at
    the beginning of a block; nothing else on the device changes.  The blocks
    of the device are a power of two, and of at least 64 bytes unless it can
    be written without being erased (the I2C EEPROM with blocks of 32 bytes,
    the 1-Wire one with blocks of 1); its sectors divide its blocks; the base
    is on a block and is one of the entry points, and there is no directory at
    the entry points before it, which would be mounted instead; no record
    crosses the end of a page.  The five blocks and the directory lie inside
    the memory, and the files below 2 GiB. *)
Theorem sdbfs_format_correct `{Endian} {W} `{!Flash W, !FlashObs W, !FlashLaws W} fuel dev (w : W) dir files k addr force fs :
  formattable W dev (base_of dev addr force) (content w) dir files k -> (6 <= fuel)%nat -> length (fs_record fs) = 64%nat ->
  ensures (storage_sdbfs_format fuel dev (dir :: files) addr force fs) w (fun r w' => exists dir' files' fs',
    r = Some (dir' :: files', fs', 0) /\ mounted fs' (content w') (dir' :: files') /\
    fs_entrypoint fs' = base_of dev addr force /\
    Forall2 same_file files files' /\ laid_out (2 ^ k) (base_of dev addr force + 320) files' /\
    outside (base_of dev addr force) (format_len k) (content w) (content w')).
Proof.
  intros Hfo Hfu Hfs. set (base := base_of dev addr force) in *. unfold storage_sdbfs_format. fold base.
  destruct (format_recs_spec _ _ _ _ _ _ Hfo) as (dir' & files' & -> & [Hd1 Hd2] & Hd3 & Hd4 & Hf1 & Hf2).
  destruct Hfo as [Hdir Hty Hmg Hct [Hlf Hfr] [Hbs Hk] [Hb Hdiv] Hu Hwr Hpg Hmem Hroom (pre & rest & Hent & Hpre) Hsz].
  pose proof (Forall2_length _ _ _ Hf1) as Hlf'. rewrite Hlf in Hlf'.
  assert (Hpow : 1 <= 2 ^ k < 2147483648).
  { change 2147483648 with (2 ^ 31). change 1 with (2 ^ 0). split; [apply Z.pow_le_mono_r; lia|apply Z.pow_lt_mono_r; lia]. }
  set (fl := format_len k) in *. assert (Hm : 320 <= fl /\ 5 * 2 ^ k <= fl) by (unfold fl, format_len, SDBFS_REC; lia). clearbody fl.
  unfold SDBFS_REC in *. apply ensures_bind. unfold storage_sdbfs_erase. fold base. apply ensures_bind.
  rewrite Hbs. change (SDBFS_REC * 2 ^ k) with (5 * 2 ^ k). rewrite s32_small by (unfold is_s32; lia).
  eapply ensures_mono; [apply (erase_loop_spec dev base (5 * 2 ^ k)) with (k := 5%nat); rewrite ?Hbs; try lia; try done|].
  { by etrans. }
  { by exists 0. }
  { intros j Hj. lia. }
  cbv beta. intros r w1 (-> & Hl1 & He1 & Ho1). apply ensures_ret. apply ensures_bind.
  eapply ensures_mono; [apply (write_recs_spec (dir' :: files')); cbn [length]; rewrite ?Hl1, <- ?Hlf'; [|lia|lia|lia| |]|].
  { apply Forall_cons. split; [done|]. clear - Hf1. induction Hf1 as [|x y l l' Hs _ IH]; [constructor|].
    apply Forall_cons. split; [|done]. destruct Hs as (_ & _ & _ & [? ? _]). done. }
  { intros i Hi. apply Hpg. lia. }
  { destruct Hwr as [Hwr|Hwr]; [right|by left]. pose proof (Z.pow_le_mono_r 2 6 k ltac:(lia) Hwr). intros j Hj. apply He1. lia. }
  cbv beta. intros _ w2 (Hl2 & Hrec & Ho2). rewrite Hl1 in Hl2. cbn [length] in Ho2. rewrite <- Hlf' in Ho2.
  assert (Hout : outside base fl (content w) (content w2)).
  { intros a m Ha. rewrite Ho2, Ho1 by lia. done. }
  apply ensures_bind. rewrite s32_small by (unfold is_s32; lia).
  eapply ensures_mono; [apply law_fl_read; unfold SDBFS_REC, sizeof_sdb; rewrite ?Hl2; lia|]. cbv beta. intros _ w3 [_ Hw3].
  assert (Hdat : sub (content w2) base 64 = dir') by (rewrite <- (Hrec 0%nat dir' eq_refl); f_equal; lia).
  assert (Hm' : htonl (r_magic dir') = SDB_MAGIC /\ htons (r_records dir') = 5).
  { unfold r_magic, r_records in *.
    assert (Hsub : forall o n, 0 <= o -> 0 <= n -> o + n <= 8 -> sub dir' o n = sub dir o n).
    { intros o n H1 H2 H3. pose proof (sub_sub dir' 0 8 o n H1 H2 H3) as X1. pose proof (sub_sub dir 0 8 o n H1 H2 H3) as X2.
      rewrite Z.add_0_l in X1, X2. by rewrite <- X1, <- X2, Hd3. }
    rewrite !Hsub by lia. done. }
  apply ensures_bind. unfold storage_mount. rewrite Hent.
  eapply ensures_mono; [apply mount_points; rewrite ?Hw3, ?Hl2; try done; try lia|].
  { eapply Forall_impl; [exact Hpre|]. cbv beta. intros p [ [Hp0 Hp1] Hp2]. split; [done|]. rewrite Hl2.
    destruct Hp1 as [?|[? Hv]]; [by left|]. destruct Hp2 as [?|Hp2]; [by left|]. right. split; [done|]. by rewrite Hout by lia. }
  { replace (sub (content w2) base 4) with (sub dir' 0 4).
    - apply magic_word; [by apply bytes_sub|apply length_sub|apply Hm'].
    - rewrite <- Hdat, sub_sub by lia. by rewrite Z.add_0_r. }
  cbv beta. intros r w4 [Hw4 ->]. rewrite Hw3 in Hw4. apply ensures_ret.
  exists dir', files'. eexists. split; [reflexivity|]. cbn [fst fs_entrypoint fs_record fs_dev upd]. rewrite Hw4. split; [|done].
  split; [done| |done]. cbn [fs_entrypoint upd].
  split; rewrite ?Hl2; cbn [length]; rewrite <- ?Hlf', ?Hdat; try lia; done.
Qed.

Definition default_rec (magic typ : list Z) (first last device : Z) : list Z :=
  magic ++ be_bytes 8 first ++ be_bytes 8 last ++ be_bytes 8 5073461966432269409 ++ be_bytes 4 device ++ replicate 27 0 ++ typ.
Definition default_dir : list Z := default_rec (be_bytes 4 SDB_MAGIC ++ [0; 5; 1; 0]) [0] 0 0 0.
Definition default_files : list (list Z) :=
  [default_rec (replicate 8 0) [1] 100 355 2003971433; default_rec (replicate 8 0) [1] 400 405 1835098925;
   default_rec (replicate 8 0) [1] 500 632 1936093229; default_rec (replicate 8 0) [1] 700 827 1667329129].
Lemma default_recs_ok (be : Endian := true) : (length default_dir = 64%nat /\ bytes default_dir) /\
  (length default_files = 4%nat /\ Forall file_rec default_files).
Proof.
  assert (Hb : forall m t a b d, bytes m -> bytes t -> bytes (default_rec m t a b d)).
  { intros. unfold default_rec. rewrite !bytes_app. split_and!; try done; try apply bytes_be.
    apply Forall_replicate. unfold is_byte. lia. }
  assert (Hz : forall n, bytes (replicate n 0)) by (intros n; apply Forall_replicate; unfold is_byte; lia).
  assert (H1 : forall b, 0 <= b < 256 -> bytes [b]) by (intros b Hx; by apply Forall_singleton).
  split.
  - split; [reflexivity|]. apply Hb; [|apply H1; lia]. apply bytes_app. split; [apply bytes_be|].
    repeat (apply Forall_cons; split; [unfold is_byte; lia|]). constructor.
  - split; [reflexivity|]. repeat (apply Forall_cons; split; [split; [reflexivity|apply Hb; [apply Hz|apply H1; lia]|vm_compute; reflexivity]|]).
    constructor.
Qed.

(** A flash of 1 KiB with sectors of 64 bytes, formatted at its second entry
    point, and an EEPROM with blocks of 32 bytes (storage_i2ceeprom_create). *)
Definition demo_dev : storage_device := mk_dev 64 1024 256 [0; 256; -1].
Definition demo_i2c : storage_device := mk_dev 32 8192 0 [0; 64; 128; 256; 512; 1024; -1].
Definition blank_fs : sdbfs := mk_fs false 0 false (replicate 64 0) 0 0 0 0.
Lemma sdbfs_format_correct_witness (be : Endian := true) :
  ensures (storage_sdbfs_format 6 demo_dev (default_dir :: default_files) 0 false blank_fs) (SpiSim (replicate 1024 0))
    (fun r w' => exists dir' files' fs', r = Some (dir' :: files', fs', 0) /\ mounted fs' (content w') (dir' :: files') /\
       fs_entrypoint fs' = 256 /\ Forall2 same_file default_files files' /\ laid_out (2 ^ 6) (256 + 320) files' /\
       outside 256 320 (replicate 1024 0) (content w')) /\
  ensures (storage_sdbfs_format 6 demo_i2c (default_dir :: default_files) 0 false blank_fs) (EepromSim (replicate 1024 0))
    (fun r w' => exists dir' files' fs', r = Some (dir' :: files', fs', 0) /\ mounted fs' (content w') (dir' :: files') /\
       fs_entrypoint fs' = 0 /\ Forall2 same_file default_files files' /\ laid_out (2 ^ 5) (0 + 320) files' /\
       outside 0 320 (replicate 1024 0) (content w')).
Proof.
  destruct default_recs_ok as [Hd Hf].
  assert (El : Z.of_nat (length (replicate 1024 0)) = 1024) by (by rewrite length_replicate).
  split.
  - eapply ensures_mono; [apply (sdbfs_format_correct 6 demo_dev (SpiSim (replicate 1024 0)) default_dir default_files 6 0 false); [|lia|reflexivity]|].
    2: { cbv beta. intros r w' (dir' & files' & fs' & -> & H1 & H2 & H3 & H4 & H5). by exists dir', files', fs'. }
    split; [exact Hd|reflexivity|reflexivity|reflexivity|exact Hf|by split| | | | | |reflexivity| |reflexivity].
    + split; [done|]. by exists 4.
    + by exists 1.
    + by left.
    + intros i Hi. right. change (base_of demo_dev 0 false) with 256. change (write_page spi_sim) with 256. unfold SDBFS_REC in Hi.
      assert (i = 0 \/ i = 1 \/ i = 2 \/ i = 3 \/ i = 4) as [->|[->|[->|[->| ->]]]] by lia; reflexivity.
    + change (content (SpiSim (replicate 1024 0))) with (replicate 1024 0). rewrite El. change (256 + 320 <= 1024 < 2147483648). lia.
    + exists [0], [-1]. split; [done|]. apply Forall_singleton. split; [|right; left; done]. split; [lia|]. right.
      change (content (SpiSim (replicate 1024 0))) with (replicate 1024 0). rewrite El. split; [lia|vm_compute; discriminate].
  - eapply ensures_mono; [apply (sdbfs_format_correct 6 demo_i2c (EepromSim (replicate 1024 0)) default_dir default_files 5 0 false); [|lia|reflexivity]|].
    2: { cbv beta. intros r w' (dir' & files' & fs' & -> & H1 & H2 & H3 & H4 & H5). by exists dir', files', fs'. }
    split; [exact Hd|reflexivity|reflexivity|reflexivity|exact Hf|by split| | | | | |reflexivity| |reflexivity].
    + split; [done|]. by exists 0.
    + by exists 32.
    + by right.
    + intros i Hi. right. change (base_of demo_i2c 0 false) with 0. change (write_page eeprom_sim) with 2147483648. unfold SDBFS_REC in Hi.
      rewrite !Z.div_small by lia. done.
    + change (content (EepromSim (replicate 1024 0))) with (replicate 1024 0). rewrite El. change (0 + 320 <= 1024 < 2147483648). lia.
    + exists [], [64; 128; 256; 512; 1024; -1]. split; [done|constructor].
Defined.
