(* ===== verification/InitScript.v ===== *)
(** dev/storage-init.c: the script that runs at start-up, kept in a file of the
    SDB file system: two bytes with a length that is written but not used for
    reading, then commands that end with a newline, then erased bytes. *)
From Stdlib Require Import ZArith Lia.
From stdpp Require Import base numbers option list.
From S2P Require Import Prelude Bytes Sdbfs Storage.

Definition SDB_DEV_INIT `{Endian} : Z := htonl 2003971433.

Section init.
Context `{Endian} {W : Type} `{!Flash W} (fuel : nat).
Implicit Types (s : storage) (fs : sdbfs).

Definition storage_init_erase s : M W (option (storage * Z)) :=
  let! r := sdbfs_open_id fuel (st_fs s) SDB_VENDOR SDB_DEV_INIT in
  match r with
  | None => ret None
  | Some (fs, rc) =>
      if rc <? 0 then ret (Some (set_fs s fs, -1))
      else
        let! res := sdbfs_ferase fs 0 (fs_f_len fs) in
        let res := if u32 res =? fs_f_len fs then 1 else res in
        ret (Some (set_fs s (sdbfs_close fs), if res =? 1 then 0 else -1))
  end.

(** The loop that looks for the end of the script; a file of less than 64 KiB
    ends it.  [byte] keeps its value when nothing is read. *)
Fixpoint init_used (n : nat) fs (used : Z) : M W (option Z) :=
  match n with
  | O => ret None
  | S n =>
      let! r := sdbfs_fread fs (2 + used) 1 in
      if negb (r.2 =? 1) then ret (Some used)
      else if aget 0 r.1 0 =? 255 then ret (Some used)
      else init_used n fs (u16 (used + 1))
  end.

(** The loop over the words of the command; the boolean is false after a
    [goto out]. *)
Fixpoint init_words fs (args : list (list Z)) (used : Z) : M W (bool * Z) :=
  match args with
  | [] => ret (true, used)
  | arg :: args =>
      let len := Z.of_nat (length arg) in
      let! n := sdbfs_fwrite fs (2 + used) arg in
      if negb (n =? len) then ret (false, used)
      else
        let used := u16 (used + len) in
        let separator := match args with [] => 10 | _ => 32 end in
        let! n := sdbfs_fwrite fs (2 + used) [separator] in
        if negb (n =? 1) then ret (false, used) else init_words fs args (u16 (used + 1))
  end.

(** [args] are the arguments after "add". *)
Definition storage_init_add s (args : list (list Z)) : M W (option (storage * Z)) :=
  let! r := sdbfs_open_id fuel (st_fs s) SDB_VENDOR SDB_DEV_INIT in
  match r with
  | None => ret None
  | Some (fs, rc) =>
      if rc <? 0 then ret (Some (set_fs s fs, -1))
      else
        let! used := init_used fuel fs 0 in
        match used with
        | None => ret None
        | Some used =>
            let used := if 256 <? used then 0 else used in
            let done res := ret (Some (set_fs s (sdbfs_close fs), res)) in
            let! r := init_words fs args used in
            let '(ok, used) := r in
            if negb ok then done (-1)
            else
              let! n := sdbfs_fwrite fs 0 (image 2 used) in
              if negb (n =? 2) then done (-1)
              else
                let! r := sdbfs_fread fs 0 2 in
                done (if negb (r.2 =? 2) then -1 else 0)
        end
  end.

(** [storage_init_readcmd]: the buffer, the static [ptr] and the result. *)
Fixpoint readcmd_loop (n : nat) fs (buf : list Z) (bufsize ptr i : Z) : M W (option (list Z * Z * Z)) :=
  match n with
  | O => ret None
  | S n =>
      if bufsize <? i then ret (Some (buf, ptr, -1))
      else
        let! r := sdbfs_fread fs ptr 1 in
        let buf := put buf i r.1 in
        let ptr := u16 (ptr + 1) in
        if negb (r.2 =? 1) then ret (Some (buf, ptr, -1))
        else if aget 0 buf i =? 255 then ret (Some (buf, ptr, i))
        else if aget 0 buf i =? 10 then ret (Some (buf, ptr, i + 1))
        else readcmd_loop n fs buf bufsize ptr (i + 1)
  end.
Definition storage_init_readcmd s (buf : list Z) (bufsize ptr : Z) (next : bool)
    : M W (option (storage * list Z * Z * Z)) :=
  let! r := sdbfs_open_id fuel (st_fs s) SDB_VENDOR SDB_DEV_INIT in
  match r with
  | None => ret None
  | Some (fs, rc) =>
      if rc <? 0 then ret (Some (set_fs s fs, buf, ptr, -1))
      else
        let ptr := if next then ptr else 2 in
        let! r := readcmd_loop (Z.to_nat (bufsize + 2)) fs buf bufsize ptr 0 in
        ret (match r with
             | None => None
             | Some (buf, ptr, res) => Some (set_fs s (sdbfs_close fs), buf, ptr, res)
             end)
  end.
End init.

(** ** The script *)

(** A command as it is stored. *)
Fixpoint command (args : list (list Z)) : list Z :=
  match args with
  | [] => []
  | arg :: args => arg ++ match args with [] => [10] | _ => [32] end ++ command args
  end.
Definition text (l : list Z) : Prop := Forall (fun b => 0 <= b < 255) l.
(** The words of a command are written one by one from address [a] on: none of
    them crosses the end of a page of the device. *)
Fixpoint words_paged (W : Type) `{!FlashObs W} (a : Z) (args : list (list Z)) : Prop :=
  match args with
  | [] => True
  | arg :: args => page_ok W a (Z.of_nat (length arg)) /\ words_paged W (a + Z.of_nat (length arg) + 1) args
  end.

(** The bytes of a script in a file: the rest is erased. *)
Record script_at (mem : list Z) (off len : Z) (script : list Z) : Prop := {
  sc_text : text script; sc_fits : 2 + Z.of_nat (length script) <= len;
  sc_bytes : sub mem (off + 2) (Z.of_nat (length script)) = script;
  sc_free : forall j, 2 + Z.of_nat (length script) <= j < len -> aget 0 mem (off + j) = 255 }.

Section script.
Context `{Endian} {W : Type} `{!Flash W, !FlashObs W, !FlashLaws W} (fuel : nat).
Implicit Types (w : W) (s : storage) (fs : sdbfs).

Lemma script_byte mem off len script k b : script_at mem off len script -> script !! k = Some b ->
  aget 0 mem (off + (2 + Z.of_nat k)) = b.
Proof.
  intros [_ _ Hb _] Hk. pose proof (lookup_lt_Some _ _ _ Hk). assert (Hx := f_equal (fun l => l !! k) Hb). cbn in Hx.
  rewrite lookup_sub, Hk in Hx by lia. injection Hx as <-. f_equal. lia.
Qed.

(** One byte of the file: of the script, behind it, or behind the file. *)
Lemma read_byte fs w off len script k : open_at fs off len -> file_in W (content w) off len ->
  script_at (content w) off len script -> (k <= length script)%nat ->
  ensures (sdbfs_fread fs (2 + Z.of_nat k) 1) w (fun r w' => content w' = content w /\
    match script !! k with
    | Some b => r = ([b], 1)
    | None => r = ([255], 1) \/ r.2 <> 1 /\ length r.1 = 0%nat
    end).
Proof.
  intros Ho Hin Hs Hk. pose proof (sc_fits _ _ _ _ Hs) as Hfit.
  assert (Hget : forall k, sub (content w) (off + (2 + Z.of_nat k)) 1 = [aget 0 (content w) (off + (2 + Z.of_nat k))]).
  { intros k'. unfold sub. change (range 1) with [0]. cbn [fmap list_fmap]. by rewrite Z.add_0_r. }
  destruct (script !! k) as [b|] eqn:E.
  - pose proof (lookup_lt_Some _ _ _ E). eapply ensures_mono; [eapply fread_spec; try done; lia|].
    cbv beta. intros r w' [-> Hc]. split; [done|]. by rewrite Hget, (script_byte _ _ _ _ _ _ Hs E).
  - apply lookup_ge_None in E. assert (k = length script) as -> by lia.
    destruct (Z.le_gt_cases (3 + Z.of_nat (length script)) len).
    + eapply ensures_mono; [eapply fread_spec; try done; lia|]. cbv beta. intros r w' [-> Hc]. split; [done|]. left.
      rewrite Hget. f_equal. f_equal. apply (sc_free _ _ _ _ Hs). lia.
    + destruct Hin as (Hi1 & Hi2 & Hi3 & Hi4 & Hi5 & Hi6). destruct Ho as [Hcu Hof Hle].
      unfold sdbfs_fread, clip. rewrite Hcu, Hof, Hle. cbn [negb].
      rewrite (u32_small (2 + Z.of_nat (length script) + 1)), (u32_small (off + _)), (s32_small (off + _)) by (unfold is_u32, is_s32; lia).
      destruct (Z.ltb_spec len (2 + Z.of_nat (length script) + 1)); [|lia]. rewrite s32_small by (unfold is_s32; lia).
      eapply ensures_mono; [apply law_fl_read; lia|]. cbv beta. intros r w' [-> Hc]. split; [done|]. right. cbn [fst snd].
      split; [lia|]. rewrite length_sub. lia.
Qed.

Lemma used_spec fs w off len script : open_at fs off len -> file_in W (content w) off len ->
  script_at (content w) off len script -> Z.of_nat (length script) < 65536 ->
  forall n k, (k <= length script)%nat -> (length script - k < n)%nat ->
  ensures (init_used n fs (Z.of_nat k)) w (fun r w' => r = Some (Z.of_nat (length script)) /\ content w' = content w).
Proof.
  intros Ho Hin Hs Hmax n. revert w Hin Hs. induction n as [|n IH]; intros w Hin Hs k Hk Hn; [lia|]. cbn [init_used].
  apply ensures_bind. eapply ensures_mono; [by eapply read_byte|]. cbv beta. intros r w1 [Hc Hx].
  destruct (script !! k) as [b|] eqn:E.
  - subst r. cbn [fst snd]. change (negb (1 =? 1)) with false. cbv iota. change (aget 0 [b] 0) with b.
    pose proof (sc_text _ _ _ _ Hs) as Ht. unfold text in Ht. rewrite Forall_lookup in Ht. specialize (Ht _ _ E).
    destruct (Z.eqb_spec b 255); [lia|]. pose proof (lookup_lt_Some _ _ _ E).
    rewrite u16_small by lia. replace (Z.of_nat k + 1) with (Z.of_nat (S k)) by lia.
    eapply ensures_mono; [apply IH; rewrite ?Hc; (done || lia)|]. cbv beta. intros r w2 [-> Hc2]. split; [done|congruence].
  - apply lookup_ge_None in E. assert (k = length script) as -> by lia.
    destruct Hx as [->|[Hx _] ].
    + cbn [fst snd]. change (negb (1 =? 1)) with false. cbv iota. change (aget 0 [255] 0 =? 255) with true. cbv iota. by apply ensures_ret.
    + destruct (Z.eqb_spec r.2 1); [done|]. cbn [negb]. by apply ensures_ret.
Qed.

(** Text behind the script. *)
Lemma append_spec fs w off len script l : open_at fs off len -> file_in W (content w) off len ->
  script_at (content w) off len script -> text l -> 2 + Z.of_nat (length script + length l) <= len ->
  page_ok W (off + (2 + Z.of_nat (length script))) (Z.of_nat (length l)) ->
  ensures (sdbfs_fwrite fs (2 + Z.of_nat (length script)) l) w (fun r w' => r = Z.of_nat (length l) /\
    content w' = put (content w) (off + (2 + Z.of_nat (length script))) l /\ script_at (content w') off len (script ++ l)).
Proof.
  intros Ho Hin [Ht Hf Hb Hfr] Hl Hfit Hpg. pose proof Hin as (Hi1 & Hi2 & Hi3 & Hi4 & Hi5 & Hi6).
  eapply ensures_mono; [eapply fwrite_spec; try done; try lia|].
  - eapply Forall_impl; [exact Hl|]. unfold is_byte. cbn. lia.
  - apply list_eq. intros k. destruct (Nat.lt_ge_cases k (length l)) as [Hk|Hk].
    + rewrite lookup_sub, lookup_replicate_2 by lia. f_equal. rewrite <- Z.add_assoc. apply Hfr. lia.
    + rewrite !lookup_ge_None_2; [done|by rewrite length_replicate|rewrite length_sub; lia].
  - cbv beta. intros r w' [-> Hc]. split; [done|]. split; [done|]. rewrite Hc. split.
    + by apply Forall_app.
    + rewrite length_app. lia.
    + rewrite length_app, Nat2Z.inj_add, sub_app by lia. rewrite sub_put_ne by lia. rewrite Hb. f_equal.
      rewrite <- Z.add_assoc. apply sub_put_eq; lia.
    + rewrite length_app. intros j Hj. rewrite aget_put_ne by lia. apply Hfr. lia.
Qed.
End script.

(** The script file of the mounted device. *)
Record script_in `{Endian} (W : Type) `{!FlashObs W} (fuel : nat) (s : storage) (mem : list Z) (recs : list (list Z)) (off len : Z) (script : list Z) : Prop := {
  si_file : file_at W fuel SDB_DEV_INIT 2 (st_fs s) mem recs off len;
  si_script : script_at mem off len script }.

Section script_ops.
Context `{Endian} {W : Type} `{!Flash W, !FlashObs W, !FlashLaws W} (fuel : nat) (recs : list (list Z)) (off len : Z).
Implicit Types (w : W) (s : storage) (fs : sdbfs).
Local Abbreviation script_in := (script_in W fuel).

Lemma words_spec fs args : forall script w, open_at fs off len -> file_in W (content w) off len ->
  script_at (content w) off len script -> Forall text args ->
  2 + Z.of_nat (length script + length (command args)) <= len -> Z.of_nat (length script + length (command args)) < 65536 ->
  words_paged W (off + (2 + Z.of_nat (length script))) args ->
  ensures (init_words fs args (Z.of_nat (length script))) w (fun r w' =>
    r = (true, Z.of_nat (length script + length (command args))) /\ length (content w') = length (content w) /\
    (exists l, content w' = put (content w) (off + (2 + Z.of_nat (length script))) l /\ length l = length (command args)) /\
    script_at (content w') off len (script ++ command args)).
Proof.
  induction args as [|arg args IH]; intros script w Ho Hin Hs Ht Hfit Hmax Hpg; cbn [init_words command words_paged] in *.
  { apply ensures_ret. rewrite app_nil_r, Nat.add_0_r. split_and!; try done. by exists []. }
  apply Forall_cons in Ht as [Ha Ht]. destruct Hpg as [Hpg1 Hpg]. set (sep := match args with [] => [10] | _ => [32] end) in *.
  assert (Hsep : length sep = 1%nat /\ text sep).
  { unfold sep, text. destruct args; (split; [done|]); apply Forall_singleton; lia. }
  rewrite !length_app, (proj1 Hsep) in *. apply ensures_bind. eapply ensures_mono; [eapply append_spec; try done; lia|].
  cbv beta. intros r w1 (-> & Hc1 & Hs1). rewrite Z.eqb_refl. cbn [negb].
  assert (Hin1 : file_in W (content w1) off len) by (unfold file_in; by rewrite Hc1, length_put).
  rewrite (u16_small (Z.of_nat (length script) + _)) by lia.
  replace [match args with [] => 10 | _ => 32 end] with sep by (unfold sep; by destruct args).
  replace (Z.of_nat (length script) + Z.of_nat (length arg)) with (Z.of_nat (length (script ++ arg))) by (rewrite length_app; lia).
  apply ensures_bind. eapply ensures_mono; [eapply append_spec; try done; try apply Hsep; rewrite ?(proj1 Hsep), length_app; first [lia|apply page_ok_one]|].
  cbv beta. intros r w2 (-> & Hc2 & Hs2). rewrite (proj1 Hsep). change (negb (Z.of_nat 1 =? 1)) with false. cbv iota.
  assert (Hin2 : file_in W (content w2) off len) by (unfold file_in; by rewrite Hc2, length_put).
  rewrite length_app, u16_small by lia.
  replace (Z.of_nat (length script + length arg) + 1) with (Z.of_nat (length ((script ++ arg) ++ sep))).
  2: { rewrite !length_app, (proj1 Hsep). lia. }
  eapply ensures_mono; [apply IH; try done; rewrite !length_app, (proj1 Hsep); try lia|].
  { replace (off + _) with (off + (2 + Z.of_nat (length script)) + Z.of_nat (length arg) + 1) by lia. exact Hpg. }
  cbv beta. rewrite !length_app, (proj1 Hsep). intros r w3 (-> & Hl3 & (l & Hc3 & Hl) & Hs3). split_and!.
  - f_equal. lia.
  - by rewrite Hl3, Hc2, length_put, Hc1, length_put.
  - exists (arg ++ sep ++ l). rewrite Hc3, Hc2, Hc1, !put_app, (proj1 Hsep). split.
    + f_equal; [f_equal|]; rewrite ?length_app; lia.
    + rewrite !length_app, (proj1 Hsep). lia.
  - by rewrite <- !app_assoc in Hs3.
Qed.

(** Writing before the script does not change it. *)
Lemma script_before mem script a l : script_at mem off len script -> file_in W mem off len -> 0 <= a ->
  a + Z.of_nat (length l) <= off + 2 -> script_at (put mem a l) off len script.
Proof.
  intros [Ht Hf Hb Hfr] (Hi1 & Hi2 & Hi3 & Hi4 & Hi5 & Hi6) Ha Hl. split; try done.
  - by rewrite sub_put_ne by lia.
  - intros j Hj. rewrite aget_put_ne by lia. by apply Hfr.
Qed.

Lemma init_add_spec s script args w : script_in s (content w) recs off len script ->
  Z.of_nat (length script) <= 256 -> (258 <= fuel)%nat -> Forall text args ->
  2 + Z.of_nat (length script + length (command args)) <= len -> Z.of_nat (length script + length (command args)) < 65536 ->
  words_paged W (off + (2 + Z.of_nat (length script))) args ->
  ensures (storage_init_add fuel s args) w (fun r w' => exists s', r = Some (s', 0) /\
    script_in s' (content w') recs off len (script ++ command args)).
Proof.
  intros [Hf Hs] Hlim Hfu Ht Hfit Hmax Hpg. unfold storage_init_add. apply ensures_bind.
  pose proof (cf_in _ _ _ _ _ _ _ _ Hf) as Hin.
  eapply ensures_mono; [by eapply open_file|]. cbv beta. intros res w1 (Hc1 & fs & -> & Hsm & Ho). cbn [Z.ltb Z.compare].
  apply ensures_bind. eapply ensures_mono.
  { apply (used_spec fs w1 off len script) with (k := 0%nat); rewrite ?Hc1; try done; lia. }
  cbv beta. intros r w2 [-> Hc2]. rewrite Hc1 in Hc2. destruct (Z.ltb_spec 256 (Z.of_nat (length script))); [lia|].
  apply ensures_bind. eapply ensures_mono; [apply words_spec; rewrite ?Hc2; done|].
  cbv beta. intros r w3 (-> & Hl3 & (l & Hc3 & Hl) & Hs3). cbn [negb]. rewrite Hc2 in *.
  assert (Hin3 : file_in W (content w3) off len) by (unfold file_in; by rewrite Hl3).
  pose proof Hin3 as (Hi1 & Hi2 & Hi3 & Hi4 & Hi5 & Hi6).
  apply ensures_bind. eapply ensures_mono; [apply (fwrite_any fs w3 off len 0); rewrite ?length_image; try (done || lia)|].
  { rewrite Z.add_0_r, Z.min_l by lia. exact (cf_page _ _ _ _ _ _ _ _ Hf). }
  cbv beta. rewrite length_image. intros r w4 (-> & l' & Hl' & Hc4).
  rewrite Z.min_l by lia. change (negb (Z.of_nat 2 =? 2)) with false. cbv iota.
  assert (Hin4 : file_in W (content w4) off len) by (unfold file_in; by rewrite Hc4, length_put).
  apply ensures_bind. eapply ensures_mono; [apply (fread_spec fs w4 off len 0 2); (done || lia)|].
  cbv beta. intros r w5 [-> Hc5]. change (negb ((sub (content w4) (off + 0) 2, 2).2 =? 2)) with false. cbv iota.
  pose proof (erase_len_spec (W := W) len ltac:(lia)) as [He' _].
  apply ensures_ret. eexists. split; [reflexivity|]. rewrite Hc5, Hc4, Z.add_0_r. split.
  - eapply file_at_inner; [rewrite Hc3; eapply file_at_inner; [exact Hf|exact Hsm|lia|lia]| |lia|lia].
    destruct Hsm as (E1 & E2 & E3). by split_and!.
  - apply script_before; try done; lia.
Qed.
End script_ops.

(** ** Reading the script line by line *)
Section read.
Context `{Endian} {W : Type} `{!Flash W, !FlashObs W, !FlashLaws W} (fuel : nat) (recs : list (list Z)) (off len : Z).
Implicit Types (w : W) (s : storage) (fs : sdbfs).
Local Abbreviation script_in := (script_in W fuel).

Lemma readcmd_loop_spec fs script pre post bufsize : forall l2 l1 n buf w, open_at fs off len -> file_in W (content w) off len ->
  script_at (content w) off len script -> script = pre ++ (l1 ++ l2) ++ 10 :: post -> 10 ∉ l2 ->
  2 + Z.of_nat (length script) < 65536 -> Z.of_nat (length (l1 ++ l2)) <= bufsize -> bufsize < Z.of_nat (length buf) ->
  (length l2 < n)%nat ->
  ensures (readcmd_loop n fs buf bufsize (2 + Z.of_nat (length pre + length l1)) (Z.of_nat (length l1))) w (fun r w' =>
    content w' = content w /\ r = Some (put buf (Z.of_nat (length l1)) (l2 ++ [10]),
      2 + Z.of_nat (length pre + length (l1 ++ l2) + 1), Z.of_nat (length (l1 ++ l2)) + 1)).
Proof.
  induction l2 as [|b l2 IH]; intros l1 n buf w Ho Hin Hs Hscr Hnl Hmax Hsz Hbuf Hn; (destruct n as [|n]; [lia|]); cbn [readcmd_loop];
    rewrite length_app in Hsz; (destruct (Z.ltb_spec bufsize (Z.of_nat (length l1))); [lia|]); apply ensures_bind;
    assert (Hlen := f_equal length Hscr); rewrite !length_app in Hlen; cbn [length] in *.
  - assert (Hk : script !! (length pre + length l1)%nat = Some 10).
    { rewrite Hscr, app_nil_r, lookup_app_r, lookup_app_r by lia.
      by replace (length pre + length l1 - length pre - length l1)%nat with 0%nat by lia. }
    eapply ensures_mono; [eapply read_byte; try done; lia|]. rewrite Hk. cbv beta. intros r w1 [Hc ->].
    cbn [fst snd put]. change (negb (1 =? 1)) with false. cbv iota. rewrite aget_aset_eq by lia.
    change (10 =? 255) with false. change (10 =? 10) with true. cbv iota. apply ensures_ret. split; [done|].
    rewrite u16_small, app_nil_r by lia. cbn [app put]. do 2 f_equal. f_equal. lia.
  - assert (Hk : script !! (length pre + length l1)%nat = Some b).
    { rewrite Hscr, lookup_app_r, <- app_assoc, lookup_app_r by lia.
      by replace (length pre + length l1 - length pre - length l1)%nat with 0%nat by lia. }
    eapply ensures_mono; [eapply read_byte; try done; lia|]. rewrite Hk. cbv beta. intros r w1 [Hc ->].
    cbn [fst snd put]. change (negb (1 =? 1)) with false. cbv iota. rewrite aget_aset_eq by lia.
    pose proof (sc_text _ _ _ _ Hs) as Ht. unfold text in Ht. rewrite Forall_lookup in Ht. specialize (Ht _ _ Hk).
    apply not_elem_of_cons in Hnl as [Hb Hnl]. destruct (Z.eqb_spec b 255); [lia|]. destruct (Z.eqb_spec b 10); [by subst|].
    rewrite u16_small by lia.
    replace (2 + Z.of_nat (length pre + length l1) + 1) with (2 + Z.of_nat (length pre + length (l1 ++ [b]))) by (rewrite length_app; cbn; lia).
    replace (Z.of_nat (length l1) + 1) with (Z.of_nat (length (l1 ++ [b]))) by (rewrite length_app; cbn; lia).
    replace (l1 ++ b :: l2) with ((l1 ++ [b]) ++ l2) in * by (by rewrite <- app_assoc).
    eapply ensures_mono; [apply IH; rewrite ?Hc; try done; rewrite ?length_aset, ?length_app; cbn [length]; lia|].
    cbv beta. intros r w2 [Hc2 ->]. split; [congruence|]. cbn [app put]. do 4 f_equal. rewrite length_app. cbn. lia.
Qed.

(** The next line of the script, after [pre]. *)
Lemma readcmd_spec s script pre line post buf bufsize ptr (next : bool) w : script_in s (content w) recs off len script ->
  script = pre ++ line ++ 10 :: post -> 10 ∉ line -> 2 + Z.of_nat (length script) < 65536 ->
  Z.of_nat (length line) <= bufsize -> bufsize < Z.of_nat (length buf) ->
  (if next then ptr = 2 + Z.of_nat (length pre) else pre = []) ->
  ensures (storage_init_readcmd fuel s buf bufsize ptr next) w (fun r w' => content w' = content w /\ exists s',
    r = Some (s', put buf 0 (line ++ [10]), 2 + Z.of_nat (length (pre ++ line ++ [10])), Z.of_nat (length line) + 1) /\
    script_in s' (content w') recs off len script).
Proof.
  intros [Hf Hs] Hscr Hnl Hmax Hsz Hbuf Hptr. unfold storage_init_readcmd. apply ensures_bind.
  eapply ensures_mono; [by eapply open_file|]. cbv beta. intros res w1 (Hc1 & fs & -> & Hsm & Ho). cbn [Z.ltb Z.compare].
  assert (Hp : (if next then ptr else 2) = 2 + Z.of_nat (length pre + length (@nil Z))) by (destruct next; subst; cbn; lia).
  rewrite Hp. apply ensures_bind. eapply ensures_mono.
  { apply (readcmd_loop_spec fs script pre post bufsize line []); rewrite ?Hc1; try done; [by eapply cf_in|lia]. }
  cbv beta. intros r w2 [Hc2 ->]. apply ensures_ret. split; [congruence|]. eexists. cbn [app length Z.of_nat]. split.
  - do 3 f_equal. f_equal. rewrite !length_app. cbn. lia.
  - rewrite Hc2, Hc1. split; [|done]. by eapply file_at_mount.
Qed.

(** At the end of the script the result is not positive. *)
Lemma readcmd_end s script buf bufsize ptr (next : bool) w : script_in s (content w) recs off len script ->
  2 + Z.of_nat (length script) < 65536 -> 0 <= bufsize < Z.of_nat (length buf) ->
  (if next then ptr = 2 + Z.of_nat (length script) else script = []) ->
  ensures (storage_init_readcmd fuel s buf bufsize ptr next) w (fun r w' => content w' = content w /\ exists s' buf' ptr' res,
    r = Some (s', buf', ptr', res) /\ res <= 0 /\ length buf' = length buf /\ script_in s' (content w') recs off len script).
Proof.
  intros [Hf Hs] Hmax Hbuf Hptr. unfold storage_init_readcmd. apply ensures_bind.
  eapply ensures_mono; [by eapply open_file|]. cbv beta. intros res w1 (Hc1 & fs & -> & Hsm & Ho). cbn [Z.ltb Z.compare].
  assert (Hp : (if next then ptr else 2) = 2 + Z.of_nat (length script)) by (destruct next; subst; cbn; lia).
  rewrite Hp. replace (Z.to_nat (bufsize + 2)) with (S (Z.to_nat (bufsize + 1))) by lia. cbn [readcmd_loop].
  destruct (Z.ltb_spec bufsize 0); [lia|]. apply ensures_bind, ensures_bind. pose proof (cf_in _ _ _ _ _ _ _ _ Hf) as Hin.
  eapply ensures_mono; [eapply read_byte; rewrite ?Hc1; done|]. rewrite lookup_ge_None_2 by lia. cbv beta. intros r w2 [Hc2 Hr].
  assert (Hend : forall s', same_mount (st_fs s) (st_fs s') -> script_in s' (content w2) recs off len script).
  { intros s' Hm. rewrite Hc2, Hc1. split; [|done]. by eapply file_at_mount. }
  destruct Hr as [->|[Hr _] ].
  - cbn [fst snd put]. change (negb (1 =? 1)) with false. cbv iota. rewrite aget_aset_eq by lia.
    change (255 =? 255) with true. cbv iota. apply ensures_ret, ensures_ret. split; [congruence|].
    do 4 eexists. split; [reflexivity|]. split; [lia|]. split; [|by apply Hend]. by rewrite ?length_put, ?length_aset.
  - destruct (Z.eqb_spec r.2 1); [done|]. cbn [negb]. apply ensures_ret, ensures_ret. split; [congruence|].
    do 4 eexists. split; [reflexivity|]. split; [lia|]. split; [|by apply Hend]. by rewrite ?length_put, ?length_aset.
Qed.
End read.

(** The text of a command: its words with spaces between them. *)
Fixpoint cmd_line (args : list (list Z)) : list Z :=
  match args with
  | [] => []
  | arg :: args => arg ++ match args with [] => [] | _ => 32 :: cmd_line args end
  end.
Lemma command_line args : args <> [] -> command args = cmd_line args ++ [10].
Proof.
  induction args as [|a args IH]; intros Hne; [done|]. cbn [command cmd_line]. destruct args as [|b args].
  - by rewrite !app_nil_r.
  - rewrite IH by done. by rewrite <- app_assoc.
Qed.
Lemma line_no_newline args : Forall (fun a => 10 ∉ a) args -> 10 ∉ cmd_line args.
Proof.
  induction 1 as [|a args Ha Hargs IH]; cbn [cmd_line]; [apply not_elem_of_nil|]. apply not_elem_of_app. split; [done|].
  destruct args; [apply not_elem_of_nil|]. apply not_elem_of_cons. by split.
Qed.

(** C27. The start-up script: [storage_init_add] appends the words of a
    command, separated by spaces and ended by a newline, behind a script of at
    most 256 bytes, and [storage_init_readcmd], when it comes to that place,
    returns exactly this line and its length and moves to the byte behind it.
    The script before it and the file system are unchanged.  The file has room
    for the command, the script stays below 64 KiB, and no word crosses the end of a page of the
    device (spi_flash_write does not split a write). *)
Theorem init_script_roundtrip `{Endian} {W} `{!Flash W, !FlashObs W, !FlashLaws W} fuel s (w : W) recs off len script args
    buf bufsize (next : bool) :
  script_in W fuel s (content w) recs off len script -> Z.of_nat (length script) <= 256 -> (258 <= fuel)%nat ->
  args <> [] -> Forall text args -> Forall (fun a => 10 ∉ a) args ->
  2 + Z.of_nat (length script + length (command args)) <= len -> 2 + Z.of_nat (length script + length (command args)) < 65536 ->
  words_paged W (off + (2 + Z.of_nat (length script))) args ->
  Z.of_nat (length (cmd_line args)) <= bufsize -> bufsize < Z.of_nat (length buf) -> (if next then True else script = []) ->
  ensures (let! r1 := storage_init_add fuel s args in
           match r1 with
           | Some (s1, 0) =>
               let! r2 := storage_init_readcmd fuel s1 buf bufsize (2 + Z.of_nat (length script)) next in ret r2
           | _ => ret None
           end) w (fun r w' => exists s2, r = Some (s2, put buf 0 (cmd_line args ++ [10]),
      2 + Z.of_nat (length (script ++ command args)), Z.of_nat (length (cmd_line args)) + 1) /\
    script_in W fuel s2 (content w') recs off len (script ++ command args)).
Proof.
  intros Hs Hlim Hfu Hne Ht Hnl Hfit Hmax Hpg Hsz Hbuf Hnext. apply ensures_bind.
  eapply ensures_mono; [apply (init_add_spec fuel recs off len s script args); (done || lia)|].
  cbv beta. intros r w1 (s1 & -> & Hs1). apply ensures_bind.
  eapply ensures_mono; [apply (readcmd_spec fuel recs off len s1 (script ++ command args) script (cmd_line args) []); try done|].
  - by rewrite command_line.
  - by apply line_no_newline.
  - rewrite length_app. lia.
  - by destruct next.
  - cbv beta. intros r w2 (Hc2 & s2 & -> & Hs2). apply ensures_ret. exists s2. rewrite command_line by done. split; [done|].
    by rewrite <- command_line by done.
Qed.

(** "vlan off" is added to a script of one command, on a flash with sectors. *)
Definition init_dir : list (list Z) :=
  [demo_rec (be_bytes 4 SDB_MAGIC ++ [0; 2; 1; 0]) [0] 0 511 0;
   demo_rec (replicate 8 0) [1] 256 511 2003971433].
Definition demo_script : list Z := [112; 116; 112; 10].
Definition demo_args : list (list Z) := [[118; 108; 97; 110]; [111; 102; 102]].
Definition init_flash : spi_sim := SpiSim (concat init_dir ++ replicate 128 255 ++ [0; 4] ++ demo_script ++ replicate 250 255).
Lemma init_flash_script (be : Endian := true) :
  script_in spi_sim 300 (mk_st demo_fs demo_cal 0 0) (content init_flash) init_dir 256 256 demo_script.
Proof.
  assert (El : Z.of_nat (length (content init_flash)) = 512) by (vm_compute; reflexivity).
  split.
+ split.
  * split; [reflexivity| |reflexivity]. split; try (vm_compute; reflexivity); try (vm_compute; discriminate).
    -- cbn. lia.
    -- intros [|[|i]] r Hr; [injection Hr as <-; vm_compute; reflexivity..|discriminate].
  * cbn. lia.
  * eexists. split; [vm_compute; reflexivity|]. split; vm_compute; reflexivity.
  * unfold file_in. rewrite El. change (erase_len spi_sim 256) with 256. split_and!; try lia. by exists 4.
  * lia.
  * by right.
  * right. change (0 + 64 * 2 <= 256). lia.
+ split.
  * unfold text. repeat (apply Forall_cons; split; [lia|]). constructor.
  * cbn. lia.
  * vm_compute. reflexivity.
  * intros j Hj. change (6 <= j < 256) in Hj.
    change (content init_flash) with (concat init_dir ++ replicate 128 255 ++ [0; 4] ++ demo_script ++ replicate 250 255).
    unfold aget. destruct (Z.ltb_spec (256 + j) 0); [lia|].
    rewrite !app_assoc, lookup_app_r, lookup_replicate_2; [done| |]; rewrite !length_app, length_replicate;
      change (length (concat init_dir)) with 128%nat; cbn [length demo_script]; lia.
Qed.
Lemma init_script_roundtrip_witness (be : Endian := true) :
  ensures (let! r1 := storage_init_add 300 (mk_st demo_fs demo_cal 0 0) demo_args in
           match r1 with
           | Some (s1, 0) => let! r2 := storage_init_readcmd 300 s1 (replicate 81 0) 80 6 true in ret r2
           | _ => ret None
           end) init_flash (fun r w' => exists s2,
    r = Some (s2, put (replicate 81 0) 0 [118; 108; 97; 110; 32; 111; 102; 102; 10], 15, 9) /\
    script_in spi_sim 300 s2 (content w') init_dir 256 256 (demo_script ++ [118; 108; 97; 110; 32; 111; 102; 102; 10])).
Proof.
  apply (init_script_roundtrip 300 (mk_st demo_fs demo_cal 0 0) init_flash init_dir 256 256 demo_script demo_args (replicate 81 0) 80 true);
    try (cbn; lia); try done.
  - apply init_flash_script.
  - unfold text. repeat (apply Forall_cons; split; [repeat (apply Forall_cons; split; [lia|]); constructor|]). constructor.
  - repeat (apply Forall_cons; split; [by apply (bool_decide_unpack _)|]). constructor.
  - split; [by right|]. split; [by right|done].
Defined.
