(* ===== verification/Shell.v ===== *)
(** shell/shell.c: the line editor, the splitting of a line into arguments, the
    command table, the state machine of the interactive shell and the two
    start-up scripts.  What is printed is left out. *)
From Stdlib Require Import ZArith Lia.
From stdpp Require Import base numbers option list.
From S2P Require Import Prelude Bytes.

Definition SH_MAX_LINE_LEN : Z := 80.
Definition SH_MAX_ARGS : nat := 8.
Definition SHELL_MAX_COMMANDS : Z := 40.
Definition SH_PROMPT : Z := 0.
Definition SH_INPUT : Z := 1.
Definition SH_EXEC : Z := 2.
Definition SH_EXEC_UI : Z := 3.
Definition ESCAPE_FLAG : Z := 256.
Definition KEY_LEFT : Z := 324.
Definition KEY_RIGHT : Z := 323.
Definition KEY_ENTER : Z := 13.
Definition KEY_ENTER10 : Z := 10.
Definition KEY_BACKSPACE : Z := 127.
Definition KEY_DELETE : Z := 126.
Definition EINVAL : Z := 22.

(** ** Strings *)

(** The string at the beginning of a memory region. *)
Fixpoint cstr (mem : list Z) : list Z :=
  match mem with
  | [] => []
  | c :: mem => if c =? 0 then [] else c :: cstr mem
  end.

(** lib/util.c; strings are given without their terminator. *)
Definition tolower (c : Z) : Z := if (65 <=? c) && (c <=? 90) then c - 65 + 97 else c.
Fixpoint strcasecmp (s1 s2 : list Z) : Z :=
  let c1 := default 0 (head s1) in
  let c2 := default 0 (head s2) in
  if tolower c1 =? tolower c2 then
    if c1 =? 0 then 0
    else match s1, s2 with _ :: s1, _ :: s2 => strcasecmp s1 s2 | _, _ => 0 end
  else c2 - c1.
(** [!strcmp(s1, s2)] *)
Definition streq (s1 s2 : list Z) : bool := bool_decide (s1 = s2).

Definition memmove (buf : list Z) (dst src n : Z) : list Z := put buf dst (sub buf src n).

(** ** State *)

(** The static variables.  A command is its name and its function, which gets
    the arguments and may use the shell and the rest of the system [W]. *)
Record shell {W : Type} := mk_sh {
  cmd_buf : list Z; cmd_pos : Z; cmd_len : Z; sh_state : Z; current_key : Z; shell_is_interacting : Z;
  shell_ui_callback : option (M W Z) }.
Arguments shell : clear implicits.
#[export] Instance eta_sh {W} : Etable (shell W) := fun s =>
  mk_sh W (cmd_buf s) (cmd_pos s) (cmd_len s) (sh_state s) (current_key s) (shell_is_interacting s)
        (shell_ui_callback s).
Record wrc_shell_cmd (W : Type) := mk_cmd {
  cmd_name : list Z; cmd_exec : list (list Z) -> shell W -> M W (shell W * Z) }.
Arguments cmd_name {W}.
Arguments cmd_exec {W}.
Arguments mk_cmd {W}.

(** The table of commands: [cmds] and [n_cmds]. *)
Definition shell_register_command {W} (cmds : list (wrc_shell_cmd W)) (cmd : wrc_shell_cmd W) : list (wrc_shell_cmd W) :=
  if SHELL_MAX_COMMANDS <=? Z.of_nat (length cmds) then cmds else cmds ++ [cmd].

(** The console. *)
Class Console (W : Type) := console_getc : M W Z.

Section shell.
Context {W : Type} `{!Console W}.
Implicit Types (s : shell W).

(** ** The line editor *)
Definition insert s (c : Z) : shell W * Z :=
  if SH_MAX_LINE_LEN <=? cmd_len s then (s, 0)
  else
    let s := if negb (cmd_pos s =? cmd_len s)
             then s <| cmd_buf := memmove (cmd_buf s) (cmd_pos s + 1) (cmd_pos s) (cmd_len s - cmd_pos s) |> else s in
    (s <| cmd_buf := aset (cmd_buf s) (cmd_pos s) c |> <| cmd_pos := (cmd_pos s + 1)%int |>
       <| cmd_len := (cmd_len s + 1)%int |>, 1).
Definition sdelete s (where_ : Z) : shell W :=
  s <| cmd_buf := memmove (cmd_buf s) where_ (where_ + 1) (cmd_len s - where_) |>
    <| cmd_len := (cmd_len s - 1)%int |>.

(** The inner [switch] of [shell_interactive]. *)
Definition handle_key s : shell W :=
  let k := current_key s in
  if k =? KEY_LEFT then if 0 <? cmd_pos s then s <| cmd_pos := (cmd_pos s - 1)%int |> else s
  else if k =? KEY_RIGHT then if cmd_pos s <? cmd_len s then s <| cmd_pos := (cmd_pos s + 1)%int |> else s
  else if (k =? KEY_ENTER) || (k =? KEY_ENTER10) then s <| sh_state := SH_EXEC |>
  else if k =? KEY_DELETE then if negb (cmd_pos s =? cmd_len s) then sdelete s (cmd_pos s) else s
  else if k =? KEY_BACKSPACE then
    if 0 <? cmd_pos s
    then let s := sdelete s (cmd_pos s - 1) in s <| cmd_pos := (cmd_pos s - 1)%int |> else s
  else if k =? 9 then s
  else if negb (truth (Z.land k ESCAPE_FLAG)) then (insert s (u8 k)).1 else s.

(** The case SH_INPUT with the character [c]. *)
Definition shell_input s (c : Z) : shell W :=
  let s := if (c =? 27) || (truth (Z.land (current_key s) ESCAPE_FLAG) && (c =? 91))
           then s <| current_key := ESCAPE_FLAG |>
           else s <| current_key := u16 (Z.lor (current_key s) c) |> in
  if truth (Z.land (current_key s) 255) then (handle_key s) <| current_key := 0 |> else s.

(** ** Executing a line *)

(** The inner loops of [_shell_exec]; the string ends inside the buffer. *)
Fixpoint skip_spaces (n : nat) (buf : list Z) (i : Z) : list Z * Z :=
  match n with
  | O => (buf, i)
  | S n => if aget 0 buf i =? 32 then skip_spaces n (aset buf i 0) (i + 1) else (buf, i)
  end.
Fixpoint skip_word (n : nat) (buf : list Z) (i : Z) : Z :=
  match n with
  | O => i
  | S n => if negb (aget 0 buf i =? 32) && negb (aget 0 buf i =? 0) then skip_word n buf (i + 1) else i
  end.
(** [todo] arguments may still be found; the pointers are offsets. *)
Fixpoint split_args (todo : nat) (buf : list Z) (i : Z) (tokptr : list Z) : list Z * list Z :=
  match todo with
  | O => (buf, tokptr)
  | S todo =>
      let '(buf, i) := skip_spaces (length buf) buf i in
      if aget 0 buf i =? 0 then (buf, tokptr)
      else
        let tokptr := tokptr ++ [i] in
        let i := skip_word (length buf) buf i in
        if aget 0 buf i =? 0 then (buf, tokptr) else split_args todo buf i tokptr
  end.
Definition arg_at (buf : list Z) (p : Z) : list Z := cstr (drop (Z.to_nat p) buf).

Fixpoint find_cmd (cmds : list (wrc_shell_cmd W)) (name : list Z) : option (wrc_shell_cmd W) :=
  match cmds with
  | [] => None
  | p :: cmds => if strcasecmp (cmd_name p) name =? 0 then Some p else find_cmd cmds name
  end.

Definition _shell_exec (cmds : list (wrc_shell_cmd W)) s : M W (shell W * Z) :=
  let '(buf, tokptr) := split_args SH_MAX_ARGS (cmd_buf s) 0 [] in
  let s := s <| cmd_buf := buf |> in
  match arg_at buf <$> tokptr with
  | [] => ret (s, 0)
  | tok0 :: args =>
      if default 0 (head tok0) =? 35 then ret (s, 0)
      else
        match find_cmd cmds tok0 with
        | Some p => cmd_exec p args s
        | None => ret (s, - EINVAL)
        end
  end.

(** [strncpy(cmd_buf, cmd, SH_MAX_LINE_LEN)] *)
Definition strncpy80 (buf cmd : list Z) : list Z := put buf 0 (take 80 (cmd ++ replicate 80 0)).
(** [cmd] is [None] when it is [cmd_buf] itself. *)
Definition shell_exec (cmds : list (wrc_shell_cmd W)) s (cmd : option (list Z)) : M W (shell W * Z) :=
  let s := match cmd with None => s | Some cmd => s <| cmd_buf := strncpy80 (cmd_buf s) cmd |> end in
  let s := s <| cmd_len := Z.of_nat (length (cstr (cmd_buf s))) |> <| shell_is_interacting := 1 |> in
  let! r := _shell_exec cmds s in
  let '(s, i) := r in
  ret (s <| shell_is_interacting := 0 |> <| cmd_buf := aset (cmd_buf s) 0 0 |>, i).

Definition shell_init s : shell W :=
  s <| cmd_len := 0 |> <| cmd_pos := 0 |> <| sh_state := SH_PROMPT |> <| shell_ui_callback := None |>.
Definition shell_activate_ui_command s (callback : M W Z) : shell W :=
  s <| shell_ui_callback := Some callback |> <| sh_state := SH_EXEC_UI |> <| cmd_len := 0 |>.

Definition shell_interactive (cmds : list (wrc_shell_cmd W)) (redraw_gui : M W unit) s : M W (shell W * Z) :=
  let st := sh_state s in
  if st =? SH_PROMPT then
    ret (s <| cmd_pos := 0 |> <| cmd_len := 0 |> <| sh_state := SH_INPUT |>, 1)
  else if st =? SH_INPUT then
    let! c := console_getc in
    if c <? 0 then ret (s, 0) else ret (shell_input s c, 1)
  else if st =? SH_EXEC then
    let! r := _shell_exec cmds (s <| cmd_buf := aset (cmd_buf s) (cmd_len s) 0 |>) in
    let s := r.1 in
    if sh_state s =? SH_EXEC_UI then ret (s, 1) else ret (s <| sh_state := SH_PROMPT |>, 1)
  else if st =? SH_EXEC_UI then
    let! c := console_getc in
    let! _ := when (c =? 114) redraw_gui in
    let! leave := (match shell_ui_callback s with
                   | None => ret true
                   | Some callback => let! r := callback in ret (r <? 0)
                   end) in
    ret (if leave || (c =? 27) || (c =? 113)
         then s <| cmd_buf := aset (cmd_buf s) (cmd_len s) 0 |> <| sh_state := SH_PROMPT |> else s, 1)
  else ret (s, 0).

(** [sub_cmd]: the index of a subcommand. *)
Fixpoint sub_cmd_loop (cmds : list (list Z)) (name : list Z) (i : Z) : Z :=
  match cmds with
  | [] => -1
  | c :: cmds => if streq c name then i else sub_cmd_loop cmds name (i + 1)
  end.
Definition sub_cmd (cmds args : list (list Z)) : Z :=
  match args with [] => -1 | name :: _ => sub_cmd_loop cmds name 0 end.
End shell.

(** ** The line editor refines a pair of texts around the cursor *)
Record editor := mk_ed { ed_l : list Z; ed_r : list Z; ed_esc : bool; ed_done : bool }.
Definition ed_fresh : editor := mk_ed [] [] false false.
Definition ed_insert (e : editor) (c : Z) : editor :=
  if 80 <=? Z.of_nat (length (ed_l e ++ ed_r e)) then mk_ed (ed_l e) (ed_r e) false false
  else mk_ed (ed_l e ++ [c]) (ed_r e) false false.
(** A key; the arrows are ESC [ C and ESC [ D, and the delete key sends a
    sequence that ends with a tilde. *)
Definition ed_key (e : editor) (c : Z) : editor :=
  let 'mk_ed l r esc _ := e in
  if (c =? 27) || (esc && (c =? 91)) then mk_ed l r true false
  else if esc then
    if c =? 68 then match last l with Some x => mk_ed (removelast l) (x :: r) false false | None => mk_ed l r false false end
    else if c =? 67 then match r with x :: r => mk_ed (l ++ [x]) r false false | [] => mk_ed l r false false end
    else mk_ed l r false false
  else if (c =? 13) || (c =? 10) then mk_ed l r false true
  else if c =? 126 then mk_ed l (tail r) false false
  else if c =? 127 then mk_ed (removelast l) r false false
  else if c =? 9 then mk_ed l r false false
  else ed_insert e c.

Definition is_key (c : Z) : Prop := 1 <= c < 256.

Section editor.
Context {W : Type} `{!Console W}.
Implicit Types (s : shell W) (e : editor).

(** The buffer holds the line and one more byte at least. *)
Record edits s e : Prop := {
  et_buf : exists rest, cmd_buf s = (ed_l e ++ ed_r e) ++ rest /\ Z.of_nat (length (cmd_buf s)) = 81;
  et_pos : cmd_pos s = Z.of_nat (length (ed_l e));
  et_len : cmd_len s = Z.of_nat (length (ed_l e ++ ed_r e)) /\ cmd_len s <= 80;
  et_key : current_key s = if ed_esc e then 256 else 0;
  et_state : sh_state s = if ed_done e then SH_EXEC else SH_INPUT }.

Lemma insert_buf l r x rest c :
  (if negb (Z.of_nat (length l) =? Z.of_nat (length (l ++ r)))
   then aset (memmove ((l ++ r) ++ x :: rest) (Z.of_nat (length l) + 1) (Z.of_nat (length l)) (Z.of_nat (length (l ++ r)) - Z.of_nat (length l))) (Z.of_nat (length l)) c
   else aset ((l ++ r) ++ x :: rest) (Z.of_nat (length l)) c) = ((l ++ [c]) ++ r) ++ rest.
Proof.
  rewrite length_app. destruct (Z.eqb_spec (Z.of_nat (length l)) (Z.of_nat (length l + length r))) as [E|E]; cbn [negb].
  - assert (r = []) as -> by (destruct r; [done|cbn in E; lia]). rewrite !app_nil_r, aset_mid by done. by rewrite <- app_assoc.
  - unfold memmove. replace (Z.of_nat (length l + length r) - Z.of_nat (length l)) with (Z.of_nat (length r)) by lia.
    rewrite <- app_assoc. rewrite (sub_mid l r (x :: rest)) by done.
    destruct (r ++ [x]) as [|y r'] eqn:Er; [by destruct r|].
    assert (Hl : length r' = length r) by (apply (f_equal length) in Er; rewrite length_app in Er; cbn in Er; lia).
    replace (l ++ r ++ x :: rest) with ((l ++ [y]) ++ r' ++ rest).
    2: { rewrite (app_assoc r [x] rest : r ++ x :: rest = (r ++ [x]) ++ rest), Er. by rewrite <- app_assoc. }
    rewrite put_mid by (rewrite ?length_app; cbn [length]; lia). rewrite <- !app_assoc. cbn [app]. by rewrite aset_mid by done.
Qed.
Lemma delete_buf l y r x rest :
  memmove (l ++ y :: r ++ x :: rest) (Z.of_nat (length l)) (Z.of_nat (length l) + 1) (Z.of_nat (length r) + 1) =
  (l ++ r) ++ x :: x :: rest.
Proof.
  unfold memmove. replace (l ++ y :: r ++ x :: rest) with ((l ++ [y]) ++ (r ++ [x]) ++ rest) at 2 by (by rewrite <- !app_assoc).
  rewrite sub_mid by (rewrite length_app; cbn [length]; lia).
  replace (l ++ y :: r ++ x :: rest) with (l ++ (y :: r) ++ x :: rest) by done.
  rewrite put_mid by (rewrite ?length_app; cbn [length]; lia). by rewrite <- !app_assoc.
Qed.

Lemma edits_rest s e : edits s e -> exists x rest, cmd_buf s = (ed_l e ++ ed_r e) ++ x :: rest.
Proof.
  intros [ (rest & Hb & Hl) _ [Hlen Hmax] _ _]. destruct rest as [|x rest]; [|by exists x, rest].
  rewrite Hb, app_nil_r, <- Hlen in Hl. lia.
Qed.

Lemma insert_spec s e c : edits s e -> ed_done e = false -> ed_esc e = false -> edits (insert s c).1 (ed_insert e c).
Proof.
  intros He Hd Hesc. destruct (edits_rest s e He) as (x & rest & Hr). destruct He as [ (rest' & Hb & Hl) Hp [Hlen Hmax] Hk Hst].
  unfold insert, ed_insert, SH_MAX_LINE_LEN. rewrite Hlen.
  destruct (Z.leb_spec 80 (Z.of_nat (length (ed_l e ++ ed_r e)))).
  - cbn [fst]. split; cbn [ed_l ed_r ed_esc ed_done]; [by exists rest'|done|done|by rewrite Hk, Hesc|by rewrite Hst, Hd].
  - cbn [fst]. pose proof (insert_buf (ed_l e) (ed_r e) x rest c) as Hins. rewrite <- Hr, <- Hp, <- Hlen in Hins.
    rewrite length_app in *.
    assert (E : cmd_buf (insert s c).1 = ((ed_l e ++ [c]) ++ ed_r e) ++ rest /\ cmd_pos (insert s c).1 = cmd_pos s + 1 /\
      cmd_len (insert s c).1 = cmd_len s + 1 /\ current_key (insert s c).1 = current_key s /\ sh_state (insert s c).1 = sh_state s).
    { unfold insert, SH_MAX_LINE_LEN. destruct (Z.leb_spec 80 (cmd_len s)); [lia|]. cbn [fst].
      rewrite <- Hins. destruct (cmd_pos s =? cmd_len s); cbn; rewrite <- ?Hlen; unfold iadd; rewrite !s32_small by (unfold is_s32; lia); done. }
    unfold insert, SH_MAX_LINE_LEN in E. rewrite Hlen in E. destruct (Z.leb_spec 80 (Z.of_nat (length (ed_l e) + length (ed_r e)))); [lia|].
    cbn [fst] in E. destruct E as (E1 & E2 & E3 & E4 & E5). split; cbn [ed_l ed_r ed_esc ed_done].
    + exists rest. split; [exact E1|]. rewrite E1. rewrite Hr in Hl. rewrite !length_app in *. cbn [length] in *. lia.
    + rewrite E2, Hp, length_app. cbn. lia.
    + rewrite E3, !length_app. cbn. lia.
    + by rewrite E4, Hk, Hesc.
    + by rewrite E5, Hst, Hd.
Qed.

Lemma sdelete_spec s l y r esc : edits s (mk_ed l (y :: r) esc false) ->
  let s' := sdelete s (Z.of_nat (length l)) in
  (exists rest, cmd_buf s' = (l ++ r) ++ rest /\ Z.of_nat (length (cmd_buf s')) = 81) /\
  cmd_len s' = Z.of_nat (length (l ++ r)) /\ cmd_pos s' = cmd_pos s /\ sh_state s' = SH_INPUT.
Proof.
  intros He. destruct (edits_rest _ _ He) as (x & rest & Hr). destruct He as [ (rest' & Hb & Hl) Hp [Hlen Hmax] Hk Hst].
  cbn [ed_l ed_r ed_esc ed_done] in *. unfold sdelete. cbn [cmd_buf cmd_len cmd_pos sh_state current_key upd].
  rewrite !length_app in *. cbn [length] in *.
  replace (cmd_len s - Z.of_nat (length l)) with (Z.of_nat (length r) + 1) by lia. rewrite <- app_assoc in Hr. cbn [app] in Hr.
  pose proof (delete_buf l y r x rest) as Hd. rewrite <- Hr in Hd. rewrite Hd. split_and!; try done.
  - exists (x :: x :: rest). split; [done|]. rewrite <- Hl, Hr. rewrite !length_app. cbn [length]. rewrite length_app. cbn. lia.
  - unfold isub. rewrite s32_small by (unfold is_s32; lia). lia.
Qed.

(** The codes of keys. *)
Lemma key_codes c : is_key c ->
  u16 (Z.lor 256 c) = 256 + c /\ u16 (Z.lor 0 c) = c /\ truth (Z.land (256 + c) 255) = true /\ truth (Z.land c 255) = true /\
  truth (Z.land (256 + c) 256) = true /\ truth (Z.land c 256) = false /\ u8 c = c.
Proof.
  intros Hc. unfold is_key in Hc.
  pose proof (range_check 256 (fun c => (c =? 0) || ((u16 (Z.lor 256 c) =? 256 + c) && (u16 (Z.lor 0 c) =? c) &&
    truth (Z.land (256 + c) 255) && truth (Z.land c 255) && truth (Z.land (256 + c) 256) && negb (truth (Z.land c 256)) &&
    (u8 c =? c))) ltac:(vm_compute; reflexivity) c ltac:(lia)) as Hx.
  cbv beta in Hx. apply orb_true_iff in Hx as [Hx|Hx]; [apply Z.eqb_eq in Hx; lia|].
  rewrite !andb_true_iff, !Z.eqb_eq, negb_true_iff in Hx. destruct Hx as ((((((H1 & H2) & H3) & H4) & H5) & H6) & H7). by split_and!.
Qed.

(** A key after ESC [. *)
Lemma escaped_key s e c : edits s e -> ed_done e = false -> ed_esc e = true -> is_key c -> c <> 27 -> c <> 91 ->
  edits (shell_input s c) (ed_key e c).
Proof.
  intros He Hd Hesc Hc H27 H91. destruct (key_codes c Hc) as (K1 & _ & K3 & _ & K5 & _). unfold is_key in Hc.
  pose proof He as [ (rest & Hb & Hl) Hp [Hlen Hmax] Hk Hst]. destruct e as [l r esc done]. cbn [ed_l ed_r ed_esc ed_done] in *. subst esc done.
  unfold shell_input, ed_key. rewrite Hk. destruct (Z.eqb_spec c 27); [lia|]. destruct (Z.eqb_spec c 91); [lia|].
  rewrite andb_false_r. cbn [orb current_key upd]. rewrite K1, K3. unfold handle_key. cbn [current_key cmd_pos cmd_len upd].
  unfold KEY_LEFT, KEY_RIGHT, KEY_ENTER, KEY_ENTER10, KEY_DELETE, KEY_BACKSPACE, ESCAPE_FLAG. rewrite K5. cbn [negb].
  rewrite length_app in *.
  destruct (Z.eqb_spec (256 + c) 324), (Z.eqb_spec c 68); try lia.
  { destruct l as [|x l _] using rev_ind.
    - cbn [last]. destruct (Z.ltb_spec 0 (cmd_pos s)); [cbn in Hp; lia|]. split; cbn; try done. by exists rest.
    - rewrite last_snoc, removelast_last. rewrite length_app in *. cbn [length] in *. destruct (Z.ltb_spec 0 (cmd_pos s)); [|lia].
      split; cbn; try done.
      + exists rest. split; [|done]. by rewrite Hb, <- !app_assoc.
      + unfold isub. rewrite s32_small by (unfold is_s32; lia). lia.
      + rewrite length_app. cbn. lia. }
  destruct (Z.eqb_spec (256 + c) 323), (Z.eqb_spec c 67); try lia.
  { destruct r as [|x r]; cbn [length] in *.
    - destruct (Z.ltb_spec (cmd_pos s) (cmd_len s)); [lia|]. split; cbn; try done; [by exists rest|rewrite length_app; cbn; lia].
    - destruct (Z.ltb_spec (cmd_pos s) (cmd_len s)); [|lia]. split; cbn; try done.
      + exists rest. split; [|done]. by rewrite Hb, <- !app_assoc.
      + unfold iadd. rewrite s32_small, length_app by (unfold is_s32; lia). cbn. lia.
      + rewrite !length_app. cbn. lia. }
  destruct (Z.eqb_spec (256 + c) 13), (Z.eqb_spec (256 + c) 10), (Z.eqb_spec (256 + c) 126), (Z.eqb_spec (256 + c) 127), (Z.eqb_spec (256 + c) 9); try lia.
  cbn [orb]. split; cbn; try done; [by exists rest|by rewrite length_app].
Qed.

Lemma plain_key s e c : edits s e -> ed_done e = false -> ed_esc e = false -> is_key c -> c <> 27 ->
  edits (shell_input s c) (ed_key e c).
Proof.
  intros He Hd Hesc Hc H27. destruct (key_codes c Hc) as (_ & K2 & _ & K4 & _ & K6 & K7). unfold is_key in Hc.
  pose proof He as [ (rest & Hb & Hl) Hp [Hlen Hmax] Hk Hst].
  set (s1 := s <| current_key := c |>).
  assert (Hs1 : shell_input s c = (handle_key s1) <| current_key := 0 |>).
  { unfold shell_input. rewrite Hk, Hesc. destruct (Z.eqb_spec c 27); [lia|]. change (truth (Z.land 0 ESCAPE_FLAG)) with false. cbn [orb andb current_key upd].
    rewrite K2. cbn [current_key upd]. by rewrite K4. }
  rewrite Hs1. clear Hs1. destruct e as [l r esc done]. cbn [ed_l ed_r ed_esc ed_done] in *. subst esc done.
  assert (Hkey : forall s' e', edits s' e' -> ed_esc e' = false -> edits (s' <| current_key := 0 |>) e').
  { intros s' e' [? ? ? ? ?] E. split; try done. by rewrite E. }
  unfold handle_key, ed_key. change (current_key s1) with c. change (cmd_pos s1) with (cmd_pos s). change (cmd_len s1) with (cmd_len s).
  unfold KEY_LEFT, KEY_RIGHT, KEY_ENTER, KEY_ENTER10, KEY_DELETE, KEY_BACKSPACE, ESCAPE_FLAG. rewrite K6, K7.
  destruct (Z.eqb_spec c 324), (Z.eqb_spec c 323), (Z.eqb_spec c 27); try lia. cbn [orb andb negb].
  destruct ((c =? 13) || (c =? 10)) eqn:Eent.
  { split; cbn; try done. by exists rest. }
  destruct (Z.eqb_spec c 126).
  { destruct r as [|y r].
    - rewrite app_nil_r in *. destruct (Z.eqb_spec (cmd_pos s) (cmd_len s)); [|lia]. cbn [negb].
      split; cbn; rewrite ?app_nil_r; try done. by exists rest.
    - rewrite length_app in Hlen. cbn [length] in Hlen. destruct (Z.eqb_spec (cmd_pos s) (cmd_len s)); [lia|]. cbn [negb].
      rewrite Hp. change (sdelete s1 (Z.of_nat (length l))) with ((sdelete s (Z.of_nat (length l))) <| current_key := c |>).
      destruct (sdelete_spec s l y r false He) as (D1 & D2 & D3 & D4). cbn [tail].
      split; cbn [ed_l ed_r ed_esc ed_done cmd_buf cmd_len cmd_pos current_key sh_state upd]; try done.
      rewrite D2. split; [done|]. rewrite length_app. lia. }
  destruct (Z.eqb_spec c 127).
  { destruct l as [|x l _] using rev_ind.
    - destruct (Z.ltb_spec 0 (cmd_pos s)); [cbn in Hp; lia|]. split; cbn; try done. by exists rest.
    - rewrite removelast_last. rewrite !length_app in *. cbn [length] in *. destruct (Z.ltb_spec 0 (cmd_pos s)); [|lia].
      assert (He' : edits (s <| cmd_pos := Z.of_nat (length l) |>) (mk_ed l (x :: r) false false)).
      { split; cbn; try done; [exists rest; split; [by rewrite Hb, <- !app_assoc|done]|]. rewrite length_app. cbn. lia. }
      destruct (sdelete_spec _ l x r false He') as (D1 & D2 & D3 & D4).
      replace (cmd_pos s - 1) with (Z.of_nat (length l)) by lia. unfold isub. rewrite (s32_small (cmd_pos _ - 1)).
      2: { cbn. unfold is_s32. lia. }
      split; cbn [ed_l ed_r ed_esc ed_done cmd_buf cmd_len cmd_pos current_key sh_state upd]; try done.
      + cbn. lia.
      + rewrite length_app in D2. split; [rewrite length_app; exact D2|]. cbn in D2 |- *. unfold isub in *. lia. }
  destruct (Z.eqb_spec c 9).
  { split; cbn; try done. by exists rest. }
  assert (E : (insert s1 c).1 <| current_key := 0 |> = (insert s c).1 <| current_key := 0 |>).
  { unfold insert. change (cmd_len s1) with (cmd_len s). change (cmd_pos s1) with (cmd_pos s). destruct (_ <=? _); [done|]. by destruct (negb _). }
  rewrite E. apply Hkey; [by apply insert_spec|]. unfold ed_insert. by destruct (_ <=? _).
Qed.
End editor.

(** ** The arguments are the words of the line *)
Fixpoint drop_spaces (l : list Z) : list Z :=
  match l with
  | [] => []
  | c :: l' => if c =? 32 then drop_spaces l' else l
  end.
Fixpoint span_word (l : list Z) : list Z * list Z :=
  match l with
  | [] => ([], [])
  | c :: l' => if c =? 32 then ([], l) else let '(w, rest) := span_word l' in (c :: w, rest)
  end.
(** At most [n] words; the last of them takes the rest of the line. *)
Fixpoint words (n : nat) (l : list Z) : list (list Z) :=
  match n with
  | O => []
  | S n =>
      let l := drop_spaces l in
      match l with
      | [] => []
      | _ :: _ =>
          let '(w, rest) := span_word l in
          match n, rest with
          | O, _ => [l]
          | _, [] => [w]
          | _, _ :: _ => w :: words n rest
          end
      end
  end.

Section args.
Implicit Types (l pre rest : list Z).

Lemma skip_spaces_spec l : forall n pre rest, (length l < n)%nat -> exists k,
  skip_spaces n (pre ++ l ++ 0 :: rest) (Z.of_nat (length pre)) =
    (pre ++ replicate k 0 ++ drop_spaces l ++ 0 :: rest, Z.of_nat (length pre + k)) /\
  length l = (k + length (drop_spaces l))%nat /\ (head l = Some 32 -> (0 < k)%nat).
Proof.
  induction l as [|c l IH]; intros n pre rest Hn; (destruct n as [|n]; [cbn in Hn; lia|]); cbn [skip_spaces drop_spaces].
  - exists 0%nat. cbn [app replicate]. rewrite aget_mid by done. change (0 =? 32) with false. cbv iota.
    rewrite Nat.add_0_r. by split_and!.
  - cbn [app]. rewrite aget_mid by done. destruct (Z.eqb_spec c 32) as [->|Hne].
    + rewrite aset_mid by done. destruct (IH n (pre ++ [0]) rest) as (k & Hk & Hl & _); [cbn in Hn; lia|].
      exists (S k). rewrite length_app, <- app_assoc in Hk. cbn [app length] in Hk.
      replace (Z.of_nat (length pre) + 1) with (Z.of_nat (length pre + 1)) by lia. rewrite Hk. split_and!; [|cbn [length]; lia|lia].
      rewrite <- app_assoc. cbn [app replicate]. f_equal. lia.
    + exists 0%nat. rewrite Nat.add_0_r. split_and!; [done|done|]. intros [= ->]. done.
Qed.

Lemma span_word_app l : (span_word l).1 ++ (span_word l).2 = l.
Proof. induction l as [|c l IH]; [done|]. cbn. destruct (c =? 32); [done|]. destruct (span_word l). cbn in *. by rewrite IH. Qed.
Lemma span_rest l : head (span_word l).2 = Some 32 \/ (span_word l).2 = [].
Proof.
  induction l as [|c l IH]; [by right|]. cbn. destruct (Z.eqb_spec c 32) as [->|]; [by left|]. by destruct (span_word l).
Qed.
Lemma skip_word_spec l : forall n pre rest, (length l < n)%nat -> 0 ∉ l ->
  skip_word n (pre ++ l ++ 0 :: rest) (Z.of_nat (length pre)) = Z.of_nat (length (pre ++ (span_word l).1)).
Proof.
  induction l as [|c l IH]; intros n pre rest Hn H0; (destruct n as [|n]; [cbn in Hn; lia|]); cbn [skip_word].
  - cbn [app]. rewrite aget_mid by done. cbn. by rewrite app_nil_r.
  - apply not_elem_of_cons in H0 as [Hc H0]. cbn [app span_word]. rewrite aget_mid by done.
    destruct (Z.eqb_spec c 32) as [->|Hne]; cbn [negb andb]; [by rewrite app_nil_r|].
    destruct (Z.eqb_spec c 0); [by subst|]. cbn [negb].
    specialize (IH n (pre ++ [c]) rest ltac:(cbn in Hn; lia) H0). rewrite length_app, <- app_assoc in IH. cbn [app length] in IH.
    replace (Z.of_nat (length pre) + 1) with (Z.of_nat (length pre + 1)) by lia. rewrite IH.
    destruct (span_word l) as [w r]. cbn [fst]. rewrite !length_app. cbn [length]. rewrite ?length_app. cbn [length]. lia.
Qed.

Lemma cstr_app l rest : 0 ∉ l -> cstr (l ++ 0 :: rest) = l.
Proof.
  induction l as [|c l IH]; intros H0; [done|]. apply not_elem_of_cons in H0 as [Hc H0]. cbn.
  destruct (Z.eqb_spec c 0); [by subst|]. by rewrite IH.
Qed.
Lemma drop_spaces_sub l c : c ∈ drop_spaces l -> c ∈ l.
Proof. induction l as [|x l IH]; [done|]. cbn. destruct (x =? 32); [|done]. intros. right. by apply IH. Qed.
Lemma drop_spaces_word l : drop_spaces l <> [] -> (span_word (drop_spaces l)).1 <> [].
Proof.
  induction l as [|x l IH]; [done|]. cbn. destruct (Z.eqb_spec x 32); [done|]. intros _. cbn.
  destruct (Z.eqb_spec x 32); [done|]. by destruct (span_word l).
Qed.

Lemma split_args_spec todo : forall l pre rest toks, 0 ∉ l -> exists l' new,
  split_args todo (pre ++ l ++ 0 :: rest) (Z.of_nat (length pre)) toks = (pre ++ l' ++ 0 :: rest, toks ++ new) /\
  length l' = length l /\ arg_at (pre ++ l' ++ 0 :: rest) <$> new = words todo l /\
  match todo with O => l' = l | S _ => head l = Some 32 -> head l' = Some 0 end.
Proof.
  induction todo as [|todo IH]; intros l pre rest toks H0; cbn [split_args].
  { exists l, []. rewrite app_nil_r. by split_and!. }
  destruct (skip_spaces_spec l (length (pre ++ l ++ 0 :: rest)) pre rest) as (k & -> & Hl & Hk).
  { rewrite !length_app. cbn [length]. lia. }
  cbn [words]. assert (H1 : 0 ∉ drop_spaces l) by (intros Hx; by apply drop_spaces_sub in Hx).
  pose proof (drop_spaces_word l) as Hw. pose proof (span_word_app (drop_spaces l)) as Hspan. pose proof (span_rest (drop_spaces l)) as Hrest.
  set (pre1 := pre ++ replicate k 0). assert (Hp1 : (length pre + k)%nat = length pre1) by (unfold pre1; by rewrite length_app, length_replicate).
  assert (Ebuf : pre ++ replicate k 0 ++ drop_spaces l ++ 0 :: rest = pre1 ++ drop_spaces l ++ 0 :: rest) by (unfold pre1; by rewrite <- app_assoc).
  rewrite Ebuf, Hp1. assert (Hk0 : forall m, (0 < k)%nat -> head (replicate k 0 ++ m) = Some 0) by (intros m ?; destruct k; [lia|done]).
  destruct (drop_spaces l) as [|c l1] eqn:El.
  { cbn [app]. rewrite aget_mid by done. change (0 =? 0) with true. cbv iota. exists (replicate k 0), [].
    rewrite app_nil_r. unfold pre1. rewrite <- app_assoc. split_and!; [done|rewrite length_replicate; cbn in Hl; lia|done|].
    intros Hh. rewrite <- (app_nil_r (replicate k 0)). apply Hk0, Hk, Hh. }
  assert (Hc : c <> 0) by (intros ->; apply H1; by left).
  cbn [app]. rewrite aget_mid by done. destruct (Z.eqb_spec c 0); [done|].
  change (pre1 ++ c :: l1 ++ 0 :: rest) with (pre1 ++ (c :: l1) ++ 0 :: rest). set (lw := c :: l1) in *.
  rewrite skip_word_spec; [|rewrite !length_app; cbn [length]; lia|done].
  destruct (span_word lw) as [w r] eqn:Ew. cbn [fst snd] in *.
  assert (Hat : forall m p, p = Z.of_nat (length pre1) -> arg_at (pre1 ++ m) p = cstr m).
  { intros m p ->. unfold arg_at. by rewrite Nat2Z.id, drop_app_length. }
  assert (Hw0 : 0 ∉ w) by (rewrite <- Hspan in H1; by apply not_elem_of_app in H1 as [? _]).
  destruct Hrest as [Hr|Hr].
  2: { subst r. rewrite app_nil_r in Hspan. rewrite Hspan, app_assoc, aget_mid by done. change (0 =? 0) with true. cbv iota.
       exists (replicate k 0 ++ lw), [Z.of_nat (length pre1)]. unfold pre1 at 1 3. rewrite <- !app_assoc. split_and!; [done| | |].
       - rewrite length_app, length_replicate. lia.
       - cbn [fmap list_fmap]. replace (pre ++ replicate k 0 ++ lw ++ 0 :: rest) with (pre1 ++ lw ++ 0 :: rest) by (unfold pre1; by rewrite <- app_assoc).
         rewrite Hat by done. rewrite cstr_app by (by rewrite <- Hspan). by destruct todo.
       - intros Hh. apply Hk0, Hk, Hh. }
  destruct r as [|x r]; [done|]. injection Hr as ->.
  assert (Eb1 : pre1 ++ lw ++ 0 :: rest = (pre1 ++ w) ++ 32 :: (r ++ 0 :: rest)) by (rewrite <- Hspan; by rewrite <- !app_assoc).
  rewrite Eb1, aget_mid by done. change (32 =? 0) with false. cbv iota.
  destruct (IH (32 :: r) (pre1 ++ w) rest (toks ++ [Z.of_nat (length pre1)])) as (l' & new & Hs & Hll & Ha & Hm).
  { rewrite <- Hspan in H1. by apply not_elem_of_app in H1 as [_ ?]. }
  exists (replicate k 0 ++ w ++ l'), (Z.of_nat (length pre1) :: new).
  cbn [app] in Hs. rewrite Hs. assert (Eb : (pre1 ++ w) ++ l' ++ 0 :: rest = pre ++ (replicate k 0 ++ w ++ l') ++ 0 :: rest) by (unfold pre1; by rewrite <- !app_assoc).
  rewrite <- Eb. split_and!; [by rewrite <- !app_assoc| | |].
  - rewrite !length_app, length_replicate, Hll. apply (f_equal length) in Hspan. rewrite length_app in Hspan. lia.
  - cbn [fmap list_fmap]. change (list_fmap _ _ _ new) with (arg_at ((pre1 ++ w) ++ l' ++ 0 :: rest) <$> new). rewrite Ha.
    rewrite <- app_assoc, Hat by done. destruct todo as [|todo].
    + subst l'. rewrite app_assoc, Hspan, cstr_app by done. done.
    + destruct l' as [|y l']; [done|]. specialize (Hm eq_refl). injection Hm as ->. cbn [app]. by rewrite cstr_app.
  - intros Hh. apply Hk0, Hk, Hh.
Qed.
End args.

(** Names are compared without regard to case. *)
Definition same_name (s1 s2 : list Z) : bool := bool_decide (tolower <$> s1 = tolower <$> s2).
Definition chars (l : list Z) : Prop := Forall is_key l.
Lemma tolower_0 c : tolower c = tolower 0 -> 0 <= c -> c = 0.
Proof. unfold tolower. cbn. destruct (Z.leb_spec 65 c), (Z.leb_spec c 90); cbn; lia. Qed.
Lemma strcasecmp_spec s1 : forall s2, chars s1 -> chars s2 -> (strcasecmp s1 s2 =? 0) = same_name s1 s2.
Proof.
  unfold same_name. induction s1 as [|a s1 IH]; intros s2 H1 H2.
  - destruct s2 as [|b s2]; [done|]. apply Forall_cons in H2 as [Hb _]. unfold is_key in Hb. cbn [strcasecmp head from_option id].
    rewrite bool_decide_eq_false_2 by done. destruct (Z.eqb_spec (tolower 0) (tolower b)) as [E|E].
    + symmetry in E. apply tolower_0 in E; lia.
    + apply Z.eqb_neq. cbn. lia.
  - apply Forall_cons in H1 as [Ha H1]. unfold is_key in Ha. destruct s2 as [|b s2].
    + cbn [strcasecmp head from_option id]. rewrite bool_decide_eq_false_2 by done.
      destruct (Z.eqb_spec (tolower a) (tolower 0)) as [E|E]; [apply tolower_0 in E; lia|]. apply Z.eqb_neq. cbn. lia.
    + apply Forall_cons in H2 as [Hb H2]. specialize (IH s2 H1 H2). cbn [strcasecmp head from_option id fmap list_fmap].
      destruct (Z.eqb_spec (tolower a) (tolower b)) as [E|E].
      * destruct (Z.eqb_spec a 0); [lia|]. rewrite IH. apply bool_decide_ext. unfold fmap. rewrite E.
        split; [intros ->; done|]. by intros [= ->].
      * rewrite bool_decide_eq_false_2; [|by intros [= ? _]]. apply Z.eqb_neq. change (b - a <> 0). intros Hx. apply E. f_equal. lia.
Qed.

Section exec.
Context {W : Type} `{!Console W}.
Implicit Types (s : shell W) (cmds : list (wrc_shell_cmd W)).

(** What a line does: an empty line and a comment do nothing. *)
Definition exec_words cmds s (ws : list (list Z)) : M W (shell W * Z) :=
  match ws with
  | [] => ret (s, 0)
  | w :: args =>
      if default 0 (head w) =? 35 then ret (s, 0)
      else match List.find (fun p => same_name (cmd_name p) w) cmds with
           | Some p => cmd_exec p args s
           | None => ret (s, - EINVAL)
           end
  end.

Lemma words_chars n : forall l, chars l -> Forall chars (words n l).
Proof.
  induction n as [|n IH]; intros l Hl; cbn [words]; [constructor|].
  assert (Hd : chars (drop_spaces l)).
  { unfold chars in *. rewrite Forall_forall in *. intros c Hc. apply Hl. by apply drop_spaces_sub. }
  destruct (drop_spaces l) as [|c l1] eqn:El; [constructor|]. rewrite <- El in *. rewrite El. rewrite <- El.
  pose proof (span_word_app (drop_spaces l)) as Hspan. destruct (span_word (drop_spaces l)) as [w r]. cbn [fst snd] in Hspan.
  assert (Hw : chars w /\ chars r) by (unfold chars in *; rewrite <- Hspan in Hd; by apply Forall_app).
  destruct n, r; try (apply Forall_cons; split; try done; try constructor); try apply Hw. apply IH, Hw.
Qed.
Lemma find_cmd_spec cmds w : Forall (fun p => chars (cmd_name p)) cmds -> chars w ->
  find_cmd cmds w = List.find (fun p => same_name (cmd_name p) w) cmds.
Proof.
  intros Hc Hw. induction Hc as [|p cmds Hp _ IH]; [done|]. cbn [find_cmd List.find]. rewrite strcasecmp_spec by done.
  by destruct (same_name _ _).
Qed.
End exec.

Lemma exec_line_words {W} (cmds : list (wrc_shell_cmd W)) (s : shell W) line rest :
  cmd_buf s = line ++ 0 :: rest -> chars line -> Forall (fun p => chars (cmd_name p)) cmds ->
  exists buf', length buf' = length (cmd_buf s) /\
    _shell_exec cmds s = exec_words cmds (s <| cmd_buf := buf' |>) (words 8 line).
Proof.
  intros Hb Hl Hc. assert (H0 : 0 ∉ line).
  { intros Hx. unfold chars in Hl. rewrite Forall_forall in Hl. specialize (Hl 0 Hx). unfold is_key in Hl. lia. }
  destruct (split_args_spec SH_MAX_ARGS line [] rest [] H0) as (l' & new & Hs & Hll & Ha & _).
  cbn [app] in Hs, Ha. change (Z.of_nat (length [])) with 0 in Hs.
  exists (l' ++ 0 :: rest). split; [by rewrite Hb, !length_app, Hll|].
  unfold _shell_exec. rewrite Hb, Hs, Ha. pose proof (words_chars 8 line Hl) as Hw. fold SH_MAX_ARGS in Hw |- *.
  unfold exec_words. destruct (words SH_MAX_ARGS line) as [|w args]; [done|]. apply Forall_cons in Hw as [Hw _].
  by rewrite find_cmd_spec.
Qed.

(** C22. The shell executes a line as its words: at most eight, separated by
    spaces, of which the eighth keeps the rest of the line; the first selects
    a command without regard to case and the others are its arguments; an
    empty line and a comment return 0, an unknown command -EINVAL. *)
Theorem shell_executes_words {W} (cmds : list (wrc_shell_cmd W)) (s : shell W) line rest :
  cmd_buf s = line ++ 0 :: rest -> chars line -> Forall (fun p => chars (cmd_name p)) cmds ->
  exists buf', length buf' = length (cmd_buf s) /\
    _shell_exec cmds s = exec_words cmds (s <| cmd_buf := buf' |>) (words 8 line).
Proof. apply exec_line_words. Qed.

(** "VER  x" with a command "ver" that keeps its arguments. *)
Definition demo_cmds : list (wrc_shell_cmd (list Z)) :=
  [mk_cmd [118; 101; 114] (fun args s => let! _ := (fun w => (tt, concat args)) in ret (s, 7))].
Definition demo_sh (buf : list Z) : shell (list Z) := mk_sh (list Z) buf 0 0 SH_PROMPT 0 0 None.
Lemma shell_executes_words_witness :
  exists buf', length buf' = 9%nat /\
    _shell_exec demo_cmds (demo_sh [86; 69; 82; 32; 32; 120; 0; 1; 2]) [] = ((demo_sh buf', 7), [120]).
Proof.
  destruct (shell_executes_words demo_cmds (demo_sh [86; 69; 82; 32; 32; 120; 0; 1; 2]) [86; 69; 82; 32; 32; 120] [1; 2]) as (buf' & Hl & Hx).
  - reflexivity.
  - unfold chars, is_key. repeat (apply Forall_cons; split; [lia|]). constructor.
  - apply Forall_singleton. unfold chars, is_key. cbn. repeat (apply Forall_cons; split; [lia|]). constructor.
  - exists buf'. split; [exact Hl|]. rewrite Hx. reflexivity.
Defined.

(** ** A session: from the prompt to the execution of the line *)

(** The console delivers the characters that wait, and -1 without any. *)
Class ConsoleObs (W : Type) := pending : W -> list Z.
Class ConsoleLaws (W : Type) `{!Console W, !ConsoleObs W} : Prop :=
  law_getc w : ensures console_getc w (fun c w' =>
    match pending w with [] => c = -1 /\ pending w' = [] | k :: ks => c = k /\ pending w' = ks end).

(** [n] calls of [shell_interactive]. *)
Fixpoint run_shell {W} `{!Console W} (cmds : list (wrc_shell_cmd W)) (redraw : M W unit) (n : nat) (s : shell W) : M W (shell W) :=
  match n with
  | O => ret s
  | S n => let! r := shell_interactive cmds redraw s in run_shell cmds redraw n r.1
  end.

Section session.
Context {W : Type} `{!Console W, !ConsoleObs W, !ConsoleLaws W} (cmds : list (wrc_shell_cmd W)) (redraw : M W unit).
Implicit Types (s : shell W) (e : editor).

Lemma run_shell_S n s w (Q : shell W -> W -> Prop) :
  ensures (shell_interactive cmds redraw s) w (fun r w' => ensures (run_shell cmds redraw n r.1) w' Q) ->
  ensures (run_shell cmds redraw (S n) s) w Q.
Proof. intros H. apply ensures_bind. exact H. Qed.

Lemma key_step s e c : edits s e -> ed_done e = false -> is_key c -> edits (shell_input s c) (ed_key e c).
Proof.
  intros He Hd Hc. destruct (ed_esc e) eqn:Ee.
  - destruct (Z.eq_dec c 27) as [->|H27]; [|destruct (Z.eq_dec c 91) as [->|H91]].
    3: by apply escaped_key.
    all: destruct He as [Hb Hp Hl Hk Hst]; destruct e as [l r esc dn]; cbn [ed_l ed_r ed_esc ed_done] in *; subst esc dn;
      unfold shell_input; rewrite Hk; split; done.
  - destruct (Z.eq_dec c 27) as [->|H27]; [|by apply plain_key].
    destruct He as [Hb Hp Hl Hk Hst]; destruct e as [l r esc dn]; cbn [ed_l ed_r ed_esc ed_done] in *; subst esc dn.
    unfold shell_input; rewrite Hk; split; done.
Qed.

(** Only characters that were typed are in the line. *)
Lemma ed_key_chars e c : chars (ed_l e ++ ed_r e) -> is_key c -> chars (ed_l (ed_key e c) ++ ed_r (ed_key e c)).
Proof.
  destruct e as [l r esc dn]. cbn [ed_l ed_r]. intros He Hc. unfold chars in *. apply Forall_app in He as [Hl Hr].
  assert (Hrm : Forall is_key (removelast l)).
  { destruct l as [|x l _] using rev_ind; [done|]. rewrite removelast_last. by apply Forall_app in Hl as [? _]. }
  unfold ed_key, ed_insert. cbn [ed_l ed_r].
  destruct ((c =? 27) || (esc && (c =? 91))); [by apply Forall_app|]. destruct esc.
  - destruct (c =? 68).
    + destruct (last l) as [x|] eqn:E; [|by apply Forall_app]. apply Forall_app. split; [done|]. apply Forall_cons. split; [|done].
      apply last_Some in E as [l' ->]. apply Forall_app in Hl as [_ Hx]. by apply Forall_cons in Hx as [? _].
    + destruct (c =? 67); [|by apply Forall_app]. destruct r as [|x r]; [by apply Forall_app|]. apply Forall_cons in Hr as [Hx Hr].
      apply Forall_app. split; [|done]. apply Forall_app. split; [done|]. by apply Forall_singleton.
  - destruct ((c =? 13) || (c =? 10)); [by apply Forall_app|]. destruct (c =? 126).
    { apply Forall_app. split; [done|]. destruct r; [done|]. by apply Forall_cons in Hr as [_ ?]. }
    destruct (c =? 127); [by apply Forall_app|]. destruct (c =? 9); [by apply Forall_app|].
    destruct (80 <=? _); cbn [ed_l ed_r]; [by apply Forall_app|]. rewrite <- app_assoc. apply Forall_app. split; [done|]. by apply Forall_cons.
Qed.

Lemma typing keys : forall s e w more, edits s e -> pending w = keys ++ more -> Forall is_key keys -> chars (ed_l e ++ ed_r e) ->
  (forall k1 c k2, keys = k1 ++ c :: k2 -> ed_done (foldl ed_key e k1) = false) ->
  ensures (run_shell cmds redraw (length keys) s) w (fun s' w' => pending w' = more /\ edits s' (foldl ed_key e keys) /\
    chars (ed_l (foldl ed_key e keys) ++ ed_r (foldl ed_key e keys))).
Proof.
  induction keys as [|c keys IH]; intros s e w more He Hp Hk Hc Hd; [by apply ensures_ret|]. cbn [length foldl].
  apply Forall_cons in Hk as [Hkc Hk]. apply run_shell_S. pose proof (Hd [] c keys eq_refl) as Hde. cbn [foldl] in Hde.
  unfold shell_interactive. rewrite (et_state _ _ He), Hde. change (SH_INPUT =? SH_PROMPT) with false. change (SH_INPUT =? SH_INPUT) with true. cbv iota.
  apply ensures_bind. eapply ensures_mono; [apply law_getc|]. cbv beta. rewrite Hp. cbn [app]. intros x w1 [-> Hp1].
  unfold is_key in Hkc. destruct (Z.ltb_spec c 0); [lia|]. apply ensures_ret. cbn [fst].
  apply IH; try done; [by apply key_step|by apply ed_key_chars|]. intros k1 c' k2 ->. apply (Hd (c :: k1) c' k2). done.
Qed.
End session.

(** C21. A session at the prompt: while the keys of the user arrive the buffer
    holds what a line editor with the texts before and behind the cursor holds
    (insertion, delete, backspace, arrows; at most 80 characters), and when the
    line is entered the shell is about to execute exactly this line, which is
    terminated inside the buffer. *)
Theorem shell_session {W} `{!Console W, !ConsoleObs W, !ConsoleLaws W} (cmds : list (wrc_shell_cmd W)) redraw (s : shell W) (w : W) keys more :
  sh_state s = SH_PROMPT -> Z.of_nat (length (cmd_buf s)) = 81 -> current_key s = 0 ->
  pending w = keys ++ 13 :: more -> Forall is_key keys ->
  (forall k1 k2, keys = k1 ++ k2 -> ed_done (foldl ed_key ed_fresh k1) = false) -> ed_esc (foldl ed_key ed_fresh keys) = false ->
  let e := foldl ed_key ed_fresh keys in
  ensures (run_shell cmds redraw (length keys + 2) s) w (fun s' w' => pending w' = more /\ sh_state s' = SH_EXEC /\
    chars (ed_l e ++ ed_r e) /\ Z.of_nat (length (ed_l e ++ ed_r e)) <= 80 /\
    exists rest, aset (cmd_buf s') (cmd_len s') 0 = (ed_l e ++ ed_r e) ++ 0 :: rest).
Proof.
  intros Hst Hb Hk Hp Hkeys Hd Hesc. cbv zeta. replace (length keys + 2)%nat with (S (length (keys ++ [13]))) by (rewrite length_app; cbn; lia).
  apply run_shell_S. unfold shell_interactive. rewrite Hst. change (SH_PROMPT =? SH_PROMPT) with true. cbv iota. apply ensures_ret. cbn [fst].
  assert (Hk13 : Forall is_key (keys ++ [13])) by (apply Forall_app; split; [done|]; apply Forall_singleton; unfold is_key; lia).
  set (s0 := (s <| cmd_pos := 0 |> <| cmd_len := 0 |>) <| sh_state := SH_INPUT |>).
  assert (H0 : edits s0 ed_fresh) by (split; cbn; try done; by exists (cmd_buf s)).
  eapply ensures_mono; [apply (typing cmds redraw (keys ++ [13]) s0 ed_fresh w more); try done|].
  - by rewrite <- app_assoc.
  - constructor.
  - intros k1 c k2 E. destruct k2 as [|x k2 _] using rev_ind.
    + apply app_inj_tail in E as [E _]. apply (Hd k1 []). by rewrite app_nil_r.
    + rewrite app_comm_cons, app_assoc in E. apply app_inj_tail in E as [E _]. by apply (Hd k1 (c :: k2)).
  - cbv beta. rewrite foldl_snoc. destruct (foldl ed_key ed_fresh keys) as [l r esc dn]. cbn [ed_esc] in Hesc. subst esc.
    intros s' w' (Hp' & He & Hc). cbn in He, Hc |- *. destruct (edits_rest s' _ He) as (x & rest & Hr). cbn [ed_l ed_r] in Hr.
    destruct He as [_ _ [Hlen Hmax] _ Hst']. cbn [ed_l ed_r ed_done] in *. split_and!; try done; [lia|].
    exists rest. rewrite Hr. by apply aset_mid.
Qed.

(** A console whose characters wait in a list. *)
#[export] Instance list_console : Console (list Z) := fun w => match w with [] => (-1, []) | c :: w => (c, w) end.
#[export] Instance list_pending : ConsoleObs (list Z) := fun w => w.
#[export] Instance list_console_laws : ConsoleLaws (list Z).
Proof. intros [|c w]; unfold ensures; cbn; by split. Qed.

(** The keys a, b, left arrow, backspace and enter leave the line "b". *)
Lemma shell_session_witness : let keys := [97; 98; 27; 91; 68; 127] in
  ensures (run_shell demo_cmds (ret tt) 8 (demo_sh (replicate 81 0))) (keys ++ 13 :: [113]) (fun s' w' =>
    pending w' = [113] /\ sh_state s' = SH_EXEC /\ exists rest, aset (cmd_buf s') (cmd_len s') 0 = [98] ++ 0 :: rest).
Proof.
  intros keys. assert (Hd : forall k1 k2, keys = k1 ++ k2 -> ed_done (foldl ed_key ed_fresh k1) = false).
  { intros k1 k2 E. assert (E1 : k1 = take (length k1) keys) by (by rewrite E, take_app_length). rewrite E1. clear.
    generalize (length k1). intros n. do 7 (destruct n as [|n]; [vm_compute; reflexivity|]). vm_compute. reflexivity. }
  assert (Hk : Forall is_key keys).
  { unfold is_key. repeat (apply Forall_cons; split; [lia|]). constructor. }
  pose proof (shell_session demo_cmds (ret tt) (demo_sh (replicate 81 0)) (keys ++ 13 :: [113]) keys [113]
    eq_refl eq_refl eq_refl eq_refl Hk Hd eq_refl) as H.
  refine (ensures_mono _ _ _ _ H _). cbv beta. intros s' w' (H1 & H2 & _ & _ & H3). by split_and!.
Defined.

(** ** The start-up scripts *)

(** The script of the configuration, CONFIG_INIT_COMMAND: commands between
    semicolons; [p] is what is left of it. *)
Definition semicolon : Z := 59.
Fixpoint take_cmd (maxlen : nat) (p : list Z) : list Z :=
  match maxlen, p with
  | S n, c :: p => if c =? semicolon then [] else c :: take_cmd n p
  | _, _ => []
  end.
(** [build_init_readcmd]: the buffer, the new [p] and the result. *)
Definition build_init_readcmd (shell_init_cmd cmd p : list Z) (maxlen : nat) : list Z * list Z * Z :=
  let t := take_cmd maxlen p in
  let i := length t in
  let cmd := put cmd 0 (t ++ [0]) in
  let p := drop i p in
  let p := match p with c :: p' => if c =? semicolon then p' else p | [] => p end in
  (cmd, if Nat.eqb i 0 then shell_init_cmd else p, Z.of_nat i).

(** [storage_init_readcmd]: the buffer and the result. *)
Class InitStore (W : Type) := init_readcmd : list Z -> Z -> bool -> M W (list Z * Z).

Section boot.
Context {W : Type} `{!InitStore W}.
Implicit Types (s : shell W).

(** The first loop of [shell_boot_script]. *)
Fixpoint build_loop (fuel : nat) (cmds : list (wrc_shell_cmd W)) (shell_init_cmd : list Z) s (p : list Z) : M W (option (shell W * list Z)) :=
  match fuel with
  | O => ret None
  | S fuel =>
      let '(buf, p, n) := build_init_readcmd shell_init_cmd (cmd_buf s) p 80 in
      let s := s <| cmd_buf := buf |> <| cmd_len := n |> in
      if n =? 0 then ret (Some (s, p))
      else let! r := shell_exec cmds s None in build_loop fuel cmds shell_init_cmd r.1 p
  end.
(** The second loop. *)
Fixpoint flash_loop (fuel : nat) (cmds : list (wrc_shell_cmd W)) s (next : bool) : M W (option (shell W)) :=
  match fuel with
  | O => ret None
  | S fuel =>
      let! r := init_readcmd (cmd_buf s) SH_MAX_LINE_LEN next in
      let s := s <| cmd_buf := r.1 |> <| cmd_len := r.2 |> in
      if r.2 <=? 0 then ret (Some s)
      else
        let s := s <| cmd_buf := aset (cmd_buf s) (r.2 - 1) 0 |> in
        let! r := shell_exec cmds s None in flash_loop fuel cmds r.1 true
  end.
(** [shell_boot_script]; the options say which scripts the build has, and [p]
    is static. *)
Definition shell_boot_script (fuel : nat) (cmds : list (wrc_shell_cmd W)) (init_cmd : option (list Z)) (has_flash_init : bool)
    s (p : list Z) : M W (option (shell W * list Z)) :=
  let! r := (match init_cmd with Some c => build_loop fuel cmds c s p | None => ret (Some (s, p)) end) in
  match r with
  | None => ret None
  | Some (s, p) =>
      if has_flash_init then
        let! r := flash_loop fuel cmds s false in
        ret (match r with Some s => Some (s, p) | None => None end)
      else ret (Some (s, p))
  end.
End boot.
