(* ===== verification/Boot.v ===== *)
(** The start-up scripts of the shell (shell_boot_script in shell/shell.c): the
    commands of the configuration and those of the flash script are executed
    in their order; the second theorem is stated against the interface
    [InitStore] and the implementation of InitScript meets it. *)
From Stdlib Require Import ZArith Lia.
From stdpp Require Import base numbers option list.
From S2P Require Import Prelude Bytes Sdbfs Storage InitScript Shell.

(** ** The script of the configuration *)

(** The parts between semicolons, and the commands: those before the first
    empty part. *)
Fixpoint split_semi (p : list Z) : list (list Z) :=
  match p with
  | [] => [[]]
  | c :: p =>
      if c =? semicolon then [] :: split_semi p
      else match split_semi p with h :: t => (c :: h) :: t | [] => [[c]] end
  end.
Fixpoint until_empty (l : list (list Z)) : list (list Z) :=
  match l with
  | [] => []
  | [] :: _ => []
  | h :: t => h :: until_empty t
  end.
Definition commands (p : list Z) : list (list Z) := until_empty (split_semi p).

Lemma split_semi_head n p : (length (default [] (head (split_semi p))) <= n)%nat ->
  exists h, h = take_cmd n p /\ split_semi p = h :: match drop (length h) p with [] => [] | _ :: p' => split_semi p' end /\
    match drop (length h) p with [] => True | c :: _ => c = semicolon end.
Proof.
  revert n. induction p as [|c p IH]; intros n Hn; cbn [split_semi take_cmd] in *.
  { exists []. split; [by destruct n|]. done. }
  destruct (Z.eqb_spec c semicolon) as [->|Hne].
  - exists []. destruct n; cbn; by rewrite ?Z.eqb_refl.
  - destruct (split_semi p) as [|h t] eqn:E; [destruct p; cbn in E; [done|]; destruct (z =? semicolon); [done|]; by destruct (split_semi p)|].
    cbn in Hn. destruct n as [|n]; [lia|]. destruct (IH n ltac:(cbn; lia)) as (h' & H1 & H2 & H3).
    cbn [take_cmd]. destruct (Z.eqb_spec c semicolon); [done|]. exists (c :: h'). injection H2 as -> ->. rewrite H1. cbn [length drop].
    rewrite <- H1. done.
Qed.

(** Loading a line into the buffer. *)
Definition load_line {W} (s : shell W) (line : list Z) : shell W :=
  s <| cmd_buf := put (cmd_buf s) 0 (line ++ [0]) |> <| cmd_len := Z.of_nat (length line) |>.
Definition run_line {W} (cmds : list (wrc_shell_cmd W)) (s : shell W) (line : list Z) : M W (shell W) :=
  let! r := shell_exec cmds (load_line s line) None in ret r.1.

(** The build-time script executes the commands between the semicolons,
    in their order, up to the first empty one, and is then ready to be read
    again from its beginning. *)
Theorem build_script_runs {W} `{!InitStore W} (cmds : list (wrc_shell_cmd W)) init_cmd : forall fuel p (s : shell W) w,
  Forall (fun l => (length l <= 80)%nat) (split_semi p) -> (length (split_semi p) < fuel)%nat ->
  build_loop fuel cmds init_cmd s p w =
    (let! s' := foldM (run_line cmds) (commands p) s in ret (Some (load_line s' [], init_cmd))) w.
Proof.
  induction fuel as [|fuel IH]; intros p s w Hl Hf; [lia|]. cbn [build_loop]. unfold build_init_readcmd.
  destruct (split_semi_head 80 p) as (h & Hh & Hs & Hsep).
  { destruct (split_semi p) as [|h t]; [cbn; lia|]. apply Forall_cons in Hl as [Hl _]. exact Hl. }
  rewrite <- Hh. cbv zeta iota beta. unfold commands. rewrite Hs. destruct h as [|c h].
  { cbn [until_empty length Z.of_nat Nat.eqb]. change (0 =? 0) with true. cbv iota. done. }
  change (Nat.eqb (length (c :: h)) 0) with false. cbv iota. destruct (Z.eqb_spec (Z.of_nat (length (c :: h))) 0); [done|].
  cbn [until_empty foldM]. unfold run_line at 1.
  change (s <| cmd_buf := put (cmd_buf s) 0 ((c :: h) ++ [0]) |> <| cmd_len := Z.of_nat (length (c :: h)) |>) with (load_line s (c :: h)).
  unfold bind at 1 2 3 4. destruct (shell_exec cmds (load_line s (c :: h)) None w) as [r w1]. cbn [ret].
  rewrite Hs in Hl, Hf. apply Forall_cons in Hl as [_ Hl].
  destruct (drop (length (c :: h)) p) as [|c' p'].
  - destruct fuel as [|fuel]; [cbn in Hf; lia|]. reflexivity.
  - subst c'. change (semicolon =? semicolon) with true. cbv iota. rewrite IH; [reflexivity|done|cbn in Hf; lia].
Qed.

(** "vlan off;;x": only the part before the empty one is executed. *)
Lemma build_script_runs_witness (st : InitStore (list Z) := fun buf _ _ w => ((buf, -1), w)) :
  let init := [86; 69; 82; 32; 120; 59; 59; 121] in
  build_loop 9 demo_cmds init (demo_sh (replicate 81 0)) init [] =
    (let! s' := foldM (run_line demo_cmds) [[86; 69; 82; 32; 120]] (demo_sh (replicate 81 0)) in ret (Some (load_line s' [], init))) [].
Proof.
  intros init. apply (build_script_runs demo_cmds init 9 init).
  - repeat (apply Forall_cons; split; [cbn; lia|]). constructor.
  - cbn. lia.
Defined.

(** ** The script of the flash *)

(** What the shell relies on: a script of lines that are read one after the
    other; an interface of the storage. *)
Class InitStoreObs (W : Type) := {
  store_ok : W -> Prop; store_lines : W -> list (list Z); store_cursor : W -> nat }.
Class InitStoreLaws (W : Type) `{!InitStore W, !InitStoreObs W} : Prop :=
  law_readcmd buf (next : bool) w : store_ok w -> length buf = 81%nat -> (next = true -> store_cursor w <> 0%nat) ->
    let k := if next then store_cursor w else 0%nat in
    ensures (init_readcmd buf SH_MAX_LINE_LEN next) w (fun r w' =>
      store_lines w' = store_lines w /\
      match store_lines w !! k with
      | Some line => store_ok w' /\ r = (put buf 0 (line ++ [10]), Z.of_nat (length line) + 1) /\ store_cursor w' = S k
      | None => k = length (store_lines w) -> r.2 <= 0
      end).

(** A log of the commands that were executed. *)
Class CmdLog (W : Type) := cmd_log : W -> list (list Z * list (list Z)).
Class CmdLogLaws (W : Type) `{!InitStore W, !CmdLog W} : Prop :=
  law_log buf n next w : ensures (init_readcmd buf n next) w (fun _ w' => cmd_log w' = cmd_log w).
(** A call of a command that is counted once in the log, and leaves the script
    and its cursor alone (as "init" with erase, add or boot does not). *)
Definition good_call {W} `{!InitStoreObs W, !CmdLog W} (p : wrc_shell_cmd W) (args : list (list Z)) : Prop :=
  forall s w, store_ok w -> length (cmd_buf s) = 81%nat ->
    ensures (cmd_exec p args s) w (fun r w' => store_ok w' /\ store_lines w' = store_lines w /\ store_cursor w' = store_cursor w /\
      cmd_log w' = cmd_log w ++ [(cmd_name p, args)] /\ length (cmd_buf r.1) = 81%nat).

(** The call that the words of a line make: none for an empty line, a comment
    or an unknown command. *)
Definition call_of {W} (cmds : list (wrc_shell_cmd W)) (ws : list (list Z)) : option (wrc_shell_cmd W * list (list Z)) :=
  match ws with
  | [] => None
  | w :: args =>
      if default 0 (head w) =? 35 then None
      else match List.find (fun p => same_name (cmd_name p) w) cmds with Some p => Some (p, args) | None => None end
  end.
Definition call_effect {W} (c : option (wrc_shell_cmd W * list (list Z))) : list (list Z * list (list Z)) :=
  match c with Some (p, args) => [(cmd_name p, args)] | None => [] end.
Definition line_effect {W} (cmds : list (wrc_shell_cmd W)) (line : list Z) : list (list Z * list (list Z)) :=
  call_effect (call_of cmds (words 8 line)).
Definition call_ok {W} `{!InitStoreObs W, !CmdLog W} (c : option (wrc_shell_cmd W * list (list Z))) : Prop :=
  match c with Some (p, args) => good_call p args | None => True end.
Definition good_line {W} `{!InitStoreObs W, !CmdLog W} (cmds : list (wrc_shell_cmd W)) (line : list Z) : Prop :=
  call_ok (call_of cmds (words 8 line)).

(** The line that was read, with its newline replaced. *)
Lemma read_line_buf buf line : length buf = 81%nat -> (length line <= 80)%nat ->
  exists rest, aset (put buf 0 (line ++ [10])) (Z.of_nat (length line)) 0 = line ++ 0 :: rest.
Proof.
  intros Hb Hl. rewrite <- (take_drop (length (line ++ [10])) buf). set (a := take _ _). set (b := drop _ _).
  assert (Ha : length a = length (line ++ [10])) by (unfold a; rewrite length_take, !length_app; cbn; lia).
  pose proof (put_mid [] a (line ++ [10]) b 0 eq_refl Ha) as Hp. cbn [app] in Hp. rewrite Hp. exists b.
  rewrite <- app_assoc. cbn [app]. by apply aset_mid.
Qed.

Section flash.
Context {W : Type} `{!InitStore W, !InitStoreObs W, !InitStoreLaws W, !CmdLog W, !CmdLogLaws W}.
Implicit Types (s : shell W) (cmds : list (wrc_shell_cmd W)).

Lemma exec_words_good cmds s ws w : call_ok (call_of cmds ws) -> store_ok w -> length (cmd_buf s) = 81%nat ->
  ensures (exec_words cmds s ws) w (fun r w' => store_ok w' /\ store_lines w' = store_lines w /\ store_cursor w' = store_cursor w /\
    length (cmd_buf r.1) = 81%nat /\ cmd_log w' = cmd_log w ++ call_effect (call_of cmds ws)).
Proof.
  intros Hg Hok Hb. unfold exec_words, call_of in *. destruct ws as [|x args]; [apply ensures_ret; by rewrite app_nil_r|].
  destruct (_ =? 35); [apply ensures_ret; by rewrite app_nil_r|].
  destruct (List.find _ cmds) as [p|]; [|apply ensures_ret; by rewrite app_nil_r].
  eapply ensures_mono; [by apply (Hg s w)|]. cbv beta. intros r w' (H1 & H2 & H3 & H4 & H5). by split_and!.
Qed.

(** One line of the script, from the buffer that was read. *)
Lemma shell_exec_line cmds s line rest w : good_line cmds line -> Forall (fun p => chars (cmd_name p)) cmds ->
  store_ok w -> chars line -> cmd_buf s = line ++ 0 :: rest -> length (cmd_buf s) = 81%nat ->
  ensures (shell_exec cmds s None) w (fun r w' => store_ok w' /\ store_lines w' = store_lines w /\ store_cursor w' = store_cursor w /\
    length (cmd_buf r.1) = 81%nat /\ cmd_log w' = cmd_log w ++ line_effect cmds line).
Proof.
  intros Hg Hn Hok Hl Hb Hlen. unfold shell_exec.
  set (s1 := (s <| cmd_len := _ |>) <| shell_is_interacting := 1 |>).
  destruct (exec_line_words cmds s1 line rest Hb Hl Hn) as (buf' & Hlb & Hx). apply ensures_bind. rewrite Hx.
  eapply ensures_mono; [apply exec_words_good; try done|].
  { cbn. by rewrite Hlb. }
  cbv beta. intros [s2 rc] w' (H1 & H2 & H3 & H4 & H5). apply ensures_ret. cbn [fst cmd_buf upd] in *. split_and!; try done. by rewrite length_aset.
Qed.

Lemma flash_loop_spec cmds : Forall (fun p => chars (cmd_name p)) cmds ->
  forall todo fuel s (next : bool) w, store_ok w -> length (cmd_buf s) = 81%nat -> (next = true -> store_cursor w <> 0%nat) -> Forall (fun l => good_line cmds l /\ chars l /\ (length l <= 80)%nat) todo ->
  let k := if next then store_cursor w else 0%nat in drop k (store_lines w) = todo -> (k <= length (store_lines w))%nat ->
  (length todo < fuel)%nat ->
  ensures (flash_loop fuel cmds s next) w (fun r w' => is_Some r /\ store_lines w' = store_lines w /\
    cmd_log w' = cmd_log w ++ concat (line_effect cmds <$> todo)).
Proof.
  intros Hn. induction todo as [|line todo IH]; intros fuel s next w Hok Hb Hnx Ht k Hk Hkl Hf; (destruct fuel as [|fuel]; [cbn in Hf; lia|]); cbn [flash_loop].
  - apply ensures_bind. eapply ensures_mono; [apply ensures_and; [by apply law_readcmd|apply law_log]|].
    cbv beta zeta. fold k. intros r w1 [(H2 & H4) H5].
    assert (Hlen : k = length (store_lines w)) by (apply (f_equal length) in Hk; rewrite length_drop in Hk; cbn in Hk; lia).
    rewrite lookup_ge_None_2 in H4 by lia. specialize (H4 Hlen). destruct (Z.leb_spec r.2 0); [|lia]. apply ensures_ret.
    split; [by eexists|]. split; [done|]. cbn. by rewrite app_nil_r.
  - apply Forall_cons in Ht as [ (Hg & Hc & Hl) Ht].
    assert (Hlk : store_lines w !! k = Some line) by (rewrite <- (Nat.add_0_r k), <- lookup_drop, Hk; done).
    apply ensures_bind. eapply ensures_mono; [apply ensures_and; [by apply law_readcmd|apply law_log]|].
    cbv beta zeta. fold k. rewrite Hlk. intros r w1 [(H2 & H1 & -> & H4) H5]. cbn [fst snd].
    destruct (Z.leb_spec (Z.of_nat (length line) + 1) 0); [lia|].
    replace (Z.of_nat (length line) + 1 - 1) with (Z.of_nat (length line)) by lia.
    destruct (read_line_buf (cmd_buf s) line Hb Hl) as (rest & Hr).
    set (s1 := upd cmd_buf _ _). apply ensures_bind. eapply ensures_mono; [apply (shell_exec_line cmds s1 line rest); try done|].
    + unfold s1. cbn. by rewrite length_aset, length_put.
    + cbv beta. intros [s2 rc] w2 (E1 & E2 & E3 & E4 & E5). cbn [fst] in *.
      eapply ensures_mono; [apply (IH fuel s2 true w2); try done|].
      * intros _. rewrite E3, H4. lia.
      * rewrite E3, H4, E2, H2, <- Nat.add_1_r, <- drop_drop, Hk. done.
      * rewrite E3, H4, E2, H2. apply lookup_lt_Some in Hlk. lia.
      * cbn in Hf. lia.
      * cbv beta. intros r w3 (F1 & F2 & F3). split; [done|]. split; [congruence|]. rewrite F3, E5, H5. cbn. by rewrite <- app_assoc.
Qed.
End flash.

(** C23. The flash script at start-up: the lines of the script are executed one
    after the other from its beginning, each as its words, comments and
    unknown commands being passed over, and the loop ends after the last.
    This holds for scripts whose lines have at most 80 characters and call
    only commands that leave the script and its cursor alone ([good_line]):
    "init" with erase, add or boot does not, and may be in the table of commands
    as long as the script does not call it so. *)
Theorem flash_script_runs {W} `{!InitStore W, !InitStoreObs W, !InitStoreLaws W, !CmdLog W, !CmdLogLaws W}
    (cmds : list (wrc_shell_cmd W)) fuel (s : shell W) (w : W) :
  Forall (fun p => chars (cmd_name p)) cmds -> Forall (good_line cmds) (store_lines w) -> store_ok w -> length (cmd_buf s) = 81%nat ->
  Forall (fun l => chars l /\ (length l <= 80)%nat) (store_lines w) -> (length (store_lines w) < fuel)%nat ->
  ensures (flash_loop fuel cmds s false) w (fun r w' => is_Some r /\ store_lines w' = store_lines w /\
    cmd_log w' = cmd_log w ++ concat (line_effect cmds <$> store_lines w)).
Proof.
  intros Hn Hg Hok Hb Hl Hf. apply (flash_loop_spec cmds Hn (store_lines w) fuel s false w); try (done || lia).
  by apply Forall_and.
Qed.

(** ** The storage of InitScript is such a store *)
Record node {FW : Type} := mk_node {
  n_st : storage; n_ptr : Z; n_flash : FW; n_log : list (list Z * list (list Z));
  n_lines : list (list Z); n_cursor : nat }.
Arguments node : clear implicits.
Arguments mk_node {FW}.

Definition script_of (lines : list (list Z)) : list Z := concat ((fun l => l ++ [10]) <$> lines).

Section impl.
Context `{Endian} {FW : Type} `{!Flash FW, !FlashObs FW, !FlashLaws FW} (fuel : nat) (recs : list (list Z)) (off len : Z).

(** The static [ptr] is part of the node; [n_lines] and [n_cursor] only serve
    the specification. *)
Definition node_readcmd : InitStore (node FW) := fun buf bufsize next w =>
  match storage_init_readcmd fuel (n_st w) buf bufsize (n_ptr w) next (n_flash w) with
  | (Some (s, buf, ptr, res), fw) =>
      ((buf, res), mk_node s ptr fw (n_log w) (n_lines w)
        (let k := if next then n_cursor w else 0%nat in if 0 <? res then S k else k))
  | (None, fw) => ((buf, -1), mk_node (n_st w) (n_ptr w) fw (n_log w) (n_lines w) (n_cursor w))
  end.
Definition node_obs : InitStoreObs (node FW) := {|
  store_ok w := script_in FW fuel (n_st w) (content (n_flash w)) recs off len (script_of (n_lines w)) /\
    Forall (fun l => (10 ∉ l) /\ (length l <= 80)%nat) (n_lines w) /\ 2 + Z.of_nat (length (script_of (n_lines w))) < 65536 /\
    (n_cursor w <= length (n_lines w))%nat /\ (n_cursor w <> 0%nat -> n_ptr w = 2 + Z.of_nat (length (script_of (take (n_cursor w) (n_lines w)))));
  store_lines := n_lines; store_cursor := n_cursor |}.

Lemma script_of_app l1 l2 : script_of (l1 ++ l2) = script_of l1 ++ script_of l2.
Proof. unfold script_of. by rewrite fmap_app, concat_app. Qed.

Lemma script_of_cons line l : script_of (line :: l) = line ++ 10 :: script_of l.
Proof. unfold script_of. cbn. by rewrite <- app_assoc. Qed.

Lemma node_laws : @InitStoreLaws (node FW) node_readcmd node_obs.
Proof.
  intros buf next w (Hs & Hl & Hmax & Hcur & Hptr) Hb Hnx k. cbn [store_ok store_lines store_cursor node_obs] in *.
  unfold ensures, init_readcmd, node_readcmd.
  assert (Hp : if next then n_ptr w = 2 + Z.of_nat (length (script_of (take k (n_lines w)))) else script_of (take k (n_lines w)) = []).
  { unfold k. destruct next; [by apply Hptr, Hnx|done]. }
  assert (Hkl : (k <= length (n_lines w))%nat) by (unfold k; destruct next; lia).
  destruct (n_lines w !! k) as [line|] eqn:Ek.
  - pose proof (take_drop_middle _ _ _ Ek) as Hsplit. rewrite Forall_lookup in Hl. destruct (Hl _ _ Ek) as [Hnl H80].
    assert (Hscr : script_of (n_lines w) = script_of (take k (n_lines w)) ++ line ++ 10 :: script_of (drop (S k) (n_lines w))).
    { rewrite <- Hsplit at 1. by rewrite script_of_app, script_of_cons. }
    pose proof (readcmd_spec fuel recs off len (n_st w) _ _ line _ buf SH_MAX_LINE_LEN (n_ptr w) next (n_flash w) Hs Hscr Hnl Hmax
      ltac:(unfold SH_MAX_LINE_LEN; lia) ltac:(unfold SH_MAX_LINE_LEN; lia)) as Hx.
    specialize (Hx ltac:(destruct next; [exact Hp|exact Hp])). unfold ensures in Hx.
    destruct (storage_init_readcmd fuel (n_st w) buf SH_MAX_LINE_LEN (n_ptr w) next (n_flash w)) as [r fw].
    destruct Hx as (Hc & s' & -> & Hs'). cbn [n_st n_ptr n_flash n_log n_lines n_cursor fst snd].
    fold k. destruct (Z.ltb_spec 0 (Z.of_nat (length line) + 1)); [|lia]. split; [done|]. split; [|done].
    apply lookup_lt_Some in Ek as Hlt. cbn. split; [exact Hs'|]. split; [by rewrite Forall_lookup|]. split; [exact Hmax|]. split; [lia|].
    intros _. do 3 f_equal. by rewrite (take_S_r _ _ line Ek), script_of_app, script_of_cons.
  - apply lookup_ge_None in Ek. assert (Hke : k = length (n_lines w)) by lia. rewrite Hke, take_ge in Hp by lia.
    pose proof (readcmd_end fuel recs off len (n_st w) (script_of (n_lines w)) buf SH_MAX_LINE_LEN (n_ptr w) next (n_flash w) Hs Hmax
      ltac:(unfold SH_MAX_LINE_LEN; lia) Hp) as Hx. unfold ensures in Hx.
    destruct (storage_init_readcmd fuel (n_st w) buf SH_MAX_LINE_LEN (n_ptr w) next (n_flash w)) as [r fw].
    by destruct Hx as (Hc & s' & buf' & ptr' & res & -> & Hres & Hlb & Hs').
Qed.
End impl.

(** The script "ptp" of InitScript's example with a command that is logged; the
    table of commands begins with one that rewinds the script. *)
Definition logged_cmd : wrc_shell_cmd (node spi_sim) :=
  mk_cmd [112; 116; 112] (fun args s w =>
    ((s, 0), mk_node (n_st w) (n_ptr w) (n_flash w) (n_log w ++ [([112; 116; 112], args)]) (n_lines w) (n_cursor w))).
Definition rewind_cmd : wrc_shell_cmd (node spi_sim) :=
  mk_cmd [105; 110; 105; 116] (fun args s w => ((s, 0), mk_node (n_st w) 2 (n_flash w) (n_log w) (n_lines w) 0)).
Definition demo_node : node spi_sim := mk_node (mk_st demo_fs demo_cal 0 0) 0 init_flash [] [[112; 116; 112]] 0.
Lemma flash_script_runs_witness (be : Endian := true) (st : InitStore (node spi_sim) := node_readcmd 300) :
  ensures (flash_loop 5 [rewind_cmd; logged_cmd] (mk_sh (node spi_sim) (replicate 81 0) 0 0 SH_PROMPT 0 0 None) false) demo_node (fun r w' =>
    is_Some r /\ n_log w' = [([112; 116; 112], [])]).
Proof.
  pose (obs := node_obs 300 init_dir 256 256 : InitStoreObs (node spi_sim)).
  pose (laws := node_laws 300 init_dir 256 256 : InitStoreLaws (node spi_sim)).
  pose (lg := n_log : CmdLog (node spi_sim)).
  assert (ll : CmdLogLaws (node spi_sim)).
  { intros buf n next w. unfold ensures, init_readcmd, st, node_readcmd.
    destruct (storage_init_readcmd _ _ _ _ _ _ _) as [ [ [ [ [? ?] ?] ?]|] ?]; reflexivity. }
  assert (Hok : store_ok demo_node).
  { split; [|split_and!].
    - exact init_flash_script.
    - apply Forall_singleton. split; [by apply (bool_decide_unpack _)|cbn; lia].
    - cbn. lia.
    - cbn. lia.
    - done. }
  eapply ensures_mono; [apply (flash_script_runs [rewind_cmd; logged_cmd] 5 (mk_sh (node spi_sim) (replicate 81 0) 0 0 SH_PROMPT 0 0 None) demo_node)|].
  - unfold chars, is_key. repeat (apply Forall_cons; split; [repeat (apply Forall_cons; split; [lia|]); constructor|]). constructor.
  - apply Forall_singleton. intros s w Hw Hb. unfold ensures. cbn [cmd_exec logged_cmd].
    split; [exact Hw|]. split; [reflexivity|]. split; [reflexivity|]. split; [reflexivity|exact Hb].
  - exact Hok.
  - reflexivity.
  - apply Forall_singleton. split; [|cbn; lia]. unfold chars, is_key. repeat (apply Forall_cons; split; [lia|]). constructor.
  - cbn. lia.
  - cbv beta. intros r w' (H1 & _ & H3). split; [exact H1|exact H3].
Defined.
