(* ===== verification/CmdIp.v ===== *)
(** The text of IP addresses and the command of the shell that sets ours
    (shell/cmd_ip.c). *)
From Stdlib Require Import ZArith Lia.
From stdpp Require Import base numbers option list.
From S2P Require Import Prelude SpllHw Printf Util Bytes Minic Net Tasks Ipv4 Shell.

(** ** Text *)

(** [decode_ip]: the bytes that are written. *)
Fixpoint decode_ip_loop (n : nat) (s : option (list Z)) : list Z :=
  match n with
  | O => []
  | S n =>
      let '(x, s) := fromdec s in
      let s := default [] s in
      u8 x :: decode_ip_loop n (Some (if hd0 s =? chr "." then tail s else s))
  end.
Definition decode_ip (s : list Z) : list Z := decode_ip_loop 4 (Some s).

(** [format_ip] *)
Definition format_ip (ip : list Z) : option (list Z) :=
  Full.pp_sprintf (str "%d.%d.%d.%d")
    [VInt (aget 0 ip 0); VInt (aget 0 ip 1); VInt (aget 0 ip 2); VInt (aget 0 ip 3)].

(** ** The command *)
Section command.
Context {W : Type} (HAS_EB : bool) (eb_setIP : list Z -> M W unit).

(** [cmd_ip]: the state of the IP layer and the result; what it prints is left out. *)
Definition cmd_ip (args : list (list Z)) (s : ip_state) : M W (ip_state * Z) :=
  let is_ (w : list Z) := match args with a :: _ => strcasecmp a w =? 0 | [] => false end in
  if match args with [] => true | _ => false end || is_ (str "get") then ret (s, 0)
  else match args with
       | _ :: a1 :: _ =>
           if is_ (str "set") then
             let ip := decode_ip a1 in
             let s := setIP (s <| ip_status := IP_OK_STATIC |>) ip in
             if HAS_EB then let! _ := eb_setIP ip in ret (s, 0) else ret (s, 0)
           else ret (s, - EINVAL)
       | _ => ret (s, - EINVAL)
       end.
End command.

(** ** Theorems *)

(** A byte in decimal. *)
Definition dec_text (b : Z) : list Z :=
  if b <? 10 then [48 + b] else if b <? 100 then [48 + b / 10; 48 + b mod 10]
  else [48 + b / 100; 48 + b / 10 mod 10; 48 + b mod 10].

Lemma format_ip_eq a b c d : format_ip [a; b; c; d] =
  Some (dfield a (-1) 0 ++ str "." ++ dfield b (-1) 0 ++ str "." ++ dfield c (-1) 0 ++ str "." ++ dfield d (-1) 0 ++ []).
Proof. reflexivity. Qed.

Lemma print_dec b : is_byte b -> dfield b (-1) 0 = dec_text b.
Proof.
  intros Hb.
  assert (Hall : forall b, 0 <= b < 256 -> bool_decide (dfield b (-1) 0 = dec_text b) = true)
    by (apply range_check; vm_compute; reflexivity).
  exact (bool_decide_eq_true_1 _ (Hall b Hb)).
Qed.

(** A byte in decimal is read back, up to the next character that is no digit. *)
Lemma read_dec b rest : is_byte b -> (forall c, head rest = Some c -> ~ (48 <= c <= 57)) ->
  fromdec (Some (dec_text b ++ rest)) = (b, Some rest).
Proof.
  intros Hb Hr.
  assert (Hd : forall o, dec_loop rest o = (o, rest)).
  { destruct rest as [|c rest]; [done|]. intros o. cbn [dec_loop]. specialize (Hr c eq_refl).
    change (chr "0") with 48. change (chr "9") with 57. destruct (Z.leb_spec 48 c), (Z.leb_spec c 57); try done. lia. }
  assert (Hall : forall b, 0 <= b < 256 ->
    bool_decide (dec_loop (dec_text b) 0 = (b, []) /\ hd0 (dec_text b) <> 45 /\ Forall (fun c => 48 <= c <= 57) (dec_text b)) = true)
    by (apply range_check; vm_compute; reflexivity).
  destruct (bool_decide_eq_true_1 _ (Hall b Hb)) as (Hl & Hm & Hf).
  assert (Happ : forall l o v, Forall (fun c => 48 <= c <= 57) l -> dec_loop l o = (v, []) -> dec_loop (l ++ rest) o = (v, rest)).
  { induction l as [|c l IH]; intros o v Hl' E; cbn [app]; [cbn in E; rewrite Hd; congruence|].
    apply Forall_cons in Hl' as [Hc Hl']. cbn [dec_loop] in E |- *. change (chr "0") with 48 in *. change (chr "9") with 57 in *.
    rewrite (proj2 (Z.leb_le 48 c)), (proj2 (Z.leb_le c 57)) in * by lia. cbn [andb] in *. by apply IH. }
  unfold fromdec. assert (Hh : hd0 (dec_text b ++ rest) = hd0 (dec_text b)).
  { unfold dec_text. by repeat case_match. }
  rewrite Hh. change (chr "-") with 45. rewrite (proj2 (Z.eqb_neq _ _) Hm). by rewrite (Happ _ _ _ Hf Hl).
Qed.

(** The text of an address. *)
Definition ip_text (ip : list Z) : list Z :=
  dec_text (aget 0 ip 0) ++ [46] ++ dec_text (aget 0 ip 1) ++ [46] ++ dec_text (aget 0 ip 2) ++ [46] ++ dec_text (aget 0 ip 3).
Lemma format_ip_text ip : bytes ip -> length ip = 4%nat -> format_ip ip = Some (ip_text ip).
Proof.
  intros Hb Hl. destruct ip as [|a [|b [|c [|d [|]]]]]; try done. rewrite format_ip_eq.
  unfold bytes in Hb. rewrite !Forall_cons in Hb. destruct Hb as (? & ? & ? & ? & _).
  by rewrite !print_dec, app_nil_r by done.
Qed.
Lemma dec_text_chars b : is_byte b -> Forall (fun c => 48 <= c <= 57) (dec_text b) /\ (1 <= length (dec_text b) <= 3)%nat.
Proof.
  intros Hb. unfold is_byte in Hb. pose proof (Z.div_mod b 10). pose proof (Z.div_mod b 100). pose proof (Z.mod_pos_bound b 10).
  unfold dec_text. repeat case_match; bool_hyps; cbn [length]; (split; [|lia]); repeat (apply Forall_cons; split); try apply Forall_nil_2;
    Z.to_euclidean_division_equations; lia.
Qed.
Lemma ip_text_chars ip : bytes ip -> length ip = 4%nat ->
  Forall (fun c => 46 <= c <= 57) (ip_text ip) /\ (7 <= length (ip_text ip) <= 15)%nat.
Proof.
  intros Hb Hl. assert (H : forall i, let t := dec_text (aget 0 ip i) in Forall (fun c => 46 <= c <= 57) t /\ (1 <= length t <= 3)%nat).
  { intros i. destruct (dec_text_chars _ (bytes_aget ip i Hb)) as [H1 H2]. split; [|done]. eapply Forall_impl; [exact H1|]. cbn. lia. }
  unfold ip_text. rewrite !Forall_app, !length_app, !Forall_singleton. cbn [length].
  destruct (H 0), (H 1), (H 2), (H 3). split_and!; done || lia.
Qed.

(** A round of [decode_ip]. *)
Lemma decode_ip_step n b rest : is_byte b -> (forall c, head rest = Some c -> ~ (48 <= c <= 57)) ->
  decode_ip_loop (S n) (Some (dec_text b ++ rest)) = b :: decode_ip_loop n (Some (if hd0 rest =? chr "." then tail rest else rest)).
Proof. intros Hb Hr. cbn [decode_ip_loop]. rewrite read_dec by done. cbn [default]. by rewrite u8_small. Qed.

(** The text of an IP address: what [format_ip] prints fits the smallest
    buffer it is given, has no terminator inside, and [decode_ip] reads it
    back, for every address. *)
Theorem ip_text_roundtrip ip : bytes ip -> length ip = 4%nat ->
  exists out, format_ip ip = Some out /\ decode_ip out = ip /\ (length out + 1 <= 20)%nat /\ Forall (fun c => c <> 0) out.
Proof.
  intros Hb Hl. exists (ip_text ip). destruct (ip_text_chars ip Hb Hl) as [Hc Hlen].
  split; [by apply format_ip_text|]. split; [|split; [lia|eapply Forall_impl; [exact Hc|]; cbn; lia]].
  destruct ip as [|a [|b [|c [|d [|]]]]]; try done. unfold bytes in Hb. rewrite !Forall_cons in Hb. destruct Hb as (Ha & Hb & Hc' & Hd & _).
  unfold decode_ip. change (ip_text [a; b; c; d]) with (dec_text a ++ 46 :: dec_text b ++ 46 :: dec_text c ++ 46 :: dec_text d).
  do 3 (rewrite decode_ip_step by (done || (cbn; intros ? [= <-]; lia)); f_equal; change (hd0 (46 :: _) =? chr ".") with true; cbn [tail]).
  by rewrite <- (app_nil_r (dec_text d)), decode_ip_step.
Qed.
Lemma ip_text_roundtrip_witness :
  exists out, format_ip [192; 168; 0; 255] = Some out /\ decode_ip out = [192; 168; 0; 255] /\ (length out + 1 <= 20)%nat /\ Forall (fun c => c <> 0) out.
Proof. apply (ip_text_roundtrip [192; 168; 0; 255]); [|done]. repeat (apply Forall_cons; split); try apply Forall_nil_2; unfold is_byte; lia. Defined.
