(* ===== verification/Lldp.v ===== *)
(** lib/lldp.c: the station that announces the node with LLDP (IEEE 802.1AB).
    A store outside the PDU is [None]. *)
From Stdlib Require Import ZArith Lia.
From stdpp Require Import base numbers option list gmap.
From S2P Require Import Prelude SpllHw SpllHelper SpllMain SpllExternal SoftPll PpsGen Printf Util Bytes Minic Net Tasks Ipv4 Shell CmdIp.

(** ** Constants (lib/lldp.h) *)
Definition LLDP_MCAST_MAC : list Z := [1; 128; 194; 0; 0; 14].
Definition LLDP_ETH_TYP : Z := 35020.
Definition LLDP_MAX_PKT_LEN : Z := 158.
Definition LLDP_HEADER : Z := 2.
Definition LLDP_SUBTYPE : Z := 1.
Definition MNT_IF_SUBTYPE : Z := 6.
Definition MNT_IF_NUM : Z := 10.
Definition LLDP_TX_TICK_INTERVAL : Z := 5000.
Definition CHASSIS_ID_TLV_LEN : Z := 1 + ETH_ALEN.
Definition CHASSIS_ID_TYPE_MAC : Z := 4.
Definition PORT_ID_TLV_LEN : Z := 1 + ETH_ALEN.
Definition PORT_ID_SUBTYPE_MAC : Z := 3.
Definition TTL_ID_TLV_LEN : Z := 2.
Definition TTL_BYTE_MSB : Z := 0.
Definition TTL_BYTE_LSB : Z := 1.
Definition PORT_NAME : list Z := str "wr0".
Definition IPLEN : Z := 4.
Definition MNG_ADDR_LEN : Z := 1 + IPLEN.
Definition MNG_ADDR_SUBTYPE_IPv4 : Z := 1.
Definition MNG_IF_NUM_SUBTYPE_IFINDEX : Z := 2.
Definition TLV_ORG_SPECIFIC : Z := 127.
Definition OUI8021 : Z := 32962.
Definition TLV_VLANID_SUBTYPE : Z := 1.
Definition TLV_OS_OUI8021_OFF : Z := 0.
Definition TLV_OS_SUBTYPE_OFF : Z := 3.
Definition TLV_OS_VLAN_OFF : Z := 4.
Definition HW_NAME_LENGTH : Z := 5.

(** enum TLV_TYPE *)
Definition END_LLDP : Z := 0.
Definition CHASSIS_ID : Z := 1.
Definition PORT_ID : Z := 2.
Definition TTL : Z := 3.
Definition PORT : Z := 4.
Definition SYS_NAME : Z := 5.
Definition SYS_DESCR : Z := 6.
Definition SYS_CAPLTY : Z := 7.
Definition MNG_ADD : Z := 8.
Definition VLAN_ID : Z := 9.
Definition TLV_MAX_TYPE : Z := 10.

(** The features that are compiled in. *)
Class LldpConfig := { HAS_IP : bool; HAS_VLANS : bool; HAS_ABSCAL : bool }.

(** ** The PDU *)

(** The static [lldpdu] and [lldpdu_len]. *)
Record lldp_buf := mk_lb { lldpdu : list Z; lldpdu_len : Z }.
#[export] Instance eta_lb : Etable lldp_buf := fun b => mk_lb (lldpdu b) (lldpdu_len b).

(** What the PDU is made of. *)
Record lldp_env := mk_lenv {
  le_mac : list Z; le_ip : list Z; le_vlan : Z; le_hw_name : list Z; le_commit_id : list Z }.

#[export] Instance eta_lenv : Etable lldp_env := fun e =>
  mk_lenv (le_mac e) (le_ip e) (le_vlan e) (le_hw_name e) (le_commit_id e).

(** A store into the PDU. *)
Definition store (b : lldp_buf) (off : Z) (l : list Z) : option lldp_buf :=
  if (0 <=? off) && (off + Z.of_nat (length l) <=? Z.of_nat (length (lldpdu b)))
  then Some (b <| lldpdu := put (lldpdu b) off l |>) else None.

(** What [strncpy(dst, src, n)] stores, and [str_len_n]. *)
Definition strncpy (src : list Z) (n : nat) : list Z := take n (cstr (take n src) ++ replicate n 0).
Definition str_len_n (src : list Z) (n : nat) : Z := Z.of_nat (length (cstr (take n src))).

Definition lldp_header_tlv (tlv_type tlv_len : Z) (b : lldp_buf) : option lldp_buf :=
  b ← store b (lldpdu_len b) [u8 (Z.shiftl tlv_type 1)];
  b ← store b (lldpdu_len b + LLDP_SUBTYPE) [u8 tlv_len];
  Some (b <| lldpdu_len := u16 (lldpdu_len b + LLDP_HEADER) |>).

Definition fill_mac (e : lldp_env) (tlv type : Z) (b : lldp_buf) : option lldp_buf :=
  b ← store b tlv [type];
  store b (tlv + LLDP_SUBTYPE) (le_mac e).

Definition no_ip (ip : list Z) : bool := bool_decide (ip = replicate 4 0).

Section lldp.
Context `{!LldpConfig} (format_mac : list Z -> list Z).
Implicit Types (b : lldp_buf) (e : lldp_env).

(** The cases of [lldp_add_tlv] with a body of their own: the PDU and
    [tlv_len]. *)
Definition add_sys_name e b : option (lldp_buf * Z) :=
  '(b, tlv_len) ←
    (if HAS_IP && negb (no_ip (le_ip e)) then
       buf ← format_ip (le_ip e);
       b ← store b (lldpdu_len b + LLDP_HEADER) (buf ++ [0]);
       Some (b, Z.of_nat (length buf))
     else
       b ← store b (lldpdu_len b + LLDP_HEADER) (strncpy (format_mac (le_mac e)) 17);
       Some (b, 17));
  b ← lldp_header_tlv SYS_NAME tlv_len b;
  Some (b, tlv_len).

Definition add_sys_descr e b : option (lldp_buf * Z) :=
  let start := lldpdu_len b + LLDP_HEADER in
  let n := Z.to_nat (HW_NAME_LENGTH - 1) in
  let pdu_p := start in
  b ← store b pdu_p (strncpy (le_hw_name e) n);
  let pdu_p := pdu_p + str_len_n (le_hw_name e) n in
  b ← store b pdu_p (str ": " ++ [0]);
  let pdu_p := pdu_p + 2 in
  b ← store b pdu_p (strncpy (le_commit_id e) 32);
  let pdu_p := pdu_p + str_len_n (le_commit_id e) 32 in
  let tlv_len := u8 (pdu_p - start) in
  b ← lldp_header_tlv SYS_DESCR tlv_len b;
  Some (b, tlv_len).

Definition add_mng_add e b : option (lldp_buf * Z) :=
  if negb HAS_IP || no_ip (le_ip e) then Some (b, 0)
  else
    b ← lldp_header_tlv MNG_ADD 12 b;
    b ← store b (lldpdu_len b) [MNG_ADDR_LEN];
    b ← store b (lldpdu_len b + LLDP_SUBTYPE) [MNG_ADDR_SUBTYPE_IPv4];
    b ← store b (lldpdu_len b + MNT_IF_SUBTYPE) [MNG_IF_NUM_SUBTYPE_IFINDEX];
    b ← store b (lldpdu_len b + MNT_IF_NUM) [1];
    b ← (if HAS_IP then store b (lldpdu_len b + LLDP_SUBTYPE + 1) (le_ip e) else Some b);
    Some (b, 12).

Definition add_vlan_id e b : option (lldp_buf * Z) :=
  if negb HAS_VLANS || (le_vlan e =? 0) then Some (b, 0)
  else
    b ← lldp_header_tlv TLV_ORG_SPECIFIC 6 b;
    b ← store b (lldpdu_len b + TLV_OS_OUI8021_OFF) [u8 (Z.shiftr OUI8021 16)];
    b ← store b (lldpdu_len b + TLV_OS_OUI8021_OFF + 1) [Z.land (Z.shiftr OUI8021 8) 255];
    b ← store b (lldpdu_len b + TLV_OS_OUI8021_OFF + 2) [Z.land OUI8021 255];
    b ← store b (lldpdu_len b + TLV_OS_SUBTYPE_OFF) [TLV_VLANID_SUBTYPE];
    b ← store b (lldpdu_len b + TLV_OS_VLAN_OFF) [Z.land (Z.shiftr (le_vlan e) 8) 255];
    b ← store b (lldpdu_len b + TLV_OS_VLAN_OFF + 1) [Z.land (le_vlan e) 255];
    Some (b, 6).

Definition lldp_add_tlv e (tlv_type : Z) b : option lldp_buf :=
  if negb ((END_LLDP <=? tlv_type) && (tlv_type <=? VLAN_ID)) then Some b
  else
  '(b, tlv_len) ←
    (if tlv_type =? END_LLDP then b ← lldp_header_tlv tlv_type 0 b; Some (b, 0)
     else if tlv_type =? CHASSIS_ID then
       b ← lldp_header_tlv tlv_type CHASSIS_ID_TLV_LEN b;
       b ← fill_mac e (lldpdu_len b) CHASSIS_ID_TYPE_MAC b;
       Some (b, CHASSIS_ID_TLV_LEN)
     else if tlv_type =? PORT_ID then
       b ← lldp_header_tlv tlv_type PORT_ID_TLV_LEN b;
       b ← fill_mac e (lldpdu_len b) PORT_ID_SUBTYPE_MAC b;
       Some (b, PORT_ID_TLV_LEN)
     else if tlv_type =? TTL then
       b ← lldp_header_tlv tlv_type TTL_ID_TLV_LEN b;
       b ← store b (lldpdu_len b + TTL_BYTE_MSB) [Z.land (Z.shiftr (LLDP_TX_TICK_INTERVAL / 1000 * 8) 8) 255];
       b ← store b (lldpdu_len b + TTL_BYTE_LSB) [Z.land (LLDP_TX_TICK_INTERVAL / 1000 * 8) 255];
       Some (b, TTL_ID_TLV_LEN)
     else if tlv_type =? PORT then
       let tlv_len := Z.of_nat (length PORT_NAME) + 1 in
       b ← lldp_header_tlv tlv_type tlv_len b;
       b ← store b (lldpdu_len b) (PORT_NAME ++ [0]);
       Some (b, tlv_len)
     else if tlv_type =? SYS_NAME then add_sys_name e b
     else if tlv_type =? SYS_DESCR then add_sys_descr e b
     else if tlv_type =? SYS_CAPLTY then Some (b, 0)
     else if tlv_type =? MNG_ADD then add_mng_add e b
     else add_vlan_id e b);
  Some (b <| lldpdu_len := u16 (lldpdu_len b + tlv_len) |>).

(** [for (i = CHASSIS_ID; i < TLV_MAX_TYPE; i++) lldp_add_tlv(i);] *)
Fixpoint add_tlvs e (types : list Z) b : option lldp_buf :=
  match types with
  | [] => Some b
  | t :: types => b ← lldp_add_tlv e t b; add_tlvs e types b
  end.
Definition lldp_update e : option lldp_buf :=
  let b := mk_lb (replicate (Z.to_nat LLDP_MAX_PKT_LEN) 0) 0 in
  b ← add_tlvs e (seqZ CHASSIS_ID (TLV_MAX_TYPE - CHASSIS_ID)) b;
  lldp_add_tlv e END_LLDP b.
End lldp.

(** ** What is announced *)

(** A TLV of IEEE 802.1AB: seven bits of type, nine of length, the value. *)
Definition tlv_bytes (t : Z * list Z) : list Z :=
  let n := Z.of_nat (length t.2) in [t.1 * 2 + n / 256; n mod 256] ++ t.2.
Definition tlvs_bytes (ts : list (Z * list Z)) : list Z := concat (tlv_bytes <$> ts).
(** Reading a PDU, up to the end TLV. *)
Fixpoint read_tlvs (fuel : nat) (l : list Z) : option (list (Z * list Z)) :=
  match fuel, l with
  | S fuel, b0 :: b1 :: l =>
      let n := Z.to_nat (b0 mod 2 * 256 + b1) in
      if b0 / 2 =? 0 then if (n =? 0)%nat then Some [] else None
      else if (n <=? length l)%nat then cons (b0 / 2, take n l) <$> read_tlvs fuel (drop n l)
      else None
  | _, _ => None
  end.

Section spec.
Context `{!LldpConfig} (format_mac : list Z -> list Z).
Definition has_ip (ip : list Z) : bool := HAS_IP && negb (no_ip ip).
(** Chassis and port by the MAC address, time to live 40 s, port description,
    system name, system description, management address with interface 1, and
    the port VLAN id of IEEE 802.1Q. *)
Definition lldp_tlvs (e : lldp_env) : list (Z * list Z) :=
  [(1, 4 :: le_mac e); (2, 3 :: le_mac e); (3, [0; 40]); (4, str "wr0" ++ [0]);
   (5, if has_ip (le_ip e) then ip_text (le_ip e) else format_mac (le_mac e));
   (6, cstr (take 4 (le_hw_name e)) ++ str ": " ++ cstr (take 32 (le_commit_id e)))] ++
  (if has_ip (le_ip e) then [(8, [5; 1] ++ le_ip e ++ [2; 0; 0; 0; 1; 0])] else []) ++
  (if HAS_VLANS && negb (le_vlan e =? 0) then [(127, [0; 128; 194; 1; le_vlan e / 256; le_vlan e mod 256])] else []).
Definition lldp_message (e : lldp_env) : list Z := tlvs_bytes (lldp_tlvs e) ++ [0; 0].

Record lldp_env_ok (e : lldp_env) : Prop := {
  leo_mac : length (le_mac e) = 6%nat; leo_ip : bytes (le_ip e) /\ length (le_ip e) = 4%nat;
  leo_vlan : 0 <= le_vlan e < 65536;
  leo_name : length (format_mac (le_mac e)) = 17%nat /\ Forall (fun c => c <> 0) (format_mac (le_mac e)) }.
End spec.

(** ** The PDU is built as specified *)
Definition pdu_of (l : list Z) (n : nat) : lldp_buf := mk_lb (l ++ replicate n 0) (Z.of_nat (length l)).

Lemma store_at l t r len off k v : off = Z.of_nat (length l) + k -> 0 <= k -> k + Z.of_nat (length v) <= Z.of_nat (length t) ->
  store (mk_lb (l ++ t ++ r) len) off v = Some (mk_lb (l ++ put t k v ++ r) len).
Proof.
  intros -> Hk Hv. unfold store. cbn [lldpdu]. rewrite !length_app, (proj2 (Z.leb_le _ _)), (proj2 (Z.leb_le _ _)) by lia. cbn [andb].
  do 2 f_equal. unfold upd; cbn. f_equal.
  assert (Ht : t = take (Z.to_nat k) t ++ sub t k (Z.of_nat (length v)) ++ drop (Z.to_nat k + length v) t).
  { rewrite <- (take_drop (Z.to_nat k) t) at 1. f_equal. rewrite <- (take_drop (length v) (drop (Z.to_nat k) t)) at 1.
    rewrite drop_drop. f_equal. rewrite <- (sub_split t) by lia. f_equal. lia. }
  rewrite Ht at 1 2. rewrite !(put_mid (take (Z.to_nat k) t) _ v _ k) by (rewrite ?length_take, ?length_sub; lia).
  rewrite <- !app_assoc, (app_assoc l). rewrite (put_mid (l ++ take (Z.to_nat k) t) _ v) by (rewrite ?length_app, ?length_take, ?length_sub; lia).
  by rewrite <- !app_assoc.
Qed.
Lemma header_at l t r ty n : 2 <= Z.of_nat (length t) -> Z.of_nat (length l) < 65000 ->
  lldp_header_tlv ty n (mk_lb (l ++ t ++ r) (Z.of_nat (length l))) =
  Some (mk_lb (l ++ put (put t 0 [u8 (Z.shiftl ty 1)]) 1 [u8 n] ++ r) (Z.of_nat (length l) + 2)).
Proof.
  intros Ht Hl. unfold lldp_header_tlv. cbn [lldpdu_len]. rewrite (store_at _ _ _ _ _ 0) by (cbn [length]; lia). cbn [mbind option_bind lldpdu_len].
  rewrite (store_at _ _ _ _ _ 1) by (rewrite ?length_put; cbn [length]; unfold LLDP_SUBTYPE; lia). cbn [mbind option_bind].
  unfold upd; cbn. do 2 f_equal. apply u16_small. unfold LLDP_HEADER. lia.
Qed.

Lemma pdu_split l n t r : replicate n 0 = t ++ r -> pdu_of l n = mk_lb (l ++ t ++ r) (Z.of_nat (length l)).
Proof. unfold pdu_of. by intros ->. Qed.
Lemma zeros_split n k : (k <= n)%nat -> replicate n 0 = replicate k 0 ++ replicate (n - k) 0.
Proof. intros Hk. rewrite <- replicate_add. f_equal. lia. Qed.
Lemma put_zeros k v j m off : m = (k + length v + j)%nat -> off = Z.of_nat k -> put (replicate m 0) off v = replicate k 0 ++ v ++ replicate j 0.
Proof.
  intros -> ->. rewrite !replicate_add, <- app_assoc. rewrite (put_mid (replicate k 0) _ v) by by rewrite ?length_replicate. done.
Qed.
(** A text and zeros, over zeros. *)
Lemma put_text p w z m off : off = Z.of_nat (length p) -> (length w + z <= m)%nat ->
  put (p ++ replicate m 0) off (w ++ replicate z 0) = (p ++ w) ++ replicate (m - length w) 0.
Proof.
  intros -> Hm. rewrite (zeros_split m (length w + z)) by done.
  rewrite (put_mid p _ (w ++ replicate z 0)) by (rewrite ?length_app, ?length_replicate; done).
  rewrite <- !app_assoc, <- replicate_add. do 3 f_equal. lia.
Qed.
Lemma strncpy_eq src n : let c := cstr (take n src) in strncpy src n = c ++ replicate (n - length c) 0 /\ (length c <= n)%nat.
Proof.
  intros c. assert (Hc : (length c <= n)%nat).
  { unfold c. etransitivity; [|apply (firstn_le_length n src)]. generalize (take n src). intros m. induction m as [|a m IH]; cbn; [lia|].
    case_match; cbn [length]; lia. }
  split; [|done]. unfold strncpy. fold c. rewrite take_app_ge by lia. f_equal. rewrite take_replicate. f_equal. lia.
Qed.
Lemma cstr_id l : Forall (fun c => c <> 0) l -> cstr l = l.
Proof. induction 1 as [|a l Ha _ IH]; [done|]. cbn. rewrite (proj2 (Z.eqb_neq a 0) Ha). by f_equal. Qed.
Lemma byte_parts x : 0 <= x < 65536 -> Z.land (Z.shiftr x 8) 255 = x / 256 /\ Z.land x 255 = x mod 256.
Proof.
  intros Hx. change 255 with (Z.ones 8). rewrite !Z.land_ones, Z.shiftr_div_pow2 by lia. change (2 ^ 8) with 256.
  split; [|done]. apply Z.mod_small. split; [apply Z.div_pos; lia|apply Z.div_lt_upper_bound; lia].
Qed.

Section built.
Context `{!LldpConfig} (format_mac : list Z -> list Z) (e : lldp_env) (He : lldp_env_ok format_mac e).

(** A TLV goes behind the others; [need] bytes are written. *)
Definition adds (ty : Z) (ts : list (Z * list Z)) (need : nat) : Prop := forall l n,
  (length l + n = 158)%nat -> (need <= n)%nat ->
  lldp_add_tlv format_mac e ty (pdu_of l n) = Some (pdu_of (l ++ tlvs_bytes ts) (n - length (tlvs_bytes ts))).

(** The end of a case: the PDU is [l], the bytes written and zeros. *)
Lemma added l n v k len z : (length l + n = 158)%nat -> (k <= n)%nat -> Z.of_nat (length v) = z -> (length v <= k)%nat ->
  len = Z.of_nat (length l) + 2 -> 2 <= z ->
  ((mk_lb (l ++ (v ++ replicate (k - length v) 0) ++ replicate (n - k) 0) len) <| lldpdu_len := u16 (len + (z - 2)) |>) =
  pdu_of (l ++ v) (n - length v).
Proof.
  intros Hl Hk Hz Hv -> Hz2. unfold upd, pdu_of; cbn. rewrite <- !app_assoc, <- replicate_add, length_app. f_equal.
  - do 3 f_equal. lia.
  - rewrite u16_small by lia. lia.
Qed.

Ltac pick_case :=
  unfold lldp_add_tlv, END_LLDP, CHASSIS_ID, PORT_ID, TTL, PORT, SYS_NAME, SYS_DESCR, SYS_CAPLTY, MNG_ADD, VLAN_ID, TLV_MAX_TYPE;
  cbn [Z.eqb Pos.eqb Z.leb Z.compare Pos.compare Pos.compare_cont andb negb].
Ltac room k := rewrite (pdu_split _ _ (replicate k 0) (replicate (_ - k) 0)) by (apply zeros_split; lia).
Ltac head := rewrite header_at by (rewrite ?length_replicate; lia); cbn [mbind option_bind lldpdu_len].
Ltac put_at k := rewrite (store_at _ _ _ _ _ k) by (unfold LLDP_SUBTYPE, MNT_IF_SUBTYPE, MNT_IF_NUM, TTL_BYTE_MSB, TTL_BYTE_LSB,
  TLV_OS_OUI8021_OFF, TLV_OS_SUBTYPE_OFF, TLV_OS_VLAN_OFF; rewrite ?length_put, ?length_replicate; cbn [length]; lia); cbn [mbind option_bind lldpdu_len].
Lemma adds_end l n : (length l + n = 158)%nat -> (2 <= n)%nat ->
  lldp_add_tlv format_mac e END_LLDP (pdu_of l n) = Some (pdu_of (l ++ [0; 0]) (n - 2)).
Proof.
  intros Hl Hn. room 2%nat. pick_case. head. f_equal. change 2%nat with (length [0; 0]).
  rewrite <- (added l n [0; 0] 2 _ 2 Hl) by done. done.
Qed.
Lemma adds_mac ty : ty = CHASSIS_ID \/ ty = PORT_ID -> adds ty [(ty, 5 - ty :: le_mac e)] 9.
Proof.
  intros Hty l n Hl Hn. assert (Hm := leo_mac _ _ He). destruct (le_mac e) as [|m0 [|m1 [|m2 [|m3 [|m4 [|m5 [|]]]]]]] eqn:Em; try done.
  set (v := tlvs_bytes _). room 9%nat. rewrite <- (added l n v 9 (Z.of_nat (length l) + 2) 9 Hl) by (destruct Hty as [-> | ->]; done || lia).
  destruct Hty as [-> | ->]; pick_case; head; unfold fill_mac; rewrite Em; put_at 2; put_at 3; done.
Qed.
Lemma adds_ttl : adds TTL [(3, [0; 40])] 4.
Proof.
  intros l n Hl Hn. set (v := tlvs_bytes _). room 4%nat. rewrite <- (added l n v 4 (Z.of_nat (length l) + 2) 4 Hl) by (done || lia).
  pick_case; head; put_at 2; put_at 3; done.
Qed.
Lemma adds_port : adds PORT [(4, str "wr0" ++ [0])] 6.
Proof.
  intros l n Hl Hn. set (v := tlvs_bytes _). room 6%nat. rewrite <- (added l n v 6 (Z.of_nat (length l) + 2) 6 Hl) by (done || lia).
  pick_case. change PORT_NAME with [119; 114; 48]. head; cbn [app]; put_at 2; done.
Qed.
Lemma adds_mng : adds MNG_ADD (if has_ip (le_ip e) then [(8, [5; 1] ++ le_ip e ++ [2; 0; 0; 0; 1; 0])] else []) 14.
Proof.
  intros l n Hl Hn. destruct (leo_ip _ _ He) as [_ Hi]. unfold has_ip. pick_case. unfold add_mng_add.
  destruct HAS_IP; [|by rewrite app_nil_r; unfold upd, pdu_of; cbn; rewrite u16_small, Z.add_0_r, Nat.sub_0_r by lia]. cbn [negb orb andb].
  destruct (no_ip (le_ip e)); [by rewrite app_nil_r; unfold upd, pdu_of; cbn; rewrite u16_small, Z.add_0_r, Nat.sub_0_r by lia|]. cbn [negb].
  destruct (le_ip e) as [|a [|b [|c [|d [|]]]]]; try done.
  set (v := tlvs_bytes _). room 14%nat. rewrite <- (added l n v 14 (Z.of_nat (length l) + 2) 14 Hl) by (done || lia).
  unfold MNG_ADD. head; put_at 2; put_at 3; put_at 8; put_at 12; put_at 4; done.
Qed.
Lemma adds_vlan : adds VLAN_ID
  (if HAS_VLANS && negb (le_vlan e =? 0) then [(127, [0; 128; 194; 1; le_vlan e / 256; le_vlan e mod 256])] else []) 8.
Proof.
  intros l n Hl Hn. pick_case. unfold add_vlan_id.
  destruct HAS_VLANS; [|by rewrite app_nil_r; unfold upd, pdu_of; cbn; rewrite u16_small, Z.add_0_r, Nat.sub_0_r by lia]. cbn [negb orb andb].
  destruct (le_vlan e =? 0); [by rewrite app_nil_r; unfold upd, pdu_of; cbn; rewrite u16_small, Z.add_0_r, Nat.sub_0_r by lia|]. cbn [negb].
  destruct (byte_parts (le_vlan e) (leo_vlan _ _ He)) as [E1 E2].
  set (v := tlvs_bytes _). room 8%nat. rewrite <- (added l n v 8 (Z.of_nat (length l) + 2) 8 Hl) by (done || lia).
  unfold TLV_ORG_SPECIFIC. head; put_at 2; put_at 3; put_at 4; put_at 5; put_at 6; put_at 7. by rewrite E1, E2.
Qed.
Lemma adds_capability : adds SYS_CAPLTY [] 0.
Proof. intros l n Hl Hn. pick_case. rewrite app_nil_r. unfold upd, pdu_of; cbn. by rewrite u16_small, Z.add_0_r, Nat.sub_0_r by lia. Qed.
Lemma tlv_small ty t : (length t < 256)%nat -> 0 <= ty -> tlvs_bytes [(ty, t)] = [ty * 2; Z.of_nat (length t)] ++ t.
Proof.
  intros Ht Hty. unfold tlvs_bytes. cbn [fmap list_fmap concat]. rewrite app_nil_r. unfold tlv_bytes. cbn [fst snd].
  rewrite Z.div_small, Z.mod_small, Z.add_0_r by lia. done.
Qed.
(** The header in front of a text that is already there. *)
Lemma header_text l t r ty : Z.of_nat (length l) < 65000 -> (length t < 256)%nat -> 0 <= ty < 128 -> forall j,
  lldp_header_tlv ty (Z.of_nat (length t)) (mk_lb (l ++ (replicate 2 0 ++ t ++ replicate j 0) ++ r) (Z.of_nat (length l))) =
  Some (mk_lb (l ++ (tlvs_bytes [(ty, t)] ++ replicate j 0) ++ r) (Z.of_nat (length l) + 2)).
Proof.
  intros Hl Ht Hty j. rewrite header_at by (rewrite ?length_app, ?length_replicate; lia). rewrite tlv_small by lia.
  rewrite Z.shiftl_mul_pow2, !u8_small by (unfold is_byte; lia). done.
Qed.

Lemma adds_name : adds SYS_NAME [(5, if has_ip (le_ip e) then ip_text (le_ip e) else format_mac (le_mac e))] 19.
Proof.
  intros l n Hl Hn. destruct (leo_ip _ _ He) as [Hib Hi]. destruct (leo_name _ _ He) as [Hfm Hf0].
  pick_case. unfold add_sys_name, SYS_NAME. fold (has_ip (le_ip e)). destruct (has_ip (le_ip e)).
  - destruct (ip_text_chars _ Hib Hi) as [_ Ht]. rewrite format_ip_text by done. cbn [mbind option_bind].
    generalize dependent (ip_text (le_ip e)). intros t Ht. set (v := tlvs_bytes _).
    assert (Hv : length v = (2 + length t)%nat) by (unfold v; by rewrite tlv_small by lia).
    assert (H0 : length (t ++ [0]) = S (length t)) by (rewrite length_app; cbn; lia).
    room (2 + length (t ++ [0%Z]) + 0)%nat. cbn [mbind option_bind lldpdu_len].
    rewrite (store_at _ _ _ _ _ 2) by (rewrite ?length_replicate; unfold LLDP_HEADER; lia). cbn [mbind option_bind lldpdu_len].
    rewrite (put_zeros 2 _ 0) by lia. rewrite <- (app_assoc t). change ([0] ++ replicate 0 0) with (replicate 1 0).
    rewrite header_text by lia. cbn [mbind option_bind lldpdu_len]. f_equal.
    rewrite <- (added l n v (2 + length (t ++ [0%Z]) + 0) (Z.of_nat (length l) + 2) (Z.of_nat (length t) + 2) Hl) by lia.
    replace (2 + length (t ++ [0%Z]) + 0 - length v)%nat with 1%nat by lia.
    replace (Z.of_nat (length t) + 2 - 2) with (Z.of_nat (length t)) by lia. done.
  - set (t := format_mac (le_mac e)) in *. set (v := tlvs_bytes _).
    assert (Hv : length v = 19%nat) by (unfold v; rewrite tlv_small by lia; rewrite length_app, Hfm; done).
    assert (Hs : strncpy t 17 = t).
    { destruct (strncpy_eq t 17) as [-> _]. rewrite <- Hfm, firstn_all, cstr_id by done. by rewrite Nat.sub_diag, app_nil_r. }
    rewrite Hs. room 19%nat. cbn [mbind option_bind lldpdu_len].
    rewrite (store_at _ _ _ _ _ 2) by (rewrite ?length_replicate; unfold LLDP_HEADER; lia). cbn [mbind option_bind lldpdu_len].
    rewrite (put_zeros 2 _ 0) by lia.
    replace 17 with (Z.of_nat (length t)) by lia. rewrite header_text by lia. cbn [mbind option_bind lldpdu_len]. f_equal.
    rewrite <- (added l n v 19 (Z.of_nat (length l) + 2) 19 Hl) by lia. rewrite Hv, Hfm. done.
Qed.
Lemma adds_descr : adds SYS_DESCR [(6, cstr (take 4 (le_hw_name e)) ++ str ": " ++ cstr (take 32 (le_commit_id e)))] 40.
Proof.
  intros l n Hl Hn. pick_case. unfold add_sys_descr, str_len_n, SYS_DESCR. change (Z.to_nat (HW_NAME_LENGTH - 1)) with 4%nat.
  destruct (strncpy_eq (le_hw_name e) 4) as [-> Hh]. destruct (strncpy_eq (le_commit_id e) 32) as [-> Hc].
  generalize dependent (cstr (take 4 (le_hw_name e))). intros h Hh. generalize dependent (cstr (take 32 (le_commit_id e))). intros c Hc.
  set (t := h ++ str ": " ++ c). assert (Ht : length t = (length h + 2 + length c)%nat) by (unfold t; rewrite !length_app; change (length (str ": ")) with 2%nat; lia).
  set (v := tlvs_bytes _). assert (Hv : length v = (2 + length t)%nat) by (unfold v; by rewrite tlv_small by lia).
  assert (Hs : length (str ": ") = 2%nat) by done.
  room 40%nat. cbn [mbind option_bind lldpdu_len]. unfold LLDP_HEADER.
  rewrite (store_at _ _ _ _ _ 2) by (rewrite ?length_app, ?length_replicate; lia). cbn [mbind option_bind].
  change (replicate 40 0) with (replicate 2 0 ++ replicate 38 0). rewrite put_text by (rewrite ?length_replicate; lia).
  rewrite (store_at _ _ _ _ _ (2 + Z.of_nat (length h))) by (rewrite ?length_app, ?length_replicate, ?Hs; cbn [length]; lia). cbn [mbind option_bind].
  change (str ": " ++ [0]) with (str ": " ++ replicate 1 0). rewrite put_text by (rewrite ?length_app, ?length_replicate, ?Hs; lia).
  rewrite (store_at _ _ _ _ _ (2 + Z.of_nat (length h) + 2)) by (rewrite ?length_app, ?length_replicate, ?Hs; cbn [length]; lia). cbn [mbind option_bind].
  rewrite put_text by (rewrite ?length_app, ?length_replicate, ?Hs; lia).
  replace (u8 _) with (Z.of_nat (length t)) by (rewrite u8_small by (unfold is_byte; lia); lia).
  replace ((((replicate 2 0 ++ h) ++ str ": ") ++ c) ++ _) with (replicate 2 0 ++ t ++ replicate (40 - length v) 0)
    by (unfold t; rewrite <- !app_assoc; do 5 f_equal; lia).
  rewrite header_text by lia. cbn [mbind option_bind lldpdu_len]. f_equal.
  rewrite <- (added l n v 40 (Z.of_nat (length l) + 2) (Z.of_nat (length t) + 2) Hl) by lia.
  replace (Z.of_nat (length t) + 2 - 2) with (Z.of_nat (length t)) by lia.
  done.
Qed.
End built.

(** Reading back what was written. *)
Lemma read_tlvs_bytes ts : forall fuel rest, (length ts < fuel)%nat ->
  Forall (fun t => 0 < t.1 < 128 /\ (length t.2 < 256)%nat) ts ->
  read_tlvs fuel (tlvs_bytes ts ++ [0; 0] ++ rest) = Some ts.
Proof.
  induction ts as [|[ty t] ts IH]; intros fuel rest Hf Hts; (destruct fuel as [|fuel]; [cbn [length] in Hf; lia|]); [done|].
  apply Forall_cons in Hts as [[Hty Ht] Hts]. cbn [fst snd] in Hty, Ht.
  change (tlvs_bytes ((ty, t) :: ts)) with (tlv_bytes (ty, t) ++ tlvs_bytes ts).
  unfold tlv_bytes. cbn [fst snd]. rewrite Z.div_small, Z.mod_small, Z.add_0_r by lia. cbn [app read_tlvs].
  rewrite Z_mod_mult, Z_div_mult, Z.mul_0_l, Z.add_0_l, Nat2Z.id, (proj2 (Z.eqb_neq ty 0)) by lia.
  rewrite <- !app_assoc, (proj2 (Nat.leb_le _ _)) by (rewrite length_app; lia).
  rewrite take_app_length, drop_app_length. cbn [length] in Hf. change (0 :: 0 :: rest) with ([0; 0] ++ rest). by rewrite IH by (done || lia).
Qed.

Section update.
Context `{!LldpConfig} (format_mac : list Z -> list Z) (e : lldp_env) (He : lldp_env_ok format_mac e).

Lemma add_all (items : list (Z * list (Z * list Z) * nat)) :
  Forall (fun i => adds format_mac e i.1.1 i.1.2 i.2 /\ (length (tlvs_bytes i.1.2) <= i.2)%nat) items ->
  forall l n, (length l + n = 158)%nat -> (foldr (fun i a => i.2 + a) 0 items <= n)%nat ->
  let v := tlvs_bytes (concat ((fun i => i.1.2) <$> items)) in
  add_tlvs format_mac e ((fun i => i.1.1) <$> items) (pdu_of l n) = Some (pdu_of (l ++ v) (n - length v)) /\
  (length v <= foldr (fun i a => i.2 + a) 0 items)%nat.
Proof.
  induction 1 as [|[[ty ts] need] items [Ha Hlen] _ IH]; intros l n Hl Hn.
  - cbn. rewrite app_nil_r, Nat.sub_0_r. split; [done|lia].
  - cbn [foldr fst snd fmap list_fmap concat add_tlvs] in *. rewrite Ha by lia. cbn [mbind option_bind].
    destruct (IH (l ++ tlvs_bytes ts) (n - length (tlvs_bytes ts))%nat) as [E1 E2]; [rewrite length_app; lia|lia|].
    rewrite E1. unfold tlvs_bytes. rewrite fmap_app, concat_app. fold (tlvs_bytes ts). fold (tlvs_bytes (concat ((fun i => i.1.2) <$> items))).
    rewrite !length_app, <- app_assoc. split; [|lia]. do 2 f_equal. lia.
Qed.

(** The sizes of the TLVs. *)
Lemma tlvs_need : let e' := e in
  Forall (fun i : Z * list (Z * list Z) * nat => adds format_mac e i.1.1 i.1.2 i.2 /\ (length (tlvs_bytes i.1.2) <= i.2)%nat)
  [(CHASSIS_ID, [(1, 4 :: le_mac e')], 9%nat); (PORT_ID, [(2, 3 :: le_mac e')], 9%nat); (TTL, [(3, [0; 40])], 4%nat);
   (PORT, [(4, str "wr0" ++ [0])], 6%nat);
   (SYS_NAME, [(5, if has_ip (le_ip e') then ip_text (le_ip e') else format_mac (le_mac e'))], 19%nat);
   (SYS_DESCR, [(6, cstr (take 4 (le_hw_name e')) ++ str ": " ++ cstr (take 32 (le_commit_id e')))], 40%nat);
   (SYS_CAPLTY, [], 0%nat);
   (MNG_ADD, if has_ip (le_ip e') then [(8, [5; 1] ++ le_ip e' ++ [2; 0; 0; 0; 1; 0])] else [], 14%nat);
   (VLAN_ID, if HAS_VLANS && negb (le_vlan e' =? 0) then [(127, [0; 128; 194; 1; le_vlan e' / 256; le_vlan e' mod 256])] else [], 8%nat)].
Proof.
  intros e'. unfold e'. clear e'. pose proof (leo_mac _ _ He) as Hm. destruct (leo_ip _ _ He) as [Hib Hi].
  destruct (leo_name _ _ He) as [Hfm _]. destruct (ip_text_chars _ Hib Hi) as [_ Ht].
  destruct (strncpy_eq (le_hw_name e) 4) as [_ Hh]. destruct (strncpy_eq (le_commit_id e) 32) as [_ Hc].
  assert (L1 : forall ty t, length (tlvs_bytes [(ty, t)]) = (2 + length t)%nat).
  { intros ty t. unfold tlvs_bytes. cbn [fmap list_fmap concat]. by rewrite app_nil_r. }
  repeat (apply Forall_cons; split); try apply Forall_nil_2; cbn [fst snd].
  - split; [apply (adds_mac _ _ He 1); by left|rewrite L1; cbn [length]; lia].
  - split; [apply (adds_mac _ _ He 2); by right|rewrite L1; cbn [length]; lia].
  - split; [apply adds_ttl|rewrite L1; cbn [length]; lia].
  - split; [apply adds_port|done].
  - split; [by apply adds_name|rewrite L1; case_match; lia].
  - split; [by apply adds_descr|]. rewrite L1, !length_app. change (length (str ": ")) with 2%nat. lia.
  - split; [apply adds_capability|done].
  - split; [by apply adds_mng|]. case_match; [|cbn; lia]. rewrite L1, !length_app. cbn [length]. lia.
  - split; [by apply adds_vlan|]. case_match; cbn; lia.
Qed.

Lemma lldp_update_pdu : let msg := lldp_message format_mac e in
  lldp_update format_mac e = Some (pdu_of msg (158 - length msg)) /\ (length msg <= 111)%nat.
Proof.
  intros msg. unfold lldp_update.
  destruct (add_all _ tlvs_need [] 158 eq_refl ltac:(cbn; lia)) as [E Hlen].
  change (mk_lb (replicate (Z.to_nat LLDP_MAX_PKT_LEN) 0) 0) with (pdu_of [] 158).
  change (seqZ CHASSIS_ID (TLV_MAX_TYPE - CHASSIS_ID)) with [CHASSIS_ID; PORT_ID; TTL; PORT; SYS_NAME; SYS_DESCR; SYS_CAPLTY; MNG_ADD; VLAN_ID].
  cbn [fmap list_fmap fst snd] in E. rewrite E. cbn [mbind option_bind].
  set (v := tlvs_bytes _) in *. assert (Hv : msg = v ++ [0; 0]).
  { unfold msg, lldp_message, v. do 2 f_equal. unfold lldp_tlvs. cbn [concat app fst snd fmap list_fmap]. by rewrite app_nil_r. }
  cbn [foldr fst snd] in Hlen. rewrite adds_end by (rewrite ?length_app; cbn [length]; lia).
  rewrite Hv, length_app. cbn [app length]. split; [|lia]. do 2 f_equal. lia.
Qed.
End update.

(** A PDU that a receiver reads as the TLVs of the station; zeros follow. *)
Definition announces `{!LldpConfig} (format_mac : list Z -> list Z) (b : lldp_buf) (e : lldp_env) : Prop :=
  length (lldpdu b) = 158%nat /\ 0 <= lldpdu_len b <= 111 /\
  read_tlvs 9 (take (Z.to_nat (lldpdu_len b)) (lldpdu b)) = Some (lldp_tlvs format_mac e) /\
  Forall (eq 0) (drop (Z.to_nat (lldpdu_len b)) (lldpdu b)).

(** The PDU: for every MAC and IP address, VLAN, hardware name and version,
    [lldp_update] stays inside its buffer and announces them. *)
Lemma lldp_update_announces `{!LldpConfig} format_mac e : lldp_env_ok format_mac e ->
  exists b, lldp_update format_mac e = Some b /\ announces format_mac b e.
Proof.
  intros He. destruct (lldp_update_pdu format_mac e He) as [-> Hl]. set (msg := lldp_message format_mac e) in *.
  eexists. split; [reflexivity|]. unfold announces, pdu_of. cbn [lldpdu lldpdu_len]. rewrite Nat2Z.id, take_app_length, drop_app_length, length_app, length_replicate.
  split_and!; try lia; [|by apply Forall_replicate].
  unfold msg, lldp_message. rewrite <- (app_nil_r [0; 0]). apply read_tlvs_bytes.
  - unfold lldp_tlvs. rewrite !length_app. repeat case_match; cbn [length]; lia.
  - pose proof (leo_mac _ _ He) as Hm. destruct (leo_ip _ _ He) as [Hib Hi]. destruct (leo_name _ _ He) as [Hfm _].
    destruct (ip_text_chars _ Hib Hi) as [_ Ht]. destruct (strncpy_eq (le_hw_name e) 4) as [_ Hh]. destruct (strncpy_eq (le_commit_id e) 32) as [_ Hc].
    unfold lldp_tlvs. rewrite !Forall_app. split_and!.
    + repeat (apply Forall_cons; split); try apply Forall_nil_2; cbn [fst snd]; (split; [lia|]); rewrite ?length_app;
        try (case_match; lia); change (length (str ": ")) with 2%nat; change (length (str "wr0")) with 3%nat; cbn [length]; lia.
    + case_match; [|apply Forall_nil_2]. apply Forall_singleton. cbn [fst snd]. rewrite !length_app. cbn [length]. lia.
    + case_match; [|apply Forall_nil_2]. apply Forall_singleton. cbn [fst snd length]. lia.
Qed.

(** ** The task *)

(** The static variables; [lldp_socket] is the static socket object. *)
Record lldp_state := mk_ls { ls_buf : lldp_buf; lldp_next_run_ticks : Z; old_ipWR : list Z; old_mac : list Z; old_vlan : Z }.
#[export] Instance eta_ls : Etable lldp_state := fun s =>
  mk_ls (ls_buf s) (lldp_next_run_ticks s) (old_ipWR s) (old_mac s) (old_vlan s).
Definition lldp_socket : nat := 5.
Definition lldp_addr : wr_sockaddr := sa_zero <| sa_mac := LLDP_MCAST_MAC |>.

Section task.
Context `{Board, Endian} {W : Type} `{!PpsHW W, !MinicHW W, !Timer W, !LldpConfig}.
Context (format_mac : list Z -> list Z) (wrc_hw_name commit_id : list Z).
Implicit Types (e : env) (s : ip_state) (st : lldp_state).

(** What the node is known by. *)
Definition identity e s : lldp_env := mk_lenv (e_mac e) (getIP s) (nt_vlan (ip_net s)) wrc_hw_name commit_id.

Definition lldp_init e s st : option (ip_state * lldp_state) :=
  let saddr := sa_zero <| sa_ethertype := htons LLDP_ETH_TYP |> in
  let n := (ptpd_netif_create_socket (ip_net s) lldp_socket 0 (Some saddr) PTPD_SOCK_RAW_ETHERNET 0 0).1 in
  let s := s <| ip_net := n |> in
  b ← lldp_update format_mac (identity e s);
  Some (s, st <| ls_buf := b |>).

(** The condition to update the PDU. *)
Definition lldp_changed e s st : bool :=
  negb (bool_decide (e_mac e = old_mac st)) || negb (old_vlan st =? nt_vlan (ip_net s)) ||
  (HAS_IP && negb (ip_status s =? IP_TRAINING) && negb (bool_decide (getIP s = old_ipWR st))).

(** [lldp_poll]; [new_ip] is the uninitialised [new_ipWR], used without IP. *)
Definition lldp_poll e s (l : locals) (new_ip : list Z) st : M W (option (lldp_state * ip_state * Z)) :=
  if HAS_ABSCAL && e_abscal e then ret (Some (st, s, 0))
  else
    let! r := wrc_task_not_yet (lldp_next_run_ticks st) LLDP_TX_TICK_INTERVAL in
    let '(next, wait) := r in
    let st := st <| lldp_next_run_ticks := next |> in
    if truth wait then ret (Some (st, s, 0))
    else
      let new_ip := if HAS_IP then getIP s else new_ip in
      match (if lldp_changed e s st then
               b ← lldp_update format_mac (identity e s);
               Some (st <| ls_buf := b |> <| old_mac := e_mac e |> <| old_ipWR := new_ip |> <| old_vlan := nt_vlan (ip_net s) |>)
             else Some st) with
      | None => ret None
      | Some st =>
          let! s := send s l lldp_socket lldp_addr (lldpdu (ls_buf st)) (lldpdu_len (ls_buf st)) in
          ret (Some (st, s, 1))
      end.

(** The PDU is that of the addresses and the VLAN that were copied, or none
    was copied yet. *)
Definition lldp_ok st : Prop := exists id0, announces format_mac (ls_buf st) id0 /\
  (old_mac st = replicate 6 0 \/
   id0 = mk_lenv (old_mac st) (if HAS_IP then old_ipWR st else le_ip id0) (old_vlan st) wrc_hw_name commit_id).

Lemma lldp_init_ok e s st : lldp_env_ok format_mac (identity e s) -> old_mac st = replicate 6 0 ->
  exists s' st', lldp_init e s st = Some (s', st') /\ lldp_ok st'.
Proof.
  intros He Ho. unfold lldp_init. set (s' := s <| ip_net := _ |>).
  assert (Hs : lldp_env_ok format_mac (identity e s')).
  { assert (E : identity e s' = identity e s); [|by rewrite E]. unfold identity, s'; cbn. f_equal.
    unfold ptpd_netif_create_socket. by case_match. }
  destruct (lldp_update_announces format_mac _ Hs) as (b & -> & Hb). cbn [mbind option_bind].
  eexists _, _. split; [reflexivity|]. exists (identity e s'). split; [done|by left].
Qed.

(** What [lldp_poll] does from a state that is ok. *)
Lemma lldp_poll_ok e s l junk st w : lldp_env_ok format_mac (identity e s) -> e_mac e <> replicate 6 0 -> lldp_ok st ->
  exists st' r w1, lldp_ok st' /\ lldp_poll e s l junk st w =
    (let '(s', w') := if r =? 1 then send s l lldp_socket lldp_addr (lldpdu (ls_buf st')) (lldpdu_len (ls_buf st')) w1 else (s, w1) in
     (Some (st', s', r), w')) /\
    (r = 0 \/ r = 1 /\ exists ip, (HAS_IP = true -> ip_status s <> IP_TRAINING -> ip = getIP s) /\
       announces format_mac (ls_buf st') ((identity e s) <| le_ip := ip |>)).
Proof.
  intros He Hmac Hst. pose proof Hst as (id0 & Ha & Hid). unfold lldp_poll.
  destruct (HAS_ABSCAL && e_abscal e); [exists st, 0, w; auto|].
  unfold wrc_task_not_yet. unfold bind, ret. destruct (timer_tics w) as [now w1]. destruct (not_yet now _ _) as [next wait].
  set (st1 := st <| lldp_next_run_ticks := next |>).
  assert (Hok1 : lldp_ok st1) by exact Hst.
  destruct (truth wait); [exists st1, 0, w1; auto|].
  destruct (lldp_changed e s st1) eqn:Hch.
  - destruct (lldp_update_announces format_mac _ He) as (b & -> & Hb). cbn [mbind option_bind].
    set (st2 := _ <| old_vlan := _ |>). exists st2, 1, w1. split; [|split].
    + exists (identity e s). split; [exact Hb|right]. unfold identity, st2, upd; cbn. by destruct HAS_IP.
    + cbn [Z.eqb Pos.eqb]. by destruct (send _ _ _ _ _ _ _).
    + right. split; [done|]. exists (getIP s). split; [done|exact Hb].
  - exists st1, 1, w1. split; [done|split].
    + cbn [Z.eqb Pos.eqb]. by destruct (send _ _ _ _ _ _ _).
    + right. split; [done|]. unfold lldp_changed in Hch. change (old_mac st1) with (old_mac st) in Hch.
      change (old_vlan st1) with (old_vlan st) in Hch. change (old_ipWR st1) with (old_ipWR st) in Hch.
      apply orb_false_iff in Hch as [Hch Hip]. apply orb_false_iff in Hch as [Hm Hv].
      apply negb_false_iff, bool_decide_eq_true_1 in Hm. apply negb_false_iff, Z.eqb_eq in Hv.
      destruct Hid as [Hz|Hid]; [congruence|]. exists (le_ip id0). split.
      * intros HI Ht. rewrite HI in Hid, Hip. rewrite (proj2 (Z.eqb_neq _ _) Ht) in Hip. cbn [andb negb] in Hip.
        apply negb_false_iff, bool_decide_eq_true_1 in Hip. rewrite Hid. cbn [le_ip]. by rewrite Hip.
      * assert (E : ((identity e s) <| le_ip := le_ip id0 |>) = id0); [|by rewrite E].
        destruct id0 as [m i v h c]. injection Hid as -> _ -> -> ->. unfold identity, upd; cbn. by rewrite Hm, <- Hv.
Qed.

(** The states the station can be in: after [lldp_init], and after any polls
    with a MAC address that is not zero, whatever happens to the addresses, the
    VLAN and the network in between. *)
Definition lldp_zero : lldp_state := mk_ls (mk_lb (replicate 158 0) 0) 0 (replicate 4 0) (replicate 6 0) 0.
Inductive lldp_reachable : lldp_state -> Prop :=
| lldp_started e s s' st : lldp_env_ok format_mac (identity e s) -> lldp_init e s lldp_zero = Some (s', st) -> lldp_reachable st
| lldp_polled e s l junk st w st' s' r w' : lldp_reachable st ->
    lldp_env_ok format_mac (identity e s) -> e_mac e <> replicate 6 0 ->
    lldp_poll e s l junk st w = (Some (st', s', r), w') -> lldp_reachable st'.
Lemma lldp_reachable_ok st : lldp_reachable st -> lldp_ok st.
Proof.
  induction 1 as [e s s' st He E|e s l junk st w st' s' r w' _ IH He Hm E].
  - destruct (lldp_init_ok e s lldp_zero He eq_refl) as (s1 & st1 & E1 & Hok). rewrite E in E1. by injection E1 as -> ->.
  - destruct (lldp_poll_ok e s l junk st w He Hm IH) as (st1 & r1 & w1 & Hok & E1 & _). rewrite E in E1.
    destruct (if r1 =? 1 then _ else _) as [s2 w2] in E1. by injection E1 as -> _ _ _.
Qed.
End task.

(** C39. LLDP: whenever the station sends, it announces what the node is now:
    in every reachable state a poll stays inside the PDU, and the frame it
    sends, if any, is read by a receiver as the TLVs of the current MAC
    address, VLAN, name and version, and of the current IP address unless that
    is still being asked for. *)
Theorem lldp_announces_current `{Board, Endian} {W : Type} `{!PpsHW W, !MinicHW W, !Timer W, !LldpConfig}
    format_mac hw_name id e s l junk st w :
  lldp_reachable format_mac hw_name id st -> lldp_env_ok format_mac (identity hw_name id e s) -> e_mac e <> replicate 6 0 ->
  exists st' r w1, lldp_poll format_mac hw_name id e s l junk st w =
    (let '(s', w') := if r =? 1 then send s l lldp_socket lldp_addr (lldpdu (ls_buf st')) (lldpdu_len (ls_buf st')) w1 else (s, w1) in
     (Some (st', s', r), w')) /\
    (r = 0 \/ r = 1 /\ exists ip, (HAS_IP = true -> ip_status s <> IP_TRAINING -> ip = getIP s) /\
       announces format_mac (ls_buf st') ((identity hw_name id e s) <| le_ip := ip |>)).
Proof.
  intros Hst He Hm. destruct (lldp_poll_ok format_mac hw_name id e s l junk st w He Hm (lldp_reachable_ok _ _ _ st Hst))
    as (st' & r & w1 & _ & E & Hr).
  by exists st', r, w1.
Qed.

(** A node with an address from BOOTP in VLAN 10. *)
Module LldpDemo.
#[export] Instance demo_config : LldpConfig := {| HAS_IP := true; HAS_VLANS := true; HAS_ABSCAL := false |}.
#[export] Instance demo_board : Board := generic_8bit.
#[export] Instance demo_endian : Endian := false.
#[export] Instance demo_pps : PpsHW unit := {| ppsg_read _ w := (0, w); ppsg_write _ _ w := (tt, w) |}.
#[export] Instance demo_minic : MinicHW unit := {| mrd _ _ w := (0, w); mwr _ _ _ w := (tt, w); timer_delay_ms _ w := (tt, w) |}.
#[export] Instance demo_timer : Timer unit := ret 77.
Definition mac_text (mac : list Z) : list Z := default [] (Full.pp_sprintf (str "%02x:%02x:%02x:%02x:%02x:%02x") (VInt <$> mac)).
Definition demo_env : env := mk_env [8; 0; 48; 171; 205; 239] (demo_globals, softpll_zero) false.
Definition st : ip_state := mk_ip [192; 168; 1; 9] IP_OK_BOOTP 0 0 ((demo_net 0) <| nt_vlan := 10 |>).
Definition locals0 : locals := mk_locals [] sa_zero (mk_hwts 0 0 0 0 0).
Definition hw_name : list Z := str "SPEC" ++ [0].
Definition version : list Z := str "wrpc-v5.0" ++ replicate 23 0.
Lemma demo_ok : lldp_env_ok mac_text (identity hw_name version demo_env st).
Proof.
  split; [done|split; [|done]|vm_compute; split; [discriminate|done]|].
  - change (le_ip _) with [192; 168; 1; 9]. repeat (apply Forall_cons; split); try apply Forall_nil_2; unfold is_byte; lia.
  - replace (mac_text _) with (str "08:00:30:ab:cd:ef") by (vm_compute; reflexivity). split; [done|].
    vm_compute. repeat (apply Forall_cons; split); try apply Forall_nil_2; discriminate.
Qed.
Definition started : lldp_state := default lldp_zero (snd <$> lldp_init mac_text hw_name version demo_env st lldp_zero).
End LldpDemo.
Import LldpDemo.

Lemma lldp_announces_current_witness :
  exists st' r w1, lldp_poll mac_text hw_name version demo_env st locals0 [] started tt =
    (let '(s', w') := if r =? 1 then send st locals0 lldp_socket lldp_addr (lldpdu (ls_buf st')) (lldpdu_len (ls_buf st')) w1 else (st, w1) in
     (Some (st', s', r), w')) /\
    (r = 0 \/ r = 1 /\ exists ip, (HAS_IP = true -> ip_status st <> IP_TRAINING -> ip = getIP st) /\
       announces mac_text (ls_buf st') ((identity hw_name version demo_env st) <| le_ip := ip |>)).
Proof.
  apply (lldp_announces_current mac_text hw_name version demo_env st locals0 [] started tt).
  - destruct (lldp_init_ok mac_text hw_name version demo_env st lldp_zero demo_ok eq_refl) as (s' & st' & E & _).
    assert (Hst : started = st') by (unfold started; by rewrite E). rewrite Hst. exact (lldp_started mac_text hw_name version demo_env st s' st' demo_ok E).
  - exact demo_ok.
  - vm_compute. discriminate.
Defined.
(** The first poll sends it. *)
Example lldp_demo : (let '(r, _) := lldp_poll mac_text hw_name version demo_env st locals0 [] started tt in
  match r with Some (st', _, r) => Some (r, lldpdu_len (ls_buf st'), read_tlvs 9 (lldpdu (ls_buf st'))) | None => None end) =
  Some (1, 82, Some [(1, [4; 8; 0; 48; 171; 205; 239]); (2, [3; 8; 0; 48; 171; 205; 239]); (3, [0; 40]); (4, [119; 114; 48; 0]);
    (5, str "192.168.1.9"); (6, str "SPEC: wrpc-v5.0"); (8, [5; 1; 192; 168; 1; 9; 2; 0; 0; 0; 1; 0]); (127, [0; 128; 194; 1; 0; 10])]).
Proof. vm_compute. reflexivity. Qed.
