(* ===== verification/NetCon.v ===== *)
(** The console over UDP: lib/netconsole.c, its command (shell/cmd_netconsole.c)
    and the console devices (dev/console.c, dev/console-net.c). *)
From Stdlib Require Import ZArith Lia.
From stdpp Require Import base numbers option list gmap.
From S2P Require Import Prelude SpllHw SpllHelper SpllMain SpllExternal SoftPll PpsGen Printf Util Bytes Minic Net Tasks Ipv4 Shell CmdIp.

(** ** Constants and state *)
Definition NETCONSOLE_ENABLED : Z := 1.
Definition NETCONSOLE_DISABLED : Z := 2.
Definition NETCONSOLE_WAIT : Z := 3.
Definition NETCONSOLE_PORT : Z := 55.
(** The size of [tx_buf] and [rx_buf]. *)
Definition nc_buf_size : Z := UDP_END + SH_MAX_LINE_LEN + 1.

(** The static variables.  Pointers into the buffers are offsets, NULL is
    [None]; [rx_buf] includes the memory behind the buffer. *)
Record netcon := mk_nc {
  nc_len : Z; nc_d : option Z; rec_level : Z; tx_buf : list Z; rx_buf : list Z; cmd_rx_p : option Z;
  netconsole_sock_addr : wr_sockaddr; netconsole_status : Z; netconsole_udp_addr : wr_udp_addr }.
#[export] Instance eta_nc : Etable netcon := fun n =>
  mk_nc (nc_len n) (nc_d n) (rec_level n) (tx_buf n) (rx_buf n) (cmd_rx_p n) (netconsole_sock_addr n) (netconsole_status n)
        (netconsole_udp_addr n).
#[export] Instance eta_ua : Etable wr_udp_addr := fun u => mk_udp (ua_saddr u) (ua_daddr u) (ua_sport u) (ua_dport u).
(** The static socket object. *)
Definition netconsole_socket : nat := 6.

Section netconsole.
Context `{Board, Endian} {W : Type} `{!PpsHW W, !MinicHW W}.
Implicit Types (e : env) (s : ip_state) (nc : netcon).

Definition netconsole_init s : ip_state :=
  s <| ip_net := (ptpd_netif_create_socket (ip_net s) netconsole_socket 152 None PTPD_SOCK_UDP NETCONSOLE_PORT 0).1 |>.

Definition netconsole_read_byte nc : netcon * Z :=
  match cmd_rx_p nc with
  | Some p => let c := aget 0 (rx_buf nc) p in
              if negb (c =? 0) then (nc <| cmd_rx_p := Some (p + 1) |>, c) else (nc, -1)
  | None => (nc, -1)
  end.

(** The packet with the [nc_len] bytes collected so far goes to the peer. *)
Definition send_line s (l : locals) nc : M W (ip_state * netcon) :=
  let nc := nc <| nc_len := nc_len nc + UDP_END |> in
  let nc := nc <| netconsole_udp_addr := (netconsole_udp_addr nc) <| ua_sport := image 2 (htons NETCONSOLE_PORT) |> <| ua_saddr := getIP s |> |> in
  let nc := nc <| tx_buf := fill_udp (tx_buf nc) (nc_len nc) (Some (netconsole_udp_addr nc)) |> in
  let! s := send s l netconsole_socket (netconsole_sock_addr nc) (tx_buf nc) (nc_len nc) in
  ret (s, nc <| nc_d := None |>).

(** The loop of [netconsole_write_string]; [None] is a store outside the
    buffer. *)
Fixpoint write_loop (str : list Z) s (l : locals) nc : M W (option (ip_state * netcon)) :=
  let '(d, len) := match nc_d nc with Some d => (d, nc_len nc) | None => (UDP_END, 0) end in
  match str with
  | [] => ret (Some (s, nc <| nc_d := Some d |> <| nc_len := len |>))
  | c :: str =>
      if (d <? 0) || (Z.of_nat (length (tx_buf nc)) <=? d) then ret None
      else
        let nc := nc <| tx_buf := aset (tx_buf nc) d c |> <| nc_len := len + 1 |> in
        if (c =? 10) || (c =? chr "#") || (nc_len nc =? SH_MAX_LINE_LEN) then
          let! r := send_line s l nc in write_loop str r.1 l r.2
        else write_loop str s l (nc <| nc_d := Some (d + 1) |>)
  end.

(** [netconsole_write_string]: it always returns 0. *)
Definition netconsole_write_string (str : list Z) s (l : locals) nc : M W (option (ip_state * netcon)) :=
  if negb (netconsole_status nc =? NETCONSOLE_ENABLED) then ret (Some (s, nc))
  else if 0 <? rec_level nc then ret (Some (s, nc))
  else
    let nc := nc <| rec_level := rec_level nc + 1 |> in
    let! r := write_loop str s l nc in
    match r with
    | Some (s, nc) => ret (Some (s, nc <| rec_level := rec_level nc - 1 |>))
    | None => ret None
    end.

Definition netconsole_poll e s nc : ip_state * netcon * Z :=
  if (ip_status s =? IP_TRAINING) || (netconsole_status nc =? NETCONSOLE_DISABLED) then (s, nc, 0)
  else
    let '(n, addr, buf, _, len) :=
      ptpd_netif_recvfrom (e_spll e).1 (e_spll e).2 (ip_net s) netconsole_socket (netconsole_sock_addr nc) (rx_buf nc) nc_buf_size false in
    let s := s <| ip_net := n |> in
    let nc := nc <| netconsole_sock_addr := addr |> <| rx_buf := buf |> in
    if 0 <? len then
      if negb (check_dest_ip s (rx_buf nc)) then (s, nc, 0)
      else
        let nc := nc <| rx_buf := aset (rx_buf nc) len 0 |> in
        let nc := nc <| netconsole_udp_addr := (netconsole_udp_addr nc) <| ua_daddr := sub (rx_buf nc) IP_SOURCE 4 |>
                          <| ua_dport := sub (rx_buf nc) UDP_SPORT 2 |> |> in
        (s, nc <| cmd_rx_p := Some UDP_END |> <| netconsole_status := NETCONSOLE_ENABLED |>, 1)
    else (s, nc, 0).

(** [cmd_netconsole]; what is printed is left out. *)
Definition cmd_netconsole (args : list (list Z)) nc : netcon * Z :=
  let is_ (w : list Z) := match args with a :: _ => strcasecmp a w =? 0 | [] => false end in
  match args with
  | [] => (nc, 0)
  | a0 :: args' =>
      if is_ (str "wait") then (nc <| netconsole_status := NETCONSOLE_WAIT |>, 0)
      else if is_ (str "disable") then (nc <| netconsole_status := NETCONSOLE_DISABLED |>, 0)
      else match args' with
           | a1 :: a2 :: _ =>
               (nc <| netconsole_sock_addr := (netconsole_sock_addr nc) <| sa_mac := decode_mac a0 |> |>
                   <| netconsole_udp_addr := (netconsole_udp_addr nc) <| ua_daddr := decode_ip a1 |>
                        <| ua_dport := image 2 (u16 (atoi a2)) |> |>
                   <| netconsole_status := NETCONSOLE_ENABLED |>, 0)
           | _ => (nc, - EINVAL)
           end
  end.
End netconsole.

(** ** Output: a stream of bytes in lines *)

(** The lines of a text behind [pend], which wait for more, and what waits
    then.  A line ends with a newline, a number sign (of the prompt), or at 80
    bytes. *)
Fixpoint lines (pend text : list Z) : list (list Z) * list Z :=
  match text with
  | [] => ([], pend)
  | c :: text =>
      let p := pend ++ [c] in
      if (c =? 10) || (c =? 35) || (Z.of_nat (length p) =? SH_MAX_LINE_LEN)
      then let '(ds, r) := lines [] text in (p :: ds, r)
      else lines p text
  end.
Lemma lines_app pend t1 t2 : lines pend (t1 ++ t2) =
  ((lines pend t1).1 ++ (lines (lines pend t1).2 t2).1, (lines (lines pend t1).2 t2).2).
Proof.
  revert pend. induction t1 as [|c t1 IH]; intros pend; cbn [app lines fst snd]; [by destruct (lines pend t2)|].
  case_match; [|apply IH]. rewrite IH. by destruct (lines [] t1).
Qed.
(** Nothing is lost, and the lines are short. *)
Lemma lines_text pend text : (length pend < 80)%nat ->
  concat (lines pend text).1 ++ (lines pend text).2 = pend ++ text /\
  Forall (fun d => (0 < length d <= 80)%nat) (lines pend text).1 /\ (length (lines pend text).2 < 80)%nat.
Proof.
  revert pend. induction text as [|c text IH]; intros pend Hp; cbn [lines]; [rewrite app_nil_r; by split_and!|].
  assert (Hl : length (pend ++ [c]) = S (length pend)) by (rewrite length_app; cbn; lia).
  destruct (_ || _) eqn:E.
  - destruct (IH [] ltac:(cbn; lia)) as (E1 & E2 & E3). destruct (lines [] text) as [ds r]. cbn [fst snd concat] in *.
    split_and!; [|apply Forall_cons; split; [lia|done]|done]. rewrite <- app_assoc, E1. by rewrite <- app_assoc.
  - apply orb_false_iff in E as [_ E]. apply Z.eqb_neq in E. unfold SH_MAX_LINE_LEN in E.
    destruct (IH (pend ++ [c]) ltac:(lia)) as (E1 & E2 & E3). rewrite E1, <- app_assoc. by split_and!.
Qed.

Section output.
Context `{Board, Endian} {W : Type} `{!PpsHW W, !MinicHW W}.
Implicit Types (s : ip_state) (nc : netcon) (w : W).

(** The payloads [ds] go to a peer, one valid UDP packet each. *)
Fixpoint delivered (l : locals) (addr : wr_sockaddr) (ua : wr_udp_addr) (ds : list (list Z)) s w s' w' : Prop :=
  match ds with
  | [] => s' = s /\ w' = w
  | d :: ds => exists pkt s1 w1, let n := 28 + Z.of_nat (length d) in
      udp_packet_ok (take (Z.to_nat n) pkt) ua d /\
      send s l netconsole_socket addr pkt n w = (s1, w1) /\ delivered l addr ua ds s1 w1 s' w'
  end.
Lemma delivered_app l addr ua ds1 ds2 s w s1 w1 s' w' :
  delivered l addr ua ds1 s w s1 w1 -> delivered l addr ua ds2 s1 w1 s' w' -> delivered l addr ua (ds1 ++ ds2) s w s' w'.
Proof.
  revert s w. induction ds1 as [|d ds1 IH]; intros s w; cbn [delivered app]; [by intros [-> ->]|].
  intros (pkt & s2 & w2 & H1 & H2 & H3) H4. exists pkt, s2, w2. split_and!; [done|done|]. by apply IH.
Qed.

(** The peer, and what is collected for it. *)
Definition peer s nc : wr_udp_addr :=
  mk_udp (getIP s) (ua_daddr (netconsole_udp_addr nc)) [0; 55] (ua_dport (netconsole_udp_addr nc)).
Record collecting s nc (pend : list Z) : Prop := {
  col_d : nc_d nc = None /\ pend = [] \/ nc_d nc = Some (28 + Z.of_nat (length pend)) /\ nc_len nc = Z.of_nat (length pend);
  col_tx : length (tx_buf nc) = 109%nat /\ bytes (tx_buf nc) /\ sub (tx_buf nc) 28 (Z.of_nat (length pend)) = pend;
  col_pend : (length pend < 80)%nat;
  col_peer : udp_addr_ok (peer s nc) }.
(** What output does not change. *)
Definition settings nc := (rec_level nc, rx_buf nc, cmd_rx_p nc, netconsole_sock_addr nc, netconsole_status nc,
  ua_daddr (netconsole_udp_addr nc), ua_dport (netconsole_udp_addr nc)).

Lemma send_keeps s l addr pkt n w s' w' : send s l netconsole_socket addr pkt n w = (s', w') -> getIP s' = getIP s.
Proof. unfold send, bind, ret. destruct (ptpd_netif_sendto _ _ _ _ _ _ _) as [r w1]. by intros [= <- _]. Qed.

Lemma bytes_packet pkt ua d : udp_packet_ok pkt ua d -> udp_addr_ok ua -> bytes d -> Z.of_nat (length pkt) < 65536 -> bytes pkt.
Proof.
  intros (ttl & c & u & E & Ht & Hc & Hu & _) Hua Hd Hl. pose proof (uo_bytes _ Hua) as Hb. rewrite !bytes_app in Hb. destruct Hb as (B1 & B2 & B3 & B4).
  assert (Hlen : 28 <= Z.of_nat (length pkt)).
  { rewrite E, !length_app, (uo_saddr _ Hua), (uo_daddr _ Hua), (uo_sport _ Hua), (uo_dport _ Hua). cbn [length]. lia. }
  cbv zeta in E. generalize dependent (Z.of_nat (length pkt)). intros len E Hl Hlen.
  assert (Q : forall x, 0 <= x < 65536 -> is_byte (x / 256) /\ is_byte (x mod 256)).
  { intros x Hx. unfold is_byte. split; [split; [apply Z.div_pos; lia|apply Z.div_lt_upper_bound; lia]|by apply Z.mod_pos_bound]. }
  destruct (Q len ltac:(lia)), (Q (len - 20) ltac:(lia)), (Q c Hc), (Q u ltac:(lia)).
  rewrite E, !bytes_app. split_and!; try done; repeat (apply Forall_cons; split); try apply Forall_nil_2; try done; unfold is_byte; lia.
Qed.
(** A line is sent. *)
Lemma send_line_ok s l nc p w : p <> [] -> (length p <= 80)%nat -> nc_len nc = Z.of_nat (length p) ->
  length (tx_buf nc) = 109%nat -> bytes (tx_buf nc) -> sub (tx_buf nc) 28 (Z.of_nat (length p)) = p -> udp_addr_ok (peer s nc) ->
  exists s1 nc1 w1, send_line s l nc w = ((s1, nc1), w1) /\ settings nc1 = settings nc /\ collecting s1 nc1 [] /\ nc_d nc1 = None /\
    getIP s1 = getIP s /\ delivered l (netconsole_sock_addr nc) (peer s nc) [p] s w s1 w1.
Proof.
  intros Hp0 Hp Hlen Htx Hb Hsub Hua. unfold send_line.
  set (nc1 := _ <| tx_buf := _ |>).
  assert (Eua : netconsole_udp_addr nc1 = peer s nc).
  { unfold nc1, peer, upd; cbn. rewrite (image_htons NETCONSOLE_PORT) by (unfold NETCONSOLE_PORT; lia). reflexivity. }
  set (n := 28 + Z.of_nat (length p)). assert (En : nc_len nc1 = n).
  { change (nc_len nc1) with (nc_len nc + UDP_END). rewrite Hlen. change UDP_END with 28. unfold n. lia. }
  assert (Etx : tx_buf nc1 = fill_udp (tx_buf nc) n (Some (peer s nc))).
  { change (tx_buf nc1) with (fill_udp (tx_buf nc) (nc_len nc1) (Some (netconsole_udp_addr nc1))). by rewrite En, Eua. }
  destruct (fill_udp_spec (tx_buf nc) n (Some (peer s nc)) Hb ltac:(lia) ltac:(lia)) as (Hl & Hdrop & Hok).
  { intros ua [= <-]. done. }
  cbn [udp_target default] in Hok. replace (n - 28) with (Z.of_nat (length p)) in Hok by lia. rewrite Hsub in Hok. rewrite <- Etx in Hl, Hok, Hdrop.
  assert (Htk : length (take (Z.to_nat n) (tx_buf nc1)) = Z.to_nat n) by (rewrite length_take; lia).
  assert (Hb1 : bytes (tx_buf nc1)).
  { rewrite <- (take_drop (Z.to_nat n) (tx_buf nc1)). apply bytes_app. split.
    - eapply bytes_packet; [exact Hok|done|rewrite <- Hsub; by apply bytes_sub|lia].
    - rewrite Hdrop. by apply Forall_drop. }
  unfold bind, ret. destruct (send _ _ _ _ _ _ _) as [s1 w1] eqn:Es. pose proof (send_keeps _ _ _ _ _ _ _ _ Es) as Hip.
  exists s1, (nc1 <| nc_d := None |>), w1. split; [done|]. split; [done|]. split.
  { split; [by left|split_and!; [exact (eq_trans Hl Htx)|exact Hb1|done]|cbn; lia|]. unfold peer in *. by rewrite Hip. }
  split_and!; [done|done|]. exists (tx_buf nc1), s1, w1. rewrite En in Es. split_and!; try done.
Qed.

(** The next byte is collected. *)
Definition collect nc (pend : list Z) (c : Z) : netcon := nc <| tx_buf := aset (tx_buf nc) (28 + Z.of_nat (length pend)) c |> <| nc_len := Z.of_nat (length pend) + 1 |>.
Lemma collect_ok s nc pend c : collecting s nc pend -> is_byte c ->
  (let '(d, len) := match nc_d nc with Some d => (d, nc_len nc) | None => (UDP_END, 0) end in d = 28 + Z.of_nat (length pend) /\ len = Z.of_nat (length pend)) /\
  length (tx_buf (collect nc pend c)) = 109%nat /\ bytes (tx_buf (collect nc pend c)) /\
  sub (tx_buf (collect nc pend c)) 28 (Z.of_nat (length pend) + 1) = pend ++ [c].
Proof.
  intros [Hd (Htx & Hb & Hsub) Hp Hpeer] Hc. split; [|split_and!].
  - destruct Hd as [[-> ->]|[-> ->]]; done.
  - change (tx_buf _) with (put (tx_buf nc) (28 + Z.of_nat (length pend)) [c]). by rewrite length_put.
  - change (tx_buf _) with (put (tx_buf nc) (28 + Z.of_nat (length pend)) [c]). apply bytes_put; [done|by apply Forall_singleton].
  - change (tx_buf _) with (put (tx_buf nc) (28 + Z.of_nat (length pend)) [c]). rewrite sub_app by lia. f_equal.
    + rewrite sub_put_ne by (cbn [length]; lia). done.
    + rewrite sub_put_eq by (cbn [length]; lia). done.
Qed.

Lemma write_loop_ok text : forall s l nc pend w, collecting s nc pend -> bytes text ->
  exists s' nc' w', write_loop text s l nc w = (Some (s', nc'), w') /\ settings nc' = settings nc /\ getIP s' = getIP s /\
    collecting s' nc' (lines pend text).2 /\ delivered l (netconsole_sock_addr nc) (peer s nc) (lines pend text).1 s w s' w'.
Proof.
  induction text as [|c text IH]; intros s l nc pend w Hcol Ht; cbn [write_loop lines].
  - pose proof Hcol as [Hd Htx Hp Hpeer]. destruct (match nc_d nc with Some _ => _ | None => _ end) as [d len] eqn:E.
    assert (Hdl : d = 28 + Z.of_nat (length pend) /\ len = Z.of_nat (length pend)).
    { destruct Hd as [[Hd ->]|[Hd Hl]]; rewrite Hd in E; injection E as <- <-; [done|by rewrite Hl]. }
    destruct Hdl as [-> ->]. eexists s, _, w. split; [reflexivity|]. cbn [fst snd]. split_and!; try done. split; try done. by right.
  - apply Forall_cons in Ht as [Hc Ht]. destruct (collect_ok s nc pend c Hcol Hc) as (Hdl & Hl & Hb & Hsub).
    destruct (match nc_d nc with Some _ => _ | None => _ end) as [d len]. destruct Hdl as [-> ->].
    pose proof Hcol as [_ (Htx & _) Hp Hpeer]. rewrite (proj2 (Z.ltb_ge _ _)), (proj2 (Z.leb_gt _ _)) by lia. cbn [orb].
    fold (collect nc pend c). set (nc1 := collect nc pend c) in *.
    change (nc_len nc1) with (Z.of_nat (length pend) + 1). change (chr "#") with 35.
    assert (Hpl : Z.of_nat (length (pend ++ [c])) = Z.of_nat (length pend) + 1) by (rewrite length_app; cbn [length]; lia).
    rewrite Hpl. destruct ((c =? 10) || (c =? 35) || _) eqn:Eend.
    + rewrite <- Hpl in Hsub.
      destruct (send_line_ok s l nc1 (pend ++ [c]) w) as (s1 & nc2 & w1 & E & Hset & Hcol1 & Hd1 & Hip & Hdel);
        [by destruct pend|lia|exact (eq_sym Hpl)|exact Hl|exact Hb|exact Hsub|exact Hpeer|].
      unfold bind. rewrite E. cbn [fst snd].
      destruct (IH s1 l nc2 [] w1 Hcol1 Ht) as (s' & nc' & w' & E' & Hset' & Hip' & Hcol' & Hdel').
      exists s', nc', w'. rewrite E'. destruct (lines [] text) as [ds r]. cbn [fst snd] in *.
      assert (Hset1 : settings nc2 = settings nc) by (rewrite Hset; done).
      assert (Hsa : netconsole_sock_addr nc2 = netconsole_sock_addr nc) by (unfold settings in Hset1; congruence).
      assert (Hpe : peer s1 nc2 = peer s nc) by (unfold settings in Hset1; unfold peer; rewrite Hip; congruence).
      split_and!; [done|by rewrite Hset'|by rewrite Hip'|exact Hcol'|].
      apply (delivered_app _ _ _ [pend ++ [c]] ds _ _ s1 w1); [exact Hdel|]. by rewrite <- Hsa, <- Hpe.
    + destruct (IH s l (nc1 <| nc_d := Some (28 + Z.of_nat (length pend) + 1) |>) (pend ++ [c]) w) as (s' & nc' & w' & E' & Hset' & Hip' & Hcol' & Hdel').
      * apply orb_false_iff in Eend as [_ Eend]. apply Z.eqb_neq in Eend. unfold SH_MAX_LINE_LEN in Eend.
        split; [right|split_and!; [exact Hl|exact Hb|by rewrite Hpl]|lia|exact Hpeer].
        rewrite Hpl. split; [|done]. cbn [nc_d upd]. unfold upd; cbn. f_equal. lia.
      * done.
      * exists s', nc', w'. rewrite E'. split_and!; done.
Qed.
End output.

(** Strings written one after the other. *)
Fixpoint write_all `{Board, Endian} {W : Type} `{!PpsHW W, !MinicHW W} (texts : list (list Z)) (s : ip_state) (l : locals) (nc : netcon)
    : M W (option (ip_state * netcon)) :=
  match texts with
  | [] => ret (Some (s, nc))
  | t :: texts =>
      let! r := netconsole_write_string t s l nc in
      match r with Some (s, nc) => write_all texts s l nc | None => ret None end
  end.
Definition console_ready (nc : netcon) : Prop := netconsole_status nc = NETCONSOLE_ENABLED /\ rec_level nc = 0.
Lemma settings_ready nc nc' : settings nc' = settings nc -> console_ready nc -> console_ready nc'.
Proof. intros Hs [H1 H2]. injection Hs as E1 _ _ _ E2 _ _. split; congruence. Qed.

(** C35. The console over UDP is a stream: however the output is cut into
    strings, the peer gets it in lines, each in a valid UDP packet of its own,
    nothing is lost, doubled or reordered, what is not yet a line waits, and no
    store leaves the buffer. *)
Theorem netconsole_delivers `{Board, Endian} {W : Type} `{!PpsHW W, !MinicHW W} texts s l nc pend (w : W) :
  console_ready nc -> collecting s nc pend -> Forall bytes texts ->
  let '(ds, rest) := lines pend (concat texts) in
  exists s' nc' w', write_all texts s l nc w = (Some (s', nc'), w') /\ console_ready nc' /\ collecting s' nc' rest /\
    delivered l (netconsole_sock_addr nc) (peer s nc) ds s w s' w' /\
    concat ds ++ rest = pend ++ concat texts /\ Forall (fun d => (0 < length d <= 80)%nat) ds.
Proof.
  intros Hr Hcol Ht. destruct (lines_text pend (concat texts) (col_pend _ _ _ Hcol)) as (E1 & E2 & _).
  destruct (lines pend (concat texts)) as [ds rest] eqn:El. cbn [fst snd] in E1, E2.
  enough (exists s' nc' w', write_all texts s l nc w = (Some (s', nc'), w') /\ settings nc' = settings nc /\ collecting s' nc' rest /\
    delivered l (netconsole_sock_addr nc) (peer s nc) ds s w s' w') as (s' & nc' & w' & H1 & H2 & H3 & H4).
  { exists s', nc', w'. split_and!; try done. by eapply settings_ready. }
  clear E1 E2. revert s nc pend w ds Hr Hcol El. induction Ht as [|t texts Hb _ IH]; intros s nc pend w ds [Hst Hrec] Hcol El; cbn [write_all concat] in *.
  - injection El as <- <-. by exists s, nc, w.
  - rewrite lines_app in El. injection El as <- Erest.
    unfold netconsole_write_string. rewrite Hst. cbn [Z.eqb NETCONSOLE_ENABLED Pos.eqb negb]. rewrite Hrec. cbn [Z.ltb Z.compare].
    set (nc0 := nc <| rec_level := 0 + 1 |>).
    assert (Hcol0 : collecting s nc0 pend) by (destruct Hcol; by split).
    destruct (write_loop_ok t s l nc0 pend w Hcol0 Hb) as (s1 & nc1 & w1 & E & Hset & Hip & Hcol1 & Hdel).
    unfold bind. rewrite E. cbn [ret]. set (nc2 := nc1 <| rec_level := rec_level nc1 - 1 |>).
    assert (Hset2 : settings nc2 = settings nc).
    { injection Hset as H1 H2 H3 H4 H5 H6 H7. unfold settings, nc2, upd; cbn. rewrite H1, H2, H3, H4, H5, H6, H7. unfold nc0, upd; cbn. by rewrite Hrec. }
    assert (Hcol2 : collecting s1 nc2 (lines pend t).2) by (destruct Hcol1; by split).
    pose proof (settings_ready _ _ Hset2 (conj Hst Hrec)) as Hr2.
    destruct (IH s1 nc2 _ w1 _ Hr2 Hcol2 (eq_trans (surjective_pairing _) (f_equal _ Erest))) as (s' & nc' & w' & E' & Hset' & Hcol' & Hdel').
    exists s', nc', w'. split_and!; [exact E'|by rewrite Hset'|done|]. eapply delivered_app; [exact Hdel|].
    injection Hset2 as H1 H2 H3 H4 H5 H6 H7. unfold peer in *. by rewrite <- H4, <- H6, <- H7, <- Hip.
Qed.

(** ** Input *)
Fixpoint read_bytes (n : nat) (nc : netcon) : list Z * netcon :=
  match n with
  | O => ([], nc)
  | S n => let '(nc, c) := netconsole_read_byte nc in let '(cs, nc) := read_bytes n nc in (c :: cs, nc)
  end.

Lemma cstr_spec l : forall m, exists t, cstr (l ++ 0 :: m) = t /\ Forall (fun c => c <> 0) t /\
  (exists r, l ++ 0 :: m = t ++ 0 :: r) /\ (length t <= length l)%nat.
Proof.
  induction l as [|a l IH]; intros m; cbn [app cstr].
  - exists []. split_and!; try done. by exists m.
  - destruct (Z.eqb_spec a 0) as [->|Ha].
    + exists []. split_and!; [done|done|by exists (l ++ 0 :: m)|cbn; lia].
    + destruct (IH m) as (t & E & Hf & (r & Er) & Hl). exists (a :: t). rewrite E, Er. split_and!; [done|by apply Forall_cons|by exists r|cbn; lia].
Qed.
(** Reading a terminated text. *)
Lemma read_text t : forall nc pre r, cmd_rx_p nc = Some (Z.of_nat (length pre)) -> rx_buf nc = pre ++ t ++ 0 :: r -> Forall (fun c => c <> 0) t ->
  exists nc', read_bytes (S (length t)) nc = (t ++ [-1], nc') /\ netconsole_read_byte nc' = (nc', -1).
Proof.
  induction t as [|c t IH]; intros nc pre r Hp Hrx Ht.
  - cbn [length read_bytes]. unfold netconsole_read_byte. rewrite Hp, Hrx. cbn [app]. rewrite aget_mid by done. cbn [Z.eqb negb].
    exists nc. split; [done|]. rewrite Hp, Hrx. cbn [app]. by rewrite aget_mid.
  - apply Forall_cons in Ht as [Hc Ht]. cbn [length]. change (read_bytes (S (S (length t))) nc) with
      (let '(nc, c) := netconsole_read_byte nc in let '(cs, nc) := read_bytes (S (length t)) nc in (c :: cs, nc)).
    unfold netconsole_read_byte at 1. rewrite Hp, Hrx. cbn [app]. rewrite aget_mid by done. rewrite (proj2 (Z.eqb_neq c 0) Hc). cbn [negb].
    destruct (IH (nc <| cmd_rx_p := Some (Z.of_nat (length pre) + 1) |>) (pre ++ [c]) r) as (nc' & E & E'); [|by rewrite <- app_assoc|done|].
    { rewrite length_app. cbn [length]. unfold upd; cbn. f_equal. lia. }
    exists nc'. by rewrite E.
Qed.

(** What the peer sends is read: of a packet for us that fits the buffer, the
    text up to a terminator or the end, and nothing behind it; the sender is
    the new peer. *)
Theorem netconsole_receives `{Board, Endian} e s nc n addr buf ts len :
  ip_status s <> IP_TRAINING -> netconsole_status nc <> NETCONSOLE_DISABLED ->
  ptpd_netif_recvfrom (e_spll e).1 (e_spll e).2 (ip_net s) netconsole_socket (netconsole_sock_addr nc) (rx_buf nc) nc_buf_size false =
    (n, addr, buf, ts, len) ->
  check_dest_ip s buf = true -> 28 <= len < 109 -> 109 <= Z.of_nat (length buf) ->
  let text := cstr (sub buf 28 (len - 28)) in
  exists nc' nc'', netconsole_poll e s nc = (s <| ip_net := n |>, nc', 1) /\ netconsole_status nc' = NETCONSOLE_ENABLED /\
    netconsole_sock_addr nc' = addr /\ ua_daddr (netconsole_udp_addr nc') = sub buf IP_SOURCE 4 /\
    ua_dport (netconsole_udp_addr nc') = sub buf UDP_SPORT 2 /\ drop (S (Z.to_nat len)) (rx_buf nc') = drop (S (Z.to_nat len)) buf /\
    read_bytes (S (length text)) nc' = (text ++ [-1], nc'') /\ netconsole_read_byte nc'' = (nc'', -1).
Proof.
  intros Htr Hdis Hrecv Hdest Hlen Hl text. unfold netconsole_poll.
  rewrite (proj2 (Z.eqb_neq _ _) Htr), (proj2 (Z.eqb_neq _ _) Hdis). cbn [orb]. rewrite Hrecv.
  rewrite (proj2 (Z.ltb_lt 0 len)) by lia.
  match goal with |- context [check_dest_ip ?s' ?b] => change (check_dest_ip s' b) with (check_dest_ip s buf) end. rewrite Hdest. cbn [negb].
  set (nc' := _ <| netconsole_status := NETCONSOLE_ENABLED |>).
  set (pre := take 28 buf). set (pay := sub buf 28 (len - 28)).
  assert (Eb : buf = pre ++ pay ++ aget 0 buf len :: drop (S (Z.to_nat len)) buf).
  { unfold pre, pay. rewrite <- (take_drop 28 buf) at 1. f_equal.
    pose proof (sub_split buf 28 (Z.to_nat (len - 28)) ltac:(lia)) as Es. change (Z.of_nat 28) with 28 in Es. rewrite Z2Nat.id in Es by lia. rewrite Es.
    rewrite <- (take_drop (Z.to_nat (len - 28)) (drop 28 buf)) at 1. f_equal. rewrite drop_drop.
    replace (28 + Z.to_nat (len - 28))%nat with (Z.to_nat len) by lia. apply drop_S. rewrite aget_lookup by lia. do 2 f_equal. lia. }
  assert (Hpre : length pre = 28%nat) by (unfold pre; rewrite length_take; lia).
  assert (Hpay : length pay = Z.to_nat (len - 28)) by apply length_sub.
  assert (Erx : rx_buf nc' = pre ++ pay ++ 0 :: drop (S (Z.to_nat len)) buf).
  { change (rx_buf nc') with (aset buf len 0). rewrite Eb at 1. rewrite app_assoc, aset_mid by (rewrite length_app; lia). by rewrite <- app_assoc. }
  assert (Etx : cstr pay = text) by done.
  assert (Ht : Forall (fun c => c <> 0) text /\ exists r, pay ++ 0 :: drop (S (Z.to_nat len)) buf = text ++ 0 :: r).
  { destruct (cstr_spec pay (drop (S (Z.to_nat len)) buf)) as (t & E & Hf & Hr & Ht).
    assert (E0 : cstr (pay ++ 0 :: drop (S (Z.to_nat len)) buf) = text).
    { rewrite <- Etx. clear. induction pay as [|a l IH]; cbn [app cstr]; [done|]. case_match; [done|]. by rewrite IH. }
    rewrite E0 in E. subst t. done. }
  destruct Ht as [Hf [r Hr]]. rewrite Hr in Erx.
  destruct (read_text text nc' pre r) as (nc'' & E & E'); [by rewrite Hpre|exact Erx|exact Hf|].
  assert (Hsub : forall off, 0 <= off <= 24 -> forall k, 0 <= k <= 4 -> sub (aset buf len 0) off k = sub buf off k).
  { intros off Ho k Hk. apply (sub_put_ne buf len [0]); cbn [length]; lia. }
  exists nc', nc''. split_and!; try done.
  - change (sub (aset buf len 0) IP_SOURCE 4 = sub buf IP_SOURCE 4). apply Hsub; unfold IP_SOURCE; lia.
  - change (sub (aset buf len 0) UDP_SPORT 2 = sub buf UDP_SPORT 2). apply Hsub; unfold UDP_SPORT, IP_END; lia.
  - rewrite Erx, <- Hr. set (tl := drop (S (Z.to_nat len)) buf). change (0 :: tl) with ([0] ++ tl). rewrite !app_assoc.
    apply drop_app_length'. rewrite !length_app. cbn [length]. lia.
Qed.

(** A packet as long as the buffer, or longer, clears the byte behind it. *)
Theorem netconsole_poll_overruns `{Board, Endian} e s nc n addr buf ts :
  ip_status s <> IP_TRAINING -> netconsole_status nc <> NETCONSOLE_DISABLED ->
  ptpd_netif_recvfrom (e_spll e).1 (e_spll e).2 (ip_net s) netconsole_socket (netconsole_sock_addr nc) (rx_buf nc) nc_buf_size false =
    (n, addr, buf, ts, nc_buf_size) ->
  check_dest_ip s buf = true -> exists nc', netconsole_poll e s nc = (s <| ip_net := n |>, nc', 1) /\ rx_buf nc' = aset buf nc_buf_size 0.
Proof.
  intros Htr Hdis Hrecv Hdest. unfold netconsole_poll.
  rewrite (proj2 (Z.eqb_neq _ _) Htr), (proj2 (Z.eqb_neq _ _) Hdis). cbn [orb]. rewrite Hrecv. change (0 <? nc_buf_size) with true.
  match goal with |- context [check_dest_ip ?s' ?b] => change (check_dest_ip s' b) with (check_dest_ip s buf) end. rewrite Hdest. cbn [negb].
  by eexists.
Qed.

(** ** The console devices *)
Section console.
Context {W : Type}.
(** struct console_device; a function pointer that is NULL is [None]. *)
Record console_device := mk_con { get_char : option (M W Z); put_string : list Z -> M W Z }.

(** [console_register_device]: the first free slot, if there is one. *)
Fixpoint console_register_device (devs : list (option console_device)) (dev : console_device) : list (option console_device) :=
  match devs with
  | [] => []
  | None :: devs => Some dev :: devs
  | Some d :: devs => Some d :: console_register_device devs dev
  end.
(** [puts]: to every device; the result of the last. *)
Fixpoint puts (devs : list (option console_device)) (s : list Z) (rv : Z) : M W Z :=
  match devs with
  | [] => ret rv
  | None :: devs => puts devs s rv
  | Some con :: devs => let! rv := put_string con s in puts devs s rv
  end.
(** [console_getc]: the first device with a character, the terminator excepted. *)
Fixpoint con_getc (devs : list (option console_device)) : M W Z :=
  match devs with
  | [] => ret (-1)
  | None :: devs => con_getc devs
  | Some con :: devs =>
      match get_char con with
      | None => con_getc devs
      | Some g => let! b := g in if 0 <? b then ret b else con_getc devs
      end
  end.
End console.

(** A peer that gets a prompt, an answer and the beginning of a line. *)
Module NetConDemo.
#[export] Instance demo_board : Board := generic_8bit.
#[export] Instance demo_endian : Endian := false.
#[export] Instance demo_pps : PpsHW unit := {| ppsg_read _ w := (0, w); ppsg_write _ _ w := (tt, w) |}.
#[export] Instance demo_minic : MinicHW unit := {| mrd _ _ w := (0, w); mwr _ _ _ w := (tt, w); timer_delay_ms _ w := (tt, w) |}.
Definition st : ip_state := mk_ip [192; 168; 1; 9] IP_OK_BOOTP 0 0 (demo_net 0).
Definition locals0 : locals := mk_locals [] sa_zero (mk_hwts 0 0 0 0 0).
Definition con : netcon := mk_nc 0 None 0 (replicate 109 0) (replicate 120 0) None (sa_zero <| sa_mac := [8; 0; 48; 1; 1; 1] |>) NETCONSOLE_ENABLED
  (mk_udp (replicate 4 0) [192; 168; 1; 2] (replicate 2 0) [4; 210]).
Definition texts : list (list Z) := [str "wrc"; str "#"; str " ver" ++ [10]; str "WR"].
Lemma demo_lines : lines [] (concat texts) = ([str "wrc#"; str " ver" ++ [10]], str "WR").
Proof. vm_compute. reflexivity. Qed.
End NetConDemo.
Import NetConDemo.

Lemma netconsole_delivers_witness :
  let ds := [str "wrc#"; str " ver" ++ [10]] in let rest := str "WR" in
  exists s' nc' w', write_all NetConDemo.texts NetConDemo.st NetConDemo.locals0 NetConDemo.con tt = (Some (s', nc'), w') /\ console_ready nc' /\ collecting s' nc' rest /\
    delivered NetConDemo.locals0 (netconsole_sock_addr NetConDemo.con) (peer NetConDemo.st NetConDemo.con) ds NetConDemo.st tt s' w' /\
    concat ds ++ rest = [] ++ concat NetConDemo.texts /\ Forall (fun d => (0 < length d <= 80)%nat) ds.
Proof.
  pose proof (netconsole_delivers NetConDemo.texts NetConDemo.st NetConDemo.locals0 NetConDemo.con [] tt) as H.
  rewrite NetConDemo.demo_lines in H. apply H.
  - split; reflexivity.
  - split; [by left|split_and!; [reflexivity|by apply Forall_replicate|reflexivity]|cbn; lia|].
    split; try reflexivity. vm_compute. repeat (apply Forall_cons; split); try apply Forall_nil_2; split; first [discriminate|reflexivity].
  - vm_compute. repeat (apply Forall_cons; split); try apply Forall_nil_2; split; first [discriminate|reflexivity].
Defined.
