(* ===== verification/Latency.v ===== *)
(** lib/latency.c: the test of the latency of three priorities between two
    nodes.  The sender sends triples of frames, the third with the departure
    times of the first two; the receiver subtracts. *)
From Stdlib Require Import ZArith Lia.
From stdpp Require Import base numbers option list gmap.
From S2P Require Import Prelude Div64 SpllHw SpllHelper SpllMain SpllExternal SoftPll PpsGen Printf Util Bytes Minic Net Tasks Ipv4 Shell.

(** ** Frames *)

(** struct wr_timestamp in memory, in the byte order of the CPU. *)
Definition ts_image `{Endian} (t : wr_timestamp) : list Z :=
  image 8 (u64 (ts_sec t)) ++ image 4 (u32 (ts_nsec t)) ++ image 4 (u32 (ts_phase t)) ++ image 4 (u32 (ts_raw_phase t)) ++
  image 4 (u32 (ts_raw_nsec t)) ++ image 4 (u32 (ts_raw_ahead t)) ++ image 4 (u32 (ts_correct t)).
Definition ts_value `{Endian} (l : list Z) : wr_timestamp :=
  mk_ts (s64 (value (sub l 0 8))) (s32 (value (sub l 8 4))) (s32 (value (sub l 12 4))) (s32 (value (sub l 16 4)))
        (s32 (value (sub l 20 4))) (s32 (value (sub l 24 4))) (s32 (value (sub l 28 4))).

(** struct latency_frame *)
Record latency_frame := mk_lf { lf_type : Z; lf_sequence : Z; lf_ts0 : wr_timestamp; lf_ts1 : wr_timestamp }.
#[export] Instance eta_lf : Etable latency_frame := fun f => mk_lf (lf_type f) (lf_sequence f) (lf_ts0 f) (lf_ts1 f).
Definition sizeof_frame : Z := 72.
Definition lf_image `{Endian} (f : latency_frame) : list Z :=
  image 4 (lf_type f) ++ image 4 (lf_sequence f) ++ ts_image (lf_ts0 f) ++ ts_image (lf_ts1 f).
Definition lf_value `{Endian} (l : list Z) : latency_frame :=
  mk_lf (value (sub l 0 4)) (value (sub l 4 4)) (ts_value (sub l 8 32)) (ts_value (sub l 40 32)).

Definition ts_zero : wr_timestamp := mk_ts 0 0 0 0 0 0 0.

(** ** State *)

(** The static variables; [frame] is its 72 bytes.  The arrays of
    [latency_report] are pairs. *)
Record latency := mk_lat {
  lat_verbose : Z; ltest_fake_delay_ns : Z; lat_frame : list Z; prev_sequence : Z; prev_type : Z;
  rx_ts0 : wr_timestamp; rx_ts1 : wr_timestamp; rx_nframes : Z; rx_lost : Z;
  tx_sequence : Z; tx_lasts : Z; rep_nextj : Z; rep_min : Z * Z; rep_max : Z * Z; rep_tot : Z * Z; rep_n : Z;
  lat_lastt : Z; latency_period_ms : Z }.
#[export] Instance eta_lat : Etable latency := fun s =>
  mk_lat (lat_verbose s) (ltest_fake_delay_ns s) (lat_frame s) (prev_sequence s) (prev_type s) (rx_ts0 s) (rx_ts1 s)
    (rx_nframes s) (rx_lost s) (tx_sequence s) (tx_lasts s) (rep_nextj s) (rep_min s) (rep_max s) (rep_tot s) (rep_n s)
    (lat_lastt s) (latency_period_ms s).
(** The socket object, and its queue of 256 bytes. *)
Definition latency_socket : nat := 7.
Definition latency_queue : Z := 256.
Definition prios : list Z := [7; 6; 0].

(** [ts_sub]: the nanoseconds and the phase of the result; its seconds are 0. *)
Definition ts_sub (t2 t1 : wr_timestamp) : Z * Z :=
  let resll := s64 (ts_sec t2 - ts_sec t1) in
  let resll := s64 (resll * 1000000000) in
  let resll := s64 (resll + (ts_nsec t2 - ts_nsec t1)%int) in
  let resll := s64 (resll * 1000) in
  let resll := s64 (resll + (ts_phase t2 - ts_phase t1)%int) in
  let '(q, r) := div64_32 (u64 resll) 1000 in
  (s32 q, s32 r).

Section latency.
Context `{Board, Endian} (HAS_SYSLOG : bool) (CONFIG_LATENCY_ETHTYPE : Z).
Implicit Types (st : latency).

Definition latency_addr : wr_sockaddr :=
  sa_zero <| sa_mac := replicate 6 255 |> <| sa_ethertype := htons CONFIG_LATENCY_ETHTYPE |>.
Definition latency_init (n : net_state) : net_state :=
  (ptpd_netif_create_socket n latency_socket latency_queue (Some latency_addr) PTPD_SOCK_RAW_ETHERNET 0 0).1.

(** ** Receiving *)

(** The checks of the type: the timestamps and the number of frames. *)
Definition rx_type st (ts_tmp : wr_timestamp) : latency :=
  let frame := lf_value (lat_frame st) in
  if lf_type frame =? 1 then
    st <| rx_ts0 := ts_tmp |> <| rx_nframes := 1 |> <| rx_ts1 := (rx_ts1 st) <| ts_sec := 0 |> |>
  else if lf_type frame =? 2 then
    if negb (lf_sequence frame =? prev_sequence st) || negb (prev_type st =? 1) then st
    else st <| rx_ts1 := ts_tmp |> <| rx_nframes := (rx_nframes st + 1)%int |>
  else if lf_type frame =? 3 then
    if negb (lf_sequence frame =? prev_sequence st) || negb (prev_type st =? 2) then st
    else st <| rx_nframes := (rx_nframes st + 1)%int |>
  else st.

(** The count of lost frames, and what is reported of them. *)
Definition rx_count st : latency * list (option (list Z)) :=
  let frame := lf_value (lat_frame st) in
  let i := s32 (u32 (u32 (prev_sequence st * 3) + prev_type st - 1)) in
  let j := s32 (u32 (u32 (lf_sequence frame * 3) + lf_type frame - 2)) in
  if HAS_SYSLOG && negb (j =? i) then
    let lost := u32 (rx_lost st + (j - i)%int) in
    (st <| rx_lost := lost |>, [Full.pp_sprintf (str "ltest: lost %i frames, total %i" ++ [10]) [VInt (j - i)%int; VInt lost]])
  else (st, []).

(** A frame has arrived: the latencies when a triple is taken to be complete.
    The check of the seconds behind it never fails, they are 0. *)
Definition rx_frame st (ts_tmp : wr_timestamp) : latency * list (option (list Z)) * option ((Z * Z) * (Z * Z)) :=
  let frame := lf_value (lat_frame st) in
  let st := rx_type st ts_tmp in
  let '(st, reports) := rx_count st in
  let st := st <| prev_sequence := lf_sequence frame |> <| prev_type := lf_type frame |> in
  if negb (lf_type frame =? 3) || negb (rx_nframes st =? 3) then (st, reports, None)
  else (st, reports, Some (ts_sub (rx_ts0 st) (lf_ts0 frame), ts_sub (rx_ts1 st) (lf_ts1 frame))).

Section run.
Context {W : Type} `{!PpsHW W, !MinicHW W, !Timer W}.

(** One of the two statistics of [latency_report]. *)
Definition stat_min (m nsec : Z) : Z := if (m =? 0) || (u32 nsec <? m) then u32 nsec else m.
Definition stat_max (m nsec : Z) : Z := if m <? u32 nsec then u32 nsec else m.

(** [latency_report]: what is passed to [syslog_report], if anything; [mac5] is
    the last byte of our MAC address. *)
Definition latency_report (mac5 : Z) st (lat0 lat1 : Z * Z) : M W (latency * list (option (list Z))) :=
  let! st := (if rep_nextj st =? 0 then
                let! j := timer_tics in
                ret (st <| rep_nextj := u32 (j + TICS_PER_SECOND * (10 + Z.rem mac5 60)) |>)
              else ret st) in
  let st := st <| rep_n := u32 (rep_n st + 1) |>
               <| rep_min := (stat_min (rep_min st).1 lat0.1, stat_min (rep_min st).2 lat1.1) |>
               <| rep_max := (stat_max (rep_max st).1 lat0.1, stat_max (rep_max st).2 lat1.1) |>
               <| rep_tot := (u32 ((rep_tot st).1 + lat0.1), u32 ((rep_tot st).2 + lat1.1)) |> in
  let! j := timer_tics in
  if time_before j (rep_nextj st) then ret (st, [])
  else
    let st := st <| rep_nextj := u32 (rep_nextj st + 60 * TICS_PER_SECOND) |> in
    if rep_n st =? 0 then ret (st, [])
    else
      let n := rep_n st in
      let buf := Full.pp_sprintf (str "ltest: %li samples, min %li %li, avg %li %li, max %li %li" ++ [10])
        [VInt n; VInt (rep_min st).1; VInt (rep_min st).2; VInt ((rep_tot st).1 / n); VInt ((rep_tot st).2 / n);
         VInt (rep_max st).1; VInt (rep_max st).2] in
      ret (st <| rep_n := 0 |> <| rep_min := (0, 0) |> <| rep_max := (0, 0) |> <| rep_tot := (0, 0) |>, [buf]).

(** [latency_poll_rx]: the network, the state, what goes to [syslog_report]
    and the return value. *)
Definition latency_poll_rx (g : spll_globals) (s : softpll_state) (mac5 : Z) (from : wr_sockaddr) (n : net_state) st
    : M W (net_state * latency * list (option (list Z)) * Z) :=
  let '(n, _, data, ts_tmp, i) := ptpd_netif_recvfrom g s n latency_socket from (lat_frame st) sizeof_frame true in
  let st := st <| lat_frame := data |> in
  if u32 i <? sizeof_frame then ret (n, st, [], 0)
  else
    match rx_frame st (default ts_zero ts_tmp) with
    | (st, reports, None) => ret (n, st, reports, 1)
    | (st, reports, Some (lat0, lat1)) =>
        if truth (lat_verbose st) then ret (n, st, reports, 1)
        else let! r := latency_report mac5 st lat0 lat1 in ret (n, r.1, reports ++ r.2, 1)
    end.

(** ** Sending *)

(** [ltest_fake_delay_ns] is taken off a timestamp. *)
Definition fake_delay (fake : Z) (t : wr_timestamp) : wr_timestamp :=
  let t := t <| ts_nsec := (ts_nsec t - fake)%int |> in
  if ts_nsec t <? 0 then t <| ts_nsec := (ts_nsec t + 1000000000)%int |> <| ts_sec := s64 (ts_sec t - 1) |> else t.

(** A frame of type [ty] with priority [prio] is sent: the network, the frame
    and the timestamp. *)
Definition tx_frame (junk : hw_timestamp) (ty prio : Z) (n : net_state) (frame : latency_frame) : M W (net_state * latency_frame * wr_timestamp) :=
  let frame := frame <| lf_type := ty |> in
  let n := n <| nt_mem := <[latency_socket := (sock_at n latency_socket) <| ws_prio := prio |>]> (nt_mem n) |> in
  let! r := ptpd_netif_sendto n latency_socket latency_addr (lf_image frame) sizeof_frame junk in
  let '(n, ts, _) := r in ret (n, frame, ts).

Definition latency_poll_tx (junk : hw_timestamp) (n : net_state) st : M W (net_state * latency * Z) :=
  let frame := mk_lf 0 (tx_sequence st) ts_zero ts_zero in
  let st := st <| tx_sequence := u32 (tx_sequence st + 1) |> in
  let fake := ltest_fake_delay_ns st in
  let! r := tx_frame junk 1 (aget 0 prios 0) n frame in
  let '(n, frame, ts) := r in
  let frame := frame <| lf_ts0 := fake_delay fake ts |> in
  let! r := tx_frame junk 2 (aget 0 prios 1) n frame in
  let '(n, frame, ts) := r in
  let frame := frame <| lf_ts1 := fake_delay fake ts |> in
  let! r := tx_frame junk 3 (aget 0 prios 2) n frame in
  let '(n, frame, _) := r in
  let st := st <| ltest_fake_delay_ns := 0 |> <| lat_frame := lf_image frame |> in
  let sec := ts_sec (lf_ts0 frame) in
  let st := if tx_lasts st =? 0 then st <| tx_lasts := u32 sec |>
            else if 10 <=? s64 (sec - tx_lasts st) then st <| tx_lasts := u32 sec |> else st in
  ret (n, st, 1).

Definition latency_poll (g : spll_globals) (s : softpll_state) (mac5 : Z) (from : wr_sockaddr) (junk : hw_timestamp) (n : net_state) st
    : M W (net_state * latency * list (option (list Z)) * Z) :=
  if latency_period_ms st =? 0 then latency_poll_rx g s mac5 from n st
  else
    let! r := wrc_task_not_yet (lat_lastt st) (latency_period_ms st) in
    let '(lastt, wait) := r in
    let st := st <| lat_lastt := lastt |> in
    if truth wait then ret (n, st, [], 0)
    else let! r := latency_poll_tx junk n st in ret (r.1.1, r.1.2, [], r.2).
End run.

(** [cmd_ltest]; what is printed is left out. *)
Definition cmd_ltest (args : list (list Z)) st : latency * Z :=
  let v1 := match args with _ :: a1 :: _ => atoi a1 | _ => 0 end in
  match args with
  | [] => (st, 0)
  | a0 :: _ =>
      (if HAS_SYSLOG && streq a0 (str "verbose") then st <| lat_verbose := 1 |>
       else if HAS_SYSLOG && streq a0 (str "quiet") then st <| lat_verbose := 0 |>
       else if streq a0 (str "fake") then st <| ltest_fake_delay_ns := (fromdec (nth_error args 1)).1 |>
       else st <| latency_period_ms := u32 (atoi a0 * 1000 + v1)%int |> <| lat_lastt := 0 |>, 0)
  end.
End latency.

(** ** The wire format *)
Definition ts_ok (t : wr_timestamp) : Prop :=
  is_s64 (ts_sec t) /\ is_s32 (ts_nsec t) /\ is_s32 (ts_phase t) /\ is_s32 (ts_raw_phase t) /\ is_s32 (ts_raw_nsec t) /\
  is_s32 (ts_raw_ahead t) /\ is_s32 (ts_correct t).
Lemma length_ts_image `{Endian} t : length (ts_image t) = 32%nat.
Proof. unfold ts_image. by rewrite !length_app, !length_image. Qed.
Lemma length_lf_image `{Endian} f : length (lf_image f) = 72%nat.
Proof. unfold lf_image. by rewrite !length_app, !length_image, !length_ts_image. Qed.

(** A field of a structure. *)
Lemma sub_chunk (cs : list (list Z)) k c off n : cs !! k = Some c -> off = Z.of_nat (length (concat (take k cs))) -> n = Z.of_nat (length c) ->
  sub (concat cs) off n = c.
Proof.
  intros Hk -> ->.
  assert (E : concat cs = concat (take k cs) ++ c ++ concat (drop (S k) cs)) by (rewrite <- (take_drop_middle cs k c Hk) at 1; by rewrite concat_app).
  rewrite E. by apply sub_mid.
Qed.
Lemma s32_field `{Endian} x : is_s32 x -> s32 (value (image 4 (u32 x))) = x.
Proof.
  intros Hx. rewrite value_image by (pose proof (u32_range x); unfold is_u32 in *; cbn; lia). rewrite s32_u32. by apply s32_small.
Qed.
Lemma ts_roundtrip `{Endian} t : ts_ok t -> ts_value (ts_image t) = t.
Proof.
  intros (H1 & H2 & H3 & H4 & H5 & H6 & H7). unfold ts_value, ts_image.
  set (cs := [image 8 (u64 (ts_sec t)); image 4 (u32 (ts_nsec t)); image 4 (u32 (ts_phase t)); image 4 (u32 (ts_raw_phase t));
    image 4 (u32 (ts_raw_nsec t)); image 4 (u32 (ts_raw_ahead t)); image 4 (u32 (ts_correct t))]).
  replace (_ ++ _) with (concat cs) by (unfold cs; cbn [concat]; by rewrite app_nil_r).
  assert (HL : forall k, Z.of_nat (length (concat (take (S k) cs))) = 8 + 4 * Z.of_nat (k `min` 6)).
  { intros k. do 6 (destruct k as [|k]; [unfold cs; cbn [take concat]; rewrite ?length_app, !length_image; done|]).
    unfold cs. cbn [take concat]. rewrite take_nil. cbn [concat]. rewrite !length_app, !length_image, Nat.min_r by lia. done. }
  rewrite (sub_chunk cs 0 _ 0 8 eq_refl) by (done || by rewrite length_image).
  rewrite (sub_chunk cs 1 _ 8 4 eq_refl), (sub_chunk cs 2 _ 12 4 eq_refl), (sub_chunk cs 3 _ 16 4 eq_refl), (sub_chunk cs 4 _ 20 4 eq_refl),
    (sub_chunk cs 5 _ 24 4 eq_refl), (sub_chunk cs 6 _ 28 4 eq_refl) by (rewrite ?HL, ?length_image; done).
  rewrite !s32_field by done. rewrite value_image by (pose proof (u64_range (ts_sec t)); cbn; lia). rewrite s64_u64, s64_small by done. by destruct t.
Qed.
Definition lf_ok (f : latency_frame) : Prop := is_u32 (lf_type f) /\ is_u32 (lf_sequence f) /\ ts_ok (lf_ts0 f) /\ ts_ok (lf_ts1 f).
Lemma lf_roundtrip `{Endian} f : lf_ok f -> lf_value (lf_image f) = f.
Proof.
  intros (H1 & H2 & H3 & H4). unfold lf_value, lf_image, is_u32 in *.
  set (cs := [image 4 (lf_type f); image 4 (lf_sequence f); ts_image (lf_ts0 f); ts_image (lf_ts1 f)]).
  replace (_ ++ _) with (concat cs) by (unfold cs; cbn [concat]; by rewrite app_nil_r).
  rewrite (sub_chunk cs 0 _ 0 4 eq_refl), (sub_chunk cs 1 _ 4 4 eq_refl), (sub_chunk cs 2 _ 8 32 eq_refl), (sub_chunk cs 3 _ 40 32 eq_refl)
    by (unfold cs; cbn [take concat]; rewrite ?length_app, ?length_image, ?length_ts_image; done).
  rewrite !value_image, !ts_roundtrip by (done || cbn; lia). by destruct f.
Qed.

(** ** The latency *)

(** A time in picoseconds. *)
Definition ts_ps (t : wr_timestamp) : Z := (ts_sec t * 1000000000 + ts_nsec t) * 1000 + ts_phase t.
Definition ts_sane (t : wr_timestamp) : Prop := is_s64 (ts_sec t) /\ 0 <= ts_nsec t < 1000000000 /\ 0 <= ts_phase t < 1000000.

Lemma ts_sub_spec t2 t1 : ts_sane t2 -> ts_sane t1 -> let d := ts_ps t2 - ts_ps t1 in 0 <= d < 2147483648000 ->
  ts_sub t2 t1 = (d / 1000, d mod 1000).
Proof.
  intros (A1 & A2 & A3) (B1 & B2 & B3) d Hd. unfold ts_sub, ts_ps in *. set (s := ts_sec t2 - ts_sec t1) in *.
  assert (Hs : -2 <= s <= 4) by (unfold s in *; lia).
  rewrite (s64_small s) by (unfold is_s64; lia). unfold isub.
  rewrite (s64_small (s * 1000000000)), !(s32_small (_ - _)) by inrange.
  rewrite (s64_small (s * 1000000000 + _)) by inrange. rewrite (s64_small (_ * 1000)) by inrange. rewrite s64_small by inrange.
  replace ((s * 1000000000 + (ts_nsec t2 - ts_nsec t1)) * 1000 + (ts_phase t2 - ts_phase t1)) with d by (unfold d, s; lia).
  rewrite u64_small by lia. rewrite div64_32_spec by lia.
  assert (0 <= d / 1000 < 2147483648) by (split; [apply Z.div_pos; lia|apply Z.div_lt_upper_bound; lia]).
  pose proof (Z.mod_pos_bound d 1000 ltac:(lia)). by rewrite !s32_small by inrange.
Qed.

(** Frames that arrive one after the other, with their arrival times. *)
Fixpoint rx_run `{Endian} (HAS_SYSLOG : bool) (st : latency) (l : list (list Z * wr_timestamp)) : latency * list (option ((Z * Z) * (Z * Z))) :=
  match l with
  | [] => (st, [])
  | (data, ts) :: l =>
      let '(st, _, lat) := rx_frame HAS_SYSLOG (st <| lat_frame := data |>) ts in
      let '(st, lats) := rx_run HAS_SYSLOG st l in (st, lat :: lats)
  end.

(** [rx_count] changes the counter only. *)
Lemma rx_count_eq `{Endian} b st : exists l, (rx_count b st).1 = st <| rx_lost := l |>.
Proof. unfold rx_count. case_match; [by eexists|]. exists (rx_lost st). destruct st. reflexivity. Qed.

(** A frame as the receiver's state machine sees it. *)
Lemma rx_frame_eq `{Endian} b st f ts : lf_ok f ->
  exists lost reports, let st0 := st <| lat_frame := lf_image f |> in let st1 := rx_type st0 ts in
    let st2 := st1 <| rx_lost := lost |> <| prev_sequence := lf_sequence f |> <| prev_type := lf_type f |> in
    rx_frame b st0 ts = (st2, reports,
      if negb (lf_type f =? 3) || negb (rx_nframes st1 =? 3) then None
      else Some (ts_sub (rx_ts0 st1) (lf_ts0 f), ts_sub (rx_ts1 st1) (lf_ts1 f))).
Proof.
  intros Hf. unfold rx_frame. cbn zeta. change (lat_frame (st <| lat_frame := lf_image f |>)) with (lf_image f).
  rewrite lf_roundtrip by done. destruct (rx_count_eq b (rx_type (st <| lat_frame := lf_image f |>) ts)) as [lost E].
  destruct (rx_count _ _) as [st1 reports]. cbn [fst] in E. subst st1. exists lost, reports.
  match goal with |- (if ?c then _ else _) = (_, _, if ?c' then _ else _) => change c with c'; by destruct c' end.
Qed.

(** Three frames of a triple in a row. *)
Lemma rx_triple `{Endian} b st seq f1 f2 f3 r1 r2 r3 : lf_ok f1 -> lf_ok f2 -> lf_ok f3 ->
  lf_type f1 = 1 -> lf_type f2 = 2 -> lf_type f3 = 3 -> lf_sequence f1 = seq -> lf_sequence f2 = seq -> lf_sequence f3 = seq ->
  (rx_run b st [(lf_image f1, r1); (lf_image f2, r2); (lf_image f3, r3)]).2 =
  [None; None; Some (ts_sub r1 (lf_ts0 f3), ts_sub r2 (lf_ts1 f3))].
Proof.
  intros O1 O2 O3 T1 T2 T3 S1 S2 S3. cbn [rx_run].
  destruct (rx_frame_eq b st f1 r1 O1) as (l1 & p1 & E1). cbn zeta in E1. rewrite E1. clear E1.
  rewrite T1. cbn [Z.eqb Pos.eqb negb orb].
  assert (R1 : rx_type (st <| lat_frame := lf_image f1 |>) r1 =
    st <| lat_frame := lf_image f1 |> <| rx_ts0 := r1 |> <| rx_nframes := 1 |> <| rx_ts1 := (rx_ts1 st) <| ts_sec := 0 |> |>).
  { unfold rx_type. change (lat_frame (st <| lat_frame := lf_image f1 |>)) with (lf_image f1). rewrite lf_roundtrip, T1 by done. done. }
  rewrite R1. clear R1. set (st1 := _ <| prev_type := 1 |>).
  destruct (rx_frame_eq b st1 f2 r2 O2) as (l2 & p2 & E2). cbn zeta in E2. rewrite E2. clear E2.
  rewrite T2. cbn [Z.eqb Pos.eqb negb orb].
  assert (R2 : rx_type (st1 <| lat_frame := lf_image f2 |>) r2 = st1 <| lat_frame := lf_image f2 |> <| rx_ts1 := r2 |> <| rx_nframes := 2 |>).
  { unfold rx_type. change (lat_frame (st1 <| lat_frame := lf_image f2 |>)) with (lf_image f2). rewrite lf_roundtrip, T2 by done. cbn [Z.eqb Pos.eqb].
    change (prev_sequence (st1 <| lat_frame := lf_image f2 |>)) with (lf_sequence f1). change (prev_type (st1 <| lat_frame := lf_image f2 |>)) with 1. rewrite S1, S2, Z.eqb_refl. done. }
  rewrite R2. clear R2. set (st2 := _ <| prev_type := 2 |>).
  destruct (rx_frame_eq b st2 f3 r3 O3) as (l3 & p3 & E3). cbn zeta in E3. rewrite E3. clear E3.
  assert (R3 : rx_type (st2 <| lat_frame := lf_image f3 |>) r3 = st2 <| lat_frame := lf_image f3 |> <| rx_nframes := 3 |>).
  { unfold rx_type. change (lat_frame (st2 <| lat_frame := lf_image f3 |>)) with (lf_image f3). rewrite lf_roundtrip, T3 by done. cbn [Z.eqb Pos.eqb].
    change (prev_sequence (st2 <| lat_frame := lf_image f3 |>)) with (lf_sequence f2). change (prev_type (st2 <| lat_frame := lf_image f3 |>)) with 2. rewrite S2, S3, Z.eqb_refl. done. }
  rewrite R3, T3. cbn [Z.eqb Pos.eqb negb orb]. reflexivity.
Qed.

(** A departure time, with the fake delay taken off. *)
Definition departure (t : wr_timestamp) : Prop := ts_ok t /\ ts_sane t /\ 0 <= ts_sec t.
Lemma fake_delay_ok fake t : 0 <= fake < 1000000000 -> departure t ->
  ts_ok (fake_delay fake t) /\ ts_sane (fake_delay fake t) /\ ts_ps (fake_delay fake t) = ts_ps t - fake * 1000.
Proof.
  intros Hf ((O1 & O2 & O3 & O4 & O5 & O6 & O7) & (S1 & S2 & S3) & H0). unfold fake_delay, isub, iadd.
  change (ts_nsec (t <| ts_nsec := s32 (ts_nsec t - fake) |>)) with (s32 (ts_nsec t - fake)). rewrite s32_small by inrange.
  destruct (Z.ltb_spec (ts_nsec t - fake) 0); unfold ts_ok, ts_sane, ts_ps, upd; cbn -[Z.mul Z.add Z.sub]; rewrite ?s32_small, ?s64_small by inrange;
    split_and!; try done; inrange.
Qed.

Section end_to_end.
Context `{Board, Endian} {W : Type} `{!PpsHW W, !MinicHW W} (b : bool) (eth : Z).

(** The socket with a priority. *)
Definition with_prio (prio : Z) (n : net_state) : net_state :=
  n <| nt_mem := <[latency_socket := (sock_at n latency_socket) <| ws_prio := prio |>]> (nt_mem n) |>.

Lemma tx_frame_eq junk ty prio n f (w : W) : exists n1 t1 v1 w1,
  ptpd_netif_sendto (with_prio prio n) latency_socket (latency_addr eth) (lf_image (f <| lf_type := ty |>)) sizeof_frame junk w = ((n1, t1, v1), w1) /\
  tx_frame eth junk ty prio n f w = ((n1, f <| lf_type := ty |>, t1), w1).
Proof.
  unfold tx_frame, bind, ret. fold (with_prio prio n). destruct (ptpd_netif_sendto _ _ _ _ _ _ _) as [[[n1 t1] v1] w1]. by exists n1, t1, v1, w1.
Qed.

(** C40. The latency that is measured is the latency: a call of
    [latency_poll_tx] sends three frames with priorities 7, 6 and 0; whatever
    the receiver has seen before, when they arrive one after the other it finds
    the arrival minus the departure time of the first two, in nanoseconds and
    picoseconds, with the fake delay on top; the delay is used once. *)
Theorem latency_end_to_end junk n st (w : W) : 0 <= ltest_fake_delay_ns st < 1000000000 -> is_u32 (tx_sequence st) ->
  let seq := tx_sequence st in let fake := ltest_fake_delay_ns st in
  exists n1 n2 n3 t1 t2 t3 v1 v2 v3 w1 w2 w3 st',
    let dep1 := fake_delay fake t1 in let dep2 := fake_delay fake t2 in
    let d1 := lf_image (mk_lf 1 seq ts_zero ts_zero) in let d2 := lf_image (mk_lf 2 seq dep1 ts_zero) in
    let d3 := lf_image (mk_lf 3 seq dep1 dep2) in
    ptpd_netif_sendto (with_prio 7 n) latency_socket (latency_addr eth) d1 sizeof_frame junk w = ((n1, t1, v1), w1) /\
    ptpd_netif_sendto (with_prio 6 n1) latency_socket (latency_addr eth) d2 sizeof_frame junk w1 = ((n2, t2, v2), w2) /\
    ptpd_netif_sendto (with_prio 0 n2) latency_socket (latency_addr eth) d3 sizeof_frame junk w2 = ((n3, t3, v3), w3) /\
    latency_poll_tx eth junk n st w = ((n3, st', 1), w3) /\
    tx_sequence st' = u32 (seq + 1) /\ ltest_fake_delay_ns st' = 0 /\
    forall rst r1 r2 r3, departure t1 -> departure t2 -> ts_sane r1 -> ts_sane r2 ->
      let lat r t := ts_ps r - ts_ps t + fake * 1000 in
      0 <= lat r1 t1 < 2147483648000 -> 0 <= lat r2 t2 < 2147483648000 ->
      (rx_run b rst [(d1, r1); (d2, r2); (d3, r3)]).2 =
      [None; None; Some ((lat r1 t1 / 1000, lat r1 t1 mod 1000), (lat r2 t2 / 1000, lat r2 t2 mod 1000))].
Proof.
  intros Hf Hseq seq fake. fold fake in Hf. fold seq in Hseq.
  set (f0 := mk_lf 0 seq ts_zero ts_zero).
  destruct (tx_frame_eq junk 1 7 n f0 w) as (n1 & t1 & v1 & w1 & S1 & E1). set (f1 := f0 <| lf_type := 1 |>) in *.
  set (g1 := f1 <| lf_ts0 := fake_delay fake t1 |>).
  destruct (tx_frame_eq junk 2 6 n1 g1 w1) as (n2 & t2 & v2 & w2 & S2 & E2). set (f2 := g1 <| lf_type := 2 |>) in *.
  set (g2 := f2 <| lf_ts1 := fake_delay fake t2 |>).
  destruct (tx_frame_eq junk 3 0 n2 g2 w2) as (n3 & t3 & v3 & w3 & S3 & E3). set (f3 := g2 <| lf_type := 3 |>) in *.
  set (st1 := st <| tx_sequence := u32 (seq + 1) |> <| ltest_fake_delay_ns := 0 |> <| lat_frame := lf_image f3 |>).
  set (sec := ts_sec (lf_ts0 f3)).
  exists n1, n2, n3, t1, t2, t3, v1, v2, v3, w1, w2, w3,
    (if tx_lasts st1 =? 0 then st1 <| tx_lasts := u32 sec |> else if 10 <=? s64 (sec - tx_lasts st1) then st1 <| tx_lasts := u32 sec |> else st1).
  intros dep1 dep2 d1 d2 d3. split; [exact S1|]. split; [exact S2|]. split; [exact S3|]. split.
  { unfold latency_poll_tx. unfold bind at 1. change (aget 0 prios 0) with 7. fold seq. fold f0. rewrite E1. cbv beta iota zeta.
    unfold bind at 1. change (aget 0 prios 1) with 6. change (ltest_fake_delay_ns (st <| tx_sequence := u32 (seq + 1) |>)) with fake. fold g1. rewrite E2. cbv beta iota zeta.
    unfold bind at 1. change (aget 0 prios 2) with 0. fold g2. rewrite E3. cbv beta iota zeta. reflexivity. }
  split; [by repeat case_match|]. split; [by repeat case_match|].
  intros rst r1 r2 r3 D1 D2 R1 R2 lat L1 L2.
  destruct (fake_delay_ok fake t1 Hf D1) as (O1 & Y1 & P1). destruct (fake_delay_ok fake t2 Hf D2) as (O2 & Y2 & P2).
  assert (Oz : ts_ok ts_zero) by (unfold ts_ok; cbn; unfold is_s64, is_s32; lia).
  change d1 with (lf_image f1). change d2 with (lf_image f2). change d3 with (lf_image f3).
  rewrite (rx_triple b rst seq f1 f2 f3) by first [reflexivity|split_and!; try done; unfold is_u32; cbn; lia].
  change (lf_ts0 f3) with (fake_delay fake t1). change (lf_ts1 f3) with (fake_delay fake t2).
  assert (Q1 : lat r1 t1 = ts_ps r1 - ts_ps (fake_delay fake t1)) by (unfold lat; lia).
  assert (Q2 : lat r2 t2 = ts_ps r2 - ts_ps (fake_delay fake t2)) by (unfold lat; lia).
  rewrite Q1 in L1 |- *. rewrite Q2 in L2 |- *. by rewrite !ts_sub_spec.
Qed.
End end_to_end.

(** ** Lost frames *)

(** The number of a frame in the stream of the sender, and of the frame seen
    last. *)
Definition frame_index (f : latency_frame) : Z := lf_sequence f * 3 + lf_type f - 1.
Definition seen_index (st : latency) : Z := prev_sequence st * 3 + prev_type st - 1.

Lemma u32_cong z : exists k, u32 z = z + 4294967296 * k.
Proof. unfold u32. exists (- (z / 4294967296)). pose proof (Z.div_mod z 4294967296). lia. Qed.
Lemma u32_eq x y k : x = y + 4294967296 * k -> u32 x = u32 y.
Proof. intros ->. unfold u32. rewrite (Z.mul_comm 4294967296). apply Z.mod_add. lia. Qed.

Lemma rx_count_lost `{Endian} st f : lf_value (lat_frame st) = f ->
  u32 (rx_lost (rx_count true st).1) = u32 (rx_lost st + (frame_index f - seen_index st - 1)).
Proof.
  intros Hf. unfold rx_count. rewrite Hf. cbn [andb]. unfold frame_index, seen_index, isub.
  destruct (u32_cong (prev_sequence st * 3)) as [k1 ->]. destruct (u32_cong (lf_sequence f * 3)) as [k2 ->].
  set (a := prev_sequence st * 3 + _ + prev_type st - 1). set (c := lf_sequence f * 3 + _ + lf_type f - 2).
  rewrite !s32_u32. destruct (s32_cong a) as [k3 E3]. destruct (s32_cong c) as [k4 E4]. rewrite E3, E4.
  destruct (Z.eqb_spec (c + 4294967296 * k4) (a + 4294967296 * k3)) as [E|E]; cbn [negb fst].
  - apply (u32_eq _ _ (k4 - k3 + k2 - k1)). unfold a, c in E. lia.
  - destruct (s32_cong (c + 4294967296 * k4 - (a + 4294967296 * k3))) as [k5 ->]. unfold upd; cbn -[u32 Z.mul Z.add Z.sub].
    destruct (u32_cong (rx_lost st + (c + 4294967296 * k4 - (a + 4294967296 * k3) + 4294967296 * k5))) as [k6 ->].
    apply (u32_eq _ _ (k4 - k3 + k2 - k1 + k5 + k6)). unfold a, c. lia.
Qed.

(** The receiver counts the frames it did not get: of any frames that arrive,
    in any order, the counter grows by the numbers between the first and the
    last of them, less those that came. *)
Theorem latency_counts_lost `{Endian} (fs : list (latency_frame * wr_timestamp)) : forall st, Forall (fun f => lf_ok f.1) fs ->
  let st' := (rx_run true st ((fun f => (lf_image f.1, f.2)) <$> fs)).1 in
  u32 (rx_lost st') = u32 (rx_lost st + (seen_index st' - seen_index st) - Z.of_nat (length fs)) /\
  seen_index st' = default (seen_index st) (frame_index ∘ fst <$> last fs).
Proof.
  induction fs as [|[f ts] fs IH]; intros st Hok; cbn [rx_run fmap list_fmap].
  - cbn. split; [f_equal; lia|done].
  - apply Forall_cons in Hok as [Hf Hok]. cbn [fst snd] in *. unfold rx_frame.
    set (st0 := st <| lat_frame := lf_image f |>). assert (Ef : lf_value (lat_frame st0) = f) by (apply lf_roundtrip, Hf).
    rewrite Ef. set (st1 := rx_type st0 ts).
    assert (H1 : lat_frame st1 = lat_frame st0 /\ prev_sequence st1 = prev_sequence st /\ prev_type st1 = prev_type st /\ rx_lost st1 = rx_lost st).
    { unfold st1, rx_type. repeat case_match; done. }
    destruct H1 as (H1 & H2 & H3 & H4). pose proof (rx_count_lost st1 f (eq_trans (f_equal _ H1) Ef)) as Hc.
    destruct (rx_count true st1) as [st2 reports]. cbn [fst] in Hc.
    set (st3 := st2 <| prev_sequence := lf_sequence f |> <| prev_type := lf_type f |>).
    assert (Hs : seen_index st3 = frame_index f) by done. assert (Hl : rx_lost st3 = rx_lost st2) by done.
    specialize (IH st3 Hok).
    assert (E : (let '(st', _, lat) := if negb (lf_type f =? 3) || negb (rx_nframes st3 =? 3) then (st3, reports, None)
       else (st3, reports, Some (ts_sub (rx_ts0 st3) (lf_ts0 f), ts_sub (rx_ts1 st3) (lf_ts1 f))) in
       let '(st', lats) := rx_run true st' ((fun f => (lf_image f.1, f.2)) <$> fs) in (st', lat :: lats)).1 =
       (rx_run true st3 ((fun f => (lf_image f.1, f.2)) <$> fs)).1).
    { destruct (_ || _); cbv beta iota zeta; by destruct (rx_run true st3 _). }
    cbn zeta in *. rewrite E. destruct IH as [I1 I2]. split.
    + rewrite I1, Hs, Hl. unfold seen_index at 1 in Hc. rewrite H2, H3, H4 in Hc. fold (seen_index st) in Hc.
      destruct (u32_cong (rx_lost st2)) as [k Ek]. destruct (u32_cong (rx_lost st + (frame_index f - seen_index st - 1))) as [k' Ek'].
      apply (u32_eq _ _ (k' - k)). cbn [length]. lia.
    + rewrite I2. destruct fs as [|g fs]; [done|]. rewrite last_cons_cons. destruct (last (g :: fs)) eqn:El; [done|]. by apply last_None in El.
Qed.

(** A third frame whose two predecessors were lost is measured against the
    arrivals of an older triple, if that one was complete. *)
Theorem latency_stale_triple `{Endian} b st f ts : lf_ok f -> lf_type f = 3 -> rx_nframes st = 3 ->
  lf_sequence f <> prev_sequence st \/ prev_type st <> 2 ->
  (rx_run b st [(lf_image f, ts)]).2 = [Some (ts_sub (rx_ts0 st) (lf_ts0 f), ts_sub (rx_ts1 st) (lf_ts1 f))].
Proof.
  intros Hf Ht Hn Hs. cbn [rx_run]. destruct (rx_frame_eq b st f ts Hf) as (l & p & E). cbn zeta in E. rewrite E. clear E.
  assert (R : rx_type (st <| lat_frame := lf_image f |>) ts = st <| lat_frame := lf_image f |>).
  { unfold rx_type. change (lat_frame (st <| lat_frame := lf_image f |>)) with (lf_image f). rewrite lf_roundtrip, Ht by done. cbn [Z.eqb Pos.eqb].
    change (prev_sequence (st <| lat_frame := lf_image f |>)) with (prev_sequence st). change (prev_type (st <| lat_frame := lf_image f |>)) with (prev_type st).
    destruct (Z.eqb_spec (lf_sequence f) (prev_sequence st)), (Z.eqb_spec (prev_type st) 2); cbn [negb orb]; try done. destruct Hs; contradiction. }
  rewrite R, Ht. change (rx_nframes (st <| lat_frame := lf_image f |>)) with (rx_nframes st). rewrite Hn. reflexivity.
Qed.

(** The ring of the socket has no room for the three frames of a triple. *)
Lemma copy_out_avail q src : q_avail (copy_out_loop q src) = q_avail q.
Proof. revert q. induction src as [|c src IH]; intros q; cbn [copy_out_loop]; [done|]. by rewrite IH. Qed.
Lemma queue_put_avail `{Endian} q h hdr payload : length hdr = 14%nat -> 112 <= q_avail q < 65536 ->
  q_avail (queue_put q h hdr payload 72) = q_avail q - 112.
Proof.
  intros Hh Hq. unfold queue_put. change (s32 (sizeof_ethhdr + 72 + sizeof_hwts + 2)) with 112. rewrite (proj2 (Z.ltb_ge _ _)) by lia.
  unfold wrap_copy_out. rewrite length_image, length_hwts_image, Hh, length_sub. change (Z.to_nat (u16 72)) with 72%nat.
  unfold upd; cbn -[copy_out_loop u16 Z.sub]. repeat (rewrite copy_out_avail; cbn -[copy_out_loop u16 Z.sub]).
  change (Z.of_nat 2) with 2; change (Z.of_nat 24) with 24; change (Z.of_nat 14) with 14; change (Z.of_nat 72) with 72.
  unwrap. lia.
Qed.
Theorem latency_queue_two `{Endian} q h1 h2 h3 hdr1 hdr2 hdr3 p1 p2 p3 : q_avail q = latency_queue ->
  length hdr1 = 14%nat -> length hdr2 = 14%nat ->
  let q2 := queue_put (queue_put q h1 hdr1 p1 sizeof_frame) h2 hdr2 p2 sizeof_frame in queue_put q2 h3 hdr3 p3 sizeof_frame = q2.
Proof.
  intros Hq L1 L2 q2. unfold latency_queue in Hq.
  assert (E1 : q_avail (queue_put q h1 hdr1 p1 72) = 144) by (rewrite queue_put_avail; lia).
  assert (E2 : q_avail q2 = 32) by (unfold q2, sizeof_frame; rewrite queue_put_avail; lia).
  unfold queue_put at 1. rewrite E2. reflexivity.
Qed.

(** A sender and a receiver. *)
Module LatencyDemo.
#[export] Instance demo_board : Board := generic_8bit.
#[export] Instance demo_endian : Endian := false.
#[export] Instance demo_pps : PpsHW unit := {| ppsg_read _ w := (0, w); ppsg_write _ _ w := (tt, w) |}.
#[export] Instance demo_minic : MinicHW unit := {| mrd _ _ w := (0, w); mwr _ _ _ w := (tt, w); timer_delay_ms _ w := (tt, w) |}.
Definition junk : hw_timestamp := mk_hwts 0 0 0 0 0.
Definition start : latency :=
  mk_lat 1 250 (replicate 72 0) 0 0 ts_zero ts_zero 0 0 5 0 0 (0, 0) (0, 0) (0, 0) 0 0 1000.
End LatencyDemo.
Import LatencyDemo.

(** Arrivals 1000.5 and 700 ns after the departures, and a fake delay of 250 ns. *)
Lemma latency_end_to_end_witness :
  let seq := tx_sequence start in let fake := ltest_fake_delay_ns start in let n := demo_net 0 in
  exists n1 n2 n3 t1 t2 t3 v1 v2 v3 w1 w2 w3 st',
    let dep1 := fake_delay fake t1 in let dep2 := fake_delay fake t2 in
    let d1 := lf_image (mk_lf 1 seq ts_zero ts_zero) in let d2 := lf_image (mk_lf 2 seq dep1 ts_zero) in
    let d3 := lf_image (mk_lf 3 seq dep1 dep2) in
    ptpd_netif_sendto (with_prio 7 n) latency_socket (latency_addr 2989) d1 sizeof_frame junk tt = ((n1, t1, v1), w1) /\
    ptpd_netif_sendto (with_prio 6 n1) latency_socket (latency_addr 2989) d2 sizeof_frame junk w1 = ((n2, t2, v2), w2) /\
    ptpd_netif_sendto (with_prio 0 n2) latency_socket (latency_addr 2989) d3 sizeof_frame junk w2 = ((n3, t3, v3), w3) /\
    latency_poll_tx 2989 junk n start tt = ((n3, st', 1), w3) /\
    (rx_run true start [(d1, mk_ts 0 1000 500 0 0 0 1); (d2, mk_ts 0 700 0 0 0 0 1); (d3, ts_zero)]).2 =
      [None; None; Some ((1250, 500), (950, 0))].
Proof.
  intros seq fake n.
  destruct (latency_end_to_end true 2989 junk n start tt) as (n1 & n2 & n3 & t1 & t2 & t3 & v1 & v2 & v3 & w1 & w2 & w3 & st' & S1 & S2 & S3 & E & _ & _ & Hlat).
  { vm_compute. split; [discriminate|reflexivity]. }
  { vm_compute. split; [discriminate|reflexivity]. }
  exists n1, n2, n3, t1, t2, t3, v1, v2, v3, w1, w2, w3, st'. intros dep1 dep2 d1 d2 d3.
  split; [exact S1|]. split; [exact S2|]. split; [exact S3|]. split; [exact E|].
  assert (T1 : t1 = ts_zero) by (pose proof (f_equal (fun x => x.1.1.2) S1) as T; vm_compute in T; by rewrite <- T).
  pose proof (f_equal (fun x => x.1.1.1) S1) as N1. cbn [fst] in N1.
  assert (T2 : t2 = ts_zero).
  { pose proof (f_equal (fun x => x.1.1.2) S2) as T. rewrite T1, <- N1 in T. destruct w1. vm_compute in T. by rewrite <- T. }
  assert (Dz : departure ts_zero) by (vm_compute; split_and!; first [discriminate|reflexivity]).
  etransitivity; [apply (Hlat start (mk_ts 0 1000 500 0 0 0 1) (mk_ts 0 700 0 0 0 0 1) ts_zero); rewrite ?T1, ?T2; try done|rewrite T1, T2; vm_compute; reflexivity].
  all: vm_compute; split_and!; first [discriminate|reflexivity].
Defined.
