(* ===== verification/W1.v ===== *)
(** dev/w1.c: the 1-Wire bus and the search for its devices. *)
From Stdlib Require Import ZArith Lia Sorting.Sorted.
From stdpp Require Import base numbers option list sets sorting.
From S2P Require Import Prelude.

(** ** The bus

    The operations of the low-level driver (include/dev/w1.h: there is one set
    of them in a build), and [usleep]. *)
Class W1Bus (W : Type) := {
  w1_reset : M W Z; w1_read_bit : M W Z; w1_write_bit : Z -> M W unit; w1_usleep : Z -> M W unit }.

(** The protocol of the devices, as far as the search needs it: the bits of a
    command, or a search among the devices that are still active, at a bit of
    the ROM code: the bit is read, then its complement, then one is chosen. *)
Inductive w1_phase :=
| Command (n : nat) (c : Z)
| Search (active : list Z) (k : Z) (step : Z).
(** The bus is low when one device pulls it low. *)
Definition wired_and (bits : list bool) : bool := forallb (fun b => b) bits.
Definition W1_CMD_SEARCH_ROM : Z := 240.
Definition phase_write (roms : list Z) (p : w1_phase) (bit : bool) : option w1_phase :=
  match p with
  | Command n c =>
      let c := Z.lor c (Z.shiftl (b2z bit) (Z.of_nat n)) in
      if (n <? 7)%nat then Some (Command (S n) c)
      else if c =? W1_CMD_SEARCH_ROM then Some (Search roms 0 0) else None
  | Search active k step =>
      if step =? 2 then Some (Search (filter (fun d => Z.testbit d k = bit) active) (k + 1) 0) else None
  end.
Definition phase_read (p : w1_phase) : option (bool * w1_phase) :=
  match p with
  | Search active k step =>
      if step =? 0 then Some (wired_and ((fun d => Z.testbit d k) <$> active), Search active k 1)
      else if step =? 1 then Some (wired_and ((fun d => negb (Z.testbit d k)) <$> active), Search active k 2)
      else None
  | _ => None
  end.

(** A bus with the devices [roms] behaves so. *)
Class W1Laws (W : Type) `{!W1Bus W} (roms : list Z) := {
  w1_view : W -> option w1_phase;
  law_reset w : ensures w1_reset w (fun r w' => r = (if bool_decide (roms = []) then 0 else 1) /\
    (roms <> [] -> w1_view w' = Some (Command 0 0)));
  law_write b w p p' : w1_view w = Some p -> phase_write roms p (truth b) = Some p' ->
    ensures (w1_write_bit b) w (fun _ w' => w1_view w' = Some p');
  law_read w p bit p' : w1_view w = Some p -> phase_read p = Some (bit, p') ->
    ensures w1_read_bit w (fun r w' => r = b2z bit /\ w1_view w' = Some p') }.

(** A simulated bus. *)
Record w1_sim := mk_w1 { sim_roms : list Z; sim_phase : option w1_phase }.
#[export] Instance w1_sim_bus (roms : list Z) : W1Bus (option w1_phase) := {
  w1_reset w := (if bool_decide (roms = []) then 0 else 1, Some (Command 0 0));
  w1_read_bit w := match w ≫= phase_read with Some (bit, p) => (b2z bit, Some p) | None => (1, None) end;
  w1_write_bit b w := (tt, w ≫= fun p => phase_write roms p (truth b));
  w1_usleep _ w := (tt, w) }.
#[export] Instance w1_sim_laws (roms : list Z) : @W1Laws _ (w1_sim_bus roms) roms.
Proof.
  refine {| w1_view w := w |}.
  - intros w. split; [done|]. done.
  - intros b w p p' -> E. cbn. exact E.
  - intros w p bit p' -> E. unfold ensures. cbn. rewrite E. done.
Defined.

(** ** Bytes and ROM codes *)
Definition W1_MAX_DEVICES : nat := 8.
Definition W1_CMD_MATCH_ROM : Z := 85.
Definition B_0 : Z := 0.
Definition B_1 : Z := 1.
Definition B_BOTH : Z := 2.
Definition w1_class (rom : Z) : Z := Z.land rom 255.

Section w1.
Context {W : Type} `{!W1Bus W}.

(** [for (i = 1; i < 0x100; i <<= 1)] *)
Fixpoint write_bits (fuel : nat) (i byte : Z) : M W unit :=
  match fuel with
  | O => ret tt
  | S fuel => if i <? 256 then w1_write_bit (if truth (Z.land byte i) then 1 else 0) ;! write_bits fuel (i << 1)%int byte else ret tt
  end.
Definition w1_write_byte (byte : Z) : M W unit := write_bits 9 1 byte.
Fixpoint read_bits (fuel : nat) (i res : Z) : M W Z :=
  match fuel with
  | O => ret res
  | S fuel => if i <? 256 then let! b := w1_read_bit in read_bits fuel (i << 1)%int (Z.lor res (if truth b then i else 0)) else ret res
  end.
Definition w1_read_byte : M W Z := let! res := read_bits 9 1 0 in w1_usleep 100 ;! ret res.

Definition get_dibit (select : Z) : M W Z :=
  let! a := w1_read_bit in
  let! b := w1_read_bit in
  if negb (a =? b) then w1_write_bit a ;! ret (if truth a then B_1 else B_0)
  else w1_write_bit select ;! ret B_BOTH.

(** The loop of [__w1_scan_one] over the 64 masks; [select] is an [int]. *)
Fixpoint scan_bits (fuel : nat) (mask rom cmask : Z) : M W (Z * Z) :=
  match fuel with
  | O => ret (rom, cmask)
  | S fuel =>
      if mask =? 0 then ret (rom, cmask)
      else
        let select := s32 (Z.land rom mask) in
        let! b := get_dibit select in
        let rom := if b =? B_1 then Z.lor rom mask else rom in
        let cmask := if (b =? B_BOTH) && (select =? 0) then Z.lor cmask mask else cmask in
        scan_bits fuel (u64 (Z.shiftl mask 1)) rom cmask
  end.
(** [__w1_scan_one]: the result, [*rom] and [*cmask]. *)
Definition w1_scan_one (rom cmask : Z) : M W (Z * Z * Z) :=
  let! r := w1_reset in
  if negb (r =? 1) then ret (-1, rom, cmask)
  else
    w1_write_byte W1_CMD_SEARCH_ROM ;!
    let! r := scan_bits 65 1 rom 0 in
    ret (0, r.1, r.2).

(** The loop that looks for the last conflict: the mask, 0 when there is none,
    and [d->rom]. *)
Fixpoint conflict_loop (fuel : nat) (mask cmask rom : Z) : Z * Z :=
  match fuel with
  | O => (mask, rom)
  | S fuel =>
      if mask =? 0 then (0, rom)
      else
        let mask := if truth (Z.land mask (2 ^ 62)) then 2 ^ 62 else mask in
        if truth (Z.land cmask mask) then (mask, rom)
        else conflict_loop fuel (Z.shiftr mask 1) cmask (Z.land rom (Z.lnot mask))
  end.

(** [w1_scan_bus] from device [i] on: the ROM codes of the devices and the
    number of those that were found. *)
Fixpoint scan_loop (n : nat) (i : Z) (devs : list Z) (cmask : Z) : M W (list Z * Z) :=
  match n with
  | O => ret (devs, i)
  | S n =>
      let found rom cmask :=
        let! r := w1_scan_one rom cmask in
        let '(err, rom, cmask) := r in
        let devs := aset devs i rom in
        if truth err then ret (devs, i) else scan_loop n (i + 1) devs cmask in
      if truth i then
        let '(mask, rom) := conflict_loop 65 (2 ^ 63) cmask (aget 0 devs (i - 1)) in
        if mask =? 0 then ret (aset devs i rom, i)
        else found (Z.lor rom mask) (Z.land cmask (Z.lnot mask))
      else found (aget 0 devs i) cmask
  end.
Definition w1_scan_bus (devs : list Z) : M W (list Z * Z) := scan_loop W1_MAX_DEVICES 0 devs 0.

Fixpoint rom_bytes (n : nat) (i rom : Z) : M W unit :=
  match n with
  | O => ret tt
  | S n => w1_write_byte (s32 (Z.shiftr rom i)) ;! rom_bytes n (i + 8) rom
  end.
Definition w1_match_rom (rom : Z) : M W unit :=
  let! _ := w1_reset in w1_write_byte W1_CMD_MATCH_ROM ;! rom_bytes 8 0 rom.
End w1.
(** ** The search

    The bits [0..k-1] of two ROM codes agree; the order in which the search
    finds the devices; the bits at which a device that is found leaves another
    one aside. *)
Definition agree (k d e : Z) : Prop := forall j, 0 <= j < k -> Z.testbit d j = Z.testbit e j.
Definition w1_before (d e : Z) : Prop :=
  exists k, 0 <= k < 64 /\ agree k d e /\ Z.testbit d k = false /\ Z.testbit e k = true.
Definition conflict (roms : list Z) (d k : Z) : Prop :=
  0 <= k < 64 /\ Z.testbit d k = false /\ exists e, e ∈ roms /\ agree k d e /\ Z.testbit e k = true.

Lemma agree_sym k d e : agree k d e -> agree k e d.
Proof. intros H j Hj. symmetry. by apply H. Qed.
Lemma agree_trans k d e f : agree k d e -> agree k e f -> agree k d f.
Proof. intros H1 H2 j Hj. rewrite H1 by done. by apply H2. Qed.
Lemma agree_le k l d e : l <= k -> agree k d e -> agree l d e.
Proof. intros Hl H j Hj. apply H. lia. Qed.
Lemma agree_0 d e : agree 0 d e.
Proof. intros j Hj. lia. Qed.
Lemma agree_succ k d e : 0 <= k -> agree (k + 1) d e <-> agree k d e /\ Z.testbit d k = Z.testbit e k.
Proof.
  intros Hk. split.
  - intros H. split; [by apply (agree_le (k + 1)); [lia|]|]. apply H. lia.
  - intros [H E] j Hj. destruct (decide (j = k)) as [->|]; [done|]. apply H. lia.
Qed.
Lemma agree_64 d e : 0 <= d < 2 ^ 64 -> 0 <= e < 2 ^ 64 -> agree 64 d e -> d = e.
Proof.
  intros Hd He H. apply Z.bits_inj'. intros j Hj. destruct (decide (j < 64)); [apply H; lia|].
  by rewrite <-(Z.mod_small d (2 ^ 64)), <-(Z.mod_small e (2 ^ 64)), !Z.mod_pow2_bits_high by lia.
Qed.
(** The first bit at which two ROM codes differ. *)
Lemma agree_or_differ k d e : 0 <= k ->
  agree k d e \/ exists j, 0 <= j < k /\ agree j d e /\ Z.testbit d j <> Z.testbit e j.
Proof.
  intros Hk. pattern k. apply natlike_ind; [left; apply agree_0| |done].
  intros l Hl [H|(j & Hj & H)]; [|right; exists j; split; [lia|done]].
  destruct (decide (Z.testbit d l = Z.testbit e l)) as [E|E].
  - left. by apply agree_succ.
  - right. exists l. split; [lia|done].
Qed.
Lemma agree_u32 d e : agree 32 d e -> u32 d = u32 e.
Proof.
  intros H. unfold u32. change 4294967296 with (2 ^ 32). apply Z.bits_inj'. intros j Hj.
  destruct (decide (j < 32)).
  - rewrite !Z.mod_pow2_bits_low by lia. apply H. lia.
  - by rewrite !Z.mod_pow2_bits_high by lia.
Qed.

(** The [int select] of a mask below bit 32. *)
Lemma select_spec rom k : 0 <= k < 32 -> truth (s32 (Z.land rom (2 ^ k))) = Z.testbit rom k.
Proof.
  intros Hk. rewrite land_pow2 by lia. destruct (Z.testbit rom k); [|reflexivity].
  assert (H : k = 31 \/ 0 <= k < 31) by lia. destruct H as [->|H]; [reflexivity|].
  rewrite s32_small; [unfold truth; pose proof (Z.pow_pos_nonneg 2 k); lia|].
  unfold is_s32. pose proof (Z.pow_pos_nonneg 2 k). pose proof (Z.pow_lt_mono_r 2 k 31). lia.
Qed.
Lemma next_mask k : 0 <= k < 64 -> u64 (Z.shiftl (2 ^ k) 1) = if k =? 63 then 0 else 2 ^ (k + 1).
Proof.
  intros Hk. rewrite Z.shiftl_mul_pow2, <-Z.pow_add_r by lia. destruct (Z.eqb_spec k 63) as [->|]; [reflexivity|].
  apply u64_small. pose proof (Z.pow_pos_nonneg 2 (k + 1)). pose proof (Z.pow_lt_mono_r 2 (k + 1) 64). lia.
Qed.

Lemma wired_all (f : Z -> bool) l : wired_and (f <$> l) = true -> forall d, d ∈ l -> f d = true.
Proof. unfold wired_and. rewrite forallb_forall. intros H d Hd. apply H, list_elem_of_In, list_elem_of_fmap. eauto. Qed.
Lemma wired_some (f : Z -> bool) l : wired_and (f <$> l) = false -> exists d, d ∈ l /\ f d = false.
Proof.
  induction l as [|x l IH]; [done|]. cbn. destruct (f x) eqn:E; cbn.
  - intros (d & Hd & Ed)%IH. exists d. split; [by right|done].
  - intros _. exists x. split; [left|done].
Qed.

(** The loop finds the last conflict, and clears the bits above it. *)
Lemma conflict_loop_spec n : forall m cmask rom, Z.of_nat n = m + 2 -> -1 <= m < 64 ->
  let '(mask, rom') := conflict_loop n (if m =? -1 then 0 else 2 ^ m) cmask rom in
  (mask = 0 /\ forall j, 0 <= j <= m -> Z.testbit cmask j = false) \/
  exists p, 0 <= p <= m /\ mask = 2 ^ p /\ Z.testbit cmask p = true /\
    (forall j, p < j <= m -> Z.testbit cmask j = false) /\
    forall j, 0 <= j -> Z.testbit rom' j = Z.testbit rom j && negb ((p <? j) && (j <=? m)).
Proof.
  induction n as [|n IH]; intros m cmask rom Hn Hm; [lia|]. cbn [conflict_loop].
  destruct (Z.eqb_spec m (-1)) as [->|Hm'].
  { left. split; [done|]. lia. }
  pose proof (Z.pow_pos_nonneg 2 m) as Hpos. destruct (Z.eqb_spec (2 ^ m) 0); [lia|].
  assert (E62 : (if truth (Z.land (2 ^ m) (2 ^ 62)) then 2 ^ 62 else 2 ^ m) = 2 ^ m).
  { rewrite land_pow2, Z.pow2_bits_eqb by lia. destruct (Z.eqb_spec m 62) as [->|]; reflexivity. }
  rewrite E62. rewrite land_pow2 by lia. destruct (Z.testbit cmask m) eqn:Em.
  - unfold truth. destruct (Z.eqb_spec (2 ^ m) 0); [lia|]. cbn [negb].
    right. exists m. split; [lia|]. split; [done|]. split; [done|]. split; [lia|].
    intros j Hj. destruct (Z.ltb_spec m j), (Z.leb_spec j m); cbn; rewrite ?andb_true_r; (done || lia).
  - rewrite truth_0.
    replace (Z.shiftr (2 ^ m) 1) with (if m - 1 =? -1 then 0 else 2 ^ (m - 1)).
    2:{ destruct (Z.eqb_spec (m - 1) (-1)); [by replace m with 0 by lia|]. rewrite Z.shiftr_div_pow2 by lia.
        rewrite <-Z.pow_sub_r by lia. done. }
    specialize (IH (m - 1) cmask (Z.land rom (Z.lnot (2 ^ m))) ltac:(lia) ltac:(lia)).
    destruct (conflict_loop n _ _ _) as [mask rom'] eqn:El.
    destruct IH as [[-> Hz]|(p & Hp & -> & Ep & Hz & Hr)].
    + left. split; [done|]. intros j Hj. destruct (decide (j = m)) as [->|]; [done|]. apply Hz. lia.
    + right. exists p. split; [lia|]. split; [done|]. split; [done|]. split.
      * intros j Hj. destruct (decide (j = m)) as [->|]; [done|]. apply Hz. lia.
      * intros j Hj. rewrite Hr, Z.land_spec, Z.lnot_spec, Z.pow2_bits_eqb by lia. rewrite <-andb_assoc. f_equal.
        destruct (Z.eqb_spec m j), (Z.ltb_spec p j), (Z.leb_spec j m), (Z.leb_spec j (m - 1)); cbn; (done || lia).
Qed.

Lemma w1_before_trans d e f : w1_before d e -> w1_before e f -> w1_before d f.
Proof.
  intros (k & Hk & Ha & Ed & Ee) (l & Hl & Hb & Ee' & Ef). destruct (Z.lt_total k l) as [H|[->|H]].
  - exists k. split; [done|]. split; [|by rewrite <-Hb by lia]. apply (agree_trans k d e); [done|]. by apply (agree_le l); [lia|].
  - congruence.
  - exists l. split; [done|]. split; [|by rewrite Ha by lia]. apply (agree_trans l d e); [|done]. by apply (agree_le k); [lia|].
Qed.
Lemma take_aset_snoc (l devs : list Z) d : take (length l) devs = l -> (length l < length devs)%nat ->
  take (length l + 1) (aset devs (Z.of_nat (length l)) d) = l ++ [d].
Proof.
  intros Ht Hl. unfold aset. destruct (Z.ltb_spec (Z.of_nat (length l)) 0); [lia|]. rewrite Nat2Z.id.
  rewrite Nat.add_1_r. rewrite (take_S_r _ _ d) by (apply list_lookup_insert_eq; lia). f_equal.
  rewrite take_insert_ge by lia. done.
Qed.
Lemma take_aset_ge (devs : list Z) n i v : Z.of_nat n <= i -> take n (aset devs i v) = take n devs.
Proof. intros H. unfold aset. destruct (Z.ltb_spec i 0); [lia|]. apply take_insert_ge. lia. Qed.
Lemma aget_at (l1 l2 : list Z) y : aget 0 (l1 ++ y :: l2) (Z.of_nat (length l1)) = y.
Proof.
  unfold aget. destruct (Z.ltb_spec (Z.of_nat (length l1)) 0); [lia|]. by rewrite Nat2Z.id, list_lookup_middle.
Qed.
Lemma rev_case (l : list Z) : l = [] \/ exists l0 x, l = l0 ++ [x].
Proof. destruct l as [|x l0 _] using rev_ind; [by left|]. right. eauto. Qed.

Section search.
Context {W : Type} `{!W1Bus W} (roms : list Z) `{!W1Laws W roms}.
Context (Hroms : forall d, d ∈ roms -> 0 <= d < 2 ^ 64).
Context (Hdist : forall d e, d ∈ roms -> e ∈ roms -> u32 d = u32 e -> d = e).

(** At bit [k] of a scan that began with [r0]: the devices that are active, the
    code read so far and the conflicts marked so far. *)
Record scan_inv (r0 k : Z) (act : list Z) (rom cmask : Z) : Prop := {
  si_nonempty : act <> [];
  si_roms d : d ∈ act -> d ∈ roms;
  si_agree d e : d ∈ act -> e ∈ roms -> e ∈ act <-> agree k d e;
  si_low d j : d ∈ act -> 0 <= j < k -> Z.testbit rom j = Z.testbit r0 j || Z.testbit d j;
  si_high j : k <= j -> Z.testbit rom j = Z.testbit r0 j;
  si_cmask d j : d ∈ act -> 0 <= j -> Z.testbit cmask j = true <-> j < k /\ conflict roms d j;
  si_rule d e j : d ∈ act -> 0 <= j < k -> e ∈ roms -> agree j d e ->
    Z.testbit d j <> Z.testbit e j -> Z.testbit d j = Z.testbit r0 j }.

Lemma scan_inv_0 r0 : roms <> [] -> scan_inv r0 0 roms r0 0.
Proof.
  intros Hne. constructor; try done.
  - intros d e Hd He. split; [intros _; apply agree_0|done].
  - intros d j Hd Hj. lia.
  - intros d j Hd Hj. rewrite Z.bits_0. split; [done|]. intros [? _]. lia.
  - intros d e j Hd Hj. lia.
Qed.

(** Devices in conflict differ in their low 32 bits. *)
Lemma conflict_low r0 k act rom cmask d e : scan_inv r0 k act rom cmask -> 0 <= k ->
  d ∈ act -> e ∈ act -> Z.testbit d k <> Z.testbit e k -> k < 32.
Proof.
  intros I Hk Hd He Hne. destruct (decide (k < 32)); [done|]. exfalso. apply Hne.
  assert (E : d = e); [|by rewrite E].
  apply Hdist; [by apply (si_roms _ _ _ _ _ I)..|]. apply agree_u32, (agree_le k); [lia|].
  apply (si_agree _ _ _ _ _ I); [done|by apply (si_roms _ _ _ _ _ I)|done].
Qed.

Lemma scan_inv_step r0 k act rom cmask bit rom' cmask' : scan_inv r0 k act rom cmask -> 0 <= k < 64 ->
  (exists d, d ∈ act /\ Z.testbit d k = bit) ->
  (forall d e, d ∈ act -> e ∈ act -> Z.testbit d k <> Z.testbit e k -> bit = Z.testbit r0 k) ->
  rom' = (if bit then Z.lor rom (2 ^ k) else rom) ->
  cmask' = (if negb bit && existsb (fun d => Z.testbit d k) act then Z.lor cmask (2 ^ k) else cmask) ->
  scan_inv r0 (k + 1) (filter (fun d => Z.testbit d k = bit) act) rom' cmask'.
Proof.
  intros I Hk [x [Hx Hbit]] Hrule -> ->. 
  assert (Hbits : forall m (b : bool) j, 0 <= j -> Z.testbit (if b then Z.lor m (2 ^ k) else m) j = Z.testbit m j || (b && (j =? k))).
  { intros m b j Hj. destruct b; [|by rewrite orb_false_r]. rewrite Z.lor_spec, Z.pow2_bits_eqb by lia. by rewrite (Z.eqb_sym k). }
  constructor.
  - intros E. apply (not_elem_of_nil x). rewrite <-E. apply list_elem_of_filter. done.
  - intros d [_ Hd]%list_elem_of_filter. by apply (si_roms _ _ _ _ _ I).
  - intros d e [Ed Hd]%list_elem_of_filter He. rewrite list_elem_of_filter, agree_succ by lia.
    rewrite (si_agree _ _ _ _ _ I d e) by done. rewrite Ed. split; intros [? ?]; done.
  - intros d j [Ed Hd]%list_elem_of_filter Hj. rewrite Hbits by lia. destruct (Z.eqb_spec j k) as [->|Hne].
    + rewrite (si_high _ _ _ _ _ I), Ed by lia. destruct bit, (Z.testbit r0 k); done.
    + rewrite (si_low _ _ _ _ _ I d) by (done || lia). by rewrite andb_false_r, orb_false_r.
  - intros j Hj. destruct (decide (0 <= j)); [|by rewrite !Z.testbit_neg_r by lia].
    rewrite Hbits, (si_high _ _ _ _ _ I) by lia. destruct (Z.eqb_spec j k); [lia|]. by rewrite andb_false_r, orb_false_r.
  - intros d j [Ed Hd]%list_elem_of_filter Hj. rewrite Hbits by lia.
    rewrite orb_true_iff, (si_cmask _ _ _ _ _ I d) by done. rewrite andb_true_iff, Z.eqb_eq. split.
    + intros [[Hj' Hc]|[Hb ->]]; [split; [lia|done]|]. apply andb_true_iff in Hb as [Hb He].
      apply existsb_exists in He as (e & He%list_elem_of_In & Hek). split; [lia|]. split; [done|]. split; [by destruct bit|].
      exists e. split; [by apply (si_roms _ _ _ _ _ I)|]. split; [|done].
      apply (si_agree _ _ _ _ _ I); [done|by apply (si_roms _ _ _ _ _ I)|done].
    + intros [Hj' Hc]. destruct (decide (j = k)) as [->|]; [|left; split; [lia|done]]. right. split; [|done].
      destruct Hc as (_ & Hdk & e & He & Hag & Hek). rewrite andb_true_iff. split; [by rewrite <-Ed, Hdk|].
      apply existsb_exists. exists e. split; [|done]. apply list_elem_of_In. by apply (si_agree _ _ _ _ _ I d).
  - intros d e j [Ed Hd]%list_elem_of_filter Hj He Hag Hne. destruct (decide (j = k)) as [->|].
    + rewrite Ed. apply (Hrule d e); [done| |done]. by apply (si_agree _ _ _ _ _ I d).
    + apply (si_rule _ _ _ _ _ I d e); [done|lia|done..].
Qed.

(** One bit: what is read, what is chosen, and the devices that stay. *)
Lemma get_dibit_spec select act k w : w1_view w = Some (Search act k 0) -> act <> [] ->
  ensures (get_dibit select) w (fun b w' => exists bit,
    w1_view w' = Some (Search (filter (fun d => Z.testbit d k = bit) act) (k + 1) 0) /\
    ((b = (if bit then B_1 else B_0) /\ (forall d, d ∈ act -> Z.testbit d k = bit)) \/
     (b = B_BOTH /\ bit = truth select /\ (exists d, d ∈ act /\ Z.testbit d k = true) /\
      (exists d, d ∈ act /\ Z.testbit d k = false)))).
Proof.
  intros Hw Hne. unfold get_dibit. apply ensures_bind. eapply ensures_mono; [by apply (law_read w _ _ _ Hw eq_refl)|].
  cbn beta. intros a w1 [-> H1]. apply ensures_bind. eapply ensures_mono; [by apply (law_read w1 _ _ _ H1 eq_refl)|].
  cbn beta. intros b w2 [-> H2].
  assert (Hwrite : forall v, ensures (w1_write_bit v) w2 (fun _ w' =>
    w1_view w' = Some (Search (filter (fun d => Z.testbit d k = truth v) act) (k + 1) 0))).
  { intros v. by apply (law_write v w2 _ _ H2). }
  destruct (wired_and _) eqn:E1; destruct (wired_and ((fun d => negb _) <$> act)) eqn:E0; cbn [b2z].
  - exfalso. destruct act as [|x l]; [done|]. clear - E1 E0. cbn in E1, E0. by destruct (Z.testbit x k).
  - change (negb (1 =? 0)) with true. cbn iota. apply ensures_bind. eapply ensures_mono; [apply Hwrite|].
    cbn beta. intros _ w' Hw'. exists true. split; [exact Hw'|]. left. split; [done|].
    by apply wired_all.
  - change (negb (0 =? 1)) with true. cbn iota. apply ensures_bind. eapply ensures_mono; [apply Hwrite|].
    cbn beta. intros _ w' Hw'. exists false. split; [exact Hw'|]. left. split; [done|].
    intros d Hd. apply negb_true_iff. revert d Hd. by apply (wired_all (fun d => negb (Z.testbit d k))).
  - change (negb (0 =? 0)) with false. cbn iota. apply ensures_bind. eapply ensures_mono; [apply Hwrite|].
    cbn beta. intros _ w' Hw'. exists (truth select). split; [exact Hw'|]. right. split; [done|]. split; [done|].
    apply wired_some in E1 as (d & Hd & E1). apply wired_some in E0 as (e & He & E0).
    split; [exists e; split; [done|]; by apply negb_false_iff in E0|by exists d].
Qed.

(** What a scan that began with [r0] finds. *)
Record scanned (r0 d rom cmask : Z) : Prop := {
  sc_roms : d ∈ roms;
  sc_rom j : 0 <= j -> Z.testbit rom j = Z.testbit r0 j || Z.testbit d j;
  sc_cmask j : 0 <= j -> Z.testbit cmask j = true <-> conflict roms d j;
  sc_rule e j : 0 <= j < 64 -> e ∈ roms -> agree j d e -> Z.testbit d j <> Z.testbit e j -> Z.testbit d j = Z.testbit r0 j }.

Lemma rom_high d j : d ∈ roms -> 64 <= j -> Z.testbit d j = false.
Proof. intros Hd Hj. rewrite <-(Z.mod_small d (2 ^ 64)) by by apply Hroms. by apply Z.mod_pow2_bits_high. Qed.

Lemma scan_inv_end r0 act rom cmask : (forall j, 64 <= j -> Z.testbit r0 j = false) ->
  scan_inv r0 64 act rom cmask -> exists d, scanned r0 d rom cmask.
Proof.
  intros Hr0 I. destruct act as [|d act]; [by destruct (si_nonempty _ _ _ _ _ I)|]. exists d.
  assert (Hd : d ∈ d :: act) by left.
  pose proof (si_roms _ _ _ _ _ I d Hd) as Hdr. constructor; [done| | |].
  - intros j Hj. destruct (decide (j < 64)); [by apply (si_low _ _ _ _ _ I d); [|lia]|].
    rewrite (si_high _ _ _ _ _ I) by lia. rewrite (rom_high d) by (done || lia). by rewrite orb_false_r.
  - intros j Hj. rewrite (si_cmask _ _ _ _ _ I d) by done. split; [by intros [_ ?]|]. intros Hc. split; [apply Hc|done].
  - intros e j Hj He. by apply (si_rule _ _ _ _ _ I d e).
Qed.

Lemma existsb_mixed (f : Z -> bool) l d : d ∈ l -> f d = true -> existsb f l = true.
Proof. intros Hd Hf. apply existsb_exists. exists d. split; [by apply list_elem_of_In|done]. Qed.
Lemma existsb_none (f : Z -> bool) l : (forall d, d ∈ l -> f d = false) -> existsb f l = false.
Proof. intros H. apply not_true_is_false. intros (d & Hd & Hf)%existsb_exists. rewrite H in Hf; [done|by apply list_elem_of_In]. Qed.

Lemma scan_bits_spec r0 n : forall k act rom cmask w, Z.of_nat n = 65 - k -> 0 <= k <= 64 ->
  (forall j, 64 <= j -> Z.testbit r0 j = false) ->
  w1_view w = Some (Search act k 0) -> scan_inv r0 k act rom cmask ->
  ensures (scan_bits n (if k =? 64 then 0 else 2 ^ k) rom cmask) w (fun r w' => exists d, scanned r0 d r.1 r.2).
Proof.
  induction n as [|n IH]; intros k act rom cmask w Hn Hk Hr0 Hw I; [lia|]. cbn [scan_bits].
  destruct (Z.eqb_spec k 64) as [->|Hk'].
  { cbn [Z.eqb]. apply ensures_ret. by apply (scan_inv_end r0 act). }
  destruct (Z.eqb_spec (2 ^ k) 0); [pose proof (Z.pow_pos_nonneg 2 k); lia|].
  apply ensures_bind. eapply ensures_mono; [apply (get_dibit_spec _ act k); [done|by apply (si_nonempty _ _ _ _ _ I)]|].
  cbn beta. intros b w' (bit & Hw' & Hb). rewrite next_mask by lia.
  replace (if k =? 63 then 0 else 2 ^ (k + 1)) with (if k + 1 =? 64 then 0 else 2 ^ (k + 1))
    by (destruct (Z.eqb_spec k 63), (Z.eqb_spec (k + 1) 64); (done || lia)).
  eapply (IH (k + 1)); [lia|lia|done|exact Hw'|]. destruct Hb as [[-> Hall]|(-> & -> & (x & Hx & Ex) & (y & Hy & Ey))].
  - destruct act as [|x act]; [by destruct (si_nonempty _ _ _ _ _ I)|].
    apply (scan_inv_step r0 k _ rom cmask bit); [done|lia|exists x; split; [left|apply Hall; left]| | |].
    + intros d e Hd He. by rewrite (Hall d), (Hall e).
    + by destruct bit.
    + destruct bit; [done|]. by rewrite existsb_none.
  - assert (Hlow : k < 32) by (apply (conflict_low r0 k act rom cmask x y); [done|lia|done|done|by rewrite Ex, Ey]).
    assert (Hsel : truth (s32 (Z.land rom (2 ^ k))) = Z.testbit rom k) by (apply select_spec; lia).
    rewrite (si_high _ _ _ _ _ I) in Hsel by lia.
    apply (scan_inv_step r0 k _ rom cmask (truth (s32 (Z.land rom (2 ^ k))))); [done|lia| |by intros| |].
    + rewrite Hsel. destruct (Z.testbit r0 k); eauto.
    + change (B_BOTH =? B_1) with false. cbn iota. destruct (truth _) eqn:E; [|done].
      symmetry. apply Z.bits_inj'. intros j Hj. rewrite Z.lor_spec, Z.pow2_bits_eqb by lia.
      destruct (Z.eqb_spec k j) as [<-|]; [|by rewrite orb_false_r].
      by rewrite (si_high _ _ _ _ _ I), <-Hsel by lia.
    + change (B_BOTH =? B_BOTH) with true. rewrite (existsb_mixed _ act x) by done.
      unfold truth. rewrite negb_involutive, andb_true_r. done.
Qed.

Lemma write_search_rom w : w1_view w = Some (Command 0 0) ->
  ensures (w1_write_byte W1_CMD_SEARCH_ROM) w (fun _ w' => w1_view w' = Some (Search roms 0 0)).
Proof.
  intros Hw. unfold w1_write_byte. cbn [write_bits].
  repeat match goal with
  | |- ensures (if ?c then _ else _) _ _ => let v := eval vm_compute in c in change c with v; cbn iota
  | |- ensures (ret _) _ _ => apply ensures_ret; assumption
  | H : w1_view ?w = Some _ |- ensures (bind (w1_write_bit _) _) ?w _ =>
      apply ensures_bind; eapply ensures_mono; [eapply law_write; [exact H|vm_compute; reflexivity]|];
      cbn beta; clear H; intros _ ? ?
  end.
Qed.

Lemma w1_scan_one_spec r0 cm w : roms <> [] -> (forall j, 64 <= j -> Z.testbit r0 j = false) ->
  ensures (w1_scan_one r0 cm) w (fun r _ => r.1.1 = 0 /\ exists d, scanned r0 d r.1.2 r.2).
Proof.
  intros Hne Hr0. unfold w1_scan_one. apply ensures_bind. eapply ensures_mono; [apply law_reset|].
  cbn beta. intros r w1 [-> Hv]. rewrite bool_decide_false by done. cbn [negb Z.eqb Pos.eqb].
  apply ensures_bind. eapply ensures_mono; [by apply write_search_rom, Hv|]. cbn beta. intros _ w2 Hw2.
  apply ensures_bind. eapply ensures_mono.
  - apply (scan_bits_spec r0 65 0 roms r0 0); [lia|lia|done|done|by apply scan_inv_0].
  - intros [rom cmask] w3 Hsc. by apply ensures_ret.
Qed.
Lemma w1_scan_one_empty r0 cm w : roms = [] ->
  ensures (w1_scan_one r0 cm) w (fun r _ => r = (-1, r0, cm)).
Proof.
  intros Hne. unfold w1_scan_one. apply ensures_bind. eapply ensures_mono; [apply law_reset|].
  cbn beta. intros r w1 [-> _]. rewrite bool_decide_true by done. done.
Qed.

(** The code that is read is the code of the device. *)
Lemma scanned_rom r0 d rom cmask : scanned r0 d rom cmask ->
  (forall j, 0 <= j -> Z.testbit r0 j = true -> Z.testbit d j = true) -> rom = d.
Proof.
  intros Hs Hr. apply Z.bits_inj'. intros j Hj. rewrite (sc_rom _ _ _ _ Hs) by done.
  destruct (Z.testbit r0 j) eqn:E; [by rewrite Hr|done].
Qed.
(** Where a device that is found and another one differ first, it has the bit
    the scan began with. *)
Lemma scanned_differ r0 d rom cmask e : scanned r0 d rom cmask -> e ∈ roms ->
  e = d \/ exists j, 0 <= j < 64 /\ agree j d e /\ Z.testbit d j <> Z.testbit e j /\ Z.testbit d j = Z.testbit r0 j.
Proof.
  intros Hs He. pose proof (sc_roms _ _ _ _ Hs) as Hd. destruct (agree_or_differ 64 d e) as [H|(j & Hj & Ha & Hne)]; [lia| |].
  - left. symmetry. apply agree_64; auto.
  - right. exists j. split; [done|]. split; [done|]. split; [done|]. by apply (sc_rule _ _ _ _ Hs e).
Qed.
Lemma scan_first d rom cmask : scanned 0 d rom cmask ->
  rom = d /\ forall e, e ∈ roms -> e = d \/ w1_before d e.
Proof.
  intros Hs. split.
  - apply (scanned_rom 0 d rom cmask); [done|]. intros j _. by rewrite Z.bits_0.
  - intros e He. destruct (scanned_differ 0 d rom cmask e) as [?|(j & Hj & Ha & Hne & E)]; [done..|by left|].
    right. exists j. rewrite Z.bits_0 in E. rewrite E in *. split; [done|]. split; [done|]. split; [done|].
    by destruct (Z.testbit e j).
Qed.
Lemma scan_next prev p r0 d rom cmask : scanned r0 d rom cmask -> prev ∈ roms ->
  conflict roms prev p -> (forall j, p < j -> ~ conflict roms prev j) ->
  (forall j, 0 <= j -> Z.testbit r0 j = if j <? p then Z.testbit prev j else j =? p) ->
  rom = d /\ w1_before prev d /\ forall e, e ∈ roms -> w1_before prev e -> e = d \/ w1_before d e.
Proof.
  intros Hs Hprev (Hp & Ep & x & Hx & Hagx & Exp) Hmax Hr0.
  assert (Hxr : forall j, 0 <= j <= p -> Z.testbit x j = Z.testbit r0 j).
  { intros j Hj. rewrite Hr0 by lia. destruct (Z.ltb_spec j p); [symmetry; apply Hagx; lia|].
    replace j with p by lia. by rewrite Z.eqb_refl. }
  assert (Hdr : forall j, 0 <= j <= p -> Z.testbit d j = Z.testbit r0 j).
  { intros j Hj. destruct (agree_or_differ (p + 1) d x) as [H|(l & Hl & Ha & Hne)]; [lia| |].
    - rewrite H by lia. by apply Hxr.
    - exfalso. apply Hne. rewrite (sc_rule _ _ _ _ Hs x l) by (done || lia). symmetry. apply Hxr. lia. }
  assert (Hdp : Z.testbit d p = true) by (rewrite Hdr, Hr0, Z.ltb_irrefl by lia; apply Z.eqb_refl).
  assert (Hag : agree p prev d).
  { intros j Hj. rewrite Hdr, Hr0 by lia. destruct (Z.ltb_spec j p); [done|lia]. }
  split; [|split].
  - apply (scanned_rom r0 d rom cmask); [done|]. intros j Hj E. destruct (Z_le_gt_dec j p); [by rewrite Hdr by lia|].
    exfalso. rewrite Hr0 in E by lia. destruct (Z.ltb_spec j p); [lia|]. by apply Z.eqb_eq in E; lia.
  - by exists p.
  - intros e He (q & Hq & Hagq & Epq & Eeq).
    assert (Hqp : q <= p). { destruct (decide (q <= p)); [done|]. exfalso. apply (Hmax q); [lia|]. split; [done|]. split; [done|]. by exists e. }
    destruct (decide (q = p)) as [->|Hne].
    + destruct (scanned_differ r0 d rom cmask e) as [?|(j & Hj & Ha & Hne & E)]; [done..|by left|]. right.
      assert (Hpj : p < j).
      { destruct (decide (p < j)); [done|]. exfalso. apply Hne. destruct (decide (j = p)) as [->|]; [by rewrite Hdp, Eeq|].
        rewrite <-Hag by lia. apply Hagq. lia. }
      rewrite Hr0 in E by lia. destruct (Z.ltb_spec j p); [lia|]. destruct (Z.eqb_spec j p); [lia|].
      exists j. rewrite E in *. split; [done|]. split; [done|]. split; [done|]. by destruct (Z.testbit e j).
    + right. exists q. split; [done|]. split.
      * apply (agree_trans q d prev); [apply agree_sym, (agree_le p); [lia|done]|done].
      * split; [|done]. by rewrite <-Hag by lia.
Qed.

(** The devices [l] that were found so far, and the conflicts of the last one. *)
Record found_inv (l : list Z) (cmask : Z) : Prop := {
  fi_roms d : d ∈ l -> d ∈ roms;
  fi_sorted : StronglySorted w1_before l;
  fi_first d e : d ∈ roms -> e ∈ l -> d ∈ l \/ w1_before e d;
  fi_cmask prev : last l = Some prev -> forall j, 0 <= j -> Z.testbit cmask j = true <-> conflict roms prev j }.

Lemma found_nil cmask : found_inv [] cmask.
Proof. constructor; [by intros d ?%elem_of_nil|constructor|by intros d e _ ?%elem_of_nil|done]. Qed.

Lemma found_one d rom cmask : scanned 0 d rom cmask -> rom = d /\ found_inv [d] cmask.
Proof.
  intros Hs. destruct (scan_first d rom cmask Hs) as [-> H]. split; [done|]. constructor.
  - intros e ->%list_elem_of_singleton. apply (sc_roms _ _ _ _ Hs).
  - by repeat constructor.
  - intros e f He ->%list_elem_of_singleton. rewrite list_elem_of_singleton. by apply H.
  - intros prev [= <-]. apply (sc_cmask _ _ _ _ Hs).
Qed.

Lemma found_snoc l prev cmask0 p r0 d rom cmask : found_inv (l ++ [prev]) cmask0 -> scanned r0 d rom cmask ->
  conflict roms prev p -> (forall j, p < j -> ~ conflict roms prev j) ->
  (forall j, 0 <= j -> Z.testbit r0 j = if j <? p then Z.testbit prev j else j =? p) ->
  rom = d /\ found_inv ((l ++ [prev]) ++ [d]) cmask.
Proof.
  intros I Hs Hc Hmax Hr0. assert (Hin : prev ∈ l ++ [prev]) by set_solver.
  pose proof (fi_roms _ _ I prev Hin) as Hprev.
  destruct (scan_next prev p r0 d rom cmask) as (-> & Hb & Hnext); [done..|]. split; [done|].
  assert (Hall : forall y, y ∈ l ++ [prev] -> w1_before y d).
  { intros y [Hy| ->%list_elem_of_singleton]%elem_of_app; [|done]. apply (w1_before_trans y prev); [|done].
    apply (proj1 (StronglySorted_app w1_before l [prev]) (fi_sorted _ _ I)); [done|set_solver]. }
  constructor.
  - intros e [He| ->%list_elem_of_singleton]%elem_of_app; [by apply (fi_roms _ _ I)|apply (sc_roms _ _ _ _ Hs)].
  - apply StronglySorted_app. split; [|split; [apply (fi_sorted _ _ I)|by repeat constructor]].
    intros x y Hx ->%list_elem_of_singleton. by apply Hall.
  - intros e f He Hf. rewrite elem_of_app, list_elem_of_singleton.
    destruct (fi_first _ _ I e prev He Hin) as [?|Hpe]; [by left; left|].
    destruct (Hnext e He Hpe) as [->|Hde]; [by left; right|].
    right. apply elem_of_app in Hf as [Hf| ->%list_elem_of_singleton]; [|done].
    by apply (w1_before_trans f d); [apply Hall|].
  - intros e. rewrite last_snoc. intros [= <-]. apply (sc_cmask _ _ _ _ Hs).
Qed.

Lemma found_all l prev cmask : found_inv (l ++ [prev]) cmask -> (forall j, 0 <= j < 64 -> Z.testbit cmask j = false) ->
  forall d, d ∈ roms -> d ∈ l ++ [prev].
Proof.
  intros I Hc d Hd. destruct (fi_first _ _ I d prev Hd) as [?|(k & Hk & Ha & Ep & Ed)]; [set_solver|done|]. exfalso.
  enough (Z.testbit cmask k = true) by (rewrite Hc in *; done). apply (fi_cmask _ _ I prev); [apply last_snoc|lia|].
  split; [done|]. split; [done|]. by exists d.
Qed.

(** What a search of the bus leaves: the devices that are found are in the
    slots, in their order; the others come behind them. *)
Definition search_result (r : list Z * Z) : Prop := exists l,
  length r.1 = W1_MAX_DEVICES /\ take (length l) r.1 = l /\ r.2 = Z.of_nat (length l) /\
  StronglySorted w1_before l /\ (forall d, d ∈ l -> d ∈ roms) /\
  (forall d, d ∈ roms -> d ∈ l \/ length l = W1_MAX_DEVICES /\ forall e, e ∈ l -> w1_before e d).

Lemma scan_loop_spec n : forall l devs cmask w, (n + length l = 8)%nat -> length devs = 8%nat ->
  take (length l) devs = l -> found_inv l cmask -> (l = [] -> aget 0 devs 0 = 0) ->
  ensures (scan_loop n (Z.of_nat (length l)) devs cmask) w (fun r _ => search_result r).
Proof.
  induction n as [|n IH]; intros l devs cmask w Hn Hlen Htake I H0; cbn [scan_loop].
  { apply ensures_ret. exists l. split; [done|]. split; [done|]. split; [done|]. split; [apply I|]. split; [apply I|].
    intros d Hd. destruct (decide (d ∈ l)); [by left|]. right. split; [unfold W1_MAX_DEVICES; lia|]. intros e He.
    by destruct (fi_first _ _ I d e Hd He). }
  assert (Hnext : forall d rom cm w, rom = d /\ found_inv (l ++ [d]) cm ->
    ensures (scan_loop n (Z.of_nat (length l) + 1) (aset devs (Z.of_nat (length l)) rom) cm) w (fun r _ => search_result r)).
  { intros d rom cm w' [-> I']. replace (Z.of_nat (length l) + 1) with (Z.of_nat (length (l ++ [d]))) by (rewrite length_app; cbn; lia).
    apply IH; [rewrite length_app; cbn; lia|by rewrite length_aset| |done|by destruct l].
    rewrite length_app. cbn. by apply take_aset_snoc; [|lia]. }
  destruct (rev_case l) as [->|(l0 & prev & ->)].
  - cbn [length]. change (Z.of_nat 0) with 0. rewrite truth_0. cbn iota zeta. rewrite H0 by done.
    destruct (decide (roms = [])) as [He|Hne].
    + apply ensures_bind. eapply ensures_mono; [by apply w1_scan_one_empty|]. cbn beta. intros r w1 ->. cbn iota beta.
      change (truth (-1)) with true. cbn iota. apply ensures_ret. exists []. split; [cbn [fst]; by rewrite length_aset|]. split; [done|].
      split; [done|]. split; [constructor|]. split; [by intros d ?%elem_of_nil|]. rewrite He. by intros d ?%elem_of_nil.
    + apply ensures_bind. eapply ensures_mono; [apply w1_scan_one_spec; [done|intros; apply Z.bits_0]|].
      cbn beta. intros [[err rom] cm] w1 [Herr [d Hs]]. cbn in Herr, Hs |- *. subst err. rewrite truth_0.
      by apply (Hnext d), found_one.
  - set (i := Z.of_nat (length (l0 ++ [prev]))) in *.
    assert (Hi : i = Z.of_nat (length l0) + 1) by (subst i; rewrite length_app; cbn; lia).
    replace (truth i) with true by (unfold truth; destruct (Z.eqb_spec i 0); [lia|done]).
    replace (aget 0 devs (i - 1)) with prev.
    2:{ rewrite Hi. replace (Z.of_nat (length l0) + 1 - 1) with (Z.of_nat (length l0)) by lia. symmetry.
        rewrite <-(take_drop (length (l0 ++ [prev])) devs), Htake, <-app_assoc. cbn. by apply aget_at. }
    pose proof (conflict_loop_spec 65 63 cmask prev ltac:(lia) ltac:(lia)) as Hc.
    change (if 63 =? -1 then 0 else 2 ^ 63) with (2 ^ 63) in Hc.
    destruct (conflict_loop 65 (2 ^ 63) cmask prev) as [mask rom].
    destruct Hc as [[-> Hz]|(p & Hp & -> & Ep & Hz & Hr)].
    + cbn [Z.eqb]. apply ensures_ret. exists (l0 ++ [prev]). split; [cbn [fst]; by rewrite length_aset|]. split; [|].
      { cbn [fst]. rewrite take_aset_ge by (subst i; lia). done. }
      split; [done|]. split; [apply I|]. split; [apply I|]. intros d Hd. left. apply (found_all _ _ cmask); [done|..|done].
      intros j Hj. apply Hz. lia.
    + pose proof (Z.pow_pos_nonneg 2 p). destruct (Z.eqb_spec (2 ^ p) 0); [lia|].
      pose proof (proj1 (fi_cmask _ _ I prev (last_snoc _ _) p ltac:(lia)) Ep) as Hconf.
      assert (Hmax : forall j, p < j -> ~ conflict roms prev j).
      { intros j Hj Hcj. pose proof (proj1 Hcj). rewrite <-(fi_cmask _ _ I prev (last_snoc _ _) j) in Hcj by lia.
        rewrite Hz in Hcj by lia. done. }
      assert (Hprev : prev ∈ roms) by (apply (fi_roms _ _ I); set_solver).
      assert (Hr0 : forall j, 0 <= j -> Z.testbit (Z.lor rom (2 ^ p)) j = if j <? p then Z.testbit prev j else j =? p).
      { intros j Hj. rewrite Z.lor_spec, Hr, Z.pow2_bits_eqb by lia.
        destruct (decide (j < 64)); [|rewrite (rom_high prev j) by (done || lia)];
        destruct (Z.ltb_spec j p), (Z.ltb_spec p j), (Z.leb_spec j 63), (Z.eqb_spec p j), (Z.eqb_spec j p);
          cbn; rewrite ?andb_true_r, ?andb_false_r, ?orb_false_r, ?orb_true_r; (done || lia). }
      apply ensures_bind. eapply ensures_mono.
      * apply w1_scan_one_spec; [intros E; rewrite E in Hprev; by apply elem_of_nil in Hprev|].
        intros j Hj. rewrite Hr0 by lia. destruct (Z.ltb_spec j p); [lia|]. apply Z.eqb_neq. lia.
      * cbn beta. intros [[err rom'] cm] w1 [Herr [d Hs]]. cbn in Herr, Hs |- *. subst err. rewrite truth_0.
        apply (Hnext d). by eapply found_snoc.
Qed.

End search.

(** The search finds the devices, on any bus that follows the protocol. *)
Lemma w1_scan_finds_devices {W : Type} `{!W1Bus W} (roms : list Z) `{!W1Laws W roms} (devs : list Z) w :
  (forall d, d ∈ roms -> 0 <= d < 2 ^ 64) ->
  (forall d e, d ∈ roms -> e ∈ roms -> u32 d = u32 e -> d = e) ->
  length devs = W1_MAX_DEVICES -> aget 0 devs 0 = 0 ->
  ensures (w1_scan_bus devs) w (fun r _ => search_result roms r).
Proof.
  intros Hroms Hdist Hlen H0. unfold w1_scan_bus.
  by apply (scan_loop_spec roms Hroms Hdist W1_MAX_DEVICES [] devs 0); [..|apply found_nil|].
Qed.

Definition w1_demo_roms : list Z := [40 + 256 * 1000; 67 + 256 * 3; 40 + 256 * 1001; 16].
Lemma w1_demo_range : Forall (fun d => 0 <= d < 2 ^ 64) w1_demo_roms.
Proof. repeat constructor; vm_compute; congruence. Qed.
Lemma w1_demo_distinct : Forall (fun d => Forall (fun e => u32 d = u32 e -> d = e) w1_demo_roms) w1_demo_roms.
Proof. repeat constructor; vm_compute; congruence. Qed.

(** A code that two devices share up to bit 31 is followed with 0 at every later
    conflict, while the search takes the bit for answered. *)
Theorem select_truncated rom k : 32 <= k -> s32 (Z.land rom (2 ^ k)) = 0.
Proof.
  intros Hk. rewrite land_pow2 by lia. destruct (Z.testbit rom k); [|done]. replace k with (32 + (k - 32)) by lia.
  rewrite Z.pow_add_r by lia. change (2 ^ 32) with 4294967296. pose proof (s32_add_mult 0 (2 ^ (k - 32))) as E.
  by rewrite Z.add_0_l in E.
Qed.
(** Four devices. *)
Example scan_demo : let roms := [40 + 256 * 1000; 67 + 256 * 3; 40 + 256 * 1001; 16] in
  (w1_scan_bus (W1Bus0 := w1_sim_bus roms) (replicate 8 0) None).1 =
  ([16; 40 + 256 * 1000; 40 + 256 * 1001; 67 + 256 * 3; 0; 0; 0; 0], 4).
Proof. vm_compute. reflexivity. Qed.
(** Two devices that differ above bit 31 only. *)
Example scan_flaw : let roms := [40; 40 + 2 ^ 40 + 2 ^ 41] in
  (w1_scan_bus (W1Bus0 := w1_sim_bus roms) (replicate 8 0) None).1 =
  (40 :: replicate 7 (40 + 2 ^ 40), 8).
Proof. vm_compute. reflexivity. Qed.
