(* ===== verification/W1Temp.v ===== *)
(** dev/w1-temp.c: the temperature a 1-Wire sensor measures. *)
From Stdlib Require Import ZArith Lia.
From stdpp Require Import base numbers option list.
From S2P Require Import Prelude.
From S2P Require Import W1.

(** ** Reading a sensor

    The result is in 1/65536 of a degree. *)
Definition W1_CMDT_CONVERT : Z := 68.
Definition W1_CMDT_R_SPAD : Z := 180.
Definition W1_FLAG_NOWAIT : Z := 1.
Definition W1_FLAG_COLLECT : Z := 2.
(** [1 << 31]. *)
Definition no_temp : Z := - 2147483648.
Definition temp_class (class : Z) : bool := (class =? 16) || (class =? 40) || (class =? 66).
Definition scratch_temp (class : Z) (scratchpad : list Z) : Z :=
  let cval := s16 (Z.lor (aget 0 scratchpad 1 << 8)%int (aget 0 scratchpad 0)) in
  if class =? 16 then Z.lor ((cval << 15)%int - 16384) (aget 0 scratchpad 6 << 12)%int
  else if (class =? 40) || (class =? 66) then (cval << 12)%int else 0.

Section temp.
Context {W : Type} `{!W1Bus W}.
(** [while (w1_read_bit(dev->bus) == 0) ;]: [None] when the fuel runs out. *)
Fixpoint wait_convert (fuel : nat) : M W (option unit) :=
  match fuel with
  | O => ret None
  | S fuel => let! b := w1_read_bit in if b =? 0 then wait_convert fuel else ret (Some tt)
  end.
Fixpoint read_scratchpad (n : nat) : M W (list Z) :=
  match n with
  | O => ret []
  | S n => let! b := w1_read_byte in let! l := read_scratchpad n in ret ((b mod 256) :: l)
  end.
Definition collect_temp (rom : Z) : M W Z :=
  w1_match_rom rom ;!
  w1_write_byte W1_CMDT_R_SPAD ;!
  let! scratchpad := read_scratchpad 8 in
  ret (scratch_temp (w1_class rom) scratchpad).
Definition w1_read_temp (fuel : nat) (rom flags : Z) : M W (option Z) :=
  if negb (temp_class (w1_class rom)) then ret (Some no_temp)
  else if truth (Z.land flags W1_FLAG_COLLECT) then let! t := collect_temp rom in ret (Some t)
  else
    w1_match_rom rom ;!
    w1_write_byte W1_CMDT_CONVERT ;!
    if truth (Z.land flags W1_FLAG_NOWAIT) then ret (Some 0)
    else
      let! r := wait_convert fuel in
      match r with None => ret None | Some _ => let! t := collect_temp rom in ret (Some t) end.
(** The first device of a class that measures the temperature. *)
Fixpoint read_temp_devs (fuel : nat) (devs : list Z) (flags : Z) : M W (option Z) :=
  match devs with
  | [] => ret (Some no_temp)
  | d :: devs => if temp_class (w1_class d) then w1_read_temp fuel d flags else read_temp_devs fuel devs flags
  end.
Definition w1_read_temp_bus (fuel : nat) (devs : list Z) (flags : Z) : M W (option Z) :=
  read_temp_devs fuel (take W1_MAX_DEVICES devs) flags.
End temp.

(** The 18B20 and the 28EA00 give sixteenths of a degree, as a signed 16-bit
    number, low byte first. *)
Theorem scratch_temp_18b20 class lo hi rest : class = 40 \/ class = 66 -> is_byte lo -> is_byte hi ->
  scratch_temp class (lo :: hi :: rest) = s16 (256 * hi + lo) * 4096.
Proof.
  intros Hc Hlo Hhi. unfold is_byte in *.
  assert (E : Z.lor (hi << 8)%int lo = 256 * hi + lo).
  { unfold_ops. rewrite s32_small by (rewrite Z.shiftl_mul_pow2 by lia; inrange).
    rewrite Z.lor_comm, lor_shiftl by lia. lia. }
  change (scratch_temp class (lo :: hi :: rest)) with
    (let cval := s16 (Z.lor (hi << 8)%int lo) in
     if class =? 16 then Z.lor ((cval << 15)%int - 16384) (aget 0 (lo :: hi :: rest) 6 << 12)%int
     else if (class =? 40) || (class =? 66) then (cval << 12)%int else 0).
  cbn zeta. rewrite E. assert (Hs : (s16 (256 * hi + lo) << 12)%int = s16 (256 * hi + lo) * 4096).
  { unfold_ops. rewrite Z.shiftl_mul_pow2 by lia. apply s32_small. unfold is_s32, s16.
    pose proof (Z.mod_pos_bound (256 * hi + lo + 32768) 65536). lia. }
  destruct Hc as [-> | ->]; exact Hs.
Qed.
(** The 18S20: the count is not added but or-ed into a number with bits 14 and
    15 already set, so counts 3, 7, 11 and 15 give the same temperature. *)
Theorem scratch_temp_18s20_count lo : 0 <= lo < 128 -> Z.testbit lo 0 = false ->
  forall c, 0 <= c < 16 -> scratch_temp 16 [lo; 0; 0; 0; 0; 0; c; 16] = lo * 32768 - 16384 + c mod 4 * 4096.
Proof.
  intros Hlo Heven c Hc.
  assert (H : forallb (fun lo => Z.testbit lo 0 || forallb (fun c =>
    scratch_temp 16 [lo; 0; 0; 0; 0; 0; c; 16] =? lo * 32768 - 16384 + c mod 4 * 4096) (range 16)) (range 128) = true)
    by (vm_compute; reflexivity).
  rewrite forallb_forall in H. specialize (H lo). rewrite Heven, orb_false_l, forallb_forall in H.
  apply Z.eqb_eq, H; apply list_elem_of_In, elem_of_range; lia.
Qed.
