(* ===== verification/W1Hw.v ===== *)
(** dev/w1-hw.c: the 1-Wire master of the FPGA as a driver of the bus. *)
From Stdlib Require Import ZArith Lia.
From stdpp Require Import base numbers option list.
From S2P Require Import Prelude W1.

(** ** Registers (include/hw/sockit_owm_regs.h) *)
Definition SOCKIT_OWM_CTL_DAT_MSK : Z := 1.
Definition SOCKIT_OWM_CTL_RST_MSK : Z := 2.
Definition SOCKIT_OWM_CTL_CYC_MSK : Z := 8.
Definition SOCKIT_OWM_CTL_SEL_OFST : Z := 8.
Definition SOCKIT_OWM_CDR_N_MSK : Z := 65535.
Definition SOCKIT_OWM_CDR_O_MSK : Z := 4294901760.
Definition SOCKIT_OWM_CDR_O_OFST : Z := 16.
Definition ONEWIRE_PORT : Z := 0.

(** The accesses to the two registers at [BASE_ONEWIRE], and [usleep]. *)
Class OwmHW (W : Type) := {
  iord_ctl : M W Z; iowr_ctl : Z -> M W unit; iowr_cdr : Z -> M W unit; owm_usleep : Z -> M W unit }.

Section driver.
Context {W : Type} `{!OwmHW W}.
(** The busy-wait loop; a loop that ran out of fuel gives 0. *)
Fixpoint wait_cycle (fuel : nat) : M W Z :=
  match fuel with
  | O => ret 0
  | S fuel => let! reg := iord_ctl in let reg := u32 reg in
      if truth (Z.land reg SOCKIT_OWM_CTL_CYC_MSK) then wait_cycle fuel else ret reg
  end.
Definition hw_reset (fuel : nat) : M W Z :=
  iowr_ctl (Z.lor (Z.lor (ONEWIRE_PORT << SOCKIT_OWM_CTL_SEL_OFST)%int SOCKIT_OWM_CTL_CYC_MSK) SOCKIT_OWM_CTL_RST_MSK) ;!
  let! reg := wait_cycle fuel in ret (if truth (Z.land reg SOCKIT_OWM_CTL_DAT_MSK) then 0 else 1).
Definition hw_read_bit (fuel : nat) : M W Z :=
  iowr_ctl (Z.lor (Z.lor (ONEWIRE_PORT << SOCKIT_OWM_CTL_SEL_OFST)%int SOCKIT_OWM_CTL_CYC_MSK) SOCKIT_OWM_CTL_DAT_MSK) ;!
  let! reg := wait_cycle fuel in ret (if truth (Z.land reg SOCKIT_OWM_CTL_DAT_MSK) then 1 else 0).
Definition hw_write_bit (fuel : nat) (bit : Z) : M W unit :=
  iowr_ctl (Z.lor (Z.lor (ONEWIRE_PORT << SOCKIT_OWM_CTL_SEL_OFST)%int SOCKIT_OWM_CTL_CYC_MSK)
    (if truth bit then SOCKIT_OWM_CTL_DAT_MSK else 0)) ;!
  let! _ := wait_cycle fuel in ret tt.
(** [CPU_CLOCK] is an [unsigned long long]. *)
Definition CLK_DIV_NOR (CPU_CLOCK : Z) : Z := u64 (CPU_CLOCK / 200000 - 1).
Definition CLK_DIV_OVD (CPU_CLOCK : Z) : Z := u64 (CPU_CLOCK / 1000000 - 1).
Definition w1_init (CPU_CLOCK : Z) : M W unit :=
  iowr_cdr (s32 (Z.lor (Z.land (CLK_DIV_NOR CPU_CLOCK) SOCKIT_OWM_CDR_N_MSK)
    (Z.land (u64 (Z.shiftl (CLK_DIV_OVD CPU_CLOCK) SOCKIT_OWM_CDR_O_OFST)) SOCKIT_OWM_CDR_O_MSK))).

(** The driver of the bus. *)
Definition w1_hw (fuel : nat) : W1Bus W := {|
  w1_reset := hw_reset fuel; w1_read_bit := hw_read_bit fuel; w1_write_bit := hw_write_bit fuel; w1_usleep := owm_usleep |}.
(** [wrc_w1_init] of dev/w1.c; it is void in C, and the number of devices that
    [w1_scan_bus] returns is kept for the specification. *)
Definition wrc_w1_init (fuel : nat) (CPU_CLOCK : Z) (devs : list Z) : M W (list Z * Z) :=
  w1_init CPU_CLOCK ;! w1_scan_bus (W1Bus0 := w1_hw fuel) devs.
End driver.

(** ** The master

    A time slot: the master pulls the line low, and releases it early for a 1.
    A slot with a 1 is also what a device answers in, so a device that has a
    bit to send takes it for a read. *)
Definition slot (roms : list Z) (p : w1_phase) (bit : bool) : option (bool * w1_phase) :=
  match phase_read p with
  | Some r => if bit then Some r else None
  | None => (fun p' => (bit, p')) <$> phase_write roms p bit
  end.
(** A write with CYC set starts a slot, or with RST a reset; CYC reads as 1 for
    at most [busy] reads, then DAT is the level of the line. *)
Class OwmLaws (W : Type) `{!OwmHW W} (roms : list Z) (busy : nat) := {
  owm_busy : W -> nat; owm_dat : W -> bool; owm_phase : W -> option w1_phase;
  owm_law_reset w : ensures (iowr_ctl 10) w (fun _ w' =>
    (owm_busy w' <= busy)%nat /\ owm_dat w' = bool_decide (roms = []) /\ (roms <> [] -> owm_phase w' = Some (Command 0 0)));
  owm_law_slot bit w p d p' : owm_phase w = Some p -> slot roms p bit = Some (d, p') ->
    ensures (iowr_ctl (8 + b2z bit)) w (fun _ w' =>
      (owm_busy w' <= busy)%nat /\ owm_dat w' = d /\ owm_phase w' = Some p');
  owm_law_read w : ensures iord_ctl w (fun r w' =>
    owm_dat w' = owm_dat w /\ owm_phase w' = owm_phase w /\ owm_busy w' = Nat.pred (owm_busy w) /\
    Z.testbit r 3 = negb (owm_busy w =? 0)%nat /\ (owm_busy w = 0%nat -> Z.testbit r 0 = owm_dat w)) }.

(** A simulated master: every slot takes three reads. *)
Record owm_sim := mk_owm { os_busy : nat; os_dat : bool; os_phase : option w1_phase }.
#[export] Instance owm_sim_hw (roms : list Z) : OwmHW owm_sim := {
  iord_ctl w := (if (os_busy w =? 0)%nat then b2z (os_dat w) else 8, mk_owm (Nat.pred (os_busy w)) (os_dat w) (os_phase w));
  iowr_ctl v w :=
    if truth (Z.land v 2) then (tt, mk_owm 3 (bool_decide (roms = [])) (Some (Command 0 0)))
    else match (os_phase w) ≫= (fun p => slot roms p (truth (Z.land v 1))) with
         | Some (d, p) => (tt, mk_owm 3 d (Some p))
         | None => (tt, mk_owm 3 true None)
         end;
  iowr_cdr _ w := (tt, w); owm_usleep _ w := (tt, w) }.
#[export] Instance owm_sim_laws (roms : list Z) : @OwmLaws _ (owm_sim_hw roms) roms 3.
Proof.
  refine {| owm_busy := os_busy; owm_dat := os_dat; owm_phase := os_phase |}.
  - intros w. done.
  - intros bit w p d p' Hp Hs. unfold ensures. destruct w as [b dt ph]. cbn in Hp. subst ph.
    cbn -[slot Z.land].
    replace (truth (Z.land (8 + b2z bit) 2)) with false by (by destruct bit).
    replace (truth (Z.land (8 + b2z bit) 1)) with bit by (by destruct bit). by rewrite Hs.
  - intros [[|b] d p]; unfold ensures; cbn; [|done]. split; [done|]. split; [done|]. split; [done|].
    by destruct d.
Defined.

(** ** The driver implements the bus *)
Section driver_laws.
Context {W : Type} `{!OwmHW W} (roms : list Z) (busy fuel : nat) `{!OwmLaws W roms busy}.

Lemma wait_cycle_spec w : (owm_busy w < fuel)%nat -> ensures (wait_cycle fuel) w (fun r w' =>
  truth (Z.land r SOCKIT_OWM_CTL_DAT_MSK) = owm_dat w /\ owm_phase w' = owm_phase w).
Proof.
  revert w. induction fuel as [|f IH]; intros w Hf; [lia|]. cbn [wait_cycle].
  apply ensures_bind. eapply ensures_mono; [apply owm_law_read|]. cbn beta zeta.
  intros r w1 (Hd & Hp & Hb & Hc & Hdat).
  assert (Hbit : forall k, 0 <= k < 32 -> truth (Z.land (u32 r) (2 ^ k)) = Z.testbit r k).
  { intros k Hk. rewrite land_pow2 by lia. unfold u32. change 4294967296 with (2 ^ 32). rewrite Z.mod_pow2_bits_low by lia.
    destruct (Z.testbit r k); [|done]. unfold truth. pose proof (Z.pow_pos_nonneg 2 k). destruct (Z.eqb_spec (2 ^ k) 0); [lia|done]. }
  change SOCKIT_OWM_CTL_CYC_MSK with (2 ^ 3). rewrite Hbit, Hc by lia. destruct (owm_busy w) as [|b] eqn:Eb; cbn [negb Nat.eqb].
  - apply ensures_ret. change SOCKIT_OWM_CTL_DAT_MSK with (2 ^ 0). rewrite Hbit by lia. split; [by apply Hdat|done].
  - eapply ensures_mono; [apply IH; cbn in Hb; lia|]. cbn beta. rewrite Hd, Hp. done.
Qed.
Context (Hfuel : (busy < fuel)%nat).

#[local] Instance w1_hw_laws : @W1Laws W (w1_hw fuel) roms.
Proof using Hfuel OwmLaws0.
  refine (@Build_W1Laws W (w1_hw fuel) roms owm_phase _ _ _).
  - intros w. cbn. unfold hw_reset. apply ensures_bind. eapply ensures_mono; [apply owm_law_reset|]. cbn beta.
    intros _ w1 (Hb & Hd & Hp). apply ensures_bind. eapply ensures_mono; [apply wait_cycle_spec; lia|]. cbn beta.
    intros reg w2 [Hr Hp2]. apply ensures_ret. rewrite Hr, Hd. split; [by case_bool_decide|]. by rewrite Hp2.
  - intros b w p p' Hw Hp. cbn. unfold hw_write_bit.
    replace (Z.lor _ (if truth b then SOCKIT_OWM_CTL_DAT_MSK else 0)) with (8 + b2z (truth b)) by (by destruct (truth b)).
    apply ensures_bind.
    eapply ensures_mono; [apply (owm_law_slot (truth b) w p (truth b) p' Hw)|].
    { unfold slot. destruct (phase_read p) as [r|] eqn:Er; [|by rewrite Hp].
      exfalso. destruct p as [n c|act k step]; [done|]. cbn in Er, Hp. destruct (step =? 2) eqn:E2; [|done].
      apply Z.eqb_eq in E2. by subst step. }
    cbn beta. intros _ w1 (Hb & _ & Hp1). apply ensures_bind. eapply ensures_mono; [apply wait_cycle_spec; lia|]. cbn beta.
    intros reg w2 [_ Hp2]. apply ensures_ret. by rewrite Hp2.
  - intros w p bit p' Hw Hp. cbn. unfold hw_read_bit. apply ensures_bind.
    eapply ensures_mono; [apply (owm_law_slot true w p bit p' Hw)|].
    { unfold slot. by rewrite Hp. }
    cbn beta. intros _ w1 (Hb & Hd & Hp1). apply ensures_bind. eapply ensures_mono; [apply wait_cycle_spec; lia|]. cbn beta.
    intros reg w2 [Hr Hp2]. apply ensures_ret. rewrite Hr, Hd, Hp2. by destruct bit.
Defined.

Lemma scan_on_hw devs w :
  (forall d, d ∈ roms -> 0 <= d < 2 ^ 64) ->
  (forall d e, d ∈ roms -> e ∈ roms -> u32 d = u32 e -> d = e) ->
  length devs = W1_MAX_DEVICES -> aget 0 devs 0 = 0 ->
  ensures (w1_scan_bus (W1Bus0 := w1_hw fuel) devs) w (fun r _ => search_result roms r).
Proof using Hfuel OwmLaws0. intros. by apply (w1_scan_finds_devices (W1Bus0 := w1_hw fuel) roms devs w). Qed.
End driver_laws.

(** C33. The 1-Wire bus is searched at start-up: with any number of devices, whose
    ROM codes differ in their low 32 bits, behind a master that ends a slot
    after at most [busy] polls, [wrc_w1_init] leaves in the slots the first
    eight devices in the order of the search (all of them when there are no
    more), each once and in that order, and finds as many; none when no
    device answers. *)
Theorem w1_init_finds_devices {W : Type} `{!OwmHW W} (roms : list Z) (busy fuel : nat) `{!OwmLaws W roms busy}
    (CPU_CLOCK : Z) (devs : list Z) w :
  (busy < fuel)%nat ->
  (forall d, d ∈ roms -> 0 <= d < 2 ^ 64) ->
  (forall d e, d ∈ roms -> e ∈ roms -> u32 d = u32 e -> d = e) ->
  length devs = W1_MAX_DEVICES -> aget 0 devs 0 = 0 ->
  ensures (wrc_w1_init fuel CPU_CLOCK devs) w (fun r _ => search_result roms r).
Proof.
  intros Hf Hr Hd Hl H0. unfold wrc_w1_init. apply ensures_skip. intros _ w1. by apply (scan_on_hw roms busy fuel).
Qed.

Lemma w1_init_finds_devices_witness :
  ensures (wrc_w1_init (OwmHW0 := owm_sim_hw w1_demo_roms) 4 62500000 (replicate 8 0)) (mk_owm 0 true None)
    (fun r _ => search_result w1_demo_roms r).
Proof.
  apply (w1_init_finds_devices (OwmHW0 := owm_sim_hw w1_demo_roms) w1_demo_roms 3 4 62500000 (replicate 8 0)).
  - lia.
  - intros d Hd. exact (proj1 (Forall_forall _ _) w1_demo_range d Hd).
  - intros d e Hd He. exact (proj1 (Forall_forall _ _) (proj1 (Forall_forall _ _) w1_demo_distinct d Hd) e He).
  - reflexivity.
  - reflexivity.
Defined.

(** The search with the simulated master. *)
Example owm_demo :
  (wrc_w1_init (OwmHW0 := owm_sim_hw w1_demo_roms) 4 62500000 (replicate 8 0) (mk_owm 0 true None)).1 =
  ([16; 40 + 256 * 1000; 40 + 256 * 1001; 67 + 256 * 3; 0; 0; 0; 0], 4).
Proof. vm_compute. reflexivity. Qed.
