(* ===== verification/Snmp.v ===== *)
(** The SNMP agent of lib/snmp.c: reading and writing values, the search of an
    OID in groups and tables, and the answer to a request.  The objects it
    serves are in SnmpMib.v. *)
From Stdlib Require Import ZArith Lia Sorted.
From stdpp Require Import base numbers option list.
From S2P Require Import Prelude Bytes.

(** ** Constants (lib/snmp.h) *)
Definition ASN_INTEGER : Z := 2.
Definition ASN_OCTET_STR : Z := 4.
Definition ASN_NULL : Z := 5.
Definition ASN_OBJECT_ID : Z := 6.
Definition ASN_APPLICATION : Z := 64.
Definition ASN_IPADDRESS : Z := Z.lor ASN_APPLICATION 0.
Definition ASN_COUNTER : Z := Z.lor ASN_APPLICATION 1.
Definition ASN_UNSIGNED : Z := Z.lor ASN_APPLICATION 2.
Definition ASN_TIMETICKS : Z := Z.lor ASN_APPLICATION 3.
Definition ASN_COUNTER64 : Z := Z.lor ASN_APPLICATION 6.
Definition SNMP_ERR_NOSUCHNAME : Z := 2.
Definition SNMP_ERR_BADVALUE : Z := 3.
Definition SNMP_ERR_READONLY : Z := 4.
Definition SNMP_ERR_GENERR : Z := 5.
Definition SNMP_GET : Z := 160.
Definition SNMP_GET_NEXT : Z := 161.
Definition SNMP_GET_RESPONSE : Z := 162.
Definition SNMP_SET : Z := 163.
Definition SNMP_V1 : Z := 0.
Definition SNMP_V2c : Z := 1.
Definition SNMP_V_MAX : Z := 1.
Definition MASK_SET : Z := 1.
Definition MASK_GET : Z := 2.
Definition MASK_GET_NEXT : Z := 4.
Definition RETURN_FIRST : Z := 8.
Definition MAX_OCTET_STR_LEN : Z := 32.
Definition TABLE_ROW : Z := 1.
Definition TABLE_COL : Z := 0.
Definition TABLE_FIRST_ROW : Z := 1.
Definition TABLE_FIRST_COL : Z := 2.
Definition MAX_COMMUNITY_LEN : Z := 32.
Definition MAX_REQID_LEN : Z := 4.
Definition MAX_OID_LEN : Z := 40.
Definition INET_ALEN : Z := 4.

Definition s8 (z : Z) : Z := (z + 128) mod 256 - 128.

(** ** The agent's monad

    A computation on the rest of the program [W].  [None] is an access outside
    an object or outside the packet buffer, which C leaves undefined. *)
Definition P (W A : Type) : Type := W -> option (A * W).
Definition pret {W A} (a : A) : P W A := fun w => Some (a, w).
Definition pbind {W A B} (m : P W A) (k : A -> P W B) : P W B :=
  fun w => match m w with Some (a, w') => k a w' | None => None end.
Definition pfail {W A} : P W A := fun _ => None.
Definition lift {W A} (o : option A) : P W A := fun w => (fun a => (a, w)) <$> o.
Notation "'let?' x := m 'in' k" := (pbind m (fun x => k))
  (at level 10, x pattern, m at level 200, k at level 200).

(** Accesses to the packet: a byte, and a run of bytes. *)
Definition get8 (buf : list Z) (i : Z) : option Z := if i <? 0 then None else buf !! Z.to_nat i.
Definition set_at (buf : list Z) (off : Z) (l : list Z) : option (list Z) :=
  if (0 <=? off) && (off + Z.of_nat (length l) <=? Z.of_nat (length buf)) then Some (put buf off l) else None.

(** [memcmp(a, b, n)] of the C library: the difference of the first bytes that
    differ. *)
Fixpoint memcmp (n : nat) (a b : list Z) : Z :=
  match n with
  | O => 0
  | S n =>
      let x := hd 0 a in
      let y := hd 0 b in
      if x =? y then memcmp n (tl a) (tl b) else x - y
  end.
(** The comparison of [ml] bytes with the packet at [off]. *)
Definition packet_cmp (ml : Z) (oid buf : list Z) (off : Z) : option Z :=
  if (0 <=? off) && (off + ml <=? Z.of_nat (length buf))
  then Some (s8 (memcmp (Z.to_nat ml) oid (drop (Z.to_nat off) buf))) else None.

(** [strnlen(p, n)] for an object whose bytes from [p] on are the list. *)
Fixpoint strnlen (n : nat) (p : list Z) : option Z :=
  match n, p with
  | O, _ => Some 0
  | S n, [] => None
  | S n, c :: p => if c =? 0 then Some 0 else Z.succ <$> strnlen n p
  end.

(** ** Objects: [struct snmp_oid], without and with its functions *)
Record snmp_leaf (Ptr : Type) := mk_leaf {
  oid_match : list Z; oid_len : Z; asn : Z; oid_p : Ptr; offset : Z; data_size : Z }.
Arguments mk_leaf {Ptr}.
Arguments oid_match {Ptr}. Arguments oid_len {Ptr}. Arguments asn {Ptr}.
Arguments oid_p {Ptr}. Arguments offset {Ptr}. Arguments data_size {Ptr}.

(** The functions take the packet from the value on. *)
Definition access (W Ptr : Type) : Type := snmp_leaf Ptr -> list Z -> P W (list Z * Z).
Record snmp_oid (W Ptr : Type) := mk_oid {
  leaf : snmp_leaf Ptr; oid_get : access W Ptr; oid_set : option (access W Ptr) }.
Arguments mk_oid {W Ptr}. Arguments leaf {W Ptr}. Arguments oid_get {W Ptr}. Arguments oid_set {W Ptr}.

(** [struct snmp_oid_limb]; the function takes the packet from the length of
    the OID on. *)
Definition twig (W Ptr : Type) : Type := list Z -> Z -> list (snmp_oid W Ptr) -> Z -> P W (list Z * Z).
Record snmp_oid_limb (W Ptr : Type) := mk_limb {
  limb_match : list Z; twig_func : twig W Ptr; obj_array : list (snmp_oid W Ptr) }.
Arguments mk_limb {W Ptr}. Arguments limb_match {W Ptr}. Arguments twig_func {W Ptr}. Arguments obj_array {W Ptr}.

(** The static variable [snmp_version]. *)
Class SnmpVersion (W : Type) := { snmp_version : W -> Z; set_snmp_version : Z -> W -> W }.

(** Memory behind a pointer: the bytes from [p + off] to the end of the object,
    and a write there. *)
Class Memory (W Ptr : Type) := {
  mem_load : Ptr -> Z -> P W (list Z);
  mem_store : Ptr -> Z -> list Z -> P W unit }.

(** ** Values *)
Section values.
Context `{Endian} {W : Type} `{!SnmpVersion W}.

(** [get_value(buf, asn, p)]; [p] is what is in memory from the pointer to the
    end of the object. *)
Definition get_value (buf : list Z) (asn : Z) (p : list Z) : P W (list Z * Z) :=
  let? buf := lift (set_at buf 0 [asn]) in
  let store (buf data : list Z) (len : Z) : P W (list Z * Z) :=
    let? buf := lift (set_at buf 2 data) in
    let? buf := lift (set_at buf 1 [len]) in
    pret (buf, 2 + len) in
  if (asn =? ASN_COUNTER) || (asn =? ASN_UNSIGNED) || (asn =? ASN_INTEGER) || (asn =? ASN_TIMETICKS) then
    if (length p <? 4)%nat then pfail
    else store buf (image 4 (htonl (value (take 4 p)))) 4
  else if asn =? ASN_COUNTER64 then
    fun w =>
      if snmp_version w =? SNMP_V1 then pret (buf, 0) w
      else if (length p <? 8)%nat then None
      else store buf (image 8 (htonll (value (take 8 p)))) 8 w
  else if asn =? ASN_OCTET_STR then
    let? len := lift (strnlen (Z.to_nat (MAX_OCTET_STR_LEN - 1)) p) in
    if Z.of_nat (length p) <? len + 1 then pfail
    else store buf (take (Z.to_nat (len + 1)) p) len
  else if asn =? ASN_IPADDRESS then
    if (length p <? 4)%nat then pfail
    else store buf (take 4 p) INET_ALEN
  else pret (buf, 0).

(** [get_i32sat] *)
Definition saturate (v : Z) : Z :=
  if 2147483647 <=? v then 2147483647 else if v <=? -2147483648 then -2147483648 else v.
Definition get_i32sat (buf : list Z) (asn : Z) (v : Z) : P W (list Z * Z) :=
  get_value buf asn (image 4 (u32 (saturate v))).

(** [set_value(set_buff, obj, p + off)]: the bytes to store and the result;
    nothing is stored unless the result is positive. *)
Definition incoming_value {Ptr} (set_buff : list Z) (obj : snmp_leaf Ptr) : P W (list Z * Z) :=
  let? asn_incoming := lift (get8 set_buff 0) in
  let? len := lift (get8 set_buff 1) in
  let incoming : P W (list Z) :=
    if Z.of_nat (length set_buff) <? 2 + len then pfail else pret (take (Z.to_nat len) (drop 2 set_buff)) in
  if negb (asn_incoming =? asn obj) then pret ([], - SNMP_ERR_BADVALUE)
  else if (asn_incoming =? ASN_UNSIGNED) || (asn_incoming =? ASN_INTEGER) then
    if 4 <? len then pret ([], - SNMP_ERR_BADVALUE)
    else
      let? data := incoming in
      let tmp := htonl (value (data ++ replicate (4 - Z.to_nat len) 0)) in
      pret (image 4 (Z.shiftr tmp ((4 - len) * 8)), len + 2)
  else if asn_incoming =? ASN_OCTET_STR then
    if data_size obj <? len then pret ([], - SNMP_ERR_BADVALUE)
    else let? data := incoming in pret (data ++ [0], len + 2)
  else if asn_incoming =? ASN_IPADDRESS then
    if negb (len =? INET_ALEN) then pret ([], - SNMP_ERR_BADVALUE)
    else let? data := incoming in pret (data, len + 2)
  else pret ([], 0).
Definition set_value {Ptr} `{!Memory W Ptr} (set_buff : list Z) (obj : snmp_leaf Ptr) (p : Ptr) (off : Z) : P W Z :=
  let? (data, ret) := incoming_value set_buff obj in
  if 0 <? ret then let? _ := mem_store p off data in pret ret else pret ret.
End values.

(** ** Groups and tables *)
Definition flag (flags mask : Z) : bool := truth (Z.land flags mask).

Section twigs.
Context {W Ptr : Type}.
Implicit Types (oid : snmp_oid W Ptr) (twigs_array : list (snmp_oid W Ptr)).

(** A call with a pointer [k] bytes into the packet. *)
Definition call_at (f : access W Ptr) (obj : snmp_leaf Ptr) (buf : list Z) (k : Z) : P W (list Z * Z) :=
  let n := Z.to_nat k in
  let? r := f obj (drop n buf) in
  pret (take n buf ++ r.1, r.2).

(** The loop of [func_group]; [limb_len] is [in_oid_limb_matched_len].  The
    arrays end where their [{ 0, }] is. *)
Fixpoint func_group_loop (limb_len oid_twig_len flags : Z) twigs_array (buf : list Z) : P W (list Z * Z) :=
  match twigs_array with
  | [] => pret (buf, 0)
  | oid :: rest =>
      let len := oid_len (leaf oid) in
      let return_first := flag flags RETURN_FIRST in
      let next := flag flags MASK_GET_NEXT in
      let oid_twig_matching_len := u8 (if return_first then len else Z.min oid_twig_len len) in
      if (flag flags MASK_GET || flag flags MASK_SET) && negb (oid_twig_len =? len)
      then func_group_loop limb_len oid_twig_len flags rest buf
      else
        let? cmp_result := (if return_first then pret 0
          else lift (packet_cmp oid_twig_matching_len (oid_match (leaf oid)) buf (1 + limb_len))) in
        if negb return_first && (cmp_result =? 0) && next && (oid_twig_matching_len =? len)
        then func_group_loop limb_len oid_twig_len flags rest buf
        else if (cmp_result =? 0) || (next && (0 <? cmp_result)) || return_first then
          let? buf := (if next then
              let? buf := lift (set_at buf (1 + limb_len) (oid_match (leaf oid))) in
              lift (set_at buf 0 [u8 len])
            else pret buf) in
          let get (buf : list Z) : P W (list Z * Z) :=
            let? r := call_at (oid_get oid) (leaf oid) buf (1 + limb_len + len) in
            if r.2 =? 0 then func_group_loop limb_len oid_twig_len flags rest r.1
            else pret (r.1, r.2 + len) in
          if flag flags MASK_SET then
            match oid_set oid with
            | None => pret (buf, - SNMP_ERR_READONLY)
            | Some set =>
                let? r := call_at set (leaf oid) buf (1 + limb_len + len) in
                if r.2 <? 0 then pret r else get r.1
            end
          else get buf
        else if 0 <? cmp_result then pret (buf, 0)
        else func_group_loop limb_len oid_twig_len flags rest buf
  end.
Definition func_group : twig W Ptr := fun buf limb_len twigs_array flags =>
  let? len := lift (get8 buf 0) in
  func_group_loop limb_len (len - limb_len) flags twigs_array buf.

(** The search loop of [func_table]: the packet, the objects from the one found
    on, and [get_next_increase_oid].  The code also compares when
    [return_first] is set, past the twig if [oid_twig_len] is negative; it does
    not use that result. *)
Fixpoint func_table_loop (limb_len oid_twig_len : Z) (return_first snmp_get_next increase : bool) twigs_array
    (buf : list Z) : P W (list Z * list (snmp_oid W Ptr) * bool) :=
  match twigs_array with
  | [] => pret (buf, [], increase)
  | oid :: rest =>
      let len := oid_len (leaf oid) in
      let oid_twig_matching_len := u8 (Z.min oid_twig_len len) in
      let? cmp_result := (if return_first then pret 0
        else lift (packet_cmp oid_twig_matching_len (oid_match (leaf oid)) buf (1 + limb_len))) in
      if return_first || (snmp_get_next && (cmp_result =? 0) && (oid_twig_len <? len + 1))
         || (snmp_get_next && (0 <? cmp_result)) then
        let? buf := lift (set_at buf (1 + limb_len) (oid_match (leaf oid))) in
        let? buf := lift (set_at buf (1 + limb_len + len) [TABLE_FIRST_ROW]) in
        pret (buf, twigs_array, false)
      else if (cmp_result =? 0)
              && ((oid_twig_len =? len + 1) || (snmp_get_next && (len + 1 <? oid_twig_len)))
      then pret (buf, twigs_array, increase)
      else func_table_loop limb_len oid_twig_len return_first snmp_get_next increase rest buf
  end.

(** [leaf_obj]: the object with the OID of the packet; [offset] and
    [data_size], which are not initialised, are not used by tables. *)
Definition leaf_obj oid (len : Z) (buf : list Z) (limb_len : Z) : snmp_leaf Ptr :=
  mk_leaf (drop (Z.to_nat (1 + limb_len)) buf) len (asn (leaf oid)) (oid_p (leaf oid)) (offset (leaf oid)) (data_size (leaf oid)).

(** [x[i]++] on bytes of the packet. *)
Definition incr_at (buf : list Z) (i : Z) : option (list Z) :=
  match get8 buf i with Some b => set_at buf i [u8 (b + 1)] | None => None end.

(** The rest of [func_table]: the value of the object found, or of the first
    row of the next column. *)
Definition func_table_leaf (limb_len : Z) (return_first snmp_get_next increase : bool) (found : list (snmp_oid W Ptr))
    (buf : list Z) : P W (list Z * Z) :=
  let get oid (buf : list Z) : P W (list Z * Z) :=
    let len := oid_len (leaf oid) in
    call_at (oid_get oid) (leaf_obj oid len buf limb_len) buf (1 + limb_len + (len + 1)) in
  let finish oid (r : list Z * Z) : P W (list Z * Z) :=
    if r.2 =? 0 then pret (r.1, 0)
    else if r.2 <? 0 then pret r
    else
      let? buf := (if snmp_get_next || return_first
                   then lift (set_at r.1 0 [u8 (oid_len (leaf oid) + 1)]) else pret r.1) in
      pret (buf, r.2 + (oid_len (leaf oid) + 1)) in
  match found with
  | [] => pret (buf, 0)
  | oid :: rest =>
      let? buf := (if increase then lift (incr_at buf (1 + limb_len + TABLE_ROW)) else pret buf) in
      let? r := get oid buf in
      if (r.2 =? 0) && increase then
        match rest with
        | [] => pret (r.1, 0)
        | oid :: _ =>
            let? buf := lift (set_at r.1 (1 + limb_len) (oid_match (leaf oid))) in
            let? buf := lift (set_at buf (1 + limb_len + oid_len (leaf oid)) [TABLE_FIRST_ROW]) in
            let? r := get oid buf in
            finish oid r
        end
      else finish oid r
  end.

Definition func_table : twig W Ptr := fun buf limb_len twigs_array flags =>
  let? n := lift (get8 buf 0) in
  let oid_twig_len := n - limb_len in
  if flag flags MASK_SET then pret (buf, - SNMP_ERR_READONLY)
  else
    let return_first := flag flags RETURN_FIRST in
    let snmp_get_next := flag flags MASK_GET_NEXT in
    let? (buf, found, increase) :=
      func_table_loop limb_len oid_twig_len return_first snmp_get_next snmp_get_next twigs_array buf in
    func_table_leaf limb_len return_first snmp_get_next increase found buf.

(** [func_aux_diag] *)
Definition func_aux_diag : twig W Ptr := fun buf limb_len twigs_array flags =>
  let? n := lift (get8 buf 0) in
  let oid_twig_len := n - limb_len in
  let table_size := 2 in
  let return_first := flag flags RETURN_FIRST in
  let snmp_get_next := flag flags MASK_GET_NEXT in
  let short := return_first || (snmp_get_next && (oid_twig_len <? table_size)) in
  match twigs_array with
  | [] => pfail
  | oid :: _ =>
      let? buf := (if short then
          let? buf := lift (set_at buf (1 + limb_len + TABLE_COL) [TABLE_FIRST_COL]) in
          lift (set_at buf (1 + limb_len + TABLE_ROW) [TABLE_FIRST_ROW])
        else pret buf) in
      let oid_twig_len := if short then table_size else oid_twig_len in
      if negb snmp_get_next && negb (oid_twig_len =? table_size) then pret (buf, 0)
      else
        let increase := snmp_get_next && (negb short || (table_size <? oid_twig_len)) in
        let? buf := (if increase then lift (incr_at buf (1 + limb_len + TABLE_ROW)) else pret buf) in
        let call (f : access W Ptr) (buf : list Z) : P W (list Z * Z) :=
          call_at f (leaf_obj oid table_size buf limb_len) buf (1 + limb_len + table_size) in
        let finish (r : list Z * Z) : P W (list Z * Z) :=
          if r.2 =? 0 then pret (r.1, 0)
          else if r.2 <? 0 then pret r
          else
            let? buf := (if snmp_get_next || return_first
                         then lift (set_at r.1 0 [table_size]) else pret r.1) in
            pret (buf, r.2 + table_size) in
        let next_col (r : list Z * Z) : P W (list Z * Z) :=
          if (r.2 =? 0) && increase then
            let? buf := lift (incr_at r.1 (1 + limb_len + TABLE_COL)) in
            let? buf := lift (set_at buf (1 + limb_len + TABLE_ROW) [TABLE_FIRST_ROW]) in
            let? r := call (oid_get oid) buf in
            finish r
          else finish r in
        if flag flags MASK_SET then
          match oid_set oid with
          | None => pret (buf, - SNMP_ERR_READONLY)
          | Some set =>
              let? r := call set buf in
              if r.2 <? 0 then pret r else next_col r
          end
        else
          let? r := call (oid_get oid) buf in
          next_col r
  end.
End twigs.

(** ** The packet *)
Definition BYTE_SIZE : Z := 255.
Definition BYTE_IGNORE : Z := 254.
Definition BYTE_PDU : Z := 253.
Definition BYTE_ERROR : Z := 252.
Definition BYTE_ERROR_INDEX : Z := 251.
Definition BYTE_VERSION : Z := 250.
Definition BYTE_REQ_SIZE : Z := 249.
Definition BYTE_COMMUNITY_LEN_i : Z := 6.
Definition BYTE_PDU_i : Z := 7.
Definition BYTE_REQ_SIZE_i : Z := 10.
Definition BYTE_ERROR_i : Z := 13.
Definition BYTE_ERROR_INDEX_i : Z := 16.
Definition BYTE_OIDLEN_INDEX_i : Z := 22.

Definition match_array : list Z :=
  [48; BYTE_SIZE; 2; 1; BYTE_VERSION; 4; 6; 112; 117; 98; 108; 105; 99; BYTE_PDU; BYTE_SIZE; 2; BYTE_REQ_SIZE;
   2; 1; BYTE_ERROR; 2; 1; BYTE_ERROR_INDEX; 48; BYTE_SIZE; 48; BYTE_SIZE; 6].

(** [snmp_fix_size]: the loop over [match_array] with [h_i], [size] already
    decremented. *)
Fixpoint fix_size_loop (fmt : list Z) (h_i size : Z) (buf : list Z) : option (list Z) :=
  match fmt with
  | [] => Some buf
  | f :: fmt =>
      let remain := size - h_i in
      buf ← (if f =? BYTE_PDU then set_at buf h_i [SNMP_GET_RESPONSE] else Some buf);
      if f =? BYTE_REQ_SIZE then
        b ← get8 buf h_i;
        fix_size_loop fmt (h_i + b + 1) size buf
      else if negb (f =? BYTE_SIZE) then fix_size_loop fmt (h_i + 1) size buf
      else
        buf ← set_at buf h_i [u8 remain];
        fix_size_loop fmt (h_i + 1) size buf
  end.
Definition snmp_fix_size (buf : list Z) (size : Z) : option (list Z) := fix_size_loop match_array 0 (size - 1) buf.

(** [snmp_prepare_error]: the packet and its size. *)
Definition snmp_prepare_error (buf : list Z) (error : Z) : option (list Z * Z) :=
  community_len ← get8 buf BYTE_COMMUNITY_LEN_i;
  let shift := Z.min community_len MAX_COMMUNITY_LEN in
  buf ← set_at buf (BYTE_PDU_i + shift) [SNMP_GET_RESPONSE];
  reqid_size ← get8 buf (BYTE_REQ_SIZE_i + shift);
  let shift := u8 (shift + Z.min reqid_size MAX_REQID_LEN) in
  buf ← set_at buf (BYTE_ERROR_i + shift) [error];
  buf ← set_at buf (BYTE_ERROR_INDEX_i + shift) [1];
  oid_len ← get8 buf (BYTE_OIDLEN_INDEX_i + shift);
  let shift := u8 (shift + Z.min oid_len MAX_OID_LEN) in
  buf ← set_at buf (BYTE_OIDLEN_INDEX_i + shift + 1) [ASN_NULL];
  buf ← set_at buf (BYTE_OIDLEN_INDEX_i + shift + 2) [0];
  let ret_size := u8 (BYTE_OIDLEN_INDEX_i + shift + 2 + 1) in
  buf ← snmp_fix_size buf ret_size;
  Some (buf, ret_size).

(** ** The answer *)
Section respond.
Context {W Ptr : Type} `{!SnmpVersion W}.

(** The loop that compares the header with [match_array]: [h_i] and
    [snmp_mode], or [None] for a header that does not match. *)
Fixpoint match_header (snmp_set_enabled : bool) (fmt : list Z) (h_i snmp_mode : Z) (buf : list Z) : P W (option (Z * Z)) :=
  match fmt with
  | [] => pret (Some (h_i, snmp_mode))
  | f :: fmt =>
      let continue (h_i snmp_mode : Z) := match_header snmp_set_enabled fmt (h_i + 1) snmp_mode buf in
      if (f =? BYTE_SIZE) || (f =? BYTE_IGNORE) || (f =? BYTE_ERROR) || (f =? BYTE_ERROR_INDEX)
      then continue h_i snmp_mode
      else
        let? b := lift (get8 buf h_i) in
        if f =? BYTE_REQ_SIZE then continue (h_i + b) snmp_mode
        else if f =? BYTE_VERSION then
          let? _ := (fun w => Some (tt, set_snmp_version b w)) in
          if SNMP_V_MAX <? b then pret None else continue h_i snmp_mode
        else if f =? BYTE_PDU then
          let mode := if b =? SNMP_GET then MASK_GET else snmp_mode in
          let mode := if b =? SNMP_GET_NEXT then MASK_GET_NEXT else mode in
          let mode := if snmp_set_enabled && (b =? SNMP_SET) then MASK_SET else mode in
          if mode =? 0 then pret None else continue h_i mode
        else if b =? f then continue h_i snmp_mode else pret None
  end.

(** What the search ends with: the size after the OID length, an error of a
    twig, or nothing found. *)
Inductive search_result := Found (size : Z) | Error (error : Z) | Not_found.

(** The loop of [snmp_respond] over the branches; [buf] is the packet from
    [buf_oid_len] on. *)
Fixpoint respond_loop (snmp_mode : Z) (oid_limb_array : list (snmp_oid_limb W Ptr)) (buf : list Z) : P W (list Z * search_result) :=
  match oid_limb_array with
  | [] => pret (buf, Not_found)
  | oid_limb :: rest =>
      let? buf_oid_len := lift (get8 buf 0) in
      let len := Z.of_nat (length (limb_match oid_limb)) in
      let get_next := flag snmp_mode MASK_GET_NEXT in
      let oid_branch_matching_len := Z.min len buf_oid_len in
      if (flag snmp_mode MASK_GET || flag snmp_mode MASK_SET) && (buf_oid_len <? len)
      then respond_loop snmp_mode rest buf
      else
        let? cmp_result := lift (packet_cmp oid_branch_matching_len (limb_match oid_limb) buf 1) in
        let first := get_next && ((0 <? cmp_result) || ((buf_oid_len <=? len) && (cmp_result =? 0))) in
        let flags := if first then Z.lor snmp_mode RETURN_FIRST else snmp_mode in
        let oid_branch_matching_len := if first then len else oid_branch_matching_len in
        let go_on (buf : list Z) : P W (list Z * search_result) :=
          if 0 <? cmp_result then pret (buf, Not_found) else respond_loop snmp_mode rest buf in
        if ((len =? oid_branch_matching_len) && (cmp_result =? 0)) || flag flags RETURN_FIRST then
          let? buf := (if get_next || flag flags RETURN_FIRST
                       then lift (set_at buf 1 (limb_match oid_limb)) else pret buf) in
          let? (buf, res) := twig_func oid_limb buf oid_branch_matching_len (obj_array oid_limb) flags in
          if 0 <? res then
            let? buf := (if get_next || flag flags RETURN_FIRST then
                let? n := lift (get8 buf 0) in
                lift (set_at buf 0 [u8 (n + len)])
              else pret buf) in
            pret (buf, Found (len + res))
          else if res =? 0 then respond_loop snmp_mode rest buf
          else pret (buf, Error (u8 (- res)))
        else go_on buf
  end.

(** [snmp_respond]: the packet and the size of the answer. *)
Definition snmp_respond (snmp_set_enabled : bool) (oid_limb_array : list (snmp_oid_limb W Ptr)) (buf : list Z) : P W (list Z * Z) :=
  let? header := match_header snmp_set_enabled match_array 0 0 buf in
  match header with
  | None => lift (snmp_prepare_error buf SNMP_ERR_GENERR)
  | Some (h_i, snmp_mode) =>
      let n := Z.to_nat h_i in
      let? (rest, r) := respond_loop snmp_mode oid_limb_array (drop n buf) in
      let buf := take n buf ++ rest in
      match r with
      | Error e => lift (snmp_prepare_error buf e)
      | Not_found => lift (snmp_prepare_error buf SNMP_ERR_NOSUCHNAME)
      | Found size =>
          let size := h_i + 1 + size in
          let? buf := lift (snmp_fix_size buf size) in
          pret (buf, size)
      end
  end.
End respond.

(** ** The order of OIDs *)

(** [a] comes before [b] in the lexicographic order. *)
Fixpoint oid_lt (a b : list Z) : bool :=
  match a, b with
  | [], _ :: _ => true
  | x :: a, y :: b => (x <? y) || ((x =? y) && oid_lt a b)
  | _, [] => false
  end.
(** [a] comes before [b] and is not a prefix of it: they differ in a common
    place. *)
Fixpoint before (a b : list Z) : bool :=
  match a, b with
  | x :: a, y :: b => (x <? y) || ((x =? y) && before a b)
  | _, _ => false
  end.
(** The bytes of OIDs whose numbers are all below 128. *)
Definition small_id (z : Z) : Prop := 0 <= z < 128.
Definition small (l : list Z) : Prop := Forall small_id l.
#[export] Instance small_id_dec z : Decision (small_id z).
Proof. unfold small_id. apply _. Defined.

Lemma ltb_true x y : x < y -> Z.ltb x y = true.
Proof. apply Z.ltb_lt. Qed.
Lemma eqb_false x y : x <> y -> (x =? y) = false.
Proof. apply Z.eqb_neq. Qed.
Lemma before_app a b s t : before a b = true -> before (a ++ s) (b ++ t) = true.
Proof.
  revert b. induction a as [|x a IH]; intros [|y b]; cbn; try done.
  intros [->|[->%Z.eqb_eq H]%andb_prop]%orb_prop; [done|].
  by rewrite Z.eqb_refl, (IH b H), orb_true_r.
Qed.
Lemma before_lt a b : before a b = true -> oid_lt a b = true.
Proof.
  revert b. induction a as [|x a IH]; intros [|y b]; cbn; try done.
  intros [->|[-> H]%andb_prop]%orb_prop; [done|]. by rewrite (IH b H), orb_true_r.
Qed.
Lemma before_trans a b c : before a b = true -> before b c = true -> before a c = true.
Proof.
  revert b c. induction a as [|x a IH]; intros [|y b] [|z c]; cbn; try done.
  intros [H1%Z.ltb_lt|[->%Z.eqb_eq H1]%andb_prop]%orb_prop [H2%Z.ltb_lt|[->%Z.eqb_eq H2]%andb_prop]%orb_prop.
  - by rewrite (ltb_true x z ltac:(lia)).
  - by rewrite (ltb_true x z ltac:(lia)).
  - by rewrite (ltb_true y z ltac:(lia)).
  - by rewrite Z.eqb_refl, (IH b c H1 H2), orb_true_r.
Qed.
Lemma before_irrefl a : before a a = false.
Proof. induction a as [|x a IH]; [done|]. cbn. by rewrite Z.ltb_irrefl, Z.eqb_refl, IH. Qed.
Lemma before_asym a b : before a b = true -> before b a = false.
Proof.
  intros H. destruct (before b a) eqn:E; [|done]. pose proof (before_trans _ _ _ H E) as Ha.
  by rewrite before_irrefl in Ha.
Qed.
Lemma oid_lt_app l a b : oid_lt (l ++ a) (l ++ b) = oid_lt a b.
Proof. induction l as [|x l IH]; [done|]. cbn. by rewrite Z.ltb_irrefl, Z.eqb_refl, IH. Qed.
Lemma oid_lt_prefix l t : t <> [] -> oid_lt l (l ++ t) = true.
Proof. intros Ht. rewrite <- (app_nil_r l) at 1. rewrite oid_lt_app. by destruct t. Qed.
Lemma oid_lt_irrefl a : oid_lt a a = false.
Proof. induction a as [|x a IH]; [done|]. cbn. by rewrite Z.ltb_irrefl, Z.eqb_refl, IH. Qed.
Lemma oid_lt_trans a b c : oid_lt a b = true -> oid_lt b c = true -> oid_lt a c = true.
Proof.
  revert b c. induction a as [|x a IH]; intros [|y b] [|z c]; cbn; try done.
  intros [H1%Z.ltb_lt|[->%Z.eqb_eq H1]%andb_prop]%orb_prop [H2%Z.ltb_lt|[->%Z.eqb_eq H2]%andb_prop]%orb_prop.
  - by rewrite (ltb_true x z ltac:(lia)).
  - by rewrite (ltb_true x z ltac:(lia)).
  - by rewrite (ltb_true y z ltac:(lia)).
  - by rewrite Z.eqb_refl, (IH b c H1 H2), orb_true_r.
Qed.
Lemma oid_lt_asym a b : oid_lt a b = true -> oid_lt b a = false.
Proof.
  intros H. destruct (oid_lt b a) eqn:E; [|done]. pose proof (oid_lt_trans _ _ _ H E) as Ha.
  by rewrite oid_lt_irrefl in Ha.
Qed.

(** Four ways for two OIDs to compare. *)
Inductive compared (a b : list Z) : Prop :=
  | C_before : before a b = true -> compared a b
  | C_after : before b a = true -> compared a b
  | C_prefix t : b = a ++ t -> compared a b
  | C_extends t : a = b ++ t -> t <> [] -> compared a b.
Lemma compare_oids a b : compared a b.
Proof.
  revert b. induction a as [|x a IH]; intros b; [by eapply C_prefix|].
  destruct b as [|y b]; [by apply (C_extends _ _ (x :: a))|].
  destruct (Z.lt_trichotomy x y) as [H|[<-|H]].
  - apply C_before. cbn. by rewrite (ltb_true x y ltac:(lia)).
  - destruct (IH b) as [H|H|t ->|t -> Ht].
    + apply C_before. cbn. by rewrite H, Z.eqb_refl, orb_true_r.
    + apply C_after. cbn. by rewrite H, Z.eqb_refl, orb_true_r.
    + by apply (C_prefix _ _ t).
    + by apply (C_extends _ _ t).
  - apply C_after. cbn. by rewrite (ltb_true y x ltac:(lia)).
Qed.

(** [memcmp] on OIDs with small numbers; the result fits in [int8_t]. *)
Lemma memcmp_refl n a s t : (n <= length a)%nat -> memcmp n (a ++ s) (a ++ t) = 0.
Proof.
  revert n. induction a as [|x a IH]; intros [|n] Hn; cbn in *; try done; [lia|].
  rewrite Z.eqb_refl. apply IH. lia.
Qed.
Lemma memcmp_before n a b s t : small a -> small b -> before a b = true ->
  let c := memcmp n (a ++ s) (b ++ t) in
  (n < length a)%nat /\ (n < length b)%nat /\ c = 0 \/ -127 <= c < 0.
Proof.
  revert n b. induction a as [|x a IH]; intros n [|y b] Ha Hb Hab; try done.
  apply Forall_cons in Ha as [Hx Ha]. apply Forall_cons in Hb as [Hy Hb]. unfold small_id in *.
  destruct n as [|n]; [cbn; lia|]. cbn in Hab |- *.
  destruct (Z.eqb_spec x y) as [->|Hne].
  - rewrite Z.ltb_irrefl in Hab. cbn in Hab. destruct (IH n b Ha Hb Hab) as [(? & ? & ?)|?]; [left; lia|by right].
  - rewrite orb_false_r in Hab. apply Z.ltb_lt in Hab. lia.
Qed.
Lemma memcmp_after n a b s t : small a -> small b -> before b a = true ->
  let c := memcmp n (a ++ s) (b ++ t) in
  (n < length a)%nat /\ (n < length b)%nat /\ c = 0 \/ 0 < c <= 127.
Proof.
  revert n b. induction a as [|x a IH]; intros n [|y b] Ha Hb Hab; try done.
  apply Forall_cons in Ha as [Hx Ha]. apply Forall_cons in Hb as [Hy Hb]. unfold small_id in *.
  destruct n as [|n]; [cbn; lia|]. cbn in Hab |- *.
  destruct (Z.eqb_spec x y) as [->|Hne].
  - rewrite Z.ltb_irrefl in Hab. cbn in Hab. rewrite Z.eqb_refl in Hab. destruct (IH n b Ha Hb Hab) as [(? & ? & ?)|?]; [left; lia|by right].
  - rewrite (eqb_false y x), orb_false_r in Hab by lia. apply Z.ltb_lt in Hab. lia.
Qed.
Lemma s8_small z : -128 <= z < 128 -> s8 z = z.
Proof. intros H. unfold s8. rewrite Z.mod_small by lia. lia. Qed.

(** ** SNMP messages

    The BER encoding of a value, with a length below 128 in one byte; and the
    message with one variable binding, community "public" (RFC 1157). *)
Definition ber (tag : Z) (l : list Z) : list Z := tag :: Z.of_nat (length l) :: l.
Definition community : list Z := [112; 117; 98; 108; 105; 99].
Definition pdu_body (reqid : list Z) (err idx : Z) (oid val : list Z) : list Z :=
  ber ASN_INTEGER reqid ++ ber ASN_INTEGER [err] ++ ber ASN_INTEGER [idx] ++ ber 48 (ber 48 (ber ASN_OBJECT_ID oid ++ val)).
Definition snmp_message (pdu ver : Z) (reqid : list Z) (err idx : Z) (oid val : list Z) : list Z :=
  ber 48 (ber ASN_INTEGER [ver] ++ ber ASN_OCTET_STR community ++ ber pdu (pdu_body reqid err idx oid val)).

(** What precedes the OID: [l1] ... [l4] are the lengths. *)
Definition header (l1 ver pdu l2 : Z) (reqid : list Z) (err idx l3 l4 : Z) : list Z :=
  [48; l1; 2; 1; ver; 4; 6; 112; 117; 98; 108; 105; 99; pdu; l2; 2; Z.of_nat (length reqid)] ++ reqid
  ++ [2; 1; err; 2; 1; idx; 48; l3; 48; l4; 6].
Lemma length_header l1 ver pdu l2 reqid err idx l3 l4 :
  length (header l1 ver pdu l2 reqid err idx l3 l4) = (28 + length reqid)%nat.
Proof. unfold header. rewrite !length_app. cbn. lia. Qed.

(** The lengths of a message whose OID and value have [n] bytes. *)
Definition sized_header (ver pdu : Z) (reqid : list Z) (err idx n : Z) : list Z :=
  header (n + Z.of_nat (length reqid) + 27) ver pdu (n + Z.of_nat (length reqid) + 14) reqid err idx (n + 4) (n + 2).
Lemma snmp_message_eq pdu ver reqid err idx oid val :
  snmp_message pdu ver reqid err idx oid val =
  sized_header ver pdu reqid err idx (Z.of_nat (length oid) + Z.of_nat (length val)) ++ Z.of_nat (length oid) :: oid ++ val.
Proof.
  unfold snmp_message, pdu_body, sized_header, header, ber, community.
  repeat (rewrite !length_app || cbn [length app]). rewrite <- !app_assoc. cbn [app].
  repeat (f_equal; try lia).
Qed.
Lemma length_message pdu ver reqid err idx oid val :
  length (snmp_message pdu ver reqid err idx oid val) = (29 + length reqid + length oid + length val)%nat.
Proof. rewrite snmp_message_eq. unfold sized_header. rewrite length_app, length_header. cbn. rewrite length_app. lia. Qed.

(** The accesses of the packet at the place reached. *)
Lemma get8_mid l1 x l2 i : i = Z.of_nat (length l1) -> get8 (l1 ++ x :: l2) i = Some x.
Proof. intros ->. unfold get8. rewrite (proj2 (Z.ltb_ge _ _)), Nat2Z.id by lia. by rewrite list_lookup_middle. Qed.
Lemma set_at_mid l1 l2 l2' l3 i : i = Z.of_nat (length l1) -> length l2 = length l2' ->
  set_at (l1 ++ l2 ++ l3) i l2' = Some (l1 ++ l2' ++ l3).
Proof.
  intros -> Hl. unfold set_at. rewrite (proj2 (Z.leb_le _ _)) by lia.
  rewrite (proj2 (Z.leb_le _ _)) by (rewrite !length_app; lia). cbn. by rewrite put_mid.
Qed.
Lemma set_at_mid1 l1 x y l3 i : i = Z.of_nat (length l1) -> set_at (l1 ++ x :: l3) i [y] = Some (l1 ++ y :: l3).
Proof. intros Hi. by apply (set_at_mid l1 [x] [y] l3). Qed.

(** The loops over [match_array], on the part of the packet not yet passed. *)
Fixpoint fixed (fmt : list Z) (h_i size : Z) (buf : list Z) : option (list Z) :=
  match fmt, buf with
  | [], _ => Some buf
  | f :: fmt, x :: buf =>
      if f =? BYTE_REQ_SIZE then
        if (length buf <? Z.to_nat x)%nat then None
        else (fun r => x :: take (Z.to_nat x) buf ++ r) <$> fixed fmt (h_i + x + 1) size (drop (Z.to_nat x) buf)
      else
        (if f =? BYTE_PDU then cons SNMP_GET_RESPONSE
         else if f =? BYTE_SIZE then cons (u8 (size - h_i)) else cons x) <$> fixed fmt (h_i + 1) size buf
  | _, [] => None
  end.
Lemma fix_size_loop_fixed fmt h_i size pre buf r : h_i = Z.of_nat (length pre) -> bytes buf ->
  fixed fmt h_i size buf = Some r -> fix_size_loop fmt h_i size (pre ++ buf) = Some (pre ++ r).
Proof.
  revert h_i pre buf r. induction fmt as [|f fmt IH]; intros h_i pre buf r Hh Hb H; [cbn in H; by injection H as ->|].
  destruct buf as [|x buf]; [done|]. apply Forall_cons in Hb as [Hx Hb]. unfold is_byte in Hx. cbn [fixed] in H. cbn [fix_size_loop].
  destruct (Z.eqb_spec f BYTE_REQ_SIZE) as [->|Hf].
  - destruct (Nat.ltb_spec (length buf) (Z.to_nat x)) as [|Hl]; [done|].
    apply fmap_Some in H as (r' & H & ->). cbn [Z.eqb BYTE_REQ_SIZE BYTE_PDU Pos.eqb].
    cbn. rewrite get8_mid by done. cbn.
    rewrite <- (take_drop (Z.to_nat x) buf) at 1.
    replace (pre ++ x :: take (Z.to_nat x) buf ++ drop (Z.to_nat x) buf)
      with ((pre ++ x :: take (Z.to_nat x) buf) ++ drop (Z.to_nat x) buf) by by rewrite <- app_assoc.
    rewrite (IH _ _ _ r'); [by rewrite <- app_assoc| |by apply Forall_drop|done].
    rewrite length_app. cbn. rewrite length_take. lia.
  - apply fmap_Some in H as (r' & H & Hr).
    assert (Hgo : forall y, fix_size_loop fmt (h_i + 1) size (pre ++ y :: buf) = Some (pre ++ y :: r')).
    { intros y. rewrite (cons_middle y pre buf), app_assoc, (cons_middle y pre r'), app_assoc.
      apply IH; [rewrite length_app; cbn; lia|done|done]. }
    destruct (Z.eqb_spec f BYTE_PDU) as [->|Hp].
    + rewrite set_at_mid1 by done. subst r. apply Hgo.
    + destruct (Z.eqb_spec f BYTE_SIZE) as [->|Hs]; cbn -[u8].
      * rewrite set_at_mid1 by done. subst r. apply Hgo.
      * subst r. apply Hgo.
Qed.

(** The request id has at most four bytes. *)
Ltac split_id reqid H :=
  destruct reqid as [|?r1 [|?r2 [|?r3 [|?r4 [|?r5 reqid]]]]]; [| | | | |cbn in H; lia]; clear H.

(** The lengths that [snmp_fix_size] writes. *)
Lemma snmp_fix_size_spec l1 ver pdu l2 reqid err idx l3 l4 tail n :
  bytes (header l1 ver pdu l2 reqid err idx l3 l4 ++ tail) ->
  (length reqid <= 4)%nat -> 0 <= n -> n + Z.of_nat (length reqid) + 27 < 256 ->
  snmp_fix_size (header l1 ver pdu l2 reqid err idx l3 l4 ++ tail) (29 + Z.of_nat (length reqid) + n) =
  Some (sized_header ver SNMP_GET_RESPONSE reqid err idx n ++ tail).
Proof.
  intros Hb Hr Hn H. unfold snmp_fix_size.
  refine (fix_size_loop_fixed match_array 0 _ [] _ _ eq_refl Hb _). clear Hb.
  unfold sized_header, header. assert (Hu : forall a b, a = b -> 0 <= b < 256 -> u8 a = b) by (intros ? ? -> ?; by apply Z.mod_small).
  split_id reqid Hr; cbn [length] in H; cbv -[u8 Z.sub Z.add]; repeat (f_equal; try (apply Hu; lia)).
Qed.

(** The header of a request is accepted. *)
Section header.
Context {W Ptr : Type} `{!SnmpVersion W}.

Fixpoint matched (set : bool) (fmt : list Z) (h_i mode : Z) (buf : list Z) (w : W) : option (option (Z * Z) * W) :=
  match fmt, buf with
  | [], _ => Some (Some (h_i, mode), w)
  | f :: fmt, x :: buf =>
      if (f =? BYTE_SIZE) || (f =? BYTE_IGNORE) || (f =? BYTE_ERROR) || (f =? BYTE_ERROR_INDEX)
      then matched set fmt (h_i + 1) mode buf w
      else if f =? BYTE_REQ_SIZE then
        if (length buf <? Z.to_nat x)%nat then None else matched set fmt (h_i + x + 1) mode (drop (Z.to_nat x) buf) w
      else if f =? BYTE_VERSION then
        if SNMP_V_MAX <? x then Some (None, set_snmp_version x w)
        else matched set fmt (h_i + 1) mode buf (set_snmp_version x w)
      else if f =? BYTE_PDU then
        let mode := if x =? SNMP_GET then MASK_GET else mode in
        let mode := if x =? SNMP_GET_NEXT then MASK_GET_NEXT else mode in
        let mode := if set && (x =? SNMP_SET) then MASK_SET else mode in
        if mode =? 0 then Some (None, w) else matched set fmt (h_i + 1) mode buf w
      else if x =? f then matched set fmt (h_i + 1) mode buf w else Some (None, w)
  | _, [] => None
  end.
Lemma match_header_matched set fmt h_i mode pre buf (w : W) r : h_i = Z.of_nat (length pre) -> bytes buf ->
  matched set fmt h_i mode buf w = Some r -> match_header set fmt h_i mode (pre ++ buf) w = Some r.
Proof.
  revert h_i mode pre buf w r. induction fmt as [|f fmt IH]; intros h_i mode pre buf w r Hh Hb H; [done|].
  destruct buf as [|x buf]; [done|]. apply Forall_cons in Hb as [Hx Hb]. unfold is_byte in Hx. cbn [matched] in H. cbn [match_header].
  assert (Hgo : forall mode w, matched set fmt (h_i + 1) mode buf w = Some r ->
    match_header set fmt (h_i + 1) mode (pre ++ x :: buf) w = Some r).
  { intros mode' w' H'. rewrite (cons_middle x pre buf), app_assoc.
    apply (IH (h_i + 1) mode' (pre ++ [x])); [rewrite length_app; cbn; lia|done|done]. }
  destruct (_ || (f =? BYTE_ERROR_INDEX)); [by apply Hgo|].
  unfold pbind at 1, lift. rewrite get8_mid by done. cbn [fmap option_fmap option_map].
  destruct (Z.eqb_spec f BYTE_REQ_SIZE) as [->|_].
  { destruct (Nat.ltb_spec (length buf) (Z.to_nat x)) as [|Hl]; [done|].
    rewrite <- (take_drop (Z.to_nat x) buf) at 1.
    replace (pre ++ x :: take (Z.to_nat x) buf ++ drop (Z.to_nat x) buf)
      with ((pre ++ x :: take (Z.to_nat x) buf) ++ drop (Z.to_nat x) buf) by by rewrite <- app_assoc.
    apply IH; [|by apply Forall_drop|done]. rewrite length_app. cbn. rewrite length_take. lia. }
  destruct (f =? BYTE_VERSION).
  { unfold pbind. destruct (SNMP_V_MAX <? x); [by injection H as <-|]. by apply Hgo. }
  destruct (f =? BYTE_PDU).
  { cbv zeta in H |- *. destruct (_ =? 0); [by injection H as <-|]. by apply Hgo. }
  destruct (x =? f); [by apply Hgo|by injection H as <-].
Qed.

(** [snmp_mode] for the type of the request. *)
Definition pdu_mode (pdu : Z) : Z :=
  if pdu =? SNMP_GET then MASK_GET else if pdu =? SNMP_GET_NEXT then MASK_GET_NEXT else MASK_SET.
Lemma match_header_spec set l1 ver pdu l2 reqid err idx l3 l4 tail (w : W) :
  bytes (header l1 ver pdu l2 reqid err idx l3 l4 ++ tail) -> (length reqid <= 4)%nat -> ver <= 1 ->
  pdu ∈ [SNMP_GET; SNMP_GET_NEXT; SNMP_SET] -> (pdu = SNMP_SET -> set = true) ->
  match_header set match_array 0 0 (header l1 ver pdu l2 reqid err idx l3 l4 ++ tail) w =
  Some (Some (28 + Z.of_nat (length reqid), pdu_mode pdu), set_snmp_version ver w).
Proof.
  intros Hb Hr Hv Hp Hset. refine (match_header_matched set match_array 0 0 [] _ w _ eq_refl Hb _). clear Hb. unfold header.
  assert (Hv' : (SNMP_V_MAX <? ver) = false) by (apply Z.ltb_ge; exact Hv). clear Hv.
  assert (Hgo : set = true \/ set = false /\ pdu ∈ [SNMP_GET; SNMP_GET_NEXT]).
  { destruct set; [by left|right]. split; [done|].
    repeat (apply elem_of_cons in Hp as [->|Hp]; [by repeat constructor || discriminate (Hset eq_refl)|]). by apply elem_of_nil in Hp. }
  clear Hset. destruct Hgo as [->|[-> Hp']]; [clear - Hr Hp Hv'|clear Hp; rename Hp' into Hp];
  split_id reqid Hr; repeat (apply elem_of_cons in Hp as [->|Hp]); try (by apply elem_of_nil in Hp);
    cbn -[Z.ltb Z.add Z.of_nat]; rewrite Hv'; reflexivity.
Qed.
End header.

(** The fields of the header. *)
Lemma bytes_header l1 ver pdu l2 reqid err idx l3 l4 :
  bytes (header l1 ver pdu l2 reqid err idx l3 l4) <->
  is_byte l1 /\ is_byte ver /\ is_byte pdu /\ is_byte l2 /\ is_byte (Z.of_nat (length reqid)) /\ bytes reqid /\
  is_byte err /\ is_byte idx /\ is_byte l3 /\ is_byte l4.
Proof.
  unfold header. rewrite !bytes_app, !bytes_cons. assert (bytes []) by constructor.
  split; [tauto|]. intros H'. repeat match goal with |- _ /\ _ => split end; try tauto; unfold is_byte; lia.
Qed.
Lemma header_set_pdu l1 ver pdu l2 reqid err idx l3 l4 tail v :
  set_at (header l1 ver pdu l2 reqid err idx l3 l4 ++ tail) 13 [v] = Some (header l1 ver v l2 reqid err idx l3 l4 ++ tail).
Proof. exact (set_at_mid1 [48; l1; 2; 1; ver; 4; 6; 112; 117; 98; 108; 105; 99] pdu v _ 13 eq_refl). Qed.
Lemma header_set_err l1 ver pdu l2 reqid err idx l3 l4 tail v :
  set_at (header l1 ver pdu l2 reqid err idx l3 l4 ++ tail) (19 + Z.of_nat (length reqid)) [v] =
  Some (header l1 ver pdu l2 reqid v idx l3 l4 ++ tail).
Proof.
  pose (l := [48; l1; 2; 1; ver; 4; 6; 112; 117; 98; 108; 105; 99; pdu; l2; 2; Z.of_nat (length reqid)] ++ reqid ++ [2; 1]).
  assert (E : forall e, header l1 ver pdu l2 reqid e idx l3 l4 ++ tail = l ++ e :: [2; 1; idx; 48; l3; 48; l4; 6] ++ tail).
  { intros e. unfold l, header. by rewrite <- !app_assoc. }
  rewrite !E. apply set_at_mid1. unfold l. rewrite !length_app. cbn. lia.
Qed.
Lemma header_set_idx l1 ver pdu l2 reqid err idx l3 l4 tail v :
  set_at (header l1 ver pdu l2 reqid err idx l3 l4 ++ tail) (22 + Z.of_nat (length reqid)) [v] =
  Some (header l1 ver pdu l2 reqid err v l3 l4 ++ tail).
Proof.
  pose (l := [48; l1; 2; 1; ver; 4; 6; 112; 117; 98; 108; 105; 99; pdu; l2; 2; Z.of_nat (length reqid)] ++ reqid ++ [2; 1; err; 2; 1]).
  assert (E : forall e, header l1 ver pdu l2 reqid err e l3 l4 ++ tail = l ++ e :: [48; l3; 48; l4; 6] ++ tail).
  { intros e. unfold l, header. by rewrite <- !app_assoc. }
  rewrite !E. apply set_at_mid1. unfold l. rewrite !length_app. cbn. lia.
Qed.
Lemma header_get_id l1 ver pdu l2 reqid err idx l3 l4 tail :
  get8 (header l1 ver pdu l2 reqid err idx l3 l4 ++ tail) 6 = Some 6 /\
  get8 (header l1 ver pdu l2 reqid err idx l3 l4 ++ tail) 16 = Some (Z.of_nat (length reqid)).
Proof. split; reflexivity. Qed.

Lemma some_bind {A B} (a : A) (f : A -> option B) : (Some a ≫= f) = f a.
Proof. done. Qed.
Lemma error_bytes l1 ver pdu l2 reqid err idx l3 l4 error oid y1 y2 rest :
  bytes (header l1 ver pdu l2 reqid err idx l3 l4) -> bytes (oid ++ y1 :: y2 :: rest) ->
  (length reqid <= 4)%nat -> (length oid <= 40)%nat -> is_byte error ->
  bytes (header l1 ver SNMP_GET_RESPONSE l2 reqid error 1 l3 l4 ++ Z.of_nat (length oid) :: oid ++ ASN_NULL :: 0 :: rest).
Proof.
  intros Hb Hb2 Hr Ho He.
  rewrite !bytes_app, bytes_header, !bytes_cons, bytes_app, !bytes_cons in *. unfold is_byte, SNMP_GET_RESPONSE, ASN_NULL in *.
  repeat split; try tauto; lia.
Qed.
(** An error answer to a message with the OID [oid]: the id and the OID are
    those of the message, and the value is null. *)
Lemma snmp_prepare_error_header l1 ver pdu l2 reqid err idx l3 l4 error oid y1 y2 rest :
  bytes (header l1 ver pdu l2 reqid err idx l3 l4) -> bytes (oid ++ y1 :: y2 :: rest) ->
  (length reqid <= 4)%nat -> (length oid <= 40)%nat -> is_byte error ->
  snmp_prepare_error (header l1 ver pdu l2 reqid err idx l3 l4 ++ Z.of_nat (length oid) :: oid ++ y1 :: y2 :: rest) error =
  Some (snmp_message SNMP_GET_RESPONSE ver reqid error 1 oid [ASN_NULL; 0] ++ rest,
        31 + Z.of_nat (length reqid) + Z.of_nat (length oid)).
Proof.
  intros Hb Hb2 Hr Ho He.
  pose proof (error_bytes _ _ _ _ _ _ _ _ _ _ _ _ _ _ Hb Hb2 Hr Ho He) as Hb'.
  unfold snmp_prepare_error. rewrite (proj1 (header_get_id _ _ _ _ _ _ _ _ _ _)). rewrite some_bind.
  unfold MAX_COMMUNITY_LEN, BYTE_PDU_i. rewrite (Z.min_l 6) by lia. rewrite (eq_refl : 7 + 6 = 13), header_set_pdu. rewrite some_bind.
  unfold BYTE_REQ_SIZE_i. rewrite (eq_refl : 10 + 6 = 16), (proj2 (header_get_id _ _ _ _ _ _ _ _ _ _)). rewrite some_bind.
  unfold MAX_REQID_LEN, BYTE_ERROR_i, BYTE_ERROR_INDEX_i, BYTE_OIDLEN_INDEX_i. rewrite Z.min_l by lia.
  replace (u8 (6 + Z.of_nat (length reqid))) with (6 + Z.of_nat (length reqid)) by (unfold u8; rewrite Z.mod_small; lia).
  cbv zeta. rewrite !Z.add_assoc. rewrite (eq_refl : 13 + 6 = 19), (eq_refl : 16 + 6 = 22), (eq_refl : 22 + 6 = 28).
  rewrite header_set_err. rewrite some_bind. rewrite header_set_idx. rewrite some_bind.
  rewrite get8_mid by (rewrite length_header; lia). rewrite some_bind.
  unfold MAX_OID_LEN. rewrite Z.min_l by lia. 
  assert (Hu : forall z, 0 <= z < 256 -> u8 z = z) by (intros; by apply Z.mod_small). rewrite (Hu (6 + _ + _)), (Hu (22 + _ + 2 + 1)) by lia.
  set (H0 := header l1 ver SNMP_GET_RESPONSE l2 reqid error 1 l3 l4) in *.
  assert (Hl : length H0 = (28 + length reqid)%nat) by apply length_header.
  assert (E : forall a b, H0 ++ Z.of_nat (length oid) :: oid ++ a :: b :: rest = (H0 ++ Z.of_nat (length oid) :: oid) ++ a :: b :: rest).
  { intros a b. by rewrite <- app_assoc. }
  rewrite E, set_at_mid1 by (rewrite length_app, Hl; cbn; lia). rewrite some_bind.
  rewrite (cons_middle ASN_NULL), app_assoc, set_at_mid1 by (rewrite !length_app, Hl; cbn; lia). rewrite some_bind.
  rewrite <- app_assoc. cbn [app]. rewrite <- E.
  replace (22 + (6 + Z.of_nat (length reqid) + Z.of_nat (length oid)) + 2 + 1)
    with (29 + Z.of_nat (length reqid) + (Z.of_nat (length oid) + 2)) by lia.
  unfold H0 in Hb' |- *. rewrite snmp_fix_size_spec by (done || lia). rewrite some_bind. do 2 f_equal; [|lia].
  rewrite snmp_message_eq. cbn [length]. rewrite <- !app_assoc. cbn [app]. by rewrite <- !app_assoc.
Qed.

(** ** What a branch of the tree promises

    An [entry] is an OID (or the part after that of the branch) with the value
    in BER; the value is part of the answer. *)
Definition entry : Type := list Z * list Z.
Definition exact (oid : list Z) (l : list entry) : option (list Z) :=
  snd <$> List.find (fun e => bool_decide (e.1 = oid)) l.
Definition successor (oid : list Z) (l : list entry) : option entry :=
  List.find (fun e => oid_lt oid e.1) l.

Section promise.
Context {W Ptr : Type}.
Implicit Types (limb : snmp_oid_limb W Ptr) (w : W).

(** What a [get] function answers: a value, or 0 when there is none.  It may
    write to the packet behind the value. *)
Definition answers (f : access W Ptr) (obj : snmp_leaf Ptr) w (v : option (list Z)) : Prop :=
  forall suf, (40 <= length suf)%nat -> bytes suf -> exists suf', bytes suf' /\
    match v with
    | Some tlv => tlv <> [] /\ (length tlv <= 34)%nat /\ bytes tlv /\ (length tlv + length suf' = length suf)%nat /\
        f obj suf w = Some ((tlv ++ suf', Z.of_nat (length tlv)), w)
    | None => length suf' = length suf /\ f obj suf w = Some ((suf', 0), w)
    end.

(** The packet from the OID length [n] on: the OID of the branch and the rest. *)
Definition packet limb (n : Z) (rest : list Z) : list Z := n :: limb_match limb ++ rest.
Definition room (rest : list Z) : Prop := (44 <= length rest)%nat /\ bytes rest.
(** A branch found the entry, or found none, leaving the packet consistent. *)
Definition hit limb w (len : nat) (e : entry) (r : option (list Z * Z * W)) : Prop :=
  exists rest', bytes rest' /\ (length e.1 + length e.2 + length rest' = len)%nat /\
    r = Some ((packet limb (Z.of_nat (length e.1)) (e.1 ++ e.2 ++ rest'), Z.of_nat (length e.1 + length e.2)), w).
Definition miss limb w (len : nat) (r : option (list Z * Z * W)) : Prop :=
  exists n rest', 0 <= n <= 40 /\ bytes rest' /\ length rest' = len /\ r = Some ((packet limb n rest', 0), w).
Definition found_or_missed limb w (len : nat) (e : option entry) (r : option (list Z * Z * W)) : Prop :=
  match e with Some e => hit limb w len e r | None => miss limb w len r end.

Definition entry_ok (e : entry) : Prop :=
  e.1 <> [] /\ (length e.1 <= 4)%nat /\ small e.1 /\ e.2 <> [] /\ (length e.2 <= 34)%nat /\ bytes e.2.

(** The interface between [snmp_respond] and the functions of the branches. *)
Record serves limb w (rows : list entry) : Prop := {
  sv_limb : small (limb_match limb) /\ (length (limb_match limb) <= 20)%nat;
  sv_sorted : StronglySorted (fun a b => oid_lt a.1 b.1 = true) rows;
  sv_rows : Forall entry_ok rows;
  sv_get t rest : small t -> room rest ->
    let r := twig_func limb (packet limb (Z.of_nat (length (limb_match limb) + length t)) (t ++ rest))
               (Z.of_nat (length (limb_match limb))) (obj_array limb) MASK_GET w in
    match exact t rows with
    | Some v => exists rest', bytes rest' /\ (length v + length rest' = length rest)%nat /\
        r = Some ((packet limb (Z.of_nat (length (limb_match limb) + length t)) (t ++ v ++ rest'), Z.of_nat (length t + length v)), w)
    | None => exists rest', bytes rest' /\ length rest' = length rest /\
        r = Some ((packet limb (Z.of_nat (length (limb_match limb) + length t)) (t ++ rest'), 0), w)
    end;
  sv_next t rest : small t -> t <> [] -> (length (limb_match limb) + length t <= 40)%nat -> room rest ->
    found_or_missed limb w (length t + length rest) (successor t rows)
      (twig_func limb (packet limb (Z.of_nat (length (limb_match limb) + length t)) (t ++ rest))
         (Z.of_nat (length (limb_match limb))) (obj_array limb) MASK_GET_NEXT w);
  sv_first n rest : 0 <= n <= 40 -> room rest ->
    found_or_missed limb w (length rest) (head rows)
      (twig_func limb (packet limb n rest)
         (Z.of_nat (length (limb_match limb))) (obj_array limb) (Z.lor MASK_GET_NEXT RETURN_FIRST) w) }.

(** Accesses in such a packet. *)
Lemma pbind_some {A B} (m : P W A) (k : A -> P W B) w a w' : m w = Some (a, w') -> pbind m k w = k a w'.
Proof. unfold pbind. by intros ->. Qed.
Lemma lift_some {A B} (o : option A) (k : A -> P W B) w a : o = Some a -> pbind (lift o) k w = k a w.
Proof. intros ->. done. Qed.
Lemma packet_cmp_at limb n rest ml oid : 0 <= ml <= Z.of_nat (length rest) ->
  packet_cmp ml oid (packet limb n rest) (1 + Z.of_nat (length (limb_match limb))) =
  Some (s8 (memcmp (Z.to_nat ml) oid rest)).
Proof.
  intros Hm. unfold packet_cmp, packet. rewrite (proj2 (Z.leb_le _ _)) by lia.
  rewrite (proj2 (Z.leb_le _ _)) by (cbn; rewrite length_app; lia). cbn [andb]. do 3 f_equal.
  replace (Z.to_nat _) with (S (length (limb_match limb))) by lia. cbn. by rewrite drop_app_length.
Qed.
Lemma packet_set limb n a r r' rest k : length r = length r' ->
  k = 1 + Z.of_nat (length (limb_match limb)) + Z.of_nat (length a) ->
  set_at (packet limb n (a ++ r ++ rest)) k r' = Some (packet limb n (a ++ r' ++ rest)).
Proof.
  intros Hr ->. unfold packet. rewrite !app_assoc, <- !(app_assoc _ _ rest).
  rewrite !(app_comm_cons (limb_match limb ++ a)). apply set_at_mid; [|done]. cbn. rewrite length_app. lia.
Qed.
Lemma packet_set_len limb n rest x : set_at (packet limb n rest) 0 [x] = Some (packet limb x rest).
Proof. by apply (set_at_mid1 []). Qed.
Lemma packet_get_len limb n rest : get8 (packet limb n rest) 0 = Some n.
Proof. done. Qed.
Lemma packet_get limb n a x rest k : k = 1 + Z.of_nat (length (limb_match limb)) + Z.of_nat (length a) ->
  get8 (packet limb n (a ++ x :: rest)) k = Some x.
Proof.
  intros ->. unfold packet. rewrite app_assoc, app_comm_cons. apply get8_mid. cbn. rewrite length_app. lia.
Qed.
Lemma packet_call limb n a suf (f : access W Ptr) obj k w suf' r w' :
  k = 1 + Z.of_nat (length (limb_match limb)) + Z.of_nat (length a) -> f obj suf w = Some ((suf', r), w') ->
  call_at f obj (packet limb n (a ++ suf)) k w = Some ((packet limb n (a ++ suf'), r), w').
Proof.
  intros -> Hf. unfold call_at, packet.
  replace (Z.to_nat _) with (length (n :: limb_match limb ++ a)) by (cbn; rewrite length_app; lia).
  rewrite !app_assoc, !app_comm_cons. rewrite drop_app_length, take_app_length. unfold pbind. rewrite Hf. done.
Qed.
Lemma small_bytes l : small l -> bytes l.
Proof. unfold small, bytes, small_id, is_byte. intros H. eapply Forall_impl; [exact H|]. cbn. lia. Qed.
End promise.

(** ** Groups keep the promise *)
Section group.
Context {W Ptr : Type} (limb : snmp_oid_limb W Ptr) (w : W).
Implicit Types (o : snmp_oid W Ptr) (ov : list (snmp_oid W Ptr * option (list Z))).
Abbreviation L := (Z.of_nat (length (limb_match limb))).

Definition object_ok (o : snmp_oid W Ptr) : Prop :=
  let m := oid_match (leaf o) in
  oid_len (leaf o) = Z.of_nat (length m) /\ small m /\ m <> [] /\ (length m <= 4)%nat.
(** The objects with what they answer now. *)
Record objects_ok ov : Prop := {
  og_objects : Forall (fun e => object_ok e.1) ov;
  og_sorted : StronglySorted (fun a b => before (oid_match (leaf a.1)) (oid_match (leaf b.1)) = true) ov;
  og_answers : Forall (fun e => answers (oid_get e.1) (leaf e.1) w e.2) ov }.
Definition group_rows ov : list entry := omap (fun e => pair (oid_match (leaf e.1)) <$> e.2) ov.

Lemma objects_ok_cons e ov : objects_ok (e :: ov) ->
  object_ok e.1 /\ answers (oid_get e.1) (leaf e.1) w e.2 /\
  Forall (fun e' => before (oid_match (leaf e.1)) (oid_match (leaf e'.1)) = true) ov /\ objects_ok ov.
Proof.
  intros [H1 H2 H3]. apply Forall_cons in H1 as [? ?]. apply StronglySorted_inv in H2 as [? ?].
  apply Forall_cons in H3 as [? ?]. done.
Qed.

Lemma group_copy o n Y : object_ok o -> (44 <= length Y)%nat ->
  (let? buf := lift (set_at (packet limb n Y) (1 + L) (oid_match (leaf o))) in lift (set_at buf 0 [u8 (oid_len (leaf o))])) w =
  Some (packet limb (oid_len (leaf o)) (oid_match (leaf o) ++ drop (length (oid_match (leaf o))) Y), w).
Proof.
  intros (Hlen & Hm & Hne & Hle) HY. set (m := oid_match (leaf o)) in *.
  rewrite <- (take_drop (length m) Y) at 1.
  pose proof (packet_set limb n [] (take (length m) Y) m (drop (length m) Y) (1 + L)) as Hset. cbn [app length] in Hset.
  erewrite lift_some by (apply Hset; [rewrite length_take|]; lia).
  unfold lift. rewrite packet_set_len. unfold u8. by rewrite Z.mod_small by lia.
Qed.

(** An object that is chosen by GETNEXT: its OID is copied, and its value or
    the rest of the group is the answer. *)
Lemma group_take o v rest tl flags n Y cmp : flag flags MASK_GET_NEXT = true ->
  flag flags MASK_GET = false -> flag flags MASK_SET = false -> object_ok o ->
  answers (oid_get o) (leaf o) w v -> room Y ->
  (if flag flags RETURN_FIRST then pret 0 else
     lift (packet_cmp (u8 (Z.min tl (oid_len (leaf o)))) (oid_match (leaf o)) (packet limb n Y) (1 + L))) w = Some (cmp, w) ->
  flag flags RETURN_FIRST = true \/ (cmp = 0 /\ u8 (Z.min tl (oid_len (leaf o))) <> oid_len (leaf o)) \/ 0 < cmp ->
  exists suf', bytes suf' /\
    match v with
    | Some tlv => hit limb w (length Y) (oid_match (leaf o), tlv) (func_group_loop L tl flags (o :: rest) (packet limb n Y) w)
    | None => (length (oid_match (leaf o)) + length suf' = length Y)%nat /\
        func_group_loop L tl flags (o :: rest) (packet limb n Y) w =
        func_group_loop L tl flags rest (packet limb (oid_len (leaf o)) (oid_match (leaf o) ++ suf')) w
    end.
Proof.
  intros Hn Hg Hs (Hlen & Hm & Hne & Hle) Ha [HY HbY] Hc Hcase. set (m := oid_match (leaf o)) in *.
  assert (HYm : Y = take (length m) Y ++ drop (length m) Y) by by rewrite take_drop.
  destruct (Ha (drop (length m) Y)) as (suf' & Hb & H); [rewrite length_drop; lia|by apply Forall_drop|].
  exists suf'. split; [done|].
  assert (E : func_group_loop L tl flags (o :: rest) (packet limb n Y) w =
    (let? r := call_at (oid_get o) (leaf o) (packet limb (oid_len (leaf o)) (m ++ drop (length m) Y)) (1 + L + oid_len (leaf o)) in
     if r.2 =? 0 then func_group_loop L tl flags rest r.1 else pret (r.1, r.2 + oid_len (leaf o))) w).
  { assert (Hcopy := group_copy o n Y (conj Hlen (conj Hm (conj Hne Hle))) HY).
    cbn [func_group_loop]. fold m in Hc, Hcopy |- *. rewrite Hn, Hg, Hs. cbn [orb andb].
    destruct (flag flags RETURN_FIRST) eqn:Ef; rewrite (pbind_some _ _ _ _ _ Hc); cbn [negb andb].
    - rewrite !orb_true_r. by rewrite (pbind_some _ _ _ _ _ Hcopy).
    - destruct Hcase as [?|Hcase]; [done|]. rewrite !andb_true_r, orb_false_r.
      assert ((cmp =? 0) && (u8 (Z.min tl (oid_len (leaf o))) =? oid_len (leaf o)) = false) as ->.
      { destruct Hcase as [[-> ?]|?]; [by rewrite (eqb_false (u8 _))|by rewrite (eqb_false cmp) by lia]. }
      assert ((cmp =? 0) || (0 <? cmp) = true) as ->.
      { destruct Hcase as [[-> ?]|?]; [done|rewrite (ltb_true 0 cmp) by done; apply orb_true_r]. }
      by rewrite (pbind_some _ _ _ _ _ Hcopy). }
  rewrite E. clear E Hc Hcase.
  destruct v as [tlv|].
  - destruct H as (Hv & Hvl & Hvb & Hl & Hf). exists suf'. split; [done|]. cbn [fst snd]. rewrite length_drop in Hl. split; [lia|].
    erewrite pbind_some by (eapply packet_call; [fold m; lia|exact Hf]). cbn [fst snd].
    rewrite (eqb_false (Z.of_nat (length tlv)) 0) by (destruct tlv; [done|cbn; lia]).
    unfold pret. rewrite Hlen. fold m. do 3 f_equal. lia.
  - destruct H as [Hl Hf]. rewrite length_drop in Hl. split; [lia|].
    erewrite pbind_some by (eapply packet_call; [fold m; lia|exact Hf]). done.
Qed.

(** Once an object of the group has been chosen, or the first one is wanted,
    the answer is the first object that has a value. *)
Definition next_flags (first : bool) : Z := if first then Z.lor MASK_GET_NEXT RETURN_FIRST else MASK_GET_NEXT.
Definition behind (ov : list (snmp_oid W Ptr * option (list Z))) (Y : list Z) : Prop :=
  exists m z, Y = m ++ z /\ small m /\ Forall (fun e => before m (oid_match (leaf e.1)) = true) ov.
Lemma flags_next first : flag (next_flags first) MASK_GET_NEXT = true /\ flag (next_flags first) MASK_GET = false /\
  flag (next_flags first) MASK_SET = false /\ flag (next_flags first) RETURN_FIRST = first.
Proof. by destruct first. Qed.

Lemma group_from ov first tl n Y : objects_ok ov -> first = true \/ behind ov Y -> 1 <= tl <= 40 \/ first = true ->
  0 <= n <= 40 -> room Y ->
  found_or_missed limb w (length Y) (head (group_rows ov))
    (func_group_loop L tl (next_flags first) ov.*1 (packet limb n Y) w).
Proof.
  destruct (flags_next first) as (Fn & Fg & Fs & Ff).
  revert n Y. induction ov as [|[o v] ov IH]; intros n Y Hov Hfirst Htl Hn HY.
  { exists n, Y. by destruct HY. }
  destruct (objects_ok_cons _ _ Hov) as (Ho & Ha & Hlater & Hov'). cbn [fst snd] in *.
  assert (Hstep : exists cmp, (if flag (next_flags first) RETURN_FIRST then pret 0 else
     lift (packet_cmp (u8 (Z.min tl (oid_len (leaf o)))) (oid_match (leaf o)) (packet limb n Y) (1 + L))) w = Some (cmp, w) /\
     (flag (next_flags first) RETURN_FIRST = true \/ (cmp = 0 /\ u8 (Z.min tl (oid_len (leaf o))) <> oid_len (leaf o)) \/ 0 < cmp)).
  { rewrite Ff. destruct first; [by exists 0; split; [|left]|]. destruct Hfirst as [?|(m & z & -> & Hm & Hb)]; [done|].
    destruct Htl as [Htl|?]; [|done]. apply Forall_cons in Hb as [Hb _]. cbn [fst] in Hb.
    destruct Ho as (Hlen & Hs & Hne & Hle). destruct HY as [HY HbY].
    assert (E : u8 (Z.min tl (oid_len (leaf o))) = Z.min tl (oid_len (leaf o))) by (unfold u8; rewrite Z.mod_small; lia).
    rewrite E. exists (s8 (memcmp (Z.to_nat (Z.min tl (oid_len (leaf o)))) (oid_match (leaf o) ++ []) (m ++ z))).
    unfold lift. rewrite packet_cmp_at by lia. rewrite app_nil_r. split; [done|]. right.
    pose proof (memcmp_after (Z.to_nat (Z.min tl (oid_len (leaf o)))) (oid_match (leaf o)) m [] z Hs Hm Hb) as Hc.
    rewrite app_nil_r in Hc. cbv zeta in Hc. rewrite s8_small by lia. lia. }
  destruct Hstep as (cmp & Hcmp & Hcase).
  destruct (group_take o v (ov.*1) tl (next_flags first) n Y cmp Fn Fg Fs Ho Ha HY Hcmp Hcase) as (suf' & Hb' & H).
  cbn [fmap list_fmap fst]. unfold group_rows. cbn [omap list_omap snd fst]. fold (group_rows ov).
  destruct v as [tlv|]; [exact H|]. destruct H as [Hl ->]. cbn [fmap option_fmap option_map].
  rewrite <- Hl, <- length_app. destruct Ho as (Hlen & Hs & Hne & Hle). apply IH; [done| | |lia|].
  - right. by exists (oid_match (leaf o)), suf'.
  - done.
  - split; [destruct HY; rewrite length_app; lia|]. apply bytes_app. split; [by apply small_bytes|done].
Qed.

(** The search for the object after [t]. *)
Lemma successor_head ov t : Forall (fun e => oid_lt t (oid_match (leaf e.1)) = true) ov ->
  successor t (group_rows ov) = head (group_rows ov).
Proof.
  induction 1 as [|[o [v|]] ov Hlt _ IH]; [done| |exact IH].
  unfold successor, group_rows. cbn in Hlt |- *. by rewrite Hlt.
Qed.

Lemma group_taken o v ov tl n Y cmp : objects_ok ((o, v) :: ov) -> 1 <= tl <= 40 -> room Y ->
  packet_cmp (u8 (Z.min tl (oid_len (leaf o)))) (oid_match (leaf o)) (packet limb n Y) (1 + L) = Some cmp ->
  (cmp = 0 /\ u8 (Z.min tl (oid_len (leaf o))) <> oid_len (leaf o)) \/ 0 < cmp ->
  found_or_missed limb w (length Y) (head (group_rows ((o, v) :: ov)))
    (func_group_loop L tl MASK_GET_NEXT (o :: ov.*1) (packet limb n Y) w).
Proof.
  intros Hov Htl HY Hcmp Hcase. destruct (objects_ok_cons _ _ Hov) as (Ho & Ha & Hlater & Hov'). cbn [fst snd] in *.
  destruct (group_take o v (ov.*1) tl MASK_GET_NEXT n Y cmp) as (suf' & Hb' & H); [try done..|by right|].
  { cbn. unfold lift. by rewrite Hcmp. }
  unfold group_rows. cbn [omap list_omap snd fst]. fold (group_rows ov).
  destruct v as [tlv|]; [exact H|]. destruct H as [Hl ->]. cbn [fmap option_fmap option_map].
  rewrite <- Hl, <- length_app. destruct Ho as (Hlen & Hs & Hne & Hle).
  apply (group_from ov false); [done| |by left|lia|].
  - right. by exists (oid_match (leaf o)), suf'.
  - split; [destruct HY; rewrite length_app; lia|]. apply bytes_app. split; [by apply small_bytes|done].
Qed.

Lemma group_next ov t rest n : objects_ok ov -> small t -> t <> [] -> (length t <= 40)%nat -> 0 <= n <= 40 -> room rest ->
  found_or_missed limb w (length t + length rest) (successor t (group_rows ov))
    (func_group_loop L (Z.of_nat (length t)) MASK_GET_NEXT ov.*1 (packet limb n (t ++ rest)) w).
Proof.
  intros Hov Ht Hne Htl Hn Hrest. assert (Hroom : room (t ++ rest)).
  { destruct Hrest. split; [rewrite length_app; lia|]. apply bytes_app. split; [by apply small_bytes|done]. }
  induction ov as [|[o v] ov IH].
  { exists n, (t ++ rest). destruct Hroom. rewrite length_app. done. }
  destruct (objects_ok_cons _ _ Hov) as (Ho & Ha & Hlater & Hov'). cbn [fst snd] in *.
  destruct Ho as (Hlen & Hs & Hmne & Hle). set (m := oid_match (leaf o)) in *.
  set (ml := Z.min (Z.of_nat (length t)) (oid_len (leaf o))).
  assert (Eml : u8 ml = ml) by (unfold u8; rewrite Z.mod_small; lia).
  assert (Hcmp : packet_cmp (u8 ml) m (packet limb n (t ++ rest)) (1 + L) = Some (s8 (memcmp (Z.to_nat ml) m (t ++ rest)))).
  { rewrite Eml. apply packet_cmp_at. rewrite length_app. lia. }
  assert (Hskip : oid_lt t m = false -> (s8 (memcmp (Z.to_nat ml) m (t ++ rest)) = 0 /\ ml = oid_len (leaf o)) \/ s8 (memcmp (Z.to_nat ml) m (t ++ rest)) < 0 ->
    found_or_missed limb w (length t + length rest) (successor t (group_rows ((o, v) :: ov)))
      (func_group_loop L (Z.of_nat (length t)) MASK_GET_NEXT (((o, v) :: ov).*1) (packet limb n (t ++ rest)) w)).
  { intros Hlt Hc. assert (Hrows : successor t (group_rows ((o, v) :: ov)) = successor t (group_rows ov)).
    { destruct v; [|done]. unfold successor, group_rows. cbn. fold m. by rewrite Hlt. }
    rewrite Hrows. cbn [fmap list_fmap fst func_group_loop]. fold m. fold ml.
    change (flag MASK_GET_NEXT RETURN_FIRST) with false. change (flag MASK_GET_NEXT MASK_GET_NEXT) with true.
    change (flag MASK_GET_NEXT MASK_GET) with false. change (flag MASK_GET_NEXT MASK_SET) with false. cbn [orb andb negb].
    fold ml. rewrite (lift_some _ _ _ _ Hcmp), Eml. destruct Hc as [[-> ->]|Hc].
    - rewrite !Z.eqb_refl. cbn [andb]. by apply IH.
    - rewrite (eqb_false _ 0) by lia. cbn [andb orb]. rewrite (proj2 (Z.ltb_ge 0 _)) by lia. cbn [orb]. by apply IH. }
  assert (Htake : oid_lt t m = true -> Forall (fun e => oid_lt t (oid_match (leaf e.1)) = true) ov ->
    (s8 (memcmp (Z.to_nat ml) m (t ++ rest)) = 0 /\ ml <> oid_len (leaf o)) \/ 0 < s8 (memcmp (Z.to_nat ml) m (t ++ rest)) ->
    found_or_missed limb w (length t + length rest) (successor t (group_rows ((o, v) :: ov)))
      (func_group_loop L (Z.of_nat (length t)) MASK_GET_NEXT (((o, v) :: ov).*1) (packet limb n (t ++ rest)) w)).
  { intros Hlt Hall Hc. rewrite successor_head by by constructor. rewrite <- length_app.
    apply (group_taken o v ov _ n _ (s8 (memcmp (Z.to_nat ml) m (t ++ rest)))); [done| |done|exact Hcmp|fold ml; by rewrite Eml].
    destruct t; [done|cbn [length] in *; lia]. }
  assert (Hmin : forall a b, Z.to_nat (Z.min (Z.of_nat a) (Z.of_nat b)) = Nat.min a b) by lia.
  destruct (compare_oids m t) as [Hc|Hc|s Hc|s Hc Hsne].
  - apply Hskip; [apply oid_lt_asym, before_lt, Hc|].
    pose proof (memcmp_before (Z.to_nat ml) m t [] rest Hs Ht Hc) as H. rewrite app_nil_r in H. cbv zeta in H. rewrite s8_small by lia. lia.
  - apply Htake; [by apply before_lt| |].
    + eapply Forall_impl; [exact Hlater|]. cbn. intros e He. by apply before_lt, (before_trans _ m).
    + pose proof (memcmp_after (Z.to_nat ml) m t [] rest Hs Ht Hc) as H. rewrite app_nil_r in H. cbv zeta in H. rewrite s8_small by lia. lia.
  - assert (Hml : ml = oid_len (leaf o)) by (unfold ml; rewrite Hc, length_app; fold m in Hlen; lia).
    apply Hskip.
    + rewrite Hc. destruct s; [rewrite app_nil_r; apply oid_lt_irrefl|apply oid_lt_asym, oid_lt_prefix; done].
    + left. split; [|done]. rewrite Hc, <- app_assoc. rewrite <- (app_nil_r m) at 1. by rewrite memcmp_refl by lia.
  - assert (Hml : ml = Z.of_nat (length t)) by (unfold ml; rewrite Hlen, Hc, length_app; lia).
    assert (Hlt : oid_lt t m = true) by (rewrite Hc; by apply oid_lt_prefix).
    apply Htake; [done| |].
    + eapply Forall_impl; [exact Hlater|]. cbn. intros e He. by eapply oid_lt_trans; [exact Hlt|apply before_lt].
    + left. split.
      * rewrite Hc. rewrite memcmp_refl by lia. done.
      * rewrite Hml, Hlen, Hc, length_app. destruct s; [done|cbn; lia].
Qed.

(** The object with the OID [t]. *)
Lemma exact_none ov t : Forall (fun e => oid_match (leaf e.1) <> t) ov -> exact t (group_rows ov) = None.
Proof.
  induction 1 as [|[o [v|]] ov Hne _ IH]; [done| |exact IH]. unfold exact, group_rows. cbn in Hne |- *.
  by rewrite (bool_decide_eq_false_2 _ Hne).
Qed.
Definition get_result t n (rest : list Z) (v : option (list Z)) (r : option (list Z * Z * W)) : Prop :=
  match v with
  | Some v => exists rest', bytes rest' /\ (length v + length rest' = length rest)%nat /\
      r = Some ((packet limb n (t ++ v ++ rest'), Z.of_nat (length t + length v)), w)
  | None => exists rest', bytes rest' /\ length rest' = length rest /\ r = Some ((packet limb n (t ++ rest'), 0), w)
  end.
Lemma memcmp_eq m t rest : small m -> small t -> length m = length t ->
  m = t /\ memcmp (length m) m (t ++ rest) = 0 \/ m <> t /\ oid_lt t m = true /\ 0 < memcmp (length m) m (t ++ rest) <= 127 \/
  m <> t /\ -127 <= memcmp (length m) m (t ++ rest) < 0.
Proof.
  intros Hm Ht Hl. assert (Hnil : forall x : list Z, x ++ [] = x) by apply app_nil_r.
  destruct (compare_oids m t) as [Hc|Hc|s ->|s -> Hs].
  - right; right. pose proof (memcmp_before (length m) m t [] rest Hm Ht Hc) as H. rewrite Hnil in H. cbv zeta in H.
    split; [|lia]. intros ->. by rewrite before_irrefl in Hc.
  - right; left. pose proof (memcmp_after (length m) m t [] rest Hm Ht Hc) as H. rewrite Hnil in H. cbv zeta in H.
    split; [|split; [by apply before_lt|lia]]. intros ->. by rewrite before_irrefl in Hc.
  - left. rewrite length_app in Hl. destruct s; [|cbn in Hl; lia]. rewrite Hnil. split; [done|].
    rewrite <- (Hnil m) at 2. by apply memcmp_refl.
  - rewrite length_app in Hl. destruct s; [done|cbn in Hl; lia].
Qed.

Lemma group_get ov t rest n : objects_ok ov -> small t -> room rest ->
  get_result t n rest (exact t (group_rows ov))
    (func_group_loop L (Z.of_nat (length t)) MASK_GET ov.*1 (packet limb n (t ++ rest)) w).
Proof.
  intros Hov Ht Hroom. revert rest Hroom. induction ov as [|[o v] ov IH]; intros rest Hroom.
  { exists rest. by destruct Hroom. }
  destruct (objects_ok_cons _ _ Hov) as ((Hlen & Hs & Hmne & Hle) & Ha & Hlater & Hov'). cbn [fst snd] in *.
  set (m := oid_match (leaf o)) in *.
  assert (Hrows : m <> t -> exact t (group_rows ((o, v) :: ov)) = exact t (group_rows ov)).
  { intros Hne. destruct v; [|done]. unfold exact, group_rows. cbn. fold m. by rewrite (bool_decide_eq_false_2 _ Hne). }
  cbn [fmap list_fmap fst func_group_loop]. fold m.
  change (flag MASK_GET RETURN_FIRST) with false. change (flag MASK_GET MASK_GET_NEXT) with false.
  change (flag MASK_GET MASK_GET) with true. change (flag MASK_GET MASK_SET) with false. cbn [orb andb negb].
  destruct (Z.eqb_spec (Z.of_nat (length t)) (oid_len (leaf o))) as [El|El]; cbn [negb].
  2: { rewrite Hrows by (intros ->; lia). by apply IH. }
  assert (Eml : u8 (Z.min (Z.of_nat (length t)) (oid_len (leaf o))) = Z.of_nat (length m)) by (unfold u8; rewrite Z.mod_small; lia).
  rewrite Eml. pose proof (packet_cmp_at limb n (t ++ rest) (Z.of_nat (length m)) m) as Hcmp.
  rewrite (lift_some _ _ _ _ (Hcmp ltac:(rewrite length_app; lia))), Nat2Z.id. clear Hcmp. cbn [andb orb].
  destruct (memcmp_eq m t rest Hs Ht ltac:(lia)) as [(E & Hc)|[(E & Hlt & Hc)|(E & Hc)]].
  - rewrite Hc. change (s8 0) with 0. cbn [Z.eqb andb orb]. unfold pret at 1. unfold pbind at 1.
    destruct Hroom as [Hl Hb]. destruct (Ha rest ltac:(lia) Hb) as (suf' & Hb' & H).
    destruct v as [tlv|].
    + destruct H as (Hv & Hvl & Hvb & Hls & Hf).
      erewrite pbind_some by (eapply packet_call; [lia|exact Hf]). cbn [fst snd].
      rewrite (eqb_false (Z.of_nat (length tlv)) 0) by (destruct tlv; [done|cbn; lia]).
      assert (exact t (group_rows ((o, Some tlv) :: ov)) = Some tlv) as ->.
      { unfold exact, group_rows. cbn. fold m. by rewrite bool_decide_eq_true_2. }
      exists suf'. split; [done|split; [lia|]]. unfold pret. do 3 f_equal. lia.
    + destruct H as [Hls Hf]. erewrite pbind_some by (eapply packet_call; [lia|exact Hf]). cbn [fst snd Z.eqb].
      assert (Hroom' : room suf') by (split; [lia|done]). pose proof (IH Hov' suf' Hroom') as H'.
      change (exact t (group_rows ((o, None) :: ov))) with (exact t (group_rows ov)).
      unfold get_result in H' |- *. by rewrite Hls in H'.
  - rewrite s8_small by lia. rewrite (eqb_false (memcmp _ _ _) 0) by lia. cbn [andb orb].
    rewrite (ltb_true 0) by lia. rewrite Hrows by done. rewrite exact_none; [by exists rest; destruct Hroom|].
    eapply Forall_impl; [exact Hlater|]. cbn. intros e He E'. rewrite E' in He. apply before_lt in He. by rewrite (oid_lt_asym _ _ He) in Hlt.
  - rewrite s8_small by lia. rewrite (eqb_false (memcmp _ _ _) 0) by lia. cbn [andb orb].
    rewrite (proj2 (Z.ltb_ge 0 _)) by lia. rewrite Hrows by done. by apply IH.
Qed.

(** A group of the tree. *)
Record group_ok ov : Prop := {
  gr_func : twig_func limb = func_group;
  gr_array : obj_array limb = ov.*1;
  gr_limb : small (limb_match limb) /\ (length (limb_match limb) <= 20)%nat;
  gr_objects : objects_ok ov }.

Lemma group_rows_ok ov : objects_ok ov ->
  StronglySorted (fun a b => oid_lt a.1 b.1 = true) (group_rows ov) /\ Forall entry_ok (group_rows ov).
Proof.
  induction ov as [|[o v] ov IH]; intros Hov; [by split; constructor|].
  destruct (objects_ok_cons _ _ Hov) as ((Hlen & Hs & Hmne & Hle) & Ha & Hlater & Hov'). cbn [fst snd] in *.
  destruct (IH Hov') as [H1 H2]. unfold group_rows. cbn [omap list_omap fst snd]. fold (group_rows ov).
  destruct v as [tlv|]; [|done]. cbn [fmap option_fmap option_map]. split; constructor; try done.
  - clear - Hlater. induction Hlater as [|[o' [v'|]] ov Hb _ IH]; cbn; [constructor| |exact IH].
    constructor; [by apply before_lt|exact IH].
  - destruct (Ha (replicate 40 0)) as (suf' & _ & H); [done|by apply Forall_replicate; unfold is_byte|].
    unfold entry_ok. cbn. tauto.
Qed.

(** A group keeps the promise. *)
Lemma group_serves ov : group_ok ov -> serves limb w (group_rows ov).
Proof.
  intros [Hf Harr [Hs Hl] Hov]. destruct (group_rows_ok ov Hov) as [Hsort Hrows].
  constructor; [done|done|done| | |].
  - intros t rest Ht Hroom. cbv zeta. rewrite Hf, Harr. unfold func_group.
    rewrite (lift_some _ _ _ _ (packet_get_len _ _ _)).
    replace (Z.of_nat (length (limb_match limb) + length t) - L) with (Z.of_nat (length t)) by lia.
    exact (group_get ov t rest (Z.of_nat (length (limb_match limb) + length t)) Hov Ht Hroom).
  - intros t rest Ht Hne Hlen Hroom. rewrite Hf, Harr. unfold func_group.
    rewrite (lift_some _ _ _ _ (packet_get_len _ _ _)).
    replace (Z.of_nat (length (limb_match limb) + length t) - L) with (Z.of_nat (length t)) by lia.
    apply group_next; done || lia.
  - intros n rest Hn Hroom. rewrite Hf, Harr. unfold func_group.
    rewrite (lift_some _ _ _ _ (packet_get_len _ _ _)). apply (group_from ov true); auto.
Qed.
End group.

(** ** The search through the branches *)
Section search.
Context {W Ptr : Type} (w : W).
Implicit Types (limb : snmp_oid_limb W Ptr) (tree : list (snmp_oid_limb W Ptr * list entry)).

(** The tree: its branches, and everything it serves in order. *)
Record tree_ok tree : Prop := {
  tr_serves : Forall (fun b => serves b.1 w b.2) tree;
  tr_sorted : StronglySorted (fun a b => before (limb_match a.1) (limb_match b.1) = true) tree }.
Definition under limb (e : entry) : entry := (limb_match limb ++ e.1, e.2).
Definition served tree : list entry := flat_map (fun b => map (under b.1) b.2) tree.

Lemma tree_ok_cons b tree : tree_ok (b :: tree) ->
  serves b.1 w b.2 /\ Forall (fun b' => before (limb_match b.1) (limb_match b'.1) = true) tree /\ tree_ok tree.
Proof.
  intros [H1 H2]. apply Forall_cons in H1 as [? ?]. apply StronglySorted_inv in H2 as [? ?]. done.
Qed.

Definition found (len : nat) (e : entry) (r : option (list Z * search_result * W)) : Prop :=
  exists rest', bytes rest' /\ (length e.1 + length e.2 + length rest' = len)%nat /\
    r = Some ((Z.of_nat (length e.1) :: e.1 ++ e.2 ++ rest', Found (Z.of_nat (length e.1 + length e.2))), w).
Definition not_found (len : nat) (r : option (list Z * search_result * W)) : Prop :=
  exists n rest', 0 <= n <= 40 /\ bytes rest' /\ length rest' = len /\ r = Some ((n :: rest', Not_found), w).
Definition search_next (len : nat) (e : option entry) (r : option (list Z * search_result * W)) : Prop :=
  match e with Some e => found len e r | None => not_found len r end.
(** Space for the OID of any branch and its value. *)
Definition space (Y : list Z) : Prop := (64 <= length Y)%nat /\ bytes Y.

(** A branch that is asked, in GETNEXT: it has the answer, or the search goes
    on behind it. *)
Lemma limb_asked limb (rest : list (snmp_oid_limb W Ptr)) first Y n cmp e :
  small (limb_match limb) /\ (length (limb_match limb) <= 20)%nat -> from_option entry_ok True e -> space Y ->
  packet_cmp (Z.min (Z.of_nat (length (limb_match limb))) n) (limb_match limb) (n :: Y) 1 = Some cmp ->
  first = (0 <? cmp) || ((n <=? Z.of_nat (length (limb_match limb))) && (cmp =? 0)) ->
  first = true \/ Z.of_nat (length (limb_match limb)) < n /\ cmp = 0 ->
  found_or_missed limb w (length Y - length (limb_match limb)) e
    (twig_func limb (packet limb n (drop (length (limb_match limb)) Y)) (Z.of_nat (length (limb_match limb))) (obj_array limb)
       (next_flags first) w) ->
  match e with
  | Some e => found (length Y) (under limb e) (respond_loop MASK_GET_NEXT (limb :: rest) (n :: Y) w)
  | None => exists n' Y', 0 <= n' <= 40 /\ bytes Y' /\ (length (limb_match limb) + length Y' = length Y)%nat /\
      respond_loop MASK_GET_NEXT (limb :: rest) (n :: Y) w = respond_loop MASK_GET_NEXT rest (n' :: limb_match limb ++ Y') w
  end.
Proof.
  intros [Hs Hl] He [HY Hb] Hcmp Hfirst Hcase Htwig. set (L := limb_match limb) in *.
  assert (Hset : set_at (n :: Y) 1 L = Some (packet limb n (drop (length L) Y))).
  { rewrite <- (take_drop (length L) Y) at 1.
    apply (set_at_mid [n] (take (length L) Y) L (drop (length L) Y)); [done|rewrite length_take; lia]. }
  assert (E : respond_loop MASK_GET_NEXT (limb :: rest) (n :: Y) w =
    (let? (buf, res) := twig_func limb (packet limb n (drop (length L) Y)) (Z.of_nat (length L)) (obj_array limb) (next_flags first) in
     if 0 <? res then
       let? buf := (let? n := lift (get8 buf 0) in lift (set_at buf 0 [u8 (n + Z.of_nat (length L))])) in
       pret (buf, Found (Z.of_nat (length L) + res))
     else if res =? 0 then respond_loop MASK_GET_NEXT rest buf else pret (buf, Error (u8 (- res)))) w).
  { cbn [respond_loop]. rewrite (lift_some _ _ w n) by done. fold L.
    change (flag MASK_GET_NEXT MASK_GET) with false. change (flag MASK_GET_NEXT MASK_SET) with false.
    change (flag MASK_GET_NEXT MASK_GET_NEXT) with true. cbn [orb andb]. rewrite (lift_some _ _ w _ Hcmp). rewrite <- Hfirst.
    assert (Hf : (if first then Z.lor MASK_GET_NEXT RETURN_FIRST else MASK_GET_NEXT) = next_flags first) by by destruct first.
    rewrite Hf. cbn [orb]. rewrite (proj2 (proj2 (proj2 (flags_next first)))).
    assert (Hgo : (Z.of_nat (length L) =? (if first then Z.of_nat (length L) else Z.min (Z.of_nat (length L)) n)) && (cmp =? 0) || first = true).
    { destruct Hcase as [->|[? ->]]; [apply orb_true_r|]. destruct first; [apply orb_true_r|]. rewrite Z.min_l, !Z.eqb_refl by lia. done. }
    rewrite Hgo, (lift_some _ _ w _ Hset).
    assert (Hm : (if first then Z.of_nat (length L) else Z.min (Z.of_nat (length L)) n) = Z.of_nat (length L)).
    { destruct first; [done|]. destruct Hcase as [?|[? _]]; [done|lia]. }
    by rewrite Hm. }
  rewrite E. clear E Hcmp Hset. destruct e as [e|].
  - destruct Htwig as (rest' & Hb' & Hlen & Htwig). destruct He as (Hne & Hle & Hse & _).
    rewrite (pbind_some _ _ _ _ _ Htwig). cbn [fst snd].
    rewrite (ltb_true 0) by (destruct e.1; [done|cbn; lia]). exists rest'. split; [done|]. unfold under. cbn [fst snd].
    split; [rewrite length_app; fold L; lia|]. unfold pbind, lift. cbn [fmap option_fmap option_map get8].
    rewrite packet_get_len. cbn [fmap option_fmap option_map]. rewrite packet_set_len. cbn [fmap option_fmap option_map].
    unfold packet, u8. rewrite Z.mod_small by lia. fold L. rewrite <- app_assoc, length_app. unfold pret. do 4 f_equal; lia.
  - destruct Htwig as (n' & Y' & Hn' & Hb' & Hl' & Htwig). exists n', Y'. split; [done|split; [done|split; [lia|]]].
    by rewrite (pbind_some _ _ _ _ _ Htwig).
Qed.

Lemma head_ok (rows : list entry) : Forall entry_ok rows -> from_option entry_ok True (head rows).
Proof. by intros [|]. Qed.
Lemma successor_ok t (rows : list entry) : Forall entry_ok rows -> from_option entry_ok True (successor t rows).
Proof. induction 1 as [|e rows He _ IH]; [done|]. unfold successor. cbn. by destruct (oid_lt t e.1). Qed.

Lemma branch_cmp ml (oid Y : list Z) (n : Z) : 0 <= ml <= Z.of_nat (length Y) ->
  -128 <= memcmp (Z.to_nat ml) oid Y < 128 -> packet_cmp ml oid (n :: Y) 1 = Some (memcmp (Z.to_nat ml) oid Y).
Proof.
  intros Hml Hc. unfold packet_cmp. rewrite (proj2 (Z.leb_le (1 + ml) _)) by (cbn [length]; lia).
  cbn. by rewrite s8_small.
Qed.

(** Behind a branch that has been asked, every branch is asked for its first
    entry. *)
Lemma search_from tree m z n : tree_ok tree -> small m -> Forall (fun b => before m (limb_match b.1) = true) tree ->
  0 <= n <= 40 -> space (m ++ z) ->
  search_next (length (m ++ z)) (head (served tree)) (respond_loop MASK_GET_NEXT tree.*1 (n :: m ++ z) w).
Proof.
  revert m z n. induction tree as [|[limb rows] tree IH]; intros m z n Htree Hm Hbefore Hn Hsp.
  { exists n, (m ++ z). by destruct Hsp. }
  destruct (tree_ok_cons _ _ Htree) as (Hsv & Hlater & Htree'). apply Forall_cons in Hbefore as [Hb _]. cbn [fst snd] in *.
  destruct Hsv as [[Hs Hl] _ Hrows _ _ Hfirst]. set (L := limb_match limb) in *.
  set (ml := Z.min (Z.of_nat (length L)) n). assert (Hml : 0 <= ml <= Z.of_nat (length L) /\ ml <= n) by (unfold ml; lia). destruct Hsp as [Hlen Hbytes].
  pose proof (memcmp_after (Z.to_nat ml) L m [] z Hs Hm Hb) as Hc. rewrite app_nil_r in Hc. cbv zeta in Hc.
  assert (Hcmp : packet_cmp ml L (n :: m ++ z) 1 = Some (memcmp (Z.to_nat ml) L (m ++ z))).
  { apply branch_cmp; lia. }
  assert (Hf : true = (0 <? memcmp (Z.to_nat ml) L (m ++ z)) || ((n <=? Z.of_nat (length L)) && (memcmp (Z.to_nat ml) L (m ++ z) =? 0))).
  { destruct Hc as [(H1 & H2 & ->)|H]; [|by rewrite (ltb_true 0) by lia].
    rewrite (proj2 (Z.leb_le n _)) by lia. done. }
  assert (Hroom : room (drop (length L) (m ++ z))) by (split; [rewrite length_drop; lia|by apply Forall_drop]).
  pose proof (Hfirst n (drop (length L) (m ++ z)) Hn Hroom) as Htwig. rewrite length_drop in Htwig.
  pose proof (limb_asked limb tree.*1 true (m ++ z) n _ (head rows) (conj Hs Hl) (head_ok _ Hrows) (conj Hlen Hbytes) Hcmp Hf
    (or_introl eq_refl) Htwig) as H.
  cbn [fmap list_fmap fst]. cbn [served flat_map fst snd]. fold (served tree).
  destruct rows as [|e rows]; [|exact H]. cbn [map app head] in H |- *.
  destruct H as (n' & Y' & Hn' & HbY & HlY & ->). fold L in HlY |- *. rewrite <- HlY, <- length_app.
  apply IH; [done|done|done|lia|]. split; [rewrite length_app; lia|]. apply bytes_app. split; [by apply small_bytes|done].
Qed.

(** The order of what the branches serve. *)
Lemma served_after tree m s t : Forall (fun b => before m (limb_match b.1) = true) tree -> oid_lt t (m ++ s) = true \/ t = m ++ s ->
  successor t (served tree) = head (served tree).
Proof.
  intros H Ht. induction H as [|[limb rows] tree Hb _ IH]; [done|].
  cbn [served flat_map fst snd]. fold (served tree). destruct rows as [|e rows]; [exact IH|]. cbn [map app head]. unfold successor.
  assert (Hlt : oid_lt (m ++ s) (under limb e).1 = true) by (apply before_lt, before_app; done).
  cbn [List.find]. destruct Ht as [Ht| ->]; [by rewrite (oid_lt_trans _ _ _ Ht Hlt)|by rewrite Hlt].
Qed.
Lemma successor_app t l1 l2 : successor t (l1 ++ l2) = match successor t l1 with Some e => Some e | None => successor t l2 end.
Proof. unfold successor. induction l1 as [|e l1 IH]; [done|]. cbn. by destruct (oid_lt t e.1). Qed.
Lemma successor_under limb t rows : successor (limb_match limb ++ t) (map (under limb) rows) = under limb <$> successor t rows.
Proof.
  unfold successor. induction rows as [|e rows IH]; [done|]. cbn. rewrite oid_lt_app. by destruct (oid_lt t e.1).
Qed.
Lemma successor_none t (l : list entry) : Forall (fun e => oid_lt t e.1 = false) l -> successor t l = None.
Proof. unfold successor. induction 1 as [|e l He _ IH]; [done|]. cbn. by rewrite He. Qed.

(** GETNEXT: the first entry behind [R]. *)
Lemma search_next_spec tree R z : tree_ok tree -> small R -> (length R <= 40)%nat -> space (R ++ z) -> (44 <= length z)%nat ->
  search_next (length (R ++ z)) (successor R (served tree))
    (respond_loop MASK_GET_NEXT tree.*1 (Z.of_nat (length R) :: R ++ z) w).
Proof.
  intros Htree HR HlR Hsp Hz. induction tree as [|[limb rows] tree IH].
  { exists (Z.of_nat (length R)), (R ++ z). destruct Hsp. repeat split; (done || lia). }
  destruct (tree_ok_cons _ _ Htree) as (Hsv & Hlater & Htree'). cbn [fst snd] in *. specialize (IH Htree').
  destruct Hsv as [[Hs Hl] _ Hrows _ Hnext Hfirst]. set (L := limb_match limb) in *.
  set (ml := Z.min (Z.of_nat (length L)) (Z.of_nat (length R))) in *.
  assert (Hml : 0 <= ml <= Z.of_nat (length L) /\ ml <= Z.of_nat (length R) /\ (ml = Z.of_nat (length L) \/ ml = Z.of_nat (length R))) by (unfold ml; lia).
  destruct Hsp as [Hlen Hbytes].
  assert (Hcmp : -128 <= memcmp (Z.to_nat ml) L (R ++ z) < 128 ->
    packet_cmp ml L (Z.of_nat (length R) :: R ++ z) 1 = Some (memcmp (Z.to_nat ml) L (R ++ z))).
  { intros Hc. apply branch_cmp; [rewrite length_app; lia|done]. }
  assert (Hnil : L ++ [] = L) by apply app_nil_r.
  cbn [fmap list_fmap fst]. cbn [served flat_map fst snd]. fold (served tree). rewrite successor_app.
  assert (Hroom : room (drop (length L) (R ++ z))) by (split; [rewrite length_drop; lia|by apply Forall_drop]).
  (* the branch is asked for its first entry *)
  assert (Hask : oid_lt R L = true \/ R = L -> -128 <= memcmp (Z.to_nat ml) L (R ++ z) < 128 ->
    0 < memcmp (Z.to_nat ml) L (R ++ z) \/ (length R <= length L)%nat /\ memcmp (Z.to_nat ml) L (R ++ z) = 0 ->
    search_next (length (R ++ z)) (match successor R (map (under limb) rows) with Some e => Some e | None => successor R (served tree) end)
      (respond_loop MASK_GET_NEXT (limb :: tree.*1) (Z.of_nat (length R) :: R ++ z) w)).
  { intros Hlt Hr Hc. assert (Hf : true = (0 <? memcmp (Z.to_nat ml) L (R ++ z)) || ((Z.of_nat (length R) <=? Z.of_nat (length L)) && (memcmp (Z.to_nat ml) L (R ++ z) =? 0))).
    { destruct Hc as [H|[H ->]]; [by rewrite (ltb_true 0) by lia|]. by rewrite (proj2 (Z.leb_le (Z.of_nat (length R)) _)) by lia. }
    pose proof (Hfirst (Z.of_nat (length R)) (drop (length L) (R ++ z)) ltac:(lia) Hroom) as Htwig. rewrite length_drop in Htwig.
    pose proof (limb_asked limb tree.*1 true (R ++ z) _ _ (head rows) (conj Hs Hl) (head_ok _ Hrows) (conj Hlen Hbytes) (Hcmp Hr) Hf
      (or_introl eq_refl) Htwig) as H.
    destruct rows as [|e rows].
    - cbn [map head] in H |- *. destruct H as (n' & Y' & Hn' & HbY & HlY & ->). fold L in HlY |- *.
      unfold successor at 1. cbn [List.find]. rewrite (served_after tree L [] R); [|done|rewrite app_nil_r; exact Hlt].
      rewrite <- HlY, <- length_app. apply search_from; [done|done|done|lia|].
      split; [rewrite length_app; lia|]. apply bytes_app. split; [by apply small_bytes|done].
    - cbn [map head] in H |- *. unfold successor at 1. cbn [List.find].
      apply Forall_cons in Hrows as [(Hne & _) _]. destruct e as [t v]. cbn [under fst snd] in Hne, H |- *. fold L in H |- *.
      assert (oid_lt R (L ++ t) = true) as ->; [|exact H].
      destruct Hlt as [Hlt| ->]; [|by apply oid_lt_prefix]. eapply oid_lt_trans; [exact Hlt|by apply oid_lt_prefix]. }
  destruct (compare_oids L R) as [Hc|Hc|t Hc|s Hc Hsne].
  - (* behind the branch *)
    pose proof (memcmp_before (Z.to_nat ml) L R [] z Hs HR Hc) as H. rewrite Hnil in H. cbv zeta in H.
    assert (successor R (map (under limb) rows) = None) as ->.
    { apply successor_none, Forall_map, Forall_true. intros e. cbn. apply oid_lt_asym. fold L.
      rewrite <- (app_nil_r R). by apply before_lt, before_app. }
    cbn [respond_loop]. rewrite (lift_some _ _ w (Z.of_nat (length R))) by done. fold L.
    change (flag MASK_GET_NEXT MASK_GET) with false. change (flag MASK_GET_NEXT MASK_SET) with false.
    change (flag MASK_GET_NEXT MASK_GET_NEXT) with true. cbn [orb andb]. fold ml.
    rewrite (lift_some _ _ w _ (Hcmp ltac:(lia))). rewrite (eqb_false (memcmp _ _ _) 0) by lia.
    rewrite (proj2 (Z.ltb_ge 0 _)) by lia. rewrite !andb_false_r. cbn [orb]. exact IH.
  - pose proof (memcmp_after (Z.to_nat ml) L R [] z Hs HR Hc) as H. rewrite Hnil in H. cbv zeta in H.
    apply Hask; [left; by apply before_lt|lia|lia].
  - destruct t as [|x t].
    + rewrite app_nil_r in Hc. assert (Hm : memcmp (Z.to_nat ml) L (R ++ z) = 0).
      { rewrite Hc. rewrite <- Hnil at 1. apply memcmp_refl. lia. }
      apply Hask; [by right|lia|right; split; [rewrite Hc; lia|done]].
    + (* inside the branch *)
      set (t' := x :: t) in *. assert (Ht1 : (0 < length t')%nat) by (cbn; lia). assert (Hm : memcmp (Z.to_nat ml) L (R ++ z) = 0).
      { rewrite Hc, <- app_assoc. rewrite <- Hnil at 1. apply memcmp_refl. lia. }
      assert (HlRt : length R = (length L + length t')%nat) by by rewrite Hc, length_app.
      assert (Hdrop : drop (length L) (R ++ z) = t' ++ z) by (rewrite Hc, <- app_assoc; apply drop_app_length).
      assert (Hst : small t') by (rewrite Hc in HR; by apply Forall_app in HR as [_ ?]).
      pose proof (Hnext t' z Hst ltac:(done) ltac:(lia)) as Htwig.
      rewrite <- HlRt in Htwig. rewrite <- Hdrop in Htwig.
      replace (length t' + length z)%nat with (length (R ++ z) - length L)%nat in Htwig by (rewrite length_app; lia).
      assert (Hf : false = (0 <? memcmp (Z.to_nat ml) L (R ++ z)) || ((Z.of_nat (length R) <=? Z.of_nat (length L)) && (memcmp (Z.to_nat ml) L (R ++ z) =? 0))).
      { rewrite Hm. rewrite (proj2 (Z.leb_gt _ _)) by lia. done. }
      pose proof (limb_asked limb tree.*1 false (R ++ z) (Z.of_nat (length R)) (memcmp (Z.to_nat ml) L (R ++ z)) (successor t' rows) (conj Hs Hl) (successor_ok _ _ Hrows) (conj Hlen Hbytes)
        (Hcmp ltac:(lia)) Hf ltac:(right; split; [fold L; lia|done])
        (Htwig ltac:(split; [done|by apply bytes_app in Hbytes as [_ ?]]))) as H.
      assert (successor R (map (under limb) rows) = under limb <$> successor t' rows) as ->.
      { rewrite Hc. apply successor_under. }
      destruct (successor t' rows) as [e|]; [exact H|]. cbn [fmap option_fmap option_map].
      destruct H as (n' & Y' & Hn' & HbY & HlY & ->). rewrite (served_after tree L t' R); [|done|by right].
      rewrite <- HlY, <- length_app. apply search_from; [done|done|done|lia|].
      split; [rewrite length_app; lia|]. apply bytes_app. split; [by apply small_bytes|done].
  - assert (HlRL : length L = (length R + length s)%nat) by by rewrite Hc, length_app.
    assert (Hm : memcmp (Z.to_nat ml) L (R ++ z) = 0).
    { rewrite Hc. apply memcmp_refl. lia. }
    apply Hask; [left; rewrite Hc; by apply oid_lt_prefix|lia|right; split; [lia|done]].
Qed.

(** GET: the entry with the OID [R]. *)
Lemma exact_app t l1 l2 : exact t (l1 ++ l2) = match exact t l1 with Some v => Some v | None => exact t l2 end.
Proof. unfold exact. induction l1 as [|e l1 IH]; [done|]. cbn. by destruct (bool_decide (e.1 = t)). Qed.
Lemma exact_miss t (l : list entry) : Forall (fun e => e.1 <> t) l -> exact t l = None.
Proof. unfold exact. induction 1 as [|e l He _ IH]; [done|]. cbn. by rewrite (bool_decide_eq_false_2 _ He). Qed.
Lemma exact_under limb t rows : exact (limb_match limb ++ t) (map (under limb) rows) = exact t rows.
Proof.
  unfold exact. induction rows as [|e rows IH]; [done|]. cbn.
  rewrite (bool_decide_ext (limb_match limb ++ e.1 = limb_match limb ++ t) (e.1 = t)) by (split; [apply app_inv_head|by intros ->]).
  by destruct (bool_decide (e.1 = t)).
Qed.
Lemma exact_other limb R rows : (forall t, limb_match limb ++ t <> R) -> exact R (map (under limb) rows) = None.
Proof. intros H. apply exact_miss, Forall_map, Forall_true. intros e. apply H. Qed.
Lemma before_ne a b s t : before a b = true -> a ++ s <> b ++ t.
Proof. intros H E. apply (before_app _ _ s t) in H. by rewrite E, before_irrefl in H. Qed.
Lemma exact_before tree R : Forall (fun b => before R (limb_match b.1) = true) tree -> exact R (served tree) = None.
Proof.
  induction 1 as [|[limb rows] tree Hb _ IH]; [done|]. cbn [served flat_map fst snd] in *. rewrite exact_app, exact_other; [exact IH|].
  intros t E. apply (before_ne _ _ [] t Hb). by rewrite app_nil_r.
Qed.

(** One branch, in GET. *)
Lemma limb_get limb (rest : list (snmp_oid_limb W Ptr)) R z c : (length (limb_match limb) <= length R)%nat ->
  memcmp (length (limb_match limb)) (limb_match limb) (R ++ z) = c -> -128 <= c < 128 ->
  respond_loop MASK_GET (limb :: rest) (Z.of_nat (length R) :: R ++ z) w =
  (if c =? 0 then
     let? (buf, res) := twig_func limb (Z.of_nat (length R) :: R ++ z) (Z.of_nat (length (limb_match limb))) (obj_array limb) MASK_GET in
     if 0 <? res then pret (buf, Found (Z.of_nat (length (limb_match limb)) + res))
     else if res =? 0 then respond_loop MASK_GET rest buf else pret (buf, Error (u8 (- res)))
   else if 0 <? c then pret (Z.of_nat (length R) :: R ++ z, Not_found)
   else respond_loop MASK_GET rest (Z.of_nat (length R) :: R ++ z)) w.
Proof.
  intros Hl <- Hc. cbn [respond_loop]. rewrite (lift_some _ _ w (Z.of_nat (length R))) by done.
  change (flag MASK_GET MASK_GET) with true. change (flag MASK_GET MASK_GET_NEXT) with false. cbn [orb andb].
  rewrite (proj2 (Z.ltb_ge _ _)) by lia. rewrite Z.min_l by lia.
  assert (Hcmp : packet_cmp (Z.of_nat (length (limb_match limb))) (limb_match limb) (Z.of_nat (length R) :: R ++ z) 1 =
    Some (memcmp (length (limb_match limb)) (limb_match limb) (R ++ z))).
  { rewrite branch_cmp; rewrite ?Nat2Z.id; [done|rewrite length_app; lia|done]. }
  rewrite (lift_some _ _ w _ Hcmp), Z.eqb_refl. cbn [andb]. change (flag MASK_GET RETURN_FIRST) with false. rewrite orb_false_r.
  by destruct (_ =? 0).
Qed.
Lemma limb_get_short limb (rest : list (snmp_oid_limb W Ptr)) R z : (length R < length (limb_match limb))%nat ->
  respond_loop MASK_GET (limb :: rest) (Z.of_nat (length R) :: R ++ z) w =
  respond_loop MASK_GET rest (Z.of_nat (length R) :: R ++ z) w.
Proof.
  intros Hl. cbn [respond_loop]. rewrite (lift_some _ _ w (Z.of_nat (length R))) by done.
  change (flag MASK_GET MASK_GET) with true. cbn [orb andb]. by rewrite (ltb_true (Z.of_nat (length R))) by lia.
Qed.

Definition got R (n : nat) (v : option (list Z)) (r : option (list Z * search_result * W)) : Prop :=
  exists rest', bytes rest' /\ (length (default [] v) + length rest' = n)%nat /\
    r = Some ((Z.of_nat (length R) :: R ++ default [] v ++ rest',
               if v is Some v then Found (Z.of_nat (length R + length v)) else Not_found), w).

Lemma exact_nonempty t (rows : list entry) v : Forall entry_ok rows -> exact t rows = Some v -> v <> [].
Proof.
  induction 1 as [|e rows He _ IH]; [done|]. unfold exact. cbn. destruct (bool_decide (e.1 = t)); [|exact IH].
  intros [= <-]. by destruct He as (_ & _ & _ & ? & _).
Qed.

Lemma search_get tree R z : tree_ok tree -> small R -> (length R <= 40)%nat -> room z ->
  got R (length z) (exact R (served tree)) (respond_loop MASK_GET tree.*1 (Z.of_nat (length R) :: R ++ z) w).
Proof.
  intros Htree HR HlR. revert z. induction tree as [|[limb rows] tree IH]; intros z Hroom.
  { exists z. by destruct Hroom. }
  destruct (tree_ok_cons _ _ Htree) as (Hsv & Hlater & Htree'). cbn [fst snd] in *. specialize (IH Htree').
  destruct Hsv as [[Hs Hl] _ Hrows Hget _ _].
  cbn [fmap list_fmap fst served flat_map snd]. fold (served tree). rewrite exact_app.
  destruct (Nat.lt_ge_cases (length R) (length (limb_match limb))) as [Hlt|Hge].
  { rewrite exact_other by (intros t <-; rewrite length_app in Hlt; lia). rewrite limb_get_short by done. by apply IH. }
  assert (Hnil : limb_match limb ++ [] = limb_match limb) by apply app_nil_r.
  destruct (compare_oids (limb_match limb) R) as [Hc|Hc|t Hc|s Hc Hsne].
  - pose proof (memcmp_before (length (limb_match limb)) _ R [] z Hs HR Hc) as H. rewrite Hnil in H. cbv zeta in H.
    rewrite (limb_get limb _ R z _ Hge eq_refl) by lia. rewrite (eqb_false (memcmp _ _ _) 0) by lia.
    rewrite (proj2 (Z.ltb_ge 0 (memcmp _ _ _))) by lia. rewrite exact_other; [by apply IH|].
    intros t E. apply (before_ne _ _ t [] Hc). by rewrite app_nil_r.
  - pose proof (memcmp_after (length (limb_match limb)) _ R [] z Hs HR Hc) as H. rewrite Hnil in H. cbv zeta in H.
    rewrite (limb_get limb _ R z _ Hge eq_refl) by lia. rewrite (eqb_false (memcmp _ _ _) 0) by lia.
    rewrite (ltb_true 0) by lia. destruct Hroom as [Hlz Hb].
    rewrite exact_other; [|intros t E; apply (before_ne _ _ [] t Hc); by rewrite app_nil_r].
    rewrite exact_before; [by exists z|]. eapply Forall_impl; [exact Hlater|]. intros b Hb'. by eapply before_trans.
  - assert (Hm : memcmp (length (limb_match limb)) (limb_match limb) (R ++ z) = 0).
    { rewrite Hc, <- app_assoc. rewrite <- Hnil at 2. by apply memcmp_refl. }
    rewrite (limb_get limb _ R z _ Hge Hm) by lia. cbn [Z.eqb].
    assert (HlRt : (length (limb_match limb) + length t)%nat = length R) by by rewrite Hc, length_app.
    assert (Hst : small t) by (rewrite Hc in HR; by apply Forall_app in HR as [_ ?]).
    pose proof (Hget t z Hst Hroom) as H. cbv zeta in H. rewrite HlRt in H.
    assert (Hp : forall y, packet limb (Z.of_nat (length R)) (t ++ y) = Z.of_nat (length R) :: R ++ y).
    { intros y. unfold packet. by rewrite Hc, <- app_assoc. }
    assert (exact R (map (under limb) rows) = exact t rows) as -> by (rewrite Hc; apply exact_under).
    rewrite Hp in H. destruct (exact t rows) as [v|] eqn:Ev.
    + destruct H as (rest' & Hb & Hlv & H). rewrite (pbind_some _ _ _ _ _ H). apply exact_nonempty in Ev; [|done].
      cbv beta iota. rewrite (ltb_true 0) by (destruct v; [done|cbn; lia]). exists rest'. cbn [default].
      split; [done|split; [done|]]. rewrite Hp. unfold pret. do 4 f_equal. lia.
    + destruct H as (rest' & Hb & Hlv & H). rewrite (pbind_some _ _ _ _ _ H). cbv beta iota. cbn [Z.ltb Z.eqb Z.compare].
      rewrite Hp, <- Hlv. apply IH. split; [destruct Hroom; lia|done].
  - exfalso. assert (HlRL : length (limb_match limb) = (length R + length s)%nat) by by rewrite Hc, length_app.
    destruct s; [done|cbn in *; lia].
Qed.
End search.

(** ** The answer to a request *)
Section answer.
Context {W Ptr : Type} `{!SnmpVersion W}.
Implicit Types tree : list (snmp_oid_limb W Ptr * list entry).

(** A request as it is received: the message, and what is left of the 172 bytes
    that [snmp_poll] has for the payload of a UDP packet. *)
Record request (pdu ver : Z) (reqid oid val : list Z) (buf : list Z) : Prop := {
  rq_ver : 0 <= ver <= 1;
  rq_id : bytes reqid /\ (length reqid <= 4)%nat;
  rq_oid : small oid /\ (length oid <= 40)%nat;
  rq_buf : exists pad, bytes (val ++ pad) /\ buf = snmp_message pdu ver reqid 0 0 oid val ++ pad;
  rq_length : length buf = 172%nat }.
(** The answer sent: the first [size] bytes. *)
Definition answer (r : option (list Z * Z * W)) (w : W) (msg : list Z) : Prop :=
  exists buf, r = Some ((buf, Z.of_nat (length msg)), w) /\ take (length msg) buf = msg /\ length buf = 172%nat /\
    bytes buf /\ (length msg <= 113)%nat.

Lemma length_sized_header ver pdu reqid err idx n : length (sized_header ver pdu reqid err idx n) = (28 + length reqid)%nat.
Proof. apply length_header. Qed.
Lemma bytes_sized_header ver pdu reqid err idx n :
  is_byte ver -> is_byte pdu -> bytes reqid -> (length reqid <= 4)%nat -> is_byte err -> is_byte idx -> 0 <= n < 225 ->
  bytes (sized_header ver pdu reqid err idx n).
Proof.
  intros. unfold sized_header. rewrite bytes_header. unfold is_byte in *.
  repeat match goal with |- _ /\ _ => split end; try done; lia.
Qed.

(** What [snmp_respond] does with a request, up to the search. *)
Lemma respond_request set pdu ver reqid oid val buf pad tree w :
  request pdu ver reqid oid val buf -> bytes (val ++ pad) -> buf = snmp_message pdu ver reqid 0 0 oid val ++ pad ->
  pdu ∈ [SNMP_GET; SNMP_GET_NEXT; SNMP_SET] -> (pdu = SNMP_SET -> set = true) ->
  let n := Z.of_nat (length oid) + Z.of_nat (length val) in
  let hdr := sized_header ver pdu reqid 0 0 n in
  bytes hdr /\ (length oid + length (val ++ pad) = 143 - length reqid)%nat /\
  snmp_respond set tree.*1 buf w =
  (let? (rest, r) := respond_loop (pdu_mode pdu) tree.*1 (Z.of_nat (length oid) :: oid ++ val ++ pad) in
   let buf := hdr ++ rest in
   match r with
   | Error e => lift (snmp_prepare_error buf e)
   | Not_found => lift (snmp_prepare_error buf SNMP_ERR_NOSUCHNAME)
   | Found size =>
       let size := 29 + Z.of_nat (length reqid) + size in
       let? buf := lift (snmp_fix_size buf size) in
       pret (buf, size)
   end) (set_snmp_version ver w).
Proof.
  intros [Hv [Hib Hil] [Hos Hol] _ Hlen] Hvb -> Hpdu Hset n hdr.
  rewrite length_app, length_message in Hlen.
  assert (Hhdr : bytes hdr).
  { apply bytes_sized_header; try done; unfold is_byte in *; try lia.
    repeat (apply elem_of_cons in Hpdu as [->|Hpdu]); [done..|by apply elem_of_nil in Hpdu]. }
  split; [done|]. split; [rewrite length_app; lia|].
  rewrite snmp_message_eq. fold n hdr. rewrite <- app_assoc. cbn [app]. rewrite <- app_assoc.
  unfold snmp_respond. erewrite pbind_some.
  2: { unfold hdr, sized_header. apply match_header_spec; [|done|lia|done|done]. rewrite bytes_app. split; [exact Hhdr|].
       rewrite bytes_cons, bytes_app. split; [unfold is_byte; lia|split; [by apply small_bytes|done]]. }
  cbv beta iota zeta.
  replace (Z.to_nat (28 + Z.of_nat (length reqid))) with (length hdr) by (unfold hdr; rewrite length_sized_header; lia).
  rewrite drop_app_length, take_app_length. unfold pbind.
  destruct (respond_loop _ _ _ _) as [[[rest [size|e|]] w']|]; try done.
  replace (28 + Z.of_nat (length reqid) + 1) with (29 + Z.of_nat (length reqid)) by lia. done.
Qed.

Lemma bytes_message pdu ver reqid err idx oid v : is_byte ver -> is_byte pdu -> bytes reqid -> (length reqid <= 4)%nat -> is_byte err ->
  is_byte idx -> bytes (oid ++ v) -> (length oid + length v <= 80)%nat -> bytes (snmp_message pdu ver reqid err idx oid v).
Proof.
  intros. rewrite snmp_message_eq, bytes_app, bytes_cons. split; [apply bytes_sized_header; done || lia|].
  split; [unfold is_byte; lia|done].
Qed.

(** An answer with a value. *)
Lemma respond_found ver reqid pdu n oid v rest w :
  bytes (sized_header ver pdu reqid 0 0 n) -> 0 <= ver <= 1 -> bytes reqid /\ (length reqid <= 4)%nat ->
  bytes (oid ++ v ++ rest) -> (length oid + length v <= 80)%nat -> (length oid + length v + length rest = 143 - length reqid)%nat ->
  answer (let size := 29 + Z.of_nat (length reqid) + Z.of_nat (length oid + length v) in
    (let? buf := lift (snmp_fix_size (sized_header ver pdu reqid 0 0 n ++ Z.of_nat (length oid) :: oid ++ v ++ rest) size) in
     pret (buf, size)) w) w (snmp_message SNMP_GET_RESPONSE ver reqid 0 0 oid v).
Proof.
  intros Hh Hv [Hib Hil] Hb Hlen Htot. cbv zeta.
  exists (snmp_message SNMP_GET_RESPONSE ver reqid 0 0 oid v ++ rest). split; [|split].
  - erewrite lift_some.
    2: { unfold sized_header at 1. apply snmp_fix_size_spec; [|done|lia|lia]. rewrite bytes_app. split; [exact Hh|].
         rewrite bytes_cons. split; [unfold is_byte; lia|done]. }
    unfold pret. do 2 f_equal. rewrite snmp_message_eq, <- app_assoc. cbn [app]. rewrite <- app_assoc. f_equal; [f_equal; f_equal; lia|].
    rewrite length_app, length_sized_header. cbn. rewrite length_app. lia.
  - apply take_app_length.
  - rewrite length_app, length_message. split; [lia|split; [|lia]]. rewrite app_assoc, !bytes_app in Hb. destruct Hb as [Hb Hbr].
    apply bytes_app. split; [|done]. apply bytes_message; try done; try (by apply bytes_app); unfold is_byte, SNMP_GET_RESPONSE; lia.
Qed.

(** An error answer: the OID is what the search left in the packet. *)
Lemma respond_error ver reqid pdu n error k rest w :
  bytes (sized_header ver pdu reqid 0 0 n) -> 0 <= ver <= 1 -> bytes reqid /\ (length reqid <= 4)%nat ->
  bytes rest -> (length rest = 143 - length reqid)%nat -> 0 <= k <= 40 -> is_byte error ->
  answer (lift (snmp_prepare_error (sized_header ver pdu reqid 0 0 n ++ k :: rest) error) w) w
    (snmp_message SNMP_GET_RESPONSE ver reqid error 1 (take (Z.to_nat k) rest) [ASN_NULL; 0]).
Proof.
  intros Hh Hv [Hib Hil] Hb Hlen Hk He. set (oid := take (Z.to_nat k) rest).
  assert (Hlo : length oid = Z.to_nat k) by (unfold oid; rewrite length_take; lia).
  destruct (drop (Z.to_nat k) rest) as [|y1 [|y2 rest']] eqn:Ed;
    [apply (f_equal length) in Ed; rewrite length_drop in Ed; cbn in Ed; lia..|].
  assert (Er : rest = oid ++ y1 :: y2 :: rest') by (rewrite <- Ed; symmetry; apply take_drop).
  assert (Hk' : k = Z.of_nat (length oid)) by lia. rewrite Er, Hk' in *. clear Er Hk' Ed.
  exists (snmp_message SNMP_GET_RESPONSE ver reqid error 1 oid [ASN_NULL; 0] ++ rest'). split; [|split].
  - unfold lift, sized_header. rewrite snmp_prepare_error_header; [|exact Hh|done|done|lia|done].
    cbn [fmap option_fmap option_map]. rewrite length_message. cbn [length]. do 3 f_equal. lia.
  - apply take_app_length.
  - rewrite length_app. rewrite length_message. rewrite length_app in Hlen. cbn [length] in *. split; [lia|split; [|lia]].
    rewrite bytes_app, !bytes_cons in Hb. destruct Hb as (Hbo & _ & _ & Hbr).
    apply bytes_app. split; [|done]. apply bytes_message; try done; try (unfold is_byte, SNMP_GET_RESPONSE; lia); [|cbn [length]; lia].
    apply bytes_app. split; [done|]. repeat constructor; unfold is_byte, ASN_NULL; lia.
Qed.

Lemma served_bounds tree w e : tree_ok w tree -> In e (served tree) ->
  e.1 <> [] /\ small e.1 /\ (length e.1 <= 24)%nat /\ bytes e.2 /\ (length e.2 <= 34)%nat.
Proof.
  intros [Hsv _] He. apply in_flat_map in He as ([limb rows] & Hin & He). apply in_map_iff in He as (e' & <- & He').
  rewrite List.Forall_forall in Hsv. destruct (Hsv _ Hin) as [[Hs Hl] _ Hrows _ _ _]. cbn [fst snd] in *.
  rewrite List.Forall_forall in Hrows. destruct (Hrows _ He') as (H1 & H2 & H3 & H4 & H5 & H6). unfold under. cbn [fst snd].
  split; [intros [_ ?]%app_eq_nil; done|]. split; [by apply Forall_app|]. rewrite length_app. split; [lia|done].
Qed.

Lemma pdu_get_next : SNMP_GET_NEXT ∈ [SNMP_GET; SNMP_GET_NEXT; SNMP_SET].
Proof. by repeat constructor. Qed.
Lemma pdu_get : SNMP_GET ∈ [SNMP_GET; SNMP_GET_NEXT; SNMP_SET].
Proof. by repeat constructor. Qed.

(** The answers to the two questions. *)
Definition answer_next (tree : list (snmp_oid_limb W Ptr * list entry)) ver reqid oid (r : option (list Z * Z * W)) w : Prop :=
  match successor oid (served tree) with
  | Some e => answer r w (snmp_message SNMP_GET_RESPONSE ver reqid 0 0 e.1 e.2)
  | None => exists oid', (length oid' <= 40)%nat /\
      answer r w (snmp_message SNMP_GET_RESPONSE ver reqid SNMP_ERR_NOSUCHNAME 1 oid' [ASN_NULL; 0])
  end.
Definition answer_get (tree : list (snmp_oid_limb W Ptr * list entry)) ver reqid oid (r : option (list Z * Z * W)) w : Prop :=
  match exact oid (served tree) with
  | Some v => answer r w (snmp_message SNMP_GET_RESPONSE ver reqid 0 0 oid v)
  | None => answer r w (snmp_message SNMP_GET_RESPONSE ver reqid SNMP_ERR_NOSUCHNAME 1 oid [ASN_NULL; 0])
  end.

Lemma respond_next set tree ver reqid oid val buf w : request SNMP_GET_NEXT ver reqid oid val buf ->
  tree_ok (set_snmp_version ver w) tree ->
  answer_next tree ver reqid oid (snmp_respond set tree.*1 buf w) (set_snmp_version ver w).
Proof.
  intros Hrq Htree. pose proof Hrq as [Hv Hid [Hos Hol] (pad & Hb & Hbuf) _].
  destruct (respond_request set _ _ _ _ _ _ pad tree w Hrq Hb Hbuf pdu_get_next ltac:(discriminate)) as (Hhdr & Hlen & ->).
  set (w' := set_snmp_version ver w) in *. set (z := val ++ pad) in *. destruct Hid as [Hib Hil].
  pose proof (search_next_spec w' tree oid z Htree Hos Hol) as H. change (pdu_mode SNMP_GET_NEXT) with MASK_GET_NEXT.
  assert (Hsp : space (oid ++ z)).
  { split; [rewrite length_app; lia|]. apply bytes_app. split; [by apply small_bytes|done]. }
  specialize (H Hsp ltac:(lia)). unfold answer_next. destruct (successor oid (served tree)) as [e|] eqn:Es.
  - destruct H as (rest' & Hb' & Hl' & H). rewrite (pbind_some _ _ _ _ _ H). cbv beta iota.
    assert (He : In e (served tree)) by (exact (proj1 (List.find_some _ _ Es))).
    destruct (served_bounds tree w' e Htree He) as (_ & Hse & Hle & Hbe & Hlv).
    rewrite length_app in Hl'. apply respond_found; [done|done|done| |lia|lia].
    rewrite !bytes_app. split; [by apply small_bytes|done].
  - destruct H as (k & rest' & Hk & Hb' & Hl' & H). rewrite (pbind_some _ _ _ _ _ H). cbv beta iota.
    exists (take (Z.to_nat k) rest'). split; [rewrite length_take; lia|]. rewrite length_app in Hl'.
    apply respond_error; [done|done|done|done|lia|done|unfold is_byte, SNMP_ERR_NOSUCHNAME; lia].
Qed.

Lemma respond_get set tree ver reqid oid val buf w : request SNMP_GET ver reqid oid val buf ->
  tree_ok (set_snmp_version ver w) tree ->
  answer_get tree ver reqid oid (snmp_respond set tree.*1 buf w) (set_snmp_version ver w).
Proof.
  intros Hrq Htree. pose proof Hrq as [Hv Hid [Hos Hol] (pad & Hb & Hbuf) _].
  destruct (respond_request set _ _ _ _ _ _ pad tree w Hrq Hb Hbuf pdu_get ltac:(discriminate)) as (Hhdr & Hlen & ->).
  set (w' := set_snmp_version ver w) in *. set (z := val ++ pad) in *. destruct Hid as [Hib Hil].
  change (pdu_mode SNMP_GET) with MASK_GET.
  destruct (search_get w' tree oid z Htree Hos Hol) as (rest' & Hb' & Hl' & H); [split; [lia|done]|].
  rewrite (pbind_some _ _ _ _ _ H). unfold answer_get.
  revert Hl'. destruct (exact oid (served tree)) as [v|] eqn:Ev; cbn [from_option id]; intros Hl'; cbv beta iota.
  - assert (He : exists e, In e (served tree) /\ e.2 = v).
    { unfold exact in Ev. destruct (List.find _ _) as [e|] eqn:Ef; [|done]. injection Ev as <-. exists e. split; [exact (proj1 (List.find_some _ _ Ef))|done]. }
    destruct He as (e & He & <-). destruct (served_bounds tree w' e Htree He) as (_ & _ & _ & Hbe & Hlv).
    apply respond_found; [done|done|done| | |lia].
    + rewrite !bytes_app. split; [by apply small_bytes|done].
    + lia.
  - cbn [app length] in *.
    pose proof (respond_error ver reqid SNMP_GET (Z.of_nat (length oid) + Z.of_nat (length val)) SNMP_ERR_NOSUCHNAME
      (Z.of_nat (length oid)) (oid ++ rest') w') as Hr. rewrite Nat2Z.id, take_app_length in Hr.
    apply Hr; [done|done|done| |rewrite length_app; lia|lia|unfold is_byte, SNMP_ERR_NOSUCHNAME; lia].
    apply bytes_app. split; [by apply small_bytes|done].
Qed.

(** A manager that walks the tree: it repeats GETNEXT with the OID of the last
    answer until there is an error. *)
Definition get_next_request ver reqid oid : list Z :=
  let msg := snmp_message SNMP_GET_NEXT ver reqid 0 0 oid [ASN_NULL; 0] in msg ++ replicate (172 - length msg) 0.
Definition read_answer (k : nat) (msg : list Z) : Z * entry :=
  let n := Z.to_nat (nth (28 + k) msg 0) in
  (nth (19 + k) msg 0, (take n (drop (29 + k) msg), drop (29 + k + n) msg)).
Fixpoint walk (set : bool) (fuel : nat) (limbs : list (snmp_oid_limb W Ptr)) ver reqid oid w : option (list entry) :=
  match fuel with
  | O => None
  | S fuel =>
      match snmp_respond set limbs (get_next_request ver reqid oid) w with
      | None => None
      | Some ((buf, size), w) =>
          let '(err, e) := read_answer (length reqid) (take (Z.to_nat size) buf) in
          if err =? 0 then cons e <$> walk set fuel limbs ver reqid e.1 w else Some []
      end
  end.

Lemma read_answer_message pdu ver reqid err idx oid v :
  read_answer (length reqid) (snmp_message pdu ver reqid err idx oid v) = (err, (oid, v)).
Proof.
  unfold read_answer. rewrite snmp_message_eq. set (n := Z.of_nat (length oid) + Z.of_nat (length v)).
  assert (Hl : length (sized_header ver pdu reqid err idx n) = (28 + length reqid)%nat) by apply length_sized_header.
  assert (Hn : forall y, nth (28 + length reqid) (sized_header ver pdu reqid err idx n ++ Z.of_nat (length oid) :: y) 0 = Z.of_nat (length oid)).
  { intros y. rewrite app_nth2 by lia. by rewrite Hl, Nat.sub_diag. }
  rewrite Hn, Nat2Z.id.
  assert (Hd : forall y, drop (29 + length reqid) (sized_header ver pdu reqid err idx n ++ Z.of_nat (length oid) :: y) = y).
  { intros y. rewrite cons_middle, app_assoc. apply drop_app_length'. rewrite length_app, Hl. cbn. lia. }
  rewrite <- (drop_drop _ (length oid) (29 + length reqid)), !Hd. rewrite take_app_length, drop_app_length. f_equal.
  pose (l := [48; n + Z.of_nat (length reqid) + 27; 2; 1; ver; 4; 6; 112; 117; 98; 108; 105; 99; pdu; n + Z.of_nat (length reqid) + 14; 2;
              Z.of_nat (length reqid)] ++ reqid ++ [2; 1]).
  assert (E : forall y, sized_header ver pdu reqid err idx n ++ y = l ++ err :: [2; 1; idx; 48; n + 4; 48; n + 2; 6] ++ y).
  { intros y. unfold l, sized_header, header. by rewrite <- !app_assoc. }
  assert (Hll : length l = (19 + length reqid)%nat) by (unfold l; rewrite !length_app; cbn; lia).
  rewrite E, app_nth2 by lia. by rewrite Hll, Nat.sub_diag.
Qed.
Lemma answer_read r w pdu ver reqid err idx oid v : answer r w (snmp_message pdu ver reqid err idx oid v) ->
  exists buf size, r = Some ((buf, size), w) /\ read_answer (length reqid) (take (Z.to_nat size) buf) = (err, (oid, v)).
Proof.
  intros (buf & -> & Htake & _). eexists buf, _. split; [done|]. rewrite Nat2Z.id, Htake. apply read_answer_message.
Qed.
Lemma get_next_request_ok ver reqid oid : 0 <= ver <= 1 -> bytes reqid -> (length reqid <= 4)%nat -> small oid -> (length oid <= 40)%nat ->
  request SNMP_GET_NEXT ver reqid oid [ASN_NULL; 0] (get_next_request ver reqid oid).
Proof.
  intros. constructor; [done|done|done| |].
  - eexists. split; [|done]. apply bytes_app. split; [repeat constructor; unfold is_byte, ASN_NULL; lia|].
    apply Forall_replicate. unfold is_byte. lia.
  - unfold get_next_request. rewrite length_app, length_replicate, length_message. cbn [length]. lia.
Qed.

(** What the tree serves is sorted, and so a walk goes through it in order. *)
Lemma served_sorted tree w : tree_ok w tree -> StronglySorted (fun a b => oid_lt a.1 b.1 = true) (served tree).
Proof.
  induction tree as [|[limb rows] tree IH]; intros Htree; [constructor|].
  destruct (tree_ok_cons _ _ _ Htree) as (Hsv & Hlater & Htree'). cbn [fst snd] in *. specialize (IH Htree').
  cbn [served flat_map fst snd]. fold (served tree).
  assert (Hcross : forall e, Forall (fun b => oid_lt (limb_match limb ++ e) b.1 = true) (served tree)).
  { intros e. clear - Hlater. induction Hlater as [|[limb' rows'] tree Hb _ IH]; [constructor|].
    cbn [served flat_map fst snd]. apply Forall_app. split; [|exact IH]. apply Forall_map, Forall_true. intros e'. cbn.
    by apply before_lt, before_app. }
  destruct Hsv as [_ Hs _ _ _ _]. clear Htree. induction Hs as [|e rows _ IHs Hall]; [exact IH|].
  cbn [map app]. constructor; [exact IHs|]. apply Forall_app. split; [|apply Hcross].
  apply Forall_map. eapply Forall_impl; [exact Hall|]. intros e' He. cbn. by rewrite oid_lt_app.
Qed.
Lemma successor_sorted (l : list entry) R : StronglySorted (fun a b => oid_lt a.1 b.1 = true) l ->
  match successor R l with
  | Some e => exists l', List.filter (fun e => oid_lt R e.1) l = e :: l' /\ List.filter (fun e' => oid_lt e.1 e'.1) l = l'
  | None => List.filter (fun e => oid_lt R e.1) l = []
  end.
Proof.
  unfold successor. induction 1 as [|e l Hl IH Hall]; [done|]. cbn [List.find List.filter].
  assert (Hkeep : forall x, (forall y, In y l -> oid_lt x y.1 = true) -> List.filter (fun e' => oid_lt x e'.1) l = l).
  { intros x. clear. induction l as [|y l IH]; intros H; [done|]. cbn. rewrite (H y) by by left. f_equal. apply IH.
    intros z Hz. apply H. by right. }
  rewrite List.Forall_forall in Hall. destruct (oid_lt R e.1) eqn:E.
  - exists l. rewrite oid_lt_irrefl, (Hkeep e.1 Hall), Hkeep; [done|]. intros y Hy. eapply oid_lt_trans; [exact E|by apply Hall].
  - destruct (List.find _ l) as [e'|] eqn:Ef; [|done]. destruct IH as (l' & H1 & H2). exists l'. split; [done|].
    assert (Hin : In e' l) by exact (proj1 (List.find_some _ _ Ef)). by rewrite (oid_lt_asym _ _ (Hall e' Hin)).
Qed.

Lemma walk_from set tree ver reqid oid w : 0 <= ver <= 1 -> bytes reqid -> (length reqid <= 4)%nat ->
  (forall w, set_snmp_version ver (set_snmp_version ver w) = set_snmp_version ver w) ->
  tree_ok (set_snmp_version ver w) tree -> small oid -> (length oid <= 40)%nat ->
  forall fuel, (length (List.filter (fun e => oid_lt oid e.1) (served tree)) < fuel)%nat ->
  walk set fuel tree.*1 ver reqid oid w = Some (List.filter (fun e => oid_lt oid e.1) (served tree)).
Proof.
  intros Hv Hib Hil Hset Htree Hos Hol fuel. revert oid w Htree Hos Hol. induction fuel as [|fuel IH]; intros oid w Htree Hos Hol Hf; [lia|].
  pose proof (respond_next set tree ver reqid oid _ _ w (get_next_request_ok ver reqid oid Hv Hib Hil Hos Hol) Htree) as H.
  pose proof (successor_sorted (served tree) oid (served_sorted tree _ Htree)) as Hs. cbn [walk].
  unfold answer_next in H. destruct (successor oid (served tree)) as [e|] eqn:Es.
  - apply answer_read in H as (buf & size & -> & ->). destruct Hs as (l' & Hl & Hl'). cbn [Z.eqb fst]. rewrite Hl in Hf |- *. cbn in Hf.
    assert (He : In e (served tree)) by (exact (proj1 (List.find_some _ _ Es))).
    destruct (served_bounds tree _ e Htree He) as (_ & Hse & Hle & _).
    replace (e.1, e.2) with e by by destruct e. rewrite (IH e.1); [by rewrite Hl'|by rewrite Hset|done|lia|rewrite Hl'; lia].
  - destruct H as (oid' & _ & H). apply answer_read in H as (buf & size & -> & ->). by rewrite Hs.
Qed.
End answer.
