(* ===== verification/SnmpTable.v ===== *)
(** Tables of the SNMP agent (lib/snmp.c, [func_table]) keep the promise of
    Snmp.v: rows from 1 to [n] in every column. *)
From Stdlib Require Import ZArith Lia Sorted.
From stdpp Require Import base numbers option list.
From S2P Require Import Prelude Bytes Snmp.

Section table.
Context {W Ptr : Type} (limb : snmp_oid_limb W Ptr) (w : W) (n : Z) (cell : snmp_oid W Ptr -> Z -> list Z).
Implicit Types (o : snmp_oid W Ptr) (objs : list (snmp_oid W Ptr)).
Abbreviation L := (Z.of_nat (length (limb_match limb))).

(** The value of a cell, when the table has its row. *)
Definition cell_of o (r : Z) : option (list Z) := if (1 <=? r) && (r <=? n) then Some (cell o r) else None.
Definition column o : Z := hd 0 (oid_match (leaf o)).
Record column_ok o : Prop := {
  col_match : oid_match (leaf o) = [column o];
  col_len : oid_len (leaf o) = 1;
  col_id : small_id (column o);
  col_answers : forall r tail, is_byte r ->
    answers (oid_get o) (mk_leaf (column o :: r :: tail) 1 (asn (leaf o)) (oid_p (leaf o)) (offset (leaf o)) (data_size (leaf o))) w
      (cell_of o r) }.
Record table_ok objs : Prop := {
  tb_func : twig_func limb = func_table;
  tb_array : obj_array limb = objs;
  tb_limb : small (limb_match limb) /\ (length (limb_match limb) <= 20)%nat;
  tb_columns : Forall column_ok objs;
  tb_sorted : StronglySorted (fun a b => column a < column b) objs;
  tb_rows : 0 <= n <= 127 }.

Definition col_rows o : list entry := (fun r => ([column o; r], cell o r)) <$> seqZ 1 n.
Definition table_rows objs : list entry := flat_map col_rows objs.

(** The value of a cell read at its place in the packet. *)
Lemma cell_read o k c r suf : column_ok o -> c = column o -> is_byte r -> (40 <= length suf)%nat -> bytes suf ->
  exists suf', bytes suf' /\
    call_at (oid_get o) (leaf_obj o (oid_len (leaf o)) (packet limb k (c :: r :: suf)) L) (packet limb k (c :: r :: suf))
      (1 + L + (oid_len (leaf o) + 1)) w =
    match cell_of o r with
    | Some v => Some ((packet limb k (c :: r :: v ++ suf'), Z.of_nat (length v)), w)
    | None => Some ((packet limb k (c :: r :: suf'), 0), w)
    end /\
    (length (default [] (cell_of o r)) + length suf' = length suf)%nat /\
    (forall v, cell_of o r = Some v -> v <> [] /\ (length v <= 34)%nat /\ bytes v).
Proof.
  intros [Hm Hlen Hid Ha] -> Hr Hl Hb. destruct (Ha r suf Hr suf Hl Hb) as (suf' & Hb' & H). exists suf'. split; [done|].
  assert (Hd : leaf_obj o (oid_len (leaf o)) (packet limb k (column o :: r :: suf)) L =
    mk_leaf (column o :: r :: suf) 1 (asn (leaf o)) (oid_p (leaf o)) (offset (leaf o)) (data_size (leaf o))).
  { unfold leaf_obj, packet. rewrite Hlen. replace (Z.to_nat (1 + L)) with (S (length (limb_match limb))) by lia.
    cbn [drop]. by rewrite drop_app_length. }
  rewrite Hd, Hlen. pose proof (packet_call limb k [column o; r] suf) as Hcall. cbn [app] in Hcall.
  destruct (cell_of o r) as [v|]; cbn [from_option id].
  - destruct H as (Hv & Hvl & Hvb & Hls & Hf). split; [|split; [done|by intros ? [= <-]]].
    eapply Hcall; [cbn; lia|exact Hf].
  - destruct H as [Hls Hf]. split; [|split; [done|done]]. eapply Hcall; [cbn; lia|exact Hf].
Qed.

(** The leaf of [func_table] without and with the increase of the row. *)
Lemma leaf_here o rest first next k c r suf : column_ok o -> c = column o -> is_byte r -> (42 <= length suf)%nat -> bytes suf ->
  exists suf', bytes suf' /\ (length (default [] (cell_of o r)) + length suf' = length suf)%nat /\
    func_table_leaf L first next false (o :: rest) (packet limb k (c :: r :: suf)) w =
    Some (match cell_of o r with
          | Some v => (packet limb (if next || first then 2 else k) (c :: r :: v ++ suf'), Z.of_nat (length v) + 2)
          | None => (packet limb k (c :: r :: suf'), 0)
          end, w).
Proof.
  intros Ho Hc Hr Hl Hb. destruct (cell_read o k c r suf Ho Hc Hr ltac:(lia) Hb) as (suf' & Hb' & H & Hls & Hv).
  exists suf'. split; [done|split; [done|]]. unfold func_table_leaf. unfold pret at 1. unfold pbind at 1.
  destruct (cell_of o r) as [v|]; rewrite (pbind_some _ _ _ _ _ H); cbn [fst snd].
  - destruct (Hv v eq_refl) as (Hne & _ & _). assert (0 < Z.of_nat (length v)) by (destruct v; [done|cbn; lia]).
    rewrite (eqb_false _ 0) by lia. cbn [andb]. rewrite (proj2 (Z.ltb_ge _ 0)) by lia. rewrite (col_len _ Ho).
    destruct (next || first); [|done]. erewrite lift_some by apply packet_set_len. done.
  - done.
Qed.

Lemma leaf_next o rest first k c r0 suf : column_ok o -> c = column o -> 0 <= r0 < 128 -> 0 <= n <= 127 -> 0 <= k <= 40 ->
  Forall column_ok rest -> (42 <= length suf)%nat -> bytes suf ->
  found_or_missed limb w (2 + length suf)
    (match cell_of o (r0 + 1) with
     | Some v => Some ([c; r0 + 1], v)
     | None => match rest with o' :: _ => pair [column o'; 1] <$> cell_of o' 1 | [] => None end
     end) (func_table_leaf L first true true (o :: rest) (packet limb k (c :: r0 :: suf)) w).
Proof.
  intros Ho Hc Hr Hn Hk Hrest Hl Hb.
  destruct (cell_read o k c (r0 + 1) suf Ho Hc ltac:(unfold is_byte; lia) ltac:(lia) Hb) as (suf' & Hb' & H & Hls & Hv).
  assert (Hu : u8 (r0 + 1) = r0 + 1) by (unfold u8; rewrite Z.mod_small; lia).
  assert (Hid : is_byte c) by (subst c; destruct (col_id _ Ho); unfold is_byte; lia).
  unfold func_table_leaf. unfold incr_at, TABLE_ROW.
  rewrite (packet_get limb k [c] r0 suf) by (cbn; lia). rewrite Hu.
  assert (Hset : set_at (packet limb k (c :: r0 :: suf)) (1 + L + 1) [r0 + 1] = Some (packet limb k (c :: r0 + 1 :: suf))).
  { apply (packet_set limb k [c] [r0] [r0 + 1] suf); [done|cbn; lia]. }
  rewrite Hset. unfold lift at 1. unfold pbind at 1. cbn [fmap option_fmap option_map].
  destruct (cell_of o (r0 + 1)) as [v|]; rewrite (pbind_some _ _ _ _ _ H); cbn [fst snd from_option id] in *.
  - destruct (Hv v eq_refl) as (Hne & _ & _). assert (0 < Z.of_nat (length v)) by (destruct v; [done|cbn; lia]).
    rewrite (eqb_false _ 0) by lia. cbn [andb]. rewrite (proj2 (Z.ltb_ge _ 0)) by lia. rewrite (col_len _ Ho). cbn [orb].
    erewrite lift_some by apply packet_set_len. exists suf'. cbn [fst snd length]. split; [done|split; [lia|]].
    unfold pret. do 3 f_equal. lia.
  - cbn [Z.eqb andb]. destruct rest as [|o' rest].
    { exists k, (c :: r0 + 1 :: suf'). split; [done|]. split; [|split; [cbn in *; lia|done]].
      rewrite !bytes_cons. unfold is_byte in *. split; [lia|split; [lia|done]]. }
    apply Forall_cons in Hrest as [Ho' _]. rewrite (col_match _ Ho'), (col_len _ Ho').
    erewrite lift_some by (apply (packet_set limb k [] [c] [column o'] (r0 + 1 :: suf')); [done|cbn; lia]). cbn [app].
    erewrite lift_some by (apply (packet_set limb k [column o'] [r0 + 1] [TABLE_FIRST_ROW] suf'); [done|cbn; lia]). cbn [app].
    destruct (cell_read o' k (column o') 1 suf' Ho' eq_refl ltac:(unfold is_byte; lia) ltac:(cbn in Hls; lia) Hb') as (suf2 & Hb2 & H2 & Hls2 & Hv2).
    rewrite (col_len _ Ho') in H2. unfold TABLE_FIRST_ROW.
    destruct (cell_of o' 1) as [v'|]; rewrite (pbind_some _ _ _ _ _ H2); cbn [fst snd fmap option_fmap option_map from_option id] in *.
    + destruct (Hv2 v' eq_refl) as (Hne & _ & _). assert (0 < Z.of_nat (length v')) by (destruct v'; [done|cbn; lia]).
      rewrite (eqb_false _ 0) by lia. rewrite (proj2 (Z.ltb_ge _ 0)) by lia. cbn [orb].
      erewrite lift_some by apply packet_set_len. exists suf2. cbn [fst snd length]. cbn in Hls. split; [done|split; [lia|]].
      unfold pret. do 3 f_equal. lia.
    + exists k, (column o' :: 1 :: suf2). split; [done|]. split; [|split; [cbn in *; lia|done]].
      destruct (col_id _ Ho'). rewrite !bytes_cons. unfold is_byte. split; [lia|split; [lia|done]].
Qed.

(** The rows, and the successor among them. *)
Lemma cell_of_None o r : n < 1 -> cell_of o r = None.
Proof. intros H. unfold cell_of. destruct (Z.leb_spec 1 r), (Z.leb_spec r n); done || lia. Qed.
Lemma head_col o : head (col_rows o) = pair [column o; 1] <$> cell_of o 1.
Proof.
  unfold col_rows, cell_of. destruct (Z.leb_spec 1 n).
  - rewrite (seqZ_cons 1 n) by lia. done.
  - by rewrite seqZ_nil by lia.
Qed.
Lemma head_rows objs : head (table_rows objs) = match objs with o :: _ => pair [column o; 1] <$> cell_of o 1 | [] => None end.
Proof.
  destruct objs as [|o objs]; [done|]. unfold table_rows. cbn [flat_map]. pose proof (head_col o) as H.
  destruct (Z.lt_ge_cases n 1) as [Hn|Hn].
  - rewrite cell_of_None in H |- * by done. destruct (col_rows o); [|done]. clear H. cbn [app].
    induction objs as [|o' objs IH]; [done|]. cbn [flat_map]. pose proof (head_col o') as H. rewrite cell_of_None in H by done.
    destruct (col_rows o'); [exact IH|done].
  - unfold cell_of in H |- *. rewrite (proj2 (Z.leb_le 1 n)) in H |- * by lia. cbn in H |- *. destruct (col_rows o); [done|exact H].
Qed.
Lemma find_seqZ r0 a m : a <= r0 + 1 ->
  List.find (fun r => r0 <? r) (seqZ a m) = if r0 + 1 <? a + m then Some (r0 + 1) else None.
Proof.
  intros Ha. destruct (Z.lt_ge_cases m 0) as [?|Hm]; [rewrite seqZ_nil by lia; by rewrite (proj2 (Z.ltb_ge _ _)) by lia|].
  revert a Ha. pattern m. apply natlike_ind; [| |done].
  - intros a Ha. rewrite seqZ_nil by lia. by rewrite (proj2 (Z.ltb_ge _ _)) by lia.
  - intros x Hx IH a Ha. rewrite seqZ_cons by lia. replace (Z.pred (Z.succ x)) with x by lia. cbn [List.find].
    destruct (Z.ltb_spec r0 a) as [Hlt|Hge].
    + replace a with (r0 + 1) by lia. by rewrite (ltb_true (r0 + 1)) by lia.
    + rewrite IH by lia. replace (Z.succ a + x) with (a + Z.succ x) by lia. done.
Qed.
Lemma find_map {A B} (f : A -> B) (p : B -> bool) (l : list A) : List.find p (f <$> l) = f <$> List.find (fun a => p (f a)) l.
Proof. induction l as [|a l IH]; [done|]. cbn. by destruct (p (f a)). Qed.
Lemma find_ext {A} (p q : A -> bool) (l : list A) : (forall a, p a = q a) -> List.find p l = List.find q l.
Proof. intros H. induction l as [|a l IH]; [done|]. cbn. rewrite H. by destruct (q a). Qed.

Lemma successor_col_in o r0 s : 0 <= r0 -> successor (column o :: r0 :: s) (col_rows o) = pair [column o; r0 + 1] <$> cell_of o (r0 + 1).
Proof.
  intros Hr. unfold successor, col_rows. rewrite find_map.
  rewrite (find_ext _ (fun r => r0 <? r)).
  2: { intros r. cbn. rewrite Z.ltb_irrefl, Z.eqb_refl. cbn. destruct s; cbn; by rewrite andb_false_r, orb_false_r. }
  rewrite find_seqZ by lia. unfold cell_of. rewrite (proj2 (Z.leb_le 1 _)) by lia. cbn.
  destruct (Z.ltb_spec (r0 + 1) (1 + n)), (Z.leb_spec (r0 + 1) n); done || lia.
Qed.
Lemma successor_col_first o t0 ts : t0 < column o \/ t0 = column o /\ ts = [] -> successor (t0 :: ts) (col_rows o) = head (col_rows o).
Proof.
  intros H. unfold col_rows. destruct (seqZ 1 n) as [|r l]; [done|]. unfold successor. cbn.
  destruct H as [H|[-> ->]]; [by rewrite (ltb_true t0)|]. by rewrite Z.eqb_refl, orb_true_r.
Qed.
Lemma successor_col_after o t0 ts : column o < t0 -> successor (t0 :: ts) (col_rows o) = None.
Proof.
  intros H. apply successor_none, Forall_forall. intros e (r & -> & _)%list_elem_of_fmap. cbn.
  rewrite (proj2 (Z.ltb_ge t0 _)), (eqb_false t0) by lia. done.
Qed.
Lemma successor_rows_first objs t0 ts : Forall (fun o => t0 < column o) objs -> successor (t0 :: ts) (table_rows objs) = head (table_rows objs).
Proof.
  induction 1 as [|o objs Ho _ IH]; [done|]. cbn [table_rows flat_map]. rewrite successor_app, successor_col_first by by left.
  fold (table_rows objs). rewrite IH. destruct (col_rows o); done.
Qed.

(** The search for the column, and the whole function. *)
Definition search_table (first next : bool) tl objs (buf : list Z) : P W (list Z * Z) :=
  let? (buf, found, increase) := func_table_loop L tl first next next objs buf in
  func_table_leaf L first next increase found buf.

(** The first row of a column. *)
Lemma table_take_first o objs first tl k y0 y1 suf :
  column_ok o -> 0 <= k <= 40 -> (42 <= length suf)%nat -> bytes suf ->
  func_table_loop L tl first true true (o :: objs) (packet limb k (y0 :: y1 :: suf)) w =
    Some ((packet limb k (column o :: 1 :: suf), o :: objs, false), w) ->
  found_or_missed limb w (2 + length suf) (head (table_rows (o :: objs)))
    (search_table first true tl (o :: objs) (packet limb k (y0 :: y1 :: suf)) w).
Proof.
  intros Ho Hk Hl Hb Hloop. unfold search_table. rewrite (pbind_some _ _ _ _ _ Hloop), head_rows.
  destruct (leaf_here o objs first true k (column o) 1 suf Ho eq_refl ltac:(unfold is_byte; lia) Hl Hb) as (suf' & Hb' & Hls & ->).
  destruct (cell_of o 1) as [v|]; cbn [orb fmap option_fmap option_map from_option id] in *.
  - exists suf'. cbn [fst snd length]. split; [done|split; [lia|]]. do 3 f_equal. lia.
  - exists k, (column o :: 1 :: suf'). split; [done|]. split; [|split; [cbn in *; lia|done]].
    destruct (col_id _ Ho). rewrite !bytes_cons. unfold is_byte. split; [lia|split; [lia|done]].
Qed.
Lemma loop_writes o k y0 y1 suf : column_ok o ->
  set_at (packet limb k (y0 :: y1 :: suf)) (1 + L) (oid_match (leaf o)) = Some (packet limb k (column o :: y1 :: suf)) /\
  set_at (packet limb k (column o :: y1 :: suf)) (1 + L + oid_len (leaf o)) [TABLE_FIRST_ROW] = Some (packet limb k (column o :: 1 :: suf)).
Proof.
  intros Ho. rewrite (col_match _ Ho), (col_len _ Ho). split.
  - apply (packet_set limb k [] [y0] [column o] (y1 :: suf)); [done|cbn; lia].
  - apply (packet_set limb k [column o] [y1] [1] suf); [done|cbn; lia].
Qed.

Lemma table_first objs tl k y0 y1 suf : Forall column_ok objs -> 0 <= k <= 40 -> is_byte y0 -> is_byte y1 ->
  (42 <= length suf)%nat -> bytes suf ->
  found_or_missed limb w (2 + length suf) (head (table_rows objs))
    (search_table true true tl objs (packet limb k (y0 :: y1 :: suf)) w).
Proof.
  intros Hobjs Hk H0 H1 Hl Hb. destruct objs as [|o objs].
  { exists k, (y0 :: y1 :: suf). split; [done|]. split; [by rewrite !bytes_cons|done]. }
  apply Forall_cons in Hobjs as [Ho _]. apply table_take_first; [done..|].
  destruct (loop_writes o k y0 y1 suf Ho) as [Hw1 Hw2]. cbn [func_table_loop orb]. unfold pret at 1. unfold pbind at 1.
  rewrite (lift_some _ _ _ _ Hw1), (lift_some _ _ _ _ Hw2). done.
Qed.

(** The comparison with a column. *)
Lemma column_cmp o tl k t0 y : column_ok o -> 1 <= tl -> small_id t0 ->
  packet_cmp (u8 (Z.min tl (oid_len (leaf o)))) (oid_match (leaf o)) (packet limb k (t0 :: y)) (1 + L) = Some (column o - t0).
Proof.
  intros Ho Htl Ht. rewrite (col_len _ Ho), (col_match _ Ho), Z.min_r by lia. change (u8 1) with 1.
  rewrite packet_cmp_at by (cbn; lia). destruct (col_id _ Ho). unfold small_id in Ht. change (Z.to_nat 1) with 1%nat. cbn.
  destruct (Z.eqb_spec (column o) t0) as [->|]; [by rewrite Z.sub_diag|]. rewrite s8_small by lia. done.
Qed.

Lemma table_next objs k t0 ts suf y1 suf' : Forall column_ok objs -> StronglySorted (fun a b => column a < column b) objs ->
  0 <= n <= 127 -> 0 <= k <= 40 -> small (t0 :: ts) -> ts ++ suf = y1 :: suf' -> (42 <= length suf')%nat -> bytes (ts ++ suf) ->
  found_or_missed limb w (2 + length suf') (successor (t0 :: ts) (table_rows objs))
    (search_table false true (1 + Z.of_nat (length ts)) objs (packet limb k (t0 :: ts ++ suf)) w).
Proof.
  intros Hobjs Hsort Hn Hk [Ht0 Hts]%Forall_cons Hy Hl Hb. assert (Hb0 : bytes (t0 :: y1 :: suf')).
  { rewrite <- Hy. apply bytes_cons. split; [unfold small_id, is_byte in *; lia|done]. }
  rewrite Hy. induction Hsort as [|o objs _ IH Hlater].
  { exists k, (t0 :: y1 :: suf'). done. }
  apply Forall_cons in Hobjs as [Ho Hobjs]. pose proof (column_cmp o (1 + Z.of_nat (length ts)) k t0 (y1 :: suf') Ho ltac:(lia) Ht0) as Hcmp.
  destruct (loop_writes o k t0 y1 suf' Ho) as [Hw1 Hw2]. rewrite !bytes_cons in Hb0. destruct Hb0 as (Hb0 & Hb1 & Hbs).
  assert (Hfirst : (0 <? column o - t0) || ((column o - t0 =? 0) && (length ts =? 0)%nat) = true ->
    found_or_missed limb w (2 + length suf') (head (table_rows (o :: objs)))
    (search_table false true (1 + Z.of_nat (length ts)) (o :: objs) (packet limb k (t0 :: y1 :: suf')) w)).
  { intros Hc. apply table_take_first; [done..|]. cbn [func_table_loop orb andb]. rewrite (lift_some _ _ _ _ Hcmp), (col_len _ Ho).
    assert ((column o - t0 =? 0) && (1 + Z.of_nat (length ts) <? 1 + 1) || (0 <? column o - t0) = true) as ->.
    { destruct (Z.ltb_spec 0 (column o - t0)); [apply orb_true_r|]. rewrite orb_false_r. cbn [orb] in Hc.
      apply andb_prop in Hc as [-> Hc%Nat.eqb_eq]. rewrite Hc. done. }
    rewrite (col_len _ Ho) in Hw2. rewrite (lift_some _ _ _ _ Hw1), (lift_some _ _ _ _ Hw2). done. }
  cbn [table_rows flat_map]. fold (table_rows objs). rewrite successor_app.
  destruct (Z.lt_trichotomy (column o) t0) as [Hc|[Hc|Hc]].
  - rewrite successor_col_after by done. specialize (IH Hobjs).
    assert (Hloop : func_table_loop L (1 + Z.of_nat (length ts)) false true true (o :: objs) (packet limb k (t0 :: y1 :: suf')) w =
      func_table_loop L (1 + Z.of_nat (length ts)) false true true objs (packet limb k (t0 :: y1 :: suf')) w).
    { cbn [func_table_loop orb andb]. rewrite (lift_some _ _ _ _ Hcmp).
      rewrite (eqb_false (column o - t0) 0), (proj2 (Z.ltb_ge 0 _)) by lia. done. }
    unfold search_table, pbind in IH |- *. rewrite Hloop. exact IH.
  - rewrite (successor_rows_first objs) by (eapply Forall_impl; [exact Hlater|]; cbn; lia).
    destruct ts as [|r0 s].
    + rewrite successor_col_first by (right; done).
      specialize (Hfirst ltac:(by rewrite (proj2 (Z.eqb_eq (column o - t0) 0)), orb_true_r by lia)).
      unfold table_rows in Hfirst. cbn [flat_map] in Hfirst. fold (table_rows objs) in Hfirst. destruct (col_rows o); exact Hfirst.
    + apply Forall_cons in Hts as [Hr0 Hs]. injection Hy as Hy1 Hy2. subst y1 suf'. unfold small_id in Hr0.
      assert (Hloop : func_table_loop L (1 + Z.of_nat (length (r0 :: s))) false true true (o :: objs) (packet limb k (t0 :: r0 :: s ++ suf)) w =
        Some ((packet limb k (t0 :: r0 :: s ++ suf), o :: objs, true), w)).
      { cbn [func_table_loop orb andb]. rewrite (lift_some _ _ _ _ Hcmp), (col_len _ Ho), (proj2 (Z.eqb_eq (column o - t0) 0)) by lia.
        rewrite (proj2 (Z.ltb_ge (1 + Z.of_nat (length (r0 :: s))) _)) by (cbn; lia). rewrite (proj2 (Z.ltb_ge 0 (column o - t0))) by lia.
        cbn [orb andb].
        assert ((1 + Z.of_nat (length (r0 :: s)) =? 1 + 1) || (1 + 1 <? 1 + Z.of_nat (length (r0 :: s))) = true) as ->; [|done].
        apply orb_true_iff. rewrite Z.eqb_eq, Z.ltb_lt. cbn. lia. }
      unfold search_table. rewrite (pbind_some _ _ _ _ _ Hloop). rewrite <- Hc at 1. rewrite successor_col_in by lia.
      pose proof (leaf_next o objs false k t0 r0 (s ++ suf) Ho (eq_sym Hc) ltac:(lia) Hn Hk Hobjs Hl Hbs) as H.
      rewrite head_rows, Hc. destruct (cell_of o (r0 + 1)); exact H.
  - rewrite successor_col_first by by left. rewrite successor_rows_first.
    + specialize (Hfirst ltac:(by rewrite (ltb_true 0) by lia)). unfold table_rows in Hfirst. cbn [flat_map] in Hfirst.
      fold (table_rows objs) in Hfirst. destruct (col_rows o); exact Hfirst.
    + eapply Forall_impl; [exact Hlater|]. cbn. lia.
Qed.

(** GET: the cell of a column and a row. *)
Lemma exact_col o c r : exact [c; r] (col_rows o) = if c =? column o then cell_of o r else None.
Proof.
  unfold exact, col_rows. rewrite find_map. destruct (Z.eqb_spec c (column o)) as [->|Hc].
  - rewrite (find_ext _ (fun r' => r' =? r)).
    2: { intros r'. cbn. destruct (Z.eqb_spec r' r) as [->|Hr]; [by apply bool_decide_eq_true_2|]. apply bool_decide_eq_false_2. congruence. }
    unfold cell_of. destruct (List.find _ _) as [r'|] eqn:Ef.
    + apply List.find_some in Ef as [Hin ->%Z.eqb_eq]. apply list_elem_of_In, elem_of_seqZ in Hin.
      rewrite (proj2 (Z.leb_le 1 r)), (proj2 (Z.leb_le r n)) by lia. done.
    + destruct (Z.leb_spec 1 r), (Z.leb_spec r n); try done. exfalso.
      pose proof (List.find_none _ _ Ef r ltac:(apply list_elem_of_In, elem_of_seqZ; lia)) as Hf. cbv beta in Hf. by rewrite Z.eqb_refl in Hf.
  - rewrite (find_ext _ (fun _ => false)); [|intros r'; cbn; apply bool_decide_eq_false_2; congruence].
    by induction (seqZ 1 n).
Qed.
Lemma exact_rows_other objs t : length t <> 2%nat -> exact t (table_rows objs) = None.
Proof.
  intros Ht. apply exact_miss, Forall_forall. intros e He E. unfold table_rows in He.
  apply list_elem_of_In, in_flat_map in He as (o & _ & He). apply list_elem_of_In, list_elem_of_fmap in He as (r & -> & _).
  by subst t.
Qed.

Lemma table_get_other objs k t rest : Forall column_ok objs -> length t <> 2%nat -> small t -> room rest ->
  func_table_loop L (Z.of_nat (length t)) false false false objs (packet limb k (t ++ rest)) w =
  Some ((packet limb k (t ++ rest), [], false), w).
Proof.
  intros Hobjs Ht Hs [Hl Hb]. induction Hobjs as [|o objs Ho _ IH]; [done|].
  assert (Hcmp : exists c, packet_cmp (u8 (Z.min (Z.of_nat (length t)) (oid_len (leaf o)))) (oid_match (leaf o)) (packet limb k (t ++ rest)) (1 + L) = Some c).
  { rewrite (col_len _ Ho). eexists. apply packet_cmp_at. unfold u8. rewrite length_app, Z.mod_small; lia. }
  destruct Hcmp as [c Hcmp]. cbn [func_table_loop orb andb]. rewrite (lift_some _ _ _ _ Hcmp), (col_len _ Ho).
  rewrite (eqb_false (Z.of_nat (length t)) (1 + 1)) by lia. cbn [orb]. rewrite andb_false_r. exact IH.
Qed.

Lemma table_get objs k c r rest : Forall column_ok objs -> StronglySorted (fun a b => column a < column b) objs ->
  small [c; r] -> room rest ->
  get_result limb w [c; r] k rest (exact [c; r] (table_rows objs))
    (search_table false false 2 objs (packet limb k (c :: r :: rest)) w).
Proof.
  intros Hobjs Hsort [Hc [Hr _]%Forall_cons]%Forall_cons [Hl Hb]. induction Hsort as [|o objs _ IH Hlater]; [by exists rest|].
  apply Forall_cons in Hobjs as [Ho Hobjs]. pose proof (column_cmp o 2 k c (r :: rest) Ho ltac:(lia) Hc) as Hcmp.
  cbn [table_rows flat_map]. fold (table_rows objs). rewrite exact_app, exact_col.
  destruct (Z.eqb_spec c (column o)) as [Ec|Ec].
  - assert (Hloop : func_table_loop L 2 false false false (o :: objs) (packet limb k (c :: r :: rest)) w =
      Some ((packet limb k (c :: r :: rest), o :: objs, false), w)).
    { cbn [func_table_loop orb andb]. rewrite (lift_some _ _ _ _ Hcmp), (col_len _ Ho), (proj2 (Z.eqb_eq (column o - c) 0)) by lia. done. }
    unfold search_table. rewrite (pbind_some _ _ _ _ _ Hloop).
    destruct (leaf_here o objs false false k c r rest Ho Ec ltac:(unfold small_id, is_byte in *; lia) ltac:(lia) Hb) as (suf' & Hb' & Hls & ->).
    destruct (cell_of o r) as [v|]; cbn [orb from_option id] in *.
    + exists suf'. split; [done|split; [done|]]. cbn [app length]. do 3 f_equal. lia.
    + assert (exact [c; r] (table_rows objs) = None) as ->.
      { apply exact_miss, Forall_forall. intros e He E. unfold table_rows in He.
        apply list_elem_of_In, in_flat_map in He as (o' & Ho' & He). apply list_elem_of_In, list_elem_of_fmap in He as (r' & -> & _).
        cbn in E. injection E as E _. rewrite List.Forall_forall in Hlater. specialize (Hlater _ Ho'). lia. }
      by exists suf'.
  - specialize (IH Hobjs). unfold search_table, pbind in IH |- *.
    assert (Hloop : func_table_loop L 2 false false false (o :: objs) (packet limb k (c :: r :: rest)) w =
      func_table_loop L 2 false false false objs (packet limb k (c :: r :: rest)) w).
    { cbn [func_table_loop orb andb]. rewrite (lift_some _ _ _ _ Hcmp), (eqb_false (column o - c) 0) by lia. done. }
    rewrite Hloop. exact IH.
Qed.

(** A table keeps the promise. *)
Lemma seqZ_sorted a m : StronglySorted Z.lt (seqZ a m).
Proof.
  destruct (Z.lt_ge_cases m 0) as [?|Hm]; [rewrite seqZ_nil by lia; constructor|].
  revert a. pattern m. apply natlike_ind; [intros a; rewrite seqZ_nil by lia; constructor| |done].
  intros x Hx IH a. rewrite seqZ_cons by lia. replace (Z.pred (Z.succ x)) with x by lia. constructor; [apply IH|].
  apply Forall_forall. intros r Hr%elem_of_seqZ. lia.
Qed.
Lemma table_rows_ok objs : Forall column_ok objs -> StronglySorted (fun a b => column a < column b) objs -> 0 <= n <= 127 ->
  StronglySorted (fun a b => oid_lt a.1 b.1 = true) (table_rows objs) /\ Forall entry_ok (table_rows objs).
Proof.
  intros Hobjs Hsort Hn. induction Hsort as [|o objs _ IH Hlater]; [by split; constructor|].
  apply Forall_cons in Hobjs as [Ho Hobjs]. destruct (IH Hobjs) as [H1 H2]. cbn [table_rows flat_map]. fold (table_rows objs).
  assert (Hcross : forall r, Forall (fun e => oid_lt [column o; r] e.1 = true) (table_rows objs)).
  { intros r. apply Forall_forall. intros e He. unfold table_rows in He.
    apply list_elem_of_In, in_flat_map in He as (o' & Ho' & He). apply list_elem_of_In, list_elem_of_fmap in He as (r' & -> & _).
    rewrite List.Forall_forall in Hlater. cbn. by rewrite (ltb_true (column o)) by (apply Hlater, Ho'). }
  split.
  - unfold col_rows. induction (seqZ_sorted 1 n) as [|r l _ IHl Hl]; [exact H1|]. cbn [fmap list_fmap app].
    constructor; [exact IHl|]. apply Forall_app. split; [|apply Hcross]. apply Forall_fmap. eapply Forall_impl; [exact Hl|].
    intros r' Hr. cbn. by rewrite Z.ltb_irrefl, Z.eqb_refl, (ltb_true r).
  - apply Forall_app. split; [|exact H2]. unfold col_rows. apply Forall_fmap, Forall_forall. intros r Hr%elem_of_seqZ.
    destruct (col_answers _ Ho r [] ltac:(unfold is_byte; lia) (replicate 40 0)) as (suf' & _ & H);
      [done|by apply Forall_replicate; unfold is_byte|].
    unfold cell_of in H. rewrite (proj2 (Z.leb_le 1 r)), (proj2 (Z.leb_le r n)) in H by lia. cbn [andb] in H.
    destruct H as (Hv & Hvl & Hvb & _). unfold entry_ok. cbn. split; [done|]. split; [lia|]. split; [|done].
    repeat constructor; try apply (col_id _ Ho); lia.
Qed.

Lemma table_serves objs : table_ok objs -> serves limb w (table_rows objs).
Proof.
  intros [Hf Harr [Hs Hl] Hobjs Hsort Hn]. destruct (table_rows_ok objs Hobjs Hsort Hn) as [H1 H2].
  constructor; [done|done|done| | |].
  - intros t rest Ht Hroom. cbv zeta. rewrite Hf, Harr. unfold func_table. erewrite lift_some by apply packet_get_len.
    replace (Z.of_nat (length (limb_match limb) + length t) - L) with (Z.of_nat (length t)) by lia.
    change (flag MASK_GET MASK_SET) with false. change (flag MASK_GET RETURN_FIRST) with false.
    change (flag MASK_GET MASK_GET_NEXT) with false. cbv beta iota zeta.
    destruct (decide (length t = 2%nat)) as [H|H].
    + destruct t as [|c [|r [|]]]; try done. exact (table_get objs _ c r rest Hobjs Hsort Ht Hroom).
    + rewrite exact_rows_other by done. rewrite (pbind_some _ _ _ _ _ (table_get_other objs _ t rest Hobjs H Ht Hroom)).
      destruct Hroom. by exists rest.
  - intros t rest Ht Hne Hlen Hroom. rewrite Hf, Harr. unfold func_table. erewrite lift_some by apply packet_get_len.
    replace (Z.of_nat (length (limb_match limb) + length t) - L) with (Z.of_nat (length t)) by lia.
    change (flag MASK_GET_NEXT MASK_SET) with false. change (flag MASK_GET_NEXT RETURN_FIRST) with false.
    change (flag MASK_GET_NEXT MASK_GET_NEXT) with true. cbv beta iota zeta.
    destruct t as [|t0 ts]; [done|]. destruct Hroom as [Hrl Hrb]. 
    destruct (ts ++ rest) as [|y1 suf'] eqn:Ey; [apply (f_equal length) in Ey; rewrite length_app in Ey; cbn in Ey; lia|].
    assert (Hly : length (ts ++ rest) = S (length suf')) by by rewrite Ey. rewrite length_app in Hly.
    pose proof (table_next objs (Z.of_nat (length (limb_match limb) + length (t0 :: ts))) t0 ts rest y1 suf' Hobjs Hsort Hn ltac:(lia) Ht Ey ltac:(lia)) as H.
    replace (length (t0 :: ts) + length rest)%nat with (2 + length suf')%nat by (cbn; lia).
    replace (Z.of_nat (length (t0 :: ts))) with (1 + Z.of_nat (length ts)) by (cbn; lia). apply H.
    apply Forall_cons in Ht as [_ Hts]. apply bytes_app. split; [by apply small_bytes|done].
  - intros k rest Hk [Hrl Hrb]. rewrite Hf, Harr. unfold func_table. erewrite lift_some by apply packet_get_len.
    change (flag (Z.lor MASK_GET_NEXT RETURN_FIRST) MASK_SET) with false.
    change (flag (Z.lor MASK_GET_NEXT RETURN_FIRST) RETURN_FIRST) with true.
    change (flag (Z.lor MASK_GET_NEXT RETURN_FIRST) MASK_GET_NEXT) with true. cbv beta iota zeta.
    destruct rest as [|y0 [|y1 suf]]; [cbn in Hrl; lia..|]. rewrite !bytes_cons in Hrb. destruct Hrb as (Hb0 & Hb1 & Hb).
    cbn [length] in *. apply (table_first objs (k - L) k y0 y1 suf); done || lia.
Qed.
End table.
