(* ===== verification/SnmpMib.v ===== *)
(** The objects of the SNMP agent (lib/snmp.c): its static variables, the
    functions that read and write objects, the tables of OIDs, and the service
    on its UDP socket. *)
From Stdlib Require Import ZArith Lia Sorted.
From stdpp Require Import base numbers option list.
From S2P Require Import Prelude SpllHw SpllCommon SpllHelper SpllMain SpllExternal SoftPll PpsGen Printf Util Bytes Minic Net Tasks Ipv4.
From S2P Require Import Sdbfs Storage SfpDb Shell NetCon Snmp SnmpTable.

(** ** Constants *)
Definition TIME_STRING : Z := 1.
Definition TYPE_MASK : Z := 1.
Definition UPTIME_MASK : Z := 2.
Definition TAI_MASK : Z := 4.
Definition TAI_STRING : Z := Z.lor TAI_MASK TIME_STRING.
Definition TAI_NUM : Z := Z.lor TAI_MASK 0.
Definition UPTIME_NUM : Z := Z.lor UPTIME_MASK 0.
Definition PTP_SERVO_STATE_N_STANDARD_PTP : Z := 99.
Definition SERVO_STATEN : Z := 1.
Definition SERVO_CLOCKOFFSET : Z := 2.
Definition SERVO_SKEW : Z := 3.
Definition SERVO_RTT : Z := 4.
Definition SERVO_UPDATE_TIME : Z := 5.
Definition SERVO_DELTA_TX_M : Z := 6.
Definition SERVO_DELTA_RX_M : Z := 7.
Definition SERVO_DELTA_TX_S : Z := 8.
Definition SERVO_DELTA_RX_S : Z := 9.
Definition SERVO_N_ERR_STATE : Z := 10.
Definition SERVO_N_ERR_OFFSET : Z := 11.
Definition SERVO_N_ERR_DELTA_RTT : Z := 12.
Definition SERVO_ASYMMETRY : Z := 13.
Definition PORT_LINK_STATUS : Z := 1.
Definition restartPtp : Z := 1.
Definition restartPtpSuccessful : Z := 100.
Definition restartPtpFailed : Z := 200.
Definition writeToFlashGivenSfp : Z := 1.
Definition writeToFlashCurrentSfp : Z := 2.
Definition writeToMemoryCurrentSfp : Z := 3.
Definition eraseFlash : Z := 50.
Definition applySuccessful : Z := 100.
Definition applySuccessfulMatchFailed : Z := 101.
Definition applyFailed : Z := 200.
Definition applyFailedI2CError : Z := 201.
Definition applyFailedDBFull : Z := 202.
Definition applyFailedInvalidPN : Z := 203.
Definition writeToFlash : Z := 1.
Definition applyFailedEmptyLine : Z := 201.
Definition execute : Z := 12.
Definition executionFailed : Z := 200.
Definition executionFailedEmptyLine : Z := 201.
Definition executionFailedSetMagicTo44451 : Z := 202.
Definition shellCmdReturnCodeMAGIC : Z := 44451.
Definition DIAG_RW_BANK : Z := 0.
Definition DIAG_RO_BANK : Z := 1.
Definition AUX_DIAG_DATA_COL_SHIFT : Z := 3.
Definition AUX_DIAG_ID_INDEX : Z := 8.
Definition AUX_DIAG_VER_INDEX : Z := 9.
Definition TEMP_INVALID : Z := -2147483648.

(** ** State *)

(** The static variables of snmp.c that objects are made of, and
    [netconsole_status]. *)
Record snmp_vars := mk_vars {
  snmp_ptp_config : s_sfpinfo; ptp_config_apply_status : Z; ptp_restart_status : Z;
  init_script_line : list Z; init_script_config_apply_status : Z;
  sdb_apply_status : Z; sdb_mem_type : Z; sdb_base_addr : Z; sdb_param : Z;
  netconsole_apply_status : Z; netconsole_status : Z;
  shell_cmd_line : list Z; shell_cmd_apply_status : Z; shell_cmd_magic : Z; shell_cmd_return_code : Z;
  aux_diag_reg_ro_num : Z; aux_diag_reg_rw_num : Z }.
#[export] Instance eta_vars : Etable snmp_vars := fun s =>
  mk_vars (snmp_ptp_config s) (ptp_config_apply_status s) (ptp_restart_status s) (init_script_line s)
    (init_script_config_apply_status s) (sdb_apply_status s) (sdb_mem_type s) (sdb_base_addr s) (sdb_param s)
    (netconsole_apply_status s) (netconsole_status s) (shell_cmd_line s) (shell_cmd_apply_status s) (shell_cmd_magic s)
    (shell_cmd_return_code s) (aux_diag_reg_ro_num s) (aux_diag_reg_rw_num s).

(** Names of these variables, for pointers to them. *)
Inductive snmp_var :=
  | V_ptp_pn | V_ptp_alpha | V_ptp_dTx | V_ptp_dRx | V_ptp_config_apply_status | V_ptp_restart_status
  | V_init_script_line | V_init_script_config_apply_status
  | V_sdb_apply_status | V_sdb_mem_type | V_sdb_base_addr | V_sdb_param
  | V_netconsole_apply_status | V_netconsole_status
  | V_shell_cmd_line | V_shell_cmd_apply_status | V_shell_cmd_magic | V_shell_cmd_return_code.
(** Objects of other files that are only read. *)
Inductive fw_object :=
  | F_wrc_hw_name | F_commit_id | F_build_by | F_build_date
  | F_spll_mode | F_spll_irq_count | F_spll_seq_state | F_spll_align_state | F_spll_hlock | F_spll_mlock
  | F_spll_hy | F_spll_my | F_spll_delock_count
  | F_servo | F_ptp_tx_count | F_ptp_rx_count | F_asymmetryCorrectionPortDS
  | F_sfp_in_db | F_minic_tx_count | F_minic_rx_count
  | F_peer_mac | F_peer_ip | F_peer_port.
(** The pointer [p] of an object; the functions take some as a number. *)
Inductive ptr := P_var (v : snmp_var) | P_fw (o : fw_object) | P_code (n : Z).

(** What the agent reads of the PTP servo (a part of PPSi). *)
Record servo_view := mk_servo {
  sv_offset_ps : Z; sv_update_secs : Z; sv_update_scaled_nsecs : Z; sv_wr_active : bool; sv_state : Z; sv_skew_ps : Z;
  sv_rtt_ps : Z; sv_delta_txm_ps : Z; sv_delta_rxm_ps : Z; sv_delta_txs_ps : Z; sv_delta_rxs_ps : Z;
  sv_n_err_state : Z; sv_n_err_offset : Z; sv_n_err_delta_rtt : Z; sv_asymmetry_ps : Z }.

(** The rest of the firmware: the agent's variables, the objects and functions
    of other files. *)
Class SnmpEnv (W : Type) := {
  env_version :: SnmpVersion W;
  env_vars : W -> snmp_vars;
  env_set_vars : snmp_vars -> W -> W;
  env_softpll : W -> softpll_state;
  env_minic_counts : W -> Z * Z;
  env_servo : W -> servo_view;
  env_sfp_params : W -> s_sfpinfo;
  env_set_sfp_params : s_sfpinfo -> W -> W;
  env_sfp_in_db : W -> Z;
  env_bytes : fw_object -> W -> list Z;
  env_sensors : W -> list (list Z * Z);
  ep_link_up : P W Z;
  timer_get_tics : P W Z;
  pps_gen_get_secs : P W Z;
  wrc_ptp_stop : P W unit;
  wrc_ptp_start : P W unit;
  sfp_match : P W Z;
  call_get_sfp : Z -> P W (s_sfpinfo * Z);
  call_add_sfp : s_sfpinfo -> P W (s_sfpinfo * Z);
  call_sfpdb_erase : P W Z;
  call_init_add : list (option (list Z)) -> P W Z;
  call_init_erase : P W Z;
  call_sdbfs_format : Z -> Z -> P W Z;
  call_sdbfs_erase : Z -> Z -> P W Z;
  call_shell_exec : list Z -> P W Z;
  diag_read_word : Z -> Z -> P W (Z * Z);
  diag_write_word : Z -> Z -> P W Z }.

Section mib.
Context `{Endian} {W : Type} `{!SnmpEnv W}.

(** ** Memory *)
Definition int_image (x : Z) : list Z := image 4 (u32 x).
Definition int_of (l : list Z) : Z := s32 (value l).

(** The object a variable is in, and its offset there. *)
Definition var_image (v : snmp_var) (s : snmp_vars) : list Z :=
  match v with
  | V_ptp_pn | V_ptp_alpha | V_ptp_dTx | V_ptp_dRx => sfp_image (snmp_ptp_config s)
  | V_ptp_config_apply_status => int_image (ptp_config_apply_status s)
  | V_ptp_restart_status => int_image (ptp_restart_status s)
  | V_init_script_line => init_script_line s
  | V_init_script_config_apply_status => int_image (init_script_config_apply_status s)
  | V_sdb_apply_status => int_image (sdb_apply_status s)
  | V_sdb_mem_type => int_image (sdb_mem_type s)
  | V_sdb_base_addr => int_image (sdb_base_addr s)
  | V_sdb_param => int_image (sdb_param s)
  | V_netconsole_apply_status => int_image (netconsole_apply_status s)
  | V_netconsole_status => int_image (netconsole_status s)
  | V_shell_cmd_line => shell_cmd_line s
  | V_shell_cmd_apply_status => int_image (shell_cmd_apply_status s)
  | V_shell_cmd_magic => int_image (shell_cmd_magic s)
  | V_shell_cmd_return_code => int_image (shell_cmd_return_code s)
  end.
Definition var_offset (v : snmp_var) : Z :=
  match v with V_ptp_alpha => 16 | V_ptp_dTx => 24 | V_ptp_dRx => 28 | _ => 0 end.
Definition var_put (v : snmp_var) (l : list Z) (s : snmp_vars) : snmp_vars :=
  match v with
  | V_ptp_pn | V_ptp_alpha | V_ptp_dTx | V_ptp_dRx => s <| snmp_ptp_config := sfp_of l |>
  | V_ptp_config_apply_status => s <| ptp_config_apply_status := int_of l |>
  | V_ptp_restart_status => s <| ptp_restart_status := int_of l |>
  | V_init_script_line => s <| init_script_line := l |>
  | V_init_script_config_apply_status => s <| init_script_config_apply_status := int_of l |>
  | V_sdb_apply_status => s <| sdb_apply_status := int_of l |>
  | V_sdb_mem_type => s <| sdb_mem_type := int_of l |>
  | V_sdb_base_addr => s <| sdb_base_addr := int_of l |>
  | V_sdb_param => s <| sdb_param := int_of l |>
  | V_netconsole_apply_status => s <| netconsole_apply_status := int_of l |>
  | V_netconsole_status => s <| netconsole_status := int_of l |>
  | V_shell_cmd_line => s <| shell_cmd_line := l |>
  | V_shell_cmd_apply_status => s <| shell_cmd_apply_status := int_of l |>
  | V_shell_cmd_magic => s <| shell_cmd_magic := int_of l |>
  | V_shell_cmd_return_code => s <| shell_cmd_return_code := int_of l |>
  end.

(** The objects of the components modelled elsewhere, and the others. *)
Definition fw_image (o : fw_object) (w : W) : list Z :=
  let pll := env_softpll w in
  match o with
  | F_spll_mode => int_image (sp_mode pll)
  | F_spll_irq_count => int_image (sp_irq_count pll)
  | F_spll_seq_state => int_image (sp_seq_state pll)
  | F_spll_align_state => int_image (x_align_state (sp_ext pll))
  | F_spll_hlock => int_image (ld_locked (h_ld (sp_helper pll)))
  | F_spll_mlock => int_image (m_locked (sp_mpll pll))
  | F_spll_hy => int_image (pi_y (h_pi (sp_helper pll)))
  | F_spll_my => int_image (pi_y (m_pi (sp_mpll pll)))
  | F_spll_delock_count => int_image (sp_delock_count pll)
  | F_minic_tx_count => int_image (env_minic_counts w).1
  | F_minic_rx_count => int_image (env_minic_counts w).2
  | F_sfp_in_db => int_image (env_sfp_in_db w)
  | _ => env_bytes o w
  end.

#[export] Instance snmp_memory : Memory W ptr := {
  mem_load p off := fun w =>
    match p with
    | P_var v => Some (drop (Z.to_nat (var_offset v + off)) (var_image v (env_vars w)), w)
    | P_fw o => Some (drop (Z.to_nat off) (fw_image o w), w)
    | P_code _ => None
    end;
  mem_store p off data := fun w =>
    match p with
    | P_var v =>
        (fun img => (tt, env_set_vars (var_put v img (env_vars w)) w)) <$> set_at (var_image v (env_vars w)) (var_offset v + off) data
    | _ => None
    end }.

(** ** Functions that read an object *)
Definition get_p : access W ptr := fun obj buf =>
  let? p := mem_load (oid_p obj) (offset obj) in get_value buf (asn obj) p.
(** [get_pp]: [obj->p] is the address of a pointer; here it names the object
    that one points to. *)
Definition get_pp : access W ptr := get_p.

(** [get_u16]: the value is copied to a variable of two bytes. *)
Definition get_u16 : access W ptr := fun obj buf =>
  let? p := mem_load (oid_p obj) (2 * offset obj) in
  if (length p <? 2)%nat then pfail else get_value buf (asn obj) (take 2 p).

Definition get_mac : access W ptr := fun obj buf =>
  let? p := mem_load (oid_p obj) 0 in
  if (length p <? 6)%nat then pfail else get_value buf (asn obj) (take 6 p ++ [0]).

Definition get_sfp_pn_curr : access W ptr := fun obj buf w =>
  get_value buf (asn obj) (sfp_pn (env_sfp_params w) ++ [0]) w.

Definition code_of (p : ptr) : Z := match p with P_code n => n | _ => 0 end.

Definition get_port : access W ptr := fun obj buf =>
  if code_of (oid_p obj) =? PORT_LINK_STATUS then
    let? up := ep_link_up in get_value buf (asn obj) (int_image (1 + up))
  else pret (buf, -1).

Definition get_time : access W ptr := fun obj buf =>
  let req := code_of (oid_p obj) in
  if flag req UPTIME_MASK then
    let? tics := timer_get_tics in get_value buf (asn obj) (image 4 (u32 (u32 tics / 10)))
  else if flag req TAI_MASK then
    let? secs := pps_gen_get_secs in
    if Z.land req TYPE_MASK =? TIME_STRING then
      let? datestr := lift (format_time secs TIME_FORMAT_SORTED) in
      get_value buf (asn obj) (datestr ++ [0])
    else get_value buf (asn obj) (image 8 (u64 secs))
  else pfail.

Definition get_servo : access W ptr := fun obj buf w =>
  let req := code_of (oid_p obj) in
  let s := env_servo w in
  let v32 (x : Z) := get_value buf (asn obj) (image 4 (u32 x)) w in
  let v64 (x : Z) := get_value buf (asn obj) (image 8 (u64 x)) w in
  if req =? SERVO_CLOCKOFFSET then get_i32sat buf (asn obj) (sv_offset_ps s) w
  else if req =? SERVO_UPDATE_TIME then v64 (sv_update_secs s * 1000000000 + Z.shiftr (sv_update_scaled_nsecs s) 16)
  else if negb (sv_wr_active s) && negb (req =? SERVO_STATEN) then v64 0
  else if req =? SERVO_STATEN then
    v32 (if sv_wr_active s then sv_state s else PTP_SERVO_STATE_N_STANDARD_PTP)
  else if req =? SERVO_SKEW then get_i32sat buf (asn obj) (sv_skew_ps s) w
  else if req =? SERVO_RTT then v64 (sv_rtt_ps s)
  else if req =? SERVO_DELTA_TX_M then v32 (sv_delta_txm_ps s)
  else if req =? SERVO_DELTA_RX_M then v32 (sv_delta_rxm_ps s)
  else if req =? SERVO_DELTA_TX_S then v32 (sv_delta_txs_ps s)
  else if req =? SERVO_DELTA_RX_S then v32 (sv_delta_rxs_ps s)
  else if req =? SERVO_N_ERR_STATE then v32 (sv_n_err_state s)
  else if req =? SERVO_N_ERR_OFFSET then v32 (sv_n_err_offset s)
  else if req =? SERVO_N_ERR_DELTA_RTT then v32 (sv_n_err_delta_rtt s)
  else if req =? SERVO_ASYMMETRY then v64 (sv_asymmetry_ps s)
  else Some ((buf, -1), w).

(** [get_temp]: the sensor of the row; a fixed-point value is printed with
    four decimals. *)
Definition temp_string (t : Z) : option (list Z) :=
  if t =? TEMP_INVALID then Some (str "INVALID")
  else
    let sign := if t <? 0 then str "-" else [] in
    let t := if t <? 0 then s32 (- t) else t in
    app sign <$> Full.pp_sprintf (str "%d.%04d")
      [VInt (Z.shiftr t 16); VInt (Z.shiftr (s32 (Z.land t 65535 * 10 * 1000)) 16)].
Definition get_temp : access W ptr := fun obj buf w =>
  let row := nth 1 (oid_match obj) 0 in
  let col := nth 0 (oid_match obj) 0 in
  match (if row <? 1 then None else env_sensors w !! Z.to_nat (row - 1)) with
  | None => Some ((buf, 0), w)
  | Some (name, t) =>
      if col =? 2 then get_value buf (asn obj) (name ++ [0]) w
      else if col =? 3 then (let? s := lift (temp_string t) in get_value buf (asn obj) (s ++ [0])) w
      else Some ((buf, 0), w)
  end.

(** [get_sfp]: the loop over the database; [i] is the entry, from 1. *)
Fixpoint get_sfp_loop (fuel : nat) (row col i sfpcount : Z) (obj : snmp_leaf ptr) (buf : list Z) : P W (list Z * Z) :=
  match fuel with
  | O => pfail
  | S fuel =>
      if negb (i <? sfpcount + 1) then pret (buf, 0)
      else
        let? (sfp, sfpcount) := call_get_sfp (i - 1) in
        if (sfpcount =? 0) || (sfpcount =? -1) then pret (buf, 0)
        else if (row =? i) && (col =? 2) then get_value buf (asn obj) (sfp_pn sfp ++ [0])
        else if (row =? i) && (col =? 3) then get_value buf (asn obj) (int_image (sfp_dTx sfp))
        else if (row =? i) && (col =? 4) then get_value buf (asn obj) (int_image (sfp_dRx sfp))
        else if (row =? i) && (col =? 5) then get_value buf (asn obj) (image 8 (u64 (sfp_alpha sfp)))
        else get_sfp_loop fuel row col (i + 1) sfpcount obj buf
  end.
Definition get_sfp : access W ptr := fun obj buf =>
  get_sfp_loop 256 (nth 1 (oid_match obj) 0) (nth 0 (oid_match obj) 0) 1 1 obj buf.

(** ** Functions that write an object *)
Definition set_p : access W ptr := fun obj buf =>
  let? r := set_value buf obj (oid_p obj) (offset obj) in pret (buf, r).

(** What the [set] functions that start an action have in common: the value
    written is the action, and its result replaces it. *)
Definition apply (action : Z -> P W Z) : access W ptr := fun obj buf =>
  let? ret := set_value buf obj (oid_p obj) 0 in
  if ret <=? 0 then pret (buf, ret)
  else
    let? p := mem_load (oid_p obj) 0 in
    let? result := action (int_of (take 4 p)) in
    let? _ := mem_store (oid_p obj) 0 (int_image result) in
    pret (buf, ret).
Definition get_vars : P W snmp_vars := fun w => Some (env_vars w, w).
Definition put_vars (s : snmp_vars) : P W unit := fun w => Some (tt, env_set_vars s w).

Definition set_ptp_restart : access W ptr := apply (fun mode =>
  if mode =? restartPtp then
    let? _ := wrc_ptp_stop in
    let? _ := wrc_ptp_start in
    pret restartPtpSuccessful
  else pret restartPtpFailed).

(** The part number padded with spaces. *)
Definition pad_pn (pn : list Z) : list Z :=
  let n := length (cstr (take 16 pn)) in take n pn ++ replicate (16 - n) 32.
Definition write_given_sfp : P W Z :=
  let? s := get_vars in
  if aget 0 (sfp_pn (snmp_ptp_config s)) 0 =? 0 then pret applyFailedInvalidPN
  else
    let cfg := (snmp_ptp_config s) <| sfp_pn := pad_pn (sfp_pn (snmp_ptp_config s)) |> in
    let? (cfg, temp) := call_add_sfp cfg in
    let? s := get_vars in
    let? _ := put_vars (s <| snmp_ptp_config := cfg |>) in
    if temp =? EE_RET_DBFULL then pret applyFailedDBFull
    else if temp =? EE_RET_I2CERR then pret applyFailedI2CError
    else
      let? temp := sfp_match in
      if truth temp then pret applySuccessfulMatchFailed else pret applySuccessful.
Definition set_ptp_config : access W ptr := apply (fun mode =>
  if mode =? writeToMemoryCurrentSfp then
    let? s := get_vars in
    let cfg := snmp_ptp_config s in
    let? _ := (fun w => Some (tt, env_set_sfp_params
       ((env_sfp_params w) <| sfp_dTx := sfp_dTx cfg |> <| sfp_dRx := sfp_dRx cfg |> <| sfp_alpha := sfp_alpha cfg |>) w)) in
    let? _ := wrc_ptp_stop in
    let? _ := wrc_ptp_start in
    pret applySuccessful
  else if mode =? writeToFlashCurrentSfp then
    let? s := get_vars in
    let? pn := (fun w => Some (sfp_pn (env_sfp_params w), w)) in
    let? _ := put_vars (s <| snmp_ptp_config := (snmp_ptp_config s) <| sfp_pn := pn |> |>) in
    write_given_sfp
  else if mode =? writeToFlashGivenSfp then write_given_sfp
  else if mode =? eraseFlash then
    let? r := call_sfpdb_erase in
    pret (if r =? EE_RET_I2CERR then applyFailed else applySuccessful)
  else pret applyFailed).

Definition result_of (r : Z) : Z := if r <? 0 then applyFailed else applySuccessful.
(** [args] has three elements and no null pointer: the last one is the address
    of an empty string. *)
Definition set_init_script_config : access W ptr := apply (fun mode =>
  if mode =? writeToFlash then
    let? s := get_vars in
    if aget 0 (init_script_line s) 0 =? 0 then pret applyFailedEmptyLine
    else
      let? r := call_init_add [Some (cstr (init_script_line s)); Some []] in
      pret (result_of r)
  else if mode =? eraseFlash then
    let? r := call_init_erase in pret (result_of r)
  else pret applyFailed).

Definition set_sdb : access W ptr := apply (fun mode =>
  let? s := get_vars in
  let forced_base := if sdb_base_addr s =? -1 then 0 else 1 in
  let? result := (if mode =? writeToFlash then let? r := call_sdbfs_format (u32 (sdb_base_addr s)) forced_base in pret (result_of r)
    else if mode =? eraseFlash then let? r := call_sdbfs_erase (u32 (sdb_base_addr s)) forced_base in pret (result_of r)
    else pret applyFailed) in
  if result =? applySuccessful then
    let? s := get_vars in
    let? _ := put_vars (s <| sdb_mem_type := -1 |> <| sdb_base_addr := -1 |> <| sdb_param := -1 |>) in
    pret result
  else pret result).

Definition set_netconsole : access W ptr := apply (fun mode =>
  if (mode =? NETCONSOLE_DISABLED) || (mode =? NETCONSOLE_WAIT) then
    let? s := get_vars in
    let? _ := put_vars (s <| netconsole_status := mode |>) in
    pret applySuccessful
  else pret applyFailed).

Definition set_shell_cmd : access W ptr := apply (fun mode =>
  if mode =? execute then
    let? s := get_vars in
    if aget 0 (shell_cmd_line s) 0 =? 0 then pret executionFailedEmptyLine
    else if negb (shell_cmd_magic s =? shellCmdReturnCodeMAGIC) then pret executionFailedSetMagicTo44451
    else
      let line := aset (shell_cmd_line s) SH_MAX_LINE_LEN 0 in
      let? _ := put_vars (s <| shell_cmd_line := line |>) in
      let? code := call_shell_exec (cstr line) in
      let? s := get_vars in
      let? _ := put_vars (s <| shell_cmd_return_code := code |> <| shell_cmd_magic := 0 |>) in
      pret applySuccessful
  else pret executionFailed).

(** [data_aux_diag]; [set] for [mode == SNMP_SET]. *)
Definition data_aux_diag (set : bool) : access W ptr := fun obj buf =>
  let bank := code_of (oid_p obj) in
  let? s := get_vars in
  let regs_available := s32 (if bank =? DIAG_RO_BANK then aux_diag_reg_ro_num s else aux_diag_reg_rw_num s) in
  if negb (bank =? DIAG_RO_BANK) && negb (bank =? DIAG_RW_BANK) then pret (buf, - SNMP_ERR_BADVALUE)
  else
    let row := nth 1 (oid_match obj) 0 in
    let col := nth 0 (oid_match obj) 0 in
    if negb (row =? 1) then pret (buf, 0)
    else if (col <? 2) || (s32 (regs_available + AUX_DIAG_DATA_COL_SHIFT) <=? col) then pret (buf, 0)
    else if col =? 2 then
      if set then pret (buf, - SNMP_ERR_READONLY) else get_value buf (asn obj) (int_image regs_available)
    else
      let adr := u32 (col - AUX_DIAG_DATA_COL_SHIFT) in
      let read : P W (list Z * Z) :=
        let? (val, ret) := diag_read_word adr bank in
        if ret <? 0 then pret (buf, - SNMP_ERR_GENERR) else get_value buf (asn obj) (image 4 (u32 val)) in
      if set then
        let? (data, ret) := incoming_value buf obj in
        if ret <=? 0 then pret (buf, ret)
        else
          let? ret := diag_write_word adr (value data) in
          if ret <? 0 then pret (buf, - SNMP_ERR_GENERR) else read
      else read.
Definition get_aux_diag : access W ptr := data_aux_diag false.
Definition set_aux_diag : access W ptr := data_aux_diag true.
End mib.

(** ** The OIDs: of the branches, and inside them *)
Definition oid_wrpcVersionGroup : list Z := [43; 6; 1; 4; 1; 96; 101; 1; 1].
Definition oid_wrpcTimeGroup : list Z := [43; 6; 1; 4; 1; 96; 101; 1; 2].
Definition oid_wrpcTemperatureTable : list Z := [43; 6; 1; 4; 1; 96; 101; 1; 3; 1].
Definition oid_wrpcSpllStatusGroup : list Z := [43; 6; 1; 4; 1; 96; 101; 1; 4].
Definition oid_wrpcPtpGroup : list Z := [43; 6; 1; 4; 1; 96; 101; 1; 5].
Definition oid_wrpcPtpConfigGroup : list Z := [43; 6; 1; 4; 1; 96; 101; 1; 6].
Definition oid_wrpcPortGroup : list Z := [43; 6; 1; 4; 1; 96; 101; 1; 7].
Definition oid_wrpcSfpTable : list Z := [43; 6; 1; 4; 1; 96; 101; 1; 8; 1].
Definition oid_wrpcInitScriptConfigGroup : list Z := [43; 6; 1; 4; 1; 96; 101; 1; 9].
Definition oid_wrpcSdbGroup : list Z := [43; 6; 1; 4; 1; 96; 101; 1; 10].
Definition oid_wrpcNetconsoleGetGroup : list Z := [43; 6; 1; 4; 1; 96; 101; 1; 11; 1].
Definition oid_wrpcNetconsoleSetGroup : list Z := [43; 6; 1; 4; 1; 96; 101; 1; 11; 2].
Definition oid_wrpcShellCmdGroup : list Z := [43; 6; 1; 4; 1; 96; 101; 1; 12].
Definition oid_wrpcVersionHwType : list Z := [1; 0].
Definition oid_wrpcVersionSwVersion : list Z := [2; 0].
Definition oid_wrpcVersionSwBuildBy : list Z := [3; 0].
Definition oid_wrpcVersionSwBuildDate : list Z := [4; 0].
Definition oid_wrpcTimeTAI : list Z := [1; 0].
Definition oid_wrpcTimeTAIString : list Z := [2; 0].
Definition oid_wrpcTimeSystemUptime : list Z := [3; 0].
Definition oid_wrpcTemperatureName : list Z := [2].
Definition oid_wrpcTemperatureValue : list Z := [3].
Definition oid_wrpcSpllMode : list Z := [1; 0].
Definition oid_wrpcSpllIrqCnt : list Z := [2; 0].
Definition oid_wrpcSpllSeqState : list Z := [3; 0].
Definition oid_wrpcSpllAlignState : list Z := [4; 0].
Definition oid_wrpcSpllHlock : list Z := [5; 0].
Definition oid_wrpcSpllMlock : list Z := [6; 0].
Definition oid_wrpcSpllHY : list Z := [7; 0].
Definition oid_wrpcSpllMY : list Z := [8; 0].
Definition oid_wrpcSpllDelCnt : list Z := [9; 0].
Definition oid_wrpcPtpServoStateN : list Z := [5; 0].
Definition oid_wrpcPtpClockOffsetPsHR : list Z := [8; 0].
Definition oid_wrpcPtpSkew : list Z := [9; 0].
Definition oid_wrpcPtpRTT : list Z := [10; 0].
Definition oid_wrpcPtpServoUpdates : list Z := [12; 0].
Definition oid_wrpcPtpServoUpdateTime : list Z := [13; 0].
Definition oid_wrpcPtpDeltaTxM : list Z := [14; 0].
Definition oid_wrpcPtpDeltaRxM : list Z := [15; 0].
Definition oid_wrpcPtpDeltaTxS : list Z := [16; 0].
Definition oid_wrpcPtpDeltaRxS : list Z := [17; 0].
Definition oid_wrpcPtpServoStateErrCnt : list Z := [18; 0].
Definition oid_wrpcPtpClockOffsetErrCnt : list Z := [19; 0].
Definition oid_wrpcPtpRTTErrCnt : list Z := [20; 0].
Definition oid_wrpcPtpAsymmetry : list Z := [22; 0].
Definition oid_wrpcPtpTX : list Z := [23; 0].
Definition oid_wrpcPtpRX : list Z := [24; 0].
Definition oid_wrpcPtpAlpha64 : list Z := [27; 0].
Definition oid_wrpcPtpConfigRestart : list Z := [1; 0].
Definition oid_wrpcPtpConfigApply : list Z := [2; 0].
Definition oid_wrpcPtpConfigSfpPn : list Z := [3; 0].
Definition oid_wrpcPtpConfigDeltaTx : list Z := [4; 0].
Definition oid_wrpcPtpConfigDeltaRx : list Z := [5; 0].
Definition oid_wrpcPtpConfigAlpha : list Z := [6; 0].
Definition oid_wrpcPortLinkStatus : list Z := [1; 0].
Definition oid_wrpcPortSfpPn : list Z := [2; 0].
Definition oid_wrpcPortSfpInDB : list Z := [3; 0].
Definition oid_wrpcPortInternalTX : list Z := [4; 0].
Definition oid_wrpcPortInternalRX : list Z := [5; 0].
Definition oid_wrpcSfpPn : list Z := [2].
Definition oid_wrpcSfpDeltaTx : list Z := [3].
Definition oid_wrpcSfpDeltaRx : list Z := [4].
Definition oid_wrpcSfpAlpha : list Z := [5].
Definition oid_wrpcInitScriptConfigApply : list Z := [1; 0].
Definition oid_wrpcInitScriptConfigLine : list Z := [2; 0].
Definition oid_wrpcSdbApply : list Z := [1; 0].
Definition oid_wrpcSdbMemType : list Z := [2; 0].
Definition oid_wrpcSdbBaseAddr : list Z := [3; 0].
Definition oid_wrpcSdbParam : list Z := [4; 0].
Definition oid_wrpcNetconsoleGetStatus : list Z := [1; 0].
Definition oid_wrpcNetconsoleGetPeerMac : list Z := [2; 0].
Definition oid_wrpcNetconsoleGetPeerIp : list Z := [3; 0].
Definition oid_wrpcNetconsoleGetPeerPort : list Z := [4; 0].
Definition oid_wrpcNetconsoleSetApply : list Z := [1; 0].
Definition oid_wrpcShellCmdRun : list Z := [1; 0].
Definition oid_wrpcShellCmdLine : list Z := [2; 0].
Definition oid_wrpcShellCmdMagic : list Z := [3; 0].
Definition oid_wrpcShellCmdReturnCode : list Z := [4; 0].
(** The bytes 8 and 9 are set by [snmp_init]: the id and version of the
    diagnostic registers. *)
Definition oid_wrpcAuxRoTable (id ver : Z) : list Z := [43; 6; 1; 4; 1; 96; 101; 2; id; ver; 1; 1].
Definition oid_wrpcAuxRwTable (id ver : Z) : list Z := [43; 6; 1; 4; 1; 96; 101; 2; id; ver; 2; 1].

(** ** Groups and tables

    The configuration, and the macros of snmp.h. *)
Class SnmpConfig := {
  CONFIG_SNMP_SET : bool; CONFIG_TEMP_SENSORS : bool; CONFIG_SNMP_INIT : bool; CONFIG_SNMP_SDB : bool;
  CONFIG_SNMP_NETCONSOLE : bool; CONFIG_SNMP_CMD : bool; CONFIG_SNMP_AUX_DIAG : bool }.

Section tables.
Context `{Endian} {W : Type} `{!SnmpEnv W, !SnmpConfig}.

Definition SNMP_SET_FUNCTION (f : access W ptr) : option (access W ptr) := if CONFIG_SNMP_SET then Some f else None.
Definition NO_SET : option (access W ptr) := None.
Definition OID_FIELD_VAR (oid : list Z) (get : access W ptr) (set : option (access W ptr)) (asn : Z) (p : ptr) (size : Z) : snmp_oid W ptr :=
  mk_oid (mk_leaf oid (Z.of_nat (length oid)) asn p 0 size) get set.
Definition OID_FIELD_STRUCT (oid : list Z) (get : access W ptr) (set : option (access W ptr)) (asn : Z) (p : ptr) (off size : Z) : snmp_oid W ptr :=
  mk_oid (mk_leaf oid (Z.of_nat (length oid)) asn p off size) get set.
(** The offsets of the fields of PPSi's structures. *)
Context (offsetof_update_count offsetof_scaledDelayCoefficient : Z).

Definition oid_array_wrpcVersionGroup : list (snmp_oid W ptr) := [
  OID_FIELD_VAR oid_wrpcVersionHwType get_p NO_SET ASN_OCTET_STR (P_fw F_wrc_hw_name) 1;
  OID_FIELD_VAR oid_wrpcVersionSwVersion get_p NO_SET ASN_OCTET_STR (P_fw F_commit_id) 1;
  OID_FIELD_VAR oid_wrpcVersionSwBuildBy get_p NO_SET ASN_OCTET_STR (P_fw F_build_by) 1;
  OID_FIELD_VAR oid_wrpcVersionSwBuildDate get_p NO_SET ASN_OCTET_STR (P_fw F_build_date) 1].
Definition oid_array_wrpcTimeGroup : list (snmp_oid W ptr) := [
  OID_FIELD_VAR oid_wrpcTimeTAI get_time NO_SET ASN_COUNTER64 (P_code TAI_NUM) 1;
  OID_FIELD_VAR oid_wrpcTimeTAIString get_time NO_SET ASN_OCTET_STR (P_code TAI_STRING) 1;
  OID_FIELD_VAR oid_wrpcTimeSystemUptime get_time NO_SET ASN_TIMETICKS (P_code UPTIME_NUM) 1].
Definition oid_array_wrpcTemperatureTable : list (snmp_oid W ptr) := [
  OID_FIELD_VAR oid_wrpcTemperatureName get_temp NO_SET ASN_OCTET_STR (P_code 0) 1;
  OID_FIELD_VAR oid_wrpcTemperatureValue get_temp NO_SET ASN_OCTET_STR (P_code 0) 1].
Definition oid_array_wrpcSpllStatusGroup : list (snmp_oid W ptr) := [
  OID_FIELD_VAR oid_wrpcSpllMode get_p NO_SET ASN_INTEGER (P_fw F_spll_mode) 1;
  OID_FIELD_VAR oid_wrpcSpllIrqCnt get_p NO_SET ASN_COUNTER (P_fw F_spll_irq_count) 1;
  OID_FIELD_VAR oid_wrpcSpllSeqState get_p NO_SET ASN_INTEGER (P_fw F_spll_seq_state) 1;
  OID_FIELD_VAR oid_wrpcSpllAlignState get_p NO_SET ASN_INTEGER (P_fw F_spll_align_state) 1;
  OID_FIELD_VAR oid_wrpcSpllHlock get_p NO_SET ASN_COUNTER (P_fw F_spll_hlock) 1;
  OID_FIELD_VAR oid_wrpcSpllMlock get_p NO_SET ASN_COUNTER (P_fw F_spll_mlock) 1;
  OID_FIELD_VAR oid_wrpcSpllHY get_p NO_SET ASN_INTEGER (P_fw F_spll_hy) 1;
  OID_FIELD_VAR oid_wrpcSpllMY get_p NO_SET ASN_INTEGER (P_fw F_spll_my) 1;
  OID_FIELD_VAR oid_wrpcSpllDelCnt get_p NO_SET ASN_COUNTER (P_fw F_spll_delock_count) 1].
Definition oid_array_wrpcPtpGroup : list (snmp_oid W ptr) := [
  OID_FIELD_VAR oid_wrpcPtpServoStateN get_servo NO_SET ASN_INTEGER (P_code SERVO_STATEN) 1;
  OID_FIELD_VAR oid_wrpcPtpClockOffsetPsHR get_servo NO_SET ASN_INTEGER (P_code SERVO_CLOCKOFFSET) 1;
  OID_FIELD_VAR oid_wrpcPtpSkew get_servo NO_SET ASN_INTEGER (P_code SERVO_SKEW) 1;
  OID_FIELD_VAR oid_wrpcPtpRTT get_servo NO_SET ASN_COUNTER64 (P_code SERVO_RTT) 1;
  OID_FIELD_STRUCT oid_wrpcPtpServoUpdates get_pp NO_SET ASN_COUNTER (P_fw F_servo) offsetof_update_count 4;
  OID_FIELD_VAR oid_wrpcPtpServoUpdateTime get_servo NO_SET ASN_COUNTER64 (P_code SERVO_UPDATE_TIME) 1;
  OID_FIELD_VAR oid_wrpcPtpDeltaTxM get_servo NO_SET ASN_INTEGER (P_code SERVO_DELTA_TX_M) 1;
  OID_FIELD_VAR oid_wrpcPtpDeltaRxM get_servo NO_SET ASN_INTEGER (P_code SERVO_DELTA_RX_M) 1;
  OID_FIELD_VAR oid_wrpcPtpDeltaTxS get_servo NO_SET ASN_INTEGER (P_code SERVO_DELTA_TX_S) 1;
  OID_FIELD_VAR oid_wrpcPtpDeltaRxS get_servo NO_SET ASN_INTEGER (P_code SERVO_DELTA_RX_S) 1;
  OID_FIELD_VAR oid_wrpcPtpServoStateErrCnt get_servo NO_SET ASN_COUNTER (P_code SERVO_N_ERR_STATE) 1;
  OID_FIELD_VAR oid_wrpcPtpClockOffsetErrCnt get_servo NO_SET ASN_COUNTER (P_code SERVO_N_ERR_OFFSET) 1;
  OID_FIELD_VAR oid_wrpcPtpRTTErrCnt get_servo NO_SET ASN_COUNTER (P_code SERVO_N_ERR_DELTA_RTT) 1;
  OID_FIELD_VAR oid_wrpcPtpAsymmetry get_servo NO_SET ASN_COUNTER64 (P_code SERVO_ASYMMETRY) 1;
  OID_FIELD_VAR oid_wrpcPtpTX get_p NO_SET ASN_COUNTER (P_fw F_ptp_tx_count) 4;
  OID_FIELD_VAR oid_wrpcPtpRX get_p NO_SET ASN_COUNTER (P_fw F_ptp_rx_count) 4;
  OID_FIELD_STRUCT oid_wrpcPtpAlpha64 get_p NO_SET ASN_COUNTER64 (P_fw F_asymmetryCorrectionPortDS) offsetof_scaledDelayCoefficient 8].
Definition oid_array_wrpcPtpConfigGroup : list (snmp_oid W ptr) := [
  OID_FIELD_VAR oid_wrpcPtpConfigRestart get_p (SNMP_SET_FUNCTION set_ptp_restart) ASN_INTEGER (P_var V_ptp_restart_status) 4;
  OID_FIELD_VAR oid_wrpcPtpConfigApply get_p (SNMP_SET_FUNCTION set_ptp_config) ASN_INTEGER (P_var V_ptp_config_apply_status) 4;
  OID_FIELD_VAR oid_wrpcPtpConfigSfpPn get_p (SNMP_SET_FUNCTION set_p) ASN_OCTET_STR (P_var V_ptp_pn) 16;
  OID_FIELD_VAR oid_wrpcPtpConfigDeltaTx get_p (SNMP_SET_FUNCTION set_p) ASN_INTEGER (P_var V_ptp_dTx) 4;
  OID_FIELD_VAR oid_wrpcPtpConfigDeltaRx get_p (SNMP_SET_FUNCTION set_p) ASN_INTEGER (P_var V_ptp_dRx) 4;
  OID_FIELD_VAR oid_wrpcPtpConfigAlpha get_p (SNMP_SET_FUNCTION set_p) ASN_INTEGER (P_var V_ptp_alpha) 8].
Definition oid_array_wrpcPortGroup : list (snmp_oid W ptr) := [
  OID_FIELD_VAR oid_wrpcPortLinkStatus get_port NO_SET ASN_INTEGER (P_code PORT_LINK_STATUS) 1;
  OID_FIELD_VAR oid_wrpcPortSfpPn get_sfp_pn_curr NO_SET ASN_OCTET_STR (P_code 0) 1;
  OID_FIELD_VAR oid_wrpcPortSfpInDB get_p NO_SET ASN_INTEGER (P_fw F_sfp_in_db) 4;
  OID_FIELD_VAR oid_wrpcPortInternalTX get_p NO_SET ASN_COUNTER (P_fw F_minic_tx_count) 4;
  OID_FIELD_VAR oid_wrpcPortInternalRX get_p NO_SET ASN_COUNTER (P_fw F_minic_rx_count) 4].
Definition oid_array_wrpcSfpTable : list (snmp_oid W ptr) := [
  OID_FIELD_VAR oid_wrpcSfpPn get_sfp NO_SET ASN_OCTET_STR (P_code 0) 1;
  OID_FIELD_VAR oid_wrpcSfpDeltaTx get_sfp NO_SET ASN_INTEGER (P_code 0) 1;
  OID_FIELD_VAR oid_wrpcSfpDeltaRx get_sfp NO_SET ASN_INTEGER (P_code 0) 1;
  OID_FIELD_VAR oid_wrpcSfpAlpha get_sfp NO_SET ASN_INTEGER (P_code 0) 1].
Definition oid_array_wrpcInitScriptConfigGroup : list (snmp_oid W ptr) := [
  OID_FIELD_VAR oid_wrpcInitScriptConfigApply get_p (SNMP_SET_FUNCTION set_init_script_config) ASN_INTEGER (P_var V_init_script_config_apply_status) 4;
  OID_FIELD_VAR oid_wrpcInitScriptConfigLine get_p (SNMP_SET_FUNCTION set_p) ASN_OCTET_STR (P_var V_init_script_line) 32].
Definition oid_array_wrpcSdbGroup : list (snmp_oid W ptr) := [
  OID_FIELD_VAR oid_wrpcSdbApply get_p (SNMP_SET_FUNCTION set_sdb) ASN_INTEGER (P_var V_sdb_apply_status) 4;
  OID_FIELD_VAR oid_wrpcSdbMemType get_p (SNMP_SET_FUNCTION set_p) ASN_INTEGER (P_var V_sdb_mem_type) 4;
  OID_FIELD_VAR oid_wrpcSdbBaseAddr get_p (SNMP_SET_FUNCTION set_p) ASN_INTEGER (P_var V_sdb_base_addr) 4;
  OID_FIELD_VAR oid_wrpcSdbParam get_p (SNMP_SET_FUNCTION set_p) ASN_INTEGER (P_var V_sdb_param) 4].
Definition oid_array_wrpcNetconsoleGetGroup : list (snmp_oid W ptr) := [
  OID_FIELD_VAR oid_wrpcNetconsoleGetStatus get_p NO_SET ASN_INTEGER (P_var V_netconsole_status) 4;
  OID_FIELD_VAR oid_wrpcNetconsoleGetPeerMac get_mac NO_SET ASN_OCTET_STR (P_fw F_peer_mac) 6;
  OID_FIELD_VAR oid_wrpcNetconsoleGetPeerIp get_p NO_SET ASN_IPADDRESS (P_fw F_peer_ip) 4;
  OID_FIELD_VAR oid_wrpcNetconsoleGetPeerPort get_u16 NO_SET ASN_INTEGER (P_fw F_peer_port) 2].
Definition oid_array_wrpcNetconsoleSetGroup : list (snmp_oid W ptr) := [
  OID_FIELD_VAR oid_wrpcNetconsoleSetApply get_p (SNMP_SET_FUNCTION set_netconsole) ASN_INTEGER (P_var V_netconsole_apply_status) 4].
Definition oid_array_wrpcShellCmdGroup : list (snmp_oid W ptr) := [
  OID_FIELD_VAR oid_wrpcShellCmdRun get_p (SNMP_SET_FUNCTION set_shell_cmd) ASN_INTEGER (P_var V_shell_cmd_apply_status) 4;
  OID_FIELD_VAR oid_wrpcShellCmdLine get_p (SNMP_SET_FUNCTION set_p) ASN_OCTET_STR (P_var V_shell_cmd_line) 81;
  OID_FIELD_VAR oid_wrpcShellCmdMagic get_p (SNMP_SET_FUNCTION set_p) ASN_INTEGER (P_var V_shell_cmd_magic) 4;
  OID_FIELD_VAR oid_wrpcShellCmdReturnCode get_p (SNMP_SET_FUNCTION set_p) ASN_INTEGER (P_var V_shell_cmd_return_code) 4].
Definition oid_array_wrpcAuxRoTable : list (snmp_oid W ptr) := [
  mk_oid (mk_leaf [] 4 ASN_UNSIGNED (P_code DIAG_RO_BANK) 0 1) get_aux_diag NO_SET].
Definition oid_array_wrpcAuxRwTable : list (snmp_oid W ptr) := [
  mk_oid (mk_leaf [] 4 ASN_UNSIGNED (P_code DIAG_RW_BANK) 0 1) get_aux_diag (SNMP_SET_FUNCTION set_aux_diag)].

(** [oid_limb_array]; the group of the board is left out. *)
Definition limb_if (b : bool) (l : snmp_oid_limb W ptr) : list (snmp_oid_limb W ptr) := if b then [l] else [].
Definition oid_limb_array (aux_id aux_ver : Z) : list (snmp_oid_limb W ptr) :=
  [mk_limb oid_wrpcVersionGroup func_group oid_array_wrpcVersionGroup;
   mk_limb oid_wrpcTimeGroup func_group oid_array_wrpcTimeGroup]
  ++ limb_if CONFIG_TEMP_SENSORS (mk_limb oid_wrpcTemperatureTable func_table oid_array_wrpcTemperatureTable)
  ++ [mk_limb oid_wrpcSpllStatusGroup func_group oid_array_wrpcSpllStatusGroup;
      mk_limb oid_wrpcPtpGroup func_group oid_array_wrpcPtpGroup;
      mk_limb oid_wrpcPtpConfigGroup func_group oid_array_wrpcPtpConfigGroup;
      mk_limb oid_wrpcPortGroup func_group oid_array_wrpcPortGroup;
      mk_limb oid_wrpcSfpTable func_table oid_array_wrpcSfpTable]
  ++ limb_if (CONFIG_SNMP_INIT && CONFIG_SNMP_SET) (mk_limb oid_wrpcInitScriptConfigGroup func_group oid_array_wrpcInitScriptConfigGroup)
  ++ limb_if (CONFIG_SNMP_SDB && CONFIG_SNMP_SET) (mk_limb oid_wrpcSdbGroup func_group oid_array_wrpcSdbGroup)
  ++ limb_if CONFIG_SNMP_NETCONSOLE (mk_limb oid_wrpcNetconsoleGetGroup func_group oid_array_wrpcNetconsoleGetGroup)
  ++ limb_if (CONFIG_SNMP_NETCONSOLE && CONFIG_SNMP_SET) (mk_limb oid_wrpcNetconsoleSetGroup func_group oid_array_wrpcNetconsoleSetGroup)
  ++ limb_if (CONFIG_SNMP_CMD && CONFIG_SNMP_SET) (mk_limb oid_wrpcShellCmdGroup func_group oid_array_wrpcShellCmdGroup)
  ++ limb_if CONFIG_SNMP_AUX_DIAG (mk_limb (oid_wrpcAuxRoTable aux_id aux_ver) func_aux_diag oid_array_wrpcAuxRoTable)
  ++ limb_if CONFIG_SNMP_AUX_DIAG (mk_limb (oid_wrpcAuxRwTable aux_id aux_ver) func_aux_diag oid_array_wrpcAuxRwTable).
End tables.

(** ** What the objects show *)
Section shows.
Context `{Endian} {W : Type} `{!SnmpEnv W, !SnmpConfig}.
Implicit Types (w : W) (obj : snmp_leaf ptr).

(** The values in BER: integers of four bytes, 64-bit counters, strings. *)
Definition int_tlv (tag x : Z) : list Z := ber tag (be_bytes 4 (u32 x)).
Definition counter64_tlv (x : Z) : list Z := ber ASN_COUNTER64 (be_bytes 8 (u64 x)).
Definition text_tlv (mem : list Z) : list Z := ber ASN_OCTET_STR (take 31 (cstr mem)).
Definition is_int_tag (tag : Z) : Prop := tag ∈ [ASN_INTEGER; ASN_COUNTER; ASN_UNSIGNED; ASN_TIMETICKS].
(** A string in memory: it ends, or has more than the 31 characters sent. *)
Definition text_ok (mem : list Z) : Prop := bytes mem /\ (Nat.min 31 (length (cstr mem)) < length mem)%nat.

Lemma store_tlv (suf data extra : list Z) tag : (2 + length (data ++ extra) <= length suf)%nat ->
  forall w, (let? buf := lift (set_at suf 0 [tag]) in
   let? buf := lift (set_at buf 2 (data ++ extra)) in
   let? buf := lift (set_at buf 1 [Z.of_nat (length data)]) in
   pret (buf, 2 + Z.of_nat (length data))) w =
  Some ((ber tag data ++ extra ++ drop (2 + length (data ++ extra)) suf, Z.of_nat (length (ber tag data))), w).
Proof.
  intros Hl w. destruct suf as [|a [|b suf]]; [cbn in Hl; lia..|]. cbn [length] in Hl.
  erewrite lift_some by (by apply (set_at_mid1 [] a tag (b :: suf))). cbn [app].
  rewrite <- (take_drop (length (data ++ extra)) suf) at 1.
  erewrite lift_some by (apply (set_at_mid [tag; b] (take (length (data ++ extra)) suf)); [done|rewrite length_take; lia]).
  erewrite lift_some by (by apply (set_at_mid1 [tag] b (Z.of_nat (length data)))).
  unfold pret, ber. cbn [app length]. rewrite <- !app_assoc. do 3 f_equal. lia.
Qed.

Lemma get_value_int suf tag p x w : is_int_tag tag -> (6 <= length suf)%nat -> p = int_image x ->
  get_value suf tag p w = Some ((int_tlv tag x ++ drop 6 suf, 6), w).
Proof.
  intros Ht Hl ->. unfold get_value.
  assert (E : (tag =? ASN_COUNTER) || (tag =? ASN_UNSIGNED) || (tag =? ASN_INTEGER) || (tag =? ASN_TIMETICKS) = true).
  { unfold is_int_tag in Ht. repeat (apply elem_of_cons in Ht as [->|Ht]); [done..|by apply elem_of_nil in Ht]. }
  rewrite E. unfold int_image at 1. rewrite length_image. cbn [Nat.ltb Nat.leb].
  assert (Hi : image 4 (htonl (value (take 4 (int_image x)))) = be_bytes 4 (u32 x)).
  { unfold int_image. rewrite firstn_all2 by (rewrite length_image; lia).
    rewrite value_image by apply (Z.mod_pos_bound x 4294967296 ltac:(lia)). apply image_htonl, (Z.mod_pos_bound x 4294967296 ltac:(lia)). }
  rewrite Hi. pose proof (store_tlv suf (be_bytes 4 (u32 x)) [] tag) as Hs. rewrite app_nil_r, length_be_bytes in Hs.
  apply (Hs ltac:(lia) w).
Qed.
Lemma get_value_counter64 suf p x w : (10 <= length suf)%nat -> p = image 8 (u64 x) ->
  exists suf', get_value suf ASN_COUNTER64 p w =
    (if snmp_version w =? SNMP_V1 then Some ((suf', 0), w) else Some ((counter64_tlv x ++ drop 10 suf, 10), w)) /\
    (bytes suf -> bytes suf') /\ length suf' = length suf.
Proof.
  intros Hl ->. destruct suf as [|a suf]; [cbn in Hl; lia|]. exists (ASN_COUNTER64 :: suf).
  split; [|split; [|done]].
  2: { rewrite !bytes_cons. unfold is_byte. intros [? ?]. split; [done|done]. }
  unfold get_value. cbn [Z.eqb orb ASN_COUNTER64 Z.lor].
  pose proof (store_tlv (a :: suf) (be_bytes 8 (u64 x)) [] ASN_COUNTER64) as Hs. rewrite app_nil_r, length_be_bytes in Hs.
  specialize (Hs ltac:(lia) w).
  assert (Hset : set_at (a :: suf) 0 [ASN_COUNTER64] = Some (ASN_COUNTER64 :: suf)) by by apply (set_at_mid1 []).
  rewrite (lift_some _ _ w _ Hset) in Hs. rewrite (lift_some _ _ w _ Hset).
  unfold SNMP_V1. change (ASN_COUNTER64 =? ASN_COUNTER) with false. change (ASN_COUNTER64 =? ASN_UNSIGNED) with false.
  change (ASN_COUNTER64 =? ASN_INTEGER) with false. change (ASN_COUNTER64 =? ASN_TIMETICKS) with false.
  change (ASN_COUNTER64 =? ASN_COUNTER64) with true. cbn [orb]. destruct (snmp_version w =? 0); [done|].
  rewrite length_image. cbn [Nat.ltb Nat.leb].
  assert (Hi : image 8 (htonll (value (take 8 (image 8 (u64 x))))) = be_bytes 8 (u64 x)).
  { rewrite firstn_all2 by (rewrite length_image; lia).
    rewrite value_image by apply (Z.mod_pos_bound x 18446744073709551616 ltac:(lia)).
    apply image_htonll, (Z.mod_pos_bound x 18446744073709551616 ltac:(lia)). }
  rewrite Hi. exact Hs.
Qed.
Lemma strnlen_cstr n mem : (Nat.min n (length (cstr mem)) < length mem)%nat ->
  strnlen n mem = Some (Z.of_nat (Nat.min n (length (cstr mem)))).
Proof.
  revert mem. induction n as [|n IH]; intros [|c mem] Hm; try done; [cbn in Hm; lia|]. cbn in Hm |- *.
  destruct (c =? 0); [done|]. cbn in Hm. rewrite IH by lia. cbn. f_equal. lia.
Qed.
Lemma take_cstr n mem : (n <= length (cstr mem))%nat -> take n mem = take n (cstr mem).
Proof.
  revert n. induction mem as [|c mem IH]; intros [|n] Hn; try done. cbn in Hn |- *. destruct (c =? 0); [cbn in Hn; lia|].
  cbn in Hn |- *. f_equal. apply IH. lia.
Qed.
Lemma get_value_text suf mem w : (34 <= length suf)%nat -> text_ok mem ->
  exists c, is_byte c /\ get_value suf ASN_OCTET_STR mem w =
    Some ((text_tlv mem ++ c :: drop (length (text_tlv mem) + 1) suf, Z.of_nat (length (text_tlv mem))), w).
Proof.
  intros Hl [Hb Hm]. set (n := Nat.min 31 (length (cstr mem))) in *.
  assert (Hn : length (take 31 (cstr mem)) = n) by (rewrite length_take; done).
  assert (Ht : take n mem = take 31 (cstr mem)).
  { rewrite take_cstr by (unfold n; lia). unfold n. destruct (Nat.le_ge_cases 31 (length (cstr mem))); [by rewrite Nat.min_l|].
    rewrite Nat.min_r by done. by rewrite !firstn_all2 by lia. }
  destruct (lookup_lt_is_Some_2 mem n Hm) as [c Hc]. exists c. split; [by eapply Forall_lookup_1|].
  unfold get_value. change (ASN_OCTET_STR =? ASN_COUNTER) with false. change (ASN_OCTET_STR =? ASN_UNSIGNED) with false.
  change (ASN_OCTET_STR =? ASN_INTEGER) with false. change (ASN_OCTET_STR =? ASN_TIMETICKS) with false.
  change (ASN_OCTET_STR =? ASN_COUNTER64) with false. change (ASN_OCTET_STR =? ASN_OCTET_STR) with true. cbn [orb].
  pose proof (store_tlv suf (take 31 (cstr mem)) [c] ASN_OCTET_STR) as Hs. rewrite length_app, Hn in Hs. cbn [length] in Hs.
  specialize (Hs ltac:(lia) w). unfold lift at 1. destruct suf as [|a suf]; [cbn in Hl; lia|].
  assert (Hset : set_at (a :: suf) 0 [ASN_OCTET_STR] = Some (ASN_OCTET_STR :: suf)) by by apply (set_at_mid1 []).
  rewrite Hset. rewrite (lift_some _ _ w _ Hset) in Hs. cbn [fmap option_fmap option_map]. unfold pbind at 1.
  rewrite (lift_some _ _ w _ (strnlen_cstr 31 mem Hm)). fold n. rewrite (proj2 (Z.ltb_ge _ _)) by lia.
  replace (Z.to_nat (Z.of_nat n + 1)) with (S n) by lia. rewrite (take_S_r _ _ _ Hc), Ht. rewrite Hs.
  unfold text_tlv, ber. cbn [app length]. rewrite Hn. do 4 f_equal; lia.
Qed.

(** The functions answer with these values. *)
Definition answers_value (v : list Z) : Prop := v <> [] /\ (length v <= 34)%nat /\ bytes v.
Lemma int_tlv_value tag x : is_int_tag tag -> answers_value (int_tlv tag x).
Proof.
  intros Ht. split; [done|]. unfold int_tlv, ber. cbn [length]. rewrite length_be_bytes. split; [lia|].
  rewrite !bytes_cons. split; [|split; [unfold is_byte; lia|apply bytes_be]]. unfold is_int_tag in Ht.
  repeat (apply elem_of_cons in Ht as [->|Ht]); [by unfold is_byte..|by apply elem_of_nil in Ht].
Qed.
Lemma text_tlv_value mem : text_ok mem -> answers_value (text_tlv mem).
Proof.
  intros [Hb _]. split; [done|]. unfold text_tlv, ber. cbn [length]. rewrite length_take. split; [lia|].
  rewrite !bytes_cons. unfold is_byte. split; [done|split; [lia|]]. apply Forall_take.
  clear - Hb. induction Hb as [|c mem Hc _ IH]; [constructor|]. cbn. destruct (c =? 0); [constructor|by constructor].
Qed.

Lemma answers_int (f : access W ptr) obj w tag x : is_int_tag tag ->
  (forall suf, f obj suf w = get_value suf tag (int_image x) w) -> answers f obj w (Some (int_tlv tag x)).
Proof.
  intros Ht Hf suf Hl Hb. exists (drop 6 suf). destruct (int_tlv_value tag x Ht) as (H1 & H2 & H3).
  split; [by apply Forall_drop|]. split; [done|split; [done|split; [done|]]].
  assert (length (int_tlv tag x) = 6%nat) as El by (unfold int_tlv, ber; cbn [length]; by rewrite length_be_bytes).
  rewrite El, length_drop. split; [lia|]. rewrite Hf. apply get_value_int; [done|lia|done].
Qed.
Lemma answers_text (f : access W ptr) obj w mem : text_ok mem ->
  (forall suf, f obj suf w = get_value suf ASN_OCTET_STR mem w) -> answers f obj w (Some (text_tlv mem)).
Proof.
  intros Hm Hf suf Hl Hb. destruct (get_value_text suf mem w ltac:(lia) Hm) as (c & Hc & E).
  destruct (text_tlv_value mem Hm) as (H1 & H2 & H3). eexists. split; [|split; [done|split; [done|split; [done|split; [|by rewrite Hf]]]]].
  - apply bytes_cons. split; [done|by apply Forall_drop].
  - cbn [length]. rewrite length_drop. unfold text_tlv, ber in *. cbn [length] in *. lia.
Qed.
(** A 64-bit counter is not shown to managers of SNMPv1. *)
Definition counter64_value w (x : Z) : option (list Z) := if snmp_version w =? SNMP_V1 then None else Some (counter64_tlv x).
Lemma answers_counter64 (f : access W ptr) obj w x :
  (forall suf, f obj suf w = get_value suf ASN_COUNTER64 (image 8 (u64 x)) w) -> answers f obj w (counter64_value w x).
Proof.
  intros Hf suf Hl Hb. destruct (get_value_counter64 suf _ x w ltac:(lia) eq_refl) as (suf' & E & Hb' & Hls).
  unfold counter64_value. rewrite Hf, E. destruct (snmp_version w =? SNMP_V1); [by exists suf'; auto|].
  exists (drop 10 suf). split; [by apply Forall_drop|]. unfold counter64_tlv, ber.
  split; [done|]. cbn [length]. rewrite length_be_bytes, length_drop. split; [lia|]. split; [|split; [lia|done]].
  rewrite !bytes_cons. split; [by unfold is_byte|split; [by unfold is_byte|apply bytes_be]].
Qed.


(** Words of memory that are not modelled as integers. *)
Definition word_ok (mem : list Z) : Prop := bytes mem /\ (4 <= length mem)%nat.
Lemma get_value_word suf tag p w : (4 <= length p)%nat -> get_value suf tag p w = get_value suf tag (take 4 p) w \/ ~ is_int_tag tag.
Proof.
  intros Hp. destruct (decide (is_int_tag tag)) as [Ht|]; [left|by right]. unfold get_value.
  assert (E : (tag =? ASN_COUNTER) || (tag =? ASN_UNSIGNED) || (tag =? ASN_INTEGER) || (tag =? ASN_TIMETICKS) = true).
  { unfold is_int_tag in Ht. repeat (apply elem_of_cons in Ht as [->|Ht]); [done..|by apply elem_of_nil in Ht]. }
  rewrite E. unfold pbind at 1 4. destruct (lift _ w) as [[buf w']|]; [|done].
  rewrite (proj2 (Nat.ltb_ge (length p) 4)) by lia. rewrite (proj2 (Nat.ltb_ge (length (take 4 p)) 4)) by (rewrite length_take; lia).
  by rewrite take_take.
Qed.
Lemma take_word p : word_ok p -> take 4 p = int_image (value (take 4 p)).
Proof.
  intros [Hb Hl]. unfold int_image. assert (Hb4 : bytes (take 4 p)) by by apply Forall_take.
  assert (Hl4 : length (take 4 p) = 4%nat) by (rewrite length_take; lia).
  rewrite u32_small by exact (value_range 4 _ Hb4 Hl4). by rewrite image_value.
Qed.
Lemma answers_word (f : access W ptr) obj w tag mem : is_int_tag tag -> word_ok mem ->
  (forall suf, f obj suf w = get_value suf tag mem w) -> answers f obj w (Some (int_tlv tag (value (take 4 mem)))).
Proof.
  intros Ht Hm Hf. apply answers_int; [done|]. intros suf. rewrite Hf, <- take_word by done.
  destruct (get_value_word suf tag mem w) as [E|]; [apply Hm|exact E|done].
Qed.
(** A word at the head of memory. *)
Lemma get_value_head suf tag x rest w : is_int_tag tag ->
  get_value suf tag (int_image x ++ rest) w = get_value suf tag (int_image x) w.
Proof.
  intros Ht. destruct (get_value_word suf tag (int_image x ++ rest) w) as [E|]; [|rewrite E|done].
  - rewrite length_app. unfold int_image. rewrite length_image. lia.
  - rewrite take_app_le by (unfold int_image; rewrite length_image; lia).
    by rewrite firstn_all2 by (unfold int_image; rewrite length_image; lia).
Qed.

(** ** The tree of objects

    What is needed of the firmware: strings are strings, and the functions that
    read the hardware do not fail.  [db] is the SFP database. *)
Context (off1 off2 : Z).
Abbreviation servo_mem w := (drop (Z.to_nat off1) (env_bytes F_servo w)).
Abbreviation alpha_mem w := (drop (Z.to_nat off2) (env_bytes F_asymmetryCorrectionPortDS w)).
Definition result (m : P W Z) w : Z := match m w with Some (x, _) => x | None => 0 end.
Definition date_text w : list Z := default [] (format_time (result pps_gen_get_secs w) TIME_FORMAT_SORTED) ++ [0].
Definition pn_ok (e : s_sfpinfo) : Prop := bytes (sfp_pn e) /\ length (sfp_pn e) = 16%nat /\ is_byte (sfp_chksum e).
Record mib_ready (db : list s_sfpinfo) w : Prop := {
  rd_texts : Forall (fun o => text_ok (env_bytes o w)) [F_wrc_hw_name; F_commit_id; F_build_by; F_build_date];
  rd_words : Forall word_ok [servo_mem w; env_bytes F_ptp_tx_count w; env_bytes F_ptp_rx_count w];
  rd_alpha : bytes (alpha_mem w) /\ (8 <= length (alpha_mem w))%nat;
  rd_reads : Forall (fun m => m w = Some (result m w, w)) [ep_link_up; timer_get_tics; pps_gen_get_secs];
  rd_date : bytes (date_text w);
  rd_config : pn_ok (snmp_ptp_config (env_vars w));
  rd_params : pn_ok (env_sfp_params w);
  rd_lines : bytes (init_script_line (env_vars w)) /\ length (init_script_line (env_vars w)) = 32%nat /\
    bytes (shell_cmd_line (env_vars w)) /\ length (shell_cmd_line (env_vars w)) = 81%nat;
  rd_sensors : Forall (fun s => text_ok (s.1 ++ [0]) /\ exists t, temp_string s.2 = Some t /\ text_ok (t ++ [0])) (env_sensors w) /\
    (length (env_sensors w) <= 126)%nat;
  rd_db : Forall pn_ok db /\ (length db <= 126)%nat;
  rd_get_sfp : forall i, (i < length db)%nat \/ i = O -> exists e,
    call_get_sfp (Z.of_nat i) w = Some ((e, Z.of_nat (length db)), w) /\ (forall e', db !! i = Some e' -> e = e') }.

(** The values of the objects, in the order of the arrays. *)
Definition version_values w : list (option (list Z)) :=
  (fun o => Some (text_tlv (env_bytes o w))) <$> [F_wrc_hw_name; F_commit_id; F_build_by; F_build_date].
Definition time_values w : list (option (list Z)) :=
  [counter64_value w (result pps_gen_get_secs w); Some (text_tlv (date_text w));
   Some (int_tlv ASN_TIMETICKS (u32 (result timer_get_tics w) / 10))].
Definition spll_values w : list (option (list Z)) :=
  let s := env_softpll w in
  [Some (int_tlv ASN_INTEGER (sp_mode s)); Some (int_tlv ASN_COUNTER (sp_irq_count s)); Some (int_tlv ASN_INTEGER (sp_seq_state s));
   Some (int_tlv ASN_INTEGER (x_align_state (sp_ext s))); Some (int_tlv ASN_COUNTER (ld_locked (h_ld (sp_helper s))));
   Some (int_tlv ASN_COUNTER (m_locked (sp_mpll s))); Some (int_tlv ASN_INTEGER (pi_y (h_pi (sp_helper s))));
   Some (int_tlv ASN_INTEGER (pi_y (m_pi (sp_mpll s)))); Some (int_tlv ASN_COUNTER (sp_delock_count s))].
(** Without the WR extension the servo has a state, an offset and an update
    time only. *)
Definition wr_only w (x : Z) : Z := if sv_wr_active (env_servo w) then x else 0.
Definition ptp_values w : list (option (list Z)) :=
  let s := env_servo w in
  [Some (int_tlv ASN_INTEGER (if sv_wr_active s then sv_state s else 99)); Some (int_tlv ASN_INTEGER (saturate (sv_offset_ps s)));
   Some (int_tlv ASN_INTEGER (wr_only w (saturate (sv_skew_ps s)))); counter64_value w (wr_only w (sv_rtt_ps s));
   Some (int_tlv ASN_COUNTER (value (take 4 (servo_mem w))));
   counter64_value w (sv_update_secs s * 1000000000 + Z.shiftr (sv_update_scaled_nsecs s) 16);
   Some (int_tlv ASN_INTEGER (wr_only w (sv_delta_txm_ps s))); Some (int_tlv ASN_INTEGER (wr_only w (sv_delta_rxm_ps s)));
   Some (int_tlv ASN_INTEGER (wr_only w (sv_delta_txs_ps s))); Some (int_tlv ASN_INTEGER (wr_only w (sv_delta_rxs_ps s)));
   Some (int_tlv ASN_COUNTER (wr_only w (sv_n_err_state s))); Some (int_tlv ASN_COUNTER (wr_only w (sv_n_err_offset s)));
   Some (int_tlv ASN_COUNTER (wr_only w (sv_n_err_delta_rtt s))); counter64_value w (wr_only w (sv_asymmetry_ps s));
   Some (int_tlv ASN_COUNTER (value (take 4 (env_bytes F_ptp_tx_count w)))); Some (int_tlv ASN_COUNTER (value (take 4 (env_bytes F_ptp_rx_count w))));
   counter64_value w (value (take 8 (alpha_mem w)))].
(** [alpha] has 64 bits; the first four bytes are shown. *)
Definition alpha_word (e : s_sfpinfo) : Z := value (take 4 (image 8 (u64 (sfp_alpha e)))).
Definition config_values w : list (option (list Z)) :=
  let s := env_vars w in
  [Some (int_tlv ASN_INTEGER (ptp_restart_status s)); Some (int_tlv ASN_INTEGER (ptp_config_apply_status s));
   Some (text_tlv (sfp_image (snmp_ptp_config s))); Some (int_tlv ASN_INTEGER (sfp_dTx (snmp_ptp_config s)));
   Some (int_tlv ASN_INTEGER (sfp_dRx (snmp_ptp_config s))); Some (int_tlv ASN_INTEGER (alpha_word (snmp_ptp_config s)))].
Definition port_values w : list (option (list Z)) :=
  [Some (int_tlv ASN_INTEGER (1 + result ep_link_up w)); Some (text_tlv (sfp_pn (env_sfp_params w) ++ [0]));
   Some (int_tlv ASN_INTEGER (env_sfp_in_db w)); Some (int_tlv ASN_COUNTER (env_minic_counts w).1);
   Some (int_tlv ASN_COUNTER (env_minic_counts w).2)].
Definition init_values w : list (option (list Z)) :=
  [Some (int_tlv ASN_INTEGER (init_script_config_apply_status (env_vars w))); Some (text_tlv (init_script_line (env_vars w)))].
Definition sdb_values w : list (option (list Z)) :=
  (fun x => Some (int_tlv ASN_INTEGER x)) <$>
  [sdb_apply_status (env_vars w); sdb_mem_type (env_vars w); sdb_base_addr (env_vars w); sdb_param (env_vars w)].
Definition cmd_values w : list (option (list Z)) :=
  let s := env_vars w in
  [Some (int_tlv ASN_INTEGER (shell_cmd_apply_status s)); Some (text_tlv (shell_cmd_line s));
   Some (int_tlv ASN_INTEGER (shell_cmd_magic s)); Some (int_tlv ASN_INTEGER (shell_cmd_return_code s))].
(** The cells of the tables. *)
Definition temp_cell w (o : snmp_oid W ptr) (r : Z) : list Z :=
  let '(name, t) := nth (Z.to_nat (r - 1)) (env_sensors w) ([], 0) in
  text_tlv ((if column o =? 2 then name else default [] (temp_string t)) ++ [0]).
Definition sfp_cell (db : list s_sfpinfo) (o : snmp_oid W ptr) (r : Z) : list Z :=
  let e := nth (Z.to_nat (r - 1)) db (mk_sfp [] 0 0 0 0) in
  if column o =? 2 then text_tlv (sfp_pn e ++ [0])
  else int_tlv ASN_INTEGER (if column o =? 3 then sfp_dTx e else if column o =? 4 then sfp_dRx e else alpha_word e).

(** The branches with what they serve, in order. *)
Definition group_branch (oid : list Z) (objs : list (snmp_oid W ptr)) (vals : list (option (list Z))) :
  snmp_oid_limb W ptr * list entry := (mk_limb oid func_group objs, group_rows (zip objs vals)).
Definition branch_if {A} (b : bool) (x : A) : list A := if b then [x] else [].
Definition mib (db : list s_sfpinfo) w : list (snmp_oid_limb W ptr * list entry) :=
  [group_branch oid_wrpcVersionGroup oid_array_wrpcVersionGroup (version_values w);
   group_branch oid_wrpcTimeGroup oid_array_wrpcTimeGroup (time_values w)]
  ++ branch_if CONFIG_TEMP_SENSORS (mk_limb oid_wrpcTemperatureTable func_table oid_array_wrpcTemperatureTable,
       table_rows (Z.of_nat (length (env_sensors w))) (temp_cell w) oid_array_wrpcTemperatureTable)
  ++ [group_branch oid_wrpcSpllStatusGroup oid_array_wrpcSpllStatusGroup (spll_values w);
      group_branch oid_wrpcPtpGroup (oid_array_wrpcPtpGroup off1 off2) (ptp_values w);
      group_branch oid_wrpcPtpConfigGroup oid_array_wrpcPtpConfigGroup (config_values w);
      group_branch oid_wrpcPortGroup oid_array_wrpcPortGroup (port_values w);
      (mk_limb oid_wrpcSfpTable func_table oid_array_wrpcSfpTable,
       table_rows (Z.of_nat (length db)) (sfp_cell db) oid_array_wrpcSfpTable)]
  ++ branch_if (CONFIG_SNMP_INIT && CONFIG_SNMP_SET)
       (group_branch oid_wrpcInitScriptConfigGroup oid_array_wrpcInitScriptConfigGroup (init_values w))
  ++ branch_if (CONFIG_SNMP_SDB && CONFIG_SNMP_SET) (group_branch oid_wrpcSdbGroup oid_array_wrpcSdbGroup (sdb_values w))
  ++ branch_if (CONFIG_SNMP_CMD && CONFIG_SNMP_SET) (group_branch oid_wrpcShellCmdGroup oid_array_wrpcShellCmdGroup (cmd_values w)).


(** Every branch keeps the promise. *)
Ltac tag := unfold is_int_tag; repeat constructor.
Ltac each := repeat (apply List.Forall_cons || apply List.Forall_nil).
Lemma branch_ok oid objs vals w : length objs = length vals -> small oid /\ (length oid <= 20)%nat -> Forall object_ok objs ->
  StronglySorted (fun a b : snmp_oid W ptr => before (oid_match (leaf a)) (oid_match (leaf b)) = true) objs ->
  Forall (fun e => answers (oid_get e.1) (leaf e.1) w e.2) (zip objs vals) ->
  serves (group_branch oid objs vals).1 w (group_branch oid objs vals).2.
Proof.
  intros Hl Hoid Hobjs Hsort Ha. assert (E : (zip objs vals).*1 = objs) by (apply fst_zip; lia).
  apply group_serves. constructor; [done|by rewrite E|done|]. constructor; [| |exact Ha].
  - rewrite <- E in Hobjs. exact (proj1 (Forall_fmap _ _ _) Hobjs).
  - clear - Hl Hsort. revert vals Hl. induction Hsort as [|a objs _ IH Hall]; intros [|v vals] Hl; try done; [constructor|].
    cbn. injection Hl as Hl. constructor; [by apply IH|]. apply Forall_forall. intros [b x] Hin%elem_of_zip_l. cbn.
    rewrite Forall_forall in Hall. by apply Hall.
Qed.
Ltac shape := first [done | split; [by repeat constructor|cbn; lia] | by repeat constructor
  | repeat (apply List.Forall_cons || apply List.Forall_nil); unfold object_ok; cbn; split; [done|split; [by repeat constructor|split; [done|lia]]]].

Lemma version_ok db w : mib_ready db w ->
  serves (group_branch oid_wrpcVersionGroup oid_array_wrpcVersionGroup (version_values w)).1 w
    (group_branch oid_wrpcVersionGroup oid_array_wrpcVersionGroup (version_values w)).2.
Proof.
  intros Hr. pose proof (rd_texts _ _ Hr) as Ht. rewrite !Forall_cons in Ht. destruct Ht as (H1 & H2 & H3 & H4 & _).
  apply branch_ok; [shape..|]. each; by apply answers_text.
Qed.
Lemma spll_ok w : serves (group_branch oid_wrpcSpllStatusGroup oid_array_wrpcSpllStatusGroup (spll_values w)).1 w
    (group_branch oid_wrpcSpllStatusGroup oid_array_wrpcSpllStatusGroup (spll_values w)).2.
Proof. apply branch_ok; [shape..|]. each; (apply answers_int; [tag|done]). Qed.
Lemma text_ok_end l : bytes (l ++ [0]) -> text_ok (l ++ [0]).
Proof.
  intros Hb. split; [done|]. rewrite length_app. cbn [length]. enough (le (length (cstr (l ++ [0]))) (length l)) by lia.
  clear Hb. induction l as [|c l IH]; [done|]. cbn. destruct (c =? 0); cbn; lia.
Qed.
Lemma get_time_tai obj suf w secs : oid_p obj = P_code TAI_NUM -> pps_gen_get_secs w = Some (secs, w) ->
  get_time obj suf w = get_value suf (asn obj) (image 8 (u64 secs)) w.
Proof.
  intros Hp Hs. unfold get_time. rewrite Hp. change (flag (code_of (P_code TAI_NUM)) UPTIME_MASK) with false. change (flag (code_of (P_code TAI_NUM)) TAI_MASK) with true. change (Z.land (code_of (P_code TAI_NUM)) TYPE_MASK =? TIME_STRING) with false. cbv iota zeta.
  by rewrite (pbind_some _ _ _ _ _ Hs).
Qed.
Lemma get_time_string obj suf w secs out : oid_p obj = P_code TAI_STRING -> pps_gen_get_secs w = Some (secs, w) ->
  format_time secs TIME_FORMAT_SORTED = Some out -> get_time obj suf w = get_value suf (asn obj) (out ++ [0]) w.
Proof.
  intros Hp Hs Ho. unfold get_time. rewrite Hp. change (flag (code_of (P_code TAI_STRING)) UPTIME_MASK) with false. change (flag (code_of (P_code TAI_STRING)) TAI_MASK) with true. change (Z.land (code_of (P_code TAI_STRING)) TYPE_MASK =? TIME_STRING) with true. cbv iota zeta.
  rewrite (pbind_some _ _ _ _ _ Hs).
  by rewrite (lift_some _ _ w _ Ho).
Qed.
Lemma get_time_uptime obj suf w tics : oid_p obj = P_code UPTIME_NUM -> timer_get_tics w = Some (tics, w) ->
  get_time obj suf w = get_value suf (asn obj) (image 4 (u32 (u32 tics / 10))) w.
Proof.
  intros Hp Hs. unfold get_time. rewrite Hp. change (flag (code_of (P_code UPTIME_NUM)) UPTIME_MASK) with true. cbv iota zeta.
  by rewrite (pbind_some _ _ _ _ _ Hs).
Qed.

Lemma time_ok db w : mib_ready db w ->
  serves (group_branch oid_wrpcTimeGroup oid_array_wrpcTimeGroup (time_values w)).1 w
    (group_branch oid_wrpcTimeGroup oid_array_wrpcTimeGroup (time_values w)).2.
Proof.
  intros Hr. pose proof (rd_reads _ _ Hr) as Ht. rewrite !Forall_cons in Ht. destruct Ht as (_ & H2 & H3 & _).
  destruct (format_time_fits (result pps_gen_get_secs w) TIME_FORMAT_SORTED) as (out & Eo & Hlo).
  assert (Ed : date_text w = out ++ [0]) by (unfold date_text; by rewrite Eo).
  apply branch_ok; [shape..|]. each.
  - apply answers_counter64. intros suf. by apply get_time_tai.
  - pose proof (rd_date _ _ Hr) as Hb. rewrite Ed in Hb. cbn [snd]. apply (answers_text _ _ _ (date_text w)); rewrite Ed.
    + by apply text_ok_end.
    + intros suf. by eapply get_time_string.
  - apply answers_int; [tag|]. intros suf. by apply get_time_uptime.
Qed.
Lemma answers_dword (f : access W ptr) obj w mem : bytes mem -> (8 <= length mem)%nat ->
  (forall suf, f obj suf w = get_value suf ASN_COUNTER64 mem w) -> answers f obj w (counter64_value w (value (take 8 mem))).
Proof.
  intros Hb Hl Hf. assert (Hb8 : bytes (take 8 mem)) by by apply Forall_take.
  assert (Hl8 : length (take 8 mem) = 8%nat) by (rewrite length_take; lia).
  assert (E : take 8 mem = image 8 (u64 (value (take 8 mem)))).
  { pose proof (value_range 8 (take 8 mem) Hb8 Hl8) as Hr.
    replace (u64 (value (take 8 mem))) with (value (take 8 mem)) by (symmetry; by apply Z.mod_small).
    by rewrite image_value. }
  apply answers_counter64. intros suf. rewrite Hf, <- E. unfold get_value.
  change (ASN_COUNTER64 =? ASN_COUNTER) with false. change (ASN_COUNTER64 =? ASN_UNSIGNED) with false.
  change (ASN_COUNTER64 =? ASN_INTEGER) with false. change (ASN_COUNTER64 =? ASN_TIMETICKS) with false.
  change (ASN_COUNTER64 =? ASN_COUNTER64) with true. cbn [orb]. unfold pbind at 1 4. destruct (lift _ w) as [[buf w']|]; [|done].
  rewrite (proj2 (Nat.ltb_ge (length mem) 8)) by lia. rewrite Hl8. cbn [Nat.ltb Nat.leb]. by rewrite take_take.
Qed.

(** The servo's objects, by their code. *)
Lemma get_servo_32 obj suf w c x : oid_p obj = P_code c -> is_int_tag (asn obj) ->
  (c, x) ∈ [(SERVO_STATEN, if sv_wr_active (env_servo w) then sv_state (env_servo w) else 99);
            (SERVO_CLOCKOFFSET, saturate (sv_offset_ps (env_servo w))); (SERVO_SKEW, wr_only w (saturate (sv_skew_ps (env_servo w))));
            (SERVO_DELTA_TX_M, wr_only w (sv_delta_txm_ps (env_servo w))); (SERVO_DELTA_RX_M, wr_only w (sv_delta_rxm_ps (env_servo w)));
            (SERVO_DELTA_TX_S, wr_only w (sv_delta_txs_ps (env_servo w))); (SERVO_DELTA_RX_S, wr_only w (sv_delta_rxs_ps (env_servo w)));
            (SERVO_N_ERR_STATE, wr_only w (sv_n_err_state (env_servo w))); (SERVO_N_ERR_OFFSET, wr_only w (sv_n_err_offset (env_servo w)));
            (SERVO_N_ERR_DELTA_RTT, wr_only w (sv_n_err_delta_rtt (env_servo w)))] ->
  get_servo obj suf w = get_value suf (asn obj) (int_image x) w.
Proof.
  intros Hp Ht Hin. unfold get_servo, wr_only in *. rewrite Hp. cbn [code_of].
  assert (Hz : get_value suf (asn obj) (image 8 (u64 0)) w = get_value suf (asn obj) (int_image 0) w).
  { rewrite <- (get_value_head suf (asn obj) 0 (int_image 0)) by done. do 2 f_equal. unfold int_image, image. by destruct big_endian. }
  repeat (apply elem_of_cons in Hin as [[= -> ->]|Hin]); try (by apply elem_of_nil in Hin); cbn [Z.eqb Pos.eqb];
    destruct (sv_wr_active (env_servo w)); cbn [negb andb]; first [done | exact Hz].
Qed.
Lemma get_servo_64 obj suf w c x : oid_p obj = P_code c ->
  (c, x) ∈ [(SERVO_RTT, wr_only w (sv_rtt_ps (env_servo w)));
            (SERVO_UPDATE_TIME, sv_update_secs (env_servo w) * 1000000000 + Z.shiftr (sv_update_scaled_nsecs (env_servo w)) 16);
            (SERVO_ASYMMETRY, wr_only w (sv_asymmetry_ps (env_servo w)))] ->
  get_servo obj suf w = get_value suf (asn obj) (image 8 (u64 x)) w.
Proof.
  intros Hp Hin. unfold get_servo, wr_only in *. rewrite Hp. cbn [code_of].
  repeat (apply elem_of_cons in Hin as [[= -> ->]|Hin]); try (by apply elem_of_nil in Hin); cbn [Z.eqb Pos.eqb];
    destruct (sv_wr_active (env_servo w)); cbn [negb andb]; done.
Qed.
Ltac inlist := repeat (first [left; reflexivity | apply elem_of_cons; left; reflexivity | apply elem_of_cons; right]).
Lemma ptp_ok db w : mib_ready db w ->
  serves (group_branch oid_wrpcPtpGroup (oid_array_wrpcPtpGroup off1 off2) (ptp_values w)).1 w
    (group_branch oid_wrpcPtpGroup (oid_array_wrpcPtpGroup off1 off2) (ptp_values w)).2.
Proof.
  intros Hr. pose proof (rd_words _ _ Hr) as Ht. rewrite !Forall_cons in Ht. destruct Ht as (H1 & H2 & H3 & _).
  apply branch_ok; [shape..|]. each;
    try (apply answers_int; [tag|]; intros suf; eapply get_servo_32; [reflexivity|tag|inlist]; fail);
    try (apply answers_counter64; intros suf; eapply get_servo_64; [reflexivity|inlist]; fail);
    try (apply answers_word; [tag|done|intros suf; reflexivity]; fail).
  destruct (rd_alpha _ _ Hr). apply answers_dword; [done|done|intros suf; reflexivity].
Qed.

(** The objects that are variables of the agent. *)
Lemma config_image c : pn_ok c -> bytes (sfp_image c) /\ length (sfp_image c) = 33%nat /\
  drop 24 (sfp_image c) = int_image (sfp_dTx c) ++ int_image (sfp_dRx c) ++ [sfp_chksum c] /\
  drop 28 (sfp_image c) = int_image (sfp_dRx c) ++ [sfp_chksum c] /\
  take 4 (drop 16 (sfp_image c)) = take 4 (image 8 (u64 (sfp_alpha c))).
Proof.
  intros (Hb & Hl & Hc). unfold sfp_image.
  assert (Hbi : forall k v, bytes (image k v)) by (intros k v; unfold image; destruct big_endian; [|apply Forall_rev]; apply bytes_be).
  split; [rewrite !bytes_app, bytes_cons; split; [done|split; [done|split; [done|split; [done|split; [done|constructor]]]]]|].
  split; [rewrite !length_app, !length_image; cbn; lia|]. split; [|split].
  - rewrite app_assoc, drop_app_length'; [done|rewrite length_app, length_image; lia].
  - rewrite !app_assoc, <- app_assoc, drop_app_length'; [done|rewrite !length_app, !length_image; lia].
  - rewrite drop_app_length' by done. rewrite take_app_le by (rewrite length_image; lia). done.
Qed.
Lemma config_ok db w : mib_ready db w ->
  serves (group_branch oid_wrpcPtpConfigGroup oid_array_wrpcPtpConfigGroup (config_values w)).1 w
    (group_branch oid_wrpcPtpConfigGroup oid_array_wrpcPtpConfigGroup (config_values w)).2.
Proof.
  intros Hr. destruct (config_image _ (rd_config _ _ Hr)) as (Hb & Hl & E24 & E28 & E16).
  apply branch_ok; [shape..|]. each.
  - apply answers_int; [tag|done].
  - apply answers_int; [tag|done].
  - apply answers_text; [|done]. split; [done|rewrite Hl; lia].
  - apply answers_int; [tag|]. intros suf. rewrite <- (get_value_head suf ASN_INTEGER _ (int_image (sfp_dRx (snmp_ptp_config (env_vars w))) ++
      [sfp_chksum (snmp_ptp_config (env_vars w))])) by tag. rewrite <- E24. done.
  - apply answers_int; [tag|]. intros suf. rewrite <- (get_value_head suf ASN_INTEGER _ [sfp_chksum (snmp_ptp_config (env_vars w))]) by tag.
    rewrite <- E28. done.
  - cbn [snd]. unfold alpha_word. rewrite <- E16. apply answers_word; [tag| |done].
    split; [by apply Forall_drop|rewrite length_drop; lia].
Qed.
Lemma port_ok db w : mib_ready db w ->
  serves (group_branch oid_wrpcPortGroup oid_array_wrpcPortGroup (port_values w)).1 w
    (group_branch oid_wrpcPortGroup oid_array_wrpcPortGroup (port_values w)).2.
Proof.
  intros Hr. pose proof (rd_reads _ _ Hr) as Ht. rewrite !Forall_cons in Ht. destruct Ht as (H1 & _).
  apply branch_ok; [shape..|]. each; try (apply answers_int; [tag|done]).
  - apply answers_int; [tag|]. intros suf. 
    transitivity ((let? up := ep_link_up in get_value suf ASN_INTEGER (int_image (1 + up))) w); [done|].
    by rewrite (pbind_some _ _ _ _ _ H1).
  - apply answers_text; [|done]. apply text_ok_end. destruct (rd_params _ _ Hr) as (? & _). apply bytes_app. split; [done|by repeat constructor].
Qed.
Lemma init_ok db w : mib_ready db w ->
  serves (group_branch oid_wrpcInitScriptConfigGroup oid_array_wrpcInitScriptConfigGroup (init_values w)).1 w
    (group_branch oid_wrpcInitScriptConfigGroup oid_array_wrpcInitScriptConfigGroup (init_values w)).2.
Proof.
  intros Hr. destruct (rd_lines _ _ Hr) as (Hb & Hl & _). apply branch_ok; [shape..|]. each.
  - apply answers_int; [tag|done].
  - apply answers_text; [|done]. split; [done|rewrite Hl; lia].
Qed.
Lemma sdb_ok w : serves (group_branch oid_wrpcSdbGroup oid_array_wrpcSdbGroup (sdb_values w)).1 w
    (group_branch oid_wrpcSdbGroup oid_array_wrpcSdbGroup (sdb_values w)).2.
Proof. apply branch_ok; [shape..|]. each; (apply answers_int; [tag|done]). Qed.
Lemma cmd_ok db w : mib_ready db w ->
  serves (group_branch oid_wrpcShellCmdGroup oid_array_wrpcShellCmdGroup (cmd_values w)).1 w
    (group_branch oid_wrpcShellCmdGroup oid_array_wrpcShellCmdGroup (cmd_values w)).2.
Proof.
  intros Hr. destruct (rd_lines _ _ Hr) as (_ & _ & Hb & Hl). apply branch_ok; [shape..|]. each; try (apply answers_int; [tag|done]).
  apply answers_text; [|done]. split; [done|rewrite Hl; lia].
Qed.


(** The tables. *)
Lemma temp_ok db w : mib_ready db w ->
  serves (mk_limb oid_wrpcTemperatureTable func_table oid_array_wrpcTemperatureTable) w
    (table_rows (Z.of_nat (length (env_sensors w))) (temp_cell w) oid_array_wrpcTemperatureTable).
Proof.
  intros Hr. destruct (rd_sensors _ _ Hr) as [Hs Hl]. apply table_serves. constructor; [done|done|shape| | |lia].
  2: { repeat constructor. }
  assert (Hcol : forall o, In o oid_array_wrpcTemperatureTable -> (column o = 2 \/ column o = 3) /\ oid_get o = get_temp /\ asn (leaf o) = ASN_OCTET_STR /\
    oid_match (leaf o) = [column o] /\ oid_len (leaf o) = 1 /\ small_id (column o)).
  { intros o [<-|[<-|[]]]; cbn; unfold small_id; repeat split; try lia; auto. }
  apply List.Forall_forall. intros o Ho. destruct (Hcol o Ho) as (Hc & Hg & Ha & Hm & Hlen & Hid). constructor; [done|done|done|].
  intros r tail Hrb. rewrite Hg, Ha. unfold cell_of. destruct (Z.leb_spec 1 r) as [H1|H1]; cbn [andb].
  2: { intros suf Hls Hb. exists suf. split; [done|split; [done|]]. unfold get_temp. cbn [nth oid_match]. by rewrite (ltb_true r) by lia. }
  destruct (Z.leb_spec r (Z.of_nat (length (env_sensors w)))) as [H2|H2].
  - destruct (lookup_lt_is_Some_2 (env_sensors w) (Z.to_nat (r - 1))) as [[name t] Hlk]; [lia|].
    assert (Hsens := Forall_lookup_1 _ _ _ _ Hs Hlk). destruct Hsens as (Hn & ts & Et & Ht). cbn [fst snd] in *.
    unfold temp_cell. rewrite (nth_lookup_Some _ _ ([], 0) _ Hlk). apply answers_text; [destruct Hc as [-> | ->]; [done|by rewrite Et]|].
    intros suf. unfold get_temp. cbn [nth oid_match]. rewrite (proj2 (Z.ltb_ge r 1)) by lia. rewrite Hlk.
    destruct Hc as [-> | ->]; [done|]. rewrite Et. cbn [Z.eqb Pos.eqb]. by rewrite (lift_some _ _ w _ eq_refl).
  - intros suf Hls Hb. exists suf. split; [done|split; [done|]]. unfold get_temp. cbn [nth oid_match].
    rewrite (proj2 (Z.ltb_ge r 1)) by lia. by rewrite lookup_ge_None_2 by lia.
Qed.

(** The value of a column of an SFP entry. *)
Definition sfp_column (col : Z) (e : s_sfpinfo) : list Z :=
  if col =? 2 then sfp_pn e ++ [0]
  else if col =? 3 then int_image (sfp_dTx e)
  else if col =? 4 then int_image (sfp_dRx e) else image 8 (u64 (sfp_alpha e)).
Lemma get_sfp_loop_spec db w obj col row : mib_ready db w -> 2 <= col <= 5 ->
  forall fuel i sfpcount suf, 1 <= i /\ (row < 1 \/ i <= row) ->
  (i = 1 /\ sfpcount = 1 \/ 2 <= i <= Z.of_nat (length db) + 1 /\ sfpcount = Z.of_nat (length db)) ->
  Z.of_nat (length db) + 2 - i < Z.of_nat fuel ->
  get_sfp_loop fuel row col i sfpcount obj suf w =
  match (if row <? 1 then None else db !! Z.to_nat (row - 1)) with
  | Some e => get_value suf (asn obj) (sfp_column col e) w
  | None => Some ((suf, 0), w)
  end.
Proof.
  intros Hr Hc. destruct (rd_db _ _ Hr) as [_ Hn].
  assert (Hcall : forall i, 1 <= i -> (i <= Z.of_nat (length db) \/ i = 1) -> exists e, call_get_sfp (i - 1) w = Some ((e, Z.of_nat (length db)), w) /\
    (forall e', db !! Z.to_nat (i - 1) = Some e' -> e = e')).
  { intros i Hi Hi'. pose proof (rd_get_sfp _ _ Hr (Z.to_nat (i - 1)) ltac:(lia)) as X. rewrite Z2Nat.id in X by lia. exact X. }
  assert (Hend : Z.of_nat (length db) < row \/ row < 1 -> (if row <? 1 then None else db !! Z.to_nat (row - 1)) = None).
  { intros Hrow. destruct (Z.ltb_spec row 1); [done|]. apply lookup_ge_None_2. lia. }
  induction fuel as [|fuel IH]; intros i sfpcount suf Hi Hcase Hfuel; [lia|].
  cbn [get_sfp_loop]. destruct (Z.ltb_spec i (sfpcount + 1)) as [Hlt|Hge]; cbn [negb].
  2: { rewrite Hend by lia. done. }
  destruct (Hcall i) as (e & E & He); [lia|lia|]. rewrite (pbind_some _ _ _ _ _ E). cbv beta iota.
  destruct (Z.eqb_spec (Z.of_nat (length db)) 0) as [Hz|Hz]; cbn [orb].
  { rewrite Hend by lia. done. }
  rewrite (eqb_false (Z.of_nat (length db)) (-1)) by lia.
  destruct (Z.eqb_spec row i) as [->|Hne]; cbn [andb].
  - destruct (lookup_lt_is_Some_2 db (Z.to_nat (i - 1))) as [e' He']; [lia|]. rewrite (proj2 (Z.ltb_ge i 1)), He', (He e' He') by lia. unfold sfp_column.
    destruct (Z.eqb_spec col 2), (Z.eqb_spec col 3), (Z.eqb_spec col 4), (Z.eqb_spec col 5); done || lia.
  - apply IH; [lia| |lia]. right. destruct Hcase as [[-> ->]|[? ->]]; lia.
Qed.
Lemma sfp_ok_table db w : mib_ready db w ->
  serves (mk_limb oid_wrpcSfpTable func_table oid_array_wrpcSfpTable) w
    (table_rows (Z.of_nat (length db)) (sfp_cell db) oid_array_wrpcSfpTable).
Proof.
  intros Hr. destruct (rd_db _ _ Hr) as [Hdb Hn]. apply table_serves. constructor; [done|done|shape| | |lia].
  2: { repeat constructor. }
  assert (Hcol : forall o, In o oid_array_wrpcSfpTable -> 2 <= column o <= 5 /\ oid_get o = get_sfp /\
    asn (leaf o) = (if column o =? 2 then ASN_OCTET_STR else ASN_INTEGER) /\ oid_match (leaf o) = [column o] /\ oid_len (leaf o) = 1 /\ small_id (column o)).
  { intros o [<-|[<-|[<-|[<-|[]]]]]; cbn; unfold small_id; repeat split; lia. }
  apply List.Forall_forall. intros o Ho. destruct (Hcol o Ho) as (Hc & Hg & Ha & Hm & Hlen & Hid). constructor; [done|done|done|].
  intros r tail Hrb. rewrite Hg. unfold is_byte in Hrb. set (obj := mk_leaf _ _ _ _ _ _).
  assert (Hget : forall suf, get_sfp obj suf w = match (if r <? 1 then None else db !! Z.to_nat (r - 1)) with
    | Some e => get_value suf (asn (leaf o)) (sfp_column (column o) e) w | None => Some ((suf, 0), w) end).
  { intros suf. unfold get_sfp. cbn [nth oid_match obj]. by rewrite (get_sfp_loop_spec db w) by (done || lia). }
  unfold cell_of. destruct (Z.leb_spec 1 r) as [H1|H1]; cbn [andb].
  2: { intros suf Hls Hb. exists suf. split; [done|split; [done|]]. rewrite Hget. by rewrite (ltb_true r) by lia. }
  rewrite (proj2 (Z.ltb_ge r 1)) in Hget by lia. destruct (Z.leb_spec r (Z.of_nat (length db))) as [H2|H2].
  2: { intros suf Hls Hb. exists suf. split; [done|split; [done|]]. rewrite Hget. by rewrite lookup_ge_None_2 by lia. }
  destruct (lookup_lt_is_Some_2 db (Z.to_nat (r - 1))) as [e He]; [lia|]. rewrite He in Hget.
  destruct (Forall_lookup_1 _ _ _ _ Hdb He) as (Hpb & Hpl & Hcs). unfold sfp_cell. rewrite (nth_lookup_Some _ _ _ _ He), Ha in *.
  unfold sfp_column in Hget. destruct (Z.eqb_spec (column o) 2); [|destruct (Z.eqb_spec (column o) 3); [|destruct (Z.eqb_spec (column o) 4)]].
  - apply answers_text; [|exact Hget]. apply text_ok_end, bytes_app. split; [done|by repeat constructor].
  - apply answers_int; [tag|exact Hget].
  - apply answers_int; [tag|exact Hget].
  - unfold alpha_word. apply answers_word; [tag| |exact Hget].
    split; [|rewrite length_image; lia]. unfold image. destruct big_endian; [|apply Forall_rev]; apply bytes_be.
Qed.

(** The whole tree. *)
Lemma mib_ok db w : mib_ready db w -> tree_ok w (mib db w).
Proof.
  intros Hr. pose proof (version_ok db w Hr). pose proof (time_ok db w Hr). pose proof (temp_ok db w Hr). pose proof (spll_ok w).
  pose proof (ptp_ok db w Hr). pose proof (config_ok db w Hr). pose proof (port_ok db w Hr). pose proof (sfp_ok_table db w Hr).
  pose proof (init_ok db w Hr). pose proof (sdb_ok w). pose proof (cmd_ok db w Hr).
  unfold mib, branch_if. constructor.
  - repeat (apply Forall_app; split); destruct CONFIG_TEMP_SENSORS, (CONFIG_SNMP_INIT && CONFIG_SNMP_SET), (CONFIG_SNMP_SDB && CONFIG_SNMP_SET), (CONFIG_SNMP_CMD && CONFIG_SNMP_SET);
      repeat (apply List.Forall_cons || apply List.Forall_nil); done.
  - destruct CONFIG_TEMP_SENSORS, (CONFIG_SNMP_INIT && CONFIG_SNMP_SET), (CONFIG_SNMP_SDB && CONFIG_SNMP_SET), (CONFIG_SNMP_CMD && CONFIG_SNMP_SET); cbn [app];
      repeat (apply SSorted_cons || apply SSorted_nil || apply List.Forall_cons || apply List.Forall_nil); reflexivity.
Qed.
Lemma mib_array db w id ver : CONFIG_SNMP_NETCONSOLE = false -> CONFIG_SNMP_AUX_DIAG = false ->
  (mib db w).*1 = oid_limb_array off1 off2 id ver.
Proof.
  intros Hn Ha. unfold mib, oid_limb_array, branch_if, limb_if. rewrite Hn, Ha.
  by destruct CONFIG_TEMP_SENSORS, (CONFIG_SNMP_INIT && CONFIG_SNMP_SET), (CONFIG_SNMP_SDB && CONFIG_SNMP_SET), (CONFIG_SNMP_CMD && CONFIG_SNMP_SET).
Qed.

End shows.
