(* ===== verification/SnmpSet.v ===== *)
(** SET requests of the SNMP agent (lib/snmp.c): the object that is written,
    the answer, and the errors. *)
From Stdlib Require Import ZArith Lia Sorted.
From stdpp Require Import base numbers option list.
From S2P Require Import Prelude Bytes Snmp.

Section set.
Context {W Ptr : Type}.
Implicit Types (limb : snmp_oid_limb W Ptr) (o : snmp_oid W Ptr) (w : W).

(** What a SET does to an object, when its value is read back: the error of
    the [set] function, or the value after it. *)
Inductive set_outcome o (suf : list Z) w : Z + list Z -> W -> Prop :=
  | Set_readonly : oid_set o = None -> set_outcome o suf w (inl SNMP_ERR_READONLY) w
  | Set_refused set e w' : oid_set o = Some set -> 0 < e < 256 -> set (leaf o) suf w = Some ((suf, - e), w') -> set_outcome o suf w (inl e) w'
  | Set_done set r v w' : oid_set o = Some set -> 0 <= r -> set (leaf o) suf w = Some ((suf, r), w') ->
      answers (oid_get o) (leaf o) w' (Some v) -> set_outcome o suf w (inr v) w'.

Definition group_outcome limb n t (rest : list Z) (out : Z + list Z) (r : option (list Z * Z * W)) w' : Prop :=
  match out with
  | inl e => r = Some ((packet limb n (t ++ rest), - e), w')
  | inr v => exists rest', bytes rest' /\ (length v + length rest' = length rest)%nat /\ v <> [] /\ (length v <= 34)%nat /\ bytes v /\
      r = Some ((packet limb n (t ++ v ++ rest'), Z.of_nat (length t + length v)), w')
  end.

Lemma group_set limb (objs : list (snmp_oid W Ptr)) o t rest n w out w' :
  Forall object_ok objs ->
  StronglySorted (fun a b : snmp_oid W Ptr => before (oid_match (leaf a)) (oid_match (leaf b)) = true) objs ->
  In o objs -> oid_match (leaf o) = t -> room rest -> set_outcome o rest w out w' ->
  group_outcome limb n t rest out
    (func_group_loop (Z.of_nat (length (limb_match limb))) (Z.of_nat (length t)) MASK_SET objs (packet limb n (t ++ rest)) w) w'.
Proof.
  intros Hobjs Hsort Hin Ht [Hl Hb] Hout. induction Hsort as [|o' objs _ IH Hlater]; [done|].
  apply Forall_cons in Hobjs as [(Hlen & Hs & Hne & Hle) Hobjs]. cbn [func_group_loop].
  change (flag MASK_SET RETURN_FIRST) with false. change (flag MASK_SET MASK_GET_NEXT) with false.
  change (flag MASK_SET MASK_GET) with false. change (flag MASK_SET MASK_SET) with true. cbn [orb andb negb].
  set (m := oid_match (leaf o')) in *.
  assert (Hts : small t /\ t <> [] /\ (length t <= 4)%nat).
  { destruct Hin as [<-|Hin]; [by subst t|]. rewrite List.Forall_forall in Hobjs. destruct (Hobjs o Hin) as (_ & ?). by subst t. }
  destruct Hts as (Hts & Htne & Htl).
  destruct (Z.eqb_spec (Z.of_nat (length t)) (oid_len (leaf o'))) as [El|El]; cbn [negb].
  2: { apply IH; [done|]. destruct Hin as [->|]; [by subst t m|done]. }
  assert (Eml : u8 (Z.min (Z.of_nat (length t)) (oid_len (leaf o'))) = Z.of_nat (length m)) by (unfold u8; rewrite Z.mod_small; lia).
  rewrite Eml. pose proof (packet_cmp_at limb n (t ++ rest) (Z.of_nat (length m)) m ltac:(rewrite length_app; lia)) as Hcmp.
  rewrite Nat2Z.id in Hcmp. rewrite (lift_some _ _ _ _ Hcmp).
  destruct (memcmp_eq m t rest Hs Hts ltac:(lia)) as [(E & Hc)|[(E & Hlt & Hc)|(E & Hc)]].
  - assert (o' = o) as ->.
    { destruct Hin as [?|Hin]; [done|]. rewrite List.Forall_forall in Hlater. specialize (Hlater o Hin). fold m in Hlater.
      rewrite Ht, E, before_irrefl in Hlater. done. }
    rewrite Hc. change (s8 0) with 0. cbn [Z.eqb andb orb]. unfold pret at 1. unfold pbind at 1.
    assert (Hcall : forall f r w1, f (leaf o) rest w = Some ((rest, r), w1) ->
      call_at f (leaf o) (packet limb n (t ++ rest)) (1 + Z.of_nat (length (limb_match limb)) + oid_len (leaf o)) w =
      Some ((packet limb n (t ++ rest), r), w1)).
    { intros f r w1 Hf. eapply packet_call; [lia|exact Hf]. }
    destruct Hout as [Hset|set e w' Hset He Hf|set r v w' Hset Hr Hf Ha]; rewrite Hset; [done| |].
    + rewrite (pbind_some _ _ _ _ _ (Hcall _ _ _ Hf)). cbn [fst snd]. by rewrite (ltb_true (- e)) by lia.
    + rewrite (pbind_some _ _ _ _ _ (Hcall _ _ _ Hf)). cbn [fst snd]. rewrite (proj2 (Z.ltb_ge r 0)) by lia.
      destruct (Ha rest ltac:(lia) Hb) as (rest' & Hb' & Hv & Hvl & Hvb & Hls & Hg).
      erewrite pbind_some by (eapply packet_call; [lia|exact Hg]). cbn [fst snd].
      rewrite (eqb_false (Z.of_nat (length v)) 0) by (destruct v; [done|cbn; lia]).
      exists rest'. split; [done|split; [done|split; [done|split; [done|split; [done|]]]]]. unfold pret. do 3 f_equal. lia.
  - exfalso. destruct Hin as [->|Hin]; [by subst t m|]. rewrite List.Forall_forall in Hlater. specialize (Hlater o Hin). fold m in Hlater.
    rewrite Ht in Hlater. apply before_lt in Hlater. by rewrite (oid_lt_asym _ _ Hlater) in Hlt.
  - rewrite s8_small by lia. rewrite (eqb_false (memcmp _ _ _) 0) by lia. cbn [andb orb].
    rewrite (proj2 (Z.ltb_ge 0 _)) by lia. apply IH; [done|]. destruct Hin as [->|]; [by subst t m|done].
Qed.

(** A branch in front of the one that is written is passed by; so is a longer
    one. *)
Lemma set_passes limb (rest : list (snmp_oid_limb W Ptr)) R z w : small (limb_match limb) -> small R ->
  before (limb_match limb) R = true ->
  respond_loop MASK_SET (limb :: rest) (Z.of_nat (length R) :: R ++ z) w = respond_loop MASK_SET rest (Z.of_nat (length R) :: R ++ z) w.
Proof.
  intros Hs HR Hb. cbn [respond_loop]. rewrite (lift_some _ _ w (Z.of_nat (length R))) by done.
  change (flag MASK_SET MASK_GET) with false. change (flag MASK_SET MASK_SET) with true.
  change (flag MASK_SET MASK_GET_NEXT) with false. cbn [orb andb].
  destruct (Z.ltb_spec (Z.of_nat (length R)) (Z.of_nat (length (limb_match limb)))) as [|Hge]; [done|].
  rewrite Z.min_l by lia.
  pose proof (memcmp_before (length (limb_match limb)) _ R [] z Hs HR Hb) as H. rewrite app_nil_r in H. cbv zeta in H.
  rewrite (lift_some _ _ w (memcmp (length (limb_match limb)) (limb_match limb) (R ++ z))).
  2: { rewrite branch_cmp; rewrite ?Nat2Z.id; [done|rewrite length_app; lia|lia]. }
  rewrite (eqb_false (memcmp _ _ _) 0) by lia. rewrite andb_false_r. change (flag MASK_SET RETURN_FIRST) with false.
  by rewrite (proj2 (Z.ltb_ge 0 (memcmp _ _ _))) by lia.
Qed.

Lemma pret_bind {A B} (a : A) (k : A -> P W B) w : pbind (pret a) k w = k a w.
Proof. done. Qed.

(** The result of the search, and the answer. *)
Definition search_outcome R (len : nat) (out : Z + list Z) (r : option (list Z * search_result * W)) w' : Prop :=
  match out with
  | inl e => exists rest', bytes rest' /\ length rest' = len /\ r = Some ((Z.of_nat (length R) :: R ++ rest', Error e), w')
  | inr v => exists rest', bytes rest' /\ (length v + length rest' = len)%nat /\ (length v <= 34)%nat /\ bytes v /\
      r = Some ((Z.of_nat (length R) :: R ++ v ++ rest', Found (Z.of_nat (length R + length v))), w')
  end.
(** The branch with the object: a group. *)
Record writable limb o : Prop := {
  wr_group : twig_func limb = func_group;
  wr_limb : small (limb_match limb) /\ (length (limb_match limb) <= 20)%nat;
  wr_objects : Forall object_ok (obj_array limb);
  wr_sorted : StronglySorted (fun a b : snmp_oid W Ptr => before (oid_match (leaf a)) (oid_match (leaf b)) = true) (obj_array limb);
  wr_in : In o (obj_array limb) }.

Lemma outcome_error o suf w e w' : set_outcome o suf w (inl e) w' -> 0 < e < 256.
Proof. intros H. inversion H; subst; [unfold SNMP_ERR_READONLY; lia|done]. Qed.

(** The group of the branch, from the length of the OID on. *)
Lemma set_group limb n tl Y w : tl = n - Z.of_nat (length (limb_match limb)) ->
  func_group (packet limb n Y) (Z.of_nat (length (limb_match limb))) (obj_array limb) MASK_SET w =
  func_group_loop (Z.of_nat (length (limb_match limb))) tl MASK_SET (obj_array limb) (packet limb n Y) w.
Proof. by intros ->. Qed.

Lemma search_set pre limb post o z w out w' : Forall (fun b => small (limb_match b)) pre ->
  Forall (fun b => before (limb_match b) (limb_match limb) = true) pre ->
  writable limb o -> room z -> set_outcome o z w out w' ->
  let R := limb_match limb ++ oid_match (leaf o) in
  search_outcome R (length z) out (respond_loop MASK_SET (pre ++ limb :: post) (Z.of_nat (length R) :: R ++ z) w) w'.
Proof.
  intros Hpre Hbefore [Hg [Hs Hl] Hobjs Hsort Hin] Hz Hout R.
  assert (Ho : object_ok o) by (rewrite List.Forall_forall in Hobjs; by apply Hobjs).
  destruct Ho as (_ & Hst & Htne & Htl). set (t := oid_match (leaf o)) in *.
  assert (HR : small R) by by apply Forall_app.
  assert (HlR : length R = (length (limb_match limb) + length t)%nat) by apply length_app.
  induction pre as [|b pre IH].
  2: { apply Forall_cons in Hpre as [Hb Hpre], Hbefore as [Hbb Hbefore]. rewrite <- app_comm_cons, set_passes; [by apply IH|done|done|].
       rewrite <- (app_nil_r (limb_match b)). by apply before_app. }
  cbn [app respond_loop]. rewrite (lift_some _ _ w (Z.of_nat (length R))) by done.
  change (flag MASK_SET MASK_GET) with false. change (flag MASK_SET MASK_SET) with true.
  change (flag MASK_SET MASK_GET_NEXT) with false. cbn [orb andb].
  rewrite (proj2 (Z.ltb_ge _ _)) by lia. rewrite Z.min_l by lia.
  assert (Hm : memcmp (length (limb_match limb)) (limb_match limb) (R ++ z) = 0).
  { unfold R. rewrite <- app_assoc. rewrite <- (app_nil_r (limb_match limb)) at 2. by apply memcmp_refl. }
  rewrite (lift_some _ _ w 0) by (rewrite branch_cmp; rewrite ?Nat2Z.id; [by rewrite Hm|rewrite length_app; lia|lia]).
  rewrite Z.eqb_refl. cbn [Z.eqb andb orb].
  change (flag MASK_SET RETURN_FIRST) with false. cbv iota. rewrite pret_bind, Hg. cbv beta.
  pose proof (group_set limb _ o t z (Z.of_nat (length R)) w out w' Hobjs Hsort Hin eq_refl Hz Hout) as H.
  rewrite <- (set_group limb (Z.of_nat (length R)) (Z.of_nat (length t)) (t ++ z) w) in H by lia.
  unfold packet in H at 1. rewrite (app_assoc _ t z) in H. fold R in H.
  destruct out as [e|v]; cbn [group_outcome search_outcome] in *.
  - pose proof (outcome_error _ _ _ _ _ Hout) as He. rewrite (pbind_some _ _ _ _ _ H). cbn [fst snd]. rewrite (proj2 (Z.ltb_ge 0 (- e))) by lia.
    rewrite (eqb_false (- e) 0) by lia. exists z. destruct Hz as [? ?]. split; [done|split; [done|]].
    unfold packet. rewrite app_assoc. fold R. unfold pret, u8. rewrite Z.opp_involutive, Z.mod_small by lia. done.
  - destruct H as (rest' & Hb' & Hlen & Hne & Hv & Hbv & H). rewrite (pbind_some _ _ _ _ _ H). cbn [fst snd].
    rewrite (ltb_true 0) by (destruct v; [done|cbn; lia]). exists rest'. split; [done|split; [done|split; [done|split; [done|]]]].
    unfold packet. rewrite app_assoc. fold R. rewrite pret_bind.
    unfold pret. do 4 f_equal. lia.
Qed.

Lemma pdu_set : SNMP_SET ∈ [SNMP_GET; SNMP_GET_NEXT; SNMP_SET].
Proof. by repeat constructor. Qed.

(** The answer to a SET: the value read back, or the error. *)
Definition answer_set ver reqid oid (out : Z + list Z) (r : option (list Z * Z * W)) w' : Prop :=
  match out with
  | inl e => answer r w' (snmp_message SNMP_GET_RESPONSE ver reqid e 1 oid [ASN_NULL; 0])
  | inr v => answer r w' (snmp_message SNMP_GET_RESPONSE ver reqid 0 0 oid v)
  end.

Lemma respond_set `{!SnmpVersion W} pre limb post o ver reqid val pad w out w' :
  let oid := limb_match limb ++ oid_match (leaf o) in
  request SNMP_SET ver reqid oid val (snmp_message SNMP_SET ver reqid 0 0 oid val ++ pad) ->
  Forall (fun b => small (limb_match b)) pre -> Forall (fun b => before (limb_match b) (limb_match limb) = true) pre ->
  writable limb o -> set_outcome o (val ++ pad) (set_snmp_version ver w) out w' ->
  answer_set ver reqid oid out
    (snmp_respond true (pre ++ limb :: post) (snmp_message SNMP_SET ver reqid 0 0 oid val ++ pad) w) w'.
Proof.
  intros oid Hrq Hpre Hbefore Hw Hout. pose proof Hrq as [Hv [Hib Hil] [Hos Hol] (pad' & Hb & Hbuf) _].
  apply app_inv_head in Hbuf as <-.
  assert (Hl : (length oid <= 24)%nat).
  { destruct Hw as [_ [_ Hl] Hobjs _ Hin]. rewrite List.Forall_forall in Hobjs. destruct (Hobjs o Hin) as (_ & _ & _ & ?).
    unfold oid. rewrite length_app. lia. }
  set (tree := (fun l : snmp_oid_limb W Ptr => (l, [] : list entry)) <$> (pre ++ limb :: post)).
  assert (E : tree.*1 = pre ++ limb :: post) by (unfold tree; rewrite <- list_fmap_compose; apply list_fmap_id).
  pose proof (respond_request true _ _ _ _ _ _ pad tree w Hrq Hb eq_refl pdu_set (fun _ => eq_refl)) as H. rewrite E in H.
  destruct H as (Hhdr & Hlen & ->). set (w1 := set_snmp_version ver w) in *. set (z := val ++ pad) in *.
  change (pdu_mode SNMP_SET) with MASK_SET.
  pose proof (search_set pre limb post o z w1 out w' Hpre Hbefore Hw ltac:(split; [lia|done]) Hout) as H.
  cbv zeta in H. fold oid in H. destruct out as [e|v]; cbn [search_outcome answer_set] in *.
  - destruct H as (rest' & Hb' & Hl' & H). rewrite (pbind_some _ _ _ _ _ H). cbv beta iota.
    pose proof (outcome_error _ _ _ _ _ Hout) as He.
    pose proof (respond_error ver reqid SNMP_SET (Z.of_nat (length oid) + Z.of_nat (length val)) e
      (Z.of_nat (length oid)) (oid ++ rest') w') as Hr. rewrite Nat2Z.id, take_app_length in Hr.
    apply Hr; [done|done|done| |rewrite length_app; lia|lia|unfold is_byte; lia].
    apply bytes_app. split; [by apply small_bytes|done].
  - destruct H as (rest' & Hb' & Hl' & Hlv & Hbv & H). rewrite (pbind_some _ _ _ _ _ H). cbv beta iota.
    apply respond_found; [done|done|done| |lia|lia].
    rewrite !bytes_app. split; [by apply small_bytes|done].
Qed.
End set.
