(* ===== verification/SnmpAgent.v ===== *)
(** The SNMP agent (lib/snmp.c) with the objects of the firmware: GET, GETNEXT,
    SET and the walk of a manager on [oid_limb_array], and malformed packets. *)
From Stdlib Require Import ZArith Lia Sorted.
From stdpp Require Import base numbers option list.
From S2P Require Import Prelude SpllHw SoftPll Printf Bytes SfpDb Shell Snmp SnmpSet SnmpMib.

(** Tags of integers, and lists of cases. *)
Ltac tag_int := unfold is_int_tag; repeat constructor.
Ltac listed := repeat (apply List.Forall_cons || apply List.Forall_nil).

(** What is assumed of the state of the firmware: a variable that is written is
    read back, and the version of the protocol is a variable of its own. *)
Class SnmpEnvLaws (W : Type) `{!SnmpEnv W} : Prop := {
  vars_set w s : env_vars (env_set_vars s w) = s;
  version_set w v : snmp_version (set_snmp_version v w) = v;
  version_set_set w v v' : set_snmp_version v' (set_snmp_version v w) = set_snmp_version v' w;
  version_vars w v : env_vars (set_snmp_version v w) = env_vars w }.

Section agent.
Context `{Endian} {W : Type} `{!SnmpEnv W, !SnmpEnvLaws W, !SnmpConfig}.
Context (off1 off2 : Z).

(** ** Variables and their images *)
Definition var_size (v : snmp_var) : nat :=
  match v with
  | V_ptp_pn | V_ptp_alpha | V_ptp_dTx | V_ptp_dRx => 33
  | V_init_script_line => 32
  | V_shell_cmd_line => 81
  | _ => 4
  end.
Lemma int_image_of l : bytes l -> length l = 4%nat -> int_image (int_of l) = l.
Proof.
  intros Hb Hl. unfold int_image, int_of. rewrite u32_s32, u32_small by exact (value_range 4 l Hb Hl). by apply image_value.
Qed.
Lemma sfp_image_of l : bytes l -> length l = 33%nat -> sfp_image (sfp_of l) = l.
Proof.
  intros Hb Hl. unfold sfp_image, sfp_of. cbn [sfp_pn sfp_alpha sfp_dTx sfp_dRx sfp_chksum].
  rewrite u64_s64, !u32_s32.
  assert (Hv : forall n k o, k = Z.of_nat n -> image n (value (sub l o k)) = sub l o k).
  { intros n k o ->. apply image_value; [by apply bytes_sub|rewrite length_sub; lia]. }
  assert (Hr : forall n k o, k = Z.of_nat n -> 0 <= value (sub l o k) < 256 ^ k).
  { intros n k o ->. apply value_range; [by apply bytes_sub|rewrite length_sub; lia]. }
  unfold u64. rewrite Z.mod_small by exact (Hr 8%nat 8 16 eq_refl). rewrite !u32_small by exact (Hr 4%nat 4 _ eq_refl).
  rewrite !Hv by done.
  change [aget 0 l 32] with (sub l 32 1). rewrite <- !sub_app by lia. cbn [Z.add Pos.add Pos.succ].
  rewrite <- (sub_all l) at 2. by rewrite Hl.
Qed.
Lemma var_image_put v img s : bytes img -> length img = var_size v -> var_image v (var_put v img s) = img.
Proof. intros Hb Hl. destruct v; cbn in *; (by apply int_image_of) || (by apply sfp_image_of) || done. Qed.

(** The variables have their sizes. *)
Record vars_ok (s : snmp_vars) : Prop := {
  vo_config : pn_ok (snmp_ptp_config s);
  vo_init : bytes (init_script_line s) /\ length (init_script_line s) = 32%nat;
  vo_cmd : bytes (shell_cmd_line s) /\ length (shell_cmd_line s) = 81%nat }.
Lemma bytes_int_image x : bytes (int_image x).
Proof. unfold int_image, image. destruct big_endian; [|apply Forall_rev]; apply bytes_be. Qed.
Lemma length_int_image x : length (int_image x) = 4%nat.
Proof. apply length_image. Qed.
Lemma var_image_ok v s : vars_ok s -> bytes (var_image v s) /\ length (var_image v s) = var_size v.
Proof.
  intros [Hc Hi Hl]. destruct (config_image _ Hc) as (H1 & H2 & _).
  destruct v; cbn; done || (split; [apply bytes_int_image|apply length_int_image]).
Qed.
Lemma vars_ok_put v img s : bytes img -> length img = var_size v -> vars_ok s -> vars_ok (var_put v img s).
Proof.
  intros Hb Hl [Hc Hi Hlc].
  assert (Hsfp : length img = 33%nat -> pn_ok (sfp_of img)).
  { intros E. unfold pn_ok, sfp_of. cbn [sfp_pn sfp_chksum]. split; [by apply bytes_sub|]. split; [by rewrite length_sub|].
    unfold aget. cbn [Z.ltb Z.compare]. destruct (img !! Z.to_nat 32) as [b|] eqn:Eb; [|unfold is_byte; cbn; lia].
    cbn [default]. unfold bytes in Hb. rewrite Forall_forall in Hb. apply Hb. by eapply list_elem_of_lookup_2. }
  destruct v; constructor; cbn in *; try done; by apply Hsfp.
Qed.

(** Writing [data] to a variable. *)
Lemma set_at_split buf off data : 0 <= off -> off + Z.of_nat (length data) <= Z.of_nat (length buf) ->
  set_at buf off data = Some (take (Z.to_nat off) buf ++ data ++ drop (Z.to_nat off + length data) buf).
Proof.
  intros H1 H2. rewrite <- (take_drop (Z.to_nat off) buf) at 1.
  rewrite <- (take_drop (length data) (drop (Z.to_nat off) buf)) at 1. rewrite drop_drop.
  apply set_at_mid; rewrite ?length_take, ?length_drop; lia.
Qed.
Definition written v (data : list Z) (s : snmp_vars) : list Z :=
  let off := Z.to_nat (var_offset v) in
  take off (var_image v s) ++ data ++ drop (off + length data) (var_image v s).
Lemma written_ok v data s : vars_ok s -> bytes data -> var_offset v + Z.of_nat (length data) <= Z.of_nat (var_size v) ->
  bytes (written v data s) /\ length (written v data s) = var_size v /\
  set_at (var_image v s) (var_offset v) data = Some (written v data s) /\
  exists rest, bytes rest /\ drop (Z.to_nat (var_offset v)) (written v data s) = data ++ rest.
Proof.
  intros Hs Hb Hfit. destruct (var_image_ok v s Hs) as [Hi Hl]. unfold written.
  assert (Hoff : 0 <= var_offset v) by by destruct v.
  split; [rewrite !bytes_app; split; [by apply Forall_take|split; [done|by apply Forall_drop]]|].
  split; [rewrite !length_app, length_take, length_drop; lia|]. split; [apply set_at_split; lia|].
  eexists. split; [|apply drop_app_length'; rewrite length_take; lia]. by apply Forall_drop.
Qed.

(** ** Values in a SET request

    The value as it is sent (type, length and contents), the bytes that are
    stored, and the value as it is read back: an INTEGER may be sent in one to
    four bytes, is extended with zeros and is read back in four. *)
Inductive sent (o : snmp_oid W ptr) : list Z -> list Z -> list Z -> Prop :=
  | Sent_int c : asn (leaf o) = ASN_INTEGER -> bytes c -> (1 <= length c <= 4)%nat ->
      sent o (ber ASN_INTEGER c) (int_image (be_value c 0)) (int_tlv ASN_INTEGER (be_value c 0))
  | Sent_text s : asn (leaf o) = ASN_OCTET_STR -> bytes s -> 0 ∉ s -> (length s <= 31)%nat ->
      Z.of_nat (length s) <= data_size (leaf o) ->
      sent o (ber ASN_OCTET_STR s) (s ++ [0]) (ber ASN_OCTET_STR s).
Record stores (o : snmp_oid W ptr) (v : snmp_var) : Prop := {
  so_get : oid_get o = get_p; so_set : oid_set o = Some set_p; so_var : oid_p (leaf o) = P_var v }.

(** A number in four bytes. *)
Lemma sent_int4 o x : asn (leaf o) = ASN_INTEGER ->
  sent o (int_tlv ASN_INTEGER x) (int_image x) (int_tlv ASN_INTEGER x).
Proof.
  intros Ha. pose proof (Sent_int o (be_bytes 4 (u32 x)) Ha (bytes_be_Forall 4 _)) as Hs.
  rewrite length_be_bytes in Hs. specialize (Hs ltac:(lia)).
  assert (E : be_value (be_bytes 4 (u32 x)) 0 = u32 x).
  { rewrite be_value_bytes. change (256 ^ Z.of_nat 4) with 4294967296. fold (u32 (u32 x)). apply u32_small, u32_range. }
  rewrite E in Hs. unfold int_tlv, int_image in *. by rewrite (u32_small (u32 x)) in Hs by apply u32_range.
Qed.

Lemma sent_bytes o tlv data back : sent o tlv data back -> bytes data /\ (length tlv <= 34)%nat /\ (0 < length tlv)%nat.
Proof.
  intros [c _ _ Hl|s _ Hb _ Hl _]; unfold ber; cbn [length].
  - split; [apply bytes_int_image|lia].
  - split; [|lia]. apply bytes_app. split; [done|]. repeat constructor; unfold is_byte; lia.
Qed.

(** [ntohl] and the shift of a number of fewer than four bytes. *)
Lemma be_value_zeros c k : be_value (c ++ replicate k 0) 0 = be_value c 0 * 256 ^ Z.of_nat k.
Proof.
  rewrite be_value_app. generalize (be_value c 0). induction k as [|k IH]; intros x; [cbn; lia|].
  cbn [replicate be_value]. rewrite IH, Nat2Z.inj_succ, Z.pow_succ_r by lia. ring.
Qed.
Lemma shifted_value c : bytes c -> (length c <= 4)%nat ->
  Z.shiftr (htonl (value (c ++ replicate (4 - length c) 0))) ((4 - Z.of_nat (length c)) * 8) = be_value c 0.
Proof.
  intros Hb Hl. rewrite htonl_value; cycle 1.
  - apply bytes_app. split; [done|]. apply Forall_replicate. unfold is_byte. lia.
  - rewrite length_app, length_replicate. lia.
  - rewrite be_value_zeros, Z.shiftr_div_pow2 by lia. rewrite Nat2Z.inj_sub by lia.
    replace (2 ^ ((4 - Z.of_nat (length c)) * 8)) with (256 ^ (Z.of_nat 4 - Z.of_nat (length c))).
    + apply Z.div_mul. assert (0 < 256 ^ (Z.of_nat 4 - Z.of_nat (length c))); [|lia]. apply Z.pow_pos_nonneg; lia.
    + change 256 with (2 ^ 8). rewrite <- Z.pow_mul_r by lia. f_equal. lia.
Qed.
Lemma be_value_u32 c : bytes c -> (length c <= 4)%nat -> u32 (be_value c 0) = be_value c 0.
Proof.
  intros Hb Hl. apply u32_small. pose proof (be_value_range c 0 Hb ltac:(lia)) as Hr.
  assert (256 ^ Z.of_nat (length c) <= 256 ^ 4) by (apply Z.pow_le_mono_r; lia). unfold is_u32. lia.
Qed.

Lemma incoming_sent o tlv data back pad w : sent o tlv data back ->
  incoming_value (W := W) (tlv ++ pad) (leaf o) w = Some ((data, Z.of_nat (length tlv)), w).
Proof.
  intros [c Ha Hb Hl|s Ha Hb Hz Hl Hs]; unfold incoming_value, ber; rewrite Ha; cbn [app].
  - erewrite !lift_some by done. rewrite Z.eqb_refl.
    change ((ASN_INTEGER =? ASN_UNSIGNED) || true) with true. cbn [negb]. cbv iota.
    rewrite (proj2 (Z.ltb_ge 4 _)) by lia.
    rewrite (proj2 (Z.ltb_ge _ _)) by (cbn [length]; rewrite length_app; lia). cbv iota zeta. rewrite pret_bind.
    change (drop 2 _) with (c ++ pad). rewrite take_app_length' by lia. rewrite Nat2Z.id.
    rewrite shifted_value by (done || lia). cbn [length]. unfold pret, int_image. rewrite be_value_u32 by (done || lia).
    do 3 f_equal. lia.
  - erewrite !lift_some by done. rewrite Z.eqb_refl. change ((ASN_OCTET_STR =? ASN_UNSIGNED) || (ASN_OCTET_STR =? ASN_INTEGER)) with false.
    cbn [negb]. cbv iota. rewrite (proj2 (Z.ltb_ge _ _)) by lia.
    rewrite (proj2 (Z.ltb_ge _ _)) by (cbn [length]; rewrite length_app; lia). cbv iota zeta. rewrite pret_bind.
    change (drop 2 _) with (s ++ pad). rewrite take_app_length' by lia. cbn [length]. unfold pret. do 3 f_equal. lia.
Qed.

(** The bytes of a variable itself, inside its image. *)
Definition var_width (v : snmp_var) : nat :=
  match v with V_ptp_pn => 16 | V_ptp_alpha => 8 | V_ptp_dTx | V_ptp_dRx => 4 | _ => var_size v end.
Definition var_field (v : snmp_var) (s : snmp_vars) : list Z :=
  take (var_width v) (drop (Z.to_nat (var_offset v)) (var_image v s)).
(** What [SET] cannot reach: the checksum of the SFP entry and the numbers of
    the auxiliary registers. *)
Definition fixed_vars (s : snmp_vars) : Z * Z * Z :=
  (sfp_chksum (snmp_ptp_config s), aux_diag_reg_ro_num s, aux_diag_reg_rw_num s).

Lemma written_elsewhere (l data : list Z) (off o2 n2 : nat) :
  (off + length data <= length l)%nat -> (o2 + n2 <= off \/ off + length data <= o2)%nat ->
  take n2 (drop o2 (take off l ++ data ++ drop (off + length data) l)) = take n2 (drop o2 l).
Proof.
  intros Hfit Hdis. apply list_eq. intros i. destruct (decide (i < n2)%nat); [|by rewrite !lookup_take_ge by lia].
  rewrite !lookup_take_lt, !lookup_drop by lia. destruct Hdis.
  - rewrite lookup_app_l by (rewrite length_take; lia). by rewrite lookup_take_lt by lia.
  - rewrite lookup_app_r by (rewrite length_take; lia). rewrite lookup_app_r by (rewrite length_take; lia).
    rewrite lookup_drop, length_take. f_equal. lia.
Qed.

(** Writing inside a variable changes no other. *)
Lemma put_elsewhere v v2 data s : vars_ok s -> bytes data -> (length data <= var_width v)%nat -> v2 <> v ->
  var_field v2 (var_put v (written v data s) s) = var_field v2 s.
Proof.
  intros Hs Hb Hd Hne.
  assert (Hw : (Z.to_nat (var_offset v) + var_width v <= var_size v)%nat) by (destruct v; cbn; lia).
  destruct (written_ok v data s Hs Hb) as (Hwb & Hwl & _ & _); [destruct v; cbn in *; lia|].
  destruct (var_image_ok v s Hs) as [_ Hil].
  assert (Hcase : var_image v2 (var_put v (written v data s) s) = var_image v2 s \/
    (var_image v2 (var_put v (written v data s) s) = written v data s /\ var_image v2 s = var_image v s /\
     (Z.to_nat (var_offset v2) + var_width v2 <= Z.to_nat (var_offset v) \/
      Z.to_nat (var_offset v) + var_width v <= Z.to_nat (var_offset v2))%nat)).
  { pose proof (var_image_put v (written v data s) s Hwb Hwl) as Hput.
    clear - Hput Hne. destruct v, v2; try done; first [by left | right; split; [exact Hput|split; [done|cbn; lia]]]. }
  unfold var_field. destruct Hcase as [->|(-> & -> & Hdis)]; [done|].
  unfold written. apply written_elsewhere; lia.
Qed.
Lemma put_fixed v data s : vars_ok s -> bytes data -> (length data <= var_width v)%nat ->
  fixed_vars (var_put v (written v data s) s) = fixed_vars s.
Proof.
  intros Hs Hb Hd. destruct (var_image_ok v s Hs) as [_ Hil].
  destruct (config_image _ (vo_config s Hs)) as (_ & Hlen & _ & H28 & _).
  assert (Hsum : (Z.to_nat (var_offset v) + var_width v <= 32)%nat -> var_image v s = sfp_image (snmp_ptp_config s) ->
    sfp_chksum (sfp_of (written v data s)) = sfp_chksum (snmp_ptp_config s)).
  { intros Hw E. cbn [sfp_of sfp_chksum].
    assert (Hat : written v data s !! 32%nat = Some (sfp_chksum (snmp_ptp_config s))).
    { transitivity (drop 28 (sfp_image (snmp_ptp_config s)) !! 4%nat).
      2: { rewrite H28, lookup_app_r by (rewrite length_int_image; lia). by rewrite length_int_image. }
      rewrite lookup_drop. unfold written. rewrite E.
      rewrite lookup_app_r by (rewrite length_take; lia). rewrite lookup_app_r by (rewrite length_take; lia).
      rewrite lookup_drop, length_take. f_equal. lia. }
    unfold aget. cbn [Z.ltb Z.compare]. change (Z.to_nat 32) with 32%nat. by rewrite Hat. }
  destruct v; try done; unfold fixed_vars; cbn [var_put snmp_ptp_config aux_diag_reg_ro_num aux_diag_reg_rw_num upd];
    (rewrite Hsum; [done|cbn; lia|done]).
Qed.

(** The state after a SET. *)
Definition after v (data : list Z) w : W := env_set_vars (var_put v (written v data (env_vars w)) (env_vars w)) w.
Section written.
Context (o : snmp_oid W ptr) (v : snmp_var) (Hv : oid_p (leaf o) = P_var v).
Variables (tlv data back : list Z) (Hsent : sent o tlv data back) (Hfit : var_offset v + Z.of_nat (length data) <= Z.of_nat (var_size v)).
Context (w : W) (Hs : vars_ok (env_vars w)).

Lemma set_value_sent pad : set_value (tlv ++ pad) (leaf o) (oid_p (leaf o)) 0 w = Some (Z.of_nat (length tlv), after v data w).
Proof.
  destruct (sent_bytes _ _ _ _ Hsent) as (Hb & _ & Hpos). destruct (written_ok v data _ Hs Hb Hfit) as (_ & _ & Hset & _).
  unfold set_value. rewrite Hv. rewrite (pbind_some _ _ _ _ _ (incoming_sent o tlv data back pad w Hsent)).
  rewrite (ltb_true 0) by lia. erewrite pbind_some; [reflexivity|]. cbn [mem_store snmp_memory]. rewrite Z.add_0_r. by rewrite Hset.
Qed.
Lemma set_p_sent pad : offset (leaf o) = 0 -> set_p (leaf o) (tlv ++ pad) w = Some ((tlv ++ pad, Z.of_nat (length tlv)), after v data w).
Proof. intros Hoff. unfold set_p. rewrite Hoff. by rewrite (pbind_some _ _ _ _ _ (set_value_sent pad)). Qed.

(** What is there afterwards. *)
Lemma after_vars : env_vars (after v data w) = var_put v (written v data (env_vars w)) (env_vars w).
Proof. apply vars_set. Qed.
Lemma load_after : exists rest, bytes rest /\ mem_load (P_var v) 0 (after v data w) = Some (data ++ rest, after v data w).
Proof.
  destruct (sent_bytes _ _ _ _ Hsent) as (Hb & _). destruct (written_ok v data _ Hs Hb Hfit) as (Hib & Hil & _ & rest & Hbr & Hdrop).
  exists rest. split; [done|]. cbn [mem_load snmp_memory]. rewrite Z.add_0_r, after_vars, var_image_put by done. by rewrite Hdrop.
Qed.
Lemma vars_ok_after : vars_ok (env_vars (after v data w)).
Proof.
  destruct (sent_bytes _ _ _ _ Hsent) as (Hb & _). destruct (written_ok v data _ Hs Hb Hfit) as (Hib & Hil & _).
  rewrite after_vars. by apply vars_ok_put.
Qed.

(** It is read back. *)
Lemma after_answers : oid_get o = get_p -> offset (leaf o) = 0 -> answers (oid_get o) (leaf o) (after v data w) (Some back).
Proof.
  intros Hg Hoff. destruct load_after as (rest & Hbr & Hmem). destruct (sent_bytes _ _ _ _ Hsent) as (Hb & _). rewrite Hg.
  assert (Hload : forall suf, get_p (leaf o) suf (after v data w) = get_value suf (asn (leaf o)) (data ++ rest) (after v data w)).
  { intros suf. unfold get_p. rewrite Hv, Hoff. by rewrite (pbind_some _ _ _ _ _ Hmem). }
  clear Hmem Hfit. destruct Hsent as [c Ha _ _|s Ha Hbs Hz Hl Hd].
  - apply answers_int; [tag_int|]. intros suf. rewrite Hload, Ha. apply get_value_head. tag_int.
  - rewrite <- app_assoc in Hload.
    assert (Hc : cstr (s ++ [0] ++ rest) = s) by by apply cstr_app.
    replace (ber ASN_OCTET_STR s) with (text_tlv (s ++ [0] ++ rest)).
    2: { unfold text_tlv. rewrite Hc. by rewrite firstn_all2 by lia. }
    apply answers_text; [|intros suf; by rewrite Hload, Ha]. split; [|rewrite Hc, !length_app; cbn [length]; lia].
    rewrite !bytes_app. split; [done|split; [repeat constructor; unfold is_byte; lia|done]].
Qed.
End written.

(** An object that starts an action. *)
Lemma int_of_image x : int_of (int_image x) = s32 x.
Proof. unfold int_of, int_image. rewrite value_image by apply u32_range. apply s32_u32. Qed.
Lemma apply_sent (o : snmp_oid W ptr) v action x pad w res w1 : oid_p (leaf o) = P_var v -> asn (leaf o) = ASN_INTEGER ->
  vars_ok (env_vars w) -> action (s32 x) (after v (int_image x) w) = Some (res, w1) -> vars_ok (env_vars w1) ->
  var_offset v + 4 <= Z.of_nat (var_size v) ->
  apply action (leaf o) (int_tlv ASN_INTEGER x ++ pad) w =
  Some ((int_tlv ASN_INTEGER x ++ pad, Z.of_nat (length (int_tlv ASN_INTEGER x))), after v (int_image res) w1).
Proof.
  intros Hv Ha Hs Hact Hs1 Hfit. assert (Hsent : forall y, sent o (int_tlv ASN_INTEGER y) (int_image y) (int_tlv ASN_INTEGER y)) by (intros y; by apply sent_int4).
  assert (Hfit' : forall y, var_offset v + Z.of_nat (length (int_image y)) <= Z.of_nat (var_size v)) by (intros y; by rewrite length_int_image).
  unfold apply. rewrite (pbind_some _ _ _ _ _ (set_value_sent o v Hv _ _ _ (Hsent x) (Hfit' x) w Hs pad)).
  rewrite (proj2 (Z.leb_gt _ _)) by (unfold int_tlv, ber; cbn; lia). rewrite Hv.
  destruct (load_after o v _ _ _ (Hsent x) (Hfit' x) w Hs) as (rest & _ & Hload). rewrite (pbind_some _ _ _ _ _ Hload).
  rewrite take_app_length' by (by rewrite length_int_image). rewrite int_of_image. rewrite (pbind_some _ _ _ _ _ Hact).
  erewrite pbind_some; [reflexivity|]. destruct (written_ok v (int_image res) _ Hs1 (bytes_int_image res) (Hfit' res)) as (_ & _ & Hset & _).
  cbn [mem_store snmp_memory]. rewrite Z.add_0_r. by rewrite Hset.
Qed.

(** ** What holds of every branch of [oid_limb_array] *)
Definition var_fits (o : snmp_oid W ptr) : Prop :=
  match oid_p (leaf o) with
  | P_var v => offset (leaf o) = 0 /\
      (asn (leaf o) = ASN_INTEGER /\ var_offset v + 4 <= Z.of_nat (var_size v) \/
       asn (leaf o) = ASN_OCTET_STR /\ var_offset v + Z.min 31 (data_size (leaf o)) + 1 <= Z.of_nat (var_size v))
  | _ => True
  end.
Record branch_shape (limb : snmp_oid_limb W ptr) : Prop := {
  bs_oid : small (limb_match limb) /\ (length (limb_match limb) <= 20)%nat;
  bs_group : twig_func limb = func_group \/ Forall (fun o => oid_p (leaf o) = P_code 0) (obj_array limb);
  bs_objects : Forall object_ok (obj_array limb);
  bs_sorted : StronglySorted (fun a b : snmp_oid W ptr => before (oid_match (leaf a)) (oid_match (leaf b)) = true) (obj_array limb);
  bs_fits : Forall var_fits (obj_array limb) }.

Ltac fit := unfold var_fits; cbn; first [exact I | split; [reflexivity|]; first [left; split; [reflexivity|lia] | right; split; [reflexivity|lia]]].
Ltac branch := constructor;
  [ split; [by repeat constructor|cbn; lia]
  | first [left; reflexivity | right; listed; reflexivity]
  | listed; unfold object_ok; cbn; (split; [done|split; [by repeat constructor|split; [done|lia]]])
  | by repeat constructor
  | listed; fit ].
Lemma limb_if_shape b limb : branch_shape limb -> Forall branch_shape (limb_if b limb).
Proof. intros Hl. destruct b; cbn; [by apply Forall_singleton|by apply Forall_nil]. Qed.
Lemma branches_shape id ver : CONFIG_SNMP_AUX_DIAG = false -> Forall branch_shape (oid_limb_array off1 off2 id ver).
Proof.
  intros Ha. unfold oid_limb_array. rewrite Ha. cbn [limb_if].
  repeat (apply Forall_app; split); try apply limb_if_shape; try done; listed; branch.
Qed.
Lemma branches_sorted id ver : CONFIG_SNMP_AUX_DIAG = false ->
  StronglySorted (fun a b : snmp_oid_limb W ptr => before (limb_match a) (limb_match b) = true) (oid_limb_array off1 off2 id ver).
Proof.
  intros Ha. unfold oid_limb_array, limb_if. rewrite Ha.
  destruct CONFIG_TEMP_SENSORS, (CONFIG_SNMP_INIT && CONFIG_SNMP_SET), (CONFIG_SNMP_SDB && CONFIG_SNMP_SET), CONFIG_SNMP_NETCONSOLE,
    CONFIG_SNMP_SET, CONFIG_SNMP_CMD; cbn [app andb];
  repeat (apply SSorted_cons || apply SSorted_nil || apply List.Forall_cons || apply List.Forall_nil); reflexivity.
Qed.

(** ** SET *)
Section requests.
Context (id ver_aux : Z) (no_aux : CONFIG_SNMP_AUX_DIAG = false).
Abbreviation limbs := (oid_limb_array off1 off2 id ver_aux).

Lemma sorted_split {A} (R : A -> A -> Prop) (l : list A) x : StronglySorted R l -> In x l ->
  exists pre post, l = pre ++ x :: post /\ Forall (fun y => R y x) pre.
Proof.
  intros Hs Hin. apply in_split in Hin as (pre & post & ->). exists pre, post. split; [done|].
  induction pre as [|y pre IH]; [constructor|]. apply StronglySorted_inv in Hs as [Hs Hall]. constructor; [|by apply IH].
  apply Forall_app in Hall as [_ Hall]. by apply Forall_cons in Hall as [Hall _].
Qed.

(** An object is in a group of the array. *)
Record in_group limb (o : snmp_oid W ptr) : Prop := {
  ig_limb : In limb limbs; ig_group : twig_func limb = func_group; ig_in : In o (obj_array limb) }.
Definition agent (buf : list Z) : P W (list Z * Z) := snmp_respond CONFIG_SNMP_SET limbs buf.
Definition oid_of (limb : snmp_oid_limb W ptr) (o : snmp_oid W ptr) : list Z := limb_match limb ++ oid_match (leaf o).
Definition set_request ver reqid oid val pad : list Z := snmp_message SNMP_SET ver reqid 0 0 oid val ++ pad.

Lemma group_answer limb o ver reqid val pad w out w' : CONFIG_SNMP_SET = true -> in_group limb o ->
  request SNMP_SET ver reqid (oid_of limb o) val (set_request ver reqid (oid_of limb o) val pad) ->
  set_outcome o (val ++ pad) (set_snmp_version ver w) out w' ->
  answer_set ver reqid (oid_of limb o) out (agent (set_request ver reqid (oid_of limb o) val pad) w) w'.
Proof.
  intros Hset [Hl Hg Ho] Hrq Hout. unfold agent. rewrite Hset at 1. pose proof (branches_shape id ver_aux no_aux) as Hshape.
  destruct (sorted_split _ _ _ (branches_sorted id ver_aux no_aux) Hl) as (pre & post & El & Hpre).
  rewrite El in *. apply Forall_app in Hshape as [Hshape Hpost]. apply Forall_cons in Hpost as [[Hoid _ Hobjs Hsort _] _].
  apply respond_set; [exact Hrq| |exact Hpre| |exact Hout].
  - eapply Forall_impl; [exact Hshape|]. by intros b [[? _] _ _ _ _].
  - by constructor.
Qed.
Lemma in_group_fits limb o v tlv data back : in_group limb o -> oid_p (leaf o) = P_var v -> sent o tlv data back ->
  offset (leaf o) = 0 /\ var_offset v + Z.of_nat (length data) <= Z.of_nat (var_size v).
Proof.
  intros [Hl _ Ho] Hv Hsent. pose proof (branches_shape id ver_aux no_aux) as Hs. rewrite List.Forall_forall in Hs.
  destruct (Hs _ Hl) as [_ _ _ _ Hf]. rewrite List.Forall_forall in Hf. specialize (Hf o Ho). unfold var_fits in Hf. rewrite Hv in Hf.
  destruct Hf as [Hoff Hf]. split; [done|]. destruct Hsent as [c Ha _ _|s Ha _ _ Hls Hd]; destruct Hf as [[Ha' Hf]|[Ha' Hf]]; rewrite Ha' in Ha; try done.
  - rewrite length_int_image. lia.
  - rewrite length_app. cbn [length]. lia.
Qed.
(** An object that is a variable is in a group. *)
Lemma variable_group limb o v : In limb limbs -> In o (obj_array limb) -> oid_p (leaf o) = P_var v -> in_group limb o.
Proof.
  intros Hl Ho Hv. pose proof (branches_shape id ver_aux no_aux) as Hs. rewrite List.Forall_forall in Hs.
  destruct (Hs _ Hl) as [_ [Hg|Hg] _ _ _]; [by constructor|]. rewrite List.Forall_forall in Hg. specialize (Hg o Ho). by rewrite Hv in Hg.
Qed.

(** C17. A SET of a variable stores the value that was sent: in a build without
    the auxiliary diagnostics, for a variable that is written directly, a
    request with an OID of sub-identifiers below 128 and a value of the
    variable's type that fits it (an INTEGER of one to four bytes, which are
    extended with zeros; a text without zero bytes, of at most 31 characters,
    that fits together with the zero the code appends, so that a part number
    has at most 15), the answer holds the value read back: the text as it was
    sent, the number in four bytes. The variable holds the data afterwards; every other
    variable that a SET can write keeps its bytes, so do the checksum of the SFP entry and
    the counts of auxiliary registers, and nothing else of the firmware
    changes but the version of the protocol. *)
Theorem snmp_set_stores limb o v ver reqid tlv data back pad w :
  CONFIG_SNMP_SET = true -> In limb limbs -> In o (obj_array limb) -> stores o v -> sent o tlv data back ->
  (length data <= var_width v)%nat -> vars_ok (env_vars w) ->
  request SNMP_SET ver reqid (oid_of limb o) tlv (set_request ver reqid (oid_of limb o) tlv pad) ->
  let w' := after v data (set_snmp_version ver w) in
  answer (agent (set_request ver reqid (oid_of limb o) tlv pad) w) w'
    (snmp_message SNMP_GET_RESPONSE ver reqid 0 0 (oid_of limb o) back) /\
  take (length data) (var_field v (env_vars w')) = data /\
  (forall v2, v2 <> v -> var_field v2 (env_vars w') = var_field v2 (env_vars w)) /\
  fixed_vars (env_vars w') = fixed_vars (env_vars w) /\ vars_ok (env_vars w').
Proof.
  intros Hset Hl Ho [Hget Hsetp Hv] Hsent Hwidth Hvars Hrq w'. pose proof (variable_group _ _ _ Hl Ho Hv) as Hg.
  destruct (in_group_fits _ _ _ _ _ _ Hg Hv Hsent) as [Hoff Hfit]. rewrite <- (version_vars w ver) in *.
  destruct (sent_bytes _ _ _ _ Hsent) as (Hb & _). destruct (written_ok v data _ Hvars Hb Hfit) as (Hib & Hil & _ & rest & _ & Hdrop).
  split_and!.
  - apply (group_answer limb o ver reqid tlv pad w (inr back) w' Hset Hg Hrq).
    eapply Set_done; [exact Hsetp|apply Zle_0_nat|by eapply set_p_sent|by eapply after_answers].
  - unfold w', var_field. rewrite after_vars, var_image_put, Hdrop by done. rewrite take_take, Nat.min_l by done. apply take_app_length.
  - intros v2 Hne. unfold w'. rewrite after_vars. by apply put_elsewhere.
  - unfold w'. rewrite after_vars. by apply put_fixed.
  - by eapply vars_ok_after.
Qed.

(** Requests that are refused: the object cannot be written, the type is
    another one, or the value is too long. *)
Definition writes (o : snmp_oid W ptr) : Prop :=
  exists f, oid_set o = Some f /\ (f = set_p \/ exists action, f = apply action).
Inductive refused (o : snmp_oid W ptr) : list Z -> Z -> Prop :=
  | Refused_readonly val : oid_set o = None -> refused o val SNMP_ERR_READONLY
  | Refused_type tag n l : writes o -> tag <> asn (leaf o) -> refused o (tag :: n :: l) SNMP_ERR_BADVALUE
  | Refused_long n l : writes o -> asn (leaf o) = ASN_INTEGER -> 4 < n -> refused o (ASN_INTEGER :: n :: l) SNMP_ERR_BADVALUE
  | Refused_size n l : writes o -> asn (leaf o) = ASN_OCTET_STR -> data_size (leaf o) < n ->
      refused o (ASN_OCTET_STR :: n :: l) SNMP_ERR_BADVALUE.
Lemma writes_bad o suf w : writes o -> incoming_value suf (leaf o) w = Some (([], - SNMP_ERR_BADVALUE), w) ->
  set_outcome o suf w (inl SNMP_ERR_BADVALUE) w.
Proof.
  intros (f & Hset & Hf) Hin. eapply Set_refused; [exact Hset|unfold SNMP_ERR_BADVALUE; lia|].
  assert (Hv : forall off, set_value suf (leaf o) (oid_p (leaf o)) off w = Some (- SNMP_ERR_BADVALUE, w)).
  { intros off. unfold set_value. by rewrite (pbind_some _ _ _ _ _ Hin). }
  destruct Hf as [->|[action ->]].
  - unfold set_p. by rewrite (pbind_some _ _ _ _ _ (Hv _)).
  - unfold apply. by rewrite (pbind_some _ _ _ _ _ (Hv _)).
Qed.
Lemma refused_outcome o val e pad w : refused o val e -> set_outcome o (val ++ pad) w (inl e) w.
Proof.
  intros [val' Hn|tag n l Hw Ht|n l Hw Ha Hn|n l Hw Ha Hn]; [by apply Set_readonly|..]; apply writes_bad; try done;
    unfold incoming_value; erewrite !lift_some by done.
  - by rewrite eqb_false by done.
  - rewrite Ha, Z.eqb_refl. cbn [negb]. rewrite orb_true_r. by rewrite (ltb_true 4) by done.
  - rewrite Ha, Z.eqb_refl. cbn [negb]. change ((ASN_OCTET_STR =? ASN_UNSIGNED) || (ASN_OCTET_STR =? ASN_INTEGER)) with false.
    cbv iota. by rewrite (ltb_true (data_size (leaf o))) by done.
Qed.

(** C36. In a build without the auxiliary diagnostics, a SET that is refused is answered with the error and its cause: the
    object is read-only, its type is another one, or the value is too long;
    no variable changes. *)
Theorem snmp_set_refused limb o ver reqid val e pad w :
  CONFIG_SNMP_SET = true -> in_group limb o -> refused o val e ->
  request SNMP_SET ver reqid (oid_of limb o) val (set_request ver reqid (oid_of limb o) val pad) ->
  answer (agent (set_request ver reqid (oid_of limb o) val pad) w) (set_snmp_version ver w)
    (snmp_message SNMP_GET_RESPONSE ver reqid e 1 (oid_of limb o) [ASN_NULL; 0]).
Proof.
  intros Hset Hg Hr Hrq. apply (group_answer limb o ver reqid val pad w (inl e) _ Hset Hg Hrq). by apply refused_outcome.
Qed.

(** An object that starts an action: the number that is sent selects it, and
    the answer is the result of the action, which the object keeps. *)
Theorem snmp_set_action limb o v action ver reqid x res pad w w1 :
  CONFIG_SNMP_SET = true -> In limb limbs -> In o (obj_array limb) ->
  oid_get o = get_p -> oid_set o = Some (apply action) -> oid_p (leaf o) = P_var v -> asn (leaf o) = ASN_INTEGER ->
  vars_ok (env_vars w) -> action (s32 x) (after v (int_image x) (set_snmp_version ver w)) = Some (res, w1) -> vars_ok (env_vars w1) ->
  request SNMP_SET ver reqid (oid_of limb o) (int_tlv ASN_INTEGER x) (set_request ver reqid (oid_of limb o) (int_tlv ASN_INTEGER x) pad) ->
  answer (agent (set_request ver reqid (oid_of limb o) (int_tlv ASN_INTEGER x) pad) w) (after v (int_image res) w1)
    (snmp_message SNMP_GET_RESPONSE ver reqid 0 0 (oid_of limb o) (int_tlv ASN_INTEGER res)).
Proof.
  intros Hset Hl Ho Hget Happly Hv Ha Hvars Hact Hvars1 Hrq. pose proof (variable_group _ _ _ Hl Ho Hv) as Hg.
  assert (Hsent : sent o (int_tlv ASN_INTEGER res) (int_image res) (int_tlv ASN_INTEGER res)) by by apply sent_int4.
  destruct (in_group_fits _ _ _ _ _ _ Hg Hv Hsent) as [Hoff Hfit]. rewrite <- (version_vars w ver) in Hvars.
  apply (group_answer limb o ver reqid _ pad w (inr (int_tlv ASN_INTEGER res)) _ Hset Hg Hrq).
  eapply Set_done; [exact Happly|apply Zle_0_nat| |].
  - apply apply_sent; try done. by rewrite length_int_image in Hfit.
  - by eapply after_answers.
Qed.

(** ** GET and GETNEXT *)
Context (no_netconsole : CONFIG_SNMP_NETCONSOLE = false).
(** What the agent serves, in order. *)
Definition served_mib (db : list s_sfpinfo) w : list entry := served (mib off1 off2 db w).
Lemma mib_limbs db w : (mib off1 off2 db w).*1 = limbs.
Proof. by apply mib_array. Qed.

Definition get_answer db ver reqid oid w : list Z :=
  match exact oid (served_mib db w) with
  | Some v => snmp_message SNMP_GET_RESPONSE ver reqid 0 0 oid v
  | None => snmp_message SNMP_GET_RESPONSE ver reqid SNMP_ERR_NOSUCHNAME 1 oid [ASN_NULL; 0]
  end.
Lemma agent_get db ver reqid oid val buf w : let w' := set_snmp_version ver w in
  mib_ready off1 off2 db w' -> request SNMP_GET ver reqid oid val buf -> answer (agent buf w) w' (get_answer db ver reqid oid w').
Proof.
  intros w' Hr Hrq. pose proof (respond_get CONFIG_SNMP_SET _ ver reqid oid val buf w Hrq (mib_ok off1 off2 db w' Hr)) as Ha.
  rewrite mib_limbs in Ha. unfold answer_get in Ha. unfold get_answer, served_mib. by destruct (exact _ _).
Qed.

(** A GET is answered with the value of the object with the OID asked for,
    encoded in BER, or with noSuchName when no object has it. *)
Theorem snmp_get_exact db ver reqid oid val buf w : let w' := set_snmp_version ver w in
  mib_ready off1 off2 db w' -> request SNMP_GET ver reqid oid val buf ->
  match exact oid (served_mib db w') with
  | Some v => answer (agent buf w) w' (snmp_message SNMP_GET_RESPONSE ver reqid 0 0 oid v)
  | None => answer (agent buf w) w' (snmp_message SNMP_GET_RESPONSE ver reqid SNMP_ERR_NOSUCHNAME 1 oid [ASN_NULL; 0])
  end.
Proof. intros w' Hr Hrq. pose proof (agent_get db ver reqid oid val buf w Hr Hrq) as Ha. unfold get_answer in Ha. by destruct (exact _ _). Qed.

(** C15. In a build without the auxiliary diagnostics and the netconsole
    objects, when the functions that read the hardware do not fail and the
    texts of the firmware end ([mib_ready]), a GETNEXT in a buffer of 172
    bytes, with a request id of at most 4 bytes and an OID of at most 40
    sub-identifiers that are all below 128 (above that the signed comparison
    of the code goes wrong), is answered with the first object behind the OID
    asked for, in the lexicographic order, or with noSuchName behind the last
    one. *)
Theorem snmp_get_next_successor db ver reqid oid val buf w : let w' := set_snmp_version ver w in
  mib_ready off1 off2 db w' -> request SNMP_GET_NEXT ver reqid oid val buf ->
  match successor oid (served_mib db w') with
  | Some e => answer (agent buf w) w' (snmp_message SNMP_GET_RESPONSE ver reqid 0 0 e.1 e.2)
  | None => exists oid', (length oid' <= 40)%nat /\
      answer (agent buf w) w' (snmp_message SNMP_GET_RESPONSE ver reqid SNMP_ERR_NOSUCHNAME 1 oid' [ASN_NULL; 0])
  end.
Proof.
  intros w' Hr Hrq. pose proof (respond_next CONFIG_SNMP_SET _ ver reqid oid val buf w Hrq (mib_ok off1 off2 db w' Hr)) as Ha.
  by rewrite mib_limbs in Ha.
Qed.

(** C16. In a build without the auxiliary diagnostics and the netconsole
    objects, when the functions that read the hardware do not fail and the
    texts of the firmware end ([mib_ready]), a walk by GETNEXT of the tree
    such a build serves ends, and finds every object of it once, in increasing
    order. (With the auxiliary tables GETNEXT can go back; the object
    wrpcNetconsoleGetPeerPort reads behind its variable.) *)
Theorem snmp_walk_complete db ver reqid w fuel : let w' := set_snmp_version ver w in
  mib_ready off1 off2 db w' -> 0 <= ver <= 1 -> bytes reqid -> (length reqid <= 4)%nat -> (length (served_mib db w') < fuel)%nat ->
  walk CONFIG_SNMP_SET fuel limbs ver reqid [] w = Some (served_mib db w') /\
  StronglySorted (fun a b => oid_lt a.1 b.1 = true) (served_mib db w').
Proof.
  intros w' Hr Hv Hb Hl Hf. pose proof (mib_ok off1 off2 db w' Hr) as Htree. split; [|by eapply served_sorted].
  assert (E : List.filter (fun e => oid_lt [] e.1) (served_mib db w') = served_mib db w').
  { assert (Hne : forall e, In e (served_mib db w') -> e.1 <> []) by (intros e He; by destruct (served_bounds _ _ _ Htree He)).
    revert Hne. clear. induction (served_mib db w') as [|e l IH]; intros Hne; [done|]. cbn [List.filter].
    assert (He : oid_lt [] e.1 = true) by (destruct e as [[|] ?]; [by destruct (Hne _ (or_introl eq_refl))|done]).
    rewrite He. f_equal. apply IH. intros e' He'. apply Hne. by right. }
  rewrite <- E at 1. rewrite <- (mib_limbs db w'). apply walk_from; try done; [|by constructor|cbn; lia|].
  - intros w0. apply version_set_set.
  - unfold served_mib in *. by rewrite E.
Qed.
End requests.
End agent.

(** ** Malformed packets *)
Section malformed.
Context {W Ptr : Type} `{!SnmpVersion W}.

(** The first 17 bytes of a packet: up to the size of the request id. *)
Definition prefix (l1 ver pdu l2 r : Z) : list Z :=
  [48; l1; 2; 1; ver; 4; 6; 112; 117; 98; 108; 105; 99; pdu; l2; 2; r].
Lemma set_at_behind pre rest k x buf : set_at (pre ++ rest) k [x] = Some buf -> Z.of_nat (length pre) <= k ->
  exists rest', buf = pre ++ rest' /\ length rest' = length rest.
Proof.
  intros Hset Hk. pose proof Hset as Hin. unfold set_at in Hin. destruct (_ && _) eqn:E; [clear Hin|done].
  apply andb_prop in E as [_ E]. apply Z.leb_le in E. cbn [length] in E. rewrite length_app in E.
  set (i := (Z.to_nat k - length pre)%nat). destruct (lookup_lt_is_Some_2 rest i) as [y Hy]; [lia|].
  rewrite <- (take_drop_middle rest i y Hy), app_assoc in Hset.
  rewrite set_at_mid1 in Hset by (rewrite length_app, length_take; lia). injection Hset as <-.
  exists (take i rest ++ x :: drop (S i) rest). split; [by rewrite app_assoc|].
  rewrite length_app. cbn [length]. rewrite length_take, length_drop. lia.
Qed.
Lemma set_at_outside buf k x : Z.of_nat (length buf) <= k -> set_at buf k [x] = None.
Proof. intros Hk. unfold set_at. cbn [length]. rewrite (proj2 (Z.leb_gt (k + _) _)) by lia. by rewrite andb_false_r. Qed.
Lemma get8_outside buf k : Z.of_nat (length buf) <= k -> get8 buf k = None.
Proof.
  intros Hk. unfold get8. rewrite (proj2 (Z.ltb_ge _ _)) by lia. apply lookup_ge_None_2. lia.
Qed.

(** Steps of [snmp_fix_size]. *)
Lemma fix_plain f fmt h size buf : (f =? BYTE_PDU) || (f =? BYTE_REQ_SIZE) || (f =? BYTE_SIZE) = false ->
  fix_size_loop (f :: fmt) h size buf = fix_size_loop fmt (h + 1) size buf.
Proof. cbn [fix_size_loop]. by destruct (f =? BYTE_PDU), (f =? BYTE_REQ_SIZE), (f =? BYTE_SIZE). Qed.
Lemma fix_set f fmt h size buf pre y rest : buf = pre ++ y :: rest -> h = Z.of_nat (length pre) -> f = BYTE_SIZE \/ f = BYTE_PDU ->
  fix_size_loop (f :: fmt) h size buf =
  fix_size_loop fmt (h + 1) size (pre ++ (if f =? BYTE_PDU then SNMP_GET_RESPONSE else u8 (size - h)) :: rest).
Proof.
  intros -> Hh [->| ->]; cbn [fix_size_loop Z.eqb Pos.eqb negb BYTE_PDU BYTE_REQ_SIZE BYTE_SIZE];
    [rewrite some_bind|]; by rewrite set_at_mid1, some_bind.
Qed.
(** [snmp_fix_size] follows the size of the request id out of the packet. *)
Lemma fix_size_overrun l1 ver pdu l2 r rest size : Z.of_nat (length (prefix l1 ver pdu l2 r ++ rest)) <= r + 24 ->
  snmp_fix_size (prefix l1 ver pdu l2 r ++ rest) size = None.
Proof.
  intros Hr. unfold snmp_fix_size, match_array, prefix in *. set (sz := size - 1). rewrite length_app in Hr. cbn [length] in Hr.
  rewrite fix_plain by done. erewrite (fix_set BYTE_SIZE _ _ _ _ [48]); [|reflexivity|reflexivity|by left].
  do 11 rewrite fix_plain by done. set (a := if BYTE_SIZE =? BYTE_PDU then _ else _). cbn [app].
  erewrite (fix_set BYTE_PDU _ _ _ _ [48; a; 2; 1; ver; 4; 6; 112; 117; 98; 108; 105; 99]); [|reflexivity|reflexivity|by right].
  change (if BYTE_PDU =? BYTE_PDU then SNMP_GET_RESPONSE else _) with SNMP_GET_RESPONSE. cbn [app].
  erewrite (fix_set BYTE_SIZE _ _ _ _ [48; a; 2; 1; ver; 4; 6; 112; 117; 98; 108; 105; 99; SNMP_GET_RESPONSE]); [|reflexivity|reflexivity|by left].
  set (b := if BYTE_SIZE =? BYTE_PDU then _ else _). cbn [app]. rewrite fix_plain by done.
  change (fix_size_loop (BYTE_REQ_SIZE :: ?fmt) ?h sz ?buf) with
    (b ← get8 buf h; fix_size_loop fmt (h + b + 1) sz buf).
  change (get8 _ _) with (Some r). rewrite some_bind.
  do 7 rewrite fix_plain by done. cbn [fix_size_loop]. 
  change (BYTE_SIZE =? BYTE_PDU) with false. change (BYTE_SIZE =? BYTE_REQ_SIZE) with false. change (BYTE_SIZE =? BYTE_SIZE) with true.
  cbn [negb]. rewrite some_bind, set_at_outside; [done|]. cbn [length]. lia.
Qed.
Lemma bind_behind pre rest k x (f : list Z -> option (list Z * Z)) : Z.of_nat (length pre) <= k ->
  (forall rest', length rest' = length rest -> f (pre ++ rest') = None) -> (set_at (pre ++ rest) k [x] ≫= f) = None.
Proof.
  intros Hk Hf. destruct (set_at _ _ _) as [buf|] eqn:E; [|done]. apply set_at_behind in E as (rest' & -> & Hl); [|done].
  by apply Hf.
Qed.
Lemma prepare_error_overrun l1 ver pdu l2 r rest error : 155 <= r < 256 -> length rest = 155%nat ->
  snmp_prepare_error (prefix l1 ver pdu l2 r ++ rest) error = None.
Proof.
  intros Hr Hl. unfold snmp_prepare_error. change (get8 _ BYTE_COMMUNITY_LEN_i) with (Some 6). rewrite some_bind.
  change (Z.min 6 MAX_COMMUNITY_LEN) with 6.
  change (prefix l1 ver pdu l2 r ++ rest) with ([48; l1; 2; 1; ver; 4; 6; 112; 117; 98; 108; 105; 99] ++ pdu :: l2 :: 2 :: r :: rest).
  rewrite set_at_mid1 by done. rewrite some_bind.
  change ([48; l1; 2; 1; ver; 4; 6; 112; 117; 98; 108; 105; 99] ++ SNMP_GET_RESPONSE :: l2 :: 2 :: r :: rest)
    with (prefix l1 ver SNMP_GET_RESPONSE l2 r ++ rest).
  change (get8 _ (BYTE_REQ_SIZE_i + 6)) with (Some r). rewrite some_bind.
  rewrite (Z.min_r r) by (unfold MAX_REQID_LEN; lia). change (u8 (6 + MAX_REQID_LEN)) with 10.
  apply bind_behind; [done|]. intros rest1 H1. apply bind_behind; [done|]. intros rest2 H2.
  destruct (get8 _ _) as [oid_len|]; [|done]. rewrite some_bind. cbv zeta.
  pose proof (Z.mod_pos_bound (10 + Z.min oid_len MAX_OID_LEN) 256 ltac:(lia)) as Hs. fold (u8 (10 + Z.min oid_len MAX_OID_LEN)) in Hs.
  apply bind_behind; [cbn [length prefix]; unfold BYTE_OIDLEN_INDEX_i; lia|]. intros rest3 H3.
  apply bind_behind; [cbn [length prefix]; unfold BYTE_OIDLEN_INDEX_i; lia|]. intros rest4 H4.
  rewrite fix_size_overrun; [done|]. rewrite length_app. cbn [length prefix]. lia.
Qed.
(** Steps of the comparison of the header. *)
Lemma match_skip set f fmt h mode buf (w : W) : (f =? BYTE_SIZE) || (f =? BYTE_IGNORE) || (f =? BYTE_ERROR) || (f =? BYTE_ERROR_INDEX) = true ->
  match_header set (f :: fmt) h mode buf w = match_header set fmt (h + 1) mode buf w.
Proof. cbn [match_header]. by intros ->. Qed.
Lemma match_const set f fmt h mode buf (w : W) : 0 <= f < 249 -> get8 buf h = Some f ->
  match_header set (f :: fmt) h mode buf w = match_header set fmt (h + 1) mode buf w.
Proof.
  intros Hf Hb. cbn [match_header]. unfold BYTE_SIZE, BYTE_IGNORE, BYTE_ERROR, BYTE_ERROR_INDEX, BYTE_REQ_SIZE, BYTE_VERSION, BYTE_PDU.
  rewrite !(eqb_false f) by lia. cbn [orb]. by rewrite (lift_some _ _ w f Hb), Z.eqb_refl.
Qed.
Lemma match_version set fmt h mode buf (w : W) b : get8 buf h = Some b ->
  match_header set (BYTE_VERSION :: fmt) h mode buf w =
  if SNMP_V_MAX <? b then Some (None, set_snmp_version b w) else match_header set fmt (h + 1) mode buf (set_snmp_version b w).
Proof. intros Hb. cbn [match_header Z.eqb Pos.eqb orb BYTE_SIZE BYTE_IGNORE BYTE_ERROR BYTE_ERROR_INDEX BYTE_REQ_SIZE BYTE_VERSION BYTE_PDU]. rewrite (lift_some _ _ w b Hb). unfold pbind at 1. by destruct (SNMP_V_MAX <? b). Qed.
Lemma match_pdu set fmt h mode buf (w : W) b : get8 buf h = Some b ->
  match_header set (BYTE_PDU :: fmt) h mode buf w = Some (None, w) \/
  exists mode', match_header set (BYTE_PDU :: fmt) h mode buf w = match_header set fmt (h + 1) mode' buf w.
Proof. intros Hb. cbn [match_header Z.eqb Pos.eqb orb BYTE_SIZE BYTE_IGNORE BYTE_ERROR BYTE_ERROR_INDEX BYTE_REQ_SIZE BYTE_VERSION BYTE_PDU]. rewrite (lift_some _ _ w b Hb). cbv zeta. destruct (_ =? 0); [by left|right; by eexists]. Qed.
Lemma match_req_size set fmt h mode buf (w : W) b : get8 buf h = Some b ->
  match_header set (BYTE_REQ_SIZE :: fmt) h mode buf w = match_header set fmt (h + b + 1) mode buf w.
Proof. intros Hb. cbn [match_header Z.eqb Pos.eqb orb BYTE_SIZE BYTE_IGNORE BYTE_ERROR BYTE_ERROR_INDEX BYTE_REQ_SIZE BYTE_VERSION BYTE_PDU]. by rewrite (lift_some _ _ w b Hb). Qed.
Lemma match_outside set f fmt h mode buf (w : W) : 0 <= f < 249 -> get8 buf h = None ->
  match_header set (f :: fmt) h mode buf w = None.
Proof.
  intros Hf Hb. cbn [match_header]. unfold BYTE_SIZE, BYTE_IGNORE, BYTE_ERROR, BYTE_ERROR_INDEX, BYTE_REQ_SIZE, BYTE_VERSION, BYTE_PDU.
  rewrite !(eqb_false f) by lia. cbn [orb]. unfold pbind, lift. by rewrite Hb.
Qed.
Lemma match_prefix set l1 ver pdu l2 r rest (w : W) : 155 <= r < 256 -> length rest = 155%nat ->
  match_header set match_array 0 0 (prefix l1 ver pdu l2 r ++ rest) w = Some (None, set_snmp_version ver w) \/
  match_header set match_array 0 0 (prefix l1 ver pdu l2 r ++ rest) w = None.
Proof.
  intros Hr Hl. unfold match_array.
  assert (Hlen : length (prefix l1 ver pdu l2 r ++ rest) = 172%nat) by (rewrite length_app, Hl; done).
  rewrite match_const; [|lia|reflexivity]. rewrite match_skip by reflexivity.
  do 2 (rewrite match_const; [|lia|reflexivity]). erewrite match_version; [|reflexivity].
  destruct (SNMP_V_MAX <? ver); [by left|].
  do 8 (rewrite match_const; [|lia|reflexivity]).
  match goal with |- context [match_header set (BYTE_PDU :: ?fmt) ?h ?m ?buf ?w'] =>
    destruct (match_pdu set fmt h m buf w' pdu eq_refl) as [->|[mode ->]]; [by left|right] end.
  rewrite match_skip by reflexivity. rewrite match_const; [|lia|reflexivity]. erewrite match_req_size; [|reflexivity].
  apply match_outside; [lia|]. apply get8_outside. lia.
Qed.
End malformed.

(** C37. The size of the request id in a packet is trusted: 155 or more sends the
    agent out of its buffer, whatever the rest of the packet is; with a valid
    header it reads there, and it writes there when it answers with an error. *)
Theorem snmp_reqid_overrun {W Ptr} `{!SnmpVersion W} set (limbs : list (snmp_oid_limb W Ptr)) l1 ver pdu l2 r rest w :
  155 <= r < 256 -> length rest = 155%nat -> length (prefix l1 ver pdu l2 r ++ rest) = 172%nat /\
  snmp_respond set limbs (prefix l1 ver pdu l2 r ++ rest) w = None /\
  (forall error, snmp_prepare_error (prefix l1 ver pdu l2 r ++ rest) error = None).
Proof.
  intros Hr Hl. assert (Hlen : length (prefix l1 ver pdu l2 r ++ rest) = 172%nat) by (rewrite length_app, Hl; done).
  split; [done|]. split; [|by intros error; apply prepare_error_overrun].
  unfold snmp_respond. set (buf := prefix l1 ver pdu l2 r ++ rest) in *.
  destruct (match_prefix set l1 ver pdu l2 r rest w Hr Hl) as [Hh|Hh]; fold buf in Hh.
  - rewrite (pbind_some _ _ _ _ _ Hh). unfold lift, buf. by rewrite prepare_error_overrun.
  - unfold pbind. by rewrite Hh.
Qed.


(** ** A firmware to ask

    A state with the agent's variables, the version of the protocol and the SFP in
    use; the other objects are constants. *)
Module Demo.
Record world := mk_world { d_vars : snmp_vars; d_version : Z; d_sfp : s_sfpinfo }.
#[export] Instance demo_endian : Endian := true.
Definition demo_sfp : s_sfpinfo := mk_sfp (str "AXGE-1254-0531" ++ [32; 32]) 73685416 180707 148323 0.
Definition text (s : list Z) : list Z := s ++ [0].
Definition demo_bytes (o : fw_object) : list Z :=
  match o with
  | F_wrc_hw_name => text (str "SPEC") | F_commit_id => text (str "v5.0") | F_build_by => text (str "builder") | F_build_date => text (str "today")
  | F_servo => replicate 64 0 | F_asymmetryCorrectionPortDS => [0; 0; 0; 0; 0; 0; 4; 210]
  | F_ptp_tx_count => [0; 0; 0; 17] | F_ptp_rx_count => [0; 0; 1; 0]
  | _ => [0; 0; 0; 0]
  end.
#[export] Instance demo_env : SnmpEnv world := {|
  env_version := {| snmp_version := d_version; set_snmp_version v w := mk_world (d_vars w) v (d_sfp w) |};
  env_vars := d_vars; env_set_vars s w := mk_world s (d_version w) (d_sfp w);
  env_softpll _ := softpll_zero (H := generic_8bit); env_minic_counts _ := (3, 5);
  env_servo _ := mk_servo (-12) 100 0 true 5 1 250000 1 2 3 4 0 0 0 7;
  env_sfp_params := d_sfp; env_set_sfp_params p w := mk_world (d_vars w) (d_version w) p; env_sfp_in_db _ := 2;
  env_bytes o _ := demo_bytes o; env_sensors _ := [(str "roof", 1671168)];
  ep_link_up w := Some (1, w); timer_get_tics w := Some (123450, w); pps_gen_get_secs w := Some (1700000000, w);
  wrc_ptp_stop w := Some (tt, w); wrc_ptp_start w := Some (tt, w); sfp_match w := Some (0, w);
  call_get_sfp i w := Some ((demo_sfp, 1), w); call_add_sfp e w := Some ((e, 1), w); call_sfpdb_erase w := Some (0, w);
  call_init_add _ w := Some (0, w); call_init_erase w := Some (0, w); call_sdbfs_format _ _ w := Some (0, w);
  call_sdbfs_erase _ _ w := Some (0, w); call_shell_exec _ w := Some (0, w);
  diag_read_word _ _ w := Some ((0, 0), w); diag_write_word _ _ w := Some (0, w) |}.
#[export] Instance demo_laws : SnmpEnvLaws world.
Proof. by constructor. Qed.
#[export] Instance demo_config : SnmpConfig := {|
  CONFIG_SNMP_SET := true; CONFIG_TEMP_SENSORS := true; CONFIG_SNMP_INIT := true; CONFIG_SNMP_SDB := true;
  CONFIG_SNMP_NETCONSOLE := false; CONFIG_SNMP_CMD := true; CONFIG_SNMP_AUX_DIAG := false |}.
Definition boot : world := mk_world (mk_vars demo_sfp 0 0 (replicate 32 0) 0 0 1 2 3 0 2 (replicate 81 0) 0 0 0 0 0) 0 demo_sfp.

Lemma bytes_check l : forallb (fun b => (0 <=? b) && (b <? 256)) l = true -> bytes l.
Proof.
  intros Hl. rewrite forallb_forall in Hl. apply List.Forall_forall. intros x Hx. specialize (Hl x Hx). unfold is_byte.
  apply andb_prop in Hl as [H1%Z.leb_le H2%Z.ltb_lt]. lia.
Qed.
Ltac bytes_done := apply bytes_check; vm_compute; reflexivity.
Ltac nat_done := first [apply Nat.leb_le; vm_compute; reflexivity | apply Nat.ltb_lt; vm_compute; reflexivity].
Lemma demo_pn : pn_ok demo_sfp.
Proof. split; [|split; [reflexivity|unfold is_byte; cbn; lia]]. bytes_done. Qed.
Lemma demo_vars_ok : vars_ok (d_vars boot).
Proof. constructor; [exact demo_pn|split; [|reflexivity]..]; apply Forall_replicate; unfold is_byte; lia. Qed.
Lemma demo_ready v : mib_ready 0 0 [demo_sfp] (set_snmp_version v boot).
Proof.
  constructor.
  - listed; (split; [bytes_done|nat_done]).
  - listed; (split; [bytes_done|nat_done]).
  - split; [bytes_done|nat_done].
  - by listed.
  - replace (date_text _) with (str "2023-11-14-22:13:20" ++ [0]) by (vm_compute; reflexivity). bytes_done.
  - exact demo_pn.
  - exact demo_pn.
  - destruct demo_vars_ok as [_ [? ?] [? ?]]. done.
  - split; [|nat_done]. listed. split; [split; [bytes_done|nat_done]|].
    exists (str "25.5000"). split; [vm_compute; reflexivity|]. split; [bytes_done|nat_done].
  - split; [listed; exact demo_pn|cbn; lia].
  - intros i Hi. exists demo_sfp. split; [reflexivity|]. intros e He. cbn [length] in Hi. assert (i = 0%nat) as -> by lia. by injection He.
Qed.

(** Requests, padded to the size of the buffer. *)
Definition padding ver pdu reqid oid val : list Z := replicate (172 - length (snmp_message pdu ver reqid 0 0 oid val)) 0.
Definition padded pdu ver reqid oid val : list Z := snmp_message pdu ver reqid 0 0 oid val ++ padding ver pdu reqid oid val.
Lemma padded_request pdu ver reqid oid val : 0 <= ver <= 1 -> bytes reqid -> (length reqid <= 4)%nat -> small oid -> (length oid <= 40)%nat ->
  bytes val -> (length val <= 99)%nat -> request pdu ver reqid oid val (padded pdu ver reqid oid val).
Proof.
  intros Hv Hr Hlr Ho Hlo Hb Hlv. constructor; [done|done|done| |].
  - eexists. split; [|done]. apply bytes_app. split; [done|]. apply Forall_replicate. unfold is_byte. lia.
  - unfold padded, padding. rewrite length_app, length_replicate, length_message. lia.
Qed.
Ltac request_done := apply padded_request; [lia|bytes_done|cbn; lia|by repeat constructor|cbn; lia|bytes_done|cbn; lia].
Ltac in_list := cbn; repeat (first [left; reflexivity | right]).
Definition sdb_limb : snmp_oid_limb world ptr := mk_limb oid_wrpcSdbGroup func_group oid_array_wrpcSdbGroup.
Definition sdb_object : snmp_oid world ptr := OID_FIELD_VAR oid_wrpcSdbBaseAddr get_p (Some set_p) ASN_INTEGER (P_var V_sdb_base_addr) 4.
Definition ptp_limb : snmp_oid_limb world ptr := mk_limb oid_wrpcPtpConfigGroup func_group oid_array_wrpcPtpConfigGroup.
Definition restart_action (mode : Z) : P world Z :=
  if mode =? restartPtp then let? _ := wrc_ptp_stop in let? _ := wrc_ptp_start in pret restartPtpSuccessful else pret restartPtpFailed.
Definition restart_object : snmp_oid world ptr :=
  OID_FIELD_VAR oid_wrpcPtpConfigRestart get_p (Some (apply restart_action)) ASN_INTEGER (P_var V_ptp_restart_status) 4.
Lemma demo_no_aux : CONFIG_SNMP_AUX_DIAG = false.
Proof. done. Qed.
Lemma demo_no_netconsole : CONFIG_SNMP_NETCONSOLE = false.
Proof. done. Qed.
End Demo.
Import Demo.

Lemma snmp_get_exact_witness :
  let oid := oid_wrpcSpllStatusGroup ++ oid_wrpcSpllMode in
  answer (agent 0 0 0 0 (padded SNMP_GET 1 [7] oid [ASN_NULL; 0]) boot) (set_snmp_version 1 boot)
    (snmp_message SNMP_GET_RESPONSE 1 [7] 0 0 oid (int_tlv ASN_INTEGER (sp_mode (softpll_zero (H := generic_8bit))))).
Proof.
  intros oid. pose proof (snmp_get_exact 0 0 0 0 demo_no_aux demo_no_netconsole [demo_sfp] 1 [7] oid [ASN_NULL; 0] (padded SNMP_GET 1 [7] oid [ASN_NULL; 0]) boot
    (demo_ready 1) ltac:(request_done)) as Ha.
  replace (exact oid _) with (Some (int_tlv ASN_INTEGER (sp_mode (softpll_zero (H := generic_8bit))))) in Ha by (vm_compute; reflexivity).
  exact Ha.
Defined.
Lemma snmp_get_next_successor_witness :
  let oid := oid_wrpcSpllStatusGroup ++ oid_wrpcSpllMode in
  answer (agent 0 0 0 0 (padded SNMP_GET_NEXT 0 [7; 8] oid [ASN_NULL; 0]) boot) (set_snmp_version 0 boot)
    (snmp_message SNMP_GET_RESPONSE 0 [7; 8] 0 0 (oid_wrpcSpllStatusGroup ++ oid_wrpcSpllIrqCnt) (int_tlv ASN_COUNTER 0)).
Proof.
  intros oid. pose proof (snmp_get_next_successor 0 0 0 0 demo_no_aux demo_no_netconsole [demo_sfp] 0 [7; 8] oid [ASN_NULL; 0]
    (padded SNMP_GET_NEXT 0 [7; 8] oid [ASN_NULL; 0]) boot (demo_ready 0) ltac:(request_done)) as Ha.
  replace (successor oid _) with (Some (oid_wrpcSpllStatusGroup ++ oid_wrpcSpllIrqCnt, int_tlv ASN_COUNTER 0)) in Ha by (vm_compute; reflexivity).
  exact Ha.
Defined.
Lemma snmp_walk_complete_witness :
  walk true 100 (oid_limb_array 0 0 0 0) 0 [] [] boot = Some (served_mib 0 0 [demo_sfp] (set_snmp_version 0 boot)).
Proof.
  apply (snmp_walk_complete 0 0 0 0 demo_no_aux demo_no_netconsole [demo_sfp] 0 [] boot 100); [apply demo_ready|lia|bytes_done|cbn; lia|nat_done].
Defined.
(** A base address sent in two bytes. *)
Lemma snmp_set_stores_witness :
  let oid := oid_of sdb_limb sdb_object in let tlv := [ASN_INTEGER; 2; 16; 0] in
  let w' := after V_sdb_base_addr (int_image 4096) (set_snmp_version 1 boot) in
  answer (agent 0 0 0 0 (padded SNMP_SET 1 [7] oid tlv) boot) w'
    (snmp_message SNMP_GET_RESPONSE 1 [7] 0 0 oid (int_tlv ASN_INTEGER 4096)) /\
  sdb_base_addr (d_vars w') = 4096 /\
  (forall v2, v2 <> V_sdb_base_addr -> var_field v2 (d_vars w') = var_field v2 (d_vars boot)).
Proof.
  intros oid tlv w'. assert (Hrq : request SNMP_SET 1 [7] oid tlv (padded SNMP_SET 1 [7] oid tlv)) by request_done.
  destruct (snmp_set_stores 0 0 0 0 demo_no_aux sdb_limb sdb_object V_sdb_base_addr 1 [7] tlv (int_image 4096) (int_tlv ASN_INTEGER 4096)
    (padding 1 SNMP_SET [7] oid tlv) boot) as (H1 & _ & H3 & _);
    [done|in_list|in_list|by constructor|apply (Sent_int sdb_object [16; 0]); [done|bytes_done|cbn; lia]|cbn; lia|exact demo_vars_ok|exact Hrq|].
  split; [exact H1|]. split; [vm_compute; reflexivity|exact H3].
Defined.
Lemma snmp_set_refused_witness :
  let oid := oid_of sdb_limb sdb_object in let val := ber ASN_OCTET_STR [65] in
  answer (agent 0 0 0 0 (padded SNMP_SET 1 [7] oid val) boot) (set_snmp_version 1 boot)
    (snmp_message SNMP_GET_RESPONSE 1 [7] SNMP_ERR_BADVALUE 1 oid [ASN_NULL; 0]).
Proof.
  intros oid val. apply (snmp_set_refused 0 0 0 0 demo_no_aux sdb_limb sdb_object 1 [7] val SNMP_ERR_BADVALUE
    (padding 1 SNMP_SET [7] oid val) boot); [done|constructor; [in_list|done|in_list]|apply Refused_type; [exists set_p; split; [done|by left]|done]|request_done].
Defined.
Lemma snmp_set_action_witness :
  let oid := oid_of ptp_limb restart_object in
  let w' := after V_ptp_restart_status (int_image 100) (after V_ptp_restart_status (int_image 1) (set_snmp_version 1 boot)) in
  answer (agent 0 0 0 0 (padded SNMP_SET 1 [7] oid (int_tlv ASN_INTEGER 1)) boot) w'
    (snmp_message SNMP_GET_RESPONSE 1 [7] 0 0 oid (int_tlv ASN_INTEGER 100)).
Proof.
  intros oid. apply (snmp_set_action 0 0 0 0 demo_no_aux ptp_limb restart_object V_ptp_restart_status restart_action 1 [7] 1 100
    (padding 1 SNMP_SET [7] oid (int_tlv ASN_INTEGER 1)) boot (after V_ptp_restart_status (int_image 1) (set_snmp_version 1 boot)));
    [done|in_list|in_list|done|done|done|done|exact demo_vars_ok|done| |request_done].
  by destruct demo_vars_ok.
Defined.
Lemma snmp_reqid_overrun_witness :
  snmp_respond true (oid_limb_array 0 0 0 0) (prefix 80 0 SNMP_GET 60 200 ++ replicate 155 0) boot = None.
Proof. apply (snmp_reqid_overrun true (oid_limb_array 0 0 0 0) 80 0 SNMP_GET 60 200 (replicate 155 0) boot); [lia|done]. Defined.
