(* ===== verification/SnmpPoll.v ===== *)
(** The task of the SNMP agent (lib/snmp.c: [snmp_init] and [snmp_poll]): the
    agent between the sockets and the UDP code. *)
From Stdlib Require Import ZArith Lia.
From stdpp Require Import base numbers option list gmap.
From S2P Require Import Prelude SpllHw SpllHelper SpllMain SpllExternal SoftPll PpsGen Bytes Minic Net Tasks Ipv4 SfpDb Snmp SnmpSet SnmpMib SnmpAgent.

(** The static socket object and the size of its ring. *)
Definition snmp_socket : nat := 4.
Definition sizeof_match_array : Z := 28.

Section poll.
Context `{Board, Endian} {W : Type} `{!PpsHW W, !MinicHW W, !SnmpEnv W, !SnmpConfig}.
Context (off1 off2 : Z).
Implicit Types (e : env) (s : ip_state).

(** [snmp_init]: the state of the sockets, and the two bytes that are written
    into the OIDs of the auxiliary diagnostics.  [diag_read_info] returns the id,
    the version and the numbers of registers. *)
Definition snmp_init (diag_read_info : P W (Z * Z * Z * Z)) (n : net_state) : P W (net_state * (Z * Z)) :=
  let n := (ptpd_netif_create_socket n snmp_socket 256 None PTPD_SOCK_UDP 161 0).1 in
  if CONFIG_SNMP_AUX_DIAG then
    let? (id, ver, rw_num, ro_num) := diag_read_info in
    let? vars := get_vars in
    let? _ := put_vars (vars <| aux_diag_reg_rw_num := rw_num |> <| aux_diag_reg_ro_num := ro_num |>) in
    pret (n, (u8 id, u8 ver))
  else pret (n, (0, 0)).

(** [snmp_poll]: the state and the return value. *)
Definition snmp_poll (id ver : Z) e s (l : locals) : P W (ip_state * Z) :=
  let '(s, addr, buf, len) := recv e s l snmp_socket in
  if u32 len <=? UDP_END + sizeof_match_array then pret (s, 0)
  else if negb (check_dest_ip s buf) then pret (s, 0)
  else
    let n := Z.to_nat UDP_END in
    let? (rest, len) := agent off1 off2 id ver (drop n buf) in
    let buf := take n buf ++ rest in
    if len <? 0 then pret (s, 0)
    else
      let len := len + UDP_END in
      let buf := fill_udp buf len None in
      let? s := (fun w => Some (send s l snmp_socket addr buf len w)) in
      pret (s, 1).

(** The packet of an answer. *)
Lemma reply_packet buf rest msg : bytes buf -> length buf = 200%nat -> take (length msg) rest = msg -> length rest = 172%nat ->
  bytes rest -> (length msg <= 113)%nat ->
  let len := Z.of_nat (length msg) + UDP_END in
  let buf' := take 28 buf ++ rest in
  udp_packet_ok (take (Z.to_nat len) (fill_udp buf' len None)) (udp_target buf' None) msg /\ length buf' = 200%nat.
Proof.
  intros Hb Hl Hm Hlr Hbr Hlm len buf'. change UDP_END with 28 in len.
  assert (Hl' : length buf' = 200%nat) by (unfold buf'; rewrite length_app, length_take; lia).
  assert (Hb' : bytes buf') by (apply bytes_app; split; [by apply Forall_take|done]).
  destruct (fill_udp_spec buf' len None Hb' ltac:(lia) ltac:(lia) ltac:(done)) as (_ & _ & Hok). split; [|done].
  assert (E : sub buf' 28 (len - 28) = msg); [|by rewrite E in Hok].
  assert (Er : rest = msg ++ drop (length msg) rest) by (rewrite <- Hm at 1; symmetry; apply take_drop).
  unfold buf', len. rewrite Er. apply sub_mid; rewrite ?length_take; lia.
Qed.
Lemma reply_target buf rest : length buf = 200%nat -> udp_target (take 28 buf ++ rest) None = reply_addr buf.
Proof.
  intros Hl. unfold udp_target, reply_addr. cbn [default].
  assert (E : forall off n, 0 <= off -> 0 <= n -> off + n <= 28 -> sub (take 28 buf ++ rest) off n = sub buf off n).
  { intros off n Ho Hn Hlen. unfold sub. apply list_fmap_ext. intros k i Hk. apply list_elem_of_lookup_2, elem_of_range in Hk.
    unfold aget. rewrite (proj2 (Z.ltb_ge _ _)) by lia. rewrite lookup_app_l by (rewrite length_take; lia). by rewrite lookup_take_lt by lia. }
  rewrite !E; done || (unfold IP_DEST, IP_SOURCE, IP_END, UDP_SPORT, UDP_DPORT; lia).
Qed.

(** When the agent answers with a message, a UDP packet with it goes back. *)
Lemma poll_answer id ver e s s1 l addr buf len w w' msg :
  recv e s l snmp_socket = (s1, addr, buf, len) -> 56 < len <= 200 -> check_dest_ip s1 buf = true -> bytes buf -> length buf = 200%nat ->
  answer (agent off1 off2 id ver (drop 28 buf) w) w' msg ->
  exists pkt, let n := Z.of_nat (length msg) + 28 in
    udp_packet_ok (take (Z.to_nat n) pkt) (reply_addr buf) msg /\
    snmp_poll id ver e s l w = Some (((send s1 l snmp_socket addr pkt n w').1, 1), (send s1 l snmp_socket addr pkt n w').2).
Proof.
  intros Hrecv Hlen Hdest Hb Hl (rest & Hr & Hm & Hlr & Hbr & Hlm).
  destruct (reply_packet buf rest msg Hb Hl Hm Hlr Hbr Hlm) as [Hok _]. rewrite reply_target in Hok by done.
  exists (fill_udp (take 28 buf ++ rest) (Z.of_nat (length msg) + 28) None). split; [exact Hok|].
  unfold snmp_poll. rewrite Hrecv. cbv beta iota. rewrite (u32_small len) by (unfold is_u32; lia). change (UDP_END + sizeof_match_array) with 56.
  rewrite (proj2 (Z.leb_gt len 56)) by lia. rewrite Hdest. cbn [negb]. change (Z.to_nat UDP_END) with 28%nat.
  rewrite (pbind_some _ _ _ _ _ Hr). rewrite (proj2 (Z.ltb_ge (Z.of_nat (length msg)) 0)) by lia. change UDP_END with 28.
  unfold pbind, pret. by destruct (send _ _ _ _ _ _ _).
Qed.

(** C18. In a build without the auxiliary diagnostics and the netconsole
    objects, when the functions that read the hardware do not fail and the
    texts of the firmware end ([mib_ready]), the task answers a GET that comes
    in a UDP packet for this node, of at most 172 bytes behind the headers, with
    a request id of at most 4 bytes and an OID of at most 40 sub-identifiers
    below 128: a UDP packet goes back to the sender, with both checksums
    right, that holds the value of the object asked for (or the error), and
    nothing else changes but the version of the protocol and the network. *)
Theorem snmp_poll_get `{!SnmpEnvLaws W} id ver_aux db e s s1 l addr buf len ver reqid oid val w :
  CONFIG_SNMP_AUX_DIAG = false -> CONFIG_SNMP_NETCONSOLE = false ->
  recv e s l snmp_socket = (s1, addr, buf, len) -> 56 < len <= 200 -> check_dest_ip s1 buf = true -> bytes buf -> length buf = 200%nat ->
  request SNMP_GET ver reqid oid val (drop 28 buf) -> let w' := set_snmp_version ver w in mib_ready off1 off2 db w' ->
  let msg := get_answer off1 off2 db ver reqid oid w' in let n := Z.of_nat (length msg) + 28 in
  exists pkt, udp_packet_ok (take (Z.to_nat n) pkt) (reply_addr buf) msg /\
    snmp_poll id ver_aux e s l w = Some (((send s1 l snmp_socket addr pkt n w').1, 1), (send s1 l snmp_socket addr pkt n w').2).
Proof.
  intros Ha Hn Hrecv Hlen Hdest Hb Hl Hrq w' Hr msg n.
  exact (poll_answer id ver_aux e s s1 l addr buf len w w' msg Hrecv Hlen Hdest Hb Hl (agent_get off1 off2 id ver_aux Ha Hn db ver reqid oid val _ w Hr Hrq)).
Qed.
End poll.

(** A packet of the manager in the queue of the socket. *)
Module PollDemo.
Import Demo.
#[export] Instance demo_board : Board := generic_8bit.
#[export] Instance demo_pps : PpsHW world := {| ppsg_read _ w := (0, w); ppsg_write _ _ w := (tt, w) |}.
#[export] Instance demo_minic : MinicHW world := {| mrd _ _ w := (0, w); mwr _ _ _ w := (tt, w); timer_delay_ms _ w := (tt, w) |}.
Definition asked : list Z := oid_wrpcSpllStatusGroup ++ oid_wrpcSpllMode.
Definition question : list Z := snmp_message SNMP_GET 1 [7] 0 0 asked [ASN_NULL; 0].
Definition datagram : list Z :=
  [69; 0; 0; 0; 0; 0; 0; 0; 64; 17; 0; 0; 192; 168; 1; 2; 192; 168; 1; 9; 4; 210; 0; 161; 0; 0; 0; 0] ++ question.
Definition ring : list Z := image 2 (Z.of_nat (length datagram)) ++ replicate (Z.to_nat (sizeof_hwts + sizeof_ethhdr)) 0 ++ datagram.
Definition queue : sockq := mk_q 0 0 0 (Z.of_nat (length ring) + 10) 1 (ring ++ replicate 10 0).
Definition net : net_state := (demo_net 0) <| nt_mem := {[ snmp_socket := sock_zero <| ws_queue := queue |> ]} |>.
Definition st : ip_state := mk_ip [192; 168; 1; 9] IP_OK_BOOTP 0 0 net.
Definition env0 : env := mk_env [1; 2; 3; 4; 5; 6] (demo_globals, softpll_zero) false.
Definition locals0 : locals := mk_locals (replicate 200 0) sa_zero (mk_hwts 0 0 0 0 0).
Definition received : list Z := datagram ++ replicate (200 - length datagram) 0.
End PollDemo.
Import PollDemo Demo.

Lemma snmp_poll_get_witness :
  let s1 := (recv env0 st locals0 snmp_socket).1.1.1 in
  let addr := (recv env0 st locals0 snmp_socket).1.1.2 in
  let w' := set_snmp_version 1 boot in let msg := get_answer 0 0 [demo_sfp] 1 [7] asked w' in let n := Z.of_nat (length msg) + 28 in
  exists pkt, udp_packet_ok (take (Z.to_nat n) pkt) (reply_addr received) msg /\
    snmp_poll 0 0 0 0 env0 st locals0 boot =
    Some (((send s1 locals0 snmp_socket addr pkt n w').1, 1), (send s1 locals0 snmp_socket addr pkt n w').2).
Proof.
  intros s1 addr w' msg n.
  apply (snmp_poll_get 0 0 0 0 [demo_sfp] env0 st s1 locals0 addr received (Z.of_nat (length datagram)) 1 [7] asked [ASN_NULL; 0] boot).
  - exact demo_no_aux.
  - exact demo_no_netconsole.
  - vm_compute. reflexivity.
  - vm_compute. split; [reflexivity|discriminate].
  - vm_compute. reflexivity.
  - bytes_done.
  - vm_compute. reflexivity.
  - replace (drop 28 received) with (padded SNMP_GET 1 [7] asked [ASN_NULL; 0]) by (vm_compute; reflexivity). request_done.
  - apply demo_ready.
Defined.
