(* ===== verification/SnmpTypes.v ===== *)
(** Types of the SNMP agent (lib/snmp.c): in a run that stays inside its arrays,
    the packet keeps its length and the arrays among the agent's variables
    keep theirs. *)
From Stdlib Require Import ZArith Lia.
From stdpp Require Import base numbers option list.
From S2P Require Import Prelude SpllHw SoftPll Printf Bytes SfpDb Shell Snmp SnmpMib SnmpAgent.

(** ** Triples of the agent's monad

    [ok] is the invariant of the state, [Q] what holds of the result, when there
    is one. *)
Section triples.
Context {W : Type} (ok : W -> Prop).
Definition triple {A} (m : P W A) (Q : A -> Prop) : Prop :=
  forall w a w', ok w -> m w = Some (a, w') -> ok w' /\ Q a.

Lemma t_ret {A} (a : A) (Q : A -> Prop) : Q a -> triple (pret a) Q.
Proof. intros Hq w a' w' Hw [= <- <-]. done. Qed.
Lemma t_bind {A B} (m : P W A) (k : A -> P W B) Q R : triple m Q -> (forall a, Q a -> triple (k a) R) -> triple (pbind m k) R.
Proof.
  intros Hm Hk w b w' Hw H. unfold pbind in H. destruct (m w) as [[a w1]|] eqn:E; [|done].
  destruct (Hm w a w1 Hw E) as [Hw1 Ha]. exact (Hk a Ha w1 b w' Hw1 H).
Qed.
Lemma t_lift {A} (o : option A) (Q : A -> Prop) : (forall a, o = Some a -> Q a) -> triple (lift o) Q.
Proof. intros Hq w a w' Hw H. unfold lift in H. destruct o as [x|]; [|done]. injection H as <- <-. split; [done|by apply Hq]. Qed.
Lemma t_fail {A} (Q : A -> Prop) : triple pfail Q.
Proof. by intros w a w' Hw. Qed.
Lemma t_weaken {A} (m : P W A) (Q R : A -> Prop) : triple m Q -> (forall a, Q a -> R a) -> triple m R.
Proof. intros Hm Hq w a w' Hw E. destruct (Hm w a w' Hw E). split; [done|by apply Hq]. Qed.
Lemma t_if {A} (b : bool) (m1 m2 : P W A) Q : triple m1 Q -> triple m2 Q -> triple (if b then m1 else m2) Q.
Proof. by destruct b. Qed.
(** Steps whose result does not matter. *)
Lemma t_then {A B} (m : P W A) (k : A -> P W B) R : triple m (fun _ => True) -> (forall a, triple (k a) R) -> triple (pbind m k) R.
Proof. intros Hm Hk. eapply t_bind; [exact Hm|]. intros a _. apply Hk. Qed.
Lemma t_get8 (buf : list Z) i : triple (lift (get8 buf i)) (fun _ => True).
Proof. by apply t_lift. Qed.
Lemma t_cmp ml oid buf off : triple (lift (packet_cmp ml oid buf off)) (fun _ => True).
Proof. by apply t_lift. Qed.

(** Buffers of [n] bytes. *)
Definition sized (n : nat) (buf : list Z) : Prop := length buf = n.
Definition kept {A} (n : nat) (r : list Z * A) : Prop := length r.1 = n.
Lemma length_set_at buf off l buf' : set_at buf off l = Some buf' -> length buf' = length buf.
Proof. unfold set_at. destruct (_ && _); [|done]. intros [= <-]. apply length_put. Qed.
Lemma t_set_at n buf off l : length buf = n -> triple (lift (set_at buf off l)) (sized n).
Proof. intros Hl. apply t_lift. intros buf' E. unfold sized. rewrite <- Hl. by apply length_set_at in E. Qed.
Lemma t_incr_at n buf i : length buf = n -> triple (lift (incr_at buf i)) (sized n).
Proof.
  intros Hl. apply t_lift. intros buf' E. unfold incr_at in E. destruct (get8 buf i); [|done]. unfold sized. rewrite <- Hl.
  by apply length_set_at in E.
Qed.
End triples.
Arguments sized n buf /.
Arguments kept {A} n r /.

(** One step through a program. *)
Ltac len := cbn [fst snd sized kept] in *; first [done | lia | assumption | congruence].
Ltac t_step := lazymatch goal with
  | |- triple _ (let? _ := lift (get8 _ _) in _) _ => apply t_then; [apply t_get8|intros ?]
  | |- triple _ (let? _ := lift (packet_cmp _ _ _ _) in _) _ => apply t_then; [apply t_cmp|intros ?]
  | |- triple _ (let? _ := lift (set_at _ _ _) in _) _ => eapply t_bind; [eapply t_set_at; len|intros ? ?]
  | |- triple _ (let? _ := lift (incr_at _ _) in _) _ => eapply t_bind; [eapply t_incr_at; len|intros ? ?]
  | |- triple _ (pret _) _ => apply t_ret; len
  | |- triple _ pfail _ => apply t_fail
  | |- triple _ (lift (set_at _ _ _)) _ => eapply t_set_at; len
  | |- triple _ (lift (incr_at _ _)) _ => eapply t_incr_at; len
  | |- triple _ (if ?b then _ else _) _ => destruct b
  | |- triple _ (match ?x with _ => _ end) _ => destruct x
  end.

Section twigs.
Context {W Ptr : Type} (ok : W -> Prop).
Implicit Types (o : snmp_oid W Ptr) (objs : list (snmp_oid W Ptr)).

(** A function of an object keeps the packet and the state. *)
Definition typed (f : access W Ptr) : Prop := forall obj buf, triple ok (f obj buf) (kept (length buf)).
Definition oid_typed o : Prop := typed (oid_get o) /\ forall f, oid_set o = Some f -> typed f.
Lemma t_call f obj buf k n : typed f -> length buf = n -> triple ok (call_at f obj buf k) (kept n).
Proof.
  intros Hf Hl. unfold call_at. eapply t_bind; [apply Hf|]. intros r Hr. apply t_ret. cbn [kept fst] in *.
  rewrite length_app, Hr, length_take, length_drop. lia.
Qed.
Lemma group_typed n limb_len tl flags objs buf : Forall oid_typed objs -> length buf = n ->
  triple ok (func_group_loop limb_len tl flags objs buf) (kept n).
Proof.
  intros Hobjs. revert buf. induction Hobjs as [|o objs [Hget Hset] _ IH]; intros buf Hl; [by apply t_ret|].
  cbn [func_group_loop]. destruct (_ && negb (tl =? _)); [by apply IH|].
  apply t_then; [destruct (flag flags RETURN_FIRST); [by apply t_ret|apply t_cmp]|]. intros cmp.
  destruct (_ && (u8 _ =? _)); [by apply IH|]. destruct (_ || flag flags RETURN_FIRST).
  2: { destruct (0 <? cmp); [by apply t_ret|by apply IH]. }
  eapply (t_bind _ _ _ (sized n)); [destruct (flag flags MASK_GET_NEXT); repeat t_step|]. intros buf' Hl'.
  assert (Hg : forall buf, length buf = n -> triple ok (let? r := call_at (oid_get o) (leaf o) buf (1 + limb_len + oid_len (leaf o)) in
    if r.2 =? 0 then func_group_loop limb_len tl flags objs r.1 else pret (r.1, r.2 + oid_len (leaf o))) (kept n)).
  { intros buf2 Hl2. eapply t_bind; [by apply t_call|]. intros r Hr. destruct (r.2 =? 0); [by apply IH|by apply t_ret]. }
  destruct (flag flags MASK_SET); [|by apply Hg]. destruct (oid_set o) as [set|]; [|by apply t_ret].
  eapply t_bind; [apply t_call; [by apply Hset|done]|]. intros r Hr. destruct (r.2 <? 0); [by apply t_ret|by apply Hg].
Qed.

(** The other functions of branches. *)
Definition twig_typed (f : twig W Ptr) : Prop := forall n buf limb_len objs flags, Forall oid_typed objs -> length buf = n ->
  triple ok (f buf limb_len objs flags) (kept n).
Lemma t_group : twig_typed func_group.
Proof. intros n buf limb_len objs flags Hobjs Hl. unfold func_group. apply t_then; [apply t_get8|]. intros len. by apply group_typed. Qed.
Lemma t_table_loop n limb_len tl first next incr objs buf : Forall oid_typed objs -> length buf = n ->
  triple ok (func_table_loop limb_len tl first next incr objs buf) (fun r => length r.1.1 = n /\ Forall oid_typed r.1.2).
Proof.
  intros Hobjs. revert buf. induction Hobjs as [|o objs Ho Hobjs IH]; intros buf Hl; [by apply t_ret|]. cbn [func_table_loop].
  apply t_then; [destruct first; [by apply t_ret|apply t_cmp]|]. intros cmp.
  destruct (first || _ || _).
  - t_step. t_step. apply t_ret. cbn in *. split; [done|by constructor].
  - destruct (_ && _); [|by apply IH]. apply t_ret. split; [done|by constructor].
Qed.
Lemma t_table_leaf n limb_len first next incr found buf : Forall oid_typed found -> length buf = n ->
  triple ok (func_table_leaf limb_len first next incr found buf) (kept n).
Proof.
  intros Hf Hl. unfold func_table_leaf. destruct Hf as [|o rest [Hget _] Hrest]; [by apply t_ret|].
  eapply (t_bind _ _ _ (sized n)); [destruct incr; repeat t_step|]. intros buf1 H1.
  eapply t_bind; [by apply t_call|]. intros r Hr.
  assert (Hfin : forall o (r : list Z * Z), length r.1 = n -> triple ok
    (if r.2 =? 0 then pret (r.1, 0) else if r.2 <? 0 then pret r else
      let? buf := (if next || first then lift (set_at r.1 0 [u8 (oid_len (leaf o) + 1)]) else pret r.1) in
      pret (buf, r.2 + (oid_len (leaf o) + 1))) (kept n)).
  { intros o' r' Hr'. destruct (r'.2 =? 0); [by apply t_ret|]. destruct (r'.2 <? 0); [by apply t_ret|].
    eapply (t_bind _ _ _ (sized n)); [destruct (next || first); repeat t_step|]. intros b Hb. by apply t_ret. }
  destruct (_ && incr); [|by apply Hfin]. destruct Hrest as [|o' rest [Hget' _] _]; [by apply t_ret|].
  t_step. t_step. eapply t_bind; [apply t_call; [exact Hget'|len]|]. intros r' Hr'. by apply Hfin.
Qed.
Lemma t_table : twig_typed func_table.
Proof.
  intros n buf limb_len objs flags Hobjs Hl. unfold func_table. apply t_then; [apply t_get8|]. intros len.
  destruct (flag flags MASK_SET); [by apply t_ret|]. eapply t_bind; [by apply t_table_loop|].
  intros [[buf' found] incr] [Hl' Hf]. by apply t_table_leaf.
Qed.
Lemma t_aux_diag : twig_typed func_aux_diag.
Proof.
  intros n buf limb_len objs flags Hobjs Hl. unfold func_aux_diag. apply t_then; [apply t_get8|]. intros len. cbv zeta.
  destruct Hobjs as [|o objs [Hget Hset] _]; [apply t_fail|]. set (short := flag flags RETURN_FIRST || (flag flags MASK_GET_NEXT && (len - limb_len <? 2))).
  eapply (t_bind _ _ _ (sized n)); [destruct short; repeat t_step|]. intros b1 H1.
  t_step; [by apply t_ret|]. set (increase := flag flags MASK_GET_NEXT && _).
  eapply (t_bind _ _ _ (sized n)); [destruct increase; repeat t_step|]. intros b2 H2.
  assert (Hfin : forall r : list Z * Z, length r.1 = n -> triple ok
    (if r.2 =? 0 then pret (r.1, 0) else if r.2 <? 0 then pret r else
      let? buf := (if flag flags MASK_GET_NEXT || flag flags RETURN_FIRST then lift (set_at r.1 0 [2]) else pret r.1) in
      pret (buf, r.2 + 2)) (kept n)).
  { intros r Hr. destruct (r.2 =? 0); [by apply t_ret|]. destruct (r.2 <? 0); [by apply t_ret|].
    eapply (t_bind _ _ _ (sized n)); [destruct (_ || flag flags RETURN_FIRST); repeat t_step|]. intros b Hb. by apply t_ret. }
  assert (Hnext : forall (r : list Z * Z) incr, length r.1 = n -> triple ok
    (if (r.2 =? 0) && incr then
       let? buf := lift (incr_at r.1 (1 + limb_len + TABLE_COL)) in
       let? buf := lift (set_at buf (1 + limb_len + TABLE_ROW) [TABLE_FIRST_ROW]) in
       let? r := call_at (oid_get o) (leaf_obj o 2 buf limb_len) buf (1 + limb_len + 2) in
       (if r.2 =? 0 then pret (r.1, 0) else if r.2 <? 0 then pret r else
         let? buf := (if flag flags MASK_GET_NEXT || flag flags RETURN_FIRST then lift (set_at r.1 0 [2]) else pret r.1) in
         pret (buf, r.2 + 2))
     else (if r.2 =? 0 then pret (r.1, 0) else if r.2 <? 0 then pret r else
      let? buf := (if flag flags MASK_GET_NEXT || flag flags RETURN_FIRST then lift (set_at r.1 0 [2]) else pret r.1) in
      pret (buf, r.2 + 2))) (kept n)).
  { intros r incr Hr. destruct (_ && incr); [|by apply Hfin]. t_step. t_step. eapply t_bind; [apply t_call; [exact Hget|len]|].
    intros r' Hr'. by apply Hfin. }
  destruct (flag flags MASK_SET).
  - destruct (oid_set o) as [set|]; [|by apply t_ret]. eapply t_bind; [apply t_call; [by apply Hset|len]|].
    intros r Hr. apply t_if; [by apply t_ret|by apply Hnext].
  - eapply t_bind; [apply t_call; [exact Hget|len]|]. intros r Hr. by apply Hnext.
Qed.

(** The packet. *)
Lemma length_fix_size fmt h_i size buf buf' : fix_size_loop fmt h_i size buf = Some buf' -> length buf' = length buf.
Proof.
  revert h_i buf. induction fmt as [|f fmt IH]; intros h_i buf E; [by injection E as ->|]. cbn [fix_size_loop] in E.
  destruct (if f =? BYTE_PDU then _ else _) as [b1|] eqn:E1; [|done]. rewrite some_bind in E.
  assert (H1 : length b1 = length buf) by (destruct (f =? BYTE_PDU); [by apply length_set_at in E1|by injection E1 as ->]).
  destruct (f =? BYTE_REQ_SIZE).
  { destruct (get8 b1 h_i); [|done]. rewrite some_bind in E. apply IH in E. lia. }
  destruct (negb _); [apply IH in E; lia|]. destruct (set_at b1 h_i _) as [b2|] eqn:E2; [|done]. rewrite some_bind in E.
  apply length_set_at in E2. apply IH in E. lia.
Qed.
Lemma length_snmp_fix_size buf k buf' : snmp_fix_size buf k = Some buf' -> length buf' = length buf.
Proof. unfold snmp_fix_size. generalize match_array. intros fmt. apply length_fix_size. Qed.
Lemma bind_set_at {A} buf k l (f : list Z -> option A) r : (set_at buf k l ≫= f) = Some r ->
  exists buf', length buf' = length buf /\ f buf' = Some r.
Proof. intros E. destruct (set_at buf k l) as [b|] eqn:Eb; [|done]. exists b. split; [by apply length_set_at in Eb|exact E]. Qed.
Lemma bind_get8 {A} buf k (f : Z -> option A) r : (get8 buf k ≫= f) = Some r -> exists x, f x = Some r.
Proof. intros E. destruct (get8 buf k) as [x|]; [|done]. by exists x. Qed.
Lemma bind_fix {A} buf k (f : list Z -> option A) r : (snmp_fix_size buf k ≫= f) = Some r ->
  exists buf', length buf' = length buf /\ f buf' = Some r.
Proof. intros E. destruct (snmp_fix_size buf k) as [b|] eqn:Eb; [|done]. exists b. split; [exact (length_snmp_fix_size _ _ _ Eb)|exact E]. Qed.
Lemma length_prepare_error buf error r : snmp_prepare_error buf error = Some r -> length r.1 = length buf.
Proof.
  intros E. unfold snmp_prepare_error in E.
  apply bind_get8 in E as (x1 & E). apply bind_set_at in E as (b1 & H1 & E). apply bind_get8 in E as (x2 & E).
  apply bind_set_at in E as (b2 & H2 & E). apply bind_set_at in E as (b3 & H3 & E). apply bind_get8 in E as (x3 & E).
  apply bind_set_at in E as (b4 & H4 & E). apply bind_set_at in E as (b5 & H5 & E). apply bind_fix in E as (b6 & H6 & E).
  injection E as <-. cbn [fst]. congruence.
Qed.
End twigs.

(** The answer to any packet. *)
Section respond.
Context {W Ptr : Type} `{!SnmpVersion W} (ok : W -> Prop) (ok_version : forall w v, ok w -> ok (set_snmp_version v w)).
Definition limb_typed (limb : snmp_oid_limb W Ptr) : Prop := twig_typed ok (twig_func limb) /\ Forall (oid_typed ok) (obj_array limb).
Lemma t_header set fmt h mode buf : triple ok (match_header set fmt h mode buf) (fun _ => True).
Proof.
  revert h mode. induction fmt as [|f fmt IH]; intros h mode; [by apply t_ret|]. cbn [match_header]. cbv zeta.
  destruct (_ || (f =? BYTE_ERROR_INDEX)); [apply IH|]. apply t_then; [apply t_get8|]. intros b.
  destruct (f =? BYTE_REQ_SIZE); [apply IH|]. destruct (f =? BYTE_VERSION).
  { apply t_then; [intros w a w' Hw [= <- <-]; split; [by apply ok_version|done]|]. intros _.
    destruct (SNMP_V_MAX <? b); [by apply t_ret|apply IH]. }
  destruct (f =? BYTE_PDU).
  { destruct (_ =? 0); [by apply t_ret|apply IH]. }
  destruct (b =? f); [apply IH|by apply t_ret].
Qed.
Lemma t_respond_loop n mode limbs buf : Forall limb_typed limbs -> length buf = n ->
  triple ok (respond_loop mode limbs buf) (kept n).
Proof.
  intros Hl. revert buf. induction Hl as [|limb limbs [Htwig Hobjs] _ IH]; intros buf Hb; [by apply t_ret|]. cbn [respond_loop].
  apply t_then; [apply t_get8|]. intros len. cbv zeta. destruct (_ && (len <? _)); [by apply IH|].
  apply t_then; [apply t_cmp|]. intros cmp. destruct (_ || flag _ RETURN_FIRST).
  2: { destruct (0 <? cmp); [by apply t_ret|by apply IH]. }
  eapply (t_bind _ _ _ (sized n)); [destruct (_ || _); repeat t_step|]. intros b1 H1.
  eapply t_bind; [apply Htwig; [exact Hobjs|exact H1]|]. intros [b2 res] H2. cbn [kept fst] in H2.
  destruct (0 <? res).
  - eapply (t_bind _ _ _ (sized n)); [destruct (_ || _); repeat t_step|]. intros b3 H3. by apply t_ret.
  - destruct (res =? 0); [by apply IH|by apply t_ret].
Qed.
Lemma t_respond set limbs buf : Forall limb_typed limbs -> triple ok (snmp_respond set limbs buf) (kept (length buf)).
Proof.
  intros Hl. unfold snmp_respond.
  assert (Herr : forall b e, length b = length buf -> triple ok (lift (snmp_prepare_error b e)) (kept (length buf))).
  { intros b e Hb. apply t_lift. intros r E. cbn [kept]. rewrite <- Hb. by apply length_prepare_error in E. }
  apply t_then; [apply t_header|]. intros [[h_i mode]|]; [|by apply Herr].
  eapply (t_bind _ _ _ (kept (length buf - Z.to_nat h_i))); [apply t_respond_loop; [done|apply length_drop]|].
  intros [rest r] Hr. cbn [kept fst] in Hr. cbv zeta.
  assert (Hlen : length (take (Z.to_nat h_i) buf ++ rest) = length buf) by (rewrite length_app, length_take; lia).
  destruct r as [size|e|]; [|by apply Herr..].
  eapply (t_bind _ _ _ (sized (length buf))); [|intros b Hb; by apply t_ret].
  apply t_lift. intros b E. pose proof (length_snmp_fix_size _ _ _ E) as Hb. cbn [sized]. lia.
Qed.
End respond.

(** ** The objects of the firmware *)
Definition vars_sized (s : snmp_vars) : Prop :=
  length (sfp_pn (snmp_ptp_config s)) = 16%nat /\ length (init_script_line s) = 32%nat /\ length (shell_cmd_line s) = 81%nat.
Definition sizes_ok {W} `{!SnmpEnv W} (w : W) : Prop := vars_sized (env_vars w) /\ length (sfp_pn (env_sfp_params w)) = 16%nat.

(** The functions of other files keep the sizes; a part number has 16
    characters. *)
Class SnmpEnvTyped (W : Type) `{!SnmpEnv W, !SnmpEnvLaws W} : Prop := {
  te_calls : Forall (fun m : P W Z => triple sizes_ok m (fun _ => True))
    [ep_link_up; timer_get_tics; pps_gen_get_secs; sfp_match; call_sfpdb_erase; call_init_erase];
  te_ptp : triple sizes_ok wrc_ptp_stop (fun _ => True) /\ triple sizes_ok wrc_ptp_start (fun _ => True);
  te_get_sfp i : triple sizes_ok (call_get_sfp i) (fun _ => True);
  te_add_sfp e : length (sfp_pn e) = 16%nat -> triple sizes_ok (call_add_sfp e) (fun r => length (sfp_pn r.1) = 16%nat);
  te_init_add l : triple sizes_ok (call_init_add l) (fun _ => True);
  te_format a b : triple sizes_ok (call_sdbfs_format a b) (fun _ => True);
  te_erase a b : triple sizes_ok (call_sdbfs_erase a b) (fun _ => True);
  te_exec l : triple sizes_ok (call_shell_exec l) (fun _ => True);
  te_read a b : triple sizes_ok (diag_read_word a b) (fun _ => True);
  te_write a b : triple sizes_ok (diag_write_word a b) (fun _ => True);
  te_params_vars w s : env_sfp_params (env_set_vars s w) = env_sfp_params w;
  te_params_version w v : env_sfp_params (set_snmp_version v w) = env_sfp_params w;
  te_params w p : env_sfp_params (env_set_sfp_params p w) = p /\ env_vars (env_set_sfp_params p w) = env_vars w }.

Section objects.
Context `{Endian} {W : Type} `{!SnmpEnv W, !SnmpEnvLaws W, !SnmpEnvTyped W}.
Abbreviation ok := (sizes_ok (W := W)).
Abbreviation any := (fun _ => True).

Lemma sizes_version w v : ok w -> ok (set_snmp_version v w).
Proof. unfold sizes_ok. by rewrite version_vars, te_params_version. Qed.
Lemma t_get_vars : triple ok get_vars vars_sized.
Proof. intros w s w' [Hw Hp] [= <- <-]. done. Qed.
Lemma t_put_vars s : vars_sized s -> triple ok (put_vars s) any.
Proof. intros Hs w a w' [Hw Hp] [= <- <-]. unfold sizes_ok. by rewrite vars_set, te_params_vars. Qed.
Lemma length_sfp_of img : length (sfp_pn (sfp_of img)) = 16%nat.
Proof. unfold sfp_of. cbn [sfp_pn]. by rewrite length_sub. Qed.
Lemma sized_put v img s : vars_sized s -> length img = length (var_image v s) -> vars_sized (var_put v img s).
Proof.
  intros (H1 & H2 & H3) Hl. unfold vars_sized. destruct v; cbn in *; rewrite ?length_sub; done || (split; [done|split; [congruence|done]]) || (split; [done|split; [done|congruence]]).
Qed.
Lemma t_load p off : triple ok (mem_load p off) any.
Proof. intros w a w' Hw E. cbn in E. destruct p; done || by injection E as <- <-. Qed.
Lemma t_store p off data : triple ok (mem_store p off data) any.
Proof.
  intros w a w' [Hw Hp] E. cbn in E. destruct p as [v| |]; [|done..].
  destruct (set_at (var_image v (env_vars w)) _ data) as [img|] eqn:Ei; [|done]. injection E as <- <-. unfold sizes_ok.
  rewrite vars_set, te_params_vars. split; [|done]. split; [|done]. apply sized_put; [done|]. by apply length_set_at in Ei.
Qed.

(** Values. *)
Lemma t_incoming buf obj : triple ok (incoming_value (Ptr := ptr) buf obj) any.
Proof. unfold incoming_value. cbv zeta. repeat first [t_step | apply t_then; [|intros ?]]; try by apply t_ret. Qed.
Lemma t_set_value buf obj p off : triple ok (set_value (Ptr := ptr) buf obj p off) any.
Proof. unfold set_value. apply t_then; [apply t_incoming|]. intros [data r]. t_step; [|by apply t_ret]. apply t_then; [apply t_store|]. intros ?. by apply t_ret. Qed.
Lemma t_get_value buf asn p : triple ok (get_value buf asn p) (kept (length buf)).
Proof.
  unfold get_value. t_step. cbn [sized] in *.
  assert (Hstore : forall data k, triple ok (let? buf := lift (set_at a 2 data) in let? buf := lift (set_at buf 1 [k]) in pret (buf, 2 + k))
    (kept (length buf))) by (intros data k; t_step; t_step; apply t_ret; cbn in *; lia).
  repeat first [apply t_if | apply Hstore | by apply t_fail | by apply t_ret].
  - intros w r w' Hw. destruct (_ =? SNMP_V1); [by apply t_ret|]. destruct (_ <? 8)%nat; [done|by apply Hstore].
  - apply t_then; [by apply t_lift|]. intros k. repeat first [apply t_if | apply Hstore | by apply t_fail].
Qed.

(** The functions that read an object. *)
Lemma typed_get_p : typed ok get_p.
Proof. intros obj buf. unfold get_p. apply t_then; [apply t_load|]. intros p. apply t_get_value. Qed.
Lemma typed_get_u16 : typed ok get_u16.
Proof. intros obj buf. unfold get_u16. apply t_then; [apply t_load|]. intros p. apply t_if; [apply t_fail|apply t_get_value]. Qed.
Lemma typed_get_mac : typed ok get_mac.
Proof. intros obj buf. unfold get_mac. apply t_then; [apply t_load|]. intros p. apply t_if; [apply t_fail|apply t_get_value]. Qed.
Lemma typed_get_sfp_pn_curr : typed ok get_sfp_pn_curr.
Proof. intros obj buf w r w' Hw. by apply t_get_value. Qed.
Lemma te_call m : m ∈ [ep_link_up; timer_get_tics; pps_gen_get_secs; sfp_match; call_sfpdb_erase; call_init_erase] -> triple ok m any.
Proof. intros Hm. pose proof te_calls as Hc. rewrite Forall_forall in Hc. by apply Hc. Qed.
Ltac call := apply te_call; repeat (first [apply list_elem_of_here | apply list_elem_of_further]).
Lemma typed_get_port : typed ok get_port.
Proof. intros obj buf. unfold get_port. repeat first [apply t_get_value | apply t_if | apply t_then; [call|intros ?] | apply t_get_value | by apply t_ret]. Qed.
Lemma typed_get_time : typed ok get_time.
Proof.
  intros obj buf. unfold get_time. cbv zeta.
  repeat first [apply t_get_value | apply t_if | apply t_then; [call|intros ?] | apply t_then; [by apply t_lift|intros ?] | apply t_get_value | apply t_fail].
Qed.
Lemma typed_get_servo : typed ok get_servo.
Proof.
  intros obj buf w r w' Hw. unfold get_servo, get_i32sat. cbv zeta.
  repeat lazymatch goal with |- (if ?b then _ else _) = _ -> _ => destruct b end; first [by apply t_get_value | by apply t_ret].
Qed.
Lemma typed_get_temp : typed ok get_temp.
Proof.
  intros obj buf. unfold get_temp. cbv zeta. intros w r w' Hw.
  destruct (if _ <? 1 then _ else _) as [[name t]|]; [|by apply t_ret].
  destruct (_ =? 2); [by apply t_get_value|]. destruct (_ =? 3); [|by apply t_ret].
  apply t_then; [by apply t_lift|intros s; apply t_get_value|done].
Qed.
Lemma typed_get_sfp : typed ok get_sfp.
Proof.
  intros obj buf. unfold get_sfp. enough (Hl : forall fuel row col i count, triple ok (get_sfp_loop fuel row col i count obj buf) (kept (length buf))) by apply Hl.
  intros fuel row col. induction fuel as [|fuel IH]; intros i count; [apply t_fail|].
  cbn [get_sfp_loop]. apply t_if; [by apply t_ret|]. apply t_then; [apply te_get_sfp|]. intros [e c].
  repeat first [apply t_get_value | apply t_if | apply t_get_value | by apply t_ret | apply IH].
Qed.

(** The functions that write one. *)
Lemma typed_set_p : typed ok set_p.
Proof. intros obj buf. unfold set_p. apply t_then; [apply t_set_value|]. intros r. by apply t_ret. Qed.
Lemma typed_apply action : (forall mode, triple ok (action mode) any) -> typed ok (apply action).
Proof.
  intros Ha obj buf. unfold apply. apply t_then; [apply t_set_value|]. intros ret. apply t_if; [by apply t_ret|].
  apply t_then; [apply t_load|]. intros p. apply t_then; [apply Ha|]. intros res. apply t_then; [apply t_store|]. intros _. by apply t_ret.
Qed.
Ltac vars := apply t_bind with (1 := t_get_vars); intros s (Hs1 & Hs2 & Hs3).
Ltac put := apply t_then; [apply t_put_vars; unfold vars_sized; cbn; try done|intros ?].
Lemma typed_restart : typed ok set_ptp_restart.
Proof.
  apply typed_apply. intros mode. apply t_if; [|by apply t_ret].
  apply t_then; [apply te_ptp|]. intros _. apply t_then; [apply te_ptp|]. intros _. by apply t_ret.
Qed.
Lemma length_pad_pn pn : length pn = 16%nat -> length (pad_pn pn) = 16%nat.
Proof.
  intros Hl. unfold pad_pn. assert (Hc : (length (cstr (take 16 pn)) <= 16)%nat).
  { rewrite <- Hl at 2. rewrite <- (firstn_all2 pn (n := 16)) at 2 by lia. generalize (take 16 pn). clear.
    induction l as [|c l IH]; cbn; [lia|]. destruct (c =? 0); cbn; lia. }
  rewrite length_app, length_take, length_replicate. lia.
Qed.
Lemma t_write_given_sfp : triple ok write_given_sfp any.
Proof.
  unfold write_given_sfp. vars. apply t_if; [by apply t_ret|]. cbv zeta.
  eapply t_bind; [apply te_add_sfp; cbn; by apply length_pad_pn|]. intros [cfg temp] Hcfg. cbn in Hcfg. clear s Hs1 Hs2 Hs3.
  vars. put. repeat first [apply t_if | by apply t_ret]. apply t_then; [call|]. intros ?. repeat first [apply t_if | by apply t_ret].
Qed.
Lemma typed_config : typed ok set_ptp_config.
Proof.
  apply typed_apply. intros mode. apply t_if; [|apply t_if; [|apply t_if; [apply t_write_given_sfp|apply t_if; [|by apply t_ret]]]].
  - vars. cbv zeta. apply t_then.
    { intros w a w' [Hw Hp] [= <- <-]. unfold sizes_ok. match goal with |- context [env_set_sfp_params ?p w] => destruct (te_params w p) as [E1 E2] end.
      by rewrite E1, E2. }
    intros _. apply t_then; [apply te_ptp|]. intros _. apply t_then; [apply te_ptp|]. intros _. by apply t_ret.
  - vars. eapply (t_bind _ _ _ (fun pn => length pn = 16%nat)); [intros w a w' [Hw Hp] [= <- <-]; done|]. intros pn Hpn. put.
    apply t_write_given_sfp.
  - apply t_then; [call|]. intros ?. by apply t_ret.
Qed.
Lemma typed_init_script : typed ok set_init_script_config.
Proof.
  apply typed_apply. intros mode. apply t_if; [|apply t_if; [|by apply t_ret]].
  - vars. apply t_if; [by apply t_ret|]. apply t_then; [apply te_init_add|]. intros ?. by apply t_ret.
  - apply t_then; [call|]. intros ?. by apply t_ret.
Qed.
Lemma typed_sdb : typed ok set_sdb.
Proof.
  apply typed_apply. intros mode. vars. cbv zeta. apply t_then.
  { apply t_if; [|apply t_if; [|by apply t_ret]]; (apply t_then; [apply te_format || apply te_erase|]); intros ?; by apply t_ret. }
  intros res. apply t_if; [|by apply t_ret]. clear s Hs1 Hs2 Hs3. vars. put. by apply t_ret.
Qed.
Lemma typed_netconsole : typed ok set_netconsole.
Proof. apply typed_apply. intros mode. apply t_if; [|by apply t_ret]. vars. put. by apply t_ret. Qed.
Lemma typed_shell_cmd : typed ok set_shell_cmd.
Proof.
  apply typed_apply. intros mode. apply t_if; [|by apply t_ret]. vars. repeat (apply t_if; [by apply t_ret|]). cbv zeta.
  assert (Hl : length (aset (shell_cmd_line s) SH_MAX_LINE_LEN 0) = 81%nat) by by rewrite length_aset.
  revert Hl. generalize (aset (shell_cmd_line s) SH_MAX_LINE_LEN 0). intros line Hl.
  put. apply t_then; [apply te_exec|]. intros code. clear s Hs1 Hs2 Hs3. vars. put. by apply t_ret.
Qed.
Lemma typed_aux_diag set : typed ok (data_aux_diag set).
Proof.
  intros obj buf. unfold data_aux_diag. cbv zeta. vars.
  assert (Hread : forall adr bank, triple ok (let? (val, ret) := diag_read_word adr bank in
    if ret <? 0 then pret (buf, - SNMP_ERR_GENERR) else get_value buf (asn obj) (image 4 (u32 val))) (kept (length buf))).
  { intros adr bank. apply t_then; [apply te_read|]. intros [val ret]. apply t_if; [by apply t_ret|apply t_get_value]. }
  repeat (apply t_if; [by apply t_ret|]). apply t_if; [apply t_if; [by apply t_ret|apply t_get_value]|].
  apply t_if; [|apply Hread]. apply t_then; [apply t_incoming|]. intros [data ret]. apply t_if; [by apply t_ret|].
  apply t_then; [apply te_write|]. intros r. apply t_if; [by apply t_ret|apply Hread].
Qed.

(** Every object of the array. *)
Context `{!SnmpConfig} (off1 off2 : Z).
Lemma var_typed oid get set tag p size : typed ok get -> (forall f, set = Some f -> typed ok f) ->
  oid_typed ok (OID_FIELD_VAR oid get set tag p size).
Proof. intros Hg Hs. by split. Qed.
Lemma struct_typed oid get set tag p off size : typed ok get -> (forall f, set = Some f -> typed ok f) ->
  oid_typed ok (OID_FIELD_STRUCT oid get set tag p off size).
Proof. intros Hg Hs. by split. Qed.
Lemma set_function_typed f : typed ok f -> forall g, SNMP_SET_FUNCTION f = Some g -> typed ok g.
Proof. intros Hf g. unfold SNMP_SET_FUNCTION. destruct CONFIG_SNMP_SET; [|done]. by intros [= <-]. Qed.
Lemma no_set_typed : forall g, NO_SET (W := W) = Some g -> typed ok g.
Proof. done. Qed.
Lemma limb_if_typed b limb : limb_typed ok limb -> Forall (limb_typed ok) (limb_if b limb).
Proof. intros Hl. destruct b; cbn; [by apply Forall_singleton|by apply Forall_nil]. Qed.
Ltac fun_typed := first [exact typed_get_p | exact typed_get_u16 | exact typed_get_mac | exact typed_get_sfp_pn_curr | exact typed_get_port
  | exact typed_get_time | exact typed_get_servo | exact typed_get_temp | exact typed_get_sfp | exact typed_set_p | exact typed_restart
  | exact typed_config | exact typed_init_script | exact typed_sdb | exact typed_netconsole | exact typed_shell_cmd | exact (typed_aux_diag _)].
Ltac obj_typed := first [apply var_typed | apply struct_typed | split];
  [fun_typed | first [exact no_set_typed | apply set_function_typed; fun_typed]].
Lemma limbs_typed id ver : Forall (limb_typed ok) (oid_limb_array off1 off2 id ver).
Proof.
  unfold oid_limb_array. repeat (apply Forall_app; split); try apply limb_if_typed; listed;
    (split; [first [apply t_group | apply t_table | apply t_aux_diag] | listed; obj_typed]).
Qed.

Lemma agent_typed id ver buf : triple ok (agent off1 off2 id ver buf) (kept (length buf)).
Proof. unfold agent. apply t_respond; [exact sizes_version|apply limbs_typed]. Qed.

(** When a run of the agent has a result, so that it stayed inside its
    arrays ([snmp_reqid_overrun] shows that it need not), the packet has its
    length, and the part number, the script line and the command line have
    theirs, for every object, the auxiliary tables and the netconsole
    included. *)
Theorem agent_keeps_types id ver buf w buf' size w' : sizes_ok w ->
  agent off1 off2 id ver buf w = Some ((buf', size), w') -> sizes_ok w' /\ length buf' = length buf.
Proof.
  intros Hw E. exact (agent_typed id ver buf w (buf', size) w' Hw E).
Qed.
End objects.

(** A SET of the part number and of an action, on the firmware of [Demo]. *)
Import Demo.
Lemma demo_call {A} (a : A) (Q : A -> Prop) : Q a -> triple (W := world) sizes_ok (fun w => Some (a, w)) Q.
Proof. intros Hq w r w' Hw [= <- <-]. done. Qed.
#[export] Instance demo_typed : SnmpEnvTyped world.
Proof.
  constructor; try (intros; by apply demo_call); try done.
  - listed; by apply demo_call.
  - split; by apply demo_call.
Qed.
Lemma demo_sizes : sizes_ok boot.
Proof. done. Qed.
Lemma agent_keeps_types_witness :
  let pn := [65; 66; 67] in let oid := oid_wrpcPtpConfigGroup ++ oid_wrpcPtpConfigSfpPn in
  let r := default ([], 0, boot) (agent 0 0 0 0 (padded SNMP_SET 1 [7] oid (ber ASN_OCTET_STR pn)) boot) in
  sizes_ok r.2 /\ length r.1.1 = 172%nat.
Proof.
  intros pn oid r. apply (agent_keeps_types 0 0 0 0 (padded SNMP_SET 1 [7] oid (ber ASN_OCTET_STR pn)) boot r.1.1 r.1.2 r.2 demo_sizes).
  vm_compute. reflexivity.
Defined.
